(* ===== verification/_CoqProject ===== *)
-Q . S2P
Prelude.v
Memory.v
Items.v
Packet.v
Writer.v
Tank.v
AntiDDoS.v
Game.v
GameFacts.v
Inventory.v
InventoryFacts.v
InventoryBag.v
InventoryTotal.v
Wallet.v
Calendar.v
Scanner.v
Dialogs.v
Dispatch.v
Messages.v
RewardConfig.v
DailyReward.v
DailyRewardFacts.v
ItemsDat.v
ItemsDatFacts.v
World.v
Texts.v
Guild.v
GuildFacts.v
Access.v
Trade.v
TradeFacts.v
Shop.v
ShopFacts.v
Vending.v
VendingFacts.v
BuyingMachine.v
BuyingFacts.v
Login.v
Area.v
AreaFacts.v
LockFacts.v
AreaLoop.v
Drops.v
DropsFacts.v
AltarFacts.v
GemDrops.v
Reach.v
ReachFacts.v
Suckers.v
SuckersFacts.v
