(* ===== verification/Prelude.v ===== *)
(** * Verification of the NopySource game server

    NopySource is a private server of a sandbox game: a C++ program that
    talks ENet to game clients ([src/NopySource.cpp] and the headers under
    [src/NopySource]).  A client connects (the anti-DDoS layer decides),
    sends text packets, game messages and tank packets (the dispatcher reads
    them and runs handlers), owns items (the inventory), trades them with
    other players, buys at machines for locks, answers dialogs, plays battles
    in a world with a game generator, and claims a reward once a day; the
    server answers with variant packets and tank packets.  The
    development models these parts and proves what makes them correct; where
    the code does not do what it means to, a theorem says what it does.

    ** Files, and the code they model

    - [Prelude] (this file): machine integers with their wrap-around ([u8],
      [i32], ...), little-endian bytes, C strings and the conversions of the
      standard library the code uses ([stoi], [atoi], [to_string],
      [getline]); the hint database [machine] and the tactic [wrap_simpl]
      that drop a wrap-around which cannot happen.
    - [Memory]: buffers with indeterminate bytes; a read or write outside a
      buffer is [None].
    - [Items]: the item table of [Handle/ItemDefination.h], as far as it is
      used.  The table is loaded from a data file and stays a parameter.
    - [Packet]: [gamepacket_t] of [Handle/PacketHandler.h], the packets that
      call a function of the client.
    - [Writer]: [BinaryWriter] and [BinaryWriter2] of the same file.
    - [Tank]: the 56-byte packets of [Handle/PlayerInfo.h] and
      [Handle/PacketHandler.h]: packing, unpacking, framing, validation.
    - [AntiDDoS]: [Handle/AntiDDoS.h]: the flood table, bans and their
      escalation, connection counts, the clean-up.
    - [Game], [GameFacts]: [Handle/GameGenerator.h]: the settings dialog,
      the battle state machine (start, respawn, score, leave, end), teams
      and winners, over the peers of the host.
    - [Inventory], [InventoryFacts]: [class Inventory] of
      [Handle/WorldInfo.h]: [Modify] with its clothing effects, the
      automatic conversion of locks and gems, the automatic sale of fish.
    - [InventoryBag]: what one [Modify] does to a bag at rest, in the form
      the trade and the shops use.  [InventoryTotal]: [Modify] returns.
    - [Wallet]: prices in world locks, paid with change: [GetTotalWL],
      [TakeWL], [get_wls], [get_wl_value] of [Handle/WorldInfo.h].
    - [Calendar]: the dates of [Handle/DailyReward/PlayerDailyData.h].
    - [Scanner]: [TextScanner] of [Handle/BaseServer.h].
    - [Dialogs]: the record of offered dialogs of [Handle/PacketHandler.h],
      the registry of [Dialog/dialog_return.h] and [Action::dialog_return].
    - [Dispatch]: the receive case of the main loop of [src/NopySource.cpp]
      with the registries of [Action/Action.h] and [Server/server_pool.h].
    - [Messages]: [CAction], [VarList] and [variants] of
      [Handle/PacketHandler.h], the grow pass tasks and the gem balance.
    - [RewardConfig], [DailyReward], [DailyRewardFacts]: the daily reward
      ([Handle/DailyReward/], [Handle/DailyReward.h] and the handler
      [dailyRewards] of [Dialog/dialog_return.h]).
    - [ItemsDat], [ItemsDatFacts]: the item file of the clients
      ([Handle/ItemsEncoder.cpp], and the reading of the records by
      [Serialize] of [Handle/BaseServer.h]).
    - [World]: finding and creating worlds ([Handle/WorldInfo.h]).
    - [Texts]: [explode], [get_embed] and [is_number] of
      [Handle/BaseServer.h].
    - [Guild], [GuildFacts]: guilds, from founding to leaving and being
      traded with their world ([Handle/GuildInfo.h], [transfer_world] of
      [Handle/WorldInfo.h], and the guild dialogs of
      [Dialog/dialog_return.h]).  [Access]: roles, and who may change a block
      of a world ([Handle/WorldInfo.h]).
    - [Trade], [TradeFacts]: the exchange of items between two players, from
      its dialogs and actions to the hand-over ([Handle/WorldInfo.h],
      [Dialog/dialog_return.h], [Action/Action.h]).
    - [Shop], [ShopFacts]: the machines that sell for locks, [LockBot] and
      [Nutcracker] of [Dialog/dialog_return.h].
    - [Vending], [VendingFacts]: vending machines, from stocking to the sale,
      with what their dialogs show ([Handle/WorldInfo.h],
      [Handle/DialogReturn.h]).  [BuyingMachine], [BuyingFacts]: the machines
      that buy from players ([Dialog/dialog_return.h]).
    - [Login]: what a client sends when it logs in, and the decoding of its
      tokens ([Handle/LoginHandler.h]).
    - [Area], [AreaFacts], [LockFacts], [AreaLoop]: locks and the blocks they
      protect: the search [lock_tiles], placing, breaking and re-applying a
      lock, and the message about it ([Handle/WorldInfo.h],
      [Handle/DialogReturn.h]).  [AreaFacts] has the walks over neighbours
      and the search, [LockFacts] the operations, [AreaLoop] a search that
      does not end.
    - [Drops], [DropsFacts], [AltarFacts], [GemDrops]: items on the ground:
      [Drop] with its stacks and gems, the reward [gems_], collecting,
      dropping and destroying, and the altar of the Halloween event, where
      dropped items become prizes ([Handle/WorldInfo.h],
      [Server/server_pool.h], [Action/Action.h], [Handle/DialogReturn.h],
      [Dialog/dialog_return.h]).
    - [Reach], [ReachFacts]: the searches of a way that a player can walk
      ([patchPath], [patchNoClip]) and of the end of a steam tunnel
      ([track_steam]), the check of a move and the steam funnels
      ([Handle/WorldInfo.h], [Server/server_pool.h]).
    - [Suckers], [SuckersFacts]: the machines that collect falling items
      ([use_mag]), their dialogs, their remotes and their breaking
      ([Handle/WorldInfo.h], [Handle/DialogReturn.h]).

    Each file holds one [Module] of its own name.  A class or a group of
    globals becomes a [Record]; an operation becomes a function from the
    state (and the clock, the random choice or the peer it reads) to the new
    state and a list of effects, one constructor per call into a part that
    is not modelled.  [option] stands for what C++ leaves undefined or for
    an exception that leaves the function: a theorem that ends in [Some]
    says that neither happens.  Definitions keep the names of the source;
    they are executable, and the examples and witnesses run them.

    ** How the components meet

    [Inventory.Modify] is recursive through the automatic features it calls;
    the recursion is open ([modify_fn]) and closed with fuel: three levels
    are enough, since each nested call runs behind one more processing flag.
    [DailyReward] takes the inventory through the class [ItemGiver] - an
    item is given in full or not at all - of which [Inventory_gives] is the
    instance for [Inventory.Modify].  [Trade] and [Wallet] move items with
    [Modify], [Shop] with [Modify] and [get_wls]; their theorems use the
    lemmas of [InventoryBag], never the body of [Modify].  [Access] decides
    with [Guild.guild_access] over the worlds of [World].  [Vending] and [BuyingMachine] work on
    the blocks of [World], check the player with [Access] and move items with
    [Modify] and [get_wls]; [Area] shares their visitor and the blocks.
    [Drops] moves items between the bags ([Modify]) and the drops of a
    [World], with the clock's sweep of old drops.  [Reach] searches with
    [Area.visit], asks [Guild.guild_access] at gateways, and pays the prize
    of a storage with [Drops.Drop].  [Suckers] keeps the list of machines of
    a world in step with its blocks, moves items with [Modify] between bags
    and blocks, and takes the drops of [Drops] before they fall.
    [Messages] records the dialogs it sends with [Dialogs.track_pending_dialog]; [Dispatch] reads tank packets
    with [Tank] and texts with [Scanner].

    ** What the theorems show

    A bag is settled when it is well formed (each stack 1 to 200, no item
    twice) and infinite mode and the automatic conversions and sales are off;
    with them on, [Modify] does more than it is asked, see [Inventory].

    - Inventory: the conversions never create or destroy value
      ([AutoConvert_conserves]); adding or taking items changes exactly one
      count and keeps the bag well formed ([Modify_bag]); every call
      returns, whatever the automatic features are set to
      ([Modify_returns]); what a sale of fish pays ([payout_total], with the
      lock kind that is not paid).
    - Trade: no item is created or lost while counts are positive
      ([trade_conserves]), a confirmation gives each side what was offered
      or nothing ([confirm_settles]), offers stay well formed
      ([offers_always_wf]); and the ways around it ([negative_offer],
      [unpaid_trade], [accept_without_items]).
    - Wallet and shops: change is exact, in the bag or the bank
      ([get_wls_pays], and [TakeWL_pays] as long as there are slots); a
      purchase costs its price or does nothing ([lockbot_sale]); which price
      and currency are believed ([nutcracker_sale],
      [lockbot_other_currency]).
    - Vending and buying machines: no item is created or lost by any request
      at a vending machine that does not buy ([vending_conserves]); a sale moves the goods
      and the price the buyer saw, or nothing ([vend_buy_exact]); what a
      buying machine pays ([buying_machine_pays]); and how the mode and the
      goods of a machine with stock change ([stock_becomes_items],
      [goods_change_kind]).
    - Locks: along any sequence of placing, breaking and re-applying outside
      of the first and the last column, a locked block is connected with a
      lock that stands ([areas_always_ok]), and what a lock at the edge does
      instead ([lock_over_the_edge]); breaking frees exactly the area
      ([broken_lock_frees]); placing locks only free, connected blocks, at
      most as many as the lock is big ([placed_lock_area]); the message
      tells the exact area ([upd_lock_announces]); and the search that runs
      without end ([lock_never_placed]).
    - Dropped items: no sequence of drops, collections and destructions
      creates an item ([items_never_created]), except at the altar, whose
      exchanges are those of its tables ([altar_exchanges]); collecting is
      exact ([collecting_moves]); a reward of gems is worth its amount
      ([gems_on_clear_ground]), but gems that merge are not always
      ([gems_from_nothing]).
    - Ways: [patchPath] finds a way exactly if there is one ([path_found]);
      a move is judged by its end alone ([move_from_anywhere]); steam comes
      out at a connector that the tunnels lead to ([steam_connected]); and a
      storage explodes before it holds much ([storage_stays_low]).
    - Machines that collect: along any run of requests, punches, breakings
      and drops the machines stay in order and account for every item
      ([suckers_always_ok], [use_mag_stores]); what a player gets out
      ([retrieved_amount]); and the request that makes items
      ([items_from_nothing]).
    - Guilds: every sequence of dialogs, and of trades by the owner with room
      in the guild, keeps each guild with one leader, within its capacity,
      and every player with a guild on its list ([guilds_always_ok]); the
      trade that does not ([transfer_over_capacity]); rank protects ([rank_protects]); what leaving
      does ([leaving_guild]).  Access: the decision is a list of reasons
      ([block_access_spec], [flags_restrict]).
    - Items file: what the encoder writes, the reader reads
      ([items_dat_round_trip]).  Login: the base64 coding
      ([base64_round_trip]).  Worlds: [find_world_transparent],
      [create_world_shape].
    - Daily reward: no local day pays twice along any history of requests
      ([one_reward_a_day]); an absence has the effect of a closed form
      ([SkipMissedReward_spec], and [missed_day_30] for the day it gets
      wrong); a claim pays exactly the reward of the day or nothing
      ([ClaimReward_pays]); saved state and configuration
      ([daily_json_round_trip], [config_reload]);
      dates are counted exactly ([DaysElapsed_counts_midnights], through the
      Julian day numbers of the Gregorian calendar).
    - Anti-DDoS: the rate a flooding address is held to
      ([flood_rate_bound]), the invariant of all reachable states, bans that
      hold, the clean-up that keeps them, connection counts.
    - Games: every sequence of operations keeps the battle state well formed
      and inside its vectors ([game_always_safe]); teams, winners, leaving,
      the settings dialog.
    - Wire formats: built packets have the bytes of the format;
      tank packets unpack to what was packed; writers append what is
      written; validation accepts exactly the announced lengths.
    - Dispatcher: no packet of any content makes the server read outside it
      ([receive_safe]); the flood of game packets is bounded
      ([tank_flood_bounded]); the limit on text packets never acts
      ([text_spam_never_flagged]).
    - Dialogs: the gate that should let only answers to offered dialogs
      through drops exactly those of the last minute
      ([dialog_gate_inverted]).
    - Scanner: records are read back ([scanner_reads_records],
      [scanner_set_then_get]).  Messages: the ledger of gems
      ([gems_ledger]).

    ** Bounds and parameters

    The loop of conversion passes keeps the bound of the source, 512; the
    loops inside a pass get 512 steps, and since a stack holds at most 200
    items they end before ([AutoConvert_conserves] and [Modify_returns]
    prove that the conversion returns).  The loop that pays the fish is given one step
    per 200 items and the rest, which is what it needs.  A walk over the
    blocks of an area gets two steps more than there are blocks, and finds a
    block at most once ([AreaFacts.walk_some]); the searches of [Reach] get the
    same ([ReachFacts.seek_total]).  The fuel of the search in
    [lock_tiles] is an argument, since the search may not end: what
    is proved of an area holds whenever the search returns.  The other recursive
    definitions are structural.  Floats are 32-bit patterns; the conversion
    of an [int] to a [float] and the multiplication of an [int] with a
    [double] are parameters.  [atoi] of a number that does not fit is what
    glibc does; the standard leaves it undefined.  The clock is an argument of
    every operation that reads it, once; the time zone is a function from
    the timestamp to the offset from UTC.  The item table, the prices of
    fish, the random choices and JSON files (as parsed values) are
    parameters or arguments.

    ** Not modelled

    Of [Handle/WorldInfo.h]: editing tiles other than locks, building with
    the remote of a machine, the other world machines and levels, the other
    settings of a lock and the breaking of a world lock.  The bodies of the
    other commands and of the other dialog, action and tank handlers: they
    are independent of each other, and mostly texts.  The guild information dialogs, the name change of a
    guild, and the text and colour utilities.  Sockets, threads, files, the console and the
    vendored libraries are outside. *)
From Stdlib Require Export ZArith Lia Bool Ascii.
From stdpp Require Export base decidable list gmap strings pretty option.

#[global] Open Scope Z_scope.

(** ** Machine integers

    C++ integers are [Z]; every place where the code stores into a w-bit
    object writes the wrap-around out with [uwrap] (unsigned) or [swrap]
    (two's complement). *)

Definition uwrap (w : Z) (z : Z) : Z := z mod 2 ^ w.

Definition swrap (w : Z) (z : Z) : Z := (z + 2 ^ (w - 1)) mod 2 ^ w - 2 ^ (w - 1).

Abbreviation u8 := (uwrap 8).
Abbreviation u16 := (uwrap 16).
Abbreviation u32 := (uwrap 32).
Abbreviation u64 := (uwrap 64).
Abbreviation i8 := (swrap 8).
Abbreviation i32 := (swrap 32).
Abbreviation i64 := (swrap 64).

Definition in_i32 (z : Z) : Prop := - 2 ^ 31 <= z < 2 ^ 31.

Create HintDb machine.
Create Rewrite HintDb machine.

Lemma uwrap_range w z : 0 <= w -> 0 <= uwrap w z < 2 ^ w.
Proof. intros. apply Z.mod_pos_bound. apply Z.pow_pos_nonneg; lia. Qed.

Lemma uwrap_small w z : 0 <= z < 2 ^ w -> uwrap w z = z.
Proof. intros. apply Z.mod_small. lia. Qed.

Lemma uwrap_idem w z : uwrap w (uwrap w z) = uwrap w z.
Proof. apply Zmod_mod. Qed.

Lemma swrap_small w z : 0 < w -> - 2 ^ (w - 1) <= z < 2 ^ (w - 1) -> swrap w z = z.
Proof.
  intros Hw Hz. unfold swrap.
  assert (2 ^ w = 2 * 2 ^ (w - 1)) as E.
  { rewrite <- Z.pow_succ_r by lia. f_equal. lia. }
  rewrite Z.mod_small by lia. lia.
Qed.

Lemma swrap_range w z : 0 < w -> - 2 ^ (w - 1) <= swrap w z < 2 ^ (w - 1).
Proof.
  intros Hw. unfold swrap.
  assert (2 ^ w = 2 * 2 ^ (w - 1)) as E.
  { rewrite <- Z.pow_succ_r by lia. f_equal. lia. }
  assert (0 < 2 ^ (w - 1)) by (apply Z.pow_pos_nonneg; lia).
  pose proof (Z.mod_pos_bound (z + 2 ^ (w - 1)) (2 ^ w)). lia.
Qed.

Lemma i32_small z : - 2147483648 <= z < 2147483648 -> i32 z = z.
Proof. intros. apply swrap_small; lia. Qed.

Lemma i32_range z : - 2147483648 <= i32 z < 2147483648.
Proof. pose proof (swrap_range 32 z). lia. Qed.

Lemma i64_small z : - 9223372036854775808 <= z < 9223372036854775808 -> i64 z = z.
Proof. intros. apply swrap_small; lia. Qed.

Lemma i8_small z : - 128 <= z < 128 -> i8 z = z.
Proof. intros. apply swrap_small; lia. Qed.

Lemma i8_range z : - 128 <= i8 z < 128.
Proof. pose proof (swrap_range 8 z). lia. Qed.

Lemma u8_range z : 0 <= u8 z < 256.
Proof. pose proof (uwrap_range 8 z). lia. Qed.

Lemma u8_small z : 0 <= z < 256 -> u8 z = z.
Proof. intros. apply uwrap_small; lia. Qed.

Lemma u32_range z : 0 <= u32 z < 4294967296.
Proof. pose proof (uwrap_range 32 z). lia. Qed.

Lemma u32_small z : 0 <= z < 4294967296 -> u32 z = z.
Proof. intros. apply uwrap_small; lia. Qed.

#[export] Hint Resolve u8_range u32_range i8_range i32_range : machine.
#[export] Hint Rewrite i32_small i64_small i8_small u8_small u32_small using lia : machine.

(** Drop every wrap-around whose argument [lia] can bound. *)
Ltac wrap_simpl := autorewrite with machine in *.

(** [std::clamp<T>(x, lo, hi)]. *)
Definition clamp (x lo hi : Z) : Z :=
  if x <? lo then lo else if hi <? x then hi else x.

Lemma clamp_range x lo hi : lo <= hi -> lo <= clamp x lo hi <= hi.
Proof. unfold clamp. repeat case_match; lia. Qed.

Lemma clamp_id x lo hi : lo <= x <= hi -> clamp x lo hi = x.
Proof. unfold clamp. repeat case_match; lia. Qed.

(** ** Bytes

    A byte is a [Z] between 0 and 255; a C++ object of [n] bytes is read and
    written little-endian, as the x86 targets of the server do with
    [memcpy]. *)

Definition is_byte (b : Z) : Prop := 0 <= b < 256.

Fixpoint le_encode (n : nat) (z : Z) : list Z :=
  match n with
  | O => []
  | S n => z mod 256 :: le_encode n (z / 256)
  end.

Fixpoint le_decode (bs : list Z) : Z :=
  match bs with
  | [] => 0
  | b :: bs => b + 256 * le_decode bs
  end.

Lemma le_encode_length n z : length (le_encode n z) = n.
Proof. revert z. induction n; intros; simpl; [done|by rewrite IHn]. Qed.

Lemma le_encode_bytes n z : Forall is_byte (le_encode n z).
Proof.
  revert z. induction n; intros; simpl; constructor; [|done].
  unfold is_byte. pose proof (Z.mod_pos_bound z 256). lia.
Qed.

Lemma le_decode_encode n z : le_decode (le_encode n z) = z mod 256 ^ Z.of_nat n.
Proof.
  revert z. induction n as [|n IH]; intros z.
  { simpl. by rewrite Z.mod_1_r. }
  cbn [le_encode le_decode]. rewrite IH, Nat2Z.inj_succ, Z.pow_succ_r by lia.
  rewrite Z.rem_mul_r; [lia|lia|apply Z.pow_pos_nonneg; lia].
Qed.

Lemma le_encode_decode bs : Forall is_byte bs -> le_encode (length bs) (le_decode bs) = bs.
Proof.
  induction 1 as [|b bs Hb _ IH]; simpl; [done|]. unfold is_byte in Hb.
  replace (b + 256 * le_decode bs) with (b + le_decode bs * 256) by lia.
  rewrite Z.mod_add, Z.div_add, Z.mod_small, Z.div_small by lia.
  by rewrite Z.add_0_l, IH.
Qed.

Lemma le_decode_range bs :
  Forall is_byte bs -> 0 <= le_decode bs < 256 ^ Z.of_nat (length bs).
Proof.
  induction 1 as [|b bs Hb _ IH]; [simpl; lia|].
  cbn [le_decode length]. rewrite Nat2Z.inj_succ, Z.pow_succ_r by lia.
  unfold is_byte in Hb. lia.
Qed.

Lemma le_decode_encode_small n z :
  0 <= z < 256 ^ Z.of_nat n -> le_decode (le_encode n z) = z.
Proof. intros. rewrite le_decode_encode. by apply Z.mod_small. Qed.

(** [k] bytes of [bs] from offset [o]; [None] where the code would read
    past the end of the buffer. *)
Definition read_at (bs : list Z) (o k : nat) : option (list Z) :=
  if (o + k <=? length bs)%nat then Some (take k (drop o bs)) else None.

Lemma read_at_Some bs o k r :
  read_at bs o k = Some r -> (o + k <= length bs)%nat /\ r = take k (drop o bs).
Proof. unfold read_at. destruct (Nat.leb_spec (o + k) (length bs)); naive_solver. Qed.

Lemma read_at_length bs o k r : read_at bs o k = Some r -> length r = k.
Proof. intros [H ->]%read_at_Some. rewrite length_take, length_drop. lia. Qed.

Lemma read_at_app bs1 x bs2 o k :
  o = length bs1 -> k = length x -> read_at (bs1 ++ x ++ bs2) o k = Some x.
Proof.
  intros -> ->. unfold read_at. rewrite !length_app.
  destruct (Nat.leb_spec (length bs1 + length x)
    (length bs1 + (length x + length bs2))); [|lia].
  by rewrite drop_app_length, take_app_length.
Qed.

(** ** Characters and strings *)

Definition char_code (c : ascii) : Z := Z.of_N (N_of_ascii c).

Definition char_of (z : Z) : ascii := ascii_of_N (Z.to_N (z mod 256)).

Lemma char_code_range c : 0 <= char_code c < 256.
Proof.
  unfold char_code. pose proof (N_ascii_bounded c). lia.
Qed.

Lemma char_of_code c : char_of (char_code c) = c.
Proof.
  unfold char_of. pose proof (char_code_range c). rewrite Z.mod_small by lia.
  unfold char_code. by rewrite N2Z.id, ascii_N_embedding.
Qed.

Lemma char_code_of z : 0 <= z < 256 -> char_code (char_of z) = z.
Proof.
  intros H. unfold char_of, char_code. rewrite Z.mod_small by lia.
  rewrite N_ascii_embedding by lia. lia.
Qed.

Fixpoint str_bytes (s : string) : list Z :=
  match s with
  | EmptyString => []
  | String c s => char_code c :: str_bytes s
  end.

Fixpoint bytes_str (bs : list Z) : string :=
  match bs with
  | [] => EmptyString
  | b :: bs => String (char_of b) (bytes_str bs)
  end.

Lemma bytes_str_bytes s : bytes_str (str_bytes s) = s.
Proof. induction s as [|c s IH]; simpl; [done|]. by rewrite char_of_code, IH. Qed.

Lemma str_bytes_str bs : Forall is_byte bs -> str_bytes (bytes_str bs) = bs.
Proof.
  induction 1 as [|b bs Hb _ IH]; simpl; [done|]. rewrite char_code_of by done. by rewrite IH.
Qed.

Lemma str_bytes_length s : length (str_bytes s) = String.length s.
Proof. induction s; simpl; congruence. Qed.

Lemma str_bytes_Forall s : Forall is_byte (str_bytes s).
Proof. induction s; simpl; constructor; [apply char_code_range|done]. Qed.

Definition nl : ascii := char_of 10.
Definition tab : ascii := char_of 9.
Definition quote : ascii := char_of 34.
Definition str1 (c : ascii) : string := String c EmptyString.
Definition endl : string := str1 nl.

Definition slen (s : string) : Z := Z.of_nat (String.length s).

Definition is_digit (c : ascii) : bool := (48 <=? char_code c) && (char_code c <=? 57).

(** [isspace] in the C locale. *)
Definition is_space (c : ascii) : bool :=
  (char_code c =? 32) || ((9 <=? char_code c) && (char_code c <=? 13)).

(** [tolower]/[toupper] in the C locale. *)
Definition tolower (c : ascii) : ascii :=
  if (65 <=? char_code c) && (char_code c <=? 90) then char_of (char_code c + 32) else c.
Definition toupper (c : ascii) : ascii :=
  if (97 <=? char_code c) && (char_code c <=? 122) then char_of (char_code c - 32) else c.

Fixpoint map_string (f : ascii -> ascii) (s : string) : string :=
  match s with
  | EmptyString => EmptyString
  | String c s => String (f c) (map_string f s)
  end.

(** The pieces of [s] between the occurrences of [c]: one more than the
    number of occurrences. *)
Fixpoint split_on (c : ascii) (s : string) : list string :=
  match s with
  | EmptyString => [EmptyString]
  | String d s' =>
      if Ascii.eqb d c then EmptyString :: split_on c s'
      else match split_on c s' with
           | p :: ps => String d p :: ps
           | [] => [str1 d]
           end
  end.

Fixpoint join_with (c : ascii) (ps : list string) : string :=
  match ps with
  | [] => EmptyString
  | [p] => p
  | p :: ps => p +:+ String c (join_with c ps)
  end.

Lemma split_on_not_nil c s : split_on c s <> [].
Proof. induction s as [|d s IH]; simpl; [done|]. by repeat case_match. Qed.

Lemma join_split c s : join_with c (split_on c s) = s.
Proof.
  induction s as [|d s IH]; simpl; [done|]. pose proof (split_on_not_nil c s).
  destruct (split_on c s) as [|p ps] eqn:E; [done|].
  destruct (Ascii.eqb_spec d c) as [->|]; simpl.
  - by rewrite <- IH.
  - rewrite <- IH. by destruct ps.
Qed.

(** [std::getline] until the stream fails: the piece after the last
    separator is not produced when it is empty. *)
Definition getlines (c : ascii) (s : string) : list string :=
  let ps := split_on c s in
  match List.last ps EmptyString with
  | EmptyString => removelast ps
  | _ => ps
  end.

(** The leading digits of [s], as a number. *)
Fixpoint digits_value (acc : Z) (s : string) : Z :=
  match s with
  | EmptyString => acc
  | String c s => if is_digit c then digits_value (10 * acc + (char_code c - 48)) s else acc
  end.

Fixpoint drop_spaces (s : string) : string :=
  match s with
  | String c s' => if is_space c then drop_spaces s' else s
  | EmptyString => s
  end.

Definition starts_digit (s : string) : bool :=
  match s with String c _ => is_digit c | EmptyString => false end.

(** [strtol] base 10 before its range check: [None] when no digit follows
    the white space and the optional sign. *)
Definition strtol (s : string) : option Z :=
  match drop_spaces s with
  | String c s' as s0 =>
      if char_code c =? 45 then
        if starts_digit s' then Some (- digits_value 0 s') else None
      else if char_code c =? 43 then
        if starts_digit s' then Some (digits_value 0 s') else None
      else if is_digit c then Some (digits_value 0 s0) else None
  | EmptyString => None
  end.

(** [std::stoi]: [None] where it throws. *)
Definition stoi (s : string) : option Z :=
  match strtol s with
  | Some z => if (- 2147483648 <=? z) && (z <=? 2147483647) then Some z else None
  | None => None
  end.

Lemma stoi_range s z : stoi s = Some z -> - 2147483648 <= z <= 2147483647.
Proof. unfold stoi. repeat case_match; intros; simplify_eq; lia. Qed.

(** [atoi]: 0 when there is no number; the [long] of [strtol], which
    saturates, cut to 32 bits.  This is what glibc does; the standard leaves
    a number that does not fit undefined. *)
Definition atoi (s : string) : Z :=
  match strtol s with
  | Some z => i32 (clamp z (- 2 ^ 63) (2 ^ 63 - 1))
  | None => 0
  end.

Definition to_string (z : Z) : string := pretty z.

(** [{:02}] of [std::format]. *)
Definition pad2 (z : Z) : string :=
  if (0 <=? z) && (z <? 10) then String (char_of 48) (to_string z) else to_string z.

(** Concatenation of the pieces a function appends to a string. *)
Fixpoint cat (ps : list string) : string :=
  match ps with
  | [] => EmptyString
  | p :: ps => p +:+ cat ps
  end.

(** [string::find(s, 0) == 0] and the prefix tests written with [rfind]. *)
Fixpoint starts_with (p s : string) : bool :=
  match p, s with
  | EmptyString, _ => true
  | String a p, String b s => Ascii.eqb a b && starts_with p s
  | _, _ => false
  end.

(** [s.find(p) != npos]. *)
Fixpoint str_contains (p s : string) : bool :=
  starts_with p s || match s with EmptyString => false | String _ s => str_contains p s end.

Fixpoint drop_str (n : nat) (s : string) : string :=
  match n, s with
  | S n, String _ s => drop_str n s
  | _, _ => s
  end.

Fixpoint take_str (n : nat) (s : string) : string :=
  match n, s with
  | S n, String c s => String c (take_str n s)
  | _, _ => EmptyString
  end.

(** The characters before the first [c]. *)
Fixpoint before (c : ascii) (s : string) : string :=
  match s with
  | EmptyString => EmptyString
  | String d s => if Ascii.eqb d c then EmptyString else String d (before c s)
  end.

(** Drop the characters satisfying [f] from the front, from the back. *)
Fixpoint trim_front (f : ascii -> bool) (s : string) : string :=
  match s with
  | String c s' => if f c then trim_front f s' else s
  | EmptyString => EmptyString
  end.

Fixpoint trim_back (f : ascii -> bool) (s : string) : string :=
  match s with
  | String c s' =>
      match trim_back f s' with
      | EmptyString => if f c then EmptyString else str1 c
      | t => String c t
      end
  | EmptyString => EmptyString
  end.

Definition is_empty (s : string) : bool :=
  match s with EmptyString => true | _ => false end.

(** [{:d}] of a [bool]. *)
Definition bool_digit (b : bool) : string := if b then "1" else "0".

Example to_string_examples :
  (to_string 0, to_string (-15), pad2 7, stoi " 12x"%string, stoi "-3"%string, stoi "x"%string,
   getlines nl (String nl "a"%string))
  = ("0"%string, "-15"%string, "07"%string, Some 12, Some (-3), None, [""%string; "a"%string]).
Proof. by vm_compute. Qed.

(** ** Decimal numbers read back what they print *)

Fixpoint all_chars (f : ascii -> bool) (s : string) : bool :=
  match s with
  | EmptyString => true
  | String c s => f c && all_chars f s
  end.

Definition num_char (c : ascii) : bool := is_digit c || (char_code c =? 45).

Lemma pretty_N_char_code n : (n < 10)%N -> char_code (pretty_N_char n) = 48 + Z.of_N n.
Proof.
  intros H. destruct n as [|p]; [reflexivity|].
  do 4 (try destruct p as [p|p|]; try reflexivity; try lia).
Qed.

Lemma pretty_N_char_digit n : (n < 10)%N -> is_digit (pretty_N_char n) = true.
Proof. intros H. unfold is_digit. rewrite pretty_N_char_code by done. lia. Qed.

(** Printing [x] in front of [s] and reading it back leaves [s] to read. *)
Lemma digits_value_go x : forall s,
  digits_value 0 (pretty_N_go x s) = digits_value (Z.of_N x) s.
Proof.
  induction (N.lt_wf_0 x) as [x _ IH]; intros s.
  assert (x = 0 \/ 0 < x)%N as [->|Hx] by lia; [by rewrite pretty_N_go_0|].
  rewrite pretty_N_go_step by done. rewrite IH by (by apply N.div_lt). simpl.
  pose proof (N.mod_lt x 10). rewrite pretty_N_char_digit by lia.
  rewrite pretty_N_char_code by lia. f_equal.
  pose proof (N.div_mod x 10). lia.
Qed.

Lemma starts_digit_go x : forall s,
  (0 < x)%N \/ starts_digit s = true -> starts_digit (pretty_N_go x s) = true.
Proof.
  induction (N.lt_wf_0 x) as [x _ IH]; intros s H.
  assert (x = 0 \/ 0 < x)%N as [->|Hx] by lia.
  { rewrite pretty_N_go_0. destruct H; [lia|done]. }
  rewrite pretty_N_go_step by done. apply IH; [by apply N.div_lt|]. right. simpl.
  apply pretty_N_char_digit. pose proof (N.mod_lt x 10). lia.
Qed.

Lemma all_chars_go f x : forall s,
  (forall n, (n < 10)%N -> f (pretty_N_char n) = true) ->
  all_chars f s = true -> all_chars f (pretty_N_go x s) = true.
Proof.
  induction (N.lt_wf_0 x) as [x _ IH]; intros s Hf Hs.
  assert (x = 0 \/ 0 < x)%N as [->|Hx] by lia; [by rewrite pretty_N_go_0|].
  rewrite pretty_N_go_step by done. apply IH; [by apply N.div_lt|done|]. simpl.
  rewrite Hs, Hf; [done|]. pose proof (N.mod_lt x 10). lia.
Qed.

Lemma pretty_pos x : @pretty N _ (N.pos x) = pretty_N_go (N.pos x) EmptyString.
Proof. unfold pretty, pretty_N. by case_decide. Qed.

Lemma to_string_chars z : all_chars num_char (to_string z) = true.
Proof.
  assert (forall n, (n < 10)%N -> num_char (pretty_N_char n) = true) as Hd.
  { intros n Hn. unfold num_char. by rewrite pretty_N_char_digit. }
  unfold to_string, pretty, pretty_Z. destruct z as [|x|x]; [done|..];
    change (@pretty positive _ x) with (@pretty N _ (N.pos x)); rewrite pretty_pos.
  - by apply all_chars_go.
  - simpl. by apply all_chars_go.
Qed.

Lemma digit_not_space c : is_digit c = true -> is_space c = false.
Proof. unfold is_digit, is_space. lia. Qed.

Lemma strtol_to_string z : strtol (to_string z) = Some z.
Proof.
  unfold to_string, pretty, pretty_Z. destruct z as [|x|x]; [done|..];
    change (@pretty positive _ x) with (@pretty N _ (N.pos x)); rewrite pretty_pos;
    pose proof (digits_value_go (N.pos x) EmptyString) as Hv; cbn [digits_value] in Hv;
    pose proof (starts_digit_go (N.pos x) EmptyString ltac:(left; lia)) as Hs.
  - destruct (pretty_N_go (N.pos x) EmptyString) as [|c s] eqn:E; [done|]. simpl in Hs.
    unfold strtol. simpl drop_spaces. rewrite digit_not_space by done.
    unfold is_digit in Hs.
    destruct (Z.eqb_spec (char_code c) 45); [lia|].
    destruct (Z.eqb_spec (char_code c) 43); [lia|].
    unfold is_digit at 1. rewrite Hs, Hv. done.
  - set (t := pretty_N_go (N.pos x) EmptyString) in *.
    change ((if starts_digit t then Some (- digits_value 0 t) else None) = Some (Z.neg x)).
    by rewrite Hs, Hv.
Qed.

Lemma stoi_to_string z : in_i32 z -> stoi (to_string z) = Some z.
Proof.
  unfold in_i32. intros Hz. unfold stoi. rewrite strtol_to_string.
  destruct (Z.leb_spec (-2147483648) z), (Z.leb_spec z 2147483647); simpl; lia || done.
Qed.

Lemma atoi_range s : in_i32 (atoi s).
Proof. unfold in_i32, atoi. destruct (strtol s); [apply i32_range|lia]. Qed.

Lemma atoi_to_string z : in_i32 z -> atoi (to_string z) = z.
Proof.
  unfold in_i32. intros Hz. unfold atoi. rewrite strtol_to_string, clamp_id by lia.
  apply i32_small. lia.
Qed.

(** ** Splitting what was joined *)

Lemma split_on_plain c s :
  all_chars (λ d, negb (Ascii.eqb d c)) s = true -> split_on c s = [s].
Proof.
  induction s as [|d s IH]; simpl; [done|]. intros [Hd Hs]%andb_true_iff.
  rewrite IH by done. by destruct (Ascii.eqb d c).
Qed.

Lemma split_on_app c s t :
  all_chars (λ d, negb (Ascii.eqb d c)) s = true ->
  split_on c (s +:+ String c t) = s :: split_on c t.
Proof.
  induction s as [|d s IH]; simpl; intros Hs; [by rewrite Ascii.eqb_refl|].
  apply andb_true_iff in Hs as [Hd Hs]. rewrite IH by done.
  by destruct (Ascii.eqb d c).
Qed.

Lemma all_chars_app f s t : all_chars f (s +:+ t) = all_chars f s && all_chars f t.
Proof. induction s as [|c s IH]; simpl; [done|]. by rewrite IH, andb_assoc. Qed.

Lemma all_chars_impl (f g : ascii -> bool) s :
  (forall c, f c = true -> g c = true) -> all_chars f s = true -> all_chars g s = true.
Proof.
  intros H. induction s as [|c s IH]; simpl; [done|].
  intros [Hc Hs]%andb_true_iff. by rewrite H, IH.
Qed.

(** Numbers hold none of the separators of the text formats. *)
Lemma to_string_no_sep c z :
  num_char c = false -> all_chars (λ d, negb (Ascii.eqb d c)) (to_string z) = true.
Proof.
  intros Hc. eapply all_chars_impl; [|apply to_string_chars]. intros d Hd.
  destruct (Ascii.eqb_spec d c); [congruence|done].
Qed.

Lemma str_app_assoc (s t u : string) : s +:+ (t +:+ u) = (s +:+ t) +:+ u.
Proof.
  induction s as [|c s IH]; [done|].
  change (String c (s +:+ (t +:+ u)) = String c ((s +:+ t) +:+ u)). by rewrite IH.
Qed.

Lemma str_app_nil (s : string) : s +:+ EmptyString = s.
Proof.
  induction s as [|c s IH]; [done|]. change (String c (s +:+ EmptyString) = String c s).
  by rewrite IH.
Qed.

(** ** Lists *)

Lemma Forall_filter_keep {A} (P Q : A -> Prop) `{!forall x, Decision (Q x)} (l : list A) :
  Forall P l -> Forall P (filter Q l).
Proof.
  rewrite !list.Forall_forall. intros HP x [_ Hx]%list_elem_of_filter. by apply HP.
Qed.

Lemma NoDup_fmap_filter {A B} (f : A -> B) (Q : A -> Prop) `{!forall x, Decision (Q x)}
    (l : list A) :
  base.NoDup (f <$> l) -> base.NoDup (f <$> filter Q l).
Proof.
  induction l as [|x l IH]; [done|]. rewrite filter_cons. cbn [fmap list_fmap].
  intros [Hx Hl]%list.NoDup_cons. case_decide; cbn [fmap list_fmap]; [|by apply IH].
  apply list.NoDup_cons. split; [|by apply IH]. intros Hin. apply Hx.
  apply list_elem_of_fmap in Hin as (y & -> & [_ Hy]%list_elem_of_filter).
  apply list_elem_of_fmap. by exists y.
Qed.

(** ** Bounds of bitwise operations *)

Lemma lor_bound a b n : 0 <= n -> 0 <= a < 2 ^ n -> 0 <= b < 2 ^ n -> 0 <= Z.lor a b < 2 ^ n.
Proof.
  intros Hn Ha Hb. split; [apply Z.lor_nonneg; lia|].
  assert (forall z, 0 <= z < 2 ^ n -> Z.land z (Z.ones n) = z) as E.
  { intros z Hz. rewrite Z.land_ones by done. by apply Z.mod_small. }
  rewrite <- (E a), <- (E b), <- Z.land_lor_distr_l by done.
  rewrite Z.land_ones by done. apply Z.mod_pos_bound. lia.
Qed.

Lemma land_bound a b n : 0 <= n -> 0 <= a < 2 ^ n -> 0 <= Z.land a b < 2 ^ n.
Proof.
  intros Hn Ha. assert (Z.land a (Z.ones n) = a) as E.
  { rewrite Z.land_ones by done. by apply Z.mod_small. }
  rewrite <- E, <- Z.land_assoc, (Z.land_comm _ b), Z.land_assoc, Z.land_ones by done.
  apply Z.mod_pos_bound. lia.
Qed.
