(* ===== verification/Memory.v ===== *)
(** * Memory: buffers with indeterminate bytes

    The packet code fills buffers obtained from [new], [malloc] and
    [enet_packet_create] with [memcpy] at fixed offsets.  A buffer is a list
    of cells, [None] for a byte that was never written; a write or a read
    outside the buffer, which C++ leaves undefined, is [None] of the option
    monad, so that a definition that returns [Some] never leaves its
    buffer. *)
From S2P Require Import Prelude.

Module Memory.

Definition mem := list (option Z).

(** [new BYTE[n]], [malloc(n)]: indeterminate bytes. *)
Definition alloc (n : nat) : mem := replicate n None.

(** [memset(p, 0, n)] on a fresh buffer. *)
Definition zalloc (n : nat) : mem := replicate n (Some 0).

(** [memcpy] of cells, indeterminate ones included. *)
Definition store_cells (m : mem) (o : nat) (cs : mem) : option mem :=
  if (o + length cs <=? length m)%nat
  then Some (take o m ++ cs ++ drop (o + length cs) m)
  else None.

Definition store (m : mem) (o : nat) (bs : list Z) : option mem :=
  store_cells m o (Some <$> bs).

Fixpoint stores (m : mem) (ws : list (nat * list Z)) : option mem :=
  match ws with
  | [] => Some m
  | (o, bs) :: ws => m' ← store m o bs; stores m' ws
  end.

Fixpoint all_written (m : mem) : option (list Z) :=
  match m with
  | [] => Some []
  | None :: _ => None
  | Some b :: m => bs ← all_written m; Some (b :: bs)
  end.

(** The bytes of an object; [None] also when one of them is indeterminate. *)
Definition fetch (m : mem) (o k : nat) : option (list Z) :=
  if (o + k <=? length m)%nat then all_written (take k (drop o m)) else None.

(** 32-bit objects. *)
Definition le32 (z : Z) : list Z := le_encode 4 z.

Definition fetch_int (m : mem) (o : nat) : option Z :=
  bs ← fetch m o 4; Some (i32 (le_decode bs)).

Definition fetch_uint (m : mem) (o : nat) : option Z :=
  bs ← fetch m o 4; Some (le_decode bs).

Definition fetch_byte (m : mem) (o : nat) : option Z :=
  bs ← fetch m o 1; Some (le_decode bs).

(** ** Lemmas *)

Lemma zalloc_app n k : zalloc (n + k) = zalloc n ++ zalloc k.
Proof. apply replicate_add. Qed.

Lemma alloc_app n k : alloc (n + k) = alloc n ++ alloc k.
Proof. apply replicate_add. Qed.

Lemma store_cells_length m o cs m' : store_cells m o cs = Some m' -> length m' = length m.
Proof.
  unfold store_cells. destruct (Nat.leb_spec (o + length cs) (length m)); [|done].
  intros [= <-]. rewrite !length_app, length_take, length_drop. lia.
Qed.

Lemma store_length m o bs m' : store m o bs = Some m' -> length m' = length m.
Proof. apply store_cells_length. Qed.

(** A write that fills the gap between what is written and what is left. *)
Lemma store_cells_next m1 o cs n m2 :
  o = length m1 -> n = length cs ->
  store_cells (m1 ++ alloc n ++ m2) o cs = Some (m1 ++ cs ++ m2).
Proof.
  intros -> ->. unfold store_cells, alloc. rewrite !length_app, length_replicate.
  destruct (Nat.leb_spec (length m1 + length cs)
    (length m1 + (length cs + length m2))); [|lia].
  rewrite take_app_length. replace (drop (length m1 + length cs)
    (m1 ++ replicate (length cs) None ++ m2)) with m2; [done|].
  rewrite <- drop_drop, drop_app_length.
  by rewrite drop_app_ge, length_replicate, Nat.sub_diag by (rewrite length_replicate; lia).
Qed.

Lemma store_next m1 o bs n m2 :
  o = length m1 -> n = length bs ->
  store (m1 ++ alloc n ++ m2) o bs = Some (m1 ++ (Some <$> bs) ++ m2).
Proof. intros -> ->. apply store_cells_next; by rewrite ?length_fmap. Qed.

(** Writes that follow each other. *)
Fixpoint chunks (o : nat) (ps : list (list Z)) : list (nat * list Z) :=
  match ps with
  | [] => []
  | p :: ps => (o, p) :: chunks (o + length p) ps
  end.

Lemma stores_chunks ps : forall m1 n o m2,
  o = length m1 -> n = length (concat ps) ->
  stores (m1 ++ alloc n ++ m2) (chunks o ps) = Some (m1 ++ (Some <$> concat ps) ++ m2).
Proof.
  induction ps as [|p ps IH]; intros m1 n o m2 -> Hn; subst n; [done|].
  cbn [concat chunks stores]. rewrite length_app, alloc_app, <- app_assoc.
  rewrite (store_next m1 _ p (length p)) by done; simpl.
  rewrite app_assoc. rewrite (IH (m1 ++ (Some <$> p))).
  - by rewrite fmap_app, <- !app_assoc.
  - by rewrite length_app, length_fmap.
  - done.
Qed.

Lemma store_overwrite (m1 : mem) x y m2 o :
  o = length m1 -> store (m1 ++ x :: m2) o [y] = Some (m1 ++ Some y :: m2).
Proof.
  intros ->. unfold store, store_cells. rewrite length_app; simpl.
  destruct (Nat.leb_spec (length m1 + 1) (length m1 + S (length m2))); [|lia].
  rewrite take_app_length. rewrite <- drop_drop, drop_app_length. done.
Qed.

Lemma stores_length ws : forall m m', stores m ws = Some m' -> length m' = length m.
Proof.
  induction ws as [|[o bs] ws IH]; intros m m'; simpl; [by intros [= <-]|].
  destruct (store m o bs) as [m1|] eqn:E; simpl; [|done]. intros H.
  apply IH in H. apply store_length in E. congruence.
Qed.

Lemma stores_split m ws1 ws2 :
  stores m (ws1 ++ ws2) = m' ← stores m ws1; stores m' ws2.
Proof.
  revert m. induction ws1 as [|[o bs] ws IH]; intros m; simpl; [done|].
  destruct (store m o bs) as [m1|]; simpl; [apply IH|done].
Qed.

(** A write inside the first part of a buffer leaves the rest alone. *)
Lemma store_app m1 m2 o bs m1' :
  store m1 o bs = Some m1' -> store (m1 ++ m2) o bs = Some (m1' ++ m2).
Proof.
  unfold store, store_cells. rewrite length_app.
  destruct (Nat.leb_spec (o + length (Some <$> bs)) (length m1)); [|done]. intros [= <-].
  destruct (Nat.leb_spec (o + length (Some <$> bs)) (length m1 + length m2)); [|lia].
  rewrite take_app_le, drop_app_le by lia. by rewrite <- !app_assoc.
Qed.

Lemma stores_app ws : forall m1 m2 m1',
  stores m1 ws = Some m1' -> stores (m1 ++ m2) ws = Some (m1' ++ m2).
Proof.
  induction ws as [|[o bs] ws IH]; intros m1 m2 m1'; simpl; [by intros [= <-]|].
  destruct (store m1 o bs) as [m|] eqn:E; simpl; [|done]. intros H.
  rewrite (store_app m1 m2 o bs m E); simpl. by apply IH.
Qed.

Lemma fetch_app m1 m2 o k bs : fetch m1 o k = Some bs -> fetch (m1 ++ m2) o k = Some bs.
Proof.
  unfold fetch. rewrite length_app. destruct (Nat.leb_spec (o + k) (length m1)); [|done].
  destruct (Nat.leb_spec (o + k) (length m1 + length m2)); [|lia].
  rewrite drop_app_le by lia. rewrite take_app_le; [done|]. rewrite length_drop. lia.
Qed.

Lemma all_written_Some (bs : list Z) : all_written (Some <$> bs) = Some bs.
Proof. induction bs as [|b bs IH]; [done|]. cbn. by rewrite IH. Qed.

Lemma fetch_bytes (m1 m2 : mem) bs k o :
  o = length m1 -> k = length bs -> fetch (m1 ++ (Some <$> bs) ++ m2) o k = Some bs.
Proof.
  intros -> ->. unfold fetch. rewrite !length_app, length_fmap.
  destruct (Nat.leb_spec (length m1 + length bs)
    (length m1 + (length bs + length m2))); [|lia].
  rewrite drop_app_length. rewrite take_app_le by (rewrite length_fmap; lia).
  rewrite take_ge by (rewrite length_fmap; lia). apply all_written_Some.
Qed.

(** Reading a buffer that is written everywhere. *)
Lemma fetch_read_at bs o k : fetch (Some <$> bs) o k = read_at bs o k.
Proof.
  unfold fetch, read_at. rewrite length_fmap. destruct (_ <=? _)%nat; [|done].
  by rewrite <- fmap_drop, <- fmap_take, all_written_Some.
Qed.

(** [int] fields survive a round trip through memory. *)
Lemma i32_decode_encode z : in_i32 z -> i32 (le_decode (le32 z)) = z.
Proof.
  intros Hz. unfold le32. rewrite le_decode_encode. change (256 ^ Z.of_nat 4) with (2 ^ 32).
  unfold swrap, in_i32 in *. change (32 - 1) with 31.
  rewrite <- Z.add_mod_idemp_l, Z.mod_mod, Z.add_mod_idemp_l by lia.
  rewrite Z.mod_small; lia.
Qed.

Lemma u32_decode_encode z : 0 <= z < 2 ^ 32 -> le_decode (le32 z) = z.
Proof. intros. by apply le_decode_encode_small. Qed.

End Memory.
