(* ===== verification/Items.v ===== *)
(** * Items: the item table the components read

    Models the part of [src/NopySource/Handle/ItemDefination.h] the verified
    components use.  The table itself is loaded from data files: it is a
    parameter of the definitions that read it. *)
From S2P Require Import Prelude.

Module Items.

Inductive ClothTypes :=
  | HAIR | SHIRT | PANTS | FEET | FACE | HAND | BACK | MASK | NECKLACE | ANCES | NONE.

Inductive BlockTypes :=
  | FOREGROUND | BACKGROUND | CONSUMABLE | SEED | Display_Shelf | PAIN_BLOCK | BEDROCK
  | VIP_ENTRANCE | Heart_Monitor | Painting_Easel | MAIN_DOOR | SIGN | DOOR | CLOTHING
  | FIST | WRENCH | CHECKPOINT | LOCK | LOCK_BOT | GATEWAY | TREASURE | WEATHER
  | TRAMPOLINE | MANNEQUIN | TOGGLE_FOREGROUND | CHEMICAL_COMBINER | SWITCH_BLOCK
  | SFX_FOREGROUND | RANDOM_BLOCK | Spirit_Storage | PORTAL | PLATFORM | Fish_Mount
  | MAILBOX | GIVING_TREE | MAGIC_EGG | CRYSTAL | GEMS | DEADLY | CHEST | FACTION
  | BULLETIN_BOARD | BOUNCY | ANIM_FOREGROUND | COMPONENT | SUCKER | FISH | FISH_TANK
  | BATTLE_CAGE | STEAM | GROUND_BLOCK | PORTRAIT | DISPLAY | STORAGE | VENDING
  | DONATION | PHONE | SEWINGMACHINE | CRIME_VILLAIN | PROVIDER | ADVENTURE | CCTV
  | STORAGE_BOX | TIMER | ITEM_SUCKER | TRICKSTER | KRANKEN | FOSSIL | GEIGER_CHARGER
  | COUNTRY_FLAG | AUTO_BLOCK | GAME_BLOCK | GAME_GENERATOR | OVEN | PET_TRAINER
  | ACHIEVEMENT_BLOCK | UNKNOWN.

#[export] Instance ClothTypes_eq_dec : EqDecision ClothTypes.
Proof. solve_decision. Defined.

#[export] Instance BlockTypes_eq_dec : EqDecision BlockTypes.
Proof. solve_decision. Defined.

Record ItemDB := mkItem {
  name : string;
  ori_name : string;
  blockType : BlockTypes;
  clothType : ClothTypes;
  flagmay : Z;
  on_remove : string;
  playmod : string;
  description : string;
  untradeable : bool;
  properties : Z
}.

(** [ItemDB{}]: the default member initialisers. *)
Definition item_default : ItemDB := mkItem "" "" FOREGROUND HAIR 256 "" "" "This item has no description." false 0.

(** [vector<ItemDB> items]. *)
Definition table := list ItemDB.

Definition size (items : table) : Z := Z.of_nat (length items).

(** [items[id]] for an index inside the vector. *)
Definition item (items : table) (id : Z) : ItemDB :=
  nth (Z.to_nat id) items item_default.

End Items.
