(* ===== verification/Packet.v ===== *)
(** * Packet: the wire formats of the game protocol

    Models the packet builders of [src/NopySource/Handle/PacketHandler.h]
    ([gamepacket_t], the [GUP] packets, the incoming tank packets,
    [BinaryWriter2]) and of [src/NopySource/Handle/PlayerInfo.h]
    ([PlayerMoving] and its packing and sending functions).  Floats are kept
    as the 32-bit patterns that are copied into the buffers. *)
From S2P Require Import Prelude Memory.
Import Memory.

Module Packet.

(** ** [gamepacket_t]: a call of a client function with typed arguments *)

(** The overloads of [Insert], with floats as bit patterns. *)
Inductive VarArg :=
| VStr (a : string)
| VInt (a : Z)
| VUint (a : Z)
| VFloat (a : Z)
| VFloat2 (a b : Z)
| VFloat3 (a b c : Z).

Record gamepacket_t := mkGamepacket {
  index : Z;
  len : Z;
  packet_data : mem
}.

(** The constructor [gamepacket_t(delay, NetID)]. *)
Definition gamepacket (delay NetID : Z) : option gamepacket_t :=
  m ← stores (zalloc 61)
        [(0%nat, le32 4); (4%nat, le32 1); (8%nat, le32 NetID); (16%nat, le32 8);
         (24%nat, le32 delay)];
  Some (mkGamepacket 0 61 m).

(** What every overload of [Insert] does: a buffer of [len + 2 + payload]
    bytes, the old contents, the argument's index and type tag, the
    payload; then the count of arguments at byte 60. *)
Definition insert_with (tag : Z) (payload : list (nat * list Z)) (size : nat)
    (p : gamepacket_t) : option gamepacket_t :=
  let l := Z.to_nat (len p) in
  m ← store_cells (alloc (l + 2 + size)) 0 (packet_data p);
  m ← stores m [(l, [u8 (index p)]); ((l + 1)%nat, [tag])];
  m ← stores m (prod_map (λ o, (l + o)%nat) id <$> payload);
  let len' := i32 (len p + 2 + Z.of_nat size) in
  let index' := i32 (index p + 1) in
  if 60 <? len' then
    m ← store m 60 [u8 index']; Some (mkGamepacket index' len' m)
  else Some (mkGamepacket index' len' m).

(** [int str_len = (int)a.length()]: a longer string would make the copied
    length negative. *)
Definition Insert_string (a : string) (p : gamepacket_t) : option gamepacket_t :=
  if slen a <? 2 ^ 31 then
    insert_with 2 [(2%nat, le32 (slen a)); (6%nat, str_bytes a)]
                (4 + String.length a) p
  else None.

Definition Insert_int (a : Z) (p : gamepacket_t) : option gamepacket_t :=
  insert_with 9 [(2%nat, le32 a)] 4 p.

Definition Insert_uint (a : Z) (p : gamepacket_t) : option gamepacket_t :=
  insert_with 5 [(2%nat, le32 a)] 4 p.

Definition Insert_float (a : Z) (p : gamepacket_t) : option gamepacket_t :=
  insert_with 1 [(2%nat, le32 a)] 4 p.

Definition Insert_float2 (a b : Z) (p : gamepacket_t) : option gamepacket_t :=
  insert_with 3 [(2%nat, le32 a); (6%nat, le32 b)] 8 p.

Definition Insert_float3 (a b c : Z) (p : gamepacket_t) : option gamepacket_t :=
  insert_with 4 [(2%nat, le32 a); (6%nat, le32 b); (10%nat, le32 c)] 12 p.

Definition Insert (v : VarArg) (p : gamepacket_t) : option gamepacket_t :=
  match v with
  | VStr a => Insert_string a p
  | VInt a => Insert_int a p
  | VUint a => Insert_uint a p
  | VFloat a => Insert_float a p
  | VFloat2 a b => Insert_float2 a b p
  | VFloat3 a b c => Insert_float3 a b c p
  end.

Fixpoint Insert_all (vs : list VarArg) (p : gamepacket_t) : option gamepacket_t :=
  match vs with
  | [] => Some p
  | v :: vs => p' ← Insert v p; Insert_all vs p'
  end.

(** [CreatePacket]: the bytes handed to ENet. *)
Definition CreatePacket (p : gamepacket_t) : option (list Z) :=
  fetch (packet_data p) 0 (Z.to_nat (len p)).

(** A message: constructor, insertions, [CreatePacket]. *)
Record Variant := mkVariant { v_delay : Z; v_netID : Z; v_args : list VarArg }.

Definition build (v : Variant) : option (list Z) :=
  p ← gamepacket (v_delay v) (v_netID v);
  p ← Insert_all (v_args v) p;
  CreatePacket p.

(** *** The format of the messages *)

Definition arg_tag (v : VarArg) : Z :=
  match v with
  | VStr _ => 2 | VInt _ => 9 | VUint _ => 5 | VFloat _ => 1
  | VFloat2 _ _ => 3 | VFloat3 _ _ _ => 4
  end.

Definition arg_payload (v : VarArg) : list Z :=
  match v with
  | VStr a => le32 (slen a) ++ str_bytes a
  | VInt a | VUint a | VFloat a => le32 a
  | VFloat2 a b => le32 a ++ le32 b
  | VFloat3 a b c => le32 a ++ le32 b ++ le32 c
  end.

Fixpoint args_bytes (i : Z) (vs : list VarArg) : list Z :=
  match vs with
  | [] => []
  | v :: vs => [u8 i; arg_tag v] ++ arg_payload v ++ args_bytes (i + 1) vs
  end.

Definition header_bytes (delay netID count : Z) : list Z :=
  le32 4 ++ le32 1 ++ le32 netID ++ le32 0 ++ le32 8 ++ le32 0 ++ le32 delay ++
  replicate 32 0 ++ [u8 count].

Definition variant_bytes (v : Variant) : list Z :=
  header_bytes (v_delay v) (v_netID v) (Z.of_nat (length (v_args v))) ++
  args_bytes 0 (v_args v).

Definition is_u32 (z : Z) : Prop := 0 <= z < 2 ^ 32.

Definition arg_ok (v : VarArg) : Prop :=
  match v with
  | VStr a => slen a < 2 ^ 31
  | VInt a => in_i32 a
  | VUint a | VFloat a => is_u32 a
  | VFloat2 a b => is_u32 a /\ is_u32 b
  | VFloat3 a b c => is_u32 a /\ is_u32 b /\ is_u32 c
  end.

Definition variant_ok (v : Variant) : Prop :=
  in_i32 (v_delay v) /\ in_i32 (v_netID v) /\ Forall arg_ok (v_args v) /\
  (length (v_args v) <= 255)%nat /\
  Z.of_nat (length (args_bytes 0 (v_args v))) < 2 ^ 31 - 61.

(** ** The builder writes the format *)

Arguments header_bytes : simpl never.
Arguments le32 : simpl never.
Arguments uwrap : simpl never.

Definition header60 (delay netID : Z) : list Z :=
  le32 4 ++ le32 1 ++ le32 netID ++ le32 0 ++ le32 8 ++ le32 0 ++ le32 delay ++
  replicate 32 0.

Lemma header_bytes_split d n c : header_bytes d n c = header60 d n ++ [u8 c].
Proof. unfold header_bytes, header60. by rewrite <- !app_assoc. Qed.

Lemma header60_length d n : length (header60 d n) = 60%nat.
Proof. done. Qed.

Lemma gamepacket_eq d n :
  gamepacket d n = Some (mkGamepacket 0 61 (Some <$> header_bytes d n 0)).
Proof. reflexivity. Qed.

(** The state of a packet with [i] arguments whose bytes are [A]. *)
Definition holds (d n i : Z) (A : list Z) (p : gamepacket_t) : Prop :=
  p = mkGamepacket i (61 + Z.of_nat (length A)) (Some <$> header_bytes d n i ++ A).

(** [Insert] appends an argument: no byte is written outside the new
    buffer and none of it is left indeterminate. *)
Lemma insert_with_holds d n i A p tag ps size :
  holds d n i A p -> size = length (concat ps) ->
  0 <= i < 255 -> 61 + Z.of_nat (length A + 2 + size) < 2 ^ 31 ->
  exists p', insert_with tag (chunks 2 ps) size p = Some p' /\
    holds d n (i + 1) (A ++ [u8 i; tag] ++ concat ps) p'.
Proof.
  intros -> Hs Hi Hl. unfold insert_with; cbn [index len packet_data].
  set (H := header_bytes d n i ++ A).
  assert (length H = (61 + length A)%nat) as HlH.
  { subst H. rewrite length_app, header_bytes_split, length_app, header60_length. simpl. lia. }
  replace (Z.to_nat (61 + Z.of_nat (length A))) with (length H) by lia.
  rewrite <- Nat.add_assoc, alloc_app.
  pose proof (store_cells_next [] 0 (Some <$> H) (length H) (alloc (2 + size)) eq_refl
    ltac:(by rewrite length_fmap)) as E0. rewrite !app_nil_l in E0. rewrite E0; clear E0.
  cbn [mbind option_bind app].
  assert (prod_map (λ o, (length H + o)%nat) id <$> chunks 2 ps = chunks (length H + 2) ps) as ->.
  { generalize 2%nat. clear. induction ps as [|x ps IH]; intros o; simpl; [done|].
    by rewrite IH, Nat.add_assoc. }
  rewrite alloc_app.
  pose proof (stores_chunks [[u8 i]; [tag]] (Some <$> H) 2 (length H) (alloc size)
    ltac:(by rewrite length_fmap) eq_refl) as E1. cbn [chunks length] in E1.
  rewrite E1; clear E1. cbn [mbind option_bind concat app].
  rewrite app_assoc, <- fmap_app.
  pose proof (stores_chunks ps (Some <$> (H ++ [u8 i; tag])) size (length H + 2) []
    ltac:(rewrite length_fmap, length_app; simpl; lia) Hs) as E2.
  rewrite !app_nil_r in E2. rewrite E2; clear E2. cbn [mbind option_bind].
  rewrite !i32_small by lia.
  destruct (Z.ltb_spec 60 (61 + Z.of_nat (length A) + 2 + Z.of_nat size)); [|lia].
  rewrite <- fmap_app. subst H. rewrite !header_bytes_split, <- !app_assoc.
  rewrite fmap_app. cbn [app fmap list_fmap].
  rewrite (store_overwrite (Some <$> header60 d n)); [|done]. cbn [mbind option_bind].
  eexists; split; [reflexivity|]. unfold holds.
  rewrite header_bytes_split, <- !app_assoc, fmap_app. f_equal.
  { rewrite !length_app; simpl. lia. }
  by rewrite !fmap_app.
Qed.

Lemma Insert_holds d n i A p v :
  holds d n i A p -> arg_ok v -> 0 <= i < 255 ->
  61 + Z.of_nat (length A + 2 + length (arg_payload v)) < 2 ^ 31 ->
  exists p', Insert v p = Some p' /\
    holds d n (i + 1) (A ++ [u8 i; arg_tag v] ++ arg_payload v) p'.
Proof.
  intros Hp Hv Hi Hl.
  destruct v as [a|a|a|a|a b|a b c]; simpl in *; unfold Insert_string, Insert_int,
    Insert_uint, Insert_float, Insert_float2, Insert_float3.
  - rewrite (proj2 (Z.ltb_lt _ _)) by done.
    destruct (insert_with_holds d n i A p 2 [le32 (slen a); str_bytes a]
      (4 + String.length a) Hp) as (p' & E & H); [|done| |].
    + simpl. rewrite app_nil_r. by rewrite str_bytes_length.
    + rewrite str_bytes_length in Hl. lia.
    + exists p'. split; [exact E|]. simpl in H. by rewrite app_nil_r in H.
  - destruct (insert_with_holds d n i A p 9 [le32 a] 4 Hp) as (p' & E & H);
      [done|done|lia|by exists p'].
  - destruct (insert_with_holds d n i A p 5 [le32 a] 4 Hp) as (p' & E & H);
      [done|done|lia|by exists p'].
  - destruct (insert_with_holds d n i A p 1 [le32 a] 4 Hp) as (p' & E & H);
      [done|done|lia|by exists p'].
  - destruct (insert_with_holds d n i A p 3 [le32 a; le32 b] 8 Hp) as (p' & E & H);
      [done|done|lia|by exists p'].
  - destruct (insert_with_holds d n i A p 4 [le32 a; le32 b; le32 c] 12 Hp) as (p' & E & H);
      [done|done|lia|by exists p'].
Qed.

Lemma args_bytes_cons_length i v vs :
  length (args_bytes i (v :: vs)) =
    (2 + length (arg_payload v) + length (args_bytes (i + 1) vs))%nat.
Proof. simpl. rewrite length_app. lia. Qed.

Lemma Insert_all_holds d n vs : forall i A p,
  holds d n i A p -> Forall arg_ok vs -> 0 <= i -> i + Z.of_nat (length vs) <= 255 ->
  61 + Z.of_nat (length A + length (args_bytes i vs)) < 2 ^ 31 ->
  exists p', Insert_all vs p = Some p' /\
    holds d n (i + Z.of_nat (length vs)) (A ++ args_bytes i vs) p'.
Proof.
  induction vs as [|v vs IH]; intros i A p Hp Hv Hi Hn Hl.
  - exists p. split; [done|]. simpl. by rewrite Z.add_0_r, app_nil_r.
  - inversion Hv; subst. rewrite args_bytes_cons_length in Hl. cbn [length] in Hn.
    destruct (Insert_holds d n i A p v) as (p1 & E1 & Hp1); [done|done|lia|lia|].
    destruct (IH (i + 1) _ p1 Hp1) as (p2 & E2 & Hp2); [done|lia|lia| |].
    + rewrite !length_app; simpl. lia.
    + exists p2. split; [simpl; by rewrite E1|].
      replace (i + Z.of_nat (length (v :: vs))) with (i + 1 + Z.of_nat (length vs))
        by (simpl; lia).
      simpl. simpl in Hp2.
      by rewrite <- app_assoc in Hp2.
Qed.

Lemma build_eq v : variant_ok v -> build v = Some (variant_bytes v).
Proof.
  destruct v as [d n vs]. intros (Hd & Hn & Hv & Hl & Hs); simpl in *. unfold build; cbn [v_delay v_netID v_args].
  rewrite gamepacket_eq; cbn [mbind option_bind].
  destruct (Insert_all_holds d n vs 0 [] (mkGamepacket 0 61 (Some <$> header_bytes d n 0)))
    as (p & E & Hp); [by unfold holds; rewrite app_nil_r|done|lia|lia|simpl; lia|].
  rewrite E; cbn [mbind option_bind]. rewrite Hp; unfold CreatePacket.
  unfold variant_bytes; cbn [v_delay v_netID v_args packet_data len app]. rewrite Z.add_0_l in *.
  set (B := header_bytes d n (Z.of_nat (length vs)) ++ args_bytes 0 vs).
  pose proof (fetch_bytes [] [] B (length B) 0 eq_refl eq_refl) as F.
  rewrite app_nil_r in F. cbn [app] in F.
  replace (Z.to_nat (61 + Z.of_nat (length (args_bytes 0 vs)))) with (length B); [done|].
  subst B. rewrite length_app, header_bytes_split, length_app, header60_length. simpl. lia.
Qed.

(** ** Properties of [gamepacket_t] *)

(** C35: the builder implements the format. For every message whose
    arguments fit their C++ types, of at most 255 arguments and of less
    than 2^31 bytes, the constructor, the insertions and [CreatePacket]
    write every byte inside the buffers they allocate, leave none
    indeterminate, and send exactly the bytes of the format. *)
Theorem build_variant_bytes v : variant_ok v -> build v = Some (variant_bytes v).
Proof. apply build_eq. Qed.

Lemma build_variant_bytes_witness :
  build (mkVariant 500 (-1) [VStr "OnSetBux"; VInt (-7); VFloat3 1 2 3]) =
  Some (variant_bytes (mkVariant 500 (-1) [VStr "OnSetBux"; VInt (-7); VFloat3 1 2 3])).
Proof.
  apply build_variant_bytes. unfold variant_ok, in_i32; simpl.
  split_and!; try lia. repeat constructor; unfold in_i32, is_u32; simpl; lia.
Defined.

End Packet.
