(* ===== verification/Writer.v ===== *)
(** * Writer: the growing and the fixed binary writers

    [BinaryWriter2] and [BinaryWriter] of
    [src/NopySource/Handle/PacketHandler.h].  The buffer is [m_data] with
    [m_size] its length; the bytes [realloc] adds are indeterminate. *)
From S2P Require Import Prelude Memory.
Import Memory.

Module BinaryWriter2.

Record t := mk { m_data : mem; m_pos : nat }.

Definition m_size (w : t) : nat := length (m_data w).

Definition empty : t := mk [] 0.

Definition ensureCapacity (required : nat) (w : t) : t :=
  let needed_size := (m_pos w + required)%nat in
  if (m_size w <? needed_size)%nat then
    let new_size := Nat.max (m_size w * 2) needed_size in
    mk (m_data w ++ alloc (new_size - m_size w)) (m_pos w)
  else w.

(** [write(const uint8_t*, len)] *)
Definition write_bytes (val : list Z) (w : t) : option t :=
  let w := ensureCapacity (length val) w in
  m ← store (m_data w) (m_pos w) val;
  Some (mk m (m_pos w + length val)).

(** [write<T>] for an integral [T] of [n] bytes. *)
Definition write_int (n : nat) (val : Z) (w : t) : option t :=
  let w := ensureCapacity n w in
  m ← store (m_data w) (m_pos w) (le_encode n val);
  Some (mk m (m_pos w + n)).

(** [write(const std::string&, data_length_size)] *)
Definition write_string (val : string) (data_length_size : nat) (w : t) : option t :=
  let len := String.length val in
  let w := ensureCapacity (len + data_length_size) w in
  m ← stores (m_data w)
        [(m_pos w, le_encode data_length_size (Z.of_nat len));
         ((m_pos w + data_length_size)%nat, str_bytes val)];
  Some (mk m (m_pos w + len + data_length_size)).

(** [None] where the code throws [std::out_of_range]. *)
Definition set_pos (pos : nat) (w : t) : option t :=
  if (m_size w <? pos)%nat then None else Some (mk (m_data w) pos).

Definition skip_pos (len : nat) (w : t) : option t :=
  let new_pos := (m_pos w + len)%nat in
  if (m_size w <? new_pos)%nat then None else Some (mk (m_data w) new_pos).

Definition del_pos (len : nat) (w : t) : option t :=
  if (m_pos w <? len)%nat then None else Some (mk (m_data w) (m_pos w - len)).

Definition clean (w : t) : t := empty.

Definition get (w : t) : mem := m_data w.
Definition get_pos (w : t) : nat := m_pos w.
Definition get_size (w : t) : nat := m_size w.

(** ** Sequences of writes *)

Inductive wop :=
| WInt (n : nat) (val : Z)
| WString (val : string) (data_length_size : nat)
| WBytes (val : list Z).

Definition write (o : wop) (w : t) : option t :=
  match o with
  | WInt n val => write_int n val w
  | WString val k => write_string val k w
  | WBytes val => write_bytes val w
  end.

Fixpoint write_all (os : list wop) (w : t) : option t :=
  match os with
  | [] => Some w
  | o :: os => w' ← write o w; write_all os w'
  end.

(** What a write appends. *)
Definition op_bytes (o : wop) : list Z :=
  match o with
  | WInt n val => le_encode n val
  | WString val k => le_encode k (slen val) ++ str_bytes val
  | WBytes val => val
  end.

(** The writer that has been given the bytes [bs]: they are at the start
    of a buffer at most twice as long. *)
Definition holds (bs : list Z) (w : t) : Prop :=
  m_pos w = length bs /\ (m_size w <= 2 * length bs)%nat /\
  exists rest, m_data w = (Some <$> bs) ++ alloc rest.

Lemma ensureCapacity_holds bs n w :
  holds bs w ->
  let w' := ensureCapacity n w in
  m_pos w' = length bs /\ (m_size w' <= 2 * (length bs + n))%nat /\
  exists rest, m_data w' = (Some <$> bs) ++ alloc n ++ alloc rest.
Proof.
  intros (Hp & Hs & rest & Hd). unfold ensureCapacity, m_size in *. rewrite Hp.
  assert (length (m_data w) = (length bs + rest)%nat) as Hl.
  { rewrite Hd, length_app, length_fmap. unfold alloc. by rewrite length_replicate. }
  destruct (Nat.ltb_spec (length (m_data w)) (length bs + n)); simpl.
  - split; [done|]. split.
    + rewrite length_app. unfold alloc. rewrite length_replicate. lia.
    + exists (Nat.max (length (m_data w) * 2) (length bs + n) - (length bs + n))%nat.
      rewrite Hd at 1. rewrite <- app_assoc, <- !alloc_app. do 2 f_equal. lia.
  - split; [done|]. split; [lia|]. exists (rest - n)%nat.
    rewrite Hd, <- alloc_app. do 2 f_equal. lia.
Qed.

(** Writing consecutive pieces at the position. *)
Lemma write_chunks_holds bs ps w n :
  holds bs w -> n = length (concat ps) ->
  exists m, stores (m_data (ensureCapacity n w)) (chunks (m_pos w) ps) = Some m /\
    holds (bs ++ concat ps) (mk m (m_pos w + n)).
Proof.
  intros Hw ->. pose proof (ensureCapacity_holds bs (length (concat ps)) w Hw)
    as (Hp & Hs & rest & Hd).
  pose proof (proj1 Hw) as Hp0. rewrite Hd, Hp0.
  rewrite (stores_chunks ps (Some <$> bs) (length (concat ps)) (length bs) (alloc rest))
    by (by rewrite ?length_fmap).
  eexists. split; [reflexivity|]. unfold holds, m_size; simpl.
  rewrite length_app. split; [done|]. split.
  - unfold m_size in Hs. rewrite Hd in Hs. rewrite !length_app, !length_fmap in *.
    unfold alloc in *. rewrite !length_replicate in *. lia.
  - exists rest. by rewrite fmap_app, <- app_assoc.
Qed.

Lemma write_holds bs o w :
  holds bs w -> exists w', write o w = Some w' /\ holds (bs ++ op_bytes o) w'.
Proof.
  intros Hw. destruct o as [n val|val k|val]; simpl.
  - destruct (write_chunks_holds bs [le_encode n val] w n) as (m & E & H); [done| |].
    { simpl. by rewrite app_nil_r, le_encode_length. }
    simpl in E, H. rewrite app_nil_r in H. unfold write_int.
    destruct (ensureCapacity_holds bs n w Hw) as (Hp & _). rewrite (proj1 Hw) in E, H.
    rewrite Hp. destruct (store _ _ _) as [m'|]; simpl in *; [|done]. simplify_eq.
    by eexists.
  - set (n := (String.length val + k)%nat).
    destruct (write_chunks_holds bs [le_encode k (slen val); str_bytes val] w n)
      as (m & E & H); [done| |].
    { simpl. rewrite app_nil_r, length_app, le_encode_length, str_bytes_length.
      subst n. lia. }
    simpl in E, H. rewrite app_nil_r, le_encode_length in *. unfold write_string. fold n.
    destruct (ensureCapacity_holds bs n w Hw) as (Hp & _). rewrite (proj1 Hw) in E, H.
    rewrite Hp. simpl. unfold slen in *.
    destruct (store (m_data _) _ _) as [m1|]; simpl in *; [|done].
    destruct (store m1 _ _) as [m2|]; simpl in *; [|done]. simplify_eq.
    eexists. split; [reflexivity|]. by rewrite <- Nat.add_assoc.
  - destruct (write_chunks_holds bs [val] w (length val)) as (m & E & H); [done| |].
    { simpl. by rewrite app_nil_r. }
    simpl in E, H. rewrite app_nil_r in H. unfold write_bytes.
    destruct (ensureCapacity_holds bs (length val) w Hw) as (Hp & _).
    rewrite (proj1 Hw) in E, H. rewrite Hp.
    destruct (store _ _ _) as [m'|]; simpl in *; [|done]. simplify_eq. by eexists.
Qed.

Lemma write_all_holds os : forall bs w,
  holds bs w ->
  exists w', write_all os w = Some w' /\ holds (bs ++ concat (op_bytes <$> os)) w'.
Proof.
  induction os as [|o os IH]; intros bs w Hw; simpl.
  - exists w. by rewrite app_nil_r.
  - destruct (write_holds bs o w Hw) as (w1 & E1 & Hw1). rewrite E1; simpl.
    destruct (IH _ w1 Hw1) as (w2 & E2 & Hw2). exists w2. by rewrite app_assoc.
Qed.

(** The writer is an append-only byte string. Any sequence of writes on
    a fresh writer stays inside the buffer it grows; [get_pos] is then the
    number of bytes written, the first [get_pos] bytes of [get] are the
    encodings in order, and the buffer is at most twice as long. *)
Theorem write_all_appends os :
  exists w, write_all os empty = Some w /\
    get_pos w = length (concat (op_bytes <$> os)) /\
    fetch (get w) 0 (get_pos w) = Some (concat (op_bytes <$> os)) /\
    (get_pos w <= get_size w <= 2 * get_pos w)%nat.
Proof.
  destruct (write_all_holds os [] empty) as (w & E & Hp & Hs & rest & Hd).
  { split_and!; [done|done|]. by exists 0%nat. }
  simpl in *. exists w. unfold get_pos, get, get_size. split; [done|]. split; [done|].
  rewrite Hp, Hd. split; [by apply (fetch_bytes [])|].
  unfold m_size in *. rewrite Hd, length_app, length_fmap in *.
  unfold alloc in *. rewrite length_replicate in *. lia.
Qed.

End BinaryWriter2.

Module BinaryWriter.

Record t := mk { m_data : mem; m_pos : nat }.

(** [BinaryWriter(size)] allocates zeroes; [BinaryWriter(data, pos)]
    writes into the caller's buffer. *)
Definition create (size : nat) : t := mk (zalloc size) 0.
Definition on (data : mem) (pos : nat) : t := mk data pos.

Definition write_int (n : nat) (val : Z) (w : t) : option t :=
  m ← store (m_data w) (m_pos w) (le_encode n val); Some (mk m (m_pos w + n)).

(** With [len_size = 2] the length is cut to 16 bits, and only that many
    characters are copied; otherwise [len_size] bytes of a 32-bit length
    are, [None] when that is more than it has. *)
Definition write_string (val : string) (len_size : nat) (w : t) : option t :=
  if (len_size =? 2)%nat then
    let len := u16 (slen val) in
    m ← stores (m_data w)
          [(m_pos w, le_encode 2 len);
           ((m_pos w + len_size)%nat, take (Z.to_nat len) (str_bytes val))];
    Some (mk m (m_pos w + Z.to_nat len + len_size))
  else if (len_size <=? 4)%nat then
    let len := u32 (slen val) in
    m ← stores (m_data w)
          [(m_pos w, le_encode len_size len);
           ((m_pos w + len_size)%nat, take (Z.to_nat len) (str_bytes val))];
    Some (mk m (m_pos w + Z.to_nat len + len_size))
  else None.

Definition write_bytes (val : list Z) (w : t) : option t :=
  m ← store (m_data w) (m_pos w) val; Some (mk m (m_pos w + length val)).

Definition set_pos (pos : nat) (w : t) : t := mk (m_data w) pos.
Definition skip_pos (len : nat) (w : t) : t := mk (m_data w) (m_pos w + len).

End BinaryWriter.
