(* ===== verification/Tank.v ===== *)
(** * Tank: fixed-layout game packets

    The 56-byte "tank" packets of [PlayerInfo.h] ([PlayerMoving], its packing
    and the functions that frame and send it), the incoming packets of
    [PacketHandler.h], and the 57-byte [GUP::GameUpdatePacket] with its
    sender and receiver.  A [BYTE*] is the buffer it points to; a function
    that hands a packet to ENet returns the frame; [None] is an access
    outside a buffer or the use of an indeterminate byte in a decision. *)
From S2P Require Import Prelude Memory.
Import Memory.

Module Tank.

(** ** [PlayerMoving]; [x], [y], [XSpeed], [YSpeed] are float bit patterns *)

Record PlayerMoving := mkMoving {
  netID : Z; effect_flags_check : Z;
  packetType : Z; characterState : Z; plantingTree : Z; punchX : Z; punchY : Z;
  secondnetID : Z;
  x : Z; y : Z; XSpeed : Z; YSpeed : Z;
  packet_3 : Z; packet_int_40 : Z
}.

Definition moving_default : PlayerMoving := mkMoving 0 0 0 0 0 0 0 0 0 0 0 0 0 0.

Definition packBlockType (packetType plantingTree x y state : Z) : option mem :=
  stores (zalloc 56)
    [(0%nat, le32 packetType); (12%nat, le32 state); (20%nat, le32 plantingTree);
     (44%nat, le32 x); (48%nat, le32 y)].

(** [if (v != 0) Memory_Copy(data + o, &v, 4)] *)
Definition store_nz (o : nat) (v : Z) : list (nat * list Z) :=
  if v =? 0 then [] else [(o, le32 v)].

(** The tests [XSpeed != 0] and [YSpeed != 0] compare floats: both zero
    patterns are equal to 0. *)
Definition float_zero (v : Z) : bool := (v =? 0) || (v =? 2147483648).

Definition store_nzf (o : nat) (v : Z) : list (nat * list Z) :=
  if float_zero v then [] else [(o, le32 v)].

Definition PackBlockUpdate (packetType characterState x y XSpeed YSpeed rotation netID
    plantingTree punchX punchY packet_1 packet_2 packet_3 : Z) : option mem :=
  stores (zalloc 56)
    ([(0%nat, le32 packetType)] ++ store_nz 1 packet_1 ++ store_nz 2 packet_2 ++
     store_nz 3 packet_3 ++ store_nz 4 netID ++ store_nz 12 characterState ++
     store_nz 20 plantingTree ++ [(24%nat, le32 x); (28%nat, le32 y)] ++
     store_nzf 32 XSpeed ++ store_nzf 36 YSpeed ++ [(40%nat, le32 rotation)] ++
     store_nz 44 punchX ++ store_nz 48 punchY).

Definition packPlayerMoving (d : PlayerMoving) (size_ : nat) (some_extra : Z) : option mem :=
  stores (zalloc size_)
    [(0%nat, le32 (packetType d)); (3%nat, le32 some_extra); (4%nat, le32 (netID d));
     (12%nat, le32 (characterState d)); (20%nat, le32 (plantingTree d));
     (24%nat, le32 (x d)); (28%nat, le32 (y d)); (32%nat, le32 (XSpeed d));
     (36%nat, le32 (YSpeed d)); (40%nat, le32 (packet_int_40 d));
     (44%nat, le32 (punchX d)); (48%nat, le32 (punchY d))].

(** The stack variant fills the first 56 bytes of the caller's buffer. *)
Definition packPlayerMovingStack (data : mem) (d : PlayerMoving) : option mem :=
  m ← store_cells data 0 (zalloc 56);
  stores m
    [(0%nat, le32 (packetType d)); (4%nat, le32 (netID d));
     (12%nat, le32 (characterState d)); (20%nat, le32 (plantingTree d));
     (24%nat, le32 (x d)); (28%nat, le32 (y d)); (32%nat, le32 (XSpeed d));
     (36%nat, le32 (YSpeed d)); (40%nat, le32 (packet_int_40 d));
     (44%nat, le32 (punchX d)); (48%nat, le32 (punchY d))].

(** [to_int]: the conversion of a float to [int32_t], a language operation
    on bit patterns the caller supplies. *)
Definition packFishMoving (to_int : Z -> Z) (d : PlayerMoving) (size_ : nat) : option mem :=
  stores (zalloc size_)
    [(0%nat, [31]); (3%nat, [u8 (packet_3 d)]); (4%nat, le_encode 2 (netID d));
     (44%nat, le32 (to_int (x d))); (48%nat, le32 (to_int (y d)))].

Definition unpackPlayerMoving (data : option mem) : option PlayerMoving :=
  match data with
  | None => Some moving_default
  | Some m =>
      ty ← fetch_int m 0; nid ← fetch_int m 4; tgt ← fetch_int m 8;
      cs ← fetch_int m 12; pt ← fetch_int m 20; px ← fetch_uint m 24;
      py ← fetch_uint m 28; xs ← fetch_uint m 32; ys ← fetch_uint m 36;
      bx ← fetch_int m 44; by' ← fetch_int m 48;
      Some (mkMoving nid tgt ty cs pt bx by' 0 px py xs ys 0 0)
  end.

(** ** Framing *)

(** Bit 3 of the byte at offset 12. *)
Definition extended_bit (m : mem) : option bool :=
  b ← fetch_byte m 12; Some (negb (Z.land b 8 =? 0)).

(** [a4] is the extra data, [None] a null pointer of which nothing may be
    copied. *)
Definition copy_extra (m : mem) (o : nat) (a4 : option mem) (n : nat) : option mem :=
  match n, a4 with
  | O, _ => Some m
  | _, None => None
  | _, Some e => if (n <=? length e)%nat then store_cells m o (take n e) else None
  end.

(** The frame of [SendPacketRaw] and [SendPacketRaw112]: with [a1 = 4] and
    the extended bit, the extra data whose length is at offset 52 follows. *)
Definition raw_frame (a1 : Z) (packetData : mem) (a4 : option mem) : option mem :=
  let size := length packetData in
  ext ← (if a1 =? 4 then extended_bit packetData else Some false);
  if (ext : bool) then
    n ← fetch_uint packetData 52;
    p ← stores (alloc (size + Z.to_nat n + 5)) [(0%nat, le32 4)];
    p ← store_cells p 4 packetData;
    copy_extra p (size + 4) a4 (Z.to_nat n)
  else
    p ← stores (alloc (size + 5)) [(0%nat, le32 a1)];
    store_cells p 4 packetData.

(** [None] of the outer option: no peer, nothing sent. *)
Definition SendPacketRaw112 (a1 : Z) (packetData : mem) (a4 : option mem) (peer : bool)
    : option (option mem) :=
  if peer then f ← raw_frame a1 packetData a4; Some (Some f) else Some None.

Definition SendPacketRaw (a1 : Z) (packetData : mem) (a4 : option mem) (peer : bool)
    : option (option mem) :=
  if peer then
    ext ← (if a1 =? 4 then extended_bit packetData else Some false);
    if (ext : bool) then f ← raw_frame a1 packetData a4; Some (Some f)
    else
      let a1 := if a1 =? 192 then 4 else a1 in
      p ← stores (alloc (length packetData + 5)) [(0%nat, le32 a1)];
      p ← store_cells p 4 packetData; Some (Some p)
  else Some None.

(** The delay goes to offset 24 and the constant 0x19 to offset 56 of the
    frame, over the packet's own fields at 20 and 52. *)
Definition SendPacketRaw1 (a1 : Z) (packetData : mem) (a4 : option mem) (peer : bool)
    (delay : Z) : option (option mem) :=
  if peer then
    f ← raw_frame a1 packetData a4;
    f ← stores f [(24%nat, le32 delay); (56%nat, le32 25)]; Some (Some f)
  else Some None.

(** [send_raw]: the extra length is read at byte 13. *)
Definition send_raw (peer : bool) (a1 : Z) (packetData : option mem) (delay : Z)
    : option (option mem) :=
  match packetData with
  | None => Some None
  | Some src =>
      let packetDataSize := Z.of_nat (length src) in
      if negb peer || (packetDataSize <=? 0) then Some None else
      extraDataLength ← (if (a1 =? 4) && (13 + 4 <=? packetDataSize)
                         then fetch_uint src 13 else Some 0);
      let finalSize := 4 + packetDataSize + extraDataLength in
      if 2 ^ 24 <? finalSize then Some None else
      p ← stores (alloc (Z.to_nat finalSize)) [(0%nat, le32 a1)];
      p ← store_cells p 4 src;
      p ← (if 0 <? extraDataLength
           then store_cells p (Z.to_nat (4 + packetDataSize)) (zalloc (Z.to_nat extraDataLength))
           else Some p);
      p ← (if delay =? 0 then Some p else
           p ← (if 24 + 4 <=? finalSize then store p 24 (le32 delay) else Some p);
           if 56 + 4 <=? finalSize then store p 56 (le32 25) else Some p);
      Some (Some p)
  end.

(** [send_raw2]: the delay is written before the packet is copied. *)
Definition send_raw2 (peer : bool) (a1 : Z) (packetData : mem) (delay : Z)
    : option (option mem) :=
  if peer then
    let size := length packetData in
    ext ← (if a1 =? 4 then extended_bit packetData else Some false);
    if (ext : bool) then
      n ← fetch_uint packetData 52;
      p ← stores (alloc (size + Z.to_nat n + 5)) [(0%nat, le32 4); (24%nat, le32 delay)];
      p ← store_cells p 4 packetData;
      p ← store_cells p (size + 4) (zalloc (Z.to_nat n)); Some (Some p)
    else
      p ← stores (alloc (size + 5)) [(0%nat, le32 a1)];
      p ← store_cells p 4 packetData; Some (Some p)
  else Some None.

(** The typed [send_packet] of both files: type, data, a final zero byte. *)
Definition send_packet (type : Z) (data : option mem) (data_size : nat) : option mem :=
  p ← stores (alloc (5 + data_size)) [(0%nat, le32 type); ((data_size + 4)%nat, [0])];
  match data with
  | Some d => if (data_size <=? length d)%nat then store_cells p 4 (take data_size d) else None
  | None => Some p
  end.

(** ** Incoming packets *)

(** The length is compared with the [int] at offset 56 plus 60: the sum is an [int],
    converted to [unsigned int] for the comparison.  The result is whether
    the pointer is valid, and the packet, whose extra length is cleared
    when it is not an extended packet. *)
Definition GetStructPointerFromTankPacket (packet : mem) : option (bool * mem) :=
  let packetLenght := u32 (Z.of_nat (length packet)) in
  if 60 <=? packetLenght then
    b ← fetch_byte packet 16;
    if Z.land b 8 =? 0 then
      m ← store packet 56 (le32 0); Some (true, m)
    else
      ext ← fetch_int packet 56;
      Some (negb (packetLenght <? u32 (i32 (ext + 60))), packet)
  else Some (false, packet).

(** ** [GUP::GameUpdatePacket] *)

(** One field per union, named by its first use here; an indeterminate
    field of a [malloc]ed packet is [None]. *)
Record GameUpdatePacket := mkGUP {
  m_type : option Z; m_object_type : option Z; m_count1 : option Z; m_count2 : option Z;
  m_net_id : option Z; m_item : option Z; m_flags : option Z; m_float_var : option Z;
  m_int_data : option Z; m_vec_x : option Z; m_vec_y : option Z; m_vec2_x : option Z;
  m_vec2_y : option Z; m_particle_rotation : option Z; m_int_x : option Z;
  m_int_y : option Z; m_data_size : option Z
}.

(** [GameUpdatePacket packet{}] *)
Definition gup_zero : GameUpdatePacket :=
  mkGUP (Some 0) (Some 0) (Some 0) (Some 0) (Some 0) (Some 0) (Some 0) (Some 0)
        (Some 0) (Some 0) (Some 0) (Some 0) (Some 0) (Some 0) (Some 0) (Some 0) (Some 0).

(** A packet from [malloc]. *)
Definition gup_malloc : GameUpdatePacket :=
  mkGUP None None None None None None None None None None None None None None None None None.

Definition cells (n : nat) (v : option Z) : mem :=
  match v with
  | Some z => Some <$> le_encode n z
  | None => alloc n
  end.

(** [data] is the object from [m_data] on: at least the byte [m_data]. *)
Definition gup_cells (g : GameUpdatePacket) (data : mem) : mem :=
  cells 1 (m_type g) ++ cells 1 (m_object_type g) ++ cells 1 (m_count1 g) ++
  cells 1 (m_count2 g) ++ cells 4 (m_net_id g) ++ cells 4 (m_item g) ++
  cells 4 (m_flags g) ++ cells 4 (m_float_var g) ++ cells 4 (m_int_data g) ++
  cells 4 (m_vec_x g) ++ cells 4 (m_vec_y g) ++ cells 4 (m_vec2_x g) ++
  cells 4 (m_vec2_y g) ++ cells 4 (m_particle_rotation g) ++ cells 4 (m_int_x g) ++
  cells 4 (m_int_y g) ++ cells 4 (m_data_size g) ++ data.

Definition sizeof_gup : nat := 57.

(** Whether a pointer is returned; [None] is a read past the packet. *)
Definition DataToUpdatePacket (packet : mem) : option bool :=
  let dataLength := Z.of_nat (length packet) in
  if dataLength <? Z.of_nat sizeof_gup - 5 then Some false else
  flags ← fetch_int packet (4 + 12);
  if Z.land flags 8 =? 0 then Some true else
  size ← fetch_uint packet (4 + 52);
  Some (negb (dataLength <? size + Z.of_nat sizeof_gup)).

(** ** Well-formed values *)

Definition is_u32 (z : Z) : Prop := 0 <= z < 2 ^ 32.

Definition moving_ok (d : PlayerMoving) : Prop :=
  in_i32 (netID d) /\ 0 <= packetType d < 2 ^ 24 /\ in_i32 (characterState d) /\
  in_i32 (plantingTree d) /\ in_i32 (punchX d) /\ in_i32 (punchY d) /\
  is_u32 (x d) /\ is_u32 (y d) /\ is_u32 (XSpeed d) /\ is_u32 (YSpeed d).

(** What a packed [PlayerMoving] carries. *)
Definition carried (d : PlayerMoving) : PlayerMoving :=
  mkMoving (netID d) 0 (packetType d) (characterState d) (plantingTree d) (punchX d)
    (punchY d) 0 (x d) (y d) (XSpeed d) (YSpeed d) 0 0.

(** ** Lemmas *)

Arguments le32 : simpl never.

(** The 56 bytes of a packed move: the fourth byte of the packet type is
    overwritten by [some_extra], whose upper bytes the net id overwrites. *)
Definition moving_bytes (d : PlayerMoving) (b3 : Z) : list Z :=
  take 3 (le32 (packetType d)) ++ [b3] ++ le32 (netID d) ++ replicate 4 0 ++
  le32 (characterState d) ++ replicate 4 0 ++ le32 (plantingTree d) ++ le32 (x d) ++
  le32 (y d) ++ le32 (XSpeed d) ++ le32 (YSpeed d) ++ le32 (packet_int_40 d) ++
  le32 (punchX d) ++ le32 (punchY d) ++ replicate 4 0.

Lemma packPlayerMoving_56 d extra :
  packPlayerMoving d 56 extra = Some (Some <$> moving_bytes d (extra mod 256)).
Proof. reflexivity. Qed.

Lemma packPlayerMoving_eq d k extra :
  packPlayerMoving d (56 + k) extra =
    Some ((Some <$> moving_bytes d (extra mod 256)) ++ zalloc k).
Proof.
  unfold packPlayerMoving. rewrite zalloc_app.
  by rewrite (stores_app _ _ _ _ (packPlayerMoving_56 d extra)).
Qed.

Lemma type_bytes z : 0 <= z < 2 ^ 24 -> take 3 (le32 z) ++ [0] = le32 z.
Proof.
  intros Hz. unfold le32. cbn [le_encode take app]. do 3 f_equal.
  rewrite !Z.div_div by lia. rewrite Z.div_small by lia. done.
Qed.

Lemma moving_bytes_type d :
  0 <= packetType d < 2 ^ 24 ->
  moving_bytes d 0 = le32 (packetType d) ++ drop 4 (moving_bytes d 0).
Proof. intros H. rewrite <- (type_bytes (packetType d)) by done. reflexivity. Qed.

Lemma fetch_int_app m1 m2 o z :
  fetch m1 o 4 = Some (le32 z) -> in_i32 z -> fetch_int (m1 ++ m2) o = Some z.
Proof.
  intros H Hz. unfold fetch_int. rewrite (fetch_app _ _ _ _ _ H). cbn [mbind option_bind].
  by rewrite i32_decode_encode.
Qed.

Lemma fetch_uint_app m1 m2 o z :
  fetch m1 o 4 = Some (le32 z) -> is_u32 z -> fetch_uint (m1 ++ m2) o = Some z.
Proof.
  intros H Hz. unfold fetch_uint. rewrite (fetch_app _ _ _ _ _ H). cbn [mbind option_bind].
  by rewrite u32_decode_encode.
Qed.

(** ** Properties of the move packets *)

(** Round trip of a move packet. Packing a [PlayerMoving] whose packet
    type fits three bytes into a buffer of 56 bytes or more stays inside
    the buffer, and unpacking gives back the net id, the type, the state,
    the item, the position, the speed and the tile; the target id, the
    second net id and the rotation are not carried back. *)
Theorem unpack_packPlayerMoving d k m :
  moving_ok d -> packPlayerMoving d (56 + k) 0 = Some m ->
  unpackPlayerMoving (Some m) = Some (carried d).
Proof.
  intros (H1 & H2 & H3 & H4 & H5 & H6 & H7 & H8 & H9 & H10) Hp.
  rewrite packPlayerMoving_eq, Z.mod_0_l in Hp by lia. apply Some_inj in Hp as <-.
  unfold unpackPlayerMoving.
  rewrite (fetch_int_app _ _ 0 (packetType d)), (fetch_int_app _ _ 4 (netID d)),
    (fetch_int_app _ _ 8 0), (fetch_int_app _ _ 12 (characterState d)),
    (fetch_int_app _ _ 20 (plantingTree d)), (fetch_uint_app _ _ 24 (x d)),
    (fetch_uint_app _ _ 28 (y d)), (fetch_uint_app _ _ 32 (XSpeed d)),
    (fetch_uint_app _ _ 36 (YSpeed d)), (fetch_int_app _ _ 44 (punchX d)),
    (fetch_int_app _ _ 48 (punchY d)); try done; try (unfold in_i32 in *; lia).
  rewrite moving_bytes_type by done. reflexivity.
Qed.

Lemma unpack_packPlayerMoving_witness :
  exists m, packPlayerMoving (mkMoving 7 1 3 2 18 50 20 9 1086324736 0 5 6 1 2) 56 0 = Some m /\
  unpackPlayerMoving (Some m) = Some (mkMoving 7 0 3 2 18 50 20 0 1086324736 0 5 6 0 0).
Proof.
  eexists. split; [reflexivity|].
  apply (unpack_packPlayerMoving (mkMoving 7 1 3 2 18 50 20 9 1086324736 0 5 6 1 2) 0);
    [|reflexivity].
  unfold moving_ok, in_i32, is_u32; simpl. lia.
Defined.

(** The optimised packer is the packer. On any buffer of at least 56
    bytes and for packet types below 2^24, the stack variant leaves what
    [packPlayerMoving] allocates, whatever the buffer held, and does not
    touch what follows. *)
Theorem packPlayerMovingStack_equiv d data :
  0 <= packetType d < 2 ^ 24 -> (56 <= length data)%nat ->
  packPlayerMovingStack data d =
    (m ← packPlayerMoving d 56 0; Some (m ++ drop 56 data)).
Proof.
  intros Ht Hl. rewrite packPlayerMoving_56. unfold packPlayerMovingStack, store_cells.
  change (0 + length (zalloc 56))%nat with 56%nat.
  destruct (Nat.leb_spec 56 (length data)); [|lia].
  change (take 0 data) with (@nil (option Z)). rewrite app_nil_l. cbn [mbind option_bind].
  rewrite (stores_app _ _ _ (Some <$> moving_bytes d 0)); [done|].
  rewrite moving_bytes_type by done. reflexivity.
Qed.

Lemma packPlayerMovingStack_equiv_witness :
  packPlayerMovingStack (alloc 60) (mkMoving 7 1 3 2 18 50 20 9 4 5 6 7 1 2) =
  (m ← packPlayerMoving (mkMoving 7 1 3 2 18 50 20 9 4 5 6 7 1 2) 56 0;
   Some (m ++ drop 56 (alloc 60))).
Proof. apply packPlayerMovingStack_equiv; simpl; lia. Defined.

(** ** [send_raw] *)

Lemma state_shift z : le_decode (le_encode 3 (z / 256) ++ [0]) = u32 z / 256.
Proof.
  assert (forall bs, le_decode (bs ++ [0]) = le_decode bs) as E.
  { induction bs as [|b bs IH]; simpl; [done|]. by rewrite IH. }
  rewrite E, le_decode_encode. unfold uwrap.
  change (256 ^ Z.of_nat 3) with (2 ^ 24). change (2 ^ 32) with (256 * 2 ^ 24).
  rewrite Z.rem_mul_r by lia.
  rewrite (Z.mul_comm 256), Z.div_add by lia. rewrite (Z.div_small (z mod 256)); [lia|].
  apply Z.mod_pos_bound. lia.
Qed.

Lemma moving_bytes_length d b : length (moving_bytes d b) = 56%nat.
Proof. done. Qed.

Lemma fetch_state_shift d b :
  fetch_uint (Some <$> moving_bytes d b) 13 = Some (u32 (characterState d) / 256).
Proof. rewrite <- state_shift. reflexivity. Qed.

(** The frame of a move packet. [send_raw] takes the bytes 13 to 16 of
    the packet for the length of extra data, which are the upper bytes of
    the player's state: the frame is the type, the packet, and one zero
    byte for every 256 of the state, and a state that asks for more than
    16 MB is never sent. *)
Theorem send_raw_moving d :
  send_raw true 4 (Some (Some <$> moving_bytes d 0)) 0 =
    let extra := u32 (characterState d) / 256 in
    if 2 ^ 24 <? 60 + extra then Some None
    else Some (Some (Some <$> le32 4 ++ moving_bytes d 0 ++ replicate (Z.to_nat extra) 0)).
Proof.
  unfold send_raw. rewrite length_fmap, moving_bytes_length.
  change (negb true || (Z.of_nat 56 <=? 0)) with false.
  change ((4 =? 4) && (13 + 4 <=? Z.of_nat 56)) with true.
  cbv beta iota zeta. rewrite fetch_state_shift. cbn [mbind option_bind].
  set (e := u32 (characterState d) / 256).
  assert (0 <= e) as He by (apply Z.div_pos; [apply u32_range|lia]).
  change (4 + Z.of_nat 56 + e) with (60 + e).
  destruct (2 ^ 24 <? 60 + e); [done|].
  replace (Z.to_nat (60 + e)) with (4 + (56 + Z.to_nat e))%nat by lia.
  rewrite !alloc_app. cbn [stores].
  pose proof (store_next [] 0 (le32 4) 4 (alloc 56 ++ alloc (Z.to_nat e)) eq_refl eq_refl) as E1.
  rewrite !app_nil_l in E1. rewrite E1; clear E1. cbn [mbind option_bind].
  rewrite (store_cells_next (Some <$> le32 4) 4 (Some <$> moving_bytes d 0) 56) by done.
  cbn [mbind option_bind]. change (4 + Z.of_nat 56) with (Z.of_nat 60).
  rewrite Nat2Z.id. change (0 =? 0) with true. cbv iota.
  destruct (Z.ltb_spec 0 e).
  - rewrite app_assoc. rewrite <- (app_nil_r (alloc (Z.to_nat e))).
    rewrite (store_cells_next _ 60 (zalloc (Z.to_nat e)) (Z.to_nat e) []);
      [|done|by unfold zalloc; rewrite length_replicate].
    cbn [mbind option_bind]. rewrite app_nil_r, <- fmap_app, app_assoc.
    rewrite (fmap_app _ (le32 4 ++ moving_bytes d 0)). unfold zalloc. by rewrite fmap_replicate.
  - assert (e = 0) as -> by lia. cbn [mbind option_bind Z.to_nat replicate alloc].
    by rewrite !fmap_app, !app_nil_r.
Qed.

(** ** Incoming packets *)

Definition written (bs : list Z) : mem := Some <$> bs.

Definition extra_len (bs : list Z) : Z := i32 (le_decode (take 4 (drop 56 bs))).

Lemma read_at_in bs o k : (o + k <= length bs)%nat -> read_at bs o k = Some (take k (drop o bs)).
Proof. intros H. unfold read_at. by rewrite (proj2 (Nat.leb_le _ _) H). Qed.

(** Validation of incoming extended packets. For a received packet of
    60 bytes or more whose extended bit is set, the check reads nothing
    outside the packet, leaves it as it is and accepts it exactly when the
    announced extra length is between -60 and the bytes that follow: an
    accepted length is covered by the packet, and a negative one down to
    -60 is accepted too. *)
Theorem GetStructPointer_extended bs :
  60 <= Z.of_nat (length bs) < 2 ^ 31 ->
  Z.land (le_decode (take 1 (drop 16 bs))) 8 <> 0 ->
  exists r, GetStructPointerFromTankPacket (written bs) = Some (r, written bs) /\
    (r = true <-> -60 <= extra_len bs <= Z.of_nat (length bs) - 60).
Proof.
  intros Hl Hb. unfold GetStructPointerFromTankPacket, written.
  rewrite length_fmap, u32_small by lia.
  rewrite (proj2 (Z.leb_le _ _)) by lia.
  unfold fetch_byte, fetch_int. rewrite !fetch_read_at, !read_at_in by lia.
  cbn [mbind option_bind]. rewrite (proj2 (Z.eqb_neq _ _)) by done.
  eexists. split; [reflexivity|]. fold (extra_len bs).
  pose proof (i32_range (le_decode (take 4 (drop 56 bs)))) as Hr. fold (extra_len bs) in Hr.
  rewrite negb_true_iff, Z.ltb_ge.
  assert (u32 (i32 (extra_len bs + 60)) = u32 (extra_len bs + 60)) as ->.
  { unfold uwrap, swrap. change (32 - 1) with 31. rewrite Zminus_mod_idemp_l.
    f_equal. lia. }
  unfold uwrap. destruct (Z.ltb_spec (extra_len bs + 60) 0).
  - rewrite <- (Z_mod_plus_full _ 1). rewrite Z.mod_small by lia. lia.
  - rewrite Z.mod_small by lia. lia.
Qed.

Lemma GetStructPointer_extended_witness :
  exists r, GetStructPointerFromTankPacket
      (written (replicate 16 0 ++ [8] ++ replicate 39 0 ++ [255; 255; 255; 255])) =
    Some (r, written (replicate 16 0 ++ [8] ++ replicate 39 0 ++ [255; 255; 255; 255])) /\
    (r = true <-> -60 <= -1 <= 0).
Proof.
  apply (GetStructPointer_extended
    (replicate 16 0 ++ [8] ++ replicate 39 0 ++ [255; 255; 255; 255]));
    [simpl; lia|by vm_compute].
Defined.

(** ** [GUP] packets *)

Lemma cells_length n v : length (cells n v) = n.
Proof.
  destruct v; simpl; [by rewrite length_fmap, le_encode_length|].
  by unfold alloc; rewrite length_replicate.
Qed.

(** The 56 bytes before [m_data], around the flags and the data size. *)
Definition gup_before_flags (g : GameUpdatePacket) : mem :=
  cells 1 (m_type g) ++ cells 1 (m_object_type g) ++ cells 1 (m_count1 g) ++
  cells 1 (m_count2 g) ++ cells 4 (m_net_id g) ++ cells 4 (m_item g).

Definition gup_between (g : GameUpdatePacket) : mem :=
  cells 4 (m_float_var g) ++ cells 4 (m_int_data g) ++
  cells 4 (m_vec_x g) ++ cells 4 (m_vec_y g) ++ cells 4 (m_vec2_x g) ++
  cells 4 (m_vec2_y g) ++ cells 4 (m_particle_rotation g) ++ cells 4 (m_int_x g) ++
  cells 4 (m_int_y g).

Lemma gup_cells_split g data :
  gup_cells g data = gup_before_flags g ++ cells 4 (m_flags g) ++ gup_between g ++
                     cells 4 (m_data_size g) ++ data.
Proof. unfold gup_cells, gup_before_flags, gup_between. by rewrite <- !app_assoc. Qed.

Lemma gup_before_flags_length g : length (gup_before_flags g) = 12%nat.
Proof. unfold gup_before_flags. by rewrite !length_app, !cells_length. Qed.

Lemma gup_between_length g : length (gup_between g) = 36%nat.
Proof. unfold gup_between. by rewrite !length_app, !cells_length. Qed.

Lemma gup_cells_length g data : length (gup_cells g data) = (56 + length data)%nat.
Proof.
  rewrite gup_cells_split, !length_app, gup_before_flags_length, gup_between_length,
    !cells_length. lia.
Qed.

Lemma send_packet_eq type d :
  send_packet type (Some d) (length d) =
    Some ((Some <$> le32 type) ++ d ++ [Some 0]).
Proof.
  unfold send_packet. replace (5 + length d)%nat with (4 + (length d + 1))%nat by lia.
  rewrite !alloc_app. cbn [stores].
  pose proof (store_next [] 0 (le32 type) 4 (alloc (length d) ++ alloc 1) eq_refl eq_refl) as E.
  rewrite !app_nil_l in E. rewrite E; clear E. cbn [mbind option_bind].
  rewrite app_assoc. change (alloc 1) with (@None Z :: []).
  rewrite (store_overwrite ((Some <$> le32 type) ++ alloc (length d)));
    [|rewrite length_app, length_fmap; unfold alloc; rewrite length_replicate;
      unfold le32; rewrite le_encode_length; lia].
  cbn [mbind option_bind]. rewrite Nat.leb_refl, take_ge by lia. rewrite <- app_assoc.
  by rewrite (store_cells_next (Some <$> le32 type) 4 d (length d)).
Qed.

(** The server's packets pass the server's check. A [GUP] packet with
    the extended flag, a data size [ds] and [ds] bytes of data (and the one
    byte the structure ends with), sent as type 4, gives a frame that
    [DataToUpdatePacket] reads within bounds and accepts, and whose payload
    is the data. *)
Theorem DataToUpdatePacket_accepts g data fl ds :
  m_flags g = Some fl -> m_data_size g = Some ds -> in_i32 fl -> Z.land fl 8 <> 0 ->
  is_u32 ds -> length data = (Z.to_nat ds + 1)%nat ->
  exists frame, send_packet 4 (Some (gup_cells g data)) (sizeof_gup + Z.to_nat ds) = Some frame /\
    DataToUpdatePacket frame = Some true /\
    take (Z.to_nat ds) (drop 60 frame) = take (Z.to_nat ds) data.
Proof.
  intros Hf Hs Hfl Hb Hds Hl. unfold is_u32 in Hds.
  replace (sizeof_gup + Z.to_nat ds)%nat with (length (gup_cells g data))
    by (rewrite gup_cells_length; unfold sizeof_gup; lia).
  rewrite send_packet_eq. eexists. split; [reflexivity|]. split.
  - unfold DataToUpdatePacket.
    rewrite !length_app, length_fmap, gup_cells_length. unfold sizeof_gup.
    unfold le32 at 1. rewrite le_encode_length. cbn [length].
    destruct (Z.ltb_spec (Z.of_nat (4 + (56 + length data + 1))) (Z.of_nat 57 - 5)); [lia|].
    rewrite gup_cells_split, Hf, Hs, <- !app_assoc. unfold fetch_int, fetch_uint.
    cbn [cells]. change (4 + 12)%nat with 16%nat.
    pose proof (fetch_bytes ((Some <$> le32 4) ++ gup_before_flags g)
      (gup_between g ++ (Some <$> le_encode 4 ds) ++ data ++ [Some 0]) (le_encode 4 fl) 4 16)
      as E1. rewrite <- !app_assoc in E1.
    rewrite (E1 ltac:(by rewrite length_app, gup_before_flags_length) eq_refl); clear E1.
    cbn [mbind option_bind]. fold (le32 fl). rewrite i32_decode_encode by done.
    rewrite (proj2 (Z.eqb_neq _ _)) by done.
    pose proof (fetch_bytes ((Some <$> le32 4) ++ gup_before_flags g ++ (Some <$> le32 fl) ++
      gup_between g) (data ++ [Some 0]) (le_encode 4 ds) 4 56) as E2.
    rewrite <- !app_assoc in E2. change (4 + 52)%nat with 56%nat.
    rewrite E2; [|by rewrite !length_app, gup_before_flags_length, gup_between_length|done].
    cbn [mbind option_bind]. fold (le32 ds). rewrite u32_decode_encode by done.
    f_equal. apply negb_true_iff, Z.ltb_ge. lia.
  - rewrite gup_cells_split, <- !app_assoc.
    rewrite !app_assoc. rewrite <- (app_assoc _ data).
    rewrite drop_app_length'.
    + by rewrite take_app_le by lia.
    + rewrite !length_app, gup_before_flags_length, gup_between_length, !cells_length. done.
Qed.

Lemma DataToUpdatePacket_accepts_witness :
  exists frame,
    send_packet 4 (Some (gup_cells (mkGUP (Some 28) None None None None None (Some 8) None
      None None None None None None (Some 0) (Some 3) (Some 2)) [Some 1; Some 2; None]))
      (sizeof_gup + 2) = Some frame /\
    DataToUpdatePacket frame = Some true /\ take 2 (drop 60 frame) = [Some 1; Some 2].
Proof.
  apply (DataToUpdatePacket_accepts (mkGUP (Some 28) None None None None None (Some 8) None
      None None None None None None (Some 0) (Some 3) (Some 2)) [Some 1; Some 2; None] 8 2);
    try done; unfold in_i32, is_u32; lia.
Defined.

(** A packet of 52 to 59 bytes with the extended flag makes the check read
    the data size past the end of the packet. *)
Example DataToUpdatePacket_short :
  DataToUpdatePacket (written (replicate 16 0 ++ [8] ++ replicate 35 0)) = None.
Proof. by vm_compute. Qed.

(** An accepted packet may announce three bytes more than it holds. *)
Example DataToUpdatePacket_over :
  DataToUpdatePacket (written (replicate 16 0 ++ [8] ++ replicate 39 0 ++ le32 3)) = Some true.
Proof. by vm_compute. Qed.

End Tank.
