(* ===== verification/AntiDDoS.v ===== *)
(** * AntiDDoS: the per-address flood tables

    Models [src/NopySource/Handle/AntiDDoS.h].  The static members of the
    class are the record [State]; the clock reading [now_ms()] of each
    operation is its argument [now]; an [ENetPeer*] is [None] for a null
    pointer and [Some host] for a peer whose [address.host] is [host].
    The mutex serialises the operations, so a run of the class is a
    sequence of them: the relation [step]. *)
From S2P Require Import Prelude.

Module AntiDDoS.

(** ** Data *)

Record FloodEntry := mkFlood {
  first_packet_time : Z;
  packet_count : Z;
  violation_count : Z;
  last_violation_time : Z;
  ban_until : Z;
  is_banned : bool
}.

Definition flood_default : FloodEntry := mkFlood 0 0 0 0 0 false.

Record ConnectionEntry := mkConn {
  first_connect_time : Z;
  connect_count : Z;
  last_connect_time : Z;
  conn_ban_until : Z;
  conn_is_banned : bool
}.

Definition conn_default : ConnectionEntry := mkConn 0 0 0 0 false.

Record AntiDDoSConfig := mkConfig {
  max_packets_per_second : Z;
  max_connect_per_minute : Z;
  max_invalid_packets : Z;
  max_text_packets_per_second : Z;
  max_tank_packets_per_second : Z;
  max_login_attempts_per_minute : Z;
  violation_threshold : Z;
  ban_duration_seconds : Z;
  escalation_multiplier : Z;
  max_ban_duration_seconds : Z;
  cleanup_interval_seconds : Z;
  max_payload_size : Z;
  max_peers_per_ip : Z;
  enabled : bool;
  log_violations : bool
}.

Definition config_default : AntiDDoSConfig :=
  mkConfig 80 15 10 30 60 5 3 300 2 3600 120 8192 3 true true.

Record State := mkState {
  m_flood_table : gmap Z FloodEntry;
  m_connect_table : gmap Z ConnectionEntry;
  m_text_flood_table : gmap Z FloodEntry;
  m_tank_flood_table : gmap Z FloodEntry;
  m_invalid_packet_table : gmap Z Z;
  m_login_attempt_table : gmap Z Z;
  m_peer_count_table : gmap Z Z;
  m_config : AntiDDoSConfig;
  m_last_cleanup : Z;
  m_total_blocked : Z;
  m_total_packets : Z
}.

Definition initial : State :=
  mkState ∅ ∅ ∅ ∅ ∅ ∅ ∅ config_default 0 0 0.

(** [GetConfig] hands out a reference the caller may assign through. *)
Definition with_config (c : AntiDDoSConfig) (s : State) : State :=
  let 'mkState f cn tx tk iv lg pc _ cl bl pk := s in
  mkState f cn tx tk iv lg pc c cl bl pk.

Definition Initialize (now : Z) (s : State) : State :=
  let 'mkState f cn tx tk iv lg pc c _ bl pk := s in
  mkState f cn tx tk iv lg pc c now bl pk.

Definition get_ip (peer : option Z) : Z := default 0 peer.

(** [std::to_string] of the four octets, low byte first. *)
Definition ip_to_string (ip : Z) : string :=
  pretty (Z.land ip 255) +:+ "." +:+
  pretty (Z.land (Z.shiftr ip 8) 255) +:+ "." +:+
  pretty (Z.land (Z.shiftr ip 16) 255) +:+ "." +:+
  pretty (Z.land (Z.shiftr ip 24) 255).

(** ** Ban duration *)

(** The loop [for (int i = 1; i < violations && i < 5; i++)]: [fuel]
    bounds the iterations by the four the second conjunct allows. *)
Fixpoint ban_loop (fuel : nat) (mult i violations duration : Z) : Z :=
  match fuel with
  | O => duration
  | S fuel =>
      if (i <? violations) && (i <? 5)
      then ban_loop fuel mult (i + 1) violations (i32 (duration * mult))
      else duration
  end.

Definition calculate_ban_duration (c : AntiDDoSConfig) (violations : Z) : Z :=
  let duration :=
    ban_loop 4 (escalation_multiplier c) 1 violations (ban_duration_seconds c) in
  if max_ban_duration_seconds c <? duration
  then max_ban_duration_seconds c else duration.

(** ** One flood entry *)

(** The body of [check_flood_generic] on the entry it looks up: the
    verdict, the entry afterwards and whether [m_total_blocked] grows. *)
Definition check_entry (c : AntiDDoSConfig) (now max_per_second : Z)
    (e0 : FloodEntry) : bool * FloodEntry * bool :=
  if is_banned e0 && (now <? ban_until e0) then (true, e0, false) else
  let e :=
    if is_banned e0 then
      mkFlood (first_packet_time e0) 0 0 (last_violation_time e0)
              (ban_until e0) false
    else e0 in
  if 1000 <? now - first_packet_time e then
    (false, mkFlood now 1 (violation_count e) (last_violation_time e)
                    (ban_until e) (is_banned e), false)
  else
    let count := i32 (packet_count e + 1) in
    if max_per_second <? count then
      let v := i32 (violation_count e + 1) in
      if violation_threshold c <=? v then
        (true, mkFlood (first_packet_time e) count v now
                       (now + calculate_ban_duration c v * 1000) true, true)
      else
        (true, mkFlood (first_packet_time e) count v now
                       (ban_until e) (is_banned e), false)
    else
      (false, mkFlood (first_packet_time e) count (violation_count e)
                      (last_violation_time e) (ban_until e) (is_banned e), false).

(** [auto& entry = table[ip]] creates the default entry when absent. *)
Definition check_flood_generic (c : AntiDDoSConfig)
    (table : gmap Z FloodEntry) (now ip max_per_second : Z)
    : bool * gmap Z FloodEntry * bool :=
  let '(r, e, blocked) :=
    check_entry c now max_per_second (default flood_default (table !! ip)) in
  (r, <[ip := e]> table, blocked).

Definition bump (b : bool) (n : Z) : Z := if b then n + 1 else n.

(** ** The public checks *)

Definition CheckPacketFlood (now : Z) (peer : option Z) (s : State) : State * bool :=
  let 'mkState f cn tx tk iv lg pc c cl bl pk := s in
  if negb (enabled c) || bool_decide (peer = None) then (s, false) else
  let '(r, f', b) :=
    check_flood_generic c f now (get_ip peer) (max_packets_per_second c) in
  (mkState f' cn tx tk iv lg pc c cl (bump b bl) (pk + 1), r).

Definition CheckTextFlood (now : Z) (peer : option Z) (s : State) : State * bool :=
  let 'mkState f cn tx tk iv lg pc c cl bl pk := s in
  if negb (enabled c) || bool_decide (peer = None) then (s, false) else
  let '(r, tx', b) :=
    check_flood_generic c tx now (get_ip peer) (max_text_packets_per_second c) in
  (mkState f cn tx' tk iv lg pc c cl (bump b bl) pk, r).

Definition CheckTankPacketFlood (now : Z) (peer : option Z) (s : State) : State * bool :=
  let 'mkState f cn tx tk iv lg pc c cl bl pk := s in
  if negb (enabled c) || bool_decide (peer = None) then (s, false) else
  let '(r, tk', b) :=
    check_flood_generic c tk now (get_ip peer) (max_tank_packets_per_second c) in
  (mkState f cn tx tk' iv lg pc c cl (bump b bl) pk, r).

Definition check_connection (c : AntiDDoSConfig) (now : Z) (e0 : ConnectionEntry)
    : bool * ConnectionEntry * bool :=
  if conn_is_banned e0 && (now <? conn_ban_until e0) then (true, e0, false) else
  let e :=
    if conn_is_banned e0 then
      mkConn (first_connect_time e0) 0 (last_connect_time e0) (conn_ban_until e0) false
    else e0 in
  if 60000 <? now - first_connect_time e then
    (false, mkConn now 1 now (conn_ban_until e) (conn_is_banned e), false)
  else
    let count := i32 (connect_count e + 1) in
    if max_connect_per_minute c <? count then
      (true, mkConn (first_connect_time e) count now
                    (now + ban_duration_seconds c * 1000) true, true)
    else
      (false, mkConn (first_connect_time e) count now
                     (conn_ban_until e) (conn_is_banned e), false).

Definition CheckConnectionFlood (now : Z) (peer : option Z) (s : State) : State * bool :=
  let 'mkState f cn tx tk iv lg pc c cl bl pk := s in
  if negb (enabled c) || bool_decide (peer = None) then (s, false) else
  let ip := get_ip peer in
  let '(r, e, b) := check_connection c now (default conn_default (cn !! ip)) in
  (mkState f (<[ip := e]> cn) tx tk iv lg pc c cl (bump b bl) pk, r).

Definition ban_flood (until : Z) (e : FloodEntry) : FloodEntry :=
  mkFlood (first_packet_time e) (packet_count e) (violation_count e)
          (last_violation_time e) until true.

Definition ban_conn (until : Z) (e : ConnectionEntry) : ConnectionEntry :=
  mkConn (first_connect_time e) (connect_count e) (last_connect_time e) until true.

Definition CheckInvalidPacket (now : Z) (peer : option Z) (s : State) : State * bool :=
  let 'mkState f cn tx tk iv lg pc c cl bl pk := s in
  if negb (enabled c) || bool_decide (peer = None) then (s, false) else
  let ip := get_ip peer in
  let n := i32 (default 0 (iv !! ip) + 1) in
  let iv' := <[ip := n]> iv in
  if max_invalid_packets c <? n then
    let e := ban_flood (now + ban_duration_seconds c * 1000)
                       (default flood_default (f !! ip)) in
    (mkState (<[ip := e]> f) cn tx tk iv' lg pc c cl (bl + 1) pk, true)
  else (mkState f cn tx tk iv' lg pc c cl bl pk, false).

Definition CheckLoginFlood (now : Z) (peer : option Z) (s : State) : State * bool :=
  let 'mkState f cn tx tk iv lg pc c cl bl pk := s in
  if negb (enabled c) || bool_decide (peer = None) then (s, false) else
  let ip := get_ip peer in
  let n := i32 (default 0 (lg !! ip) + 1) in
  let lg' := <[ip := n]> lg in
  if max_login_attempts_per_minute c <? n then
    let e := ban_conn (now + ban_duration_seconds c * 1000)
                      (default conn_default (cn !! ip)) in
    (mkState f (<[ip := e]> cn) tx tk iv lg' pc c cl (bl + 1) pk, true)
  else (mkState f cn tx tk iv lg' pc c cl bl pk, false).

(** [(int)packet->dataLength > max_payload_size]; [None] is a null packet. *)
Definition CheckPayloadSize (packet : option Z) (s : State) : bool :=
  match packet with
  | None => false
  | Some dataLength =>
      enabled (m_config s) && (max_payload_size (m_config s) <? i32 dataLength)
  end.

Definition CheckMaxPeersPerIP (peer : option Z) (s : State) : bool :=
  if negb (enabled (m_config s)) || bool_decide (peer = None) then false else
  match m_peer_count_table s !! get_ip peer with
  | None => false
  | Some n => max_peers_per_ip (m_config s) <=? n
  end.

Definition OnPeerConnect (peer : option Z) (s : State) : State :=
  let 'mkState f cn tx tk iv lg pc c cl bl pk := s in
  match peer with
  | None => s
  | Some ip =>
      mkState f cn tx tk iv lg (<[ip := i32 (default 0 (pc !! ip) + 1)]> pc) c cl bl pk
  end.

Definition OnPeerDisconnect (peer : option Z) (s : State) : State :=
  let 'mkState f cn tx tk iv lg pc c cl bl pk := s in
  match peer with
  | None => s
  | Some ip =>
      let n := default 0 (pc !! ip) in
      let n' := if 0 <? n then i32 (n - 1) else n in
      let pc' := if n' =? 0 then delete ip pc else <[ip := n']> pc in
      mkState f cn tx tk iv lg pc' c cl bl pk
  end.

Definition IsBanned (now : Z) (peer : option Z) (s : State) : bool :=
  if negb (enabled (m_config s)) || bool_decide (peer = None) then false else
  let ip := get_ip peer in
  match m_flood_table s !! ip with
  | Some e => is_banned e && (now <? ban_until e)
  | None => false
  end ||
  match m_connect_table s !! ip with
  | Some e => conn_is_banned e && (now <? conn_ban_until e)
  | None => false
  end.

Definition BanIP (now : Z) (peer : option Z) (duration_seconds : Z) (s : State) : State :=
  let 'mkState f cn tx tk iv lg pc c cl bl pk := s in
  match peer with
  | None => s
  | Some ip =>
      let e := ban_flood (now + duration_seconds * 1000)
                         (default flood_default (f !! ip)) in
      mkState (<[ip := e]> f) cn tx tk iv lg pc c cl (bl + 1) pk
  end.

Definition UnbanIP (ip : Z) (s : State) : State :=
  let 'mkState f cn tx tk iv lg pc c cl bl pk := s in
  mkState (delete ip f) (delete ip cn) (delete ip tx) (delete ip tk)
          (delete ip iv) (delete ip lg) pc c cl bl pk.

Definition flood_stale (now : Z) (e : FloodEntry) : bool :=
  if negb (is_banned e) && (60000 <? now - first_packet_time e) then true
  else is_banned e && (ban_until e <=? now).

Definition conn_stale (now : Z) (e : ConnectionEntry) : bool :=
  if negb (conn_is_banned e) && (120000 <? now - last_connect_time e) then true
  else conn_is_banned e && (conn_ban_until e <=? now).

Definition cleanup_flood (now : Z) (t : gmap Z FloodEntry) : gmap Z FloodEntry :=
  filter (λ kv, flood_stale now kv.2 = false) t.

Definition cleanup_conn (now : Z) (t : gmap Z ConnectionEntry) : gmap Z ConnectionEntry :=
  filter (λ kv, conn_stale now kv.2 = false) t.

Definition Cleanup (now : Z) (s : State) : State :=
  let 'mkState f cn tx tk iv lg pc c cl bl pk := s in
  if now - cl <? cleanup_interval_seconds c * 1000 then s else
  mkState (cleanup_flood now f) (cleanup_conn now cn) (cleanup_flood now tx)
          (cleanup_flood now tk) ∅ ∅ pc c now bl pk.

Definition active_bans (now : Z) (s : State) : Z :=
  Z.of_nat (size (filter (λ kv : Z * FloodEntry,
    is_banned kv.2 && (now <? ban_until kv.2) = true) (m_flood_table s))) +
  Z.of_nat (size (filter (λ kv : Z * ConnectionEntry,
    conn_is_banned kv.2 && (now <? conn_ban_until kv.2) = true) (m_connect_table s))).

Definition newline : string := String (Ascii.ascii_of_nat 10) EmptyString.

Definition GetStats (now : Z) (s : State) : string :=
  "`2[Anti-DDoS] `wStats:" +:+ newline +:+
  "`wTotal Packets: `2" +:+ pretty (m_total_packets s) +:+ newline +:+
  "`wBlocked: `4" +:+ pretty (m_total_blocked s) +:+ newline +:+
  "`wActive Bans: `4" +:+ pretty (active_bans now s) +:+ newline +:+
  "`wTracked IPs: `w" +:+ pretty (size (m_flood_table s)) +:+ newline +:+
  "`wConnections Tracked: `w" +:+ pretty (size (m_connect_table s)).

Definition ResetStats (s : State) : State :=
  let 'mkState f cn tx tk iv lg pc c cl _ _ := s in
  mkState f cn tx tk iv lg pc c cl 0 0.

(** ** Runs of the per-entry check *)

(** The verdicts of a sequence of calls for one address, in order. *)
Fixpoint run_entry (c : AntiDDoSConfig) (max_per_second : Z) (times : list Z)
    (e : FloodEntry) : list bool * FloodEntry :=
  match times with
  | [] => ([], e)
  | now :: times =>
      let '(r, e1, _) := check_entry c now max_per_second e in
      let '(rs, e2) := run_entry c max_per_second times e1 in
      (r :: rs, e2)
  end.

(** The verdicts of a sequence of calls for many addresses on one table. *)
Fixpoint run_table (c : AntiDDoSConfig) (max_per_second : Z) (calls : list (Z * Z))
    (table : gmap Z FloodEntry) : list (Z * bool) :=
  match calls with
  | [] => []
  | (now, ip) :: calls =>
      let '(r, table', _) := check_flood_generic c table now ip max_per_second in
      (ip, r) :: run_table c max_per_second calls table'
  end.

Definition verdicts_of (ip : Z) (rs : list (Z * bool)) : list bool :=
  (filter (λ ir, ir.1 = ip) rs).*2.

Definition times_of (ip : Z) (calls : list (Z * Z)) : list Z :=
  (filter (λ ti, ti.2 = ip) calls).*1.

Definition accepted (rs : list bool) : Z := Z.of_nat (length (filter (λ r, r = false) rs)).

(** Times that never decrease, from [t0] on. *)
Fixpoint monotone_from (t0 : Z) (times : list Z) : Prop :=
  match times with
  | [] => True
  | t :: times => t0 <= t /\ monotone_from t times
  end.

(** ** Configurations and entries the checks keep well formed *)

Definition config_ok (c : AntiDDoSConfig) : Prop :=
  1 <= violation_threshold c <= 1000000 /\
  1 < calculate_ban_duration c (violation_threshold c) /\
  1 < ban_duration_seconds c.

(** The invariant of an entry last touched at time [t]. *)
Definition entry_ok (c : AntiDDoSConfig) (max_per_second t : Z) (e : FloodEntry) : Prop :=
  first_packet_time e <= t /\
  0 <= packet_count e <= max_per_second + violation_count e /\
  0 <= violation_count e <= violation_threshold c /\
  (is_banned e = false -> violation_count e < violation_threshold c) /\
  (is_banned e = true -> first_packet_time e + 1000 < ban_until e).

Definition table_ok (c : AntiDDoSConfig) (max t : Z) : gmap Z FloodEntry -> Prop :=
  map_Forall (λ _ e, entry_ok c max t e).

Definition conn_ok (t : Z) (e : ConnectionEntry) : Prop :=
  first_connect_time e <= t /\ last_connect_time e <= t.

Definition limits_ok (c : AntiDDoSConfig) : Prop :=
  config_ok c /\
  (1 <= max_packets_per_second c <= 1000000) /\
  (1 <= max_text_packets_per_second c <= 1000000) /\
  (1 <= max_tank_packets_per_second c <= 1000000).

Definition state_ok (t : Z) (s : State) : Prop :=
  let c := m_config s in
  limits_ok c /\
  table_ok c (max_packets_per_second c) t (m_flood_table s) /\
  table_ok c (max_text_packets_per_second c) t (m_text_flood_table s) /\
  table_ok c (max_tank_packets_per_second c) t (m_tank_flood_table s).

(** ** Runs of the class *)

(** The operations, with the address they are called for. *)
Inductive op :=
| OpPacket (peer : option Z) | OpText (peer : option Z) | OpTank (peer : option Z)
| OpConnection (peer : option Z) | OpInvalid (peer : option Z) | OpLogin (peer : option Z)
| OpConnect (peer : option Z) | OpDisconnect (peer : option Z)
| OpBan (peer : option Z) (duration_seconds : Z) | OpUnban (ip : Z)
| OpCleanup | OpResetStats.

Definition exec (now : Z) (o : op) (s : State) : State :=
  match o with
  | OpPacket p => (CheckPacketFlood now p s).1
  | OpText p => (CheckTextFlood now p s).1
  | OpTank p => (CheckTankPacketFlood now p s).1
  | OpConnection p => (CheckConnectionFlood now p s).1
  | OpInvalid p => (CheckInvalidPacket now p s).1
  | OpLogin p => (CheckLoginFlood now p s).1
  | OpConnect p => OnPeerConnect p s
  | OpDisconnect p => OnPeerDisconnect p s
  | OpBan p d => BanIP now p d s
  | OpUnban ip => UnbanIP ip s
  | OpCleanup => Cleanup now s
  | OpResetStats => ResetStats s
  end.

Fixpoint exec_all (ops : list (Z * op)) (s : State) : State :=
  match ops with
  | [] => s
  | (now, o) :: ops => exec_all ops (exec now o s)
  end.

(** Manual bans last more than a second. *)
Definition op_ok (o : op) : Prop :=
  match o with OpBan _ d => 1 < d | _ => True end.

(** States reached at time [t] by operations at times that never decrease
    (the code reads [std::chrono::steady_clock]), under the default limits. *)
Inductive reachable : Z -> State -> Prop :=
| reach_init t : 0 <= t -> reachable t (Initialize t initial)
| reach_step t s t' o :
    reachable t s -> t <= t' -> op_ok o -> reachable t' (exec t' o s).

(** The peers of [ip] that are connected after a run: every connect adds
    one, every disconnect of a counted peer removes one. *)
Fixpoint live_peers (ip : Z) (ops : list (Z * op)) (n : Z) : Z :=
  match ops with
  | [] => n
  | (_, OpConnect (Some ip')) :: ops =>
      live_peers ip ops (if bool_decide (ip' = ip) then n + 1 else n)
  | (_, OpDisconnect (Some ip')) :: ops =>
      live_peers ip ops (if bool_decide (ip' = ip) then Z.max 0 (n - 1) else n)
  | _ :: ops => live_peers ip ops n
  end.

(** The address an operation is about; [OpCleanup] sweeps every address. *)
Definition op_address (o : op) : option Z :=
  match o with
  | OpPacket p | OpText p | OpTank p | OpConnection p | OpInvalid p | OpLogin p
  | OpConnect p | OpDisconnect p | OpBan p _ => p
  | OpUnban ip => Some ip
  | OpCleanup | OpResetStats => None
  end.

(** Everything the class remembers about one address. *)
Definition view (ip : Z) (s : State) :=
  (m_flood_table s !! ip, m_connect_table s !! ip, m_text_flood_table s !! ip,
   m_tank_flood_table s !! ip, m_invalid_packet_table s !! ip,
   m_login_attempt_table s !! ip, m_peer_count_table s !! ip).

(** ** One check *)

Section Check.
Context (c : AntiDDoSConfig) (max : Z).
Hypothesis Hc : config_ok c.
Hypothesis Hmax : 1 <= max <= 1000000.

(** Every branch of a check, with the wrap-arounds of the counters gone:
    the entry's counters are far below 2^31. *)
Inductive check_spec (now : Z) (e : FloodEntry) : bool * FloodEntry * bool -> Prop :=
| spec_still_banned :
    is_banned e = true -> now < ban_until e -> check_spec now e (true, e, false)
| spec_new_window v b :
    1000 < now - first_packet_time e ->
    v = (if is_banned e then 0 else violation_count e) ->
    (is_banned e = true -> ban_until e <= now) -> b = ban_until e ->
    check_spec now e (false, mkFlood now 1 v (last_violation_time e) b false, false)
| spec_counted :
    is_banned e = false -> now - first_packet_time e <= 1000 ->
    packet_count e + 1 <= max ->
    check_spec now e (false, mkFlood (first_packet_time e) (packet_count e + 1)
      (violation_count e) (last_violation_time e) (ban_until e) false, false)
| spec_violation :
    is_banned e = false -> now - first_packet_time e <= 1000 ->
    max < packet_count e + 1 -> violation_count e + 1 < violation_threshold c ->
    check_spec now e (true, mkFlood (first_packet_time e) (packet_count e + 1)
      (violation_count e + 1) now (ban_until e) false, false)
| spec_banned :
    is_banned e = false -> now - first_packet_time e <= 1000 ->
    max < packet_count e + 1 -> violation_count e + 1 = violation_threshold c ->
    check_spec now e (true, mkFlood (first_packet_time e) (packet_count e + 1)
      (violation_count e + 1) now
      (now + calculate_ban_duration c (violation_threshold c) * 1000) true, true).

Lemma check_entry_spec now e :
  entry_ok c max now e -> check_spec now e (check_entry c now max e).
Proof.
  intros (Hf & Hp & Hv & Hnb & Hb). destruct Hc as (Ht & _).
  unfold check_entry. destruct e as [f p v lv b ib]; simpl in *.
  destruct ib; simpl.
  - destruct (Z.ltb_spec now b); [by constructor|].
    specialize (Hb eq_refl).
    destruct (Z.ltb_spec 1000 (now - f)); [|lia]. by constructor.
  - specialize (Hnb eq_refl). rewrite !i32_small by lia.
    destruct (Z.ltb_spec 1000 (now - f)); [by constructor|].
    destruct (Z.ltb_spec max (p + 1)).
    + destruct (Z.leb_spec (violation_threshold c) (v + 1)).
      * replace (v + 1) with (violation_threshold c) by lia.
        replace (violation_threshold c) with (v + 1) at 1 by lia.
        by apply spec_banned; simpl; try lia.
      * by apply spec_violation.
    + by apply spec_counted.
Qed.

Lemma check_entry_ok now e :
  entry_ok c max now e -> entry_ok c max now (check_entry c now max e).1.2.
Proof.
  intros He. destruct (check_entry_spec now e He); simpl; [done|..];
    destruct He as (Hf & Hp & Hv & Hnb & Hb), Hc as (Ht & Hd & _);
    unfold entry_ok; simpl; try (destruct (is_banned e) eqn:E);
    repeat split; intros; simplify_eq; try lia.
Qed.

Lemma entry_ok_mono t t' e : t <= t' -> entry_ok c max t e -> entry_ok c max t' e.
Proof. unfold entry_ok. intuition lia. Qed.

Lemma entry_ok_default t : 0 <= t -> entry_ok c max t flood_default.
Proof. destruct Hc. unfold entry_ok; simpl. intuition lia. Qed.

(** How many more packets can get through until [t_end]. *)
Definition budget (t_end : Z) (e : FloodEntry) : Z :=
  if is_banned e then (if t_end <? ban_until e then 0 else max)
  else Z.max 0 (max - packet_count e) +
       (if t_end <=? first_packet_time e + 1000 then 0 else max).

Lemma budget_step now t_end e :
  entry_ok c max now e -> now <= t_end <= now + 1000 ->
  accepted [(check_entry c now max e).1.1] + budget t_end (check_entry c now max e).1.2
    <= budget t_end e.
Proof.
  intros He Ht. destruct (check_entry_spec now e He) as [| | | |];
    destruct He as (Hf & Hp & Hv & Hnb & Hb), Hc as (Hth & Hd & _);
    unfold budget, accepted; simpl; [lia|..];
    try (destruct (is_banned e) eqn:E); try (specialize (Hb eq_refl));
    repeat match goal with
    | |- context [?a <? ?b] => destruct (Z.ltb_spec a b)
    | |- context [?a <=? ?b] => destruct (Z.leb_spec a b)
    end; simplify_eq; try lia.
Qed.

Lemma accepted_cons r rs : accepted (r :: rs) = accepted [r] + accepted rs.
Proof. unfold accepted. rewrite !filter_cons. case_decide; simpl; lia. Qed.

Lemma run_entry_budget t_end times : forall t e,
  entry_ok c max t e -> monotone_from t times -> t_end <= t + 1000 ->
  Forall (λ x, x <= t_end) times ->
  accepted (run_entry c max times e).1 <= budget t_end e.
Proof.
  induction times as [|now times IH]; intros t e He Hm Ht Hle; simpl.
  - unfold accepted, budget; simpl. repeat case_match; lia.
  - destruct Hm as [Hnow Hm]. inversion Hle; subst.
    assert (entry_ok c max now e) as He' by (eapply entry_ok_mono; eauto).
    pose proof (budget_step now t_end e He' ltac:(lia)) as Hb.
    pose proof (check_entry_ok now e He') as He1.
    destruct (check_entry c now max e) as [[r e1] b] eqn:E; simpl in *.
    specialize (IH now e1 He1 Hm ltac:(lia) ltac:(done)).
    destruct (run_entry c max times e1) as [rs e2]; simpl in *.
    rewrite accepted_cons. lia.
Qed.

Lemma run_entry_blocked until times : forall e,
  is_banned e = true -> ban_until e = until -> Forall (λ x, x < until) times ->
  run_entry c max times e = (replicate (length times) true, e).
Proof.
  induction times as [|now times IH]; intros e Hb Hu Ht; simpl; [done|].
  inversion Ht; subst.
  unfold check_entry. rewrite Hb, (proj2 (Z.ltb_lt now (ban_until e))) by done.
  simpl. by rewrite (IH e).
Qed.

End Check.

(** ** Tables *)

Lemma bool_decide_None_Some {A} (x : A) : bool_decide (Some x = None) = false.
Proof. by apply bool_decide_eq_false. Qed.

(** The calls for [ip] see exactly the entry of [ip]. *)
Lemma run_table_project c max ip calls : forall table,
  verdicts_of ip (run_table c max calls table) =
  (run_entry c max (times_of ip calls) (default flood_default (table !! ip))).1.
Proof.
  induction calls as [|[now ip'] calls IH]; intros table; [done|].
  simpl. unfold check_flood_generic.
  destruct (check_entry c now max (default flood_default (table !! ip'))) as [[r e] b] eqn:E.
  unfold verdicts_of, times_of in *. rewrite !filter_cons; simpl.
  destruct (decide (ip' = ip)) as [->|Hne]; simpl.
  - rewrite E, IH, lookup_insert_eq; simpl. by destruct (run_entry c max _ e).
  - by rewrite IH, lookup_insert_ne by done.
Qed.

Lemma monotone_from_weaken t t' times :
  t' <= t -> monotone_from t times -> monotone_from t' times.
Proof. destruct times; simpl; intuition lia. Qed.

Lemma times_of_monotone ip calls : forall t,
  monotone_from t calls.*1 -> monotone_from t (times_of ip calls).
Proof.
  induction calls as [|[now ip'] calls IH]; intros t; [done|]. simpl. intros [Ht Hm].
  specialize (IH now Hm). unfold times_of in *. rewrite filter_cons; simpl.
  case_decide; simpl; [done|]. by eapply monotone_from_weaken.
Qed.

Lemma times_of_bound ip (P : Z -> Prop) calls :
  Forall P calls.*1 -> Forall P (times_of ip calls).
Proof.
  induction calls as [|[now ip'] calls IH]; simpl; [done|].
  intros H. inversion H; subst. unfold times_of in *. rewrite filter_cons.
  case_decide; simpl; [constructor|]; eauto.
Qed.

Lemma budget_max c max t_end t e :
  entry_ok c max t e -> 1 <= max -> budget max t_end e <= 2 * max.
Proof. intros (Hf & Hp & _) Hm. unfold budget. repeat case_match; lia. Qed.

(** ** The invariant of reachable states *)

Lemma table_ok_mono c max t t' m : t <= t' -> table_ok c max t m -> table_ok c max t' m.
Proof. intros Ht Hm ip e He. specialize (Hm ip e He). simpl in *. unfold entry_ok in *. intuition lia. Qed.

Lemma table_ok_lookup c max t m ip :
  config_ok c -> 1 <= max <= 1000000 -> 0 <= t -> table_ok c max t m ->
  entry_ok c max t (default flood_default (m !! ip)).
Proof.
  intros Hc Hmax Ht Hm. destruct (m !! ip) as [e|] eqn:E; simpl; [by eapply Hm|].
  by apply entry_ok_default.
Qed.

Lemma table_ok_insert c max t m ip e :
  entry_ok c max t e -> table_ok c max t m -> table_ok c max t (<[ip := e]> m).
Proof. intros. by apply map_Forall_insert_2. Qed.

Lemma table_ok_delete c max t m ip : table_ok c max t m -> table_ok c max t (delete ip m).
Proof. intros. by apply map_Forall_delete. Qed.

Lemma table_ok_cleanup c max t m : table_ok c max t m -> table_ok c max t (cleanup_flood t m).
Proof. intros H ip e He. apply map_lookup_filter_Some in He as [He _]. by eapply H. Qed.

Lemma table_ok_check c max t m ip :
  config_ok c -> 1 <= max <= 1000000 -> 0 <= t -> table_ok c max t m ->
  table_ok c max t (check_flood_generic c m t ip max).1.2.
Proof.
  intros Hc Hmax Ht Hm. unfold check_flood_generic.
  pose proof (check_entry_ok c max Hc Hmax t _ (table_ok_lookup c max t m ip Hc
    Hmax Ht Hm)) as He.
  destruct (check_entry _ _ _ _) as [[r e] b]; simpl in *. by apply table_ok_insert.
Qed.

Lemma table_ok_ban c max t m ip d :
  config_ok c -> 1 <= max <= 1000000 -> 0 <= t -> 1 < d -> table_ok c max t m ->
  table_ok c max t
    (<[ip := ban_flood (t + d * 1000) (default flood_default (m !! ip))]> m).
Proof.
  intros Hc Hmax Ht Hd Hm. apply table_ok_insert; [|done].
  destruct (table_ok_lookup c max t m ip Hc Hmax Ht Hm) as (? & ? & ? & Hn & ?).
  unfold entry_ok, ban_flood; simpl. repeat split; intros; simplify_eq; lia.
Qed.

#[export] Hint Resolve table_ok_check table_ok_ban table_ok_delete table_ok_cleanup
  table_ok_mono : machine.

Lemma state_ok_mono t t' s : t <= t' -> state_ok t s -> state_ok t' s.
Proof.
  unfold state_ok. intros Ht (Hl & Hf & Htx & Htk).
  split; [done|]. split; [|split]; by eapply table_ok_mono.
Qed.

(** Each public check runs one table through [check_flood_generic]. *)
Lemma exec_state_ok t o s : 0 <= t -> op_ok o -> state_ok t s -> state_ok t (exec t o s).
Proof.
  intros Ht Ho Hs. pose proof Hs as (Hl & Hf & Htx & Htk).
  pose proof Hl as (Hc & Hp & Hx & Hk). pose proof Hc as (_ & _ & Hb).
  destruct s as [f cn tx tk iv lg pc c cl bl pk]; simpl in *.
  destruct o as [[p|]|[p|]|[p|]|[p|]|[p|]|[p|]|[p|]|[p|]|[p|] d|ip| |]; simpl; try done;
    rewrite ?bool_decide_None_Some, ?orb_true_r, ?orb_false_r;
    try (destruct (enabled c); simpl; [|done]); try done.
  - pose proof (table_ok_check c _ t f p Hc Hp Ht Hf).
    destruct (check_flood_generic _ _ _ _ _) as [[r f'] b]; 
    split; [exact Hl|]; split; [|split]; done.
  - pose proof (table_ok_check c _ t tx p Hc Hx Ht Htx).
    destruct (check_flood_generic _ _ _ _ _) as [[r f'] b]; 
    split; [exact Hl|]; split; [|split]; done.
  - pose proof (table_ok_check c _ t tk p Hc Hk Ht Htk).
    destruct (check_flood_generic _ _ _ _ _) as [[r f'] b]; 
    split; [exact Hl|]; split; [|split]; done.
  - by destruct (check_connection _ _ _) as [[r e] b].
  - destruct (_ <? _); [|done]. split; [exact Hl|]; split; [|split]; simpl; auto with machine.
  - by destruct (_ <? _).
  - split; [exact Hl|]; split; [|split]; simpl; auto with machine.
  - split; [exact Hl|]; split; [|split]; simpl; auto with machine.
  - destruct (_ <? _); [done|]. split; [exact Hl|]; split; [|split]; simpl; auto with machine.
Qed.

Lemma reachable_ok t s : reachable t s -> 0 <= t /\ state_ok t s.
Proof.
  induction 1 as [t Ht|t s t' o _ [IHt IH] Ht Ho].
  - split; [done|]. split; [|done]. unfold limits_ok, config_ok. by vm_compute.
  - split; [lia|]. apply exec_state_ok; [lia|done|]. by eapply state_ok_mono.
Qed.

(** ** Bans *)

(** A check that newly bans an address does so at the threshold exactly:
    the count restarts from zero whenever a ban runs out. *)
Lemma check_entry_new_ban c max now e :
  config_ok c -> 1 <= max <= 1000000 -> entry_ok c max now e ->
  is_banned e = false -> is_banned (check_entry c now max e).1.2 = true ->
  violation_count (check_entry c now max e).1.2 = violation_threshold c /\
  ban_until (check_entry c now max e).1.2 =
    now + calculate_ban_duration c (violation_threshold c) * 1000.
Proof.
  intros Hc Hm He Hb. destruct (check_entry_spec c max Hc Hm now e He); simpl; intros Hb';
    simplify_eq; try congruence; done.
Qed.

Lemma exec_config now o s : m_config (exec now o s) = m_config s.
Proof.
  destruct s as [f cn tx tk iv lg pc c cl bl pk].
  destruct o as [[p|]|[p|]|[p|]|[p|]|[p|]|[p|]|[p|]|[p|]|[p|] d|ip| |]; simpl; try done;
    rewrite ?bool_decide_None_Some, ?orb_true_r, ?orb_false_r;
    try (destruct (enabled c); simpl; [|done]); try done;
    repeat case_match; simplify_eq/=; done.
Qed.

Lemma exec_all_config ops : forall s, m_config (exec_all ops s) = m_config s.
Proof.
  induction ops as [|[now o] ops IH]; intros s; simpl; [done|]. by rewrite IH, exec_config.
Qed.

Lemma reachable_config t s : reachable t s -> m_config s = config_default.
Proof. induction 1; [done|]. by rewrite exec_config. Qed.

Lemma ban_loop_pow fuel mult : forall i violations duration,
  1 <= mult -> 0 <= duration -> 1 <= i <= 5 -> (5 - i <= Z.of_nat fuel) ->
  duration * mult ^ (5 - i) < 2 ^ 31 ->
  ban_loop fuel mult i violations duration =
    duration * mult ^ (Z.max 0 (Z.min violations 5 - i)).
Proof.
  induction fuel as [|fuel IH]; intros i v d Hm Hd Hi Hf Ho; simpl.
  - replace (Z.max 0 (Z.min v 5 - i)) with 0 by lia. lia.
  - destruct (Z.ltb_spec i v), (Z.ltb_spec i 5); simpl;
      try (replace (Z.max 0 (Z.min v 5 - i)) with 0 by lia; lia).
    assert (d * mult * mult ^ (5 - (i + 1)) = d * mult ^ (5 - i)) as E.
    { replace (5 - i) with (Z.succ (5 - (i + 1))) by lia.
      rewrite Z.pow_succ_r by lia. lia. }
    assert (0 < mult ^ (5 - (i + 1))) by (apply Z.pow_pos_nonneg; lia).
    assert (0 <= d * mult) by nia.
    assert (d * mult < 2 ^ 31) by nia.
    rewrite i32_small by lia. rewrite IH by lia.
    replace (Z.max 0 (Z.min v 5 - i)) with (Z.succ (Z.max 0 (Z.min v 5 - (i + 1)))) by lia.
    rewrite Z.pow_succ_r by lia. lia.
Qed.

(** ** The peer counter *)

Definition peers (ip : Z) (s : State) : Z := default 0 (m_peer_count_table s !! ip).

Definition peers_ok (n : Z) (s : State) : Prop :=
  map_Forall (λ _ k, 1 <= k <= n) (m_peer_count_table s).

Lemma peers_range n s ip : 0 <= n -> peers_ok n s -> 0 <= peers ip s <= n.
Proof.
  intros Hn Hs. unfold peers. destruct (m_peer_count_table s !! ip) as [k|] eqn:E; simpl; [|lia].
  specialize (Hs ip k E). simpl in Hs. lia.
Qed.

Definition peer_op (o : op) : bool :=
  match o with OpConnect (Some _) | OpDisconnect (Some _) => true | _ => false end.

(** No other operation touches the peer counter. *)
Lemma exec_peers_frame now o s :
  peer_op o = false -> m_peer_count_table (exec now o s) = m_peer_count_table s.
Proof.
  destruct s as [f cn tx tk iv lg pc c cl bl pk].
  destruct o as [[p|]|[p|]|[p|]|[p|]|[p|]|[p|]|[p|]|[p|]|[p|] d|ip| |]; simpl; try done;
    rewrite ?bool_decide_None_Some, ?orb_true_r, ?orb_false_r; intros _;
    try (destruct (enabled c); simpl; [|done]); try done;
    repeat case_match; simplify_eq/=; done.
Qed.

Lemma OnPeerConnect_peers ip s n :
  0 <= n < 2147483647 -> peers_ok n s ->
  peers_ok (n + 1) (OnPeerConnect (Some ip) s) /\
  forall ip', peers ip' (OnPeerConnect (Some ip) s) =
    if bool_decide (ip = ip') then peers ip' s + 1 else peers ip' s.
Proof.
  intros Hn Hs. pose proof (peers_range n s ip ltac:(lia) Hs) as Hr.
  destruct s as [f cn tx tk iv lg pc c cl bl pk]; unfold peers, peers_ok in *; simpl in *.
  rewrite i32_small by lia. split.
  - apply map_Forall_insert_2; [lia|]. intros i k Hk. specialize (Hs i k Hk). simpl in Hs. lia.
  - intros ip'. case_bool_decide; subst.
    + by rewrite lookup_insert_eq.
    + by rewrite lookup_insert_ne.
Qed.

Lemma OnPeerDisconnect_peers ip s n :
  0 <= n < 2147483647 -> peers_ok n s ->
  peers_ok n (OnPeerDisconnect (Some ip) s) /\
  forall ip', peers ip' (OnPeerDisconnect (Some ip) s) =
    if bool_decide (ip = ip') then Z.max 0 (peers ip' s - 1) else peers ip' s.
Proof.
  intros Hn Hs. pose proof (peers_range n s ip ltac:(lia) Hs) as Hr.
  destruct s as [f cn tx tk iv lg pc c cl bl pk]; unfold peers, peers_ok in *; simpl in *.
  rewrite i32_small by lia. set (k := default 0 (pc !! ip)) in *.
  destruct (Z.ltb_spec 0 k); [destruct (Z.eqb_spec (k - 1) 0)|destruct (Z.eqb_spec k 0)];
    try lia; (split; [first [by apply map_Forall_delete|apply map_Forall_insert_2; [lia|done]]|]);
    intros ip'; case_bool_decide; subst;
    rewrite ?lookup_delete_eq, ?lookup_insert_eq, ?lookup_delete_ne, ?lookup_insert_ne by done;
    simpl; fold k; try lia.
Qed.

Lemma exec_all_peers ops : forall n s,
  0 <= n -> n + Z.of_nat (length ops) <= 2147483647 -> peers_ok n s ->
  peers_ok (n + Z.of_nat (length ops)) (exec_all ops s) /\
  forall ip, peers ip (exec_all ops s) = live_peers ip ops (peers ip s).
Proof.
  induction ops as [|[now o] ops IH]; intros n s Hn Hb Hs; simpl in *.
  { by rewrite Z.add_0_r. }
  assert (forall m, 0 <= m <= n -> peers_ok m s -> peers_ok n s) as Hw.
  { intros m Hm H i k Hk. specialize (H i k Hk). simpl in H. lia. }
  destruct (peer_op o) eqn:Eo.
  - destruct o as [| | | | | |[p|]|[p|]| | | |]; try done; simpl in *.
    + destruct (OnPeerConnect_peers p s n ltac:(lia) Hs) as [H1 H2].
      destruct (IH (n + 1) _ ltac:(lia) ltac:(lia) H1) as [H3 H4].
      split; [by replace (n + Z.of_nat (S (length ops)))
        with (n + 1 + Z.of_nat (length ops)) by lia|].
      intros ip. by rewrite H4, H2.
    + destruct (OnPeerDisconnect_peers p s n ltac:(lia) Hs) as [H1 H2].
      destruct (IH n _ ltac:(lia) ltac:(lia) H1) as [H3 H4].
      split; [|intros ip; by rewrite H4, H2].
      intros i k Hk. specialize (H3 i k Hk). simpl in H3. lia.
  - pose proof (exec_peers_frame now o s Eo) as Ef.
    assert (peers_ok n (exec now o s)) as H1 by (unfold peers_ok; by rewrite Ef).
    destruct (IH n _ ltac:(lia) ltac:(lia) H1) as [H3 H4].
    split; [intros i k Hk; specialize (H3 i k Hk); simpl in H3; lia|].
    intros ip. rewrite H4. unfold peers at 1. rewrite Ef. fold (peers ip s).
    by destruct o as [| | | | | |[p|]|[p|]| | | |].
Qed.

(** ** Cleanup *)

Lemma cleanup_flood_lookup now now' (t : gmap Z FloodEntry) ip :
  now <= now' ->
  match cleanup_flood now t !! ip with
  | Some e => is_banned e && (now' <? ban_until e) | None => false end =
  match t !! ip with
  | Some e => is_banned e && (now' <? ban_until e) | None => false end.
Proof.
  intros Hn. unfold cleanup_flood. rewrite map_lookup_filter.
  destruct (t !! ip) as [e|]; simpl; [|done]. case_guard as G; simpl; [done|].
  apply not_false_iff_true in G. unfold flood_stale in G.
  destruct (is_banned e); simpl in *; [|done]. lia.
Qed.

Lemma cleanup_conn_lookup now now' (t : gmap Z ConnectionEntry) ip :
  now <= now' ->
  match cleanup_conn now t !! ip with
  | Some e => conn_is_banned e && (now' <? conn_ban_until e) | None => false end =
  match t !! ip with
  | Some e => conn_is_banned e && (now' <? conn_ban_until e) | None => false end.
Proof.
  intros Hn. unfold cleanup_conn. rewrite map_lookup_filter.
  destruct (t !! ip) as [e|]; simpl; [|done]. case_guard as G; simpl; [done|].
  apply not_false_iff_true in G. unfold conn_stale in G.
  destruct (conn_is_banned e); simpl in *; [|done]. lia.
Qed.

(** ** The properties *)

(** C30: rate limit. Whatever calls arrive for however many addresses in a
    window of one second, starting from well-formed tables, at most twice
    the configured number of packets of any one address is let through. *)
Theorem flood_rate_bound c max t table calls ip :
  config_ok c -> 1 <= max <= 1000000 -> 0 <= t -> table_ok c max t table ->
  monotone_from t calls.*1 -> Forall (λ x, x <= t + 1000) calls.*1 ->
  accepted (verdicts_of ip (run_table c max calls table)) <= 2 * max.
Proof.
  intros Hc Hm Ht Htab Hmono Hle. rewrite run_table_project.
  pose proof (table_ok_lookup c max t table ip Hc Hm Ht Htab) as He.
  etransitivity; [|eapply budget_max; [exact He|lia]].
  eapply (run_entry_budget c max Hc Hm (t + 1000)); [done| |lia|].
  - by apply times_of_monotone.
  - by apply times_of_bound.
Qed.

Lemma flood_rate_bound_witness :
  accepted (verdicts_of 7 (run_table config_default 3
    [(5000, 7); (5000, 9); (5900, 7); (6000, 7); (6000, 7); (6000, 7)] ∅)) = 3 /\
  accepted (verdicts_of 7 (run_table config_default 3
    [(5000, 7); (5000, 9); (5900, 7); (6000, 7); (6000, 7); (6000, 7)] ∅)) <= 2 * 3.
Proof.
  split; [by vm_compute|].
  apply (flood_rate_bound config_default 3 5000);
    [by vm_compute|lia|lia|apply map_Forall_empty|simpl; lia|].
  repeat (constructor; [simpl; lia|]). constructor.
Defined.

(** Invariant. In every reachable state each flood entry has its
    counters bounded (no counter overflows), has a window that does not
    start in the future, is banned as soon as its violations reach the
    threshold, and a ban outlives the window it was given in. *)
Theorem reachable_state_ok t s :
  reachable t s -> state_ok t s.
Proof. intros H. by apply reachable_ok. Qed.

Lemma reachable_state_ok_witness :
  state_ok 20 (exec 20 (OpPacket (Some 7)) (exec 10 (OpBan (Some 9) 60) (Initialize 5 initial))).
Proof.
  apply reachable_state_ok. eapply (reach_step 10); [|lia|done].
  eapply (reach_step 5); [|lia|done]. constructor. lia.
Defined.

(** The escalation never escalates. In every reachable state, a ban the
    packet check gives an address that was not banned lasts exactly 1200
    seconds, the duration of the third violation: the violation count is
    reset when a ban runs out, so no longer duration is ever given. *)
Theorem flood_ban_never_escalates t s now ip e e' :
  reachable t s -> t <= now ->
  m_flood_table s !! ip = Some e -> is_banned e = false ->
  m_flood_table (CheckPacketFlood now (Some ip) s).1 !! ip = Some e' ->
  is_banned e' = true -> ban_until e' = now + 1200 * 1000.
Proof.
  intros Hs Hn He Hb He' Hb'. pose proof (reachable_config t s Hs) as Hcfg.
  apply reachable_ok in Hs as [Ht Hs].
  pose proof (state_ok_mono t now s Hn Hs) as ((Hc & Hp & _) & Hf & _).
  destruct s as [f cn tx tk iv lg pc c cl bl pk]; simpl in *; subst c; simpl in *.
  unfold check_flood_generic in He'. rewrite He in He'; simpl in He'.
  destruct (check_entry_new_ban config_default 80 now e Hc Hp (Hf ip e He) Hb) as [_ Hu];
    destruct (check_entry _ _ _ _) as [[r e1] b]; simpl in *;
    rewrite lookup_insert_eq in He'; simplify_eq; [done|].
  rewrite Hu. vm_compute (calculate_ban_duration _ _). lia.
Qed.

(** The state after 82 packets of address 7 at time 10. *)
Definition flooded : State :=
  exec_all (repeat (10, OpPacket (Some 7)) 82) (Initialize 10 initial).

Lemma flooded_reachable : reachable 10 flooded.
Proof.
  assert (forall n s, reachable 10 s ->
    reachable 10 (exec_all (repeat (10, OpPacket (Some 7)) n) s)) as H.
  { induction n as [|n IH]; intros s Hs; [done|]. apply IH.
    by eapply reach_step; [|reflexivity|]. }
  apply (H 82%nat). by constructor.
Qed.

Lemma flood_ban_never_escalates_witness :
  exists e', m_flood_table (CheckPacketFlood 11 (Some 7) flooded).1 !! 7 = Some e' /\
    is_banned e' = true /\ ban_until e' = 11 + 1200 * 1000.
Proof.
  exists (mkFlood 0 83 3 11 1200011 true).
  assert (m_flood_table (CheckPacketFlood 11 (Some 7) flooded).1 !! 7 =
    Some (mkFlood 0 83 3 11 1200011 true)) as E by (by vm_compute).
  split; [exact E|]. split; [reflexivity|].
  apply (flood_ban_never_escalates 10 flooded 11 7 (mkFlood 0 82 2 10 0 false));
    [apply flooded_reachable|lia|by vm_compute|reflexivity|exact E|reflexivity].
Defined.

(** An active ban holds. While the ban of an address lasts, every check
    of that address is refused and leaves its entry as it is: traffic
    neither shortens nor extends a ban. *)
Theorem flood_ban_holds c max table ip e calls :
  table !! ip = Some e -> is_banned e = true ->
  Forall (λ x, x < ban_until e) calls.*1 ->
  verdicts_of ip (run_table c max calls table) =
    replicate (length (times_of ip calls)) true /\
  (run_entry c max (times_of ip calls) e).2 = e.
Proof.
  intros He Hb Hle. rewrite run_table_project, He; simpl.
  rewrite (run_entry_blocked c max (ban_until e)); [done..|]. by apply times_of_bound.
Qed.

Lemma flood_ban_holds_witness :
  verdicts_of 7 (run_table config_default 80 [(20, 7); (21, 8); (22, 7)]
    {[7 := mkFlood 0 83 3 11 1200011 true]}) = [true; true] /\
  (run_entry config_default 80 [20; 22] (mkFlood 0 83 3 11 1200011 true)).2 =
    mkFlood 0 83 3 11 1200011 true.
Proof.
  apply (flood_ban_holds config_default 80 {[7 := mkFlood 0 83 3 11 1200011 true]} 7
    (mkFlood 0 83 3 11 1200011 true) [(20, 7); (21, 8); (22, 7)]);
    [reflexivity|reflexivity|].
  repeat (constructor; [simpl; lia|]). constructor.
Defined.

(** Cleanup is invisible to bans. At any later time the answer of
    [IsBanned] for every peer is the same whether or not the tables were
    swept: a sweep drops no active ban, and what it drops is no ban. *)
Theorem cleanup_keeps_bans now now' peer s :
  now <= now' -> IsBanned now' peer (Cleanup now s) = IsBanned now' peer s.
Proof.
  intros Hn. destruct s as [f cn tx tk iv lg pc c cl bl pk]; unfold IsBanned, Cleanup.
  destruct (_ <? _); [done|]. simpl. case_match; [done|].
  by rewrite cleanup_flood_lookup, cleanup_conn_lookup by done.
Qed.

Lemma cleanup_keeps_bans_witness :
  IsBanned 300000 (Some 7) (Cleanup 200000 (BanIP 10 (Some 7) 600 initial)) = true.
Proof.
  etransitivity; [apply (cleanup_keeps_bans 200000 300000); lia|by vm_compute].
Defined.

(** The peer counter counts peers. After any run of operations shorter
    than 2^31, the table holds for every address the number of its peers
    still connected, and [CheckMaxPeersPerIP] refuses an address exactly
    when it has [max_peers_per_ip] of them. *)
Theorem peer_count_is_live ops ip :
  Z.of_nat (length ops) <= 2147483647 ->
  peers ip (exec_all ops initial) = live_peers ip ops 0 /\
  CheckMaxPeersPerIP (Some ip) (exec_all ops initial) =
    (max_peers_per_ip config_default <=? live_peers ip ops 0).
Proof.
  intros Hl.
  destruct (exec_all_peers ops 0 initial ltac:(lia) ltac:(lia)) as [_ H].
  { apply map_Forall_empty. }
  specialize (H ip). change (peers ip initial) with (default 0 ((∅ : gmap Z Z) !! ip)) in H.
  rewrite lookup_empty in H; simpl in H.
  split; [done|]. unfold CheckMaxPeersPerIP.
  rewrite exec_all_config; simpl.
  unfold peers in H. rewrite <- H; simpl.
  by destruct (m_peer_count_table _ !! ip).
Qed.

Lemma peer_count_is_live_witness :
  peers 7 (exec_all [(1, OpConnect (Some 7)); (2, OpConnect (Some 9));
    (3, OpPacket (Some 7)); (4, OpConnect (Some 7)); (5, OpDisconnect (Some 7))] initial) = 1.
Proof.
  apply (proj1 (peer_count_is_live [(1, OpConnect (Some 7)); (2, OpConnect (Some 9));
    (3, OpPacket (Some 7)); (4, OpConnect (Some 7)); (5, OpDisconnect (Some 7))] 7
    ltac:(simpl; lia))).
Defined.

(** Closed form of the ban duration, for every configuration whose
    longest duration fits an [int]: the base duration multiplied once per
    violation after the first, up to four times, cut off at the maximum. *)
Theorem calculate_ban_duration_closed c violations :
  0 <= ban_duration_seconds c -> 1 <= escalation_multiplier c ->
  ban_duration_seconds c * escalation_multiplier c ^ 4 < 2 ^ 31 ->
  calculate_ban_duration c violations =
    Z.min (max_ban_duration_seconds c)
      (ban_duration_seconds c * escalation_multiplier c ^
        (Z.max 0 (Z.min violations 5 - 1))).
Proof.
  intros Hb Hm Ho. unfold calculate_ban_duration.
  rewrite ban_loop_pow by (simpl; lia).
  destruct (Z.ltb_spec (max_ban_duration_seconds c)
    (ban_duration_seconds c * escalation_multiplier c ^ Z.max 0 (Z.min violations 5 - 1))); lia.
Qed.

Lemma calculate_ban_duration_closed_witness :
  calculate_ban_duration config_default 4 = Z.min 3600 (300 * 2 ^ 3).
Proof. apply (calculate_ban_duration_closed config_default 4); simpl; lia. Defined.

(** Isolation. An operation for one address changes nothing the tables
    hold for any other address; only the periodic sweep does. *)
Theorem other_addresses_untouched now o s ip :
  op_address o <> Some ip -> o <> OpCleanup ->
  view ip (exec now o s) = view ip s.
Proof.
  intros Ha Hc. destruct s as [f cn tx tk iv lg pc c cl bl pk].
  destruct o as [[p|]|[p|]|[p|]|[p|]|[p|]|[p|]|[p|]|[p|]|[p|] d|p| |]; simpl in *; try done;
    rewrite ?bool_decide_None_Some, ?orb_true_r, ?orb_false_r;
    try (destruct (enabled c); simpl; [|done]); try done;
    try assert (p <> ip) by congruence;
    unfold check_flood_generic; repeat case_match; simplify_eq/=; unfold view; simpl;
    repeat (rewrite ?lookup_insert_ne, ?lookup_delete_ne by done); done.
Qed.

Lemma other_addresses_untouched_witness :
  view 9 (exec 11 (OpPacket (Some 7)) flooded) = view 9 flooded.
Proof. apply (other_addresses_untouched 11 (OpPacket (Some 7)) flooded 9); done. Defined.

End AntiDDoS.
