(* ===== verification/Game.v ===== *)
(** * Game: the Game Generator

    Models [src/NopySource/Handle/GameGenerator.h]: the settings, the dialog
    that shows and edits them, and the battle state machine [manageBattle].
    The ENet host is the list of its peers; a peer argument is an index into
    it, and every packet handed to a peer is an output event.  The fields of
    [WorldGame] are split into the settings ([Options]) and the state of the
    battle ([WorldGame]). *)
From Stdlib Require Import QArith_base.
From S2P Require Import Prelude Memory Items Packet Writer Tank.
Import Memory Items Packet Tank.
#[local] Open Scope Z_scope.

Module Game.

(** ** Enumerations *)

Inductive Modifier := SCORE | LIVE | HIT.

Inductive GameAction :=
| START | END_ | UPDATE_PLAYER_SCORE | UPDATE_TEAM_SCORE | CAPTURE | UNK_VAL | LEAVE | JOIN.

Definition action_code (a : GameAction) : Z :=
  match a with
  | START => 0 | END_ => 1 | UPDATE_PLAYER_SCORE => 2 | UPDATE_TEAM_SCORE => 3
  | CAPTURE => 4 | UNK_VAL => 5 | LEAVE => 6 | JOIN => 7
  end.

Inductive GameOptions :=
| RESPAWN_ON_SCORE | RESET_ON_SCORE | OWNER_PLAYS | LATE_JOIN | SMASH_ENEMY_BLOCK
| SMASH_OWN_BLOCK | DISABLE_MUSIC | DONT_USE_CHAT_LOG | RESTART_AUTOMATICALLY.

Definition option_bit (o : GameOptions) : Z :=
  match o with
  | RESPAWN_ON_SCORE => 1 | RESET_ON_SCORE => 2 | OWNER_PLAYS => 4 | LATE_JOIN => 8
  | SMASH_ENEMY_BLOCK => 16 | SMASH_OWN_BLOCK => 32 | DISABLE_MUSIC => 64
  | DONT_USE_CHAT_LOG => 128 | RESTART_AUTOMATICALLY => 256
  end.

Definition FREE_FOR_ALL : Z := 4.

Definition TeamName (t : Z) : string :=
  if t =? 0 then "Red Rabbits" else if t =? 1 then "Blue Bombers"
  else if t =? 2 then "Yellow Yaks" else if t =? 3 then "Purple Penguins"
  else "Spooky Skull".

(** ** Settings *)

Record Options := mkOptions {
  name : string;
  teamSize : Z;
  lives : Z;
  time : Z;
  goals : Z;
  min_team_size : Z;
  max_team_size : Z;
  pv_kill : Z;
  pv_last_standing : Z;
  pv_goal : Z;
  pv_flag : Z;
  pv_smash : Z;
  pv_die : Z;
  player_hits : Z;
  block_hits : Z;
  flags : Z
}.

Definition default_options : Options :=
  mkOptions "Classic Deathmatch" 4 3 60 5 0 0 1 0 0 0 0 (-1) 3 3 0.

Definition set_name (v : string) (o : Options) : Options :=
  let 'mkOptions _ teamSize' lives' time' goals' min_team_size' max_team_size' pv_kill' pv_last_standing' pv_goal' pv_flag' pv_smash' pv_die' player_hits' block_hits' flags' := o in
  mkOptions v teamSize' lives' time' goals' min_team_size' max_team_size' pv_kill' pv_last_standing' pv_goal' pv_flag' pv_smash' pv_die' player_hits' block_hits' flags'.

Definition set_teamSize (v : Z) (o : Options) : Options :=
  let 'mkOptions name' _ lives' time' goals' min_team_size' max_team_size' pv_kill' pv_last_standing' pv_goal' pv_flag' pv_smash' pv_die' player_hits' block_hits' flags' := o in
  mkOptions name' v lives' time' goals' min_team_size' max_team_size' pv_kill' pv_last_standing' pv_goal' pv_flag' pv_smash' pv_die' player_hits' block_hits' flags'.

Definition set_lives (v : Z) (o : Options) : Options :=
  let 'mkOptions name' teamSize' _ time' goals' min_team_size' max_team_size' pv_kill' pv_last_standing' pv_goal' pv_flag' pv_smash' pv_die' player_hits' block_hits' flags' := o in
  mkOptions name' teamSize' v time' goals' min_team_size' max_team_size' pv_kill' pv_last_standing' pv_goal' pv_flag' pv_smash' pv_die' player_hits' block_hits' flags'.

Definition set_time (v : Z) (o : Options) : Options :=
  let 'mkOptions name' teamSize' lives' _ goals' min_team_size' max_team_size' pv_kill' pv_last_standing' pv_goal' pv_flag' pv_smash' pv_die' player_hits' block_hits' flags' := o in
  mkOptions name' teamSize' lives' v goals' min_team_size' max_team_size' pv_kill' pv_last_standing' pv_goal' pv_flag' pv_smash' pv_die' player_hits' block_hits' flags'.

Definition set_goals (v : Z) (o : Options) : Options :=
  let 'mkOptions name' teamSize' lives' time' _ min_team_size' max_team_size' pv_kill' pv_last_standing' pv_goal' pv_flag' pv_smash' pv_die' player_hits' block_hits' flags' := o in
  mkOptions name' teamSize' lives' time' v min_team_size' max_team_size' pv_kill' pv_last_standing' pv_goal' pv_flag' pv_smash' pv_die' player_hits' block_hits' flags'.

Definition set_min_team_size (v : Z) (o : Options) : Options :=
  let 'mkOptions name' teamSize' lives' time' goals' _ max_team_size' pv_kill' pv_last_standing' pv_goal' pv_flag' pv_smash' pv_die' player_hits' block_hits' flags' := o in
  mkOptions name' teamSize' lives' time' goals' v max_team_size' pv_kill' pv_last_standing' pv_goal' pv_flag' pv_smash' pv_die' player_hits' block_hits' flags'.

Definition set_max_team_size (v : Z) (o : Options) : Options :=
  let 'mkOptions name' teamSize' lives' time' goals' min_team_size' _ pv_kill' pv_last_standing' pv_goal' pv_flag' pv_smash' pv_die' player_hits' block_hits' flags' := o in
  mkOptions name' teamSize' lives' time' goals' min_team_size' v pv_kill' pv_last_standing' pv_goal' pv_flag' pv_smash' pv_die' player_hits' block_hits' flags'.

Definition set_pv_kill (v : Z) (o : Options) : Options :=
  let 'mkOptions name' teamSize' lives' time' goals' min_team_size' max_team_size' _ pv_last_standing' pv_goal' pv_flag' pv_smash' pv_die' player_hits' block_hits' flags' := o in
  mkOptions name' teamSize' lives' time' goals' min_team_size' max_team_size' v pv_last_standing' pv_goal' pv_flag' pv_smash' pv_die' player_hits' block_hits' flags'.

Definition set_pv_last_standing (v : Z) (o : Options) : Options :=
  let 'mkOptions name' teamSize' lives' time' goals' min_team_size' max_team_size' pv_kill' _ pv_goal' pv_flag' pv_smash' pv_die' player_hits' block_hits' flags' := o in
  mkOptions name' teamSize' lives' time' goals' min_team_size' max_team_size' pv_kill' v pv_goal' pv_flag' pv_smash' pv_die' player_hits' block_hits' flags'.

Definition set_pv_goal (v : Z) (o : Options) : Options :=
  let 'mkOptions name' teamSize' lives' time' goals' min_team_size' max_team_size' pv_kill' pv_last_standing' _ pv_flag' pv_smash' pv_die' player_hits' block_hits' flags' := o in
  mkOptions name' teamSize' lives' time' goals' min_team_size' max_team_size' pv_kill' pv_last_standing' v pv_flag' pv_smash' pv_die' player_hits' block_hits' flags'.

Definition set_pv_flag (v : Z) (o : Options) : Options :=
  let 'mkOptions name' teamSize' lives' time' goals' min_team_size' max_team_size' pv_kill' pv_last_standing' pv_goal' _ pv_smash' pv_die' player_hits' block_hits' flags' := o in
  mkOptions name' teamSize' lives' time' goals' min_team_size' max_team_size' pv_kill' pv_last_standing' pv_goal' v pv_smash' pv_die' player_hits' block_hits' flags'.

Definition set_pv_smash (v : Z) (o : Options) : Options :=
  let 'mkOptions name' teamSize' lives' time' goals' min_team_size' max_team_size' pv_kill' pv_last_standing' pv_goal' pv_flag' _ pv_die' player_hits' block_hits' flags' := o in
  mkOptions name' teamSize' lives' time' goals' min_team_size' max_team_size' pv_kill' pv_last_standing' pv_goal' pv_flag' v pv_die' player_hits' block_hits' flags'.

Definition set_pv_die (v : Z) (o : Options) : Options :=
  let 'mkOptions name' teamSize' lives' time' goals' min_team_size' max_team_size' pv_kill' pv_last_standing' pv_goal' pv_flag' pv_smash' _ player_hits' block_hits' flags' := o in
  mkOptions name' teamSize' lives' time' goals' min_team_size' max_team_size' pv_kill' pv_last_standing' pv_goal' pv_flag' pv_smash' v player_hits' block_hits' flags'.

Definition set_player_hits (v : Z) (o : Options) : Options :=
  let 'mkOptions name' teamSize' lives' time' goals' min_team_size' max_team_size' pv_kill' pv_last_standing' pv_goal' pv_flag' pv_smash' pv_die' _ block_hits' flags' := o in
  mkOptions name' teamSize' lives' time' goals' min_team_size' max_team_size' pv_kill' pv_last_standing' pv_goal' pv_flag' pv_smash' pv_die' v block_hits' flags'.

Definition set_block_hits (v : Z) (o : Options) : Options :=
  let 'mkOptions name' teamSize' lives' time' goals' min_team_size' max_team_size' pv_kill' pv_last_standing' pv_goal' pv_flag' pv_smash' pv_die' player_hits' _ flags' := o in
  mkOptions name' teamSize' lives' time' goals' min_team_size' max_team_size' pv_kill' pv_last_standing' pv_goal' pv_flag' pv_smash' pv_die' player_hits' v flags'.

Definition set_flags (v : Z) (o : Options) : Options :=
  let 'mkOptions name' teamSize' lives' time' goals' min_team_size' max_team_size' pv_kill' pv_last_standing' pv_goal' pv_flag' pv_smash' pv_die' player_hits' block_hits' _ := o in
  mkOptions name' teamSize' lives' time' goals' min_team_size' max_team_size' pv_kill' pv_last_standing' pv_goal' pv_flag' pv_smash' pv_die' player_hits' block_hits' v.

Definition isOptionEnabled (option : GameOptions) (o : Options) : bool :=
  negb (Z.land (flags o) (option_bit option) =? 0).

(** [flags] is a [uint32_t]; the complement of the enumerator is cut to it. *)
Definition editOption (option : GameOptions) (enabled : bool) (o : Options) : Options :=
  set_flags (if enabled then Z.lor (flags o) (option_bit option)
             else Z.land (flags o) (u32 (Z.lnot (option_bit option)))) o.

(** ** The battle *)

Record PlayerData := mkPlayer {
  pd_netID : Z; pd_team : Z; pd_score : Z; pd_lives : Z; pd_hits : Z;
  pd_capture : (Z * Z) * Z
}.

Record TeamData := mkTeam { td_score : Z; td_members : list Z }.

Record BlockData := mkBlock {
  bd_x : Z; bd_y : Z; bd_teamId : Z; bd_foreground : Z; bd_background : Z; bd_flags : Z
}.

Record WinnersData := mkWinners { w_team : bool; w_members : list Z }.

(** [timeStarted] is a double: its exact value is a rational. *)
Record WorldGame := mkGame {
  opts : Options;
  managers : list string;
  timeStarted : Q;
  started : bool;
  players : list PlayerData;
  teams : list TeamData;
  destroyed_blocks : list BlockData;
  winners : WinnersData
}.

Definition no_teams : list TeamData := replicate 4 (mkTeam 0 []).

(** [WorldGame game{}]: value-initialised. *)
Definition new_game : WorldGame :=
  mkGame default_options [] 0 false [] no_teams [] (mkWinners false []).

Definition Reset (g : WorldGame) : WorldGame :=
  mkGame default_options [] 0 false [] no_teams [] (mkWinners false []).

Definition with_opts (o : Options) (g : WorldGame) : WorldGame :=
  mkGame o (managers g) (timeStarted g) (started g) (players g) (teams g)
         (destroyed_blocks g) (winners g).
Definition with_managers (ms : list string) (g : WorldGame) : WorldGame :=
  mkGame (opts g) ms (timeStarted g) (started g) (players g) (teams g)
         (destroyed_blocks g) (winners g).
Definition with_started (b : bool) (g : WorldGame) : WorldGame :=
  mkGame (opts g) (managers g) (timeStarted g) b (players g) (teams g)
         (destroyed_blocks g) (winners g).
Definition with_players (ps : list PlayerData) (g : WorldGame) : WorldGame :=
  mkGame (opts g) (managers g) (timeStarted g) (started g) ps (teams g)
         (destroyed_blocks g) (winners g).
Definition with_teams (ts : list TeamData) (g : WorldGame) : WorldGame :=
  mkGame (opts g) (managers g) (timeStarted g) (started g) (players g) ts
         (destroyed_blocks g) (winners g).

(** ** The dialog *)

Definition line (ps : list string) : string := cat ps +:+ endl.

Definition text_input (key label : string) (v : Z) (width : string) : string :=
  line ["add_text_input|"; key; "|"; label; "|"; to_string v; "|"; width].

Definition checkbox (key label : string) (option : GameOptions) (o : Options) : string :=
  line ["add_checkbox|"; key; "|"; label; "|"; bool_digit (isOptionEnabled option o)].

Definition edit_dialog (o : Options) : string := cat [
  line ["add_button|start|`4Start Game!``|noflags|0|0"];
  line ["add_url_button|comment|`wGet Help``|noflags|https://growtopiagame.com/game_gen.php|Open Game Generator instructions in your browser?|0|0|"];
  line ["add_text_input|name|Name:|"; name o; "|64"];
  text_input "teamSize" "Teams:" (teamSize o) "2";
  text_input "lives" "Lives:" (lives o) "3";
  text_input "time" "Time (Seconds):" (time o) "6";
  text_input "goals" "Goal Score:" (goals o) "8";
  text_input "min_team_size" "Min Team Size:" (min_team_size o) "3";
  text_input "max_team_size" "Max Team Size:" (max_team_size o) "3";
  line ["add_textbox|Point Values:|left"];
  text_input "pv_kill" "- Kill:" (pv_kill o) "4";
  text_input "pv_last_standing" "- Last Standing:" (pv_last_standing o) "4";
  text_input "pv_goal" "- Goal:" (pv_goal o) "4";
  text_input "pv_flag" "- Flag:" (pv_flag o) "4";
  text_input "pv_smash" "- Smash:" (pv_smash o) "4";
  text_input "pv_die" "- Die:" (pv_die o) "4";
  checkbox "respawn_on_score" "Respawn on Score" RESPAWN_ON_SCORE o;
  checkbox "reset_on_score" "Reset on Score" RESET_ON_SCORE o;
  checkbox "owner_plays" "Owner Plays" OWNER_PLAYS o;
  checkbox "late_joins" "Late Join" LATE_JOIN o;
  checkbox "smash_enemy_blocks" "Smash Enemy Blocks" SMASH_ENEMY_BLOCK o;
  checkbox "smash_own_blocks" "Smash Own Blocks" SMASH_OWN_BLOCK o;
  checkbox "disable_game_music" "Disable Music" DISABLE_MUSIC o;
  checkbox "dont_use_chat_log" "Don't Use Chat Log" DONT_USE_CHAT_LOG o;
  checkbox "restart_automatically" "Restart Automatically" RESTART_AUTOMATICALLY o;
  text_input "player_hits" "Player Hits:" (player_hits o) "2";
  text_input "block_hits" "Block Hits:" (block_hits o) "3";
  line ["add_spacer|small"];
  "end_dialog|game_update|Cancel|Update"].

Definition show_if (b : bool) (ps : list string) : string :=
  if b then line ps else EmptyString.

Definition status_dialog (o : Options) : string := cat [
  line ["add_button|cancel|`4Cancel Game!``|noflags|0|0"];
  line ["add_textbox|"; name o; "``|64"];
  line ["add_smalltext|"; (if 0 <? teamSize o then to_string (teamSize o) +:+ " Teams"
                           else "Free-for-all"); "|left"];
  show_if (0 <? lives o) ["add_smalltext|"; to_string (lives o); " Lives|left"];
  show_if (0 <? time o) ["add_smalltext|Time Limit: "; to_string (time o); "s|left"];
  show_if (0 <? goals o) ["add_smalltext|Score Limit: "; to_string (goals o); "|left"];
  line ["add_textbox|Point Values:|64"];
  show_if (negb (pv_kill o =? 0)) ["add_smalltext|- Kill a player: "; to_string (pv_kill o); "|left"];
  show_if (negb (pv_last_standing o =? 0)) ["add_smalltext|- Last player standing: "; to_string (pv_last_standing o); "|left"];
  show_if (negb (pv_goal o =? 0)) ["add_smalltext|- Touch Game Goal: "; to_string (pv_goal o); "|left"];
  show_if (negb (pv_flag o =? 0)) ["add_smalltext|- Capture a Game Flag: "; to_string (pv_flag o); "|left"];
  show_if (negb (pv_smash o =? 0)) ["add_smalltext|- Smash a Game Block: "; to_string (pv_smash o); "|left"];
  show_if (negb (pv_die o =? 0)) ["add_smalltext|- Die: "; to_string (pv_die o); "|left"];
  line ["add_spacer|small"];
  show_if (isOptionEnabled RESPAWN_ON_SCORE o) ["add_smalltext|Players respawn when they score.|left"];
  show_if (isOptionEnabled RESET_ON_SCORE o) ["add_smalltext|All players, flags, and blocks reset when someone scores.|left"];
  show_if (isOptionEnabled LATE_JOIN o) ["add_smalltext|Players who arrive late can join.|left"];
  show_if (0 <? player_hits o) ["add_smalltext|Players can kill enemies in "; to_string (player_hits o); " hits.|left"];
  show_if (0 <? block_hits o) ["add_smalltext|Players can smash all Game Blocks in "; to_string (block_hits o); " hits|left"];
  show_if (block_hits o =? 0) ["add_smalltext|Game Blocks are indestructible|left"];
  show_if (isOptionEnabled RESTART_AUTOMATICALLY o) ["add_smalltext|The game will automatically restart when it ends.|left"];
  line ["add_spacer|small"];
  "end_dialog|game_update|Exit|"].

Definition block_dialog (blkname : string) (id : Z) : string := cat [
  line ["add_label_with_icon|big|`w"; blkname; "``|left|"; to_string id];
  line ["add_spacer|small"];
  line ["add_textbox|Choose a team:|left|"];
  line ["text_scaling_string|Penguins|"];
  line ["add_button_with_icon|team0|`$Rabbits``|noflags|-10|"];
  line ["add_button_with_icon|team1|`$Bombers``|noflags|-11|"];
  line ["add_button_with_icon|team2|`$Yaks``|noflags|-12|"];
  line ["add_button_with_icon|team3|`$Penguins``|noflags|-13|"];
  line ["add_button_with_icon|team4|`$None``|noflags|-14|"];
  line ["add_button_with_icon||END_LIST|noflags|0||"];
  line ["add_spacer|small"];
  line ["end_dialog|team_edit|Cancel|"]].

Definition generateDialog (items : table) (id x y : Z) (g : WorldGame) : string :=
  let it := item items id in
  cat [line ["set_default_color|`o"];
       line ["embed_data|tilex|"; to_string x];
       line ["embed_data|tiley|"; to_string y];
       match blockType it with
       | GAME_GENERATOR =>
           line ["add_label_with_icon|big|`wGame Generator``|left|1660"] +:+
           line ["add_spacer|small"] +:+
           (if started g then status_dialog (opts g) else edit_dialog (opts g))
       | GAME_BLOCK => block_dialog (Items.name it) id
       | _ => EmptyString
       end].

(** ** The host *)

Record Peer := mkPeer {
  connected : bool;
  has_data : bool;
  world : string;
  p_netID : Z;
  tankIDName : string
}.

Definition peer_none : Peer := mkPeer false false EmptyString 0 EmptyString.

(** [server->peers]. *)
Definition Host := list Peer.

Definition pInfo (h : Host) (p : nat) : Peer := nth p h peer_none.

(** The filter of every broadcast loop. *)
Definition in_world (h : Host) (p : nat) (cp : Peer) : bool :=
  connected cp && has_data cp && String.eqb (world (pInfo h p)) (world cp).

Definition numbered (h : Host) : list (nat * Peer) := combine (seq 0 (length h)) h.

Inductive msg :=
| MVariant (v : Variant)
| MUpdate (g : GameUpdatePacket) (data : mem).

(** An output: the peer's index and what is handed to it. *)
Definition out : Type := nat * msg.

Definition broadcast (h : Host) (p : nat) (ms : list msg) : list out :=
  concat ((λ ic, if in_world h p ic.2 then pair ic.1 <$> ms else []) <$> numbered h).

(** ** Players *)

Fixpoint find_player (netID : Z) (ps : list PlayerData) : option nat :=
  match ps with
  | [] => None
  | p :: ps => if pd_netID p =? netID then Some 0%nat else S <$> find_player netID ps
  end.

(** The pointer [GetPlayer] returns, as an index into [players]. *)
Definition GetPlayer (netID : Z) (g : WorldGame) : option nat := find_player netID (players g).

Definition isManager (n : string) (g : WorldGame) : bool :=
  existsb (String.eqb n) (managers g).

Definition add_score (m : Z) (p : PlayerData) : PlayerData :=
  mkPlayer (pd_netID p) (pd_team p) (i32 (pd_score p + m)) (pd_lives p) (pd_hits p) (pd_capture p).
Definition add_lives (m : Z) (p : PlayerData) : PlayerData :=
  mkPlayer (pd_netID p) (pd_team p) (pd_score p) (i8 (pd_lives p + m)) (pd_hits p) (pd_capture p).
Definition add_hits (m : Z) (p : PlayerData) : PlayerData :=
  mkPlayer (pd_netID p) (pd_team p) (pd_score p) (pd_lives p) (i8 (pd_hits p + m)) (pd_capture p).
Definition with_team (t : Z) (p : PlayerData) : PlayerData :=
  mkPlayer (pd_netID p) t (pd_score p) (pd_lives p) (pd_hits p) (pd_capture p).

(** ** [manageBattle]: the packets *)

(** A zero-initialised packet of a battle message. *)
Definition battle_packet (type net_id int_data int_x int_y : Z) : msg :=
  MUpdate (mkGUP (Some type) (Some 0) (Some 0) (Some 0) (Some net_id) (Some 0) (Some 0)
    (Some 0) (Some int_data) (Some 0) (Some 0) (Some 0) (Some 0) (Some 0) (Some int_x)
    (Some int_y) (Some 0)) [Some 0].

(** A [malloc]ed packet of which only these fields are set; the byte after
    the [pos] bytes of data is not written. *)
Definition raw_packet (type int_x int_y : Z) (data : list Z) : msg :=
  MUpdate (mkGUP (Some type) None None None None None (Some 8) None None None None None
    None None (Some int_x) (Some int_y) (Some (Z.of_nat (length data))))
    ((Some <$> data) ++ alloc 1).

(** The bytes of a [BinaryWriter2] after the given writes. *)
Definition written_by (ws : list BinaryWriter2.wop) : list Z :=
  match BinaryWriter2.write_all ws BinaryWriter2.empty with
  | Some w => default [] (fetch (BinaryWriter2.get w) 0 (BinaryWriter2.get_pos w))
  | None => []
  end.

Definition block_writes (b : BlockData) : list BinaryWriter2.wop :=
  [BinaryWriter2.WInt 4 (u32 (bd_x b)); BinaryWriter2.WInt 4 (u32 (bd_y b));
   BinaryWriter2.WInt 2 (bd_foreground b); BinaryWriter2.WInt 2 (bd_background b);
   BinaryWriter2.WInt 4 (bd_flags b); BinaryWriter2.WInt 1 16;
   BinaryWriter2.WInt 1 (u8 (bd_teamId b))].

Definition ReturnBlocks (h : Host) (peer : nat) (g : WorldGame) : list out :=
  match destroyed_blocks g with
  | [] => []
  | bs =>
      let br := written_by (concat (block_writes <$> bs) ++
                            [BinaryWriter2.WInt 4 (u32 (-1))]) in
      broadcast h peer [raw_packet 6 (u32 (-1)) (u32 (-1)) br]
  end.

(** ** [START] *)

(** The peers that take part, in the order of the host. *)
Definition world_players (h : Host) (peer : nat) (g : WorldGame) : list nat :=
  (filter (λ ic, in_world h peer ic.2 &&
     negb (isManager (tankIDName ic.2) g && negb (isOptionEnabled OWNER_PLAYS (opts g)))
     = true) (numbered h)).*1.

(** The inner [while]: the next team that is not full; it makes at most
    [teamSize] attempts, which is the fuel it is given. *)
Fixpoint find_slot (fuel : nat) (size max_team : Z) (teamCounts : list Z)
    (assignedTeam attempts : Z) : Z :=
  match fuel with
  | O => assignedTeam
  | S fuel =>
      if (max_team <=? nth (Z.to_nat assignedTeam) teamCounts 0) && (attempts <? size)
      then find_slot fuel size max_team teamCounts ((assignedTeam + 1) mod size) (attempts + 1)
      else assignedTeam
  end.

Definition count_up (t : Z) (teamCounts : list Z) : list Z :=
  alter (λ c, u32 (c + 1)) (Z.to_nat t) teamCounts.

(** [n] players from number [i] on: the team each is given. *)
Fixpoint assign_teams (n : nat) (size max_team i : Z) (teamCounts : list Z) : list Z :=
  match n with
  | O => []
  | S n =>
      let t := find_slot (Z.to_nat size) size max_team teamCounts (i mod size) 0 in
      if nth (Z.to_nat t) teamCounts 0 <? max_team
      then t :: assign_teams n size max_team (i + 1) (count_up t teamCounts)
      else 0 :: assign_teams n size max_team (i + 1) teamCounts
  end.

Definition player_teams (o : Options) (n : nat) : list Z :=
  let max_team := if max_team_size o =? 0 then 64 else max_team_size o in
  if 0 <? teamSize o
  then assign_teams n (teamSize o) max_team 0 (replicate (Z.to_nat (teamSize o)) 0)
  else replicate n 4.

Definition time_string (t : Z) : string :=
  let h := t / 3600 in
  let m := (t / 60) mod 60 in
  let s := t mod 60 in
  if 0 <? h then cat [to_string h; ":"; pad2 m; ":"; pad2 s]
  else cat [to_string m; ":"; pad2 s].

Definition start_message (o : Options) : string := cat [
  "`2"; name o; ":`` `o";
  (if 0 <? teamSize o then to_string (teamSize o) +:+ " Teams battle it out"
   else "Free-for-all battle");
  (if 1 <? lives o then cat [" with "; to_string (lives o); " lives"] else "");
  ". ";
  (if 0 <? goals o then to_string (goals o) +:+ " points to win!" else "Highest score wins!");
  " (`5"; time_string (time o); "``) ``"].

Definition start_buffer (o : Options) : list Z :=
  written_by ([BinaryWriter2.WString (name o) 2; BinaryWriter2.WInt 4 (time o);
               BinaryWriter2.WInt 1 (teamSize o)] ++
              replicate (Z.to_nat (teamSize o)) (BinaryWriter2.WInt 4 0)).

Definition variant (args : list VarArg) : msg := MVariant (mkVariant 0 (-1) args).

Definition start_msgs (o : Options) : list msg :=
  [variant [VStr "OnAddNotification"; VStr "interface/large/game_on.rttex";
            VStr (start_message o); VStr "audio/race_start.wav"];
   variant [VStr "OnConsoleMessage"; VStr (start_message o)];
   raw_packet 28 (action_code START) (flags o) (start_buffer o)].

(** ** [JOIN] and [LEAVE] *)

Definition add_member (m : Z) (t : TeamData) : TeamData :=
  mkTeam (td_score t)
    (if existsb (Z.eqb m) (td_members t) then td_members t else td_members t ++ [m]).

Fixpoint erase_first (m : Z) (ms : list Z) : list Z :=
  match ms with
  | [] => []
  | k :: ms => if k =? m then ms else k :: erase_first m ms
  end.

Definition remove_member (m : Z) (t : TeamData) : TeamData :=
  mkTeam (td_score t) (erase_first m (td_members t)).

(** [teams[i]]: [None] is an index outside the vector. *)
Definition update_team (i : Z) (f : TeamData -> TeamData) (ts : list TeamData)
    : option (list TeamData) :=
  if (0 <=? i) && (i <? Z.of_nat (length ts))
  then Some (alter f (Z.to_nat i) ts) else None.

Definition join (h : Host) (peer : nat) (team : Z) (g : WorldGame)
    : option (WorldGame * list out) :=
  let nid := p_netID (pInfo h peer) in
  let outs := broadcast h peer [battle_packet 27 nid 0 team 0] in
  if started g then
    let ps :=
      match GetPlayer (u32 nid) g with
      | None => players g ++
          [mkPlayer (u32 nid) team 0 (i8 (lives (opts g))) 0 ((-1, -1), -1)]
      | Some i => alter (with_team team) i (players g)
      end in
    ts ← (if team =? 4 then Some (teams g)
          else update_team team (add_member (u8 nid)) (teams g));
    Some (with_teams ts (with_players ps g), outs)
  else Some (g, outs).

(** [std::remove_if] keeps the elements it moves forward and leaves the
    cells after the new end as they were ([PlayerData] is trivially
    copyable): the storage the pointer of [GetPlayer] looks into. *)
Definition remove_if (P : PlayerData -> bool) (ps : list PlayerData) : list PlayerData :=
  filter (λ p, P p = false) ps.

Definition storage_after (P : PlayerData -> bool) (ps : list PlayerData) : list PlayerData :=
  let kept := remove_if P ps in kept ++ drop (length kept) ps.

Definition leave (h : Host) (peer : nat) (id : Z) (g : WorldGame)
    : option (WorldGame * list out) :=
  let outs := broadcast h peer [battle_packet 28 id 0 (action_code LEAVE) 0] in
  if started g then
    let P p := pd_netID p =? id in
    let kept := remove_if P (players g) in
    if (length kept =? length (players g))%nat then Some (g, outs)
    else
      ts ← match GetPlayer id g with
           | None => Some (teams g)
           | Some i =>
               player ← storage_after P (players g) !! i;
               if pd_team player =? 4 then Some (teams g)
               else update_team (pd_team player)
                      (remove_member (u8 (p_netID (pInfo h peer)))) (teams g)
           end;
      Some (with_players kept (with_teams ts g), outs)
  else Some (g, outs).

(** ** [END] *)

(** [std::max_element(...)->score] of a non-empty sequence. *)
Fixpoint max_score (x : Z) (xs : list Z) : Z :=
  match xs with
  | [] => x
  | y :: ys => max_score (if x <? y then y else x) ys
  end.

Definition ffa_winners (ps : list PlayerData) : list Z :=
  match pd_score <$> ps with
  | [] => []
  | x :: xs =>
      (λ p, u8 (pd_netID p)) <$> filter (λ p, pd_score p = max_score x xs) ps
  end.

(** The maximum is over every team of the vector; the winners are among
    the first [teamSize]. *)
Definition team_winners (size : Z) (ts : list TeamData) : option (list Z) :=
  match td_score <$> ts with
  | [] => Some []
  | x :: xs =>
      if size <=? Z.of_nat (length ts) then
        Some (u8 <$> filter (λ idx, td_score (nth (Z.to_nat idx) ts (mkTeam 0 [])) = max_score x xs)
                (Z.of_nat <$> seq 0 (Z.to_nat size)))
      else None
  end.

Definition find_winners (g : WorldGame) : option WinnersData :=
  if teamSize (opts g) =? 0
  then Some (mkWinners false (w_members (winners g) ++ ffa_winners (players g)))
  else
    ws ← team_winners (teamSize (opts g)) (teams g);
    Some (mkWinners true (w_members (winners g) ++ ws)).

(** The lambda [getPlayerName]. *)
Definition getPlayerName (h : Host) (peer : nat) (netID : Z) : string :=
  match filter (λ cp, in_world h peer cp && (u32 (p_netID cp) =? netID) = true) h with
  | cp :: _ => tankIDName cp
  | [] => EmptyString
  end.

Fixpoint join_names (i n : nat) (names : list string) : string :=
  match names with
  | [] => EmptyString
  | nm :: names =>
      (if (i =? 0)%nat then "" else if (i =? n - 1)%nat then " and " else ", ")
      +:+ nm +:+ join_names (S i) n names
  end.

Definition winner_string (h : Host) (peer : nat) (w : WinnersData) : string :=
  (if w_team w && (length (w_members w) <=? 1)%nat then "The " else "") +:+
  join_names 0 (length (w_members w))
    ((λ m, if w_team w then TeamName m else getPlayerName h peer m) <$> w_members w).

Definition win_score (g : WorldGame) (w : WinnersData) : option Z :=
  match w_members w with
  | [] => Some 0
  | m :: _ =>
      if w_team w then td_score <$> teams g !! Z.to_nat m
      else match GetPlayer m g with
           | Some i => pd_score <$> players g !! i
           | None => Some 0
           end
  end.

Definition end_message (h : Host) (peer : nat) (g : WorldGame) (w : WinnersData) (score : Z)
    : string := cat [
  "`2"; name (opts g); ":`` `o";
  (if Qle_bool (inject_Z (time (opts g))) (timeStarted g) then "Time's up! " else "");
  (if (1 <? length (w_members w))%nat then "It's a tie! " else "");
  winner_string h peer w; " win with "; to_string score; "!``"].

Definition end_msgs (result : string) : list msg :=
  [variant [VStr "OnAddNotification"; VStr "interface/large/game_over.rttex";
            VStr result; VStr "audio/race_end.wav"];
   variant [VStr "OnConsoleMessage"; VStr result];
   battle_packet 28 (-1) 0 (action_code END_) 0].

Definition after_end (g : WorldGame) : WorldGame :=
  mkGame (opts g) [] 0 false [] no_teams [] (mkWinners false []).

Definition end_battle (h : Host) (peer : nat) (g : WorldGame)
    : option (WorldGame * list out) :=
  w ← find_winners g;
  score ← win_score g w;
  let result := end_message h peer g w score in
  Some (after_end g, ReturnBlocks h peer g ++ broadcast h peer (end_msgs result)).

(** ** The whole state machine *)

Fixpoint join_all (h : Host) (pts : list (nat * Z)) (g : WorldGame)
    : option (WorldGame * list out) :=
  match pts with
  | [] => Some (g, [])
  | (p, t) :: pts =>
      '(g, o1) ← join h p (u8 t) g;
      '(g, o2) ← join_all h pts g;
      Some (g, o1 ++ o2)
  end.

Definition start_battle (h : Host) (peer : nat) (g : WorldGame)
    : option (WorldGame * list out) :=
  let worldPlayers := world_players h peer g in
  let o := opts g in
  let min_team := if min_team_size o =? 0 then 1 else min_team_size o in
  if Z.of_nat (length worldPlayers) <? teamSize o * min_team then
    Some (g, [(peer, variant [VStr "OnConsoleMessage"; VStr "Not enough players to start!"])])
  else
    let outs := broadcast h peer (start_msgs o) in
    '(g, outs') ← join_all h (combine worldPlayers (player_teams o (length worldPlayers)))
                          (with_started true g);
    Some (g, outs ++ outs').

Definition manageBattle (h : Host) (peer : nat) (action : GameAction)
    (teamIdOrNetId modifier : Z) (g : WorldGame) : option (WorldGame * list out) :=
  let m := u32 modifier in
  match action with
  | START => start_battle h peer g
  | END_ => end_battle h peer g
  | UPDATE_TEAM_SCORE =>
      Some (g, broadcast h peer
        [battle_packet 28 (-1) teamIdOrNetId (action_code UPDATE_TEAM_SCORE) m])
  | UPDATE_PLAYER_SCORE =>
      Some (g, broadcast h peer
        [battle_packet 28 teamIdOrNetId 0 (action_code UPDATE_PLAYER_SCORE) m])
  | CAPTURE =>
      Some (g, broadcast h peer [battle_packet 28 teamIdOrNetId 0 (action_code CAPTURE) m])
  | UNK_VAL =>
      Some (g, broadcast h peer [battle_packet 28 teamIdOrNetId 0 (action_code UNK_VAL) 255])
  | LEAVE => leave h peer teamIdOrNetId g
  | JOIN => join h peer teamIdOrNetId g
  end.

Definition reached (goals score : Z) : bool :=
  negb (goals =? 0) && (((goals <? 0) && (score <=? goals)) || ((0 <? goals) && (goals <=? score))).

Definition ModifyPlayer (h : Host) (peer : nat) (type : Modifier) (modifier : Z)
    (g : WorldGame) : option (WorldGame * list out) :=
  let nid := p_netID (pInfo h peer) in
  match GetPlayer (u32 nid) g with
  | None => Some (g, [])
  | Some i =>
      player ← players g !! i;
      match type with
      | SCORE =>
          '(g1, o1, score) ←
            (if pd_team player =? 4 then
               '(g1, o1) ← manageBattle h peer UPDATE_PLAYER_SCORE (u8 nid) modifier g;
               Some (with_players (alter (add_score modifier) i (players g1)) g1, o1,
                     i32 (pd_score player + modifier))
             else
               '(g1, o1) ← manageBattle h peer UPDATE_TEAM_SCORE (pd_team player) modifier g;
               t ← teams g1 !! Z.to_nat (pd_team player);
               let score := i32 (td_score t + modifier) in
               ts ← update_team (pd_team player) (λ t, mkTeam score (td_members t)) (teams g1);
               Some (with_teams ts g1, o1, score));
          if reached (goals (opts g1)) score then
            '(g2, o2) ← manageBattle h peer END_ 0 0 g1; Some (g2, o1 ++ o2)
          else Some (g1, o1)
      | LIVE => Some (with_players (alter (add_lives modifier) i (players g)) g, [])
      | HIT => Some (with_players (alter (add_hits modifier) i (players g)) g, [])
      end
  end.

(** ** [processInput] *)

(** [std::clamp<uint8_t>(std::stoi(s), lo, hi)]: the number is narrowed to
    the template's type before it is clamped. *)
Definition clamp_u8 (z lo hi : Z) : Z := clamp (u8 z) lo hi.
Definition clamp_i8 (z lo hi : Z) : Z := clamp (i8 z) lo hi.
Definition clamp_u32 (z lo hi : Z) : Z := clamp (u32 z) lo hi.

(** One [key|value] line; a value [stoi] rejects leaves the settings. *)
Definition set_option (key value : string) (o : Options) : Options :=
  let num (f : Z -> Options) : Options :=
    match stoi value with Some z => f z | None => o end in
  let opt (b : GameOptions) : Options := num (λ z, editOption b (negb (z =? 0)) o) in
  if String.eqb key "name" then set_name value o
  else if String.eqb key "teamSize" then num (λ z, set_teamSize (clamp_u8 z 0 4) o)
  else if String.eqb key "lives" then num (λ z, set_lives (clamp_u8 z 0 100) o)
  else if String.eqb key "time" then num (λ z, set_time (clamp_u32 z 0 3600) o)
  else if String.eqb key "goals" then num (λ z, set_goals (clamp z 0 1000000) o)
  else if String.eqb key "min_team_size" then num (λ z, set_min_team_size (clamp_u8 z 0 64) o)
  else if String.eqb key "max_team_size" then num (λ z, set_max_team_size (clamp_u8 z 0 64) o)
  else if String.eqb key "pv_kill" then num (λ z, set_pv_kill (clamp_i8 z (-100) 100) o)
  else if String.eqb key "pv_last_standing" then num (λ z, set_pv_last_standing (clamp_i8 z (-100) 100) o)
  else if String.eqb key "pv_goal" then num (λ z, set_pv_goal (clamp_i8 z (-100) 100) o)
  else if String.eqb key "pv_flag" then num (λ z, set_pv_flag (clamp_i8 z (-100) 100) o)
  else if String.eqb key "pv_smash" then num (λ z, set_pv_smash (clamp_i8 z (-100) 100) o)
  else if String.eqb key "pv_die" then num (λ z, set_pv_die (clamp_i8 z (-100) 100) o)
  else if String.eqb key "respawn_on_score" then opt RESPAWN_ON_SCORE
  else if String.eqb key "reset_on_score" then opt RESET_ON_SCORE
  else if String.eqb key "owner_plays" then opt OWNER_PLAYS
  else if String.eqb key "late_joins" then opt LATE_JOIN
  else if String.eqb key "smash_enemy_blocks" then opt SMASH_ENEMY_BLOCK
  else if String.eqb key "smash_own_blocks" then opt SMASH_OWN_BLOCK
  else if String.eqb key "disable_game_music" then opt DISABLE_MUSIC
  else if String.eqb key "dont_use_chat_log" then opt DONT_USE_CHAT_LOG
  else if String.eqb key "restart_automatically" then opt RESTART_AUTOMATICALLY
  else if String.eqb key "player_hits" then num (λ z, set_player_hits (clamp_u8 z 0 20) o)
  else if String.eqb key "block_hits" then num (λ z, set_block_hits (clamp_u8 z 0 100) o)
  else o.

(** The lines of the dialog: settings, whether to start, whether to
    cancel.  The settings change only while no battle runs. *)
Fixpoint process_lines (is_started : bool) (ls : list string) (o : Options)
    (doStart doCancel : bool) : Options * bool * bool :=
  match ls with
  | [] => (o, doStart, doCancel)
  | l :: ls =>
      let infoDat := split_on (char_of 124) l in
      if String.eqb (nth 0 infoDat EmptyString) "buttonClicked" then
        let btn := nth 1 infoDat EmptyString in
        if String.eqb btn "start" && negb is_started
        then process_lines is_started ls o true doCancel
        else if String.eqb btn "cancel" && is_started
        then process_lines is_started ls o doStart true
        else process_lines is_started ls o doStart doCancel
      else
        match infoDat with
        | [key; value] =>
            process_lines is_started ls
              (if is_started then o else set_option key value o) doStart doCancel
        | _ => process_lines is_started ls o doStart doCancel
        end
  end.

Definition processInput (h : Host) (peer : nat) (cch : string) (managersInput : list string)
    (g : WorldGame) : option (WorldGame * list out) :=
  let g := with_managers managersInput g in
  let '(o, doStart, doCancel) :=
    process_lines (started g) (getlines nl cch) (opts g) false false in
  let g := with_opts o g in
  if (doStart : bool) then manageBattle h peer START 0 0 g
  else if (doCancel : bool) then manageBattle h peer END_ 0 0 g
  else Some (g, []).

(** ** Leaving a world during a battle

    The exit handler of [WorldInfo.h] has already cleared the peer's world
    when it removes the player from the battle. *)
Definition clear_world (peer : nat) (h : Host) : Host :=
  alter (λ p, mkPeer (connected p) (has_data p) EmptyString (p_netID p) (tankIDName p)) peer h.

Definition exit_battle (h : Host) (peer : nat) (g : WorldGame) : option (WorldGame * list out) :=
  let h := clear_world peer h in
  let nid := p_netID (pInfo h peer) in
  if started g then
    match GetPlayer (u32 nid) g with
    | Some _ => manageBattle h peer LEAVE (u8 nid) 0 g
    | None => Some (g, [])
    end
  else Some (g, []).

(** ** What the dialog sends back unchanged *)

Definition field (key value : string) : string := key +:+ String (char_of 124) value.

Definition bool_field (key : string) (b : GameOptions) (o : Options) : string :=
  field key (bool_digit (isOptionEnabled b o)).

(** The lines a client returns for [edit_dialog] when nothing is edited. *)
Definition submitted (o : Options) : list string := [
  field "name" (name o); field "teamSize" (to_string (teamSize o));
  field "lives" (to_string (lives o)); field "time" (to_string (time o));
  field "goals" (to_string (goals o)); field "min_team_size" (to_string (min_team_size o));
  field "max_team_size" (to_string (max_team_size o));
  field "pv_kill" (to_string (pv_kill o));
  field "pv_last_standing" (to_string (pv_last_standing o));
  field "pv_goal" (to_string (pv_goal o)); field "pv_flag" (to_string (pv_flag o));
  field "pv_smash" (to_string (pv_smash o)); field "pv_die" (to_string (pv_die o));
  bool_field "respawn_on_score" RESPAWN_ON_SCORE o; bool_field "reset_on_score" RESET_ON_SCORE o;
  bool_field "owner_plays" OWNER_PLAYS o; bool_field "late_joins" LATE_JOIN o;
  bool_field "smash_enemy_blocks" SMASH_ENEMY_BLOCK o;
  bool_field "smash_own_blocks" SMASH_OWN_BLOCK o;
  bool_field "disable_game_music" DISABLE_MUSIC o;
  bool_field "dont_use_chat_log" DONT_USE_CHAT_LOG o;
  bool_field "restart_automatically" RESTART_AUTOMATICALLY o;
  field "player_hits" (to_string (player_hits o)); field "block_hits" (to_string (block_hits o))].

(** ** Well-formed games *)

Definition opts_ok (o : Options) : Prop :=
  0 <= teamSize o <= 4 /\ 0 <= lives o <= 100 /\ 0 <= time o <= 3600 /\
  0 <= goals o <= 1000000 /\ 0 <= min_team_size o <= 64 /\ 0 <= max_team_size o <= 64 /\
  (-100 <= pv_kill o <= 100 /\ -100 <= pv_last_standing o <= 100 /\
   -100 <= pv_goal o <= 100 /\ -100 <= pv_flag o <= 100 /\ -100 <= pv_smash o <= 100 /\
   -100 <= pv_die o <= 100) /\
  0 <= player_hits o <= 20 /\ 0 <= block_hits o <= 100 /\ 0 <= flags o < 2 ^ 9.

Definition player_ok (p : PlayerData) : Prop :=
  0 <= pd_team p <= 4 /\ 0 <= pd_netID p < 2 ^ 32.

Definition game_ok (g : WorldGame) : Prop :=
  opts_ok (opts g) /\ length (teams g) = 4%nat /\ Forall player_ok (players g) /\
  NoDup (pd_netID <$> players g) /\ w_members (winners g) = [] /\
  (started g = false -> players g = [] /\ teams g = no_teams).

(** What the rest of the server does to a game: the dialog, battle actions
    ([JOIN] is sent by [START] only, with a team or 4 for none) and
    modifications of a player. *)
Inductive GameOp :=
| OpInput (cch : string) (managersInput : list string)
| OpBattle (action : GameAction) (teamIdOrNetId modifier : Z)
| OpModify (type : Modifier) (modifier : Z).

Definition run_op (h : Host) (peer : nat) (o : GameOp) (g : WorldGame)
    : option (WorldGame * list out) :=
  match o with
  | OpInput cch ms => processInput h peer cch ms g
  | OpBattle a i m => manageBattle h peer a i m g
  | OpModify t m => ModifyPlayer h peer t m g
  end.

Definition op_ok (o : GameOp) : Prop :=
  match o with
  | OpBattle JOIN t _ => 0 <= t <= 4
  | _ => True
  end.

End Game.
