(* ===== verification/GameFacts.v ===== *)
(** * GameFacts: the Game Generator is well behaved

    The lemmas and properties of the definitions of [Game]: settings in
    range, no access outside the team and player vectors, team assignment,
    leaving, winners and the settings dialog. *)
From Stdlib Require Import QArith_base.
From S2P Require Import Prelude Memory Items Packet Writer Tank Game.
Import Memory Items Packet Tank Game.
#[local] Open Scope Z_scope.

Module GameFacts.

(** ** Settings stay in range *)

Lemma clamp_u8_range z lo hi : lo <= hi -> lo <= clamp_u8 z lo hi <= hi.
Proof. apply clamp_range. Qed.

Lemma clamp_i8_range z lo hi : lo <= hi -> lo <= clamp_i8 z lo hi <= hi.
Proof. apply clamp_range. Qed.

Lemma clamp_u32_range z lo hi : lo <= hi -> lo <= clamp_u32 z lo hi <= hi.
Proof. apply clamp_range. Qed.

Lemma editOption_flags b en o :
  0 <= flags o < 2 ^ 9 -> 0 <= flags (editOption b en o) < 2 ^ 9.
Proof.
  intros H. destruct o; simpl in *. destruct en.
  - apply lor_bound; [lia|done|]. destruct b; simpl; lia.
  - by apply land_bound.
Qed.

Lemma editOption_ok b en o : opts_ok o -> opts_ok (editOption b en o).
Proof.
  intros H. pose proof (editOption_flags b en o ltac:(apply H)) as Hf.
  unfold editOption in *. destruct o. unfold opts_ok in *; simpl in *. intuition lia.
Qed.

Lemma set_option_ok k v o : opts_ok o -> opts_ok (set_option k v o).
Proof.
  intros Ho. unfold set_option. destruct (stoi v) as [z|];
    repeat match goal with
    | |- opts_ok (if ?b then _ else _) => destruct b
    end; try done; try (by apply editOption_ok); try (destruct o; exact Ho);
    destruct o; unfold opts_ok in *; simpl in *;
    match goal with
    | |- context [clamp_u8 z ?lo ?hi] =>
        pose proof (clamp_u8_range z lo hi ltac:(lia))
    | |- context [clamp_i8 z ?lo ?hi] =>
        pose proof (clamp_i8_range z lo hi ltac:(lia))
    | |- context [clamp_u32 z ?lo ?hi] =>
        pose proof (clamp_u32_range z lo hi ltac:(lia))
    | |- context [clamp z ?lo ?hi] => pose proof (clamp_range z lo hi ltac:(lia))
    | _ => idtac
    end; intuition lia.
Qed.

Lemma process_lines_ok b ls : forall o ds dc,
  opts_ok o -> opts_ok (process_lines b ls o ds dc).1.1.
Proof.
  induction ls as [|l ls IH]; intros o ds dc Ho; simpl; [done|].
  repeat case_match; apply IH; try done; by apply set_option_ok.
Qed.

Lemma process_lines_started ls : forall o ds dc,
  process_lines true ls o ds dc =
    (o, ds, (process_lines true ls o ds dc).2).
Proof.
  induction ls as [|l ls IH]; intros o ds dc; simpl; [done|].
  rewrite !andb_false_r. repeat case_match; apply IH.
Qed.

(** ** Players and teams *)

Lemma find_player_Some nid ps : forall i,
  find_player nid ps = Some i ->
  exists p, ps !! i = Some p /\ pd_netID p = nid.
Proof.
  induction ps as [|p ps IH]; intros i H; simpl in *; [done|].
  destruct (Z.eqb_spec (pd_netID p) nid); [simplify_eq; by exists p|].
  destruct (find_player nid ps) as [j|]; simplify_eq/=. by apply IH.
Qed.

Lemma find_player_None nid ps :
  find_player nid ps = None -> nid ∉ (pd_netID <$> ps).
Proof.
  induction ps as [|p ps IH]; simpl; [by intros _ ?%elem_of_nil|].
  destruct (Z.eqb_spec (pd_netID p) nid); [done|].
  destruct (find_player nid ps); simpl; [done|]. intros _ [->|]%elem_of_cons; [done|].
  by apply IH.
Qed.

Lemma alter_netIDs f i (ps : list PlayerData) :
  (forall p, pd_netID (f p) = pd_netID p) -> pd_netID <$> alter f i ps = pd_netID <$> ps.
Proof.
  intros H. revert i. induction ps as [|p ps IH]; intros [|i]; simpl; [done|done| |].
  - by rewrite H.
  - f_equal. apply IH.
Qed.

Lemma alter_ok f i (ps : list PlayerData) :
  (forall p, player_ok p -> player_ok (f p)) -> Forall player_ok ps ->
  Forall player_ok (alter f i ps).
Proof.
  intros H Hps. apply Forall_alter; auto.
Qed.

Lemma update_team_Some i f ts :
  length ts = 4%nat -> 0 <= i < 4 ->
  exists ts', update_team i f ts = Some ts' /\ length ts' = 4%nat.
Proof.
  intros Hl Hi. unfold update_team. rewrite Hl.
  destruct (Z.leb_spec 0 i), (Z.ltb_spec i (Z.of_nat 4)); try lia; simpl.
  eexists. split; [done|]. by rewrite length_alter.
Qed.

(** The result of an operation that leaves a game well formed. *)
Definition safe (r : option (WorldGame * list out)) : Prop :=
  exists g outs, r = Some (g, outs) /\ game_ok g.

Lemma safe_Some g outs : game_ok g -> safe (Some (g, outs)).
Proof. intros. by exists g, outs. Qed.

Lemma join_safe h peer t g : 0 <= t <= 4 -> game_ok g -> safe (join h peer t g).
Proof.
  intros Ht Hg. pose proof Hg as (Ho & Hl & Hp & Hn & Hw & Hs). unfold join.
  destruct (started g) eqn:E; [|by apply safe_Some].
  set (ps := match GetPlayer _ g with None => _ | Some i => _ end).
  assert (Forall player_ok ps /\ NoDup (pd_netID <$> ps)) as [Hp' Hn'].
  { subst ps. unfold GetPlayer. destruct (find_player _ _) eqn:F.
    - split; [apply alter_ok; [|done]|by rewrite alter_netIDs].
      intros p [_ ?]. done.
    - split.
      + apply Forall_app. split; [done|]. repeat constructor; simpl; try lia; apply u32_range.
      + rewrite fmap_app. apply list.NoDup_app. split_and!; [done| |apply NoDup_singleton].
        intros x Hx ->%list_elem_of_singleton. by apply find_player_None in F. }
  assert (forall ts, length ts = 4%nat -> game_ok (with_teams ts (with_players ps g))) as H.
  { intros ts Hts. unfold game_ok; simpl. rewrite E. done. }
  destruct (Z.eqb_spec t 4); cbn [mbind option_bind].
  - apply safe_Some. by apply H.
  - destruct (update_team_Some t (add_member (u8 (p_netID (pInfo h peer)))) (teams g))
      as (ts & -> & Hts); [done|lia|]. apply safe_Some. by apply H.
Qed.

Lemma remove_if_ok P ps : Forall player_ok ps -> Forall player_ok (remove_if P ps).
Proof. intros H. unfold remove_if. by apply Forall_filter_keep. Qed.

Lemma remove_if_sublist P ps : sublist (remove_if P ps) ps.
Proof. apply sublist_filter. Qed.

Lemma storage_after_spec P ps :
  Forall player_ok ps ->
  length (storage_after P ps) = length ps /\ Forall player_ok (storage_after P ps).
Proof.
  intros H. unfold storage_after.
  pose proof (sublist_length _ _ (remove_if_sublist P ps)).
  split; [rewrite length_app, length_drop; lia|].
  apply Forall_app. split; [by apply remove_if_ok|by apply Forall_drop].
Qed.

Lemma leave_safe h peer id g : game_ok g -> safe (leave h peer id g).
Proof.
  intros Hg. pose proof Hg as (Ho & Hl & Hp & Hn & Hw & Hs). unfold leave.
  destruct (started g) eqn:E; [|by apply safe_Some].
  destruct (_ =? _)%nat eqn:El; [by apply safe_Some|].
  set (kept := remove_if _ _) in *.
  assert (forall ts, length ts = 4%nat -> game_ok (with_players kept (with_teams ts g))) as H.
  { intros ts Hts. unfold game_ok; simpl. rewrite E. split_and!; try done.
    - by apply remove_if_ok.
    - by apply NoDup_fmap_filter. }
  unfold GetPlayer. destruct (find_player id (players g)) as [i|] eqn:F; cbn [mbind option_bind].
  - destruct (storage_after_spec (λ p, pd_netID p =? id) (players g) Hp) as [Hsl Hso].
    apply find_player_Some in F as (p & Hi & _). apply lookup_lt_Some in Hi.
    rewrite <- Hsl in Hi. apply lookup_lt_is_Some_2 in Hi as [q Hq]. rewrite Hq.
    cbn [mbind option_bind].
    destruct (Z.eqb_spec (pd_team q) 4); cbn [mbind option_bind];
      [apply safe_Some; by apply H|].
    assert (player_ok q) as [Hq4 _] by (eapply Forall_lookup_1; [exact Hso|exact Hq]).
    destruct (update_team_Some (pd_team q) (remove_member (u8 (p_netID (pInfo h peer)))) (teams g))
      as (ts & -> & Hts); [done|lia|]. cbn [mbind option_bind]. apply safe_Some. by apply H.
  - apply safe_Some. by apply H.
Qed.

Lemma after_end_ok g : game_ok g -> game_ok (after_end g).
Proof. intros (Ho & _). unfold game_ok; simpl. split_and!; try done. apply NoDup_nil_2. Qed.

Lemma team_winners_safe g :
  game_ok g ->
  exists ws, team_winners (teamSize (opts g)) (teams g) = Some ws /\
    Forall (λ m, 0 <= m < 4) ws.
Proof.
  intros (Ho & Hl & _). unfold team_winners.
  destruct (teams g) as [|t ts] eqn:E; [exists []; split; [done|constructor]|]. cbn [fmap list_fmap].
  assert (0 <= teamSize (opts g) <= 4) as Hts by apply Ho.
  rewrite Hl. destruct (Z.leb_spec (teamSize (opts g)) (Z.of_nat 4)); [|lia].
  eexists. split; [done|]. apply Forall_fmap, Forall_filter_keep, Forall_fmap, list.Forall_forall.
  intros i Hi%elem_of_seq. unfold compose. simpl. rewrite u8_small; lia.
Qed.

Lemma end_safe h peer g : game_ok g -> safe (end_battle h peer g).
Proof.
  intros Hg. pose proof Hg as (Ho & Hl & Hp & Hn & Hw & Hs). unfold end_battle.
  assert (exists w, find_winners g = Some w /\
    (w_team w = true -> Forall (λ m, 0 <= m < 4) (w_members w))) as (w & -> & Hwt).
  { unfold find_winners. destruct (Z.eqb_spec (teamSize (opts g)) 0); [by eexists|].
    destruct (team_winners_safe g Hg) as (ws & -> & Hws). cbn [mbind option_bind].
    eexists. split; [done|]. simpl. by rewrite Hw. }
  cbn [mbind option_bind].
  assert (is_Some (win_score g w)) as [sc ->].
  { unfold win_score. destruct (w_members w) as [|m ms] eqn:E; [done|].
    destruct (w_team w).
    - specialize (Hwt eq_refl). inversion Hwt; subst.
      destruct (lookup_lt_is_Some_2 (teams g) (Z.to_nat m)) as [t ->]; [lia|done].
    - unfold GetPlayer. destruct (find_player m (players g)) as [i|] eqn:F; [|done].
      apply find_player_Some in F as (p & -> & _). done. }
  cbn [mbind option_bind]. apply safe_Some. by apply after_end_ok.
Qed.

Lemma join_all_safe h pts : forall g,
  Forall (λ pt, 0 <= u8 pt.2 <= 4) pts -> game_ok g -> safe (join_all h pts g).
Proof.
  induction pts as [|[p t] pts IH]; intros g Hp Hg; simpl; [by apply safe_Some|].
  inversion Hp; subst; simpl in *.
  destruct (join_safe h p (u8 t) g) as (g1 & o1 & -> & Hg1); [done|done|].
  cbn [mbind option_bind].
  destruct (IH g1) as (g2 & o2 & -> & Hg2); [done|done|]. by apply safe_Some.
Qed.

Lemma find_slot_range fuel size mx cs : forall a k,
  0 <= a < size -> 0 <= find_slot fuel size mx cs a k < size.
Proof.
  induction fuel as [|fuel IH]; intros a k Ha; simpl; [done|].
  case_match; [|done]. apply IH. apply Z.mod_pos_bound. lia.
Qed.

Lemma assign_teams_range n size mx : forall i cs,
  0 < size -> Forall (λ t, 0 <= t < size) (assign_teams n size mx i cs).
Proof.
  induction n as [|n IH]; intros i cs Hs; simpl; [constructor|].
  pose proof (find_slot_range (Z.to_nat size) size mx cs (i mod size) 0
    (Z.mod_pos_bound i size Hs)).
  case_match; constructor; try apply IH; lia.
Qed.

Lemma player_teams_range o n :
  opts_ok o -> Forall (λ t, 0 <= u8 t <= 4) (player_teams o n).
Proof.
  intros (Hs & _). unfold player_teams. destruct (Z.ltb_spec 0 (teamSize o)).
  - eapply list.Forall_impl; [by apply assign_teams_range|]. simpl. intros t Ht.
    rewrite u8_small; lia.
  - apply Forall_replicate. by vm_compute.
Qed.

Lemma with_started_ok g : game_ok g -> game_ok (with_started true g).
Proof. intros (? & ? & ? & ? & ? & _). by unfold game_ok. Qed.

Lemma start_safe h peer g : game_ok g -> safe (start_battle h peer g).
Proof.
  intros Hg. unfold start_battle. case_match; [by apply safe_Some|].
  destruct (join_all_safe h (combine (world_players h peer g)
    (player_teams (opts g) (length (world_players h peer g)))) (with_started true g))
    as (g' & o' & -> & Hg').
  - apply list.Forall_forall. intros [p t] Hin. simpl.
    pose proof (player_teams_range (opts g) (length (world_players h peer g)) (proj1 Hg)) as Hr.
    rewrite list.Forall_forall in Hr. apply Hr. apply list_elem_of_In in Hin.
    apply in_combine_r in Hin. by apply list_elem_of_In.
  - by apply with_started_ok.
  - by apply safe_Some.
Qed.

Lemma manageBattle_safe h peer a i m g :
  op_ok (OpBattle a i m) -> game_ok g -> safe (manageBattle h peer a i m g).
Proof.
  intros Ha Hg. destruct a; simpl in *; try (by apply safe_Some).
  - by apply start_safe.
  - by apply end_safe.
  - by apply leave_safe.
  - by apply join_safe.
Qed.

Lemma ModifyPlayer_safe h peer t m g : game_ok g -> safe (ModifyPlayer h peer t m g).
Proof.
  intros Hg. pose proof Hg as (Ho & Hl & Hp & Hn & Hw & Hs). unfold ModifyPlayer, GetPlayer.
  destruct (find_player _ (players g)) as [i|] eqn:F; [|by apply safe_Some].
  apply find_player_Some in F as (p & Hi & _). rewrite Hi. cbn [mbind option_bind].
  assert (started g = true) as Es.
  { destruct (started g); [done|]. destruct (Hs eq_refl) as [E _]. by rewrite E in Hi. }
  assert (forall f, (forall p, pd_netID (f p) = pd_netID p) ->
    (forall p, player_ok p -> player_ok (f p)) ->
    game_ok (with_players (alter f i (players g)) g)) as Hf.
  { intros f H1 H2. unfold game_ok; simpl. rewrite Es, alter_netIDs by done.
    split_and!; try done. by apply alter_ok. }
  destruct t; [|by apply safe_Some, Hf|by apply safe_Some, Hf].
  assert (forall o g1 s, game_ok g1 -> safe (
    if reached (goals (opts g1)) s
    then '(g2, o2) ← manageBattle h peer END_ 0 0 g1; Some (g2, o ++ o2)
    else Some (g1, o))) as Hend.
  { intros o g1 s Hg1. case_match; [|by apply safe_Some].
    destruct (end_safe h peer g1 Hg1) as (g2 & o2 & E & Hg2). simpl. rewrite E.
    by apply safe_Some. }
  destruct (Z.eqb_spec (pd_team p) 4); cbn [manageBattle mbind option_bind].
  - by apply Hend, Hf.
  - assert (player_ok p) as [Ht _] by (eapply Forall_lookup_1; [exact Hp|exact Hi]).
    destruct (lookup_lt_is_Some_2 (teams g) (Z.to_nat (pd_team p))) as [td Etd]; [lia|].
    rewrite Etd. cbn [mbind option_bind].
    destruct (update_team_Some (pd_team p)
      (λ t, mkTeam (i32 (td_score td + m)) (td_members t)) (teams g)) as (ts & -> & Hts);
      [done|lia|].
    cbn [mbind option_bind]. apply Hend. unfold game_ok; simpl. by rewrite Es.
Qed.

Lemma processInput_safe h peer cch ms g : game_ok g -> safe (processInput h peer cch ms g).
Proof.
  intros Hg. unfold processInput.
  pose proof (process_lines_ok (started g) (getlines nl cch) (opts g) false false (proj1 Hg)) as Ho.
  change (started (with_managers ms g)) with (started g).
  change (opts (with_managers ms g)) with (opts g).
  destruct (process_lines _ _ _ _ _) as [[o ds] dc]. simpl in Ho.
  assert (game_ok (with_opts o (with_managers ms g))) as Hg'.
  { destruct Hg as (_ & ? & ? & ? & ? & ?). by unfold game_ok. }
  destruct ds; [by apply (manageBattle_safe _ _ START)|].
  destruct dc; [by apply (manageBattle_safe _ _ END_)|]. by apply safe_Some.
Qed.

(** ** Teams are dealt round robin *)

Lemma nth_alter {A} (f : A -> A) i j (l : list A) d :
  (i < length l)%nat ->
  nth j (alter f i l) d = if (j =? i)%nat then f (nth i l d) else nth j l d.
Proof.
  intros Hi. rewrite !nth_lookup. destruct (Nat.eqb_spec j i) as [->|].
  - rewrite list_lookup_alter_eq. destruct (lookup_lt_is_Some_2 l i Hi) as [x ->]. done.
  - by rewrite list_lookup_alter_ne.
Qed.

Lemma div_eq a b q : 0 < b -> b * q <= a < b * q + b -> a / b = q.
Proof. intros Hb H. symmetry. apply (Z.div_unique a b q (a - b * q)); lia. Qed.

(** The number of the first [i] players given team [t], with team sizes
    capped at [mx]. *)
Definition dealt (size mx i t : Z) : Z := (Z.min i (size * mx) + size - 1 - t) / size.

Lemma dealt_full size mx i t :
  0 < size -> 0 <= t < size -> size * mx <= i -> dealt size mx i t = mx.
Proof. intros. unfold dealt. apply div_eq; nia. Qed.

Lemma dealt_own size mx i :
  0 < size -> 0 <= i < size * mx -> dealt size mx i (i mod size) = i / size.
Proof.
  intros Hs Hi. unfold dealt. rewrite Z.min_l by lia.
  pose proof (Z.div_mod i size). pose proof (Z.mod_pos_bound i size). apply div_eq; lia.
Qed.

Lemma dealt_step size mx i t :
  0 < size -> 0 <= t < size -> 0 <= i < size * mx ->
  dealt size mx (i + 1) t = if t =? i mod size then i / size + 1 else dealt size mx i t.
Proof.
  intros Hs Ht Hi. unfold dealt. rewrite !Z.min_l by lia.
  pose proof (Z.div_mod i size). pose proof (Z.mod_pos_bound i size).
  set (q := i / size) in *. set (r := i mod size) in *.
  destruct (Z.eqb_spec t r).
  - apply div_eq; lia.
  - destruct (Z_lt_ge_dec t r).
    + rewrite (div_eq (i + 1 + size - 1 - t) size (q + 1)) by nia.
      symmetry. apply div_eq; nia.
    + rewrite (div_eq (i + 1 + size - 1 - t) size q) by nia.
      symmetry. apply div_eq; nia.
Qed.

Lemma find_slot_here fuel size mx cs a k :
  nth (Z.to_nat a) cs 0 < mx -> find_slot fuel size mx cs a k = a.
Proof.
  intros H. destruct fuel; simpl; [done|]. by rewrite (proj2 (Z.leb_gt _ _)).
Qed.

(** The team of the [j]th player: the teams in turn while there is room
    anywhere, the first team afterwards. *)
Definition round_robin (size mx j : Z) : Z := if j <? size * mx then j mod size else 0.

Fixpoint from (i : Z) (n : nat) : list Z :=
  match n with
  | O => []
  | S n => i :: from (i + 1) n
  end.

Lemma assign_teams_eq size mx n : forall i cs,
  0 < size -> 0 <= mx < 2 ^ 32 - 1 -> 0 <= i ->
  length cs = Z.to_nat size ->
  (forall t, 0 <= t < size -> nth (Z.to_nat t) cs 0 = dealt size mx i t) ->
  assign_teams n size mx i cs = round_robin size mx <$> from i n.
Proof.
  induction n as [|n IH]; intros i cs Hs Hm Hi Hl Hc; [done|].
  cbn [assign_teams from fmap list_fmap]. unfold round_robin at 1.
  pose proof (Z.mod_pos_bound i size Hs) as Hr.
  destruct (Z.ltb_spec i (size * mx)).
  - assert (nth (Z.to_nat (i mod size)) cs 0 = i / size) as Hn.
    { rewrite Hc by done. apply dealt_own; lia. }
    assert (i / size < mx) as Hlt by (apply Z.div_lt_upper_bound; lia).
    rewrite find_slot_here by lia. rewrite Hn, (proj2 (Z.ltb_lt _ _)) by done.
    f_equal. apply IH; try lia.
    + unfold count_up. by rewrite length_alter.
    + intros t Ht. unfold count_up. rewrite nth_alter by lia.
      rewrite dealt_step by lia.
      destruct (Nat.eqb_spec (Z.to_nat t) (Z.to_nat (i mod size))),
        (Z.eqb_spec t (i mod size)); try lia; [|by apply Hc].
      rewrite Hn. apply u32_small. pose proof (Z.div_pos i size). lia.
  - pose proof (find_slot_range (Z.to_nat size) size mx cs (i mod size) 0 Hr) as Hf.
    rewrite (Hc _ Hf), dealt_full by lia. rewrite Z.ltb_irrefl.
    f_equal. apply IH; try lia.
    intros t Ht. rewrite Hc by done. rewrite !dealt_full by lia. done.
Qed.

Lemma assign_teams_round_robin size mx n :
  0 < size -> 0 <= mx < 2 ^ 32 - 1 ->
  assign_teams n size mx 0 (replicate (Z.to_nat size) 0) = round_robin size mx <$> from 0 n.
Proof.
  intros Hs Hm. apply assign_teams_eq; [done|done|lia|apply length_replicate|].
  intros t Ht. rewrite nth_lookup, lookup_replicate_2 by lia. simpl.
  symmetry. unfold dealt. apply div_eq; nia.
Qed.

(** ** Leaving *)

Lemma find_player_split l1 p l2 :
  NoDup (pd_netID <$> l1 ++ p :: l2) ->
  find_player (pd_netID p) (l1 ++ p :: l2) = Some (length l1).
Proof.
  induction l1 as [|q l1 IH]; simpl; intros Hn; [by rewrite Z.eqb_refl|].
  apply list.NoDup_cons in Hn as [Hq Hn]. rewrite IH by done.
  destruct (Z.eqb_spec (pd_netID q) (pd_netID p)) as [E|]; [|done]. destruct Hq.
  rewrite E, fmap_app. apply elem_of_app. right. by left.
Qed.

Lemma remove_if_absent nid ps :
  nid ∉ (pd_netID <$> ps) -> remove_if (λ p, pd_netID p =? nid) ps = ps.
Proof.
  induction ps as [|p ps IH]; intros H; [done|]. unfold remove_if in *. rewrite filter_cons.
  destruct (Z.eqb_spec (pd_netID p) nid) as [E|]; simpl.
  - destruct H. rewrite <- E. by left.
  - rewrite IH; [done|]. intros Hin. apply H. by right.
Qed.

Lemma remove_if_split l1 p l2 :
  NoDup (pd_netID <$> l1 ++ p :: l2) ->
  remove_if (λ q, pd_netID q =? pd_netID p) (l1 ++ p :: l2) = l1 ++ l2.
Proof.
  intros Hn. rewrite fmap_app in Hn. apply list.NoDup_app in Hn as (_ & Hd & Hn).
  apply list.NoDup_cons in Hn as [Hp _].
  unfold remove_if. rewrite list.filter_app, filter_cons, Z.eqb_refl. simpl. f_equal.
  - apply remove_if_absent. intros Hin. apply (Hd _ Hin). by left.
  - by apply remove_if_absent.
Qed.

(** The cell the stale pointer looks into: the element after the removed
    one has moved there, if there is one. *)
Lemma storage_after_split l1 p l2 :
  NoDup (pd_netID <$> l1 ++ p :: l2) ->
  storage_after (λ q, pd_netID q =? pd_netID p) (l1 ++ p :: l2) !! length l1 =
    Some (match l2 with q :: _ => q | [] => p end).
Proof.
  intros Hn. unfold storage_after. rewrite remove_if_split by done.
  rewrite <- app_assoc, lookup_app_r, Nat.sub_diag by lia.
  destruct l2 as [|q l2]; [|done]. rewrite app_nil_r. simpl.
  by rewrite drop_app_length.
Qed.

(** ** Winners *)

Lemma max_score_ge xs : forall x, x <= max_score x xs /\ Forall (λ y, y <= max_score x xs) xs.
Proof.
  induction xs as [|y xs IH]; intros x; simpl; [by split; [lia|constructor]|].
  destruct (IH (if x <? y then y else x)) as [H1 H2].
  destruct (Z.ltb_spec x y); split; try lia; constructor; try done; lia.
Qed.

(** The maximum bounds the scores of the whole sequence. *)
Lemma max_score_bound {A} (f : A -> Z) x xs y :
  y ∈ x :: xs -> f y <= max_score (f x) (f <$> xs).
Proof.
  destruct (max_score_ge (f <$> xs) (f x)) as [H1 H2].
  rewrite list.Forall_forall in H2. intros [->|Hy]%elem_of_cons; [done|].
  apply H2. by apply list_elem_of_fmap_2.
Qed.

Lemma max_score_in xs : forall x, max_score x xs ∈ x :: xs.
Proof.
  induction xs as [|y xs IH]; intros x; simpl; [by left|].
  specialize (IH (if x <? y then y else x)). destruct (x <? y).
  - by right.
  - apply elem_of_cons in IH as [->|H]; [by left|by right; right].
Qed.

(** ** Runs *)

Fixpoint run_ops (ops : list (Host * nat * GameOp)) (g : WorldGame) : option WorldGame :=
  match ops with
  | [] => Some g
  | (h, p, o) :: ops => '(g, _) ← run_op h p o g; run_ops ops g
  end.

Lemma run_op_safe h p o g : op_ok o -> game_ok g -> safe (run_op h p o g).
Proof.
  intros Ho Hg. destruct o; simpl.
  - by apply processInput_safe.
  - by apply manageBattle_safe.
  - by apply ModifyPlayer_safe.
Qed.

Lemma new_game_ok : game_ok new_game.
Proof.
  unfold game_ok, opts_ok; simpl. split_and!; try done; try lia; try constructor.
Qed.

Lemma run_ops_safe ops : forall g,
  Forall (λ x, op_ok x.2) ops -> game_ok g ->
  exists g', run_ops ops g = Some g' /\ game_ok g'.
Proof.
  induction ops as [|[[h p] o] ops IH]; intros g Ho Hg; [by exists g|].
  inversion Ho; subst. destruct (run_op_safe h p o g) as (g1 & o1 & E & Hg1); [done|done|].
  cbn [run_ops]. rewrite E. cbn [mbind option_bind]. by apply IH.
Qed.

(** ** Starting *)

(** The player record a peer gets when it joins for the first time. *)
Definition fresh_player (h : Host) (o : Options) (p : nat) (t : Z) : PlayerData :=
  mkPlayer (u32 (p_netID (pInfo h p))) (u8 t) 0 (i8 (lives o)) 0 ((-1, -1), -1).

Lemma join_all_fresh h pts : forall g g' outs,
  started g = true ->
  base.NoDup ((pd_netID <$> players g) ++ ((λ pt, u32 (p_netID (pInfo h pt.1))) <$> pts)) ->
  join_all h pts g = Some (g', outs) ->
  players g' = players g ++ ((λ pt, fresh_player h (opts g) pt.1 pt.2) <$> pts) /\
  started g' = true /\ opts g' = opts g.
Proof.
  induction pts as [|[p t] pts IH]; intros g g' outs Hs Hn H.
  { simpl in H. simplify_eq. by rewrite app_nil_r. }
  cbn [fmap list_fmap fst snd] in *. cbn [join_all] in H.
  destruct (join h p (u8 t) g) as [[g1 o1]|] eqn:E; cbn [mbind option_bind] in H; [|done].
  destruct (join_all h pts g1) as [[g2 o2]|] eqn:E2; cbn [mbind option_bind] in H; [|done].
  injection H as <- _.
  assert (players g1 = players g ++ [fresh_player h (opts g) p t] /\
    started g1 = true /\ opts g1 = opts g) as (Hp & Hs1 & Ho1).
  { unfold join in E. rewrite Hs in E. unfold GetPlayer in E.
    destruct (find_player _ _) as [i|] eqn:F.
    - exfalso. apply find_player_Some in F as (q & Hq & Hid).
      apply list.NoDup_app in Hn as (_ & Hd & _). apply (Hd (pd_netID q)).
      + apply list_elem_of_fmap. exists q. split; [done|]. by eapply list_elem_of_lookup_2.
      + rewrite Hid. by left.
    - destruct (if _ =? 4 then _ else _) as [ts|]; cbn [mbind option_bind] in E; [|done].
      injection E as <- _. by split_and!. }
  destruct (IH g1 g2 o2 Hs1) as (Hp2 & Hs2 & Ho2); [|done|].
  - rewrite Hp, fmap_app, <- app_assoc. exact Hn.
  - rewrite Hp2, Hp, Ho1, <- app_assoc. split_and!; [done|done|congruence].
Qed.

Lemma assign_teams_length n size mx : forall i cs, length (assign_teams n size mx i cs) = n.
Proof. induction n as [|n IH]; intros i cs; simpl; [done|]. case_match; simpl; by rewrite IH. Qed.

Lemma player_teams_length o n : length (player_teams o n) = n.
Proof.
  unfold player_teams. case_match; [apply assign_teams_length|apply length_replicate].
Qed.

Lemma in_combine_nth {A} (l : list A) d x : forall k i,
  In (i, x) (combine (seq k (length l)) l) -> (k <= i)%nat /\ nth (i - k) l d = x.
Proof.
  induction l as [|y l IH]; intros k i; simpl; [done|].
  intros [[= -> ->]|H]; [by rewrite Nat.sub_diag|].
  apply IH in H as [H1 H2]. split; [lia|].
  by replace (i - k)%nat with (S (i - S k)) by lia.
Qed.

Lemma combine_fst {A B} (l : list A) : forall (k : list B),
  length k = length l -> fst <$> combine l k = l.
Proof.
  induction l as [|x l IH]; intros [|y k] H; simpl in *; try done. f_equal. apply IH. lia.
Qed.

(** ** The dialog *)

Lemma getlines_concat ls :
  Forall (λ l, all_chars (λ d, negb (Ascii.eqb d nl)) l = true) ls ->
  getlines nl (cat ((λ l, l +:+ endl) <$> ls)) = ls.
Proof.
  intros H. unfold getlines.
  assert (split_on nl (cat ((λ l, l +:+ endl) <$> ls)) = ls ++ [EmptyString]) as ->.
  { induction H as [|l ls Hl _ IH]; [done|]. cbn [fmap list_fmap cat].
    change endl with (String nl EmptyString). rewrite <- str_app_assoc.
    change (String nl EmptyString +:+ ?x) with (String nl x).
    rewrite split_on_app by done. simpl. by rewrite <- IH. }
  rewrite last_last. by rewrite removelast_last.
Qed.

(** Option bits, by position. *)
Definition bit_pos (b : GameOptions) : Z :=
  match b with
  | RESPAWN_ON_SCORE => 0 | RESET_ON_SCORE => 1 | OWNER_PLAYS => 2 | LATE_JOIN => 3
  | SMASH_ENEMY_BLOCK => 4 | SMASH_OWN_BLOCK => 5 | DISABLE_MUSIC => 6
  | DONT_USE_CHAT_LOG => 7 | RESTART_AUTOMATICALLY => 8
  end.

Lemma option_bit_pow b : option_bit b = 2 ^ bit_pos b.
Proof. by destruct b. Qed.

Lemma bit_pos_range b : 0 <= bit_pos b < 9.
Proof. destruct b; simpl; lia. Qed.

Lemma land_pow2 f k : 0 <= k -> Z.land f (2 ^ k) = if Z.testbit f k then 2 ^ k else 0.
Proof.
  intros Hk. apply Z.bits_inj'. intros n Hn. rewrite Z.land_spec, Z.pow2_bits_eqb by done.
  destruct (Z.eqb_spec k n) as [->|].
  - destruct (Z.testbit f n); simpl; [by rewrite Z.pow2_bits_true|by rewrite Z.bits_0].
  - rewrite andb_false_r. destruct (Z.testbit f k); [|by rewrite Z.bits_0].
    by rewrite Z.pow2_bits_false.
Qed.

Lemma isOptionEnabled_testbit b o : isOptionEnabled b o = Z.testbit (flags o) (bit_pos b).
Proof.
  unfold isOptionEnabled. pose proof (bit_pos_range b).
  rewrite option_bit_pow, land_pow2 by lia.
  destruct (Z.testbit _ _); [|done].
  assert (0 < 2 ^ bit_pos b) by (apply Z.pow_pos_nonneg; lia).
  destruct (Z.eqb_spec (2 ^ bit_pos b) 0); [lia|done].
Qed.

Lemma u32_testbit z n : 0 <= n < 32 -> Z.testbit (u32 z) n = Z.testbit z n.
Proof. intros. unfold uwrap. by rewrite Z.mod_pow2_bits_low by lia. Qed.

(** An edit changes one bit. *)
Lemma editOption_testbit b en o n :
  0 <= n < 32 ->
  Z.testbit (flags (editOption b en o)) n =
    if n =? bit_pos b then en else Z.testbit (flags o) n.
Proof.
  intros Hn. pose proof (bit_pos_range b) as Hb.
  assert (flags (editOption b en o) = if en then Z.lor (flags o) (option_bit b)
    else Z.land (flags o) (u32 (Z.lnot (option_bit b)))) as -> by (by destruct o).
  rewrite option_bit_pow. destruct en.
  - rewrite Z.lor_spec, Z.pow2_bits_eqb, (Z.eqb_sym (bit_pos b)) by lia.
    destruct (n =? bit_pos b); [apply orb_true_r|apply orb_false_r].
  - rewrite Z.land_spec, u32_testbit, Z.lnot_spec, Z.pow2_bits_eqb, (Z.eqb_sym (bit_pos b))
      by lia.
    destruct (n =? bit_pos b); simpl; [apply andb_false_r|apply andb_true_r].
Qed.

Lemma flags_ext f1 f2 :
  0 <= f1 < 2 ^ 9 -> 0 <= f2 < 2 ^ 9 ->
  (forall n, 0 <= n < 9 -> Z.testbit f1 n = Z.testbit f2 n) -> f1 = f2.
Proof.
  intros H1 H2 H. rewrite <- (Z.mod_small f1 (2 ^ 9)), <- (Z.mod_small f2 (2 ^ 9)) by lia.
  apply Z.bits_inj'. intros n Hn. destruct (Z_lt_ge_dec n 9).
  - rewrite !Z.mod_pow2_bits_low by lia. apply H. lia.
  - by rewrite !Z.mod_pow2_bits_high by lia.
Qed.

Definition no_char (c : ascii) (s : string) : bool := all_chars (λ d, negb (Ascii.eqb d c)) s.

Lemma process_field key value ls o ds dc :
  no_char (char_of 124) key = true -> no_char (char_of 124) value = true ->
  String.eqb key "buttonClicked" = false ->
  process_lines false (field key value :: ls) o ds dc =
  process_lines false ls (set_option key value o) ds dc.
Proof.
  intros Hk Hv Hb. cbn [process_lines]. unfold field.
  rewrite split_on_app, split_on_plain by done. cbn [nth]. by rewrite Hb.
Qed.

Lemma no_bar_number z : no_char (char_of 124) (to_string z) = true.
Proof. by apply to_string_no_sep. Qed.

Lemma no_bar_digit b : no_char (char_of 124) (bool_digit b) = true.
Proof. by destruct b. Qed.

Lemma stoi_bool_digit b : stoi (bool_digit b) = Some (if b then 1 else 0).
Proof. by destruct b. Qed.

(** The nine checkboxes restore the flags whatever they were. *)
Definition copy_flags (src : Options) (o : Options) : Options :=
  let put b o := editOption b (isOptionEnabled b src) o in
  put RESTART_AUTOMATICALLY (put DONT_USE_CHAT_LOG (put DISABLE_MUSIC (put SMASH_OWN_BLOCK
  (put SMASH_ENEMY_BLOCK (put LATE_JOIN (put OWNER_PLAYS (put RESET_ON_SCORE
  (put RESPAWN_ON_SCORE o)))))))).

Lemma editOption_set b en o : exists f, editOption b en o = set_flags f o.
Proof. by eexists. Qed.

Lemma set_flags_set f1 f2 o : set_flags f1 (set_flags f2 o) = set_flags f1 o.
Proof. by destruct o. Qed.

Lemma set_flags_self o : set_flags (flags o) o = o.
Proof. by destruct o. Qed.

Lemma flags_set_flags f o : flags (set_flags f o) = f.
Proof. by destruct o. Qed.

Lemma copy_flags_eq src o :
  0 <= flags src < 2 ^ 9 -> 0 <= flags o < 2 ^ 9 ->
  copy_flags src o = set_flags (flags src) o.
Proof.
  intros Hs Ho. unfold copy_flags.
  assert (exists f, copy_flags src o = set_flags f o) as [f Hf].
  { unfold copy_flags, editOption. rewrite !set_flags_set. by eexists. }
  assert (0 <= flags (copy_flags src o) < 2 ^ 9) as Hr.
  { unfold copy_flags. by repeat apply editOption_flags. }
  assert (flags (copy_flags src o) = flags src) as E.
  { apply flags_ext; [done|done|]. intros n Hn. unfold copy_flags.
    rewrite !editOption_testbit, !isOptionEnabled_testbit by lia. simpl.
    repeat match goal with
    | |- context [n =? ?k] => destruct (Z.eqb_spec n k); [by subst|]
    end. lia. }
  fold (copy_flags src o). rewrite Hf in E |- *. by rewrite flags_set_flags in E; subst.
Qed.

Lemma clamp_u8_id z lo hi : 0 <= lo -> hi < 256 -> lo <= z <= hi -> clamp_u8 z lo hi = z.
Proof. intros. unfold clamp_u8. rewrite u8_small by lia. by apply clamp_id. Qed.

Lemma clamp_i8_id z lo hi : -128 <= lo -> hi < 128 -> lo <= z <= hi -> clamp_i8 z lo hi = z.
Proof. intros. unfold clamp_i8. rewrite i8_small by lia. by apply clamp_id. Qed.

Lemma clamp_u32_id z lo hi :
  0 <= lo -> hi < 4294967296 -> lo <= z <= hi -> clamp_u32 z lo hi = z.
Proof. intros. unfold clamp_u32. rewrite u32_small by lia. by apply clamp_id. Qed.


(** A line whose value is a number the code accepts. *)
Lemma process_num key f z ls o ds dc :
  no_char (char_of 124) key = true -> String.eqb key "buttonClicked" = false ->
  (forall v o, set_option key v o = match stoi v with Some z => f z o | None => o end) ->
  in_i32 z ->
  process_lines false (field key (to_string z) :: ls) o ds dc =
  process_lines false ls (f z o) ds dc.
Proof.
  intros Hk Hb Hf Hz. rewrite process_field by (done || apply no_bar_number).
  by rewrite Hf, stoi_to_string.
Qed.

Lemma process_bool key b src ls o ds dc :
  no_char (char_of 124) key = true -> String.eqb key "buttonClicked" = false ->
  (forall v o, set_option key v o =
     match stoi v with Some z => editOption b (negb (z =? 0)) o | None => o end) ->
  process_lines false (bool_field key b src :: ls) o ds dc =
  process_lines false ls (editOption b (isOptionEnabled b src) o) ds dc.
Proof.
  intros Hk Hb Hf. unfold bool_field. rewrite process_field by (done || apply no_bar_digit).
  rewrite Hf, stoi_bool_digit. by destruct (isOptionEnabled b src).
Qed.

Lemma opts_i32 o : opts_ok o ->
  Forall in_i32 [teamSize o; lives o; time o; goals o; min_team_size o; max_team_size o;
    pv_kill o; pv_last_standing o; pv_goal o; pv_flag o; pv_smash o; pv_die o;
    player_hits o; block_hits o].
Proof. unfold opts_ok, in_i32. intros. repeat constructor; lia. Qed.

Lemma submitted_numbers o o0 :
  opts_ok o -> no_char (char_of 124) (name o) = true ->
  process_lines false (submitted o) o0 false false =
    (set_block_hits (block_hits o) (set_player_hits (player_hits o) (copy_flags o
     (set_pv_die (pv_die o) (set_pv_smash (pv_smash o) (set_pv_flag (pv_flag o)
     (set_pv_goal (pv_goal o) (set_pv_last_standing (pv_last_standing o)
     (set_pv_kill (pv_kill o) (set_max_team_size (max_team_size o)
     (set_min_team_size (min_team_size o) (set_goals (goals o) (set_time (time o)
     (set_lives (lives o) (set_teamSize (teamSize o) (set_name (name o) o0))))))))))))))),
     false, false).
Proof.
  intros Ho Hn. pose proof (opts_i32 o Ho) as Hi.
  repeat match goal with H : Forall in_i32 (_ :: _) |- _ =>
    apply list.Forall_cons in H as [? H] end.
  unfold submitted, copy_flags. rewrite process_field by done.
  change (set_option "name" (name o) o0) with (set_name (name o) o0).
  rewrite (process_num "teamSize" (λ z, set_teamSize (clamp_u8 z 0 4))),
    (process_num "lives" (λ z, set_lives (clamp_u8 z 0 100))),
    (process_num "time" (λ z, set_time (clamp_u32 z 0 3600))),
    (process_num "goals" (λ z, set_goals (clamp z 0 1000000))),
    (process_num "min_team_size" (λ z, set_min_team_size (clamp_u8 z 0 64))),
    (process_num "max_team_size" (λ z, set_max_team_size (clamp_u8 z 0 64))),
    (process_num "pv_kill" (λ z, set_pv_kill (clamp_i8 z (-100) 100))),
    (process_num "pv_last_standing" (λ z, set_pv_last_standing (clamp_i8 z (-100) 100))),
    (process_num "pv_goal" (λ z, set_pv_goal (clamp_i8 z (-100) 100))),
    (process_num "pv_flag" (λ z, set_pv_flag (clamp_i8 z (-100) 100))),
    (process_num "pv_smash" (λ z, set_pv_smash (clamp_i8 z (-100) 100))),
    (process_num "pv_die" (λ z, set_pv_die (clamp_i8 z (-100) 100))) by done.
  do 9 (rewrite process_bool by done).
  rewrite (process_num "player_hits" (λ z, set_player_hits (clamp_u8 z 0 20))),
    (process_num "block_hits" (λ z, set_block_hits (clamp_u8 z 0 100))) by done.
  unfold opts_ok in Ho.
  rewrite !clamp_u8_id, !clamp_i8_id, clamp_u32_id, clamp_id by lia. done.
Qed.

Lemma no_char_app c s t : no_char c (s +:+ t) = no_char c s && no_char c t.
Proof. apply all_chars_app. Qed.

Lemma submitted_lines o :
  no_char nl (name o) = true -> Forall (λ l, no_char nl l = true) (submitted o).
Proof.
  intros Hn.
  assert (forall key v, no_char nl key = true -> no_char nl v = true ->
    no_char nl (field key v) = true) as Hf.
  { intros key v Hk Hv. unfold field. rewrite no_char_app, Hk. exact Hv. }
  unfold submitted, bool_field.
  repeat constructor; apply Hf; try reflexivity; try (by apply to_string_no_sep);
    try (by destruct (isOptionEnabled _ _)). done.
Qed.

(** ** Broadcasts *)

Lemma broadcast_world h p ms i m :
  (i, m) ∈ broadcast h p ms -> world (pInfo h i) = world (pInfo h p).
Proof.
  unfold broadcast. intros H%list_elem_of_In%in_concat.
  destruct H as (l & Hl & Hin). apply list_elem_of_In, list_elem_of_fmap in Hl
    as ([j cp] & -> & Hj). simpl in Hin.
  destruct (in_world h p cp) eqn:E; [|done].
  apply list_elem_of_In, list_elem_of_fmap in Hin as (m' & [= -> ->] & _).
  apply list_elem_of_In in Hj. unfold numbered in Hj.
  unfold in_world in E. apply andb_true_iff in E as [_ E%String.eqb_eq]. rewrite E.
  unfold pInfo. apply (in_combine_nth h peer_none) in Hj as [_ Hj].
  rewrite Nat.sub_0_r in Hj. by rewrite <- Hj.
Qed.

Lemma leave_outs h peer id g g' outs :
  leave h peer id g = Some (g', outs) ->
  outs = broadcast h peer [battle_packet 28 id 0 (action_code LEAVE) 0].
Proof.
  unfold leave. destruct (started g); [|by intros [= <- <-]].
  destruct (_ =? _)%nat; [by intros [= <- <-]|].
  destruct (match GetPlayer id g with None => _ | Some _ => _ end) as [ts|];
    cbn [mbind option_bind]; [|done]. by intros [= <- <-].
Qed.

(** ** The properties *)

(** C32: the game never leaves its vectors. From a new game, any sequence of
    dialog returns with any text, battle actions and player modifications,
    for any peers, where a JOIN names a team 0 to 3 or 4 for none (only START
    sends it, with such teams; another one reads outside of the teams, see
    [join_outside]), is defined: no team or player is accessed outside its
    vector. Afterwards there are four teams, no player is listed twice, nobody
    is listed while no battle runs, and the settings are in the ranges that
    the input enforces: up to 4 teams, 100 lives, 3600 seconds, 1000000 goals,
    20 hits of players and 100 of blocks, points from -100 to 100, and a
    minimal and maximal team size from 0 to 64, where the comments of the
    fields say 4. *)
Theorem game_always_safe ops :
  Forall (λ x, op_ok x.2) ops ->
  exists g, run_ops ops new_game = Some g /\ game_ok g.
Proof. intros H. by apply run_ops_safe; [|apply new_game_ok]. Qed.

Definition two_peers : Host :=
  [mkPeer true true "START" 7 "alice"; mkPeer true true "START" 300 "bob"].

Lemma game_always_safe_witness :
  exists g, run_ops [(two_peers, 0%nat, OpInput ("teamSize|2" +:+ endl +:+ "lives|999" +:+ endl) []);
    (two_peers, 0%nat, OpBattle START 0 0); (two_peers, 1%nat, OpModify SCORE 3);
    (two_peers, 0%nat, OpBattle LEAVE 7 0); (two_peers, 1%nat, OpBattle END_ 0 0)] new_game
    = Some g /\ game_ok g.
Proof. apply game_always_safe. repeat constructor. Defined.

(** The team 5 is behind the last one. *)
Example join_outside :
  join two_peers 0 5 (with_started true new_game) = None.
Proof. reflexivity. Qed.

(** A team size of 64 is accepted. *)
Example big_teams :
  (λ r, (min_team_size (opts r.1), max_team_size (opts r.1))) <$>
    processInput two_peers 0 ("min_team_size|64" +:+ endl +:+ "max_team_size|64" +:+ endl) [] new_game
    = Some (64, 64).
Proof. vm_compute. reflexivity. Qed.

(** How players are dealt to teams. With at least one team, the [j]th
    player goes to team [j] modulo the number of teams as long as some team
    has room, so team sizes differ by at most one; every later player goes
    to team 0, whatever the maximal team size. *)
Theorem player_teams_round_robin o n :
  opts_ok o -> 0 < teamSize o ->
  player_teams o n =
    round_robin (teamSize o) (if max_team_size o =? 0 then 64 else max_team_size o) <$> from 0 n.
Proof.
  intros Ho Hs. unfold player_teams. rewrite (proj2 (Z.ltb_lt _ _)) by done.
  apply assign_teams_round_robin; [done|]. unfold opts_ok in Ho. case_match; lia.
Qed.

Definition two_teams_of_two : Options := set_max_team_size 2 (set_teamSize 2 default_options).

Lemma player_teams_round_robin_witness :
  player_teams two_teams_of_two 7 = [0; 1; 0; 1; 0; 0; 0].
Proof.
  etransitivity; [apply player_teams_round_robin; unfold opts_ok; simpl; lia|reflexivity].
Defined.

(** Who leaves, and from which team. During a battle, a leaving player
    disappears from the players and the others keep their order; but the
    team the peer is taken out of is the team of the player listed after it
    (its own team when it is the last): the pointer to the player is used
    after the players have moved. *)
Theorem leave_removes_player h peer g l1 p l2 :
  game_ok g -> started g = true -> players g = l1 ++ p :: l2 ->
  let t := pd_team (match l2 with q :: _ => q | [] => p end) in
  exists outs, leave h peer (pd_netID p) g =
    Some (with_players (l1 ++ l2)
           (with_teams (if t =? 4 then teams g
                        else alter (remove_member (u8 (p_netID (pInfo h peer)))) (Z.to_nat t)
                               (teams g)) g), outs).
Proof.
  intros (_ & Hl & Hp & Hn & _) Hs Eg t. unfold leave. rewrite Hs, Eg in *.
  rewrite remove_if_split by done. unfold GetPlayer. rewrite Eg, find_player_split by done.
  rewrite (proj2 (Nat.eqb_neq _ _)) by (rewrite !length_app; simpl; lia).
  rewrite storage_after_split by done. cbn [mbind option_bind]. fold t.
  assert (0 <= t <= 4) as Ht.
  { apply Forall_app in Hp as [_ Hp]. inversion Hp as [|? ? Hp1 Hp2]; subst. subst t.
    destruct l2 as [|q l2]; [apply Hp1|]. inversion Hp2 as [|? ? Hq _]; subst. apply Hq. }
  destruct (Z.eqb_spec t 4); cbn [mbind option_bind]; [by eexists|].
  unfold update_team. rewrite Hl.
  rewrite (proj2 (Z.leb_le _ _)), (proj2 (Z.ltb_lt _ _)) by lia. cbn [andb mbind option_bind].
  by eexists.
Qed.

(** Alice of team 0 leaves before Bob of team 1: she is still a member of
    team 0. *)
Definition alice_and_bob : WorldGame :=
  mkGame (set_teamSize 2 default_options) [] 0 true
    [mkPlayer 7 0 0 3 0 ((-1, -1), -1); mkPlayer 9 1 0 3 0 ((-1, -1), -1)]
    [mkTeam 0 [7]; mkTeam 0 [9]; mkTeam 0 []; mkTeam 0 []] [] (mkWinners false []).

Lemma alice_and_bob_ok : game_ok alice_and_bob.
Proof.
  unfold game_ok, opts_ok; simpl. split_and!; try done; try lia.
  - repeat constructor; simpl; lia.
  - apply (bool_decide_unpack _). by vm_compute.
Qed.

Lemma leave_removes_player_witness :
  exists outs, leave two_peers 0 7 alice_and_bob =
    Some (with_players [mkPlayer 9 1 0 3 0 ((-1, -1), -1)] alice_and_bob, outs).
Proof.
  apply (leave_removes_player two_peers 0 alice_and_bob [] (mkPlayer 7 0 0 3 0 ((-1, -1), -1))
    [mkPlayer 9 1 0 3 0 ((-1, -1), -1)]); [apply alice_and_bob_ok|reflexivity|reflexivity].
Defined.

(** The winners of a free-for-all. A net id (cut to a byte) wins exactly
    when it is that of a player no other player outscores, and there is a
    winner as soon as there is a player. *)
Theorem ffa_winners_are_max ps :
  (forall m, m ∈ ffa_winners ps <->
    exists p, p ∈ ps /\ m = u8 (pd_netID p) /\ Forall (λ q, pd_score q <= pd_score p) ps) /\
  (ps <> [] -> ffa_winners ps <> []).
Proof.
  destruct ps as [|p0 ps].
  { split; [|done]. intros m. split; [intros Hm; by apply elem_of_nil in Hm|].
    intros (p & Hp & _). by apply elem_of_nil in Hp. }
  set (mx := max_score (pd_score p0) (pd_score <$> ps)).
  change (ffa_winners (p0 :: ps)) with
    ((λ p, u8 (pd_netID p)) <$> filter (λ p, pd_score p = mx) (p0 :: ps)).
  assert (forall q, q ∈ p0 :: ps -> pd_score q <= mx) as Hle
    by (intros q Hq; by apply (max_score_bound pd_score)).
  assert (exists q, q ∈ p0 :: ps /\ pd_score q = mx) as (q & Hq & Hqs).
  { pose proof (max_score_in (pd_score <$> ps) (pd_score p0)) as H. fold mx in H.
    change (pd_score p0 :: (pd_score <$> ps)) with (pd_score <$> (p0 :: ps)) in H.
    apply list_elem_of_fmap in H as (q & Hq & H). by exists q. }
  split.
  - intros m. rewrite list_elem_of_fmap. split.
    + intros (p & -> & [Hs Hp]%list_elem_of_filter). exists p. split; [done|]. split; [done|].
      rewrite Hs. by apply list.Forall_forall.
    + intros (p & Hp & -> & Hmax). exists p. split; [done|].
      apply list_elem_of_filter. split; [|done].
      rewrite list.Forall_forall in Hmax. specialize (Hmax q Hq). specialize (Hle p Hp).
      simpl in *. lia.
  - intros _ E. apply fmap_nil_inv in E.
    assert (q ∈ filter (λ p, pd_score p = mx) (p0 :: ps)) as H
      by (apply list_elem_of_filter; done).
    rewrite E in H. by apply elem_of_nil in H.
Qed.

Lemma ffa_winners_are_max_witness :
  ffa_winners [mkPlayer 7 4 2 3 0 ((-1, -1), -1); mkPlayer 300 4 5 3 0 ((-1, -1), -1);
    mkPlayer 9 4 5 3 0 ((-1, -1), -1)] = [44; 9] /\
  ffa_winners [mkPlayer 7 4 2 3 0 ((-1, -1), -1)] <> [].
Proof.
  split; [reflexivity|].
  apply (proj2 (ffa_winners_are_max [mkPlayer 7 4 2 3 0 ((-1, -1), -1)])). done.
Defined.

(** A team battle without a winner. When fewer than four teams play and
    every playing team has a negative score (the default for dying is -1),
    the idle teams' score of 0 is the maximum, and no team wins. *)
Theorem negative_teams_no_winner size ts :
  length ts = 4%nat -> 0 < size < 4 ->
  Forall (λ t, td_score t < 0) (take (Z.to_nat size) ts) ->
  Forall (λ t, td_score t = 0) (drop (Z.to_nat size) ts) ->
  team_winners size ts = Some [].
Proof.
  intros Hl Hs Hneg Hzero. unfold team_winners.
  destruct ts as [|t0 ts]; [done|]. cbn [fmap list_fmap].
  rewrite Hl, (proj2 (Z.leb_le _ _)) by lia.
  set (mx := max_score _ _).
  destruct (lookup_lt_is_Some_2 (t0 :: ts) 3) as [z Hz]; [lia|].
  assert (td_score z = 0) as Hz0.
  { rewrite list.Forall_forall in Hzero. apply Hzero.
    apply list_elem_of_lookup_2 with (3 - Z.to_nat size)%nat. rewrite lookup_drop.
    by replace (Z.to_nat size + (3 - Z.to_nat size))%nat with 3%nat by lia. }
  assert (0 <= mx) as Hmx.
  { rewrite <- Hz0. apply (max_score_bound td_score). by apply list_elem_of_lookup_2 in Hz. }
  f_equal. assert (filter (λ idx, td_score (nth (Z.to_nat idx) (t0 :: ts) (mkTeam 0 [])) = mx)
    (Z.of_nat <$> seq 0 (Z.to_nat size)) = []) as E; [|by rewrite E].
  apply elem_of_nil_inv. intros i [Hi Hin]%list_elem_of_filter.
  apply list_elem_of_fmap in Hin as (k & -> & Hk%elem_of_seq). rewrite Nat2Z.id in Hi.
  destruct (lookup_lt_is_Some_2 (t0 :: ts) k) as [t Ht]; [lia|].
  rewrite (nth_lookup_Some _ _ _ _ Ht) in Hi.
  assert (td_score t < 0); [|lia].
  rewrite list.Forall_forall in Hneg. apply Hneg.
  apply list_elem_of_lookup_2 with k. by rewrite lookup_take_lt by lia.
Qed.

Lemma negative_teams_no_winner_witness :
  team_winners 2 [mkTeam (-1) [7]; mkTeam (-3) [9]; mkTeam 0 []; mkTeam 0 []] = Some [].
Proof.
  apply (negative_teams_no_winner 2); [reflexivity|lia|repeat constructor|repeat constructor].
Defined.

(** A running battle cannot be reconfigured. While a battle runs, no
    dialog text changes the settings: the dialog either cancels the battle
    or changes nothing but the list of managers. *)
Theorem running_settings_fixed h peer cch ms g :
  started g = true ->
  processInput h peer cch ms g = end_battle h peer (with_managers ms g) \/
  processInput h peer cch ms g = Some (with_managers ms g, []).
Proof.
  intros Hs. unfold processInput.
  change (started (with_managers ms g)) with (started g).
  change (opts (with_managers ms g)) with (opts g). rewrite Hs, process_lines_started.
  assert (with_opts (opts g) (with_managers ms g) = with_managers ms g) as -> by (by destruct g).
  destruct (_.2); [by left|by right].
Qed.

Lemma running_settings_fixed_witness :
  processInput two_peers 0 ("lives|50" +:+ endl +:+ "buttonClicked|start" +:+ endl) ["alice"]
    alice_and_bob = end_battle two_peers 0 (with_managers ["alice"] alice_and_bob) \/
  processInput two_peers 0 ("lives|50" +:+ endl +:+ "buttonClicked|start" +:+ endl) ["alice"]
    alice_and_bob = Some (with_managers ["alice"] alice_and_bob, []).
Proof. apply running_settings_fixed. reflexivity. Defined.

(** Who plays. When there are enough players for a new battle and their
    net ids are distinct, starting it enlists exactly the peers of the
    world (managers only when the owner plays), in the order of the host,
    each once, with a score of 0, the configured lives and the team dealt
    to it. *)
Theorem start_enlists_world h peer g g' outs :
  game_ok g -> started g = false ->
  let wp := world_players h peer g in
  let o := opts g in
  base.NoDup ((λ p, u32 (p_netID (pInfo h p))) <$> wp) ->
  teamSize o * (if min_team_size o =? 0 then 1 else min_team_size o) <= Z.of_nat (length wp) ->
  start_battle h peer g = Some (g', outs) ->
  started g' = true /\
  players g' = (λ pt, fresh_player h o pt.1 pt.2) <$> combine wp (player_teams o (length wp)).
Proof.
  intros Hg Hs wp o Hn Hen. unfold start_battle. fold wp o.
  rewrite (proj2 (Z.ltb_ge _ _)) by done.
  destruct (join_all _ _ _) as [[g1 o1]|] eqn:E; cbn [mbind option_bind]; [|done].
  intros [= <- _]. pose proof Hg as (Ho & _ & _ & _ & _ & Hi). destruct (Hi Hs) as [Hp _].
  apply join_all_fresh in E as (E1 & E2 & _); [|done|].
  - simpl in E1. rewrite Hp in E1. done.
  - simpl. rewrite Hp, app_nil_l.
    assert ((λ pt : nat * Z, u32 (p_netID (pInfo h pt.1))) <$>
        combine wp (player_teams o (length wp)) =
      (λ p, u32 (p_netID (pInfo h p))) <$> (fst <$> combine wp (player_teams o (length wp))))
      as -> by (by rewrite <- list_fmap_compose).
    rewrite combine_fst; [done|]. apply player_teams_length.
Qed.

Definition fresh_two : WorldGame := with_opts (set_teamSize 2 default_options) new_game.

Lemma fresh_two_ok : game_ok fresh_two.
Proof.
  unfold game_ok, opts_ok; simpl. split_and!; try done; try lia; constructor.
Qed.

Lemma start_enlists_world_witness :
  exists g' outs, start_battle two_peers 0 fresh_two = Some (g', outs) /\
    started g' = true /\
    players g' = [mkPlayer 7 0 0 3 0 ((-1, -1), -1); mkPlayer 300 1 0 3 0 ((-1, -1), -1)].
Proof.
  eexists _, _. split; [reflexivity|].
  eapply (start_enlists_world two_peers 0 fresh_two);
    [apply fresh_two_ok|reflexivity| |vm_compute; discriminate|reflexivity].
  apply (bool_decide_unpack _). by vm_compute.
Defined.

(** The dialog carries the settings. Whatever the settings were before,
    returning the fields of the settings dialog as it showed them for [o]
    sets exactly [o] (when the name has no separator): every number and
    every check box survives the trip through text. *)
Theorem settings_dialog_round_trip o g h peer :
  opts_ok o -> no_char (char_of 124) (name o) = true -> no_char nl (name o) = true ->
  started g = false -> opts_ok (opts g) ->
  processInput h peer (cat ((λ l, l +:+ endl) <$> submitted o)) (managers g) g =
    Some (with_opts o g, []).
Proof.
  intros Ho Hn Hnl Hs Hg. unfold processInput.
  rewrite getlines_concat by (by apply submitted_lines).
  change (started (with_managers (managers g) g)) with (started g).
  change (opts (with_managers (managers g) g)) with (opts g).
  rewrite Hs, submitted_numbers by done. f_equal. f_equal.
  rewrite copy_flags_eq; [|apply Ho|].
  - destruct o, g as [[] ? ? ? ? ? ? ?]. reflexivity.
  - destruct (opts g). apply Hg.
Qed.

Lemma settings_dialog_round_trip_witness :
  processInput two_peers 0 (cat ((λ l, l +:+ endl) <$> submitted two_teams_of_two)) []
    new_game = Some (with_opts two_teams_of_two new_game, []).
Proof.
  apply (settings_dialog_round_trip two_teams_of_two new_game);
    try reflexivity; unfold opts_ok; simpl; lia.
Defined.

(** Nobody in the world hears of an exit. The exit handler removes the
    player after clearing the peer's world, so the [LEAVE] message goes to
    peers outside any world: no peer still in the world gets it. *)
Theorem exit_battle_unannounced h peer g g' outs :
  (peer < length h)%nat ->
  exit_battle h peer g = Some (g', outs) ->
  Forall (λ o, world (pInfo (clear_world peer h) o.1) = EmptyString) outs.
Proof.
  intros Hp. unfold exit_battle. set (h' := clear_world peer h).
  assert (world (pInfo h' peer) = EmptyString) as Hw.
  { pose proof (nth_alter (λ p, mkPeer (connected p) (has_data p) EmptyString (p_netID p)
      (tankIDName p)) peer peer h peer_none Hp) as E. rewrite Nat.eqb_refl in E.
    unfold h', clear_world, pInfo, Host in *. by rewrite E. }
  destruct (started g); [|by intros [= <- <-]].
  destruct (GetPlayer _ g); [|by intros [= <- <-]]. cbn [manageBattle].
  intros H. apply leave_outs in H as ->. apply list.Forall_forall.
  intros [i m] Hin. apply broadcast_world in Hin. simpl. by rewrite Hin.
Qed.

Lemma exit_battle_unannounced_witness :
  exists g' outs, exit_battle two_peers 1
      (with_players [mkPlayer 300 4 0 3 0 ((-1, -1), -1)] alice_and_bob) = Some (g', outs) /\
    Forall (λ o, world (pInfo (clear_world 1 two_peers) o.1) = EmptyString) outs.
Proof.
  eexists _, _. split; [reflexivity|].
  eapply (exit_battle_unannounced two_peers 1
    (with_players [mkPlayer 300 4 0 3 0 ((-1, -1), -1)] alice_and_bob));
    [simpl; lia|reflexivity].
Defined.

(** A number is narrowed before it is clamped: 256 teams are no team, and
    -1 life is a hundred. *)
Example narrowing :
  (teamSize (set_option "teamSize" "256" default_options),
   lives (set_option "lives" "-1" default_options)) = (0, 100).
Proof. reflexivity. Qed.

(** Two players of a one-team game with a team size of one. *)
Example overfull : player_teams (set_max_team_size 1 (set_teamSize 1 default_options)) 2 = [0; 0].
Proof. reflexivity. Qed.

End GameFacts.
