(* ===== verification/Inventory.v ===== *)
(** * Inventory: the player's items

    Models [class Inventory] of [src/NopySource/Handle/WorldInfo.h]: [Modify]
    with everything it does when a stack runs out, the automatic conversion
    of locks and gems, the automatic sale of fish, the lookups and the
    inventory packet.  [Modify] calls [AutoConvert] and
    [ProcessAutoSellFishInventory], which call [Modify] again behind a
    processing flag; the recursion is open ([modify_fn]) and closed with
    fuel.  What a function hands to other parts of the server is an effect. *)
From S2P Require Import Prelude Memory Items Packet Tank.
Import Memory Items Packet.

Module Inventory.

(** ** The player *)

(** What the player wears and the counters of special clothes. *)
Record Wear := mkWear {
  ances : Z; back : Z; face : Z; feet : Z; hair : Z; hand : Z;   mask : Z; necklace : Z; pants : Z; shirt : Z; w_flagmay : Z; sprite : Z;   wild : Z; grow_air_ballon : Z; golem : Z; growformer : Z; mask_dragon : Z; pure_shadow : Z;   geiger_ : Z
}.

Record Player := mkPlayer {
  inv : list (Z * Z);
  gems : Z;
  netID : Z;
  supp : Z;
  subscriber : bool;
  infinite_mode : bool;
  autoConvert : bool;
  autoConvertProcessing : bool;
  autoCvModeGemsToDl : bool;
  autoCvModeWlToDl : bool;
  autoCvModeDlToBgl : bool;
  autoCvModeBglToGgl : bool;
  autoCvModeGglTo20298 : bool;
  autosellfish : bool;
  autosellfish_processing : bool;
  b_i : Z;
  b_bill : string;
  b_p : Z;
  b_w : Z;
  wear : Wear
}.

Definition set_ances (v : Z) (r : Wear) : Wear :=
  let 'mkWear _ back' face' feet' hair' hand' mask' necklace' pants' shirt' w_flagmay' sprite' wild' grow_air_ballon' golem' growformer' mask_dragon' pure_shadow' geiger_' := r in
  mkWear v back' face' feet' hair' hand' mask' necklace' pants' shirt' w_flagmay' sprite' wild' grow_air_ballon' golem' growformer' mask_dragon' pure_shadow' geiger_'.

Definition set_back (v : Z) (r : Wear) : Wear :=
  let 'mkWear ances' _ face' feet' hair' hand' mask' necklace' pants' shirt' w_flagmay' sprite' wild' grow_air_ballon' golem' growformer' mask_dragon' pure_shadow' geiger_' := r in
  mkWear ances' v face' feet' hair' hand' mask' necklace' pants' shirt' w_flagmay' sprite' wild' grow_air_ballon' golem' growformer' mask_dragon' pure_shadow' geiger_'.

Definition set_face (v : Z) (r : Wear) : Wear :=
  let 'mkWear ances' back' _ feet' hair' hand' mask' necklace' pants' shirt' w_flagmay' sprite' wild' grow_air_ballon' golem' growformer' mask_dragon' pure_shadow' geiger_' := r in
  mkWear ances' back' v feet' hair' hand' mask' necklace' pants' shirt' w_flagmay' sprite' wild' grow_air_ballon' golem' growformer' mask_dragon' pure_shadow' geiger_'.

Definition set_feet (v : Z) (r : Wear) : Wear :=
  let 'mkWear ances' back' face' _ hair' hand' mask' necklace' pants' shirt' w_flagmay' sprite' wild' grow_air_ballon' golem' growformer' mask_dragon' pure_shadow' geiger_' := r in
  mkWear ances' back' face' v hair' hand' mask' necklace' pants' shirt' w_flagmay' sprite' wild' grow_air_ballon' golem' growformer' mask_dragon' pure_shadow' geiger_'.

Definition set_hair (v : Z) (r : Wear) : Wear :=
  let 'mkWear ances' back' face' feet' _ hand' mask' necklace' pants' shirt' w_flagmay' sprite' wild' grow_air_ballon' golem' growformer' mask_dragon' pure_shadow' geiger_' := r in
  mkWear ances' back' face' feet' v hand' mask' necklace' pants' shirt' w_flagmay' sprite' wild' grow_air_ballon' golem' growformer' mask_dragon' pure_shadow' geiger_'.

Definition set_hand (v : Z) (r : Wear) : Wear :=
  let 'mkWear ances' back' face' feet' hair' _ mask' necklace' pants' shirt' w_flagmay' sprite' wild' grow_air_ballon' golem' growformer' mask_dragon' pure_shadow' geiger_' := r in
  mkWear ances' back' face' feet' hair' v mask' necklace' pants' shirt' w_flagmay' sprite' wild' grow_air_ballon' golem' growformer' mask_dragon' pure_shadow' geiger_'.

Definition set_mask (v : Z) (r : Wear) : Wear :=
  let 'mkWear ances' back' face' feet' hair' hand' _ necklace' pants' shirt' w_flagmay' sprite' wild' grow_air_ballon' golem' growformer' mask_dragon' pure_shadow' geiger_' := r in
  mkWear ances' back' face' feet' hair' hand' v necklace' pants' shirt' w_flagmay' sprite' wild' grow_air_ballon' golem' growformer' mask_dragon' pure_shadow' geiger_'.

Definition set_necklace (v : Z) (r : Wear) : Wear :=
  let 'mkWear ances' back' face' feet' hair' hand' mask' _ pants' shirt' w_flagmay' sprite' wild' grow_air_ballon' golem' growformer' mask_dragon' pure_shadow' geiger_' := r in
  mkWear ances' back' face' feet' hair' hand' mask' v pants' shirt' w_flagmay' sprite' wild' grow_air_ballon' golem' growformer' mask_dragon' pure_shadow' geiger_'.

Definition set_pants (v : Z) (r : Wear) : Wear :=
  let 'mkWear ances' back' face' feet' hair' hand' mask' necklace' _ shirt' w_flagmay' sprite' wild' grow_air_ballon' golem' growformer' mask_dragon' pure_shadow' geiger_' := r in
  mkWear ances' back' face' feet' hair' hand' mask' necklace' v shirt' w_flagmay' sprite' wild' grow_air_ballon' golem' growformer' mask_dragon' pure_shadow' geiger_'.

Definition set_shirt (v : Z) (r : Wear) : Wear :=
  let 'mkWear ances' back' face' feet' hair' hand' mask' necklace' pants' _ w_flagmay' sprite' wild' grow_air_ballon' golem' growformer' mask_dragon' pure_shadow' geiger_' := r in
  mkWear ances' back' face' feet' hair' hand' mask' necklace' pants' v w_flagmay' sprite' wild' grow_air_ballon' golem' growformer' mask_dragon' pure_shadow' geiger_'.

Definition set_w_flagmay (v : Z) (r : Wear) : Wear :=
  let 'mkWear ances' back' face' feet' hair' hand' mask' necklace' pants' shirt' _ sprite' wild' grow_air_ballon' golem' growformer' mask_dragon' pure_shadow' geiger_' := r in
  mkWear ances' back' face' feet' hair' hand' mask' necklace' pants' shirt' v sprite' wild' grow_air_ballon' golem' growformer' mask_dragon' pure_shadow' geiger_'.

Definition set_sprite (v : Z) (r : Wear) : Wear :=
  let 'mkWear ances' back' face' feet' hair' hand' mask' necklace' pants' shirt' w_flagmay' _ wild' grow_air_ballon' golem' growformer' mask_dragon' pure_shadow' geiger_' := r in
  mkWear ances' back' face' feet' hair' hand' mask' necklace' pants' shirt' w_flagmay' v wild' grow_air_ballon' golem' growformer' mask_dragon' pure_shadow' geiger_'.

Definition set_wild (v : Z) (r : Wear) : Wear :=
  let 'mkWear ances' back' face' feet' hair' hand' mask' necklace' pants' shirt' w_flagmay' sprite' _ grow_air_ballon' golem' growformer' mask_dragon' pure_shadow' geiger_' := r in
  mkWear ances' back' face' feet' hair' hand' mask' necklace' pants' shirt' w_flagmay' sprite' v grow_air_ballon' golem' growformer' mask_dragon' pure_shadow' geiger_'.

Definition set_grow_air_ballon (v : Z) (r : Wear) : Wear :=
  let 'mkWear ances' back' face' feet' hair' hand' mask' necklace' pants' shirt' w_flagmay' sprite' wild' _ golem' growformer' mask_dragon' pure_shadow' geiger_' := r in
  mkWear ances' back' face' feet' hair' hand' mask' necklace' pants' shirt' w_flagmay' sprite' wild' v golem' growformer' mask_dragon' pure_shadow' geiger_'.

Definition set_golem (v : Z) (r : Wear) : Wear :=
  let 'mkWear ances' back' face' feet' hair' hand' mask' necklace' pants' shirt' w_flagmay' sprite' wild' grow_air_ballon' _ growformer' mask_dragon' pure_shadow' geiger_' := r in
  mkWear ances' back' face' feet' hair' hand' mask' necklace' pants' shirt' w_flagmay' sprite' wild' grow_air_ballon' v growformer' mask_dragon' pure_shadow' geiger_'.

Definition set_growformer (v : Z) (r : Wear) : Wear :=
  let 'mkWear ances' back' face' feet' hair' hand' mask' necklace' pants' shirt' w_flagmay' sprite' wild' grow_air_ballon' golem' _ mask_dragon' pure_shadow' geiger_' := r in
  mkWear ances' back' face' feet' hair' hand' mask' necklace' pants' shirt' w_flagmay' sprite' wild' grow_air_ballon' golem' v mask_dragon' pure_shadow' geiger_'.

Definition set_mask_dragon (v : Z) (r : Wear) : Wear :=
  let 'mkWear ances' back' face' feet' hair' hand' mask' necklace' pants' shirt' w_flagmay' sprite' wild' grow_air_ballon' golem' growformer' _ pure_shadow' geiger_' := r in
  mkWear ances' back' face' feet' hair' hand' mask' necklace' pants' shirt' w_flagmay' sprite' wild' grow_air_ballon' golem' growformer' v pure_shadow' geiger_'.

Definition set_pure_shadow (v : Z) (r : Wear) : Wear :=
  let 'mkWear ances' back' face' feet' hair' hand' mask' necklace' pants' shirt' w_flagmay' sprite' wild' grow_air_ballon' golem' growformer' mask_dragon' _ geiger_' := r in
  mkWear ances' back' face' feet' hair' hand' mask' necklace' pants' shirt' w_flagmay' sprite' wild' grow_air_ballon' golem' growformer' mask_dragon' v geiger_'.

Definition set_geiger_ (v : Z) (r : Wear) : Wear :=
  let 'mkWear ances' back' face' feet' hair' hand' mask' necklace' pants' shirt' w_flagmay' sprite' wild' grow_air_ballon' golem' growformer' mask_dragon' pure_shadow' _ := r in
  mkWear ances' back' face' feet' hair' hand' mask' necklace' pants' shirt' w_flagmay' sprite' wild' grow_air_ballon' golem' growformer' mask_dragon' pure_shadow' v.

Definition set_inv (v : list (Z * Z)) (r : Player) : Player :=
  let 'mkPlayer _ gems' netID' supp' subscriber' infinite_mode' autoConvert' autoConvertProcessing' autoCvModeGemsToDl' autoCvModeWlToDl' autoCvModeDlToBgl' autoCvModeBglToGgl' autoCvModeGglTo20298' autosellfish' autosellfish_processing' b_i' b_bill' b_p' b_w' wear' := r in
  mkPlayer v gems' netID' supp' subscriber' infinite_mode' autoConvert' autoConvertProcessing' autoCvModeGemsToDl' autoCvModeWlToDl' autoCvModeDlToBgl' autoCvModeBglToGgl' autoCvModeGglTo20298' autosellfish' autosellfish_processing' b_i' b_bill' b_p' b_w' wear'.

Definition set_gems (v : Z) (r : Player) : Player :=
  let 'mkPlayer inv' _ netID' supp' subscriber' infinite_mode' autoConvert' autoConvertProcessing' autoCvModeGemsToDl' autoCvModeWlToDl' autoCvModeDlToBgl' autoCvModeBglToGgl' autoCvModeGglTo20298' autosellfish' autosellfish_processing' b_i' b_bill' b_p' b_w' wear' := r in
  mkPlayer inv' v netID' supp' subscriber' infinite_mode' autoConvert' autoConvertProcessing' autoCvModeGemsToDl' autoCvModeWlToDl' autoCvModeDlToBgl' autoCvModeBglToGgl' autoCvModeGglTo20298' autosellfish' autosellfish_processing' b_i' b_bill' b_p' b_w' wear'.

Definition set_autoConvertProcessing (v : bool) (r : Player) : Player :=
  let 'mkPlayer inv' gems' netID' supp' subscriber' infinite_mode' autoConvert' _ autoCvModeGemsToDl' autoCvModeWlToDl' autoCvModeDlToBgl' autoCvModeBglToGgl' autoCvModeGglTo20298' autosellfish' autosellfish_processing' b_i' b_bill' b_p' b_w' wear' := r in
  mkPlayer inv' gems' netID' supp' subscriber' infinite_mode' autoConvert' v autoCvModeGemsToDl' autoCvModeWlToDl' autoCvModeDlToBgl' autoCvModeBglToGgl' autoCvModeGglTo20298' autosellfish' autosellfish_processing' b_i' b_bill' b_p' b_w' wear'.

Definition set_autosellfish_processing (v : bool) (r : Player) : Player :=
  let 'mkPlayer inv' gems' netID' supp' subscriber' infinite_mode' autoConvert' autoConvertProcessing' autoCvModeGemsToDl' autoCvModeWlToDl' autoCvModeDlToBgl' autoCvModeBglToGgl' autoCvModeGglTo20298' autosellfish' _ b_i' b_bill' b_p' b_w' wear' := r in
  mkPlayer inv' gems' netID' supp' subscriber' infinite_mode' autoConvert' autoConvertProcessing' autoCvModeGemsToDl' autoCvModeWlToDl' autoCvModeDlToBgl' autoCvModeBglToGgl' autoCvModeGglTo20298' autosellfish' v b_i' b_bill' b_p' b_w' wear'.

Definition set_b_i (v : Z) (r : Player) : Player :=
  let 'mkPlayer inv' gems' netID' supp' subscriber' infinite_mode' autoConvert' autoConvertProcessing' autoCvModeGemsToDl' autoCvModeWlToDl' autoCvModeDlToBgl' autoCvModeBglToGgl' autoCvModeGglTo20298' autosellfish' autosellfish_processing' _ b_bill' b_p' b_w' wear' := r in
  mkPlayer inv' gems' netID' supp' subscriber' infinite_mode' autoConvert' autoConvertProcessing' autoCvModeGemsToDl' autoCvModeWlToDl' autoCvModeDlToBgl' autoCvModeBglToGgl' autoCvModeGglTo20298' autosellfish' autosellfish_processing' v b_bill' b_p' b_w' wear'.

Definition set_b_bill (v : string) (r : Player) : Player :=
  let 'mkPlayer inv' gems' netID' supp' subscriber' infinite_mode' autoConvert' autoConvertProcessing' autoCvModeGemsToDl' autoCvModeWlToDl' autoCvModeDlToBgl' autoCvModeBglToGgl' autoCvModeGglTo20298' autosellfish' autosellfish_processing' b_i' _ b_p' b_w' wear' := r in
  mkPlayer inv' gems' netID' supp' subscriber' infinite_mode' autoConvert' autoConvertProcessing' autoCvModeGemsToDl' autoCvModeWlToDl' autoCvModeDlToBgl' autoCvModeBglToGgl' autoCvModeGglTo20298' autosellfish' autosellfish_processing' b_i' v b_p' b_w' wear'.

Definition set_wear (v : Wear) (r : Player) : Player :=
  let 'mkPlayer inv' gems' netID' supp' subscriber' infinite_mode' autoConvert' autoConvertProcessing' autoCvModeGemsToDl' autoCvModeWlToDl' autoCvModeDlToBgl' autoCvModeBglToGgl' autoCvModeGglTo20298' autosellfish' autosellfish_processing' b_i' b_bill' b_p' b_w' _ := r in
  mkPlayer inv' gems' netID' supp' subscriber' infinite_mode' autoConvert' autoConvertProcessing' autoCvModeGemsToDl' autoCvModeWlToDl' autoCvModeDlToBgl' autoCvModeBglToGgl' autoCvModeGglTo20298' autosellfish' autosellfish_processing' b_i' b_bill' b_p' b_w' v.

(** ** Effects *)

Inductive effect :=
| ESend (v : Variant)                    (* a message to the player *)
| EWorld (v : Variant)                   (* a message to every peer of the player's world *)
| ERaw (packet : option mem)             (* a tank packet to the player *)
| EVisuals                               (* [Inventory::Visuals] *)
| EClothingUpdate                        (* [Clothing_V2::Update] *)
| EClothingValue                         (* [Clothing_V2::Update_Value] *)
| EDrop (id count : Z).                  (* [VisualHandle::Drop] near the player *)

(** What a call of [Modify] gives: the returned code, the final value of
    its [int&] argument, the player and the effects. *)
Record result := mkResult { ret : Z; c_out : Z; pl_out : Player; effs : list effect }.

(** [Modify(peer, i_, c_, upd_inv_visuals, force_return)]; [None] is an
    index outside a vector or fuel that ran out. *)
Definition modify_fn := Z -> Z -> bool -> bool -> Player -> option result.

(** ** Lookups *)

Fixpoint find_stack (id : Z) (l : list (Z * Z)) : option nat :=
  match l with
  | [] => None
  | (i, _) :: l => if i =? id then Some 0%nat else S <$> find_stack id l
  end.

Fixpoint contains (id : Z) (l : list (Z * Z)) : Z :=
  match l with
  | [] => 0
  | (i, n) :: l => if i =? id then n else contains id l
  end.

Definition Contains (p : Player) (item_id : Z) : Z := contains item_id (inv p).

Definition Has (items : table) (p : Player) (itemID amount : Z) : bool :=
  if (itemID <=? 0) || (size items <=? itemID) then false
  else existsb (λ it, (it.1 =? itemID) && (amount <=? it.2)) (inv p).

Definition Get_Slots (p : Player) : Z :=
  Z.of_nat (length (filter (λ it, (it.1 =? 0) && (it.2 =? 0) = true) (inv p))).

Definition Check_Max (p : Player) (fItemId fQuantityAdd : Z) : bool :=
  existsb (λ it, (it.1 =? fItemId) && (200 <? i32 (it.2 + fQuantityAdd))) (inv p).

Fixpoint has_from (idx : Z) (itemId count : Z) (l : list (Z * Z)) : Z :=
  match l with
  | [] => -1
  | (i, n) :: l =>
      if (i =? itemId) && ((count <=? n) || (count =? -1)) then idx
      else has_from (idx + 1) itemId count l
  end.

Definition HasItemsInInv (p : Player) (itemId count : Z) : Z :=
  has_from 0 itemId count (inv p).

(** ** [Visuals]: the inventory packet *)

(** Items that are sent in packets of their own. *)
Definition sent_later (id : Z) : bool :=
  existsb (Z.eqb id)
    [9850; 9812; 7782; 9902; 9636; 9726; 9500; 9584; 9586; 9588; 9590; 9550; 9582; 9580; 9578;
     9572; 9570; 9568; 9566; 9564; 9562; 9560; 9558; 9490; 9492; 9516; 9540].

(** The loop over the inventory: the slots written one after the other
    from [offset], and the items to send later. *)
Fixpoint visual_slots (offset : nat) (l : list (Z * Z))
    : list (nat * list Z) * list (Z * Z) :=
  match l with
  | [] => ([], [])
  | (id, n) :: l =>
      if sent_later id then
        let '(ws, later) := visual_slots offset l in (ws, (u16 id, u8 n) :: later)
      else
        let '(ws, later) := visual_slots (offset + 4) l in
        ((offset, le_encode 2 id) :: ((offset + 2)%nat, [u8 n]) :: ws, later)
  end.

Definition visuals_inv (p : Player) : list (Z * Z) := take 476 (inv p).

Definition Visuals_packet (p : Player) : option mem :=
  let l := visuals_inv p in
  let n := length l in
  stores (zalloc (70 + n * 4))
    ([(0%nat, take 1 (le32 4)); (4%nat, le32 9); (8%nat, le32 (-1)); (16%nat, le32 8);
      (56%nat, le32 (6 + Z.of_nat n * 4 + 4)); (60%nat, le32 1);
      (61%nat, le32 (Z.of_nat n)); (65%nat, le32 (Z.of_nat n))] ++ (visual_slots 67 l).1).

(** A packet of type 13 for one item, with a count in one of its first
    bytes. *)
Definition item_packet (id : Z) (byte : nat) (value : Z) : option mem :=
  m ← Tank.packPlayerMoving (Tank.mkMoving 0 0 13 0 id 0 0 0 0 0 0 0 0 0) 56 0;
  store m byte [u8 value].

Definition Visuals (p : Player) : list (option mem) :=
  Visuals_packet p ::
  ((λ later, item_packet later.1 3 later.2) <$> (visual_slots 67 (visuals_inv p)).2).

(** ** [Modify] *)

(** [inv[k].first], [inv[k].second] assigned together. *)
Definition put (k : nat) (slot : Z * Z) (l : list (Z * Z)) : list (Z * Z) := <[k := slot]> l.

(** [items[id]]: [None] outside the vector. *)
Definition get_item (items : table) (id : Z) : option ItemDB :=
  if (0 <=? id) && (id <? size items) then Some (item items id) else None.

(** The billboard shows the item that ran out. *)
Definition clear_billboard (i_ : Z) (p : Player) : Player * list effect :=
  if b_i p =? i_ then
    let bill := if slen (b_bill p) <? 3 then "0,0" else b_bill p in
    let bill := "0," +:+ take_str 3 (drop_str 2 bill) in
    (set_b_bill bill (set_b_i 0 p),
     [EWorld (mkVariant 0 (netID p)
        [VStr "OnBillboardChange"; VInt (netID p); VInt 0; VStr bill; VInt (b_p p); VInt (b_w p)])])
  else (p, []).

(** The counters of clothes that change form. *)
Definition cycle_clothes (id_ : Z) (w : Wear) : Wear :=
  if id_ =? 7584 then
    let n := u8 (sprite w + 1) in set_sprite (if 3 <? n then 1 else n) w
  else if id_ =? 5712 then
    let n := u8 (wild w + 1) in set_wild (if 8 <? n then 6 else n) w
  else if id_ =? 10666 then
    let n := u8 (grow_air_ballon w + 1) in set_grow_air_ballon (if 3 <? n then 0 else n) w
  else if id_ =? 10044 then
    let n := u8 (golem w + 1) in set_golem (if 8 <? n then 6 else n) w
  else if id_ =? 7384 then set_growformer (if growformer w =? 0 then 1 else 0) w
  else if (id_ =? 11506) || (id_ =? 11508) then
    set_mask_dragon (if mask_dragon w =? 0 then 1 else 0) w
  else if id_ =? 10914 then set_pure_shadow (if pure_shadow w =? 1 then 0 else 1) w
  else w.

(** Take the clothing off when it is worn: the clothes and [stat_]. *)
Definition take_off (ty : ClothTypes) (id_ : Z) (w : Wear) : Wear * bool :=
  match ty with
  | ANCES => if ances w =? id_ then (set_ances 0 w, true) else (w, false)
  | BACK => if back w =? id_ then (set_back 0 w, true) else (w, false)
  | FACE => if face w =? id_ then (set_face 0 w, true) else (w, false)
  | FEET => if feet w =? id_ then (set_feet 0 w, true) else (w, false)
  | HAIR => if hair w =? id_ then (set_hair 0 w, true) else (w, false)
  | HAND => if hand w =? id_ then (set_hand 0 w, true) else (w, false)
  | MASK => if mask w =? id_ then (set_mask 0 w, true) else (w, false)
  | NECKLACE => if necklace w =? id_ then (set_necklace 0 w, true) else (w, false)
  | PANTS => if pants w =? id_ then (set_pants 0 w, true) else (w, false)
  | SHIRT => if shirt w =? id_ then (set_shirt 0 w, true) else (w, false)
  | NONE => (w, false)
  end.

Definition positioned (p : Player) (file : string) : effect :=
  ESend (mkVariant 0 (netID p) [VStr "OnPlayPositioned"; VStr file]).

(** [VarList::OnConsoleMessage] *)
Definition console (text : string) : effect :=
  ESend (mkVariant 0 (-1) [VStr "OnConsoleMessage"; VStr ("`o" +:+ text)]).

(** A stack of clothing ran out. *)
Definition remove_clothing (it : ItemDB) (id_ : Z) (p : Player) : Player * list effect :=
  let w := wear p in
  let e1 := if flagmay it =? 0 then [] else [EClothingUpdate] in
  let w := if flagmay it =? 0 then w else set_w_flagmay 0 w in
  let w := cycle_clothes id_ w in
  let '(w, stat_) := take_off (clothType it) id_ w in
  let e2 := if (stat_ : bool)
            then [EClothingUpdate; EClothingValue; positioned p "audio/change_clothes.wav"]
            else [] in
  if (stat_ && negb (is_empty (on_remove it))) || ((id_ =? 2286) && (hand w =? 2286)) ||
     ((id_ =? 2204) && (hand w =? 2204)) || ((id_ =? 2558) && (hand w =? 2560)) ||
     ((id_ =? 2560) && (hand w =? 2558)) then
    let e3 := [positioned p "audio/dialog_confirm.wav"] in
    if (id_ =? 2204) || (id_ =? 2558) then
      (set_wear w p, e1 ++ e2 ++ e3 ++ [console (cat [ori_name it; " removed. (`$"; ori_name it;
         "`` mod removed)"])])
    else if (id_ =? 2286) || ((id_ =? 2560) && (geiger_ w <? 100)) then
      (set_wear (set_geiger_ 0 w) p,
       e1 ++ e2 ++ e3 ++ [console (cat [ori_name it;
         " is no longer charging! (`$Charging "; ori_name it; "`` mod removed)"])])
    else
      (set_wear w p, e1 ++ e2 ++ e3 ++ [console (cat [on_remove it;
         (if is_empty (playmod it) then ""
          else cat [" (`$"; playmod it; "`` mod removed)"])])])
  else (set_wear w p, e1 ++ e2).

(** A stack that ran out: slot [k] of item [i_] becomes free. *)
Definition empty_stack (items : table) (k : nat) (i_ : Z) (p : Player)
    : option (Player * list effect) :=
  let '(p, e1) := clear_billboard i_ p in
  it ← get_item items i_;
  let '(p, e2) :=
    match blockType it with
    | CLOTHING => remove_clothing it i_ p
    | _ => (p, [])
    end in
  Some (set_inv (put k (0, 0) (inv p)) p, e1 ++ e2).

(** How the loop over the slots ends. *)
Inductive outcome :=
| Return (c : Z)                              (* [return -1] with this value of [c_] *)
| Done (c : Z) (p : Player) (es : list effect). (* [goto s_] *)

(** The item has a stack, in slot [k], of [n]. *)
Definition modify_stack (items : table) (k : nat) (n i_ c_ : Z) (force_return : bool)
    (p : Player) : option (outcome * Player) :=
  if n + c_ <=? 200 then
    if (c_ <? 0) && (n + c_ <? 0) then Some (Return c_, p)
    else if n + c_ =? 0 then
      '(p', es) ← empty_stack items k i_ p; Some (Done c_ p' es, p')
    else
      let p' := set_inv (put k (i_, n + c_) (inv p)) p in
      if c_ =? 0 then Some (Return (n + c_), p') else Some (Done (n + c_) p' [], p')
  else Some (Return (if force_return then n else c_), p).

(** The item has no stack: the first free slot takes it. *)
Definition modify_new (i_ c_ : Z) (p : Player) : outcome * Player :=
  match find_stack 0 (inv p) with
  | Some k =>
      if 0 <? c_ then
        let p' := set_inv (put k (i_, c_) (inv p)) p in (Done c_ p' [], p')
      else (Return c_, p)
  | None => (Return c_, p)
  end.

Definition modify_slots (items : table) (i_ c_ : Z) (force_return : bool) (p : Player)
    : option (outcome * Player) :=
  match find_stack i_ (inv p) with
  | Some k => modify_stack items k (contains i_ (inv p)) i_ c_ force_return p
  | None => Some (modify_new i_ c_ p)
  end.

(** The tank packet that shows the change. *)
Definition change_packet (i_ ori_ : Z) (force_return : bool) : option mem :=
  if ori_ <? 0 then item_packet i_ 2 (ori_ * -1)
  else item_packet i_ 3 (if force_return then ori_ - ori_ else ori_).

(** ** [AutoConvert] *)

Section AutoConvert.
Context (items : table) (modify : modify_fn).

(** The body of the [while] of [try_convert_item]: the player, the number
    converted so far and whether the loop goes on. *)
Fixpoint convert_loop (fuel : nat) (from_id to_id converted : Z) (p : Player)
    : option (Z * Player * list effect) :=
  if contains from_id (inv p) <? 100 then Some (converted, p, [])
  else
    match fuel with
    | O => None
    | S fuel =>
        r1 ← modify from_id (-100) false true p;
        if negb (ret r1 =? 0) then Some (converted, pl_out r1, effs r1) else
        r2 ← modify to_id 1 false true (pl_out r1);
        if negb (ret r2 =? 0) then
          r3 ← modify from_id 100 false true (pl_out r2);
          Some (converted, pl_out r3, effs r1 ++ effs r2 ++ effs r3)
        else
          '(n, p', es) ← convert_loop fuel from_id to_id (converted + 1) (pl_out r2);
          Some (n, p', effs r1 ++ effs r2 ++ es)
    end.

Definition try_convert_item (from_id to_id : Z) (enabled : bool) (p : Player)
    : option (Z * Player * list effect) :=
  if negb enabled then Some (0, p, []) else convert_loop 512 from_id to_id 0 p.

Fixpoint gems_loop (fuel : nat) (converted : Z) (p : Player)
    : option (Z * Player * list effect) :=
  if gems p <? 300000 then Some (converted, p, [])
  else
    match fuel with
    | O => None
    | S fuel =>
        r ← modify 1796 1 false true p;
        if negb (ret r =? 0) then Some (converted, pl_out r, effs r) else
        let p' := pl_out r in
        '(n, p', es) ← gems_loop fuel (converted + 1) (set_gems (gems p' - 300000) p');
        Some (n, p', effs r ++ es)
    end.

Definition try_convert_gems (p : Player) : option (Z * Player * list effect) :=
  if negb (autoCvModeGemsToDl p) then Some (0, p, []) else gems_loop 512 0 p.

Definition summary_item (from_id to_id converted : Z) : string := cat [
  "`w"; to_string (converted * 100); " "; ori_name (item items from_id); "`` -> `w";
  to_string converted; " "; ori_name (item items to_id); "``"].

Definition summary_gems (converted : Z) : string := cat [
  "`w"; to_string (converted * 300000); " Gems`` -> `w"; to_string converted; " ";
  ori_name (item items 1796); "``"].

Definition noted (converted : Z) (text : string) : list string :=
  if 0 <? converted then [text] else [].

(** One pass over the conversions: the progress, whether gems changed, the
    summary lines. *)
Definition convert_pass (p : Player)
    : option (bool * bool * list string * Player * list effect) :=
  '(n0, p, e0) ← try_convert_gems p;
  '(n1, p, e1) ← try_convert_item 242 1796 (autoCvModeWlToDl p) p;
  '(n2, p, e2) ← try_convert_item 1796 7188 (autoCvModeDlToBgl p) p;
  '(n3, p, e3) ← try_convert_item 7188 8470 (autoCvModeBglToGgl p) p;
  '(n4, p, e4) ← try_convert_item 8470 20298 (autoCvModeGglTo20298 p) p;
  Some ((0 <? n0) || (0 <? n1) || (0 <? n2) || (0 <? n3) || (0 <? n4), 0 <? n0,
        noted n0 (summary_gems n0) ++ noted n1 (summary_item 242 1796 n1) ++
        noted n2 (summary_item 1796 7188 n2) ++ noted n3 (summary_item 7188 8470 n3) ++
        noted n4 (summary_item 8470 20298 n4), p, e0 ++ e1 ++ e2 ++ e3 ++ e4).

(** The [do ... while (progress && safety < 512)]: [fuel] is what is left
    of the 512 passes. *)
Fixpoint passes (fuel : nat) (changed gems_changed : bool) (summary : list string) (p : Player)
    : option (bool * bool * list string * Player * list effect) :=
  match fuel with
  | O => Some (changed, gems_changed, summary, p, [])
  | S fuel =>
      '(progress, g, lines, p, es) ← convert_pass p;
      let changed := changed || progress in
      let gems_changed := gems_changed || g in
      let summary := summary ++ lines in
      if (progress : bool) then
        '(c, g, s, p, es') ← passes fuel changed gems_changed summary p;
        Some (c, g, s, p, es ++ es')
      else Some (changed, gems_changed, summary, p, es)
  end.

Definition push_bux (p : Player) : effect :=
  ESend (mkVariant 0 (-1) ([VStr "OnSetBux"; VInt (gems p); VInt 0;
    VInt (if (1 <=? supp p) || subscriber p then 1 else 0)] ++
    (if (2 <=? supp p) || subscriber p
     then [VFloat3 1191445504 1065353216 0] else []))).

Fixpoint join_comma (ss : list string) : string :=
  match ss with
  | [] => EmptyString
  | [s] => s
  | s :: ss => cat [s; ", "; join_comma ss]
  end.

Definition AutoConvert (p : Player) : option (Player * list effect) :=
  if negb (autoConvert p) || autoConvertProcessing p then Some (p, []) else
  '(changed, gems_changed, summary, p, es) ←
    passes 512 false false [] (set_autoConvertProcessing true p);
  Some (set_autoConvertProcessing false p,
        es ++ (if (gems_changed : bool) then [push_bux p] else []) ++
        (if (changed : bool) then [EVisuals] else []) ++
        (if (length summary =? 0)%nat then []
         else [console ("`2[Auto CV]`o " +:+ join_comma summary)])).

End AutoConvert.

(** ** [ProcessAutoSellFishInventory] *)

Section AutoSell.
Context (items : table) (prices : list (Z * Z)) (world_found : bool) (g1 g2 : string)
  (modify : modify_fn).

(** One iteration of [AutoSellFish_GiveLockOrDrop] handles at most 200;
    what the inventory refuses is dropped if the world is found. *)
Fixpoint give_loop (fuel : nat) (item_id amount : Z) (p : Player)
    : option (Player * list effect) :=
  match fuel with
  | O => if 0 <? amount then None else Some (p, [])
  | S fuel =>
      if 0 <? amount then
        let give := if 200 <? amount then 200 else amount in
        r ← modify item_id give false true p;
        let e := if negb (ret r =? 0) && world_found then [EDrop item_id give] else [] in
        '(p', es) ← give_loop fuel item_id (amount - give) (pl_out r);
        Some (p', effs r ++ e ++ es)
      else Some (p, [])
  end.

Definition AutoSellFish_GiveLockOrDrop (item_id amount : Z) (p : Player)
    : option (Player * list effect) :=
  give_loop (Z.to_nat (amount / 200 + 1)) item_id amount p.

(** The loop over the prices: whether something was sold, the total and
    the number of fish. *)
Fixpoint sell_loop (prs : list (Z * Z)) (sold_any : bool) (total_wl fish_count : Z) (p : Player)
    : option (bool * Z * Z * Player * list effect) :=
  match prs with
  | [] => Some (sold_any, total_wl, fish_count, p, [])
  | (id, price) :: prs =>
      let skip := sell_loop prs sold_any total_wl fish_count p in
      if (price <=? 0) || (id <=? 0) || (size items <=? id) ||
         negb (bool_decide (blockType (item items id) = FISH)) then skip
      else
        let count := Contains p id in
        if count <=? 0 then skip else
        r ← modify id (- count) false true p;
        if negb (ret r =? 0) then
          '(s, t, f, p', es) ← sell_loop prs sold_any total_wl fish_count (pl_out r);
          Some (s, t, f, p', effs r ++ es)
        else
          let total := i64 (total_wl + price) in
          let total := if 2000000000 <? total then 2000000000 else total in
          '(s, t, f, p', es) ← sell_loop prs true total (i32 (fish_count + count)) (pl_out r);
          Some (s, t, f, p', effs r ++ es)
  end.

(** The total in the five denominations [wl], [dl], [bgl], [ggl], [mgl]. *)
Definition split_total (total_wl : Z) : Z * Z * Z * Z * Z :=
  let wl := total_wl mod 100 in
  let total := total_wl / 100 in
  let dl := total mod 100 in
  let total := total / 100 in
  let bgl := total mod 100 in
  let total := total / 100 in
  let ggl := total mod 100 in
  let mgl := total / 100 in
  (wl, dl, bgl, ggl, mgl).

Definition reward_text (wl dl bgl mgl : Z) : string :=
  let part (n : Z) (unit : string) :=
    if n =? 0 then EmptyString else cat ["`w"; to_string n; unit] in
  let r := cat [part mgl "`9 mgl "; part mgl "`9 mgl "; part bgl "`9 bgl "; part dl "`9 DL ";
                part wl "`9 WL"] in
  if is_empty r then "`w0`9 WL" else r.

(** What is paid out: the item and the amount, in the order of the calls. *)
Definition payout (total_wl : Z) : list (Z * Z) :=
  let '(wl, dl, bgl, _, mgl) := split_total total_wl in
  [(8470, mgl); (7188, bgl); (1796, dl); (242, wl)].

Fixpoint pay (l : list (Z * Z)) (p : Player) : option (Player * list effect) :=
  match l with
  | [] => Some (p, [])
  | (id, n) :: l =>
      '(p, e) ← AutoSellFish_GiveLockOrDrop id n p;
      '(p, es) ← pay l p; Some (p, e ++ es)
  end.

(** [rand()] picks the two icons [g1], [g2] of the announcement. *)
Definition announce (total_wl fish_count : Z) (p : Player) : list effect :=
  let '(wl, dl, bgl, _, mgl) := split_total total_wl in
  let reward := reward_text wl dl bgl mgl in
  [console (cat [g1; " `w>> `bAUTO-CATCH! `w<<`9 | `2"; to_string fish_count;
     " fish`` `9| `5+`w "; reward; " "; g2]);
   ESend (mkVariant 0 (-1) [VStr "OnTalkBubble"; VInt (netID p);
     VStr (cat [g1; "`bAUTO-CATCH!`9 | `2"; to_string fish_count; " fish`` `9| `5+`w "; reward;
                " "; g2]); VInt 0; VInt 1])].

Definition ProcessAutoSellFishInventory (refresh_visuals show_console : bool) (p : Player)
    : option (bool * Player * list effect) :=
  if negb (autosellfish p) || autosellfish_processing p then Some (false, p, []) else
  '(sold_any, total_wl, fish_count, p, es) ←
    sell_loop prices false 0 0 (set_autosellfish_processing true p);
  '(p, es') ←
    (if (sold_any : bool) && (0 <? total_wl) then
       '(p, e) ← pay (payout total_wl) p;
       Some (p, e ++ (if refresh_visuals then [EVisuals] else []) ++
                (if show_console then announce total_wl fish_count p else []))
     else Some (p, []));
  Some (sold_any, set_autosellfish_processing false p, es ++ es').

(** ** [Modify] around its two automatic features *)

Definition modify_body (i_ c_ : Z) (upd_inv_visuals force_return : bool) (p : Player)
    : option result :=
  if (200 <? c_) || (i_ <? 0) || (size items <? i_) || (i_ <=? 0) || (i_ =? 112) ||
     (length (inv p) =? 0)%nat
  then Some (mkResult (-1) c_ p [])
  else if infinite_mode p && (c_ <? 0) then
    Some (mkResult 0 0 p (if upd_inv_visuals then [EVisuals] else []))
  else
    let upd := if c_ =? 0 then false else upd_inv_visuals in
    '(o, p') ← modify_slots items i_ c_ force_return p;
    match o with
    | Return c => Some (mkResult (-1) c p' [])
    | Done c p1 e1 =>
        let e2 := if upd && negb (c =? 0)
                  then [ERaw (change_packet i_ c_ force_return)] else [] in
        '(p2, e3) ← AutoConvert items modify p1;
        '(p3, e4) ←
          (if (0 <? c_) && autosellfish p2 && negb (autosellfish_processing p2) then
             if (0 <? i_) && (i_ <? size items) &&
                bool_decide (blockType (item items i_) = FISH)
             then '(_, p3, e) ← ProcessAutoSellFishInventory true true p2; Some (p3, e)
             else Some (p2, [])
           else Some (p2, []));
        Some (mkResult 0 c p3 (e1 ++ e2 ++ e3 ++ e4))
    end.

End AutoSell.

(** Each nested call runs behind one more processing flag, so three levels
    are enough. *)
Fixpoint Modify (items : table) (prices : list (Z * Z)) (world_found : bool) (g1 g2 : string)
    (fuel : nat) : modify_fn :=
  match fuel with
  | O => λ _ _ _ _ _, None
  | S fuel =>
      modify_body items prices world_found g1 g2
        (Modify items prices world_found g1 g2 fuel)
  end.

(** [GiveItemSafe]: what does not fit is saved to be dropped again and
    again; the result and the amount handed to [SaveDropItemMoreTimes]. *)
Definition GiveItemSafe (modify : modify_fn) (itemID amount : Z) (p : Player)
    : option (bool * Player * list effect * option Z) :=
  r ← modify itemID amount true false p;
  if ret r =? 0 then Some (true, pl_out r, effs r, None)
  else Some (false, pl_out r, effs r, Some amount).

End Inventory.
