(* ===== verification/InventoryFacts.v ===== *)
(** * InventoryFacts: what happens to the player's items

    The inventory as a bag of items, [Modify] as the update of one entry of
    the bag, and the two automatic features: the conversion of locks and
    gems conserves their value, and the sale of fish pays out the price
    below a million. *)
From S2P Require Import Prelude Memory Items Packet Tank Inventory.
Import Memory Items Packet Inventory.

Module InventoryFacts.

(** ** Well-formed inventories *)

Definition slot_ok (s : Z * Z) : Prop :=
  (s.1 = 0 /\ s.2 = 0) \/ (0 < s.1 /\ 1 <= s.2 <= 200).

Fixpoint ids_distinct (l : list (Z * Z)) : Prop :=
  match l with
  | [] => True
  | (i, _) :: l => (i = 0 \/ find_stack i l = None) /\ ids_distinct l
  end.

Definition inv_ok (l : list (Z * Z)) : Prop := Forall slot_ok l /\ ids_distinct l.

(** When [Modify] can add [c] (or take [-c]) of item [i]. *)
Definition accepts (i c : Z) (l : list (Z * Z)) : Prop :=
  c <> 0 /\ 0 <= contains i l + c <= 200 /\
  (contains i l = 0 -> find_stack 0 l <> None).

(** [l'] is [l] with [n] of item [i]. *)
Definition bag_update (i n : Z) (l l' : list (Z * Z)) : Prop :=
  contains i l' = n /\ forall j, j <> 0 -> j <> i -> contains j l' = contains j l.

Lemma find_stack_lookup i l : forall k,
  find_stack i l = Some k -> l !! k = Some (i, contains i l).
Proof.
  induction l as [|[j n] l IH]; intros k H; simpl in *; [done|].
  destruct (Z.eqb_spec j i) as [->|]; [by simplify_eq|].
  destruct (find_stack i l); simplify_eq/=. by apply IH.
Qed.

Lemma find_stack_None i l : find_stack i l = None -> contains i l = 0.
Proof.
  induction l as [|[j n] l IH]; simpl; [done|]. destruct (j =? i); [done|].
  destruct (find_stack i l); [done|]. intros _. by apply IH.
Qed.

Lemma contains_range i l : 0 < i -> Forall slot_ok l -> 0 <= contains i l <= 200.
Proof.
  intros Hi. induction 1 as [|[j n] l Hs _ IH]; simpl; [lia|].
  destruct (Z.eqb_spec j i); [|done]. destruct Hs; simpl in *; lia.
Qed.

Lemma find_stack_Some i l k :
  0 < i -> Forall slot_ok l -> find_stack i l = Some k -> 1 <= contains i l <= 200.
Proof.
  intros Hi Hl H. apply find_stack_lookup in H.
  eapply Forall_lookup_1 in H; [|exact Hl]. destruct H; simpl in *; lia.
Qed.

Lemma find_put_other j k s l :
  s.1 <> j -> find_stack j l = None -> find_stack j (put k s l) = None.
Proof.
  intros Hs. revert k. unfold put. induction l as [|[i n] l IH]; intros [|k] H; simpl in *;
    try done; destruct (Z.eqb_spec i j); try done; destruct (find_stack j l) eqn:E; try done.
  - destruct s as [i' n']; simpl in *. by destruct (Z.eqb_spec i' j).
  - by rewrite IH.
Qed.

(** Replacing the count of a stack. *)
Lemma put_stack i n l : forall k,
  find_stack i l = Some k ->
  (forall j, contains j (put k (i, n) l) = if j =? i then n else contains j l) /\
  (ids_distinct l -> ids_distinct (put k (i, n) l)).
Proof.
  induction l as [|[i' n'] l IH]; intros k H; simpl in *; [done|].
  destruct (Z.eqb_spec i' i) as [->|Hne].
  - simplify_eq. simpl. split; [|done]. intros j. rewrite (Z.eqb_sym j). by destruct (i =? j).
  - destruct (find_stack i l) as [k'|] eqn:E; simplify_eq/=.
    destruct (IH k' eq_refl) as [H1 H2]. unfold put in *. split.
    + intros j. rewrite H1. destruct (Z.eqb_spec i' j), (Z.eqb_spec j i); congruence.
    + intros [Hi Hd]. split; [|by apply H2]. destruct Hi as [->|Hi]; [by left|right].
      by apply find_put_other.
Qed.

(** Freeing a stack. *)
Lemma put_free i l : forall k,
  i <> 0 -> find_stack i l = Some k -> ids_distinct l ->
  bag_update i 0 l (put k (0, 0) l) /\ ids_distinct (put k (0, 0) l) /\
  find_stack 0 (put k (0, 0) l) <> None.
Proof.
  induction l as [|[i' n'] l IH]; intros k Hi H Hd; simpl in *; [done|].
  destruct Hd as [Hi' Hd]. unfold bag_update in *.
  destruct (Z.eqb_spec i' i) as [->|Hne].
  - simplify_eq. cbn [put insert list_insert].
    assert (find_stack i l = None) as E by (by destruct Hi').
    cbn [contains find_stack ids_distinct]. split_and!.
    + destruct (Z.eqb_spec 0 i); [congruence|]. by apply find_stack_None.
    + intros j Hj Hji. destruct (Z.eqb_spec 0 j), (Z.eqb_spec i j); congruence.
    + by left.
    + done.
    + done.
  - destruct (find_stack i l) as [k'|] eqn:E; simplify_eq/=.
    destruct (IH k' Hi eq_refl Hd) as ((H1 & H2) & H3 & H4). unfold put in *.
    split_and!.
    + destruct (Z.eqb_spec i' i); [congruence|done].
    + intros j Hj Hji. destruct (i' =? j); [done|by apply H2].
    + destruct (Z.eqb_spec i' 0) as [->|Hz]; [by left|right].
      apply find_put_other; [simpl; congruence|]. by destruct Hi'.
    + done.
    + destruct (Z.eqb_spec i' 0); [done|].
      by destruct (find_stack 0 (<[k':=(0, 0)]> l)).
Qed.

(** A new stack in a free slot. *)
Lemma put_new i c l : forall k,
  i <> 0 -> find_stack i l = None -> find_stack 0 l = Some k -> ids_distinct l ->
  bag_update i c l (put k (i, c) l) /\ ids_distinct (put k (i, c) l).
Proof.
  induction l as [|[i' n'] l IH]; intros k Hi Hn H Hd; simpl in *; [done|].
  destruct Hd as [Hi' Hd]. unfold bag_update in *.
  destruct (Z.eqb_spec i' i) as [|Hne]; [done|].
  destruct (find_stack i l) eqn:En; [done|].
  destruct (Z.eqb_spec i' 0) as [->|Hz].
  - simplify_eq. cbn [put insert list_insert contains ids_distinct].
    rewrite Z.eqb_refl. split_and!; try done; [|by right].
    intros j Hj Hji. destruct (Z.eqb_spec i j), (Z.eqb_spec 0 j); congruence.
  - destruct (find_stack 0 l) as [k'|] eqn:E; simplify_eq/=.
    destruct (IH k' Hi eq_refl eq_refl Hd) as ((H1 & H2) & H3). unfold put in *. split_and!.
    + destruct (Z.eqb_spec i' i); [congruence|done].
    + intros j Hj Hji. destruct (i' =? j); [done|by apply H2].
    + destruct Hi' as [|Hi']; [done|]. right. apply find_put_other; [simpl; congruence|done].
    + done.
Qed.

Lemma put_Forall k s l : slot_ok s -> Forall slot_ok l -> Forall slot_ok (put k s l).
Proof. intros Hs Hl. unfold put. by apply Forall_insert. Qed.

(** ** What [Modify] leaves alone *)

(** Everything that decides about conversions, sales and money, apart from
    the items themselves. *)
Definition same_setup (p p' : Player) : Prop :=
  gems p' = gems p /\ netID p' = netID p /\ supp p' = supp p /\ subscriber p' = subscriber p /\
  infinite_mode p' = infinite_mode p /\ autoConvert p' = autoConvert p /\
  autoConvertProcessing p' = autoConvertProcessing p /\
  autoCvModeGemsToDl p' = autoCvModeGemsToDl p /\ autoCvModeWlToDl p' = autoCvModeWlToDl p /\
  autoCvModeDlToBgl p' = autoCvModeDlToBgl p /\ autoCvModeBglToGgl p' = autoCvModeBglToGgl p /\
  autoCvModeGglTo20298 p' = autoCvModeGglTo20298 p /\ autosellfish p' = autosellfish p /\
  autosellfish_processing p' = autosellfish_processing p.

Lemma same_setup_refl p : same_setup p p.
Proof. by split_and!. Qed.

#[export] Instance same_setup_trans : Transitive same_setup.
Proof. intros p q r H1 H2. unfold same_setup in *. intuition congruence. Qed.

Lemma same_setup_inv l p : same_setup p (set_inv l p).
Proof. by destruct p. Qed.

Lemma clear_billboard_spec i p :
  same_setup p (clear_billboard i p).1 /\ inv (clear_billboard i p).1 = inv p.
Proof. unfold clear_billboard. destruct p; simpl. by case_match. Qed.

Lemma remove_clothing_spec it i p :
  same_setup p (remove_clothing it i p).1 /\ inv (remove_clothing it i p).1 = inv p.
Proof.
  unfold remove_clothing. destruct p; simpl.
  destruct (take_off _ _ _) as [w b]. by repeat case_match.
Qed.

Lemma empty_stack_spec items k i p :
  0 < i < size items ->
  exists p' es, empty_stack items k i p = Some (p', es) /\
    same_setup p p' /\ inv p' = put k (0, 0) (inv p).
Proof.
  intros Hi. unfold empty_stack.
  destruct (clear_billboard_spec i p) as [Hs1 Hi1].
  destruct (clear_billboard i p) as [p1 e1]; simpl in *.
  unfold get_item. rewrite (proj2 (Z.leb_le _ _)), (proj2 (Z.ltb_lt _ _)) by lia.
  cbn [andb mbind option_bind].
  assert (exists p2 e2, match blockType (item items i) with
    | CLOTHING => remove_clothing (item items i) i p1 | _ => (p1, []) end = (p2, e2) /\
    same_setup p1 p2 /\ inv p2 = inv p1) as (p2 & e2 & -> & Hs2 & Hi2).
  { destruct (remove_clothing_spec (item items i) i p1) as [Hs Hv].
    destruct (blockType _); try by (eexists p1, []).
    by eexists _, _; split; [apply surjective_pairing|]. }
  eexists _, _. split; [done|]. split.
  - etransitivity; [exact Hs1|]. etransitivity; [exact Hs2|]. apply same_setup_inv.
  - destruct p2; simpl in *. congruence.
Qed.

(** ** [Modify] on the slots *)

(** The two ways [modify_slots] ends: the bag is updated, or nothing
    changes. *)
Definition slots_spec (items : table) (i c : Z) (p : Player) (o : outcome) (p' : Player) : Prop :=
  match o with
  | Done n p1 es =>
      p1 = p' /\ accepts i c (inv p) /\ same_setup p p' /\ inv_ok (inv p') /\
      bag_update i (contains i (inv p) + c) (inv p) (inv p') /\
      (contains i (inv p) + c = 0 -> find_stack 0 (inv p') <> None)
  | Return _ => ~ accepts i c (inv p) /\ p' = p
  end.

Lemma set_inv_same p : set_inv (inv p) p = p.
Proof. by destruct p. Qed.

Lemma inv_set_inv l p : inv (set_inv l p) = l.
Proof. by destruct p. Qed.

Lemma modify_slots_spec items i c force p :
  0 < i < size items -> c <= 200 -> inv_ok (inv p) ->
  exists o p', modify_slots items i c force p = Some (o, p') /\ slots_spec items i c p o p'.
Proof.
  intros Hi Hc [Hl Hd]. unfold modify_slots, slots_spec, accepts.
  destruct (find_stack i (inv p)) as [k|] eqn:E.
  - pose proof (find_stack_Some i (inv p) k ltac:(lia) Hl E) as Hn.
    set (n := contains i (inv p)) in *. unfold modify_stack.
    destruct (Z.leb_spec (n + c) 200); [|eexists _, _; split; [done|]; split; [lia|done]].
    destruct (Z.ltb_spec c 0), (Z.ltb_spec (n + c) 0); cbn [andb];
      try (eexists _, _; split; [done|]; split; [lia|done]);
      destruct (Z.eqb_spec (n + c) 0); try lia.
    + destruct (empty_stack_spec items k i p Hi) as (p' & es & -> & Hs & Hv).
      cbn [mbind option_bind]. eexists _, _. split; [done|].
      destruct (put_free i (inv p) k ltac:(lia) E Hd) as (P1 & P2 & P3).
      rewrite Hv. replace (n + c) with 0 by lia. split_and!; try done; try lia.
      split; [|done]. apply put_Forall; [by left|done].
    + destruct (Z.eqb_spec c 0); [lia|].
      destruct (put_stack i (n + c) (inv p) k E) as [P1 P2].
      eexists _, _. split; [done|]. rewrite inv_set_inv. split_and!; try done; try lia.
      * apply same_setup_inv.
      * split; [apply put_Forall; [right; simpl; lia|done]|by apply P2].
      * split; [by rewrite P1, Z.eqb_refl|]. intros j Hj Hji. rewrite P1.
        by rewrite (proj2 (Z.eqb_neq _ _)).
    + destruct (Z.eqb_spec c 0) as [->|].
      * eexists _, _. split; [done|]. split; [lia|]. rewrite Z.add_0_r.
        unfold put. rewrite list_insert_id by (by apply find_stack_lookup).
        apply set_inv_same.
      * destruct (put_stack i (n + c) (inv p) k E) as [P1 P2].
        eexists _, _. split; [done|]. rewrite inv_set_inv. split_and!; try done; try lia.
        -- apply same_setup_inv.
        -- split; [apply put_Forall; [right; simpl; lia|done]|by apply P2].
        -- split; [by rewrite P1, Z.eqb_refl|]. intros j Hj Hji. rewrite P1.
           by rewrite (proj2 (Z.eqb_neq _ _)).
  - pose proof (find_stack_None i (inv p) E) as Hn. unfold modify_new. rewrite Hn.
    destruct (find_stack 0 (inv p)) as [k|] eqn:E0.
    + destruct (Z.ltb_spec 0 c); [|eexists _, _; split; [done|]; split; [lia|done]].
      destruct (put_new i c (inv p) k ltac:(lia) E E0 Hd) as [P1 P2].
      eexists _, _. split; [done|]. rewrite inv_set_inv. split_and!; try done; try lia.
      * apply same_setup_inv.
      * split; [apply put_Forall; [right; simpl; lia|done]|done].
    + eexists _, _. split; [done|]. split; [|done]. intros (_ & _ & H). by destruct (H eq_refl).
Qed.

(** A player for whom [Modify] only touches the items: no conversion and no
    sale is due. *)
Definition quiet (p : Player) : Prop :=
  infinite_mode p = false /\
  (autoConvert p = false \/ autoConvertProcessing p = true) /\
  (autosellfish p = false \/ autosellfish_processing p = true).

Lemma AutoConvert_quiet items modify p :
  autoConvert p = false \/ autoConvertProcessing p = true ->
  AutoConvert items modify p = Some (p, []).
Proof. unfold AutoConvert. intros [->| ->]; [done|]. by rewrite orb_true_r. Qed.

(** The result of a [Modify] that only touches the items. *)
Definition bag_result (i c : Z) (p : Player) (r : result) : Prop :=
  (ret r = 0 /\ accepts i c (inv p) /\ same_setup p (pl_out r) /\ inv_ok (inv (pl_out r)) /\
   bag_update i (contains i (inv p) + c) (inv p) (inv (pl_out r)) /\
   (contains i (inv p) + c = 0 -> find_stack 0 (inv (pl_out r)) <> None)) \/
  (ret r = -1 /\ ~ accepts i c (inv p) /\ pl_out r = p).

Lemma contains_find i l : contains i l <> 0 -> find_stack i l <> None.
Proof. intros H E. by apply find_stack_None in E. Qed.

Lemma accepts_nonempty i c l : accepts i c l -> (length l =? 0)%nat = false.
Proof. intros (? & ? & H). destruct l; [|done]. simpl in H. by destruct (H eq_refl). Qed.

(** The guards in front of the slots, for an item of the table. *)
Lemma modify_guard items i c p :
  0 < i < size items -> i <> 112 -> c <= 200 ->
  (200 <? c) || (i <? 0) || (size items <? i) || (i <=? 0) || (i =? 112) ||
  (length (inv p) =? 0)%nat = (length (inv p) =? 0)%nat.
Proof.
  intros. rewrite (proj2 (Z.ltb_ge 200 c)), (proj2 (Z.ltb_ge i 0)),
    (proj2 (Z.ltb_ge (size items) i)), (proj2 (Z.leb_gt i 0)), (proj2 (Z.eqb_neq i 112)) by lia.
  done.
Qed.

(** No sale of fish is due. *)
Lemma no_sale items i c p (X : option (Player * list effect)) :
  autosellfish p = false \/ autosellfish_processing p = true \/
    blockType (item items i) <> FISH ->
  (if (0 <? c) && autosellfish p && negb (autosellfish_processing p) then
     if (0 <? i) && (i <? size items) && bool_decide (blockType (item items i) = FISH)
     then X else Some (p, []) else Some (p, [])) = Some (p, []).
Proof.
  intros [->|[->|H]].
  - by rewrite andb_false_r.
  - by rewrite andb_false_r.
  - rewrite (bool_decide_eq_false_2 _ H), andb_false_r. by case_match.
Qed.

Lemma modify_body_step items prices wf g1 g2 modify i c upd force p :
  0 < i < size items -> i <> 112 -> c <= 200 ->
  infinite_mode p && (c <? 0) = false -> autoConvert p = false \/ autoConvertProcessing p = true ->
  (autosellfish p = false \/ autosellfish_processing p = true \/
   blockType (item items i) <> FISH) ->
  inv_ok (inv p) ->
  exists r, modify_body items prices wf g1 g2 modify i c upd force p = Some r /\
    bag_result i c p r.
Proof.
  intros Hi H112 Hc Hinf Hac Has Hinv. unfold modify_body.
  rewrite modify_guard by done.
  destruct (length (inv p) =? 0)%nat eqn:El.
  { eexists. split; [done|]. right. split; [done|]. split; [|done].
    intros H%accepts_nonempty. congruence. }
  rewrite Hinf.
  destruct (modify_slots_spec items i c force p Hi Hc Hinv) as (o & p' & -> & Ho).
  cbn [mbind option_bind]. destruct o as [n|n p1 es]; simpl in Ho.
  { destruct Ho as [Hna ->]. eexists. split; [done|]. by right. }
  destruct Ho as (-> & Ha & Hs & Hv & Hb & Hf).
  assert (autoConvert p' = false \/ autoConvertProcessing p' = true) as Hac'
    by (unfold same_setup in Hs; intuition congruence).
  rewrite AutoConvert_quiet by done. cbn [mbind option_bind].
  rewrite no_sale by (unfold same_setup in Hs; intuition congruence).
  cbn [mbind option_bind]. eexists. split; [done|]. left. simpl. done.
Qed.

Lemma modify_body_bag items prices wf g1 g2 modify i c upd force p :
  0 < i < size items -> i <> 112 -> c <= 200 ->
  infinite_mode p = false -> autoConvert p = false \/ autoConvertProcessing p = true ->
  (autosellfish p = false \/ autosellfish_processing p = true \/
   blockType (item items i) <> FISH) ->
  inv_ok (inv p) ->
  exists r, modify_body items prices wf g1 g2 modify i c upd force p = Some r /\
    bag_result i c p r.
Proof. intros ? ? ? Hinf. apply modify_body_step; try done. by rewrite Hinf. Qed.

(** The vector of slots keeps its length. *)
Lemma modify_slots_length items i c force p o p' :
  0 < i < size items -> modify_slots items i c force p = Some (o, p') ->
  length (inv p') = length (inv p).
Proof.
  intros Hi. unfold modify_slots, modify_stack, modify_new, put.
  repeat case_match; intros; simplify_eq; rewrite ?inv_set_inv, ?length_insert; try done.
  destruct (empty_stack_spec items n i p Hi) as (p1 & es & E & _ & Hv).
  rewrite E in *. cbn [mbind option_bind] in *. simplify_eq. rewrite Hv. apply length_insert.
Qed.

Lemma modify_body_length items prices wf g1 g2 modify i c upd force p r :
  0 < i < size items -> i <> 112 -> c <= 200 -> quiet p -> inv_ok (inv p) ->
  modify_body items prices wf g1 g2 modify i c upd force p = Some r ->
  length (inv (pl_out r)) = length (inv p).
Proof.
  intros Hi H112 Hc (Hinf & Hac & Has) Hinv. unfold modify_body. rewrite modify_guard by done.
  destruct (length (inv p) =? 0)%nat; [by intros [= <-]|]. rewrite Hinf. cbn [andb].
  destruct (modify_slots_spec items i c force p Hi Hc Hinv) as (o & p' & E & Ho).
  apply modify_slots_length in E as Hl; [|done]. rewrite E. cbn [mbind option_bind].
  destruct o as [n|n p1 es]; simpl in Ho; [by intros [= <-]|].
  destruct Ho as (-> & _ & Hs & _). unfold same_setup in Hs.
  rewrite AutoConvert_quiet by intuition congruence. cbn [mbind option_bind].
  rewrite no_sale by intuition congruence. cbn [mbind option_bind]. by intros [= <-].
Qed.

(** ** Conversions conserve value *)

(** The value of an inventory in world locks. *)
Definition worth (l : list (Z * Z)) : Z :=
  contains 242 l + 100 * contains 1796 l + 10000 * contains 7188 l +
  1000000 * contains 8470 l + 100000000 * contains 20298 l.

(** Gems and locks together: 300000 gems buy a lock worth 100. *)
Definition fortune (p : Player) : Z := gems p + 3000 * worth (inv p).

Definition lock_ids : list Z := [242; 1796; 7188; 8470; 20298].

Definition weight (id : Z) : Z :=
  if id =? 242 then 1 else if id =? 1796 then 100 else if id =? 7188 then 10000
  else if id =? 8470 then 1000000 else if id =? 20298 then 100000000 else 0.

(** The item table has the locks, and they are no fish. *)
Definition locks_in_table (items : table) : Prop :=
  Forall (λ id, id < size items /\ blockType (item items id) <> FISH) lock_ids.

Lemma worth_update i n l l' :
  i ∈ lock_ids -> bag_update i n l l' -> worth l' = worth l + weight i * (n - contains i l).
Proof.
  unfold lock_ids, bag_update, worth. intros Hi [H1 H2].
  repeat (apply elem_of_cons in Hi as [->|Hi]); [..|by apply elem_of_nil in Hi];
    rewrite ?(H2 242), ?(H2 1796), ?(H2 7188), ?(H2 8470), ?(H2 20298), H1 by lia;
    cbn [weight Z.eqb Pos.eqb]; lia.
Qed.

(** A player whose locks are being converted. *)
Definition converting (p : Player) : Prop :=
  infinite_mode p = false /\ autoConvertProcessing p = true /\ inv_ok (inv p).

Lemma lock_id_facts i items :
  i ∈ lock_ids -> locks_in_table items ->
  0 < i < size items /\ i <> 112 /\ blockType (item items i) <> FISH.
Proof.
  intros Hi H. unfold locks_in_table in H. rewrite list.Forall_forall in H.
  specialize (H i Hi). unfold lock_ids in Hi.
  repeat (apply elem_of_cons in Hi as [->|Hi]); [..|by apply elem_of_nil in Hi];
    split_and!; try lia; apply H.
Qed.

Section Convert.
Context (items : table) (prices : list (Z * Z)) (world_found : bool) (g1 g2 : string)
  (fuel : nat).
Hypothesis Hlocks : locks_in_table items.

Let modify := Modify items prices world_found g1 g2 (S fuel).

Lemma modify_lock i c p :
  i ∈ lock_ids -> c <= 200 -> converting p ->
  exists r, modify i c false true p = Some r /\ bag_result i c p r /\ converting (pl_out r).
Proof.
  intros Hi Hc (H1 & H2 & H3). destruct (lock_id_facts i items Hi Hlocks) as (Hs & H112 & Hf).
  destruct (modify_body_bag items prices world_found g1 g2
    (Modify items prices world_found g1 g2 fuel) i c false true p) as (r & E & Hr); auto.
  exists r. split; [exact E|]. split; [done|].
  destruct Hr as [(_ & _ & Hss & Hv & _)|(_ & _ & ->)]; [|done].
  unfold same_setup in Hss. unfold converting. intuition congruence.
Qed.

(** What every step of a conversion keeps. *)
Definition conserved (p p' : Player) : Prop :=
  converting p' /\ fortune p' = fortune p /\
  autoConvert p' = autoConvert p /\ autosellfish p' = autosellfish p.

Lemma bag_result_setup i c p r :
  bag_result i c p r ->
  gems (pl_out r) = gems p /\ autoConvert (pl_out r) = autoConvert p /\
  autosellfish (pl_out r) = autosellfish p.
Proof. intros [(_ & _ & H & _)|(_ & _ & ->)]; [|done]. unfold same_setup in H. tauto. Qed.

Lemma convert_loop_conserved from_id to_id n : forall k p,
  from_id ∈ lock_ids -> to_id ∈ lock_ids -> from_id <> to_id ->
  weight to_id = 100 * weight from_id ->
  converting p -> contains from_id (inv p) < 100 + 100 * Z.of_nat n -> 0 <= k ->
  exists m p' es, convert_loop modify n from_id to_id k p = Some (m, p', es) /\
    conserved p p' /\ k <= m.
Proof.
  induction n as [|n IH]; intros k p Hf Ht Hft Hw Hp Hn Hk; cbn [convert_loop];
    (destruct (Z.ltb_spec (contains from_id (inv p)) 100);
      [by eexists k, p, []|]); [lia|].
  pose proof (proj1 (lock_id_facts from_id items Hf Hlocks)) as Hpos.
  pose proof (contains_range from_id (inv p) ltac:(lia) (proj1 (proj2 (proj2 Hp)))) as Hr.
  destruct (modify_lock from_id (-100) p Hf ltac:(lia) Hp) as (r1 & -> & Hr1 & Hp1).
  cbn [mbind option_bind]. pose proof (bag_result_setup _ _ _ _ Hr1) as (G1 & A1 & F1).
  destruct Hr1 as [(-> & _ & _ & _ & Hb1 & Hfree)|(_ & Hna & _)];
    [|destruct Hna; split_and!; lia].
  cbn [Z.eqb negb].
  pose proof (worth_update _ _ _ _ Hf Hb1) as W1.
  destruct (modify_lock to_id 1 (pl_out r1) Ht ltac:(lia) Hp1) as (r2 & -> & Hr2 & Hp2).
  cbn [mbind option_bind]. pose proof (bag_result_setup _ _ _ _ Hr2) as (G2 & A2 & F2).
  destruct Hr2 as [(-> & _ & _ & _ & Hb2 & _)|(-> & _ & E2)]; cbn [Z.eqb negb].
  - pose proof (worth_update _ _ _ _ Ht Hb2) as W2.
    assert (contains from_id (inv (pl_out r2)) = contains from_id (inv p) - 100) as Hc2.
    { destruct Hb1 as [Hb1 _], Hb2 as [_ Hb2]. rewrite Hb2 by lia. lia. }
    destruct (IH (k + 1) (pl_out r2)) as (m & p' & es & -> & (Hc & Hfo & Ha & Hs) & Hm);
      try done; try lia.
    cbn [mbind option_bind]. eexists _, _, _. split; [done|]. split; [|lia].
    unfold conserved, fortune in *. split_and!; try done; try congruence. lia.
  - rewrite E2 in *.
    destruct (modify_lock from_id 100 (pl_out r1) Hf ltac:(lia) Hp1) as (r3 & -> & Hr3 & Hp3).
    cbn [mbind option_bind]. pose proof (bag_result_setup _ _ _ _ Hr3) as (G3 & A3 & F3).
    destruct Hb1 as [Hb1 Hb1'].
    destruct Hr3 as [(_ & _ & _ & _ & Hb3 & _)|(_ & Hna & _)].
    + pose proof (worth_update _ _ _ _ Hf Hb3) as W3.
      eexists _, _, _. split; [done|]. split; [|lia].
      unfold conserved, fortune in *. split_and!; try done; try congruence. nia.
    + destruct Hna. split; [lia|]. split; [lia|]. intros Hz. apply Hfree. lia.
Qed.

Lemma gems_loop_conserved n : forall k p,
  converting p -> 200 - contains 1796 (inv p) < Z.of_nat n -> 0 <= k ->
  exists m p' es, gems_loop modify n k p = Some (m, p', es) /\ conserved p p' /\ k <= m.
Proof.
  assert (1796 ∈ lock_ids) as Hd by (unfold lock_ids; set_solver).
  induction n as [|n IH]; intros k p Hp Hn Hk; cbn [gems_loop];
    (destruct (Z.ltb_spec (gems p) 300000); [by eexists k, p, []|]);
    pose proof (contains_range 1796 (inv p) ltac:(lia) (proj1 (proj2 (proj2 Hp)))) as Hr; [lia|].
  destruct (modify_lock 1796 1 p Hd ltac:(lia) Hp) as (r & -> & Hr1 & Hp1).
  cbn [mbind option_bind]. pose proof (bag_result_setup _ _ _ _ Hr1) as (G1 & A1 & F1).
  destruct Hr1 as [(-> & _ & _ & _ & Hb & _)|(-> & _ & E)]; cbn [Z.eqb negb].
  - pose proof (worth_update _ _ _ _ Hd Hb) as W. cbn [weight Z.eqb Pos.eqb] in W.
    set (p1 := set_gems (gems (pl_out r) - 300000) (pl_out r)).
    assert (inv p1 = inv (pl_out r) /\ gems p1 = gems (pl_out r) - 300000 /\
      converting p1 /\ autoConvert p1 = autoConvert p /\ autosellfish p1 = autosellfish p)
      as (V1 & G2 & Hp2 & A2 & F2).
    { subst p1. unfold converting in *. destruct (pl_out r); simpl in *.
      intuition congruence. }
    destruct (IH (k + 1) p1) as (m & p' & es & -> & (Hc & Hfo & Ha & Hs) & Hm); try done;
      [rewrite V1; destruct Hb as [Hb _]; lia|lia|].
    cbn [mbind option_bind]. eexists _, _, _. split; [done|]. split; [|lia].
    unfold conserved, fortune in *. rewrite V1, G2 in Hfo.
    split_and!; try done; try congruence. lia.
  - rewrite E. eexists _, _, _. split; [done|]. split; [|lia]. unfold conserved. done.
Qed.

Lemma conserved_refl p : converting p -> conserved p p.
Proof. by intros H. Qed.

Lemma conserved_trans p q r : conserved p q -> conserved q r -> conserved p r.
Proof. unfold conserved. intuition congruence. Qed.

Lemma try_convert_item_conserved from_id to_id b p :
  from_id ∈ lock_ids -> to_id ∈ lock_ids -> from_id <> to_id ->
  weight to_id = 100 * weight from_id -> converting p ->
  exists m p' es, try_convert_item modify from_id to_id b p = Some (m, p', es) /\ conserved p p'.
Proof.
  intros Hf Ht Hn Hw Hp. unfold try_convert_item. destruct b; cbn [negb].
  - pose proof (proj1 (lock_id_facts from_id items Hf Hlocks)) as Hpos.
    pose proof (contains_range from_id (inv p) ltac:(lia) (proj1 (proj2 (proj2 Hp)))) as Hr.
    destruct (convert_loop_conserved from_id to_id 512 0 p) as (m & p' & es & E & H & _);
      try done; try lia. by exists m, p', es.
  - exists 0, p, []. split; [done|]. by apply conserved_refl.
Qed.

Lemma try_convert_gems_conserved p :
  converting p ->
  exists m p' es, try_convert_gems modify p = Some (m, p', es) /\ conserved p p'.
Proof.
  intros Hp. unfold try_convert_gems. destruct (autoCvModeGemsToDl p); cbn [negb].
  - pose proof (contains_range 1796 (inv p) ltac:(lia) (proj1 (proj2 (proj2 Hp)))) as Hr.
    destruct (gems_loop_conserved 512 0 p) as (m & p' & es & E & H & _); try done; try lia.
    by exists m, p', es.
  - exists 0, p, []. split; [done|]. by apply conserved_refl.
Qed.

Lemma convert_pass_conserved p :
  converting p ->
  exists b g ls p' es, convert_pass items modify p = Some (b, g, ls, p', es) /\ conserved p p'.
Proof.
  intros Hp. unfold convert_pass.
  destruct (try_convert_gems_conserved p Hp) as (n0 & p0 & e0 & -> & H0).
  cbn [mbind option_bind].
  destruct (try_convert_item_conserved 242 1796 (autoCvModeWlToDl p0) p0)
    as (n1 & p1 & e1 & -> & H1); [unfold lock_ids; set_solver..|done|done|apply H0|].
  cbn [mbind option_bind].
  destruct (try_convert_item_conserved 1796 7188 (autoCvModeDlToBgl p1) p1)
    as (n2 & p2 & e2 & -> & H2); [unfold lock_ids; set_solver..|done|done|apply H1|].
  cbn [mbind option_bind].
  destruct (try_convert_item_conserved 7188 8470 (autoCvModeBglToGgl p2) p2)
    as (n3 & p3 & e3 & -> & H3); [unfold lock_ids; set_solver..|done|done|apply H2|].
  cbn [mbind option_bind].
  destruct (try_convert_item_conserved 8470 20298 (autoCvModeGglTo20298 p3) p3)
    as (n4 & p4 & e4 & -> & H4); [unfold lock_ids; set_solver..|done|done|apply H3|].
  cbn [mbind option_bind]. eexists _, _, _, _, _. split; [done|].
  exact (conserved_trans _ _ _ H0 (conserved_trans _ _ _ H1 (conserved_trans _ _ _ H2
    (conserved_trans _ _ _ H3 H4)))).
Qed.

Lemma passes_conserved n : forall ch g s p,
  converting p ->
  exists b g' ls p' es, passes items modify n ch g s p = Some (b, g', ls, p', es) /\
    conserved p p'.
Proof.
  induction n as [|n IH]; intros ch g s p Hp; cbn [passes].
  - eexists _, _, _, _, _. split; [done|]. by apply conserved_refl.
  - destruct (convert_pass_conserved p Hp) as (b & ga & ls & p1 & es & -> & H1).
    cbn [mbind option_bind]. destruct b.
    + destruct (IH (ch || true) (g || ga) (s ++ ls) p1 (proj1 H1))
        as (b2 & g2' & ls2 & p2 & es2 & -> & H2).
      cbn [mbind option_bind]. eexists _, _, _, _, _. split; [done|].
      by eapply conserved_trans.
    + eexists _, _, _, _, _. split; [done|]. done.
Qed.

(** The automatic conversion is defined, keeps the fortune and the
    inventory well formed. *)
Lemma AutoConvert_fortune p :
  infinite_mode p = false -> inv_ok (inv p) ->
  exists p' es, AutoConvert items modify p = Some (p', es) /\ fortune p' = fortune p /\
    inv_ok (inv p') /\ infinite_mode p' = false /\ autosellfish p' = autosellfish p /\
    autoConvertProcessing p' = autoConvertProcessing p.
Proof.
  intros Hi Hv. unfold AutoConvert.
  destruct (autoConvert p) eqn:Ea, (autoConvertProcessing p) eqn:Ep; cbn [negb orb];
    try (by exists p, []).
  destruct (passes_conserved 512 false false [] (set_autoConvertProcessing true p))
    as (b & g & ls & p' & es & -> & (Hc1 & Hc2 & Hc3) & Hf & Ha & Hs).
  { destruct p; simpl in *. by split_and!. }
  cbn [mbind option_bind]. eexists _, _. split; [done|].
  unfold fortune in *. destruct p, p'; simpl in *. by split_and!.
Qed.

End Convert.

(** ** The properties *)

(** C20: [Modify] updates a bag. For a player with no conversion or sale due
    and an item of the table, adding [c] (or taking [-c]) changes the count
    of that item by [c] and no other, when the result is between 0 and 200
    and a new item finds a free slot; otherwise nothing at all changes.
    Well-formed inventories stay well formed. *)
Theorem Modify_bag items prices wf g1 g2 fuel i c upd force p :
  quiet p -> 0 < i < size items -> i <> 112 -> c <= 200 -> inv_ok (inv p) ->
  exists r, Modify items prices wf g1 g2 (S fuel) i c upd force p = Some r /\
    bag_result i c p r.
Proof.
  intros (Hinf & Hac & Has) Hi H112 Hc Hv. apply modify_body_bag; try done.
  destruct Has; [by left|by right; left].
Qed.

Definition sample_items : table := repeat item_default (Z.to_nat 20300).

Lemma sample_items_size : size sample_items = 20300.
Proof. unfold size, sample_items. rewrite repeat_length. lia. Qed.

Definition sample_player (inv : list (Z * Z)) (gems : Z) (cv : bool) : Player :=
  mkPlayer inv gems 7 0 false false cv false true true true true true false false 0 "0,0" 0 0
    (mkWear 0 0 0 0 0 0 0 0 0 0 256 0 6 0 6 0 0 0 0).

Lemma Modify_bag_witness :
  exists r, Modify sample_items [] true "" "" 1 2 150 true false
      (sample_player [(18, 1); (0, 0); (2, 30)] 0 false) = Some r /\
    bag_result 2 150 (sample_player [(18, 1); (0, 0); (2, 30)] 0 false) r.
Proof.
  pose proof sample_items_size as Hsz.
  apply Modify_bag; try lia.
  - unfold quiet; simpl. intuition.
  - split; [repeat constructor; unfold slot_ok; simpl; lia|simpl; tauto].
Defined.

(** C1: conversion conserves money. Outside infinite mode, the automatic
    conversion always terminates with a result, and gems plus 3000 times
    the value of the locks is what it was: full target stacks are refunded
    exactly. *)
Theorem AutoConvert_conserves items prices wf g1 g2 fuel p :
  locks_in_table items -> infinite_mode p = false -> inv_ok (inv p) ->
  exists p' es, AutoConvert items (Modify items prices wf g1 g2 (S fuel)) p = Some (p', es) /\
    fortune p' = fortune p /\ inv_ok (inv p').
Proof.
  intros Hl Hi Hv.
  destruct (AutoConvert_fortune items prices wf g1 g2 fuel Hl p Hi Hv)
    as (p' & es & E & Hf & Hv' & _). by exists p', es.
Qed.

Lemma AutoConvert_conserves_witness :
  exists p' es,
    AutoConvert sample_items (Modify sample_items [] true "" "" 2)
      (sample_player [(242, 170); (1796, 200); (7188, 99); (0, 0)] 400000 true) = Some (p', es) /\
    fortune p' = 400000 + 3000 * (170 + 100 * 200 + 10000 * 99) /\ inv_ok (inv p').
Proof.
  pose proof sample_items_size as Hsz.
  apply (AutoConvert_conserves sample_items [] true "" "" 1
    (sample_player [(242, 170); (1796, 200); (7188, 99); (0, 0)] 400000 true)).
  - unfold locks_in_table, lock_ids. rewrite Hsz.
    repeat (constructor; [split; [lia|unfold item, sample_items;
      rewrite nth_repeat; discriminate]|]). constructor.
  - reflexivity.
  - split; [repeat constructor; unfold slot_ok; simpl; lia|simpl; tauto].
Defined.

(** The sale of fish. Below a million world locks the payout is the
    total price; from a million on the golden locks are computed and never
    handed out, and a diamond-gem lock is paid with an item of a hundredth
    of its value, so the payout is less than the price. *)
Theorem payout_total total_wl :
  0 <= total_wl ->
  let paid := fold_right (λ x n, weight x.1 * x.2 + n) 0 (payout total_wl) in
  (total_wl < 1000000 -> paid = total_wl) /\ (1000000 <= total_wl -> paid < total_wl).
Proof.
  intros H. unfold payout, split_total. cbn [fold_right fst snd weight Z.eqb Pos.eqb].
  set (q1 := total_wl / 100). set (q2 := q1 / 100). set (q3 := q2 / 100).
  pose proof (Z.div_mod total_wl 100 ltac:(lia)) as E0.
  pose proof (Z.div_mod q1 100 ltac:(lia)) as E1.
  pose proof (Z.div_mod q2 100 ltac:(lia)) as E2.
  pose proof (Z.div_mod q3 100 ltac:(lia)) as E3.
  pose proof (Z.mod_pos_bound total_wl 100 ltac:(lia)).
  pose proof (Z.mod_pos_bound q1 100 ltac:(lia)).
  pose proof (Z.mod_pos_bound q2 100 ltac:(lia)).
  pose proof (Z.mod_pos_bound q3 100 ltac:(lia)).
  fold q1 in E0. fold q2 in E1. fold q3 in E2. set (q4 := q3 / 100) in *.
  assert (0 <= q3) by (repeat apply Z.div_pos; lia).
  split; intros Ht; lia.
Qed.

Lemma payout_total_witness :
  fold_right (λ x n, weight x.1 * x.2 + n) 0 (payout 1234567) < 1234567.
Proof. apply (proj2 (payout_total 1234567 ltac:(lia))). lia. Defined.

End InventoryFacts.
