(* ===== verification/InventoryBag.v ===== *)
(** * InventoryBag: the inventory as a bag with free slots

    For a player with nothing to convert or sell, a call of [Modify] moves
    one entry of the bag and counts the free slots of the inventory: the
    lemmas the trade and the wallet build on. *)
From S2P Require Import Prelude Memory Items Packet Tank Inventory InventoryFacts.
Import Items Inventory InventoryFacts.

Module InventoryBag.

(** ** Free slots *)

Definition free_slots (l : list (Z * Z)) : Z := Z.of_nat (length (filter (λ s, s.1 = 0) l)).

Definition ids (l : list (Z * Z)) : list Z := filter (λ i, i <> 0) l.*1.

Lemma free_ids l : free_slots l + Z.of_nat (length (ids l)) = Z.of_nat (length l).
Proof.
  unfold free_slots, ids. induction l as [|[i n] l IH]; [done|]. cbn [fmap list_fmap fst].
  rewrite !filter_cons. cbn [fst]. repeat case_decide; try done; cbn [length]; lia.
Qed.

Lemma find_stack_ids i l : i <> 0 -> (find_stack i l = None <-> i ∉ ids l).
Proof.
  intros Hi. unfold ids. induction l as [|[j n] l IH]; simpl; [set_solver|].
  rewrite filter_cons. destruct (Z.eqb_spec j i) as [->|].
  - rewrite decide_True by done. set_solver.
  - case_decide; destruct (find_stack i l); set_solver.
Qed.

Lemma contains_ids i l : i <> 0 -> Forall slot_ok l -> (i ∈ ids l <-> contains i l <> 0).
Proof.
  intros Hi Hl. split.
  - intros H E. destruct (find_stack i l) as [k|] eqn:Ek.
    + apply find_stack_lookup in Ek. eapply Forall_lookup_1 in Hl; [|exact Ek].
      destruct Hl; simpl in *; lia.
    + by apply find_stack_ids in Ek.
  - intros H. destruct (decide (i ∈ ids l)) as [|Hn]; [done|].
    apply find_stack_ids in Hn; [|done]. by apply find_stack_None in Hn.
Qed.

Lemma ids_NoDup l : ids_distinct l -> base.NoDup (ids l).
Proof.
  unfold ids. induction l as [|[i n] l IH]; simpl; [constructor|]. intros [Hi Hl].
  rewrite filter_cons. case_decide; [|by apply IH]. apply list.NoDup_cons. split; [|by apply IH].
  destruct Hi as [|Hi]; [lia|]. by apply find_stack_ids in Hi.
Qed.

Lemma ids_size l : ids_distinct l -> length (ids l) = base.size (list_to_set (ids l) : gset Z).
Proof. intros H. symmetry. by apply size_list_to_set, ids_NoDup. Qed.

(** How an update of one entry changes the number of free slots. *)
Lemma free_update i n l l' :
  i <> 0 -> inv_ok l -> inv_ok l' -> length l' = length l -> bag_update i n l l' ->
  free_slots l' = free_slots l + Z.b2z (negb (contains i l =? 0)) - Z.b2z (negb (n =? 0)).
Proof.
  intros Hi [Hl Hd] [Hl' Hd'] Hlen [Hn Ho].
  pose proof (free_ids l) as E. pose proof (free_ids l') as E'.
  rewrite ids_size in E, E' by done. rewrite Hlen in E'.
  assert (forall j, j <> 0 -> j <> i -> (j ∈ ids l <-> j ∈ ids l')) as Hj.
  { intros j H0 H1. rewrite !contains_ids by done. by rewrite Ho. }
  assert (0 ∉ ids l /\ 0 ∉ ids l') as [H0 H0'].
  { unfold ids. split; intros [? _]%list_elem_of_filter; done. }
  pose proof (contains_ids i l Hi Hl) as Hil. pose proof (contains_ids i l' Hi Hl') as Hil'.
  rewrite Hn in Hil'.
  rewrite <- (elem_of_list_to_set (C := gset Z)) in Hil, Hil'. set (S := list_to_set (ids l) : gset Z) in *.
  set (S' := list_to_set (ids l') : gset Z) in *.
  assert (S' ∖ {[i]} = S ∖ {[i]}) as Heq.
  { subst S S'. apply set_eq. intros j. rewrite !elem_of_difference, !elem_of_list_to_set.
    destruct (decide (j = 0)) as [->|]; [tauto|]. destruct (decide (j = i)) as [->|]; [set_solver|].
    by rewrite Hj. }
  assert (forall T : gset Z, Z.of_nat (base.size T)
    = Z.of_nat (base.size (T ∖ {[i]})) + Z.b2z (bool_decide (i ∈ T))) as Hs.
  { intros T. case_bool_decide as HT; cbn [Z.b2z].
    - rewrite size_difference by set_solver. rewrite size_singleton.
      assert (0 < base.size T)%nat; [|lia]. apply Nat.neq_0_lt_0. intros Hz%size_empty_inv. set_solver.
    - rewrite difference_disjoint_L by set_solver. lia. }
  rewrite (Hs S) in E. rewrite (Hs S') in E'. rewrite Heq in E'.
  assert (bool_decide (i ∈ S) = negb (contains i l =? 0)) as HS.
  { clearbody S S'. clear -Hil. case_bool_decide; destruct (Z.eqb_spec (contains i l) 0); tauto. }
  assert (bool_decide (i ∈ S') = negb (n =? 0)) as HS'.
  { clearbody S S'. clear -Hil'. case_bool_decide; destruct (Z.eqb_spec n 0); tauto. }
  rewrite HS in E. rewrite HS' in E'. lia.
Qed.

Lemma free_find l : find_stack 0 l <> None <-> 0 < free_slots l.
Proof.
  unfold free_slots. induction l as [|[i n] l IH]; simpl; [split; [done|lia]|].
  rewrite filter_cons. cbn [fst]. destruct (Z.eqb_spec i 0) as [->|].
  - rewrite decide_True by done. cbn [length]. split; [lia|done].
  - rewrite decide_False by done. rewrite <- IH. by destruct (find_stack 0 l).
Qed.

Lemma Get_Slots_free p : Forall slot_ok (inv p) -> Get_Slots p = free_slots (inv p).
Proof.
  unfold Get_Slots, free_slots. intros H. do 2 f_equal.
  induction H as [|[i n] l Hs _ IH]; [done|]. rewrite !filter_cons, IH. cbn [fst snd].
  destruct Hs as [[? ?]|[? ?]]; simpl in *; repeat case_decide; try done; lia.
Qed.

(** A player whose items are in order, with nothing to convert or sell. *)
Definition settled (b : Player) : Prop := quiet b /\ inv_ok (inv b).

Lemma settled_contains b x : settled b -> 0 < x -> 0 <= contains x (inv b) <= 200.
Proof. intros [_ [H _]] Hx. by apply contains_range. Qed.

Lemma accepts_dec i c l : c <> 0 -> accepts i c l \/ ~ accepts i c l.
Proof.
  intros Hc. unfold accepts. destruct (decide (0 <= contains i l + c <= 200)) as [Hr|Hr]; [|tauto].
  destruct (find_stack 0 l); [by left|].
  destruct (Z.eq_dec (contains i l) 0) as [E|E]; [right; intros (_ & _ & H); by apply H|by left].
Qed.

(** What one [Modify] of [c] of item [x] does to a quiet player. *)
Definition moved (x c : Z) (b b' : Player) : Prop :=
  quiet b' /\ inv_ok (inv b') /\ netID b' = netID b /\
  bag_update x (contains x (inv b) + c) (inv b) (inv b') /\
  free_slots (inv b') = free_slots (inv b) + Z.b2z (negb (contains x (inv b) =? 0))
                        - Z.b2z (negb (contains x (inv b) + c =? 0)).

Lemma moved_settled x c b b' : moved x c b b' -> settled b'.
Proof. intros (Hq & Hv & _). done. Qed.

Section Bag.
Context (items : table) (prices : list (Z * Z)) (wf : bool) (g1 g2 : string) (fuel : nat).

Local Abbreviation modify := (Modify items prices wf g1 g2 (S fuel)).

Lemma modify_ok upd force x c b :
  settled b -> 0 < x < size items -> x <> 112 -> c <= 200 -> accepts x c (inv b) ->
  exists r, modify x c upd force b = Some r /\ ret r = 0 /\ moved x c b (pl_out r).
Proof.
  intros [Hq Hv] Hx H112 Hc Ha.
  destruct (Modify_bag items prices wf g1 g2 fuel x c upd force b Hq Hx H112 Hc Hv)
    as (r & E & [(Hr & _ & Hs & Hv' & Hb & _)|(_ & Hn & _)]); [|done].
  exists r. split; [done|]. split; [done|].
  assert (quiet (pl_out r)) as Hq'.
  { unfold quiet, same_setup in *. destruct Hs as (?&?&?&?&?&?&?&?&?&?&?&?&?&?).
    intuition congruence. }
  split; [done|]. split; [done|]. split; [unfold same_setup in Hs; tauto|]. split; [done|].
  apply free_update; try done; [lia|].
  by apply (modify_body_length items prices wf g1 g2 (Modify items prices wf g1 g2 fuel) x c upd force b).
Qed.

Lemma modify_refused upd force x c b :
  settled b -> 0 < x < size items -> x <> 112 -> c <= 200 -> ~ accepts x c (inv b) ->
  exists r, modify x c upd force b = Some r /\ ret r = -1 /\ pl_out r = b.
Proof.
  intros [Hq Hv] Hx H112 Hc Ha.
  destruct (Modify_bag items prices wf g1 g2 fuel x c upd force b Hq Hx H112 Hc Hv)
    as (r & E & [(_ & Ha' & _)|(Hr & _ & Hp)]); [done|]. by exists r.
Qed.

(** A call with a count of 0 looks the count up. *)
Lemma modify_count upd x b :
  settled b -> 0 < x < size items -> x <> 112 ->
  exists r, modify x 0 upd false b = Some r /\ pl_out r = b /\ c_out r = contains x (inv b).
Proof.
  intros [(Hinf & _) [Hl Hd]] Hx H112. cbn [Modify]. unfold modify_body.
  rewrite modify_guard by (done || lia).
  destruct (length (inv b) =? 0)%nat eqn:El.
  { eexists. split; [done|]. split; [done|]. cbn. destruct (inv b); [done|discriminate]. }
  rewrite Hinf. cbn [andb]. unfold modify_slots.
  destruct (find_stack x (inv b)) as [k|] eqn:E.
  - pose proof (find_stack_Some x (inv b) k ltac:(lia) Hl E) as Hn. unfold modify_stack.
    rewrite Z.add_0_r. replace (contains x (inv b) <=? 200) with true by lia.
    replace (contains x (inv b) =? 0) with false by lia. cbn.
    eexists. split; [done|]. split; [|done]. cbn. unfold put.
    rewrite list_insert_id by (by apply find_stack_lookup). apply set_inv_same.
  - unfold modify_new. pose proof (find_stack_None x (inv b) E) as Hc. rewrite Hc.
    by destruct (find_stack 0 (inv b)); eexists; (split; [done|]).
Qed.

(** A refused gift leaves its count as it is. *)
Lemma modify_refused_gift upd x c b :
  settled b -> 0 < x < size items -> x <> 112 -> 0 < c <= 200 -> ~ accepts x c (inv b) ->
  exists r, modify x c upd false b = Some r /\ ret r = -1 /\ pl_out r = b /\ c_out r = c.
Proof.
  intros [(Hinf & _) [Hl Hd]] Hx H112 Hc Ha. cbn [Modify]. unfold modify_body.
  rewrite modify_guard by (done || lia). destruct (length (inv b) =? 0)%nat; [by eexists|].
  rewrite Hinf. cbn [andb]. unfold modify_slots. unfold accepts in Ha.
  destruct (find_stack x (inv b)) as [k|] eqn:E.
  - pose proof (find_stack_Some x (inv b) k ltac:(lia) Hl E) as Hn. unfold modify_stack.
    destruct (Z.leb_spec (contains x (inv b) + c) 200); [|by eexists].
    exfalso. apply Ha. split_and!; lia.
  - pose proof (find_stack_None x (inv b) E) as H0. unfold modify_new.
    destruct (find_stack 0 (inv b)) as [k|] eqn:E0; [|by eexists].
    exfalso. apply Ha. split_and!; try lia. done.
Qed.

End Bag.

End InventoryBag.
