(* ===== verification/InventoryTotal.v ===== *)
(** * InventoryTotal: every change of the inventory returns

    [Modify] calls the automatic conversion and the automatic sale, which
    call [Modify] again, with loops that have no bound in the code.  Whatever
    the player has switched on, infinite mode included, the calls return: the
    recursion is at most three deep and every loop ends. *)
From S2P Require Import Prelude Memory Items Packet Tank Inventory InventoryFacts.
Import Items Inventory InventoryFacts.

Module InventoryTotal.

(** What nested calls leave as it is. *)
Definition same_flags (p p' : Player) : Prop :=
  infinite_mode p' = infinite_mode p /\ autoConvert p' = autoConvert p /\
  autoConvertProcessing p' = autoConvertProcessing p /\
  autosellfish p' = autosellfish p /\ autosellfish_processing p' = autosellfish_processing p.

Lemma same_flags_refl p : same_flags p p.
Proof. done. Qed.

Lemma same_flags_trans p q r : same_flags p q -> same_flags q r -> same_flags p r.
Proof. unfold same_flags. intuition congruence. Qed.

Lemma same_setup_flags p p' : same_setup p p' -> same_flags p p'.
Proof. unfold same_setup, same_flags. tauto. Qed.

(** The inventory stays well formed, the flags stay. *)
Definition safe (p p' : Player) : Prop := inv_ok (inv p') /\ same_flags p p'.

Lemma safe_refl p : inv_ok (inv p) -> safe p p.
Proof. by split. Qed.

Lemma safe_trans p q r : safe p q -> safe q r -> safe p r.
Proof. intros [_ H1] [Hv H2]. split; [done|]. by eapply same_flags_trans. Qed.

Lemma bag_result_safe i c p r : inv_ok (inv p) -> bag_result i c p r -> safe p (pl_out r).
Proof.
  intros Hp [(_ & _ & Hs & Hv & _)|(_ & _ & ->)]; [|by apply safe_refl].
  split; [done|]. by apply same_setup_flags.
Qed.

(** [modify] returns for the players that satisfy [P]. *)
Definition total (items : table) (P : Player -> Z -> Prop) (modify : modify_fn) : Prop :=
  forall i c upd force p, i <> size items -> inv_ok (inv p) -> P p i ->
  exists r, modify i c upd force p = Some r /\ safe p (pl_out r).

Section Total.
Context (items : table) (prices : list (Z * Z)) (wf : bool) (g1 g2 : string).
Hypothesis Hlocks : locks_in_table items.

(** No conversion and no sale of item [i] is due. *)
Definition no_conversion (p : Player) : Prop :=
  autoConvert p = false \/ autoConvertProcessing p = true.

Definition no_sale_of (p : Player) (i : Z) : Prop :=
  autosellfish p = false \/ autosellfish_processing p = true \/ blockType (item items i) <> FISH.

(** The calls that end before the slots are searched. *)
Lemma modify_body_early modify i c upd force p :
  inv_ok (inv p) ->
  200 < c \/ i <= 0 \/ size items < i \/ i = 112 \/ (infinite_mode p = true /\ c < 0) ->
  exists r, modify_body items prices wf g1 g2 modify i c upd force p = Some r /\ safe p (pl_out r).
Proof.
  intros Hv H. unfold modify_body. pose proof (safe_refl p Hv).
  destruct (_ || (length (inv p) =? 0)%nat) eqn:Eg; [by eexists|].
  destruct H as [H|[H|[H|[H|[Hi Hc]]]]]; try (exfalso; lia).
  rewrite Hi. replace (c <? 0) with true by lia. cbn [andb]. by eexists.
Qed.

Lemma modify_quiet modify :
  total items (λ p i, no_conversion p /\ no_sale_of p i)
    (modify_body items prices wf g1 g2 modify).
Proof.
  intros i c upd force p Hi Hv [Hc Hs].
  destruct (decide (200 < c \/ i <= 0 \/ size items < i \/ i = 112 \/ (infinite_mode p = true /\ c < 0)))
    as [He|He]; [by apply modify_body_early|].
  destruct (modify_body_step items prices wf g1 g2 modify i c upd force p)
    as (r & E & Hr); try done; try lia.
  { destruct (infinite_mode p); [|done]. cbn. lia. }
  exists r. split; [done|]. by eapply bag_result_safe.
Qed.

(** ** The conversion returns *)

Section Conversion.
Context (fuel : nat).
Local Abbreviation modify := (Modify items prices wf g1 g2 (S fuel)).

Definition in_conversion (p : Player) : Prop := inv_ok (inv p) /\ autoConvertProcessing p = true.

Lemma lock_step i c p :
  i ∈ lock_ids -> in_conversion p -> c <= 200 -> infinite_mode p && (c <? 0) = false ->
  exists r, modify i c false true p = Some r /\ bag_result i c p r /\ safe p (pl_out r) /\
    in_conversion (pl_out r).
Proof.
  intros Hi [Hv Ha] Hc Hinf. destruct (lock_id_facts i items Hi Hlocks) as (Hs & H112 & Hf).
  destruct (modify_body_step items prices wf g1 g2 (Modify items prices wf g1 g2 fuel) i c false true p)
    as (r & E & Hr); try done; [by right|by right; right|].
  pose proof (bag_result_safe i c p r Hv Hr) as Hsafe. exists r. split; [done|]. split; [done|]. split; [done|].
  destruct Hsafe as [? (_ & _ & E2 & _)]. split; [done|congruence].
Qed.

Lemma lock_step_infinite i c p :
  i ∈ lock_ids -> in_conversion p -> infinite_mode p = true -> c < 0 ->
  exists r, modify i c false true p = Some r /\ pl_out r = p /\ (ret r = 0 \/ ret r = -1).
Proof.
  intros Hi [Hv Ha] Hinf Hc. cbn [Modify]. unfold modify_body.
  destruct (_ || (length (inv p) =? 0)%nat); [eexists; by split; [|split; [|right]]|].
  rewrite Hinf. replace (c <? 0) with true by lia. cbn [andb].
  eexists; by split; [|split; [|left]].
Qed.

(** In infinite mode nothing is taken, but the target stack fills up. *)
Lemma convert_loop_infinite from_id to_id n : forall k p,
  from_id ∈ lock_ids -> to_id ∈ lock_ids -> from_id <> to_id ->
  in_conversion p -> infinite_mode p = true -> 200 - contains to_id (inv p) < Z.of_nat n ->
  exists m p' es, convert_loop modify n from_id to_id k p = Some (m, p', es) /\ safe p p'.
Proof.
  induction n as [|n IH]; intros k p Hf Ht Hne Hp Hinf Hn; cbn [convert_loop];
    (destruct (contains from_id (inv p) <? 100); [exists k, p, []; split; [done|]; apply safe_refl, Hp|]).
  { pose proof (lock_id_facts to_id items Ht Hlocks) as (Hpos & _).
    pose proof (contains_range to_id (inv p) ltac:(lia) (proj1 (proj1 Hp))). lia. }
  destruct (lock_step_infinite from_id (-100) p Hf Hp Hinf ltac:(lia)) as (r1 & -> & Hr1 & Hret).
  cbn [mbind option_bind]. rewrite Hr1.
  destruct Hret as [-> | ->]; cbn [Z.eqb negb]; [|eexists _, _, _; split; [done|]; apply safe_refl, Hp].
  destruct (lock_step to_id 1 p Ht Hp ltac:(lia)) as (r2 & -> & Hr2 & Hs2 & Hp2).
  { by rewrite andb_false_r. }
  cbn [mbind option_bind].
  assert (infinite_mode (pl_out r2) = true) as Hinf2 by (destruct Hs2 as [_ [E _]]; congruence).
  destruct Hr2 as [(-> & _ & _ & _ & [Hb _] & _)|(-> & _ & E2)]; cbn [Z.eqb negb].
  - destruct (IH (k + 1) (pl_out r2)) as (m & p' & es & -> & Hs); try done; [lia|].
    cbn [mbind option_bind]. eexists _, _, _. split; [done|]. by eapply safe_trans.
  - rewrite E2. destruct (lock_step from_id 100 p Hf Hp ltac:(lia)) as (r3 & -> & _ & Hs3 & _).
    { by rewrite andb_false_r. }
    cbn [mbind option_bind]. by eexists _, _, _.
Qed.

(** Outside infinite mode each round takes a hundred. *)
Lemma convert_loop_finite from_id to_id n : forall k p,
  from_id ∈ lock_ids -> to_id ∈ lock_ids -> from_id <> to_id ->
  in_conversion p -> infinite_mode p = false -> contains from_id (inv p) < 100 + 100 * Z.of_nat n ->
  exists m p' es, convert_loop modify n from_id to_id k p = Some (m, p', es) /\ safe p p'.
Proof.
  induction n as [|n IH]; intros k p Hf Ht Hne Hp Hinf Hn; cbn [convert_loop];
    (destruct (Z.ltb_spec (contains from_id (inv p)) 100);
      [exists k, p, []; split; [done|]; apply safe_refl, Hp|]); [lia|].
  destruct (lock_step from_id (-100) p Hf Hp ltac:(lia)) as (r1 & -> & Hr1 & Hs1 & Hp1).
  { by rewrite Hinf. }
  cbn [mbind option_bind].
  assert (infinite_mode (pl_out r1) = false) as Hinf1 by (destruct Hs1 as [_ [E _]]; congruence).
  destruct Hr1 as [(-> & _ & _ & _ & [Hb1 _] & _)|(-> & _ & _)]; cbn [Z.eqb negb];
    [|by eexists _, _, _].
  destruct (lock_step to_id 1 (pl_out r1) Ht Hp1 ltac:(lia)) as (r2 & -> & Hr2 & Hs2 & Hp2).
  { by rewrite andb_false_r. }
  cbn [mbind option_bind].
  assert (infinite_mode (pl_out r2) = false) as Hinf2 by (destruct Hs2 as [_ [E _]]; congruence).
  destruct Hr2 as [(-> & _ & _ & _ & [_ Hb2] & _)|(-> & _ & E2)]; cbn [Z.eqb negb].
  - destruct (lock_id_facts from_id items Hf Hlocks) as (Hpos & _).
    destruct (IH (k + 1) (pl_out r2)) as (m & p' & es & -> & Hs); try done;
      [rewrite Hb2 by lia; lia|].
    cbn [mbind option_bind]. eexists _, _, _. split; [done|].
    eapply safe_trans; [exact Hs1|]. by eapply safe_trans.
  - destruct (lock_step from_id 100 (pl_out r2) Hf Hp2 ltac:(lia)) as (r3 & -> & _ & Hs3 & _).
    { by rewrite andb_false_r. }
    cbn [mbind option_bind]. eexists _, _, _. split; [done|].
    eapply safe_trans; [exact Hs1|]. by eapply safe_trans.
Qed.

Lemma safe_in_conversion p p' : in_conversion p -> safe p p' -> in_conversion p'.
Proof. intros [_ H] [Hv (_ & _ & E & _)]. split; [done|congruence]. Qed.

Lemma try_convert_item_total from_id to_id b p :
  from_id ∈ lock_ids -> to_id ∈ lock_ids -> from_id <> to_id -> in_conversion p ->
  exists m p' es, try_convert_item modify from_id to_id b p = Some (m, p', es) /\ safe p p'.
Proof.
  intros Hf Ht Hne Hp. unfold try_convert_item.
  destruct b; cbn [negb]; [|exists 0, p, []; split; [done|]; apply safe_refl, Hp].
  destruct (lock_id_facts from_id items Hf Hlocks) as (Hpf & _).
  destruct (lock_id_facts to_id items Ht Hlocks) as (Hpt & _).
  pose proof (contains_range from_id (inv p) ltac:(lia) (proj1 (proj1 Hp))).
  pose proof (contains_range to_id (inv p) ltac:(lia) (proj1 (proj1 Hp))).
  destruct (infinite_mode p) eqn:E; [apply convert_loop_infinite|apply convert_loop_finite];
    done || lia.
Qed.

Lemma gems_loop_total n : forall k p,
  in_conversion p -> 200 - contains 1796 (inv p) < Z.of_nat n ->
  exists m p' es, gems_loop modify n k p = Some (m, p', es) /\ safe p p'.
Proof.
  assert (1796 ∈ lock_ids) as Hd by (unfold lock_ids; set_solver).
  induction n as [|n IH]; intros k p Hp Hn; cbn [gems_loop];
    (destruct (gems p <? 300000); [exists k, p, []; split; [done|]; apply safe_refl, Hp|]).
  { pose proof (contains_range 1796 (inv p) ltac:(lia) (proj1 (proj1 Hp))). lia. }
  destruct (lock_step 1796 1 p Hd Hp ltac:(lia)) as (r & -> & Hr & Hs & Hp1).
  { by rewrite andb_false_r. }
  cbn [mbind option_bind].
  destruct Hr as [(-> & _ & _ & _ & [Hb _] & _)|(-> & _ & _)]; cbn [Z.eqb negb];
    [|by eexists _, _, _].
  set (p1 := set_gems (gems (pl_out r) - 300000) (pl_out r)).
  assert (inv p1 = inv (pl_out r) /\ safe (pl_out r) p1) as [E1 Hs1].
  { subst p1. destruct Hp1 as [Hv _]. destruct (pl_out r). by split. }
  destruct (IH (k + 1) p1) as (m & p' & es & -> & Hs'); [by eapply safe_in_conversion|rewrite E1; lia|].
  cbn [mbind option_bind]. eexists _, _, _. split; [done|].
  eapply safe_trans; [exact Hs|]. by eapply safe_trans.
Qed.

Lemma try_convert_gems_total p :
  in_conversion p ->
  exists m p' es, try_convert_gems modify p = Some (m, p', es) /\ safe p p'.
Proof.
  intros Hp. unfold try_convert_gems.
  destruct (autoCvModeGemsToDl p); cbn [negb]; [|exists 0, p, []; split; [done|]; apply safe_refl, Hp].
  pose proof (contains_range 1796 (inv p) ltac:(lia) (proj1 (proj1 Hp))).
  apply gems_loop_total; [done|lia].
Qed.

Lemma convert_pass_total p :
  in_conversion p ->
  exists b g ls p' es, convert_pass items modify p = Some (b, g, ls, p', es) /\ safe p p'.
Proof.
  intros Hp. unfold convert_pass.
  destruct (try_convert_gems_total p Hp) as (n0 & p0 & e0 & -> & S0).
  cbn [mbind option_bind]. pose proof (safe_in_conversion _ _ Hp S0) as H0.
  destruct (try_convert_item_total 242 1796 (autoCvModeWlToDl p0) p0)
    as (n1 & p1 & e1 & -> & S1); [unfold lock_ids; set_solver..|done|done|].
  cbn [mbind option_bind]. pose proof (safe_in_conversion _ _ H0 S1) as H1.
  destruct (try_convert_item_total 1796 7188 (autoCvModeDlToBgl p1) p1)
    as (n2 & p2 & e2 & -> & S2); [unfold lock_ids; set_solver..|done|done|].
  cbn [mbind option_bind]. pose proof (safe_in_conversion _ _ H1 S2) as H2.
  destruct (try_convert_item_total 7188 8470 (autoCvModeBglToGgl p2) p2)
    as (n3 & p3 & e3 & -> & S3); [unfold lock_ids; set_solver..|done|done|].
  cbn [mbind option_bind]. pose proof (safe_in_conversion _ _ H2 S3) as H3.
  destruct (try_convert_item_total 8470 20298 (autoCvModeGglTo20298 p3) p3)
    as (n4 & p4 & e4 & -> & S4); [unfold lock_ids; set_solver..|done|done|].
  cbn [mbind option_bind]. eexists _, _, _, _, _. split; [done|].
  eauto using safe_trans.
Qed.

Lemma passes_total n : forall ch g s p,
  in_conversion p ->
  exists b g' ls p' es, passes items modify n ch g s p = Some (b, g', ls, p', es) /\ safe p p'.
Proof.
  induction n as [|n IH]; intros ch g s p Hp; cbn [passes].
  - eexists _, _, _, _, _. split; [done|]. apply safe_refl, Hp.
  - destruct (convert_pass_total p Hp) as (b & ga & ls & p1 & es & -> & H1).
    cbn [mbind option_bind]. destruct b; [|by eexists _, _, _, _, _].
    destruct (IH (ch || true) (g || ga) (s ++ ls) p1 (safe_in_conversion _ _ Hp H1))
      as (b2 & g2' & ls2 & p2 & es2 & -> & H2).
    cbn [mbind option_bind]. eexists _, _, _, _, _. split; [done|]. by eapply safe_trans.
Qed.

Lemma AutoConvert_total p :
  inv_ok (inv p) ->
  exists p' es, AutoConvert items modify p = Some (p', es) /\ safe p p'.
Proof.
  intros Hv. unfold AutoConvert.
  destruct (autoConvert p) eqn:Ea, (autoConvertProcessing p) eqn:Ep; cbn [negb orb];
    try by (exists p, []; split; [done|apply safe_refl]).
  destruct (passes_total 512 false false [] (set_autoConvertProcessing true p))
    as (b & g & ls & p' & es & -> & Hv' & Hs).
  { destruct p; split; done. }
  cbn [mbind option_bind]. eexists _, _. split; [done|]. unfold safe, same_flags in *.
  destruct p, p'; cbn in *. intuition congruence.
Qed.

End Conversion.

(** ** [Modify] around the conversion and the sale *)

Local Abbreviation sale := (ProcessAutoSellFishInventory items prices wf g1 g2).

Lemma modify_body_total modify i c upd force p :
  i <> size items -> inv_ok (inv p) ->
  (forall q, inv_ok (inv q) -> exists q' es, AutoConvert items modify q = Some (q', es) /\ safe q q') ->
  no_sale_of p i \/
  (forall q, inv_ok (inv q) -> exists b q' es, sale modify true true q = Some (b, q', es) /\ safe q q') ->
  exists r, modify_body items prices wf g1 g2 modify i c upd force p = Some r /\ safe p (pl_out r).
Proof.
  intros Hi Hv Hcv Hsale.
  destruct (decide (200 < c \/ i <= 0 \/ size items < i \/ i = 112 \/ (infinite_mode p = true /\ c < 0)))
    as [He|He]; [by apply modify_body_early|].
  unfold modify_body. rewrite modify_guard by lia.
  destruct (length (inv p) =? 0)%nat; [eexists; split; [done|]; by apply safe_refl|].
  assert (infinite_mode p && (c <? 0) = false) as -> by (destruct (infinite_mode p); cbn; lia).
  destruct (modify_slots_spec items i c force p ltac:(lia) ltac:(lia) Hv) as (o & p' & -> & Ho).
  cbn [mbind option_bind]. destruct o as [n|n p1 es]; simpl in Ho.
  { destruct Ho as [_ ->]. eexists. split; [done|]. by apply safe_refl. }
  destruct Ho as (-> & _ & Hs & Hv' & _). apply same_setup_flags in Hs.
  destruct (Hcv p' Hv') as (p2 & e2 & -> & Hv2 & Hs2). cbn [mbind option_bind].
  pose proof (same_flags_trans _ _ _ Hs Hs2) as Hs02.
  destruct Hsale as [Hno|Hsale].
  - rewrite no_sale; [cbn [mbind option_bind]; eexists; by split|].
    destruct Hs02 as (_ & _ & _ & E1 & E2). unfold no_sale_of in Hno. by rewrite E1, E2.
  - destruct (Hsale p2 Hv2) as (b & p3 & e3 & E3 & Hv3 & Hs3). rewrite E3.
    pose proof (same_flags_trans _ _ _ Hs02 Hs3).
    cbn [mbind option_bind]. repeat case_match; simplify_eq; cbn [mbind option_bind];
      eexists; by split.
Qed.

Lemma modify_without_sale fuel :
  total items no_sale_of (Modify items prices wf g1 g2 (S (S fuel))).
Proof.
  intros i c upd force p Hi Hv Hs. apply modify_body_total; try done; [|by left].
  intros q Hq. by apply AutoConvert_total.
Qed.

(** ** The sale returns *)

Section Sale.
Context (fuel : nat).
Local Abbreviation modify := (Modify items prices wf g1 g2 (S (S fuel))).

Definition in_sale (p : Player) : Prop := inv_ok (inv p) /\ autosellfish_processing p = true.

Lemma safe_in_sale p p' : in_sale p -> safe p p' -> in_sale p'.
Proof. intros [_ H] [Hv (_ & _ & _ & _ & E)]. split; [done|congruence]. Qed.

Lemma sale_step i c p :
  i <> size items -> in_sale p ->
  exists r, modify i c false true p = Some r /\ safe p (pl_out r).
Proof. intros Hi [Hv Hs]. apply modify_without_sale; [done|done|]. by right; left. Qed.

Lemma give_loop_total item_id n : forall amount p,
  item_id <> size items -> in_sale p -> amount <= 200 * Z.of_nat n ->
  exists p' es, give_loop wf modify n item_id amount p = Some (p', es) /\ safe p p'.
Proof.
  induction n as [|n IH]; intros amount p Hi Hp Hn; cbn [give_loop];
    destruct (Z.ltb_spec 0 amount); try lia;
    try by (eexists p, []; split; [done|apply safe_refl, Hp]).
  set (give := if 200 <? amount then 200 else amount).
  assert (amount - give <= 200 * Z.of_nat n) as Hg by (subst give; case_match; lia).
  destruct (sale_step item_id give p Hi Hp) as (r & -> & Hr). cbn [mbind option_bind].
  destruct (IH (amount - give) (pl_out r) Hi (safe_in_sale _ _ Hp Hr) Hg) as (p' & es & -> & Hs).
  cbn [mbind option_bind]. eexists _, _. split; [done|]. by eapply safe_trans.
Qed.

Lemma pay_total l : forall p,
  Forall (λ x, x.1 <> size items) l -> in_sale p ->
  exists p' es, pay wf modify l p = Some (p', es) /\ safe p p'.
Proof.
  induction l as [|[id n] l IH]; intros p Hl Hp; cbn [pay].
  { eexists p, []. split; [done|apply safe_refl, Hp]. }
  apply list.Forall_cons in Hl as [Hid Hl]. unfold AutoSellFish_GiveLockOrDrop.
  destruct (give_loop_total id (Z.to_nat (n / 200 + 1)) n p Hid Hp) as (p1 & e1 & -> & H1).
  { pose proof (Z.div_mod n 200 ltac:(lia)). pose proof (Z.mod_pos_bound n 200 ltac:(lia)). lia. }
  cbn [mbind option_bind].
  destruct (IH p1 Hl (safe_in_sale _ _ Hp H1)) as (p2 & e2 & -> & H2). cbn [mbind option_bind].
  eexists _, _. split; [done|]. by eapply safe_trans.
Qed.

Lemma sell_loop_total prs : forall sold total fish p,
  in_sale p ->
  exists s t f p' es, sell_loop items modify prs sold total fish p = Some (s, t, f, p', es) /\
    safe p p'.
Proof.
  induction prs as [|[id price] prs IH]; intros sold total fish p Hp; cbn [sell_loop].
  { eexists _, _, _, _, _. split; [done|apply safe_refl, Hp]. }
  destruct (_ || _) eqn:Eg; [by apply IH|].
  destruct (Contains p id <=? 0); [by apply IH|].
  destruct (sale_step id (- Contains p id) p) as (r & -> & Hr); [lia|done|]. cbn [mbind option_bind].
  pose proof (safe_in_sale _ _ Hp Hr) as Hp1.
  destruct (negb (ret r =? 0));
    [destruct (IH sold total fish (pl_out r) Hp1) as (s & t & f & p' & es & -> & Hs)
    |edestruct IH as (s & t & f & p' & es & -> & Hs); [exact Hp1|]];
    cbn [mbind option_bind]; eexists _, _, _, _, _; (split; [done|]); by eapply safe_trans.
Qed.

Lemma payout_locks t : Forall (λ x, x.1 <> size items) (payout t).
Proof.
  unfold payout. destruct (split_total t) as [[[[wl dl] bgl] ggl] mgl].
  unfold locks_in_table, lock_ids in Hlocks. rewrite !list.Forall_cons in Hlocks.
  repeat (constructor; [cbn; lia|]). constructor.
Qed.

Lemma sale_total refresh show p :
  inv_ok (inv p) -> exists b p' es, sale modify refresh show p = Some (b, p', es) /\ safe p p'.
Proof.
  intros Hv. unfold ProcessAutoSellFishInventory.
  destruct (autosellfish p) eqn:Ea, (autosellfish_processing p) eqn:Ep; cbn [negb orb];
    try by (exists false, p, []; split; [done|apply safe_refl]).
  assert (in_sale (set_autosellfish_processing true p)) as Hp by (destruct p; by split).
  destruct (sell_loop_total prices false 0 0 _ Hp) as (s & t & f & p1 & e1 & -> & H1).
  cbn [mbind option_bind].
  assert (forall p', safe (set_autosellfish_processing true p) p' ->
    safe p (set_autosellfish_processing false p')) as Hback.
  { intros p' [Hv' Hs']. unfold safe, same_flags in *. destruct p, p'; cbn in *. intuition congruence. }
  destruct (s && (0 <? t)).
  - destruct (pay_total (payout t) p1 (payout_locks t) (safe_in_sale _ _ Hp H1)) as (p2 & e2 & -> & H2).
    cbn [mbind option_bind]. eexists _, _, _. split; [done|]. apply Hback. by eapply safe_trans.
  - cbn [mbind option_bind]. eexists _, _, _. split; [done|]. by apply Hback.
Qed.

End Sale.

(** C19: every change of the inventory returns. For any player whose inventory
    is well formed, with any of the automatic features and infinite mode on or
    off, any item but the one just behind the table and any count, [Modify]
    ends - three nested calls are enough and every loop of the conversion and
    of the sale ends -, reads no vector out of range, leaves the inventory
    well formed and the features as they were. *)
Theorem Modify_returns fuel i c upd force p :
  i <> size items -> inv_ok (inv p) ->
  exists r, Modify items prices wf g1 g2 (3 + fuel) i c upd force p = Some r /\
    inv_ok (inv (pl_out r)) /\ same_flags p (pl_out r).
Proof.
  intros Hi Hv.
  apply (modify_body_total (Modify items prices wf g1 g2 (S (S fuel))) i c upd force p Hi Hv).
  - exact (AutoConvert_total (S fuel)).
  - right. exact (sale_total fuel true true).
Qed.

End Total.

Definition busy_player : Player :=
  mkPlayer [(242, 200); (1796, 199); (7188, 200); (3000, 7); (0, 0)] 900000 7 0 false true true false
    true true true true true true false 0 "0,0" 0 0
    (mkWear 0 0 0 0 0 0 0 0 0 0 256 0 6 0 6 0 0 0 0).

Lemma Modify_returns_witness :
  exists r, Modify sample_items [(3000, 5)] true "" "" 3 242 (-3) true false busy_player = Some r /\
    inv_ok (inv (pl_out r)) /\ same_flags busy_player (pl_out r).
Proof.
  pose proof sample_items_size as Hsz.
  apply (Modify_returns sample_items [(3000, 5)] true "" "") with (fuel := 0%nat).
  - unfold locks_in_table, lock_ids. rewrite Hsz.
    repeat (constructor; [split; [lia|unfold item, sample_items; rewrite nth_repeat; discriminate]|]).
    constructor.
  - rewrite Hsz. lia.
  - split; [repeat constructor; unfold slot_ok; simpl; lia|simpl; tauto].
Defined.

End InventoryTotal.
