(* ===== verification/Wallet.v ===== *)
(** * Wallet: paying with locks

    Models [GetTotalWL], [TakeWL], [get_wls] and [get_wl_value] of
    [src/NopySource/Handle/WorldInfo.h]: a price in world locks is paid by
    taking the stacks of locks and giving the change back with
    [Inventory.Modify].  [get_wls] puts change that does not fit into the
    bank; [TakeWL] loses it. *)
From S2P Require Import Prelude Memory Items Packet Tank Inventory InventoryFacts InventoryBag.
Import Items Packet Inventory InventoryFacts InventoryBag.

Module Wallet.

(** A player with the banks of locks. *)
Record Purse := mkPurse {
  bag : Player;
  wl_bank_amount : Z;
  dl_bank_amount : Z;
  bgl_bank_amount : Z
}.

Section Operations.
Context (modify : modify_fn).

(** ** [GetTotalWL] and [TakeWL] *)

Definition GetTotalWL (p : Player) : Z :=
  Contains p 242 + Contains p 1796 * 100 + Contains p 7188 * 10000 + Contains p 8470 * 1000000.

(** The whole stack of [id] is taken. *)
Definition take_stack (id : Z) (p : Player) : option (Player * list effect) :=
  let c := i32 (- Contains p id) in
  if c =? 0 then Some (p, [])
  else r ← modify id c false false p; Some (pl_out r, effs r).

Definition give_part (id n : Z) (p : Player) : option (Player * list effect) :=
  if 0 <? n then r ← modify id n false false p; Some (pl_out r, effs r) else Some (p, []).

Fixpoint take_stacks (ids : list Z) (p : Player) : option (Player * list effect) :=
  match ids with
  | [] => Some (p, [])
  | id :: ids =>
      '(p, e1) ← take_stack id p;
      '(p, e2) ← take_stacks ids p; Some (p, e1 ++ e2)
  end.

Fixpoint give_parts (ps : list (Z * Z)) (p : Player) : option (Player * list effect) :=
  match ps with
  | [] => Some (p, [])
  | (id, n) :: ps =>
      '(p, e1) ← give_part id n p;
      '(p, e2) ← give_parts ps p; Some (p, e1 ++ e2)
  end.

(** The change in the largest denominations, in the order it is given. *)
Definition change (remain : Z) : list (Z * Z) :=
  let mgl := i32 (remain / 1000000) in
  let remain := remain mod 1000000 in
  let bgl := i32 (remain / 10000) in
  let remain := remain mod 10000 in
  let dl := i32 (remain / 100) in
  let wl := i32 (remain mod 100) in
  [(8470, mgl); (7188, bgl); (1796, dl); (242, wl)].

Definition TakeWL (amount : Z) (p : Player) : option (bool * Player * list effect) :=
  let total := GetTotalWL p in
  if total <? amount then Some (false, p, []) else
  let remain := i64 (total - amount) in
  '(p, e1) ← take_stacks [242; 1796; 7188; 8470] p;
  '(p, e2) ← (if 0 <? remain then give_parts (change remain) p else Some (p, []));
  Some (true, p, e1 ++ e2 ++ [EVisuals]).

(** ** [get_wls] *)

(** The stack of [id] is counted and, with [erase], taken. *)
Definition count_stack (id : Z) (erase : bool) (p : Player) : option (Z * Player * list effect) :=
  r ← modify id 0 true false p;
  if (erase : bool) then
    r2 ← modify id (i32 (-1 * c_out r)) true false (pl_out r);
    Some (c_out r, pl_out r2, effs r ++ effs r2)
  else Some (c_out r, pl_out r, effs r).

(** One denomination of the change: what is left to give, the bank, and
    whether it went to the bank ([returned]). *)
Definition change_step (id unit_ limit : Z) (total_wl bank : Z) (returned : bool) (p : Player)
    : option (Z * Z * bool * Player * list effect) :=
  if unit_ <=? total_wl then
    let c_ := if limit <? total_wl then 200 else total_wl / unit_ in
    let total_wl := i32 (total_wl - i32 (c_ * unit_)) in
    r ← modify id c_ true false p;
    if ret r =? 0 then Some (total_wl, bank, returned, pl_out r, effs r)
    else Some (total_wl, i32 (bank + c_out r), true, pl_out r, effs r)
  else Some (total_wl, bank, returned, p, []).

Definition overlay (delay : Z) (text : string) : effect :=
  ESend (mkVariant delay (-1) [VStr "OnTextOverlay"; VStr text]).

(** What tells the player of the bank: the second message is a later one. *)
Definition returned_messages (returned : bool) : list effect :=
  if returned then
    [overlay 0 "Some of the World Locks could not fit in your inventory!";
     overlay 1500 "We have placed them in your Personal Backpack."]
  else [].

Definition get_wls (bgl erase : bool) (amount : Z) (q : Purse) : option (Z * Purse * list effect) :=
  '(wl, p, e1) ← count_stack 242 erase (bag q);
  '(dl, p, e2) ← count_stack 1796 erase p;
  let my_wls := i32 (wl + i32 (dl * 100)) in
  '(my_wls, p, e3) ←
    (if (bgl : bool) then
       '(n, p, e) ← count_stack 7188 erase p; Some (i32 (my_wls + i32 (n * 10000)), p, e)
     else Some (my_wls, p, []));
  if erase && negb (amount =? 0) then
    let total_wl := i32 (my_wls - amount) in
    '(total_wl, bgl_bank, b, p, f1) ← change_step 7188 10000 2000000 total_wl (bgl_bank_amount q) false p;
    '(total_wl, dl_bank, b, p, f2) ← change_step 1796 100 20000 total_wl (dl_bank_amount q) b p;
    '(total_wl, wl_bank, b, p, f3) ← change_step 242 1 200 total_wl (wl_bank_amount q) b p;
    Some (my_wls, mkPurse p wl_bank dl_bank bgl_bank,
          e1 ++ e2 ++ e3 ++ f1 ++ f2 ++ f3 ++ returned_messages b)
  else
    Some (my_wls, mkPurse p (wl_bank_amount q) (dl_bank_amount q) (bgl_bank_amount q),
          e1 ++ e2 ++ e3).

End Operations.

(** ** [get_wl_value] *)

(** The counts of the three locks, as [uint16_t]: the loop stops when it has
    found all three. *)
Fixpoint lock_counts (l : list (Z * Z)) (wl dl bgl : Z) : Z * Z * Z :=
  match l with
  | [] => (wl, dl, bgl)
  | (id, n) :: l =>
      let wl := if id =? 242 then u16 n else wl in
      let dl := if id =? 1796 then u16 n else dl in
      let bgl := if id =? 7188 then u16 n else bgl in
      if negb (wl =? 0) && negb (dl =? 0) && negb (bgl =? 0) then (wl, dl, bgl)
      else lock_counts l wl dl bgl
  end.

Definition get_wl_value (p : Player) : string :=
  let '(wl, dl, bgl) := lock_counts (inv p) 0 0 0 in
  let hold :=
    if negb (wl =? 0) || negb (dl =? 0)
    then endl +:+ "add_smalltext|`9(Hmm, smells like you care carrying"
    else endl +:+ "add_smalltext|`9(Hmm, smells like you don't carry any world locks)``|left|" in
  let hold :=
    if wl =? 0 then hold
    else cat [hold; " "; to_string wl; " World Locks"; if dl =? 0 then ")``|left|" else " and"] in
  let hold := if dl =? 0 then hold else cat [hold; " "; to_string dl; " Diamond Locks)``|left|"] in
  if bgl =? 0 then hold
  else if (wl =? 0) && (dl =? 0) then
    cat [endl; "add_smalltext|`9(Hmm, smells like you care carrying "; to_string bgl;
         " Silver Gem Locks)``|left|"]
  else
    cat [hold; endl; "add_smalltext|`9(You are also holding additional "; to_string bgl;
         " Silver Gem Locks)``|left|"].

(** ** The facts *)

Section Facts.
Context (items : table) (prices : list (Z * Z)) (wf : bool) (g1 g2 : string) (fuel : nat).
Hypothesis Hlocks : locks_in_table items.

Local Abbreviation modify := (Modify items prices wf g1 g2 (S fuel)).

Lemma lock_valid id : id ∈ lock_ids -> 0 < id < size items /\ id <> 112.
Proof. intros H. destruct (lock_id_facts id items H Hlocks) as (? & ? & _). done. Qed.

Ltac member := rewrite ?elem_of_cons, ?elem_of_nil; lia.
Ltac lock := unfold lock_ids; member.
Ltac distinct := cbn; repeat (apply list.NoDup_cons; split; [member|]); apply NoDup_nil_2.

(** What a step leaves: the other items, and a settled bag. *)
Definition others (id : Z) (p p' : Player) : Prop :=
  settled p' /\ forall j, j <> 0 -> j <> id -> contains j (inv p') = contains j (inv p).

Lemma moved_others x c p p' : moved x c p p' -> others x p p'.
Proof. intros (Hq & Hv & _ & [_ Ho] & _). by split. Qed.

(** The bag without its stack of [id]: one more slot if there was one. *)
Definition emptied (id : Z) (p p' : Player) : Prop :=
  others id p p' /\ contains id (inv p') = 0 /\
  free_slots (inv p') = free_slots (inv p) + Z.b2z (negb (contains id (inv p) =? 0)).

Lemma take_whole upd id p :
  id ∈ lock_ids -> settled p -> contains id (inv p) <> 0 ->
  exists r, modify id (i32 (- contains id (inv p))) upd false p = Some r /\ ret r = 0 /\
    emptied id p (pl_out r).
Proof.
  intros Hid Hp Hc. destruct (lock_valid id Hid) as [Hs H112].
  pose proof (settled_contains p id Hp ltac:(lia)). rewrite i32_small by lia.
  destruct (modify_ok items prices wf g1 g2 fuel upd false id (- contains id (inv p)) p)
    as (r & -> & Hr & Hm); try done; [lia|split_and!; lia|].
  exists r. split; [done|]. split; [done|]. split; [by eapply moved_others|].
  destruct Hm as (_ & _ & _ & [Hx _] & Hf). rewrite Z.add_opp_diag_r in *. split; [done|].
  rewrite Hf. cbn. lia.
Qed.

Lemma take_stack_spec id p :
  id ∈ lock_ids -> settled p ->
  exists p' es, take_stack modify id p = Some (p', es) /\ emptied id p p'.
Proof.
  intros Hid Hp. unfold take_stack, Contains. destruct (lock_valid id Hid) as [Hs H112].
  pose proof (settled_contains p id Hp ltac:(lia)) as Hr.
  destruct (decide (contains id (inv p) = 0)) as [E|E].
  - rewrite E. cbn. exists p, []. split; [done|]. split; [by split|]. split; [done|]. rewrite E. cbn. lia.
  - destruct (take_whole false id p Hid Hp E) as (r & Er & _ & He).
    rewrite i32_small in * by lia. replace (- contains id (inv p) =? 0) with false by lia.
    rewrite Er. cbn [mbind option_bind]. by eexists _, _.
Qed.

(** A part of the change that has a slot. *)
Lemma give_part_spec id n p :
  id ∈ lock_ids -> settled p -> contains id (inv p) = 0 -> 0 <= n <= 200 ->
  Z.b2z (negb (n =? 0)) <= free_slots (inv p) ->
  exists p' es, give_part modify id n p = Some (p', es) /\ others id p p' /\
    contains id (inv p') = n /\
    free_slots (inv p') = free_slots (inv p) - Z.b2z (negb (n =? 0)).
Proof.
  intros Hid Hp Hc Hn Hfree. unfold give_part. destruct (Z.ltb_spec 0 n); cycle 1.
  { replace n with 0 by lia. exists p, []. split; [done|]. split; [by split|]. split; [done|]. cbn. lia. }
  destruct (lock_valid id Hid) as [Hs H112]. replace (n =? 0) with false in * by lia. cbn [negb Z.b2z] in *.
  destruct (modify_ok items prices wf g1 g2 fuel false false id n p)
    as (r & -> & _ & Hm); try done; [lia| |].
  { split_and!; try lia. intros _. apply free_find. lia. }
  cbn [mbind option_bind]. eexists _, _. split; [done|]. split; [by eapply moved_others|].
  destruct Hm as (_ & _ & _ & [Hx _] & Hf). rewrite Hc in *. split; [done|]. rewrite Hf.
  replace (0 + n =? 0) with false by lia. cbn. lia.
Qed.

Lemma others_contains id p p' j :
  others id p p' -> j <> 0 -> j <> id -> contains j (inv p') = contains j (inv p).
Proof. intros [_ H]. apply H. Qed.

(** How many of [j] are among the parts, and how many slots they need. *)
Definition part_of (j : Z) (ps : list (Z * Z)) : Z :=
  fold_right (λ x n, (if x.1 =? j then x.2 else 0) + n) 0 ps.

Definition slots_for (ps : list (Z * Z)) : Z :=
  fold_right (λ x n, Z.b2z (negb (x.2 =? 0)) + n) 0 ps.

(** The stacks among the locks [ids]. *)
Definition stacks (ids : list Z) (p : Player) : Z :=
  fold_right (λ j n, Z.b2z (negb (contains j (inv p) =? 0)) + n) 0 ids.

Lemma slots_for_nonneg ps : 0 <= slots_for ps.
Proof. induction ps as [|[j n] ps IH]; cbn; [lia|]. destruct (n =? 0); cbn; unfold slots_for in IH; lia. Qed.

Lemma change_spec n :
  0 <= n < 201000000 ->
  part_of 242 (change n) + part_of 1796 (change n) * 100 + part_of 7188 (change n) * 10000 +
    part_of 8470 (change n) * 1000000 = n /\
  Forall (λ x, x.1 ∈ lock_ids /\ 0 <= x.2 <= 200) (change n).
Proof.
  intros Hn. unfold change.
  pose proof (Z.div_mod n 1000000 ltac:(lia)). pose proof (Z.mod_pos_bound n 1000000 ltac:(lia)).
  set (r1 := n mod 1000000) in *.
  pose proof (Z.div_mod r1 10000 ltac:(lia)). pose proof (Z.mod_pos_bound r1 10000 ltac:(lia)).
  set (r2 := r1 mod 10000) in *.
  pose proof (Z.div_mod r2 100 ltac:(lia)). pose proof (Z.mod_pos_bound r2 100 ltac:(lia)).
  set (r3 := r2 mod 100) in *. set (q1 := n / 1000000) in *. set (q2 := r1 / 10000) in *.
  set (q3 := r2 / 100) in *. clearbody r1 r2 r3 q1 q2 q3.
  rewrite !i32_small by lia. cbn [part_of fold_right fst snd Z.eqb Pos.eqb].
  split; [lia|]. repeat (constructor; [cbn [fst snd]; split; [lock|lia]|]). constructor.
Qed.

(** The bag after all stacks of the locks [ids] were taken. *)
Definition cleared (ids : list Z) (p p' : Player) : Prop :=
  settled p' /\ (forall j, j ∈ ids -> contains j (inv p') = 0) /\
  (forall j, j <> 0 -> j ∉ ids -> contains j (inv p') = contains j (inv p)) /\
  free_slots (inv p') = free_slots (inv p) + stacks ids p.

Lemma cleared_nil p : settled p -> cleared [] p p.
Proof. intros H. split; [done|]. split; [by intros ? ?%elem_of_nil|]. split; [done|]. cbn. lia. Qed.

Lemma cleared_cons id ids p p1 p2 :
  id ∈ lock_ids -> id ∉ ids -> Forall (λ j, j ∈ lock_ids) ids ->
  emptied id p p1 -> cleared ids p1 p2 -> cleared (id :: ids) p p2.
Proof.
  intros Hid Hn Hl ([_ Ho] & Hz & Hf) (Hs & Hc & Hu & Hf2).
  assert (forall j, j ∈ lock_ids -> j <> 0) as Hnz by (intros j Hj%lock_valid; lia).
  rewrite list.Forall_forall in Hl. split; [done|]. split; [|split].
  - intros j [->|Hj]%elem_of_cons; [|by apply Hc]. by rewrite Hu by (auto || done).
  - intros j Hj0 [Hji Hj]%not_elem_of_cons. by rewrite Hu, Ho.
  - rewrite Hf2, Hf. unfold stacks. cbn [fold_right].
    enough (fold_right (λ j n, Z.b2z (negb (contains j (inv p1) =? 0)) + n) 0 ids
      = fold_right (λ j n, Z.b2z (negb (contains j (inv p) =? 0)) + n) 0 ids) by lia.
    clear -Ho Hl Hn Hnz. induction ids as [|j ids IH]; [done|]. cbn.
    rewrite IH by set_solver. rewrite Ho; [done|set_solver|set_solver].
Qed.

Lemma take_stacks_spec ids : forall p,
  base.NoDup ids -> Forall (λ j, j ∈ lock_ids) ids -> settled p ->
  exists p' es, take_stacks modify ids p = Some (p', es) /\ cleared ids p p'.
Proof.
  induction ids as [|id ids IH]; intros p Hd Hl Hp; cbn [take_stacks].
  { exists p, []. split; [done|]. by apply cleared_nil. }
  apply list.NoDup_cons in Hd as [Hn Hd]. apply list.Forall_cons in Hl as [Hid Hl].
  destruct (take_stack_spec id p Hid Hp) as (p1 & e1 & -> & H1). cbn [mbind option_bind].
  destruct (IH p1 Hd Hl (proj1 (proj1 H1))) as (p2 & e2 & -> & H2). cbn [mbind option_bind].
  eexists _, _. split; [done|]. by eapply cleared_cons.
Qed.

Lemma give_parts_spec ps : forall p,
  base.NoDup ps.*1 -> Forall (λ x, x.1 ∈ lock_ids /\ 0 <= x.2 <= 200) ps -> settled p ->
  (forall j, j ∈ ps.*1 -> contains j (inv p) = 0) -> slots_for ps <= free_slots (inv p) ->
  exists p' es, give_parts modify ps p = Some (p', es) /\ settled p' /\
    forall j, j <> 0 -> contains j (inv p') = contains j (inv p) + part_of j ps.
Proof.
  induction ps as [|[id n] ps IH]; intros p Hd Hl Hp Hz Hs; cbn [give_parts].
  { exists p, []. split; [done|]. split; [done|]. intros j _. cbn. lia. }
  cbn [fmap list_fmap fst] in *. apply list.NoDup_cons in Hd as [Hn Hd].
  apply list.Forall_cons in Hl as [[Hid Hr] Hl]. cbn [fst snd] in *.
  pose proof (slots_for_nonneg ps) as Hpos. cbn [slots_for fold_right snd] in Hs. fold (slots_for ps) in Hs.
  destruct (give_part_spec id n p Hid Hp) as (p1 & e1 & -> & O1 & C1 & F1);
    [apply Hz; set_solver|lia|lia|]. cbn [mbind option_bind].
  assert (forall j, j ∈ lock_ids -> j <> 0) as Hnz by (intros j Hj%lock_valid; lia).
  assert (forall j, j ∈ ps.*1 -> j ∈ lock_ids) as Hin.
  { intros j (x & -> & Hx)%list_elem_of_fmap. rewrite list.Forall_forall in Hl. by apply Hl. }
  destruct (IH p1 Hd Hl (proj1 O1)) as (p2 & e2 & -> & S2 & H2).
  { intros j Hj. rewrite (others_contains _ _ _ _ O1); [apply Hz; set_solver|auto|by intros ->]. }
  { lia. }
  cbn [mbind option_bind]. eexists _, _. split; [done|]. split; [done|].
  intros j Hj. rewrite H2 by done. cbn [part_of fold_right fst snd]. fold (part_of j ps).
  destruct (Z.eqb_spec id j) as [->|].
  - rewrite C1, (Hz j) by set_solver. lia.
  - rewrite (others_contains _ _ _ _ O1) by done. lia.
Qed.

(** C60: [TakeWL] pays exactly when the change finds slots. A player with less
    than [amount] is refused and keeps everything. Otherwise the four stacks
    of locks are taken and the rest comes back in the largest denominations:
    with at most 200 of the largest lock, and a slot for each denomination
    among the free slots and those of the stacks, the player has paid
    [amount] and every other item is as it was. *)
Theorem TakeWL_pays amount p :
  settled p -> 0 <= amount ->
  (GetTotalWL p < amount -> TakeWL modify amount p = Some (false, p, [])) /\
  (amount <= GetTotalWL p ->
   let remain := GetTotalWL p - amount in
   remain < 201000000 ->
   slots_for (change remain) <= free_slots (inv p) + stacks [242; 1796; 7188; 8470] p ->
   exists p' es, TakeWL modify amount p = Some (true, p', es) /\ settled p' /\
     GetTotalWL p' = GetTotalWL p - amount /\
     forall j, j <> 0 -> j ∉ [242; 1796; 7188; 8470] -> contains j (inv p') = contains j (inv p)).
Proof.
  intros Hp Ha. split; unfold TakeWL; [intros H; by replace (_ <? amount) with true by lia|].
  intros Ht. replace (GetTotalWL p <? amount) with false by lia. cbv zeta. intros Hbig Hslots.
  set (remain := GetTotalWL p - amount) in *. assert (0 <= remain) as H0 by lia.
  rewrite (i64_small remain) by lia.
  destruct (take_stacks_spec [242; 1796; 7188; 8470] p) as (p1 & e1 & -> & Hs & Hc & Hu & Hf);
    [distinct|repeat (constructor; [lock|]); constructor|done|].
  cbn [mbind option_bind]. destruct (change_spec remain ltac:(lia)) as [Hsum Hpart].
  assert (forall q, (forall j, j <> 0 -> contains j (inv q) = contains j (inv p1) + part_of j (change remain)) ->
    GetTotalWL q = remain /\
    forall j, j <> 0 -> j ∉ [242; 1796; 7188; 8470] -> contains j (inv q) = contains j (inv p)) as Hq.
  { intros q Hq. split; [unfold GetTotalWL, Contains; rewrite !Hq, !Hc by (lia || member); lia|].
    intros j Hj Hn. rewrite Hq, Hu by done. unfold change. cbn [part_of fold_right fst snd].
    rewrite !not_elem_of_cons in Hn. repeat (rewrite (proj2 (Z.eqb_neq _ _)) by lia). lia. }
  destruct (Z.ltb_spec 0 remain).
  - destruct (give_parts_spec (change remain) p1) as (p2 & e2 & -> & S2 & H2); try done.
    + distinct.
    + intros j Hj. apply Hc. unfold change in Hj. cbn in Hj. rewrite !elem_of_cons in *. tauto.
    + lia.
    + cbn [mbind option_bind]. eexists _, _. split; [done|]. split; [done|]. by apply Hq.
  - cbn [mbind option_bind]. eexists _, _. split; [done|]. split; [done|]. apply Hq.
    replace remain with 0 by lia. intros j _. cbn. by repeat case_match; rewrite Z.add_0_r.
Qed.

(** ** [get_wls] *)

(** What the purse is worth in world locks, the banks included. *)
Definition purse_worth (q : Purse) : Z :=
  contains 242 (inv (bag q)) + contains 1796 (inv (bag q)) * 100 +
  contains 7188 (inv (bag q)) * 10000 +
  wl_bank_amount q + dl_bank_amount q * 100 + bgl_bank_amount q * 10000.

Definition held (p : Player) : Z :=
  contains 242 (inv p) + contains 1796 (inv p) * 100 + contains 7188 (inv p) * 10000.

Lemma count_stack_look id p :
  id ∈ lock_ids -> settled p ->
  exists es, count_stack modify id false p = Some (contains id (inv p), p, es).
Proof.
  intros Hid Hp. unfold count_stack. destruct (lock_valid id Hid) as [Hs H112].
  destruct (modify_count items prices wf g1 g2 fuel true id p Hp Hs H112) as (r & -> & <- & <-).
  by eexists.
Qed.

Lemma count_stack_take id p :
  id ∈ lock_ids -> settled p ->
  exists p' es, count_stack modify id true p = Some (contains id (inv p), p', es) /\
    others id p p' /\ contains id (inv p') = 0.
Proof.
  intros Hid Hp. unfold count_stack. destruct (lock_valid id Hid) as [Hs H112].
  destruct (modify_count items prices wf g1 g2 fuel true id p Hp Hs H112) as (r & -> & Hr & Hco).
  cbn [mbind option_bind]. rewrite Hr, Hco. replace (-1 * contains id (inv p)) with (- contains id (inv p)) by lia.
  destruct (decide (contains id (inv p) = 0)) as [E|E].
  - rewrite E. change (i32 (- 0)) with 0.
    destruct (modify_count items prices wf g1 g2 fuel true id p Hp Hs H112) as (r2 & -> & Hr2 & _).
    cbn [mbind option_bind]. rewrite Hr2. eexists _, _. split; [done|]. by split; [split|].
  - destruct (take_whole true id p Hid Hp E) as (r2 & -> & _ & Ho & Hc & _).
    cbn [mbind option_bind]. eexists _, _. split; [done|]. done.
Qed.

(** A denomination of the change goes to the bag or to the bank. *)
Lemma change_step_spec id unit_ limit total bank b p :
  id ∈ lock_ids -> settled p -> contains id (inv p) = 0 ->
  1 <= unit_ <= 10000 -> limit = unit_ * 200 -> 0 <= total <= 3000000 -> 0 <= bank <= 2147483000 ->
  exists bank' b' p' es,
    change_step modify id unit_ limit total bank b p
      = Some (if limit <? total then total - limit else total mod unit_, bank', b', p', es) /\
    others id p p' /\ 0 <= bank' /\
    (contains id (inv p') + bank') * unit_ = bank * unit_ +
      (if limit <? total then limit else total - total mod unit_).
Proof.
  intros Hid Hp Hc Hu -> Ht Hb. unfold change_step. destruct (lock_valid id Hid) as [Hs H112].
  pose proof (Z.div_mod total unit_ ltac:(lia)) as Hdiv. pose proof (Z.mod_pos_bound total unit_ ltac:(lia)) as Hmod.
  destruct (Z.leb_spec unit_ total); cycle 1.
  { replace (unit_ * 200 <? total) with false by lia. rewrite (Z.mod_small total) by lia.
    exists bank, b, p, []. split; [done|]. split; [by split|]. rewrite Hc. lia. }
  set (c := if unit_ * 200 <? total then 200 else total / unit_).
  assert (1 <= c <= 200 /\ c * unit_ = (if unit_ * 200 <? total then unit_ * 200 else total - total mod unit_))
    as [Hcr Hcu].
  { subst c. destruct (Z.ltb_spec (unit_ * 200) total); [lia|]. split; [|lia].
    split; [apply Z.div_le_lower_bound; lia|apply Z.div_le_upper_bound; lia]. }
  clearbody c. cbv zeta. rewrite (i32_small (c * unit_)) by nia.
  rewrite i32_small by (case_match; nia). rewrite <- Hcu.
  assert (total - c * unit_ = if unit_ * 200 <? total then total - unit_ * 200 else total mod unit_) as ->
    by (rewrite Hcu; case_match; lia).
  assert (accepts id c (inv p) \/ ~ accepts id c (inv p)) as [Ha|Ha].
  { unfold accepts. destruct (find_stack 0 (inv p)); [left; split_and!; try lia; done|].
    right. intros (_ & _ & H1). by apply H1. }
  - destruct (modify_ok items prices wf g1 g2 fuel true false id c p) as (r & -> & Hr & Hm);
      try done; try lia. cbn [mbind option_bind]. rewrite Hr. cbn.
    eexists _, _, _, _. split; [done|]. split; [by eapply moved_others|].
    destruct Hm as (_ & _ & _ & [Hx _] & _). split; [lia|]. rewrite Hx, Hc. lia.
  - destruct (modify_refused_gift items prices wf g1 g2 fuel true id c p) as (r & -> & Hr & Hpl & Hco);
      try done; try lia. cbn [mbind option_bind]. rewrite Hr, Hpl, Hco.
    change (-1 =? 0) with false. cbv iota.
    rewrite i32_small by lia. eexists _, _, _, _. split; [done|]. split; [by split|].
    split; [lia|]. rewrite Hc. lia.
Qed.

Lemma total_small a b c :
  0 <= a <= 200 -> 0 <= b <= 200 -> 0 <= c <= 200 ->
  i32 (i32 (a + i32 (b * 100)) + i32 (c * 10000)) = a + b * 100 + c * 10000.
Proof.
  intros. rewrite (i32_small (b * 100)), (i32_small (c * 10000)) by lia.
  by rewrite (i32_small (a + b * 100)), i32_small by lia.
Qed.

Definition banks_ok (q : Purse) : Prop :=
  0 <= wl_bank_amount q <= 2147483000 /\ 0 <= dl_bank_amount q <= 2147483000 /\
  0 <= bgl_bank_amount q <= 2147483000.

(** The player paid [amount] and has every other item as before. *)
Definition charged (amount : Z) (q q' : Purse) : Prop :=
  settled (bag q') /\ purse_worth q' = purse_worth q - amount /\
  forall j, j <> 0 -> j ∉ [242; 1796; 7188] -> contains j (inv (bag q')) = contains j (inv (bag q)).

Lemma get_wls_look amount q :
  settled (bag q) -> exists es, get_wls modify true false amount q = Some (held (bag q), q, es).
Proof.
  intros Hp. destruct q as [p wl dl bgl]. cbn [bag wl_bank_amount dl_bank_amount bgl_bank_amount] in *.
  assert (242 ∈ lock_ids /\ 1796 ∈ lock_ids /\ 7188 ∈ lock_ids) as (L1 & L2 & L3) by (split_and!; lock).
  pose proof (settled_contains p 242 Hp ltac:(lia)). pose proof (settled_contains p 1796 Hp ltac:(lia)).
  pose proof (settled_contains p 7188 Hp ltac:(lia)).
  unfold get_wls, held. cbn [bag wl_bank_amount dl_bank_amount bgl_bank_amount].
  destruct (count_stack_look 242 p L1 Hp) as (e1 & ->). cbn [mbind option_bind].
  destruct (count_stack_look 1796 p L2 Hp) as (e2 & ->). cbn [mbind option_bind].
  destruct (count_stack_look 7188 p L3 Hp) as (e3 & ->). cbn [mbind option_bind andb].
  rewrite total_small by done. by eexists.
Qed.

Lemma get_wls_charge amount q :
  settled (bag q) -> banks_ok q -> amount <> 0 -> held (bag q) - 2020200 <= amount <= held (bag q) ->
  exists q' es, get_wls modify true true amount q = Some (held (bag q), q', es) /\ charged amount q q'.
Proof.
  intros Hp (B1 & B2 & B3) Hnz Ha. destruct q as [p wl dl bgl]. cbn [bag wl_bank_amount dl_bank_amount bgl_bank_amount] in *.
  assert (242 ∈ lock_ids /\ 1796 ∈ lock_ids /\ 7188 ∈ lock_ids) as (L1 & L2 & L3) by (split_and!; lock).
  pose proof (settled_contains p 242 Hp ltac:(lia)). pose proof (settled_contains p 1796 Hp ltac:(lia)).
  pose proof (settled_contains p 7188 Hp ltac:(lia)).
  unfold get_wls, held, charged in *. cbn [bag wl_bank_amount dl_bank_amount bgl_bank_amount] in *.
  destruct (count_stack_take 242 p L1 Hp) as (p1 & e1 & -> & O1 & C1). cbn [mbind option_bind].
  destruct (count_stack_take 1796 p1 L2 (proj1 O1)) as (p2 & e2 & -> & O2 & C2). cbn [mbind option_bind].
  destruct (count_stack_take 7188 p2 L3 (proj1 O2)) as (p3 & e3 & -> & O3 & C3). cbn [mbind option_bind].
  rewrite !(others_contains _ _ _ _ O2), !(others_contains _ _ _ _ O1) in * by lia.
  rewrite total_small by done.
  set (total := contains 242 (inv p) + contains 1796 (inv p) * 100 + contains 7188 (inv p) * 10000) in *.
  replace (amount =? 0) with false by lia. cbn [andb negb]. rewrite (i32_small (total - amount)) by lia.
  set (rest := total - amount).
  destruct (change_step_spec 7188 10000 2000000 rest bgl false p3 L3 (proj1 O3) C3)
    as (bgl' & b1 & p4 & e4 & -> & O4 & N4 & S4); try done; try lia. cbn [mbind option_bind].
  set (t1 := if 2000000 <? rest then rest - 2000000 else rest mod 10000) in *.
  assert (0 <= t1 <= 20200) as T1.
  { subst t1. pose proof (Z.mod_pos_bound rest 10000 ltac:(lia)). case_match; lia. }
  assert (contains 1796 (inv p4) = 0 /\ contains 242 (inv p4) = 0) as [Z1 Z2].
  { rewrite !(others_contains _ _ _ _ O4), !(others_contains _ _ _ _ O3) by lia.
    rewrite (others_contains 1796 p1 p2 242) by (done || lia). done. }
  destruct (change_step_spec 1796 100 20000 t1 dl b1 p4 L2 (proj1 O4) Z1)
    as (dl' & b2 & p5 & e5 & -> & O5 & N5 & S5); try done; try lia. cbn [mbind option_bind].
  set (t2 := if 20000 <? t1 then t1 - 20000 else t1 mod 100) in *.
  assert (0 <= t2 <= 200) as T2.
  { subst t2. pose proof (Z.mod_pos_bound t1 100 ltac:(lia)). case_match; lia. }
  destruct (change_step_spec 242 1 200 t2 wl b2 p5 L1 (proj1 O5))
    as (wl' & b3 & p6 & e6 & -> & O6 & N6 & S6); try done; try lia.
  { by rewrite (others_contains _ _ _ _ O5) by lia. }
  cbn [mbind option_bind]. eexists _, _. split; [done|]. cbn [bag]. split; [apply O6|]. split.
  + unfold purse_worth. cbn [bag wl_bank_amount dl_bank_amount bgl_bank_amount].
    rewrite (others_contains _ _ _ 1796 O6), (others_contains _ _ _ 7188 O6),
      (others_contains _ _ _ 7188 O5) by lia.
    rewrite Z.mod_1_r in S6. replace (200 <? t2) with false in S6 by lia.
    assert (t1 + (if 2000000 <? rest then 2000000 else rest - rest mod 10000) = rest) as A1
      by (unfold t1; destruct (2000000 <? rest); lia).
    assert (t2 + (if 20000 <? t1 then 20000 else t1 - t1 mod 100) = t1) as A2
      by (unfold t2; destruct (20000 <? t1); lia).
    fold total. lia.
  + intros j Hj Hn. rewrite !not_elem_of_cons in Hn.
    rewrite (others_contains _ _ _ _ O6), (others_contains _ _ _ _ O5), (others_contains _ _ _ _ O4),
      (others_contains _ _ _ _ O3), (others_contains _ _ _ _ O2), (others_contains _ _ _ _ O1) by tauto.
    done.
Qed.

(** C17: [get_wls] counts and pays without loss. Called to count, it returns
    the worth of the three kinds of locks and changes nothing. Called to pay
    at most that, it takes the locks and gives the rest back to the bag, or
    to the bank where a denomination finds no slot: bag and banks together
    are worth exactly [amount] less, and every other item is as it was. A
    negative amount is paid out to the player: what comes back may be up to
    a full stack of each kind. Assumed: the bag is settled (well formed,
    infinite mode and the automatic conversions and sales off) and each
    denomination in the bank is at most 2147483000. *)
Theorem get_wls_pays amount q :
  settled (bag q) -> banks_ok q ->
  (exists es, get_wls modify true false amount q = Some (held (bag q), q, es)) /\
  (amount <> 0 -> held (bag q) - 2020200 <= amount <= held (bag q) ->
   exists q' es, get_wls modify true true amount q = Some (held (bag q), q', es) /\
     charged amount q q').
Proof. intros Hp Hb. split; [by apply get_wls_look|by apply get_wls_charge]. Qed.

End Facts.

Lemma sample_locks : locks_in_table sample_items.
Proof.
  unfold locks_in_table, lock_ids. rewrite sample_items_size.
  repeat (constructor; [split; [lia|unfold item, sample_items; rewrite nth_repeat; discriminate]|]).
  constructor.
Qed.

(** A player with two stacks of locks, one dirt and a free slot. *)
Definition payer : Player := sample_player [(7188, 3); (1796, 5); (2, 1); (0, 0)] 0 false.

Lemma payer_settled : settled payer.
Proof.
  split; [by repeat split; try (right; reflexivity); try (left; reflexivity)|].
  split; [repeat constructor; unfold slot_ok; simpl; lia|simpl; tauto].
Qed.

Lemma TakeWL_pays_witness :
  exists p' es, TakeWL (Modify sample_items [] true "" "" 2) 29801 payer = Some (true, p', es) /\
    settled p' /\ GetTotalWL p' = GetTotalWL payer - 29801 /\
    forall j, j <> 0 -> j ∉ [242; 1796; 7188; 8470] -> contains j (inv p') = contains j (inv payer).
Proof.
  destruct (TakeWL_pays sample_items [] true "" "" 1 sample_locks 29801 payer) as [_ H];
    [exact payer_settled|lia|].
  apply H; vm_compute; congruence.
Defined.

Definition full_purse : Purse :=
  mkPurse (sample_player [(7188, 3); (2, 1)] 0 false) 5 0 0.

Lemma get_wls_pays_witness :
  exists q' es,
    get_wls (Modify sample_items [] true "" "" 2) true true 10150 full_purse
      = Some (30000, q', es) /\
    charged 10150 full_purse q'.
Proof.
  destruct (get_wls_pays sample_items [] true "" "" 1 sample_locks 10150 full_purse) as [_ H];
    [|unfold banks_ok; cbn; lia|].
  - split; [by repeat split; try (right; reflexivity); try (left; reflexivity)|].
    split; [repeat constructor; unfold slot_ok; simpl; lia|simpl; tauto].
  - apply H; vm_compute; [congruence|split; congruence].
Defined.

(** Where the change does not find slots, [TakeWL] loses it: one lock of
    10000 pays a price of 1, with no other slot the small change is gone. *)
Example TakeWL_loses_change :
  (λ '(b, p, _), (b, inv p, GetTotalWL p)) <$>
    TakeWL (Modify sample_items [] true "" "" 2) 1 (sample_player [(7188, 1); (2, 1)] 0 false)
  = Some (true, [(1796, 99); (2, 1)], 9900).
Proof. vm_compute. reflexivity. Qed.

(** [get_wls] puts it into the bank. *)
Example get_wls_banks_change :
  (λ '(n, q, _), (n, inv (bag q), wl_bank_amount q)) <$>
    get_wls (Modify sample_items [] true "" "" 2) true true 1
      (mkPurse (sample_player [(7188, 1); (2, 1)] 0 false) 0 0 0)
  = Some (10000, [(1796, 99); (2, 1)], 99).
Proof. vm_compute. reflexivity. Qed.

End Wallet.
