(* ===== verification/Calendar.v ===== *)
(** * Calendar: local dates of the daily reward

    Models the date functions of
    [src/NopySource/Handle/DailyReward/PlayerDailyData.h]: [ToCalendar],
    [IsDifferentCalendarDay], [DaysElapsed], [DateDiffDays].  [localtime] of
    the C library is the Gregorian calendar, walked day by day from the
    epoch, at the offset from UTC of the server's time zone, which is a
    parameter ([utc_offset], a function of the timestamp). *)
From S2P Require Import Prelude.

Module Calendar.

(** ** The Gregorian calendar *)

Record CalendarDate := mkDate { year : Z; month : Z; day : Z }.

Definition leap (y : Z) : bool :=
  (y mod 4 =? 0) && (negb (y mod 100 =? 0) || (y mod 400 =? 0)).

Definition month_days (y m : Z) : Z :=
  if m =? 2 then (if leap y then 29 else 28)
  else if (m =? 4) || (m =? 6) || (m =? 9) || (m =? 11) then 30 else 31.

#[global] Arguments month_days : simpl never.
#[global] Arguments leap : simpl never.

Definition next_day (d : CalendarDate) : CalendarDate :=
  let 'mkDate y m k := d in
  if k <? month_days y m then mkDate y m (k + 1)
  else if m <? 12 then mkDate y (m + 1) 1 else mkDate (y + 1) 1 1.

Definition prev_day (d : CalendarDate) : CalendarDate :=
  let 'mkDate y m k := d in
  if 1 <? k then mkDate y m (k - 1)
  else if 1 <? m then mkDate y (m - 1) (month_days y (m - 1)) else mkDate (y - 1) 12 31.

Definition epoch : CalendarDate := mkDate 1970 1 1.

(** The date [n] days after 1970-01-01. *)
Definition date_of_day (n : Z) : CalendarDate :=
  if n <? 0 then Nat.iter (Z.to_nat (- n)) prev_day epoch
  else Nat.iter (Z.to_nat n) next_day epoch.

Section LocalTime.
Context (utc_offset : Z -> Z).

(** The number of the local day, the seconds since its midnight. *)
Definition local_day (t : Z) : Z := (t + utc_offset t) / 86400.
Definition local_seconds (t : Z) : Z := (t + utc_offset t) mod 86400.

Definition ToCalendar (timestamp : Z) : CalendarDate := date_of_day (local_day timestamp).

Definition DayIndex (d : CalendarDate) : Z := year d * 10000 + month d * 100 + day d.

Definition IsDifferentCalendarDay (a b : Z) : bool :=
  negb (DayIndex (ToCalendar a) =? DayIndex (ToCalendar b)).

(** [ToDaysSinceEpoch]: C++ division truncates. *)
Definition ToDaysSinceEpoch (y m d : Z) : Z :=
  let a := Z.quot (14 - m) 12 in
  let yr := y + 4800 - a in
  let mn := m + 12 * a - 3 in
  d + Z.quot (153 * mn + 2) 5 + 365 * yr + Z.quot yr 4 - Z.quot yr 100 + Z.quot yr 400 - 32045.

Definition DateDiffDays (y1 m1 d1 y2 m2 d2 : Z) : Z :=
  let diff := ToDaysSinceEpoch y2 m2 d2 - ToDaysSinceEpoch y1 m1 d1 in
  if diff <? 0 then 0 else if 1000 <? diff then 1000 else diff.

Definition DaysElapsed (last_ts now_ts : Z) : Z :=
  if last_ts =? 0 then 0
  else if now_ts <? last_ts then 0
  else if 1000 * 86400 <? now_ts - last_ts then 1000
  else
    let l := ToCalendar last_ts in
    let n := ToCalendar now_ts in
    DateDiffDays (year l) (month l) (day l) (year n) (month n) (day n).

End LocalTime.

(** ** The Julian day number counts the days *)

Definition valid_date (d : CalendarDate) : Prop :=
  -4000 <= year d /\ 1 <= month d <= 12 /\ 1 <= day d <= month_days (year d) (month d).

Definition jdn (d : CalendarDate) : Z := ToDaysSinceEpoch (year d) (month d) (day d).

Lemma month_days_range y m : 28 <= month_days y m <= 31.
Proof. unfold month_days. repeat case_match; lia. Qed.

(** Case analysis on a month between 1 and 12. *)
Ltac month_cases m :=
  let H := fresh in
  assert (m = 1 \/ m = 2 \/ m = 3 \/ m = 4 \/ m = 5 \/ m = 6 \/ m = 7 \/ m = 8 \/ m = 9 \/
          m = 10 \/ m = 11 \/ m = 12) as H by lia;
  repeat (destruct H as [H|H]); subst m.

(** The day before March 1st of [y]: the formula's count of leap days. *)
Definition leaps (yr : Z) : Z := Z.quot yr 4 - Z.quot yr 100 + Z.quot yr 400.

Lemma leaps_step y : -4000 <= y ->
  leaps (y + 4800) = leaps (y + 4799) + (if leap y then 1 else 0).
Proof.
  intros Hy. unfold leaps, leap. rewrite !Z.quot_div_nonneg by lia.
  destruct (Z.eqb_spec (y mod 4) 0), (Z.eqb_spec (y mod 100) 0), (Z.eqb_spec (y mod 400) 0);
    cbn [andb orb negb]; Z.to_euclidean_division_equations; lia.
Qed.

Definition shift_year (m : Z) : Z := Z.quot (14 - m) 12.
Definition before_month (m : Z) : Z := Z.quot (153 * (m + 12 * shift_year m - 3) + 2) 5.

Lemma jdn_eq y m d :
  jdn (mkDate y m d) = d + before_month m + 365 * (y + 4800 - shift_year m) +
                       leaps (y + 4800 - shift_year m) - 32045.
Proof. unfold jdn, ToDaysSinceEpoch, leaps, before_month, shift_year. cbn. lia. Qed.

(** Evaluate the two functions on a known month. *)
Ltac eval_month :=
  repeat match goal with
  | |- context [shift_year ?t] => let v := eval vm_compute in (shift_year t) in
      change (shift_year t) with v
  | |- context [before_month ?t] => let v := eval vm_compute in (before_month t) in
      change (before_month t) with v
  end.

(** The number of days before the month advances by the month's length. *)
Lemma before_month_step y m : 1 <= m < 12 -> -4000 <= y ->
  before_month (m + 1) + 365 * (y + 4800 - shift_year (m + 1)) +
    leaps (y + 4800 - shift_year (m + 1)) =
  before_month m + 365 * (y + 4800 - shift_year m) + leaps (y + 4800 - shift_year m) +
    month_days y m.
Proof.
  intros Hm Hy. pose proof (leaps_step y Hy) as HL.
  replace (y + 4799) with (y + 4800 - 1) in HL by lia.
  replace (y + 4800) with (y + 4800 - 0) in HL at 1 by lia.
  unfold month_days. month_cases m; try lia; eval_month; cbn [Z.eqb Pos.eqb orb];
    destruct (leap y); lia.
Qed.

Lemma jdn_next d : valid_date d -> jdn (next_day d) = jdn d + 1 /\ valid_date (next_day d).
Proof.
  destruct d as [y m k]. unfold valid_date, next_day. cbn [year month day]. intros (Hy & Hm & Hk).
  pose proof (month_days_range y (m + 1)). pose proof (month_days_range (y + 1) 1).
  destruct (Z.ltb_spec k (month_days y m)).
  { cbn [year month day]. split; [|lia]. rewrite !jdn_eq. lia. }
  assert (k = month_days y m) as -> by lia.
  destruct (Z.ltb_spec m 12); cbn [year month day]; (split; [|lia]); rewrite !jdn_eq.
  - pose proof (before_month_step y m). lia.
  - assert (m = 12) as -> by lia. change (month_days y 12) with 31. eval_month.
    replace (y + 1 + 4800 - 1) with (y + 4800 - 0) by lia. lia.
Qed.

Lemma epoch_valid : valid_date epoch.
Proof. unfold valid_date, epoch; cbn. vm_compute. intuition discriminate. Qed.

(** Walking [n] days from the epoch adds [n] to the day number. *)
Lemma date_of_day_spec n : 0 <= n ->
  valid_date (date_of_day n) /\ jdn (date_of_day n) = n + 2440588.
Proof.
  intros Hn. unfold date_of_day. rewrite (proj2 (Z.ltb_ge n 0)) by lia.
  rewrite <- (Z2Nat.id n) at 3 by lia.
  induction (Z.to_nat n) as [|k [IHv IHj]].
  - split; [apply epoch_valid|vm_compute; done].
  - rewrite Nat2Z.inj_succ. change (Nat.iter (S k) next_day epoch) with (next_day (Nat.iter k next_day epoch)).
    destruct (jdn_next _ IHv) as [E V]. split; [done|]. rewrite E, IHj. lia.
Qed.

Lemma date_of_day_inj n m : 0 <= n -> 0 <= m -> date_of_day n = date_of_day m -> n = m.
Proof.
  intros Hn Hm E. destruct (date_of_day_spec n Hn) as [_ En], (date_of_day_spec m Hm) as [_ Em].
  rewrite E in En. lia.
Qed.

Lemma DateDiffDays_spec n m : 0 <= n -> 0 <= m ->
  let d1 := date_of_day n in let d2 := date_of_day m in
  DateDiffDays (year d1) (month d1) (day d1) (year d2) (month d2) (day d2) =
  Z.max 0 (Z.min 1000 (m - n)).
Proof.
  intros Hn Hm d1 d2. unfold DateDiffDays. fold (jdn d1) (jdn d2). subst d1 d2.
  rewrite (proj2 (date_of_day_spec n Hn)), (proj2 (date_of_day_spec m Hm)).
  repeat case_match; lia.
Qed.

Lemma DayIndex_inj d1 d2 : valid_date d1 -> valid_date d2 -> DayIndex d1 = DayIndex d2 -> d1 = d2.
Proof.
  destruct d1 as [y1 m1 k1], d2 as [y2 m2 k2]. unfold valid_date, DayIndex. cbn [year month day].
  intros (_ & Hm1 & Hk1) (_ & Hm2 & Hk2) E.
  pose proof (month_days_range y1 m1). pose proof (month_days_range y2 m2).
  assert (y1 = y2 /\ m1 = m2 /\ k1 = k2) as (-> & -> & ->) by lia. done.
Qed.

(** C40: [DaysElapsed] counts local midnights. For a login after the epoch
    and a clock that has not been set back, with the same offset from UTC
    at both times, the day numbers of the two Gregorian dates differ by
    exactly the number of local days in between, cut to 1000; with a clock
    set back it is 0. *)
Theorem DaysElapsed_counts_midnights utc_offset last now :
  last <> 0 -> utc_offset now = utc_offset last -> 0 <= local_day utc_offset last ->
  DaysElapsed utc_offset last now =
  Z.max 0 (Z.min 1000 (local_day utc_offset now - local_day utc_offset last))
    * (if now <? last then 0 else 1).
Proof.
  intros H0 Htz Hday. unfold DaysElapsed. rewrite (proj2 (Z.eqb_neq last 0)) by done.
  destruct (Z.ltb_spec now last); [lia|].
  assert (0 <= local_day utc_offset now) as Hnow.
  { unfold local_day in *. rewrite Htz. Z.to_euclidean_division_equations. lia. }
  destruct (Z.ltb_spec (1000 * 86400) (now - last)).
  - unfold local_day. rewrite Htz. Z.to_euclidean_division_equations. lia.
  - unfold ToCalendar. rewrite DateDiffDays_spec by done. lia.
Qed.

Definition jakarta (t : Z) : Z := 7 * 3600.

Lemma DaysElapsed_counts_midnights_witness :
  local_day jakarta 1709142600 = 19782 /\
  DaysElapsed jakarta 1709142600 1709240400 =
  Z.max 0 (Z.min 1000 (local_day jakarta 1709240400 - local_day jakarta 1709142600))
    * (if 1709240400 <? 1709142600 then 0 else 1).
Proof.
  split; [vm_compute; reflexivity|].
  apply (DaysElapsed_counts_midnights jakarta 1709142600 1709240400);
    [lia|reflexivity|vm_compute; discriminate].
Defined.

Example leap_day :
  (ToCalendar jakarta 1709142600, ToCalendar jakarta 1709240400,
   DaysElapsed jakarta 1709142600 1709240400)
  = (mkDate 2024 2 29, mkDate 2024 3 1, 1).
Proof. vm_compute. reflexivity. Qed.

(** Two times fall on different dates exactly when their local days
    differ. *)
Lemma IsDifferentCalendarDay_spec utc_offset a b :
  0 <= local_day utc_offset a -> 0 <= local_day utc_offset b ->
  IsDifferentCalendarDay utc_offset a b = true <->
  local_day utc_offset a <> local_day utc_offset b.
Proof.
  intros Ha Hb. unfold IsDifferentCalendarDay, ToCalendar. rewrite negb_true_iff, Z.eqb_neq.
  destruct (date_of_day_spec _ Ha) as [Va _], (date_of_day_spec _ Hb) as [Vb _].
  split; intros H E; apply H; [by rewrite E|].
  apply (date_of_day_inj _ _ Ha Hb), DayIndex_inj; done.
Qed.

End Calendar.
