(* ===== verification/Scanner.v ===== *)
(** * Scanner: the text packets of the client

    Models [TextScanner] of [src/NopySource/Handle/BaseServer.h]: the lines
    [key|value|...] in which clients send actions and dialog answers.  The
    delimiters the server uses are single characters. *)
From S2P Require Import Prelude.

Module Scanner.

(** [m_data] *)
Definition TextScanner := list string.

Definition bar : ascii := char_of 124.
Definition cr : ascii := char_of 13.

Fixpoint remove_char (c : ascii) (s : string) : string :=
  match s with
  | EmptyString => EmptyString
  | String d s => if Ascii.eqb d c then remove_char c s else String d (remove_char c s)
  end.

(** [std::views::split] of an empty string has no pieces. *)
Definition string_tokenize (s : string) (delimiter : ascii) : list string :=
  if is_empty s then [] else split_on delimiter s.

Definition parse (s : string) : TextScanner := remove_char cr <$> string_tokenize s nl.

(** [get(key, index, token, key_index)]; [None] is an access outside the
    vector of tokens. *)
Fixpoint get (m_data : TextScanner) (key : string) (index : Z) (token : ascii) (key_index : nat)
    : option string :=
  match m_data with
  | [] => Some EmptyString
  | data :: m_data =>
      if is_empty data then get m_data key index token key_index else
      let tokenize := string_tokenize data token in
      k ← tokenize !! key_index;
      if String.eqb k key then
        if (index <? 0) || (Z.of_nat (length tokenize) <=? index) then Some EmptyString
        else tokenize !! (key_index + Z.to_nat index)%nat
      else get m_data key index token key_index
  end.

(** [get(key)] with its default arguments, and its integral overload. *)
Definition get_value (m_data : TextScanner) (key : string) : option string :=
  get m_data key 1 bar 0.

Definition get_int (m_data : TextScanner) (key : string) (index : Z) (token : ascii) : option Z :=
  v ← get m_data key index token 0; stoi v.

Definition contain (m_data : TextScanner) (key : string) : option bool :=
  v ← get_value m_data key; Some (negb (is_empty v)).

(** [try_get]: the result and the new value of the out-parameter. *)
Definition try_get (m_data : TextScanner) (key : string) (value : string)
    : option (bool * string) :=
  c ← contain m_data key;
  if (c : bool) then v ← get_value m_data key; Some (true, v) else Some (false, value).

Definition try_get_int (m_data : TextScanner) (key : string) (value : Z) : option (bool * Z) :=
  c ← contain m_data key;
  if (c : bool) then v ← get_value m_data key; z ← stoi v; Some (true, z)
  else Some (false, value).

Definition add (m_data : TextScanner) (key value : string) (token : ascii) : TextScanner :=
  m_data ++ [cat [key; str1 token; value]].

Definition add_int (m_data : TextScanner) (key : string) (value : Z) (token : ascii)
    : TextScanner :=
  add m_data key (to_string value) token.

(** A [CL_Vec2i], a [CL_Recti]: components separated by bars. *)
Definition add_ints (m_data : TextScanner) (key : string) (value : list Z) (token : ascii)
    : TextScanner :=
  add m_data key (join_with bar (to_string <$> value)) token.

(** [set]: the first line with the key; [tokenize[0]] of an empty line is
    outside its vector. *)
Fixpoint set (m_data : TextScanner) (key value : string) (token : ascii) : option TextScanner :=
  match m_data with
  | [] => Some []
  | data :: m_data =>
      k ← string_tokenize data token !! 0%nat;
      if String.eqb k key then Some (cat [k; str1 token; value] :: m_data)
      else r ← set m_data key value token; Some (data :: r)
  end.

Definition set_int (m_data : TextScanner) (key : string) (value : Z) (token : ascii)
    : option TextScanner :=
  set m_data key (to_string value) token.

Fixpoint get_all_raw (m_data : TextScanner) : string :=
  match m_data with
  | [] => EmptyString
  | data :: m_data' =>
      data +:+ (match m_data' with
                | [] => EmptyString
                | next :: _ => if is_empty next then EmptyString else endl
                end) +:+ get_all_raw m_data'
  end.

Fixpoint index_lines (i : Z) (m_data : TextScanner) : list string :=
  match m_data with
  | [] => []
  | data :: m_data => cat ["["; to_string i; "]: "; data] :: index_lines (i + 1) m_data
  end.

Definition get_all_array (m_data : TextScanner) : list string := index_lines 0 m_data.

(** [quick_hash]: a [char] is signed. *)
Definition quick_hash (data : string) : Z :=
  fold_left (λ hash c, u32 (u32 (u32 (Z.shiftl hash 5) + hash) + i8 c)) (str_bytes data) 5381.

(** ** What a scanner means *)

(** A text of records: a key and values, none with a separator in it. *)
Definition record : Type := string * list string.

Definition plain (s : string) : bool :=
  all_chars (λ c, negb (Ascii.eqb c bar) && negb (Ascii.eqb c nl) && negb (Ascii.eqb c cr)) s.

Definition record_ok (r : record) : Prop :=
  plain r.1 = true /\ r.1 <> EmptyString /\ Forall (λ v, plain v = true) r.2.

Definition record_line (r : record) : string := join_with bar (r.1 :: r.2).

Definition render (rs : list record) : string := join_with nl (record_line <$> rs).

(** The value of a key, by its first record. *)
Fixpoint field (rs : list record) (key : string) (index : Z) : string :=
  match rs with
  | [] => EmptyString
  | (k, vs) :: rs =>
      if String.eqb k key then
        if index <? 0 then EmptyString else nth (Z.to_nat index) (k :: vs) EmptyString
      else field rs key index
  end.

Lemma remove_char_id c s :
  all_chars (λ d, negb (Ascii.eqb d c)) s = true -> remove_char c s = s.
Proof.
  induction s as [|d s IH]; simpl; [done|]. intros [Hd Hs]%andb_true_iff.
  destruct (Ascii.eqb d c); [done|]. by rewrite IH.
Qed.

(** Splitting a joined list gives it back when its pieces are free of the
    separator. *)
Lemma split_join c l :
  l <> [] -> Forall (λ s, all_chars (λ d, negb (Ascii.eqb d c)) s = true) l ->
  split_on c (join_with c l) = l.
Proof.
  intros Hl. induction l as [|s l IH]; [done|]. intros [Hs Hf]%list.Forall_cons.
  destruct l as [|t l]; [by apply split_on_plain|].
  change (join_with c (s :: t :: l)) with (s +:+ String c (join_with c (t :: l))).
  rewrite split_on_app by done. by rewrite IH.
Qed.

Lemma all_chars_join f c l :
  f c = true -> Forall (λ s, all_chars f s = true) l -> all_chars f (join_with c l) = true.
Proof.
  intros Hc. induction 1 as [|s l Hs _ IH]; [done|].
  destruct l as [|t l]; [done|].
  change (join_with c (s :: t :: l)) with (s +:+ String c (join_with c (t :: l))).
  rewrite all_chars_app. cbn [all_chars]. by rewrite Hs, Hc, IH.
Qed.

Lemma plain_no c s : plain s = true -> c = bar \/ c = nl \/ c = cr ->
  all_chars (λ d, negb (Ascii.eqb d c)) s = true.
Proof.
  intros Hs Hc. eapply all_chars_impl; [|exact Hs]. intros d. cbn beta.
  rewrite !andb_true_iff. destruct Hc as [->|[->| ->]]; tauto.
Qed.

Section Records.
Context (r : record) (Hr : record_ok r).

Lemma record_line_tokens : string_tokenize (record_line r) bar = r.1 :: r.2.
Proof.
  destruct Hr as (Hk & Hne & Hv). unfold string_tokenize, record_line.
  destruct r as [k vs]; cbn [fst snd] in *.
  assert (is_empty (join_with bar (k :: vs)) = false) as ->.
  { destruct k; [done|]. by destruct vs. }
  apply split_join; [done|]. constructor; [apply plain_no; [done|by left]|].
  eapply list.Forall_impl; [exact Hv|]. intros v Hp. apply plain_no; [done|by left].
Qed.

Lemma record_line_no c : c = nl \/ c = cr ->
  all_chars (λ d, negb (Ascii.eqb d c)) (record_line r) = true.
Proof.
  intros Hc. destruct Hr as (Hk & Hne & Hv). apply all_chars_join.
  { destruct Hc as [->| ->]; reflexivity. }
  constructor; [apply plain_no; tauto|].
  eapply list.Forall_impl; [exact Hv|]. intros v Hp. apply plain_no; tauto.
Qed.

Lemma record_line_nonempty : is_empty (record_line r) = false.
Proof.
  destruct Hr as (_ & Hne & _). unfold record_line. destruct r as [[|c k] [|v vs]]; done.
Qed.

End Records.

Lemma parse_render rs : rs <> [] -> Forall record_ok rs ->
  parse (render rs) = record_line <$> rs.
Proof.
  intros Hn Hf. unfold parse, string_tokenize.
  assert (is_empty (render rs) = false) as ->.
  { destruct Hf as [|r rs Hr _]; [done|]. unfold render.
    pose proof (record_line_nonempty r Hr). cbn [fmap list_fmap].
    destruct (record_line r); [done|]. by destruct (record_line <$> rs). }
  unfold render. rewrite split_join.
  - induction Hf as [|r rs Hr Hf IH]; [done|]. cbn [fmap list_fmap]. f_equal.
    + apply remove_char_id, record_line_no; [done|by right].
    + destruct rs; [done|]. by apply IH.
  - by destruct rs.
  - apply list.Forall_fmap. eapply list.Forall_impl; [exact Hf|]. intros r Hr.
    apply record_line_no; [done|by left].
Qed.

Lemma get_records rs key index : Forall record_ok rs ->
  get (record_line <$> rs) key index bar 0 = Some (field rs key index).
Proof.
  induction 1 as [|r rs Hr _ IH]; [done|]. cbn [fmap list_fmap get].
  rewrite record_line_nonempty, record_line_tokens by done.
  destruct r as [k vs]. cbn [fst snd field]. cbn [lookup list_lookup mbind option_bind].
  destruct (String.eqb k key); [|done].
  destruct (Z.ltb_spec index 0); [done|]. cbn [orb].
  destruct (Z.leb_spec (Z.of_nat (length (k :: vs))) index).
  - by rewrite nth_overflow by lia.
  - cbn [Nat.add]. rewrite <- (Z2Nat.id index) in H0 by lia.
    destruct (lookup_lt_is_Some_2 (k :: vs) (Z.to_nat index)) as [v Hv]; [lia|].
    rewrite Hv. f_equal. symmetry. apply nth_lookup_Some with (d := EmptyString) in Hv. done.
Qed.

(** What a client writes as records is what the server reads: parsing
    the rendered records and asking for field [index] of a key gives the
    field of the first record with that key, and the empty string for
    an unknown key or a field that is not there, without ever indexing
    outside the tokens. *)
Theorem scanner_reads_records rs key index :
  rs <> [] -> Forall record_ok rs ->
  get (parse (render rs)) key index bar 0 = Some (field rs key index).
Proof. intros Hn Hf. rewrite parse_render by done. by apply get_records. Qed.

Definition sample_records : list record :=
  [("action"%string, ["dialog_return"%string]); ("dialog_name"%string, ["drop_item"%string]);
   ("itemID"%string, ["242"%string; ""%string])].

Lemma scanner_reads_records_witness :
  get (parse (render sample_records)) "dialog_name" 1 bar 0 = Some "drop_item"%string.
Proof.
  rewrite (scanner_reads_records sample_records "dialog_name" 1).
  - reflexivity.
  - discriminate.
  - unfold sample_records. repeat constructor; discriminate.
Defined.

Example scanner_examples :
  (get_int (parse (render sample_records)) "itemID" 1 bar, parse "",
   get_all_raw (parse (render sample_records)) =? render sample_records)%string
  = (Some 242, [], true).
Proof. vm_compute. reflexivity. Qed.

Lemma cat_line key value : cat [key; str1 bar; value] = record_line (key, [value]).
Proof.
  unfold record_line. cbn [cat join_with fst snd]. f_equal.
  change (String bar (value +:+ "") = String bar value). by rewrite str_app_nil.
Qed.

(** [set] changes the value of its key and of no other. *)
Lemma set_records rs key value :
  Forall record_ok rs -> plain value = true ->
  exists rs', set (record_line <$> rs) key value bar = Some (record_line <$> rs') /\
    Forall record_ok rs' /\ (rs' = [] <-> rs = []) /\
    (forall k i, field rs' k i =
       if existsb (λ r, String.eqb r.1 key) rs && String.eqb key k
       then field [(key, [value])] k i else field rs k i).
Proof.
  intros Hf Hv. induction Hf as [|r rs Hr Hf (rs' & E & Hf' & Hn & Hl)].
  { by exists []. }
  destruct r as [k0 vs]. cbn [fmap list_fmap set].
  rewrite record_line_tokens by done. cbn [fst snd lookup list_lookup mbind option_bind].
  destruct (String.eqb_spec k0 key) as [->|Hk].
  - exists ((key, [value]) :: rs). split.
    { cbn [fmap list_fmap]. do 2 f_equal. apply (cat_line key value). }
    destruct Hr as (Hr1 & Hr2 & _).
    split; [by repeat constructor|]. split; [done|].
    intros k i. cbn [existsb fst field]. rewrite String.eqb_refl. cbn [orb andb].
    by destruct (String.eqb_spec key k).
  - cbn [mbind option_bind] in E. unfold bar in *. rewrite E. cbn [mbind option_bind].
    exists ((k0, vs) :: rs'). split; [done|]. split; [by constructor|]. split; [done|].
    intros k i. cbn [existsb fst field].
    rewrite (proj2 (String.eqb_neq k0 key)) by done. cbn [orb]. rewrite Hl.
    destruct (String.eqb_spec k0 k) as [->|]; [|done].
    destruct (String.eqb_spec key k); [congruence|]. by rewrite andb_false_r.
Qed.

(** Updating a record: after [set(key, value)] the scanner answers
    [value] for the key, if it had that key, and every other question as
    before. *)
Theorem scanner_set_then_get rs key value :
  Forall record_ok rs -> plain value = true ->
  exists m, set (record_line <$> rs) key value bar = Some m /\
    forall k i, get m k i bar 0 =
      Some (if existsb (λ r, String.eqb r.1 key) rs && String.eqb key k
            then field [(key, [value])] k i else field rs k i).
Proof.
  intros Hf Hv. destruct (set_records rs key value Hf Hv) as (rs' & E & Hf' & _ & Hl).
  eexists. split; [exact E|]. intros k i. rewrite get_records by done. by rewrite Hl.
Qed.

Lemma scanner_set_then_get_witness :
  exists m, set (record_line <$> sample_records) "itemID" "18" bar = Some m /\
    get m "itemID" 1 bar 0 = Some "18"%string /\
    get m "action" 1 bar 0 = Some "dialog_return"%string.
Proof.
  destruct (scanner_set_then_get sample_records "itemID" "18") as (m & E & H);
    [unfold sample_records; repeat constructor; discriminate|reflexivity|].
  exists m. split; [exact E|]. rewrite !H. split; reflexivity.
Defined.

End Scanner.
