(* ===== verification/Dialogs.v ===== *)
(** * Dialogs: which dialog answers of a client are handled

    Models the record of offered dialogs of
    [src/NopySource/Handle/PacketHandler.h] ([track_pending_dialog],
    [consume_pending_dialog]), the registry [dialogMap] filled by
    [Dialog_Return::Dialog] and the routing of [Action::dialog_return].
    The handlers are names: what they do is not part of this component. *)
From S2P Require Import Prelude Scanner.
Import Scanner.

Module Dialogs.

(** ** The dialogs offered to a player *)

(** [unordered_map<string, long long> pending_dialogs]: the time in
    milliseconds until which the answer is expected. *)
Abbreviation pending := (gmap string Z).

Definition ttl_ms : Z := 60 * 1000.

Definition is_back_trim (c : ascii) : bool :=
  (char_code c =? 13) || (char_code c =? 10) || (char_code c =? 32).
Definition is_front_trim (c : ascii) : bool := (char_code c =? 32) || (char_code c =? 9).

Definition trim_name (name : string) : string :=
  trim_front is_front_trim (trim_back is_back_trim name).

(** [add_name] *)
Definition add_name (now_ms : Z) (name : string) (pd : pending) : pending :=
  let name := trim_name name in
  if is_empty name || (64 <? slen name) then pd else <[name := now_ms + ttl_ms]> pd.

(** [if (!line.empty() && line.back() == '\r') line.pop_back()] *)
Fixpoint pop_cr (line : string) : string :=
  match line with
  | EmptyString => EmptyString
  | String c EmptyString => if char_code c =? 13 then EmptyString else line
  | String c line => String c (pop_cr line)
  end.

(** The name a line of the dialog text declares, before it is trimmed. *)
Definition line_name (line : string) : option string :=
  let line := pop_cr line in
  if starts_with "end_dialog|" line then Some (before bar (drop_str 11 line))
  else if starts_with "embed_data|dialog_name|" line then Some (drop_str 23 line)
  else None.

(** The garbage collection of old offers. *)
Definition unexpired (now_ms : Z) (pd : pending) : pending := filter (λ kv, now_ms <= kv.2) pd.

Definition track_pending_dialog (now_ms : Z) (text : string) (pd : pending) : pending :=
  let pd := unexpired now_ms pd in
  let pd := if (64 <? size pd)%nat then ∅ else pd in
  fold_left (λ pd line, match line_name line with
                        | Some name => add_name now_ms name pd
                        | None => pd
                        end) (getlines nl text) pd.

Definition consume_pending_dialog (now_ms : Z) (name : string) (pd : pending)
    : bool * pending :=
  match pd !! name with
  | None => (false, pd)
  | Some expiry => if expiry <? now_ms then (false, delete name pd) else (true, pd)
  end.

(** ** The registry of handlers *)

(** [Dialog_Return::Dialog], lines 213 to 346; a handler written in place is [lambda] and the
    name of its dialog. *)
Definition dialogMap_1 : list (string * string) := [
  ("setshop_dialog", "setshop_dialog"); ("plantSeed", "plantSeed");
  ("auto_harvest_action", "auto_harvest_action"); ("auto_ptht_action", "auto_ptht_action");
  ("plantSeedPicker", "plantSeedPicker"); ("harvestAll", "harvestAll");
  ("new_player_reward", "new_player_reward"); ("setbuyslot_main", "setbuyslot_main");
  ("setbuyslot_edit", "setbuyslot_edit"); ("Req_Verify_Csn", "Req_Verify_Csn");
  ("worldcategory", "worldcategory"); ("Crime_in_Progress", "Crime_in_Progress");
  ("kranken_edit", "kranken_edit"); ("Pet_Trainer", "Pet_Trainer"); ("AddBank", "AddBank");
  ("gacha_darkstone", "GachaDarkstone"); ("apply_config", "ApplyConfigDialog");
  ("apply_access_world", "ApplyConfigDialog"); ("Locke_Salesman", "Locke_Salesman");
  ("quiz_handle", "quiz_handle"); ("LockBot", "LockBot");
  ("convert_star", "handle_converter_lock_dialog"); ("buy_item_dialog", "buy_item_dialog");
  ("cfg_shop_roles_apply", "cfg_shop_roles_apply"); ("setrecipe_main", "setrecipe_main");
  ("setrecipe_editor", "setrecipe_editor"); ("setrecipe_itemsearch", "setrecipe_itemsearch");
  ("exchange_mainall", "exchange_mainall"); ("backpack_main", "HandleBackpack");
  ("backpack_store", "HandleBackpackStore"); ("backpack_confirm", "HandleBackpackConfirm");
  ("backpack_retrieve", "HandleBackpackKontol");
  ("server_control_apply", "server_control_apply"); ("sellghost", "sellghost_logic");
  ("spotify2_logic", "DialogReturn_spotify2_logic");
  ("addspotify_logic", "DialogReturn_addspotify_logic"); ("setsellghost", "setsellghost_logic");
  ("exchange_fish", "sellfish_dialog"); ("exchange_geiger", "sellcrystal_cmd");
  ("ExchangeDialog", "ExchangeDialog"); ("Nutcracker", "Nutcracker");
  ("handledungeonsui", "handledungeonsui"); ("quest_extra", "quest_extra");
  ("quest_gauntlet_step", "quest_gauntlet_step"); ("jobs_menu", "jobs_menu");
  ("jobs_quest", "jobs_quest"); ("jobs_rewards", "jobs_rewards"); ("jobs_store", "jobs_store");
  ("vippay_edit", "vippay_edit"); ("proxys", "proxys"); ("statsfish", "statsfish");
  ("exchangenew_logic", "DialogReturn_exchangenew_logic");
  ("setexchangenew_logic", "DialogReturn_setexchangenew_logic");
  ("exn_add_in_logic", "DialogReturn_exn_add_in_logic");
  ("exn_add_out_logic", "DialogReturn_exn_add_out_logic"); ("blastdesigner", "blastdesigner");
  ("blastdesigner_add", "blastdesigner_add"); ("blastdesigner_edit", "blastdesigner_edit");
  ("SocialPortal", "SocialPortal"); ("Mailbox", "Mailbox"); ("send_mailbox", "send_mailbox");
  ("do_exchange", "CustomExchangeLogic"); ("buyingmachine", "BuyingMachine");
  ("ConfirmBuyingMachine", "ConfirmBuyingMachine");
  ("ApplyCustomExchange", "ApplyCustomExchange"); ("sellcrystal_logic", "sellcrystal_logic");
  ("Buy_Slot_FCheats", "Buy_Slot_FCheats"); ("Set_Exchange_Event", "Set_Exchange_EventS");
  ("cheats", "cheats"); ("editrole_main", "editrole_main");
  ("editrole_builtin_list", "editrole_builtin_list");
  ("editrole_edit_builtin", "editrole_edit_builtin");
  ("editrole_custom_list", "editrole_custom_list");
  ("editrole_add_dialog", "editrole_add_dialog"); ("editrole_edit_form", "editrole_edit_form");
  ("editrole_confirm_del", "editrole_confirm_del");
  ("editrole_access_world_list", "editrole_access_world_list");
  ("editrole_punish_list", "editrole_punish_list"); ("editrole_cmd_list", "editrole_cmd_list");
  ("editrole_set_cmd_level", "editrole_set_cmd_level"); ("askall_main", "HandleAskAll");
  ("askall_prize", "askall_prize"); ("askall_count", "askall_count");
  ("setconsum_v1_drop", "DL_SETCONSUM_V1_DROP"); ("setconsum_v1_main", "DL_SETCONSUM_V1_MAIN");
  ("dropedit_v1_main", "DL_DROPEDIT_V1_MAIN"); ("dropedit_v1_edit", "DL_DROPEDIT_V1_EDIT");
  ("game_menu", "game_menu"); ("upgrade_world_gems", "upgrade_world_gems");
  ("team_edit", "team_edit"); ("game_update", "game_update"); ("Role_Quest", "Role_Quest");
  ("MasterLess_Quest", "MasterLess_Quest"); ("winterrally_dialog", "winterrally_dialog");
  ("report_bug", "report_bug"); ("remove_vip", "remove_vip");
  ("setsellghost_edit", "setsellghost_edit"); ("setlive_submit", "SETLIVE_SUBMIT");
  ("Set_Gems_Event", "Set_Gems_Event"); ("Set_Xp_Event", "Set_Xp_Event");
  ("server_events", "server_events");
  ("wrench_customization_select", "wrench_customization_select"); ("give_assets", "give_assets");
  ("Trade_Scan", "Trade_Scan"); ("give_cwrench", "give_cwrench"); ("give_role", "give_role");
  ("grole_picker", "grole_picker"); ("creator_bank_option", "creator_bank_option");
  ("reset_option", "reset_option"); ("Buy_Items", "Buy_Items");
  ("ramadhan_view", "RAMADHAN_DIALOG"); ("Trova Oggetto Clist", "TrovaOggettoClist");
  ("Trova Oggetto", "TrovaOggetto"); ("fishtankport", "fishtankport");
  ("Exchange_Npc", "Exchange_Npc"); ("setexchange", "setexchange"); ("setDaily", "setDaily");
  ("setDaily_edit", "setDaily_edit"); ("deris Clist", "derisClistFInd");
  ("derisFind", "derisFind"); ("finditem_bl", "finditem_bl");
  ("blacklist_list", "blacklist_list"); ("setfind_input", "setfind_input");
  ("trashall_confirm", "trashall_confirm"); ("trashall2_confirm", "trashall2_confirm");
  ("dropall_confirm", "dropall_confirm"); ("dailyReward", "dailyRewards");
  ("dailyReward_info", "dailyRewards");
  ("account_info", "lambda account_info")
]%string.

(** [Dialog_Return::Dialog], lines 368 to 480. *)
Definition dialogMap_2 : list (string * string) := [
  ("MarketPlace_Npc", "MarketPlace_Npc");
  ("OnlinePointCurrency_Shop", "OnlinePointCurrency_Shop"); ("sewing", "sewing");
  ("Wrench_PhoneBooth", "Wrench_PhoneBooth"); ("PhoneBooth_Punch", "PhoneBooth_Punch");
  ("YesPItems", "YesPItems"); ("punish_view", "punish_view"); ("ban_panel", "ban_panel");
  ("supermusic", "supermusic"); ("creator_tools", "creator_tools");
  ("Send_Message", "Send_Message"); ("Aparece_Otro", "Aparece_Otro"); ("fwallrora", "fwallrora");
  ("oven", "oven"); ("unfavorite_items_dialog", "unfavorite_items_dialog");
  ("marvelous_back", "marvelous_back"); ("collectionQuests", "collectionQuests");
  ("Bank_Central", "Bank_Central"); ("bankgem", "bankgem");
  ("transferbankgem", "transferbankgem"); ("Miner_ExPlace", "Miner_ExPlace");
  ("Miner_License", "Miner_License"); ("Miner_Forging", "Miner_Forging");
  ("change_name_pet", "change_name_pet"); ("Give_Feed_Pet", "Give_Feed_Pet");
  ("My_PetAi", "My_PetAi"); ("Punch_Event", "Punch_Event"); ("Richest_Event", "Richest_Event");
  ("top_rich", "Richest_Event"); ("DonationServer", "DonationServer");
  ("phoenix_returns", "phoenix_returns"); ("achieve_reply", "achieve_reply");
  ("gacha_system", "gacha_system"); ("xenonite_edit", "xenonite_edit");
  ("statsblock", "statsblock"); ("dynamo", "dynamo"); ("extractor", "extractor");
  ("ultra_world_spray", "ultra_world_spray"); ("deluxe_world_spray", "deluxe_world_spray");
  ("GrowPass", "GrowPass"); ("dnaproc", "dnaproc"); ("dnaget", "dnaget"); ("inv_rm", "inv_rm");
  ("set_newget", "set_newget"); ("set_dropgacha", "set_dropgacha"); ("set_redeem", "set_redeem");
  ("redeem_code", "redeem_code"); ("checkoutcounter", "checkoutcounter");
  ("recycle_machine", "recycle_machine"); ("bannerbandolier", "bannerbandolier");
  ("magic_compass", "magic_compass"); ("dialog_cernuous_mask", "dialog_cernuous_mask");
  ("sessionlength_edit", "sessionlength_edit");
  ("dialog_infinity_crown", "dialog_infinity_crown"); ("dialog_rift_wings", "dialog_rift_wings");
  ("dialog_rift_cape", "dialog_rift_cape"); ("skin_color", "skin_color"); ("News", "News");
  ("handleHalloweenShopVerification", "handleHalloweenShopVerification");
  ("halloween_tasks_popup_handle", "halloween_tasks_popup_handle");
  ("WinterFest_Shop", "WinterFest_Shop"); ("Valentine_Shop", "Valentine_Shop");
  ("Goblin_Disguise", "Goblin_Disguise"); ("mooncake_choose_dialog", "mooncake_choose_dialog");
  ("mooncake_count_dialog", "mooncake_count_dialog"); ("guide_book", "guide_book");
  ("guide_book_s", "guide_book_"); ("guide_book_c", "guide_book_");
  ("guide_book_f", "guide_book_"); ("guide_book_r", "guide_book_");
  ("dialog_minokawa", "dialog_minokawa"); ("top", "top"); ("Shop_Assets", "Shop_Assets");
  ("surge_", "surge_"); ("ss_storage", "ss_storage"); ("lvl_rewards", "lvl_rewards");
  ("roadtoglory", "roadtoglory"); ("dropall", "dropall"); ("remove_bulletin", "remove_bulletin");
  ("adventure", "adventure"); ("ban_player", "ban_player"); ("phonecall", "phonecall");
  ("added_seal_branch_1", "added_seal_branch_1"); ("added_seal_branch_2", "added_seal_branch_2");
  ("added_seal_branch_3", "added_seal_branch_3"); ("added_seal_branch_4", "added_seal_branch_4");
  ("winter_seal_rewards", "winter_seal_rewards"); ("royal_winter_wonder", "royal_winter_wonder");
  ("iotm_purchase", "iotm_purchase");
  ("remove_transmutated_dialog", "remove_transmutated_dialog");
  ("transmutated_device_edit", "transmutated_device_edit"); ("PayDialog", "PayDialog");
  ("spotify_dialog", "spotify_dialog"); ("kit_dialog", "kit_dialog"); ("setkits", "setkits");
  ("World_Default", "World_Default"); ("carnival", "carnival");
  ("carnival_give_up", "carnival_give_up"); ("giveaway_setting", "giveaway_setting");
  ("giveaway_insert", "giveaway_insert"); ("s4tb", "s4tb");
  ("exchange_dialog", "dialog_exchange"); ("adventure_join", "adventure_join");
  ("adventure_edit", "adventure_edit"); ("epoch_dialog", "epoch_dialog");
  ("infinity_machine", "infinity_machine"); ("guild_machine", "guild_machine");
  ("battlecage_edit", "battlecage_edit"); ("popup", "popup"); ("title_edit", "title_edit");
  ("custom_title_dialog", "custom_title_dialog");
  ("custom_titles_manager", "custom_titles_manager"); ("change_guild_name", "changeguildname");
  ("world_swap", "world_swap")
]%string.

(** [Dialog_Return::Dialog], lines 481 to 616. *)
Definition dialogMap_3 : list (string * string) := [
  ("surgery", "surgery"); ("auto_plant_action", "auto_plant_action");
  ("statsblockworld", "statsblockworld"); ("autoclave", "autoclave");
  ("camera_edit", "camera_edit"); ("dialog_scarf_of_seasons", "dialog_scarf_of_seasons");
  ("blast", "blast"); ("drop_item_inv", "drop_item_inv"); ("megaphone", "megaphone");
  ("notebook_edit", "notebook_edit"); ("dailyc", "dailyc"); ("trash_item_inv", "trash_item_inv");
  ("gazette", "gazette"); ("donation_box_edit", "donation_box_edit");
  ("online_status", "online_status"); ("balloonomatic_dialog", "balloonomatic_dialog");
  ("fruit_mixer_dialog", "fruit_mixer_dialog");
  ("fruit_mixer_choose_dialog", "fruit_mixer_choose_dialog");
  ("tropical_fruits_count_dialog", "tropical_fruits_count_dialog");
  ("bulletin_edit", "bulletin_edit"); ("storageboxxtreme", "storageboxxtreme");
  ("giantpotogold", "giantpotogold");
  ("transmutated_linkitem_edit", "transmutated_linkitem_edit");
  ("valentines_quest", "valentines_quest"); ("wishing_well", "wishing_well");
  ("daily_login", "daily_login"); ("ancient_goddess", "ancient_goddess");
  ("pianowings", "pianowings"); ("wizard", "wizard"); ("sawit_main", "HandleSawit");
  ("sellfish_logic", "sellfish_logic"); ("sellallfish", "sellallfish_cmd");
  ("wizard_start", "wizard_start"); ("wizard_quests", "wizard_quests");
  ("autocv_action", "autocv_action"); ("washing_machine", "washing_machine");
  ("summerfest_quest", "summerfest_quest");
  ("mooncake_reward_list_dialog", "mooncake_reward_list_dialog");
  ("mooncake_altar_dialog", "mooncake_altar_dialog");
  ("mooncake_reward_dialog", "mooncake_reward_dialog"); ("billboard_edit", "billboard_edit");
  ("dialog_eqaura", "dialog_eqaura"); ("worldreport", "worldreport");
  ("playerreport", "playerreport"); ("grinder", "grinder"); ("2646", "a2646");
  ("BARIKLANA", "BARIKLANA"); ("password_reply", "password_reply");
  ("ticket_booth", "ticket_booth"); ("handleRubblePartyShopPopup", "handleRubblePartyShopPopup");
  ("logs", "logs"); ("logs_search", "logs_search"); ("compactor", "compactor");
  ("zombie_back", "zombie_back"); ("zombie_purchase", "zombie_purchase");
  ("zurgery_back", "zurgery_back"); ("zurgery_purchase", "zurgery_purchase");
  ("wolf_back", "wolf_back"); ("wolf_purchase", "wolf_purchase"); ("3898", "a3898");
  ("cleardrop_confirm", "clear_drop"); ("Daily_Quest_Info", "Daily_Quest_Info");
  ("EarnFreeGems", "EarnFreeGems"); ("EditStore_Stock", "EditStore_Stock");
  ("EditItem_Apply", "EditItem_Apply"); ("iteminfo", "iteminfo"); ("bingo_ui", "bingo_ui");
  ("Piggy_Bank", "Piggy_Bank"); ("MarketPlace_Gtps", "MarketPlace_Gtps");
  ("Account_Security", "Account_Security"); ("Server_Info", "Server_Info");
  ("VipDailyRewards", "VipDailyRewards"); ("WinterFest_Calendar2022", "WinterFest_Calendar2022");
  ("WinterFest_Calendar2023", "WinterFest_Calendar2023");
  ("WinterFest_Calendar2024", "WinterFest_Calendar2024"); ("zz", "zz");
  ("backto_personalreward", "backto_personalreward");
  ("backto_guildreward", "backto_guildreward");
  ("backto_limitclashrewards", "backto_limitclashrewards");
  ("backto_clashrewards", "backto_clashrewards"); ("backtoleader", "backtoleader");
  ("backto_leaderboard", "backto_leaderboard"); ("grow_event", "grow_event"); ("wls", "wls");
  ("gag", "handlebuygag"); ("inv_take_confirm", "inv_take_confirm");
  ("consum_gems", "consum_gems"); ("requestcreateguildpage", "requestcreateguildpage");
  ("unaccess", "unaccess"); ("show_guild_logs", "show_guild_logs");
  ("acceptaccess", "acceptaccess"); ("Guild_Notebook", "Guild_Notebook");
  ("upgrading_guild", "upgrading_guild"); ("sdbrespond", "sdbrespond"); ("sdbsend", "sdbsend");
  ("sign_edit", "sign_edit"); ("confirmguildlockkey", "confirmguildlockkey");
  ("worlds_list", "worlds_list"); ("confirmguild", "confirmguild");
  ("createguild", "createguild");
  ("guild_member_role_change_finish", "guild_member_role_change_finish");
  ("guild_member_role_change", "guild_member_role_change");
  ("guild_member_remove_finish", "guild_member_remove_finish");
  ("guild_member_remove", "guild_member_remove"); ("guild_member_edit", "guild_member_edit");
  ("guild_statement_edit", "guild_statement_edit"); ("sellstuff", "sellstuff");
  ("sellstuffconfirm", "sellstuffconfirm"); ("trade_item", "trade_item");
  ("trade_confirm", "trade_confirm"); ("friends_remove_finish", "friends_remove_finish");
  ("friends_remove", "friends_remove"); ("friends_ignore", "friends_ignore");
  ("friends_message", "friends_message"); ("friends_edit", "friends_edit");
  ("guildmembers", "guildmembers"); ("leave_guild", "leaveguild"); ("friends", "friends");
  ("Trova Oggetto Clist", "TrovaOggettoClist"); ("Trova Oggetto", "TrovaOggetto");
  ("crystal_exchange", "crystal_exchange"); ("Login_Regis_Handle", "Login_Regis_Handle");
  ("welcome_newget", "welcome_newget"); ("euphoriaEventUI", "euphoriaEventUI");
  ("Upgrade_DigiVend", "Upgrade_DigiVend"); ("create_world_ui", "confirm_createworld");
  ("ultramen_spray", "ultramen_spray"); ("SetExchangeNpc", "SetExchangeNpc");
  ("Exchange_Npc", "Exchange_Npc"); ("giveaway_role_dialog", "giveaway_role");
  ("dialog_dropchance", "dialog_dropchance");
  ("buy_role_dialog_confirm", "buy_role_dialog_confirm"); ("e", "custom_exchange_sell");
  ("recipe_view", "recipe_view_logic"); ("set_claimrole", "handle_setclaimrole");
  ("door_travel", "door_travel")
]%string.

(** [Dialog_Return::Dialog], lines 617, 687, 733 and 736. *)
Definition dialogMap_4 : list (string * string) := [
  ("pair_menu", "lambda pair_menu"); ("pair_req", "lambda pair_req");
  ("clearworld_confirm", "lambda clearworld_confirm"); ("setshop_dialog", "setshop_dialog")
]%string.

(** [dialogMap] after [Dialog_Return::Dialog]: a later assignment replaces
    an earlier one. *)
Definition registry (l : list (string * string)) : gmap string string :=
  fold_left (λ m kv, <[kv.1 := kv.2]> m) l ∅.

Definition dialogMap : gmap string string :=
  registry (dialogMap_1 ++ dialogMap_2 ++ dialogMap_3 ++ dialogMap_4).

(** ** [Action::dialog_return] *)

Inductive route :=
| NoDialog                       (* the text names no dialog *)
| CancelTrade                    (* [cancel_trade(peer, false, true)] *)
| Handler (name : string)        (* the registered handler runs *)
| Command (name : string)        (* a function of [Commands] runs *)
| CallDialog                     (* [call_dialog(peer, cch)] runs *)
| Dropped.                       (* nothing runs *)

(** The names sent to [call_dialog] without a look at the offered
    dialogs. *)
Definition direct_dialogs : list string := [
  "dispshelf"; "abondonguild"; "portrait"; "artcanvas"; "get_seed_diary_data"; "mannequin_edit";
  "vip_edit"; "weatherspcl"; "itemaddedtosucker"; "itemremovedfromsucker"; "itemsucker_block";
  "autoactionblock"; "blaster"; "switcheroo_edit"; "door_edit"; "vending"; "displayblock";
  "friends_ignore"; "mute_friend"; "block_friend"; "friends_message"; "friends_edit";
  "friends_options"; "send_mailbox"; "mute_all_friends"; "remove_all_friends";
  "block_all_friends"; "all_friends"; "show_guild_logs"; "guild_statement_edit";
  "guild_members_options"; "guildmembers"; "leave_guild"; "Guild_Notebook";
  "guild_member_role_change_finish"; "guild_member_role_change"; "guild_member_remove_finish";
  "guild_member_remove"; "guild_member_edit"; "friends"; "unaccess"; "confirmguild";
  "createguild"; "requestcreateguildpage"; "acceptaccess"; "worlds_list"; "lock_edit";
  "editguildlock"; "create_guild_mascot"; "trash_item"; "drop_item"; "trash_item2"
]%string.

Definition names_dialog (cch name : string) : bool :=
  str_contains ("dialog_name|" +:+ name) cch.

Definition guild_command (cch : string) : option string :=
  let clicked (b : string) := str_contains ("buttonClicked|" +:+ b) cch in
  if clicked "guild_clash_leaderboard" then Some "GUILDCLASH_LB"%string
  else if clicked "guild_clash_info" then Some "GUILDCLASH_INFO"%string
  else if clicked "guild_clash_menu" then Some "GUILDCLASH"%string
  else if clicked "warp_guild_world" then Some "GUILDCLASH_WARP"%string
  else if clicked "event_clash_rewards_tree" then Some "ExchangeDialog"%string
  else None.

(** The [else] of the look-up in [dialogMap]. *)
Definition unregistered (now_ms : Z) (cch dialog : string) (pd : pending) : route * pending :=
  if names_dialog cch "auto_ptht_action" then (Command "DO_AUTO_HARVEST_PROVIDER", pd)
  else
    let guild :=
      names_dialog cch "guild_clash_menu_dlg" || names_dialog cch "guild_clash_lb_dlg" ||
      names_dialog cch "guild_clash_info_dlg" in
    match (if (guild : bool) then guild_command cch else None) with
    | Some c => (Command c, pd)
    | None =>
        if existsb (names_dialog cch) direct_dialogs then (CallDialog, pd)
        else
          let '(offered, pd) := consume_pending_dialog now_ms dialog pd in
          if (offered : bool) then (Dropped, pd) else (CallDialog, pd)
    end.

Definition dialog_return (now_ms : Z) (trading_with : Z) (cch : string) (pd : pending)
    : option (route * pending) :=
  '(found, dialog) ← try_get (parse cch) "dialog_name" "";
  if negb found then Some (NoDialog, pd) else
  match dialogMap !! dialog with
  | Some handler =>
      if negb (trading_with =? -1) && negb (str_contains "trade_" cch)
      then Some (CancelTrade, pd) else Some (Handler handler, pd)
  | None => Some (unregistered now_ms cch dialog pd)
  end.

(** ** Histories of offers and answers *)

Inductive event :=
| Offer (t : Z) (text : string)   (* a dialog is sent at time [t] *)
| Reply (t : Z) (name : string).  (* an answer is looked up at time [t] *)

Definition event_time (e : event) : Z := match e with Offer t _ | Reply t _ => t end.

Definition step (pd : pending) (e : event) : pending :=
  match e with
  | Offer t text => track_pending_dialog t text pd
  | Reply t name => (consume_pending_dialog t name pd).2
  end.

Definition run (h : list event) : pending := fold_left step h ∅.

(** The names a dialog text declares. *)
Definition name_ok (name : string) : bool := negb (is_empty name || (64 <? slen name)).

Definition offered_names (text : string) : list string :=
  filter (λ n, name_ok n = true) (trim_name <$> omap line_name (getlines nl text)).

Definition names_of (e : event) : list string :=
  match e with Offer _ text => offered_names text | Reply _ _ => [] end.

Definition insert_names (now_ms : Z) (names : list string) (pd : pending) : pending :=
  fold_left (λ pd name, <[name := now_ms + ttl_ms]> pd) names pd.

(** What [track_pending_dialog] keeps of the older offers. *)
Definition swept (now_ms : Z) (pd : pending) : pending :=
  let pd := unexpired now_ms pd in if (64 <? size pd)%nat then ∅ else pd.

Lemma fold_lines now_ms lines : forall pd,
  fold_left (λ pd line, match line_name line with
                        | Some name => add_name now_ms name pd
                        | None => pd
                        end) lines pd =
  insert_names now_ms (filter (λ n, name_ok n = true) (trim_name <$> omap line_name lines)) pd.
Proof.
  induction lines as [|l lines IH]; intros pd; [done|].
  cbn [fold_left omap list_omap]. rewrite IH. destruct (line_name l) as [n|]; [|done].
  cbn [fmap list_fmap]. rewrite filter_cons. unfold add_name, name_ok.
  by destruct (is_empty (trim_name n) || (64 <? slen (trim_name n))); case_decide.
Qed.

Lemma track_eq now_ms text pd :
  track_pending_dialog now_ms text pd = insert_names now_ms (offered_names text) (swept now_ms pd).
Proof. unfold track_pending_dialog. by rewrite fold_lines. Qed.

Lemma insert_names_lookup now_ms names name : forall pd,
  insert_names now_ms names pd !! name =
  if decide (name ∈ names) then Some (now_ms + ttl_ms) else pd !! name.
Proof.
  induction names as [|n names IH]; intros pd; [done|].
  unfold insert_names in *. cbn [fold_left]. rewrite IH.
  destruct (decide (name ∈ names)) as [H1|H1], (decide (name ∈ n :: names)) as [H2|H2].
  - done.
  - set_solver.
  - apply elem_of_cons in H2 as [->|]; [|done]. apply lookup_insert_eq.
  - apply lookup_insert_ne. set_solver.
Qed.

Lemma unexpired_size now_ms pd : (size (unexpired now_ms pd) <= size pd)%nat.
Proof. apply map_subseteq_size, map_filter_subseteq. Qed.

Lemma swept_Some now_ms pd name v : swept now_ms pd !! name = Some v -> pd !! name = Some v.
Proof.
  unfold swept. destruct (64 <? _)%nat; [by intros ?%lookup_empty_Some|].
  by intros [? _]%map_lookup_filter_Some.
Qed.

Lemma swept_keep now_ms pd name v :
  (size pd <= 64)%nat -> pd !! name = Some v -> now_ms <= v -> swept now_ms pd !! name = Some v.
Proof.
  intros Hs Hv Ht. unfold swept.
  pose proof (unexpired_size now_ms pd).
  destruct (Nat.ltb_spec 64 (size (unexpired now_ms pd))); [lia|].
  by apply map_lookup_filter_Some.
Qed.

Lemma swept_size now_ms pd : (size (swept now_ms pd) <= size pd `min` 64)%nat.
Proof.
  unfold swept.
  pose proof (unexpired_size now_ms pd).
  destruct (Nat.ltb_spec 64 (size (unexpired now_ms pd))); [|lia].
  rewrite map_size_empty. lia.
Qed.

Lemma insert_names_size now_ms names : forall pd,
  (size (insert_names now_ms names pd) <= size pd + length names)%nat.
Proof.
  induction names as [|n names IH]; intros pd; [cbn; lia|].
  unfold insert_names in *. cbn [fold_left length]. rewrite IH, map_size_insert.
  case_match; cbn; lia.
Qed.

Lemma consume_Some t name pd k v :
  (consume_pending_dialog t name pd).2 !! k = Some v -> pd !! k = Some v.
Proof.
  unfold consume_pending_dialog. repeat case_match; cbn [snd]; try done.
  by intros [_ ?]%lookup_delete_Some.
Qed.

Lemma consume_size t name pd :
  (size (consume_pending_dialog t name pd).2 <= size pd)%nat.
Proof.
  unfold consume_pending_dialog. repeat case_match; cbn [snd]; try lia.
  rewrite map_size_delete. destruct (pd !! name); unfold id; lia.
Qed.

Lemma run_snoc h e : run (h ++ [e]) = step (run h) e.
Proof. unfold run. by rewrite fold_left_app. Qed.

(** Every entry comes from an offer and lives 60 seconds. *)
Lemma run_offered h name v : run h !! name = Some v ->
  exists t text, Offer t text ∈ h /\ name ∈ offered_names text /\ v = t + ttl_ms.
Proof.
  revert v. induction h as [|e h IH] using rev_ind; intros v; [done|].
  rewrite run_snoc. intros Hv.
  assert (forall w, run h !! name = Some w -> w = v ->
    exists t text, Offer t text ∈ h ++ [e] /\ name ∈ offered_names text /\ v = t + ttl_ms) as Hold.
  { intros w Hw ->. destruct (IH v Hw) as (t & text & ? & ? & ?).
    exists t, text. split; [|done]. apply elem_of_app. by left. }
  destruct e as [t text|t n]; cbn [step] in Hv.
  - rewrite track_eq, insert_names_lookup in Hv. case_decide as Hin.
    + simplify_eq. exists t, text. split; [|done]. apply elem_of_app. right. set_solver.
    + apply swept_Some in Hv. by eapply Hold.
  - apply consume_Some in Hv. by eapply Hold.
Qed.

(** Names offered in a history. *)
Definition names_total (h : list event) : nat := length (mjoin (names_of <$> h)).

Lemma names_total_snoc h e : names_total (h ++ [e]) = (names_total h + length (names_of e))%nat.
Proof.
  unfold names_total. rewrite fmap_app, join_app, length_app. cbn. by rewrite app_nil_r.
Qed.

Lemma run_size h : (size (run h) <= names_total h)%nat.
Proof.
  induction h as [|e h IH] using rev_ind; [done|].
  rewrite run_snoc, names_total_snoc. destruct e as [t text|t n]; cbn [step names_of].
  - rewrite track_eq. pose proof (insert_names_size t (offered_names text) (swept t (run h))).
    pose proof (swept_size t (run h)). lia.
  - pose proof (consume_size t n (run h)). cbn. lia.
Qed.

(** ** The properties *)

(** A name that is found in the record was declared by one of the offered
    texts at most 60 seconds earlier. *)
Lemma consume_offered h now name :
  (consume_pending_dialog now name (run h)).1 = true ->
  exists t text, Offer t text ∈ h /\ name ∈ offered_names text /\ now <= t + ttl_ms.
Proof.
  unfold consume_pending_dialog. destruct (run h !! name) as [v|] eqn:E; [|done].
  destruct (Z.ltb_spec v now); [done|]. intros _.
  destruct (run_offered h name v E) as (t & text & ? & ? & ->). by exists t, text.
Qed.

Definition shop_text : string := cat ["add_button|buy|Buy|"; endl; "end_dialog| shop |Close|"; endl].

(** The offer of [name] survives the events of the next minute. *)
Lemma offer_survives name t0 h : forall h2,
  (names_total (h ++ h2) <= 64)%nat ->
  Forall (λ e, t0 <= event_time e <= t0 + ttl_ms) h2 ->
  (exists v, run h !! name = Some v /\ t0 + ttl_ms <= v) ->
  exists v, run (h ++ h2) !! name = Some v /\ t0 + ttl_ms <= v.
Proof.
  induction h2 as [|e h2 IH] using rev_ind; intros Hn Ht Hv; [by rewrite app_nil_r|].
  apply Forall_app in Ht as [Ht2 Hte]. apply list.Forall_cons in Hte as [Hte _].
  rewrite app_assoc, names_total_snoc in Hn.
  destruct IH as (v & Hv2 & Hle); [lia|done|done|].
  rewrite app_assoc, run_snoc. pose proof (run_size (h ++ h2)).
  destruct e as [t text|t n]; cbn [step event_time] in *.
  - rewrite track_eq, insert_names_lookup. case_decide; [eexists; split; [done|lia]|].
    exists v. split; [|done]. apply swept_keep; [lia|done|lia].
  - exists v. split; [|done]. unfold consume_pending_dialog. case_match; [|done].
    case_match; [|done]. cbn [snd]. rewrite lookup_delete_ne; [done|].
    intros ->. simplify_eq. lia.
Qed.

(** An offered name stays in the record for a minute, when at most 64 names
    have been offered in all. *)
Lemma offered_consumed h1 h2 t0 text now name :
  name ∈ offered_names text ->
  (names_total (h1 ++ Offer t0 text :: h2) <= 64)%nat ->
  Forall (λ e, t0 <= event_time e <= t0 + ttl_ms) h2 -> now <= t0 + ttl_ms ->
  (consume_pending_dialog now name (run (h1 ++ Offer t0 text :: h2))).1 = true.
Proof.
  intros Hin Hn Ht Hnow.
  rewrite cons_middle, app_assoc in *.
  destruct (offer_survives name t0 (h1 ++ [Offer t0 text]) h2) as (v & Hv & Hle); try done.
  - exists (t0 + ttl_ms). split; [|lia]. rewrite run_snoc. cbn [step].
    rewrite track_eq, insert_names_lookup. by case_decide.
  - unfold consume_pending_dialog. rewrite Hv. by rewrite (proj2 (Z.ltb_ge v now)) by lia.
Qed.

(** The text chooses what to run by itself. *)
Definition direct (cch : string) : bool :=
  names_dialog cch "auto_ptht_action" || existsb (names_dialog cch) direct_dialogs ||
  ((names_dialog cch "guild_clash_menu_dlg" || names_dialog cch "guild_clash_lb_dlg" ||
    names_dialog cch "guild_clash_info_dlg") && bool_decide (guild_command cch <> None)).

(** What runs where neither a handler nor a direct name is found. *)
Lemma dialog_gate now trading cch dialog pd :
  try_get (parse cch) "dialog_name" "" = Some (true, dialog) ->
  dialogMap !! dialog = None -> direct cch = false ->
  exists pd', dialog_return now trading cch pd =
    Some (if (consume_pending_dialog now dialog pd).1 then Dropped else CallDialog, pd').
Proof.
  intros Hget Hmap Hd. unfold dialog_return. rewrite Hget. cbn [mbind option_bind negb].
  rewrite Hmap. unfold direct in Hd. rewrite !orb_false_iff in Hd. destruct Hd as [[H1 H2] H3].
  unfold unregistered. rewrite H1. cbn zeta.
  assert ((if names_dialog cch "guild_clash_menu_dlg" || names_dialog cch "guild_clash_lb_dlg" ||
              names_dialog cch "guild_clash_info_dlg" then guild_command cch else None) = None) as ->.
  { destruct (names_dialog cch "guild_clash_menu_dlg" || names_dialog cch "guild_clash_lb_dlg" ||
              names_dialog cch "guild_clash_info_dlg"); [|done].
    cbn [andb] in H3. apply bool_decide_eq_false in H3.
    destruct (guild_command cch); [by destruct H3|done]. }
  rewrite H2. destruct (consume_pending_dialog now dialog pd) as [[] pd']; by exists pd'.
Qed.

(** C37: the gate of [Action::dialog_return] works the wrong way round. Let
    the text of an answer name a dialog without a registered handler and
    outside of the names that are handled directly, after any history [h] of
    offered texts and looked up names with any clock. Then the server either
    drops the answer or runs [call_dialog]. It drops it only if the dialog
    was offered at most 60 seconds earlier, so an answer to a dialog that was
    never offered, or long ago, runs [call_dialog]. And it does drop it if
    the dialog was offered at [t0], at most 64 names have been offered in all
    (above 64 the record is cleared), and everything since then, the answer
    included, happened within the 60 seconds from [t0] on: the player's answer
    to what the server has just shown runs nothing. *)
Theorem dialog_gate_inverted h now trading cch dialog :
  try_get (parse cch) "dialog_name" "" = Some (true, dialog) ->
  dialogMap !! dialog = None -> direct cch = false ->
  exists r pd', dialog_return now trading cch (run h) = Some (r, pd') /\
    (r = Dropped \/ r = CallDialog) /\
    (r = Dropped -> exists t text, Offer t text ∈ h /\ dialog ∈ offered_names text /\ now <= t + ttl_ms) /\
    (forall h1 t0 text h2, h = h1 ++ Offer t0 text :: h2 -> dialog ∈ offered_names text ->
       (names_total h <= 64)%nat -> Forall (λ e, t0 <= event_time e <= t0 + ttl_ms) h2 ->
       now <= t0 + ttl_ms -> r = Dropped).
Proof.
  intros Hget Hmap Hd. destruct (dialog_gate now trading cch dialog (run h) Hget Hmap Hd) as (pd' & E).
  eexists _, pd'. split; [exact E|]. split; [|split].
  - destruct (consume_pending_dialog _ _ _).1; tauto.
  - destruct (consume_pending_dialog now dialog (run h)).1 eqn:Ec; [|done]. intros _.
    by apply consume_offered.
  - intros h1 t0 text h2 -> Hin Hn Ht Hnow. by rewrite (offered_consumed h1 h2 t0 text now dialog).
Qed.

Definition rules_answer : string :=
  cat ["action|dialog_return"; endl; "dialog_name|rules_page"; endl; "buttonClicked|ok"].

Definition rules_text : string := cat ["add_button|ok|Ok|"; endl; "end_dialog| rules_page |Close|"; endl].

Lemma dialog_gate_inverted_witness :
  (exists pd', dialog_return 5000 (-1) rules_answer (run [Offer 1000 rules_text]) = Some (Dropped, pd')) /\
  (exists pd', dialog_return 5000 (-1) rules_answer (run []) = Some (CallDialog, pd')).
Proof.
  split.
  - destruct (dialog_gate_inverted [Offer 1000 rules_text] 5000 (-1) rules_answer "rules_page")
      as (r & pd' & E & _ & _ & H); [vm_compute; reflexivity ..|]. exists pd'. rewrite E.
    rewrite (H [] 1000 rules_text []); [done|done|vm_compute; left|vm_compute; lia|constructor|unfold ttl_ms; lia].
  - destruct (dialog_gate_inverted [] 5000 (-1) rules_answer "rules_page")
      as (r & pd' & E & Hr & H & _); [vm_compute; reflexivity ..|]. exists pd'. rewrite E.
    destruct Hr as [->| ->]; [|done]. destruct (H eq_refl) as (t & text & Ht & _). by apply elem_of_nil in Ht.
Defined.

End Dialogs.
