(* ===== verification/Dispatch.v ===== *)
(** * Dispatch: what the server does with a packet from a client

    Models the [ENET_EVENT_TYPE_RECEIVE] case of the main loop of
    [src/NopySource.cpp] with the helpers of
    [src/NopySource/Handle/BaseServer.h] it calls, the registry of
    [Action::Action_Map] and of [Server_Pool::Events].  The handlers, the
    login and the saving of players are effects; the clocks are
    arguments: [now] is the system clock in milliseconds, [steady] the
    steady clock in nanoseconds. *)
From S2P Require Import Prelude Memory Tank Scanner.
Import Memory Scanner.

Module Dispatch.

(** ** Reading a packet *)

Definition NET_MESSAGE_GENERIC_TEXT : Z := 2.
Definition NET_MESSAGE_GAME_MESSAGE : Z := 3.
Definition NET_MESSAGE_GAME_PACKET : Z := 4.

Definition GetMessageTypeFromPacket (packet : list Z) : Z :=
  if 3 <? u32 (Z.of_nat (length packet)) then nth 0 packet 0 else 0.

(** The bytes of a C string: up to the first null. *)
Fixpoint c_string (bs : list Z) : option string :=
  match bs with
  | [] => None
  | b :: bs => if b =? 0 then Some EmptyString else s ← c_string bs; Some (String (char_of b) s)
  end.

(** The last byte becomes a null; the text starts at byte 4. *)
Definition GetTextPointerFromPacket (packet : list Z) : option string :=
  if (length packet =? 0)%nat then None
  else c_string (drop 4 (removelast packet ++ [0])).

Definition isASCII (s : string) : bool := all_chars (λ c, char_code c <=? 127) s.

(** [explode(delimiter, str)] for a delimiter of one character. *)
Definition explode (delimiter : ascii) (str : string) : list string :=
  if all_chars (λ c, negb (Ascii.eqb c delimiter)) str &&
     negb (Ascii.eqb delimiter nl) && negb (Ascii.eqb delimiter (char_of 44))
  then replicate 30 EmptyString
  else split_on delimiter str.

(** [replaceAll(str, from, to)], [from] not empty: [skip] is what is left of
    the occurrence that was replaced. *)
Fixpoint replace_skip (from to : string) (skip : nat) (str : string) : string :=
  match str with
  | EmptyString => EmptyString
  | String c str' =>
      match skip with
      | S skip => replace_skip from to skip str'
      | O => if starts_with from str
             then to +:+ replace_skip from to (String.length from - 1) str'
             else String c (replace_skip from to 0 str')
      end
  end.

Definition replaceAll (str from to : string) : string :=
  if is_empty from then str else replace_skip from to 0 str.

(** ** The registries *)

(** The actions of [Action::Action_Map], in the order of their registration. *)
Definition actionMap : list (string * string) := [
  ("input", "input"); ("refresh_item_data", "refresh_item_data"); ("growid", "growid");
  ("enter_game", "Enter_Game"); ("wrench", "wrench"); ("mod_trade", "Mod_Trade");
  ("rem_trade", "Rem_Trade"); ("trade_accept", "trade_accept"); ("trade_cancel", "trade_cancel");
  ("trade_check_price", "trade_check_price"); ("setRoleIcon", "SetRole");
  ("setRoleSkin", "SetRole"); ("setSkin", "setSkin"); ("drop", "drop"); ("trash", "trash");
  ("info", "info"); ("halloweenquestpopup", "halloweenquestpopup");
  ("warp_player_into_halloween_world", "warp_player_into_halloween_world");
  ("rt_grope_gem_halloween_bundle", "rt_grope_gem_halloween_bundle");
  ("valentine_valuepack", "valentine_valuepack");
  ("valentine_starterpack", "valentine_starterpack");
  ("winterfest_eventpack", "winterfest_eventpack"); ("winterrallymenu", "winterrallymenu");
  ("winter_bingo_ui", "winter_bingo_ui"); ("royalwinterseals", "royalwinterseals");
  ("opengachasystem", "opengachasystem"); ("growpass", "growpass");
  ("assets_shop", "assets_shop"); ("buy_growpass", "assets_shop");
  ("showphoenixreturns", "showphoenixreturns"); ("buy", "buy"); ("killstore", "killstore");
  ("respawn", "respawn"); ("respawn_spike", "respawn"); ("validate_world", "validate_world");
  ("inventoryfavuitrigger", "inventoryfavuitrigger"); ("itemfavourite", "itemfavourite");
  ("store", "store"); ("communitytabs", "communitytabs");
  ("dailychallengemenu", "dailychallengemenu"); ("iotm_shop", "iotm_shop");
  ("opc_shop", "opc_shop"); ("storenavigate", "storenavigate"); ("eventmenu", "eventmenu");
  ("donationservermenu", "donationservermenu"); ("openeventmenu", "eventmenu");
  ("event_clash_rewards", "event_clash_rewards"); ("exchange_fish", "exchange_fish");
  ("open_autoptht", "open_autoptht"); ("open_autocv", "open_autocv"); ("autocv", "open_autocv");
  ("open_marketplace", "open_marketplace"); ("marketplace", "open_marketplace");
  ("guild_clash_menu", "guild_clash_menu"); ("guild_event", "guild_clash_menu");
  ("guild_clash_leaderboard", "guild_clash_leaderboard");
  ("guild_clash_info", "guild_clash_info"); ("warp_guild_world", "warp_guild_world");
  ("toprichmenu", "toprichmenu"); ("game_menu", "game_menu");
  ("showredeemcodewindow", "showredeemcodewindow"); ("friends", "friends");
  ("handle_gems_shop", "handle_gems_shop"); ("openPiggyBank", "openPiggyBank");
  ("openPageFreeGems", "openPageFreeGems"); ("showdungeonsui", "showdungeonsui");
  ("showcustomexchangedialog", "OPEN_EXCHANGE_DIALOG");
  ("leaderboardBtnClicked", "leaderboardBtnClicked");
  ("euphoriaBtnClicked", "euphoriaBtnClicked"); ("quit", "quit");
  ("quit_to_exit", "quit_to_exit"); ("gohomeworld", "gohomeworld");
  ("join_request", "join_request"); ("world_button", "world_button");
  ("trade_started", "trade_started"); ("dialog_return", "dialog_return");
  ("on_use_door_tutorial", "noop_action"); ("getDRAnimations", "noop_action");
  ("refresh_player_tribute_data", "noop_action"); ("get_seed_diary_data", "noop_action");
  ("complete_seeddiary_tutorial", "noop_action"); ("setFilter", "noop_action");
  ("survey", "noop_action")
]%string.

(** Assigning to the map replaces an earlier entry. *)
Definition actions : gmap string string :=
  fold_left (λ m kv, <[kv.1 := kv.2]> m) actionMap ∅.

(** [Server_Pool::Events] *)
Definition eventMap : list (Z * string) := [
  (0, "PACKET_STATE"); (3, "PACKET_TILE_CHANGE_REQUEST"); (7, "PACKET_TILE_ACTIVATE_REQUEST");
  (10, "PACKET_ITEM_ACTIVATE_REQUEST"); (11, "PACKET_ITEM_ACTIVATE_OBJECT_REQUEST");
  (18, "PACKET_SET_ICON_STATE"); (22, "PACKET_PING_REQUEST"); (23, "PACKET_GOT_PUNCHED");
  (24, "PACKET_APP_CHECK_RESPONSE"); (25, "PACKET_APP_INTEGRITY_FAIL");
  (76, "PACKET_PROXY_CHECK_RESPONSE")
]%string.

Fixpoint event_handler (ty : Z) (l : list (Z * string)) : option string :=
  match l with
  | [] => None
  | (k, h) :: l => if k =? ty then Some h else event_handler ty l
  end.

(** ** The state of the sender *)

(** [lastActionSent] and [totalActionSent] are the two [int]s of
    [packetSent]; [has_data] is [peer->data != NULL]. *)
Record Session := mkSession {
  has_data : bool;
  Has_Login : bool; bypass : bool; AccountSecured : bool;
  fa_ip : string; ip : string; tankIDName : string; world : string;
  lastActionSent : Z; totalActionSent : Z;
  lpps24 : Z; pps24 : Z; lastPacketTime : Z
}.

Definition with_sent (last total : Z) (s : Session) : Session :=
  mkSession (has_data s) (Has_Login s) (bypass s) (AccountSecured s) (fa_ip s) (ip s)
    (tankIDName s) (world s) last total (lpps24 s) (pps24 s) (lastPacketTime s).
Definition with_pps (lpps pps : Z) (s : Session) : Session :=
  mkSession (has_data s) (Has_Login s) (bypass s) (AccountSecured s) (fa_ip s) (ip s)
    (tankIDName s) (world s) (lastActionSent s) (totalActionSent s) lpps pps (lastPacketTime s).
Definition with_packet_time (t : Z) (s : Session) : Session :=
  mkSession (has_data s) (Has_Login s) (bypass s) (AccountSecured s) (fa_ip s) (ip s)
    (tankIDName s) (world s) (lastActionSent s) (totalActionSent s) (lpps24 s) (pps24 s) t.
Definition without_data (s : Session) : Session :=
  mkSession false (Has_Login s) (bypass s) (AccountSecured s) (fa_ip s) (ip s)
    (tankIDName s) (world s) (lastActionSent s) (totalActionSent s) (lpps24 s) (pps24 s)
    (lastPacketTime s).

Inductive effect :=
| EConsole (text : string)          (* [VarList::OnConsoleMessage] *)
| EDisconnect                       (* [Peer_Disconnect(peer, 0)] *)
| EReset                            (* [Peer_Reset(peer)] *)
| ENote (code : Z)                  (* a line of [Account_Notes] with this code *)
| ESave                             (* [SaveDatabase::Players] *)
| ELogText (cch : string)           (* [SaveCchLogs] *)
| ELogin (cch : string)             (* [SystemPool::PlayerLogin] *)
| EAction (handler cch : string)    (* a handler of [actionMap] *)
| EEvent (handler : string) (p : Tank.PlayerMoving)   (* a handler of [eventMap] *)
| EFailedToEnterWorld
| EUnhandled.                       (* a line of the server log *)

Definition too_many : string := "`7Your client sending too many packets. attempt to reconnect".

(** The sender is flagged, saved, disconnected and its data freed. *)
Definition kick (code : Z) (s : Session) : Session * list effect :=
  (without_data s, [ENote code; EConsole too_many; ESave; EDisconnect]).

(** ** The three kinds of packets *)

(** [actionMap[action](peer, cch)] for the action the text names. *)
Definition run_action (cch : string) : option (list effect) :=
  '(found, action) ← try_get (parse cch) "action" "";
  Some (if (found : bool) then
          match actions !! action with
          | Some h => [EAction h cch]
          | None => [EUnhandled]
          end
        else []).

Definition ignored_actions : list string := [
  "action|getDRAnimations"; "action|refresh_player_tribute_data"; "action|get_seed_diary_data";
  "action|survey"; "action|setFilter"; "action|complete_seeddiary_tutorial"]%string.

(** The counter of text packets: the new [lastActionSent] and
    [totalActionSent].  [lastActionSent] is an [int]. *)
Definition count_action (now : Z) (s : Session) : Session :=
  let last := if lastActionSent s =? 0 then i32 (now + 1000) else lastActionSent s in
  if now <=? last then with_sent last (i32 (totalActionSent s + 1)) s else with_sent 0 0 s.

Definition generic_text (now : Z) (packet : list Z) (s : Session)
    : option (Session * list effect) :=
  cch ← GetTextPointerFromPacket packet;
  if negb (isASCII cch) || existsb (λ a, str_contains a cch) ignored_actions
  then Some (s, [ELogText cch])
  else
    let s := count_action now s in
    if 10 <=? totalActionSent s then
      let '(s, es) := kick 1 s in Some (s, ELogText cch :: es)
    else if negb (Has_Login s) then
      Some (s, [ELogText cch; ELogin (replaceAll cch "/p" endl)])
    else es ← run_action cch; Some (s, ELogText cch :: es).

Definition game_message (packet : list Z) (s : Session) : option (Session * list effect) :=
  if negb (bypass s) then Some (s, [ENote 2; EReset])
  else
    cch ← GetTextPointerFromPacket packet;
    if (AccountSecured s && negb (String.eqb (fa_ip s) (ip s))) ||
       (is_empty (tankIDName s) &&
        String.eqb (nth 0 (explode nl cch) EmptyString) "action|join_request")
    then Some (s, [EFailedToEnterWorld])
    else es ← run_action cch; Some (s, es).

(** An unpacked tank packet that passed the rate limit. *)
Definition run_event (steady : Z) (p : Tank.PlayerMoving) (s : Session)
    : Session * list effect :=
  match event_handler (Tank.packetType p) eventMap with
  | Some h => (s, [EEvent h p])
  | None =>
      if Z.quot (steady - lastPacketTime s) 1000000000 <? 5 then (s, [EDisconnect])
      else (with_packet_time steady s, [EUnhandled])
  end.

Definition tank_rate (now steady : Z) (p : Tank.PlayerMoving) (s : Session)
    : Session * list effect :=
  if lpps24 s + 25 <? now then run_event steady p (with_pps now 0 s)
  else
    let s := with_pps (lpps24 s) (i32 (pps24 s + 1)) s in
    if 50 <=? pps24 s then
      let ty := Tank.packetType p in
      let todc := if (ty =? 3) || (ty =? 11) || (ty =? 0) then 500 else 15 in
      if todc <=? pps24 s then kick 3 s else (s, [])
    else run_event steady p s.

Definition game_packet (now steady : Z) (packet : list Z) (s : Session)
    : option (Session * list effect) :=
  if is_empty (tankIDName s) || is_empty (world s) || String.eqb (world s) "EXIT"
  then Some (s, [])
  else
    '(ok, m) ← Tank.GetStructPointerFromTankPacket (Tank.written packet);
    if negb ok then Some (s, [])
    else p ← Tank.unpackPlayerMoving (Some (drop 4 m)); Some (tank_rate now steady p s).

(** ** [ENET_EVENT_TYPE_RECEIVE] *)

Definition receive (now steady incomingDataTotal : Z) (packet : list Z) (s : Session)
    : option (Session * list effect) :=
  if negb (has_data s) then Some (s, []) else
  let warned := if 25000 <=? incomingDataTotal
                then [EConsole "`oWarning from `4System`o: Unusual packet detected"; EDisconnect]
                else [] in
  let n := Z.of_nat (length packet) in
  if (n <? 8) || (2048 <? n) then Some (s, warned) else
  let ty := GetMessageTypeFromPacket packet in
  '(s, es) ←
    (if ty =? NET_MESSAGE_GENERIC_TEXT then generic_text now packet s
     else if ty =? NET_MESSAGE_GAME_MESSAGE then game_message packet s
     else if ty =? NET_MESSAGE_GAME_PACKET then game_packet now steady packet s
     else Some (s, [EUnhandled]));
  Some (s, warned ++ es).

(** ** No packet reads outside its buffer *)

Lemma c_string_terminated bs : exists s, c_string (bs ++ [0]) = Some s.
Proof.
  induction bs as [|b bs [s IH]]; [by exists EmptyString|].
  cbn [c_string app]. destruct (b =? 0); [by eexists|]. rewrite IH. by eexists.
Qed.

Lemma GetTextPointer_total packet :
  (8 <= length packet)%nat -> exists s, GetTextPointerFromPacket packet = Some s.
Proof.
  intros Hl. unfold GetTextPointerFromPacket.
  destruct (Nat.eqb_spec (length packet) 0); [lia|].
  destruct (exists_last (l := packet)) as (bs & b & ->); [by intros ->|].
  rewrite removelast_last. rewrite length_app in Hl. cbn [length] in Hl.
  rewrite drop_app_le by lia. apply c_string_terminated.
Qed.

(** Lines of a parsed text have a first token. *)
Lemma split_on_head c s : exists p ps, split_on c s = p :: ps.
Proof.
  pose proof (split_on_not_nil c s). destruct (split_on c s) as [|p ps]; [done|]. by eexists _, _.
Qed.

Lemma get_total m key index token : exists v, get m key index token 0 = Some v.
Proof.
  induction m as [|d m [v IH]]; [by eexists|]. cbn [get].
  destruct (is_empty d) eqn:E; [by eexists|].
  unfold string_tokenize. rewrite E.
  destruct (split_on_head token d) as (p & ps & ->). cbn [lookup list_lookup mbind option_bind].
  destruct (String.eqb p key); [|by eexists].
  destruct (Z.ltb_spec index 0); [by eexists|]. cbn [orb].
  destruct (Z.leb_spec (Z.of_nat (length (p :: ps))) index); [by eexists|].
  destruct (lookup_lt_is_Some_2 (p :: ps) (0 + Z.to_nat index)) as [v' Hv]; [lia|]. by eexists.
Qed.

Lemma try_get_total m key v0 : exists b v, try_get m key v0 = Some (b, v).
Proof.
  unfold try_get, contain, get_value. destruct (get_total m key 1 bar) as [v ->].
  cbn [mbind option_bind]. destruct (negb (is_empty v)); by eexists _, _.
Qed.

Lemma run_action_total cch : exists es, run_action cch = Some es.
Proof.
  unfold run_action. destruct (try_get_total (parse cch) "action" "") as (b & v & ->).
  cbn [mbind option_bind]. by eexists.
Qed.

Lemma fetch_written bs o k :
  (o + k <= length bs)%nat -> fetch (Tank.written bs) o k = Some (take k (drop o bs)).
Proof. intros H. unfold Tank.written. by rewrite fetch_read_at, Tank.read_at_in. Qed.

Lemma unpack_total bs : (52 <= length bs)%nat ->
  exists p, Tank.unpackPlayerMoving (Some (Tank.written bs)) = Some p.
Proof.
  intros Hl. unfold Tank.unpackPlayerMoving, fetch_int, fetch_uint.
  rewrite !fetch_written by lia. cbn [mbind option_bind]. by eexists.
Qed.

(** The check of a tank packet gives back a written buffer of the same
    length. *)
Lemma GetStruct_total bs : (8 <= length bs <= 2048)%nat ->
  exists ok bs', Tank.GetStructPointerFromTankPacket (Tank.written bs) = Some (ok, Tank.written bs')
    /\ length bs' = length bs /\ (ok = true -> (60 <= length bs)%nat).
Proof.
  intros Hl. unfold Tank.GetStructPointerFromTankPacket.
  assert (length (Tank.written bs) = length bs) as HL by apply length_fmap.
  rewrite HL, u32_small by lia.
  destruct (Z.leb_spec 60 (Z.of_nat (length bs))); [|by exists false, bs].
  unfold fetch_byte, fetch_int. rewrite !fetch_written by lia. cbn [mbind option_bind].
  case_match.
  - unfold store, store_cells.
    rewrite HL, length_fmap, (proj2 (Nat.leb_le _ _)) by (unfold le32; rewrite le_encode_length; lia).
    cbn [mbind option_bind]. exists true.
    exists (take 56 bs ++ le32 0 ++ drop (56 + length (le32 0)) bs).
    unfold Tank.written. rewrite !fmap_app, fmap_take, fmap_drop. split; [done|]. split; [|lia].
    unfold le32. rewrite !length_app, length_take, length_drop, le_encode_length. lia.
  - exists (negb (Z.of_nat (length bs) <? u32 (i32 (i32 (le_decode (take 4 (drop 56 bs))) + 60)))), bs.
    split; [done|]. split; [done|lia].
Qed.

(** C36: no packet makes the dispatcher leave its buffer. Whatever bytes a
    client sends, whatever the state of its session and the clocks, reading
    the message type, the text or the tank packet stays inside the packet,
    so that the dispatch ends with a new state and effects. *)
Theorem receive_safe now steady total packet s :
  exists s' es, receive now steady total packet s = Some (s', es).
Proof.
  unfold receive. destruct (has_data s); [|by eexists _, _]. cbn [negb].
  destruct (Z.ltb_spec (Z.of_nat (length packet)) 8); [by eexists _, _|]. cbn [orb].
  destruct (Z.ltb_spec 2048 (Z.of_nat (length packet))); [by eexists _, _|].
  assert (exists r, (if GetMessageTypeFromPacket packet =? NET_MESSAGE_GENERIC_TEXT then generic_text now packet s
     else if GetMessageTypeFromPacket packet =? NET_MESSAGE_GAME_MESSAGE then game_message packet s
     else if GetMessageTypeFromPacket packet =? NET_MESSAGE_GAME_PACKET then game_packet now steady packet s
     else Some (s, [EUnhandled])) = Some r) as [[s' es] ->]; [|by eexists _, _].
  destruct (GetTextPointer_total packet) as [cch Hcch]; [lia|].
  destruct (run_action_total cch) as [ra Hra].
  repeat case_match; try by eexists.
  - unfold generic_text. rewrite Hcch. cbn [mbind option_bind].
    case_match; [by eexists|]. case_match; [by case_match; eexists|].
    case_match; [by eexists|]. rewrite Hra. by eexists.
  - unfold game_message. case_match; [by eexists|]. rewrite Hcch. cbn [mbind option_bind].
    case_match; [by eexists|]. rewrite Hra. by eexists.
  - unfold game_packet. case_match; [by eexists|].
    destruct (GetStruct_total packet) as (ok & bs & -> & Hl & Hok); [lia|].
    cbn [mbind option_bind]. destruct ok; [|by eexists]. cbn [negb].
    assert (drop 4 (Tank.written bs) = Tank.written (drop 4 bs)) as ->
      by (unfold Tank.written; by rewrite fmap_drop).
    destruct (unpack_total (drop 4 bs)) as [p Hp].
    { rewrite length_drop. specialize (Hok eq_refl). lia. }
    unfold mem in *. rewrite Hp. cbn [mbind option_bind]. by eexists.
Qed.

(** ** Rate limits *)

#[local] Opaque actions.

(** [lastActionSent] is a 32-bit [int] and the clock counts milliseconds
    since 1970: the comparison of [count_action] always fails. *)
Lemma count_action_resets now s :
  2 ^ 31 <= now -> in_i32 (lastActionSent s) -> count_action now s = with_sent 0 0 s.
Proof.
  unfold in_i32. intros Hn Hs. unfold count_action. pose proof (i32_range (now + 1000)).
  assert (forall last, last < 2 ^ 31 -> (now <=? last) = false) as E by lia.
  rewrite E; [done|]. destruct (lastActionSent s =? 0); lia.
Qed.

(** An effect is not one of the others. *)
Ltac not_in :=
  let H := fresh in
  intros H; repeat (apply elem_of_cons in H as [H|H]; [discriminate|]); by apply elem_of_nil in H.

(** The limit on text packets never acts. At any time after January
    1970, whatever the counters of the session hold and however many text
    packets were received before, a text packet is never flagged as spam,
    and it sets the counter of text packets back to 0. *)
Theorem text_spam_never_flagged now packet s s' es :
  2 ^ 31 <= now -> in_i32 (lastActionSent s) -> generic_text now packet s = Some (s', es) ->
  (ENote 1 ∉ es) /\ (es = [] \/ totalActionSent s' = 0 \/ s' = s) /\ in_i32 (lastActionSent s').
Proof.
  intros Hn Hs. unfold generic_text.
  destruct (GetTextPointerFromPacket packet) as [cch|]; [|done]. cbn [mbind option_bind].
  case_match.
  { intros [= <- <-]. split; [not_in|by auto]. }
  cbn zeta. rewrite count_action_resets by done.
  change (10 <=? totalActionSent (with_sent 0 0 s)) with false. cbv iota.
  assert (in_i32 (lastActionSent (with_sent 0 0 s))) by (cbn; unfold in_i32; lia).
  case_match.
  { intros [= <- <-]. split; [not_in|by auto]. }
  unfold run_action. destruct (try_get (parse cch) "action" "") as [[b v]|]; [|done].
  cbn [mbind option_bind]. intros [= <- <-]. split; [|by auto].
  destruct b; [destruct (actions !! v)|]; not_in.
Qed.

Definition sample_session : Session :=
  mkSession true true true false "" "" "player" "START" 0 9 0 0 0.

Definition text_packet (s : string) : list Z := [2; 0; 0; 0] ++ str_bytes s ++ [0].

Lemma text_spam_never_flagged_witness :
  exists s' es, generic_text 1750000000000 (text_packet "action|respawn") sample_session
      = Some (s', es) /\ (ENote 1 ∉ es) /\
    es = [ELogText "action|respawn"; EAction "respawn" "action|respawn"].
Proof.
  destruct (generic_text 1750000000000 (text_packet "action|respawn") sample_session)
    as [[s' es]|] eqn:E; [|vm_compute in E; discriminate].
  destruct (text_spam_never_flagged 1750000000000 (text_packet "action|respawn") sample_session
    s' es) as (H & _); [lia|unfold in_i32; cbn; lia|done|].
  exists s', es. split; [done|]. split; [done|]. vm_compute in E. by injection E as _ <-.
Defined.

(** Tank packets at the given times, one after the other, until the data of
    the session is freed: how many reach a handler. *)
Definition is_event (e : effect) : bool := match e with EEvent _ _ => true | _ => false end.

Definition events (es : list effect) : Z := Z.of_nat (length (List.filter is_event es)).

Fixpoint tank_run (l : list (Z * Z * Tank.PlayerMoving)) (s : Session) : Z :=
  match l with
  | [] => 0
  | (now, steady, p) :: l =>
      let '(s', es) := tank_rate now steady p s in
      events es + (if has_data s' then tank_run l s' else 0)
  end.

Lemma run_event_spec steady p s :
  events (run_event steady p s).2 <= 1 /\
  lpps24 (run_event steady p s).1 = lpps24 s /\ pps24 (run_event steady p s).1 = pps24 s.
Proof. unfold run_event. repeat case_match; cbn; split_and!; done || lia. Qed.

Lemma limit_bound (b : bool) n : n < (if b then 500 else 15) -> n < 500.
Proof. destruct b; lia. Qed.

(** Without a reset, each handled packet counts. *)
Lemma tank_run_window l : forall s,
  Forall (λ x, x.1.1 <= lpps24 s + 25) l -> 0 <= pps24 s <= 500 ->
  tank_run l s <= Z.max 0 (49 - pps24 s).
Proof.
  induction l as [|[[now steady] p] l IH]; intros s; [cbn; lia|].
  intros [Hx Hl]%list.Forall_cons Hp. cbn [fst] in Hx. cbn [tank_run]. unfold tank_rate.
  rewrite (proj2 (Z.ltb_ge (lpps24 s + 25) now)) by lia. cbn zeta.
  rewrite i32_small by lia.
  set (s1 := with_pps (lpps24 s) (pps24 s + 1) s).
  assert (lpps24 s1 = lpps24 s /\ pps24 s1 = pps24 s + 1) as [E1 E2] by done.
  destruct (Z.leb_spec 50 (pps24 s1)) as [Hge|Hlt].
  - destruct (Z.leb_spec (if (Tank.packetType p =? 3) || (Tank.packetType p =? 11) ||
      (Tank.packetType p =? 0) then 500 else 15) (pps24 s1)) as [Hk|Hk];
      [change (0 <= Z.max 0 (49 - pps24 s)); lia|].
    pose proof (limit_bound _ _ Hk).
    change (events []) with 0. specialize (IH s1).
    rewrite E1 in IH. destruct (has_data s1); [|lia]. specialize (IH Hl). lia.
  - destruct (run_event_spec steady p s1) as (R1 & R2 & R3).
    destruct (run_event steady p s1) as [s2 es]. cbn [fst snd] in *.
    specialize (IH s2). rewrite R2, E1 in IH.
    destruct (has_data s2); [|lia]. specialize (IH Hl). lia.
Qed.

(** A flood of game packets is cut. Of all the tank packets a client
    sends within 25 milliseconds, however many, at most 99 reach a handler:
    the counter of the window allows 49 after the one that starts it, and
    one earlier window can end in the interval. *)
Theorem tank_flood_bounded t l s :
  Forall (λ x, t <= x.1.1 <= t + 25) l -> 0 <= pps24 s <= 500 -> tank_run l s <= 99.
Proof.
  intros Hl Hp. cut (tank_run l s <= Z.max 0 (49 - pps24 s) + 50); [lia|].
  revert s Hp. induction l as [|[[now steady] p] l IH]; intros s Hp; [cbn; lia|].
  apply list.Forall_cons in Hl as [Hx Hl]. cbn [fst] in Hx.
  cbn [tank_run]. unfold tank_rate. destruct (Z.ltb_spec (lpps24 s + 25) now) as [Hlt|Hge].
  - set (s1 := with_pps now 0 s).
    destruct (run_event_spec steady p s1) as (R1 & R2 & R3).
    destruct (run_event steady p s1) as [s2 es]. cbn [fst snd] in *.
    change (lpps24 s1) with now in R2. change (pps24 s1) with 0 in R3.
    pose proof (tank_run_window l s2) as W. rewrite R2, R3 in W.
    destruct (has_data s2); [|lia].
    assert (tank_run l s2 <= 49); [|lia]. etrans; [apply W; [|lia]|lia].
    eapply list.Forall_impl; [exact Hl|]. cbn beta. lia.
  - cbn zeta. rewrite i32_small by lia.
    set (s1 := with_pps (lpps24 s) (pps24 s + 1) s).
    assert (pps24 s1 = pps24 s + 1) as E2 by done.
    destruct (Z.leb_spec 50 (pps24 s1)) as [H50|H50].
    + destruct (Z.leb_spec (if (Tank.packetType p =? 3) || (Tank.packetType p =? 11) ||
        (Tank.packetType p =? 0) then 500 else 15) (pps24 s1)) as [Hk|Hk];
        [change (0 <= Z.max 0 (49 - pps24 s) + 50); lia|].
      pose proof (limit_bound _ _ Hk).
      change (events []) with 0. specialize (IH Hl s1). destruct (has_data s1); lia.
    + destruct (run_event_spec steady p s1) as (R1 & R2 & R3).
      destruct (run_event steady p s1) as [s2 es]. cbn [fst snd] in *.
      specialize (IH Hl s2). destruct (has_data s2); lia.
Qed.

Definition flood : list (Z * Z * Tank.PlayerMoving) :=
  replicate 120 (1750000000000, 0, Tank.moving_default).

Lemma tank_flood_bounded_witness : tank_run flood sample_session <= 99.
Proof.
  apply (tank_flood_bounded 1750000000000); [|cbn; lia].
  apply Forall_replicate. cbn. lia.
Defined.

Example flood_count : tank_run flood sample_session = 50.
Proof. vm_compute. reflexivity. Qed.

End Dispatch.
