(* ===== verification/Messages.v ===== *)
(** * Messages: the calls the server makes in the client

    Models [CAction], [VarList] and [namespace variants] of
    [src/NopySource/Handle/PacketHandler.h], with the grow pass tasks and the
    piggy bank ([Add_Piggy_Bank], [complete_gpass_task]) and [ConvertToK] of
    [BaseServer.h].  A message is a [Variant] of [Packet]; who receives it is
    part of the effect.  [to_float] is the language's conversion of an [int]
    to the bits of a [float]. *)
From S2P Require Import Prelude Memory Packet Tank Dialogs.
Import Memory Packet.

Module Messages.

Inductive effect :=
| ESend (v : Variant)                      (* to the peer *)
| ESendAll (v : Variant)                   (* to every connected peer *)
| ESendWorld (world : string) (v : Variant) (* to every connected peer in that world *)
| ERaw (packet : option mem) (delay : Z)   (* a tank packet of 56 bytes *)
| EText (packet : option mem)              (* a text packet *)
| EPairProgress (type amount : Z)          (* [UpdatePairProgress] *)
| EAutoConvert.                            (* [TryAutoConvert] *)

(** [gamepacket_t p(delay, netID)] followed by [Insert]s; the defaults are
    delay 0 and net id -1. *)
Definition msg (delay netID : Z) (name : string) (args : list VarArg) : Variant :=
  mkVariant delay netID (VStr name :: args).

Definition send (v : Variant) : list effect := [ESend v].

Definition flag (b : bool) : VarArg := VInt (if b then 1 else 0).

Section Messages.
Context (to_float : Z -> Z).

(** ** Tank packets *)

Definition particle (netID x y xspeed yspeed planting delay : Z) : effect :=
  ERaw (Tank.packPlayerMoving
          (Tank.mkMoving netID 0 17 0 planting 0 0 0 x y xspeed yspeed 0 0) 56 0) delay.

Definition SendParticleEffect (x y size id delay : Z) : list effect :=
  [particle 0 (to_float x) (to_float y) (to_float size) (to_float id) delay 0].

Definition barrel (netid x y delay : Z) : list effect :=
  [particle netid (to_float x) (to_float y) (to_float 4) (to_float 1) 0 delay].

(** [variants::OnParticleEffect] with seven arguments. *)
Definition particle_effect (effect_ size netid x y delay : Z) : list effect :=
  [particle netid (to_float x) (to_float y) (to_float size) (to_float effect_) 0 delay].

(** ** Texts *)

(** [OnSendLog]: the last byte of the packet is never written. *)
Definition log_packet (type : Z) (text : string) : option mem :=
  stores (alloc (String.length text + 5)) [(0%nat, le32 type); (4%nat, str_bytes text)].

Definition OnSendLog (text : string) (type : Z) : list effect := [EText (log_packet type text)].

Definition OnPlaySound (file : string) (delay : Z) : list effect :=
  OnSendLog (cat ["action|play_sfx"; endl; "file|"; file; endl; "delayMS|"; to_string delay]) 3.

Definition terminated (text : string) : option mem :=
  stores (alloc (5 + String.length text))
    [(0%nat, le32 3); (4%nat, str_bytes text); ((4 + String.length text)%nat, [0])].

(** [CAction::Log] *)
Definition Log (t_ l_ w_ : string) : list effect :=
  let t_ := if is_empty l_ then t_ else cat ["action|log"; endl; "msg|"; t_] in
  EText (terminated t_) ::
  (if is_empty l_ then []
   else [EText (terminated (cat ["action|set_url"; endl; "url|"; w_; endl; "label|"; l_; endl]))]).

(** ** [CAction] *)

Definition Effect (id x y delay : Z) : list effect :=
  send (msg delay (-1) "OnParticleEffect" [VInt id; VFloat2 (to_float x) (to_float y)]).
Definition Effect_V2 (id x y delay : Z) : list effect :=
  send (msg delay (-1) "OnParticleEffectV2" [VInt id; VFloat2 (to_float x) (to_float y)]).
Definition Positioned (netID : Z) (file : string) (delay : Z) : list effect :=
  send (msg delay netID "OnPlayPositioned" [VStr file]).
Definition ScreenShotMode : list effect := send (msg 0 (-1) "OnPlayerScreenShotMode" []).

(** ** [VarList] *)

Definition OnConsoleMessage (text : string) (all : bool) (dly : Z) : list effect :=
  let v := msg dly (-1) "OnConsoleMessage" [VStr ("`o" +:+ text)] in
  if all then [ESendAll v] else [ESend v].
Definition OnCountdownUpdate (netID score : Z) : list effect :=
  send (msg (-1) netID "OnCountdownUpdate" [VInt score]).
Definition OnCountdownStart (netID time score : Z) : list effect :=
  send (msg 0 netID "OnCountdownStart"
          (if score =? -1 then [VInt time] else [VInt time; VInt score])).
Definition OnEventButtonDataSet (a : string) (c : Z) (btn : string) : list effect :=
  send (msg 0 (-1) "OnEventButtonDataSet" [VStr a; VInt c; VStr btn]).
Definition OnSetPos_2 (px py netID : Z) : list effect :=
  send (msg 0 netID "OnSetPos" [VFloat2 px py]).
Definition OnSendToServer (Server_Port : Z) (server_ip : string) (id : Z) (name : string)
    : list effect :=
  send (msg 0 (-1) "OnSendToServer"
          [VInt Server_Port; VStr "GrowPlus"; VInt id; VStr (server_ip +:+ "|0|-1"); VInt 1;
           VStr name]).
Definition OnCountdownEnd (netid : Z) : list effect := send (msg 0 netid "OnCountdownEnd" []).
Definition SetTapjoyTags (a : string) : list effect :=
  send (msg 0 (-1) "SetTapjoyTags" [VStr a]).
(** The parameters [roleskin] and [roleicon] are not used: the values are
    those of the peer. *)
Definition OnSetRoleSkinsAndIcons (roleSkin roleIcon netid roleskin roleicon : Z) : list effect :=
  send (msg 0 netid "OnSetRoleSkinsAndIcons" [VInt roleSkin; VInt roleIcon; VInt 0]).
Definition ShowCurrency : list effect := send (msg 0 (-1) "ShowPearlCurrency" []).
Definition HideCurrency : list effect := send (msg 0 (-1) "HidePearlCurrency" []).
Definition SetCurrency (amount : Z) : list effect :=
  send (msg 0 (-1) "OnSetPearl" [VInt amount; VInt 0]).
Definition OnSetDungeonSouls (amount : Z) : list effect :=
  send (msg 0 (-1) "OnSetDungeonSouls" [VInt amount]).
Definition CrashTheGameClient : list effect := send (msg 0 (-1) "CrashTheGameClient" []).
Definition OnRequestWorldSelectMenu (output : string) : list effect :=
  send (msg 0 (-1) "OnRequestWorldSelectMenu" [VStr output]).
Definition OnCommunityHubRequest (CMNTY : string) : list effect :=
  send (msg 500 (-1) "OnCommunityHubRequest" [VStr CMNTY]).
Definition OnAddNotification (text interfaces audio : string) (delay : Z) : list effect :=
  send (msg delay (-1) "OnAddNotification" [VStr interfaces; VStr text; VStr audio]).
Definition OnTalkBubble (netID : Z) (text : string) (chatColor : Z) (overlay : bool) (delay : Z)
    (overlay2 : bool) : list effect :=
  send (msg delay (-1) "OnTalkBubble"
          [VInt netID; VStr text;
           VInt (if chatColor =? 2 then 2 else if overlay2 then 1 else 0); flag overlay]).
Definition OnTextOverlay (text : string) (delay : Z) : list effect :=
  send (msg delay (-1) "OnTextOverlay" [VStr text]).
Definition OnDailyRewardRequest (text : string) (delay : Z) : list effect :=
  send (msg delay (-1) "OnDailyRewardRequest" [VStr text]).
Definition OnStorePurchaseResult (output : string) : list effect :=
  send (msg 0 (-1) "OnStorePurchaseResult" [VStr output]).
Definition SetHasAccountSecured (secured : bool) : list effect :=
  send (msg 0 (-1) "SetHasAccountSecured" [flag secured]).
Definition OnChangePureBeingMode (netID mode : Z) : list effect :=
  send (msg 0 netID "OnChangePureBeingMode" [VInt mode]).
Definition OnAction (netID : Z) (action : string) (delay : Z) : list effect :=
  send (msg delay netID "OnAction" [VStr action]).
Definition OnSetMissionTimer (times_ delay : Z) : list effect :=
  send (msg delay (-1) "OnSetMissionTimer" [VInt times_]).
Definition OnSetCurrentWeather (id delay : Z) : list effect :=
  send (msg delay (-1) "OnSetCurrentWeather" [VInt id]).
Definition OnParticleEffect (x y size id delay : Z) : list effect :=
  [particle 0 (to_float x) (to_float y) (to_float size) (to_float id) delay 0].
Definition OnPlanterActivated (id x_ y_ : Z) : list effect :=
  send (msg 0 (-1) "OnPlanterActivated" [VInt id; VInt x_; VInt y_]).
Definition OnRemove (netid pId delay : Z) : list effect :=
  send (msg delay (-1) "OnRemove" [VStr (cat ["netID|"; to_string netid; endl]);
                                   VStr (cat ["pId|"; to_string pId; endl])]).
Definition OnFailedToEnterWorld : list effect := send (msg 0 (-1) "OnFailedToEnterWorld" []).
Definition OnSetFreezeState (netID delay num : Z) : list effect :=
  send (msg delay netID "OnSetFreezeState" [VInt num]).
Definition OnZoomCamera (delay : Z) : list effect :=
  send (msg delay (-1) "OnZoomCamera" [VFloat 1176256512; VInt 1000]).
Definition OnKilled (netID delay : Z) : list effect := send (msg delay netID "OnKilled" []).
Definition SetRespawnPos (netID d delay : Z) : list effect :=
  send (msg delay netID "SetRespawnPos" [VInt d]).
Definition OnPaw2018SkinColor1Changed (d : Z) : list effect :=
  send (msg 0 (-1) "OnPaw2018SkinColor1Changed" [VInt d]).
Definition OnPaw2018SkinColor2Changed (d : Z) : list effect :=
  send (msg 0 (-1) "OnPaw2018SkinColor2Changed" [VInt d]).
Definition OnAchievementCompleted (number : Z) : list effect :=
  send (msg 0 (-1) "OnAchievementCompleted" [VInt number]).
Definition OnPlayerLeveledUp (number : Z) : list effect :=
  send (msg 0 (-1) "OnPlayerLeveledUp" [VInt number]).
Definition OnMagicCompassTrackingItemIDChanged (d : Z) : list effect :=
  send (msg 0 (-1) "OnMagicCompassTrackingItemIDChanged" [VInt d]).
Definition UpdateMainMenuTheme (d d1 d2 : Z) (a : string) : list effect :=
  send (msg 0 (-1) "UpdateMainMenuTheme" [VInt d; VInt d1; VInt d2; VStr a]).
Definition SetHasGrowID (d : Z) (id pw : string) : list effect :=
  send (msg 0 (-1) "SetHasGrowID" [VInt d; VStr id; VStr pw]).
Definition OnSetRoleSkinsAndTitles (set_skins set_titles : string) : list effect :=
  send (msg 0 (-1) "OnSetRoleSkinsAndTitles" [VStr set_skins; VStr set_titles]).
Definition OnProgressUISet (id prog req : Z) : list effect :=
  send (msg 0 (-1) "OnProgressUISet" [VInt 1; VInt id; VInt prog; VInt req; VStr ""; VInt 1]).
Definition OnProgressUIUpdateValue (id d : Z) : list effect :=
  send (msg 0 (-1) "OnProgressUIUpdateValue" [VInt id; VInt d]).
Definition OnSpawn (s : string) : list effect := send (msg 0 (-1) "OnSpawn" [VStr s]).
Definition OnEndMission : list effect := send (msg 0 (-1) "OnEndMission" []).
Definition OnSDBroadcast (id : string) (d : Z) : list effect :=
  send (msg 0 (-1) "OnSDBroadcast" [VStr id; VInt d]).
Definition OnForceTradeEnd : list effect := send (msg 0 (-1) "OnForceTradeEnd" []).
Definition OnSendFavItemsList (a : string) (aa : Z) : list effect :=
  send (msg 0 (-1) "OnSendFavItemsList" [VStr a; VInt aa]).
Definition OnFavItemUpdated (a aa : Z) : list effect :=
  send (msg 0 (-1) "OnFavItemUpdated" [VInt a; VInt aa]).
Definition OnTradeStatus (netid : Z) (a aa aaa : string) : list effect :=
  send (msg 0 (-1) "OnTradeStatus" [VInt netid; VStr a; VStr aa; VStr aaa]).

(** ** Functions of [namespace variants] that differ *)

Definition OnNameChanged (netID : Z) (name world : string) (all : bool) : list effect :=
  let v := msg 0 netID "OnNameChanged" [VStr name] in
  ESend v :: (if all then [ESendWorld world v] else []).

Definition Sendtoplayer (netID : Z) (message : string) (console bubble overlay : bool)
    : list effect :=
  (if console then send (msg 0 (-1) "OnConsoleMessage" [VStr message]) else []) ++
  (if bubble then send (msg 0 (-1) "OnTalkBubble" [VInt netID; VStr message; VInt 2; VInt 0])
   else []) ++
  (if overlay then send (msg 0 (-1) "OnTextOverlay" [VStr message]) else []).

(** [intdata] is [rand() % 100000]. *)
Definition ping (intdata : Z) : list effect :=
  [ERaw (Tank.packPlayerMoving (Tank.mkMoving 0 0 22 0 intdata 0 0 0 0 0 0 0 0 0) 56 0) 0].
Definition OnSendPingRequest (rand : Z) : list effect := ping (Z.rem rand 100000).
Definition OnSendPingReply (datas : Tank.PlayerMoving) : list effect :=
  ping (Tank.plantingTree datas).

(** ** Messages that read or change the player *)

Record Player := mkPlayer {
  gp : Z; pg_bank : Z; Banked_Piggy : Z; growpass_quests : list string; growpass_points : Z;
  gems : Z; voucher : Z; pearl : Z; egg_carton : Z;
  supp : Z; subscriber : bool; world : string; netID : Z; px : Z; py : Z;
  isindialog : bool; pending_dialogs : gmap string Z
}.

Definition with_pass (quests : list string) (points banked gems' : Z) (p : Player) : Player :=
  mkPlayer (gp p) (pg_bank p) banked quests points gems' (voucher p) (pearl p) (egg_carton p)
    (supp p) (subscriber p) (world p) (netID p) (px p) (py p) (isindialog p) (pending_dialogs p).
Definition with_gems (v : Z) (p : Player) : Player :=
  with_pass (growpass_quests p) (growpass_points p) (Banked_Piggy p) v p.
Definition with_counters (voucher' pearl' egg' : Z) (p : Player) : Player :=
  mkPlayer (gp p) (pg_bank p) (Banked_Piggy p) (growpass_quests p) (growpass_points p) (gems p)
    voucher' pearl' egg' (supp p) (subscriber p) (world p) (netID p) (px p) (py p)
    (isindialog p) (pending_dialogs p).
Definition with_dialog (pd : gmap string Z) (b : bool) (p : Player) : Player :=
  mkPlayer (gp p) (pg_bank p) (Banked_Piggy p) (growpass_quests p) (growpass_points p) (gems p)
    (voucher p) (pearl p) (egg_carton p) (supp p) (subscriber p) (world p) (netID p) (px p) (py p)
    b pd.

Definition ConvertToK (nilai : Z) : string :=
  if 1000000 <=? nilai then cat [to_string (Z.quot nilai 1000000); "M"]
  else if 1000 <=? nilai then cat [to_string (Z.quot nilai 1000); "K"]
  else cat [to_string nilai; "K"].

(** A JSON member with a string value. *)
Definition q (s : string) : string := cat [str1 quote; s; str1 quote].

Definition piggy_button (banked : Z) : string := cat [
  "{"; q "active"; ":false,"; q "buttonAction"; ":"; q "openPiggyBank"; ","; q "buttonState"; ":";
  (if 350000 <? banked then "2" else "0"); ","; q "buttonTemplate"; ":"; q "BaseEventButton"; ",";
  q "counter"; ":0,"; q "counterMax"; ":0,"; q "itemIdIcon"; ":0,"; q "name"; ":";
  q "PiggyBankButton"; ","; q "notification"; ":0,"; q "order"; ":2,"; q "rcssClass"; ":";
  q "piggybank"; ","; q "text"; ":";
  q (if 350000 <? banked then "350K" else cat [ConvertToK banked; "/350K"]); "}"].

Definition Add_Piggy_Bank (amount : Z) (p : Player) : Player * list effect :=
  if negb (pg_bank p =? 0) && (Banked_Piggy p <? 350000) then
    let b := i32 (Banked_Piggy p + amount) in
    let b := if 350000 <=? b then 350000 else b in
    (with_pass (growpass_quests p) (growpass_points p) b (gems p) p,
     send (msg 0 (-1) "OnEventButtonDataSet"
             [VStr "PiggyBankButton"; VInt 1; VStr (piggy_button b)]))
  else (p, []).

Definition task_points (task : string) : Z :=
  if String.eqb task "Growtoken" then 40
  else if String.eqb task "Claim 4,000 gems" then 150 else 10.

(** The result, the player and the messages. *)
Definition complete_gpass_task (task : string) (p : Player) : bool * Player * list effect :=
  if existsb (String.eqb task) (growpass_quests p) then (false, p, [])
  else
    let p := with_pass (growpass_quests p ++ [task]) (growpass_points p) (Banked_Piggy p)
               (gems p) p in
    let '(p, es) := Add_Piggy_Bank 10000 p in
    let get_points := task_points task in
    let p := if String.eqb task "Claim 4,000 gems" then with_gems (i32 (gems p + 4000)) p else p in
    if growpass_points p <? 5400 then
      let text := cat ["`9Completed Grow Pass Task '"; task; "' and received ";
                       to_string get_points; " points!``"] in
      (true,
       with_pass (growpass_quests p) (i32 (growpass_points p + get_points)) (Banked_Piggy p)
         (gems p) p,
       es ++
       (if is_empty (world p) then []
        else [ESend (msg 0 (-1) "OnTalkBubble" [VInt (netID p); VStr text; VInt 0; VInt 0]);
              particle 198 (to_float (i32 (px p + 16))) (to_float (i32 (py p + 16))) 0
                (to_float 198) 0 0]) ++
       send (msg 0 (-1) "OnConsoleMessage" [VStr text]))
    else (false, p, es).

(** The bonus for the task of collecting gems: the new amount. *)
Definition gems_task (amount : Z) (p : Player) : Z * Player * list effect :=
  if negb (gp p =? 0) && (30 <=? amount) then
    let '(done_, p, es) := complete_gpass_task "Gems" p in
    (if (done_ : bool) then i32 (amount + 3) else amount, p, es)
  else (amount, p, []).

Definition set_bux (delay : Z) (p : Player) : effect :=
  ESend (msg delay (-1) "OnSetBux"
    ([VInt (gems p); VInt 0; flag ((1 <=? supp p) || subscriber p)] ++
     (if (2 <=? supp p) || subscriber p then [VFloat3 1191445504 1065353216 0] else []))).

Definition OnBuxGems (amount delay : Z) (p : Player) : Player * list effect :=
  let '(amount, p, e1) := gems_task amount p in
  let e2 := if 0 <? amount then
              EPairProgress 3 amount ::
              (if is_empty (world p) then []
               else OnTalkBubble (netID p)
                      (cat ["`oCollected `$"; to_string amount; " `oGems(gem)"]) 0 false 0 false)
            else [] in
  let p := with_gems (i32 (gems p + amount)) p in
  (p, e1 ++ e2 ++ [set_bux delay p] ++ (if 0 <? amount then [EAutoConvert] else [])).

Definition OnMinGems (amount delay : Z) (p : Player) : Player * list effect :=
  let '(amount, p, e1) := gems_task amount p in
  let p := with_gems (i32 (gems p - amount)) p in
  (p, e1 ++ [set_bux delay p]).

(** [variants::on_bux_gems] *)
Definition on_bux_gems (amount : Z) (p : Player) : Player * list effect :=
  let '(amount, p, e1) := gems_task amount p in
  let p := with_gems (i32 (gems p + amount)) p in
  (p, e1 ++ [set_bux 0 p] ++ (if 0 <? amount then [EAutoConvert] else [])).

Definition on_min_gems (amount : Z) (p : Player) : Player * list effect := OnMinGems amount 0 p.

Definition OnSetVouchers (amount : Z) (p : Player) : Player * list effect :=
  let v := i32 (voucher p + amount) in
  (with_counters v (pearl p) (egg_carton p) p, send (msg 0 (-1) "OnSetVouchers" [VInt v])).

Definition OnSetPearl (remove : Z) (p : Player) : Player * list effect :=
  let v := i32 (pearl p + remove) in
  (with_counters (voucher p) v (egg_carton p) p, send (msg 0 (-1) "OnSetPearl" [VInt v; VInt 0])).

Definition on_set_event (amount : Z) (p : Player) : Player * list effect :=
  let v := i32 (egg_carton p + amount) in
  (with_counters (voucher p) (pearl p) v p,
   send (msg 0 (-1) "OnProgressUIUpdateValue" [VInt v; VInt 0])).

(** The functions of [variants] that repeat those of [VarList]. *)
Definition on_notif := OnAddNotification.
Definition on_bubble := OnTalkBubble.
Definition on_overlay := OnTextOverlay.
Definition on_play := Positioned.
Definition on_msg := OnConsoleMessage.
Definition on_set_voucher := OnSetVouchers.

(** The dialog is recorded as offered at time [now_ms]. *)
Definition OnDialogRequest (now_ms : Z) (text : string) (delay : Z) (p : Player)
    : Player * list effect :=
  (with_dialog (Dialogs.track_pending_dialog now_ms text (pending_dialogs p)) true p,
   send (msg delay (-1) "OnDialogRequest" [VStr text])).

Definition OnDialogRequestRML (now_ms : Z) (text : string) (delay : Z) (p : Player)
    : Player * list effect :=
  (with_dialog (Dialogs.track_pending_dialog now_ms text (pending_dialogs p)) (isindialog p) p,
   send (msg delay (-1) "OnDialogRequestRML" [VStr text])).

Definition on_dialog (now_ms : Z) (text : string) (delay : Z) (p : Player)
    : Player * list effect :=
  (with_dialog (Dialogs.track_pending_dialog now_ms text (pending_dialogs p)) (isindialog p) p,
   send (msg delay (-1) "OnDialogRequest" [VStr text])).

End Messages.

(** ** Gems and the grow pass *)

(** The bonus of the task: 3 gems when the player has the pass, the amount
    is at least 30, the task is new and the points are not at their cap. *)
Definition bonus (amount : Z) (p : Player) : Z :=
  if negb (gp p =? 0) && (30 <=? amount) && negb (existsb (String.eqb "Gems") (growpass_quests p)) &&
     (growpass_points p <? 5400)
  then 3 else 0.

Lemma Add_Piggy_Bank_frame amount p :
  let p' := (Add_Piggy_Bank amount p).1 in
  gems p' = gems p /\ growpass_quests p' = growpass_quests p /\
  growpass_points p' = growpass_points p /\ gp p' = gp p.
Proof. unfold Add_Piggy_Bank. by case_match. Qed.

Lemma gems_task_spec to_float amount p : -2 ^ 31 <= amount < 2 ^ 31 - 3 ->
  let '(amount', p', _) := gems_task to_float amount p in
  amount' = amount + bonus amount p /\ gems p' = gems p /\ gp p' = gp p /\
  growpass_quests p' =
    growpass_quests p ++ (if negb (gp p =? 0) && (30 <=? amount) &&
      negb (existsb (String.eqb "Gems") (growpass_quests p)) then ["Gems"%string] else []).
Proof.
  intros Ha. unfold gems_task, bonus.
  destruct (negb (gp p =? 0) && (30 <=? amount)); cbn [andb].
  2: { rewrite app_nil_r. split_and!; try done. lia. }
  unfold complete_gpass_task.
  destruct (existsb (String.eqb "Gems") (growpass_quests p)); cbn [negb andb].
  { rewrite app_nil_r. split_and!; try done. lia. }
  match goal with |- context [Add_Piggy_Bank 10000 ?x] =>
    destruct (Add_Piggy_Bank_frame 10000 x) as (G & Q & P & B);
    destruct (Add_Piggy_Bank 10000 x) as [p1 es] end.
  cbn [fst] in *. cbn [gems growpass_quests growpass_points gp with_pass] in G, Q, P, B.
  change (String.eqb "Gems" "Claim 4,000 gems") with false. cbv iota. rewrite P.
  destruct (growpass_points p <? 5400).
  - cbn [gems with_pass gp growpass_quests]. rewrite i32_small by lia. by split_and!.
  - split_and!; try done. lia.
Qed.

(** The ledger of gems. Giving [amount] gems adds the amount and, once,
    the bonus of 3 gems of the grow pass task; taking [amount] gems takes
    the amount and the same 3 gems on top of it, instead of paying them.
    Either way the task is then recorded, so that no later call has the
    bonus, and the client is sent the new balance. *)
Theorem gems_ledger to_float amount delay p :
  - 2 ^ 31 <= amount < 2 ^ 31 - 3 ->
  let '(given, es) := OnBuxGems to_float amount delay p in
  let '(taken, es') := OnMinGems to_float amount delay p in
  gems given = i32 (gems p + (amount + bonus amount p)) /\
  gems taken = i32 (gems p - (amount + bonus amount p)) /\
  set_bux delay given ∈ es /\ set_bux delay taken ∈ es' /\
  (bonus amount p <> 0 -> forall later, bonus later given = 0 /\ bonus later taken = 0).
Proof.
  intros Ha. pose proof (gems_task_spec to_float amount p Ha) as Hg.
  unfold OnBuxGems, OnMinGems. destruct (gems_task to_float amount p) as [[n p1] e1].
  destruct Hg as (-> & Hgems & Hgp & Hq).
  assert (forall v later, bonus amount p <> 0 -> bonus later (with_gems v p1) = 0) as Hlater.
  { intros v later Hb. unfold bonus. cbn [gp growpass_quests growpass_points with_gems with_pass].
    rewrite Hq. unfold bonus in Hb.
    destruct (negb (gp p =? 0) && (30 <=? amount) &&
              negb (existsb (String.eqb "Gems") (growpass_quests p))); [|done].
    rewrite existsb_app. cbn [existsb]. rewrite String.eqb_refl, orb_true_r.
    cbn [negb]. by rewrite !andb_false_r. }
  cbn [gems with_gems with_pass]. rewrite Hgems. split_and!; try done.
  - apply elem_of_app. right. apply elem_of_app. right. apply elem_of_app. left. by left.
  - apply elem_of_app. right. by left.
  - intros Hb later. split; by apply Hlater.
Qed.

Definition buyer : Player :=
  mkPlayer 1 0 0 [] 0 1000 0 0 0 0 false "START" 7 0 0 false ∅.

Lemma gems_ledger_witness :
  gems (OnBuxGems (λ z, z) 100 0 buyer).1 = 1103 /\ gems (OnMinGems (λ z, z) 100 0 buyer).1 = 897.
Proof.
  pose proof (gems_ledger (λ z, z) 100 0 buyer ltac:(lia)) as H.
  destruct (OnBuxGems (λ z, z) 100 0 buyer) as [g e1]. destruct (OnMinGems (λ z, z) 100 0 buyer) as [t e2].
  cbn [fst]. destruct H as (-> & -> & _). split; reflexivity.
Defined.

End Messages.
