(* ===== verification/RewardConfig.v ===== *)
(** * RewardConfig: the thirty rewards and their file

    Models [src/NopySource/Handle/DailyReward/RewardConfig.h].  A parsed
    file is a value of [json], the data model of JSON; reading it with the
    wrong type is [None], where the library throws.  [load] and [save] take
    and give the content of the file and thread the configuration and the
    global map [dailyReward]. *)
From stdpp Require Import sorting.
From S2P Require Import Prelude Items.
Import Items.

Module RewardConfig.

(** ** JSON *)

#[warnings="-register-all"]
Inductive json :=
| JNull
| JBool (b : bool)
| JNum (z : Z)
| JStr (s : string)
| JArr (l : list json)
| JObj (l : list (string * json)).

Fixpoint member (key : string) (l : list (string * json)) : option json :=
  match l with
  | [] => None
  | (k, v) :: l => if String.eqb k key then Some v else member key l
  end.

(** [j.contains(key)] with [j[key]]. *)
Definition at_key (j : json) (key : string) : option json :=
  match j with JObj l => member key l | _ => None end.

Definition get_int (j : json) : option Z :=
  match j with JNum z => Some (i32 z) | JBool b => Some (if b then 1 else 0) | _ => None end.
Definition get_long (j : json) : option Z :=
  match j with JNum z => Some (i64 z) | JBool b => Some (if b then 1 else 0) | _ => None end.
Definition get_bool (j : json) : option bool :=
  match j with JBool b => Some b | _ => None end.
Definition get_string (j : json) : option string :=
  match j with JStr s => Some s | _ => None end.

Definition get_pair (j : json) : option (Z * Z) :=
  match j with
  | JArr (a :: b :: _) => x ← get_int a; y ← get_int b; Some (x, y)
  | _ => None
  end.

(** [get<map<int, pair<int, int>>>]: an array of pairs; a key that comes
    again is ignored. *)
Fixpoint get_entries (l : list json) (m : gmap Z (Z * Z)) : option (gmap Z (Z * Z)) :=
  match l with
  | [] => Some m
  | JArr (k :: v :: _) :: l =>
      key ← get_int k; p ← get_pair v;
      get_entries l (match m !! key with Some _ => m | None => <[key := p]> m end)
  | _ => None
  end.

Definition get_map (j : json) : option (gmap Z (Z * Z)) :=
  match j with JArr l => get_entries l ∅ | _ => None end.

(** ** The data *)

Inductive RewardType := ITEM | GEMS | COINS | OPC.

Definition RewardTypeToString (t : RewardType) : string :=
  match t with GEMS => "gems" | COINS => "coins" | OPC => "opc" | ITEM => "item" end.

Definition RewardTypeFromString (s : string) : RewardType :=
  if String.eqb s "gems" then GEMS else if String.eqb s "coins" then COINS
  else if String.eqb s "opc" then OPC else ITEM.

Record Reward := mkReward {
  Day : Z; ItemID : Z; ItemName : string; Quantity : Z; Type_ : RewardType
}.

Definition reward_default : Reward := mkReward 0 0 "" 1 ITEM.

Definition TOTAL_DAYS : Z := 30.

Record Config := mkConfig {
  title : string; description : string; footer_note : string; rewards : list Reward
}.

Definition config_default : Config :=
  mkConfig "Daily Reward"
    "Anyone can log in once, but the consistent are rewarded. Visit every day for 30 days, claim your daily prizes, and stay the course to earn a special reward waiting on the final day!"
    "Note: Missing a day will skip that reward!" [].

Definition with_title (t : string) (c : Config) : Config :=
  mkConfig t (description c) (footer_note c) (rewards c).
Definition with_description (t : string) (c : Config) : Config :=
  mkConfig (title c) t (footer_note c) (rewards c).
Definition with_footer (t : string) (c : Config) : Config :=
  mkConfig (title c) (description c) t (rewards c).
Definition with_rewards (l : list Reward) (c : Config) : Config :=
  mkConfig (title c) (description c) (footer_note c) l.

(** The global [dailyReward]: day to item and quantity. *)
Abbreviation rewards_map := (gmap Z (Z * Z)).

(** ** Between the configuration and the map *)

Definition item_name (items : table) (id : Z) : option string :=
  if (0 <? id) && (id <? size items) then Some (name (item items id)) else None.

Definition day_reward (items : table) (dailyReward : rewards_map) (d : Z) : Reward :=
  match dailyReward !! d with
  | Some (id, q) => mkReward d id (default EmptyString (item_name items id)) q ITEM
  | None => mkReward d 1796 "Diamond Lock" 1 ITEM
  end.

Definition SyncFromDailyRewardMap (items : table) (dailyReward : rewards_map) (c : Config)
    : Config :=
  if (base.size dailyReward =? 0)%nat then c
  else with_rewards (day_reward items dailyReward <$> seqZ 1 TOTAL_DAYS) c.

Fixpoint sync_to (day : Z) (l : list Reward) (m : rewards_map) : rewards_map :=
  match l with
  | [] => m
  | r :: l => sync_to (day + 1) l (<[day := (ItemID r, Quantity r)]> m)
  end.

Definition SyncToDailyRewardMap (c : Config) (dailyReward : rewards_map) : rewards_map :=
  sync_to 1 (rewards c) dailyReward.

Definition default_rewards : list Reward := [
  mkReward 1 1424 "Toolbox" 15 ITEM;
  mkReward 2 7188 "Magic Potion" 50 ITEM;
  mkReward 3 10428 "Golden Ticket" 3 ITEM;
  mkReward 4 1488 "Surprise Box" 25 ITEM;
  mkReward 5 8148 "Dark Soul" 20 ITEM;
  mkReward 6 12228 "Green Laurel" 3 ITEM;
  mkReward 7 12230 "Biosphere" 1 ITEM;
  mkReward 8 1424 "Toolbox" 30 ITEM;
  mkReward 9 7188 "Magic Potion" 100 ITEM;
  mkReward 10 10428 "Golden Ticket" 10 ITEM;
  mkReward 11 1488 "Surprise Box" 35 ITEM;
  mkReward 12 1796 "Diamond Lock" 1 ITEM;
  mkReward 13 12228 "Green Laurel" 3 ITEM;
  mkReward 14 9850 "Stasis Chamber" 1 ITEM;
  mkReward 15 1424 "Toolbox" 50 ITEM;
  mkReward 16 7188 "Magic Potion" 150 ITEM;
  mkReward 17 10428 "Golden Ticket" 25 ITEM;
  mkReward 18 1488 "Surprise Box" 45 ITEM;
  mkReward 19 8148 "Dark Soul" 30 ITEM;
  mkReward 20 12228 "Green Laurel" 4 ITEM;
  mkReward 21 9850 "Stasis Chamber" 1 ITEM;
  mkReward 22 1424 "Toolbox" 75 ITEM;
  mkReward 23 7188 "Magic Potion" 200 ITEM;
  mkReward 24 10428 "Golden Ticket" 50 ITEM;
  mkReward 25 1488 "Surprise Box" 75 ITEM;
  mkReward 26 8148 "Dark Soul" 50 ITEM;
  mkReward 27 12228 "Green Laurel" 4 ITEM;
  mkReward 28 1796 "Diamond Lock" 1 ITEM;
  mkReward 29 9850 "Stasis Chamber" 2 ITEM;
  mkReward 30 9850 "Stasis Chamber" 4 ITEM
].

Definition ApplyDefaultRewards (c : Config) : Config := with_rewards default_rewards c.

(** ** [save] *)

(** A [std::map] is written in the order of its keys. *)
Definition key_le (a b : Z * (Z * Z)) : Prop := a.1 <= b.1.

#[export] Instance key_le_dec : RelDecision key_le.
Proof. intros a b. unfold key_le. apply _. Defined.

Definition map_json (m : rewards_map) : json :=
  JArr ((λ kv : Z * (Z * Z), JArr [JNum kv.1; JArr [JNum kv.2.1; JNum kv.2.2]]) <$>
        merge_sort key_le (map_to_list m)).

Fixpoint rewards_json (day : Z) (l : list Reward) : list json :=
  match l with
  | [] => []
  | r :: l =>
      JObj [("day", JNum day); ("item_id", JNum (ItemID r)); ("item_name", JStr (ItemName r));
            ("quantity", JNum (Quantity r)); ("type", JStr (RewardTypeToString (Type_ r)))]%string
      :: rewards_json (day + 1) l
  end.

(** The new map and the content of the file. *)
Definition save (c : Config) (dailyReward : rewards_map) : rewards_map * json :=
  let m := SyncToDailyRewardMap c dailyReward in
  (m, JObj [("title", JStr (title c)); ("description", JStr (description c));
            ("footer_note", JStr (footer_note c)); ("dailyreward", map_json m);
            ("rewards", JArr (rewards_json 1 (rewards c)))]%string).

(** ** [load] *)

(** Assignments in sequence, until one throws. *)
Fixpoint until_throw (steps : list (Config -> option Config)) (c : Config) : Config :=
  match steps with
  | [] => c
  | f :: steps => match f c with Some c => until_throw steps c | None => c end
  end.

(** [if (j.contains(key)) field = j[key].get<T>()] *)
Definition set_field {T} (j : json) (key : string) (get : json -> option T)
    (set : T -> Config -> Config) (c : Config) : option Config :=
  match at_key j key with
  | Some v => x ← get v; Some (set x c)
  | None => Some c
  end.

Definition field_or {T} (j : json) (key : string) (get : json -> option T) (d : T) : option T :=
  match at_key j key with Some v => get v | None => Some d end.

(** One element of ["rewards"]. *)
Definition read_reward (day : Z) (r : json) : option Reward :=
  id ← field_or r "item_id" get_int 0;
  n ← field_or r "item_name" get_string EmptyString;
  q ← field_or r "quantity" get_int 1;
  t ← field_or r "type" get_string "item"%string;
  Some (mkReward day id n q (RewardTypeFromString t)).

Fixpoint push_rewards (day : Z) (l : list json) : list (Config -> option Config) :=
  match l with
  | [] => []
  | r :: l =>
      (λ c, rd ← read_reward day r; Some (with_rewards (rewards c ++ [rd]) c))
      :: push_rewards (day + 1) l
  end.

Definition read_fields (j : json) : list (Config -> option Config) :=
  [set_field j "title" get_string with_title;
   set_field j "description" get_string with_description;
   set_field j "footer_note" get_string with_footer] ++
  match at_key j "rewards" with Some (JArr l) => push_rewards 1 l | _ => [] end.

(** The end of [load], after the [try]: the configuration, the map and what
    is written to the file. *)
Definition load_rest (items : table) (c : Config) (dailyReward : rewards_map)
    : Config * rewards_map * option json :=
  if negb (base.size dailyReward =? 0)%nat then
    (SyncFromDailyRewardMap items dailyReward c, dailyReward, None)
  else if (length (rewards c) =? 0)%nat then
    let c := ApplyDefaultRewards c in
    let '(m, j) := save c (SyncToDailyRewardMap c dailyReward) in (c, m, Some j)
  else (c, dailyReward, None).

(** [file] is [None] when there is no file, [Some None] when it does not
    parse. *)
Definition load (items : table) (file : option (option json)) (c : Config)
    (dailyReward : rewards_map) : Config * rewards_map * option json :=
  let c := with_rewards [] c in
  match file with
  | Some (Some j) =>
      match at_key j "dailyreward" with
      | Some v =>
          match get_map v with
          | Some m => (SyncFromDailyRewardMap items m c, m, None)
          | None => load_rest items c dailyReward
          end
      | None => load_rest items (until_throw (read_fields j) c) dailyReward
      end
  | _ => load_rest items c dailyReward
  end.

(** [Get(day)]: days beyond 30 wrap around; C++ [%] truncates. *)
Definition Get (c : Config) (day : Z) : option Reward :=
  if (length (rewards c) =? 0)%nat then None
  else
    let day := Z.rem (day - 1) TOTAL_DAYS in
    let day := if day <? 0 then day + TOTAL_DAYS else day in
    if Z.of_nat (length (rewards c)) <=? day then None
    else rewards c !! Z.to_nat day.

(** ** Saving and loading again *)

Definition int_pair_ok (kv : Z * (Z * Z)) : Prop :=
  in_i32 kv.1 /\ in_i32 kv.2.1 /\ in_i32 kv.2.2.

Lemma i32_ok z : in_i32 z -> i32 z = z.
Proof. unfold in_i32. intros. apply i32_small. lia. Qed.

Definition entry_json (kv : Z * (Z * Z)) : json :=
  JArr [JNum kv.1; JArr [JNum kv.2.1; JNum kv.2.2]].

Lemma get_entries_json l : forall m,
  Forall int_pair_ok l ->
  get_entries (entry_json <$> l) m =
  Some (fold_left (λ m kv, match m !! kv.1 with Some _ => m | None => <[kv.1 := kv.2]> m end) l m).
Proof.
  induction l as [|[k [a b]] l IH]; intros m; [done|].
  intros [(Hk & Ha & Hb) Hl]%list.Forall_cons. cbn [fst snd] in *.
  cbn [fmap list_fmap entry_json get_entries get_int get_pair mbind option_bind fst snd].
  rewrite !i32_ok by done. rewrite IH by done. by cbn [fold_left fst snd].
Qed.

Lemma fold_first_wins l : forall m : rewards_map,
  base.NoDup l.*1 -> (forall k, k ∈ l.*1 -> m !! k = None) ->
  forall k, fold_left (λ m kv, match m !! kv.1 with Some _ => m | None => <[kv.1 := kv.2]> m end) l m
    !! k = match m !! k with Some v => Some v | None => (list_to_map l : rewards_map) !! k end.
Proof.
  induction l as [|[k0 v0] l IH]; intros m.
  { intros _ _ k. cbn. rewrite lookup_empty. by destruct (m !! k). }
  cbn [fmap list_fmap fst]. intros [Hn Hd]%list.NoDup_cons Hm k.
  cbn [fold_left fst snd]. rewrite (Hm k0) by (by left). rewrite list_to_map_cons.
  rewrite IH; [|done|].
  - destruct (decide (k = k0)) as [->|Hk].
    + rewrite !lookup_insert_eq, (Hm k0); [done|by left].
    + by rewrite !lookup_insert_ne by done.
  - intros k' Hk'. rewrite lookup_insert_ne by (intros ->; done). apply Hm. by right.
Qed.

(** The map that is written is the map that is read. *)
Lemma get_map_json (m : rewards_map) :
  (forall k v, m !! k = Some v -> int_pair_ok (k, v)) -> get_map (map_json m) = Some m.
Proof.
  intros Hm. unfold get_map, map_json. fold entry_json.
  set (l := merge_sort key_le (map_to_list m)).
  assert (l ≡ₚ map_to_list m) as Hp by apply merge_sort_Permutation.
  change (get_entries (entry_json <$> l) ∅ = Some m). rewrite get_entries_json.
  - f_equal. apply map_eq. intros k. rewrite fold_first_wins.
    + rewrite lookup_empty. rewrite <- (list_to_map_to_list m) at 1. f_equal.
      apply list_to_map_proper; [|done]. rewrite Hp. apply NoDup_fst_map_to_list.
    + rewrite Hp. apply NoDup_fst_map_to_list.
    + intros k' _. apply lookup_empty.
  - rewrite Hp. apply list.Forall_forall. intros [k v] Hkv%elem_of_map_to_list. by apply Hm.
Qed.

Lemma sync_to_lookup l : forall day m d,
  sync_to day l m !! d =
  if (day <=? d) && (d <? day + Z.of_nat (length l))
  then (λ r, (ItemID r, Quantity r)) <$> l !! Z.to_nat (d - day) else m !! d.
Proof.
  induction l as [|r l IH]; intros day m d; cbn [sync_to length].
  { destruct (Z.leb_spec day d), (Z.ltb_spec d (day + Z.of_nat 0)); try done. lia. }
  rewrite IH. destruct (decide (d = day)) as [->|Hd].
  - destruct (Z.leb_spec (day + 1) day); [lia|]. cbn [andb].
    rewrite lookup_insert_eq, Z.leb_refl. destruct (Z.ltb_spec day (day + Z.of_nat (S (length l)))); [|lia].
    by rewrite Z.sub_diag.
  - rewrite lookup_insert_ne by done.
    destruct (Z.leb_spec (day + 1) d), (Z.ltb_spec d (day + 1 + Z.of_nat (length l))),
      (Z.leb_spec day d), (Z.ltb_spec d (day + Z.of_nat (S (length l)))); try lia; try done.
    cbn [andb]. replace (Z.to_nat (d - day)) with (S (Z.to_nat (d - (day + 1)))) by lia. done.
Qed.

Definition reward_value (r : Reward) : Z * Z := (ItemID r, Quantity r).

Definition rewards_ok (c : Config) : Prop :=
  length (rewards c) = 30%nat /\
  Forall (λ r, in_i32 (ItemID r) /\ in_i32 (Quantity r)) (rewards c).

(** What survives a restart. A configuration of thirty rewards that is
    saved and loaded again, into any configuration and with any map in
    memory, keeps the item and the quantity of every day and nothing else:
    all types become items, and the title, the description and the footer
    note are those that were in memory before, not the saved ones. *)
Theorem config_reload items c m0 c0 m1 :
  rewards_ok c ->
  (forall k v, m0 !! k = Some v -> int_pair_ok (k, v)) ->
  exists c', load items (Some (Some (save c m0).2)) c0 m1 = (c', (save c m0).1, None) /\
    (reward_value <$> rewards c') = (reward_value <$> rewards c) /\
    Forall (λ r, Type_ r = ITEM) (rewards c') /\
    title c' = title c0 /\ description c' = description c0 /\ footer_note c' = footer_note c0.
Proof.
  intros [Hlen Hr] Hm0. unfold load, save, SyncToDailyRewardMap. cbn [fst snd].
  set (m := sync_to 1 (rewards c) m0).
  assert (forall d, m !! d = if (1 <=? d) && (d <? 31)
            then reward_value <$> rewards c !! Z.to_nat (d - 1) else m0 !! d) as Hlook.
  { intros d. unfold m. rewrite sync_to_lookup, Hlen. done. }
  change (at_key _ "dailyreward") with (Some (map_json m)).
  cbv beta iota. rewrite get_map_json.
  2: { intros k v. rewrite Hlook. destruct ((1 <=? k) && (k <? 31)) eqn:E; [|apply Hm0].
       intros (r & Hin & ->)%fmap_Some.
       apply list_elem_of_lookup_2 in Hin. rewrite list.Forall_forall in Hr.
       destruct (Hr r Hin). split_and!; [unfold in_i32; cbn; lia|done|done]. }
  eexists. split; [reflexivity|]. unfold SyncFromDailyRewardMap.
  destruct (Nat.eqb_spec (base.size m) 0) as [Hs|_].
  { apply map_size_empty_inv in Hs. specialize (Hlook 1). rewrite Hs, lookup_empty in Hlook.
    cbn in Hlook. destruct (rewards c); [done|]. by cbn in Hlook. }
  cbn [rewards with_rewards title description footer_note]. split; [|split; [|done]].
  - apply list_eq. intros i. rewrite !list_lookup_fmap.
    destruct (decide (i < 30)%nat) as [Hi|Hi].
    + rewrite lookup_seqZ_lt by (unfold TOTAL_DAYS; lia). cbn [fmap option_fmap option_map].
      unfold day_reward. rewrite Hlook.
      destruct (Z.leb_spec 1 (1 + Z.of_nat i)), (Z.ltb_spec (1 + Z.of_nat i) 31); try lia.
      cbn [andb]. replace (Z.to_nat (1 + Z.of_nat i - 1)) with i by lia.
      destruct (lookup_lt_is_Some_2 (rewards c) i) as [r ->]; [lia|]. by destruct r.
    + rewrite lookup_seqZ_ge by (unfold TOTAL_DAYS; lia).
      rewrite (lookup_ge_None_2 (rewards c)) by lia. done.
  - apply Forall_fmap, list.Forall_forall. intros d _.
    unfold day_reward. cbn. by destruct (m !! d) as [[a b]|].
Qed.

Definition edited : Config :=
  mkConfig "Summer" "A summer of rewards" "Come back" default_rewards.

Lemma config_reload_witness :
  exists c', load [] (Some (Some (save edited ∅).2)) config_default ∅ =
      (c', (save edited ∅).1, None) /\
    (reward_value <$> rewards c') = (reward_value <$> default_rewards) /\
    title c' = "Daily Reward"%string.
Proof.
  destruct (config_reload [] edited ∅ config_default ∅) as (c' & H1 & H2 & _ & H3 & _).
  - split; [reflexivity|]. unfold edited, default_rewards, in_i32. cbn [rewards].
    repeat constructor; cbn; lia.
  - intros k v Hv. apply lookup_empty_Some in Hv. done.
  - exists c'. split; [exact H1|]. split; [exact H2|]. rewrite H3. reflexivity.
Defined.

End RewardConfig.
