(* ===== verification/DailyReward.v ===== *)
(** * DailyReward: the reward of the day

    Models [src/NopySource/Handle/DailyReward/PlayerDailyData.h] (the state
    of a player), [DailyRewardSystem.h] (skipping, claiming, the dialogs),
    [src/NopySource/Handle/DailyReward.h] (the entry points and the admin
    dialogs) and the dialog handler [dailyRewards] of
    [src/NopySource/Dialog/dialog_return.h].  [now] is the clock in seconds:
    each operation reads it once.  The configuration is the one that
    [GetConfig().load()] has left in memory. *)
From S2P Require Import Prelude Items Memory Packet Tank Inventory Calendar RewardConfig Scanner.
Import Items Calendar RewardConfig.

Module DailyReward.

(** ** The state of a player *)

Record PlayerDailyData := mkData {
  LastLoginDate : Z; CurrentDay : Z; ClaimedToday : bool; TotalClaim : Z; MissedDaysTotal : Z;
  Status : list Z    (* [int Status[30]]: 0 locked, 1 claimed, 2 skipped *)
}.

Definition data_default : PlayerDailyData := mkData 0 1 false 0 0 (replicate 30 0).

(** The fields of [Player] the daily reward uses; [base] holds the items and
    the gems. *)
Record Player := mkPlayer {
  base : Inventory.Player;
  is_day : Z; claimed_daily_today : bool; daily_login_day : Z; daily_streak : Z;
  daily_status : list Z;
  gtwl : Z; opc : Z;
  x : Z; y : Z; tankIDName : string
}.

Definition with_base (b : Inventory.Player) (p : Player) : Player :=
  mkPlayer b (is_day p) (claimed_daily_today p) (daily_login_day p) (daily_streak p)
    (daily_status p) (gtwl p) (opc p) (x p) (y p) (tankIDName p).
Definition with_gtwl (v : Z) (p : Player) : Player :=
  mkPlayer (base p) (is_day p) (claimed_daily_today p) (daily_login_day p) (daily_streak p)
    (daily_status p) v (opc p) (x p) (y p) (tankIDName p).
Definition with_opc (v : Z) (p : Player) : Player :=
  mkPlayer (base p) (is_day p) (claimed_daily_today p) (daily_login_day p) (daily_streak p)
    (daily_status p) (gtwl p) v (x p) (y p) (tankIDName p).

(** *** JSON *)

Definition SaveToJson (d : PlayerDailyData) : json :=
  JObj [("daily_last_login", JNum (LastLoginDate d)); ("daily_current_day", JNum (CurrentDay d));
        ("daily_claimed", JBool (ClaimedToday d)); ("daily_total_claim", JNum (TotalClaim d));
        ("daily_missed", JNum (MissedDaysTotal d));
        ("daily_status", JArr (JNum <$> Status d))]%string.

(** [Status[i] = arr[i].get<int>()] for the first 30 elements. *)
Fixpoint read_status (i : nat) (arr : list json) (st : list Z) : option (list Z) :=
  match arr with
  | [] => Some st
  | a :: arr => if (i <? 30)%nat then v ← get_int a; read_status (S i) arr (<[i := v]> st)
                else Some st
  end.

(** [None] where a [get] throws. *)
Definition LoadFromJson (j : json) (d : PlayerDailyData) : option PlayerDailyData :=
  last ← field_or j "daily_last_login" get_long (LastLoginDate d);
  cur ← field_or j "daily_current_day" get_int (CurrentDay d);
  claimed ← field_or j "daily_claimed" get_bool (ClaimedToday d);
  total ← field_or j "daily_total_claim" get_int (TotalClaim d);
  missed ← field_or j "daily_missed" get_int (MissedDaysTotal d);
  st ← match at_key j "daily_status" with
       | Some (JArr arr) => read_status 0 arr (Status d)
       | _ => Some (Status d)
       end;
  let cur := if cur <? 1 then 1 else cur in
  let cur := if 30 <? cur then 1 else cur in
  Some (mkData last cur claimed total missed st).

(** *** The mirror in [Player] *)

Definition ReadFromPlayer (p : Player) (d : PlayerDailyData) : PlayerDailyData :=
  let cur := is_day p in
  let cur := if (cur <? 1) || (30 <? cur) then 1 else cur in
  mkData (daily_login_day p) cur (claimed_daily_today p) (TotalClaim d) (MissedDaysTotal d)
    (if (30 <=? length (daily_status p))%nat then take 30 (daily_status p) else Status d).

Definition WriteToPlayer (d : PlayerDailyData) (p : Player) : Player :=
  let st := daily_status p in
  let st := if (length st <? 30)%nat then st ++ replicate (30 - length st) 0 else st in
  mkPlayer (base p) (CurrentDay d) (ClaimedToday d) (LastLoginDate d) (daily_streak p)
    (take 30 (Status d) ++ drop 30 st) (gtwl p) (opc p) (x p) (y p) (tankIDName p).

Definition LoadPlayerData (p : Player) : PlayerDailyData := ReadFromPlayer p data_default.
Definition SavePlayerData (d : PlayerDailyData) (p : Player) : Player := WriteToPlayer d p.

(** ** Skipping missed days *)

Definition with_day (v : Z) (d : PlayerDailyData) : PlayerDailyData :=
  mkData (LastLoginDate d) v (ClaimedToday d) (TotalClaim d) (MissedDaysTotal d) (Status d).

(** Mark the current day as skipped unless it has a mark; the data and the
    number of days skipped so far. *)
Definition mark_skipped (s : PlayerDailyData * Z) : PlayerDailyData * Z :=
  let '(d, skipped) := s in
  if (1 <=? CurrentDay d) && (CurrentDay d <=? 30) then
    match Status d !! Z.to_nat (CurrentDay d - 1) with
    | Some 0 =>
        (mkData (LastLoginDate d) (CurrentDay d) (ClaimedToday d) (TotalClaim d)
           (i32 (MissedDaysTotal d + 1)) (<[Z.to_nat (CurrentDay d - 1) := 2]> (Status d)),
         skipped + 1)
    | _ => (d, skipped)
    end
  else (d, skipped).

(** [data.CurrentDay++; if (data.CurrentDay > TOTAL_DAYS) data.CurrentDay = 1;] *)
Definition next_wrap (d : PlayerDailyData) : PlayerDailyData :=
  let c := CurrentDay d + 1 in with_day (if TOTAL_DAYS <? c then 1 else c) d.

(** The loop when the last reward was claimed: [i] counts up to [n] more. *)
Fixpoint claimed_loop (n : nat) (i : Z) (s : PlayerDailyData * Z) : PlayerDailyData * Z :=
  match n with
  | O => s
  | S n =>
      let '(d, skipped) := if i =? 0 then s else mark_skipped s in
      claimed_loop n (i + 1) (next_wrap d, skipped)
  end.

(** The loop over the remaining days when it was not. *)
Fixpoint missed_loop (n : nat) (s : PlayerDailyData * Z) : PlayerDailyData * Z :=
  match n with
  | O => s
  | S n => let '(d, skipped) := mark_skipped s in missed_loop n (next_wrap d, skipped)
  end.

Section Clock.
Context (utc_offset : Z -> Z).

(** The number of skipped days is the second component. *)
Definition SkipMissedReward (now : Z) (d : PlayerDailyData) : PlayerDailyData * Z :=
  if LastLoginDate d =? 0 then (d, 0) else
  let days_gap := DaysElapsed utc_offset (LastLoginDate d) now in
  if days_gap <=? 0 then (d, 0) else
  let '(d, skipped) :=
    if ClaimedToday d then claimed_loop (Z.to_nat (1 + (days_gap - 1))) 0 (d, 0)
    else
      let '(d, skipped) := mark_skipped (d, 0) in
      missed_loop (Z.to_nat (days_gap - 1)) (with_day (CurrentDay d + 1) d, skipped) in
  (mkData now (CurrentDay d) false (TotalClaim d) (MissedDaysTotal d) (Status d), skipped).

Definition CanClaimToday (d : PlayerDailyData) : bool :=
  if ClaimedToday d then false
  else if (CurrentDay d <? 1) || (TOTAL_DAYS <? CurrentDay d) then false else true.

Definition ResetRewardCycle (d : PlayerDailyData) : PlayerDailyData :=
  mkData (LastLoginDate d) 1 false (TotalClaim d) (MissedDaysTotal d) (replicate 30 0).

(** ** Claiming *)

Inductive effect :=
| EInv (e : Inventory.effect)
| EConsole (text : string)
| EBubble (text : string)
| ESound (file : string)
| ERaw (packet : option Memory.mem)
| ELog (text : string)
| EDialog (text : string) (delay : Z).

Context (items : table) (modify : Inventory.modify_fn) (cfg : Config).

Definition GetCurrentReward (d : PlayerDailyData) : option Reward := Get cfg (CurrentDay d).

(** [items[id].name] where the id is one of the table and not 0. *)
Definition item_named (id : Z) (other : string) : string := default other (item_name items id).

(** The reward is given: whether it was, the player and the effects. *)
Definition give_reward (r : Reward) (p : Player) : option (bool * Player * list effect) :=
  match Type_ r with
  | ITEM =>
      m ← modify (ItemID r) (Quantity r) true false (base p);
      Some (Inventory.ret m =? 0, with_base (Inventory.pl_out m) p, EInv <$> Inventory.effs m)
  | GEMS => Some (true, with_base (Inventory.set_gems (i32 (Inventory.gems (base p) + Quantity r))
                                     (base p)) p, [])
  | COINS => Some (true, with_gtwl (i32 (gtwl p + Quantity r)) p, [])
  | OPC => Some (true, with_opc (u16 (opc p + Quantity r)) p, [])
  end.

Definition claimed_name (r : Reward) : string :=
  let n := ItemName r in
  let n := if is_empty n || String.eqb n "Unknown" then item_named (ItemID r) n else n in
  if is_empty n then "Unknown Item" else n.

Definition mark_claimed (now : Z) (d : PlayerDailyData) : PlayerDailyData :=
  let day_idx := CurrentDay d - 1 in
  let st := if (0 <=? day_idx) && (day_idx <? 30) then <[Z.to_nat day_idx := 1]> (Status d)
            else Status d in
  mkData now (CurrentDay d) true (i32 (TotalClaim d + 1)) (MissedDaysTotal d) st.

(** The result, the message, the player and the effects. *)
Definition ClaimReward (now : Z) (p : Player) : option (bool * string * Player * list effect) :=
  let '(d, _) := SkipMissedReward now (LoadPlayerData p) in
  if negb (CanClaimToday d) then
    Some (false, "You already claimed today's daily reward!"%string, SavePlayerData d p, [])
  else
    let invalid := (false, "Error: invalid reward configuration."%string, SavePlayerData d p, []) in
    match GetCurrentReward d with
    | None => Some invalid
    | Some r =>
        if Quantity r <=? 0 then Some invalid else
        '(given, p, es) ← give_reward r p;
        if negb given then
          Some (false, "Inventory full! Make space and try again."%string, SavePlayerData d p, es)
        else
          let d := mark_claimed now d in
          Some (true, cat ["You claimed Day "; to_string (CurrentDay d); " reward: ";
                           claimed_name r; " x"; to_string (Quantity r); "!"],
                SavePlayerData d p, es)
    end.

(** ** The dialogs *)

Definition unlines (l : list string) : string := cat ((λ s, s +:+ endl) <$> l).

(** The status a dialog shows. *)
Definition shown_status (d : PlayerDailyData) (day_num : Z) : Z :=
  let st := nth (Z.to_nat (day_num - 1)) (Status d) 0 in
  if st =? 0 then
    if day_num <? CurrentDay d then 1
    else if (day_num =? CurrentDay d) && ClaimedToday d then 1 else st
  else st.

(** The button of a day: its name, label, icon and number. *)
Definition day_button (d : PlayerDailyData) (day_num : Z) (rew : Reward)
    : string * string * Z * Z :=
  let st := shown_status d day_num in
  let own := cat ["dr_day_"; to_string day_num] in
  let label := cat ["Day "; to_string day_num] in
  if st =? 1 then (own, "`2CLAIMED!"%string, 15634, Quantity rew)
  else if (day_num =? CurrentDay d) && negb (ClaimedToday d) then
    ("claim_daily_reward"%string, cat [label; ": `2 Claim Now!"], ItemID rew, Quantity rew)
  else if st =? 2 then (own, cat [label; ": `4 Skipped"], ItemID rew, Quantity rew)
  else (own, label, ItemID rew, Quantity rew).

Definition button_line (b : string * string * Z * Z) : string :=
  let '(id, label, icon, n) := b in
  cat ["add_button_with_icon|"; id; "|"; label; "|staticYellowFrame|"; to_string icon; "|";
       to_string n; "|"; endl].

Definition day_buttons (d : PlayerDailyData) : list (string * string * Z * Z) :=
  imap (λ i r, day_button d (Z.of_nat i + 1) r) (take 30 (rewards cfg)).

(** The text for the player's data after the skip, at local second
    [seconds_today]. *)
Definition dialog_text (seconds_today : Z) (d : PlayerDailyData) : string :=
  let h := seconds_today / 3600 in
  let m := seconds_today mod 3600 / 60 in
  let s := seconds_today mod 60 in
  let left_ := 86400 - seconds_today in
  let left_ := if left_ <? 0 then 0 else left_ in
  cat [
    unlines ["set_default_color|`o"; "set_bg_color|0,52,102,178|";
             "set_border_color|255,255,255,255|"; "";
             "add_label_with_icon|big|`wDaily Reward|left|1488|";
             cat ["add_textbox|`oServer Time: `w"; pad2 h; ":"; pad2 m; ":"; pad2 s; "``|center|"];
             "add_spacer|small|";
             cat ["add_textured_progress_bar|interface/large/gui_event_bar2.rttex|0|4|`oReset Countdown: `2";
                  to_string (left_ / 3600); "h "; to_string (left_ mod 3600 / 60); "m ";
                  to_string (left_ mod 60); "s left``|"; to_string seconds_today;
                  "|86400|center|0.85|0.02|0|1000|64|0.005|dailyBarBG|"];
             "add_spacer|small|";
             "add_smalltext|Visit every day for 30 days, claim your daily prizes, and stay the course to earn a special reward waiting on the final day!|center|";
             "add_spacer|small|";
             "text_scaling_string|   Day 30 +9999999999   |"];
    cat (button_line <$> day_buttons d);
    unlines ["add_button_with_icon||END_LIST|noflags|0||"; "add_spacer|small|";
             "add_textbox|`wNote: Missing a day will skip that reward!|center|";
             "end_dialog|dailyReward|Close||"]].

(** The player is saved after the skip; the text. *)
Definition BuildDialog (now : Z) (p : Player) : Player * string :=
  let '(d, _) := SkipMissedReward now (LoadPlayerData p) in
  (SavePlayerData d p, dialog_text (local_seconds utc_offset now) d).

Definition BuildInfoDialog (p : Player) (day : Z) : string :=
  if (day <? 1) || (30 <? day) then EmptyString else
  let d := LoadPlayerData p in
  match Get cfg day with
  | None => EmptyString
  | Some rew =>
      let desc := if (0 <? ItemID rew) && (ItemID rew <? size items)
                  then Items.description (item items (ItemID rew)) else EmptyString in
      let st := shown_status d day in
      cat [
        unlines ["set_default_color|`o"; "set_bg_color|0,52,102,178|";
                 "set_border_color|255,255,255,255|"; "";
                 cat ["add_label_with_icon|big|`wDay "; to_string day; ": ";
                      to_string (Quantity rew); " "; item_named (ItemID rew) "Unknown Item";
                      "``|left|"; to_string (ItemID rew); "|"];
                 "add_spacer|small|";
                 cat ["add_smalltext|`o"; (if is_empty desc then "Daily reward item." else desc);
                      "|left|"];
                 "add_spacer|small|"];
        (if (day =? CurrentDay d) && negb (ClaimedToday d) then
           unlines ["add_textbox|`2Status: Ready to claim!``|left|"; "add_spacer|small|";
                    "add_button|claim_daily_reward|`2CLAIM|0|0|"]
         else if st =? 1 then unlines ["add_textbox|`2Status: Already Claimed``|left|"]
         else if st =? 2 then unlines ["add_textbox|`4Status: Skipped (Missed Day)``|left|"]
         else unlines [cat ["add_textbox|`oStatus: Available on Day `w"; to_string day;
                            "``|left|"]]);
        unlines ["add_spacer|small|"; "add_button|back_to_daily|`oBACK``|0|0|";
                 "end_dialog|dailyReward_info|Close||"]]
  end.

Definition dialog_effect (text : string) : list effect :=
  if is_empty text then [] else [EDialog text 500].

Definition OpenInfoDialog (p : Player) (day : Z) : list effect :=
  dialog_effect (BuildInfoDialog p day).

Definition OpenDialog (now : Z) (p : Player) : Player * list effect :=
  let '(p, text) := BuildDialog now p in (p, dialog_effect text).

(** [to_float] is the language's conversion of an [int] to the bits of a
    [float]. *)
Definition HandleClaim (to_float : Z -> Z) (now : Z) (p : Player)
    : option (bool * Player * list effect) :=
  '(ok, msg, p, es) ← ClaimReward now p;
  let shown :=
    if (ok : bool) then
      [EConsole ("`2[Daily Reward] " +:+ msg); EBubble ("`2[Daily Reward] " +:+ msg);
       ESound "audio/party_horn.wav";
       ERaw (Tank.packPlayerMoving
               (Tank.mkMoving 198 0 17 0 0 0 0 0 (to_float (i32 (x p + 16)))
                  (to_float (i32 (y p + 16))) 0 (to_float 198) 0 0) 56 0);
       ELog (cat ["[DailyReward] "; tankIDName p; " claimed: "; msg])]
    else [EBubble ("`4[Daily Reward] " +:+ msg)] in
  let '(p, redraw) := OpenDialog now p in
  Some (ok, p, es ++ shown ++ redraw).

(** ** The dialog handler [dailyRewards] *)

(** Whether a reward was claimed, the player and the effects. *)
Definition dailyRewards (to_float : Z -> Z) (now : Z) (cch : string) (p : Player)
    : option (bool * Player * list effect) :=
  '(found, button) ← Scanner.try_get (Scanner.parse cch) "buttonClicked" "";
  if negb found then Some (false, p, []) else
  if String.eqb button "claim_daily_reward" || String.eqb button "claim_reward" then
    HandleClaim to_float now p
  else if starts_with "dr_day_" button then
    Some (false, p, OpenInfoDialog p (atoi (drop_str 7 button)))
  else if starts_with "info_daily_" button then
    Some (false, p, OpenInfoDialog p (atoi (drop_str 11 button)))
  else if String.eqb button "back_to_daily" then
    let '(p, es) := OpenDialog now p in Some (false, p, es)
  else Some (false, p, []).

End Clock.

(** ** Resetting a player *)

(** What [ResetAllPlayersDailyReward] does with a connected player before
    the dialog opens again, and with the file of a player. *)
Definition reset_player (p : Player) : Player :=
  SavePlayerData data_default
    (mkPlayer (base p) 1 false 0 0 (daily_status p) (gtwl p) (opc p) (x p) (y p) (tankIDName p)).

Fixpoint set_member (key : string) (v : json) (l : list (string * json)) : list (string * json) :=
  match l with
  | [] => [(key, v)]
  | (k, w) :: l => if String.eqb k key then (k, v) :: l else (k, w) :: set_member key v l
  end.

Definition reset_fields : list (string * json) := [
  ("is_day", JNum 1); ("claimed_daily_today", JBool false); ("daily_login_day", JNum 0);
  ("daily_streak", JNum 0); ("daily_last_login", JNum 0); ("daily_current_day", JNum 1);
  ("daily_claimed", JBool false); ("daily_total_claim", JNum 0); ("daily_missed", JNum 0);
  ("daily_status", JArr (replicate 30 (JNum 0)))]%string.

(** [None]: the file is left as it is. *)
Definition reset_file (j : json) : option json :=
  match j with
  | JObj l => Some (JObj (fold_left (λ l kv, set_member kv.1 kv.2 l) reset_fields l))
  | JNull => Some (JObj (fold_left (λ l kv, set_member kv.1 kv.2 l) reset_fields []))
  | _ => None
  end.

(** ** [DailyReward.h]: older entry points and the admin dialogs *)

Definition DailyReward_IsNewDay (utc_offset : Z -> Z) (now last_claim_timestamp : Z) : bool :=
  if last_claim_timestamp =? 0 then true
  else IsDifferentCalendarDay utc_offset last_claim_timestamp now.

Definition DailyReward_DaysSince (utc_offset : Z -> Z) (now last_claim_timestamp : Z) : Z :=
  if last_claim_timestamp =? 0 then 999 else DaysElapsed utc_offset last_claim_timestamp now.

(** The older configuration: pairs of an item and a quantity. *)
Definition legacy_rewards (c : Config) : list (Z * Z) := reward_value <$> rewards c.

Fixpoint number_rewards (day : Z) (l : list (Z * Z)) : list Reward :=
  match l with
  | [] => []
  | (id, q) :: l => mkReward day id EmptyString q ITEM :: number_rewards (day + 1) l
  end.

Definition legacy_save (l : list (Z * Z)) (c : Config) (dailyReward : rewards_map)
    : Config * rewards_map * json :=
  let c := with_rewards (number_rewards 1 l) c in
  let '(m, j) := save c dailyReward in (c, m, j).

Section Admin.
Context (items : table) (cfg : Config) (set_color : string).   (* [SetColor(peer)] *)

Definition edit_button (i : nat) (r : Reward) : string :=
  cat ["add_button_with_icon|dr_edit_"; to_string (Z.of_nat i + 1); "|`wDay ";
       to_string (Z.of_nat i + 1); ": "; default "Unknown"%string (item_name items (ItemID r)); " x";
       to_string (Quantity r); "``|staticBlueFrame|"; to_string (ItemID r); "|0|"].

Definition DailyReward_BuildEditDialog : string :=
  set_color +:+ unlines ([
    "set_default_color|`o"; "set_bg_color|0,52,102,178|"; "set_border_color|255,255,255,255|"; "";
    "add_label_with_icon|big|`wSet Daily Rewards``|left|7188|"; "add_spacer|small|";
    "add_textbox|`oEdit reward for each day. Click a day to modify.``|left|"; "add_spacer|small|";
    "add_textbox|`wTitle:``|left|"; cat ["add_text_input|dr_title||"; title cfg; "|30|"];
    "add_spacer|small|";
    "add_textbox|`wDescription:``|left|";
    cat ["add_text_input|dr_desc||"; RewardConfig.description cfg; "|80|"]; "add_spacer|small|";
    "add_textbox|`wFooter Note:``|left|"; cat ["add_text_input|dr_note||"; footer_note cfg; "|80|"];
    "add_spacer|small|"; "add_custom_break|"; "add_spacer|small|"]%string ++
    imap edit_button (take 30 (rewards cfg)) ++
    ["add_spacer|small|"; "add_button|dr_save_text|`2Save Title/Desc/Note``|noflags|0|0|";
     "add_button|dr_reset|`4Reset to Default``|noflags|0|0|"; "add_quick_exit|";
     "end_dialog|setDaily|Close||"]%string).

(** [None]: there is no reward at all, and index 0 is outside the vector. *)
Definition DailyReward_BuildEditDayDialog (day : Z) : option string :=
  let day := if (day <? 1) || (30 <? day) then 1 else day in
  let idx := day - 1 in
  let idx := if Z.of_nat (length (rewards cfg)) <=? idx then 0 else idx in
  r ← rewards cfg !! Z.to_nat idx;
  Some (set_color +:+ unlines [
    "set_default_color|`o"; "set_bg_color|0,52,102,178|"; "set_border_color|255,255,255,255|"; "";
    cat ["add_label_with_icon|big|`wEdit Day "; to_string day; " Reward``|left|";
         to_string (ItemID r); "|"];
    "add_spacer|small|";
    cat ["add_textbox|`oCurrent: `w"; default "Unknown"%string (item_name items (ItemID r)); " x";
         to_string (Quantity r); "``|left|"];
    "add_spacer|small|"; "add_textbox|`wItem ID:``|left|";
    cat ["add_text_input|dr_item_id||"; to_string (ItemID r); "|10|"];
    "add_textbox|`wAmount:``|left|";
    cat ["add_text_input|dr_amount||"; to_string (Quantity r); "|10|"];
    "add_spacer|small|"; cat ["embed_data|dr_day|"; to_string day];
    "add_button|dr_save_day|`2Save``|noflags|0|0|";
    "add_button|dr_back|`oBack to List``|noflags|0|0|"; "add_quick_exit|";
    "end_dialog|setDaily_edit|Close||"])%string.

End Admin.

End DailyReward.
