(* ===== verification/DailyRewardFacts.v ===== *)
(** * DailyRewardFacts: what the daily reward promises

    The effect of missed days against a closed form, one reward per local
    day along any history, what a claim pays, and the JSON form of a
    player's state. *)
From Stdlib Require Import Sorted.
From S2P Require Import Prelude Items Memory Packet Tank Inventory InventoryFacts Calendar.
From S2P Require Import RewardConfig Scanner DailyReward.
Import Items Calendar RewardConfig DailyReward.

Module DailyRewardFacts.

(** ** Missed days *)

Definition data_ok (d : PlayerDailyData) : Prop :=
  1 <= CurrentDay d <= 30 /\ length (Status d) = 30%nat.

(** Day [j], counted from 0, is one of the [n] days from day [c] on. *)
Fixpoint hit (n : nat) (c j : Z) : bool :=
  match n with
  | O => false
  | S n => (j =? c mod 30) || hit n (c + 1) j
  end.

Lemma hit_spec n : forall c j,
  hit n c j = true <-> exists k, 0 <= k < Z.of_nat n /\ j = (c + k) mod 30.
Proof.
  induction n as [|n IH]; intros c j; cbn [hit].
  { split; [done|]. intros (k & ? & _). lia. }
  rewrite orb_true_iff, Z.eqb_eq, IH. split.
  - intros [->|(k & Hk & ->)]; [exists 0|exists (k + 1)]; split; try lia; f_equal; lia.
  - intros (k & Hk & ->). destruct (decide (k = 0)) as [->|]; [left; f_equal; lia|].
    right. exists (k - 1). split; [lia|]. f_equal. lia.
Qed.

Lemma hit_mod n : forall c j, hit n (c mod 30) j = hit n c j.
Proof.
  induction n as [|n IH]; intros c j; cbn [hit]; [done|].
  rewrite Z.mod_mod by lia. f_equal. rewrite <- (IH (c mod 30 + 1)), <- (IH (c + 1)).
  f_equal. by rewrite Zplus_mod_idemp_l.
Qed.

Definition marked (n : nat) (c : Z) (st : list Z) : list Z :=
  imap (λ j v, if (v =? 0) && hit n c (Z.of_nat j) then 2 else v) st.

(** The number of days without a mark. *)
Fixpoint open_days (st : list Z) : Z :=
  match st with
  | [] => 0
  | v :: st => (if v =? 0 then 1 else 0) + open_days st
  end.

Lemma marked_length n c st : length (marked n c st) = length st.
Proof. apply length_imap. Qed.

Lemma open_days_insert st : forall i,
  st !! i = Some 0 -> open_days (<[i := 2]> st) = open_days st - 1.
Proof.
  induction st as [|v st IH]; intros [|i]; try done.
  - cbn. intros [= ->]. cbn. lia.
  - intros Hi. specialize (IH i Hi). cbn [open_days]. 
    change (<[S i := 2]> (v :: st)) with (v :: <[i := 2]> st). cbn [open_days]. lia.
Qed.

(** Marking one day. *)
Lemma marked_1 st c v : 0 <= c < 30 -> st !! Z.to_nat c = Some v ->
  marked 1 c st = if v =? 0 then <[Z.to_nat c := 2]> st else st.
Proof.
  intros Hc Hv. apply list_eq. intros i. unfold marked. rewrite list_lookup_imap. cbn [hit].
  rewrite orb_false_r, Z.mod_small by lia.
  destruct (decide (i = Z.to_nat c)) as [->|Hi].
  - rewrite Hv, Z2Nat.id, Z.eqb_refl by lia. cbn. rewrite andb_true_r.
    destruct (v =? 0); [|by rewrite Hv].
    symmetry. apply list_lookup_insert_eq. by apply lookup_lt_Some in Hv.
  - rewrite (proj2 (Z.eqb_neq (Z.of_nat i) c)) by lia.
    assert (forall w : list Z, (w !! i : option Z) = st !! i -> (λ v, if (v =? 0) && false then 2 else v) <$> st !! i = w !! i) as E.
    { intros w ->. destruct (st !! i); cbn; [by rewrite andb_false_r|done]. }
    apply E. destruct (v =? 0); [|done]. by apply list_lookup_insert_ne.
Qed.

Lemma open_days_nonneg st : 0 <= open_days st.
Proof. induction st as [|v st IH]; cbn [open_days]; [lia|]. destruct (v =? 0); lia. Qed.

Lemma marked_S n c st : marked n (c + 1) (marked 1 c st) = marked (S n) c st.
Proof.
  apply list_eq. intros i. unfold marked. rewrite !list_lookup_imap.
  destruct (st !! i) as [v|]; [|done]. cbn. f_equal. rewrite orb_false_r.
  destruct (v =? 0) eqn:E; cbn [andb]; [|by rewrite E].
  destruct (Z.of_nat i =? c mod 30); cbn [orb]; [done|]. by rewrite E.
Qed.

(** [d'] is [d] after the [n] days from day [c] on were missed. *)
Record missed (n : nat) (c : Z) (d d' : PlayerDailyData) : Prop := mkMissed {
  missed_status : Status d' = marked n c (Status d);
  missed_login : LastLoginDate d' = LastLoginDate d;
  missed_claimed : ClaimedToday d' = ClaimedToday d;
  missed_total : TotalClaim d' = TotalClaim d;
  missed_count : MissedDaysTotal d' = MissedDaysTotal d + (open_days (Status d) - open_days (Status d'))
}.

(** The statistic of missed days stays inside an [int]. *)
Definition counter_ok (d : PlayerDailyData) : Prop :=
  0 <= MissedDaysTotal d /\ MissedDaysTotal d + open_days (Status d) < 2 ^ 31.

Lemma missed_counter n c d d' : counter_ok d -> missed n c d d' ->
  open_days (Status d') <= open_days (Status d) -> counter_ok d'.
Proof. intros [? ?] [] ?. unfold counter_ok. lia. Qed.

Lemma mark_skipped_spec d s : data_ok d -> counter_ok d ->
  exists d', mark_skipped (d, s) = (d', s + (open_days (Status d) - open_days (Status d'))) /\
    missed 1 (CurrentDay d - 1) d d' /\ CurrentDay d' = CurrentDay d /\ counter_ok d'.
Proof.
  intros [Hc Hl] [Hm0 Hm]. unfold mark_skipped.
  destruct (Z.leb_spec 1 (CurrentDay d)), (Z.leb_spec (CurrentDay d) 30); try lia. cbn [andb].
  destruct (lookup_lt_is_Some_2 (Status d) (Z.to_nat (CurrentDay d - 1))) as [v Hv]; [lia|].
  pose proof (marked_1 (Status d) (CurrentDay d - 1) v ltac:(lia) Hv) as Hmark. rewrite Hv.
  destruct v as [|v|v]; cbn [Z.eqb] in Hmark; [|exists d; split; [f_equal; lia|];
    split; [split; done || lia|split; [done|split; lia]] ..].
  pose proof (open_days_insert _ _ Hv) as Ho.
  pose proof (open_days_nonneg (<[Z.to_nat (CurrentDay d - 1) := 2]> (Status d))).
  assert (i32 (MissedDaysTotal d + 1) = MissedDaysTotal d + 1) as Hi by (apply i32_small; lia).
  eexists. split; [f_equal; change (s + 1 = s + (open_days (Status d) -
    open_days (<[Z.to_nat (CurrentDay d - 1) := 2]> (Status d)))); lia|].
  split; [split; cbn; done || lia|]. split; [done|]. split; cbn; lia.
Qed.

Definition day_after (c n : Z) : Z := (c - 1 + n) mod 30 + 1.

Lemma next_wrap_spec d : data_ok d ->
  CurrentDay (next_wrap d) = day_after (CurrentDay d) 1 /\ data_ok (next_wrap d).
Proof.
  intros [Hc Hl]. unfold next_wrap, data_ok, day_after, TOTAL_DAYS. cbn.
  destruct (Z.ltb_spec 30 (CurrentDay d + 1)).
  - replace (CurrentDay d) with 30 by lia. done.
  - rewrite Z.mod_small by lia. lia.
Qed.

Lemma day_after_range c n : 1 <= day_after c n <= 30.
Proof. unfold day_after. pose proof (Z.mod_pos_bound (c - 1 + n) 30). lia. Qed.

Lemma day_after_add c n m : day_after (day_after c n) m = day_after c (n + m).
Proof.
  unfold day_after. replace ((c - 1 + n) mod 30 + 1 - 1 + m) with ((c - 1 + n) mod 30 + m) by lia.
  rewrite Zplus_mod_idemp_l. do 2 f_equal. lia.
Qed.

Lemma marked_mod n c st : marked n (c mod 30) st = marked n c st.
Proof. apply list_eq. intros i. unfold marked. rewrite !list_lookup_imap. by rewrite hit_mod. Qed.

Lemma missed_wrap n c d d' : missed n c d (next_wrap d') <-> missed n c d d'.
Proof. split; intros []; by split. Qed.

(** Missing a day and then [n] more. *)
Lemma missed_trans n c d d1 d2 :
  missed 1 c d d1 -> missed n (c + 1) d1 d2 -> missed (S n) c d d2.
Proof.
  intros [S1 L1 C1 T1 M1] [S2 L2 C2 T2 M2]. split; try congruence.
  - by rewrite S2, S1, marked_S.
  - lia.
Qed.

Lemma missed_loop_spec n : forall d s, data_ok d -> counter_ok d ->
  exists d', missed_loop n (d, s) = (d', s + (open_days (Status d) - open_days (Status d'))) /\
    missed n (CurrentDay d - 1) d d' /\ CurrentDay d' = day_after (CurrentDay d) (Z.of_nat n).
Proof.
  induction n as [|n IH]; intros d s Hok Hct.
  { exists d. split; [cbn; f_equal; lia|]. split.
    - split; try done; [|lia]. unfold marked. apply list_eq. intros i. rewrite list_lookup_imap.
      destruct (Status d !! i); [|done]. cbn. by rewrite andb_false_r.
    - unfold day_after. destruct Hok. rewrite Z.mod_small by lia. lia. }
  cbn [missed_loop].
  destruct (mark_skipped_spec d s Hok Hct) as (d1 & -> & H1 & Hc1 & Hct1).
  assert (data_ok d1) as Hok1.
  { destruct Hok as [? Hl]. split; [by rewrite Hc1|]. destruct H1 as [-> _ _ _ _].
    by rewrite marked_length. }
  destruct (next_wrap_spec d1 Hok1) as [Hnc Hnok].
  destruct (IH (next_wrap d1) (s + (open_days (Status d) - open_days (Status d1))) Hnok Hct1)
    as (d2 & -> & H2 & Hc2).
  exists d2. split; [f_equal; cbn [Status next_wrap with_day]; lia|]. split.
  - apply (missed_trans _ _ _ d1); [done|].
    replace (CurrentDay (next_wrap d1) - 1) with ((CurrentDay d - 1 + 1) mod 30) in H2
      by (rewrite Hnc, Hc1; unfold day_after; lia).
    destruct H2 as [S2 L2 C2 T2 M2]. split; try done. by rewrite marked_mod in S2.
  - rewrite Hc2, Hnc, Hc1, day_after_add. f_equal. lia.
Qed.

(** After a claim the first day passes without a mark. *)
Lemma claimed_loop_missed n : forall i s, 0 < i -> claimed_loop n i s = missed_loop n s.
Proof.
  induction n as [|n IH]; intros i s Hi; [done|]. cbn [claimed_loop missed_loop].
  rewrite (proj2 (Z.eqb_neq i 0)) by lia. destruct (mark_skipped s). apply IH. lia.
Qed.

(** C34: the effect of an absence. After [gap] local midnights a player moves
    [gap] days on in the cycle of thirty, whatever the number of days the
    loops walk; every day passed without a mark is marked as skipped, the
    others keep their mark, and the number returned is the number of new
    marks. The day that was claimed before the absence counts as passed; the
    day that was not is the first one missed, which the code gets right on
    every day but the thirtieth. So who claimed day 1 and returns three days
    later is on day 4 with two days skipped, which is what the calendar says;
    scenario 4 of the test in the source expects day 5 and three, which the
    code does not do (the witness evaluates it). Assumed: the player has
    logged in before, at least one local midnight has passed, the day is from
    1 to 30 with thirty marks, and the counter of missed days does not
    overflow. *)
Theorem SkipMissedReward_spec utc_offset now d :
  let gap := DaysElapsed utc_offset (LastLoginDate d) now in
  let missed_days := if ClaimedToday d then gap - 1 else gap in
  let first := if ClaimedToday d then CurrentDay d else CurrentDay d - 1 in
  LastLoginDate d <> 0 -> 0 < gap -> data_ok d -> counter_ok d ->
  ClaimedToday d = true \/ CurrentDay d < 30 ->
  exists d' skipped, SkipMissedReward utc_offset now d = (d', skipped) /\
    CurrentDay d' = day_after (CurrentDay d) gap /\ ClaimedToday d' = false /\
    LastLoginDate d' = now /\ Status d' = marked (Z.to_nat missed_days) first (Status d) /\
    skipped = open_days (Status d) - open_days (Status d') /\
    MissedDaysTotal d' = MissedDaysTotal d + skipped.
Proof.
  intros gap missed_days first Hlast Hgap Hok Hct H30. unfold SkipMissedReward. fold gap.
  rewrite (proj2 (Z.eqb_neq _ _)), (proj2 (Z.leb_gt gap 0)) by done.
  subst missed_days first. destruct (next_wrap_spec d Hok) as [Hnc Hnok].
  destruct (ClaimedToday d) eqn:Hcl.
  - replace (Z.to_nat (1 + (gap - 1))) with (S (Z.to_nat (gap - 1))) by lia.
    cbn [claimed_loop]. rewrite Z.eqb_refl, claimed_loop_missed by lia.
    destruct (missed_loop_spec (Z.to_nat (gap - 1)) (next_wrap d) 0 Hnok Hct)
      as (d' & -> & Hm & Hd). eexists _, _. split; [reflexivity|].
    destruct Hm as [S2 L2 C2 T2 M2]. cbn [CurrentDay ClaimedToday LastLoginDate Status MissedDaysTotal].
    split; [rewrite Hd, Hnc, day_after_add; f_equal; lia|]. split_and!; try done.
    rewrite S2. rewrite <- (marked_mod _ (CurrentDay d)). f_equal.
    rewrite Hnc. unfold day_after. replace (CurrentDay d - 1 + 1) with (CurrentDay d) by lia. lia.
  - destruct H30 as [?|H30]; [done|].
    destruct (mark_skipped_spec d 0 Hok Hct) as (d1 & -> & H1 & Hc1 & Hct1).
    assert (with_day (CurrentDay d1 + 1) d1 = next_wrap d1) as ->.
    { unfold next_wrap, TOTAL_DAYS. by rewrite (proj2 (Z.ltb_ge 30 (CurrentDay d1 + 1))) by lia. }
    assert (data_ok d1) as Hok1.
    { destruct Hok as [? Hl]. split; [by rewrite Hc1|]. destruct H1 as [-> _ _ _ _].
      by rewrite marked_length. }
    destruct (next_wrap_spec d1 Hok1) as [Hnc1 Hnok1].
    destruct (missed_loop_spec (Z.to_nat (gap - 1)) (next_wrap d1)
      (0 + (open_days (Status d) - open_days (Status d1))) Hnok1 Hct1) as (d' & -> & Hm & Hd).
    eexists _, _. split; [reflexivity|].
    cbn [CurrentDay ClaimedToday LastLoginDate Status MissedDaysTotal].
    assert (missed (S (Z.to_nat (gap - 1))) (CurrentDay d - 1) d d') as [S2 L2 C2 T2 M2].
    { apply (missed_trans _ _ _ d1); [done|].
      replace (CurrentDay (next_wrap d1) - 1) with ((CurrentDay d - 1 + 1) mod 30) in Hm
        by (rewrite Hnc1, Hc1; unfold day_after; lia).
      destruct Hm as [S2 L2 C2 T2 M2]. split; try done. by rewrite marked_mod in S2. }
    split; [rewrite Hd, Hnc1, Hc1, day_after_add; f_equal; lia|].
    replace (S (Z.to_nat (gap - 1))) with (Z.to_nat gap) in S2 by lia.
    split_and!; try done; cbn [Status next_wrap with_day]; lia.
Qed.

Definition absent : PlayerDailyData :=
  mkData 1709142600 28 true 3 0 (replicate 26 1 ++ [0; 1; 0; 0]).

(** Scenario 4: day 1 was claimed three days ago. *)
Definition away_3_days : PlayerDailyData :=
  mkData (1709542600 - 3 * 86400) 1 true 1 0 (1 :: replicate 29 0).

Lemma SkipMissedReward_spec_witness :
  (exists d' skipped, SkipMissedReward jakarta 1709542600 absent = (d', skipped) /\
    CurrentDay d' = 2 /\ Status d' = replicate 26 1 ++ [0; 1; 2; 2]) /\
  (exists d', SkipMissedReward jakarta 1709542600 away_3_days = (d', 2) /\
    CurrentDay d' = 4 /\ Status d' = [1; 2; 2] ++ replicate 27 0).
Proof.
  split.
  - destruct (SkipMissedReward_spec jakarta 1709542600 absent) as (d' & k & H1 & H2 & _ & _ & H3 & _).
    + discriminate.
    + vm_compute. reflexivity.
    + split; [cbn; lia|reflexivity].
    + split; vm_compute; congruence.
    + by left.
    + exists d', k. split; [exact H1|]. rewrite H2, H3. split; vm_compute; reflexivity.
  - destruct (SkipMissedReward_spec jakarta 1709542600 away_3_days) as (d' & k & H1 & H2 & _ & _ & H3 & H4 & _).
    + discriminate.
    + vm_compute. reflexivity.
    + split; [cbn; lia|reflexivity].
    + split; vm_compute; congruence.
    + by left.
    + rewrite H3 in H4. vm_compute in H4. subst k. exists d'. split; [exact H1|]. rewrite H2, H3.
      split; vm_compute; reflexivity.
Defined.

(** The thirtieth day missed. A player who did not claim on day 30 and
    comes back after the next midnight is on day 31: no reward of any day
    can be claimed, although a day of the new cycle has begun. *)
Theorem missed_day_30 utc_offset now d :
  LastLoginDate d <> 0 -> DaysElapsed utc_offset (LastLoginDate d) now = 1 ->
  ClaimedToday d = false -> CurrentDay d = 30 ->
  CurrentDay (SkipMissedReward utc_offset now d).1 = 31 /\
  CanClaimToday (SkipMissedReward utc_offset now d).1 = false.
Proof.
  intros Hl Hg Hc H30. unfold SkipMissedReward.
  rewrite (proj2 (Z.eqb_neq _ _)), Hg, Hc by done. cbn [Z.leb Z.compare Z.sub].
  unfold mark_skipped. rewrite H30. cbn [Z.leb Z.compare andb].
  change (Z.to_nat (30 - 1)) with 29%nat.
  destruct (Status d !! 29%nat) as [[]|]; cbn; rewrite ?H30; done.
Qed.

Lemma missed_day_30_witness :
  let d := mkData 1709142600 30 false 3 0 (replicate 30 1) in
  CurrentDay (SkipMissedReward jakarta 1709240400 d).1 = 31 /\
  CanClaimToday (SkipMissedReward jakarta 1709240400 d).1 = false.
Proof.
  apply missed_day_30; [discriminate|vm_compute; reflexivity|reflexivity|reflexivity].
Defined.

(** ** One reward a day *)

Section Zone.
Context (utc_offset : Z -> Z).
Local Abbreviation day := (local_day utc_offset).
(** Local dates do not go back, and a zone is within a day of UTC. *)
Context (day_mono : forall a b, a <= b -> day a <= day b).
Context (offset_small : forall t, - 86400 <= utc_offset t <= 86400).

Lemma day_nonneg t : 86400 <= t -> 0 <= day t.
Proof.
  intros H. unfold local_day. pose proof (offset_small t). apply Z.div_pos; lia.
Qed.

Lemma elapsed_later last now :
  86400 <= last -> 0 < DaysElapsed utc_offset last now -> day last < day now.
Proof.
  intros Hl. unfold DaysElapsed. destruct (Z.eqb_spec last 0); [lia|].
  destruct (Z.ltb_spec now last); [lia|].
  destruct (Z.ltb_spec (1000 * 86400) (now - last)).
  - intros _. unfold local_day. pose proof (offset_small last). pose proof (offset_small now).
    Z.to_euclidean_division_equations. lia.
  - unfold ToCalendar. rewrite DateDiffDays_spec by (apply day_nonneg; lia). lia.
Qed.

Lemma elapsed_same t : 86400 <= t -> DaysElapsed utc_offset t t = 0.
Proof.
  intros Ht. unfold DaysElapsed. destruct (Z.eqb_spec t 0); [lia|].
  destruct (Z.ltb_spec t t); [lia|]. rewrite Z.sub_diag.
  change (1000 * 86400 <? 0) with false. cbv iota.
  unfold ToCalendar. rewrite DateDiffDays_spec by (apply day_nonneg; lia). lia.
Qed.

(** What decides whether a player may claim: the flag and the last login. *)
Definition view (p : Player) : bool * Z := (claimed_daily_today p, daily_login_day p).

Definition skip_view (now : Z) (v v' : bool * Z) : Prop :=
  v' = v \/ (0 < DaysElapsed utc_offset v.2 now /\ v' = (false, now)).

Lemma Skip_view now d :
  skip_view now (ClaimedToday d, LastLoginDate d)
    (ClaimedToday (SkipMissedReward utc_offset now d).1,
     LastLoginDate (SkipMissedReward utc_offset now d).1).
Proof.
  unfold SkipMissedReward. destruct (Z.eqb_spec (LastLoginDate d) 0); [by left|].
  destruct (Z.leb_spec (DaysElapsed utc_offset (LastLoginDate d) now) 0); [by left|].
  right. split; [done|]. by case_match.
Qed.

(** After a reward at time [t0]: it is still the day's reward, or a later
    day has begun. *)
Definition after_claim (t0 now : Z) (v : bool * Z) : Prop :=
  v = (true, t0) \/ (v.1 = false /\ day t0 < day v.2 /\ v.2 <= now).

Lemma after_claim_skip t0 now t v v' :
  86400 <= t0 -> t0 <= now <= t -> after_claim t0 now v -> skip_view t v v' ->
  after_claim t0 t v'.
Proof.
  intros H0 Ht Hv [->|[Hg ->]].
  - destruct Hv as [->|(? & ? & ?)]; [by left|right]. split_and!; try done. lia.
  - right. split; [done|]. split; [|cbn; lia]. cbn [snd].
    destruct Hv as [->|(_ & Hd & Hle)]; [by apply elapsed_later|].
    pose proof (day_mono v.2 t ltac:(lia)). lia.
Qed.

Lemma after_claim_free t0 now v :
  after_claim t0 now v -> v.1 = false -> day t0 < day now.
Proof.
  intros [->|(_ & Hd & Hle)] Hf; [done|]. pose proof (day_mono _ _ Hle). lia.
Qed.

Context (items : table) (modify : Inventory.modify_fn) (cfg : Config) (to_float : Z -> Z).

Lemma view_save d p : view (SavePlayerData d p) = (ClaimedToday d, LastLoginDate d).
Proof. done. Qed.

Lemma ClaimReward_view now p ok msg p' es :
  ClaimReward utc_offset items modify cfg now p = Some (ok, msg, p', es) ->
  exists v, skip_view now (view p) v /\
    if (ok : bool) then v.1 = false /\ view p' = (true, now) else view p' = v.
Proof.
  unfold ClaimReward. pose proof (Skip_view now (LoadPlayerData p)) as Hs.
  destruct (SkipMissedReward utc_offset now (LoadPlayerData p)) as [d k]. cbn [fst] in Hs.
  change (ClaimedToday (LoadPlayerData p), LastLoginDate (LoadPlayerData p)) with (view p) in Hs.
  intros H. exists (ClaimedToday d, LastLoginDate d). split; [exact Hs|]. revert H.
  unfold CanClaimToday.
  destruct (ClaimedToday d) eqn:Ec; cbn [negb]; [intros [= <- <- <- <-]; by rewrite view_save, Ec|].
  destruct ((CurrentDay d <? 1) || (TOTAL_DAYS <? CurrentDay d)); cbn [negb];
    [intros [= <- <- <- <-]; by rewrite view_save, Ec|].
  destruct (GetCurrentReward cfg d) as [r|]; [|intros [= <- <- <- <-]; by rewrite view_save, Ec].
  destruct (Quantity r <=? 0); [intros [= <- <- <- <-]; by rewrite view_save, Ec|].
  destruct (give_reward modify r p) as [[[g q] e]|]; [|done]. cbn [mbind option_bind].
  destruct g; cbn [negb]; intros [= <- <- <- <-]; by rewrite view_save, ?Ec.
Qed.

Lemma OpenDialog_view now p : skip_view now (view p) (view (OpenDialog utc_offset cfg now p).1).
Proof.
  unfold OpenDialog, BuildDialog. pose proof (Skip_view now (LoadPlayerData p)) as Hs.
  by destruct (SkipMissedReward utc_offset now (LoadPlayerData p)) as [d k].
Qed.

(** One thing a client makes the server do: open the dialog, or answer it. *)
Inductive request := Open | Answer (cch : string).

Definition exec (now : Z) (r : request) (p : Player) : option (bool * Player * list effect) :=
  match r with
  | Open => let '(p, es) := OpenDialog utc_offset cfg now p in Some (false, p, es)
  | Answer cch => dailyRewards utc_offset items modify cfg to_float now cch p
  end.

Lemma exec_view now r p ok p' es :
  86400 <= now -> exec now r p = Some (ok, p', es) ->
  exists v, skip_view now (view p) v /\
    if (ok : bool) then v.1 = false /\ view p' = (true, now)
    else skip_view now v (view p').
Proof.
  intros Hnow. assert (forall (b : bool) q, Some (b, p, q) = Some (ok, p', es) -> b = false ->
    exists v, skip_view now (view p) v /\ if ok then v.1 = false /\ view p' = (true, now)
                                         else skip_view now v (view p')) as Hsame.
  { intros b q [= <- <- _] ->. exists (view p). split; by left. }
  pose proof (OpenDialog_view now p) as Ho.
  destruct r as [|cch]; cbn [exec].
  { destruct (OpenDialog utc_offset cfg now p) as [q e]. intros [= <- <- _].
    exists (view p). split; [by left|done]. }
  unfold dailyRewards. destruct (Scanner.try_get _ _ _) as [[b button]|]; [|done].
  cbn [mbind option_bind]. destruct b; cbn [negb]; [|intros H; by eapply Hsame].
  destruct (String.eqb button "claim_daily_reward" || String.eqb button "claim_reward").
  2: { destruct (starts_with "dr_day_" button); [intros H'; by eapply Hsame|].
       destruct (starts_with "info_daily_" button); [intros H'; by eapply Hsame|].
       destruct (String.eqb button "back_to_daily"); [|intros H'; by eapply Hsame].
       destruct (OpenDialog utc_offset cfg now p) as [q e]. intros [= <- <- _].
       exists (view p). split; [by left|done]. }
  unfold HandleClaim.
  destruct (ClaimReward utc_offset items modify cfg now p) as [[[[k msg] q] e]|] eqn:E; [|done].
  cbn [mbind option_bind]. destruct (ClaimReward_view _ _ _ _ _ _ E) as (v & Hv & Hk).
  pose proof (OpenDialog_view now q) as Hq.
  destruct (OpenDialog utc_offset cfg now q) as [q' e']. cbn [fst] in Hq.
  intros [= <- <- _]. exists v. split; [done|]. destruct k.
  - destruct Hk as [Hf Hvq]. split; [done|]. rewrite Hvq in Hq.
    destruct Hq as [->|[Hg _]]; [done|]. cbn [snd] in Hg. by rewrite elapsed_same in Hg.
  - by rewrite <- Hk.
Qed.

(** The times at which requests in a row were paid. *)
Fixpoint history (l : list (Z * request)) (p : Player) : option (list Z * Player) :=
  match l with
  | [] => Some ([], p)
  | (now, r) :: l =>
      '(ok, p, _) ← exec now r p;
      '(ts, p) ← history l p;
      Some (if (ok : bool) then now :: ts else ts, p)
  end.

Lemma history_after l : forall t0 now p ts p',
  86400 <= t0 <= now -> after_claim t0 now (view p) ->
  StronglySorted Z.le (now :: l.*1) -> history l p = Some (ts, p') ->
  StronglySorted Z.lt (day <$> t0 :: ts).
Proof.
  induction l as [|[t r] l IH]; intros t0 now p ts p' H0 Ha Hs.
  { intros [= <- <-]. cbn. repeat constructor. }
  cbn [history]. destruct (exec t r p) as [[[ok q] es]|] eqn:E; [|done]. cbn [mbind option_bind].
  destruct (history l q) as [[ts' q']|] eqn:Eh; [|done]. cbn [mbind option_bind].
  intros [= <- <-]. inversion_clear Hs as [|? ? Hs' Hf]. cbn [fmap list_fmap fst] in Hs', Hf.
  pose proof (Forall_inv Hf) as Hnt.
  destruct (exec_view t r p ok q es ltac:(lia) E) as (v & Hv & Hok).
  pose proof (after_claim_skip t0 now t _ _ ltac:(lia) ltac:(lia) Ha Hv) as Hav.
  destruct ok.
  - destruct Hok as [Hfree Hq]. pose proof (after_claim_free _ _ _ Hav Hfree) as Hlt.
    assert (StronglySorted Z.lt (day <$> t :: ts')) as Hts.
    { eapply (IH t t q); [lia| |done|done]. left. exact Hq. }
    cbn [fmap list_fmap] in *. constructor; [done|]. constructor; [done|].
    inversion_clear Hts. eapply list.Forall_impl; [eassumption|]. cbn. lia.
  - eapply (IH t0 t q); [lia| |done|done].
    eapply (after_claim_skip t0 t t); [lia|lia|done|done].
Qed.

Lemma history_days l : forall p ts p',
  Forall (λ x, 86400 <= x.1) l -> StronglySorted Z.le l.*1 -> history l p = Some (ts, p') ->
  StronglySorted Z.lt (day <$> ts).
Proof.
  induction l as [|[t r] l IH]; intros p ts p' Hf Hs.
  { intros [= <- <-]. constructor. }
  apply list.Forall_cons in Hf as [Ht Hf]. cbn [fst] in Ht.
  cbn [history]. destruct (exec t r p) as [[[ok q] es]|] eqn:E; [|done]. cbn [mbind option_bind].
  destruct (history l q) as [[ts' q']|] eqn:Eh; [|done]. cbn [mbind option_bind].
  intros [= <- <-]. pose proof Hs as Hs0. inversion_clear Hs as [|? ? Hs' _].
  destruct ok; [|by eapply IH].
  destruct (exec_view t r p true q es Ht E) as (v & _ & _ & Hq).
  eapply (history_after l t t q); [lia| |done|done]. by left.
Qed.

End Zone.

(** C12: one reward a day. Along any history of requests of a client to open
    or answer the dialog, with a clock that never goes back in a time zone
    whose dates never go back, whatever state the player starts in and
    whatever the inventory does, the local dates of the rewards paid are
    strictly increasing: no day pays twice. *)
Theorem one_reward_a_day utc_offset items modify cfg to_float l p ts p' :
  (forall a b, a <= b -> local_day utc_offset a <= local_day utc_offset b) ->
  (forall t, - 86400 <= utc_offset t <= 86400) ->
  Forall (λ x, 86400 <= x.1) l -> StronglySorted Z.le l.*1 ->
  history utc_offset items modify cfg to_float l p = Some (ts, p') ->
  StronglySorted Z.lt (local_day utc_offset <$> ts).
Proof. intros. by eapply history_days. Qed.

Lemma jakarta_mono a b : a <= b -> local_day jakarta a <= local_day jakarta b.
Proof. intros. unfold local_day, jakarta. apply Z.div_le_mono; lia. Qed.

Definition config_30 : Config := with_rewards default_rewards config_default.

Definition give : Inventory.modify_fn :=
  Inventory.Modify InventoryFacts.sample_items [] true "" "" 1.

Definition newcomer : Player :=
  mkPlayer (InventoryFacts.sample_player [(18, 1); (0, 0); (0, 0)] 0 false)
    0 false 0 0 (replicate 30 0) 0 0 320 640 "player".

Definition claim_answer : string :=
  cat ["dialog_name|dailyReward"; endl; "buttonClicked|claim_daily_reward"].

Definition three_days : list (Z * request) := [
  (1709142600, Open); (1709142700, Answer claim_answer); (1709146300, Answer claim_answer);
  (1709240400, Open); (1709240500, Answer claim_answer)].

Lemma one_reward_a_day_witness :
  exists p', history jakarta InventoryFacts.sample_items give config_30 (λ z, z) three_days newcomer
      = Some ([1709142700; 1709240500], p') /\
    StronglySorted Z.lt (local_day jakarta <$> [1709142700; 1709240500]).
Proof.
  assert (exists p', history jakarta InventoryFacts.sample_items give config_30 (λ z, z) three_days
    newcomer = Some ([1709142700; 1709240500], p')) as [p' E].
  { eexists. vm_compute. reflexivity. }
  exists p'. split; [exact E|].
  apply (one_reward_a_day jakarta InventoryFacts.sample_items give config_30 (λ z, z) three_days
    newcomer _ p' jakarta_mono); [unfold jakarta; lia| | |exact E].
  - unfold three_days. repeat constructor; cbn; lia.
  - unfold three_days. cbn. repeat constructor; lia.
Defined.

(** ** What a claim pays *)

(** What the daily reward needs of the inventory: an item is either given in
    full or not at all, and nothing else in the bag changes. *)
Class ItemGiver (modify : Inventory.modify_fn) := {
  ready : Inventory.Player -> Prop;
  giveable : Z -> Prop;
  give_all_or_nothing i c p :
    ready p -> giveable i -> 0 < c <= 200 ->
    exists r, modify i c true false p = Some r /\
      if Inventory.ret r =? 0
      then ready (Inventory.pl_out r) /\ Inventory.gems (Inventory.pl_out r) = Inventory.gems p /\
        forall j, j <> 0 -> Inventory.contains j (Inventory.inv (Inventory.pl_out r)) =
          Inventory.contains j (Inventory.inv p) + (if j =? i then c else 0)
      else Inventory.pl_out r = p
}.

Definition bag_ready (p : Inventory.Player) : Prop :=
  InventoryFacts.quiet p /\ InventoryFacts.inv_ok (Inventory.inv p).

Definition bag_item (items : table) (i : Z) : Prop := 0 < i < size items /\ i <> 112.

Lemma Modify_all_or_nothing items prices wf g1 g2 fuel i c p :
  bag_ready p -> bag_item items i -> 0 < c <= 200 ->
  exists r, Inventory.Modify items prices wf g1 g2 (S fuel) i c true false p = Some r /\
    if Inventory.ret r =? 0
    then bag_ready (Inventory.pl_out r) /\ Inventory.gems (Inventory.pl_out r) = Inventory.gems p /\
      forall j, j <> 0 -> Inventory.contains j (Inventory.inv (Inventory.pl_out r)) =
        Inventory.contains j (Inventory.inv p) + (if j =? i then c else 0)
    else Inventory.pl_out r = p.
Proof.
  intros [(Hinf & Hac & Has) Hv] [Hi H112] Hc.
  destruct (InventoryFacts.modify_body_bag items prices wf g1 g2
    (Inventory.Modify items prices wf g1 g2 fuel) i c true false p) as (r & E & Hr); try done.
  { lia. } { destruct Has; [by left|by right; left]. }
  exists r. split; [exact E|]. destruct Hr as [(-> & _ & Hs & Hv' & [Hu1 Hu2] & _)|(-> & _ & ->)];
    [|done].
  change (0 =? 0) with true. cbv iota.
  destruct Hs as (Hg & _ & _ & _ & Hinf' & Hac1 & Hac2 & _ & _ & _ & _ & _ & Has1 & Has2).
  split; [split; [|done]|split; [done|]].
  - unfold InventoryFacts.quiet. by rewrite Hinf', Hac1, Hac2, Has1, Has2.
  - intros j Hj. destruct (Z.eqb_spec j i) as [->|Hji]; [done|]. rewrite Hu2 by done. lia.
Qed.

(** The inventory keeps that promise for a player with no conversion or
    sale due. *)
#[export] Instance Inventory_gives items prices wf g1 g2 fuel :
  ItemGiver (Inventory.Modify items prices wf g1 g2 (S fuel)) := {|
  ready := bag_ready;
  giveable := bag_item items;
  give_all_or_nothing := Modify_all_or_nothing items prices wf g1 g2 fuel
|}.

#[export] Instance RewardType_eq_dec : EqDecision RewardType.
Proof. solve_decision. Defined.

(** What a reward adds. *)
Definition paid (r : Reward) (p p' : Player) : Prop :=
  (forall j, j <> 0 -> Inventory.contains j (Inventory.inv (base p')) =
     Inventory.contains j (Inventory.inv (base p)) +
     (if bool_decide (Type_ r = ITEM) && (j =? ItemID r) then Quantity r else 0)) /\
  Inventory.gems (base p') = i32 (Inventory.gems (base p) +
     (if bool_decide (Type_ r = GEMS) then Quantity r else 0)) /\
  gtwl p' = i32 (gtwl p + (if bool_decide (Type_ r = COINS) then Quantity r else 0)) /\
  opc p' = u16 (opc p + (if bool_decide (Type_ r = OPC) then Quantity r else 0)).

Definition purse_ok (p : Player) : Prop :=
  in_i32 (Inventory.gems (base p)) /\ in_i32 (gtwl p) /\ 0 <= opc p < 65536.

Lemma mark_skipped_length s : length (Status (mark_skipped s).1) = length (Status s.1).
Proof.
  destruct s as [d k]. unfold mark_skipped. cbn [fst]. repeat case_match; try done.
  cbn [fst Status]. by rewrite length_insert.
Qed.

Lemma missed_loop_length n : forall s, length (Status (missed_loop n s).1) = length (Status s.1).
Proof.
  induction n as [|n IH]; intros s; [done|]. cbn [missed_loop].
  pose proof (mark_skipped_length s) as Hm. destruct (mark_skipped s) as [d k].
  by rewrite IH.
Qed.

Lemma Skip_length utc_offset now d :
  length (Status (SkipMissedReward utc_offset now d).1) = length (Status d).
Proof.
  unfold SkipMissedReward. destruct (LastLoginDate d =? 0); [done|].
  set (gap := DaysElapsed utc_offset (LastLoginDate d) now).
  destruct (Z.leb_spec gap 0); [done|]. destruct (ClaimedToday d).
  - replace (Z.to_nat (1 + (gap - 1))) with (S (Z.to_nat (gap - 1))) by lia.
    cbn [claimed_loop]. rewrite Z.eqb_refl, claimed_loop_missed by lia.
    pose proof (missed_loop_length (Z.to_nat (gap - 1)) (next_wrap d, 0)) as Hm.
    by destruct (missed_loop _ _).
  - pose proof (mark_skipped_length (d, 0)) as Hm. destruct (mark_skipped (d, 0)) as [d1 k].
    pose proof (missed_loop_length (Z.to_nat (gap - 1)) (with_day (CurrentDay d1 + 1) d1, k)) as Hm'.
    destruct (missed_loop _ _). cbn [fst Status] in *. etrans; [exact Hm'|exact Hm].
Qed.

Lemma LoadPlayerData_length p : length (Status (LoadPlayerData p)) = 30%nat.
Proof.
  unfold LoadPlayerData, ReadFromPlayer. cbn [Status].
  destruct (Nat.leb_spec 30 (length (daily_status p))); [|done]. rewrite length_take. lia.
Qed.

(** Evaluate the comparisons of known reward types. *)
Ltac eval_types :=
  repeat match goal with
  | |- context [bool_decide (@eq RewardType ?a ?b)] =>
      let v := eval vm_compute in (bool_decide (@eq RewardType a b)) in
      change (bool_decide (@eq RewardType a b)) with v
  end; cbv iota; cbn [andb].

Lemma give_reward_pays `{G : ItemGiver modify} r p :
  ready (base p) -> purse_ok p -> 0 < Quantity r ->
  (Type_ r = ITEM -> giveable (ItemID r) /\ Quantity r <= 200) ->
  exists g p' es, give_reward modify r p = Some (g, p', es) /\
    if (g : bool) then paid r p p' else p' = with_base (base p) p.
Proof.
  intros Hr (Hg & Ht & Ho) Hq Hi. unfold give_reward, paid. destruct (Type_ r) eqn:E.
  - destruct (Hi eq_refl) as [Hi1 Hi2].
    destruct (give_all_or_nothing (ItemID r) (Quantity r) (base p) Hr Hi1 ltac:(lia))
      as (m & -> & Hm). cbn [mbind option_bind]. eexists _, _, _. split; [reflexivity|].
    destruct (Inventory.ret m =? 0); [|by rewrite Hm].
    destruct Hm as (_ & Hgm & Hc). cbn [base with_base gtwl opc]. eval_types.
    rewrite Hgm, !Z.add_0_r.
    unfold in_i32 in *. rewrite !i32_small, uwrap_small by lia.
    by split_and!.
  - eexists _, _, _. split; [reflexivity|]. cbn [base with_base gtwl opc].
    eval_types. rewrite !Z.add_0_r. unfold in_i32 in *. rewrite (i32_small (gtwl p)), uwrap_small by lia.
    destruct (base p). cbn. split_and!; try done. intros j Hj. lia.
  - eexists _, _, _. split; [reflexivity|]. cbn [base with_gtwl gtwl opc].
    eval_types. rewrite !Z.add_0_r. unfold in_i32 in *. rewrite (i32_small (Inventory.gems _)), uwrap_small by lia.
    split_and!; try done; intros j Hj; cbn; lia.
  - eexists _, _, _. split; [reflexivity|]. cbn [base with_opc gtwl opc].
    eval_types. rewrite !Z.add_0_r. unfold in_i32 in *. rewrite !i32_small by lia.
    split_and!; try done. intros j Hj. cbn. lia.
Qed.

Lemma with_base_id p : with_base (base p) p = p.
Proof. by destruct p. Qed.

(** What a claim pays. For any inventory that gives items in full or not
    at all, a claim either succeeds - then the player could claim, receives
    exactly the reward of the current day, once, with the day marked as
    claimed and the claim recorded - or it fails, and the bag and the
    currencies are untouched and no claim is recorded. *)
Theorem ClaimReward_pays `{G : ItemGiver modify} utc_offset items cfg now p :
  let d := (SkipMissedReward utc_offset now (LoadPlayerData p)).1 in
  ready (base p) -> purse_ok p ->
  (forall r, GetCurrentReward cfg d = Some r -> Type_ r = ITEM ->
    giveable (ItemID r) /\ Quantity r <= 200) ->
  exists ok msg p' es, ClaimReward utc_offset items modify cfg now p = Some (ok, msg, p', es) /\
    if (ok : bool) then
      exists r, CanClaimToday d = true /\ GetCurrentReward cfg d = Some r /\ 0 < Quantity r /\
        paid r p p' /\ claimed_daily_today p' = true /\ daily_login_day p' = now /\
        is_day p' = CurrentDay d /\ daily_status p' !! Z.to_nat (CurrentDay d - 1) = Some 1
    else base p' = base p /\ gtwl p' = gtwl p /\ opc p' = opc p /\
      claimed_daily_today p' = ClaimedToday d.
Proof.
  intros d Hr Hp Hcfg. unfold ClaimReward. subst d.
  pose proof (Skip_length utc_offset now (LoadPlayerData p)) as Hlen.
  rewrite LoadPlayerData_length in Hlen.
  destruct (SkipMissedReward utc_offset now (LoadPlayerData p)) as [d k]. cbn [fst] in *.
  destruct (CanClaimToday d) eqn:Hcan; cbn [negb]; [|by eexists _, _, _, _].
  destruct (GetCurrentReward cfg d) as [r|] eqn:Hrew; [|by eexists _, _, _, _].
  destruct (Z.leb_spec (Quantity r) 0); [by eexists _, _, _, _|].
  destruct (give_reward_pays r p Hr Hp ltac:(lia) (Hcfg r eq_refl)) as (g & q & es & -> & Hg).
  cbn [mbind option_bind]. destruct g; cbn [negb]; eexists _, _, _, _; (split; [reflexivity|]).
  - exists r. split_and!; try done.
    unfold CanClaimToday, TOTAL_DAYS in Hcan. destruct (ClaimedToday d); [done|].
    destruct (Z.ltb_spec (CurrentDay d) 1), (Z.ltb_spec 30 (CurrentDay d)); try done.
    cbn [SavePlayerData WriteToPlayer daily_status mark_claimed Status CurrentDay].
    destruct (Z.leb_spec 0 (CurrentDay d - 1)), (Z.ltb_spec (CurrentDay d - 1) 30); try lia.
    cbn [andb]. rewrite take_ge by (rewrite length_insert; lia).
    rewrite lookup_app_l by (rewrite length_insert; lia).
    apply list_lookup_insert_eq. lia.
  - by rewrite Hg, with_base_id.
Qed.

Lemma ClaimReward_pays_witness :
  exists msg p' es, ClaimReward jakarta InventoryFacts.sample_items give config_30 1709142700 newcomer
      = Some (true, msg, p', es) /\
    Inventory.contains 1424 (Inventory.inv (base p')) = 15 /\ claimed_daily_today p' = true.
Proof.
  destruct (ClaimReward_pays (modify := give) jakarta InventoryFacts.sample_items config_30 1709142700
    newcomer) as (ok & msg & p' & es & E & H).
  - split; [split_and!; [done|by left|by left]|]. split; [|vm_compute; repeat constructor; set_solver].
    repeat constructor; cbn; lia || (left; done) || (right; cbn; lia).
  - split_and!; cbn; unfold in_i32; lia.
  - intros r Hr _. vm_compute in Hr. injection Hr as <-. split; [split|]; cbn; try lia.
    rewrite InventoryFacts.sample_items_size. lia.
  - assert (ok = true) as ->.
    { assert (fst (fst (fst (default (false, ""%string, newcomer, []) (ClaimReward jakarta
        InventoryFacts.sample_items give config_30 1709142700 newcomer)))) = true) as Hok
        by (vm_compute; reflexivity). rewrite E in Hok. exact Hok. }
    destruct H as (r & _ & Hr & _ & (Hc & _) & Hcl & _). vm_compute in Hr. injection Hr as <-.
    exists msg, p', es. split; [exact E|]. split; [|exact Hcl]. rewrite Hc by lia.
    vm_compute. reflexivity.
Defined.

(** ** The JSON form *)

Lemma read_status_nums l : forall i st,
  (i + length l <= 30)%nat -> (30 <= length st)%nat -> Forall in_i32 l ->
  read_status i (JNum <$> l) st = Some (take i st ++ l ++ drop (i + length l) st).
Proof.
  induction l as [|v l IH]; intros i st Hi Hst Hf; cbn [length] in Hi.
  { cbn. by rewrite Nat.add_0_r, take_drop. }
  apply list.Forall_cons in Hf as [Hv Hf]. cbn [fmap list_fmap read_status get_int].
  rewrite (proj2 (Nat.ltb_lt i 30)) by lia. cbn [mbind option_bind]. rewrite i32_ok by done.
  rewrite IH by (rewrite ?length_insert; done || lia). f_equal. cbn [length].
  rewrite (take_S_r _ _ v) by (apply list_lookup_insert_eq; lia).
  rewrite take_insert_ge by lia. rewrite drop_insert_lt by lia.
  rewrite <- app_assoc. cbn [app]. do 3 f_equal. cbn [length]. f_equal. lia.
Qed.

Definition json_ok (d : PlayerDailyData) : Prop :=
  data_ok d /\ - 2 ^ 63 <= LastLoginDate d < 2 ^ 63 /\ in_i32 (TotalClaim d) /\
  in_i32 (MissedDaysTotal d) /\ Forall in_i32 (Status d).

(** The state of a player survives its JSON form: loading what
    [SaveToJson] wrote gives the state back, whatever the object that is
    loaded into held before. *)
Theorem daily_json_round_trip d d0 :
  json_ok d -> (30 <= length (Status d0))%nat -> length (Status d0) = length (Status d) ->
  LoadFromJson (SaveToJson d) d0 = Some d.
Proof.
  intros ((Hc & Hl) & Hlast & Ht & Hm & Hs) Hd0 Hlen. unfold LoadFromJson, SaveToJson, field_or.
  cbn -[Z.pow read_status i32 i64].
  rewrite !i32_ok by (unfold in_i32; lia || done).
  rewrite (i64_small (LastLoginDate d)) by lia.
  assert (read_status 0 (JNum <$> Status d) (Status d0) = Some (Status d)) as E.
  { rewrite read_status_nums by (done || lia). cbn [take Nat.add].
    rewrite drop_ge by lia. by rewrite app_nil_r. }
  rewrite E. cbn [mbind option_bind].
  destruct (Z.ltb_spec (CurrentDay d) 1); [lia|]. destruct (Z.ltb_spec 30 (CurrentDay d)); [lia|].
  by destruct d.
Qed.

Lemma daily_json_round_trip_witness :
  LoadFromJson (SaveToJson absent) data_default = Some absent.
Proof.
  apply daily_json_round_trip; [|cbn; lia|reflexivity].
  split; [split; [cbn; lia|reflexivity]|]. split; [cbn; lia|].
  unfold in_i32. split; [cbn; lia|]. split; [cbn; lia|]. repeat constructor; cbn; lia.
Defined.

(** In a second cycle the marks of the first are still there: the dialog
    shows no button to claim although the reward can be claimed. *)
Example second_cycle_hides_claim :
  let d := mkData 1709142600 1 false 30 0 (replicate 30 1) in
  CanClaimToday d = true /\
  existsb (λ b, String.eqb b.1.1.1 "claim_daily_reward") (day_buttons config_30 d) = false.
Proof. vm_compute. done. Qed.

(** The scenario 4 of the test scenarios of [DailyRewardSystem.h]. *)
Example scenario_4 :
  let d := (SkipMissedReward jakarta 1709142600 (mkData (1709142600 - 3 * 86400) 1 true 0 0
             (1 :: replicate 29 0))) in
  (CurrentDay d.1, d.2, take 4 (drop 1 (Status d.1))) = (4, 2, [2; 2; 0; 0]).
Proof. vm_compute. reflexivity. Qed.

End DailyRewardFacts.
