(* ===== verification/ItemsDat.v ===== *)
(** * ItemsDat: the binary item table

    [src/NopySource/Handle/ItemsEncoder.cpp] turns a JSON description of the
    items into [items.dat]; [GetItemManager::Serialize] of
    [src/NopySource/Handle/BaseServer.h] loads that file when the server
    starts.  The encoder and the reading of the records, [read_items_dat], are
    modelled on the bytes.  The parsed JSON document is a value.  What
    [Serialize] does with a record after it is read (from line 2762 on) is not
    modelled: it derives categories, properties, block types and prizes, and
    overwrites some fields that were read, the names of random-grow items and
    of 21220 and [multiple_sides] of some items among them. *)
From S2P Require Import Prelude Memory.
Import Memory.

Module ItemsDat.

(** ** The JSON document

    A field holds what the conversion to the type the code asks for gives:
    an [int] for [write_buffer_number], a number cut to [uint8_t] by the
    store into the buffer, a string; [break_hits] is the text of [dump]. *)

Module doc.

Record json_item := mk {
  item_id : Z; editable_type : Z; item_category : Z; action_type : Z;
  hit_sound_type : Z; name : string; texture : string; texture_hash : Z;
  item_kind : Z; val1 : Z; texture_x : Z; texture_y : Z; spread_type : Z;
  is_stripey_wallpaper : Z; collision_type : Z; break_hits : string;
  drop_chance : Z; clothing_type : Z; rarity : Z; max_amount : Z;
  extra_file : string; extra_file_hash : Z; audio_volume : Z;
  pet_name : string; pet_prefix : string; pet_suffix : string; pet_ability : string;
  seed_base : Z; seed_overlay : Z; tree_base : Z; tree_leaves : Z;
  seed_color_a : Z; seed_color_r : Z; seed_color_g : Z; seed_color_b : Z;
  overlay_color_a : Z; overlay_color_r : Z; overlay_color_g : Z; overlay_color_b : Z;
  grow_time : Z; val2 : Z; is_rayman : Z; extra_options : string; texture2 : string;
  extra_options2 : string; data_position_80 : string; punch_options : string;
  data_version_12 : string; int_version_13 : Z; int_version_14 : Z;
  data_version_15 : string; str_version_15 : string; str_version_16 : string;
  int_version_17 : Z; int_version_18 : Z; int_version_19 : Z
}.

Record json_items := mkDoc { version : Z; item_count : Z; items : list json_item }.

End doc.

(** ** The byte buffer

    [std::vector<uint8_t>] with [operator[]]: [None] out of range. *)

Definition put (b : list Z) (pos : nat) (bs : list Z) : option (list Z) :=
  if (pos + length bs <=? length b)%nat
  then Some (take pos b ++ bs ++ drop (pos + length bs) b)
  else None.

(** The bytes the loop of [write_buffer_number] stores. *)
Definition number_bytes (len : nat) (value : Z) : list Z :=
  (λ a, Z.land (Z.shiftr value (Z.of_nat a * 8)) 255) <$> seq 0 len.

Definition write_buffer_number (b : list Z) (pos len : nat) (value : Z) : option (list Z) :=
  put b pos (number_bytes len value).

(** [buffer[pos + a] << (a * 8)] summed in an [int]. *)
Definition read_buffer_number (b : list Z) (pos len : nat) : option Z :=
  bs ← read_at b pos len;
  Some (foldl (λ value '(a, x), i32 (value + i32 (Z.shiftl x (Z.of_nat a * 8)))) 0
         (zip (seq 0 len) bs)).

(** [items_secret_key[(a + item_id) % items_secret_key.length()]]: the sum is
    an [int] that the division takes as a [size_t]. *)
Definition key_at (key : string) (z : Z) : Z :=
  nth (Z.to_nat (u64 z mod slen key)) (str_bytes key) 0.

(** The bytes of a string under the key; [None] for the division by zero of
    an empty key. *)
Definition xor_key (key : string) (item_id : Z) (bs : list Z) : option (list Z) :=
  if is_empty key then match bs with [] => Some [] | _ => None end
  else Some (imap (λ a x, Z.lxor x (key_at key (Z.of_nat a + item_id))) bs).

(** Every caller passes [value.length()] for the length. *)
Definition write_buffer_string (key : string) (b : list Z) (pos : nat) (value : string)
    (using_key : bool) (item_id : Z) : option (list Z) :=
  if using_key then bs ← xor_key key item_id (str_bytes value); put b pos bs
  else put b pos (str_bytes value).

Definition read_buffer_string (key : string) (b : list Z) (pos : nat) (len : Z)
    (using_key : bool) (item_id : Z) : option string :=
  if len <=? 0 then Some EmptyString
  else
    bs ← read_at b pos (Z.to_nat len);
    if using_key then bs ← xor_key key item_id bs; Some (bytes_str bs)
    else Some (bytes_str bs).

Definition check_last_char (dest : string) (src : ascii) : bool :=
  match rev (str_bytes dest) with
  | [] => false
  | x :: _ => x =? char_code src
  end.

(** ** Hexadecimal text *)

Definition hex_digit (n : Z) : ascii :=
  if n <? 10 then char_of (48 + n) else char_of (87 + n).

(** [byteToHex[n]]: two digits, padded with 0; the table is filled by
    [initByteToHex]. *)
Definition hex_byte (n : Z) : string := String (hex_digit (n / 16)) (str1 (hex_digit (n mod 16))).

Definition initByteToHex : list string := hex_byte <$> seqZ 0 256.

(** [None] when the table is not filled. *)
Fixpoint hex (table : list string) (bs : list Z) (is_without_space : bool) : option string :=
  match bs with
  | [] => Some EmptyString
  | x :: bs' =>
      h ← table !! Z.to_nat x;
      r ← hex table bs' is_without_space;
      Some (h +:+ (match bs' with
                   | [] => r
                   | _ => if is_without_space then r else String (char_of 32) r
                   end))
  end.

(** The class [[\dA-F]] without case. *)
Definition hex_value (c : ascii) : option Z :=
  let n := char_code c in
  if (48 <=? n) && (n <=? 57) then Some (n - 48)
  else if (65 <=? n) && (n <=? 70) then Some (n - 55)
  else if (97 <=? n) && (n <=? 102) then Some (n - 87)
  else None.

(** The matches of the pair pattern, left to right, as [stoi(_, 16)]. *)
Fixpoint hex_pairs (s : string) : list Z :=
  match s with
  | String c s1 =>
      match s1 with
      | String d s2 =>
          match hex_value c, hex_value d with
          | Some h, Some l => 16 * h + l :: hex_pairs s2
          | _, _ => hex_pairs s1
          end
      | EmptyString => []
      end
  | EmptyString => []
  end.

Fixpoint remove_char (c : ascii) (s : string) : string :=
  match s with
  | EmptyString => EmptyString
  | String d s => if Ascii.eqb d c then remove_char c s else String d (remove_char c s)
  end.

Definition hex_bytes (s : string) : list Z := hex_pairs (remove_char (char_of 32) s).

Definition hexStringToArrayBuffer (b : list Z) (pos : nat) (hexString : string) :
    option (list Z) :=
  put b pos (hex_bytes hexString).

(** ** Encoding an item

    The state is the buffer and [mem_pos]. *)

Definition step := (list Z * nat) -> option (list Z * nat).

Fixpoint steps (fs : list step) : step := λ s,
  match fs with
  | [] => Some s
  | f :: fs => s' ← f s; steps fs s'
  end.

(** [write_buffer_number(mem_pos, len, v); mem_pos += adv;] *)
Definition number_adv (len adv : nat) (v : Z) : step := λ '(b, p),
  b ← write_buffer_number b p len v; Some (b, (p + adv)%nat).

Definition number (len : nat) (v : Z) : step := number_adv len len v.

(** [encoded_buffer_file[mem_pos++] = v;] *)
Definition byte (v : Z) : step := λ '(b, p),
  b ← put b p [u8 v]; Some (b, (p + 1)%nat).

(** A length on two bytes and the characters. *)
Definition text_with (key : string) (s : string) (using_key : bool) (item_id : Z) : step :=
  λ '(b, p),
  b ← write_buffer_number b p 2 (slen s);
  b ← write_buffer_string key b (p + 2) s using_key item_id;
  Some (b, (p + 2 + String.length s)%nat).

Definition text (s : string) : step := text_with EmptyString s false 0.

(** [hexStringToArrayBuffer(mem_pos, s); mem_pos += size;] *)
Definition hex_region (s : string) (size : nat) : step := λ '(b, p),
  b ← hexStringToArrayBuffer b p s; Some (b, (p + size)%nat).

Definition when (c : bool) (f : step) : step := λ s, if c then f s else Some s.

Definition break_byte (break_hits : string) : Z :=
  if check_last_char break_hits (char_of 114) then
    atoi (take_str (String.length break_hits - 2) break_hits)
  else i32 (atoi break_hits * 6).

Definition encode_item (key : string) (version : Z) (d : doc.json_item) : step := steps [
  number 4 (doc.item_id d);
  byte (doc.editable_type d); byte (doc.item_category d);
  byte (doc.action_type d); byte (doc.hit_sound_type d);
  text_with key (doc.name d) true (doc.item_id d);
  text (doc.texture d);
  number 4 (doc.texture_hash d);
  byte (doc.item_kind d);
  number 4 (doc.val1 d);
  byte (doc.texture_x d); byte (doc.texture_y d); byte (doc.spread_type d);
  byte (doc.is_stripey_wallpaper d); byte (doc.collision_type d);
  byte (break_byte (doc.break_hits d));
  number 4 (doc.drop_chance d);
  byte (doc.clothing_type d);
  number 2 (doc.rarity d);
  byte (doc.max_amount d);
  text (doc.extra_file d);
  number 4 (doc.extra_file_hash d);
  number 4 (doc.audio_volume d);
  text (doc.pet_name d); text (doc.pet_prefix d);
  text (doc.pet_suffix d); text (doc.pet_ability d);
  byte (doc.seed_base d); byte (doc.seed_overlay d);
  byte (doc.tree_base d); byte (doc.tree_leaves d);
  byte (doc.seed_color_a d); byte (doc.seed_color_r d);
  byte (doc.seed_color_g d); byte (doc.seed_color_b d);
  byte (doc.overlay_color_a d); byte (doc.overlay_color_r d);
  byte (doc.overlay_color_g d); byte (doc.overlay_color_b d);
  number 4 0;
  number 4 (doc.grow_time d);
  number 2 (doc.val2 d);
  number 2 (doc.is_rayman d);
  text (doc.extra_options d); text (doc.texture2 d); text (doc.extra_options2 d);
  hex_region (doc.data_position_80 d) 80;
  when (11 <=? version) (text (doc.punch_options d));
  when (12 <=? version) (hex_region (doc.data_version_12 d) 13);
  when (13 <=? version) (number 4 (doc.int_version_13 d));
  when (14 <=? version) (number 4 (doc.int_version_14 d));
  when (15 <=? version)
    (steps [hex_region (doc.data_version_15 d) 25; text (doc.str_version_15 d)]);
  when (16 <=? version) (text (doc.str_version_16 d));
  when (17 <=? version) (number 4 (doc.int_version_17 d));
  when (18 <=? version) (number 4 (doc.int_version_18 d));
  when (19 <=? version) (number_adv 4 9 (doc.int_version_19 d))].

(** The loop over [item_count]; [None] where [result["items"][a]] does not
    exist. *)
Fixpoint encode_items (key : string) (version : Z) (n : nat) (ds : list doc.json_item) : step :=
  match n, ds with
  | O, _ => Some
  | S n, d :: ds => λ s, s' ← encode_item key version d s; encode_items key version n ds s'
  | S _, [] => λ _, None
  end.

Definition process_item_encoder (key : string) (b : list Z) (result : doc.json_items) :
    option (list Z * nat) :=
  b ← write_buffer_number b 0 2 (doc.version result);
  b ← write_buffer_number b 2 4 (doc.item_count result);
  encode_items key (doc.version result) (Z.to_nat (doc.item_count result))
    (doc.items result) (b, 6%nat).

(** ** The hash and the file *)

Definition hash_step (h x : Z) : Z := u32 (Z.shiftr h 27 + Z.shiftl h 5 + x).

Definition hash_bytes (bs : list Z) : Z := foldl hash_step (0x55555555)%Z bs.

Definition hash_buffer (buffer : list Z) (text : string) : string :=
  text +:+ to_string (hash_bytes buffer).

(** The loop that looks for the last byte that is not 0. *)
Fixpoint used_size (i size : nat) (b : list Z) : nat :=
  match b with
  | [] => size
  | x :: b => used_size (S i) (if x =? 0 then size else S i) b
  end.

Definition trim (b : list Z) : list Z := take (used_size 0 0 b) b.

Definition buffer_size : nat := Z.to_nat 10000000.

Record statics := mkStatics {
  items_secret_key : string;
  encoded_buffer_file : list Z;
  msg : string
}.

Definition statics_init : statics := mkStatics "PBG892FXX982ABC*" [] "".

Definition item_encoder (st : statics) (result : doc.json_items) : option (list Z * statics) :=
  let b := replicate buffer_size 0 in
  '(b, _) ← process_item_encoder (items_secret_key st) b result;
  let m := hash_buffer b "Encoded Items dat Hash: " in
  let file := trim b in
  Some (file, mkStatics (items_secret_key st) file m).

(** [encode_items_dat] on a document that parses: the bytes of the output
    file and the line it prints; the static members are emptied, the key
    included. *)
Definition encode_items_dat (st : statics) (result : doc.json_items) :
    option (list Z * string * statics) :=
  '(jsonData, st) ← item_encoder st result;
  Some (jsonData, msg st, mkStatics EmptyString [] EmptyString).

(** ** Loading: [GetItemManager::Serialize]

    A reader takes the bytes of the file and [memPos]; [None] where the code
    would read outside [data]. *)

Definition reader (A : Type) := list Z -> Z -> option (A * Z).

Definition ret {A} (x : A) : reader A := λ _ p, Some (x, p).

Definition rbind {A B} (r : reader A) (k : A -> reader B) : reader B := λ data p,
  match r data p with
  | Some (x, p) => k x data p
  | None => None
  end.

Declare Scope reader_scope.
Delimit Scope reader_scope with reader.
Notation "x <~ r ; k" := (rbind r (λ x, k))
  (at level 100, r at next level, right associativity) : reader_scope.

(** [k] bytes at [memPos], and past them. *)
Definition rd (k : nat) : reader (list Z) := λ data p,
  if p <? 0 then None
  else bs ← read_at data (Z.to_nat p) k; Some (bs, p + Z.of_nat k).

Definition r_with {A} (k : nat) (f : Z -> A) : reader A :=
  rbind (rd k) (λ bs, ret (f (le_decode bs))).

Definition r_int : reader Z := r_with 4 i32.
Definition r_int16 : reader Z := r_with 2 (swrap 16).
Definition r_char : reader Z := r_with 1 i8.
Definition r_uchar : reader Z := r_with 1 u8.

(** [memcpy(&v, p, 2)] into an [int] that holds 0. *)
Definition r_low : reader Z := r_with 2 u16.

Definition skip (n : Z) : reader unit := λ _ p, Some (tt, p + n).

(** [strLen] and the loop that appends; no turn for a negative length. *)
Definition r_string : reader string :=
  rbind r_int16 (λ strLen, rbind (rd (Z.to_nat strLen)) (λ bs, ret (bytes_str bs))).

Definition key_ : string := "PBG892FXX982ABC*".

Definition r_name (id : Z) : reader string :=
  rbind r_int16 (λ strLen, rbind (rd (Z.to_nat strLen)) (λ bs,
    ret (bytes_str (imap (λ j x, Z.lxor x (key_at key_ (Z.of_nat j + id))) bs)))).

(** [memPos += 2 + strLen]. *)
Definition skip_string : reader unit := rbind r_int16 skip.

Definition r_when {A} (c : bool) (r : reader A) (d : A) : reader A :=
  if c then r else ret d.

(** The members of [ItemDB] the file sets. *)
Record ItemDB := mkItemDB {
  id : Z; editableType : Z; multiple_sides : bool; itemCategory : Z; actionType : Z;
  can_be_changed_to_public : bool; toggleable : bool; hitSoundType : Z;
  name : string; texture : string; textureHash : Z; itemKind : Z; val1 : Z;
  textureX : Z; textureY : Z; spreadType : Z; isStripeyWallpaper : Z;
  collisionType : Z; solid : bool; breakHits : Z; dropChance : Z; clothingType : Z;
  rarity : Z; maxAmount : Z; extraFile : string; musical_block : bool;
  extraFileHash : Z; base_weather : Z; petName : string; petPrefix : string;
  petSuffix : string; petAbility : string; seedBase : Z; seedOverlay : Z;
  treeBase : Z; treeLeaves : Z; seedColor : Z; seedOverlayColor : Z; growTime : Z;
  val2 : Z; isRayman : Z; extraOptions : string; texture2 : string;
  extraOptions2 : string; punchOptions : string; description : string;
  r_1 : Z; r_2 : Z
}.

Definition is_one_of (l : list Z) (z : Z) : bool := existsb (Z.eqb z) l.

(** The flags that follow from the types read so far. *)
Definition sides_flag (editableType : Z) : bool := is_one_of [3; 31; 1; 21; 23] editableType.

Definition toggle_flag (actionType : Z) : bool :=
  is_one_of [12; 119; 45; 32; 31; 122; 36; 18] actionType.

Definition public_flag (actionType id : Z) : bool :=
  toggle_flag actionType &&
  (is_one_of [31; 36; 12; 18] actionType || (id =? 11692)).

Definition loaded_hits (breakHits : Z) : Z :=
  if (breakHits <=? 0) || (42 * 6 <? breakHits) then 42 * 6 else breakHits.

Definition default_description : string := "This item has no description.".

(** One turn of the loop, up to the fix of [def.id]. *)
Definition load_item (itemsdatVersion i : Z) : reader ItemDB := (
  def_id <~ r_int;
  editable <~ r_char;
  category <~ r_char;
  action <~ r_char;
  hit_sound <~ r_char;
  def_name <~ r_name def_id;
  def_texture <~ r_string;
  texture_hash <~ r_int;
  kind <~ r_char;
  v1 <~ r_int;
  tx <~ r_char;
  ty <~ r_char;
  spread <~ r_char;
  stripey <~ r_char;
  collision <~ r_char;
  hits <~ r_char;
  drop_chance <~ r_int;
  clothing <~ r_char;
  def_rarity <~ r_int16;
  max_amount <~ r_uchar;
  extra_file <~ r_string;
  extra_file_hash <~ r_int;
  weather <~ r_int;
  pet_name <~ r_string;
  pet_prefix <~ r_string;
  pet_suffix <~ r_string;
  pet_ability <~ r_string;
  seed_base <~ r_char;
  seed_overlay <~ r_char;
  tree_base <~ r_char;
  tree_leaves <~ r_char;
  seed_color <~ r_int;
  overlay_color <~ r_int;
  _ <~ skip 4;
  grow_time <~ r_int;
  v2 <~ r_int16;
  rayman <~ r_int16;
  extra_options <~ r_string;
  tex2 <~ r_string;
  extra_options2 <~ r_string;
  _ <~ skip 80;
  punch <~ r_when (11 <=? itemsdatVersion) r_string EmptyString;
  _ <~ r_when (12 <=? itemsdatVersion) (skip 13) tt;
  _ <~ r_when (13 <=? itemsdatVersion) (skip 4) tt;
  _ <~ r_when (14 <=? itemsdatVersion) (skip 4) tt;
  _ <~ r_when (15 <=? itemsdatVersion) (_ <~ skip 25; skip_string) tt;
  _ <~ r_when (16 <=? itemsdatVersion) skip_string tt;
  _ <~ r_when (17 <=? itemsdatVersion) (skip 4) tt;
  _ <~ r_when (18 <=? itemsdatVersion) (skip 4) tt;
  _ <~ r_when (19 <=? itemsdatVersion) (skip 9) tt;
  _ <~ r_when (21 <=? itemsdatVersion) (skip 2) tt;
  descr <~ r_when (22 <=? itemsdatVersion) r_string default_description;
  r1 <~ r_when (23 <=? itemsdatVersion) r_low 0;
  r2 <~ r_when (23 <=? itemsdatVersion) r_low 0;
  _ <~ r_when (24 <=? itemsdatVersion) (skip 1) tt;
  _ <~ r_when (25 <=? itemsdatVersion) skip_string tt;
  _ <~ r_when (26 <=? itemsdatVersion) (skip 5) tt;
  ret (mkItemDB i editable (sides_flag editable) category action
    (public_flag action def_id) (toggle_flag action) hit_sound
    def_name def_texture texture_hash kind v1 tx ty spread stripey
    collision (collision =? 1) (loaded_hits hits) drop_chance clothing
    def_rarity max_amount extra_file (str_contains "mp3" extra_file)
    extra_file_hash weather pet_name pet_prefix pet_suffix pet_ability
    seed_base seed_overlay tree_base tree_leaves seed_color overlay_color
    grow_time v2 rayman extra_options tex2 extra_options2 punch descr r1 r2))%reader.

(** The loop over [itemCount], from item [i] on. *)
Fixpoint load_items (itemsdatVersion i : Z) (n : nat) : reader (list ItemDB) :=
  match n with
  | O => ret []
  | S n => (
      def <~ load_item itemsdatVersion i;
      defs <~ load_items itemsdatVersion (i + 1) n;
      ret (def :: defs))%reader
  end.

(** [None] for an empty file, where the code reads on to a byte 0. *)
Definition get_hash (str : list Z) : option Z :=
  match str with
  | [] => None
  | _ => Some (foldl hash_step (0x55555555)%Z str)
  end.

(** What the reading leaves in [Environment()] and [items]. *)
Record loaded := mkLoaded {
  ItemsDat_Size : Z;
  ItemsDat_packet : mem;
  ItemsDat_Hash : Z;
  ItemsDat_Version : Z;
  ItemsDat_Count : Z;
  defs : list ItemDB
}.

(** The packet [ItemsDat]: a tank header and the file. *)
Definition items_packet (data : list Z) : option mem :=
  let size := Z.of_nat (length data) in
  stores (zalloc 60 ++ alloc (length data))
    [(0%nat, le32 0x4); (4%nat, le32 0x10); (8%nat, le32 (-1)); (16%nat, le32 0x8);
     (56%nat, le32 size); (60%nat, data)].

(** [Some None] is the result [-1] of a file that is not there. *)
Definition read_items_dat (file : option (list Z)) : option (option loaded) :=
  match file with
  | None => Some None
  | Some data =>
      packet ← items_packet data;
      hash ← get_hash data;
      '(version, p) ← r_int16 data 0;
      '(itemCount, p) ← r_int data p;
      '(ds, _) ← load_items version 0 (Z.to_nat itemCount) data p;
      Some (Some (mkLoaded (i32 (Z.of_nat (length data))) packet (i32 hash)
        version itemCount ds))
  end.

End ItemsDat.
