(* ===== verification/ItemsDatFacts.v ===== *)
(** * ItemsDatFacts: what the item table goes through

    The format of the file as a function of the document, the proof that the
    encoder writes it and that the loader reads it back, and the hash the
    encoder announces. *)
From S2P Require Import Prelude Memory ItemsDat.
Import Memory ItemsDat.

Module ItemsDatFacts.

(** ** The format *)

Definition text_bytes (s : string) : list Z := le_encode 2 (slen s) ++ str_bytes s.

Definition name_bytes (key : string) (s : string) (id : Z) : list Z :=
  le_encode 2 (slen s) ++
  imap (λ a x, Z.lxor x (key_at key (Z.of_nat a + id))) (str_bytes s).

Definition region_bytes (s : string) (n : nat) : list Z :=
  hex_bytes s ++ replicate (n - length (hex_bytes s)) 0.

Definition zeros (n : nat) : list Z := replicate n 0.

(** The fields every version has. *)
Definition common_fields (key : string) (d : doc.json_item) : list (list Z) := [
  le_encode 4 (doc.item_id d);
  [u8 (doc.editable_type d)]; [u8 (doc.item_category d)];
  [u8 (doc.action_type d)]; [u8 (doc.hit_sound_type d)];
  name_bytes key (doc.name d) (doc.item_id d);
  text_bytes (doc.texture d);
  le_encode 4 (doc.texture_hash d);
  [u8 (doc.item_kind d)];
  le_encode 4 (doc.val1 d);
  [u8 (doc.texture_x d)]; [u8 (doc.texture_y d)]; [u8 (doc.spread_type d)];
  [u8 (doc.is_stripey_wallpaper d)]; [u8 (doc.collision_type d)];
  [u8 (break_byte (doc.break_hits d))];
  le_encode 4 (doc.drop_chance d);
  [u8 (doc.clothing_type d)];
  le_encode 2 (doc.rarity d);
  [u8 (doc.max_amount d)];
  text_bytes (doc.extra_file d);
  le_encode 4 (doc.extra_file_hash d);
  le_encode 4 (doc.audio_volume d);
  text_bytes (doc.pet_name d); text_bytes (doc.pet_prefix d);
  text_bytes (doc.pet_suffix d); text_bytes (doc.pet_ability d);
  [u8 (doc.seed_base d)]; [u8 (doc.seed_overlay d)];
  [u8 (doc.tree_base d)]; [u8 (doc.tree_leaves d)];
  [u8 (doc.seed_color_a d)]; [u8 (doc.seed_color_r d)];
  [u8 (doc.seed_color_g d)]; [u8 (doc.seed_color_b d)];
  [u8 (doc.overlay_color_a d)]; [u8 (doc.overlay_color_r d)];
  [u8 (doc.overlay_color_g d)]; [u8 (doc.overlay_color_b d)];
  le_encode 4 0;
  le_encode 4 (doc.grow_time d);
  le_encode 2 (doc.val2 d);
  le_encode 2 (doc.is_rayman d);
  text_bytes (doc.extra_options d); text_bytes (doc.texture2 d);
  text_bytes (doc.extra_options2 d)].

Definition if_bytes (c : bool) (bs : list Z) : list Z := if c then bs else [].

(** The fields that came with the versions. *)
Definition version_fields (v : Z) (d : doc.json_item) : list (list Z) := [
  region_bytes (doc.data_position_80 d) 80;
  if_bytes (11 <=? v) (text_bytes (doc.punch_options d));
  if_bytes (12 <=? v) (region_bytes (doc.data_version_12 d) 13);
  if_bytes (13 <=? v) (le_encode 4 (doc.int_version_13 d));
  if_bytes (14 <=? v) (le_encode 4 (doc.int_version_14 d));
  if_bytes (15 <=? v)
    (region_bytes (doc.data_version_15 d) 25 ++ text_bytes (doc.str_version_15 d));
  if_bytes (16 <=? v) (text_bytes (doc.str_version_16 d));
  if_bytes (17 <=? v) (le_encode 4 (doc.int_version_17 d));
  if_bytes (18 <=? v) (le_encode 4 (doc.int_version_18 d));
  if_bytes (19 <=? v) (le_encode 4 (doc.int_version_19 d) ++ zeros 5)].

Definition item_bytes (key : string) (v : Z) (d : doc.json_item) : list Z :=
  concat (common_fields key d ++ version_fields v d).

Definition doc_bytes (key : string) (r : doc.json_items) : list Z :=
  le_encode 2 (doc.version r) ++ le_encode 4 (doc.item_count r) ++
  concat (item_bytes key (doc.version r) <$> doc.items r).

(** The hexadecimal texts stay inside their regions. *)
Definition hex_fits (d : doc.json_item) : Prop :=
  (length (hex_bytes (doc.data_position_80 d)) <= 80)%nat /\
  (length (hex_bytes (doc.data_version_12 d)) <= 13)%nat /\
  (length (hex_bytes (doc.data_version_15 d)) <= 25)%nat.

(** ** Bytes *)

Lemma number_bytes_encode len : forall v, number_bytes len v = le_encode len v.
Proof.
  unfold number_bytes. induction len as [|len IH]; intros v; [done|].
  cbn [seq fmap list_fmap le_encode]. f_equal.
  - change (Z.of_nat 0 * 8) with 0. rewrite Z.shiftr_0_r.
    change 255 with (Z.ones 8). rewrite Z.land_ones by lia. done.
  - rewrite <- IH, <- seq_shift, <- list_fmap_compose. apply list_fmap_ext.
    intros i a _. cbn. f_equal. rewrite <- Z.shiftr_div_pow2 with (n := 8) by lia.
    rewrite Z.shiftr_shiftr by lia. f_equal. lia.
Qed.

Lemma put_app b1 old b2 pos bs :
  pos = length b1 -> length old = length bs ->
  put (b1 ++ old ++ b2) pos bs = Some (b1 ++ bs ++ b2).
Proof.
  intros -> Hl. unfold put. rewrite !length_app, Hl.
  destruct (Nat.leb_spec (length b1 + length bs)
    (length b1 + (length bs + length b2))); [|lia].
  rewrite take_app_length, <- drop_drop, drop_app_length, <- Hl, drop_app_length. done.
Qed.

Lemma is_empty_true s : is_empty s = true -> s = EmptyString.
Proof. by destruct s. Qed.

Lemma xor_key_Some key id bs :
  is_empty key = false ->
  xor_key key id bs = Some (imap (λ a x, Z.lxor x (key_at key (Z.of_nat a + id))) bs).
Proof. unfold xor_key. by intros ->. Qed.

(** ** The encoder appends

    A step appends [bs] when it writes it into the zeros after what is
    written and moves past it. *)

Definition appends (f : step) (bs : list Z) : Prop :=
  forall w n, f (w ++ zeros (length bs + n), length w)
              = Some ((w ++ bs) ++ zeros n, length (w ++ bs)).

Lemma zeros_app n k : zeros (n + k) = zeros n ++ zeros k.
Proof. apply replicate_add. Qed.

Lemma zeros_length n : length (zeros n) = n.
Proof. apply length_replicate. Qed.

(** Writing [bs] and moving [k] further. *)
Lemma put_zeros w bs k n :
  put (w ++ zeros (length (bs ++ zeros k) + n)) (length w) bs
  = Some ((w ++ bs ++ zeros k) ++ zeros n).
Proof.
  rewrite length_app, !zeros_app, <- !app_assoc.
  rewrite put_app by (done || apply zeros_length). by rewrite zeros_length.
Qed.

Lemma put_next w bs n pos :
  pos = length w -> put (w ++ zeros (length bs + n)) pos bs = Some ((w ++ bs) ++ zeros n).
Proof.
  intros ->. pose proof (put_zeros w bs 0 n) as H. cbn [zeros replicate] in H.
  by rewrite !app_nil_r in H.
Qed.

Lemma put_first bs n : put (zeros (length bs + n)) 0 bs = Some (bs ++ zeros n).
Proof. by apply (put_next []). Qed.

Lemma appends_put f bs k :
  (forall b p, f (b, p) = b' ← put b p bs; Some (b', (p + (length bs + k))%nat)) ->
  appends f (bs ++ zeros k).
Proof.
  intros H w n. rewrite H, put_zeros; cbn [mbind option_bind].
  by rewrite !length_app, zeros_length.
Qed.

Lemma appends_put0 f bs :
  (forall b p, f (b, p) = b' ← put b p bs; Some (b', (p + length bs)%nat)) -> appends f bs.
Proof.
  intros H. rewrite <- (app_nil_r bs). change [] with (zeros 0). apply appends_put.
  intros b p. by rewrite Nat.add_0_r.
Qed.

Lemma appends_nil : appends Some [].
Proof. intros w n. by rewrite app_nil_r. Qed.

Lemma appends_app f g bs1 bs2 :
  appends f bs1 -> appends g bs2 -> appends (λ s, s' ← f s; g s') (bs1 ++ bs2).
Proof.
  intros Hf Hg w n. rewrite length_app, <- Nat.add_assoc, Hf; cbn [mbind option_bind].
  by rewrite Hg, app_assoc.
Qed.

Lemma appends_steps fs bss : Forall2 appends fs bss -> appends (steps fs) (concat bss).
Proof.
  induction 1 as [|f bs fs bss Hf _ IH]; cbn [steps concat]; [apply appends_nil|].
  by apply appends_app.
Qed.

Lemma appends_number len v : appends (number len v) (le_encode len v).
Proof.
  apply appends_put0. intros b p. cbn. unfold write_buffer_number.
  by rewrite number_bytes_encode, le_encode_length.
Qed.

Lemma appends_number_adv len adv v k :
  adv = (len + k)%nat -> appends (number_adv len adv v) (le_encode len v ++ zeros k).
Proof.
  intros ->. apply appends_put. intros b p. cbn. unfold write_buffer_number.
  by rewrite number_bytes_encode, le_encode_length.
Qed.

Lemma appends_byte v : appends (byte v) [u8 v].
Proof. by apply appends_put0. Qed.

Lemma appends_region s n :
  (length (hex_bytes s) <= n)%nat -> appends (hex_region s n) (region_bytes s n).
Proof.
  intros H. apply appends_put. intros b p. cbn. unfold hexStringToArrayBuffer.
  replace (length (hex_bytes s) + (n - length (hex_bytes s)))%nat with n by lia. done.
Qed.

Lemma appends_when c f bs : appends f bs -> appends (when c f) (if_bytes c bs).
Proof. destruct c; [done|]. intros _. apply appends_nil. Qed.

Lemma appends_text_with key s u id bs :
  length bs = String.length s ->
  (forall b p, write_buffer_string key b p s u id = put b p bs) ->
  appends (text_with key s u id) (le_encode 2 (slen s) ++ bs).
Proof.
  intros Hl Hw w n. rewrite length_app, le_encode_length, <- !Nat.add_assoc.
  cbn [text_with]. rewrite !zeros_app. unfold write_buffer_number.
  rewrite number_bytes_encode, put_app; [|done|by rewrite le_encode_length, zeros_length].
  cbn [mbind option_bind]. rewrite Hw, (app_assoc w).
  rewrite put_app; [|by rewrite length_app, le_encode_length|by rewrite zeros_length].
  cbn [mbind option_bind]. rewrite !app_assoc, !length_app, le_encode_length, Hl.
  done.
Qed.

Lemma appends_text s : appends (text s) (text_bytes s).
Proof. apply appends_text_with; [apply str_bytes_length|done]. Qed.

Lemma appends_name key s id :
  is_empty key = false -> appends (text_with key s true id) (name_bytes key s id).
Proof.
  intros Hk. apply appends_text_with.
  - by rewrite length_imap, str_bytes_length.
  - intros b p. unfold write_buffer_string. by rewrite xor_key_Some.
Qed.

Lemma appends_two f g bs1 bs2 :
  appends f bs1 -> appends g bs2 -> appends (steps [f; g]) (bs1 ++ bs2).
Proof.
  intros Hf Hg. rewrite <- (app_nil_r bs2). change (bs1 ++ bs2 ++ []) with (concat [bs1; bs2]).
  apply appends_steps. by repeat constructor.
Qed.

Create HintDb encoder.
#[local] Hint Resolve appends_number appends_byte appends_region appends_when appends_text
  appends_name appends_two : encoder.

Lemma encode_item_appends key v d :
  is_empty key = false -> hex_fits d -> appends (encode_item key v d) (item_bytes key v d).
Proof.
  intros Hk (H80 & H12 & H15). unfold encode_item, item_bytes. apply appends_steps.
  unfold common_fields, version_fields. cbn [app].
  repeat (apply List.Forall2_cons; [auto with encoder|]); [|constructor].
  apply appends_when. by apply appends_number_adv.
Qed.

Lemma encode_items_appends key v ds :
  is_empty key = false -> Forall hex_fits ds ->
  appends (encode_items key v (length ds) ds) (concat (item_bytes key v <$> ds)).
Proof.
  intros Hk. induction 1 as [|d ds Hd _ IH];
    cbn [encode_items length fmap list_fmap concat]; [apply appends_nil|].
  apply appends_app; [by apply encode_item_appends|done].
Qed.

(** The document is complete and its texts fit. *)
Definition doc_ok (r : doc.json_items) : Prop :=
  doc.item_count r = Z.of_nat (length (doc.items r)) /\ Forall hex_fits (doc.items r).

Lemma process_item_encoder_spec key r n :
  is_empty key = false -> doc_ok r ->
  exists p, process_item_encoder key (zeros (length (doc_bytes key r) + n)) r
            = Some (doc_bytes key r ++ zeros n, p).
Proof.
  intros Hk (Hc & Hf). unfold process_item_encoder, doc_bytes, write_buffer_number.
  rewrite !number_bytes_encode, !length_app, <- !Nat.add_assoc.
  rewrite put_first. cbn [mbind option_bind].
  rewrite put_next by (by rewrite le_encode_length). cbn [mbind option_bind].
  rewrite Hc, Nat2Z.id.
  pose proof (encode_items_appends key (doc.version r) (doc.items r) Hk Hf
    (le_encode 2 (doc.version r) ++ le_encode 4 (Z.of_nat (length (doc.items r)))) n) as E.
  rewrite length_app, !le_encode_length in E. change (2 + 4)%nat with 6%nat in E.
  rewrite E. eexists. by rewrite <- !app_assoc.
Qed.

(** ** The file is what was written, less the zeros it ends in *)

Lemma used_size_app b1 b2 : forall i size,
  used_size i size (b1 ++ b2) = used_size (i + length b1) (used_size i size b1) b2.
Proof.
  induction b1 as [|x b1 IH]; intros i size; cbn [app used_size length];
    [by rewrite Nat.add_0_r|].
  by rewrite IH, Nat.add_succ_r.
Qed.

Lemma used_size_zeros n : forall i size, used_size i size (zeros n) = size.
Proof. induction n as [|n IH]; intros i size; [done|]. by cbn. Qed.

Lemma used_size_spec b : forall i size,
  (size <= i)%nat ->
  (size <= used_size i size b <= i + length b)%nat /\
  drop (used_size i size b - i) b = zeros (i + length b - Nat.max i (used_size i size b)).
Proof.
  induction b as [|x b IH]; intros i size Hs; cbn [used_size length].
  { rewrite drop_nil. split; [lia|]. by replace (i + 0 - Nat.max i size)%nat with 0%nat by lia. }
  destruct (Z.eqb_spec x 0) as [->|Hx].
  - destruct (IH (S i) size) as [Hr Hd]; [lia|].
    set (u := used_size (S i) size b) in *. split; [lia|].
    destruct (decide (u <= i)%nat) as [Hu|Hu].
    + replace (u - i)%nat with 0%nat by lia. replace (u - S i)%nat with 0%nat in Hd by lia.
      rewrite drop_0 in *.
      replace (i + S (length b) - Nat.max i u)%nat
        with (S (S i + length b - Nat.max (S i) u))%nat by lia.
      change (0 :: b = 0 :: zeros (S i + length b - Nat.max (S i) u)). by f_equal.
    + replace (u - i)%nat with (S (u - S i))%nat by lia. cbn [drop]. rewrite Hd.
      f_equal. lia.
  - destruct (IH (S i) (S i)) as [Hr Hd]; [lia|].
    set (u := used_size (S i) (S i) b) in *. split; [lia|].
    replace (u - i)%nat with (S (u - S i))%nat by lia. cbn [drop]. rewrite Hd.
    f_equal. lia.
Qed.

Lemma trim_zeros b n : trim (b ++ zeros n) = trim b.
Proof.
  unfold trim. rewrite used_size_app, used_size_zeros. cbn.
  destruct (used_size_spec b 0 0) as [? _]; [lia|]. by rewrite take_app_le by lia.
Qed.

Lemma trim_spec b : b = trim b ++ zeros (length b - length (trim b)).
Proof.
  unfold trim. destruct (used_size_spec b 0 0) as [Hr Hd]; [lia|].
  rewrite Nat.sub_0_r in Hd. cbn in Hr. rewrite length_take, Nat.min_l by lia.
  rewrite <- (take_drop (used_size 0 0 b) b) at 1. by rewrite Hd.
Qed.

Lemma trim_length b : (length (trim b) <= length b)%nat.
Proof. unfold trim. rewrite length_take. lia. Qed.

Definition fits_buffer (key : string) (r : doc.json_items) : Prop :=
  Z.of_nat (length (doc_bytes key r)) <= 10000000.

Lemma item_encoder_spec st r :
  is_empty (items_secret_key st) = false -> doc_ok r -> fits_buffer (items_secret_key st) r ->
  let bs := doc_bytes (items_secret_key st) r in
  item_encoder st r
  = Some (trim bs, mkStatics (items_secret_key st) (trim bs)
      (hash_buffer (bs ++ zeros (buffer_size - length bs)) "Encoded Items dat Hash: ")).
Proof.
  intros Hk Hr Hf bs. unfold fits_buffer in Hf. fold bs in Hf. unfold item_encoder.
  assert (replicate buffer_size 0 = zeros (length bs + (buffer_size - length bs))) as ->.
  { unfold zeros. f_equal. unfold buffer_size. lia. }
  destruct (process_item_encoder_spec (items_secret_key st) r (buffer_size - length bs) Hk Hr)
    as [p E].
  unfold bs in *. rewrite E. cbn [mbind option_bind]. by rewrite trim_zeros.
Qed.

(** ** Readers and the bytes they take

    [parses r bs t x]: where the file holds [bs], the reader [r] gives [x]
    and moves [t] bytes past them without reading these. *)

Definition reads (data : list Z) (p : Z) (bs : list Z) : Prop :=
  exists pre post, data = pre ++ bs ++ post /\ p = Z.of_nat (length pre).

Definition parses {A} (r : reader A) (bs : list Z) (t : Z) (x : A) : Prop :=
  forall data p, reads data p bs -> r data p = Some (x, p + Z.of_nat (length bs) + t).

(** A reader that reads nothing. *)
Definition moves {A} (r : reader A) (n : Z) (x : A) : Prop :=
  forall data p, r data p = Some (x, p + n).

Lemma reads_app data p bs1 bs2 :
  reads data p (bs1 ++ bs2) ->
  reads data p bs1 /\ reads data (p + Z.of_nat (length bs1)) bs2.
Proof.
  intros (pre & post & -> & ->). split.
  - exists pre, (bs2 ++ post). by rewrite <- app_assoc.
  - exists (pre ++ bs1), post. rewrite <- !app_assoc, length_app. split; [done|lia].
Qed.

Lemma parses_ret {A} (x : A) : parses (ret x) [] 0 x.
Proof. intros data p _. unfold ret. do 2 f_equal. cbn. lia. Qed.

Lemma parses_rd bs : parses (rd (length bs)) bs 0 bs.
Proof.
  intros data p (pre & post & -> & ->). unfold rd.
  destruct (Z.ltb_spec (Z.of_nat (length pre)) 0); [lia|]. rewrite Nat2Z.id.
  rewrite read_at_app by done. cbn [mbind option_bind]. by rewrite Z.add_0_r.
Qed.

Lemma parses_bind {A B} (r : reader A) (k : A -> reader B) bs1 bs2 t x y :
  parses r bs1 0 x -> parses (k x) bs2 t y -> parses (rbind r k) (bs1 ++ bs2) t y.
Proof.
  intros Hr Hk data p [H1 H2]%reads_app. unfold rbind. rewrite (Hr _ _ H1), Z.add_0_r.
  rewrite (Hk _ _ H2), length_app. do 2 f_equal. lia.
Qed.

(** A bind that takes the rest of the bytes. *)
Lemma parses_bind_all {A B} (r : reader A) (k : A -> reader B) bs t x y :
  parses r bs 0 x -> parses (k x) [] t y -> parses (rbind r k) bs t y.
Proof. intros Hr Hk. rewrite <- (app_nil_r bs). by eapply parses_bind. Qed.

Lemma parses_bind_moves {A B} (r : reader A) (k : A -> reader B) bs t n x y :
  parses r bs t x -> moves (k x) n y -> parses (rbind r k) bs (t + n) y.
Proof.
  intros Hr Hk data p H. unfold rbind. rewrite (Hr _ _ H), Hk. do 2 f_equal. lia.
Qed.

Lemma moves_bind {A B} (r : reader A) (k : A -> reader B) n m x y :
  moves r n x -> moves (k x) m y -> moves (rbind r k) (n + m) y.
Proof. intros Hr Hk data p. unfold rbind. rewrite Hr, Hk. do 2 f_equal. lia. Qed.

Lemma moves_parses {A} (r : reader A) n x : moves r n x -> parses r [] n x.
Proof. intros Hr data p _. rewrite Hr. do 2 f_equal. cbn. lia. Qed.

(** Bytes that are there and not needed. *)
Lemma parses_more {A} (r : reader A) bs rest t x :
  parses r bs t x -> parses r (bs ++ rest) (t - Z.of_nat (length rest)) x.
Proof.
  intros Hr data p [H _]%reads_app. rewrite (Hr _ _ H), length_app. do 2 f_equal. lia.
Qed.

Lemma moves_ret {A} (x : A) : moves (ret x) 0 x.
Proof. intros data p. unfold ret. by rewrite Z.add_0_r. Qed.

Lemma moves_skip n : moves (skip n) n tt.
Proof. done. Qed.

Lemma parses_skip bs n : n = Z.of_nat (length bs) -> parses (skip n) bs 0 tt.
Proof. intros -> data p _. unfold skip. by rewrite Z.add_0_r. Qed.

Lemma parses_with {A} (f : Z -> A) bs k :
  length bs = k -> parses (r_with k f) bs 0 (f (le_decode bs)).
Proof.
  intros <-. eapply parses_bind_all; [apply parses_rd|apply parses_ret].
Qed.

Lemma swrap_mod w z : 0 < w -> swrap w (z mod 2 ^ w) = swrap w z.
Proof.
  intros Hw. unfold swrap. by rewrite Z.add_mod_idemp_l by (apply Z.pow_nonzero; lia).
Qed.

Lemma parses_int v : in_i32 v -> parses r_int (le_encode 4 v) 0 v.
Proof.
  intros Hv. pose proof (parses_with i32 (le_encode 4 v) 4 (le_encode_length 4 v)) as H.
  by rewrite i32_decode_encode in H.
Qed.

Lemma parses_int16 v : parses r_int16 (le_encode 2 v) 0 (swrap 16 v).
Proof.
  pose proof (parses_with (swrap 16) (le_encode 2 v) 2 (le_encode_length 2 v)) as H.
  rewrite le_decode_encode in H. change (256 ^ Z.of_nat 2) with (2 ^ 16) in H.
  by rewrite swrap_mod in H.
Qed.

Lemma parses_char v : parses r_char [u8 v] 0 (i8 v).
Proof.
  pose proof (parses_with i8 [u8 v] 1 eq_refl) as H. cbn [le_decode] in H.
  rewrite Z.mul_0_r, Z.add_0_r in H. unfold uwrap in H. by rewrite swrap_mod in H.
Qed.

Lemma parses_uchar v : parses r_uchar [u8 v] 0 (u8 v).
Proof.
  pose proof (parses_with u8 [u8 v] 1 eq_refl) as H. cbn [le_decode] in H.
  by rewrite Z.mul_0_r, Z.add_0_r, uwrap_idem in H.
Qed.

Definition short (s : string) : Prop := slen s < 2 ^ 15.

Lemma parses_length {A} (k : Z -> reader A) s bs t x :
  short s -> parses (k (slen s)) bs t x ->
  parses (rbind r_int16 k) (le_encode 2 (slen s) ++ bs) t x.
Proof.
  intros Hs Hk. eapply parses_bind; [apply parses_int16|].
  rewrite swrap_small; [done|lia|]. unfold short, slen in *. lia.
Qed.

Lemma parses_string s : short s -> parses r_string (text_bytes s) 0 s.
Proof.
  intros Hs. apply parses_length; [done|]. unfold slen. rewrite Nat2Z.id.
  rewrite <- str_bytes_length. eapply parses_bind_all; [apply parses_rd|].
  rewrite bytes_str_bytes. apply parses_ret.
Qed.

Lemma xor_twice (f : nat -> Z) (bs : list Z) :
  imap (λ a x, Z.lxor x (f a)) (imap (λ a x, Z.lxor x (f a)) bs) = bs.
Proof.
  apply list_eq. intros i. rewrite !list_lookup_imap. destruct (bs !! i); [|done].
  cbn. by rewrite Z.lxor_assoc, Z.lxor_nilpotent, Z.lxor_0_r.
Qed.

Lemma parses_name s id : short s -> parses (r_name id) (name_bytes key_ s id) 0 s.
Proof.
  intros Hs. apply parses_length; [done|]. unfold slen. rewrite Nat2Z.id.
  eapply parses_bind_all.
  - rewrite <- str_bytes_length. rewrite <- (length_imap (λ a x, Z.lxor x (key_at key_ (Z.of_nat a + id)))).
    apply parses_rd.
  - rewrite (xor_twice (λ a, key_at key_ (Z.of_nat a + id))), bytes_str_bytes.
    apply parses_ret.
Qed.

Lemma parses_skip_string s : short s -> parses skip_string (text_bytes s) 0 tt.
Proof.
  intros Hs. apply parses_length; [done|]. apply parses_skip.
  by rewrite str_bytes_length.
Qed.

(** Only the length of a string that is skipped is needed. *)
Lemma parses_skip_string_head s :
  short s -> parses skip_string (le_encode 2 (slen s)) (slen s) tt.
Proof.
  intros Hs. rewrite <- (app_nil_r (le_encode _ _)). apply parses_length; [done|].
  apply moves_parses, moves_skip.
Qed.

(** ** Loading one item *)

(** What [load_item] makes of an item of the document. *)
Definition loaded_item (i : Z) (v : Z) (d : doc.json_item) : ItemDB :=
  let action := i8 (doc.action_type d) in
  mkItemDB i (i8 (doc.editable_type d)) (sides_flag (i8 (doc.editable_type d)))
    (i8 (doc.item_category d)) action (public_flag action (doc.item_id d))
    (toggle_flag action) (i8 (doc.hit_sound_type d)) (doc.name d) (doc.texture d)
    (doc.texture_hash d) (i8 (doc.item_kind d)) (doc.val1 d) (i8 (doc.texture_x d))
    (i8 (doc.texture_y d)) (i8 (doc.spread_type d)) (i8 (doc.is_stripey_wallpaper d))
    (i8 (doc.collision_type d)) (i8 (doc.collision_type d) =? 1)
    (loaded_hits (i8 (break_byte (doc.break_hits d)))) (doc.drop_chance d)
    (i8 (doc.clothing_type d)) (swrap 16 (doc.rarity d)) (u8 (doc.max_amount d))
    (doc.extra_file d) (str_contains "mp3" (doc.extra_file d)) (doc.extra_file_hash d)
    (doc.audio_volume d) (doc.pet_name d) (doc.pet_prefix d) (doc.pet_suffix d)
    (doc.pet_ability d) (i8 (doc.seed_base d)) (i8 (doc.seed_overlay d))
    (i8 (doc.tree_base d)) (i8 (doc.tree_leaves d))
    (i32 (le_decode [u8 (doc.seed_color_a d); u8 (doc.seed_color_r d);
                     u8 (doc.seed_color_g d); u8 (doc.seed_color_b d)]))
    (i32 (le_decode [u8 (doc.overlay_color_a d); u8 (doc.overlay_color_r d);
                     u8 (doc.overlay_color_g d); u8 (doc.overlay_color_b d)]))
    (doc.grow_time d) (swrap 16 (doc.val2 d)) (swrap 16 (doc.is_rayman d))
    (doc.extra_options d) (doc.texture2 d) (doc.extra_options2 d)
    (if 11 <=? v then doc.punch_options d else EmptyString) default_description 0 0.

Definition texts (d : doc.json_item) : list string :=
  [doc.name d; doc.texture d; doc.extra_file d; doc.pet_name d; doc.pet_prefix d;
   doc.pet_suffix d; doc.pet_ability d; doc.extra_options d; doc.texture2 d;
   doc.extra_options2 d; doc.punch_options d; doc.str_version_15 d; doc.str_version_16 d].

(** The lengths and the numbers fit their fields. *)
Definition item_ok (d : doc.json_item) : Prop :=
  Forall short (texts d) /\
  Forall in_i32 [doc.item_id d; doc.texture_hash d; doc.val1 d; doc.drop_chance d;
                 doc.extra_file_hash d; doc.audio_volume d; doc.grow_time d].

(** The fields of the versions up to the last byte the loader reads, and
    the number of bytes it skips after that. *)
Definition read_fields (v : Z) (d : doc.json_item) : list (list Z) :=
  if v <? 11 then []
  else [region_bytes (doc.data_position_80 d) 80; text_bytes (doc.punch_options d)] ++
    if v <? 15 then []
    else [region_bytes (doc.data_version_12 d) 13; le_encode 4 (doc.int_version_13 d);
          le_encode 4 (doc.int_version_14 d); region_bytes (doc.data_version_15 d) 25] ++
      if v <? 16 then [le_encode 2 (slen (doc.str_version_15 d))]
      else [text_bytes (doc.str_version_15 d); le_encode 2 (slen (doc.str_version_16 d))].

Definition skipped (v : Z) (d : doc.json_item) : Z :=
  if v <? 11 then 80
  else if v <? 15 then
    (if 12 <=? v then 13 else 0) + (if 13 <=? v then 4 else 0) + (if 14 <=? v then 4 else 0)
  else if v <? 16 then slen (doc.str_version_15 d)
  else slen (doc.str_version_16 d) + (if 17 <=? v then 4 else 0) +
       (if 18 <=? v then 4 else 0) + (if 19 <=? v then 9 else 0).

Definition read_bytes (v : Z) (d : doc.json_item) : list Z :=
  concat (common_fields key_ d ++ read_fields v d).

Lemma region_length s n : (length (hex_bytes s) <= n)%nat -> length (region_bytes s n) = n.
Proof. intros H. unfold region_bytes. rewrite length_app, length_replicate. lia. Qed.

Lemma parses_region s n z :
  (length (hex_bytes s) <= n)%nat -> z = Z.of_nat n -> parses (skip z) (region_bytes s n) 0 tt.
Proof. intros H ->. apply parses_skip. by rewrite region_length. Qed.

Lemma parses_number_skip v : parses (skip 4) (le_encode 4 v) 0 tt.
Proof. apply parses_skip. by rewrite le_encode_length. Qed.

Lemma parses_color {B} (k : Z -> reader B) x1 x2 x3 x4 bs t y :
  parses (k (i32 (le_decode [x1; x2; x3; x4]))) bs t y ->
  parses (rbind r_int k) ([x1] ++ [x2] ++ [x3] ++ [x4] ++ bs) t y.
Proof.
  intros Hk. change ([x1] ++ [x2] ++ [x3] ++ [x4] ++ bs) with ([x1; x2; x3; x4] ++ bs).
  eapply parses_bind; [|exact Hk]. by apply (parses_with i32).
Qed.

Create HintDb decoder.
#[local] Hint Resolve parses_int parses_int16 parses_char parses_uchar parses_string
  parses_name parses_number_skip parses_skip_string parses_skip_string_head moves_skip
  moves_ret : decoder.

#[local] Hint Extern 1 (parses (skip _) (region_bytes _ _) _ _) =>
  apply parses_region; [assumption|reflexivity] : decoder.

Lemma parses_assoc {A B C} (a : reader A) (b : A -> reader B) (k : B -> reader C) bs t y :
  parses (rbind a (λ x, rbind (b x) k)) bs t y -> parses (rbind (rbind a b) k) bs t y.
Proof.
  intros H data p Hp. rewrite <- (H data p Hp). unfold rbind.
  by destruct (a data p) as [[? ?]|].
Qed.

Lemma parses_moves {A} (r : reader A) n t x : moves r n x -> n = t -> parses r [] t x.
Proof. intros H <-. by apply moves_parses. Qed.

Lemma parses_bind_last {A B} (r : reader A) (k : A -> reader B) bs t n T x y :
  parses r bs t x -> moves (k x) n y -> t + n = T -> parses (rbind r k) (bs ++ []) T y.
Proof. intros Hr Hk <-. rewrite app_nil_r. by eapply parses_bind_moves. Qed.

Ltac parse_field :=
  first [ eapply parses_bind; [solve [eauto with decoder]|]
        | apply parses_color
        | match goal with |- parses (rbind (rbind _ _) _) _ _ _ => apply parses_assoc end ].

Ltac move_on := repeat (eapply moves_bind; [solve [eauto with decoder]|]); apply moves_ret.

(** One goal per version range, the comparisons with [v] decided. *)
Ltac version_cases v :=
  repeat match goal with
  | |- context [?a <=? v] => destruct (Z.leb_spec a v); try lia
  | |- context [v <? ?a] => destruct (Z.ltb_spec v a); try lia
  end.

Lemma load_item_parses i v d :
  hex_fits d -> item_ok d -> 0 <= v <= 20 ->
  parses (load_item v i) (read_bytes v d) (skipped v d) (loaded_item i v d).
Proof.
  intros (H80 & H12 & H15) [Ht Hn] Hv. unfold texts in Ht.
  rewrite !list.Forall_cons in Ht. rewrite !list.Forall_cons in Hn. destruct_and!.
  unfold read_bytes, common_fields, load_item, read_fields, skipped, loaded_item.
  version_cases v; cbn [app r_when]; cbn [concat]; repeat parse_field;
    solve [ eapply parses_bind_last; [by eauto with decoder|move_on|lia]
          | eapply parses_moves; [move_on|lia] ].
Qed.

(** ** Loading the file *)

(** The bytes of an item: what is read, then what is skipped. *)
Lemma item_bytes_split v d :
  hex_fits d -> 0 <= v <= 20 ->
  exists rest, item_bytes key_ v d = read_bytes v d ++ rest /\
    Z.of_nat (length rest) = skipped v d.
Proof.
  intros (H80 & H12 & H15) Hv. unfold item_bytes, read_bytes, version_fields, read_fields, skipped.
  rewrite !concat_app. generalize (concat (common_fields key_ d)) as common. intros common.
  version_cases v; cbn [concat app if_bytes]; unfold text_bytes; rewrite ?app_nil_r;
    first [ exists []; split; [by rewrite app_nil_r|]
          | eexists; split; [rewrite <- ?app_assoc; reflexivity|] ];
    rewrite ?length_app, ?region_length, ?le_encode_length, ?str_bytes_length, ?zeros_length
      by assumption; unfold slen; cbn [length]; lia.
Qed.

Lemma load_item_full i v d :
  hex_fits d -> item_ok d -> 0 <= v <= 20 ->
  parses (load_item v i) (item_bytes key_ v d) 0 (loaded_item i v d).
Proof.
  intros Hh Hd Hv. destruct (item_bytes_split v d Hh Hv) as (rest & -> & Hl).
  rewrite <- (Z.sub_diag (skipped v d)). rewrite <- Hl at 2.
  by apply parses_more, load_item_parses.
Qed.

(** What the loader needs of the items: of the last one only what it reads. *)
Fixpoint needed_bytes (v : Z) (ds : list doc.json_item) : list Z :=
  match ds with
  | [] => []
  | d :: ds' =>
      match ds' with
      | [] => read_bytes v d
      | _ => item_bytes key_ v d ++ needed_bytes v ds'
      end
  end.

Lemma needed_bytes_prefix v ds :
  Forall hex_fits ds -> 0 <= v <= 20 ->
  exists rest, concat (item_bytes key_ v <$> ds) = needed_bytes v ds ++ rest.
Proof.
  intros Hh Hv. induction Hh as [|d ds Hd _ [rest IH]]; [by exists []|].
  cbn [fmap list_fmap concat needed_bytes]. destruct ds as [|d2 ds].
  - destruct (item_bytes_split v d Hd Hv) as (r & E & _). exists r. cbn.
    by rewrite app_nil_r.
  - exists rest. by rewrite <- app_assoc, <- IH.
Qed.

Definition loaded_items (v i : Z) (ds : list doc.json_item) : list ItemDB :=
  imap (λ k d, loaded_item (i + Z.of_nat k) v d) ds.

Lemma loaded_items_cons v i d ds :
  loaded_items v i (d :: ds) = loaded_item i v d :: loaded_items v (i + 1) ds.
Proof.
  unfold loaded_items. cbn [imap]. rewrite Z.add_0_r. f_equal. apply imap_ext.
  intros k x _. cbn. f_equal. lia.
Qed.

Lemma load_items_parses v ds :
  Forall hex_fits ds -> Forall item_ok ds -> 0 <= v <= 20 ->
  forall i, exists t,
    parses (load_items v i (length ds)) (needed_bytes v ds) t (loaded_items v i ds).
Proof.
  intros Hh Ho Hv. induction ds as [|d ds IH]; intros i.
  { exists 0. apply parses_ret. }
  apply list.Forall_cons in Hh as [Hh1 Hh], Ho as [Ho1 Ho].
  rewrite loaded_items_cons. cbn [length load_items needed_bytes]. destruct ds as [|d2 ds].
  - exists (skipped v d + (0 + 0)). eapply parses_bind_moves; [by apply load_item_parses|].
    eapply moves_bind; apply moves_ret.
  - destruct (IH Hh Ho (i + 1)) as [t Ht]. exists (t + 0).
    eapply parses_bind; [by apply load_item_full|].
    eapply parses_bind_moves; [exact Ht|apply moves_ret].
Qed.

(** The packet in front of the file. *)
Definition items_header (size : nat) : list Z :=
  le32 0x4 ++ le32 0x10 ++ le32 (-1) ++ zeros 4 ++ le32 0x8 ++ zeros 36 ++
  le32 (Z.of_nat size).

Lemma items_packet_spec data :
  items_packet data = Some (Some <$> (items_header (length data) ++ data)).
Proof.
  unfold items_packet.
  match goal with |- stores ?m (?a :: ?b :: ?c :: ?d :: ?e :: ?t) = _ =>
    change (stores m ([a; b; c; d; e] ++ t) = Some (Some <$> (items_header (length data) ++ data)))
  end.
  rewrite stores_split.
  rewrite (stores_app _ (zalloc 60) _ (Some <$> items_header (length data))) by reflexivity.
  cbn [mbind option_bind stores]. rewrite <- (app_nil_r (alloc _)).
  rewrite (store_next _ 60 data (length data) []) by done. cbn [mbind option_bind].
  by rewrite app_nil_r, fmap_app.
Qed.

Lemma get_hash_Some bs : bs <> [] -> get_hash bs = Some (hash_bytes bs).
Proof. destruct bs; [congruence|reflexivity]. Qed.

(** The bytes of the file up to the last one the loader reads. *)
Definition needed_file (r : doc.json_items) : list Z :=
  le_encode 2 (doc.version r) ++ le_encode 4 (doc.item_count r) ++
  needed_bytes (doc.version r) (doc.items r).

Lemma read_needed r tail :
  doc_ok r -> Forall item_ok (doc.items r) -> 0 <= doc.version r <= 20 ->
  doc.item_count r < 2 ^ 31 ->
  let file := needed_file r ++ tail in
  read_items_dat (Some file) = Some (Some (mkLoaded (i32 (Z.of_nat (length file)))
    (Some <$> (items_header (length file) ++ file)) (i32 (hash_bytes file))
    (doc.version r) (doc.item_count r) (loaded_items (doc.version r) 0 (doc.items r)))).
Proof.
  intros [Hc Hh] Ho Hv Hn file. unfold read_items_dat. rewrite items_packet_spec.
  cbn [mbind option_bind].
  assert (get_hash file = Some (hash_bytes file)) as -> by done. cbn [mbind option_bind].
  assert (reads file 0 (needed_file r)) as Hr by (by exists [], tail).
  apply reads_app in Hr as [H1 Hr]. apply reads_app in Hr as [H2 H3].
  rewrite (parses_int16 _ _ _ H1). cbn [mbind option_bind].
  rewrite !le_encode_length, !Z.add_0_l in *. rewrite Z.add_0_r.
  rewrite (parses_int (doc.item_count r) ltac:(unfold in_i32; lia) _ _ H2).
  cbn [mbind option_bind]. rewrite le_encode_length in *. rewrite Z.add_0_r.
  rewrite (swrap_small 16) by lia.
  destruct (load_items_parses (doc.version r) (doc.items r) Hh Ho Hv 0) as [t Ht].
  rewrite Hc, Nat2Z.id, (Ht _ _ H3). done.
Qed.

Lemma doc_bytes_needed r :
  doc_ok r -> 0 <= doc.version r <= 20 ->
  exists rest, doc_bytes key_ r = needed_file r ++ rest.
Proof.
  intros [_ Hh] Hv. destruct (needed_bytes_prefix _ _ Hh Hv) as [rest E].
  exists rest. unfold doc_bytes, needed_file. by rewrite E, <- !app_assoc.
Qed.

(** Of two beginnings of a list the shorter begins the longer. *)
Lemma prefix_cut {A} (a b c d : list A) :
  a ++ b = c ++ d -> (length c <= length a)%nat -> exists tail, a = c ++ tail.
Proof.
  intros E Hl. exists (drop (length c) a). rewrite <- (take_drop (length c) a) at 1.
  f_equal. rewrite <- (take_app_le a b) by done. by rewrite E, take_app_length.
Qed.

(** An item takes bytes, so a document that fits has few of them. *)
Lemma doc_count_small r : doc_ok r -> fits_buffer key_ r -> doc.item_count r < 2 ^ 31.
Proof.
  intros [-> _] Hf. unfold fits_buffer, doc_bytes in Hf. rewrite !length_app in Hf.
  assert (length (doc.items r) <= length (concat (item_bytes key_ (doc.version r) <$> doc.items r)))%nat;
    [|lia].
  clear Hf. induction (doc.items r) as [|d ds IH]; [done|].
  cbn [fmap list_fmap concat length]. rewrite length_app.
  assert (0 < length (item_bytes key_ (doc.version r) d))%nat; [|lia].
  unfold item_bytes, common_fields. cbn [app concat].
  rewrite length_app, le_encode_length. lia.
Qed.

(** C40: items.dat is read back. Let a document of at most 10 MB have texts
    and numbers that fit their fields, a version up to 20, and an encoding
    that keeps - when the zeros at its end are cut off - the bytes the loader
    reads. The encoder writes a file, and the reading of the records in
    [GetItemManager::Serialize] (up to BaseServer.h:2761, before the server
    derives further fields from a record and overrides some, the names of
    random-grow items among them) finds in it the version, the count and every
    item, each field as its C++ type holds it; the packet for the clients is
    the tank header followed by the file. *)
Theorem items_dat_round_trip r :
  doc_ok r -> Forall item_ok (doc.items r) -> 0 <= doc.version r <= 20 ->
  fits_buffer key_ r ->
  (length (needed_file r) <= length (trim (doc_bytes key_ r)))%nat ->
  exists file st, item_encoder statics_init r = Some (file, st) /\
    read_items_dat (Some file) = Some (Some (mkLoaded (Z.of_nat (length file))
      (Some <$> (items_header (length file) ++ file)) (i32 (hash_bytes file))
      (doc.version r) (doc.item_count r)
      (loaded_items (doc.version r) 0 (doc.items r)))).
Proof.
  intros Hr Ho Hv Hf Hl.
  rewrite (item_encoder_spec statics_init r eq_refl Hr Hf). do 2 eexists. split; [reflexivity|].
  change (items_secret_key statics_init) with key_.
  destruct (doc_bytes_needed r Hr Hv) as [rest Hrest].
  destruct (prefix_cut (trim (doc_bytes key_ r)) _ (needed_file r) rest
    ltac:(by rewrite <- trim_spec) Hl) as [tail Htail].
  rewrite Htail.
  pose proof (read_needed r tail Hr Ho Hv (doc_count_small r Hr Hf)) as E.
  cbn zeta in E. rewrite <- Htail in *. rewrite i32_small in E at 1; [exact E|].
  pose proof (trim_length (doc_bytes key_ r)). unfold fits_buffer in Hf. lia.
Qed.

(** ** A document to run the codec on *)

Definition demo_item (id : Z) (name tail : string) (last : Z) : doc.json_item :=
  doc.mk id 21 0 12 0 name "tiles_page1.rttex" 123456 1 (-5) 3 4 2 0 1 "5" 0 2 10 200
    "audio/hit.mp3" 77 100 "" "" "" "" 1 2 3 4 255 10 20 30 255 40 50 60 31 0 0
    "opt" "" "x" "01 02 ff" "punch" "0a" 1 2 "" "p15" tail last 0 0.

Definition demo : doc.json_items :=
  doc.mkDoc 17 2 [demo_item 0 "Blank" "" 0; demo_item 1 "Blank Seed" "ab" 9].

Lemma items_dat_round_trip_witness :
  exists file st, item_encoder statics_init demo = Some (file, st) /\
    read_items_dat (Some file) = Some (Some (mkLoaded (Z.of_nat (length file))
      (Some <$> (items_header (length file) ++ file)) (i32 (hash_bytes file))
      17 2 (loaded_items 17 0 (doc.items demo)))).
Proof.
  apply (items_dat_round_trip demo).
  - split; [reflexivity|]. repeat constructor; apply Nat.leb_le; vm_compute; reflexivity.
  - repeat constructor; vm_compute; congruence.
  - vm_compute. split; congruence.
  - vm_compute. congruence.
  - apply Nat.leb_le. vm_compute. reflexivity.
Defined.

(** What the hypothesis on the end of the file excludes: here the length of
    the last text is 0 and is cut off, and the loader reads past its data. *)
Example cut_length :
  read_items_dat (Some (trim (doc_bytes key_
    (doc.mkDoc 16 1 [demo_item 0 "Blank" "" 0])))) = None.
Proof. by vm_compute. Qed.

(** Break hits from 22 to 42 are negative as a [char]: they load as 42. *)
Example break_hits_21_22 :
  (loaded_hits (i8 (break_byte "21")), loaded_hits (i8 (break_byte "22")))
  = (126, 252).
Proof. by vm_compute. Qed.

(** The form with a final [r] does not survive [dump], which quotes it. *)
Example break_hits_r :
  (break_byte (String quote ("5r" +:+ str1 quote)), break_byte "5r") = (0, 0).
Proof. by vm_compute. Qed.

(** ** The announced hash *)

(** A 32-bit word rotated to the left. *)
Definition rotl32 (k h : Z) : Z := (h mod 2 ^ (32 - k)) * 2 ^ k + h / 2 ^ (32 - k).

Lemma hash_step_range h x : 0 <= hash_step h x < 2 ^ 32.
Proof. apply uwrap_range. lia. Qed.

Lemma hash_step_zero h : 0 <= h < 2 ^ 32 -> hash_step h 0 = rotl32 5 h.
Proof.
  intros Hh. unfold hash_step, rotl32, uwrap.
  rewrite Z.shiftr_div_pow2, Z.shiftl_mul_pow2 by lia.
  change (2 ^ 32) with 4294967296 in *. change (2 ^ 27) with 134217728.
  change (2 ^ 5) with 32. change (2 ^ (32 - 5)) with 134217728.
  Z.to_euclidean_division_equations. lia.
Qed.

Lemma rotl32_step k h :
  0 <= k < 32 -> 0 <= h < 2 ^ 32 -> rotl32 5 (rotl32 k h) = rotl32 ((k + 5) mod 32) h.
Proof.
  intros Hk Hh.
  assert (k = 0 \/ k = 1 \/ k = 2 \/ k = 3 \/ k = 4 \/ k = 5 \/ k = 6 \/ k = 7 \/
    k = 8 \/ k = 9 \/ k = 10 \/ k = 11 \/ k = 12 \/ k = 13 \/ k = 14 \/ k = 15 \/
    k = 16 \/ k = 17 \/ k = 18 \/ k = 19 \/ k = 20 \/ k = 21 \/ k = 22 \/ k = 23 \/
    k = 24 \/ k = 25 \/ k = 26 \/ k = 27 \/ k = 28 \/ k = 29 \/ k = 30 \/ k = 31)
    as Hc by lia.
  clear Hk. unfold rotl32.
  destruct_or! Hc; subst k;
    repeat match goal with
    | |- context [(?a + 5) mod 32] =>
        let v := eval vm_compute in ((a + 5) mod 32) in change ((a + 5) mod 32) with v
    | |- context [2 ^ ?e] => let v := eval vm_compute in (2 ^ e) in change (2 ^ e) with v
    end; change (2 ^ 32) with 4294967296 in Hh;
    Z.to_euclidean_division_equations; lia.
Qed.

Lemma rotl32_0 h : 0 <= h < 2 ^ 32 -> rotl32 0 h = h.
Proof.
  intros Hh. unfold rotl32. change (32 - 0) with 32. rewrite Z.mod_small, Z.div_small by done.
  lia.
Qed.

Lemma hash_fold_range bs : forall h, 0 <= h < 2 ^ 32 -> 0 <= foldl hash_step h bs < 2 ^ 32.
Proof.
  induction bs as [|b bs IH]; intros h Hh; [done|]. apply IH, hash_step_range.
Qed.

Lemma hash_bytes_range bs : 0 <= hash_bytes bs < 2 ^ 32.
Proof. apply hash_fold_range. lia. Qed.

(** Each byte 0 turns the hash by five bits. *)
Lemma hash_zeros h n :
  0 <= h < 2 ^ 32 -> foldl hash_step h (zeros n) = rotl32 (5 * Z.of_nat n mod 32) h.
Proof.
  intros Hh. induction n as [|n IH]; [by rewrite rotl32_0|].
  unfold zeros. rewrite replicate_S_end, foldl_snoc. fold (zeros n).
  rewrite hash_step_zero by (by apply hash_fold_range).
  rewrite IH, rotl32_step by (done || apply Z.mod_pos_bound; lia). f_equal.
  rewrite Z.add_mod_idemp_l by lia. f_equal. lia.
Qed.

(** The announced hash is not the hash of the file. The encoder hashes
    its whole buffer of 10,000,000 bytes: what it announces is the hash of
    the file it writes, the one the loader computes and the clients check,
    turned left by five bits for every byte that was cut off. *)
Theorem announced_hash r file st :
  doc_ok r -> fits_buffer key_ r ->
  item_encoder statics_init r = Some (file, st) ->
  msg st = "Encoded Items dat Hash: " +:+
    to_string (rotl32 (5 * (10000000 - Z.of_nat (length file)) mod 32) (hash_bytes file)) /\
  (file <> [] -> get_hash file = Some (hash_bytes file)).
Proof.
  intros Hr Hf. rewrite (item_encoder_spec statics_init r eq_refl Hr Hf).
  change (items_secret_key statics_init) with key_.
  set (m := hash_buffer _ _). assert (m = hash_buffer _ _) as Hm by reflexivity.
  clearbody m. intros [= <- <-]. split; [|apply get_hash_Some]. cbn [msg].
  rewrite Hm. unfold hash_buffer. do 2 f_equal.
  pose proof (trim_length (doc_bytes key_ r)) as Hl. unfold fits_buffer in Hf.
  rewrite (trim_spec (doc_bytes key_ r)) at 1. rewrite <- app_assoc, <- zeros_app.
  unfold hash_bytes. rewrite foldl_app, hash_zeros by apply hash_bytes_range.
  do 2 f_equal. unfold buffer_size. lia.
Qed.

Lemma announced_hash_witness :
  exists file st, item_encoder statics_init demo = Some (file, st) /\
    msg st = "Encoded Items dat Hash: " +:+
      to_string (rotl32 (5 * (10000000 - Z.of_nat (length file)) mod 32) (hash_bytes file)).
Proof.
  assert (doc_ok demo) as Hr.
  { split; [reflexivity|]. repeat constructor; apply Nat.leb_le; vm_compute; reflexivity. }
  assert (fits_buffer key_ demo) as Hf by (vm_compute; congruence).
  eexists _, _. split; [exact (item_encoder_spec statics_init demo eq_refl Hr Hf)|].
  eapply (announced_hash demo _ _ Hr Hf).
  exact (item_encoder_spec statics_init demo eq_refl Hr Hf).
Defined.

(** ** The key is gone after the first file *)

Lemma steps_None f : forall fs gs s, (forall s, f s = None) -> steps (fs ++ f :: gs) s = None.
Proof.
  induction fs as [|g fs IH]; intros gs s Hf; cbn [app steps]; [by rewrite Hf|].
  destruct (g s); [by apply IH|done].
Qed.

Lemma text_without_key s id st : s <> EmptyString -> text_with EmptyString s true id st = None.
Proof.
  intros Hs. destruct st as [b p]. cbn [text_with].
  destruct (write_buffer_number _ _ _ _) as [b'|]; [|done]. cbn [mbind option_bind].
  unfold write_buffer_string, xor_key. cbn [is_empty]. by destruct s.
Qed.

(** One file per run. [encode_items_dat] empties the key when it is
    done: a second call divides by its length, 0, at the first item that has
    a name. *)
Theorem second_encode_fails r1 r2 file line st d ds :
  encode_items_dat statics_init r1 = Some (file, line, st) ->
  doc.items r2 = d :: ds -> 0 < doc.item_count r2 -> doc.name d <> EmptyString ->
  encode_items_dat st r2 = None.
Proof.
  unfold encode_items_dat at 1. destruct (item_encoder statics_init r1) as [[? ?]|]; [|done].
  cbn [mbind option_bind]. intros [= _ _ <-] Hd Hc Hn.
  unfold encode_items_dat, item_encoder, process_item_encoder. cbn [items_secret_key].
  rewrite Hd.
  destruct (write_buffer_number _ 0 2 _) as [b|]; [|done]. cbn [mbind option_bind].
  destruct (write_buffer_number b 2 4 _) as [b'|]; [|done]. cbn [mbind option_bind].
  destruct (Z.to_nat (doc.item_count r2)) as [|n] eqn:E; [lia|]. cbn [encode_items].
  assert (encode_item EmptyString (doc.version r2) d (b', 6%nat) = None) as ->; [|done].
  unfold encode_item. apply (steps_None _ [_; _; _; _; _]). intros st.
  by apply text_without_key.
Qed.

Lemma second_encode_fails_witness :
  exists file line st, encode_items_dat statics_init demo = Some (file, line, st) /\
    encode_items_dat st demo = None.
Proof.
  assert (doc_ok demo) as Hr.
  { split; [reflexivity|]. repeat constructor; apply Nat.leb_le; vm_compute; reflexivity. }
  assert (fits_buffer key_ demo) as Hf by (vm_compute; congruence).
  eexists _, _, _. assert (forall s, encode_items_dat statics_init demo = s ->
    encode_items_dat statics_init demo = s) as Hx by done. split.
  - unfold encode_items_dat. rewrite (item_encoder_spec statics_init demo eq_refl Hr Hf).
    reflexivity.
  - eapply (second_encode_fails demo demo).
    + unfold encode_items_dat. rewrite (item_encoder_spec statics_init demo eq_refl Hr Hf).
      reflexivity.
    + reflexivity.
    + vm_compute. reflexivity.
    + vm_compute. congruence.
Defined.

(** ** Reading back what was written *)

Lemma put_read b pos bs b' :
  put b pos bs = Some b' -> read_at b' pos (length bs) = Some bs.
Proof.
  unfold put. destruct (Nat.leb_spec (pos + length bs) (length b)); [|done]. intros [= <-].
  apply read_at_app; [|done]. rewrite length_take. lia.
Qed.

(** A string is read back. What [write_buffer_string] put into the
    buffer, with the key or without, [read_buffer_string] reads at the same
    place under the same key. *)
Theorem buffer_string_round_trip key b pos value using_key item_id b' :
  write_buffer_string key b pos value using_key item_id = Some b' ->
  read_buffer_string key b' pos (slen value) using_key item_id = Some value.
Proof.
  unfold write_buffer_string, read_buffer_string. intros H.
  destruct (Z.leb_spec (slen value) 0) as [Hl|Hl].
  { unfold slen in Hl. destruct value; [done|]. cbn in Hl. lia. }
  unfold slen. rewrite Nat2Z.id, <- str_bytes_length. destruct using_key.
  - unfold xor_key in *. destruct (is_empty key).
    { destruct value; [done|]. by cbn in H. }
    cbn [mbind option_bind] in *. apply put_read in H. rewrite length_imap in H.
    rewrite H. cbn [mbind option_bind].
    by rewrite (xor_twice (λ a, key_at key (Z.of_nat a + item_id))), bytes_str_bytes.
  - apply put_read in H. rewrite H. cbn [mbind option_bind]. by rewrite bytes_str_bytes.
Qed.

Lemma buffer_string_round_trip_witness :
  exists b', write_buffer_string key_ (zeros 8) 2 "Dirt" true 2 = Some b' /\
    read_buffer_string key_ b' 2 4 true 2 = Some "Dirt"%string.
Proof.
  eexists. split; [reflexivity|].
  apply (buffer_string_round_trip key_ (zeros 8) 2 "Dirt" true 2). reflexivity.
Defined.

(** ** Hexadecimal text *)

Lemma hex_digit_value n : 0 <= n < 16 -> hex_value (hex_digit n) = Some n.
Proof.
  intros Hn. unfold hex_value, hex_digit.
  destruct (Z.ltb_spec n 10); rewrite char_code_of by lia;
    repeat match goal with |- context [?a <=? ?b] => destruct (Z.leb_spec a b); try lia end;
    cbn [andb]; f_equal; lia.
Qed.

Lemma hex_digit_plain n : 0 <= n < 16 -> Ascii.eqb (hex_digit n) (char_of 32) = false.
Proof.
  intros Hn. apply Ascii.eqb_neq. intros E. apply (f_equal char_code) in E. revert E.
  unfold hex_digit. destruct (Z.ltb_spec n 10); rewrite !char_code_of by lia; lia.
Qed.

Lemma byte_digits x : is_byte x -> 0 <= x / 16 < 16 /\ 0 <= x mod 16 < 16.
Proof. unfold is_byte. intros. Z.to_euclidean_division_equations. lia. Qed.

Lemma initByteToHex_nth x : is_byte x -> initByteToHex !! Z.to_nat x = Some (hex_byte x).
Proof.
  intros Hx. unfold is_byte in Hx. unfold initByteToHex.
  rewrite list_lookup_fmap, lookup_seqZ_lt by lia. cbn. do 2 f_equal. lia.
Qed.

Lemma hex_bytes_head x s :
  is_byte x -> hex_bytes (hex_byte x +:+ s) = x :: hex_bytes s.
Proof.
  intros Hx. destruct (byte_digits x Hx) as [Hh Hl]. unfold hex_bytes, hex_byte, str1.
  change (String (hex_digit (x / 16)) (String (hex_digit (x mod 16)) "") +:+ s)
    with (String (hex_digit (x / 16)) (String (hex_digit (x mod 16)) s)).
  cbn [remove_char]. rewrite !hex_digit_plain by done. cbn [hex_pairs].
  rewrite !hex_digit_value by done. f_equal. pose proof (Z.div_mod x 16). lia.
Qed.

Lemma hex_reads bs ws :
  Forall is_byte bs -> exists s, hex initByteToHex bs ws = Some s /\ hex_bytes s = bs.
Proof.
  induction 1 as [|x bs Hx _ (s & E & Hs)]; [by exists EmptyString|].
  cbn [hex]. rewrite initByteToHex_nth by done. cbn [mbind option_bind].
  rewrite E. cbn [mbind option_bind]. eexists. split; [reflexivity|].
  rewrite hex_bytes_head by done. f_equal. destruct bs; [done|]. by destruct ws.
Qed.

(** Hexadecimal text is read back. [hex] is defined on every buffer
    once the table is filled, and [hexStringToArrayBuffer] writes from its
    text, with spaces or without, the bytes of the buffer. *)
Theorem hex_round_trip bs ws b pos :
  Forall is_byte bs ->
  exists s, hex initByteToHex bs ws = Some s /\ hexStringToArrayBuffer b pos s = put b pos bs.
Proof.
  intros Hbs. destruct (hex_reads bs ws Hbs) as (s & E & Hs). exists s. split; [done|].
  unfold hexStringToArrayBuffer. by rewrite Hs.
Qed.

Lemma hex_round_trip_witness :
  exists s, hex initByteToHex [0; 10; 255] false = Some s /\
    hexStringToArrayBuffer (zeros 4) 1 s = Some [0; 0; 10; 255].
Proof.
  apply (hex_round_trip [0; 10; 255] false (zeros 4) 1).
  repeat constructor; vm_compute; congruence.
Defined.

End ItemsDatFacts.
