(* ===== verification/World.v ===== *)
(** * World: worlds, their look-up and their creation

    The part of [struct World] and [struct WorldBlock] of
    [src/NopySource/Handle/WorldInfo.h] that the verified components use,
    [find_world] with its cache of indices, the sweep of old drops, and the
    functions that create a world.  [rand()] is a sequence of numbers that
    are not negative; a function that draws returns how many it has drawn. *)
From S2P Require Import Prelude.

Module World.

(** ** Names *)

Definition to_lower (s : string) : string := map_string tolower s.

Fixpoint iequals (a b : string) : bool :=
  match a, b with
  | EmptyString, EmptyString => true
  | String c a, String d b => Ascii.eqb (tolower c) (tolower d) && iequals a b
  | _, _ => false
  end.

Lemma iequals_lower a : forall b, iequals a b = true <-> to_lower a = to_lower b.
Proof.
  induction a as [|c a IH]; intros [|d b]; cbn; try done.
  rewrite andb_true_iff, IH, Ascii.eqb_eq. unfold to_lower. split; [|by intros [= -> ->]].
  by intros [-> ->].
Qed.

Lemma iequals_refl a : iequals a a = true.
Proof. by apply iequals_lower. Qed.

Lemma iequals_sym a b : iequals a b = true -> iequals b a = true.
Proof. rewrite !iequals_lower. congruence. Qed.

Lemma iequals_trans a b c : iequals a b = true -> iequals b c = true -> iequals a c = true.
Proof. rewrite !iequals_lower. congruence. Qed.

(** ** Worlds *)

Record WorldBlock := mkBlock {
  fg : Z;
  bg : Z;
  locked : bool;
  lock_origin : Z;
  block_owner : string;            (* owner_name *)
  block_admins : list string;      (* admins *)
  spin : bool;
  pr : Z;                          (* a machine: its price, *)
  wl : Z;                          (* what it earned, *)
  id : Z;                          (* what it sells *)
  c_ : Z                           (* and how many *)
}.

Record World := mkWorld {
  name : string;
  owner_name : string;
  admins : list string;
  world_settings : Z;
  guild_id : Z;
  max_x : Z;
  max_y : Z;
  weather : Z;
  fresh_world : bool;
  blocks : list WorldBlock;
  drop_new : list (list Z)
}.

Definition block_default : WorldBlock := mkBlock 0 0 false (-1) EmptyString [] false 0 0 0 0.

(** [World world_;] *)
Definition world_default : World :=
  mkWorld EmptyString EmptyString [] 0 0 0 0 0 false [] [].

(** [world_->blocks[i]]: [None] outside the vector. *)
Definition block_at (w : World) (i : Z) : option WorldBlock :=
  if i <? 0 then None else blocks w !! Z.to_nat i.

(** [find_if(worlds.begin(), worlds.end(), a.name == name_)]. *)
Fixpoint world_named (name_ : string) (ws : list World) : option World :=
  match ws with
  | [] => None
  | w :: ws => if String.eqb (name w) name_ then Some w else world_named name_ ws
  end.

(** ** The cache of indices *)

Abbreviation index := (gmap string nat).

(** [register_world_idx], after a [push_back]. *)
Definition register_world_idx (name_ : string) (ws : list World) (idx : index) : index :=
  match ws with
  | [] => idx
  | _ => <[name_ := (length ws - 1)%nat]> idx
  end.

Definition worlds_push_safe (w : World) (ws : list World) (idx : index) : list World * index :=
  let ws := ws ++ [w] in (ws, register_world_idx (name w) ws idx).

(** The linear search. *)
Fixpoint first_world (name_ : string) (i : nat) (ws : list World) : option nat :=
  match ws with
  | [] => None
  | w :: ws => if iequals (name w) name_ then Some i else first_world name_ (S i) ws
  end.

(** The index of the world found, and the cache. *)
Definition find_world (name_ : string) (ws : list World) (idx : index) : option nat * index :=
  if is_empty name_ then (None, idx)
  else
    let search :=
      match first_world name_ 0 ws with
      | Some i => (Some i, <[name_ := i]> idx)
      | None => (None, delete name_ idx)
      end in
    match idx !! name_ with
    | Some i =>
        match ws !! i with
        | Some w => if iequals (name w) name_ then (Some i, idx) else search
        | None => search
        end
    | None => search
    end.

(** ** Old drops *)

Definition SECONDS_60_DAYS : Z := 60 * 86400.
Definition MAX_WORLD_DROPS : nat := 500.

Definition drop_old (now : Z) (it : list Z) : bool :=
  match it !! 5%nat with
  | Some drop_time => (0 <? drop_time) && (SECONDS_60_DAYS <=? now - drop_time)
  | None => false
  end.

Definition set_drops (ds : list (list Z)) (w : World) : World :=
  mkWorld (name w) (owner_name w) (admins w) (world_settings w) (guild_id w) (max_x w) (max_y w)
    (weather w) (fresh_world w) (blocks w) ds.

Definition AutoClearOldWorldDrops (now : Z) (w : World) : World :=
  let ds := filter (λ it, drop_old now it = false) (drop_new w) in
  let ds := if (MAX_WORLD_DROPS <? length ds)%nat
            then drop (length ds - MAX_WORLD_DROPS) ds else ds in
  set_drops ds w.

(** ** New worlds *)

Section Create.
Context (rand : nat -> Z).

Definition ground (fg bg : Z) : WorldBlock :=
  mkBlock fg bg false (-1) EmptyString [] false 0 0 0 0.

(** The block of [index], and the number of draws. *)
Definition new_block (width height main_door_x index : Z) (k : nat) : WorldBlock * nat :=
  let x := index mod width in
  let y := index / width in
  let bg_value := 14 in
  if height / 2 <=? y then
    if height - 6 <=? y then (ground 8 bg_value, k)
    else if (y =? height / 2) && (x =? main_door_x) then (ground 8 bg_value, k)
    else if (y <=? height - 6) && (height - 10 <=? y) then
      let rnd := rand k mod 76 in
      (ground (if 20 <? rnd then 2 else if 4 <? rnd then 4 else 10) bg_value, S k)
    else if height / 2 + 2 <=? y then
      (ground (if 1 <? rand k mod 51 then 2 else 10) bg_value, S k)
    else (ground 2 bg_value, k)
  else if (y =? height / 2 - 1) && (x =? main_door_x) then (ground 6 bg_value, k)
  else (ground 0 0, k).

(** [n] blocks from [index] on. *)
Fixpoint new_blocks (width height main_door_x index : Z) (n k : nat) : list WorldBlock :=
  match n with
  | O => []
  | S n =>
      let '(b, k) := new_block width height main_door_x index k in
      b :: new_blocks width height main_door_x (index + 1) n k
  end.

(** [create_world(World*, width, height)]; the version with a name fills a
    new world the same way and pushes it. *)
Definition create_world (w : World) (width height : Z) : World :=
  let width := if 255 <? width then 255 else width in
  let width := if width <? 30 then 30 else width in
  let height := if 255 <? height then 255 else height in
  let height := if height <? 30 then 30 else height in
  let size := width * height in
  let main_door_x := rand 0%nat mod (width - 4) + 2 in
  mkWorld (name w) (owner_name w) (admins w) (world_settings w) (guild_id w) width height
    (weather w) true (new_blocks width height main_door_x 0 (Z.to_nat size) 1) (drop_new w).

Definition create_named_world (name_ : string) (width height : Z) (ws : list World) (idx : index)
    : World * list World * index :=
  let w := create_world (mkWorld name_ EmptyString [] 0 0 0 0 0 true [] []) width height in
  let '(ws, idx) := worlds_push_safe w ws idx in (w, ws, idx).

(** [WorldDefault] *)
Record defaults := mkDefaults { d_weather : Z; d_rock : Z; d_lava : Z; d_fg : Z; d_bg : Z }.

(** The block [i_] of a world of the usual size. *)
Definition classic_block (df : defaults) (d_ i_ : Z) (k : nat) : WorldBlock * nat :=
  let rocky := (3800 <=? i_) && (i_ <? 5400) in
  let k1 := if rocky then S k else k in
  let '(f, k2) :=
    if rocky && (rand k mod 50 =? 0) then (d_rock df, k1)
    else if (3700 <=? i_) && (i_ <? 5400) then
      if 5000 <? i_ then ((if rand k1 mod 8 <? 3 then d_lava df else d_fg df), S k1)
      else (d_fg df, k1)
    else if 5400 <=? i_ then (8, k1)
    else (0, k1) in
  let f := if i_ =? 3600 + d_ then 6 else f in
  let f := if i_ =? 3700 + d_ then 8 else f in
  (ground f (if 3700 <=? i_ then d_bg df else 0), k2).

Fixpoint classic_blocks (df : defaults) (d_ i_ : Z) (n k : nat) : list WorldBlock :=
  match n with
  | O => []
  | S n =>
      let '(b, k) := classic_block df d_ i_ k in b :: classic_blocks df d_ (i_ + 1) n k
  end.

(** [create_world(name_, s_)]: [None] for the division by zero of fewer
    than 100 blocks. *)
Definition create_classic_world (df : defaults) (name_ : string) (s_ : Z) : option World :=
  if s_ <? 100 then None
  else
    let d_ := rand 0%nat mod (s_ / (s_ / 100) - 4) + 2 in
    let bs := classic_blocks df d_ 0 (Z.to_nat s_) 1 in
    let size := Z.of_nat (length bs) in
    let max_y := size / 100 in
    Some (mkWorld name_ EmptyString [] 0 0 (size / max_y) max_y (d_weather df) true bs []).

End Create.

(** ** What the functions do *)

(** No two worlds have names that differ in case only. *)
Definition names_distinct (ws : list World) : Prop :=
  forall i j v w, ws !! i = Some v -> ws !! j = Some w -> iequals (name v) (name w) = true -> i = j.

Lemma first_world_Some name_ ws : forall k i,
  first_world name_ k ws = Some i ->
  (k <= i)%nat /\ exists w, ws !! (i - k)%nat = Some w /\ iequals (name w) name_ = true.
Proof.
  induction ws as [|w ws IH]; intros k i; cbn; [done|].
  destruct (iequals (name w) name_) eqn:E.
  - intros [= <-]. rewrite Nat.sub_diag. split; [lia|]. by exists w.
  - intros (Hk & v & Hv & Hn)%IH. split; [lia|]. exists v.
    replace (i - k)%nat with (S (i - S k)) by lia. done.
Qed.

Lemma first_world_None name_ ws : forall k,
  first_world name_ k ws = None -> forall i w, ws !! i = Some w -> iequals (name w) name_ = false.
Proof.
  induction ws as [|v ws IH]; intros k; cbn; [done|].
  destruct (iequals (name v) name_) eqn:E; [done|]. intros H [|i] w; cbn.
  - by intros [= <-].
  - by eapply IH.
Qed.

Lemma find_world_cases name_ ws idx :
  is_empty name_ = false -> names_distinct ws ->
  (find_world name_ ws idx).1 = first_world name_ 0 ws.
Proof.
  intros Hn Hd. unfold find_world. rewrite Hn.
  assert ((match first_world name_ 0 ws with
           | Some i => (Some i, <[name_ := i]> idx)
           | None => (None, delete name_ idx) end).1 = first_world name_ 0 ws) as Hs
    by by destruct (first_world name_ 0 ws).
  destruct (idx !! name_) as [i|]; [|done]. destruct (ws !! i) as [w|] eqn:Ei; [|done].
  destruct (iequals (name w) name_) eqn:E; [|done]. cbn.
  destruct (first_world name_ 0 ws) as [j|] eqn:Ej.
  - apply first_world_Some in Ej as (_ & v & Hv & Hvn). rewrite Nat.sub_0_r in Hv.
    f_equal. apply (Hd i j w v Ei Hv). eapply iequals_trans; [exact E|]. by apply iequals_sym.
  - rewrite (first_world_None name_ ws 0 Ej i w Ei) in E. done.
Qed.

(** The cache of world indices is transparent. Whatever it holds, stale
    entries included, [find_world] finds the world the linear search finds,
    as long as no two worlds have names that differ in case only. *)
Theorem find_world_transparent name_ ws idx :
  names_distinct ws ->
  (find_world name_ ws idx).1 = if is_empty name_ then None else first_world name_ 0 ws.
Proof.
  intros Hd. destruct (is_empty name_) eqn:E; [|by apply find_world_cases].
  unfold find_world. by rewrite E.
Qed.

Definition demo_worlds : list World :=
  [create_world (λ _, 7) world_default 30 30;
   mkWorld "START" "ann" [] 0 0 100 60 0 false [] []; mkWorld "TRADE" "" [] 0 0 100 60 0 false [] []].

Lemma find_world_transparent_witness :
  (find_world "trade" demo_worlds {["trade" := 1%nat]}).1 = Some 2%nat.
Proof.
  rewrite (find_world_transparent "trade" demo_worlds {["trade" := 1%nat]}); [reflexivity|].
  intros [|[|[|i]]] [|[|[|j]]] v w; cbn; intros; simplify_eq; try reflexivity;
    match goal with H : iequals _ _ = true |- _ => vm_compute in H; discriminate H end.
Defined.

(** The sweep keeps at most 500 drops, the last of those that are not old. *)
Lemma AutoClear_bound now w :
  (length (drop_new (AutoClearOldWorldDrops now w)) <= MAX_WORLD_DROPS)%nat.
Proof.
  unfold AutoClearOldWorldDrops. cbn [drop_new set_drops]. case_match eqn:E.
  - rewrite length_drop. apply Nat.ltb_lt in E. lia.
  - apply Nat.ltb_ge in E. exact E.
Qed.

(** ** The shape of a new world *)

Section Shape.
Context (rand : nat -> Z).

Lemma new_blocks_length width height door n : forall index k,
  length (new_blocks rand width height door index n k) = n.
Proof.
  induction n as [|n IH]; intros index k; cbn [new_blocks]; [done|].
  destruct (new_block _ _ _ _ _ _) as [b k']. cbn. by rewrite IH.
Qed.

Lemma new_blocks_lookup width height door n : forall index k i,
  (i < n)%nat -> exists k',
  new_blocks rand width height door index n k !! i
  = Some (new_block rand width height door (index + Z.of_nat i) k').1.
Proof.
  induction n as [|n IH]; intros index k i Hi; [lia|]. cbn [new_blocks].
  destruct (new_block rand width height door index k) as [b k1] eqn:E. destruct i as [|i].
  - exists k. cbn. by rewrite Z.add_0_r, E.
  - destruct (IH (index + 1) k1 i ltac:(lia)) as [k' H]. exists k'. cbn [fst]. rewrite lookup_cons.
    rewrite H. do 3 f_equal. lia.
Qed.

Lemma classic_blocks_lookup df d_ n : forall i_ k i,
  (i < n)%nat -> exists k',
  classic_blocks rand df d_ i_ n k !! i
  = Some (classic_block rand df d_ (i_ + Z.of_nat i) k').1.
Proof.
  induction n as [|n IH]; intros i_ k i Hi; [lia|]. cbn [classic_blocks].
  destruct (classic_block rand df d_ i_ k) as [b k1] eqn:E. destruct i as [|i].
  - exists k. cbn. by rewrite Z.add_0_r, E.
  - destruct (IH (i_ + 1) k1 i ltac:(lia)) as [k' H]. exists k'. cbn [fst]. rewrite lookup_cons.
    rewrite H. do 3 f_equal. lia.
Qed.

Lemma classic_blocks_length df d_ n : forall i_ k,
  length (classic_blocks rand df d_ i_ n k) = n.
Proof.
  induction n as [|n IH]; intros i_ k; cbn [classic_blocks]; [done|].
  destruct (classic_block _ _ _ _ _) as [b k']. cbn. by rewrite IH.
Qed.

(** Rows and columns of an index. *)
Lemma index_row width x y : 0 <= x < width -> (x + y * width) / width = y.
Proof. intros H. rewrite Z.div_add by lia. rewrite Z.div_small by lia. lia. Qed.

Lemma index_column width x y : 0 <= x < width -> (x + y * width) mod width = x.
Proof. intros H. rewrite Z.mod_add by lia. by apply Z.mod_small. Qed.

(** What the block at column [x] and row [y] may be: [8] is bedrock, [6] the
    main door, [2], [4] and [10] are dirt, lava and rock. *)
Definition block_allowed (height door x y fg : Z) : Prop :=
  if height - 6 <=? y then fg = 8
  else if height / 2 <=? y then
    if (y =? height / 2) && (x =? door) then fg = 8
    else fg = 2 \/ (fg = 4 /\ height - 10 <= y) \/ (fg = 10 /\ height / 2 + 2 <= y)
  else if (y =? height / 2 - 1) && (x =? door) then fg = 6
  else fg = 0.

Lemma new_block_allowed width height door x y k :
  30 <= height -> 0 <= x < width ->
  let b := (new_block rand width height door (x + y * width) k).1 in
  block_allowed height door x y (fg b) /\ bg b = if fg b =? 0 then 0 else 14.
Proof.
  intros Hh Hx b. subst b. unfold new_block.
  rewrite index_row, index_column by done.
  assert (height / 2 + 2 <= height - 10 /\ height / 2 <= height - 6) as [H1 H2].
  { pose proof (Z.div_lt_upper_bound height 2 (height - 11)). lia. }
  unfold block_allowed. repeat case_match; cbn [fst fg bg ground]; split; try done; try lia;
    repeat match goal with H : (_ && _)%bool = _ |- _ => revert H end; intros; try lia.
Qed.

Lemma block_allowed_door height door x y fg :
  30 <= height -> block_allowed height door x y fg ->
  (fg = 6 <-> x = door /\ y = height / 2 - 1).
Proof.
  intros Hh. unfold block_allowed.
  assert (height / 2 <= height - 6) as Hm by (pose proof (Z.div_lt_upper_bound height 2 (height - 5)); lia).
  generalize dependent (height / 2). intros m Hm.
  destruct (Z.leb_spec (height - 6) y); [lia|]. destruct (Z.leb_spec m y).
  - case_match; intuition lia.
  - case_match eqn:E; [apply andb_true_iff in E|apply andb_false_iff in E]; intuition lia.
Qed.

(** A new world is as wide and as high as asked, between 30 and 255 each
    way, with a block for every tile.  There is one column, at least two
    tiles from the left and three from the right edge, whose door stands
    right above the middle row with bedrock under it; above the middle there
    is nothing else, the last six rows are bedrock, lava is found in the rows
    [height - 10] to [height - 7] only, and rock not in the first two rows
    of ground. *)
Theorem create_world_shape w width height :
  let r := create_world rand w width height in
  max_x r = Z.max 30 (Z.min width 255) /\ max_y r = Z.max 30 (Z.min height 255)
  /\ Z.of_nat (length (blocks r)) = max_x r * max_y r
  /\ name r = name w /\ fresh_world r = true
  /\ exists door, 2 <= door <= max_x r - 3
     /\ forall x y, 0 <= x < max_x r -> 0 <= y < max_y r ->
        exists b, block_at r (x + y * max_x r) = Some b
                  /\ block_allowed (max_y r) door x y (fg b)
                  /\ bg b = (if fg b =? 0 then 0 else 14)
                  /\ (fg b = 6 <-> x = door /\ y = max_y r / 2 - 1).
Proof.
  unfold create_world.
  set (wd := if (if 255 <? width then 255 else width) <? 30 then 30
             else if 255 <? width then 255 else width).
  set (ht := if (if 255 <? height then 255 else height) <? 30 then 30
             else if 255 <? height then 255 else height).
  cbn [max_x max_y blocks name fresh_world].
  assert (wd = Z.max 30 (Z.min width 255) /\ ht = Z.max 30 (Z.min height 255)) as [Ew Eh].
  { subst wd ht. repeat case_match; lia. }
  clearbody wd ht. rewrite new_blocks_length, Z2Nat.id by nia. do 5 (split; [done || lia|]).
  exists (rand 0%nat mod (wd - 4) + 2). split.
  { pose proof (Z.mod_pos_bound (rand 0%nat) (wd - 4)). lia. }
  intros x y Hx Hy. set (door := rand 0%nat mod (wd - 4) + 2).
  destruct (new_blocks_lookup wd ht door (Z.to_nat (wd * ht)) 0 1 (Z.to_nat (x + y * wd))) as [k Hk].
  { nia. }
  rewrite Z.add_0_l, Z2Nat.id in Hk by nia.
  eexists. split; [|split; [|split]].
  - unfold block_at. cbn [blocks]. replace (x + y * wd <? 0) with false by nia. exact Hk.
  - by apply new_block_allowed; [lia|].
  - by apply new_block_allowed; [lia|].
  - pose proof (proj1 (new_block_allowed wd ht door x y k ltac:(lia) Hx)) as Ha.
    exact (block_allowed_door ht door x y _ ltac:(lia) Ha).
Qed.

(** What the block [i_] of a world of the usual size may be. *)
Definition classic_allowed (df : defaults) (d_ i_ fg : Z) : Prop :=
  if i_ =? 3600 + d_ then fg = 6
  else if (5400 <=? i_) || (i_ =? 3700 + d_) then fg = 8
  else if i_ <? 3700 then fg = 0
  else fg = d_fg df \/ (fg = d_rock df /\ 3800 <= i_) \/ (fg = d_lava df /\ 5000 < i_).

Lemma classic_block_allowed df d_ i_ k :
  2 <= d_ <= 97 ->
  let b := (classic_block rand df d_ i_ k).1 in
  classic_allowed df d_ i_ (fg b) /\ bg b = if 3700 <=? i_ then d_bg df else 0.
Proof.
  intros Hd b. subst b. unfold classic_block, classic_allowed.
  repeat case_match; simplify_eq; cbn [fst fg bg ground]; split; try done; try lia.
Qed.

(** The world the server makes for a new name is 100 blocks wide and 60
    high; its main door is in the row above the ground with bedrock under
    it, there is nothing else above the ground, the last six rows are bedrock, rock
    does not come in the first row of ground, and lava only below
    the block 5000. *)
Theorem create_classic_world_shape df name_ :
  exists w d_, create_classic_world rand df name_ 6000 = Some w
  /\ max_x w = 100 /\ max_y w = 60 /\ length (blocks w) = Z.to_nat (100 * 60)
  /\ name w = name_ /\ 2 <= d_ <= 97
  /\ forall i_, 0 <= i_ < 6000 ->
     exists b, block_at w i_ = Some b /\ classic_allowed df d_ i_ (fg b)
               /\ bg b = if 3700 <=? i_ then d_bg df else 0.
Proof.
  unfold create_classic_world. cbn [Z.ltb Z.compare Pos.compare Pos.compare_cont].
  change (6000 / (6000 / 100) - 4) with 96. change (Z.of_nat (Z.to_nat 6000)) with 6000.
  rewrite classic_blocks_length, Z2Nat.id by lia. change (6000 / 100) with 60. change (6000 / 60) with 100.
  eexists _, _. split; [reflexivity|]. cbn [max_x max_y blocks name].
  rewrite classic_blocks_length.
  assert (2 <= rand 0%nat mod 96 + 2 <= 97) as Hd.
  { pose proof (Z.mod_pos_bound (rand 0%nat) 96 ltac:(lia)). lia. }
  do 5 (split; [done|]). intros i_ Hi.
  destruct (classic_blocks_lookup df (rand 0%nat mod 96 + 2) (Z.to_nat 6000) 0 1 (Z.to_nat i_)) as [k Hk].
  { lia. }
  rewrite Z.add_0_l, Z2Nat.id in Hk by lia. eexists. split; [|by apply classic_block_allowed].
  unfold block_at. cbn [blocks]. replace (i_ <? 0) with false by lia. exact Hk.
Qed.

End Shape.

End World.
