(* ===== verification/Texts.v ===== *)
(** * Texts: numbers and fields of the texts of clients

    Models text functions of [src/NopySource/Handle/BaseServer.h] the dialog
    and action handlers share: [explode] for delimiters of any length,
    [get_embed], and [is_number] with the [strtod] of the C library it
    calls. *)
From S2P Require Import Prelude.

Module Texts.

(** ** [explode] and [get_embed] *)

(** The pieces of [str] between the occurrences of a delimiter that is not
    empty; [skip] is what is left of the occurrence just found. *)
Fixpoint pieces (delimiter : string) (skip : nat) (str : string) : list string :=
  match str with
  | EmptyString => [EmptyString]
  | String c str' =>
      match skip with
      | S skip => pieces delimiter skip str'
      | O =>
          if starts_with delimiter str
          then EmptyString :: pieces delimiter (String.length delimiter - 1) str'
          else match pieces delimiter 0 str' with
               | p :: ps => String c p :: ps
               | [] => [str1 c]
               end
      end
  end.

Definition explode (delimiter str : string) : list string :=
  if is_empty delimiter then []
  else if negb (str_contains delimiter str) && negb (String.eqb delimiter endl) &&
          negb (String.eqb delimiter ",")
  then replicate 30 EmptyString
  else pieces delimiter 0 str.

(** [None] where a vector is read outside of its elements. *)
Definition get_embed (cch name : string) : option string :=
  t ← explode (name +:+ "|") cch !! 1%nat;
  explode "|" t !! 0%nat.

(** ** [strtod] *)

Inductive number :=
| NFinite (negative : bool) (mantissa base exponent : Z)   (* mantissa * base ^ exponent *)
| NInfinity (negative : bool)
| NNan.

Definition hex_value (c : ascii) : option Z :=
  let n := char_code c in
  if (48 <=? n) && (n <=? 57) then Some (n - 48)
  else if (65 <=? n) && (n <=? 70) then Some (n - 55)
  else if (97 <=? n) && (n <=? 102) then Some (n - 87)
  else None.

Definition dec_value (c : ascii) : option Z :=
  if is_digit c then Some (char_code c - 48) else None.

(** The leading digits: their value after [acc], their number after [n],
    and the rest. *)
Fixpoint digits (value : ascii -> option Z) (base acc n : Z) (s : string) : Z * Z * string :=
  match s with
  | String c s' =>
      match value c with
      | Some d => digits value base (base * acc + d) (n + 1) s'
      | None => (acc, n, s)
      end
  | EmptyString => (acc, n, s)
  end.

(** Digits with a point among them: the mantissa, the number of digits, how
    many of them follow the point, and the rest. *)
Definition point_digits (value : ascii -> option Z) (base : Z) (s : string) : Z * Z * Z * string :=
  let '(m, n, s1) := digits value base 0 0 s in
  match s1 with
  | String c s2 =>
      if char_code c =? 46 then
        let '(m, n', s3) := digits value base m n s2 in (m, n', n' - n, s3)
      else (m, n, 0, s1)
  | EmptyString => (m, n, 0, s1)
  end.

(** An exponent after the letter [e]; without digits it is not part of the
    number. *)
Definition exponent (e : Z) (s : string) : Z * string :=
  match s with
  | String c s1 =>
      if char_code (tolower c) =? e then
        let '(sign, s2) :=
          match s1 with
          | String d s2 => if char_code d =? 45 then (-1, s2)
                           else if char_code d =? 43 then (1, s2) else (1, s1)
          | EmptyString => (1, s1)
          end in
        let '(v, n, s3) := digits dec_value 10 0 0 s2 in
        if n =? 0 then (0, s) else (sign * v, s3)
      else (0, s)
  | EmptyString => (0, s)
  end.

Definition decimal (negative : bool) (s : string) : option (number * string) :=
  let '(m, n, frac, s1) := point_digits dec_value 10 s in
  if n =? 0 then None
  else let '(e, s2) := exponent 101 s1 in Some (NFinite negative m 10 (e - frac), s2).

Definition hexadecimal (negative : bool) (s : string) : option (number * string) :=
  let '(m, n, frac, s1) := point_digits hex_value 16 s in
  if n =? 0 then None
  else let '(e, s2) := exponent 112 s1 in Some (NFinite negative m 2 (e - 4 * frac), s2).

Definition word_char (c : ascii) : bool :=
  let n := char_code (tolower c) in is_digit c || ((97 <=? n) && (n <=? 122)) || (n =? 95).

(** The text in brackets after [nan], if it is closed. *)
Fixpoint closing (s : string) : option string :=
  match s with
  | String c s => if char_code c =? 41 then Some s else if word_char c then closing s else None
  | EmptyString => None
  end.

(** [strtod(s, &end)]: the number and the text at [end]; [None] when there
    is no number and [end] is [s]. *)
Definition strtod (s : string) : option (number * string) :=
  let s := drop_spaces s in
  let '(negative, s) :=
    match s with
    | String c s' => if char_code c =? 45 then (true, s')
                     else if char_code c =? 43 then (false, s') else (false, s)
    | EmptyString => (false, s)
    end in
  let lower := map_string tolower s in
  if starts_with "infinity" lower then Some (NInfinity negative, drop_str 8 s)
  else if starts_with "inf" lower then Some (NInfinity negative, drop_str 3 s)
  else if starts_with "nan" lower then
    Some (NNan, match drop_str 3 s with
                | String c s' as rest =>
                    if char_code c =? 40 then default rest (closing s') else rest
                | rest => rest
                end)
  else if starts_with "0x" lower then
    match hexadecimal negative (drop_str 2 s) with
    | Some r => Some r
    | None => decimal negative s
    end
  else decimal negative s.

(** The double nearest to the number is [HUGE_VAL]. *)
Definition huge (x : number) : bool :=
  match x with
  | NFinite negative m b e =>
      let limit := 2 ^ 1024 - 2 ^ 970 in
      negb negative && negb (m =? 0) &&
      (if 0 <=? e then limit <=? m * b ^ e else limit * b ^ (- e) <=? m)
  | NInfinity negative => negb negative
  | NNan => false
  end.

Definition is_number (s : string) : bool :=
  match strtod s with
  | Some (val, rest) =>
      match rest with
      | EmptyString => negb (huge val)
      | String c _ => (char_code c =? 0) && negb (huge val)
      end
  | None => false
  end.

Example is_number_examples :
  (is_number "12", is_number "-5", is_number " 1e3", is_number "0x1F", is_number "nan",
   is_number "inf", is_number "1e400", is_number "12a", is_number "", is_number ".")
  = (true, true, true, true, true, false, false, false, false, false).
Proof. by vm_compute. Qed.

Example get_embed_examples :
  (get_embed "dialog_name|trade_item
itemID|242|
count|5" "itemID", get_embed "nothing" "itemID") = (Some "242"%string, Some EmptyString).
Proof. by vm_compute. Qed.

End Texts.
