(* ===== verification/Guild.v ===== *)
(** * Guild: members, ranks and levels of guilds

    Models the guilds of the server: the records, [guild_access],
    [create_guild_log] and [save_guilds] of [src/NopySource/Handle/GuildInfo.h],
    [leave_guild], [transfer_world] (without the list of worlds of a player
    and the coloured name of an owner) and the guild part of [add_peer_xp] of
    [src/NopySource/Handle/WorldInfo.h], and the dialogs that create a guild
    ([confirmguild]), invite ([invitetoguild]) and accept a member
    ([acceptguild]), change ranks ([guild_member_role_change]), remove a member
    ([guild_member_remove]) and raise the level ([upgrade_guild]) of
    [src/NopySource/Dialog/dialog_return.h].

    Messages that only show what happened are left out; gems are paid with
    [Messages].  [None] is an access outside a vector or a division by zero. *)
From S2P Require Import Prelude Items Inventory Scanner Texts Messages World.
Import Items.

Module Guild.

(** ** The records *)

Record GuildMember := mkMember {
  role_id : Z;                 (* 0 member, 1 elder, 2 co-leader, 3 leader *)
  member_name : string;
  display_name : string;
  last_online : Z;
  public_location : bool;
  show_notifications : bool
}.

Record GuildLog := mkLog { info : string; display_id : Z; date : Z }.

Record Guild := mkGuild {
  guild_id : Z;
  guild_xp : Z;
  guild_settings : Z;
  guild_name : string;
  guild_world : string;
  guild_level : Z;
  guild_notebook : string;
  unlocked_mascot : bool;
  guild_description : string;
  guild_logs : list GuildLog;
  guild_members : list GuildMember;
  guild_mascot : list Z
}.

(** A connected player. *)
Record Member := mkPeer {
  tankIDName : string;
  my_guild : Z;                (* [pInfo(peer)->guild_id] *)
  pending_guild : Z;
  last_wrenched : string;
  account : Messages.Player    (* world, net id, gems, supporter level *)
}.

(** [server->peers] and the vectors of guilds and worlds. *)
Record State := mkState {
  guilds : list Guild;
  peers : list (option Member);
  worlds : list World.World
}.

Inductive effect :=
| EAccount (i : nat) (es : list Messages.effect)  (* gems of peer [i] *)
| ESave (g : Guild)                               (* the file of the guild *)
| ESavePlayer (i : nat)                           (* the file of peer [i] *)
| EOffline (name : string).                       (* [guild_id] is 0 in that player's file *)

Definition guild_lvl : list (Z * Z) :=
  [(405000, 100000); (1215000, 125000); (2430000, 150000); (4050000, 200000); (7290000, 250000);
   (11430000, 300000); (16200000, 350000); (21870000, 400000); (28350000, 500000);
   (38700000, 600000); (48600000, 700000); (60547500, 800000); (73710000, 900000);
   (91125000, 1000000); (111702500, 1100000); (139695000, 1200000); (168265000, 1300000);
   (184827500, 1400000); (279960000, 1500000); (351655000, 1600000); (411655000, 1700000);
   (451655000, 1800000); (511655000, 1900000); (551655000, 2000000); (611655000, 2100000);
   (651655000, 2200000); (711655000, 2300000); (751655000, 2400000); (911655000, 2500000)].

Definition levels : Z := Z.of_nat (length guild_lvl).

(** [guild_lvl[guild_level - 1]] *)
Definition level_row (g : Guild) : option (Z * Z) :=
  if guild_level g <? 1 then None else guild_lvl !! Z.to_nat (guild_level g - 1).

Definition guild_create_gem_requirement : Z := 150000.

(** ** Assignments *)

Definition set_members (ms : list GuildMember) (g : Guild) : Guild :=
  mkGuild (guild_id g) (guild_xp g) (guild_settings g) (guild_name g) (guild_world g)
    (guild_level g) (guild_notebook g) (unlocked_mascot g) (guild_description g) (guild_logs g) ms
    (guild_mascot g).

Definition set_logs (ls : list GuildLog) (g : Guild) : Guild :=
  mkGuild (guild_id g) (guild_xp g) (guild_settings g) (guild_name g) (guild_world g)
    (guild_level g) (guild_notebook g) (unlocked_mascot g) (guild_description g) ls
    (guild_members g) (guild_mascot g).

Definition set_settings (s : Z) (g : Guild) : Guild :=
  mkGuild (guild_id g) (guild_xp g) s (guild_name g) (guild_world g) (guild_level g)
    (guild_notebook g) (unlocked_mascot g) (guild_description g) (guild_logs g) (guild_members g)
    (guild_mascot g).

Definition set_level_xp (l xp : Z) (g : Guild) : Guild :=
  mkGuild (guild_id g) xp (guild_settings g) (guild_name g) (guild_world g) l (guild_notebook g)
    (unlocked_mascot g) (guild_description g) (guild_logs g) (guild_members g) (guild_mascot g).

Definition set_role (r : Z) (m : GuildMember) : GuildMember :=
  mkMember r (member_name m) (display_name m) (last_online m) (public_location m)
    (show_notifications m).

Definition set_guild (id : Z) (p : Member) : Member :=
  mkPeer (tankIDName p) id (pending_guild p) (last_wrenched p) (account p).
Definition set_pending (id : Z) (p : Member) : Member :=
  mkPeer (tankIDName p) (my_guild p) id (last_wrenched p) (account p).
Definition set_account (a : Messages.Player) (p : Member) : Member :=
  mkPeer (tankIDName p) (my_guild p) (pending_guild p) (last_wrenched p) a.

Definition new_member (name : string) (role now : Z) : GuildMember :=
  mkMember role name "" now true true.

(** [Guild new_guild{}] *)
Definition guild_default : Guild := mkGuild 0 0 0 "" "" 1 "" true "" [] [] [0; 0].

(** ** Look-ups *)

Definition peer (s : State) (i : nat) : option Member := mjoin (peers s !! i).

Definition on_peer (i : nat) (f : Member -> Member) (s : State) : State :=
  match peer s i with
  | Some p => mkState (guilds s) (<[i := Some (f p)]> (peers s)) (worlds s)
  | None => s
  end.

(** [find_if] over the guilds, by id. *)
Fixpoint find_guild (id : Z) (gs : list Guild) : option nat :=
  match gs with
  | [] => None
  | g :: gs => if u32 (guild_id g) =? u32 id then Some 0%nat else S <$> find_guild id gs
  end.

Definition on_guild (k : nat) (f : Guild -> Guild) (s : State) : State :=
  mkState (alter f k (guilds s)) (peers s) (worlds s).

Definition same_name (a b : string) : bool := String.eqb (World.to_lower a) (World.to_lower b).

Definition is_named (name : string) (m : GuildMember) : bool := same_name (member_name m) name.

(** The rank of a player: of the first member of that name, or of the last. *)
Fixpoint first_rank (name : string) (ms : list GuildMember) : Z :=
  match ms with
  | [] => 0
  | m :: ms => if is_named name m then role_id m else first_rank name ms
  end.

Definition last_rank (name : string) (ms : list GuildMember) : Z := first_rank name (rev ms).

Definition flag_set (g : Guild) (n : Z) : bool := Z.testbit (guild_settings g) n.

(** [SETTINGS_0] marks a guild that has to be saved. *)
Definition touch (g : Guild) : Guild :=
  set_settings (Z.lor (Z.land (guild_settings g) (Z.lnot 1)) 1) g.

(** ** [guild_access] *)

Definition guild_access (gs : list Guild) (p : Member) (id : Z) : bool :=
  if (id =? 0) || (my_guild p =? 0) || negb (u32 (my_guild p) =? u32 id) then false
  else
    match k ← find_guild id gs; gs !! k with
    | Some g =>
        let my_rank := first_rank (tankIDName p) (guild_members g) in
        if my_rank =? 3 then false
        else flag_set g 1 || (flag_set g 2 && (1 <=? my_rank) && negb (my_rank =? 3)) ||
             (flag_set g 3 && (my_rank =? 2))
    | None => false
    end.

(** ** [create_guild_log] and [save_guilds] *)

Definition create_guild_log (log_text : string) (log_display now : Z) (g : Guild) : Guild :=
  let logs := guild_logs g ++ [mkLog log_text (u16 log_display) now] in
  set_logs (if (10 <? length logs)%nat then drop 1 logs else logs) (touch g).

(** The loop works on copies: the files have the mark cleared, the guilds in
    memory keep it. *)
Definition save_guilds (gs : list Guild) : list effect :=
  (λ g, ESave (set_settings (Z.land (guild_settings g) (Z.lnot 1)) g)) <$>
    filter (λ g, flag_set g 0 = true) gs.

(** ** Joining *)

Definition capacity (g : Guild) : Z := guild_level g * 5.

Definition full (g : Guild) : bool := capacity g <=? Z.of_nat (length (guild_members g)).

(** The first peer in the world of [p] with the net id. *)
Fixpoint find_other (p : Member) (netid : Z) (k : nat) (ps : list (option Member)) : option nat :=
  match ps with
  | [] => None
  | Some c :: ps =>
      if String.eqb (Messages.world (account p)) (Messages.world (account c)) &&
         (Messages.netID (account c) =? netid)
      then Some k else find_other p netid (S k) ps
  | None :: ps => find_other p netid (S k) ps
  end.

(** Whether a member of that name may invite. *)
Definition may_invite (name : string) (ms : list GuildMember) : bool :=
  existsb (λ m, is_named name m && (1 <=? role_id m) && (role_id m <=? 3)) ms.

Section Operations.
Context (items : table) (to_float : Z -> Z) (now : Z).

(** [get_player_nick], a text. *)
Context (nick : Member -> string).

(** The button [invitetoguild]. *)
Definition invitetoguild (i : nat) (other_netid_ : Z) (s : State) : State :=
  match peer s i with
  | None => s
  | Some p =>
      if (my_guild p =? 0) || same_name (tankIDName p) (last_wrenched p) then s
      else
        match k ← find_guild (my_guild p) (guilds s); (k,.) <$> guilds s !! k with
        | Some (k, g) =>
            if negb (may_invite (tankIDName p) (guild_members g)) then s
            else
              match j ← find_other p other_netid_ 0 (peers s); (j,.) <$> peer s j with
              | Some (j, c) =>
                  if negb (my_guild c =? 0) || full g then s
                  else
                    on_guild k (create_guild_log
                      (cat ["`$"; tankIDName c; "`` `wwas invited by`` `$"; nick p; "``"]) 6 now)
                      (on_peer j (set_pending (my_guild p)) s)
              | None => s
              end
        | None => s
        end
  end.

(** The size of a world is divided by its rows. *)
Definition has_rows (w : World.World) : bool := (100 <=? length (World.blocks w))%nat.

(** The button [acceptguild]. *)
Definition acceptguild (i : nat) (s : State) : option State :=
  match peer s i with
  | None => Some s
  | Some p =>
      if (pending_guild p =? 0) || negb (my_guild p =? 0) then Some s
      else
        match World.world_named (Messages.world (account p)) (worlds s),
              k ← find_guild (pending_guild p) (guilds s); (k,.) <$> guilds s !! k with
        | Some w, Some (k, g) =>
            if full g then Some s
            else
              let m := new_member (tankIDName p) 0 now in
              let join g := touch (set_members (guild_members g ++ [m]) g) in
              let s := on_guild k join (on_peer i (λ p, set_pending 0 (set_guild (guild_id g) p)) s) in
              let home := String.eqb (Messages.world (account p)) (guild_world g) &&
                          guild_access (guilds s) (set_guild (guild_id g) p) (pending_guild p) in
              if home && negb (has_rows w) then None
              else Some (on_guild k (create_guild_log
                     (cat ["`$"; tankIDName p; "`` `wjoined the guild"]) 5948 now) s)
        | _, _ => Some s
        end
  end.

(** ** Ranks: [guild_member_role_change] *)

Definition can_promote (role my_rank : Z) : bool :=
  if role =? 3 then false
  else if (role =? 1) && (my_rank =? 3) then true
  else if (role =? 2) && (my_rank =? 3) then false
  else (2 <=? my_rank) && negb (role =? 2).

Definition can_demote (role my_rank : Z) : bool :=
  negb (role =? 3) && (my_rank =? 3) && ((role =? 1) || (role =? 2)).

Definition rank_name (role : Z) : string :=
  if role =? 3 then "Leader" else if role =? 2 then "Co-Leader"
  else if role =? 1 then "Elder" else "Member".

(** The new role of a member: [None] if it stays. *)
Definition changed_role (promote : bool) (role my_rank : Z) : option Z :=
  if promote then (if can_promote role my_rank then Some (u8 (role + 1)) else None)
  else if can_demote role my_rank then Some (u8 (role - 1)) else None.

Definition role_log (promote : bool) (actor target : string) (role : Z) : Guild -> Guild :=
  if promote
  then create_guild_log (cat ["`$"; actor; "`` `2promoted `$"; target; "`` `oto "; rank_name role]) 484 now
  else create_guild_log (cat ["`$"; actor; "`` `4demoted `$"; target; "`` `oto "; rank_name role]) 486 now.

(** The loop over the members, from [i_] on. *)
Fixpoint change_roles (promote : bool) (actor target : string) (my_rank : Z) (ms : list GuildMember)
    : list GuildMember * list Z :=
  match ms with
  | [] => ([], [])
  | m :: ms =>
      let '(ms, changes) := change_roles promote actor target my_rank ms in
      if is_named target m then
        match changed_role promote (role_id m) my_rank with
        | Some r => (set_role r m :: ms, r :: changes)
        | None => (m :: ms, changes)
        end
      else (m :: ms, changes)
  end.

Definition guild_member_role_change (i : nat) (promote : bool) (target : string) (s : State) : State :=
  match p ← peer s i; k ← find_guild (my_guild p) (guilds s); g ← guilds s !! k; Some (p, k, g) with
  | Some (p, k, g) =>
      let my_rank := last_rank (tankIDName p) (guild_members g) in
      let '(ms, changes) :=
        change_roles promote (tankIDName p) target my_rank (guild_members g) in
      on_guild k (λ g,
        fold_left (λ g r, role_log promote (tankIDName p) target r g) changes (set_members ms g)) s
  | None => s
  end.

(** ** Removal: [guild_member_remove] *)

Fixpoint find_member (name : string) (ms : list GuildMember) : option nat :=
  match ms with
  | [] => None
  | m :: ms => if is_named name m then Some 0%nat else S <$> find_member name ms
  end.

(** Connected players of that name are without a guild. *)
Definition expel (name : string) (p : Member) : Member :=
  if same_name (tankIDName p) name then set_guild 0 p else p.

Definition guild_member_remove (i : nat) (target : string) (s : State) : State * list effect :=
  match p ← peer s i; k ← find_guild (my_guild p) (guilds s); g ← guilds s !! k; Some (p, k, g) with
  | Some (p, k, g) =>
      let my_rank := last_rank (tankIDName p) (guild_members g) in
      match j ← find_member target (guild_members g); (j,.) <$> guild_members g !! j with
      | Some (j, m) =>
          if (1 <=? my_rank) && (role_id m <? my_rank) then
            let on_ := existsb (λ c, match c with Some c => same_name (tankIDName c) target | None => false end)
                         (peers s) in
            let s := mkState (guilds s) (fmap (M:=option) (expel target) <$> peers s) (worlds s) in
            (on_guild k (λ g,
               let g := create_guild_log
                 (cat ["`$"; tankIDName p; "`` `wkicked `$"; target; "`` from the guild"]) 6 now g in
               set_members (delete j (guild_members g)) g) s,
             if on_ then [] else [EOffline target])
          else (s, [])
      | None => (s, [])
      end
  | None => (s, [])
  end.

(** ** Leaving: [leave_guild] *)

(** The loop over the members erases and goes on behind the member that moved
    into the gap; it ends at a leader of the name.  The members left, and how
    many were erased. *)
Fixpoint leave_loop (name : string) (ms : list GuildMember) : list GuildMember * nat :=
  match ms with
  | [] => ([], 0%nat)
  | m :: ms' =>
      if is_named name m then
        if role_id m =? 3 then (ms, 0%nat)
        else match ms' with
             | [] => ([], 1%nat)
             | m2 :: ms2 => let '(l, n) := leave_loop name ms2 in (m2 :: l, S n)
             end
      else let '(l, n) := leave_loop name ms' in (m :: l, n)
  end.

(** A leader leaves last. *)
Definition leader_stays (name : string) (ms : list GuildMember) : bool :=
  existsb (λ m, is_named name m && (role_id m =? 3)) ms && negb (length ms =? 1)%nat.

Definition leave_guild (i : nat) (s : State) : State * list effect :=
  match p ← peer s i; k ← find_guild (my_guild p) (guilds s); g ← guilds s !! k; Some (p, k, g) with
  | Some (p, k, g) =>
      if (my_guild p =? 0) || leader_stays (tankIDName p) (guild_members g) then (s, [])
      else
        let '(ms, n) := leave_loop (tankIDName p) (guild_members g) in
        let log := create_guild_log (cat ["`$"; tankIDName p; "`` `wleft the guild"]) 5948 now in
        (on_guild k (λ g, Nat.iter n log (set_members ms g)) (on_peer i (set_guild 0) s),
         [ESavePlayer i])
  | None => (s, [])
  end.

(** ** A world and its guild change hands: [transfer_world] *)

(** The lock of the world: the loop over the blocks passes the small, big and
    huge lock and 4994 over, not 10000. *)
Definition world_lock (b : World.WorldBlock) : bool :=
  bool_decide (blockType (item items (World.fg b)) = LOCK) &&
  negb (existsb (Z.eqb (World.fg b)) [202; 204; 206; 4994]).

(** The rank of the first member of exactly that name. *)
Fixpoint exact_rank (name : string) (ms : list GuildMember) : Z :=
  match ms with
  | [] => 0
  | m :: ms => if String.eqb (member_name m) name then role_id m else exact_rank name ms
  end.

(** Members of the name of the owner become co-leaders. *)
Definition demote (name : string) (m : GuildMember) : GuildMember :=
  if String.eqb (member_name m) name then set_role 2 m else m.

Definition new_leader (before_name name : string) (g : Guild) : Guild :=
  touch (set_members ((demote before_name <$> guild_members g) ++ [new_member name 3 now]) g).

Definition set_owner_name (name : string) (w : World.World) : World.World :=
  World.mkWorld (World.name w) name (World.admins w) (World.world_settings w) (World.guild_id w)
    (World.max_x w) (World.max_y w) (World.weather w) (World.fresh_world w) (World.blocks w)
    (World.drop_new w).

(** An owner who is neither the giving player nor connected has the world
    taken off the list in the player's file; [file_ok name world] is whether
    that can be done, or there is no such file. *)
Context (file_ok : string -> string -> bool).

Definition owner_told (from : Member) (w : World.World) (s : State) : bool :=
  String.eqb (tankIDName from) (World.owner_name w) ||
  existsb (λ c, match c with Some c => String.eqb (tankIDName c) (World.owner_name w) | None => false end)
    (peers s) ||
  file_ok (World.owner_name w) (World.name w).

(** The world at index [wk], from peer [i] to peer [j]. *)
Definition transfer_world (wk i j : nat) (s : State) : option (State * list effect) :=
  match w ← worlds s !! wk; from ← peer s i; to ← peer s j; Some (w, from, to) with
  | None => Some (s, [])
  | Some (w, from, to) =>
      let owned := mkState (guilds s) (peers s) (alter (set_owner_name (tankIDName to)) wk (worlds s)) in
      if String.eqb (World.owner_name w) "" then Some (s, [])
      else if negb (has_rows w) then None
      else if negb (existsb world_lock (World.blocks w)) then Some (s, [])
      else if World.guild_id w =? 0 then
        Some (if owner_told from w s then owned else s, [])
      else
        match k ← find_guild (World.guild_id w) (guilds s); (k,.) <$> guilds s !! k with
        | None => Some (s, [])
        | Some (k, g) =>
            if (exact_rank (tankIDName from) (guild_members g) <? 3) ||
               negb (u32 (my_guild from) =? u32 (World.guild_id w)) || negb (my_guild to =? 0)
            then Some (s, [])
            else if negb (owner_told from w s) then Some (s, [])
            else
              let s := on_guild k (new_leader (World.owner_name w) (tankIDName to))
                         (on_peer j (set_guild (guild_id g)) owned) in
              Some (s, ESavePlayer j :: save_guilds (guilds s))
        end
  end.

(** ** Levels *)

(** [guild_xp] in [add_peer_xp]. *)
Definition guild_gain (amount : Z) (g : Guild) : option Guild :=
  let g := touch g in
  if levels <? guild_level g then Some g
  else
    '(max_xp, _) ← level_row g;
    if guild_xp g <? max_xp then
      let xp := u32 (guild_xp g + amount) in
      Some (set_level_xp (guild_level g) (if max_xp <? xp then max_xp else xp) g)
    else Some g.

Definition add_guild_xp (i : nat) (amount : Z) (s : State) : option State :=
  match p ← peer s i; k ← find_guild (my_guild p) (guilds s); g ← guilds s !! k; Some (p, k, g) with
  | Some (p, k, g) =>
      if my_guild p =? 0 then Some s
      else g' ← guild_gain amount g; Some (on_guild k (λ _, g') s)
  | None => Some s
  end.

(** The first member of the name decides. *)
Definition upgrade_guild (i : nat) (s : State) : option (State * list effect) :=
  match p ← peer s i; k ← find_guild (my_guild p) (guilds s); g ← guilds s !! k; Some (p, k, g) with
  | Some (p, k, g) =>
      if (my_guild p =? 0) || (levels <? guild_level g) then Some (s, [])
      else
        '(need, cost) ← level_row g;
        if guild_xp g <? need then Some (s, [])
        else
          match find_member (tankIDName p) (guild_members g) with
          | None => Some (s, [])
          | Some _ =>
              if negb (first_rank (tankIDName p) (guild_members g) =? 3) then Some (s, [])
              else if Messages.gems (account p) <? cost then Some (s, [])
              else
                let '(a, es) := Messages.OnBuxGems to_float (i32 (cost * -1)) 0 (account p) in
                let up g :=
                  let g := touch (set_level_xp (u16 (guild_level g + 1)) 0 g) in
                  create_guild_log
                    (cat [tankIDName p; " upgraded the guild to Level "; to_string (guild_level g)]) 8 now g in
                Some (on_guild k up (on_peer i (set_account a) s), [EAccount i es])
          end
  | None => Some (s, [])
  end.

(** ** Creation: [confirmguild] *)

Definition special_char (s : string) : bool :=
  negb (all_chars (λ c, is_digit c || (let n := char_code c in
    ((65 <=? n) && (n <=? 90)) || ((97 <=? n) && (n <=? 122)))) s).

Definition bad_name (swear_words : list string) (name : string) : bool :=
  existsb (λ w, str_contains (World.to_lower w) (World.to_lower name)) swear_words.

Definition name_taken (name : string) (gs : list Guild) : bool :=
  existsb (λ g, same_name (guild_name g) name) gs.

(** The world's lock becomes the guild's: the first lock of a whole world,
    or the block at the origin. *)
Definition whole_lock (b : World.WorldBlock) : bool :=
  bool_decide (blockType (item items (World.fg b)) = LOCK) &&
  negb (existsb (Z.eqb (World.fg b)) [202; 204; 206; 4994; 10000]).

Fixpoint find_block (f : World.WorldBlock -> bool) (k : nat) (bs : list World.WorldBlock) : option nat :=
  match bs with
  | [] => None
  | b :: bs => if f b then Some k else find_block f (S k) bs
  end.

Definition set_fg (v : Z) (b : World.WorldBlock) : World.WorldBlock :=
  World.mkBlock v (World.bg b) (World.locked b) (World.lock_origin b) (World.block_owner b)
    (World.block_admins b) (World.spin b) (World.pr b) (World.wl b) (World.id b) (World.c_ b).

Definition guild_lock (id : Z) (w : World.World) : option World.World :=
  let n := Z.of_nat (length (World.blocks w)) in
  if n <? 100 then None
  else
    let xSize := n / (n / 100) in
    let '(x_, y_) := match find_block whole_lock 0 (World.blocks w) with
                     | Some i_ => (Z.of_nat i_ mod xSize, Z.of_nat i_ / xSize)
                     | None => (0, 0)
                     end in
    let at_ := x_ + y_ * 100 in
    _ ← World.block_at w at_;
    Some (World.mkWorld (World.name w) (World.owner_name w) (World.admins w)
            (World.world_settings w) id (World.max_x w) (World.max_y w) (World.weather w) true
            (alter (set_fg 5814) (Z.to_nat at_) (World.blocks w)) (World.drop_new w)).

Fixpoint update_world (name : string) (f : World.World -> option World.World) (ws : list World.World)
    : option (list World.World) :=
  match ws with
  | [] => Some []
  | w :: ws =>
      if String.eqb (World.name w) name then w ← f w; Some (w :: ws)
      else ws ← update_world name f ws; Some (w :: ws)
  end.

Definition create_price (p : Member) : Z :=
  if 1 <? Messages.supp (account p) then Z.quot guild_create_gem_requirement 2
  else guild_create_gem_requirement.

(** The guild of the dialog's name and statement. *)
Definition founded (gs : list Guild) (p : Member) (name description : string) : Guild :=
  mkGuild (i32 (Z.of_nat (length gs) + 1)) 0 1 name (Messages.world (account p)) 1 "" true description []
    [new_member (tankIDName p) 3 now] [0; 0].

Definition confirmguild (swear_words : list string) (i : nat) (cch : string) (s : State)
    : option (State * list effect) :=
  p ← peer s i;
  if Messages.gems (account p) <? create_price p then Some (s, [])
  else if negb (my_guild p =? 0) then Some (s, [])
  else
    match World.world_named (Messages.world (account p)) (worlds s) with
    | None => Some (s, [])
    | Some w =>
        name ← Texts.get_embed cch "guildname";
        description ← Texts.get_embed cch "guilddesc";
        if name_taken name (guilds s) || bad_name swear_words name ||
           (slen name <? 3) || (15 <? slen name) || (slen description <? 6) ||
           (24 <? slen description) || special_char name ||
           negb (String.eqb (World.owner_name w) (tankIDName p))
        then Some (s, [])
        else
          let g := founded (guilds s) p name description in
          let gs := guilds s ++ [g] in
          ws ← update_world (Messages.world (account p)) (guild_lock (guild_id g)) (worlds s);
          let '(a, es) := Messages.OnMinGems to_float (create_price p) 0 (account p) in
          let s := mkState gs (peers s) ws in
          Some (on_peer i (λ p, set_account a (set_guild (guild_id g) p)) s,
                save_guilds gs ++ [EAccount i es])
    end.

End Operations.

End Guild.
