(* ===== verification/GuildFacts.v ===== *)
(** * GuildFacts: the invariant of guilds, ranks and leaving

    The dialogs of [Guild] as steps of one relation, the invariant of every
    state they reach, and what single requests may do to members. *)
From S2P Require Import Prelude Items Messages World Guild.
Import Items Guild.

Module GuildFacts.

(** ** Names *)

Lemma same_name_refl a : same_name a a = true.
Proof. apply String.eqb_refl. Qed.

Lemma same_name_trans a b c : same_name a b = true -> same_name a c = true -> same_name b c = true.
Proof. unfold same_name. rewrite !String.eqb_eq. congruence. Qed.

Lemma same_name_sym a b : same_name a b = same_name b a.
Proof. apply String.eqb_sym. Qed.

(** ** The invariant *)

Definition leaders (ms : list GuildMember) : list GuildMember := filter (λ m, role_id m = 3) ms.

Definition listed (name : string) (g : Guild) : Prop :=
  exists m, m ∈ guild_members g /\ is_named name m = true.

(** The guild at index [k]. *)
Record guild_ok (k : nat) (g : Guild) : Prop := {
  ok_id : guild_id g = Z.of_nat k + 1;
  ok_leader : length (leaders (guild_members g)) = 1%nat;
  ok_roles : Forall (λ m, 0 <= role_id m <= 3) (guild_members g);
  ok_size : Z.of_nat (length (guild_members g)) <= capacity g;
  ok_level : 1 <= guild_level g <= levels + 1;
  ok_logs : (length (guild_logs g) <= 10)%nat;
  ok_xp : 0 <= guild_xp g < 2 ^ 31
}.

(** A connected player with a guild is on the guild's list. *)
Definition belongs (gs : list Guild) (p : Member) : Prop :=
  my_guild p <> 0 -> exists k g, gs !! k = Some g /\ guild_id g = my_guild p /\ listed (tankIDName p) g.

Record state_ok (s : State) : Prop := {
  ok_guilds : forall k g, guilds s !! k = Some g -> guild_ok k g;
  ok_count : Z.of_nat (length (guilds s)) < 2 ^ 31;
  ok_names : forall i j p q, peer s i = Some p -> peer s j = Some q ->
    same_name (tankIDName p) (tankIDName q) = true -> i = j;
  ok_peers : forall i p, peer s i = Some p -> belongs (guilds s) p
}.

(** ** Guilds *)

Lemma find_guild_spec id gs k :
  find_guild id gs = Some k -> exists g, gs !! k = Some g /\ u32 (guild_id g) = u32 id.
Proof.
  revert k. induction gs as [|g gs IH]; intros k; [done|]. cbn.
  destruct (Z.eqb_spec (u32 (guild_id g)) (u32 id)).
  - intros [= <-]. by exists g.
  - destruct (find_guild id gs) as [k'|]; [|done]. intros [= <-]. by apply (IH k').
Qed.

(** In a good state the guild found has the id looked for. *)
Lemma found_guild s p k :
  state_ok s -> find_guild (my_guild p) (guilds s) = Some k -> belongs (guilds s) p ->
  my_guild p <> 0 -> exists g, guilds s !! k = Some g /\ guild_id g = my_guild p.
Proof.
  intros Hs Hf Hb Hz. destruct (find_guild_spec _ _ _ Hf) as (g & Hk & Hu). exists g. split; [done|].
  destruct (Hb Hz) as (k' & g' & Hk' & Hid & _).
  pose proof (ok_id _ _ (ok_guilds _ Hs _ _ Hk)). pose proof (ok_id _ _ (ok_guilds _ Hs _ _ Hk')).
  pose proof (ok_count _ Hs). apply lookup_lt_Some in Hk, Hk'.
  rewrite !u32_small in Hu by lia. lia.
Qed.

(** What an update of a guild keeps. *)
Definition keeps (f : Guild -> Guild) : Prop :=
  forall k g, guild_ok k g -> guild_ok k (f g) /\ forall name, listed name g -> listed name (f g).

Lemma keeps_touch : keeps touch.
Proof. intros k g []. split; [by constructor|done]. Qed.

Lemma keeps_log text d now : keeps (create_guild_log text d now).
Proof.
  intros k g []. split; [|done]. constructor; try done.
  unfold create_guild_log. cbn [guild_logs set_logs].
  assert (forall l : list GuildLog, (length l <= 11)%nat ->
    (length (if (10 <? length l)%nat then drop 1 l else l) <= 10)%nat) as Hcut.
  { intros l Hl. destruct (Nat.ltb_spec 10 (length l)); [rewrite length_drop|]; lia. }
  apply Hcut. rewrite length_app. cbn [length]. lia.
Qed.

Lemma keeps_compose f h : keeps f -> keeps h -> keeps (λ g, h (f g)).
Proof.
  intros Hf Hh k g Hg. destruct (Hf k g Hg) as [H1 L1]. destruct (Hh k (f g) H1) as [H2 L2].
  split; [done|]. intros name Hn. apply L2, L1, Hn.
Qed.

Lemma keeps_iter f n : keeps f -> keeps (Nat.iter n f).
Proof. intros Hf. induction n; [by intros ? ?|]. cbn. by apply (keeps_compose (Nat.iter n f) f). Qed.

(** New members of the list: what [set_members] has to show. *)
Lemma ok_set_members k g ms :
  guild_ok k g -> length (leaders ms) = 1%nat -> Forall (λ m, 0 <= role_id m <= 3) ms ->
  Z.of_nat (length ms) <= capacity g -> guild_ok k (set_members ms g).
Proof. intros [] Hl Hr Hc. by constructor. Qed.

(** ** Updates of the state *)

Lemma on_guild_lookup k f s k' :
  guilds (on_guild k f s) !! k' = if decide (k' = k) then f <$> guilds s !! k' else guilds s !! k'.
Proof. unfold on_guild. cbn. rewrite list_lookup_alter. by repeat case_decide; subst. Qed.

Lemma on_peer_guilds i f s : guilds (on_peer i f s) = guilds s.
Proof. unfold on_peer. by destruct (peer s i). Qed.

Lemma on_peer_lookup i f s j :
  peer (on_peer i f s) j = if decide (j = i) then f <$> peer s j else peer s j.
Proof.
  unfold on_peer. destruct (peer s i) as [p|] eqn:E.
  - unfold peer in *. cbn. destruct (decide (j = i)) as [->|].
    + destruct (peers s !! i) as [o|] eqn:Eo; [|done]. cbn in E. subst o.
      by rewrite list_lookup_insert_eq by (by eapply lookup_lt_Some).
    + by rewrite list_lookup_insert_ne.
  - case_decide; [subst; by rewrite E|done].
Qed.

(** Every guild keeps what it promises, every name stays on its list. *)
Lemma on_guild_ok k f s :
  state_ok s ->
  (forall g, guilds s !! k = Some g -> guild_ok k (f g)) ->
  (forall g i p, guilds s !! k = Some g -> peer s i = Some p -> my_guild p = guild_id g ->
     listed (tankIDName p) g -> listed (tankIDName p) (f g)) ->
  state_ok (on_guild k f s).
Proof.
  intros [] Hf Hl. constructor; try done.
  - intros k' g. rewrite on_guild_lookup. case_decide; [|by apply ok_guilds0]. subst k'.
    destruct (guilds s !! k) eqn:E; [|done]. intros [= <-]. by apply Hf.
  - cbn. by rewrite length_alter.
  - intros i p Hp Hz. destruct (ok_peers0 i p Hp Hz) as (k' & g & Hk & Hid & Hin).
    destruct (decide (k' = k)) as [->|].
    + exists k, (f g). rewrite on_guild_lookup, decide_True, Hk by done. split; [done|].
      pose proof (ok_id _ _ (Hf g Hk)). pose proof (ok_id _ _ (ok_guilds0 _ _ Hk)).
      split; [lia|]. by eapply Hl.
    + exists k', g. by rewrite on_guild_lookup, decide_False.
Qed.

Lemma on_guild_keeps k f s : state_ok s -> keeps f -> state_ok (on_guild k f s).
Proof.
  intros Hs Hf. apply on_guild_ok; [done|..].
  - intros g Hg. apply Hf, (ok_guilds s Hs), Hg.
  - intros g i p Hg _ _. apply (Hf k g), (ok_guilds s Hs), Hg.
Qed.

(** A change of a player that keeps the name. *)
Lemma on_peer_ok i f s :
  state_ok s ->
  (forall p, peer s i = Some p -> tankIDName (f p) = tankIDName p /\ belongs (guilds s) (f p)) ->
  state_ok (on_peer i f s).
Proof.
  intros [] Hf. constructor; rewrite ?on_peer_guilds; try done.
  - intros j1 j2 p q. rewrite !on_peer_lookup.
    assert (forall j r, (if decide (j = i) then f <$> peer s j else peer s j) = Some r ->
      exists r', peer s j = Some r' /\ tankIDName r = tankIDName r') as H.
    { intros j r. case_decide; [|by exists r]. subst j. destruct (peer s i) as [r'|] eqn:E; [|done].
      intros [= <-]. exists r'. split; [done|]. by apply Hf. }
    intros (p' & Hp & ->)%H (q' & Hq & ->)%H. by apply ok_names0.
  - intros j p. rewrite on_peer_lookup. case_decide; [|by apply ok_peers0]. subst j.
    destruct (peer s i) as [r|] eqn:E; [|done]. intros [= <-]. by apply Hf.
Qed.

(** ** Each dialog keeps the invariant *)

Section Steps.
Context (items : table) (to_float : Z -> Z) (now : Z) (nick : Member -> string).

Lemma invite_ok i o s : state_ok s -> state_ok (invitetoguild now nick i o s).
Proof.
  intros Hs. unfold invitetoguild. destruct (peer s i) as [p|]; [|done].
  destruct (_ || _); [done|].
  destruct (find_guild (my_guild p) (guilds s)) as [k|]; [|done]. cbn [mbind option_bind].
  destruct (guilds s !! k) as [g|]; [|done]. cbn [fmap option_fmap option_map].
  destruct (negb (may_invite _ _)); [done|].
  destruct (find_other p o 0 (peers s)) as [j|]; [|done]. cbn [mbind option_bind].
  destruct (peer s j) as [c|] eqn:Ec; [|done]. cbn [fmap option_fmap option_map].
  destruct (_ || _); [done|].
  apply on_guild_keeps; [|apply keeps_log]. apply on_peer_ok; [done|].
  intros q Hq. split; [done|]. by apply (ok_peers _ Hs j q).
Qed.

(** A player joins: the list grows below its capacity. *)
Lemma keeps_join name :
  forall k g, guild_ok k g -> full g = false ->
  let g' := touch (set_members (guild_members g ++ [new_member name 0 now]) g) in
  guild_ok k g' /\ listed name g' /\ forall n, listed n g -> listed n g'.
Proof.
  intros k g Hg Hf. cbv zeta. pose proof Hg as []. unfold full in Hf. split; [|split].
  - apply keeps_touch, ok_set_members; try done.
    + unfold leaders. rewrite list.filter_app, filter_cons_False by done. by rewrite app_nil_r.
    + apply list.Forall_app. split; [done|]. by apply list.Forall_singleton.
    + rewrite length_app. cbn. lia.
  - exists (new_member name 0 now). split; [|apply same_name_refl]. cbn. apply elem_of_app.
    right. apply list_elem_of_singleton. done.
  - intros n (m & Hm & Hn). exists m. split; [|done]. cbn. apply elem_of_app. by left.
Qed.

Lemma accept_ok i s s' : state_ok s -> acceptguild now i s = Some s' -> state_ok s'.
Proof.
  intros Hs. unfold acceptguild. destruct (peer s i) as [p|] eqn:Ep; [|by intros [= <-]].
  destruct (_ || _); [by intros [= <-]|].
  destruct (World.world_named _ _) as [w|]; [|by intros [= <-]].
  destruct (find_guild (pending_guild p) (guilds s)) as [k|]; [|by intros [= <-]]. cbn [mbind option_bind].
  destruct (guilds s !! k) as [g|] eqn:Eg; [|by intros [= <-]]. cbn [fmap option_fmap option_map].
  destruct (full g) eqn:Ef; [by intros [= <-]|]. cbv zeta. destruct (_ && _); [done|]. intros [= <-].
  apply on_guild_keeps; [|apply keeps_log].
  destruct (keeps_join (tankIDName p) k g (ok_guilds _ Hs _ _ Eg) Ef) as (Hok & Hin & Hkeep).
  (* the guild first, then the player who is now on its list *)
  set (join := λ g0, touch (set_members (guild_members g0 ++ [new_member (tankIDName p) 0 now]) g0)).
  assert (on_guild k join (on_peer i (λ q, set_pending 0 (set_guild (guild_id g) q)) s) =
    on_peer i (λ q, set_pending 0 (set_guild (guild_id g) q)) (on_guild k join s)) as ->.
  { unfold on_guild, on_peer, peer. cbn. by destruct (mjoin (peers s !! i)). }
  apply on_peer_ok.
  - apply on_guild_ok; [done|..].
    + intros g0 Hg0. rewrite Eg in Hg0. injection Hg0 as <-. done.
    + intros g0 j q Hg0 _ _ Hl. rewrite Eg in Hg0. injection Hg0 as <-. by apply Hkeep.
  - intros q Hq. split; [done|]. intros _. exists k, (join g).
    rewrite on_guild_lookup, decide_True, Eg by done. split; [done|]. split; [done|].
    unfold peer, on_guild in Hq. cbn in Hq. unfold peer in Ep. rewrite Ep in Hq. by injection Hq as <-.
Qed.

(** Ranks change below the leader's. *)
Lemma changed_role_range promote role my_rank r :
  0 <= role <= 3 -> changed_role promote role my_rank = Some r ->
  role <> 3 /\ 0 <= r <= 2 /\ role < my_rank /\ r <= my_rank.
Proof.
  intros Hr. unfold changed_role, can_promote, can_demote. intros H.
  destruct promote; repeat case_match; try discriminate; simplify_eq; rewrite ?u8_small in * by lia; lia.
Qed.

Lemma change_roles_spec promote actor target my_rank ms :
  Forall (λ m, 0 <= role_id m <= 3) ms ->
  let ms' := (change_roles promote actor target my_rank ms).1 in
  length ms' = length ms /\ leaders ms' = leaders ms /\ Forall (λ m, 0 <= role_id m <= 3) ms' /\
  forall name, existsb (is_named name) ms' = existsb (is_named name) ms.
Proof.
  induction 1 as [|m ms Hm _ (IH1 & IH2 & IH3 & IH4)]; [done|]. cbn [change_roles]. cbv zeta.
  destruct (change_roles promote actor target my_rank ms) as [ms' cs]. cbn [fst] in *.
  assert (forall m', leaders (m' :: ms') = (if decide (role_id m' = 3) then [m'] else []) ++ leaders ms) as Hl.
  { intros m'. unfold leaders. rewrite filter_cons. fold (leaders ms'). rewrite IH2. by case_decide. }
  assert (leaders (m :: ms) = (if decide (role_id m = 3) then [m] else []) ++ leaders ms) as Hl'.
  { unfold leaders. rewrite filter_cons. by case_decide. }
  destruct (is_named target m); [destruct (changed_role _ _ _) as [r|] eqn:Er|]; cbn [fst length];
    rewrite IH1, Hl, Hl'; cbn [existsb]; (split; [done|]).
  - destruct (changed_role_range _ _ _ _ Hm Er) as (? & ? & _).
    split; [cbn [set_role role_id]; by rewrite !decide_False by lia|].
    split; [constructor; [cbn; lia|done]|]. intros name. rewrite IH4. done.
  - split; [done|]. split; [by constructor|]. intros name. by rewrite IH4.
  - split; [done|]. split; [by constructor|]. intros name. by rewrite IH4.
Qed.

Lemma listed_existsb name g : listed name g <-> existsb (is_named name) (guild_members g) = true.
Proof. rewrite existsb_exists. unfold listed. by setoid_rewrite list_elem_of_In. Qed.

Lemma keeps_roles promote actor target my_rank k g :
  guild_ok k g ->
  let g' := set_members (change_roles promote actor target my_rank (guild_members g)).1 g in
  guild_ok k g' /\ forall name, listed name g -> listed name g'.
Proof.
  intros Hg. cbv zeta. pose proof Hg as [].
  destruct (change_roles_spec promote actor target my_rank _ ok_roles0) as (H1 & H2 & H3 & H4).
  split; [apply ok_set_members; try done; congruence|].
  intros name. rewrite !listed_existsb. cbn. by rewrite H4.
Qed.

Lemma keeps_logs promote actor target cs :
  keeps (λ g, fold_left (λ g r, role_log now promote actor target r g) cs g).
Proof.
  induction cs as [|r cs IH]; [by intros ? ?|]. cbn.
  apply (keeps_compose (role_log now promote actor target r)); [|done].
  unfold role_log. destruct promote; apply keeps_log.
Qed.

Lemma role_change_ok i promote target s :
  state_ok s -> state_ok (guild_member_role_change now i promote target s).
Proof.
  intros Hs. unfold guild_member_role_change. destruct (peer s i) as [p|]; [|done]. cbn [mbind option_bind].
  destruct (find_guild _ _) as [k|]; [|done]. cbn [mbind option_bind].
  destruct (guilds s !! k) as [g|] eqn:Eg; [|done]. cbn [mbind option_bind].
  pose proof (keeps_roles promote (tankIDName p) target (last_rank (tankIDName p) (guild_members g)) k g
    (ok_guilds _ Hs _ _ Eg)) as [Hok Hin].
  destruct (change_roles _ _ _ _ _) as [ms cs]. cbn [fst] in *. cbv zeta.
  destruct (keeps_logs promote (tankIDName p) target cs k _ Hok) as [Hok2 Hin2].
  apply on_guild_ok; [done|..].
  - intros g0 Hg0. rewrite Eg in Hg0. by injection Hg0 as <-.
  - intros g0 j q Hg0 _ _ Hl. rewrite Eg in Hg0. injection Hg0 as <-. apply Hin2, Hin, Hl.
Qed.

End Steps.

(** ** Removal *)

Lemma leaders_delete ms j m :
  ms !! j = Some m -> role_id m <> 3 -> leaders (delete j ms) = leaders ms.
Proof.
  intros Hj Hm. rewrite delete_take_drop. rewrite <- (take_drop_middle ms j m Hj) at 3.
  unfold leaders. by rewrite !list.filter_app, filter_cons_False.
Qed.

Lemma delete_others ms j m name target :
  ms !! j = Some m -> is_named target m = true -> same_name name target = false ->
  existsb (is_named name) ms = true -> existsb (is_named name) (delete j ms) = true.
Proof.
  intros Hj Hm Hn. rewrite delete_take_drop. rewrite <- (take_drop_middle ms j m Hj) at 1.
  rewrite !existsb_app. cbn [existsb].
  enough (is_named name m = false) as -> by done.
  destruct (is_named name m) eqn:E; [|done]. unfold is_named in *.
  by rewrite (same_name_trans _ _ _ E Hm) in Hn.
Qed.

Lemma first_rank_range name ms :
  Forall (λ m, 0 <= role_id m <= 3) ms -> 0 <= first_rank name ms <= 3.
Proof. induction 1; cbn; [lia|]. by destruct (is_named _ _). Qed.

Lemma last_rank_range name ms :
  Forall (λ m, 0 <= role_id m <= 3) ms -> 0 <= last_rank name ms <= 3.
Proof. intros H. apply first_rank_range. by apply Forall_rev. Qed.

Lemma find_member_spec name ms j :
  find_member name ms = Some j -> exists m, ms !! j = Some m /\ is_named name m = true.
Proof.
  revert j. induction ms as [|m ms IH]; intros j; [done|]. cbn. destruct (is_named name m) eqn:E.
  - intros [= <-]. by exists m.
  - destruct (find_member name ms) as [j'|]; [|done]. intros [= <-]. by apply (IH j').
Qed.

Lemma keeps_delete k g j m :
  guild_ok k g -> guild_members g !! j = Some m -> role_id m <> 3 ->
  guild_ok k (set_members (delete j (guild_members g)) g).
Proof.
  intros Hg Hj Hm. pose proof Hg as []. apply ok_set_members; [done|..].
  - by rewrite (leaders_delete _ _ m).
  - by apply Forall_delete.
  - rewrite length_delete by done. lia.
Qed.

Lemma expel_ok target s :
  state_ok s -> state_ok (mkState (guilds s) (fmap (M:=option) (expel target) <$> peers s) (worlds s)).
Proof.
  intros []. assert (forall j r, peer (mkState (guilds s) (fmap (M:=option) (expel target) <$> peers s) (worlds s)) j
    = Some r -> exists r', peer s j = Some r' /\ r = expel target r') as H.
  { intros j r. unfold peer. cbn. rewrite list_lookup_fmap. destruct (peers s !! j) as [[r'|]|]; try done.
    cbn. intros [= <-]. by exists r'. }
  assert (forall r, tankIDName (expel target r) = tankIDName r) as Hname
    by (intros r; unfold expel; by destruct (same_name _ _)).
  constructor; try done.
  - intros i j p q (p' & Hp & ->)%H (q' & Hq & ->)%H. rewrite !Hname. by apply ok_names0.
  - intros i p (p' & Hp & ->)%H. unfold belongs. rewrite Hname. unfold expel.
    destruct (same_name _ _); [done|]. by apply (ok_peers0 i).
Qed.

Lemma leave_loop_spec name n : forall ms, (length ms <= n)%nat ->
  leaders (leave_loop name ms).1 = leaders ms /\
  (forall m, m ∈ (leave_loop name ms).1 -> m ∈ ms) /\
  (length (leave_loop name ms).1 <= length ms)%nat /\
  (forall m, m ∈ ms -> is_named name m = false -> m ∈ (leave_loop name ms).1).
Proof.
  assert (forall m l l', leaders l = leaders l' -> leaders (m :: l) = leaders (m :: l')) as Hcons
    by (intros m l l' H; unfold leaders in *; rewrite !filter_cons, H; done).
  induction n as [|n IH]; intros [|m ms'] Hn; cbn [length] in Hn; try done; try lia.
  cbn [leave_loop]. destruct (is_named name m) eqn:Em.
  - destruct (Z.eqb_spec (role_id m) 3) as [E3|E3]; [done|]. destruct ms' as [|m2 ms2].
    + cbn [fst length]. split_and!; [|by intros ? ?%elem_of_nil|lia|].
      { unfold leaders. by rewrite filter_cons_False. }
      intros m0 ->%list_elem_of_singleton. congruence.
    + cbn [length] in Hn. destruct (IH ms2 ltac:(lia)) as (H1 & H2 & H3 & H4).
      destruct (leave_loop name ms2) as [l c]. cbn [fst length] in *. split_and!.
      * unfold leaders at 2. rewrite filter_cons_False by done. apply Hcons, H1.
      * intros m0. rewrite !elem_of_cons. intros [->|Hm0]; [tauto|]. auto.
      * lia.
      * intros m0. rewrite !elem_of_cons. intros [->|[->|Hm0]] Hnm; [congruence|by left|right; auto].
  - destruct (IH ms' ltac:(lia)) as (H1 & H2 & H3 & H4).
    destruct (leave_loop name ms') as [l c]. cbn [fst length] in *. split_and!.
    + apply Hcons, H1.
    + intros m0. rewrite !elem_of_cons. intros [->|Hm0]; [tauto|]. auto.
    + lia.
    + intros m0. rewrite !elem_of_cons. intros [->|Hm0] Hnm; [by left|right; auto].
Qed.

Section Steps2.
Context (to_float : Z -> Z) (now : Z).

Lemma remove_ok i target s : state_ok s -> state_ok (guild_member_remove now i target s).1.
Proof.
  intros Hs. unfold guild_member_remove. destruct (peer s i) as [p|]; [|done]. cbn [mbind option_bind].
  destruct (find_guild _ _) as [k|]; [|done]. cbn [mbind option_bind].
  destruct (guilds s !! k) as [g|] eqn:Eg; [|done]. cbn [mbind option_bind].
  destruct (find_member target (guild_members g)) as [j|] eqn:Ej; [|done]. cbn [mbind option_bind].
  destruct (find_member_spec _ _ _ Ej) as (m & Hj & Hm). rewrite Hj. cbn [fmap option_fmap option_map].
  pose proof (ok_guilds _ Hs _ _ Eg) as Hg.
  pose proof (last_rank_range (tankIDName p) _ (ok_roles _ _ Hg)) as Hrank.
  destruct (_ && _) eqn:Ekick; [|done]. cbn [fst]. apply on_guild_ok; [by apply expel_ok|..].
  - intros g0 Hg0. cbn in Hg0. rewrite Eg in Hg0. injection Hg0 as <-.
    destruct (keeps_log (cat ["`$"; tankIDName p; "`` `wkicked `$"; target; "`` from the guild"]) 6 now k g Hg)
      as [Hlog _].
    eapply (keeps_delete k (create_guild_log _ 6 now g) j m); [exact Hlog|done|lia].
  - intros g0 i' q Hg0 Hq Hid. cbn in Hg0. rewrite Eg in Hg0. injection Hg0 as <-.
    rewrite !listed_existsb. cbn. apply (delete_others _ _ m _ target); [done..|].
    destruct (same_name (tankIDName q) target) eqn:E; [|done].
    (* the player would have been expelled *)
    unfold peer in Hq. cbn in Hq. rewrite list_lookup_fmap in Hq.
    destruct (peers s !! i') as [[q'|]|]; try done. cbn in Hq. injection Hq as <-.
    pose proof (ok_id _ _ Hg). unfold expel in *. destruct (same_name (tankIDName q') target) eqn:E';
      [cbn in Hid; lia|congruence].
Qed.

(** ** Leaving *)

Lemma leave_ok i s : state_ok s -> state_ok (leave_guild now i s).1.
Proof.
  intros Hs. unfold leave_guild. destruct (peer s i) as [p|] eqn:Ep; [|done]. cbn [mbind option_bind].
  destruct (find_guild _ _) as [k|]; [|done]. cbn [mbind option_bind].
  destruct (guilds s !! k) as [g|] eqn:Eg; [|done]. cbn [mbind option_bind].
  destruct (_ || _); [done|].
  pose proof (leave_loop_spec (tankIDName p) _ (guild_members g) (le_n _)) as (H1 & H2 & H3 & H4).
  destruct (leave_loop (tankIDName p) (guild_members g)) as [ms n]. cbn [fst] in *. cbv zeta.
  pose proof (ok_guilds _ Hs _ _ Eg) as Hg. pose proof Hg as [].
  assert (guild_ok k (set_members ms g)) as Hms.
  { apply ok_set_members; [done|congruence| |lia].
    apply list.Forall_forall. intros m Hm%H2. revert m Hm. by apply list.Forall_forall. }
  destruct (keeps_iter (create_guild_log (cat ["`$"; tankIDName p; "`` `wleft the guild"]) 5948 now) n
    (keeps_log _ _ _) k _ Hms) as [Hok Hin].
  apply on_guild_ok; [apply on_peer_ok; [done|by intros q _; split; [|intros []]]|..].
  - intros g0. rewrite on_peer_guilds, Eg. by intros [= <-].
  - intros g0 j q. rewrite on_peer_guilds, Eg. intros [= <-] Hq Hid (m & Hm & Hnm).
    apply Hin. exists m. split; [|done]. cbn. apply H4; [done|].
    rewrite on_peer_lookup in Hq. destruct (decide (j = i)) as [->|Hne].
    + rewrite Ep in Hq. injection Hq as <-. cbn in Hid. lia.
    + destruct (is_named (tankIDName p) m) eqn:E; [|done]. exfalso. apply Hne.
      apply (ok_names _ Hs j i q p); [done..|]. unfold is_named in *. by eapply same_name_trans.
Qed.

(** ** A world and its guild change hands *)

Lemma exact_rank_leader name ms :
  Forall (λ m, 0 <= role_id m <= 3) ms -> 3 <= exact_rank name ms ->
  exists m, m ∈ ms /\ member_name m = name /\ role_id m = 3.
Proof.
  induction 1 as [|m ms Hm _ IH]; cbn; [lia|]. destruct (String.eqb_spec (member_name m) name) as [E|].
  - intros H3. exists m. split; [by left|]. split; [done|lia].
  - intros (m' & ? & ?)%IH. exists m'. split; [by right|done].
Qed.

Lemma leaders_demote name ms :
  (forall m, m ∈ ms -> role_id m = 3 -> member_name m = name) -> leaders (demote name <$> ms) = [].
Proof.
  induction ms as [|m ms IH]; intros H; [done|]. rewrite fmap_cons. unfold leaders. rewrite filter_cons_False.
  - apply IH. intros m' Hm'. apply H. by right.
  - unfold demote. destruct (String.eqb_spec (member_name m) name); [by cbn|].
    intros E3. by apply (H m ltac:(by left)) in E3.
Qed.

Lemma demote_names name n ms :
  existsb (is_named n) (demote name <$> ms) = existsb (is_named n) ms.
Proof.
  induction ms as [|m ms IH]; [done|]. cbn. rewrite IH. f_equal. unfold demote.
  by destruct (String.eqb _ _).
Qed.

(** The only leader hands the guild over, and there is room for one more. *)
Lemma keeps_new_leader k g owner name :
  guild_ok k g -> full g = false -> 3 <= exact_rank owner (guild_members g) ->
  let g' := new_leader now owner name g in
  guild_ok k g' /\ guild_id g' = guild_id g /\ listed name g' /\ forall n, listed n g -> listed n g'.
Proof.
  intros Hg Hf H3. cbv zeta. pose proof Hg as []. unfold full in Hf.
  destruct (exact_rank_leader _ _ ok_roles0 H3) as (m & Hm & Hname & Hm3).
  assert (m ∈ leaders (guild_members g)) as Hin by (by apply list_elem_of_filter).
  assert (forall m', m' ∈ guild_members g -> role_id m' = 3 -> member_name m' = owner) as Hone.
  { intros m' Hm' E'. assert (m' ∈ leaders (guild_members g)) as Hin' by (by apply list_elem_of_filter).
    destruct (leaders (guild_members g)) as [|l0 [|]]; try done.
    apply list_elem_of_singleton in Hin, Hin'. congruence. }
  split_and!; [|done|..].
  - apply keeps_touch, ok_set_members; [done|..].
    + unfold leaders. rewrite list.filter_app. fold (leaders (demote owner <$> guild_members g)).
      by rewrite leaders_demote.
    + apply list.Forall_app. split; [|by apply list.Forall_singleton].
      apply list.Forall_fmap, (list.Forall_impl _ _ _ ok_roles0). intros m' Hr. cbn. unfold demote.
      by destruct (String.eqb _ _).
    + rewrite length_app, length_fmap. cbn. lia.
  - exists (new_member name 3 now). split; [|apply same_name_refl]. cbn. apply elem_of_app.
    right. by apply list_elem_of_singleton.
  - intros n. rewrite !listed_existsb. cbn. rewrite existsb_app, demote_names. intros ->. done.
Qed.

Lemma worlds_ok s ws : state_ok s -> state_ok (mkState (guilds s) (peers s) ws).
Proof. intros []. by constructor. Qed.

Lemma transfer_ok items file_ok wk i j s s' es :
  state_ok s ->
  (forall w p, worlds s !! wk = Some w -> peer s i = Some p -> World.owner_name w = tankIDName p) ->
  (forall w k g, worlds s !! wk = Some w -> find_guild (World.guild_id w) (guilds s) = Some k ->
     guilds s !! k = Some g -> full g = false) ->
  transfer_world items now file_ok wk i j s = Some (s', es) -> state_ok s'.
Proof.
  intros Hs Hown Hroom. unfold transfer_world.
  destruct (worlds s !! wk) as [w|] eqn:Ew; [|by intros [= <- _]]. cbn [mbind option_bind].
  destruct (peer s i) as [from|] eqn:Ei; [|by intros [= <- _]]. cbn [mbind option_bind].
  destruct (peer s j) as [to|] eqn:Ej; [|by intros [= <- _]]. cbn [mbind option_bind]. cbv zeta.
  destruct (String.eqb _ ""); [by intros [= <- _]|]. destruct (negb (has_rows w)); [done|].
  destruct (negb (existsb _ _)); [by intros [= <- _]|].
  destruct (World.guild_id w =? 0).
  { intros [= <- _]. destruct (owner_told _ _ _ _); [by apply worlds_ok|done]. }
  destruct (find_guild (World.guild_id w) (guilds s)) as [k|] eqn:Ek; [|by intros [= <- _]].
  cbn [mbind option_bind]. destruct (guilds s !! k) as [g|] eqn:Eg; [|by intros [= <- _]].
  cbn [fmap option_fmap option_map].
  destruct (_ || negb (my_guild to =? 0)) eqn:Erank; [by intros [= <- _]|].
  destruct (negb (owner_told _ _ _ _)); [by intros [= <- _]|]. intros [= <- _].
  rewrite (Hown w from eq_refl eq_refl).
  destruct (keeps_new_leader k g (tankIDName from) (tankIDName to) (ok_guilds _ Hs _ _ Eg)
    (Hroom w k g eq_refl Ek Eg) ltac:(lia)) as (Hok & Hid & Hin & Hkeep).
  set (ws := alter _ _ _). set (f := new_leader now (tankIDName from) (tankIDName to)) in *.
  assert (on_guild k f (on_peer j (set_guild (guild_id g)) (mkState (guilds s) (peers s) ws)) =
    on_peer j (set_guild (guild_id g)) (on_guild k f (mkState (guilds s) (peers s) ws))) as ->.
  { unfold on_guild, on_peer, peer. cbn. by destruct (mjoin (peers s !! j)). }
  apply on_peer_ok.
  - apply on_guild_ok; [by apply worlds_ok|..]; cbn.
    + intros g0. rewrite Eg. by intros [= <-].
    + intros g0 i' q. rewrite Eg. intros [= <-] _ _. apply Hkeep.
  - intros q Hq. split; [done|]. intros _. exists k, (f g).
    rewrite on_guild_lookup, decide_True by done. cbn. rewrite Eg. split; [done|]. split; [done|].
    unfold peer, on_guild in Hq, Ej. cbn in Hq. rewrite Ej in Hq. by injection Hq as <-.
Qed.

(** ** Levels *)

Lemma level_row_known g :
  1 <= guild_level g <= levels -> exists need cost, level_row g = Some (need, cost) /\ 0 < need < 2 ^ 31.
Proof.
  intros Hl. unfold level_row. replace (guild_level g <? 1) with false by lia.
  assert (Forall (λ r, 0 < r.1 < 2 ^ 31) guild_lvl) as Hall by (repeat constructor).
  destruct (guild_lvl !! Z.to_nat (guild_level g - 1)) as [[need cost]|] eqn:E.
  - exists need, cost. split; [done|]. rewrite list.Forall_forall in Hall.
    apply (Hall (need, cost)). by eapply list_elem_of_lookup_2.
  - apply lookup_ge_None in E. unfold levels in Hl. lia.
Qed.

Lemma gain_ok amount k g :
  guild_ok k g ->
  exists g', guild_gain amount g = Some g' /\ guild_ok k g' /\ guild_members g' = guild_members g.
Proof.
  intros Hg. pose proof Hg as []. unfold guild_gain. cbn [guild_level touch set_settings].
  destruct (keeps_touch k g Hg) as [Ht _].
  destruct (Z.ltb_spec levels (guild_level g)); [by eexists|].
  destruct (level_row_known (touch g)) as (need & cost & Hrow & Hneed); [cbn; lia|].
  rewrite Hrow. cbn [mbind option_bind]. destruct (_ <? need); [|by eexists].
  eexists. split; [done|]. split; [|done]. destruct Ht. constructor; try done. cbn [guild_xp set_level_xp].
  pose proof (u32_range (guild_xp (touch g) + amount)) as Hu. case_match; lia.
Qed.

Lemma xp_ok i amount s :
  state_ok s -> exists s', add_guild_xp i amount s = Some s' /\ state_ok s'.
Proof.
  intros Hs. unfold add_guild_xp. destruct (peer s i) as [p|]; [|by exists s]. cbn [mbind option_bind].
  destruct (find_guild _ _) as [k|]; [|by exists s]. cbn [mbind option_bind].
  destruct (guilds s !! k) as [g|] eqn:Eg; [|by exists s]. cbn [mbind option_bind].
  destruct (_ =? 0); [by exists s|].
  destruct (gain_ok amount k g (ok_guilds _ Hs _ _ Eg)) as (g' & -> & Hok & Hms). cbn [mbind option_bind].
  eexists. split; [done|]. apply on_guild_ok; [done|by intros|].
  intros g0 j q Hg0 _ _. rewrite Eg in Hg0. injection Hg0 as <-. rewrite !listed_existsb. by rewrite Hms.
Qed.

Lemma level_up_ok k g text d :
  guild_ok k g -> guild_level g <= levels ->
  let g' := create_guild_log text d now (touch (set_level_xp (u16 (guild_level g + 1)) 0 g)) in
  guild_ok k g' /\ guild_members g' = guild_members g.
Proof.
  intros Hg Hl. cbv zeta. split; [|done]. apply keeps_log, keeps_touch. pose proof Hg as [].
  change levels with 29 in *. 
  assert (u16 (guild_level g + 1) = guild_level g + 1) as -> by (unfold u16; apply Z.mod_small; lia).
  constructor; try done; cbn.
  - unfold capacity in *. cbn. lia.
  - change levels with 29. lia.
Qed.

Lemma upgrade_ok i s :
  state_ok s -> exists s' es, upgrade_guild to_float now i s = Some (s', es) /\ state_ok s'.
Proof.
  intros Hs. unfold upgrade_guild. destruct (peer s i) as [p|] eqn:Ep; [|by exists s, []]. cbn [mbind option_bind].
  destruct (find_guild _ _) as [k|]; [|by exists s, []]. cbn [mbind option_bind].
  destruct (guilds s !! k) as [g|] eqn:Eg; [|by exists s, []]. cbn [mbind option_bind].
  pose proof (ok_guilds _ Hs _ _ Eg) as Hg.
  destruct ((my_guild p =? 0) || (levels <? guild_level g)) eqn:El; [by exists s, []|].
  destruct (level_row_known g) as (need & cost & -> & _); [pose proof (ok_level _ _ Hg); lia|].
  cbn [mbind option_bind]. destruct (_ <? need); [by exists s, []|].
  destruct (find_member _ _); [|by exists s, []]. destruct (negb _); [by exists s, []|].
  destruct (_ <? cost); [by exists s, []|]. destruct (Messages.OnBuxGems _ _ _ _) as [a es].
  eexists _, _. split; [done|]. apply on_guild_ok.
  - apply on_peer_ok; [done|]. intros q Hq. split; [done|]. by apply (ok_peers _ Hs i q).
  - intros g0. rewrite on_peer_guilds, Eg. intros [= <-]. apply level_up_ok; [done|lia].
  - intros g0 j q. rewrite on_peer_guilds, Eg. intros [= <-] _ _. by rewrite !listed_existsb.
Qed.

(** ** Creation *)

Lemma founded_ok gs p name description :
  Z.of_nat (length gs) < 2 ^ 31 - 1 ->
  guild_ok (length gs) (founded now gs p name description) /\
  listed (tankIDName p) (founded now gs p name description).
Proof.
  intros Hc. split.
  - constructor; cbn; try done.
    + rewrite i32_small by lia. lia.
    + by repeat constructor.
    + change levels with 29. lia.
  - exists (new_member (tankIDName p) 3 now). split; [|apply same_name_refl]. cbn. by apply list_elem_of_singleton.
Qed.

Lemma append_ok s g ws :
  state_ok s -> guild_ok (length (guilds s)) g -> Z.of_nat (length (guilds s)) < 2 ^ 31 - 1 ->
  state_ok (mkState (guilds s ++ [g]) (peers s) ws).
Proof.
  intros [] Hg Hc. constructor; try done; cbn.
  - intros k g0 [H|[Hk H]]%lookup_app_Some; [by apply ok_guilds0|].
    destruct (k - length (guilds s))%nat as [|n] eqn:E; [|by destruct n]. injection H as <-.
    by replace k with (length (guilds s)) by lia.
  - rewrite length_app. cbn. lia.
  - intros i p Hp Hz. destruct (ok_peers0 i p Hp Hz) as (k & g0 & Hk & ?). exists k, g0.
    split; [by apply lookup_app_l_Some|done].
Qed.

Lemma create_ok items words i cch s s' es :
  state_ok s -> Z.of_nat (length (guilds s)) < 2 ^ 31 - 1 ->
  confirmguild items to_float now words i cch s = Some (s', es) -> state_ok s'.
Proof.
  intros Hs Hc. unfold confirmguild. destruct (peer s i) as [p|] eqn:Ep; [|done]. cbn [mbind option_bind].
  destruct (_ <? _); [by intros [= <- _]|]. destruct (negb _); [by intros [= <- _]|].
  destruct (World.world_named _ _); [|by intros [= <- _]].
  destruct (Texts.Texts.get_embed cch "guildname") as [name|]; [|done]. cbn [mbind option_bind].
  destruct (Texts.Texts.get_embed cch "guilddesc") as [description|]; [|done]. cbn [mbind option_bind].
  match goal with |- context [if ?b then Some (s, []) else _] => destruct b end; [by intros [= <- _]|].
  destruct (update_world _ _ _) as [ws|]; [|done]. cbn [mbind option_bind].
  destruct (Messages.OnMinGems _ _ _ _) as [a e]. intros [= <- _].
  destruct (founded_ok (guilds s) p name description Hc) as [Hg Hin].
  apply on_peer_ok; [by apply append_ok|]. cbn. intros q Hq. split; [done|]. intros _.
  exists (length (guilds s)), (founded now (guilds s) p name description). cbn [guilds].
  rewrite lookup_app_r, Nat.sub_diag by lia. split; [done|]. split; [done|].
  cbn [tankIDName set_account set_guild]. unfold peer in *. cbn in Hq. rewrite Ep in Hq.
  injection Hq as <-. exact Hin.
Qed.

End Steps2.

(** ** What the loops do to single members *)

Lemma change_roles_pointwise promote actor target my_rank ms :
  Forall (λ m, 0 <= role_id m <= 3) ms -> forall j m m',
  ms !! j = Some m -> (change_roles promote actor target my_rank ms).1 !! j = Some m' ->
  m' = m \/ (role_id m < my_rank /\ role_id m' <= my_rank /\ role_id m <> 3 /\ role_id m' <> 3).
Proof.
  induction 1 as [|m0 ms Hm0 _ IH]; intros j m m'; [done|]. cbn [change_roles].
  destruct (change_roles promote actor target my_rank ms) as [ms' cs]. cbn [fst] in *.
  destruct j as [|j].
  - intros [= <-]. destruct (is_named target m0); [destruct (changed_role _ _ _) as [r|] eqn:Er|];
      cbn; intros [= <-]; try by left.
    right. destruct (changed_role_range _ _ _ _ Hm0 Er) as (? & ? & ? & ?). cbn. lia.
  - intros Hm Hm'. apply (IH j); [done|].
    revert Hm'. by destruct (is_named target m0); [destruct (changed_role _ _ _)|].
Qed.

Lemma fold_role_log_members now promote actor target cs : forall g,
  guild_members (fold_left (λ g r, role_log now promote actor target r g) cs g) = guild_members g.
Proof. induction cs as [|r cs IH]; intros g; [done|]. cbn. rewrite IH. by destruct promote. Qed.

Lemma iter_log_members text d now n g :
  guild_members (Nat.iter n (create_guild_log text d now) g) = guild_members g.
Proof. induction n; [done|]. cbn. done. Qed.

Lemma on_guild_same k f s :
  (forall g, guilds s !! k = Some g -> f g = g) -> guilds (on_guild k f s) = guilds s.
Proof.
  intros Hf. apply list_eq. intros j. rewrite on_guild_lookup. case_decide; [|done]. subst j.
  destruct (guilds s !! k) as [g|] eqn:E; [|done]. cbn. by rewrite Hf.
Qed.

Lemma leave_loop_none name ms :
  (forall m, m ∈ ms -> is_named name m = false) -> (leave_loop name ms).1 = ms.
Proof.
  induction ms as [|m ms IH]; intros H; [done|]. cbn [leave_loop]. rewrite H by (by left).
  rewrite surjective_pairing with (p := leave_loop name ms). cbn. f_equal. apply IH. intros m' Hm'. apply H. by right.
Qed.

(** One member of the name, no leader: exactly that one leaves. *)
Lemma leave_loop_one name ms m :
  base.NoDup ms -> m ∈ ms -> is_named name m = true -> role_id m <> 3 ->
  (forall m', m' ∈ ms -> is_named name m' = true -> m' = m) ->
  forall m', m' ∈ (leave_loop name ms).1 <-> m' ∈ ms /\ m' <> m.
Proof.
  intros Hnd. induction Hnd as [|m0 ms Hm0 Hnd IH]; intros Hm Hnm Hr Hu m'; [by apply elem_of_nil in Hm|].
  cbn [leave_loop]. destruct (is_named name m0) eqn:E0.
  - assert (m0 = m) as -> by (apply Hu; [by left|done]).
    replace (role_id m =? 3) with false by lia.
    assert (forall m1, m1 ∈ ms -> is_named name m1 = false) as Hno.
    { intros m1 H1. destruct (is_named name m1) eqn:E; [|done]. exfalso. apply Hm0.
      rewrite <- (Hu m1); [done|by right|done]. }
    rewrite elem_of_cons. destruct ms as [|m2 ms2].
    + cbn. rewrite elem_of_nil. intuition congruence.
    + rewrite surjective_pairing with (p := leave_loop name ms2). cbn [fst].
      rewrite leave_loop_none by (intros m1 H1; apply Hno; by right).
      split; [intros H; split; [by right|by intros ->]|intros [[->|H] Hne]; done].
  - rewrite surjective_pairing with (p := leave_loop name ms). cbn [fst]. rewrite !elem_of_cons.
    apply elem_of_cons in Hm as [->|Hm]; [congruence|].
    rewrite IH; try done; [|intros m1 H1; apply Hu; by right].
    split; [intros [->|[H1 H2]]; [split; [by left|by intros ->]|split; [by right|done]]|tauto].
Qed.

(** C28: rank protects. Whoever asks for a promotion, a demotion or a removal,
    each member of the guild after it is as before, or was below the asking
    player and has a rank not above theirs; and who is no longer on the list
    was below them. *)
Theorem rank_protects now i p k g s :
  state_ok s -> peer s i = Some p -> my_guild p <> 0 ->
  find_guild (my_guild p) (guilds s) = Some k -> guilds s !! k = Some g ->
  let my_rank := last_rank (tankIDName p) (guild_members g) in
  (forall promote target j m m' g',
     guilds (guild_member_role_change now i promote target s) !! k = Some g' ->
     guild_members g !! j = Some m -> guild_members g' !! j = Some m' ->
     m' = m \/ (role_id m < my_rank /\ role_id m' <= my_rank /\ role_id m <> 3 /\ role_id m' <> 3)) /\
  (forall target s' es g' m,
     guild_member_remove now i target s = (s', es) -> guilds s' !! k = Some g' ->
     m ∈ guild_members g -> m ∈ guild_members g' \/ role_id m < my_rank).
Proof.
  intros Hs Hp Hz Hk Hg my_rank. pose proof (ok_guilds _ Hs _ _ Hg) as Hok. split.
  - intros promote target j m m' g'. unfold guild_member_role_change.
    rewrite Hp. cbn [mbind option_bind]. rewrite Hk. cbn [mbind option_bind]. rewrite Hg.
    cbn [mbind option_bind]. fold my_rank.
    pose proof (change_roles_pointwise promote (tankIDName p) target my_rank (guild_members g)
      (ok_roles _ _ Hok) j m) as Hpw.
    destruct (change_roles _ _ _ _ _) as [ms cs]. cbn [fst] in Hpw.
    rewrite on_guild_lookup, decide_True, Hg by done. cbn [fmap option_fmap option_map]. intros [= <-].
    rewrite fold_role_log_members. cbn [guild_members set_members]. intros Hm Hm'. by apply Hpw.
  - intros target s' es g' m. unfold guild_member_remove.
    rewrite Hp. cbn [mbind option_bind]. rewrite Hk. cbn [mbind option_bind]. rewrite Hg.
    cbn [mbind option_bind]. fold my_rank.
    assert (forall g0, guilds s !! k = Some g0 -> m ∈ guild_members g ->
      m ∈ guild_members g0 \/ role_id m < my_rank) as Hsame.
    { intros g0 Hg0 Hm. left. rewrite Hg in Hg0. by injection Hg0 as <-. }
    destruct (find_member target (guild_members g)) as [j|] eqn:Ej; cbn [mbind option_bind];
      [|intros [= <- _]; auto].
    destruct (find_member_spec _ _ _ Ej) as (m0 & Hj & _). rewrite Hj. cbn [fmap option_fmap option_map].
    destruct (_ && _) eqn:Ekick; [|intros [= <- _]; auto]. intros [= <- _].
    rewrite on_guild_lookup, decide_True by done. cbn [guilds]. rewrite Hg. cbn [fmap option_fmap option_map].
    intros [= <-] Hm. cbn [guild_members set_members].
    rewrite delete_take_drop. rewrite <- (take_drop_middle _ _ _ Hj), elem_of_app, elem_of_cons in Hm.
    rewrite elem_of_app. destruct Hm as [Hm|[->|Hm]]; [tauto| |tauto]. right. lia.
Qed.

(** Leaving a guild. A leader with other members stays. A member who is no
    leader is taken off the list, the others stay, and the player has no
    guild. A leader alone loses the guild but stays on its list as its
    leader. *)
Theorem leaving_guild now i p k g s :
  peer s i = Some p -> my_guild p <> 0 -> find_guild (my_guild p) (guilds s) = Some k ->
  guilds s !! k = Some g ->
  (forall m m', m ∈ guild_members g -> m' ∈ guild_members g ->
     is_named (tankIDName p) m = true -> is_named (tankIDName p) m' = true -> m = m') ->
  base.NoDup (guild_members g) ->
  let s' := (leave_guild now i s).1 in
  (forall m, m ∈ guild_members g -> is_named (tankIDName p) m = true ->
     (role_id m = 3 -> length (guild_members g) <> 1%nat -> s' = s) /\
     (role_id m = 3 -> length (guild_members g) = 1%nat ->
        guilds s' = guilds s /\ exists p', peer s' i = Some p' /\ my_guild p' = 0) /\
     (role_id m <> 3 -> exists g' p', guilds s' !! k = Some g' /\ peer s' i = Some p' /\ my_guild p' = 0 /\
        forall m', m' ∈ guild_members g' <-> m' ∈ guild_members g /\ m' <> m)).
Proof.
  intros Hp Hz Hk Hg Huniq Hnd. cbv zeta. intros m Hm Hnm. unfold leave_guild.
  rewrite Hp. cbn [mbind option_bind]. rewrite Hk. cbn [mbind option_bind]. rewrite Hg. cbn [mbind option_bind].
  replace (my_guild p =? 0) with false by lia. cbn [orb].
  assert (existsb (λ m, is_named (tankIDName p) m && (role_id m =? 3)) (guild_members g)
    = (role_id m =? 3)) as Hlead.
  { apply eq_true_iff_eq. rewrite existsb_exists. split.
    - intros (m' & Hm' & H). apply andb_true_iff in H as [H1 H2]. apply list_elem_of_In in Hm'.
      by rewrite (Huniq m m' Hm Hm' Hnm H1).
    - intros H. exists m. rewrite <- list_elem_of_In. by rewrite Hnm. }
  unfold leader_stays. rewrite Hlead. split; [|split].
  - intros -> Hl. by rewrite (proj2 (Nat.eqb_neq _ _) Hl).
  - intros E Hl. rewrite E, Hl. cbn [Z.eqb Pos.eqb Nat.eqb negb andb].
    destruct (guild_members g) as [|m0 [|]] eqn:Eg; try done. apply list_elem_of_singleton in Hm as ->.
    cbn [leave_loop]. rewrite Hnm, E. cbn [Z.eqb Pos.eqb Nat.iter fst]. split.
    + rewrite on_guild_same; [by rewrite on_peer_guilds|]. rewrite on_peer_guilds. intros g0 Hg0.
      rewrite Hg in Hg0. injection Hg0 as <-. destruct g; cbn in *; by subst.
    + exists (set_guild 0 p). unfold peer, on_guild. cbn. fold (peer (on_peer i (set_guild 0) s) i).
      by rewrite on_peer_lookup, decide_True, Hp.
  - intros E. replace (role_id m =? 3) with false by lia. cbn [andb].
    pose proof (leave_loop_one (tankIDName p) (guild_members g) m Hnd Hm Hnm E) as Hone.
    destruct (leave_loop _ _) as [ms n]. cbn [fst] in *.
    eexists _, (set_guild 0 p). split; [by rewrite on_guild_lookup, decide_True, on_peer_guilds, Hg|].
    split; [|split; [done|]].
    + unfold peer, on_guild. cbn. fold (peer (on_peer i (set_guild 0) s) i).
      by rewrite on_peer_lookup, decide_True, Hp.
    + intros m'. rewrite iter_log_members. cbn [guild_members set_members]. apply Hone.
      intros m1 H1 N1. by apply Huniq.
Qed.

(** ** The steps of the server *)

Section Reach.
Context (items : table) (to_float : Z -> Z) (nick : Member -> string) (words : list string).

(** A dialog of a connected player at some time, a trade by which the owner of
    a world hands it over with its guild that has room for one more, a
    connection of a player of a new name who has no guild or is on its list,
    and a disconnection. *)
Inductive step (s : State) : State -> Prop :=
| s_invite now i netid : step s (invitetoguild now nick i netid s)
| s_accept now i s' : acceptguild now i s = Some s' -> step s s'
| s_role now i promote target : step s (guild_member_role_change now i promote target s)
| s_remove now i target s' es : guild_member_remove now i target s = (s', es) -> step s s'
| s_leave now i s' es : leave_guild now i s = (s', es) -> step s s'
| s_xp i amount s' : add_guild_xp i amount s = Some s' -> step s s'
| s_upgrade now i s' es : upgrade_guild to_float now i s = Some (s', es) -> step s s'
| s_create now i cch s' es :
    Z.of_nat (length (guilds s)) < 2 ^ 31 - 1 ->
    confirmguild items to_float now words i cch s = Some (s', es) -> step s s'
| s_transfer file_ok now wk i j s' es :
    (forall w p, worlds s !! wk = Some w -> peer s i = Some p -> World.owner_name w = tankIDName p) ->
    (forall w k g, worlds s !! wk = Some w -> find_guild (World.guild_id w) (guilds s) = Some k ->
       guilds s !! k = Some g -> full g = false) ->
    transfer_world items now file_ok wk i j s = Some (s', es) -> step s s'
| s_connect p :
    belongs (guilds s) p ->
    (forall j q, peer s j = Some q -> same_name (tankIDName q) (tankIDName p) = false) ->
    step s (mkState (guilds s) (peers s ++ [Some p]) (worlds s))
| s_disconnect i : step s (mkState (guilds s) (<[i := None]> (peers s)) (worlds s)).

Lemma connect_ok s p :
  state_ok s -> belongs (guilds s) p ->
  (forall j q, peer s j = Some q -> same_name (tankIDName q) (tankIDName p) = false) ->
  state_ok (mkState (guilds s) (peers s ++ [Some p]) (worlds s)).
Proof.
  intros [] Hz Hnew.
  assert (forall j q, peer (mkState (guilds s) (peers s ++ [Some p]) (worlds s)) j = Some q ->
    peer s j = Some q \/ (j = length (peers s) /\ q = p)) as H.
  { intros j q. unfold peer. cbn. destruct (decide (j < length (peers s))%nat).
    - rewrite lookup_app_l by done. by left.
    - rewrite lookup_app_r by lia. destruct (j - length (peers s))%nat as [|n'] eqn:E; [|by destruct n'].
      cbn. intros [= <-]. right. split; [lia|done]. }
  constructor; try done.
  - intros i j q r [Hq|[-> ->]]%H [Hr|[-> ->]]%H Hs; [by eapply ok_names0| | |done].
    + by rewrite (Hnew i q Hq) in Hs.
    + rewrite same_name_sym, (Hnew j r Hr) in Hs. done.
  - intros i q [Hq|[-> ->]]%H; [by apply (ok_peers0 i)|done].
Qed.

Lemma disconnect_ok s i :
  state_ok s -> state_ok (mkState (guilds s) (<[i := None]> (peers s)) (worlds s)).
Proof.
  intros [].
  assert (forall j q, peer (mkState (guilds s) (<[i := None]> (peers s)) (worlds s)) j = Some q ->
    peer s j = Some q) as H.
  { intros j q. unfold peer. cbn. destruct (decide (j = i)) as [->|];
      [|by rewrite list_lookup_insert_ne]. destruct (decide (i < length (peers s))%nat);
      [by rewrite list_lookup_insert_eq|]. rewrite list_insert_ge by lia. done. }
  constructor; try done.
  - intros j1 j2 p q Hp%H Hq%H. by apply ok_names0.
  - intros j p Hp%H. by apply (ok_peers0 j).
Qed.

Lemma step_ok s s' : step s s' -> state_ok s -> state_ok s'.
Proof.
  destruct 1; intros Hs.
  - by apply invite_ok.
  - by eapply accept_ok.
  - by apply role_change_ok.
  - pose proof (remove_ok now i target s Hs) as H'. by rewrite H in H'.
  - pose proof (leave_ok now i s Hs) as H'. by rewrite H in H'.
  - destruct (xp_ok i amount s Hs) as (? & E & ?). congruence.
  - destruct (upgrade_ok to_float now i s Hs) as (? & ? & E & ?). congruence.
  - by eapply create_ok.
  - by eapply transfer_ok.
  - by apply connect_ok.
  - by apply disconnect_ok.
Qed.

Lemma reach_ok s s' : rtc step s s' -> state_ok s -> state_ok s'.
Proof. induction 1; [done|]. intros Hs. apply IHrtc. by eapply step_ok. Qed.

(** C9: the invariant of the guilds. From a server without guilds or players,
    after any sequence of: invitations, acceptances, changes of rank,
    removals, leavings, experience, upgrades and foundings, with any texts
    and at any times (foundings while there are fewer than 2^31 - 1 guilds);
    trades that hand a world over with its guild, given by the owner of the
    world while the guild has room for one more (without room or by somebody
    else the trade does break this); disconnections, and connections of
    players whose name no connected player has and who have no guild or are
    on its list. Then the guild at index [k] has the id [k+1], exactly one
    leader, ranks from 0 to 3, no more members than five for each level, a
    level up to one above the table, at most 10 log entries and an experience
    in the range; no two connected players have the same name, and every
    connected player with a guild is on its list. *)
Theorem guilds_always_ok ws s :
  rtc step (mkState [] [] ws) s -> state_ok s.
Proof.
  intros Hr. apply (reach_ok _ _ Hr). by constructor.
Qed.

End Reach.

(** ** A guild at work *)

Definition demo_account (netid gems_ : Z) : Messages.Player :=
  Messages.mkPlayer 0 0 0 [] 0 gems_ 0 0 0 0 false "HOME" netid 0 0 false ∅.

Definition home : World.World :=
  World.mkWorld "HOME" "Ann" [] 0 0 100 1 0 false (repeat World.block_default 100) [].

Definition ann : Member := mkPeer "Ann" 0 0 "bob" (demo_account 1 200000).
Definition bob : Member := mkPeer "Bob" 0 0 "" (demo_account 2 0).

Definition demo_form : string :=
  cat ["guildname|Builders|"; endl; "guilddesc|We build things|"; endl].

Definition nick : Member -> string := tankIDName.
Definition demo_create (s : State) : option State :=
  fst <$> confirmguild [] (λ z, z) 0 ["bad"] 0 demo_form s.

(** Ann founds a guild, invites Bob, who joins, and promotes him. *)
Definition d1 : State := mkState [] [Some ann; Some bob] [home].
Definition d2 : State := default d1 (demo_create d1).
Definition d3 : State := invitetoguild 0 nick 0 2 d2.
Definition d4 : State := default d3 (acceptguild 0 1 d3).
Definition d5 : State := guild_member_role_change 0 0 true "bob" d4.

Lemma demo_steps : rtc (step [] (λ z, z) nick ["bad"]) (mkState [] [] [home]) d5.
Proof.
  eapply rtc_l; [apply (s_connect _ _ _ _ _ ann); [intros H; by destruct H|by intros []]|].
  eapply rtc_l; [apply (s_connect _ _ _ _ _ bob); [intros H; by destruct H|]|].
  { intros [|[]] q; [|done..]. by intros [= <-]. }
  apply (rtc_l _ _ d2); [apply (s_create _ _ _ _ _ 0 0%nat demo_form _
    (default [] (snd <$> confirmguild [] (λ z, z) 0 ["bad"] 0 demo_form d1)));
    [cbn; lia|vm_compute; reflexivity]|].
  apply (rtc_l _ _ d3); [apply s_invite|].
  apply (rtc_l _ _ d4); [apply (s_accept _ _ _ _ _ 0 1%nat); vm_compute; reflexivity|].
  apply rtc_once. apply s_role.
Qed.

Lemma demo_ok : state_ok d5.
Proof. apply (reach_ok _ _ _ _ _ _ demo_steps). by constructor. Qed.

Lemma guilds_always_ok_witness :
  state_ok d5 /\ (λ g, (guild_id g, (λ m, (member_name m, role_id m)) <$> guild_members g)) <$> guilds d5
    = [(1, [("Ann", 3); ("Bob", 1)])].
Proof.
  split; [|vm_compute; reflexivity].
  exact (guilds_always_ok [] (λ z, z) nick ["bad"] [home] d5 demo_steps).
Defined.

Definition guild1 : Guild := default guild_default (guilds d5 !! 0%nat).
Definition ann5 : Member := default ann (peer d5 0).
Definition bob5 : Member := default bob (peer d5 1).

(** Bob, an elder, asks for Ann's demotion and removal. *)
Lemma rank_protects_witness :
  (forall promote target j m m' g',
     guilds (guild_member_role_change 0 1 promote target d5) !! 0%nat = Some g' ->
     guild_members guild1 !! j = Some m -> guild_members g' !! j = Some m' ->
     m' = m \/ (role_id m < 1 /\ role_id m' <= 1 /\ role_id m <> 3 /\ role_id m' <> 3)) /\
  (forall target s' es g' m,
     guild_member_remove 0 1 target d5 = (s', es) -> guilds s' !! 0%nat = Some g' ->
     m ∈ guild_members guild1 -> m ∈ guild_members g' \/ role_id m < 1).
Proof.
  exact (rank_protects 0 1%nat bob5 0%nat guild1 d5 demo_ok ltac:(vm_compute; reflexivity)
    ltac:(vm_compute; congruence) ltac:(vm_compute; reflexivity) ltac:(vm_compute; reflexivity)).
Defined.

Definition bob_member : GuildMember := mkMember 1 "Bob" "" 0 true true.

Lemma leaving_guild_witness :
  exists g' p', guilds (leave_guild 0 1 d5).1 !! 0%nat = Some g' /\
    peer (leave_guild 0 1 d5).1 1 = Some p' /\ my_guild p' = 0 /\
    forall m', m' ∈ guild_members g' <-> m' ∈ guild_members guild1 /\ m' <> bob_member.
Proof.
  assert (guild_members guild1 = [mkMember 3 "Ann" "" 0 true true; bob_member]) as Hms
    by (vm_compute; reflexivity).
  destruct (leaving_guild 0 1%nat bob5 0%nat guild1 d5 ltac:(vm_compute; reflexivity)
    ltac:(vm_compute; congruence) ltac:(vm_compute; reflexivity) ltac:(vm_compute; reflexivity))
    with (m := bob_member) as (_ & _ & H).
  - rewrite Hms. intros m m'. rewrite !elem_of_cons, !elem_of_nil.
    intros [->|[->|[]]] [->|[->|[]]]; vm_compute; congruence.
  - rewrite Hms. apply list.NoDup_cons. split; [|apply NoDup_singleton].
    rewrite list_elem_of_singleton. done.
  - rewrite Hms. right. by left.
  - vm_compute. reflexivity.
  - apply H. cbn. lia.
Defined.

(** ** A full guild is handed over *)

(** Ann leads a guild of level 1 with four co-leaders, in the world she owns. *)
Definition guild_items : table :=
  repeat item_default (Z.to_nat 5814) ++ [mkItem "Guild Lock" "Guild Lock" LOCK HAIR 256 "" "" "" false 0].
Definition others : list GuildMember :=
  (λ n, new_member n 2 0) <$> ["Bob"; "Cat"; "Dan"; "Eva"].
Definition five : Guild :=
  set_members (new_member "Ann" 3 0 :: others) (founded 0 [] ann "Builders" "We build things").
Definition guild_home : World.World :=
  World.mkWorld "HOME" "Ann" [] 0 1 100 1 0 false (set_fg 5814 World.block_default :: repeat World.block_default 99) [].
Definition gus : Member := mkPeer "Gus" 0 0 "" (demo_account 2 0).
Definition full_house : State := mkState [five] [Some (set_guild 1 ann); Some gus] [guild_home].

Lemma full_house_ok : state_ok full_house.
Proof.
  constructor.
  - intros [|k] g; [|by destruct k]. intros [= <-]. constructor; vm_compute; try done; try lia.
    by repeat constructor.
  - done.
  - intros [|[|i]] [|[|j]] p q; cbn; try done; by intros [= <-] [= <-].
  - intros [|[|i]] p; cbn; try done; intros [= <-]; [|intros H; by destruct H].
    intros _. exists 0%nat, five. split; [done|]. split; [done|]. exists (new_member "Ann" 3 0).
    split; [by left|done].
Qed.

(** A trade overfills a guild. In a state where all that
    [guilds_always_ok] says holds, Ann leads a guild of level 1 with five
    members, as many as it may have, and owns the world of its lock; Gus has
    no guild. When she trades the world to Gus, who could not have accepted
    an invitation, the guild has six members. *)
Theorem transfer_over_capacity :
  state_ok full_house /\
  (guild_members <$> guilds full_house) = [new_member "Ann" 3 0 :: others] /\
  (capacity <$> guilds full_house) = [5] /\
  option_map guilds (acceptguild 0 1 (on_peer 1 (set_pending 1) full_house)) = Some (guilds full_house) /\
  exists s es, transfer_world guild_items 0 (λ _ _, false) 0 0 1 full_house = Some (s, es) /\
    World.owner_name <$> worlds s = ["Gus"] /\
    (guild_members <$> guilds s) = [new_member "Ann" 2 0 :: others ++ [new_member "Gus" 3 0]] /\
    (capacity <$> guilds s) = [5] /\ ~ state_ok s.
Proof.
  split; [exact full_house_ok|]. split; [done|]. split; [done|]. split; [vm_compute; done|].
  destruct (transfer_world guild_items 0 (λ _ _, false) 0 0 1 full_house) as [[s es]|] eqn:E;
    [|by vm_compute in E].
  exists s, es. split; [done|]. vm_compute in E. injection E as <- <-.
  split; [done|]. split; [done|]. split; [done|]. intros Hs.
  pose proof (ok_size _ _ (ok_guilds _ Hs 0%nat _ eq_refl)) as H. by vm_compute in H.
Qed.

(** Somebody else than the owner who leads the guild gives the world: the
    guild has two leaders. *)
Example two_leaders :
  let s := mkState [five] [Some (set_guild 1 ann); Some gus] [set_owner_name "Zoe" guild_home] in
  (λ r, (λ g, role_id <$> guild_members g) <$> guilds r.1) <$>
    transfer_world guild_items 0 (λ _ _, true) 0 0 1 s = Some [[3; 2; 2; 2; 2; 3]].
Proof. vm_compute. reflexivity. Qed.

(** A leader who is alone leaves a guild behind that nobody is in. *)
Example lone_leader :
  let s := (leave_guild 0 0 d2).1 in
  (my_guild <$> peer s 0, (λ g, role_id <$> guild_members g) <$> guilds s) = (Some 0, [[3]]).
Proof. vm_compute. reflexivity. Qed.

(** Saving does not clear the mark: every later save writes the guild again. *)
Example saved_again : save_guilds (guilds d5) <> [] /\ flag_set guild1 0 = true.
Proof. vm_compute. split; congruence. Qed.

(** A co-leader can make another co-leader, which the dialog does not offer. *)
Example coleader_promotes : changed_role true 1 2 = Some 2.
Proof. reflexivity. Qed.

End GuildFacts.
