(* ===== verification/Access.v ===== *)
(** * Access: who may change a block of a world

    Models the class [Role], [world_access_bypass] and [block_access] of
    [src/NopySource/Handle/WorldInfo.h] ([Only_Access] is another name of
    [block_access], [src/NopySource/Handle/BaseServer.h]), with the roles of
    [src/NopySource/Handle/PlayerInfo.h].  [None] is a block outside of the
    world. *)
From S2P Require Import Prelude World Guild.
Import World Guild.

Module Access.

(** ** Roles *)

Record Roles := mkRoles {
  Role_Level : Z;
  custom_role_name : string;
  Owner_Server : bool;
  Unlimited : bool;
  God : bool;
  Developer : bool;
  Administrator : bool;
  Moderator : bool;
  Vip : bool;
  Cheats : bool;
  Coder : bool;
  Streamers : bool;
  Staff : bool;
  has_config_access : bool;
  Donatur : bool
}.

Record CustomRoleEntry := mkCustomRole { cr_name : string; level : Z; can_access_world : bool }.

(** The settings of the server: [g_customRoles], [commandLevelOverrides] and
    [C_List]. *)
Record ServerRoles := mkServerRoles {
  g_customRoles : list CustomRoleEntry;
  commandLevelOverrides : gmap string Z;
  clist : list string
}.

(** A player at a block. *)
Record Visitor := mkVisitor {
  who : Guild.Member;          (* name and guild *)
  Role : Roles;
  roles : list string;
  hand : Z
}.

Definition name_of (v : Visitor) : string := tankIDName (who v).

Definition Prefix (r : Roles) : string :=
  if Owner_Server r then "`b[OWNER] @" else if has_config_access r then "`c[CONFIG] @"
  else if Staff r then "`4[STAFF] @" else if Streamers r then "`4[STREAM] @"
  else if Donatur r then "`2[DONATOR] @" else if Unlimited r then "`8[UNLIMITED] @"
  else if God r then "`9[GOD] @" else if Developer r then "`6[DEV] @"
  else if Administrator r then "`e[ADMIN] @" else if Moderator r then "`#[MOD] @"
  else if Vip r then "`1[VIP] @" else "`w".

(** The roles that hide that a player owns the world. *)
Definition hasRole (r : Roles) : bool :=
  Owner_Server r || has_config_access r || Staff r || Streamers r || Donatur r || Unlimited r ||
  God r || Developer r || Administrator r || Moderator r.

Definition Prefix2 (v : Visitor) (w : World) : string :=
  let owner := to_lower (owner_name w) in
  if negb (hasRole (Role v)) && negb (is_empty owner) && String.eqb owner (to_lower (name_of v))
  then "`2" else Prefix (Role v).

Definition GetCmdEffectiveLevel (cfg : ServerRoles) (cmd : string) (defaultLevel : Z) : Z :=
  default defaultLevel (commandLevelOverrides cfg !! cmd).

Fixpoint custom_role (name : string) (l : list CustomRoleEntry) : option CustomRoleEntry :=
  match l with
  | [] => None
  | r :: l => if String.eqb (to_lower (cr_name r)) (to_lower name) then Some r else custom_role name l
  end.

Definition builtin_level (cfg : ServerRoles) (v : Visitor) : Z :=
  let r := Role v in
  if has_config_access r then 999
  else if String.eqb (to_lower (name_of v)) "albin" then 14
  else if existsb (String.eqb (name_of v)) (clist cfg) then 13
  else if Coder r then 12 else if Owner_Server r then 11 else if Streamers r then 10
  else if Staff r then 9 else if Unlimited r then 8 else if God r then 7 else if Donatur r then 6
  else if Developer r then 5 else if Administrator r then 4 else if Moderator r then 3
  else if Vip r then 2 else if Cheats r then 1 else 0.

Definition GetLevel (cfg : ServerRoles) (v : Visitor) : Z :=
  let custom := if is_empty (custom_role_name (Role v)) then None
                else custom_role (custom_role_name (Role v)) (g_customRoles cfg) in
  match custom with
  | Some r => GetCmdEffectiveLevel cfg (cr_name r) (level r)
  | None => builtin_level cfg v
  end.

(** ** [world_access_bypass] *)

Definition access_prefix : string := "__builtin_access_world_".

(** [DEF]: the levels of the roles that are not configured. *)
Definition role_defaults : list (string * Z) :=
  [("Player", 0); ("VIP", 2); ("Moderator", 3); ("Administrator", 4); ("Developer", 5);
   ("Donatur", 6); ("God", 7); ("Unlimited", 8); ("Streamers", 9); ("Staff", 10); ("Owner", 11);
   ("Coder", 12); ("Clist", 13); ("Config", 999)].

Fixpoint default_level (role_name : string) (l : list (string * Z)) : Z :=
  match l with
  | [] => -1
  | (n, v) :: l => if String.eqb role_name n then v else default_level role_name l
  end.

Definition threshold (cfg : ServerRoles) (role_name : string) : Z :=
  match commandLevelOverrides cfg !! ("__builtin_level_" +:+ role_name) with
  | Some v => v
  | None => default_level role_name role_defaults
  end.

(** One entry of [commandLevelOverrides]. *)
Definition entry_opens (cfg : ServerRoles) (playerLevel : Z) (kv : string * Z) : bool :=
  let '(key, v) := kv in
  if negb (v =? 1) then false
  else if (slen key <=? 23) || negb (starts_with access_prefix key) then false
  else
    let t := threshold cfg (drop_str 23 key) in (0 <=? t) && (t <=? playerLevel).

Definition world_access_bypass (cfg : ServerRoles) (v : Visitor) : bool :=
  existsb (entry_opens cfg (Role_Level (Role v))) (map_to_list (commandLevelOverrides cfg)) ||
  existsb (λ cr, can_access_world cr && existsb (String.eqb (cr_name cr)) (roles v)) (g_customRoles cfg).

(** ** [block_access] *)

Definition is_admin (v : Visitor) (l : list string) : bool :=
  existsb (String.eqb (to_lower (name_of v))) l.

Definition block_access (cfg : ServerRoles) (gs : list Guild) (v : Visitor) (w : World) (b : WorldBlock)
    (vend admin_access lock_access public_world : bool) : option bool :=
  if iequals (owner_name w) (name_of v) ||
     (has_config_access (Role v) && negb (String.eqb (name w) "GROWCH")) then Some true
  else if world_access_bypass cfg v then Some true
  else if String.eqb (name w) "GROWCH" && (fg b =? 3200) && (hand v =? 3206) then Some true
  else if vend then
    if Z.testbit (world_settings w) 3 && negb public_world && negb (locked b) && is_admin v (admins w)
    then Some true
    else if locked b then
      lock ← block_at w (lock_origin b); Some (iequals (block_owner lock) (name_of v))
    else Some (is_empty (owner_name w) && negb public_world)
  else if locked b then
    lock ← block_at w (lock_origin b);
    Some ((negb lock_access && is_admin v (block_admins lock)) ||
          iequals (block_owner lock) (name_of v) || (negb public_world && spin lock))
  else
    Some ((negb public_world &&
           (is_empty (owner_name w) || Z.testbit (world_settings w) 4 ||
            guild_access gs (who v) (World.guild_id w))) ||
          (negb admin_access && is_admin v (admins w))).

(** ** What the functions decide *)

(** Why a player may use a block. *)
Inductive granted (cfg : ServerRoles) (gs : list Guild) (v : Visitor) (w : World) (b : WorldBlock)
    (vend admin_access lock_access public_world : bool) : Prop :=
| by_owner : to_lower (owner_name w) = to_lower (name_of v) ->
    granted cfg gs v w b vend admin_access lock_access public_world
| by_config : has_config_access (Role v) = true -> name w <> "GROWCH" ->
    granted cfg gs v w b vend admin_access lock_access public_world
| by_bypass : world_access_bypass cfg v = true ->
    granted cfg gs v w b vend admin_access lock_access public_world
| by_tool : name w = "GROWCH" -> fg b = 3200 -> hand v = 3206 ->
    granted cfg gs v w b vend admin_access lock_access public_world
| by_lock lock : locked b = true -> block_at w (lock_origin b) = Some lock ->
    to_lower (block_owner lock) = to_lower (name_of v) ->
    granted cfg gs v w b vend admin_access lock_access public_world
| by_lock_admin lock : vend = false -> lock_access = false -> locked b = true ->
    block_at w (lock_origin b) = Some lock -> to_lower (name_of v) ∈ block_admins lock ->
    granted cfg gs v w b vend admin_access lock_access public_world
| by_open_lock lock : vend = false -> public_world = false -> locked b = true ->
    block_at w (lock_origin b) = Some lock -> spin lock = true ->
    granted cfg gs v w b vend admin_access lock_access public_world
| by_no_owner : public_world = false -> locked b = false -> owner_name w = "" ->
    granted cfg gs v w b vend admin_access lock_access public_world
| by_open_world : vend = false -> public_world = false -> locked b = false ->
    Z.testbit (world_settings w) 4 = true ->
    granted cfg gs v w b vend admin_access lock_access public_world
| by_guild : vend = false -> public_world = false -> locked b = false ->
    guild_access gs (who v) (World.guild_id w) = true ->
    granted cfg gs v w b vend admin_access lock_access public_world
| by_admin : vend = false -> admin_access = false -> locked b = false ->
    to_lower (name_of v) ∈ admins w ->
    granted cfg gs v w b vend admin_access lock_access public_world
| by_vend_admin : vend = true -> public_world = false -> locked b = false ->
    Z.testbit (world_settings w) 3 = true -> to_lower (name_of v) ∈ admins w ->
    granted cfg gs v w b vend admin_access lock_access public_world.

Lemma is_admin_spec v l : is_admin v l = true <-> to_lower (name_of v) ∈ l.
Proof.
  unfold is_admin. rewrite existsb_exists. setoid_rewrite <- list_elem_of_In.
  setoid_rewrite String.eqb_eq. split; [by intros (x & Hx & <-)|eauto].
Qed.

Lemma is_empty_spec s : is_empty s = true <-> s = "".
Proof. by destruct s. Qed.

(** C15: who may use a block. Whenever the lock of a locked block is a block
    of the world, the decision is made, and it is positive exactly for the
    reasons listed in [granted]: the owner, a player with the configuration
    right outside GROWCH, a role that bypasses, and, depending on the lock
    and the caller's flags, the owner and the admins of the lock, an open
    lock, a world without owner, an open world, the guild, and the admins of
    the world. *)
Theorem block_access_spec cfg gs v w b vend admin_access lock_access public_world :
  (locked b = true -> exists lock, block_at w (lock_origin b) = Some lock) ->
  exists r, block_access cfg gs v w b vend admin_access lock_access public_world = Some r /\
    (r = true <-> granted cfg gs v w b vend admin_access lock_access public_world).
Proof.
  intros Hlock. unfold block_access.
  destruct (iequals (owner_name w) (name_of v)) eqn:Eo; cbn [orb].
  { apply iequals_lower in Eo. exists true. split; [done|]. split; [intros _; by apply by_owner|done]. }
  destruct (has_config_access (Role v) && negb (String.eqb (name w) "GROWCH")) eqn:Ec.
  { apply andb_true_iff in Ec as [Ec En]. apply negb_true_iff, String.eqb_neq in En.
    exists true. split; [done|]. split; [intros _; by apply by_config|done]. }
  destruct (world_access_bypass cfg v) eqn:Eb.
  { exists true. split; [done|]. split; [intros _; by apply by_bypass|done]. }
  destruct (String.eqb (name w) "GROWCH" && (fg b =? 3200) && (hand v =? 3206)) eqn:Et.
  { exists true. split; [done|]. split; [|done]. rewrite !andb_true_iff, String.eqb_eq, !Z.eqb_eq in Et.
    destruct Et as [[? ?] ?]. intros _. by apply by_tool. }
  assert (forall r, (r = true <-> granted cfg gs v w b vend admin_access lock_access public_world) ->
    exists r', Some r = Some r' /\ (r' = true <-> granted cfg gs v w b vend admin_access lock_access public_world))
    as Hret by eauto.
  assert (~ (to_lower (owner_name w) = to_lower (name_of v))) as No.
  { rewrite <- iequals_lower. congruence. }
  assert (~ (has_config_access (Role v) = true /\ name w <> "GROWCH")) as Nc.
  { intros [H1 H2]. apply String.eqb_neq in H2. by rewrite H1, H2 in Ec. }
  assert (~ (name w = "GROWCH" /\ fg b = 3200 /\ hand v = 3206)) as Nt.
  { intros (H1 & H2 & H3). by rewrite H1, H2, H3 in Et. }
  destruct vend, (locked b) eqn:El.
  1, 3: destruct (Hlock eq_refl) as (lock & Hl); rewrite Hl.
  - rewrite andb_false_r. cbn [mbind option_bind andb]. apply Hret. rewrite iequals_lower.
    split; [by eapply by_lock|]. destruct 1; try (congruence || tauto).
  - apply Hret. rewrite !orb_true_iff, !andb_true_iff, !negb_true_iff, iequals_lower, is_admin_spec.
    split; [intros [[[? ?]|?]|[? ?]]; [by eapply by_lock_admin|by eapply by_lock|by eapply by_open_lock]|].
    destruct 1; try (congruence || tauto); simplify_eq; tauto.
  - rewrite andb_true_r.
    destruct (Z.testbit (world_settings w) 3 && negb public_world && is_admin v (admins w)) eqn:Ea.
    + apply Hret. split; [|done]. intros _. rewrite !andb_true_iff, negb_true_iff, is_admin_spec in Ea.
      destruct Ea as [[? ?] ?]. by apply by_vend_admin.
    + apply Hret. rewrite andb_true_iff, negb_true_iff, is_empty_spec.
      split; [intros [? ?]; by apply by_no_owner|]. destruct 1; try (congruence || tauto).
      exfalso. apply is_admin_spec in H3. by rewrite H0, H2, H3 in Ea.
  - apply Hret. rewrite !orb_true_iff, !andb_true_iff, !orb_true_iff, !negb_true_iff, is_admin_spec, is_empty_spec.
    split.
    + intros [[? [[?|?]|?]]|[? ?]]; [by apply by_no_owner|by apply by_open_world|by apply by_guild|by apply by_admin].
    + destruct 1; try (congruence || tauto).
Qed.

(** The flags only restrict. A caller that asks with [admin_access],
    [lock_access] or [public_world] is granted no more than one that asks
    without. *)
Theorem flags_restrict cfg gs v w b vend a l p a' l' p' :
  (a' = true -> a = true) -> (l' = true -> l = true) -> (p' = true -> p = true) ->
  granted cfg gs v w b vend a l p -> granted cfg gs v w b vend a' l' p'.
Proof.
  intros Ha Hl Hp H.
  assert (forall x y : bool, (y = true -> x = true) -> x = false -> y = false) as Hf
    by (intros [] []; intuition congruence).
  pose proof (Hf _ _ Ha) as Ha'. pose proof (Hf _ _ Hl) as Hl'. pose proof (Hf _ _ Hp) as Hp'.
  destruct H; [by apply by_owner|by apply by_config|by apply by_bypass|by apply by_tool|..].
  - by apply (by_lock _ _ _ _ _ _ _ _ _ lock).
  - apply (by_lock_admin _ _ _ _ _ _ _ _ _ lock); auto.
  - apply (by_open_lock _ _ _ _ _ _ _ _ _ lock); auto.
  - apply by_no_owner; auto.
  - apply by_open_world; auto.
  - apply by_guild; auto.
  - apply by_admin; auto.
  - apply by_vend_admin; auto.
Qed.

(** ** At work *)

Definition plain_roles : Roles :=
  mkRoles 0 "" false false false false false false false false false false false false false.
Definition no_config : ServerRoles := mkServerRoles [] ∅ [].

Definition visitor (n : string) (r : Roles) : Visitor :=
  mkVisitor (mkPeer n 0 0 "" (Messages.Messages.mkPlayer 0 0 0 [] 0 0 0 0 0 0 false "" 0 0 0 false ∅)) r [] 0.

(** A block locked by a small lock of Ann, who made Bob its admin. *)
Definition lock_block : WorldBlock := mkBlock 202 0 false 0 "Ann" ["bob"] false 0 0 0 0.
Definition area_block : WorldBlock := mkBlock 2 0 true 0 "" [] false 0 0 0 0.
Definition plot : World := mkWorld "PLOT" "Carl" [] 0 0 100 1 0 false [lock_block; area_block] [].

Lemma block_access_spec_witness :
  exists r, block_access no_config [] (visitor "Bob" plain_roles) plot area_block false false true false = Some r /\
    (r = true <-> granted no_config [] (visitor "Bob" plain_roles) plot area_block false false true false).
Proof.
  apply (block_access_spec no_config [] (visitor "Bob" plain_roles) plot area_block false false true false).
  intros _. exists lock_block. reflexivity.
Defined.

Lemma flags_restrict_witness :
  granted no_config [] (visitor "Bob" plain_roles) plot area_block false false false false.
Proof.
  apply (flags_restrict no_config [] (visitor "Bob" plain_roles) plot area_block false true false true);
    [done|done|done|].
  apply (by_lock_admin _ _ _ _ _ _ _ _ _ lock_block); try reflexivity. apply list_elem_of_singleton. reflexivity.
Defined.

Example admins_need_lock_access :
  (block_access no_config [] (visitor "Bob" plain_roles) plot area_block false false false false,
   block_access no_config [] (visitor "Bob" plain_roles) plot area_block false false true false,
   block_access no_config [] (visitor "ann" plain_roles) plot area_block true true true true,
   block_access no_config [] (visitor "Dan" plain_roles) plot area_block false false false false)
  = (Some true, Some false, Some true, Some false).
Proof. vm_compute. reflexivity. Qed.

(** The default thresholds of staff and streamers are swapped against the
    levels [GetLevel] gives: opening all worlds to staff opens them to
    streamers and not to staff. *)
Definition staff_config : ServerRoles := mkServerRoles [] {["__builtin_access_world_Staff" := 1]} [].

Definition leveled (r : Roles) : Visitor :=
  let l := GetLevel staff_config (visitor "X" r) in
  visitor "X" (mkRoles l (custom_role_name r) (Owner_Server r) (Unlimited r) (God r) (Developer r)
    (Administrator r) (Moderator r) (Vip r) (Cheats r) (Coder r) (Streamers r) (Staff r)
    (has_config_access r) (Donatur r)).

Definition staff_only : Roles :=
  mkRoles 0 "" false false false false false false false false false false true false false.
Definition streamer_only : Roles :=
  mkRoles 0 "" false false false false false false false false false true false false false.

Example staff_is_streamers :
  (world_access_bypass staff_config (leveled staff_only),
   world_access_bypass staff_config (leveled streamer_only)) = (false, true).
Proof. vm_compute. reflexivity. Qed.

End Access.
