(* ===== verification/Trade.v ===== *)
(** * Trade: the exchange of items between two players

    Models the trade of the server: [cancel_trade], [send_trade_confirm_dialog],
    [mod_trade] and [trade_space_check] of [src/NopySource/Handle/WorldInfo.h],
    the dialogs [trade_item] and [trade_confirm] of
    [src/NopySource/Dialog/dialog_return.h], the actions [Rem_Trade],
    [Mod_Trade], [trade_accept], [trade_cancel] and [trade_started] of
    [src/NopySource/Action/Action.h], and the command [TRADE] of
    [src/NopySource/Commands/Commands.h].  Items move with [Inventory.Modify].

    The messages that only show the trade to the clients are left out; so is
    the body of [transfer_world], which sells a world for its key: it is an
    effect here, and modelled in [Guild].  [None] is an exception, an access outside a vector or the use of
    an element that was destroyed. *)
From S2P Require Import Prelude Memory Items Packet Inventory Scanner Dispatch World Texts.
Import Items Inventory.

Module Trade.

(** ** The state of a trade *)

(** [trade_items] is a vector of maps; each map is made with one entry and
    never gets another, so an offer is a pair of item and count. *)
Record Trade := mkTrade {
  trading_with : Z;
  block_trade : bool;
  trade_accept : bool;
  accept_the_offer : bool;
  trade_items : list (Z * Z)
}.

Record Trader := mkTrader {
  bag : Player;                      (* with the [netID] *)
  tankIDName : string;
  d_name : string;
  world : string;
  guild_id : Z;
  administrator : bool;              (* [Role::Administrator] *)
  last_wrenched : string;
  friends : list (string * bool);    (* name and [block_trade] *)
  starglitter_trade : Z;
  deal : Trade
}.

(** [server->peers]: [None] is a peer that is not connected. *)
Abbreviation peers := (list (option Trader)).

Inductive effect :=
| EInventory (i : nat) (e : Inventory.effect)    (* what [Modify] did for peer [i] *)
| ETransferWorld (from_ to_ : nat)               (* [transfer_world] *)
| EMoved (from_ to_ : nat) (item_id : Z)         (* the item flies from one to the other *)
| EStarglitter (i : nat)                         (* [DailyEvent_Task::MStarglitter] *)
| ETraded (i j : nat) (gave got : list (Z * Z)). (* the trade histories of both *)

Definition no_trade : Trade := mkTrade (-1) false false false [].

Definition set_bag (b : Player) (p : Trader) : Trader :=
  mkTrader b (tankIDName p) (d_name p) (world p) (guild_id p) (administrator p) (last_wrenched p)
    (friends p) (starglitter_trade p) (deal p).

Definition set_deal (d : Trade) (p : Trader) : Trader :=
  mkTrader (bag p) (tankIDName p) (d_name p) (world p) (guild_id p) (administrator p)
    (last_wrenched p) (friends p) (starglitter_trade p) d.

Definition set_last_wrenched (s : string) (p : Trader) : Trader :=
  mkTrader (bag p) (tankIDName p) (d_name p) (world p) (guild_id p) (administrator p) s
    (friends p) (starglitter_trade p) (deal p).

Definition set_trading_with (v : Z) (d : Trade) : Trade :=
  mkTrade v (block_trade d) (trade_accept d) (accept_the_offer d) (trade_items d).
Definition set_block_trade (v : bool) (d : Trade) : Trade :=
  mkTrade (trading_with d) v (trade_accept d) (accept_the_offer d) (trade_items d).
Definition set_trade_accept (v : bool) (d : Trade) : Trade :=
  mkTrade (trading_with d) (block_trade d) v (accept_the_offer d) (trade_items d).
Definition set_accept_the_offer (v : bool) (d : Trade) : Trade :=
  mkTrade (trading_with d) (block_trade d) (trade_accept d) v (trade_items d).
Definition set_trade_items (v : list (Z * Z)) (d : Trade) : Trade :=
  mkTrade (trading_with d) (block_trade d) (trade_accept d) (accept_the_offer d) v.

(** ** Peers *)

Definition peer (ps : peers) (i : nat) : option Trader := mjoin (ps !! i).

Definition update (i : nat) (f : Trader -> Trader) (ps : peers) : peers :=
  match peer ps i with
  | Some p => <[i := Some (f p)]> ps
  | None => ps
  end.

Definition on_deal (i : nat) (f : Trade -> Trade) : peers -> peers :=
  update i (λ p, set_deal (f (deal p)) p).

(** The first connected peer that satisfies [f]. *)
Fixpoint find_peer (f : Trader -> bool) (k : nat) (ps : peers) : option nat :=
  match ps with
  | [] => None
  | Some p :: ps => if f p then Some k else find_peer f (S k) ps
  | None :: ps => find_peer f (S k) ps
  end.

(** Both are in one world and each trades with the other. *)
Definition partners (a b : Trader) : bool :=
  String.eqb (world b) (world a) && (netID (bag b) =? trading_with (deal a)) &&
  (netID (bag a) =? trading_with (deal b)).

Definition partner_of (ps : peers) (a : Trader) : option nat := find_peer (partners a) 0 ps.

(** ** [cancel_trade]

    The two flags of the function choose messages.  The partner keeps its
    [trade_accept]. *)

Definition cancel_partner (d : Trade) : Trade := mkTrade (-1) false (trade_accept d) false [].

Definition cancel_trade (ps : peers) (i : nat) : peers :=
  match peer ps i with
  | None => ps
  | Some p =>
      match partner_of ps p with
      | Some j => on_deal i (λ _, no_trade) (on_deal j cancel_partner ps)
      | None => on_deal i (λ _, no_trade) ps
      end
  end.

(** [send_trade_confirm_dialog] *)
Definition send_trade_confirm_dialog (ps : peers) (i j : nat) : peers :=
  on_deal j (set_block_trade true) (on_deal i (set_block_trade true) ps).

(** ** [mod_trade] *)

(** [swap(v[i], v.back())] *)
Definition swap_back {A} (i : nat) (l : list A) : list A :=
  match l !! i, list.last l with
  | Some x, Some y => <[i := y]> (<[(length l - 1)%nat := x]> l)
  | _, _ => l
  end.

(** The loop over the offers from index [i] on: an offer of the item moves
    to the back and gets the new count. *)
Fixpoint change_offer (item_id count : Z) (fuel i : nat) (f_ : bool) (l : list (Z * Z))
    : list (Z * Z) * bool :=
  match fuel with
  | O => (l, f_)
  | S fuel =>
      match l !! i with
      | Some (id, n) =>
          if id =? item_id
          then change_offer item_id count fuel (S i) true (swap_back i (<[i := (id, count)]> l))
          else change_offer item_id count fuel (S i) f_ l
      | None => (l, f_)
      end
  end.

(** [None] when a fifth offer is refused. *)
Definition add_offer (item_id count : Z) (l : list (Z * Z)) : option (list (Z * Z)) :=
  let '(l, f_) := change_offer item_id count (length l) 0 false l in
  if f_ then Some l
  else if (3 <? length l)%nat then None
  else Some (l ++ [(item_id, count)]).

(** The first offer of the item goes; how many it was. *)
Fixpoint remove_offer (item_id : Z) (l : list (Z * Z)) : list (Z * Z) * Z :=
  match l with
  | [] => ([], 0)
  | (id, n) :: l =>
      if id =? item_id then (l, n)
      else let '(l, count_) := remove_offer item_id l in ((id, n) :: l, count_)
  end.

Definition WORLD_KEY : Z := 1424.
Definition GUILD_KEY : Z := 5816.

Definition is_key (item_id : Z) : bool := (item_id =? WORLD_KEY) || (item_id =? GUILD_KEY).

(** After the loop over the peers: no partner, or a [break]. *)
Definition mod_trade_alone (ws : list World.World) (ps : peers) (i : nat) (p : Trader)
    (item_id count : Z) (remove : bool) : peers :=
  let show (ps : peers) :=
    match World.world_named (world p) ws with
    | Some _ => on_deal i (set_trade_accept false) ps
    | None => ps
    end in
  if remove then
    show (on_deal i (set_trade_items (remove_offer item_id (trade_items (deal p))).1) ps)
  else if count =? 0 then ps
  else
    match add_offer item_id count (trade_items (deal p)) with
    | Some l => show (on_deal i (set_trade_items l) ps)
    | None => ps
    end.

(** The deal of [i] with [j] has changed. *)
Definition changed (i j : nat) (ps : peers) : peers :=
  on_deal j (set_trade_accept false) (on_deal i (set_trade_accept false) ps).

Definition not_owner (p : Trader) (w : World.World) : bool :=
  negb (String.eqb (World.to_lower (tankIDName p)) (World.to_lower (World.owner_name w))) &&
  negb (administrator p).

Definition mod_trade (ws : list World.World) (ps : peers) (i : nat) (item_id count : Z)
    (remove : bool) : peers :=
  match peer ps i with
  | None => ps
  | Some p =>
      if trading_with (deal p) =? -1 then ps else
      let alone := mod_trade_alone ws ps i p item_id count remove in
      match partner_of ps p with
      | None => alone
      | Some j =>
          match peer ps j, World.world_named (world p) ws with
          | Some cp, Some w =>
              if block_trade (deal p) || block_trade (deal cp) then
                cancel_trade ps (if block_trade (deal p) then i else j)
              else if is_key item_id && not_owner p w then alone
              else if (item_id =? GUILD_KEY) &&
                      ((guild_id p =? 0) || negb (guild_id p =? guild_id cp)) then alone
              else if remove then
                let '(l, count_) := remove_offer item_id (trade_items (deal p)) in
                let ps := on_deal i (set_trade_items l) ps in
                changed i j (if count_ =? 0 then cancel_trade ps i else ps)
              else if count =? 0 then alone
              else
                match add_offer item_id count (trade_items (deal p)) with
                | Some l => changed i j (on_deal i (set_trade_items l) ps)
                | None => ps
                end
          | _, _ => ps
          end
      end
  end.

Section Handlers.
Context (items : table) (untradeable : Z -> bool) (modify : modify_fn).

(** ** [trade_space_check] *)

(** The loop: the player, and the slots needed unless a stack would be too
    large. *)
Fixpoint space_loop (offers : list (Z * Z)) (slots_needed : Z) (b : Player)
    : option (Player * option Z) :=
  match offers with
  | [] => Some (b, Some slots_needed)
  | (id, n) :: offers =>
      r ← modify id 0 true false b;
      let c_ := c_out r in
      if c_ =? 0 then space_loop offers slots_needed (pl_out r)
      else if 200 <? i32 (c_ + n) then Some (pl_out r, None)
      else space_loop offers (slots_needed - 1) (pl_out r)
  end.

(** Peer [i] has room for what [j] offers. *)
Definition trade_space_check (ps : peers) (i j : nat) : option (peers * bool) :=
  p ← peer ps i;
  cp ← peer ps j;
  let offers := trade_items (deal cp) in
  '(b, needed) ← space_loop offers (Z.of_nat (length offers)) (bag p);
  Some (update i (set_bag b) ps,
        match needed with
        | Some slots_needed => negb (Get_Slots b <? slots_needed)
        | None => false
        end).

(** ** The dialog that is answered with a count *)

Definition trade_item (ws : list World.World) (ps : peers) (i : nat) (cch : string)
    : option (peers * list effect) :=
  count ← Scanner.get_value (Scanner.parse cch) "count";
  id ← Texts.get_embed cch "itemID";
  if negb (Texts.is_number id) || negb (Texts.is_number count) then Some (ps, [])
  else
    p ← peer ps i;
    let item_id := atoi id in
    let item_count := atoi count in
    r ← modify item_id 0 true false (bag p);
    let ps := update i (set_bag (pl_out r)) ps in
    let es := EInventory i <$> effs r in
    if (c_out r <? item_count) || (c_out r =? 0) then Some (ps, es)
    else Some (mod_trade ws ps i item_id item_count false, es).

(** ** The exchange *)

(** A lock that is not the lock of the whole world. *)
Definition small_lock (b : World.WorldBlock) : bool :=
  (bool_decide (blockType (item items (World.fg b)) = LOCK) && (World.fg b =? 202)) ||
  (World.fg b =? 204) || (World.fg b =? 206) || (World.fg b =? 4994) || (World.fg b =? 10000).

Definition offers_key (d : Trade) : bool := existsb (λ o, is_key o.1) (trade_items d).

Definition key_blocked (w : World.World) (d : Trade) : bool :=
  offers_key d && existsb small_lock (World.blocks w).

(** What [i] offers goes to [j], each offer that [i] can still pay: the
    offers that were paid. *)
Fixpoint hand_over (i j : nat) (offers : list (Z * Z)) (ps : peers)
    : option (peers * list effect * list (Z * Z)) :=
  match offers with
  | [] => Some (ps, [], [])
  | (id, n) :: offers =>
      p ← peer ps i;
      r ← modify id (i32 (- n)) true false (bag p);
      let ps := update i (set_bag (pl_out r)) ps in
      let e1 := EInventory i <$> effs r in
      if negb (ret r =? 0) then
        '(ps, es, traded) ← hand_over i j offers ps; Some (ps, e1 ++ es, traded)
      else
        '(ps, e2) ←
          (if is_key id then Some (ps, [ETransferWorld i j])
           else
             cp ← peer ps j;
             r2 ← modify id n true false (bag cp);
             Some (update j (set_bag (pl_out r2)) ps, EInventory j <$> effs r2));
        '(ps, es, traded) ← hand_over i j offers ps;
        Some (ps, e1 ++ e2 ++ EMoved i j id :: es, (id, n) :: traded)
  end.

Definition starglitter (ps : peers) (i : nat) : list effect :=
  match peer ps i with
  | Some p => if starglitter_trade p <? 10 then [EStarglitter i] else []
  | None => []
  end.

(** Both have accepted in the last dialog. *)
Definition exchange (w : World.World) (ps : peers) (i j : nat) : option (peers * list effect) :=
  '(ps, ok) ← trade_space_check ps i j;
  if negb ok then Some (cancel_trade ps i, []) else
  '(ps, ok) ← trade_space_check ps j i;
  if negb ok then Some (cancel_trade ps i, []) else
  p ← peer ps i;
  cp ← peer ps j;
  if key_blocked w (deal p) then Some (cancel_trade ps i, [])
  else if key_blocked w (deal cp) then Some (cancel_trade ps j, [])
  else
    '(ps, e1, gave) ← hand_over i j (trade_items (deal p)) ps;
    '(ps, e2, got) ← hand_over j i (trade_items (deal cp)) ps;
    Some (on_deal i (λ _, no_trade) (on_deal j (λ _, no_trade) ps),
          e1 ++ e2 ++ starglitter ps i ++ starglitter ps j ++ [ETraded i j gave got]).

(** The button [accept]. *)
Definition confirm (ws : list World.World) (ps : peers) (i : nat) : option (peers * list effect) :=
  p ← peer ps i;
  match partner_of ps p with
  | None => Some (on_deal i (λ _, no_trade) ps, [])
  | Some j =>
      let ps := on_deal i (set_accept_the_offer true) ps in
      cp ← peer ps j;
      if accept_the_offer (deal cp) then
        match World.world_named (world p) ws with
        | Some w => exchange w ps i j
        | None => Some (ps, [])
        end
      else if offers_key (deal cp) then
        Some (send_trade_confirm_dialog (on_deal i (set_accept_the_offer false) ps) i j, [])
      else Some (ps, [])
  end.

Definition trade_confirm (ws : list World.World) (ps : peers) (i : nat) (cch : string)
    : option (peers * list effect) :=
  '(found, button) ← Scanner.try_get (Scanner.parse cch) "buttonClicked" EmptyString;
  if negb (found : bool) then Some (ps, [])
  else if String.eqb button "back" then Some (cancel_trade ps i, [])
  else if String.eqb button "accept" then confirm ws ps i
  else Some (ps, []).

(** ** The actions *)

(** [std::atoi(explode("\n", t_[2])[0].c_str())] *)
Definition action_number (text : string) : option Z :=
  atoi <$> (Texts.explode endl text !! 0%nat).

(** What [Rem_Trade] and [Mod_Trade] do before the offer is changed: the
    item and its count, unless the action ends here, and the peers. *)
Definition trade_action (ws : list World.World) (ps : peers) (i : nat) (cch : string)
    : option (option (Z * Z) * peers) :=
  let t_ := Texts.explode "|" cch in
  if (length t_ <? 3)%nat then Some (None, ps) else
  t ← t_ !! 2%nat;
  item_id ← action_number t;
  p ← peer ps i;
  let c_ := Contains (bag p) item_id in
  if c_ =? 0 then Some (None, ps) else
  it ← get_item items item_id;
  if untradeable item_id || bool_decide (blockType it = FISH) then Some (None, ps) else
  let guildss :=
    existsb (λ q, match q with
                  | Some cp => partners p cp && (item_id =? GUILD_KEY) && negb (guild_id cp =? 0)
                  | None => false
                  end) ps in
  let cancel_ :=
    is_key item_id &&
    match World.world_named (world p) ws with
    | Some w => negb (String.eqb (World.to_lower (World.owner_name w))
                        (World.to_lower (tankIDName p)))
    | None => false
    end in
  let ps := if cancel_ && negb (trading_with (deal p) =? -1) then cancel_trade ps i else ps in
  Some (if guildss then None else Some (item_id, c_), ps).

Definition Rem_Trade (ws : list World.World) (ps : peers) (i : nat) (cch : string) : option peers :=
  '(o, ps) ← trade_action ws ps i cch;
  match o with
  | Some (item_id, c_) => Some (mod_trade ws ps i item_id c_ true)
  | None => Some ps
  end.

(** A single item is offered at once; for more the dialog [trade_item] asks
    how many. *)
Definition Mod_Trade (ws : list World.World) (ps : peers) (i : nat) (cch : string) : option peers :=
  '(o, ps) ← trade_action ws ps i cch;
  match o with
  | Some (item_id, c_) =>
      if c_ =? 1 then Some (mod_trade ws ps i item_id c_ false) else Some ps
  | None => Some ps
  end.

Definition holds_all (p : Trader) : bool :=
  forallb (λ o, negb (Contains (bag p) o.1 =? 0)) (trade_items (deal p)).

(** Both have accepted the offers.  When one of them no longer has an offered
    item, [cancel_trade] destroys the vectors the loops are reading. *)
Definition both_accept (ps : peers) (i j : nat) : option (peers * bool) :=
  let refuse (ps : peers) := Some (changed i j ps, true) in
  '(ps, ok) ← trade_space_check ps i j;
  if negb ok then refuse ps else
  '(ps, ok) ← trade_space_check ps j i;
  if negb ok then refuse ps else
  p ← peer ps i;
  cp ← peer ps j;
  if (negb (holds_all cp) && negb (trading_with (deal cp) =? -1)) ||
     (negb (holds_all p) && negb (trading_with (deal p) =? -1)) then None
  else Some (send_trade_confirm_dialog ps i j, false).

(** The loop over the peers from index [j] on, and its flag [f_]. *)
Fixpoint accept_loop (ws : list World.World) (status_ : bool) (i : nat) (fuel j : nat) (f_ : bool)
    (ps : peers) : option (peers * bool) :=
  match fuel with
  | O => Some (ps, f_)
  | S fuel =>
      match peer ps i, peer ps j with
      | Some p, Some cp =>
          if partners p cp then
            match World.world_named (world p) ws with
            | Some _ =>
                let ps := on_deal i (set_trade_accept status_) ps in
                p ← peer ps i;
                cp ← peer ps j;
                if trade_accept (deal p) && trade_accept (deal cp) then
                  '(ps, refused) ← both_accept ps i j;
                  accept_loop ws status_ i fuel (S j) (f_ || refused) ps
                else accept_loop ws status_ i fuel (S j) true ps
            | None => accept_loop ws status_ i fuel (S j) true ps
            end
          else accept_loop ws status_ i fuel (S j) f_ ps
      | _, _ => accept_loop ws status_ i fuel (S j) f_ ps
      end
  end.

Definition trade_accept_action (ws : list World.World) (ps : peers) (i : nat) (cch : string)
    : option peers :=
  p ← peer ps i;
  if trading_with (deal p) =? -1 then Some ps else
  let t_ := Texts.explode "|" cch in
  if (length t_ <? 3)%nat then Some ps else
  t ← t_ !! 2%nat;
  status_ ← Texts.explode endl t !! 0%nat;
  if negb (String.eqb status_ "1") && negb (String.eqb status_ "0") then Some ps else
  let status_ := String.eqb status_ "1" in
  '(ps, f_) ← accept_loop ws status_ i (length ps) 0 false ps;
  Some (if (f_ : bool) then ps else on_deal i (set_trade_accept status_) ps).

Definition trade_cancel (ps : peers) (i : nat) : peers := cancel_trade ps i.

(** ** How a trade starts *)

(** The name [wanted] is the name of [cp], or a part of at least three
    letters of it. *)
Definition names_peer (wanted : string) (cp : Trader) : bool :=
  let part (name : string) :=
    str_contains (World.to_lower wanted) (World.to_lower name) &&
    (3 <=? String.length wanted)%nat &&
    negb (String.length wanted =? String.length name)%nat in
  part (tankIDName cp) || String.eqb (World.to_lower (tankIDName cp)) (World.to_lower wanted) ||
  (negb (is_empty (d_name cp)) && part (d_name cp)) ||
  String.eqb (World.to_lower (d_name cp)) (World.to_lower wanted).

Definition blocked_by (cp p : Trader) : bool :=
  existsb (λ f, String.eqb (World.to_lower f.1) (World.to_lower (tankIDName p)) && f.2) (friends cp).

(** The loop of [trade_started] and [TRADE]; the first peer that is named
    ends it. *)
Definition start_trade (ps : peers) (i : nat) : peers :=
  match peer ps i with
  | None => ps
  | Some p =>
      let named cp :=
        String.eqb (world cp) (world p) && negb (String.eqb (tankIDName cp) (tankIDName p)) &&
        names_peer (last_wrenched p) cp in
      match find_peer named 0 ps with
      | None => ps
      | Some j =>
          match peer ps j with
          | None => ps
          | Some cp =>
              if blocked_by cp p then ps
              else if String.eqb (World.to_lower (tankIDName cp)) (World.to_lower (tankIDName p))
              then ps
              else if negb (trading_with (deal cp) =? -1) &&
                      negb (trading_with (deal cp) =? netID (bag p))
              then on_deal i (λ d, set_trading_with (-1) (set_block_trade false d)) ps
              else
                on_deal j (set_trade_accept false)
                  (on_deal i (λ d, set_trade_accept false (set_trading_with (netID (bag cp)) d)) ps)
          end
      end
  end.

Definition trade_started (ps : peers) (i : nat) (cch : string) : option peers :=
  let t_ := Texts.explode "|" cch in
  if (length t_ <? 4)%nat then Some ps else
  t ← t_ !! 3%nat;
  netID ← action_number t;
  if netID =? -1 then Some ps else Some (start_trade ps i).

Definition TRADE (ps : peers) (i : nat) (cmd : string) : peers :=
  if is_empty cmd then ps
  else
    let ps := update i (set_last_wrenched cmd) ps in
    match peer ps i with
    | None => ps
    | Some p =>
        if String.eqb (World.to_lower cmd) (World.to_lower (tankIDName p)) then ps
        else start_trade ps i
    end.

End Handlers.

End Trade.
