(* ===== verification/TradeFacts.v ===== *)
(** * TradeFacts: what a trade exchanges

    The offers of a trade stay well formed; the exchange implements the
    settlement of two bags, so no item is made or lost as long as the offers
    are positive; what happens when one side no longer has what it offers,
    and what an offer with a negative count does. *)
From S2P Require Import Prelude Memory Items Packet Tank Inventory InventoryFacts InventoryBag Scanner World Texts Trade.
Import Items Inventory InventoryFacts InventoryBag Trade.

Module TradeFacts.

(** ** Peers *)

Lemma peer_lookup ps i p : peer ps i = Some p <-> ps !! i = Some (Some p).
Proof. unfold peer. destruct (ps !! i) as [[q|]|]; naive_solver. Qed.

Lemma peer_update i k f ps :
  peer (update i f ps) k = if decide (i = k) then f <$> peer ps k else peer ps k.
Proof.
  unfold update. destruct (peer ps i) as [p|] eqn:E.
  - apply peer_lookup in E as El. unfold peer at 1. case_decide as H.
    + subst k. rewrite list_lookup_insert_eq by (by apply lookup_lt_Some in El). by rewrite E.
    + rewrite list_lookup_insert_ne by done. done.
  - case_decide; [|done]. subst k. by rewrite E.
Qed.

Lemma peer_on_deal i k f ps :
  peer (on_deal i f ps) k
  = if decide (i = k) then (λ p, set_deal (f (deal p)) p) <$> peer ps k else peer ps k.
Proof. apply peer_update. Qed.

Lemma update_id i f ps : (forall p, peer ps i = Some p -> f p = p) -> update i f ps = ps.
Proof.
  intros H. unfold update. destruct (peer ps i) as [p|] eqn:E; [|done].
  rewrite (H p) by done. apply list_insert_id. by apply peer_lookup.
Qed.

Lemma set_bag_same p : set_bag (bag p) p = p.
Proof. by destruct p. Qed.

(** ** The settlement of two bags

    The abstract exchange: how many of each item two players hold, and the
    offers of the first paid one by one, each as long as it is held. *)

Definition add_items (x n : Z) (f : Z -> Z) (y : Z) : Z := if y =? x then f y + n else f y.

Fixpoint settle (offers : list (Z * Z)) (f g : Z -> Z) : (Z -> Z) * (Z -> Z) * list (Z * Z) :=
  match offers with
  | [] => (f, g, [])
  | (x, n) :: offers =>
      if n <=? f x then
        let '(f, g, paid) := settle offers (add_items x (- n) f) (add_items x n g) in
        (f, g, (x, n) :: paid)
      else settle offers f g
  end.

(** How many of item [y] the offers hold. *)
Definition amount (y : Z) (offers : list (Z * Z)) : Z :=
  fold_right (λ o acc, (if o.1 =? y then o.2 else 0) + acc) 0 offers.

(** What is paid leaves one bag and enters the other. *)
Lemma settle_moves offers : forall f g,
  let '(f', g', paid) := settle offers f g in
  forall y, f' y = f y - amount y paid /\ g' y = g y + amount y paid.
Proof.
  induction offers as [|[x n] offers IH]; intros f g; cbn [settle amount fold_right].
  - intros y. cbn. lia.
  - destruct (n <=? f x); [|by apply IH].
    specialize (IH (add_items x (- n) f) (add_items x n g)).
    destruct (settle offers _ _) as [[f' g'] paid]. intros y. destruct (IH y) as [-> ->].
    unfold add_items. cbn [amount fold_right fst snd].
    fold (amount y paid). rewrite (Z.eqb_sym y x). destruct (x =? y); lia.
Qed.

Lemma settle_sublist offers : forall f g, (settle offers f g).2 `sublist_of` offers.
Proof.
  induction offers as [|[x n] offers IH]; intros f g; cbn [settle]; [done|].
  destruct (n <=? f x); [|by apply sublist_cons].
  specialize (IH (add_items x (- n) f) (add_items x n g)).
  destruct (settle offers _ _) as [[f' g'] paid]. by apply sublist_skip.
Qed.

(** Everything is paid when everything is held. *)
Lemma settle_all offers : forall f g,
  base.NoDup offers.*1 -> Forall (λ o, o.2 <= f o.1) offers -> (settle offers f g).2 = offers.
Proof.
  induction offers as [|[x n] offers IH]; intros f g Hd Hf; cbn [settle]; [done|].
  cbn [fmap list_fmap fst] in Hd. apply list.NoDup_cons in Hd as [Hx Hd].
  apply list.Forall_cons in Hf as [Hn Hf]. cbn in Hn.
  destruct (Z.leb_spec n (f x)); [|lia].
  specialize (IH (add_items x (- n) f) (add_items x n g) Hd).
  destruct (settle offers _ _) as [[f' g'] paid]. cbn. f_equal. apply IH.
  rewrite list.Forall_forall in Hf |- *. intros [y m] Hy. specialize (Hf _ Hy). cbn in *.
  unfold add_items. destruct (Z.eqb_spec y x) as [->|]; [|done].
  destruct Hx. by apply (list_elem_of_fmap_2 fst) in Hy.
Qed.

(** Nothing is paid when nothing is held. *)
Lemma settle_none offers f g :
  Forall (λ o, f o.1 < o.2) offers -> settle offers f g = (f, g, []).
Proof.
  induction 1 as [|[x n] offers Hn _ IH]; cbn [settle]; [done|]. cbn in Hn.
  destruct (Z.leb_spec n (f x)); [lia|done].
Qed.

(** ** Room for what is offered *)

(** An offer the server accepts for items that are not keys. *)
Definition offer_ok (items : table) (o : Z * Z) : Prop :=
  0 < o.1 < size items /\ o.1 <> 112 /\ is_key o.1 = false /\ 1 <= o.2 <= 200.

(** The stacks have room for the offers, and there are slots for the items
    that are new. *)
Definition fits (offers : list (Z * Z)) (l : list (Z * Z)) : Prop :=
  Forall (λ o, contains o.1 l + o.2 <= 200) offers /\
  Z.of_nat (length (filter (λ o, contains o.1 l = 0) offers)) <= free_slots l.

Lemma b2z_range b : 0 <= Z.b2z b <= 1.
Proof. destruct b; cbn; lia. Qed.

(** Taking items makes room. *)
Lemma fits_take offers x n b b' :
  base.NoDup offers.*1 -> Forall (λ o, o.1 <> 0) offers -> 1 <= n <= contains x (inv b) ->
  moved x (- n) b b' -> fits offers (inv b) -> fits offers (inv b').
Proof.
  intros Hd Hpos Hn (_ & _ & _ & [Hx Ho] & Hf) [H1 H2].
  assert (Forall (λ o, o.1 <> x -> contains o.1 (inv b') = contains o.1 (inv b)) offers) as Heq.
  { rewrite list.Forall_forall in *. intros o Ho' Hne. apply Ho; [by apply Hpos|done]. }
  split.
  - rewrite list.Forall_forall in *. intros o Ho'. specialize (H1 o Ho').
    destruct (decide (o.1 = x)) as [E|]; [rewrite E in *; lia|]. rewrite Heq by done. done.
  - assert (Z.of_nat (length (filter (λ o, contains o.1 (inv b') = 0) offers)) <=
      Z.of_nat (length (filter (λ o, contains o.1 (inv b) = 0) offers)) +
      Z.b2z (bool_decide (x ∈ offers.*1) && (contains x (inv b') =? 0))) as Hc.
    { clear H1 H2. induction offers as [|[y m] offers IH];
        [match goal with |- context [Z.b2z ?b] => pose proof (b2z_range b) end;
         rewrite !filter_nil; cbn [length]; lia|].
      cbn [fmap list_fmap fst] in *. apply list.NoDup_cons in Hd as [Hy Hd].
      apply list.Forall_cons in Hpos as [_ Hpos]. apply list.Forall_cons in Heq as [He Heq].
      specialize (IH Hd Hpos Heq). rewrite !filter_cons. cbn [fst] in *.
      destruct (decide (y = x)) as [->|Hyx].
      - rewrite (bool_decide_eq_false_2 _ Hy) in IH. rewrite bool_decide_eq_true_2 by set_solver.
        cbn [andb Z.b2z] in *. repeat case_decide; cbn [length]; destruct (Z.eqb_spec (contains x (inv b')) 0);
          cbn [Z.b2z]; lia.
      - rewrite He by done.
        replace (bool_decide (x ∈ y :: offers.*1)) with (bool_decide (x ∈ offers.*1))
          by (apply bool_decide_ext; set_solver).
        repeat case_decide; try done; cbn [length]; lia. }
    rewrite Hx in Hc. destruct (bool_decide _), (Z.eqb_spec (contains x (inv b) + - n) 0), (Z.eqb_spec (contains x (inv b)) 0);
      cbn [andb negb Z.b2z] in *; lia.
Qed.

(** Giving the first of the offers leaves room for the others. *)
Lemma fits_give offers x n b b' :
  base.NoDup (x :: offers.*1) -> Forall (λ o, o.1 <> 0) offers -> 1 <= n ->
  0 <= contains x (inv b) ->
  moved x n b b' -> fits ((x, n) :: offers) (inv b) -> fits offers (inv b').
Proof.
  intros [Hx Hd]%list.NoDup_cons Hpos Hn Hc (_ & _ & _ & [_ Ho] & Hf) [H1 H2].
  apply list.Forall_cons in H1 as [_ H1]. rewrite filter_cons in H2. cbn [fst] in H2.
  assert (Forall (λ o, contains o.1 (inv b') = contains o.1 (inv b)) offers) as Heq.
  { rewrite list.Forall_forall in *. intros o Ho'. apply Ho; [by apply Hpos|].
    intros E. apply Hx. rewrite <- E. by apply (list_elem_of_fmap_2 fst). }
  split.
  - rewrite list.Forall_forall in *. intros o Ho'. rewrite Heq by done. by apply H1.
  - enough (filter (λ o, contains o.1 (inv b') = 0) offers
      = filter (λ o, contains o.1 (inv b) = 0) offers) as ->.
    { destruct (Z.eqb_spec (contains x (inv b)) 0), (Z.eqb_spec (contains x (inv b) + n) 0);
        case_decide; cbn [length negb Z.b2z] in *; lia. }
    clear -Heq. induction Heq as [|o offers He _ IH]; [done|]. by rewrite !filter_cons, He, IH.
Qed.

(** ** The handlers over [Modify] *)

Section Exchange.
Context (items : table) (prices : list (Z * Z)) (wf : bool) (g1 g2 : string) (fuel : nat).

Local Abbreviation modify := (Modify items prices wf g1 g2 (S fuel)).
Local Abbreviation modify_ok := (modify_ok items prices wf g1 g2 fuel true false).
Local Abbreviation modify_refused := (modify_refused items prices wf g1 g2 fuel true false).
Local Abbreviation modify_count := (modify_count items prices wf g1 g2 fuel true).

(** [b] holds what [f] says. *)
Definition holds (b : Player) (f : Z -> Z) : Prop := forall y, y <> 0 -> contains y (inv b) = f y.

Lemma moved_holds x c b b' f : moved x c b b' -> holds b f -> holds b' (add_items x c f).
Proof.
  intros (_ & _ & _ & [Hx Ho] & _) Hf y Hy. unfold add_items.
  destruct (Z.eqb_spec y x) as [->|]; [|rewrite Ho by done; by apply Hf].
  rewrite Hx. by rewrite Hf.
Qed.

Definition keeps_room (l l' : list (Z * Z)) : Prop :=
  forall offers, base.NoDup offers.*1 -> Forall (λ o, o.1 <> 0) offers -> fits offers l -> fits offers l'.

(** One offer: it is paid when it is held, and refused otherwise. *)
Lemma hand_over_one i j x n ps p c bp bc :
  i <> j -> peer ps i = Some (set_bag bp p) -> peer ps j = Some (set_bag bc c) ->
  settled bp -> settled bc -> offer_ok items (x, n) ->
  contains x (inv bc) + n <= 200 -> (contains x (inv bc) = 0 -> 0 < free_slots (inv bc)) ->
  exists ps' bp' bc' es,
    (forall offers, hand_over modify i j ((x, n) :: offers) ps =
      '(ps2, es2, paid) ← hand_over modify i j offers ps';
      Some (ps2, es ++ es2, if n <=? contains x (inv bp) then (x, n) :: paid else paid)) /\
    peer ps' i = Some (set_bag bp' p) /\ peer ps' j = Some (set_bag bc' c) /\
    (forall k, k <> i -> k <> j -> peer ps' k = peer ps k) /\
    if n <=? contains x (inv bp) then moved x (- n) bp bp' /\ moved x n bc bc'
    else bp' = bp /\ bc' = bc.
Proof.
  intros Hij Hp Hc Sp Sc (Hx & H112 & Hkey & Hn) Hroom Hfree. cbn [fst snd] in *.
  pose proof (settled_contains bp x Sp ltac:(lia)) as Rp.
  pose proof (settled_contains bc x Sc ltac:(lia)) as Rc.
  assert (i32 (- n) = - n) as Hi by (apply i32_small; lia).
  destruct (Z.leb_spec n (contains x (inv bp))) as [Hh|Hh].
  - destruct (modify_ok x (- n) bp) as (r & E & Hr & Hm); try done; [lia|split_and!; try lia|].
    destruct (modify_ok x n bc) as (r2 & E2 & Hr2 & Hm2); try done; [lia| |].
    { split_and!; try lia. intros H0. apply free_find. by apply Hfree. }
    exists (update j (set_bag (pl_out r2)) (update i (set_bag (pl_out r)) ps)), (pl_out r), (pl_out r2),
      ((EInventory i <$> effs r) ++ (EInventory j <$> effs r2) ++ [EMoved i j x]). split.
    { intros offers. cbn [hand_over]. rewrite Hp. cbn [mbind option_bind bag set_bag].
      rewrite Hi, E. cbn [mbind option_bind]. rewrite Hr. cbn [Z.eqb negb]. rewrite Hkey.
      rewrite peer_update, decide_False, Hc by done. cbn [mbind option_bind bag set_bag].
      rewrite E2. cbn [mbind option_bind].
      destruct (hand_over modify i j offers _) as [[[ps2 es2] paid]|] eqn:Er;
        cbn [mbind option_bind]; [|done].
      by rewrite <- !app_assoc. }
    rewrite !peer_update, (decide_True (P := i = i)), !(decide_False (P := j = i)), !(decide_True (P := j = j)),
      !(decide_False (P := i = j)) by done.
    rewrite Hp, Hc. split_and!; try done. intros k Hki Hkj.
    rewrite !peer_update, !decide_False by done. done.
  - destruct (modify_refused x (- n) bp) as (r & E & Hr & Hb); try done; [lia| |].
    { intros (_ & ? & _). lia. }
    exists ps, bp, bc, (EInventory i <$> effs r). split_and!; try done.
    intros offers. cbn [hand_over]. rewrite Hp. cbn [mbind option_bind bag set_bag].
    rewrite Hi, E. cbn [mbind option_bind]. rewrite Hr, Hb. cbn [Z.eqb negb].
    rewrite update_id; [done|]. intros q Hq. rewrite Hp in Hq. by simplify_eq.
Qed.

Lemma offers_nonzero offers : Forall (offer_ok items) offers -> Forall (λ o, o.1 <> 0) offers.
Proof. intros H. eapply list.Forall_impl; [exact H|]. intros o (? & _). lia. Qed.

(** One side of the exchange settles its offers. *)
Lemma hand_over_settles i j p c : i <> j -> forall offers ps bp bc f g,
  peer ps i = Some (set_bag bp p) -> peer ps j = Some (set_bag bc c) ->
  settled bp -> settled bc -> holds bp f -> holds bc g ->
  base.NoDup offers.*1 -> Forall (offer_ok items) offers -> fits offers (inv bc) ->
  exists ps' bp' bc' es,
    hand_over modify i j offers ps = Some (ps', es, (settle offers f g).2) /\
    peer ps' i = Some (set_bag bp' p) /\ peer ps' j = Some (set_bag bc' c) /\
    (forall k, k <> i -> k <> j -> peer ps' k = peer ps k) /\
    settled bp' /\ settled bc' /\
    holds bp' (settle offers f g).1.1 /\ holds bc' (settle offers f g).1.2 /\
    keeps_room (inv bp) (inv bp').
Proof.
  intros Hij. induction offers as [|[x n] offers IH]; intros ps bp bc f g Hp Hc Sp Sc Hf Hg Hd Ho Hfit.
  { exists ps, bp, bc, []. split_and!; try done. by intros ? ? ?. }
  cbn [fmap list_fmap fst] in Hd. apply list.Forall_cons in Ho as [Hx Ho].
  pose proof Hfit as [Hst Hsl]. apply list.Forall_cons in Hst as [Hst _].
  assert (0 < x) as Hx0 by (destruct Hx as (Hx & _); cbn in Hx; lia).
  assert (1 <= n) as Hn by (destruct Hx as (_ & _ & _ & ?); cbn in *; lia).
  pose proof (offers_nonzero offers Ho) as Hnz.
  destruct (hand_over_one i j x n ps p c bp bc) as (ps1 & bp1 & bc1 & e1 & E & Hp1 & Hc1 & Hk1 & Hm);
    try done.
  { intros H0. rewrite filter_cons in Hsl. cbn [fst] in Hsl. rewrite decide_True in Hsl by done.
    cbn [length] in Hsl. lia. }
  rewrite E, (Hf x) in * by lia. cbn [settle]. destruct (Z.leb_spec n (f x)).
  - destruct Hm as [Mp Mc].
    destruct (IH ps1 bp1 bc1 (add_items x (- n) f) (add_items x n g))
      as (ps2 & bp2 & bc2 & e2 & E2 & Hp2 & Hc2 & Hk2 & Sp2 & Sc2 & Hf2 & Hg2 & Hr2);
      try done; [by eapply moved_settled|by eapply moved_settled|by eapply moved_holds
        |by eapply moved_holds|by apply list.NoDup_cons in Hd as [_ ?]
        |eapply fits_give; try done; by apply settled_contains|].
    rewrite E2. destruct (settle offers _ _) as [[f' g'] paid]. cbn [mbind option_bind fst snd] in *.
    eexists _, bp2, bc2, _. split_and!; try done.
    + intros k Hki Hkj. by rewrite Hk2, Hk1.
    + intros os Hos Hnzo Hfo. apply Hr2; [done..|]. eapply fits_take; try done.
      rewrite Hf by lia. lia.
  - destruct Hm as [-> ->]. apply list.NoDup_cons in Hd as [_ Hd].
    destruct (IH ps1 bp bc f g) as (ps2 & bp2 & bc2 & e2 & E2 & Hp2 & Hc2 & Hk2 & H'); try done.
    { destruct Hfit as [H1 H2]. apply list.Forall_cons in H1 as [_ H1]. split; [done|].
      rewrite filter_cons in H2. case_decide; cbn [length] in H2; lia. }
    rewrite E2. cbn [mbind option_bind]. eexists _, bp2, bc2, _. split_and!; try done; try apply H'.
    intros k Hki Hkj. by rewrite Hk2, Hk1.
Qed.

(** ** The two checks of room *)

Definition fits_b (offers l : list (Z * Z)) : bool :=
  forallb (λ o, contains o.1 l + o.2 <=? 200) (filter (λ o, contains o.1 l <> 0) offers) &&
  (Z.of_nat (length (filter (λ o, contains o.1 l = 0) offers)) <=? free_slots l).

Lemma space_loop_spec offers b : settled b -> Forall (offer_ok items) offers -> forall needed,
  space_loop modify offers needed b =
  Some (b, if forallb (λ o, contains o.1 (inv b) + o.2 <=? 200)
                (filter (λ o, contains o.1 (inv b) <> 0) offers)
           then Some (needed - Z.of_nat (length (filter (λ o, contains o.1 (inv b) <> 0) offers)))
           else None).
Proof.
  intros Hb. induction 1 as [|[x n] offers (Hx & H112 & _ & Hn) _ IH]; intros needed.
  { cbn. do 2 f_equal. f_equal. lia. }
  cbn [fst snd] in *. cbn [space_loop].
  destruct (modify_count x b Hb Hx H112) as (r & -> & Hp & Hc). cbn [mbind option_bind].
  rewrite Hp, Hc. pose proof (settled_contains b x Hb ltac:(lia)).
  rewrite i32_small by lia. rewrite filter_cons. cbn [fst].
  destruct (Z.eqb_spec (contains x (inv b)) 0).
  - rewrite decide_False by tauto. apply IH.
  - rewrite decide_True by done. cbn [forallb length fst snd].
    destruct (Z.ltb_spec 200 (contains x (inv b) + n)).
    + by replace (_ <=? 200) with false by lia.
    + replace (_ <=? 200) with true by lia. cbn [andb]. rewrite IH. destruct (forallb _ _); [|done].
      do 3 f_equal. lia.
Qed.

Lemma trade_space_check_spec ps i j p c :
  peer ps i = Some p -> peer ps j = Some c -> settled (bag p) ->
  Forall (offer_ok items) (trade_items (deal c)) ->
  trade_space_check modify ps i j = Some (ps, fits_b (trade_items (deal c)) (inv (bag p))).
Proof.
  intros Hp Hc Hb Ho. unfold trade_space_check. rewrite Hp, Hc. cbn [mbind option_bind].
  rewrite space_loop_spec by done. cbn [mbind option_bind].
  rewrite update_id by (intros q Hq; rewrite Hp in Hq; simplify_eq; apply set_bag_same).
  do 2 f_equal. unfold fits_b. destruct (forallb _ _); cbn [andb]; [|done].
  rewrite Get_Slots_free by apply Hb.
  set (offers := trade_items (deal c)).
  assert (length offers = length (filter (λ o, contains o.1 (inv (bag p)) = 0%Z) offers) +
    length (filter (λ o, contains o.1 (inv (bag p)) <> 0%Z) offers))%nat as Hl.
  { clear. induction offers as [|o offers IH]; [done|]. rewrite !filter_cons.
    repeat case_decide; try done; cbn [length]; lia. }
  destruct (Z.ltb_spec (free_slots (inv (bag p)))
    (Z.of_nat (length offers) - Z.of_nat (length (filter (λ o, contains o.1 (inv (bag p)) <> 0) offers))));
    cbn [negb]; lia.
Qed.

Lemma fits_b_fits offers b :
  Forall (offer_ok items) offers -> settled b -> (fits_b offers (inv b) = true <-> fits offers (inv b)).
Proof.
  intros Ho Hb. unfold fits_b, fits. rewrite andb_true_iff, Z.leb_le, forallb_forall.
  enough ((forall o, In o (filter (λ o, contains o.1 (inv b) <> 0) offers) ->
    (contains o.1 (inv b) + o.2 <=? 200) = true) <->
    Forall (λ o, contains o.1 (inv b) + o.2 <= 200) offers) as -> by done.
  rewrite !list.Forall_forall in *. split; intros H o Hin.
  - destruct (decide (contains o.1 (inv b) = 0)) as [E|E].
    + destruct (Ho o Hin) as (_ & _ & _ & ?). lia.
    + apply Z.leb_le, H. apply list_elem_of_In, list_elem_of_filter. done.
  - apply list_elem_of_In, list_elem_of_filter in Hin as [_ Hin]. apply Z.leb_le. by apply H.
Qed.

Lemma find_peer_Some f ps : forall k j,
  find_peer f k ps = Some j ->
  (k <= j)%nat /\ exists cp, peer ps (j - k) = Some cp /\ f cp = true.
Proof.
  induction ps as [|[p|] ps IH]; intros k j; cbn [find_peer]; [done|..].
  - destruct (f p) eqn:E.
    + intros [= <-]. rewrite Nat.sub_diag. split; [lia|]. by exists p.
    + intros (Hk & cp & Hcp & Hf)%IH. split; [lia|]. exists cp.
      by replace (j - k)%nat with (S (j - S k)) by lia.
  - intros (Hk & cp & Hcp & Hf)%IH. split; [lia|]. exists cp.
    by replace (j - k)%nat with (S (j - S k)) by lia.
Qed.

Lemma cancel_trade_bags ps i k : bag <$> peer (cancel_trade ps i) k = bag <$> peer ps k.
Proof.
  unfold cancel_trade. destruct (peer ps i) as [p|]; [|done].
  destruct (partner_of ps p); rewrite !peer_on_deal; repeat case_decide; by destruct (peer ps k).
Qed.

Lemma cancel_trade_deal ps i p : peer ps i = Some p -> deal <$> peer (cancel_trade ps i) i = Some no_trade.
Proof.
  intros Hp. unfold cancel_trade. rewrite Hp. destruct (partner_of ps p);
    rewrite !peer_on_deal, decide_True by done; [case_decide|]; by rewrite Hp.
Qed.

Lemma no_key d : Forall (offer_ok items) (trade_items d) -> offers_key d = false.
Proof.
  unfold offers_key. induction 1 as [|o offers (_ & _ & Hk & _) _ IH]; [done|]. cbn. by rewrite Hk.
Qed.

(** How two players stand before the last acceptance. *)
Record meeting (ps : peers) (i j : nat) (p c : Trader) : Prop := mkMeeting {
  meet_ne : i <> j;
  meet_i : peer ps i = Some p;
  meet_j : peer ps j = Some c;
  meet_partner : partner_of ps p = Some j;
  meet_accept : accept_the_offer (deal c) = true;
  meet_settled : settled (bag p) /\ settled (bag c)
}.

Record ready (ps : peers) (i j : nat) (p c : Trader) : Prop := mkReady {
  ready_meeting : meeting ps i j p c;
  ready_offers : Forall (offer_ok items) (trade_items (deal p)) /\ Forall (offer_ok items) (trade_items (deal c));
  ready_distinct : base.NoDup (trade_items (deal p)).*1 /\ base.NoDup (trade_items (deal c)).*1
}.

Definition stock (b : Player) (x : Z) : Z := contains x (inv b).

(** Both have room for what the other offers. *)
Definition room (p c : Trader) : bool :=
  fits_b (trade_items (deal c)) (inv (bag p)) && fits_b (trade_items (deal p)) (inv (bag c)).

(** The exchange settles both offers. *)
Definition traded (ps ps' : peers) (i j : nat) (p c : Trader) (es : list effect) : Prop :=
  let '(f, g, gave) := settle (trade_items (deal p)) (stock (bag p)) (stock (bag c)) in
  let '(g, f, got) := settle (trade_items (deal c)) g f in
  exists bp bc,
    peer ps' i = Some (set_deal no_trade (set_bag bp p)) /\
    peer ps' j = Some (set_deal no_trade (set_bag bc c)) /\
    (forall k, k <> i -> k <> j -> peer ps' k = peer ps k) /\
    settled bp /\ settled bc /\ holds bp f /\ holds bc g /\ ETraded i j gave got ∈ es.

Definition refused (ps ps' : peers) (i : nat) : Prop :=
  (forall k, bag <$> peer ps' k = bag <$> peer ps k) /\ deal <$> peer ps' i = Some no_trade.

Lemma exchange_settles w ps i j p c :
  ready ps i j p c ->
  exists ps' es, exchange items modify w ps i j = Some (ps', es) /\
    if room p c then traded ps ps' i j p c es else refused ps ps' i.
Proof.
  intros [[Hij Hp Hc Hpar Hacc [Sp Sc]] [Op Oc] [Dp Dc]].
  unfold exchange, room. rewrite (trade_space_check_spec ps i j p c) by done. cbn [mbind option_bind].
  pose proof (fits_b_fits _ (bag p) Oc Sp) as Fp. pose proof (fits_b_fits _ (bag c) Op Sc) as Fc.
  assert (refused ps (cancel_trade ps i) i) as Href.
  { split; [apply cancel_trade_bags|by eapply cancel_trade_deal]. }
  destruct (fits_b (trade_items (deal c)) (inv (bag p))); cbn [negb andb]; [|by eexists _, _].
  rewrite (trade_space_check_spec ps j i c p) by done. cbn [mbind option_bind].
  destruct (fits_b (trade_items (deal p)) (inv (bag c))); cbn [negb andb]; [|by eexists _, _].
  rewrite Hp, Hc. cbn [mbind option_bind]. unfold key_blocked. rewrite !no_key by done. cbn [andb].
  destruct (hand_over_settles i j p c Hij (trade_items (deal p)) ps (bag p) (bag c)
      (stock (bag p)) (stock (bag c)))
    as (ps1 & bp1 & bc1 & e1 & E1 & Hp1 & Hc1 & Hk1 & Sp1 & Sc1 & Hf1 & Hg1 & Hr1);
    rewrite ?set_bag_same; try done; [by apply Fc|].
  rewrite E1. cbn [mbind option_bind]. unfold traded.
  destruct (settle (trade_items (deal p)) _ _) as [[f1 g1'] gave]. cbn [fst snd] in *.
  destruct (hand_over_settles j i c p (not_eq_sym Hij) (trade_items (deal c)) ps1 bc1 bp1 g1' f1)
    as (ps2 & bc2 & bp2 & e2 & E2 & Hc2 & Hp2 & Hk2 & Sc2 & Sp2 & Hg2 & Hf2 & _); try done.
  { apply Hr1; [done|by apply offers_nonzero|by apply Fp]. }
  rewrite E2. cbn [mbind option_bind].
  destruct (settle (trade_items (deal c)) _ _) as [[g2' f2] got]. cbn [fst snd] in *.
  eexists _, _. split; [done|]. exists bp2, bc2.
  rewrite !peer_on_deal, (decide_True (P := i = i)), !(decide_False (P := j = i)),
    !(decide_True (P := j = j)), !(decide_False (P := i = j)), Hp2, Hc2 by done.
  split_and!; try done.
  - intros k Hki Hkj. rewrite !peer_on_deal, !decide_False by done. by rewrite Hk2, Hk1.
  - rewrite !elem_of_app. do 4 right. set_solver.
Qed.

(** The state in which the offers are exchanged. *)
Definition accepting (p : Trader) : Trader := set_deal (set_accept_the_offer true (deal p)) p.

Lemma confirm_exchange ws w ps i j p c :
  meeting ps i j p c -> World.world_named (world p) ws = Some w ->
  exists ps1, confirm items modify ws ps i = exchange items modify w ps1 i j /\
    meeting ps1 i j (accepting p) c /\
    (forall k, k <> i -> peer ps1 k = peer ps k).
Proof.
  intros [Hij Hp Hc Hpar Hacc HS] Hw. exists (on_deal i (set_accept_the_offer true) ps).
  assert (forall k, k <> i -> peer (on_deal i (set_accept_the_offer true) ps) k = peer ps k) as Hk
    by (intros k Hki; by rewrite peer_on_deal, decide_False).
  split; [|split; [split|done]]; try done.
  - unfold confirm. rewrite Hp. cbn [mbind option_bind]. rewrite Hpar, Hk, Hc by done.
    cbn [mbind option_bind]. by rewrite Hacc, Hw.
  - by rewrite peer_on_deal, decide_True, Hp.
  - by rewrite Hk.
  - rewrite <- Hpar. unfold partner_of, on_deal, update. rewrite Hp. apply peer_lookup in Hp.
    fold (accepting p). clear -Hp. revert i Hp. change (partners (accepting p)) with (partners p).
    generalize 0%nat. induction ps as [|q ps IH]; intros k [|n]; cbn; intros H; simplify_eq;
      [done|]. destruct q as [q|]; by rewrite IH.
Qed.

Lemma confirm_ready ws w ps i j p c :
  ready ps i j p c -> World.world_named (world p) ws = Some w ->
  exists ps' es, confirm items modify ws ps i = Some (ps', es) /\
    if room p c then traded ps ps' i j p c es else refused ps ps' i.
Proof.
  intros [Hm Ho Hd] Hw. destruct (confirm_exchange ws w ps i j p c Hm Hw) as (ps1 & -> & Hm1 & Hk).
  destruct (exchange_settles w ps1 i j (accepting p) c (mkReady _ _ _ _ _ Hm1 Ho Hd))
    as (ps' & es & E & H).
  exists ps', es. split; [done|]. change (room (accepting p) c) with (room p c) in H.
  destruct (room p c).
  - unfold traded in *. change (trade_items (deal (accepting p))) with (trade_items (deal p)) in H.
    change (bag (accepting p)) with (bag p) in H.
    destruct (settle _ _ _) as [[f g] gave], (settle _ _ _) as [[g' f'] got].
    destruct H as (bp & bc & ? & ? & Ho' & ?). exists bp, bc. split_and!; try done; try tauto.
    intros k Hki Hkj. by rewrite Ho', Hk.
  - destruct H as [H1 H2]. split; [|done]. intros k. rewrite H1.
    destruct (decide (k = i)) as [->|]; [|by rewrite Hk].
    by rewrite (meet_i _ _ _ _ _ Hm1), (meet_i _ _ _ _ _ Hm).
Qed.

(** C8: the last acceptance of a trade settles the offers. Two players
    trade with each other in a known world, their items are in order, their
    offers are of 1 to 200 of distinct items of the table that are no keys,
    and the other has accepted. When [p] accepts, either both have room for
    what they get: then the two bags are settled - each offer of [p] that he
    still holds goes to [c], then each offer of [c] that he holds by then
    goes to [p] -, both trades end and nobody else changes; or the trade is
    cancelled and no item moves. *)
Theorem confirm_settles ws w ps i j p c :
  ready ps i j p c -> World.world_named (world p) ws = Some w ->
  exists ps' es, confirm items modify ws ps i = Some (ps', es) /\
    if room p c then traded ps ps' i j p c es else refused ps ps' i.
Proof. apply confirm_ready. Qed.

(** The bags after an exchange, and what was paid. *)
Lemma traded_bags ps ps' i j p c es :
  traded ps ps' i j p c es ->
  exists bp bc gave got,
    peer ps' i = Some (set_deal no_trade (set_bag bp p)) /\
    peer ps' j = Some (set_deal no_trade (set_bag bc c)) /\
    gave = (settle (trade_items (deal p)) (stock (bag p)) (stock (bag c))).2 /\
    (Forall (λ o, o.2 <= stock (bag c) o.1) (trade_items (deal c)) ->
     base.NoDup (trade_items (deal c)).*1 ->
     Forall (λ o, 0 <= o.2) (trade_items (deal p)) ->
     got = trade_items (deal c)) /\
    ETraded i j gave got ∈ es /\
    forall x, x <> 0 -> stock bp x = stock (bag p) x - amount x gave + amount x got /\
                      stock bc x = stock (bag c) x - amount x got + amount x gave.
Proof.
  unfold traded. pose proof (settle_moves (trade_items (deal p)) (stock (bag p)) (stock (bag c))) as M1.
  pose proof (settle_sublist (trade_items (deal p)) (stock (bag p)) (stock (bag c))) as S1.
  destruct (settle (trade_items (deal p)) _ _) as [[f1 g1'] gave]. cbn [snd] in *.
  pose proof (settle_moves (trade_items (deal c)) g1' f1) as M2.
  pose proof (settle_all (trade_items (deal c)) g1' f1) as A2.
  destruct (settle (trade_items (deal c)) _ _) as [[g2' f2] got]. cbn [snd] in *.
  intros (bp & bc & Hp & Hc & _ & _ & _ & Hf & Hg & He). exists bp, bc, gave, got.
  split_and!; try done.
  - intros Hh Hd Hpos. apply A2; [done|]. rewrite list.Forall_forall in *. intros o Ho.
    specialize (Hh o Ho). destruct (M1 o.1) as [_ ->].
    enough (0 <= amount o.1 gave) by lia.
    assert (Forall (λ o, 0 <= o.2) gave) as Hgave.
    { rewrite list.Forall_forall. intros q Hq. apply Hpos. by eapply elem_of_sublist. }
    clear -Hgave. induction Hgave as [|q l Hq _ IH]; cbn; [lia|]. fold (amount o.1 l) in *.
    case_match; cbn in *; lia.
  - intros x Hx. unfold stock in *. rewrite (Hf x), (Hg x) by done. destruct (M1 x), (M2 x). lia.
Qed.

Lemma ready_positive ps i j p c :
  ready ps i j p c -> Forall (λ o, 0 <= o.2) (trade_items (deal p)).
Proof.
  intros H. apply ready_offers in H as [H _]. eapply list.Forall_impl; [exact H|].
  intros o (_ & _ & _ & ?). lia.
Qed.

(** C3: a trade of proper offers conserves items. Two different players
    trade with each other in a known world; both bags are settled — well
    formed, infinite mode and the automatic conversions and sales off —; each
    offer is of 1 to 200 of an item of the table other than gems and keys, no
    item is offered twice by the same player; the other has accepted, and both
    have room for what they get. When the last of them accepts, then — whether
    or not they still hold what they offered — the two together hold as many
    of every item after the trade as before; and if each holds what he
    offers, each has given his offer and got the other's. For an offer of a
    negative count, which the server accepts as well, this is false (see
    [negative_offer]). *)
Theorem trade_conserves ws w ps i j p c :
  ready ps i j p c -> World.world_named (world p) ws = Some w -> room p c = true ->
  exists ps' es bp bc, confirm items modify ws ps i = Some (ps', es) /\
    bag <$> peer ps' i = Some bp /\ bag <$> peer ps' j = Some bc /\
    (forall x, x <> 0 -> stock bp x + stock bc x = stock (bag p) x + stock (bag c) x) /\
    (Forall (λ o, o.2 <= stock (bag p) o.1) (trade_items (deal p)) ->
     Forall (λ o, o.2 <= stock (bag c) o.1) (trade_items (deal c)) ->
     forall x, x <> 0 ->
       stock bp x = stock (bag p) x - amount x (trade_items (deal p)) + amount x (trade_items (deal c)) /\
       stock bc x = stock (bag c) x - amount x (trade_items (deal c)) + amount x (trade_items (deal p))).
Proof.
  intros Hr Hw Hroom. destruct (confirm_ready ws w ps i j p c Hr Hw) as (ps' & es & E & H).
  rewrite Hroom in H. apply traded_bags in H as (bp & bc & gave & got & Hp & Hc & -> & Hgot & _ & Hs).
  exists ps', es, bp, bc. rewrite Hp, Hc. split_and!; try done.
  - intros x Hx. destruct (Hs x Hx). lia.
  - intros Hhp Hhc x Hx. destruct (Hs x Hx) as [-> ->].
    rewrite settle_all by (done || by apply Hr). rewrite Hgot; [done|done|by apply Hr|].
    by eapply ready_positive.
Qed.

(** A trade does not wait for payment. When the items [p] has offered are
    gone from his bag - he dropped or stored them after both had accepted the
    offers -, his acceptance of the last dialog still gives him everything
    [c] has offered and holds, and [c] gets nothing. *)
Theorem unpaid_trade ws w ps i j p c :
  ready ps i j p c -> World.world_named (world p) ws = Some w -> room p c = true ->
  Forall (λ o, stock (bag p) o.1 < o.2) (trade_items (deal p)) ->
  Forall (λ o, o.2 <= stock (bag c) o.1) (trade_items (deal c)) ->
  exists ps' es bp bc, confirm items modify ws ps i = Some (ps', es) /\
    bag <$> peer ps' i = Some bp /\ bag <$> peer ps' j = Some bc /\
    ETraded i j [] (trade_items (deal c)) ∈ es /\
    forall x, x <> 0 ->
      stock bp x = stock (bag p) x + amount x (trade_items (deal c)) /\
      stock bc x = stock (bag c) x - amount x (trade_items (deal c)).
Proof.
  intros Hr Hw Hroom Hnone Hall.
  destruct (confirm_ready ws w ps i j p c Hr Hw) as (ps' & es & E & H).
  rewrite Hroom in H. apply traded_bags in H as (bp & bc & gave & got & Hp & Hc & -> & Hgot & He & Hs).
  rewrite settle_none in He, Hs by done. cbn [snd] in *.
  rewrite Hgot in He, Hs by (done || apply Hr || by eapply ready_positive).
  exists ps', es, bp, bc. rewrite Hp, Hc. split_and!; try done.
  intros x Hx. destruct (Hs x Hx). cbn in *. lia.
Qed.

(** C23: a negative count makes items. The dialog [trade_item] accepts any
    count not above what the player holds, so also a negative one; when [p]
    has offered [-n] of an item for nothing, his acceptance gives him [n] of
    it, and takes them from [c] only if [c] has as many. *)
Theorem negative_offer ws w ps i j p c x n :
  meeting ps i j p c -> World.world_named (world p) ws = Some w ->
  trade_items (deal p) = [(x, - n)] -> trade_items (deal c) = [] ->
  0 < x < size items -> x <> 112 -> is_key x = false ->
  1 <= n -> 0 < stock (bag p) x -> stock (bag p) x + n <= 200 ->
  stock (bag c) x < n -> 0 < free_slots (inv (bag c)) ->
  exists ps' es bp, confirm items modify ws ps i = Some (ps', es) /\
    bag <$> peer ps' i = Some bp /\ bag <$> peer ps' j = Some (bag c) /\
    stock bp x = stock (bag p) x + n.
Proof.
  intros Hm Hw Hop Hoc Hx H112 Hkey Hn Hsp Hspn Hsc Hfree.
  destruct (confirm_exchange ws w ps i j p c Hm Hw) as (ps1 & -> & [Hij Hp Hc _ _ [Sp Sc]] & _).
  pose proof (settled_contains (bag c) x Sc ltac:(lia)) as Rc. unfold stock in *.
  assert (trade_space_check modify ps1 i j = Some (ps1, true)) as E1.
  { rewrite (trade_space_check_spec ps1 i j (accepting p) c); try done; rewrite Hoc; [|done].
    do 2 f_equal. unfold fits_b. rewrite !filter_nil. cbn. apply Z.leb_le. unfold free_slots. lia. }
  assert (trade_space_check modify ps1 j i = Some (ps1, true)) as E2.
  { unfold trade_space_check. rewrite Hp, Hc. cbn [mbind option_bind]. cbn [accepting deal set_deal trade_items set_accept_the_offer].
    rewrite Hop. cbn [space_loop].
    destruct (modify_count x (bag c) Sc Hx H112) as (r & -> & Hr & Hcr). cbn [mbind option_bind].
    rewrite Hcr, Hr. rewrite i32_small by lia. replace (200 <? _) with false by lia.
    destruct (contains x (inv (bag c)) =? 0); cbn [mbind option_bind length];
      (rewrite update_id by (intros q Hq; rewrite Hc in Hq; simplify_eq; apply set_bag_same));
      do 2 f_equal; rewrite Get_Slots_free by apply Sc; apply negb_true_iff, Z.ltb_ge; cbn; lia. }
  unfold exchange. rewrite E1. cbn [mbind option_bind negb]. rewrite E2. cbn [mbind option_bind negb].
  rewrite Hp, Hc. cbn [mbind option_bind]. unfold key_blocked, offers_key.
  cbn [accepting deal set_deal trade_items set_accept_the_offer]. rewrite Hop, Hoc.
  cbn [existsb fst]. rewrite Hkey. cbn [orb andb hand_over]. rewrite Hp. cbn [mbind option_bind].
  rewrite Z.opp_involutive, (i32_small n) by lia.
  destruct (modify_ok x n (bag p)) as (r & Er & Hr & Hmv); try done; [lia| |].
  { split_and!; try lia. }
  change (bag (accepting p)) with (bag p). rewrite Er. cbn [mbind option_bind]. rewrite Hr, Hkey. cbn [Z.eqb negb].
  rewrite peer_update, decide_False, Hc by done. cbn [mbind option_bind].
  destruct (modify_refused x (- n) (bag c)) as (r2 & Er2 & _ & Hr2); try done; [lia| |].
  { intros (_ & ? & _). lia. }
  rewrite Er2. cbn [mbind option_bind]. rewrite Hr2. eexists _, _, (pl_out r). split; [done|].
  rewrite !peer_on_deal, !peer_update, (decide_True (P := i = i)), !(decide_False (P := j = i)),
    !(decide_True (P := j = j)), !(decide_False (P := i = j)), Hp, Hc by done.
  rewrite decide_True by done. split_and!; try done. by destruct Hmv as (_ & _ & _ & [? _] & _).
Qed.

Lemma holds_all_spec p :
  holds_all p = false <-> exists o, o ∈ trade_items (deal p) /\ stock (bag p) o.1 = 0.
Proof.
  unfold holds_all, Contains. fold stock. split.
  - induction (trade_items (deal p)) as [|o l IH]; [done|]. cbn.
    destruct (Z.eqb_spec (contains o.1 (inv (bag p))) 0) as [E|]; cbn.
    + intros _. exists o. split; [by constructor|done].
    + intros (q & Hq & Hs)%IH. exists q. split; [by constructor|done].
  - intros (o & Ho & Hs). apply not_true_iff_false. intros H. rewrite forallb_forall in H.
    apply list_elem_of_In in Ho. specialize (H o Ho). unfold stock in Hs. by rewrite Hs in H.
Qed.

(** Accepting an offer one no longer has is undefined. When both accept the
    offers and both have room, the server checks that every offered item is
    still held; when one is not, it cancels the trade inside the loop over
    the offers, which destroys the maps the loop is reading. This is the
    only case in which [trade_accept] is undefined for two partners. *)
Theorem accept_without_items ps i j p c :
  peer ps i = Some p -> peer ps j = Some c -> settled (bag p) -> settled (bag c) ->
  Forall (offer_ok items) (trade_items (deal p)) -> Forall (offer_ok items) (trade_items (deal c)) ->
  trading_with (deal p) <> -1 -> trading_with (deal c) <> -1 ->
  (both_accept modify ps i j = None <->
   room p c = true /\
   exists q o, (q = p \/ q = c) /\ o ∈ trade_items (deal q) /\ stock (bag q) o.1 = 0).
Proof.
  intros Hp Hc Sp Sc Op Oc Tp Tc. unfold both_accept, room.
  rewrite (trade_space_check_spec ps i j p c) by done. cbn [mbind option_bind].
  destruct (fits_b (trade_items (deal c)) _); cbn [negb andb]; [|split; [done|by intros [? _]]].
  rewrite (trade_space_check_spec ps j i c p) by done. cbn [mbind option_bind].
  destruct (fits_b (trade_items (deal p)) _); cbn [negb andb]; [|split; [done|by intros [? _]]].
  rewrite Hp, Hc. cbn [mbind option_bind].
  rewrite (proj2 (Z.eqb_neq _ _) Tp), (proj2 (Z.eqb_neq _ _) Tc), !andb_true_r.
  pose proof (holds_all_spec p) as Fp. pose proof (holds_all_spec c) as Fc.
  split.
  - destruct (holds_all c), (holds_all p); cbn; try done; intros _; (split; [done|]).
    + destruct (proj1 Fp eq_refl) as (o & Ho). exists p, o. tauto.
    + destruct (proj1 Fc eq_refl) as (o & Ho). exists c, o. tauto.
    + destruct (proj1 Fp eq_refl) as (o & Ho). exists p, o. tauto.
  - intros (_ & q & o & [-> | ->] & Ho & Hs).
    + rewrite (proj2 Fp) by eauto. by rewrite orb_true_r.
    + by rewrite (proj2 Fc) by eauto.
Qed.

End Exchange.

(** ** Offers stay well formed *)

(** At most four offers, of distinct items, none of them of nothing. *)
Definition offers_wf (l : list (Z * Z)) : Prop :=
  base.NoDup l.*1 /\ (length l <= 4)%nat /\ Forall (λ o, o.2 <> 0) l.

Lemma swap_back_perm {A} i (l : list A) : swap_back i l ≡ₚ l.
Proof.
  unfold swap_back. destruct (l !! i) as [x|] eqn:Ei; [|done].
  destruct (list.last l) as [y|] eqn:Ey; [|done]. rewrite last_lookup in Ey.
  replace (pred (length l)) with (length l - 1)%nat in Ey by lia.
  by apply (Permutation_insert_swap l (length l - 1) i).
Qed.

Lemma swap_back_lookup {A} i (l : list A) k o :
  (k <= i)%nat -> swap_back i l !! k = Some o ->
  (k <> i /\ l !! k = Some o) \/ (k = i /\ l !! (length l - 1)%nat = Some o).
Proof.
  intros Hk. unfold swap_back. destruct (l !! i) as [x|] eqn:Ei; cycle 1.
  { intros H. left. split; [|done]. intros ->. congruence. }
  destruct (list.last l) as [y|] eqn:Ey.
  - rewrite last_lookup in Ey. replace (pred (length l)) with (length l - 1)%nat in Ey by lia.
    apply lookup_lt_Some in Ei as Hi. destruct (decide (k = i)) as [->|Hne].
    + rewrite list_lookup_insert_eq by (by rewrite length_insert). intros [= <-]. by right.
    + rewrite !list_lookup_insert_ne by lia. by left.
  - apply last_None in Ey. by subst l.
Qed.

Definition new_count (x n : Z) (o : Z * Z) : Z * Z := if o.1 =? x then (o.1, n) else o.

Lemma new_count_ids x n (l : list (Z * Z)) : (new_count x n <$> l).*1 = l.*1.
Proof. induction l as [|[y m] l IH]; [done|]. cbn. rewrite IH. unfold new_count. cbn. by destruct (y =? x). Qed.

(** The loop of [mod_trade]: whatever order it leaves, it has given the offer
    of the item its new count. *)
Lemma change_offer_perm x n fuel : forall i f_ l,
  base.NoDup l.*1 -> (i + fuel = length l)%nat ->
  (forall k o, (k < i)%nat -> l !! k = Some o -> new_count x n o = o) ->
  (change_offer x n fuel i f_ l).1 ≡ₚ new_count x n <$> l.
Proof.
  induction fuel as [|fuel IH]; intros i f_ l Hd Hi Hk; cbn [change_offer].
  { cbn. replace (new_count x n <$> l) with l; [done|].
    rewrite <- (list_fmap_id l) at 1. apply list_fmap_ext. intros k o Hko. symmetry.
    apply (Hk k o); [|done]. apply lookup_lt_Some in Hko. lia. }
  destruct (l !! i) as [[y m]|] eqn:Ei; [|apply lookup_ge_None in Ei; lia].
  destruct (Z.eqb_spec y x) as [->|Hyx].
  - set (l1 := <[i:=(x, n)]> l).
    assert (new_count x n <$> l1 = new_count x n <$> l) as E1.
    { subst l1. rewrite list_fmap_insert. apply list_insert_id. rewrite list_lookup_fmap, Ei. cbn.
      unfold new_count. cbn. by rewrite Z.eqb_refl. }
    assert (l1.*1 = l.*1) as E2.
    { subst l1. rewrite list_fmap_insert. apply list_insert_id. by rewrite list_lookup_fmap, Ei. }
    rewrite IH.
    + rewrite <- E1. by rewrite swap_back_perm.
    + rewrite swap_back_perm. by rewrite E2.
    + rewrite swap_back_perm. subst l1. rewrite length_insert. lia.
    + intros k o Hki Ho. apply swap_back_lookup in Ho; [|lia]. destruct Ho as [[Hne Ho]|[-> Ho]].
      * subst l1. rewrite list_lookup_insert_ne in Ho by done. apply (Hk k o); [lia|done].
      * unfold new_count. destruct o as [y q]. cbn. destruct (Z.eqb_spec y x) as [->|]; [|done].
        do 2 f_equal. rewrite <- E2 in Hd. assert (length l1 - 1 = i)%nat as El.
        { eapply (NoDup_lookup l1.*1 _ _ x); [done| |]; rewrite list_lookup_fmap;
            [by rewrite Ho|]. subst l1. rewrite list_lookup_insert_eq by (by apply lookup_lt_Some in Ei). done. }
        rewrite El in Ho. subst l1. rewrite list_lookup_insert_eq in Ho by (by apply lookup_lt_Some in Ei).
        by simplify_eq.
  - apply IH; [done|lia|]. intros k o Hki Ho. destruct (decide (k = i)) as [->|].
    + rewrite Ei in Ho. simplify_eq. unfold new_count. cbn. by rewrite (proj2 (Z.eqb_neq _ _)).
    + apply (Hk k o); [lia|done].
Qed.

Lemma change_offer_true x n fuel : forall i l, (change_offer x n fuel i true l).2 = true.
Proof.
  induction fuel as [|fuel IH]; intros i l; cbn [change_offer]; [done|].
  destruct (l !! i) as [[y m]|]; [|done]. destruct (y =? x); apply IH.
Qed.

Lemma change_offer_false x n fuel : forall i f_ l,
  (i + fuel = length l)%nat -> (change_offer x n fuel i f_ l).2 = false ->
  forall k o, (i <= k)%nat -> l !! k = Some o -> o.1 <> x.
Proof.
  induction fuel as [|fuel IH]; intros i f_ l Hi; cbn [change_offer].
  { intros _ k o Hk Ho. apply lookup_lt_Some in Ho. lia. }
  destruct (l !! i) as [[y m]|] eqn:Ei; [|apply lookup_ge_None in Ei; lia].
  destruct (Z.eqb_spec y x); [by rewrite change_offer_true|].
  intros H k o Hk Ho. destruct (decide (k = i)) as [->|]; [by simplify_eq|].
  apply (IH (S i) f_ l ltac:(lia) H k o); [lia|done].
Qed.

(** The offers after [add_offer]: the item has the count, the others are as
    they were. *)
Lemma add_offer_perm x n l l' :
  base.NoDup l.*1 -> add_offer x n l = Some l' ->
  (x ∈ l.*1 /\ l' ≡ₚ new_count x n <$> l) \/
  (x ∉ l.*1 /\ (length l <= 3)%nat /\ l' ≡ₚ l ++ [(x, n)]).
Proof.
  intros Hd. unfold add_offer.
  pose proof (change_offer_perm x n (length l) 0 false l Hd eq_refl ltac:(lia)) as Hp.
  pose proof (change_offer_false x n (length l) 0 false l eq_refl) as Hf.
  destruct (change_offer x n (length l) 0 false l) as [l1 f_] eqn:E. cbn [fst snd] in *.
  destruct (decide (x ∈ l.*1)) as [Hx|Hx].
  - left. split; [done|]. destruct f_; [by simplify_eq|].
    apply list_elem_of_fmap in Hx as (o & -> & Ho). apply list_elem_of_lookup in Ho as [k Hk].
    by destruct (Hf eq_refl k o ltac:(lia) Hk).
  - assert (new_count x n <$> l = l) as El.
    { rewrite <- (list_fmap_id l) at 2. apply list_fmap_ext. intros k o Hk. unfold new_count.
      destruct (Z.eqb_spec o.1 x) as [<-|]; [|done]. destruct Hx.
      apply list_elem_of_fmap_2. by eapply list_elem_of_lookup_2. }
    rewrite El in Hp. destruct f_.
    + clear Hf. exfalso. apply Hx. clear -E.
      assert (forall fuel i l1 l, change_offer x n fuel i false l = (l1, true) -> x ∈ l.*1) as H; [|by eapply H].
      clear. induction fuel as [|fuel IH]; intros i l1 l; cbn [change_offer]; [done|].
      destruct (l !! i) as [[y m]|] eqn:Ei; [|done]. destruct (Z.eqb_spec y x) as [->|]; [|by apply IH].
      intros _. apply (list_elem_of_fmap_2 fst) with (x := (x, m)). by eapply list_elem_of_lookup_2.
    + rewrite Hp. destruct (3 <? length l)%nat eqn:El3; [done|]. apply Nat.ltb_ge in El3.
      intros [= <-]. right. split_and!; try done. by rewrite Hp.
Qed.

Lemma add_offer_wf x n l l' :
  n <> 0 -> offers_wf l -> add_offer x n l = Some l' -> offers_wf l'.
Proof.
  intros Hn (Hd & Hl & Hz) H. apply add_offer_perm in H as [[Hx H]|(Hx & H3 & H)]; [..|done];
    unfold offers_wf; rewrite H.
  - rewrite new_count_ids, length_fmap. split_and!; try done. apply Forall_fmap.
    eapply list.Forall_impl; [exact Hz|]. intros o Ho. unfold new_count. cbn. by case_match.
  - rewrite fmap_app, length_app. cbn. split_and!; [|lia|].
    + apply list.NoDup_app. split_and!; [done|set_solver|apply NoDup_singleton].
    + apply list.Forall_app. split; [done|]. by constructor.
Qed.

Lemma remove_offer_sublist x l : (remove_offer x l).1 `sublist_of` l.
Proof.
  induction l as [|[y n] l IH]; cbn [remove_offer]; [done|].
  destruct (y =? x); [by apply sublist_cons|]. destruct (remove_offer x l). by apply sublist_skip.
Qed.

Lemma remove_offer_wf x l : offers_wf l -> offers_wf (remove_offer x l).1.
Proof.
  intros (Hd & Hl & Hz). pose proof (remove_offer_sublist x l) as Hs. split_and!.
  - eapply sublist_NoDup; [exact Hd|]. by apply fmap_sublist.
  - apply sublist_length in Hs. lia.
  - rewrite list.Forall_forall in *. intros o Ho. apply Hz. by eapply elem_of_sublist.
Qed.

(** ** Every handler keeps the offers well formed *)

Definition all_wf (ps : peers) : Prop :=
  forall i p, peer ps i = Some p -> offers_wf (trade_items (deal p)).

Lemma no_offers_wf : offers_wf [].
Proof. split_and!; cbn; [constructor|lia|constructor]. Qed.

Lemma all_wf_update i f ps :
  (forall p, peer ps i = Some p -> offers_wf (trade_items (deal p)) ->
    offers_wf (trade_items (deal (f p)))) ->
  all_wf ps -> all_wf (update i f ps).
Proof.
  intros Hf H k p. rewrite peer_update. case_decide as Hik; [|by apply H].
  subst k. destruct (peer ps i) as [q|] eqn:E; [|done]. intros [= <-]. apply Hf; [done|by eapply H].
Qed.

Lemma all_wf_on_deal i f ps :
  (forall d, offers_wf (trade_items d) -> offers_wf (trade_items (f d))) ->
  all_wf ps -> all_wf (on_deal i f ps).
Proof. intros Hf. apply all_wf_update. intros p _. apply Hf. Qed.

Lemma all_wf_bag i b ps : all_wf ps -> all_wf (update i (set_bag b) ps).
Proof. apply all_wf_update. done. Qed.

Create HintDb trade.
#[local] Hint Resolve no_offers_wf all_wf_bag add_offer_wf remove_offer_wf : trade.
#[local] Hint Extern 1 (all_wf (on_deal _ _ _)) =>
  apply all_wf_on_deal; [intros ? ?; cbn; auto with trade|] : trade.

Lemma cancel_trade_wf ps i : all_wf ps -> all_wf (cancel_trade ps i).
Proof.
  intros H. unfold cancel_trade. destruct (peer ps i) as [p|]; [|done].
  destruct (partner_of ps p); repeat apply all_wf_on_deal; try done; intros; apply no_offers_wf.
Qed.

Lemma confirm_dialog_wf ps i j : all_wf ps -> all_wf (send_trade_confirm_dialog ps i j).
Proof. intros H. unfold send_trade_confirm_dialog. auto with trade. Qed.

Lemma changed_wf ps i j : all_wf ps -> all_wf (changed i j ps).
Proof. intros H. unfold changed. auto with trade. Qed.

#[local] Hint Resolve cancel_trade_wf confirm_dialog_wf changed_wf : trade.

Lemma mod_trade_alone_wf ws ps i p x n remove :
  all_wf ps -> peer ps i = Some p -> all_wf (mod_trade_alone ws ps i p x n remove).
Proof.
  intros H Hp. unfold mod_trade_alone. pose proof (H i p Hp) as Hw.
  destruct remove; [|destruct (Z.eqb_spec n 0) as [|Hn]; [done|];
    destruct (add_offer x n _) as [l|] eqn:E; [apply add_offer_wf in E; [|done..]|done]];
    case_match; auto with trade.
Qed.

Lemma mod_trade_wf ws ps i x n remove : all_wf ps -> all_wf (mod_trade ws ps i x n remove).
Proof.
  intros H. unfold mod_trade. destruct (peer ps i) as [p|] eqn:Hp; [|done].
  pose proof (H i p Hp) as Hw.
  pose proof (mod_trade_alone_wf ws ps i p x n remove H Hp) as Ha.
  pose proof (remove_offer_wf x _ Hw) as Hr.
  repeat (case_match; try done); simplify_eq; cbn [fst] in Hr; auto with trade.
  match goal with E : add_offer _ _ _ = _ |- _ => apply add_offer_wf in E end;
    [|by apply Z.eqb_neq|done]. auto with trade.
Qed.

#[local] Hint Resolve mod_trade_wf : trade.

Section Reachable.
Context (items : table) (untradeable : Z -> bool) (modify : modify_fn).

(** Split an [option] computation that ends in [Some]. *)
Ltac unbind :=
  repeat match goal with
  | H : _ ≫= _ = Some _ |- _ =>
      let y := fresh "y" in let E := fresh "E" in
      apply bind_Some in H as (y & E & H);
      match type of y with
      | (_ * _ * _)%type => destruct y as [[? ?] ?]
      | (_ * _)%type => destruct y as [? ?]
      | _ => idtac
      end
  end.

Lemma trade_space_check_wf ps i j ps' ok :
  trade_space_check modify ps i j = Some (ps', ok) -> all_wf ps -> all_wf ps'.
Proof. unfold trade_space_check. intros H ?. unbind. simplify_eq. auto with trade. Qed.

Lemma trade_item_wf ws ps i cch ps' es :
  trade_item modify ws ps i cch = Some (ps', es) -> all_wf ps -> all_wf ps'.
Proof.
  unfold trade_item. intros H ?. unbind. repeat case_match; unbind; simplify_eq; auto with trade.
  all: repeat case_match; simplify_eq; auto with trade.
Qed.

Lemma hand_over_wf i j offers : forall ps ps' es paid,
  hand_over modify i j offers ps = Some (ps', es, paid) -> all_wf ps -> all_wf ps'.
Proof.
  induction offers as [|[x n] offers IH]; intros ps ps' es paid; cbn [hand_over]; [by intros [= <-]|].
  intros H Hw. unbind. case_match; unbind; simplify_eq.
  - eapply IH; [done|]. auto with trade.
  - eapply IH; [done|]. case_match; unbind; simplify_eq; auto with trade.
Qed.

Lemma exchange_wf w ps i j ps' es :
  exchange items modify w ps i j = Some (ps', es) -> all_wf ps -> all_wf ps'.
Proof.
  unfold exchange. intros H Hw. unbind. eapply trade_space_check_wf in Hw; [|done].
  case_match; [simplify_eq; auto with trade|]. unbind. eapply trade_space_check_wf in Hw; [|done].
  case_match; [simplify_eq; auto with trade|].
  unbind. destruct (key_blocked _ _ _); [simplify_eq; auto with trade|].
  destruct (key_blocked _ _ _); [simplify_eq; auto with trade|]. unbind. simplify_eq.
  do 2 (apply all_wf_on_deal; [intros; apply no_offers_wf|]).
  eapply hand_over_wf; [done|]. by eapply hand_over_wf.
Qed.

Lemma trade_confirm_wf ws ps i cch ps' es :
  trade_confirm items modify ws ps i cch = Some (ps', es) -> all_wf ps -> all_wf ps'.
Proof.
  unfold trade_confirm, confirm. intros H Hw. unbind. repeat (case_match; simplify_eq; auto with trade).
  unbind. case_match; [|simplify_eq; auto with trade]. unbind.
  assert (all_wf (on_deal i (set_accept_the_offer true) ps)) as Hw' by auto with trade.
  repeat (case_match; simplify_eq; auto with trade). by eapply exchange_wf.
Qed.

Lemma trade_action_wf ws ps i cch o ps' :
  trade_action items untradeable ws ps i cch = Some (o, ps') -> all_wf ps -> all_wf ps'.
Proof.
  unfold trade_action. intros H Hw. case_match; [by simplify_eq|]. unbind.
  case_match; [by simplify_eq|]. unbind. case_match; simplify_eq; [done|].
  case_match; auto with trade.
Qed.

Lemma both_accept_wf ps i j ps' b :
  both_accept modify ps i j = Some (ps', b) -> all_wf ps -> all_wf ps'.
Proof.
  unfold both_accept. intros H Hw. unbind. eapply trade_space_check_wf in Hw; [|done].
  case_match; [simplify_eq; auto with trade|]. unbind. eapply trade_space_check_wf in Hw; [|done].
  case_match; [simplify_eq; auto with trade|]. unbind. case_match; simplify_eq; auto with trade.
Qed.

Lemma accept_loop_wf ws st i fuel : forall j f_ ps ps' f',
  accept_loop modify ws st i fuel j f_ ps = Some (ps', f') -> all_wf ps -> all_wf ps'.
Proof.
  induction fuel as [|fuel IH]; intros j f_ ps ps' f'; cbn [accept_loop]; [by intros [= <-]|].
  repeat (case_match; try by apply IH). intros H' Hw. unbind.
  case_match; unbind; eapply IH; try done; auto with trade.
  eapply both_accept_wf; [done|]. auto with trade.
Qed.

Lemma trade_accept_wf ws ps i cch ps' :
  trade_accept_action modify ws ps i cch = Some ps' -> all_wf ps -> all_wf ps'.
Proof.
  unfold trade_accept_action. intros H Hw. unbind. case_match; [by simplify_eq|].
  case_match; [by simplify_eq|]. unbind. case_match; [by simplify_eq|]. unbind.
  eapply accept_loop_wf in Hw; [|done]. case_match; simplify_eq; auto with trade.
Qed.

Lemma start_trade_wf ps i : all_wf ps -> all_wf (start_trade ps i).
Proof. intros H. unfold start_trade. repeat case_match; auto with trade. Qed.

Lemma set_last_wrenched_wf i s ps : all_wf ps -> all_wf (update i (set_last_wrenched s) ps).
Proof. by apply all_wf_update. Qed.

(** What can happen to the peers: the handlers of the trade, the other code
    that changes a player's items, and players who come and go. *)
Inductive step : peers -> peers -> Prop :=
| step_trade_item ws ps i cch ps' es :
    trade_item modify ws ps i cch = Some (ps', es) -> step ps ps'
| step_trade_confirm ws ps i cch ps' es :
    trade_confirm items modify ws ps i cch = Some (ps', es) -> step ps ps'
| step_Rem_Trade ws ps i cch ps' :
    Rem_Trade items untradeable ws ps i cch = Some ps' -> step ps ps'
| step_Mod_Trade ws ps i cch ps' :
    Mod_Trade items untradeable ws ps i cch = Some ps' -> step ps ps'
| step_trade_accept ws ps i cch ps' :
    trade_accept_action modify ws ps i cch = Some ps' -> step ps ps'
| step_trade_cancel ps i : step ps (trade_cancel ps i)
| step_trade_started ps i cch ps' : trade_started ps i cch = Some ps' -> step ps ps'
| step_TRADE ps i cmd : step ps (TRADE ps i cmd)
| step_items ps i b : step ps (update i (set_bag b) ps)
| step_join ps i p : deal p = no_trade -> step ps (<[i := Some p]> ps)
| step_leave ps i : step ps (<[i := None]> ps).

Lemma all_wf_insert ps i q :
  (forall p, q = Some p -> deal p = no_trade) -> all_wf ps -> all_wf (<[i := q]> ps).
Proof.
  intros Hq H k p. unfold peer. destruct (decide (i = k /\ (i < length ps)%nat)) as [[<- Hi]|Hne].
  - rewrite list_lookup_insert_eq by done. cbn. intros ->. rewrite (Hq p) by done. apply no_offers_wf.
  - rewrite list_lookup_insert. case_decide as Hc; [by destruct Hne|]. apply H.
Qed.

Lemma step_wf ps ps' : step ps ps' -> all_wf ps -> all_wf ps'.
Proof.
  destruct 1; intros Hw.
  - by eapply trade_item_wf.
  - by eapply trade_confirm_wf.
  - unfold Rem_Trade in *. unbind. eapply trade_action_wf in Hw; [|done].
    repeat case_match; simplify_eq; auto with trade.
  - unfold Mod_Trade in *. unbind. eapply trade_action_wf in Hw; [|done].
    repeat case_match; simplify_eq; auto with trade.
  - by eapply trade_accept_wf.
  - by apply cancel_trade_wf.
  - unfold trade_started in *. case_match; [by simplify_eq|]. unbind.
    case_match; simplify_eq; [done|by apply start_trade_wf].
  - unfold TRADE. repeat case_match; try done; try apply start_trade_wf; by apply set_last_wrenched_wf.
  - by apply all_wf_bag.
  - apply all_wf_insert; [by intros ? [= <-]|done].
  - apply all_wf_insert; done.
Qed.

(** C33: offers stay well formed. Starting from players who do not trade, no
    sequence of trade actions, dialog answers and commands with any texts, of
    changes of the inventories and of players coming and going leaves a
    player with more than four offers, with two offers of one item, or with
    an offer of nothing. *)
Theorem offers_always_wf ps ps' :
  (forall i p, peer ps i = Some p -> deal p = no_trade) -> rtc step ps ps' -> all_wf ps'.
Proof.
  intros H0 H. assert (all_wf ps) as Hw.
  { intros i p Hp. rewrite (H0 i p Hp). apply no_offers_wf. }
  clear H0. induction H as [|ps ps1 ps2 Hs _ IH]; [done|]. apply IH. by eapply step_wf.
Qed.

End Reachable.

(** ** A trade, run *)

Definition demo_bag (id : Z) (l : list (Z * Z)) : Player :=
  mkPlayer l 0 id 0 false false false false false false false false false false false 0 "0,0" 0 0
    (mkWear 0 0 0 0 0 0 0 0 0 0 256 0 6 0 6 0 0 0 0).

Definition demo_trader (id : Z) (name : string) (l : list (Z * Z)) (d : Trade) : Trader :=
  mkTrader (demo_bag id l) name "" "TRADE" 0 false "" [] 10 d.

Definition demo_deal (other : Z) (accepted : bool) (offers : list (Z * Z)) : Trade :=
  mkTrade other true true accepted offers.

Definition demo_worlds : list World.World :=
  [World.mkWorld "TRADE" "ann" [] 0 0 100 60 0 false [] []].

Definition table_of (n : Z) : table := repeat item_default (Z.to_nat n).

Abbreviation demo_items := (table_of 1000).
Abbreviation demo_modify := (Modify demo_items [] true "" "" 1).

(** From two idle players to the exchange: what they answer when they are
    asked how many. *)
Definition play (ann_offers bob_offers : string) (ps : peers) : option peers :=
  let ps := TRADE ps 0 "bob" in
  let ps := TRADE ps 1 "ann" in
  '(ps, _) ← trade_item demo_modify demo_worlds ps 0 ann_offers;
  '(ps, _) ← trade_item demo_modify demo_worlds ps 1 bob_offers;
  ps ← trade_accept_action demo_modify demo_worlds ps 0 ("action|trade_accept" +:+ endl +:+ "status|1");
  ps ← trade_accept_action demo_modify demo_worlds ps 1 ("action|trade_accept" +:+ endl +:+ "status|1");
  '(ps, _) ← trade_confirm demo_items demo_modify demo_worlds ps 0 "buttonClicked|accept";
  '(ps, _) ← trade_confirm demo_items demo_modify demo_worlds ps 1 "buttonClicked|accept";
  Some ps.

Definition bags (ps : peers) : list (option (list (Z * Z))) := (λ i, inv ∘ bag <$> peer ps i) <$> [0; 1]%nat.

Definition two_players : peers :=
  [Some (demo_trader 1 "ann" [(242, 100); (0, 0)] no_trade);
   Some (demo_trader 2 "bob" [(18, 5); (0, 0)] no_trade)].

Example play_exchanges :
  bags <$> play ("itemID|242|" +:+ endl +:+ "count|30") ("itemID|18|" +:+ endl +:+ "count|5") two_players
  = Some [Some [(242, 70); (18, 5)]; Some [(242, 30); (0, 0)]].
Proof. by vm_compute. Qed.

(** Ann answers [-50] and has 150 world locks after the trade. *)
Example play_negative :
  bags <$> play ("itemID|242|" +:+ endl +:+ "count|-50") "" two_players
  = Some [Some [(242, 150); (0, 0)]; Some [(18, 5); (0, 0)]].
Proof. by vm_compute. Qed.

(** ** Witnesses *)

Lemma table_of_size n : 0 <= n -> size (table_of n) = n.
Proof. intros H. unfold size, table_of. rewrite repeat_length. lia. Qed.

Definition ann_trader (l offers : list (Z * Z)) : Trader :=
  demo_trader 1 "ann" l (demo_deal 2 false offers).
Definition bob_trader (l offers : list (Z * Z)) : Trader :=
  demo_trader 2 "bob" l (demo_deal 1 true offers).

Definition ann_bag : list (Z * Z) := [(242, 100); (0, 0)].
Definition bob_bag : list (Z * Z) := [(18, 5); (0, 0)].

Lemma demo_settled id l : inv_ok l -> settled (demo_bag id l).
Proof. intros H. split; [|done]. unfold quiet. cbn. tauto. Qed.

Lemma demo_bags_ok : inv_ok ann_bag /\ inv_ok bob_bag.
Proof. split; (split; [repeat constructor; unfold slot_ok; cbn; lia|cbn; tauto]). Qed.

Lemma demo_meeting a b :
  meeting [Some (ann_trader ann_bag a); None; Some (bob_trader bob_bag b)] 0 2
    (ann_trader ann_bag a) (bob_trader bob_bag b).
Proof. destruct demo_bags_ok. by split; [..|split; apply demo_settled]. Qed.

Lemma demo_ready n :
  1 <= n <= 200 ->
  ready demo_items [Some (ann_trader ann_bag [(242, n)]); None; Some (bob_trader bob_bag [(18, 5)])] 0 2
    (ann_trader ann_bag [(242, n)]) (bob_trader bob_bag [(18, 5)]).
Proof.
  intros Hn. split; [apply demo_meeting|..]; cbn [deal trade_items ann_trader bob_trader demo_trader demo_deal].
  - rewrite !list.Forall_singleton. unfold offer_ok. rewrite table_of_size by lia. cbn.
    split_and!; done || lia.
  - split; cbn; apply NoDup_singleton.
Qed.

Lemma confirm_settles_witness :
  exists ps' es,
    confirm demo_items demo_modify demo_worlds
      [Some (ann_trader ann_bag [(242, 30)]); None; Some (bob_trader bob_bag [(18, 5)])] 0 = Some (ps', es) /\
    traded [Some (ann_trader ann_bag [(242, 30)]); None; Some (bob_trader bob_bag [(18, 5)])] ps' 0 2
      (ann_trader ann_bag [(242, 30)]) (bob_trader bob_bag [(18, 5)]) es.
Proof.
  exact (confirm_settles demo_items [] true "" "" 0 demo_worlds _ _ 0 2 _ _
    (demo_ready 30 ltac:(lia)) eq_refl).
Defined.

Lemma trade_conserves_witness :
  exists ps' es bp bc,
    confirm demo_items demo_modify demo_worlds
      [Some (ann_trader ann_bag [(242, 30)]); None; Some (bob_trader bob_bag [(18, 5)])] 0 = Some (ps', es) /\
    bag <$> peer ps' 0 = Some bp /\ bag <$> peer ps' 2 = Some bc /\
    stock bp 242 = 70 /\ stock bc 242 = 30.
Proof.
  destruct (trade_conserves demo_items [] true "" "" 0 demo_worlds _ _ 0 2 _ _
    (demo_ready 30 ltac:(lia)) eq_refl eq_refl) as (ps' & es & bp & bc & E & Hp & Hc & _ & H).
  exists ps', es, bp, bc. split; [done|]. split; [done|]. split; [done|].
  destruct (H ltac:(repeat constructor; cbn; lia) ltac:(repeat constructor; cbn; lia) 242 ltac:(lia))
    as [-> ->]. done.
Defined.

Lemma unpaid_trade_witness :
  exists ps' es bp bc,
    confirm demo_items demo_modify demo_worlds
      [Some (ann_trader ann_bag [(242, 150)]); None; Some (bob_trader bob_bag [(18, 5)])] 0 = Some (ps', es) /\
    bag <$> peer ps' 0 = Some bp /\ bag <$> peer ps' 2 = Some bc /\
    stock bp 18 = 5 /\ stock bc 18 = 0 /\ stock bp 242 = 100.
Proof.
  destruct (unpaid_trade demo_items [] true "" "" 0 demo_worlds _ _ 0 2 _ _
    (demo_ready 150 ltac:(lia)) eq_refl eq_refl ltac:(repeat constructor; cbn; lia)
    ltac:(repeat constructor; cbn; lia)) as (ps' & es & bp & bc & E & Hp & Hc & _ & H).
  exists ps', es, bp, bc. destruct (H 18 ltac:(lia)) as [-> ->]. destruct (H 242 ltac:(lia)) as [-> _].
  done.
Defined.

Lemma negative_offer_witness :
  exists ps' es bp,
    confirm demo_items demo_modify demo_worlds
      [Some (ann_trader ann_bag [(242, -50)]); None; Some (bob_trader bob_bag [])] 0 = Some (ps', es) /\
    bag <$> peer ps' 0 = Some bp /\ bag <$> peer ps' 2 = Some (demo_bag 2 bob_bag) /\ stock bp 242 = 150.
Proof.
  apply (negative_offer demo_items [] true "" "" 0 demo_worlds
    (World.mkWorld "TRADE" "ann" [] 0 0 100 60 0 false [] []) _ 0 2
    (ann_trader ann_bag [(242, -50)]) (bob_trader bob_bag []) 242 50); try apply demo_meeting;
    try reflexivity; rewrite ?table_of_size; cbn; lia.
Defined.

Lemma accept_without_items_witness :
  both_accept demo_modify
    [Some (ann_trader ann_bag [(18, 1)]); Some (bob_trader bob_bag [(18, 5)])] 0 1 = None.
Proof.
  destruct demo_bags_ok.
  apply (accept_without_items demo_items [] true "" "" 0 _ 0 1
    (ann_trader ann_bag [(18, 1)]) (bob_trader bob_bag [(18, 5)])); try reflexivity;
    try (by apply demo_settled); try (cbn; lia).
  1, 2: apply list.Forall_singleton; unfold offer_ok; rewrite table_of_size by lia; cbn;
    split_and!; done || lia.
  split; [reflexivity|]. exists (ann_trader ann_bag [(18, 1)]), (18, 1).
  split; [by left|]. split; [by constructor|reflexivity].
Defined.

Lemma play_steps a b ps ps' :
  play a b ps = Some ps' -> rtc (step demo_items (λ _, false) demo_modify) ps ps'.
Proof.
  unfold play. intros H.
  apply bind_Some in H as ([ps1 e1] & E1 & H). apply bind_Some in H as ([ps2 e2] & E2 & H).
  apply bind_Some in H as (ps3 & E3 & H). apply bind_Some in H as (ps4 & E4 & H).
  apply bind_Some in H as ([ps5 e5] & E5 & H). apply bind_Some in H as ([ps6 e6] & E6 & H).
  injection H as <-.
  eapply rtc_l; [apply step_TRADE|]. eapply rtc_l; [apply step_TRADE|].
  eapply rtc_l; [by eapply step_trade_item|]. eapply rtc_l; [by eapply step_trade_item|].
  eapply rtc_l; [by eapply step_trade_accept|]. eapply rtc_l; [by eapply step_trade_accept|].
  eapply rtc_l; [by eapply step_trade_confirm|]. eapply rtc_l; [by eapply step_trade_confirm|].
  apply rtc_refl.
Qed.

Definition played : bool :=
  match play ("itemID|242|" +:+ endl +:+ "count|-50") "" two_players with
  | Some _ => true
  | None => false
  end.

Lemma offers_always_wf_witness :
  exists ps', play ("itemID|242|" +:+ endl +:+ "count|-50") "" two_players = Some ps' /\ all_wf ps'.
Proof.
  assert (played = true) as Hb by (vm_compute; reflexivity). unfold played in Hb.
  revert Hb. generalize (play_steps ("itemID|242|" +:+ endl +:+ "count|-50") "" two_players).
  generalize (play ("itemID|242|" +:+ endl +:+ "count|-50") "" two_players).
  intros [ps'|] Hs Hb; [|discriminate Hb]. exists ps'. split; [reflexivity|].
  apply (offers_always_wf demo_items (λ _, false) demo_modify two_players).
  - intros [|[|i]] p; cbn; by intros [= <-].
  - apply Hs. reflexivity.
Defined.

End TradeFacts.
