(* ===== verification/Shop.v ===== *)
(** * Shop: the machines that sell items for locks

    Models the dialogs [LockBot] and [Nutcracker] of
    [src/NopySource/Dialog/dialog_return.h] and [Set_Count] of
    [src/NopySource/Handle/BaseServer.h].  A purchase is a conversation of
    three requests: the choice of an item, the count, the confirmation.  The
    Lock-Bot keeps nothing between them: the item, the price and the currency
    go to the client in the dialog and are read back from its answer
    ([get_embed]).  The Nutcracker keeps the item, the count and the price in
    the player.  The goods are given with [Inventory.Modify], and paid with
    [Wallet.get_wls].

    [None] is an access outside a vector, or an exception. *)
From S2P Require Import Prelude Memory Items Packet Tank Inventory Scanner Texts Messages Wallet.
Import Items Inventory Wallet.

Module Shop.

Record Customer := mkCustomer {
  purse : Purse;
  last_id_item : Z;
  buyp : Z;
  last_price_item : Z
}.

Inductive effect :=
| EInventory (e : Inventory.effect)    (* what [Modify] and [get_wls] did *)
| EMessage (e : Messages.effect)
| EDialog (text : string)              (* [OnDialogRequest] *)
| EExchange (item lock : Z).           (* in the world: item and lock fly past each other *)

Definition moves (es : list Inventory.effect) : list effect := EInventory <$> es.

Definition set_purse (q : Purse) (c : Customer) : Customer :=
  mkCustomer q (last_id_item c) (buyp c) (last_price_item c).

Definition set_bag (b : Player) (q : Purse) : Purse :=
  mkPurse b (wl_bank_amount q) (dl_bank_amount q) (bgl_bank_amount q).

Definition set_last_id_item (v : Z) (c : Customer) : Customer :=
  mkCustomer (purse c) v (buyp c) (last_price_item c).
Definition set_order (n price : Z) (c : Customer) : Customer :=
  mkCustomer (purse c) (last_id_item c) n price.

(** ** [Set_Count]: a number with a comma between groups of three digits *)

Fixpoint grouped (s : string) : string :=
  match s with
  | EmptyString => EmptyString
  | String c s' =>
      String c ((if (String.length s' mod 3 =? 0)%nat && negb (is_empty s') then "," else "")
                +:+ grouped s')
  end.

Definition Set_Count (gems : Z) : string :=
  if gems <? 0 then "-" +:+ grouped (to_string (- gems)) else grouped (to_string gems).

Section Shop.
Context (items : table) (modify : modify_fn).
(** [SetColor(peer)], the player's colours for dialogs. *)
Context (color : string).

Definition look (q : Purse) : option (Z * Purse * list effect) :=
  '(n, q, es) ← get_wls modify true false 0 q; Some (n, q, moves es).

Definition bubble (p : Player) (text : string) : list effect :=
  EMessage <$> Messages.OnTalkBubble (netID p) text 0 true 0 false.

Definition item_name (id : Z) : option string := name <$> get_item items id.

Definition dialog_head : string :=
  cat [color; "set_default_color|`o"; endl; "set_bg_color|0,52,102,178|"; endl;
    "set_border_color|255,255,255,255|"; endl].

(** The count the player typed is refused. *)
Definition bad_count (s : string) : bool :=
  negb (Texts.is_number s) || (3 <? slen s) || (slen s <=? 0) || (atoi s <=? 0) || (200 <? atoi s).

Definition no_room (p : Player) : list effect :=
  (EMessage <$> Messages.OnConsoleMessage "You don't have room in your backpack!" false 0) ++
  bubble p "You don't have room in your backpack!".

(** ** [LockBot] *)

(** The price of an item and the item it is paid with. *)
Definition lockbot_prices : list (Z * (Z * Z)) :=
  [(204, (5, 202)); (206, (3, 204)); (5262, (3, 206)); (242, (5, 206)); (5954, (1, 242));
   (3156, (3, 242)); (3676, (5, 242)); (8878, (6, 242)); (12480, (10, 242)); (12482, (10, 242));
   (12484, (10, 242)); (3684, (10, 242)); (5258, (10, 242)); (6140, (15, 242)); (1280, (15, 242));
   (3560, (20, 242)); (13790, (25, 242)); (12358, (50, 242)); (7190, (65, 242)); (1486, (100, 242));
   (5264, (500, 242)); (5260, (1000, 242))].

Fixpoint price_in {A} (d : A) (ps : list (Z * A)) (item_id : Z) : A :=
  match ps with
  | [] => d
  | (id, price) :: ps => if item_id =? id then price else price_in d ps item_id
  end.

Definition lockbot_price : Z -> Z * Z := price_in (0, 0) lockbot_prices.

Definition lockbot_list : list Z :=
  [204; 206; 5262; 242; 5954; 3156; 3676; 8878; 12480; 12482; 12484; 3684; 5258; 6140; 1280;
   3560; 13790; 12358; 7190; 1486; 5264; 5260].

Definition small_currency (id_price : Z) : bool :=
  (id_price =? 202) || (id_price =? 204) || (id_price =? 206).

(** The stacks of [ids] as [uint16_t]: [None] when all are found, where the
    handler returns. *)
Fixpoint find_stacks (l : list (Z * Z)) (acc : Z -> Z) (ids : list Z) : option (Z -> Z) :=
  match l with
  | [] => Some acc
  | (id, n) :: l =>
      let acc := if existsb (Z.eqb id) ids then (λ j, if j =? id then u16 n else acc j) else acc in
      if forallb (λ j, negb (acc j =? 0)) ids then None else find_stacks l acc ids
  end.

Definition nz (v : Z) : bool := negb (v =? 0).

Definition lockbot_hold (sl bl hl wl dl bgl : Z) : string :=
  let part (v : Z) (before : string) (what : string) (more : bool) :=
    if nz v then cat [before; to_string v; what; if more then "," else ")``|left|"] else "" in
  let joint (b : bool) := if b then " and " else " " in
  cat [
    (if nz wl || nz dl || nz sl || nz bl || nz hl || nz bgl
     then cat [endl; "add_smalltext|`9(Sensors detect"]
     else cat [endl;
       "add_smalltext|`9Wait, you don't have any locks at all! Why are you wasting my time?``|left|"]);
    part sl " " " Small Locks" (nz bl || nz hl || nz wl || nz dl || nz bgl);
    part bl (joint (negb (nz hl) && negb (nz wl) && negb (nz dl) && negb (nz bgl) && nz sl))
      " Big Locks" (nz hl || nz wl || nz dl || nz bgl);
    part hl (joint (negb (nz wl) && negb (nz dl) && negb (nz bgl) && nz sl && nz bl))
      " Huge Locks" (nz wl || nz dl || nz bgl);
    part wl (joint (negb (nz dl) && negb (nz bgl) && nz sl && nz bl && nz hl))
      " World Locks" (nz dl || nz bgl);
    part dl (joint (negb (nz bgl) && nz sl && nz bl && nz hl && nz wl)) " Diamond Locks" (nz bgl);
    if nz bgl then
      cat [joint (nz sl || nz bl || nz hl || nz wl); to_string bgl; " Silver Gem Locks)``|left| "]
    else ""].

Definition lockbot_menu (hold : string) : string :=
  cat [dialog_head; "add_label_with_icon|big|`9Lock-Bot|left|3682|"; endl;
    "add_smalltext|`oGreetings human, i'm Lock-Bot. I can provide convenient access to Locke's supply of goods, in exchange for Locks. However. I must leave to recharge in 8 hours.|left|";
    endl; "add_spacer|small|"; hold; "|"; endl;
    "add_button|item_204|`oBuy Big Lock for 5 Small Locks|0|0|"; endl;
    "add_button|item_206|`oBuy Huge Lock for 3 Big Locks|0|0|"; endl;
    "add_button|item_5262|`oBuy Neon Gum for 2 Huge Locks|0|0|"; endl;
    "add_button|item_242|`oBuy World Lock for 5 Huge Locks|0|0|"; endl;
    "add_button|item_5954|`oBuy Guild Chest for 1 World Locks|0|0|"; endl;
    "add_button|item_3156|`oBuy Transdimensional Vaporizer Ray for 3 World Locks|0|0|"; endl;
    "add_button|item_3676|`oBuy Pet Trainer Whisle for 5 World Locks|0|0|"; endl;
    "add_button|item_8878|`oBuy Safe Vault for 6 World Locks|0|0|"; endl;
    "add_button|item_12480|`oBuy Punch Antennae for 10 World Locks|0|0|"; endl;
    "add_button|item_12482|`oBuy Build Antennae for 10 World Locks|0|0|"; endl;
    "add_button|item_12484|`oBuy Grow Antennae for 10 World Locks|0|0|"; endl;
    "add_button|item_3684|`oBuy Lock-Bot Remote for 10 World Locks|0|0|"; endl;
    "add_button|item_5258|`oBuy Chi Harmonizer for 10 World Locks|0|0|"; endl;
    "add_button|item_6140|`oBuy Extract-O-Snap for 15 World Locks|0|0|"; endl;
    "add_button|item_1280|`oBuy Birth Certificate for 15 World Locks|0|0|"; endl;
    "add_button|item_3560|`oBuy Lock Mover for 20 World Locks|0|0|"; endl;
    "add_button|item_13790|`oBuy Stylish Sunglasses for 25 World Locks|0|0|"; endl;
    "add_button|item_12358|`oBuy Music Amplifier for 50 World Locks|0|0|"; endl;
    "add_button|item_7190|`oBuy Guild Name Changer for 65 World Locks|0|0|"; endl;
    "add_button|item_1486|`oBuy Growtoken for 1 Diamond Locks|0|0|"; endl;
    "add_button|item_5264|`oBuy Neon Nerves for 5 Diamond Locks|0|0|"; endl;
    "add_button|item_5260|`oBuy Harmonic Lock for 10 Diamond Locks|0|0|"; endl;
    "end_dialog|LockBot|GoodBye!||"; endl; "add_quick_exit|"].

(** The button [BackToLockBot]. *)
Definition lockbot_back (c : Customer) : list effect :=
  match find_stacks (inv (bag (purse c))) (λ _, 0) [242; 1796; 7188; 202; 204; 206] with
  | Some f => [EDialog (lockbot_menu (lockbot_hold (f 202) (f 204) (f 206) (f 242) (f 1796) (f 7188)))]
  | None => []
  end.

(** A button [item_<id>]: the dialog that asks for the count. *)
Definition lockbot_item (item_id : Z) (c : Customer) : option (Customer * list effect) :=
  '(wl, q, es) ← look (purse c);
  let '(price, id_price) := lockbot_price item_id in
  let payment := Contains (bag q) id_price in
  it ← get_item items item_id;
  wk ←
    (if small_currency id_price then
       cur ← item_name id_price;
       Some (if payment <? price then
         cat [endl; "add_textbox|`oYou can't afford this!|left|"; endl; "add_smalltext|`oYou have ";
           Set_Count payment; " "; cur; ".|left|"; endl;
           "add_button|BackToLockBot|`oSee other items|0|0|"]
       else
         cat [endl; "add_textbox|`oHow many "; name it; " do you want to buy, for ";
           to_string price; " "; cur; " each?|left|"; endl; "add_text_input|buy_amount||1|5|"; endl;
           "add_smalltext|`oYou have "; Set_Count payment; " "; cur; ".|left|"; endl;
           "add_button|Yes_Purchase|`9Purchase|0|0|"; endl;
           "add_button|BackToLockBot|`oNo thanks|0|0|"])
     else if wl <? price then
       Some (cat [endl; "add_textbox|`oYou can't afford this!|left|"; endl;
         "add_smalltext|`oYou have "; Set_Count wl; " World Locks.|left|"; endl;
         "add_button|BackToLockBot|`oSee other items|0|0|"])
     else
       cur ← item_name id_price;
       Some (cat [endl; "add_textbox|`oHow many "; name it; " do you want to buy, for ";
         to_string price; " "; cur; " each?|left|"; endl; "add_text_input|buy_amount||1|5|"; endl;
         "add_smalltext|`oYou have "; Set_Count wl; " World Lock.|left|"; endl;
         "add_button|Yes_Purchase|`9Purchase|0|0|"; endl;
         "add_button|BackToLockBot|`oNo thanks|0|0|"]));
  let text := cat [dialog_head; "add_label_with_icon|big|`9Buy "; name it; "?|left|";
    to_string item_id; "|"; endl; "embed_data|item_id|"; to_string item_id; endl;
    "embed_data|price|"; to_string price; endl; "embed_data|id_price|"; to_string id_price; endl;
    "add_smalltext|"; endl; "add_smalltext|`3ITEM DATA: `o"; description it; "|left|"; endl;
    "add_spacer|small|"; wk; "|"; endl; "add_quick_exit|"; endl; "end_dialog|LockBot|||"] in
  Some (set_purse q c, es ++ [EDialog text]).

(** The player cannot pay [total] with [id_price]. *)
Definition cannot_pay (id_price total my_wls : Z) (p : Player) : bool :=
  if small_currency id_price then Contains p id_price <? total else my_wls <? total.

(** The button [Yes_Purchase]: the dialog that asks for confirmation. *)
Definition lockbot_count (cch buycountstr : string) (c : Customer) : option (Customer * list effect) :=
  realprice ← atoi <$> Texts.get_embed cch "price";
  id ← atoi <$> Texts.get_embed cch "item_id";
  id_price ← atoi <$> Texts.get_embed cch "id_price";
  if negb (existsb (Z.eqb id) lockbot_list) then Some (c, []) else
  if (realprice =? 0) || (id =? 0) || (id_price =? 0) then Some (c, []) else
  if bad_count buycountstr then Some (c, bubble (bag (purse c)) "Invalid Input!") else
  let payment := Contains (bag (purse c)) id_price in
  let total := i32 (atoi buycountstr * realprice) in
  '(my_wls, q, es) ← look (purse c);
  if cannot_pay id_price total my_wls (bag q)
  then Some (set_purse q c, es ++ bubble (bag q) "You can't afford that many!")
  else
    n ← item_name id; cur ← item_name id_price;
    let text := cat [dialog_head; "add_label_with_icon|big|`9Really Buy ";
      to_string (atoi buycountstr); " "; n; "?|left|"; to_string id; "|"; endl;
      "embed_data|item_id|"; to_string id; endl; "embed_data|total_bought|"; buycountstr; endl;
      "embed_data|total_price|"; to_string total; endl; "embed_data|id_price|"; to_string id_price;
      endl; "add_textbox|`oAre you sure you want to buy `w"; to_string (atoi buycountstr); " "; n;
      " `ofor a total cost of `2"; to_string total; " "; cur; "`o?|left|"; endl;
      "add_smalltext|`oYou have ";
      (if id_price =? 242 then Set_Count my_wls +:+ " World Locks" else cat [to_string payment; " ";
      cur]); ".|left|"; endl; "add_button|Confirm_Purchase|`9YES! GIMME!!!|0|0|"; endl;
      "add_button|BackToLockBot|`oNo thanks|0|0|"; endl; "end_dialog|LockBot|||"; endl;
      "add_quick_exit|"] in
    Some (set_purse q c, es ++ [EDialog text]).

(** The goods were given: the payment. *)
Definition lockbot_charge (id_price total_price : Z) (q : Purse) : option (Purse * list effect) :=
  if id_price =? 242 then
    '(_, q, es) ← get_wls modify true true total_price q; Some (q, moves es)
  else
    r ← modify id_price (i32 (0 - total_price)) true false (bag q);
    Some (set_bag (pl_out r) q, moves (effs r)).

(** The button [Confirm_Purchase]. *)
Definition lockbot_confirm (id total_price total_bought id_price : Z) (c : Customer)
    : option (Customer * list effect) :=
  '(my_wls, q, es) ← look (purse c);
  let p := bag q in
  let refuse (what : list effect) := Some (set_purse q c, es ++ what) in
  if negb (existsb (Z.eqb id) lockbot_list) then refuse [] else
  if (id =? 0) || (total_price =? 0) || (total_bought =? 0) || (id_price =? 0) then refuse [] else
  if Check_Max p id total_bought then refuse (bubble p "That wouldnt fit into my inventory!") else
  if Get_Slots p =? 0 then refuse (no_room p) else
  if cannot_pay id_price total_price my_wls p then refuse (bubble p "You can't afford that many!") else
  r ← modify id total_bought true false p;
  let q := set_bag (pl_out r) q in
  let es := es ++ moves (effs r) in
  if ret r =? 0 then
    '(q, e2) ← lockbot_charge id_price total_price q;
    n ← item_name id; cur ← item_name id_price;
    let lock := if id_price =? 242 then (if 99 <? total_price then 1796 else 242) else id_price in
    Some (set_purse q c, es ++ e2 ++ [EExchange id lock] ++
      bubble (bag q) (cat ["`wSuccesfully Bought "; to_string total_bought; " "; n; " for ";
        Set_Count total_price; " "; cur; "."]))
  else Some (set_purse q c, es ++ bubble (bag q) "That wouldnt fit into my inventory!").

Definition item_button (button : string) : bool := starts_with "item_" button.

Definition LockBot (cch : string) (c : Customer) : option (Customer * list effect) :=
  let parser := Scanner.parse cch in
  '(found, button) ← Scanner.try_get parser "buttonClicked" "";
  if negb found then Some (c, [])
  else if String.eqb button "BackToLockBot" then Some (c, lockbot_back c)
  else if item_button button then lockbot_item (atoi (drop_str 5 button)) c
  else if String.eqb button "Yes_Purchase" then
    buycountstr ← Scanner.get_value parser "buy_amount";
    lockbot_count cch buycountstr c
  else if String.eqb button "Confirm_Purchase" then
    id ← Texts.get_embed cch "item_id";
    total_price ← Texts.get_embed cch "total_price";
    total_bought ← Texts.get_embed cch "total_bought";
    id_price ← Texts.get_embed cch "id_price";
    lockbot_confirm (atoi id) (atoi total_price) (atoi total_bought) (atoi id_price) c
  else Some (c, []).

(** ** [Nutcracker] *)

Definition nutcracker_prices : list (Z * Z) :=
  [(10408, 20); (2214, 20); (1394, 30); (7492, 50); (7494, 50); (7488, 500); (7406, 400);
   (7412, 300); (7500, 200)].

Definition nutcracker_price : Z -> Z := price_in 0 nutcracker_prices.

Definition nutcracker_list : list Z := [10408; 1394; 7492; 7488; 7406; 7412; 7500].

Definition nutcracker_hold (wl dl bgl : Z) : string :=
  let part (v : Z) (what : string) (more : bool) :=
    if nz v then cat [" "; to_string v; what; if more then ", " else ")``|left|"] else "" in
  cat [
    (if nz wl || nz dl || nz bgl
     then cat [endl; "add_smalltext|`9(Hmm, smells like you care carrying"]
     else cat [endl;
       "add_smalltext|`9Wait, you don't have any locks at all! Why are you wasting my time?``|left|"]);
    part wl " World Locks" (nz dl || nz bgl); part dl " Diamond Locks" (nz bgl);
    if nz bgl then cat ["and "; to_string bgl; " Silver Gem Locks)``|left|"] else ""].

Definition nutcracker_menu (hold : string) : string :=
  cat [dialog_head; "add_label_with_icon|big|`9Nutcracker|left|7482|"; endl;
    "add_smalltext|`oWelcome traveller! I'm the Nutcracker. I like to crack huts, but i also love to hoard locks, especially those golden and diamond ones! I'm only around for Winterfest, so if you're willing to hand over some locks, i'll give you something special for the Winterfest holiday in return. Nuts right, how about it?|left|";
    endl; "add_spacer|small|"; hold; endl;
    "add_button|item_10408|`oBuy Krampus Crampons for 20 World Locks|noflags|0|0|"; endl;
    "add_button|item_2214|`oBuy Ice Horse for 20 World Locks|0|0|"; endl;
    "add_button|item_1394|`oBuy Polar Bear Leash for 30 World Locks|0|0|"; endl;
    "add_button|item_7492|`oBuy Nutcracker Mask for 50 World Locks|0|0|"; endl;
    "add_button|item_7494|`oBuy Nutcracker Coat for 50 World Locks|0|0|"; endl;
    "add_button|item_7500|`oBuy Nutcracker Saber for 200 World Locks|0|0|"; endl;
    "add_button|item_7412|`oBuy Snowflake Wings of Winter for 300 World Locks|0|0|"; endl;
    "add_button|item_7406|`oBuy Super Snowball Launcher for 400 World Locks|0|0|"; endl;
    "add_button|item_7488|`oBuy Slaminator's Boomerang for 500 World Locks|0|0|"; endl;
    "end_dialog|Nutcracker|GoodBye!||"].

Definition nutcracker_back (c : Customer) : list effect :=
  match find_stacks (inv (bag (purse c))) (λ _, 0) [242; 1796; 7188] with
  | Some f => [EDialog (nutcracker_menu (nutcracker_hold (f 242) (f 1796) (f 7188)))]
  | None => []
  end.

Definition nutcracker_item (item_id : Z) (c : Customer) : option (Customer * list effect) :=
  '(wl, q, es) ← look (purse c);
  let price := nutcracker_price item_id in
  it ← get_item items item_id;
  let have :=
    if 100 <=? price
    then cat [endl; "add_smalltext|`oYou have "; Set_Count (Z.quot wl 100); " Diamond Locks.|left|"]
    else cat [endl; "add_smalltext|`oYou have "; Set_Count wl; " World Locks.|left|"] in
  let wk :=
    if wl <? price
    then cat [endl; "add_spacer|small|"; endl; "add_textbox|`oYou can't afford this!|left|"; have;
      endl; "add_button|BackToNutcracker|`oSee other items|0|0|"]
    else cat [endl; "add_spacer|small|"; endl; "add_textbox|`oHow many "; name it;
      " do you want to buy, for "; to_string price; " World Locks each?|left|"; endl;
      "add_text_input|buy_input||1|5|"; have; endl; "add_button|Yes_Purchase|`9Purchase|0|0|"; endl;
      "add_button|BackToNutcracker|No Thanks|0|0|"] in
  let text := cat [dialog_head; "add_label_with_icon|big|`9Buy "; name it; "?|left|";
    to_string item_id; "|"; endl; "embed_data|price|"; to_string price; "|"; endl;
    "add_smalltext|`o"; description it; "|left|"; wk; endl; "add_quick_exit|"; endl;
    "end_dialog|Nutcracker|||"] in
  Some (set_last_id_item item_id (set_purse q c), es ++ [EDialog text]).

(** The button [Yes_Purchase]: [buyp] is set before the price is compared,
    [last_price_item] after. *)
Definition nutcracker_count (cch buycountstr : string) (c : Customer)
    : option (Customer * list effect) :=
  realprice ← atoi <$> Texts.get_embed cch "price";
  let id := last_id_item c in
  if negb (existsb (Z.eqb id) nutcracker_list) then Some (c, []) else
  if (realprice =? 0) || (id =? 0) then Some (c, []) else
  if bad_count buycountstr then Some (c, bubble (bag (purse c)) "Invalid Input!") else
  let n := atoi buycountstr in
  let total := i32 (n * realprice) in
  '(my_wls, q, es) ← look (purse c);
  let c := set_order n (last_price_item c) (set_purse q c) in
  if my_wls <? total then Some (c, es ++ bubble (bag q) "You can't afford that many!")
  else
    nm ← item_name id;
    let text := cat [dialog_head; "add_label_with_icon|big|`9Really Buy "; to_string n; " "; nm;
      "?|left|"; to_string id; "|"; endl; "add_textbox|`oAre you sure you want to buy `w";
      to_string n; " "; nm; " `ofor a total cost of `2"; to_string total; " World Locks`o?|left|";
      endl; "add_smalltext|`oYou have "; Set_Count my_wls; " World Locks.|left|"; endl;
      "add_button|Confirm_Purchase|`9YES! GIMME!!!|0|0|"; endl;
      "add_button|BackToNutcracker|`oNo thanks|0|0|"; endl; "end_dialog|Nutcracker|||"; endl;
      "add_quick_exit|"] in
    Some (set_order n realprice c, es ++ [EDialog text]).

Definition nutcracker_confirm (c : Customer) : option (Customer * list effect) :=
  let id := last_id_item c in
  let buyprice := buyp c in
  let realprice := last_price_item c in
  if (id =? 0) || (buyprice =? 0) || (realprice =? 0) then Some (c, []) else
  if negb (existsb (Z.eqb id) nutcracker_list) then Some (c, []) else
  let total := i32 (buyprice * realprice) in
  '(my_wls, q, es) ← look (purse c);
  let p := bag q in
  let refuse (what : list effect) := Some (set_purse q c, es ++ what) in
  if my_wls <? total then refuse (bubble p "You can't afford that many!") else
  if Check_Max p id buyprice then refuse (bubble p "That wouldnt fit into my inventory!") else
  if Get_Slots p =? 0 then refuse (no_room p) else
  r ← modify id buyprice true false p;
  let q := set_bag (pl_out r) q in
  let es := es ++ moves (effs r) in
  if ret r =? 0 then
    '(_, q, e2) ← get_wls modify true true total q;
    nm ← item_name id;
    Some (set_purse q c, es ++ moves e2 ++
      [EExchange id (if 99 <? realprice then 1796 else 242)] ++
      bubble (bag q) (cat ["`wSuccesfully Bought "; to_string buyprice; " "; nm; " for ";
        Set_Count total; " World Locks."]))
  else Some (set_purse q c, es ++ bubble (bag q) "That wouldnt fit into my inventory!").

Definition Nutcracker (cch : string) (c : Customer) : option (Customer * list effect) :=
  let parser := Scanner.parse cch in
  '(found, button) ← Scanner.try_get parser "buttonClicked" "";
  if negb found then Some (c, [])
  else if String.eqb button "BackToNutcracker" then Some (c, nutcracker_back c)
  else if item_button button then nutcracker_item (atoi (drop_str 5 button)) c
  else if String.eqb button "Yes_Purchase" then
    buycountstr ← Scanner.get_value parser "buy_input";
    nutcracker_count cch buycountstr c
  else if String.eqb button "Confirm_Purchase" then nutcracker_confirm c
  else Some (c, []).

End Shop.

End Shop.
