(* ===== verification/ShopFacts.v ===== *)
(** * ShopFacts: what a purchase gives and costs

    The purchases of [Shop] deliver the goods and charge their price, or change
    nothing, and trust the client for the price and the currency. *)
From S2P Require Import Prelude Items Inventory InventoryFacts InventoryBag Scanner Texts Wallet Shop.
Import Items Inventory InventoryFacts InventoryBag Wallet Shop.

Module ShopFacts.

(** The three locks a price is counted in. *)
Definition locks : list Z := [242; 1796; 7188].

(** [n] of item [id] for [amount]; every other item, the locks apart, is as
    it was. *)
Definition bought (id n amount : Z) (q q' : Purse) : Prop :=
  settled (bag q') /\ contains id (inv (bag q')) = contains id (inv (bag q)) + n /\
  purse_worth q' = purse_worth q - amount /\
  forall j, j <> 0 -> j <> id -> j ∉ locks -> contains j (inv (bag q')) = contains j (inv (bag q)).

(** The goods of both machines are items of the table. *)
Definition goods_in_table (items : table) : Prop :=
  Forall (λ id, 0 < id < size items /\ id <> 112) (lockbot_list ++ nutcracker_list).

Section Facts.
Context (items : table) (prices : list (Z * Z)) (wf : bool) (g1 g2 : string) (fuel : nat).
Context (color : string).
Hypothesis Hlocks : locks_in_table items.

Local Abbreviation modify := (Modify items prices wf g1 g2 (S fuel)).

Lemma look_spec q :
  settled (bag q) -> exists es, look modify q = Some (held (bag q), q, es).
Proof.
  intros Hq. unfold look.
  destruct (get_wls_look items prices wf g1 g2 fuel Hlocks 0 q Hq) as (es & ->).
  cbn [mbind option_bind]. by eexists.
Qed.

Lemma name_known id : 0 < id < size items -> exists n, item_name items id = Some n.
Proof.
  intros H. unfold item_name, get_item.
  replace ((0 <=? id) && (id <? size items)) with true by lia. by eexists.
Qed.

Lemma Check_Max_room p id n :
  inv_ok (inv p) -> n <= 200 -> -200 <= n -> id <> 0 -> Check_Max p id n = false ->
  contains id (inv p) + n <= 200.
Proof.
  unfold Check_Max. intros [Hl _] Hn Hn' Hid. induction Hl as [|[i k] l Hs Hl IH]; cbn; [lia|].
  destruct (Z.eqb_spec i id) as [->|]; cbn.
  - intros H. apply orb_false_iff in H as [H _].
    assert (0 <= k <= 200) by (destruct Hs; simpl in *; lia). rewrite i32_small in H by lia. lia.
  - exact IH.
Qed.

Lemma wl_known : 0 < 242 < size items.
Proof. apply (lock_valid items Hlocks). unfold lock_ids. rewrite elem_of_cons. by left. Qed.

(** The delivery of the goods. *)
Lemma deliver id n p :
  settled p -> 0 < id < size items -> id <> 112 -> n <> 0 -> -200 <= n <= 200 ->
  0 <= contains id (inv p) + n -> Check_Max p id n = false -> Get_Slots p <> 0 ->
  exists r, modify id n true false p = Some r /\ ret r = 0 /\ moved id n p (pl_out r).
Proof.
  intros Hp Hid H112 Hn Hr Hpos Hmax Hslots.
  apply (modify_ok items prices wf g1 g2 fuel true false id n p); try done; [lia|].
  pose proof (Check_Max_room p id n (proj2 Hp) ltac:(lia) ltac:(lia) ltac:(lia) Hmax).
  split_and!; try lia. intros _. apply free_find.
  rewrite Get_Slots_free in Hslots by apply Hp. unfold free_slots in *. lia.
Qed.

(** Goods that are no locks leave the worth of the purse. *)
Lemma delivered_worth id n q p :
  id ∉ locks -> moved id n (bag q) p ->
  held p = held (bag q) /\ purse_worth (set_bag p q) = purse_worth q.
Proof.
  unfold locks. rewrite !not_elem_of_cons. intros Hid (_ & _ & _ & [_ Ho] & _).
  unfold held, purse_worth. cbn [bag set_bag wl_bank_amount dl_bank_amount bgl_bank_amount].
  by rewrite !Ho by lia.
Qed.

(** Goods, then the charge. *)
Lemma deliver_charge id n amount q p :
  id <> 0 -> id ∉ locks -> banks_ok q -> moved id n (bag q) p -> amount <> 0 ->
  held (bag q) - 2020200 <= amount <= held (bag q) ->
  exists q' es, get_wls modify true true amount (set_bag p q) = Some (held (bag q), q', es) /\
    bought id n amount q q'.
Proof.
  intros H0 Hid Hb Hm Ha Hr. destruct (delivered_worth id n q p Hid Hm) as [Hh Hw].
  destruct (get_wls_charge items prices wf g1 g2 fuel Hlocks amount (set_bag p q))
    as (q' & es & E & Hs & Hw' & Ho).
  { by eapply moved_settled. } { done. } { done. } { cbn [bag set_bag]. lia. }
  cbn [bag set_bag] in *. rewrite Hh in E. exists q', es. split; [done|].
  destruct Hm as (_ & _ & _ & [Hx Hu] & _). split; [done|]. split; [by rewrite Ho|].
  split; [lia|]. intros j Hj Hji Hjl. by rewrite Ho, Hu.
Qed.

(** The machines' lists of goods. *)
Lemma goods id :
  goods_in_table items -> id ∈ lockbot_list \/ id ∈ nutcracker_list -> 0 < id < size items /\ id <> 112.
Proof.
  unfold goods_in_table. rewrite list.Forall_forall. intros H Hid. apply H, elem_of_app, Hid.
Qed.

Lemma listed id l : existsb (Z.eqb id) l = true <-> id ∈ l.
Proof.
  rewrite existsb_exists. setoid_rewrite <- list_elem_of_In.
  split; [intros (x & Hx & He); apply Z.eqb_eq in He; by subst|].
  intros H. exists id. split; [done|lia].
Qed.

Lemma no_lock id : (id ∈ lockbot_list /\ id <> 242) \/ id ∈ nutcracker_list -> id ∉ locks.
Proof.
  unfold locks. rewrite !not_elem_of_cons. intros H.
  enough (id <> 242 /\ id <> 1796 /\ id <> 7188) by (split_and!; try tauto; apply not_elem_of_nil).
  destruct H as [[H H242]|H]; [split; [done|]|]; revert H;
    unfold lockbot_list, nutcracker_list; rewrite !elem_of_cons, elem_of_nil; lia.
Qed.

(** The purse when a purchase of [n] of [id] can be delivered. *)
Definition deliverable (p : Player) (list_ : list Z) (id n : Z) : Prop :=
  id ∈ list_ /\ n <> 0 /\ -200 <= n <= 200 /\ 0 <= contains id (inv p) + n /\
  Check_Max p id n = false /\ Get_Slots p <> 0.

Lemma cannot_pay_wls total p : cannot_pay 242 total (held p) p = (held p <? total).
Proof. unfold cannot_pay. cbn [small_currency Z.eqb Pos.eqb orb]. lia. Qed.

Lemma set_purse_same c : set_purse (purse c) c = c.
Proof. by destruct c. Qed.

(** C25: The Lock-Bot sells for world locks at the price of the confirmation.
    Let the bag be settled (well formed, infinite mode and the automatic
    conversions and sales off) and the banks below 2147483000 locks. Let the
    item be on the machine's list and no world lock, and [n], which may be
    negative, not 0 and from -200 to 200, so that [Check_Max] passes, a slot
    is free, and the bag does not go below none; let the price not be 0 and
    not so negative that a bag cannot hold the change (2020200 locks). If the
    player holds less than the price, nothing changes. Otherwise the player
    has [n] more of the item, is worth exactly the price less - whatever of
    the change went to the bank included - and keeps everything else. *)
Theorem lockbot_sale id n price c :
  goods_in_table items -> settled (bag (purse c)) -> banks_ok (purse c) ->
  deliverable (bag (purse c)) lockbot_list id n -> id <> 242 -> price <> 0 ->
  held (bag (purse c)) - 2020200 <= price ->
  exists c' es, lockbot_confirm items modify id price n 242 c = Some (c', es) /\
    (held (bag (purse c)) < price -> c' = c) /\
    (price <= held (bag (purse c)) -> bought id n price (purse c) (purse c')).
Proof.
  intros Hg Hp Hb (Hid & Hn & Hr & Hpos & Hmax & Hslots) H242 Hprice Hlow.
  destruct (goods id Hg (or_introl Hid)) as [Hs H112].
  pose proof (no_lock id (or_introl (conj Hid H242))) as Hlock.
  unfold lockbot_confirm. destruct (look_spec (purse c) Hp) as (e0 & ->). cbn [mbind option_bind].
  rewrite (proj2 (listed id lockbot_list) Hid). cbn [negb].
  replace ((id =? 0) || (price =? 0) || (n =? 0) || (242 =? 0)) with false by lia.
  rewrite Hmax, cannot_pay_wls. replace (Get_Slots _ =? 0) with false by lia.
  destruct (Z.ltb_spec (held (bag (purse c))) price) as [Hpoor|Hheld].
  { eexists _, _. split; [by rewrite set_purse_same|]. split; [done|lia]. }
  destruct (deliver id n (bag (purse c))) as (r & -> & Hret & Hm); try done.
  cbn [mbind option_bind]. rewrite Hret. cbn [Z.eqb]. unfold lockbot_charge. cbn [Z.eqb Pos.eqb].
  destruct (deliver_charge id n price (purse c) (pl_out r)) as (q' & e2 & -> & Hq); try done; [lia|].
  cbn [mbind option_bind]. destruct (name_known id Hs) as (nm & ->).
  destruct (name_known 242) as (nm2 & ->); [exact wl_known|].
  cbn [mbind option_bind]. eexists _, _. split; [done|]. split; [lia|done].
Qed.

(** The payment in another item than world locks is not checked: it is taken
    where the stack has it, and nothing is taken where it has not. *)
Lemma other_charge id_price price q :
  settled (bag q) -> 0 < id_price < size items -> id_price <> 112 -> id_price <> 242 ->
  0 < price < 2 ^ 31 ->
  exists p' es, lockbot_charge modify id_price price q = Some (set_bag p' q, es) /\ settled p' /\
    contains id_price (inv p') = contains id_price (inv (bag q))
      - (if price <=? contains id_price (inv (bag q)) then price else 0) /\
    forall j, j <> 0 -> j <> id_price -> contains j (inv p') = contains j (inv (bag q)).
Proof.
  intros Hq Hs H112 H242 Hp. unfold lockbot_charge. replace (id_price =? 242) with false by lia.
  rewrite i32_small by lia. pose proof (settled_contains (bag q) id_price Hq ltac:(lia)) as Hc.
  destruct (Z.leb_spec price (contains id_price (inv (bag q)))) as [H|H].
  - destruct (modify_ok items prices wf g1 g2 fuel true false id_price (0 - price) (bag q))
      as (r & -> & _ & Hm); try done; [lia|split_and!; lia|]. cbn [mbind option_bind].
    eexists _, _. split; [done|]. split; [by eapply moved_settled|].
    destruct Hm as (_ & _ & _ & [Hx Hu] & _). split; [lia|done].
  - destruct (modify_refused items prices wf g1 g2 fuel true false id_price (0 - price) (bag q))
      as (r & -> & _ & Hpl); try done; [lia|intros (_ & ? & _); lia|]. cbn [mbind option_bind].
    eexists _, _. split; [done|]. rewrite Hpl. split; [done|]. split; [lia|done].
Qed.

(** C31: The Lock-Bot believes the client's currency. The confirmation reads
    the currency from the client. Let the bag be settled, the goods be
    deliverable as in the sale for world locks, the currency be any other item
    of the table than a world lock, gems and the goods themselves, and the
    price positive and such that the machine's own test passes: for a currency
    that is no small lock, that world locks worth the price are held. Then the
    goods are delivered first, and the payment that follows is not checked: a
    player with fewer of the currency than the price keeps all of them, and no
    other item, the world locks included, is taken either. *)
Theorem lockbot_other_currency id n price id_price c :
  goods_in_table items -> settled (bag (purse c)) ->
  deliverable (bag (purse c)) lockbot_list id n ->
  0 < id_price < size items -> id_price <> 112 -> id_price <> 242 -> id_price <> id ->
  0 < price < 2 ^ 31 -> cannot_pay id_price price (held (bag (purse c))) (bag (purse c)) = false ->
  exists c' es, lockbot_confirm items modify id price n id_price c = Some (c', es) /\
    let l := inv (bag (purse c)) in
    let l' := inv (bag (purse c')) in
    contains id l' = contains id l + n /\
    contains id_price l' = contains id_price l - (if price <=? contains id_price l then price else 0) /\
    forall j, j <> 0 -> j <> id -> j <> id_price -> contains j l' = contains j l.
Proof.
  intros Hg Hp (Hid & Hn & Hr & Hpos & Hmax & Hslots) Hi H112 H242 Hne Hprice Hpay.
  destruct (goods id Hg (or_introl Hid)) as [Hs Hs112].
  unfold lockbot_confirm. destruct (look_spec (purse c) Hp) as (e0 & ->). cbn [mbind option_bind].
  rewrite (proj2 (listed id lockbot_list) Hid). cbn [negb].
  replace ((id =? 0) || (price =? 0) || (n =? 0) || (id_price =? 0)) with false by lia.
  rewrite Hmax, Hpay. replace (Get_Slots _ =? 0) with false by lia.
  destruct (deliver id n (bag (purse c))) as (r & -> & Hret & Hm); try done.
  cbn [mbind option_bind]. rewrite Hret. cbn [Z.eqb].
  destruct (other_charge id_price price (set_bag (pl_out r) (purse c))) as (p' & e2 & -> & Hs' & Hc & Hu);
    try done; [by eapply moved_settled|].
  destruct (name_known id Hs) as (nm & ->). destruct (name_known id_price Hi) as (nm2 & ->).
  cbn [mbind option_bind bag set_bag] in *. eexists _, _. split; [done|]. cbn [purse set_purse bag set_bag].
  destruct Hm as (_ & _ & _ & [Hx Hu0] & _). rewrite (Hu0 id_price) in Hc by lia.
  cbv zeta. split; [rewrite Hu by lia; done|]. split; [done|].
  intros j H0 H1 H2. by rewrite Hu, Hu0.
Qed.

(** The Nutcracker sells at the price the client sends. The request for
    the count stores the price it finds in the client's text, and the
    confirmation charges it: whatever number that is, a negative one
    included, the player gets the goods and is worth that price for each of
    them less. *)
Theorem nutcracker_sale cch price count c :
  let id := last_id_item c in
  let n := atoi count in
  let total := n * atoi price in
  goods_in_table items -> settled (bag (purse c)) -> banks_ok (purse c) ->
  Texts.get_embed cch "price" = Some price -> atoi price <> 0 -> bad_count count = false ->
  deliverable (bag (purse c)) nutcracker_list id n ->
  held (bag (purse c)) - 2020200 <= total <= held (bag (purse c)) ->
  exists c1 e1 c2 e2,
    nutcracker_count items modify color cch count c = Some (c1, e1) /\ purse c1 = purse c /\
    nutcracker_confirm items modify c1 = Some (c2, e2) /\ bought id n total (purse c) (purse c2).
Proof.
  cbv zeta. intros Hg Hp Hb Hprice Hnz Hcount (Hid & Hn & Hr & Hpos & Hmax & Hslots) Htotal.
  destruct (goods _ Hg (or_intror Hid)) as [Hs H112].
  pose proof (no_lock (last_id_item c) (or_intror Hid)) as Hlock.
  destruct (look_spec (purse c) Hp) as (e0 & Elook).
  assert (0 <= held (bag (purse c)) <= 2020200) as Hh.
  { unfold held. pose proof (settled_contains (bag (purse c)) 242 Hp ltac:(lia)).
    pose proof (settled_contains (bag (purse c)) 1796 Hp ltac:(lia)).
    pose proof (settled_contains (bag (purse c)) 7188 Hp ltac:(lia)). lia. }
  destruct (name_known _ Hs) as (nm & Enm).
  unfold nutcracker_count. rewrite Hprice. cbn [fmap option_fmap option_map mbind option_bind].
  rewrite (proj2 (listed _ _) Hid), Hcount, Elook. cbn [negb].
  replace ((atoi price =? 0) || (last_id_item c =? 0)) with false by lia.
  cbn [mbind option_bind]. rewrite i32_small by lia.
  replace (held (bag (purse c)) <? atoi count * atoi price) with false by lia.
  rewrite Enm. cbn [mbind option_bind].
  eexists _, _. edestruct (deliver (last_id_item c) (atoi count) (bag (purse c))) as (r & Er & Hret & Hm);
    try done.
  destruct (deliver_charge (last_id_item c) (atoi count) (atoi count * atoi price) (purse c) (pl_out r))
    as (q' & e2 & Eq & Hq); try done; [lia|nia|].
  eexists (set_purse q' _), _. split; [done|]. split; [by destruct c|].
  unfold nutcracker_confirm. cbn [last_id_item buyp last_price_item set_order set_purse purse].
  replace ((last_id_item c =? 0) || (atoi count =? 0) || (atoi price =? 0)) with false by lia.
  rewrite (proj2 (listed _ _) Hid), Elook. cbn [negb mbind option_bind].
  rewrite i32_small by lia. replace (held (bag (purse c)) <? atoi count * atoi price) with false by lia.
  rewrite Hmax. replace (Get_Slots _ =? 0) with false by lia. rewrite Er. cbn [mbind option_bind].
  rewrite Hret. cbn [Z.eqb]. rewrite Eq, Enm. cbn [mbind option_bind]. by split.
Qed.

End Facts.

(** What is for sale. The Lock-Bot's list has exactly the items its
    dialog prices. The Nutcracker's has two fewer: the items 2214 and 7494
    have a price and a button in the menu, and no request for them is ever
    answered. *)
Theorem catalogues id :
  (id ∈ lockbot_list <-> (lockbot_price id).1 <> 0) /\
  (id ∈ nutcracker_list <-> nutcracker_price id <> 0 /\ id <> 2214 /\ id <> 7494).
Proof.
  unfold lockbot_list, nutcracker_list, lockbot_price, nutcracker_price.
  cbn [lockbot_prices nutcracker_prices price_in].
  rewrite !elem_of_cons, !elem_of_nil.
  split; repeat match goal with |- context [id =? ?k] => destruct (Z.eqb_spec id k) end;
    cbn [fst]; lia.
Qed.

(** ** At work *)

Lemma sample_goods : goods_in_table sample_items.
Proof.
  unfold goods_in_table. rewrite sample_items_size. cbn [lockbot_list nutcracker_list app].
  repeat (constructor; [lia|]). constructor.
Qed.

Definition customer : Customer := mkCustomer (mkPurse payer 0 0 0) 7492 0 0.

Definition sample_modify : modify_fn := Modify sample_items [] true "" "" 2.

Lemma lockbot_sale_witness :
  exists c' es, lockbot_confirm sample_items sample_modify 5954 250 2 242 customer = Some (c', es) /\
    (held (bag (purse customer)) < 250 -> c' = customer) /\
    (250 <= held (bag (purse customer)) -> bought 5954 2 250 (purse customer) (purse c')).
Proof.
  apply (lockbot_sale sample_items [] true "" "" 1 sample_locks).
  - exact sample_goods.
  - exact payer_settled.
  - unfold banks_ok. cbn. lia.
  - split; [apply listed; reflexivity|]. vm_compute. repeat split; congruence.
  - lia.
  - lia.
  - vm_compute. congruence.
Defined.

(** Two items for 2000 world locks, to be paid with dirt. *)
Lemma lockbot_other_currency_witness :
  exists c' es,
    lockbot_confirm sample_items sample_modify 5260 2000 2 2 customer = Some (c', es) /\
    let l := inv (bag (purse customer)) in
    let l' := inv (bag (purse c')) in
    contains 5260 l' = contains 5260 l + 2 /\
    contains 2 l' = contains 2 l - (if 2000 <=? contains 2 l then 2000 else 0) /\
    forall j, j <> 0 -> j <> 5260 -> j <> 2 -> contains j l' = contains j l.
Proof.
  apply (lockbot_other_currency sample_items [] true "" "" 1 sample_locks).
  - exact sample_goods.
  - exact payer_settled.
  - split; [apply listed; reflexivity|]. vm_compute. repeat split; congruence.
  - rewrite sample_items_size. lia.
  - lia.
  - lia.
  - lia.
  - lia.
  - vm_compute. reflexivity.
Defined.

(** The answer of a client that wants to be paid 100 locks for each mask. *)
Definition forged : string :=
  cat ["buttonClicked|Yes_Purchase"; endl; "buy_input|3"; endl; "price|-100|"].

Lemma nutcracker_sale_witness :
  exists c1 e1 c2 e2,
    nutcracker_count sample_items sample_modify "" forged "3" customer = Some (c1, e1) /\
    purse c1 = purse customer /\
    nutcracker_confirm sample_items sample_modify c1 = Some (c2, e2) /\
    bought 7492 3 (3 * -100) (purse customer) (purse c2).
Proof.
  apply (nutcracker_sale sample_items [] true "" "" 1 "" sample_locks forged "-100" "3" customer).
  - exact sample_goods.
  - exact payer_settled.
  - unfold banks_ok. cbn. lia.
  - vm_compute. reflexivity.
  - vm_compute. congruence.
  - vm_compute. reflexivity.
  - split; [apply listed; reflexivity|]. vm_compute. repeat split; congruence.
  - vm_compute. split; congruence.
Defined.

(** The whole conversation with the Nutcracker, the price forged: the
    player's worth grows by 300 locks with three masks. *)
Definition reply (shop : string -> Customer -> option (Customer * list effect)) (s : string)
    (c : Customer) : option Customer := fst <$> shop s c.

Example forged_purchase :
  (λ c, (inv (bag (purse c)), purse_worth (purse customer), purse_worth (purse c))) <$>
    (c ← reply (Nutcracker sample_items sample_modify "") "buttonClicked|item_7492" customer;
     c ← reply (Nutcracker sample_items sample_modify "") forged c;
     reply (Nutcracker sample_items sample_modify "") "buttonClicked|Confirm_Purchase" c)
  = Some ([(7188, 3); (1796, 8); (2, 1); (7492, 3)], 30500, 30800).
Proof. vm_compute. reflexivity. Qed.

(** The conversation with the Lock-Bot, as its dialogs lead: two items at 10
    locks each. *)
Example honest_purchase :
  (λ c, (inv (bag (purse c)), purse_worth (purse customer), purse_worth (purse c))) <$>
    (c ← reply (LockBot sample_items sample_modify "") "buttonClicked|item_5258" customer;
     c ← reply (LockBot sample_items sample_modify "")
       (cat ["buttonClicked|Yes_Purchase"; endl; "item_id|5258"; endl; "price|10"; endl;
             "id_price|242"; endl; "buy_amount|2"]) c;
     reply (LockBot sample_items sample_modify "")
       (cat ["buttonClicked|Confirm_Purchase"; endl; "item_id|5258"; endl; "total_bought|2"; endl;
             "total_price|20"; endl; "id_price|242|"]) c)
  = Some ([(7188, 3); (1796, 4); (2, 1); (5258, 2)], 30500, 30480).
Proof. vm_compute. reflexivity. Qed.

(** A player with stacks of all six kinds of locks gets no menu. *)
Example menu_hidden :
  lockbot_back "" (mkCustomer
    (mkPurse (sample_player [(202, 1); (204, 1); (206, 1); (242, 1); (1796, 1); (7188, 1)] 0 false) 0 0 0)
    0 0 0) = [].
Proof. vm_compute. reflexivity. Qed.

End ShopFacts.
