(* ===== verification/Vending.v ===== *)
(** * Vending: machines that sell items for world locks

    Models the branch [vending] of [call_dialog]
    ([src/NopySource/Handle/DialogReturn.h]) — purchases, the owner's changes
    of price and stock, and putting an item in — with [get_vending],
    [get_vending_buyer_side], [item_average] and [percent] of
    [src/NopySource/Handle/WorldInfo.h] and [add_item_price] of
    [BaseServer.h].  A machine is a [World.WorldBlock]: its price [pr] is for
    one item, or [- n] for [n] items a lock; it has [c_] items [id] to sell
    and earned [wl].  [peers] are the worlds of the connected peers;
    [price_of] is the field [price] of the items; [to_float] converts an
    [int] to the bits of a [float]. *)
From S2P Require Import Prelude Memory Items Packet Tank Dispatch World.
From S2P Require Import Guild Inventory Texts Messages Wallet Shop Access.
Import Memory Items World Inventory Wallet Access.

Module Vending.

Record Trader := mkTrader {
  visitor : Visitor;
  purse : Purse;
  px : Z;
  py : Z;
  world : string
}.

Inductive effect :=
| EInventory (e : Inventory.effect)
| EMessage (e : Messages.effect)                (* to the player *)
| EDialog (text : string)                       (* [OnDialogRequest] to the player *)
| ETo (peer : nat) (e : Messages.effect)        (* to a connected peer *)
| ETile (peer : nat) (x y : Z) (b : WorldBlock) (* the look of the block, to a peer *)
| ELock (b : WorldBlock)                        (* [upd_lock] *)
| EPrice (item price : Z).                      (* [add_item_price] *)

Definition moves (es : list Inventory.effect) : list effect := EInventory <$> es.

Definition set_purse (q : Purse) (t : Trader) : Trader := mkTrader (visitor t) q (px t) (py t) (world t).

Definition set_machine (pr wl id c_ : Z) (b : WorldBlock) : WorldBlock :=
  mkBlock (fg b) (bg b) (locked b) (lock_origin b) (block_owner b) (block_admins b) (spin b) pr wl id c_.
Definition set_pr (v : Z) (b : WorldBlock) : WorldBlock := set_machine v (wl b) (id b) (c_ b) b.
Definition set_c_ (v : Z) (b : WorldBlock) : WorldBlock := set_machine (pr b) (wl b) (id b) v b.
Definition set_wl (v : Z) (b : WorldBlock) : WorldBlock := set_machine (pr b) v (id b) (c_ b) b.

(** ** Prices *)

(** [(float)z] as an integer: 24 significant bits, ties to even. *)
Definition round24 (z : Z) : Z :=
  let e := Z.log2 (Z.abs z) - 23 in
  if e <=? 0 then z
  else
    let q := Z.abs z / 2 ^ e in
    let r := Z.abs z mod 2 ^ e in
    let q := if (2 ^ (e - 1) <? r) || ((r =? 2 ^ (e - 1)) && Z.odd q) then q + 1 else q in
    Z.sgn z * (q * 2 ^ e).

(** [None]: a division by zero. *)
Definition percent (a b : Z) : option Z :=
  if a =? 0 then None else Some (Z.abs (round24 (Z.quot (i32 (i32 (b - a) * 100)) a))).

Definition item_average (v : list Z) (offer_price : Z) : option string :=
  match v with
  | [] => Some " `2relatively close`` to the current average."
  | _ =>
      let average_price := i32 (Z.quot (fold_right Z.add 0 v) (Z.of_nat (length v))) in
      n ← percent average_price offer_price;
      Some (if n =? 0 then " `2relatively close`` to the current average."
            else if offer_price <? average_price then
              cat [" at roughly `2"; to_string n; "% cheaper`` than the current average."]
            else if average_price <? offer_price then
              cat [" at roughly `8"; to_string n; "% more`` than the current average."]
            else " `2relatively close`` to the current average.")
  end.

(** The last prices of an item: the oldest goes when there are 90. *)
Definition add_item_price (price : Z) (l : list Z) : list Z :=
  let l := l ++ [price] in if (90 <=? length l)%nat then drop 1 l else l.

Section Vending.
Context (items : table) (modify : modify_fn) (price_of : Z -> list Z) (to_float : Z -> Z).
(** [SetColor(peer)], and the worlds of the connected peers. *)
Context (color : string) (peers : list string).

Definition ori (id : Z) : option string := ori_name <$> get_item items id.
Definition item_name (id : Z) : option string := Items.name <$> get_item items id.

(** ** Messages *)

Definition console (text : string) : list effect :=
  EMessage <$> Messages.OnConsoleMessage text false 0.
Definition bubble (p : Player) (text : string) (overlay : bool) : list effect :=
  EMessage <$> Messages.OnTalkBubble (netID p) text 0 overlay 0 false.
Definition tell (p : Player) (text : string) : list effect := bubble p text true ++ console text.

(** The loop over the peers in a world. *)
Definition to_world (name : string) (f : nat -> list effect) : list effect :=
  mjoin (imap (λ k w, if String.eqb w name then f k else []) peers).

Definition tile_update (name : string) (x_ y_ : Z) (b : WorldBlock) : list effect :=
  to_world name (λ k, [ETile k x_ y_ b]) ++ (if locked b then [ELock b] else []).

(** ** The dialogs *)

Definition get_vending (config : bool) (x_ y_ : Z) (b : WorldBlock) (p : Player)
    : option (string * WorldBlock * Player * list effect) :=
  machine ← item_name (fg b);
  stock ← ori (id b);
  '(ex_, p, es) ←
    (if id b =? 0 then Some ("", p, []) else
     '(n, p, es) ← count_stack modify (id b) false p;
     let ex_ :=
       if negb (n =? 0) && (c_ b <? (if fg b =? 2978 then 5199 else 9999))
       then cat [endl; "add_smalltext|You have "; to_string n; " "; stock; " in your backpack.|";
         endl; "add_button|addstocks|Add them to the machine|noflags|0|0|"]
       else "" in
     Some (if (config : bool) then cat [endl;
       "add_button|addstocks5000|Add 5000 to the machine|noflags|0|0|"] else ex_, p, moves es));
  let a_ :=
    if (pr b <? 0) && (c_ b <? i32 (pr b * -1))
    then cat [endl;
      "add_smalltext|`4(You need to add more items or people can't purchase at this price!)``|left|"]
    else "" in
  let b := if id b =? 0 then set_pr 0 b else b in
  check ←
    (if 0 <? pr b then
       avg ← item_average (price_of (id b)) (pr b);
       Some (cat [endl; "add_spacer|small|"; endl;
         "add_smalltext|Value Check: Based on current trading, this item is priced"; avg; "|left|"])
     else Some "");
  Some (cat [
    "set_default_color|`o"; endl; "set_bg_color|0,52,102,178|"; endl;
      "set_border_color|255,255,255,255|"; endl; endl; "add_label_with_icon|big|`w"; machine;
      "``|left|"; to_string (fg b); "|"; endl; "add_spacer|small|"; endl; "embed_data|tilex|";
      to_string x_; endl; "embed_data|tiley|"; to_string y_;
    (if id b =? 0
     then cat [endl; "add_textbox|This machine is empty.|left|"; endl;
       "add_item_picker|stockitem|`wPut an item in``|Choose an item to put in the machine!|"]
     else cat [endl; "add_label_with_icon|sml|The machine contains a total of "; to_string (c_ b);
       " `2"; stock; "``. |left|"; to_string (id b); "|"]);
    (if pr b =? 0 then
       (if negb (id b =? 0)
        then cat [endl; "add_spacer|small|"; endl; "add_textbox|Not currently for sale!|left|"; ex_;
          endl; "add_button|pullstocks|Empty the machine|noflags|0|0|"]
        else "")
     else cat [
       endl; "add_spacer|small|"; endl; "add_textbox|For a cost of:|left|"; endl;
         "add_label_with_icon|small|"; (if pr b <? 0 then "1" else to_string (pr b));
         " x `8World `8Lock``|left|242|"; endl; "add_spacer|small|"; endl;
         "add_textbox|You will get:|left|"; endl; "add_label_with_icon|small|";
         (if pr b <? 0 then to_string (i32 (pr b * -1)) else "1"); " x `2"; stock; "``|left|";
         to_string (id b); "|"; check; endl; "add_spacer|small|"; ex_; endl;
         "add_button|pullstocks|Empty the machine|noflags|0|0|"]);
    (if negb (id b =? 0) then cat [
       a_; endl; "add_smalltext|`5("; machine; " will not function when price is set to 0)``|left|";
         endl; "add_text_input|setprice|Price|";
         (if pr b <? 0 then to_string (i32 (pr b * -1)) else to_string (pr b)); "|7|"; endl;
         "add_checkbox|chk_peritem|World Locks per Item|"; bool_digit (0 <=? pr b); endl;
         "add_checkbox|chk_perlock|Items per World Lock|"; bool_digit (pr b <? 0)]
     else "");
    (if negb (wl b =? 0)
     then cat [endl; "add_smalltext|You have earned "; to_string (wl b); " World Locks.|left|";
       endl; "add_button|withdraw|Withdraw World Locks|noflags|0|0|"]
     else "");
    (if fg b =? 2978
     then cat [endl; "add_smalltext|Upgrade to a DigiVend Machine for `44,000 Gems``.|left|"; endl;
       "add_button|upgradedigital|Upgrade to DigiVend|noflags|0|0|"]
     else "");
    endl; "add_spacer|small|"; endl; "end_dialog|vending|Close|";
      (if negb (id b =? 0) then "Update" else ""); "|"],
    b, p, es).

Definition get_vending_buyer_side (x_ y_ : Z) (b : WorldBlock) (q : Purse)
    : option (string * Purse * list effect) :=
  machine ← item_name (fg b);
  let head := cat ["set_default_color|`o"; endl; "set_bg_color|0,52,102,178|"; endl;
    "set_border_color|255,255,255,255|"; endl; endl; "add_label_with_icon|big|`w"; machine;
    "``|left|"; to_string (fg b); "|"; endl; "add_spacer|small|"; endl; "embed_data|tilex|";
    to_string x_; endl; "embed_data|tiley|"; to_string y_] in
  if (id b =? 0) || (pr b =? 0) then
    Some (cat [head; endl; "add_textbox|This machine is out of order.|left|"; endl;
      "end_dialog|vending|Close||"], q, [])
  else
    stock ← ori (id b);
    check ←
      (if 0 <? pr b then
         avg ← item_average (price_of (id b)) (pr b);
         Some (cat [endl; "add_spacer|small|"; endl;
           "add_smalltext|Value Check: Based on current trading, this item is priced"; avg;
           "|left|"])
       else Some "");
    '(order, q, es) ←
      (if (pr b <? 0) && (c_ b <? i32 (pr b * -1)) then
         Some (cat [endl;
           "add_textbox|You'll need to wait for the owner to stock up to at least 1 World Lock's worth before you can buy.|left|";
           endl; "end_dialog|vending|Close||"], q, [])
       else
         '(n, q, es) ← get_wls modify true false 0 q;
         Some (cat [endl; "add_textbox|You have "; to_string n; " World Locks.|left|"; endl;
           "add_text_input|buycount|How many would you like to buy?|0|3|"; endl;
           "embed_data|expectprice|"; to_string (pr b); endl; "embed_data|expectitem|";
           to_string (id b); endl; "end_dialog|vending|Close|Buy|"], q, moves es));
    Some (cat [head;
      endl; "add_label_with_icon|sml|The machine contains a total of "; to_string (c_ b); " `2";
        stock; "``. |left|"; to_string (id b); "|"; endl; "add_spacer|small|"; endl;
        "add_textbox|For a cost of:|left|"; endl; "add_label_with_icon|small|";
        (if pr b <? 0 then "1" else to_string (pr b)); " x `8World Lock``|left|242|"; endl;
        "add_spacer|small|"; endl; "add_textbox|You will get:|left|"; endl;
        "add_label_with_icon|small|"; (if pr b <? 0 then to_string (i32 (pr b * -1)) else "1");
        " x `2"; stock; "``|left|"; to_string (id b); "|"; check; endl; "add_spacer|small|";
        order], q, es).

(** ** A purchase *)

(** What a buyer of [buycount] gets, and its cost. *)
Definition order (price buycount : Z) : Z * Z :=
  let normal_price := if 0 <? price then price else i32 (price * -1) in
  let ratio := if normal_price <? buycount then Z.quot buycount normal_price
               else Z.quot normal_price buycount in
  if 0 <? price then (buycount, i32 (price * buycount))
  else (i32 (ratio * i32 (price * -1)), ratio).

Definition no_room : string := "You don't have room in your backpack!".

Definition confirmation (x_ y_ cost_ actual_buy_count buycount expectprice expectitem : Z)
    (b : WorldBlock) (stock : string) : effect :=
  EDialog (cat [Shop.dialog_head color; endl;
    "add_label_with_icon|big|`wPurchase Confirmation``|left|1366|"; endl; "add_spacer|small|"; endl;
    "embed_data|tilex|"; to_string x_; endl; "embed_data|tiley|"; to_string y_; endl;
    "add_spacer|small|"; endl; "add_textbox|`4You'll give:``|left|"; endl; "add_spacer|small|";
    endl; "add_label_with_icon|small|(`w"; to_string cost_; "``) `8World Locks``|left|242|"; endl;
    "add_spacer|small|"; endl; "add_textbox|`2You'll get:``|left|"; endl; "add_spacer|small|"; endl;
    "add_label_with_icon|small|(`w"; to_string actual_buy_count; "``) `2"; stock; "``|left|";
    to_string (id b); "|"; endl; "add_spacer|small|"; endl; "add_spacer|small|"; endl;
    "add_textbox|Are you sure you want to make this purchase?|left|"; endl; "embed_data|verify|1";
    endl; "embed_data|buycount|"; to_string buycount; endl; "embed_data|expectprice|";
    to_string expectprice; endl; "embed_data|expectitem|"; to_string expectitem; endl;
    "end_dialog|vending|Cancel|OK|"]).

(** The item that flies from the machine to the player. *)
Definition item_flight (x_ y_ id : Z) (p : Player) : option mem :=
  raw ← Tank.packPlayerMoving
    (Tank.mkMoving 0 0 19 0 100 id (netID p) 0 (to_float (x_ * 32 + 16)) (to_float (y_ * 32 + 16))
       0 0 0 0) 56 0;
  stores raw [(3%nat, [5]); (8%nat, le32 (netID p))].

(** The items and locks change hands. *)
Definition vend_sale (name who : string) (x_ y_ actual cost_ : Z) (b : WorldBlock) (q : Purse)
    : option (WorldBlock * Purse * list effect) :=
  let refused := tell (bag q) no_room in
  if 2 <? Get_Slots (bag q) then
    r ← modify (id b) actual true false (bag q);
    let q := Shop.set_bag (pl_out r) q in
    if ret r =? 0 then
      '(_, q, es) ← get_wls modify true true cost_ q;
      let price := if 0 <? pr b then [EPrice (id b) (pr b)] else [] in
      let raw := item_flight x_ y_ (id b) (bag q) in
      let b := set_c_ (i32 (c_ b - actual)) (set_wl (i32 (wl b + cost_)) b) in
      let b := if c_ b <=? 0 then set_machine 0 (wl b) 0 (c_ b) b else b in
      stock ← ori (id b);
      let news := cat ["`7[```9"; who; " bought "; to_string actual; " "; stock; " for ";
        to_string cost_; " World Locks.```7]``"] in
      Some (b, q, moves (effs r) ++ moves es ++ price ++
        to_world name (λ k,
          [ETile k x_ y_ b] ++ (ETo k <$> Messages.OnConsoleMessage news false 0) ++
          (ETo k <$> Messages.Positioned (netID (bag q)) "audio/cash_register.wav" 0) ++
          [ETo k (Messages.ERaw raw 0)]) ++
        (if locked b then [ELock b] else []))
    else Some (b, q, moves (effs r) ++ tell (bag q) no_room)
  else Some (b, q, refused).

(** [confirmed] is the answer to the confirmation: a request of 23 tokens. *)
Definition vend_buy (confirmed : bool) (name who : string) (x_ y_ expectprice expectitem buycount : Z)
    (b : WorldBlock) (q : Purse) : option (WorldBlock * Purse * list effect) :=
  let p := bag q in
  let refuse es := Some (b, q, es) in
  if negb (expectprice =? pr b) then refuse [] else
  if negb (expectitem =? id b) then refuse [] else
  if buycount <? 0 then refuse (bubble p "NEGATIVE, DOES NOT COMPUTE" false) else
  if buycount =? 0 then refuse [] else
  if pr b =? 0 then refuse [] else
  let '(actual, cost_) := order (pr b) buycount in
  if (actual =? 0) || (c_ b <? actual) then
    refuse (tell p "There aren't enough available to fulfill your order!") else
  if (pr b <? 0) && (buycount <? i32 (pr b * -1)) then
    refuse (tell p "You have to buy at least 1 World Lock's worth.") else
  '(my_wls, q, e1) ← get_wls modify true false 0 q;
  if my_wls <? cost_ then Some (b, q, moves e1 ++ tell p "You can't afford that many!") else
  '(has_alr, p, e2) ← count_stack modify (id b) false (bag q);
  let q := Shop.set_bag p q in
  let es := moves e1 ++ moves e2 in
  if 200 <? i32 (has_alr + actual) then Some (b, q, es ++ tell p no_room) else
  if Get_Slots p =? 0 then Some (b, q, es ++ tell p no_room) else
  if negb confirmed then
    stock ← ori (id b);
    Some (b, q, es ++ [confirmation x_ y_ cost_ actual buycount expectprice expectitem b stock])
  else
    '(b, q, e3) ← vend_sale name who x_ y_ actual cost_ b q; Some (b, q, es ++ e3).

(** ** The owner's changes *)

Record Edit := mkEdit { eb : WorldBlock; epurse : Purse; update_ : bool; said : list effect }.

(** The next token, or the end of the loop. *)
Inductive next_step := Go (e : Edit) | Stop (e : Edit).

Definition chk (target : string) (next : option string) (e : Edit) : option next_step :=
  let b := eb e in
  if String.eqb target "peritem" then
    if pr b <? 0 then
      v ← next;
      Some (Go (if String.eqb v "1" then mkEdit (set_pr (i32 (pr b * -1)) b) (epurse e) true (said e) else e))
    else Some (Go e)
  else if String.eqb target "perlock" then
    if 0 <? pr b then
      v ← next;
      Some (if String.eqb v "1" then
        if (200 <? pr b) || (c_ b <? pr b) then
          Stop (mkEdit b (epurse e) false (said e ++
            tell (bag (epurse e)) "You don't have enough in there for anyone to buy at that price!"))
        else Go (mkEdit (set_pr (i32 (pr b * -1)) b) (epurse e) true (said e))
      else Go e)
    else Some (Go e)
  else Some (Go e).

Definition setprice (v : string) (e : Edit) : next_step :=
  let b := eb e in
  let p := bag (epurse e) in
  let price_ := atoi v in
  if (price_ =? 0) || (negb (starts_digit v) && (0 <=? price_)) then
    Go (mkEdit (set_pr 0 b) (epurse e) true (said e))
  else if (price_ <? 0) || (2000000 <? price_) then
    Stop (mkEdit b (epurse e) (update_ e) (said e ++ bubble p "Well, that's a silly price." true))
  else if (pr b <? 0) && (c_ b <? price_) then
    Stop (mkEdit b (epurse e) false (said e ++
      tell p "You don't have enough in there for anyone to buy at that price!"))
  else if (pr b <? 0) && (200 <? price_) then
    Stop (mkEdit b (epurse e) (update_ e) (said e ++
      tell p "That price is so low, nobody can carry a World Lock worth of items!"))
  else
    Go (mkEdit (set_pr (if pr b <? 0 then i32 (price_ * -1) else price_) b) (epurse e) true (said e)).

Definition addstocks (b : WorldBlock) (q : Purse) : option (WorldBlock * Purse * list effect) :=
  if id b =? 0 then Some (b, q, []) else
  '(has_, p, e1) ← count_stack modify (id b) false (bag q);
  r ← modify (id b) (i32 (has_ * -1)) true false p;
  let q := Shop.set_bag (pl_out r) q in
  let es := moves e1 ++ moves (effs r) in
  if ret r =? 0 then
    Some (set_c_ (i32 (c_ b + has_)) b, q,
      es ++ tell (bag q) (cat ["Added "; to_string has_; " items to the machine."]))
  else Some (b, q, es).

Definition addstocks5000 (config : bool) (b : WorldBlock) (q : Purse) : WorldBlock * list effect :=
  if negb (id b =? 0) && config
  then (set_c_ (i32 (c_ b + 5000)) b, tell (bag q) "Added 5000 items to the machine.")
  else (b, []).

(** One denomination of what the machine earned: what is left to pay, the
    bank, whether it went to the bank, and the text of what was collected. *)
Definition withdraw_step (lock unit_ limit : Z) (what : string) (total_wl : Z) (b : WorldBlock)
    (bank : Z) (returned : bool) (collected_ : string) (p : Player)
    : option (Z * WorldBlock * Z * bool * string * Player * list Inventory.effect) :=
  if unit_ <=? total_wl then
    let n := if limit <? total_wl then 200 else Z.quot total_wl unit_ in
    let total_wl := i32 (total_wl - i32 (n * unit_)) in
    let b := set_wl (i32 (wl b - i32 (n * unit_))) b in
    r ← modify lock n true false p;
    if ret r =? 0 then
      Some (total_wl, b, bank, returned,
        cat [collected_; if is_empty collected_ then "" else " and "; to_string n; what],
        pl_out r, effs r)
    else Some (total_wl, b, i32 (bank + c_out r), true, collected_, pl_out r, effs r)
  else Some (total_wl, b, bank, returned, collected_, p, []).

Definition withdraw (b : WorldBlock) (q : Purse) : option (WorldBlock * Purse * list effect) :=
  if wl b =? 0 then Some (b, q, []) else
  '(total_wl, b, bgl, back, text, p, e1) ←
    withdraw_step 7188 10000 2000000 " Platinum Gem Locks" (wl b) b (bgl_bank_amount q) false "" (bag q);
  '(total_wl, b, dl, back, text, p, e2) ←
    withdraw_step 1796 100 20000 " Diamond Locks" total_wl b (dl_bank_amount q) back text p;
  '(total_wl, b, wls, back, text, p, e3) ←
    withdraw_step 242 1 200 " World Locks" total_wl b (wl_bank_amount q) back text p;
  Some (b, mkPurse p wls dl bgl,
    moves (e1 ++ e2 ++ e3 ++ returned_messages back) ++
    tell p (if is_empty text then no_room else "You collected " +:+ text)).

Definition upgradedigital (x_ y_ : Z) : effect :=
  EDialog (cat [color; "set_default_color|`o"; endl; "set_bg_color|0,52,102,178|"; endl;
    "set_border_color|255,255,255,255|"; endl;
    "add_label_with_icon|big|`wVending Machine|left|2978|"; endl; "embed_data|tilex|"; to_string x_;
    endl; "embed_data|tiley|"; to_string y_; endl; "add_spacer|small|"; endl;
    "add_textbox|`$Are you sure you want to upgrade to a DigiVend Machine for `44.000 Gems`$?|left|";
    endl; "add_spacer|small|"; endl; "end_dialog|Upgrade_DigiVend|Close|Upgrade|"]).

(** Whether the machine's [update_] is reset, too. *)
Definition pullstocks (b : WorldBlock) (q : Purse) : option (WorldBlock * Purse * bool * list effect) :=
  if 1 <? Get_Slots (bag q) then
    r ← modify (id b) (c_ b) true false (bag q);
    let q := Shop.set_bag (pl_out r) q in
    if ret r =? 0 then
      stock ← ori (id b);
      let text := cat ["You picked up "; to_string (c_ b); " "; stock; "."] in
      Some (set_machine 0 (wl b) 0 0 b, q, true,
        moves (effs r) ++ console text ++ bubble (bag q) text true)
    else if 200 <? c_ b then
      '(has_, p, e1) ← count_stack modify (id b) false (bag q);
      let give_ := 200 - has_ in
      let b' := set_c_ (i32 (c_ b - give_)) b in
      stock ← ori (id b);
      let text := cat ["You picked up "; to_string give_; " "; stock; ", leaving ";
        to_string (c_ b'); " in the machine."] in
      r2 ← modify (id b) give_ true false p;
      Some (b', Shop.set_bag (pl_out r2) q, true,
        moves (effs r) ++ moves e1 ++ console text ++ bubble p text true ++ moves (effs r2))
    else Some (b, q, true, moves (effs r))
  else Some (b, q, false, console no_room ++ bubble (bag q) no_room true).

(** A change that ends the loop. *)
Definition stop_with (upd : bool) (e : Edit) (r : option (WorldBlock * Purse * list effect))
    : option next_step :=
  '(b, q, es) ← r; Some (Stop (mkEdit b q upd (said e ++ es))).

Definition edit_token (config : bool) (x_ y_ : Z) (a : string) (next : option string) (e : Edit)
    : option next_step :=
  let b := eb e in
  let q := epurse e in
  if String.eqb (take_str 4 a) "chk_" then
    target ← Texts.explode "_" a !! 1%nat; chk target next e
  else if String.eqb a "setprice" then v ← next; Some (setprice v e)
  else if String.eqb a "addstocks" then stop_with false e (addstocks b q)
  else if String.eqb a "addstocks5000" then
    let '(b, es) := addstocks5000 config b q in stop_with false e (Some (b, q, es))
  else if String.eqb a "withdraw" then stop_with false e (withdraw b q)
  else if String.eqb a "upgradedigital" then
    stop_with (update_ e) e (Some (b, q, [upgradedigital x_ y_]))
  else if String.eqb a "pullstocks" then
    '(b, q, reset, es) ← pullstocks b q;
    stop_with (if reset : bool then false else update_ e) e (Some (b, q, es))
  else Some (Go e).

Fixpoint edit (config : bool) (x_ y_ : Z) (a_ : list string) (e : Edit) : option Edit :=
  match a_ with
  | [] => Some e
  | a :: a_ =>
      s ← edit_token config x_ y_ a (head a_) e;
      match s with Stop e => Some e | Go e => edit config x_ y_ a_ e end
  end.

(** What the world is told of a new price. *)
Definition announce (name who : string) (x_ y_ : Z) (b : WorldBlock) (p : Player)
    : option (list effect) :=
  text ←
    (if pr b =? 0 then Some (cat ["`7[``"; who; " disabled the Vending Machine.```7]``"])
     else
       stock ← ori (id b);
       Some (cat ["`7[``"; who; " changed the price of `2"; stock; "`` to ";
         if pr b <? 0 then cat ["`6"; to_string (i32 (pr b * -1)); " per World Lock.```7]``"]
         else cat ["`5"; to_string (pr b); " World Locks each.```7]``"]]));
  let raw := Tank.packPlayerMoving
    (Tank.mkMoving 44 0 17 0 0 0 0 0 (to_float (x_ * 32 + 16)) (to_float (y_ * 32 + 16)) 0
       (to_float 44) 0 0) 56 0 in
  Some (to_world name (λ k,
    (ETo k <$> Messages.Log (cat ["action|play_sfx"; endl; "file|audio/terraform.wav"; endl;
      "delayMS|0"]) "" "google.com") ++
    (ETo k <$> Messages.OnConsoleMessage text false 0) ++
    (ETo k <$> Messages.OnTalkBubble (netID p) text 0 false 0 false) ++
    [ETo k (Messages.ERaw raw 0)])).

(** ** Putting an item in *)

(** Every connected peer in the world is told; for every connected peer the
    player gets the dialog. *)
Fixpoint put_told (name text : string) (config : bool) (x_ y_ : Z) (k : nat) (ws : list string)
    (b : WorldBlock) (p : Player) : option (WorldBlock * Player * list effect) :=
  match ws with
  | [] => Some (b, p, [])
  | w :: ws =>
      let told :=
        if String.eqb w name then
          (ETo k <$> Messages.OnConsoleMessage text false 0) ++
          (ETo k <$> Messages.OnTalkBubble (netID p) text 0 false 0 false)
        else [] in
      '(dialog, b, p, e1) ← get_vending config x_ y_ b p;
      '(b, p, e2) ← put_told name text config x_ y_ (S k) ws b p;
      Some (b, p, told ++ e1 ++ [EDialog dialog] ++ e2)
  end.

Definition restricted : list Z := [1424; 5816; 242; 1796; 7188; 8470; 9160].

(** Whether the look of the block is sent, too. *)
Definition vend_put (config : bool) (name who : string) (x_ y_ item_id : Z) (b : WorldBlock) (q : Purse)
    : option (WorldBlock * Purse * bool * list effect) :=
  if negb (id b =? 0) then Some (b, q, false, []) else
  '(n, p, e1) ← count_stack modify item_id false (bag q);
  let q := Shop.set_bag p q in
  if n =? 0 then Some (b, q, false, moves e1) else
  it ← get_item items item_id;
  machine ← item_name (fg b);
  if untradeable it || existsb (Z.eqb item_id) restricted || bool_decide (blockType it = FISH) then
    let text :=
      if bool_decide (blockType it = LOCK) || (item_id =? 8470) || (item_id =? 1424) || (item_id =? 5816)
      then "No no no." else cat ["Can't put that in a "; machine; "."] in
    Some (b, q, false, moves e1 ++ console text ++ bubble p text true)
  else
    r ← modify item_id (i32 (n * -1)) true false p;
    let q := Shop.set_bag (pl_out r) q in
    if ret r =? 0 then
      let b := set_machine (pr b) (wl b) item_id n b in
      let text := cat ["`7[``"; who; " put `2"; ori_name it; "`` in the "; machine; ".`7]``"] in
      '(b, p, e2) ← put_told name text config x_ y_ 0 peers b (bag q);
      Some (b, Shop.set_bag p q, true, moves e1 ++ moves (effs r) ++ e2)
    else Some (b, q, true, moves e1 ++ moves (effs r)).

(** ** The request *)

Definition tokens (cch : string) : list string := Texts.explode "|" (Dispatch.replaceAll cch endl "|").

(** The part for a player who may change the machine. *)
Definition vend_change (cch : string) (a_ : list string) (i_ : nat) (config : bool) (name who : string)
    (x_ y_ : Z) (b : WorldBlock) (q : Purse) : option (WorldBlock * Purse * list effect) :=
  if str_contains "chk_peritem|1" cch && str_contains "chk_perlock|1" cch then
    Some (b, q, tell (bag q) "You can't have it both ways.")
  else if existsb (Nat.eqb (length a_)) [20; 17; 14]%nat then
    e ← edit config x_ y_ a_ (mkEdit b q false []);
    news ← (if update_ e then announce name who x_ y_ (eb e) (bag (epurse e)) else Some []);
    Some (eb e, epurse e, said e ++ news ++ tile_update name x_ y_ (eb e))
  else
    v ← a_ !! (i_ + 8)%nat;
    '(b, q, shown, es) ← vend_put config name who x_ y_ (atoi v) b q;
    Some (b, q, es ++ (if shown : bool then tile_update name x_ y_ b else [])).

Definition vend_request (cch : string) (a_ : list string) (i_ : nat) (access config : bool)
    (name who : string) (x_ y_ : Z) (b : WorldBlock) (q : Purse)
    : option (WorldBlock * Purse * list effect) :=
  if existsb (Nat.eqb (length a_)) [19; 23]%nat then
    let confirmed := (length a_ =? 23)%nat in
    v11 ← a_ !! (i_ + 11)%nat;
    if negb (starts_digit v11) then Some (b, q, []) else
    v8 ← a_ !! (i_ + 8)%nat;
    v14 ← a_ !! (i_ + 14)%nat;
    if confirmed then
      v17 ← a_ !! (i_ + 17)%nat;
      vend_buy true name who x_ y_ (atoi v14) (atoi v17) (atoi v11) b q
    else vend_buy false name who x_ y_ (atoi v8) (atoi v11) (atoi v14) b q
  else if negb access then Some (b, q, [])
  else vend_change cch a_ i_ config name who x_ y_ b q.

Definition set_block (i : Z) (b : WorldBlock) (w : World) : World :=
  mkWorld (name w) (owner_name w) (admins w) (world_settings w) (World.guild_id w) (max_x w) (max_y w)
    (weather w) (fresh_world w) (<[Z.to_nat i := b]> (blocks w)) (drop_new w).

(** The request reached [a_[i_] == "vending"]. *)
Definition vending (cfg : ServerRoles) (gs : list Guild.Guild) (cch : string) (i_ : nat) (t : Trader)
    (ws : list World) : option (list World * Trader * list effect) :=
  let a_ := tokens cch in
  let ignore := Some (ws, t, []) in
  if negb (existsb (Nat.eqb (length a_)) [14; 13; 20; 17; 19; 23]%nat) then ignore else
  v2 ← a_ !! (i_ + 2)%nat;
  if negb (starts_digit v2) then ignore else
  v5 ← a_ !! (i_ + 5)%nat;
  if negb (starts_digit v5) then ignore else
  bad ← (if (length a_ =? 13)%nat then v8 ← a_ !! (i_ + 8)%nat; Some (negb (starts_digit v8)) else Some false);
  if bad : bool then ignore else
  let x_ := atoi v2 in
  let y_ := atoi v5 in
  if (x_ <? 0) || (y_ <? 0) then ignore else
  match list_find (λ w, name w = world t) ws with
  | None => ignore
  | Some (k, w) =>
      if (max_y w <=? y_) || (max_x w <=? x_) then ignore else
      b ← block_at w (x_ + y_ * 100);
      it ← get_item items (if fg b =? 0 then bg b else fg b);
      if negb (bool_decide (blockType it = VENDING)) then ignore else
      access ← block_access cfg gs (visitor t) w b true false false false;
      if ((15 <? Z.abs (x_ * 32 - px t)) || (15 <? Z.abs (y_ * 32 - py t))) && negb access then
        Some (ws, t, bubble (bag (purse t)) "Get closer!" false)
      else
        '(b, q, es) ← vend_request cch a_ i_ access (has_config_access (Role (visitor t))) (name w)
                       (name_of (visitor t)) x_ y_ b (purse t);
        Some (<[k := set_block (x_ + y_ * 100) b w]> ws, set_purse q t, es)
  end.

End Vending.

End Vending.
