(* ===== verification/VendingFacts.v ===== *)
(** * VendingFacts: what a machine sells, earns and keeps

    The purchases of [Vending] exchange the items for their price, and no
    request to a machine that sells creates or loses an item or a lock (what
    the same requests do to a buying machine is in [BuyingFacts]). *)
From S2P Require Import Prelude Items Inventory InventoryFacts InventoryBag World.
From S2P Require Import Guild Texts Wallet Shop ShopFacts Access Vending.
Import Items World Inventory InventoryFacts InventoryBag Wallet Access Vending.

Module VendingFacts.

Abbreviation locks := ShopFacts.locks.
Abbreviation bought := ShopFacts.bought.

(** ** Machines in order *)

(** How many of [j] are in the machine. *)
Definition stock (j : Z) (b : WorldBlock) : Z := if id b =? j then c_ b else 0.

Definition sellable (items : table) (id : Z) : Prop := 0 < id < size items /\ id <> 112 /\ id ∉ locks.

Definition machine_ok (items : table) (b : WorldBlock) : Prop :=
  0 <= c_ b /\ 0 <= wl b /\ -2000000 <= pr b <= 2000000 /\
  (id b = 0 -> c_ b = 0) /\ (id b <> 0 -> sellable items (id b)).

(** The machine is far from an overflow. *)
Definition within (b : WorldBlock) : Prop := c_ b <= 1000000000 /\ wl b <= 1000000000.

(** The bag holds items of the table only. *)
Definition held_in_table (items : table) (p : Player) : Prop :=
  forall j, contains j (inv p) <> 0 -> 0 < j < size items /\ j <> 112.

(** Player and machine together have what they had. *)
Definition conserved (b : WorldBlock) (q : Purse) (b' : WorldBlock) (q' : Purse) : Prop :=
  (fg b', bg b') = (fg b, bg b) /\ settled (bag q') /\
  purse_worth q' + wl b' = purse_worth q + wl b /\
  forall j, j <> 0 -> j ∉ locks ->
    contains j (inv (bag q')) + stock j b' = contains j (inv (bag q)) + stock j b.

Lemma unchanged_conserved b q : settled (bag q) -> conserved b q b q.
Proof. done. Qed.

(** A change of the price. *)
Lemma price_conserved v b q : settled (bag q) -> conserved b q (set_pr v b) q.
Proof. done. Qed.

(** A sum over the blocks or the worlds. *)
Definition total {A} (f : A -> Z) (l : list A) : Z := fold_right (λ x n, f x + n) 0 l.

Lemma total_insert {A} (f : A -> Z) l i a b :
  l !! i = Some a -> total f (<[i := b]> l) = total f l - f a + f b.
Proof.
  revert i. induction l as [|x l IH]; intros [|i] H; try done; cbn in *.
  - injection H as ->. lia.
  - change (f x + total f (<[i := b]> l) = f x + total f l - f a + f b). rewrite (IH i H). lia.
Qed.

Section Facts.
Context (items : table) (prices : list (Z * Z)) (wf : bool) (g1 g2 : string) (fuel : nat).
Context (price_of : Z -> list Z) (to_float : Z -> Z) (color : string) (peers : list string).
Hypothesis Hlocks : locks_in_table items.

Local Abbreviation modify := (Modify items prices wf g1 g2 (S fuel)).

Lemma ori_known id : 0 <= id < size items -> exists n, ori items id = Some n.
Proof.
  intros H. unfold ori, get_item. replace ((0 <=? id) && (id <? size items)) with true by lia. by eexists.
Qed.

Lemma table_start : 0 < size items.
Proof. pose proof (ShopFacts.wl_known items Hlocks). lia. Qed.

Lemma machine_item b : machine_ok items b -> 0 <= id b < size items.
Proof.
  intros (_ & _ & _ & _ & H). pose proof table_start. destruct (Z.eq_dec (id b) 0) as [->|E]; [lia|].
  destruct (H E). lia.
Qed.

Lemma same_bag q : Shop.set_bag (bag q) q = q.
Proof. by destruct q. Qed.

(** ** Counting *)

Lemma count_valid id p :
  settled p -> 0 < id < size items -> id <> 112 ->
  exists es, count_stack modify id false p = Some (contains id (inv p), p, es).
Proof.
  intros Hp Hs H112. unfold count_stack.
  destruct (modify_count items prices wf g1 g2 fuel true id p Hp Hs H112) as (r & -> & <- & <-). by eexists.
Qed.

(** Any number the client sends is counted. *)
Lemma count_any id p :
  settled p -> held_in_table items p ->
  exists n es, count_stack modify id false p = Some (n, p, es) /\
    (n = 0 \/ (n = contains id (inv p) /\ 0 < id < size items /\ id <> 112)).
Proof.
  intros Hp Ht. destruct (decide (0 < id < size items /\ id <> 112)) as [[Hs H112]|Hbad].
  { destruct (count_valid id p Hp Hs H112) as (es & ->). eexists _, _. split; [done|]. right. tauto. }
  assert (contains id (inv p) = 0) as Hc by (destruct (Z.eq_dec (contains id (inv p)) 0); [done|by destruct Hbad; apply Ht]).
  unfold count_stack. cbn [Modify]. unfold modify_body.
  destruct ((200 <? 0) || (id <? 0) || (size items <? id) || (id <=? 0) || (id =? 112) ||
    (length (inv p) =? 0)%nat) eqn:G; [cbn; eexists _, _; split; [done|by left]|].
  destruct Hp as [(Hinf & _) [Hl _]]. rewrite Hinf. cbn [andb]. unfold modify_slots.
  destruct (find_stack id (inv p)) as [k|] eqn:E.
  - pose proof (find_stack_Some id (inv p) k ltac:(lia) Hl E). lia.
  - unfold modify_new. destruct (find_stack 0 (inv p)); cbn; eexists _, _; (split; [done|by left]).
Qed.

(** A call with a count of 0 always returns -1. *)
Lemma modify_nothing upd id p :
  settled p -> exists r, modify id 0 upd false p = Some r /\ ret r = -1 /\ pl_out r = p.
Proof.
  intros [(Hinf & _) [Hl Hd]]. cbn [Modify]. unfold modify_body.
  destruct (_ || _) eqn:G; [by eexists|]. rewrite Hinf. cbn [andb]. unfold modify_slots.
  destruct (find_stack id (inv p)) as [k|] eqn:E.
  - pose proof (find_stack_Some id (inv p) k ltac:(lia) Hl E) as Hn. unfold modify_stack.
    rewrite Z.add_0_r. replace (contains id (inv p) <=? 200) with true by lia.
    replace (contains id (inv p) =? 0) with false by lia. cbn.
    eexists. split; [done|]. split; [done|]. cbn. unfold put.
    rewrite list_insert_id by (by apply find_stack_lookup). apply set_inv_same.
  - unfold modify_new. by destruct (find_stack 0 (inv p)); eexists.
Qed.

(** ** Items from the machine, and to it *)

(** [n] items go from the machine to the bag ([n < 0]: to the machine). *)
Lemma exchange_items n p b q c :
  settled (bag q) -> moved (id b) n (bag q) p -> id b <> 0 -> id b ∉ locks -> c = c_ b - n ->
  conserved b q (set_c_ c b) (Shop.set_bag p q).
Proof.
  intros Hq Hm H0 Hl ->. destruct (ShopFacts.delivered_worth (id b) n q p Hl Hm) as [_ Hw].
  split; [done|]. split; [by eapply moved_settled|]. split; [by rewrite Hw|].
  intros j Hj Hjl. unfold stock. cbn [bag Shop.set_bag set_c_ set_machine id c_].
  destruct Hm as (_ & _ & _ & [Hx Ho] & _). destruct (Z.eqb_spec (id b) j) as [<-|E]; [lia|].
  rewrite Ho by auto. lia.
Qed.

(** ** A purchase *)

(** The machine after a sale: empty, it has no item and no price. *)
Definition sold (actual cost_ : Z) (b : WorldBlock) : WorldBlock :=
  if c_ b =? actual then set_machine 0 (wl b + cost_) 0 0 b
  else set_machine (pr b) (wl b + cost_) (id b) (c_ b - actual) b.

Local Abbreviation sale := (vend_sale items modify to_float peers).
Local Abbreviation buy := (vend_buy items modify to_float color peers).

Lemma held_range p : settled p -> 0 <= held p <= 2020200.
Proof.
  intros H. pose proof (settled_contains p 242 H ltac:(lia)). pose proof (settled_contains p 1796 H ltac:(lia)).
  pose proof (settled_contains p 7188 H ltac:(lia)). unfold held. lia.
Qed.

Lemma vend_sale_spec name who x_ y_ n cost b q :
  machine_ok items b -> within b -> settled (bag q) -> banks_ok q -> id b <> 0 -> 0 < n <= c_ b ->
  contains (id b) (inv (bag q)) + n <= 200 -> 2 < Get_Slots (bag q) -> 1 <= cost <= held (bag q) ->
  exists q' es, sale name who x_ y_ n cost b q = Some (sold n cost b, q', es) /\
    bought (id b) n cost q q'.
Proof.
  intros (Hc & Hw & Hp & _ & Hid) [Wc Ww] Hq Hb H0 Hn Hroom Hslots Hcost. destruct (Hid H0) as (Hs & H112 & Hl).
  pose proof (settled_contains (bag q) (id b) Hq ltac:(lia)). pose proof (held_range (bag q) Hq).
  unfold vend_sale. replace (2 <? Get_Slots (bag q)) with true by lia.
  assert (accepts (id b) n (inv (bag q))) as Ha.
  { rewrite Get_Slots_free in Hslots by apply Hq. split_and!; try lia. intros _. apply free_find. lia. }
  destruct (modify_ok items prices wf g1 g2 fuel true false (id b) n (bag q)) as (r & -> & Hr & Hm);
    try done; [lia|]. cbn [mbind option_bind]. rewrite Hr. change (0 =? 0) with true. cbv iota.
  destruct (ShopFacts.deliver_charge items prices wf g1 g2 fuel Hlocks (id b) n cost q (pl_out r))
    as (q' & es & -> & Hbought); try done; try lia. cbn [mbind option_bind].
  rewrite (i32_small (c_ b - n)), (i32_small (wl b + cost)) by lia.
  set (b2 := if _ : bool then _ else _).
  assert (b2 = sold n cost b) as ->.
  { subst b2. unfold sold. cbn [c_ set_c_ set_wl set_machine].
    destruct (Z.leb_spec (c_ b - n) 0), (Z.eqb_spec (c_ b) n); try lia; [|done].
    cbn. by replace (c_ b - n) with 0 by lia. }
  destruct (ori_known (id (sold n cost b))) as (nm & ->).
  { unfold sold. pose proof table_start. case_match; cbn; lia. }
  cbn [mbind option_bind]. by eexists _, _.
Qed.

(** The price of a purchase: one item for [pr] locks, or [- pr] items a lock
    and no change of a lock. *)
Definition fair_price (price n cost : Z) : Prop :=
  (0 < price -> cost = price * n) /\ (price < 0 -> n = - price * cost).

Lemma order_positive price buycount n cost :
  -2000000 <= price <= 2000000 -> price <> 0 -> 0 < buycount < 2 ^ 31 ->
  order price buycount = (n, cost) -> (price < 0 -> - price <= buycount) ->
  0 < n <= buycount /\ (0 < price -> cost = i32 (price * n)) /\ (price < 0 -> n = - price * cost).
Proof.
  intros Hp H0 Hc. unfold order. destruct (Z.ltb_spec 0 price).
  { intros [= <- <-] _. lia. }
  replace (price * -1) with (- price) by lia. rewrite (i32_small (- price)) by lia.
  set (ratio := if _ : bool then _ else _). intros [= <- <-] Hle. specialize (Hle ltac:(lia)).
  assert (0 < ratio /\ ratio * - price <= buycount) as [Hr Hr2].
  { subst ratio. destruct (Z.ltb_spec (- price) buycount).
    - rewrite Z.quot_div_nonneg by lia.
      pose proof (Z.div_str_pos buycount (- price) ltac:(lia)).
      pose proof (Z.mul_div_le buycount (- price) ltac:(lia)). lia.
    - replace buycount with (- price) by lia. rewrite Z.quot_same by lia. lia. }
  rewrite i32_small by nia. nia.
Qed.

Lemma order_fair price buycount n cost :
  -2000000 <= price <= 2000000 -> price <> 0 -> 0 < buycount < 2 ^ 31 ->
  order price buycount = (n, cost) -> n <= 200 ->
  (price < 0 -> - price <= buycount) -> fair_price price n cost /\ 1 <= cost.
Proof.
  intros Hp H0 Hc E Hn Hle. destruct (order_positive price buycount n cost Hp H0 Hc E Hle) as (Hr & Hpos & Hneg).
  unfold fair_price. destruct (Z.ltb_spec 0 price).
  - specialize (Hpos ltac:(lia)). rewrite i32_small in Hpos by nia. nia.
  - specialize (Hneg ltac:(lia)). nia.
Qed.

(** What the machine sells to this player. *)
Definition acceptable (expectprice expectitem buycount : Z) (b : WorldBlock) (q : Purse) : Prop :=
  let '(n, cost) := order (pr b) buycount in
  expectprice = pr b /\ expectitem = id b /\ 0 < buycount /\ pr b <> 0 /\ 0 < n <= c_ b /\
  (pr b < 0 -> - pr b <= buycount) /\ cost <= held (bag q) /\
  contains (id b) (inv (bag q)) + n <= 200 /\ 2 < Get_Slots (bag q).

Lemma vend_buy_cases confirmed name who x_ y_ expectprice expectitem buycount b q :
  machine_ok items b -> within b -> settled (bag q) -> banks_ok q -> in_i32 buycount ->
  (exists es, buy confirmed name who x_ y_ expectprice expectitem buycount b q = Some (b, q, es) /\
     (confirmed = true -> ~ acceptable expectprice expectitem buycount b q)) \/
  (confirmed = true /\ acceptable expectprice expectitem buycount b q /\ id b <> 0 /\
   exists q' es, let '(n, cost) := order (pr b) buycount in
     fair_price (pr b) n cost /\ 1 <= cost /\
     buy confirmed name who x_ y_ expectprice expectitem buycount b q = Some (sold n cost b, q', es) /\
     bought (id b) n cost q q').
Proof.
  clear price_of. intros Hm Hsm Hq Hb Hc. pose proof Hsm as [Wc Ww]. pose proof Hm as (Hc0 & Hw & Hp & Hid0 & Hid).
  unfold acceptable, vend_buy. destruct (order (pr b) buycount) as [n cost] eqn:Eo.
  destruct (Z.eqb_spec expectprice (pr b)); cbn [negb]; [|left; eexists; split; [done|intros _ ?; tauto]].
  destruct (Z.eqb_spec expectitem (id b)); cbn [negb]; [|left; eexists; split; [done|intros _ ?; tauto]].
  destruct (Z.ltb_spec buycount 0); [left; eexists; split; [done|lia]|].
  destruct (Z.eqb_spec buycount 0); [left; eexists; split; [done|lia]|].
  destruct (Z.eqb_spec (pr b) 0); [left; eexists; split; [done|lia]|].
  destruct ((n =? 0) || (c_ b <? n)) eqn:E1; [left; eexists; split; [done|lia]|].
  rewrite (i32_small (pr b * -1)) by lia.
  destruct ((pr b <? 0) && (buycount <? pr b * -1)) eqn:E2; [left; eexists; split; [done|lia]|].
  destruct (get_wls_look items prices wf g1 g2 fuel Hlocks 0 q Hq) as (e1 & ->). cbn [mbind option_bind].
  destruct (Z.ltb_spec (held (bag q)) cost); [left; eexists; split; [done|lia]|].
  destruct (order_positive (pr b) buycount n cost) as (Hn & _); try done; [unfold in_i32 in Hc; lia..|].
  assert (id b <> 0) as Hne by (intros E; specialize (Hid0 E); lia).
  destruct (Hid Hne) as (Hs & H112 & Hl). pose proof (settled_contains (bag q) (id b) Hq ltac:(lia)).
  destruct (count_valid (id b) (bag q) Hq Hs H112) as (e2 & ->). cbn [mbind option_bind].
  rewrite (same_bag q), i32_small by lia.
  destruct (Z.ltb_spec 200 (contains (id b) (inv (bag q)) + n)); [left; eexists; split; [done|lia]|].
  destruct (Z.eqb_spec (Get_Slots (bag q)) 0); [left; eexists; split; [done|lia]|].
  destruct confirmed; cbn [negb]; cycle 1.
  { destruct (ori_known (id b)) as (nm & ->); [lia|]. cbn [mbind option_bind]. left. by eexists. }
  destruct (order_fair (pr b) buycount n cost) as [Hf Hcost]; try done; try (unfold in_i32 in Hc; lia).
  destruct (Z.ltb_spec 2 (Get_Slots (bag q))) as [Hslots|Hslots]; cycle 1.
  { left. unfold vend_sale. replace (2 <? Get_Slots (bag q)) with false by lia. eexists.
    split; [done|lia]. }
  destruct (vend_sale_spec name who x_ y_ n cost b q) as (q' & es & -> & Hb'); try done; [lia|].
  right. split; [done|]. split; [lia|]. split; [done|]. by eexists _, _.
Qed.

(** ** The owner's changes *)

(** What a request to a machine keeps. *)
Definition kept (b : WorldBlock) (q : Purse) (b' : WorldBlock) (q' : Purse) : Prop :=
  conserved b q b' q' /\ (machine_ok items b -> machine_ok items b').

Lemma kept_refl b q : settled (bag q) -> kept b q b q.
Proof. by split. Qed.

Lemma give_room id n p :
  settled p -> 0 < id < size items -> id <> 112 -> 0 < n -> contains id (inv p) + n <= 200 ->
  0 < Get_Slots p -> accepts id n (inv p).
Proof.
  intros Hp Hs H112 Hn Hr Hf. rewrite Get_Slots_free in Hf by apply Hp.
  pose proof (settled_contains p id Hp ltac:(lia)). split_and!; try lia. intros _. apply free_find. lia.
Qed.

(** The whole stack of an item leaves the bag. *)
Lemma take_all id p :
  settled p -> 0 < id < size items -> id <> 112 ->
  exists r, modify id (i32 (contains id (inv p) * -1)) true false p = Some r /\
    ((contains id (inv p) = 0 /\ ret r = -1 /\ pl_out r = p) \/
     (contains id (inv p) <> 0 /\ ret r = 0 /\ moved id (- contains id (inv p)) p (pl_out r))).
Proof.
  clear price_of to_float color peers. intros Hp Hs H112.
  pose proof (settled_contains p id Hp ltac:(lia)). rewrite i32_small by lia. replace (contains id (inv p) * -1) with (- contains id (inv p)) by lia.
  destruct (Z.eq_dec (contains id (inv p)) 0) as [E|E].
  - rewrite E. change (- 0) with 0. destruct (modify_nothing true id p Hp) as (r & -> & Hr & Hp'). exists r. split; [done|]. tauto.
  - destruct (modify_ok items prices wf g1 g2 fuel true false id (- contains id (inv p)) p)
      as (r & -> & Hr & Hm); try done; [lia|split_and!; lia|]. exists r. split; [done|]. tauto.
Qed.

Lemma addstocks_kept b q :
  machine_ok items b -> within b -> settled (bag q) ->
  exists b' q' es, addstocks modify b q = Some (b', q', es) /\ kept b q b' q'.
Proof.
  intros (Hc & Hw & Hp & Hid0 & Hid) [Wc Ww] Hq. unfold addstocks.
  destruct (Z.eqb_spec (id b) 0) as [E|E]; [eexists _, _, _; split; [done|by apply kept_refl]|].
  destruct (Hid E) as (Hs & H112 & Hl). pose proof (settled_contains (bag q) (id b) Hq ltac:(lia)).
  destruct (count_valid (id b) (bag q) Hq Hs H112) as (e1 & ->). cbn [mbind option_bind].
  destruct (take_all (id b) (bag q) Hq Hs H112) as (r & -> & Hr). cbn [mbind option_bind].
  destruct Hr as [(H0 & -> & ->)|(H0 & -> & Hm)]; cbn -[set_c_ tell conserved].
  - rewrite same_bag. eexists _, _, _. split; [done|by apply kept_refl].
  - eexists _, _, _. split; [done|]. rewrite i32_small by lia. split.
    + eapply exchange_items; try done. lia.
    + intros _. unfold machine_ok. cbn. split_and!; try lia. by intros _.
Qed.

Lemma addstocks5000_nothing b q : addstocks5000 false b q = (b, []).
Proof. unfold addstocks5000. by rewrite andb_false_r. Qed.

(** One denomination of what the machine earned. *)
Lemma withdraw_step_spec lock unit_ limit what total b bank back text p :
  lock ∈ lock_ids -> settled p -> 1 <= unit_ <= 10000 -> limit = unit_ * 200 ->
  0 <= total <= wl b -> within b -> 0 <= bank <= 2147483000 ->
  exists n bank' back' text' p' es,
    withdraw_step modify lock unit_ limit what total b bank back text p
      = Some (total - n * unit_, set_wl (wl b - n * unit_) b, bank', back', text', p', es) /\
    others lock p p' /\ 0 <= n /\ n * unit_ <= total /\
    contains lock (inv p') + bank' = contains lock (inv p) + bank + n.
Proof.
  intros Hid Hp Hu -> Ht [_ Ww] Hb. unfold withdraw_step.
  destruct (lock_valid items Hlocks lock Hid) as [Hs H112].
  destruct (Z.leb_spec unit_ total); cycle 1.
  { exists 0, bank, back, text, p, []. rewrite Z.mul_0_l, !Z.sub_0_r. split; [|split; [by split|lia]].
    by destruct b. }
  set (n := if _ : bool then _ else _).
  assert (1 <= n <= 200 /\ n * unit_ <= total) as [Hn Hnt].
  { subst n. destruct (Z.ltb_spec (unit_ * 200) total); [lia|]. rewrite Z.quot_div_nonneg by lia.
    pose proof (Z.mul_div_le total unit_ ltac:(lia)).
    split; [split; [apply Z.div_le_lower_bound; lia|apply Z.div_le_upper_bound; lia]|lia]. }
  clearbody n. cbv zeta. rewrite (i32_small (n * unit_)) by lia. rewrite !i32_small by lia.
  destruct (accepts_dec lock n (inv p) ltac:(lia)) as [Ha|Ha].
  - destruct (modify_ok items prices wf g1 g2 fuel true false lock n p) as (r & -> & Hr & Hm); try done; try lia.
    cbn [mbind option_bind]. rewrite Hr. cbn -[set_wl cat].
    eexists n, _, _, _, _, _. split; [done|]. split; [by eapply moved_others|].
    destruct Hm as (_ & _ & _ & [Hx _] & _). lia.
  - destruct (modify_refused_gift items prices wf g1 g2 fuel true lock n p) as (r & -> & Hr & Hpl & Hco);
      try done; try lia. cbn [mbind option_bind]. rewrite Hr, Hpl, Hco. cbn -[set_wl].
    rewrite i32_small by lia. eexists n, _, _, _, _, _. split; [done|]. split; [by split|]. lia.
Qed.

Lemma withdraw_kept b q :
  machine_ok items b -> within b -> settled (bag q) -> banks_ok q ->
  exists b' q' es, withdraw modify b q = Some (b', q', es) /\ kept b q b' q'.
Proof.
  intros (Hc & Hw & Hp & Hid0 & Hid) [Wc Ww] Hq (B1 & B2 & B3). unfold withdraw.
  destruct (wl b =? 0); [eexists _, _, _; split; [done|by apply kept_refl]|].
  destruct q as [p wls dl bgl]. cbn [bag wl_bank_amount dl_bank_amount bgl_bank_amount] in *.
  assert (242 ∈ lock_ids /\ 1796 ∈ lock_ids /\ 7188 ∈ lock_ids) as (L1 & L2 & L3)
    by (unfold lock_ids; rewrite !elem_of_cons; tauto).
  destruct (withdraw_step_spec 7188 10000 2000000 " Platinum Gem Locks" (wl b) b bgl false "" p)
    as (n1 & k1 & f1 & t1 & p1 & e1 & -> & O1 & N1 & M1 & S1); try done. cbn [mbind option_bind].
  destruct (withdraw_step_spec 1796 100 20000 " Diamond Locks" (wl b - n1 * 10000)
      (set_wl (wl b - n1 * 10000) b) dl f1 t1 p1)
    as (n2 & k2 & f2 & t2 & p2 & e2 & -> & O2 & N2 & M2 & S2); try done; [apply O1|cbn; lia|split; cbn; lia|].
  cbn [mbind option_bind]. set (b2 := set_wl (wl b - n1 * 10000) b).
  change (set_wl (wl b2 - n2 * 100) b2) with (set_wl (wl b - n1 * 10000 - n2 * 100) b). clear b2.
  destruct (withdraw_step_spec 242 1 200 " World Locks" (wl b - n1 * 10000 - n2 * 100)
      (set_wl (wl b - n1 * 10000 - n2 * 100) b) wls f2 t2 p2)
    as (n3 & k3 & f3 & t3 & p3 & e3 & -> & O3 & N3 & M3 & S3); try done; [apply O2|cbn; lia|split; cbn; lia|].
  cbn [mbind option_bind]. eexists _, _, _. split; [done|].
  rewrite (others_contains 1796 p1 p2 242 O2), (others_contains 7188 p p1 242 O1) in S3 by lia.
  rewrite (others_contains 7188 p p1 1796 O1) in S2 by lia. split.
  - split; [done|]. split; [apply O3|]. split.
    + unfold purse_worth. cbn -[contains Z.mul].
      rewrite (others_contains 242 p2 p3 1796 O3), (others_contains 242 p2 p3 7188 O3),
        (others_contains 1796 p1 p2 7188 O2) by lia. lia.
    + intros j Hj Hl. unfold ShopFacts.locks in Hl. rewrite !not_elem_of_cons in Hl.
      cbn -[contains stock set_wl].
      rewrite (others_contains _ _ _ j O3), (others_contains _ _ _ j O2), (others_contains _ _ _ j O1) by tauto.
      done.
  - intros _. unfold machine_ok. cbn -[Z.mul]. split_and!; try lia; done.
Qed.

Lemma modify_too_many upd id c p : 200 < c -> modify id c upd false p = Some (mkResult (-1) c p []).
Proof. intros H. cbn [Modify]. unfold modify_body. by replace (200 <? c) with true by lia. Qed.

Lemma moved_emptied b q p :
  settled (bag q) -> id b <> 0 -> id b ∉ locks -> moved (id b) (c_ b) (bag q) p ->
  conserved b q (set_machine 0 (wl b) 0 0 b) (Shop.set_bag p q).
Proof.
  intros Hq H0 Hl Hm. destruct (exchange_items (c_ b) p b q 0 Hq Hm H0 Hl ltac:(lia)) as (_ & Hs & Hw & Ho).
  split; [done|]. split; [done|]. split; [done|]. intros j Hj Hjl. rewrite <- (Ho j Hj Hjl).
  f_equal. unfold stock. cbn. by repeat case_match.
Qed.

Lemma pullstocks_kept b q :
  machine_ok items b -> within b -> settled (bag q) ->
  exists b' q' reset es, pullstocks items modify b q = Some (b', q', reset, es) /\ kept b q b' q'.
Proof.
  intros Hok [Wc Ww] Hq. pose proof Hok as (Hc & Hw & Hp & Hid0 & Hid). unfold pullstocks.
  destruct (Z.ltb_spec 1 (Get_Slots (bag q))) as [Hslots|];
    [|eexists _, _, _, _; split; [done|by apply kept_refl]].
  destruct (ori_known (id b) (machine_item b Hok)) as (nm & Enm).
  destruct (Z.ltb_spec 200 (c_ b)).
  { destruct (Hid ltac:(intros E; specialize (Hid0 E); lia)) as (Hs & H112 & Hl).
    rewrite modify_too_many by done. cbn [mbind option_bind pl_out ret]. rewrite same_bag.
    change (-1 =? 0) with false. cbv iota.
    destruct (count_valid (id b) (bag q) Hq Hs H112) as (e1 & ->). cbn [mbind option_bind].
    rewrite Enm. cbn [mbind option_bind].
    pose proof (settled_contains (bag q) (id b) Hq ltac:(lia)). rewrite i32_small by lia.
    assert (machine_ok items (set_c_ (c_ b - (200 - contains (id b) (inv (bag q)))) b)) as Hok'
      by (unfold machine_ok; cbn; split_and!; try lia; done).
    destruct (Z.eq_dec (200 - contains (id b) (inv (bag q))) 0) as [E|E].
    - rewrite E. destruct (modify_nothing true (id b) (bag q) Hq) as (r & -> & _ & Hpl).
      cbn [mbind option_bind]. rewrite Hpl, same_bag, Z.sub_0_r. eexists _, _, _, _.
      split; [done|]. by destruct b.
    - destruct (modify_ok items prices wf g1 g2 fuel true false (id b)
        (200 - contains (id b) (inv (bag q))) (bag q)) as (r & -> & _ & Hm); try done; try lia.
      { apply give_room; try done; lia. }
      cbn [mbind option_bind]. eexists _, _, _, _. split; [done|]. split; [|done].
      eapply exchange_items; try done; lia. }
  destruct (Z.eq_dec (c_ b) 0) as [E|E].
  { rewrite E. destruct (modify_nothing true (id b) (bag q) Hq) as (r & -> & Hr & Hpl).
    cbn [mbind option_bind]. rewrite Hr, Hpl, same_bag. change (-1 =? 0) with false. cbv iota.
    eexists _, _, _, _. split; [done|by apply kept_refl]. }
  assert (id b <> 0) as H0 by (intros H0; by specialize (Hid0 H0)).
  destruct (Hid H0) as (Hs & H112 & Hl).
  destruct (accepts_dec (id b) (c_ b) (inv (bag q)) E) as [Ha|Ha].
  - destruct (modify_ok items prices wf g1 g2 fuel true false (id b) (c_ b) (bag q)) as (r & -> & Hr & Hm);
      try done. cbn [mbind option_bind]. rewrite Hr, Enm. change (0 =? 0) with true. cbv iota.
    cbn [mbind option_bind]. eexists _, _, _, _. split; [done|]. split; [by apply moved_emptied|].
    intros _. unfold machine_ok. cbn. split_and!; lia.
  - destruct (modify_refused items prices wf g1 g2 fuel true false (id b) (c_ b) (bag q)) as (r & -> & Hr & Hpl);
      try done. cbn [mbind option_bind]. rewrite Hr, Hpl, same_bag. change (-1 =? 0) with false. cbv iota.
    replace (200 <? c_ b) with false by lia. eexists _, _, _, _. split; [done|by apply kept_refl].
Qed.

(** *** The loop over the tokens *)

(** Before the change that ends the loop only the price differs. *)
Definition priced (b : WorldBlock) (q : Purse) (e : Edit) : Prop :=
  epurse e = q /\ exists v, -2000000 <= v <= 2000000 /\ eb e = set_pr v b.

Lemma priced_kept b q e :
  machine_ok items b -> settled (bag q) -> priced b q e -> kept b q (eb e) (epurse e).
Proof.
  intros (Hc & Hw & Hp & Hid0 & Hid) Hq (-> & v & Hv & ->). split; [by apply price_conserved|].
  intros _. by unfold machine_ok.
Qed.

Lemma priced_start b q : machine_ok items b -> priced b q (mkEdit b q false []).
Proof. intros (_ & _ & Hp & _). split; [done|]. exists (pr b). split; [lia|by destruct b]. Qed.

(** What a token leaves: the loop goes on, or all is kept. *)
Definition token_ok (b : WorldBlock) (q : Purse) (s : next_step) : Prop :=
  match s with
  | Go e => priced b q e
  | Stop e => kept b q (eb e) (epurse e)
  end.

Definition reads_next (a : string) : bool := String.eqb (take_str 4 a) "chk_" || String.eqb a "setprice".

Lemma pieces_nonempty d s : exists x ps, Texts.pieces d 0 s = x :: ps.
Proof.
  destruct s as [|c s]; cbn [Texts.pieces]; [by eexists _, _|].
  case_match; [by eexists _, _|]. case_match; by eexists _, _.
Qed.

Lemma chk_target a : take_str 4 a = "chk_" -> exists t, Texts.explode "_" a !! 1%nat = Some t.
Proof.
  intros H. destruct a as [|c1 [|c2 [|c3 [|c4 a]]]]; try discriminate H. cbn in H.
  injection H as -> -> -> ->. unfold Texts.explode. cbn.
  destruct (pieces_nonempty "_" a) as (x & ps & ->). by eexists.
Qed.

Lemma priced_change b q e v upd es :
  priced b q e -> -2000000 <= v <= 2000000 -> priced b q (mkEdit (set_pr v (eb e)) (epurse e) upd es).
Proof. intros (Hq & w & Hw & E) Hv. split; [done|]. exists v. split; [done|]. cbn. by rewrite E. Qed.

Lemma chk_ok b q target v e :
  machine_ok items b -> settled (bag q) -> priced b q e ->
  exists s, chk target (Some v) e = Some s /\ token_ok b q s.
Proof.
  intros Hok Hq He. pose proof (priced_kept b q e Hok Hq He) as Hk.
  assert (-2000000 <= i32 (pr (eb e) * -1) <= 2000000) as Hr.
  { destruct He as (_ & w & Hw & ->). cbn -[swrap]. rewrite i32_small by lia. lia. }
  unfold chk. cbv zeta. cbn [mbind option_bind].
  repeat (case_match; [|]); eexists; (split; [done|]); cbn [token_ok eb epurse]; try done;
    by apply priced_change.
Qed.

Lemma setprice_ok b q v e :
  machine_ok items b -> settled (bag q) -> priced b q e -> token_ok b q (setprice v e).
Proof.
  intros Hok Hq He. pose proof (priced_kept b q e Hok Hq He) as Hk. unfold setprice. cbv zeta.
  destruct ((atoi v =? 0) || _) eqn:E0; [by apply priced_change|].
  destruct ((atoi v <? 0) || (2000000 <? atoi v)) eqn:E1; [done|].
  destruct ((pr (eb e) <? 0) && (c_ (eb e) <? atoi v)); [done|].
  destruct ((pr (eb e) <? 0) && (200 <? atoi v)); [done|].
  apply priced_change; [done|]. rewrite i32_small by lia. case_match; lia.
Qed.

(** The changes that end the loop are kept for the machine with its new
    price, hence for the machine. *)
Lemma stop_ok b q e upd r :
  machine_ok items b -> settled (bag q) -> priced b q e ->
  (exists b' q' es, r = Some (b', q', es) /\ kept (eb e) (epurse e) b' q') ->
  exists s, stop_with upd e r = Some s /\ token_ok b q s.
Proof.
  intros Hok Hq He (b' & q' & es & -> & Hc & Hm). pose proof (priced_kept b q e Hok Hq He) as [_ Hk].
  eexists. split; [done|]. split; [|by auto]. cbn [eb epurse].
  destruct He as (Eq & v & _ & E). by rewrite E, Eq in Hc.
Qed.

Lemma edit_token_ok x_ y_ a next b q e :
  machine_ok items b -> within b -> settled (bag q) -> banks_ok q -> priced b q e ->
  (reads_next a = true -> next <> None) ->
  exists s, edit_token items modify color false x_ y_ a next e = Some s /\ token_ok b q s.
Proof.
  intros Hok Hsm Hq Hb He Hnext. unfold edit_token, reads_next in *. cbv zeta.
  assert (machine_ok items (eb e) /\ within (eb e) /\ epurse e = q) as (Hok' & Hsm' & Eq).
  { split; [by apply (priced_kept b q e)|]. by destruct He as (-> & v & _ & ->). }
  destruct (String.eqb_spec (take_str 4 a) "chk_") as [Ec|_].
  { destruct next as [v|]; [|by destruct Hnext]. destruct (chk_target a Ec) as (t & ->).
    by apply chk_ok. }
  destruct (String.eqb_spec a "setprice").
  { destruct next as [v|]; [|by destruct Hnext]. eexists. split; [done|]. by apply setprice_ok. }
  assert (settled (bag (epurse e)) /\ banks_ok (epurse e)) as [Hq' Hb'] by by rewrite Eq.
  destruct (String.eqb a "addstocks").
  { apply stop_ok; try done. by apply addstocks_kept. }
  destruct (String.eqb a "addstocks5000").
  { rewrite addstocks5000_nothing. apply stop_ok; try done.
    eexists _, _, _. split; [done|by apply kept_refl]. }
  destruct (String.eqb a "withdraw").
  { apply stop_ok; try done. by apply withdraw_kept. }
  destruct (String.eqb a "upgradedigital").
  { apply stop_ok; try done. eexists _, _, _. split; [done|by apply kept_refl]. }
  destruct (String.eqb a "pullstocks"); [|by eexists].
  destruct (pullstocks_kept (eb e) (epurse e)) as (b' & q' & reset & es & -> & Hk); try done.
  cbn [mbind option_bind]. apply stop_ok; try done. by eexists _, _, _.
Qed.

Lemma edit_ok x_ y_ b q (a_ : list string) : forall e,
  machine_ok items b -> within b -> settled (bag q) -> banks_ok q -> priced b q e ->
  list.last a_ = Some "" ->
  exists e', edit items modify color false x_ y_ a_ e = Some e' /\ kept b q (eb e') (epurse e').
Proof.
  induction a_ as [|a a_ IH]; intros e Hok Hsm Hq Hb He Hl; [done|]. cbn [edit].
  destruct (edit_token_ok x_ y_ a (head a_) b q e) as (s & -> & Hs); try done.
  { destruct a_; [|done]. injection Hl as ->. done. }
  cbn [mbind option_bind]. destruct s as [e'|e']; [|by eexists].
  destruct a_ as [|a' a_]; [|by apply IH]. exists e'. split; [done|]. by apply priced_kept.
Qed.

Definition in_table (id : Z) : Prop := 0 <= id < size items.

Lemma name_of_block b : in_table (fg b) -> exists n, item_name items (fg b) = Some n.
Proof.
  intros H. unfold item_name, get_item, in_table in *.
  replace ((0 <=? fg b) && (fg b <? size items)) with true by lia. by eexists.
Qed.

Lemma announce_some name who x_ y_ b p :
  machine_ok items b -> exists es, announce items to_float peers name who x_ y_ b p = Some es.
Proof.
  intros Hok. unfold announce. destruct (ori_known (id b) (machine_item b Hok)) as (nm & ->).
  case_match; by eexists.
Qed.

(** ** Putting an item in *)

Definition paid_prices : Prop := forall j, Forall (λ v, 1 <= v <= 2000000) (price_of j).

Lemma average_bounds l :
  l <> [] -> Forall (λ v, 1 <= v <= 2000000) l ->
  1 <= Z.quot (fold_right Z.add 0 l) (Z.of_nat (length l)) <= 2000000.
Proof.
  intros Hne Hl. assert (Z.of_nat (length l) <= fold_right Z.add 0 l <= 2000000 * Z.of_nat (length l)).
  { clear Hne. induction Hl as [|v l Hv Hl IH]; cbn [fold_right length]; lia. }
  assert (0 < Z.of_nat (length l)) by (destruct l; [done|cbn; lia]).
  rewrite Z.quot_div_nonneg by lia.
  split; [apply Z.div_le_lower_bound; lia|apply Z.div_le_upper_bound; lia].
Qed.

Lemma item_average_some l v : Forall (λ v, 1 <= v <= 2000000) l -> exists s, item_average l v = Some s.
Proof.
  intros Hl. destruct l as [|a l]; [by eexists|]. pose proof (average_bounds (a :: l) ltac:(done) Hl) as Ha.
  unfold item_average. rewrite i32_small by lia. unfold percent. rewrite (proj2 (Z.eqb_neq _ 0)) by lia.
  cbn [mbind option_bind]. by eexists.
Qed.

(** The owner's dialog of a machine that has an item changes nothing. *)
Lemma get_vending_spec config x_ y_ b p :
  paid_prices -> machine_ok items b -> id b <> 0 -> in_table (fg b) -> settled p ->
  exists text es, get_vending items modify price_of config x_ y_ b p = Some (text, b, p, es).
Proof.
  intros Hpr Hok H0 Hfg Hp. destruct (name_of_block b Hfg) as (nm & Enm).
  destruct (ori_known (id b) (machine_item b Hok)) as (st & Est).
  destruct Hok as (Hc & Hw & Hp' & _ & Hid). destruct (Hid H0) as (Hs & H112 & _).
  unfold get_vending. rewrite Enm, Est. cbn [mbind option_bind].
  destruct (Z.eqb_spec (id b) 0); [done|].
  destruct (count_valid (id b) p Hp Hs H112) as (es & ->). cbn [mbind option_bind].
  destruct (item_average_some (price_of (id b)) (pr b) (Hpr (id b))) as (av & Eav).
  destruct (0 <? pr b); [rewrite Eav|]; cbn [mbind option_bind]; by eexists _, _.
Qed.

Lemma put_told_spec name text config x_ y_ b p ws : forall k,
  paid_prices -> machine_ok items b -> id b <> 0 -> in_table (fg b) -> settled p ->
  exists es, put_told items modify price_of name text config x_ y_ k ws b p = Some (b, p, es).
Proof.
  induction ws as [|w ws IH]; intros k Hpr Hok H0 Hfg Hp; cbn [put_told]; [by eexists|].
  destruct (get_vending_spec config x_ y_ b p) as (tx & e1 & ->); try done. cbn [mbind option_bind].
  destruct (IH (S k)) as (e2 & ->); try done. cbn [mbind option_bind]. by eexists.
Qed.

Lemma allowed_item item_id : existsb (Z.eqb item_id) restricted = false -> item_id ∉ locks.
Proof.
  unfold ShopFacts.locks, restricted. cbn. intros H. rewrite !not_elem_of_cons.
  split_and!; try lia. apply not_elem_of_nil.
Qed.

Lemma vend_put_kept config name who x_ y_ item_id b q :
  paid_prices -> machine_ok items b -> in_table (fg b) -> settled (bag q) -> held_in_table items (bag q) ->
  exists b' q' shown es,
    vend_put items modify price_of peers config name who x_ y_ item_id b q = Some (b', q', shown, es) /\
    kept b q b' q'.
Proof.
  intros Hpr Hok Hfg Hq Ht. unfold vend_put.
  destruct (Z.eqb_spec (id b) 0) as [E0|]; cbn [negb];
    [|eexists _, _, _, _; split; [done|by apply kept_refl]].
  destruct (count_any item_id (bag q) Hq Ht) as (n & e1 & -> & Hn). cbn [mbind option_bind].
  rewrite same_bag. destruct (Z.eqb_spec n 0) as [|Hn0]; [eexists _, _, _, _; split; [done|by apply kept_refl]|].
  destruct Hn as [|(-> & Hs & H112)]; [done|].
  unfold get_item. replace ((0 <=? item_id) && (item_id <? size items)) with true by lia.
  cbn [mbind option_bind]. destruct (name_of_block b Hfg) as (nm & ->). cbn [mbind option_bind].
  destruct (_ || _ || _) eqn:G; [eexists _, _, _, _; split; [done|by apply kept_refl]|].
  apply orb_false_iff in G as [[_ G]%orb_false_iff _]. apply allowed_item in G.
  destruct (take_all item_id (bag q) Hq Hs H112) as (r & -> & [(? & _)|(_ & Hr & Hm)]); [done|].
  cbn [mbind option_bind]. rewrite Hr. change (0 =? 0) with true. cbv iota.
  pose proof (settled_contains (bag q) item_id Hq ltac:(lia)) as Hrange.
  set (b' := set_machine (pr b) (wl b) item_id (contains item_id (inv (bag q))) b).
  assert (machine_ok items b') as Hok'.
  { destruct Hok as (_ & Hw & Hp' & _). unfold machine_ok, b'. cbn. split_and!; try lia. by intros _. }
  destruct (put_told_spec name (cat ["`7[``"; who; " put `2"; ori_name (item items item_id); "`` in the "; nm; ".`7]``"])
    config x_ y_ b' (pl_out r) peers 0) as (e2 & E2); try done; [cbn; lia|by eapply moved_settled|].
  cbn [bag Shop.set_bag] in *. rewrite E2. cbn [mbind option_bind].
  eexists _, _, _, _. split; [done|]. split; [|done].
  destruct (ShopFacts.delivered_worth item_id _ q _ G Hm) as [_ Hw].
  change (Shop.set_bag (pl_out r) (Shop.set_bag (pl_out r) q)) with (Shop.set_bag (pl_out r) q).
  split; [done|]. split; [by eapply moved_settled|]. split; [by rewrite Hw|].
  intros j Hj Hjl. unfold stock, b'. cbn [bag Shop.set_bag id c_ set_machine].
  destruct Hm as (_ & _ & _ & [Hx Ho] & _). destruct (Z.eqb_spec item_id j) as [<-|E].
  - rewrite (proj2 (Z.eqb_neq (id b) item_id)) by lia. lia.
  - rewrite Ho by auto. rewrite (proj2 (Z.eqb_neq (id b) j)) by lia. lia.
Qed.

(** ** Requests *)

Lemma sold_kept n cost b q q' :
  0 < n <= c_ b -> 1 <= cost -> id b <> 0 -> bought (id b) n cost q q' -> kept b q (sold n cost b) q'.
Proof.
  intros Hn Hcost H0 (Hs & Hx & Hw & Ho). unfold sold. split.
  - split; [by destruct (c_ b =? n)|]. split; [done|]. split; [destruct (c_ b =? n); cbn; lia|].
    intros j Hj Hjl. destruct (Z.eqb_spec (c_ b) n) as [<-|E]; unfold stock; cbn [id c_ set_machine].
    + rewrite (proj2 (Z.eqb_neq 0 j)) by lia. destruct (Z.eqb_spec (id b) j) as [<-|E]; [lia|].
      by rewrite Ho.
    + destruct (Z.eqb_spec (id b) j) as [<-|E']; [lia|]. by rewrite Ho.
  - intros (Hc & Hwl & Hp & _ & Hid). unfold machine_ok. destruct (Z.eqb_spec (c_ b) n); cbn;
      split_and!; try lia; done.
Qed.

Lemma vend_buy_kept confirmed name who x_ y_ expectprice expectitem buycount b q :
  machine_ok items b -> within b -> settled (bag q) -> banks_ok q -> in_i32 buycount ->
  exists b' q' es,
    buy confirmed name who x_ y_ expectprice expectitem buycount b q = Some (b', q', es) /\ kept b q b' q'.
Proof.
  intros Hok Hsm Hq Hb Hc.
  destruct (vend_buy_cases confirmed name who x_ y_ expectprice expectitem buycount b q Hok Hsm Hq Hb Hc)
    as [(es & -> & _)|(_ & Ha & H0 & q' & es & Hsale)].
  { eexists _, _, _. split; [done|by apply kept_refl]. }
  unfold acceptable in Ha. destruct (order (pr b) buycount) as [n cost].
  destruct Hsale as (_ & H1 & -> & Hbought). eexists _, _, _. split; [done|]. apply sold_kept; tauto.
Qed.

Lemma has_size n l : existsb (Nat.eqb n) l = true <-> n ∈ l.
Proof.
  rewrite existsb_exists. setoid_rewrite <- list_elem_of_In. setoid_rewrite Nat.eqb_eq.
  split; [by intros (x & Hx & ->)|by exists n].
Qed.

Lemma has_no_size n l : existsb (Nat.eqb n) l = false -> n ∉ l.
Proof. intros H Hn%has_size. congruence. Qed.

Lemma token_at (a_ : list string) k : (k < length a_)%nat -> exists v, a_ !! k = Some v.
Proof. intros H. destruct (lookup_lt_is_Some_2 a_ k H) as [v E]. by exists v. Qed.

(** A request as the client writes it: one of the sizes, the keyword among
    the first tokens, and a line feed at the end. *)
Definition proper (a_ : list string) (i_ : nat) : Prop :=
  length a_ ∈ [14; 13; 20; 17; 19; 23]%nat /\ (i_ <= 4)%nat /\ list.last a_ = Some "".

Lemma vend_change_kept cch a_ i_ name who x_ y_ b q :
  proper a_ i_ -> length a_ ∉ [19; 23]%nat -> paid_prices ->
  machine_ok items b -> within b -> in_table (fg b) ->
  settled (bag q) -> banks_ok q -> held_in_table items (bag q) ->
  exists b' q' es,
    vend_change items modify price_of to_float color peers cch a_ i_ false name who x_ y_ b q
      = Some (b', q', es) /\ kept b q b' q'.
Proof.
  intros (Hlen & Hi & Hlast) Hno Hpr Hok Hsm Hfg Hq Hb Ht. unfold vend_change.
  destruct (_ && _); [eexists _, _, _; split; [done|by apply kept_refl]|].
  destruct (existsb _ _) eqn:Esize.
  - destruct (edit_ok x_ y_ b q a_ (mkEdit b q false [])) as (e & -> & Hk); try done; [by apply priced_start|].
    cbn [mbind option_bind]. pose proof (proj2 Hk Hok) as Hok'.
    destruct (announce_some name who x_ y_ (eb e) (bag (epurse e)) Hok') as (news & En).
    destruct (update_ e); [rewrite En|]; cbn [mbind option_bind]; by eexists _, _, _.
  - destruct (token_at a_ (i_ + 8)) as (v & ->).
    { apply has_no_size in Esize. rewrite !elem_of_cons, !elem_of_nil in *. lia. }
    cbn [mbind option_bind].
    destruct (vend_put_kept false name who x_ y_ (atoi v) b q) as (b' & q' & shown & es & -> & Hk); try done.
    cbn [mbind option_bind]. by eexists _, _, _.
Qed.

Lemma vend_request_kept cch a_ i_ access name who x_ y_ b q :
  proper a_ i_ -> paid_prices -> machine_ok items b -> within b -> in_table (fg b) ->
  settled (bag q) -> banks_ok q -> held_in_table items (bag q) ->
  exists b' q' es,
    vend_request items modify price_of to_float color peers cch a_ i_ access false name who x_ y_ b q
      = Some (b', q', es) /\ kept b q b' q'.
Proof.
  intros Hpa Hpr Hok Hsm Hfg Hq Hb Ht. pose proof Hpa as (Hlen & Hi & Hlast).
  unfold vend_request. destruct (existsb _ _) eqn:Esize.
  - assert (length a_ = 19 \/ length a_ = 23)%nat as Hl
      by (apply has_size in Esize; rewrite !elem_of_cons, elem_of_nil in Esize; tauto).
    destruct (token_at a_ (i_ + 11)) as (v11 & ->); [lia|]. cbn [mbind option_bind].
    destruct (negb _); [eexists _, _, _; split; [done|by apply kept_refl]|].
    destruct (token_at a_ (i_ + 8)) as (v8 & ->); [lia|].
    destruct (token_at a_ (i_ + 14)) as (v14 & ->); [lia|]. cbn [mbind option_bind].
    destruct (Nat.eqb_spec (length a_) 23); [destruct (token_at a_ (i_ + 17)) as (v17 & ->); [lia|]|];
      cbn [mbind option_bind]; apply vend_buy_kept; try done; apply atoi_range.
  - destruct access; cbn [negb]; [|eexists _, _, _; split; [done|by apply kept_refl]].
    apply vend_change_kept; try done. by apply has_no_size.
Qed.

(** ** Worlds *)

(** A block that sells: of the kind of a vending machine, and not a buying
    machine (item 15230), whose fields are of the same kind but mean other
    things: its [c_] are locks, its [wl] items. *)
Definition sells (b : WorldBlock) : bool :=
  match get_item items (if fg b =? 0 then bg b else fg b) with
  | Some it => bool_decide (blockType it = VENDING) && negb (fg b =? 15230)
  | None => false
  end.

Definition world_stock (j : Z) (ws : list World) : Z :=
  total (λ w, total (λ b, if sells b then stock j b else 0) (blocks w)) ws.
Definition world_earned (ws : list World) : Z :=
  total (λ w, total (λ b, if sells b then wl b else 0) (blocks w)) ws.

(** Every tile of the world is a block of the vector, and every locked block
    knows its lock. *)
Definition world_shape (w : World) : Prop :=
  (forall x y, 0 <= x < max_x w -> 0 <= y < max_y w -> is_Some (block_at w (x + y * 100))) /\
  Forall (λ b, in_table (fg b) /\ in_table (bg b) /\ (sells b = true -> within b) /\
    (locked b = true -> is_Some (block_at w (lock_origin b)))) (blocks w).

Definition machines_ok (ws : list World) : Prop :=
  Forall (λ w, Forall (λ b, sells b = true -> machine_ok items b) (blocks w)) ws.

(** The block a request names. *)
Definition named (cch : string) (i_ : nat) (t : Trader) (ws : list World) : option WorldBlock :=
  v2 ← tokens cch !! (i_ + 2)%nat;
  v5 ← tokens cch !! (i_ + 5)%nat;
  '(_, w) ← list_find (λ w, name w = world t) ws;
  block_at w (atoi v2 + atoi v5 * 100).

(** All machines stay in order, and the items and the locks of the player and
    of all machines add up to what they were. *)
Definition balanced (ws : list World) (t : Trader) (ws' : list World) (t' : Trader) : Prop :=
  settled (bag (purse t')) /\ machines_ok ws' /\
  purse_worth (purse t') + world_earned ws' = purse_worth (purse t) + world_earned ws /\
  forall j, j <> 0 -> j ∉ locks ->
    contains j (inv (bag (purse t'))) + world_stock j ws'
      = contains j (inv (bag (purse t))) + world_stock j ws.

Lemma block_access_some cfg gs v w b vend a1 a2 a3 :
  (locked b = true -> is_Some (block_at w (lock_origin b))) ->
  exists r, block_access cfg gs v w b vend a1 a2 a3 = Some r.
Proof.
  intros H. unfold block_access. destruct (locked b).
  - destruct (H eq_refl) as [lock ->]. cbn [mbind option_bind]. repeat case_match; by eexists.
  - repeat case_match; by eexists.
Qed.

Lemma block_lookup w i b : block_at w i = Some b -> blocks w !! Z.to_nat i = Some b.
Proof. unfold block_at. by case_match. Qed.

(** The block is written back into its world. *)
Lemma balanced_write ws t n w i b b' q' :
  ws !! n = Some w -> block_at w i = Some b -> machines_ok ws -> sells b = true ->
  kept b (purse t) b' q' ->
  balanced ws t (<[n := set_block i b' w]> ws) (set_purse q' t).
Proof.
  intros Ew Eb%block_lookup Hms Hsell (([= Ef Eg] & Hs & Hw & Ho) & Hm).
  assert (sells b' = true) as Hsell' by (unfold sells in *; by rewrite Ef, Eg).
  pose proof (list_elem_of_lookup_2 _ _ _ Ew) as Hin. pose proof (list_elem_of_lookup_2 _ _ _ Eb) as Hbin.
  assert (Forall (λ b, sells b = true -> machine_ok items b) (blocks w)) as Hmw
    by (unfold machines_ok in Hms; rewrite list.Forall_forall in Hms; by apply Hms).
  split; [done|]. split; [|split].
  - apply list.Forall_insert; [done|]. cbn [blocks set_block]. apply list.Forall_insert; [done|].
    intros _. apply Hm. rewrite list.Forall_forall in Hmw. by apply Hmw.
  - unfold world_earned. rewrite (total_insert _ ws n w) by done. cbn [blocks set_block purse set_purse].
    rewrite (total_insert _ _ _ b) by done. rewrite Hsell, Hsell'. lia.
  - intros j Hj Hjl. unfold world_stock. rewrite (total_insert _ ws n w) by done.
    cbn [blocks set_block purse set_purse]. rewrite (total_insert _ _ _ b) by done.
    rewrite Hsell, Hsell'. specialize (Ho j Hj Hjl). lia.
Qed.

(** C2: Nothing is created or lost at a machine that sells. Let a player
    without config access, whose bag is settled — well formed, infinite mode
    and the automatic conversions and sales switched off, items of the table
    only — and whose banks hold at most 2147483000 each, send a request with
    one of the handler's numbers of lines, its keyword among the first five
    and a line feed at the end, that does not name a buying machine (item
    15230). If every tile of a world has its block and every locked block its
    lock, the stock and the earnings of each selling machine are at most
    1000000000, its price at most 2000000 locks or items, what it holds may be
    sold, and the prices paid before lie between 1 and 2000000, then the
    handler returns — for a purchase at any price and count, a change of the
    price, adding or pulling stock, withdrawing the earnings, putting any item
    in — and the items in the bag and in all selling machines together are
    as many as before, the locks of bag, banks and earnings are worth as
    much, and the selling machines of all worlds stay in order. Of a buying
    machine the same is false: the handler reads its stock of locks as so
    many items. *)
Theorem vending_conserves cfg gs cch i_ t ws :
  proper (tokens cch) i_ -> paid_prices -> has_config_access (Role (visitor t)) = false ->
  Forall world_shape ws -> machines_ok ws ->
  settled (bag (purse t)) -> banks_ok (purse t) -> held_in_table items (bag (purse t)) ->
  (forall b, named cch i_ t ws = Some b -> fg b <> 15230) ->
  exists ws' t' es,
    vending items modify price_of to_float color peers cfg gs cch i_ t ws = Some (ws', t', es) /\
    balanced ws t ws' t'.
Proof.
  intros Hpa Hpr Hcfg Hws Hms Hq Hb Ht Hname. unfold named in Hname.
  pose proof Hpa as (Hlen & Hi & _). unfold vending.
  assert (forall es : list effect, exists ws' t' es', Some (ws, t, es) = Some (ws', t', es') /\
    balanced ws t ws' t')
    as Hstay by (intros es; by exists ws, t, es).
  destruct (negb (existsb _ _)); [apply Hstay|].
  assert (exists k, length (tokens cch) = k /\ (13 <= k)%nat) as (k & Hk & Hk13).
  { eexists. split; [done|]. rewrite !elem_of_cons, elem_of_nil in Hlen. lia. }
  destruct (token_at (tokens cch) (i_ + 2)) as (v2 & Ev2); [lia|]. rewrite Ev2 in *. cbn [mbind option_bind] in *.
  destruct (negb _); [apply Hstay|].
  destruct (token_at (tokens cch) (i_ + 5)) as (v5 & Ev5); [lia|]. rewrite Ev5 in *. cbn [mbind option_bind] in *.
  destruct (negb _); [apply Hstay|].
  destruct (token_at (tokens cch) (i_ + 8)) as (v8 & ->); [lia|].
  assert (forall v : bool, exists x, (if v then Some v8 ≫= λ v8, Some (negb (starts_digit v8)) else Some false)
    = Some x) as Hbad by (intros []; by eexists).
  destruct (Hbad (length (tokens cch) =? 13)%nat) as (x & ->). cbn [mbind option_bind].
  destruct x; [apply Hstay|]. destruct ((atoi v2 <? 0) || (atoi v5 <? 0)) eqn:Eneg; [apply Hstay|].
  destruct (list_find _ ws) as [[n w]|] eqn:Ew; [|apply Hstay].
  apply list_find_Some in Ew as (Ew & _ & _).
  destruct ((max_y w <=? atoi v5) || (max_x w <=? atoi v2)) eqn:Emax; [apply Hstay|].
  assert (world_shape w) as [Hcover Hshape] by (rewrite list.Forall_forall in Hws; by eapply Hws, list_elem_of_lookup_2).
  assert (Forall (λ b, sells b = true -> machine_ok items b) (blocks w)) as Hmw
    by (unfold machines_ok in Hms; rewrite list.Forall_forall in Hms; by eapply Hms, list_elem_of_lookup_2).
  destruct (Hcover (atoi v2) (atoi v5) ltac:(lia) ltac:(lia)) as [b Eb]. rewrite Eb in *. cbn [mbind option_bind] in *.
  specialize (Hname b Eb). pose proof (block_lookup w _ b Eb) as El.
  rewrite list.Forall_lookup in Hshape, Hmw. destruct (Hshape _ b El) as (Hfg & Hbg & Hsm & Hlock).
  pose proof (Hmw _ b El) as Hmb.
  assert (sells b = match get_item items (if fg b =? 0 then bg b else fg b) with
    | Some it => bool_decide (blockType it = VENDING) && negb (fg b =? 15230) | None => false end)
    as Hsell by done.
  unfold get_item in *. replace ((0 <=? (if fg b =? 0 then bg b else fg b)) &&
    ((if fg b =? 0 then bg b else fg b) <? size items)) with true
    in * by (clear Hsell; unfold in_table in *; case_match; lia). cbn [mbind option_bind] in *.
  destruct (bool_decide _); cbn [negb] in *; [|apply Hstay].
  rewrite (proj2 (Z.eqb_neq _ _) Hname) in Hsell. cbn [negb andb] in Hsell.
  destruct (block_access_some cfg gs (visitor t) w b true false false false Hlock) as (acc & ->).
  cbn [mbind option_bind]. destruct (_ && negb acc); [apply Hstay|]. rewrite Hcfg.
  destruct (vend_request_kept cch (tokens cch) i_ acc (name w) (name_of (visitor t)) (atoi v2) (atoi v5)
    b (purse t)) as (b' & q' & es & -> & Hkept); auto. cbn [mbind option_bind].
  eexists _, _, _. split; [done|]. by eapply balanced_write.
Qed.

(** C21: A confirmed purchase is exact. If the price and the item are still
    those the buyer saw, the machine has the items, the buyer can pay and
    carry them, the buyer gets exactly [n] items for exactly [cost] locks —
    [pr] locks each, or one lock for every [- pr] items — the machine has [n]
    less and earned [cost], and an empty machine forgets its item and price.
    Any other purchase changes neither the machine nor the player. Assumed:
    a settled bag, a machine in order, and banks and earnings far from the
    end of their range. *)
Theorem vend_buy_exact name who x_ y_ expectprice expectitem buycount b q :
  machine_ok items b -> within b -> settled (bag q) -> banks_ok q -> in_i32 buycount ->
  let '(n, cost) := order (pr b) buycount in
  let result := vend_buy items modify to_float color peers true name who x_ y_ expectprice expectitem buycount b q in
  (acceptable expectprice expectitem buycount b q ->
   fair_price (pr b) n cost /\
   exists q' es, result = Some (sold n cost b, q', es) /\ bought (id b) n cost q q') /\
  (~ acceptable expectprice expectitem buycount b q -> exists es, result = Some (b, q, es)).
Proof.
  intros Hok Hsm Hq Hb Hc.
  destruct (vend_buy_cases true name who x_ y_ expectprice expectitem buycount b q Hok Hsm Hq Hb Hc)
    as [(es & -> & Hn)|(_ & Ha & _ & q' & es & Hsale)].
  - destruct (order (pr b) buycount) as [n cost]. cbv zeta. split; [intros Ha; by destruct (Hn eq_refl)|].
    intros _. by eexists.
  - destruct (order (pr b) buycount) as [n cost]. cbv zeta. destruct Hsale as (Hf & _ & E & Hbought).
    split; [|done]. intros _. split; [done|]. by exists q', es.
Qed.

End Facts.

(** ** At work *)

Definition vending_item : ItemDB := mkItem "Vending Machine" "Vending Machine" VENDING HAIR 256 "" "" "" false 0.
Definition shop_items : table := take 2978 sample_items ++ vending_item :: drop 2979 sample_items.

Lemma shop_items_size : size shop_items = 20300.
Proof. vm_compute. reflexivity. Qed.

Lemma shop_locks : locks_in_table shop_items.
Proof.
  unfold locks_in_table, lock_ids. rewrite shop_items_size.
  repeat (constructor; [split; [lia|vm_compute; discriminate]|]). constructor.
Qed.

(** Ann's machine sells 10 dirt a lock. *)
Definition dirt_machine : WorldBlock := mkBlock 2978 0 false (-1) "" [] false (-10) 300 2 50.
Definition market : World := mkWorld "MARKET" "Ann" [] 0 0 1 1 0 false [dirt_machine] [].
Definition dirt_buyer : Player := sample_player [(242, 5); (2, 100); (0, 0); (0, 0); (0, 0)] 0 false.
Definition buyer_purse : Purse := mkPurse dirt_buyer 0 0 0.
Definition buyer_trader : Trader :=
  mkTrader (Access.visitor "Bob" plain_roles) buyer_purse 0 0 "MARKET".

Definition dirt_request : string := cat [
  "action|dialog_return"; endl; "dialog_name|vending"; endl; "tilex|0|"; endl; "tiley|0|"; endl;
  "verify|1|"; endl; "buycount|25|"; endl; "expectprice|-10|"; endl; "expectitem|2|"; endl].

Lemma dirt_buyer_settled : settled dirt_buyer.
Proof.
  split; [by repeat split; try (right; reflexivity); try (left; reflexivity)|].
  split; [repeat constructor; unfold slot_ok; simpl; lia|simpl; tauto].
Qed.

Lemma dirt_machine_ok : machine_ok shop_items dirt_machine.
Proof.
  unfold machine_ok, sellable, ShopFacts.locks. rewrite shop_items_size. cbn. split_and!; try lia; try done.
  intros _. split_and!; try lia. rewrite !elem_of_cons, elem_of_nil. lia.
Qed.

Lemma dirt_buyer_held : held_in_table shop_items dirt_buyer.
Proof.
  intros j. rewrite shop_items_size. change (inv dirt_buyer) with [(242, 5); (2, 100); (0, 0); (0, 0); (0, 0)].
  intros H. destruct (Z.eq_dec j 242), (Z.eq_dec j 2), (Z.eq_dec j 0); subst; try lia; [done|].
  exfalso. apply H. unfold contains. by rewrite !(proj2 (Z.eqb_neq _ _)) by lia.
Qed.

Lemma vending_conserves_witness :
  exists ws' t' es,
    vending shop_items (Modify shop_items [] true "" "" 2) (λ _, [3]) (λ z, z) "" ["MARKET"; "START"]
      no_config [] dirt_request 3 buyer_trader [market] = Some (ws', t', es) /\
    balanced shop_items [market] buyer_trader ws' t'.
Proof.
  apply (vending_conserves shop_items [] true "" "" 1 (λ _, [3]) (λ z, z) "" ["MARKET"; "START"] shop_locks
    no_config [] dirt_request 3 buyer_trader [market]).
  - split; [vm_compute; repeat constructor|]. split; [lia|reflexivity].
  - intros j. constructor; [lia|constructor].
  - reflexivity.
  - constructor; [|constructor]. split.
    + intros x y Hx Hy. cbn in Hx, Hy. replace (x + y * 100) with 0 by lia. by eexists.
    + constructor; [|constructor]. unfold in_table, within. rewrite shop_items_size. cbn.
      split_and!; try lia; discriminate.
  - constructor; [constructor; [intros _; exact dirt_machine_ok|constructor]|constructor].
  - exact dirt_buyer_settled.
  - unfold banks_ok. cbn. lia.
  - exact dirt_buyer_held.
  - intros b H. vm_compute in H. injection H as <-. discriminate.
Defined.

Lemma vend_buy_exact_witness :
  acceptable (-10) 2 25 dirt_machine buyer_purse /\
  let result := vend_buy shop_items (Modify shop_items [] true "" "" 2) (λ z, z) "" ["MARKET"] true "MARKET"
                  "Bob" 0 0 (-10) 2 25 dirt_machine buyer_purse in
  (acceptable (-10) 2 25 dirt_machine buyer_purse ->
   fair_price (-10) 20 2 /\
   exists q' es, result = Some (sold 20 2 dirt_machine, q', es) /\ bought 2 20 2 buyer_purse q') /\
  (~ acceptable (-10) 2 25 dirt_machine buyer_purse -> exists es, result = Some (dirt_machine, buyer_purse, es)).
Proof.
  split.
  { change (-10 = -10 /\ 2 = 2 /\ 0 < 25 /\ -10 <> 0 /\ 0 < 20 <= 50 /\ (-10 < 0 -> - -10 <= 25) /\ 2 <= 5 /\
      100 + 20 <= 200 /\ 2 < 3). lia. }
  apply (vend_buy_exact shop_items [] true "" "" 1 (λ z, z) "" ["MARKET"] shop_locks "MARKET" "Bob"
    0 0 (-10) 2 25 dirt_machine buyer_purse).
  - exact dirt_machine_ok.
  - unfold within. cbn. lia.
  - exact dirt_buyer_settled.
  - unfold banks_ok. cbn. lia.
  - unfold in_i32. lia.
Defined.

Example dirt_sold :
  (λ r, (let '(ws, t, _) := r in
    (map (λ w, map (λ b, (id b, c_ b, pr b, wl b)) (blocks w)) ws, inv (bag (purse t))))) <$>
  vending shop_items (Modify shop_items [] true "" "" 2) (λ _, [3]) (λ z, z) "" ["MARKET"; "START"]
    no_config [] dirt_request 3 buyer_trader [market]
  = Some ([[(2, 30, -10, 302)]], [(242, 3); (2, 120); (0, 0); (0, 0); (0, 0)]).
Proof. vm_compute. reflexivity. Qed.

End VendingFacts.
