(* ===== verification/BuyingMachine.v ===== *)
(** * BuyingMachine: machines that buy items for world locks

    Models the dialogs [buyingmachine] and [ConfirmBuyingMachine]
    ([BuyingMachine] and [ConfirmBuyingMachine] of
    [src/NopySource/Dialog/dialog_return.h]) with [BuyingMachineDialog] and
    [VisualHandle::Vending] of [src/NopySource/Handle/WorldInfo.h].  The block
    of a buying machine (item 15230) uses the fields of a vending machine in
    its own way: [c_] is its stock of world locks, [wl] the number of items
    [id] it bought, [pr] the locks it pays for one. *)
From S2P Require Import Prelude Memory Items Packet Tank World Inventory.
From S2P Require Import Scanner Texts Messages Wallet Shop Access Vending.
Import Items World Inventory Wallet Access Vending.

Module BuyingMachine.

Inductive effect :=
| EVending (e : Vending.effect)
| EDialogIn (delay : Z) (text : string)   (* [OnDialogRequest] with a delay *)
| EDropNear (item count : Z).             (* [VisualHandle::Drop] at a random place near the player *)

Definition said (es : list Vending.effect) : list effect := EVending <$> es.

Section BuyingMachine.
Context (items : table) (modify : modify_fn) (to_float : Z -> Z) (color : string) (peers : list string).

Definition kind : Z := 15230.

(** ** The dialog *)

(** The items whose name has the text in it; an item's [id] is its place in
    the table. *)
Fixpoint found (search : string) (i : Z) (l : list ItemDB) : string :=
  match l with
  | [] => ""
  | it :: l =>
      (if negb (String.eqb (Items.name it) "n") && negb (untradeable it) &&
          str_contains (to_lower search) (to_lower (Items.name it))
       then cat [endl; "add_button_with_icon|choose_"; to_string i; "|"; Items.name it; "|frame|";
         to_string i; "||"]
       else "") +:+ found search (i + 1) l
  end.

Definition search_buttons (search : string) : string :=
  if is_empty search then ""
  else cat [endl; "text_scaling_string|Subscription++++++++|"; found search 0 items; endl;
    "add_button_with_icon||END_LIST|noflags|0||"].

Definition BuyingMachineDialog (who owner : string) (x_ y_ : Z) (search : string) (b : WorldBlock) (q : Purse)
    : option (Purse * list effect) :=
  let btn := search_buttons search in
  machine ← item_name items (fg b);
  goods ← item_name items (id b);
  let dialog := cat [color; endl; "add_label_with_icon|big|"; machine; "|left|"; to_string (fg b);
    "|";
    (if negb (id b =? 0)
     then cat [endl; "add_label_with_icon|small|This machine contains "; to_string (c_ b);
       " `9World Locks``|left|242|"; endl; "add_label_with_icon|small|This machine contains ";
       to_string (wl b); " `2"; goods; "``|left|"; to_string (id b); "|"]
     else cat [endl; "add_textbox|This machine have not yet selected an item to buy.|left|"]);
    endl; "embed_data|tilex|"; to_string x_; endl; "embed_data|tiley|"; to_string y_] in
  if String.eqb owner who then
    '(n, q, es) ← get_wls modify true false 0 q;
    let dialog := cat [dialog;
      endl; "add_text_input|stockwls|How Many World Lock To Add:|0|5|"; endl;
        "add_smalltext|(Current Stock:"; to_string (c_ b); ". You have "; to_string n;
        ")<CR>|left|"; endl; "add_button|addstock|Add Stock|left|";
      (if id b =? 0
       then cat [endl; "add_spacer|small|"; endl; "add_text_input|search|Search Item To Buy:|";
         search; "|32|"; btn; endl; "add_button|confirm_search|Search|left|"]
       else cat [endl; "add_button|reset|Reset Item To Buy|left|"; endl;
         "add_smalltext|`5(Buying Machine will not function when buying price is set to 0)``|left|";
         endl; "add_text_input|pricewls|Price:|"; to_string (pr b); "|6|"]);
      (if negb (wl b =? 0)
       then cat [endl; "add_spacer|small|"; endl; "add_button|withdraw|Withdraw `2";
         to_string (wl b); " "; goods; "``|left|"]
       else "");
      (if negb (c_ b =? 0)
       then cat [endl; "add_button|takewls|Take `9"; to_string (c_ b); " World Lock``|left|"]
       else "");
      endl; "add_quick_exit|"; endl; "end_dialog|buyingmachine|Cancel|";
        (if negb (id b =? 0) then "Update" else "")] in
    Some (q, said (moves es) ++ [EDialogIn 500 dialog])
  else
    Some (q, [EDialogIn 500 (cat [dialog;
      (if (pr b <=? c_ b) && negb (id b =? 0)
       then cat [endl; "add_spacer|small|"; endl; "add_textbox|For a cost of:|left|"; endl;
         "add_label_with_icon|small|`21 "; goods; "|left|"; to_string (id b); "|"; endl;
         "add_textbox|`2You'll get:``|left|"; endl; "add_label_with_icon|small|`w";
         to_string (pr b); " `9World Locks|left|242|"; endl; "add_spacer|small|"; endl;
         "add_text_input|counttobuy|Amount:|0|4|"]
       else cat [endl; "add_textbox|This machine is currently disabled.|left|"]);
      endl; "add_quick_exit|"; endl; "end_dialog|buyingmachine|Cancel|";
        (if negb (id b =? 0) then "Purchase" else ""); "|"])]).

(** [VisualHandle::Vending] *)
Definition Visual_Vending (name who : string) (x_ y_ : Z) (b : WorldBlock) (p : Player)
    : option (list effect) :=
  text ←
    (if pr b =? 0 then Some (cat ["`7[``"; who; " disabled the Buying Machine.```7]``"])
     else
       stock ← ori items (id b);
       Some (cat ["`7[``"; who; " changed the price of `2"; stock; "`` to ";
         if pr b <? 0 then cat ["`6"; to_string (i32 (pr b * -1)); " per World Lock.```7]``"]
         else cat ["`5"; to_string (pr b); " World Locks each.```7]``"]]));
  let raw := Tank.packPlayerMoving
    (Tank.mkMoving 44 0 17 0 0 0 0 0 (to_float (x_ * 32 + 16)) (to_float (y_ * 32 + 16)) 0
       (to_float 44) 0 0) 56 0 in
  Some (said (to_world peers name (λ k,
    (ETo k <$> Messages.Log (cat ["action|play_sfx"; endl; "file|audio/terraform.wav"; endl;
      "delayMS|0"]) "" "google.com") ++
    (ETo k <$> Messages.OnConsoleMessage text false 0) ++
    (ETo k <$> Messages.OnTalkBubble (netID p) text 0 false 0 false) ++
    [ETo k (Messages.ERaw raw 0)]))).

(** ** The owner's buttons *)

(** What a button leaves, and whether the handler returns at once ([None]) or
    the world is told of the price ([Some true]) before the look of the block
    is sent. *)
Record Pressed := mkPressed { block : WorldBlock; pocket : Purse; goes_on : option bool; shown : list effect }.

Definition denominations (count : Z) : Z * Z * Z :=
  let bgl := Z.quot count 10000 in
  let count := Z.rem count 10000 in
  (bgl, Z.quot count 100, Z.rem count 100).

(** The stack of [lock] pays [n]; the result of [Modify] is not looked at. *)
Definition pay_stock (lock n : Z) (p : Player) : option (Player * list Inventory.effect) :=
  if 0 <? n then r ← modify lock (- n) true false p; Some (pl_out r, effs r) else Some (p, []).

Definition addstock (count : Z) (b : WorldBlock) (q : Purse) : option Pressed :=
  let '(bgl, dl, wl_) := denominations count in
  let p := bag q in
  let refuse text := Some (mkPressed b q None (said (console text))) in
  if (0 <? bgl) && (Contains p 7188 <? bgl) then refuse "`4You don't have enough bgl!" else
  if (0 <? dl) && (Contains p 1796 <? dl) then refuse "`4You don't have enough DL!" else
  if (0 <? wl_) && (Contains p 242 <? wl_) then refuse "`4You don't have enough WL!" else
  '(p, e1) ← pay_stock 7188 bgl p;
  '(p, e2) ← pay_stock 1796 dl p;
  '(p, e3) ← pay_stock 242 wl_ p;
  let part (n : Z) (what : string) := if n =? 0 then "" else cat [" `w"; to_string n; what] in
  Some (mkPressed (set_c_ (i32 (c_ b + (bgl * 10000 + dl * 100 + wl_))) b) (Shop.set_bag p q) (Some true)
    (said (moves (e1 ++ e2 ++ e3)) ++
     said (console (cat ["`2Added``"; part bgl " bgl"; part dl " DL"; part wl_ " WL"; "`o."])))).

Definition choose (item_id : Z) (who owner : string) (x_ y_ : Z) (b : WorldBlock) (q : Purse)
    : option Pressed :=
  if negb (id b =? 0) then Some (mkPressed b q None []) else
  let b := set_machine (pr b) (wl b) item_id (c_ b) b in
  '(q, es) ← BuyingMachineDialog who owner x_ y_ "" b q;
  Some (mkPressed b q (Some true) es).

Definition take_goods (b : WorldBlock) (q : Purse) : option Pressed :=
  if (id b =? 0) || (wl b <=? 0) then Some (mkPressed b q None []) else
  let p := bag q in
  let receive := 200 - Contains p (id b) in
  let receive := if wl b <? receive then wl b else receive in
  r ← modify (id b) receive true false p;
  let q := Shop.set_bag (pl_out r) q in
  if ret r =? 0 then
    goods ← item_name items (id b);
    Some (mkPressed (set_wl (i32 (wl b - receive)) b) q (Some false)
      (said (moves (effs r)) ++
       said (console (cat ["Withdrawn "; to_string receive; " "; goods; "."])) ++
       said (bubble (pl_out r) (cat ["Withdrawn "; to_string receive; " "; goods]) false)))
  else Some (mkPressed b q (Some false) (said (moves (effs r)))).

(** A denomination goes to the bag, or else to the ground. *)
Definition take_lock (lock n : Z) (p : Player) : option (Player * list effect) :=
  if n =? 0 then Some (p, [])
  else
    r ← modify lock n true false p;
    Some (pl_out r, said (moves (effs r)) ++ (if ret r =? 0 then [] else [EDropNear lock n])).

Definition takewls (b : WorldBlock) (q : Purse) : option Pressed :=
  let '(bgl, dl, wl_) := denominations (c_ b) in
  let bgl := if 200 <=? bgl then 200 else bgl in
  '(p, e1) ← take_lock 7188 bgl (bag q);
  '(p, e2) ← take_lock 1796 dl p;
  '(p, e3) ← take_lock 242 wl_ p;
  let part (n : Z) (what : string) := if n =? 0 then "" else cat [" "; to_string n; what] in
  let text := cat ["Took"; part bgl "Silver Gem Lock"; part dl " Diamond Lock";
    part wl_ " World Lock"] in
  Some (mkPressed (set_c_ 0 b) (Shop.set_bag p q) (Some false)
    (e1 ++ e2 ++ e3 ++ said (console text) ++ said (bubble p text false))).

Definition press (btn : string) (parser : Scanner.TextScanner) (who owner : string) (x_ y_ : Z)
    (b : WorldBlock) (q : Purse) : option Pressed :=
  if String.eqb btn "reset" then Some (mkPressed (set_machine (pr b) (wl b) 0 (c_ b) b) q (Some true) [])
  else if String.eqb btn "addstock" then
    v ← Scanner.get_value parser "stockwls"; addstock (atoi v) b q
  else if String.eqb btn "confirm_search" then
    search ← Scanner.get_value parser "search";
    '(q, es) ← BuyingMachineDialog who owner x_ y_ search b q; Some (mkPressed b q None es)
  else if String.eqb (take_str 7 btn) "choose_" then
    choose (atoi (drop_str 7 btn)) who owner x_ y_ b q
  else if String.eqb btn "withdraw" then take_goods b q
  else if String.eqb btn "takewls" then takewls b q
  else Some (mkPressed b q (Some false) []).

(** ** The dialogs *)

Definition sell_confirmation (x_ y_ toSell : Z) (b : WorldBlock) (goods : string) : effect :=
  EVending (EDialog (cat [color; endl;
    "add_label_with_icon|big|`wPurchase Confirmation``|left|1366|"; endl; "add_spacer|small|"; endl;
    "add_textbox|`oFor a cost of:``|"; endl; "add_label_with_icon|small|`w"; to_string toSell;
    "x `2"; goods; "|left|"; to_string (id b); "|"; endl; "add_spacer|small|"; endl;
    "add_textbox|`2You'll get:``|"; endl; "add_label_with_icon|small|`w";
    to_string (i32 (pr b * toSell)); "x `9World Locks|left|242|"; endl; "embed_data|x_tile|";
    to_string x_; endl; "embed_data|y_tile|"; to_string y_; endl; "embed_data|count|";
    to_string toSell; endl; "add_spacer|small|"; endl;
    "add_textbox|Are you sure you want to make this purchase?|left|"; endl; "add_quick_exit|"; endl;
    "end_dialog|ConfirmBuyingMachine|Nevermind|Confirm"])).

(** The request about a block that is a buying machine. *)
Definition on_machine (parser : Scanner.TextScanner) (name who owner : string) (x_ y_ : Z)
    (b : WorldBlock) (q : Purse) : option (WorldBlock * Purse * list effect) :=
  '(pressed, btn) ← Scanner.try_get parser "buttonClicked" "";
  if (pressed : bool) then
    if negb (String.eqb owner who) then Some (b, q, []) else
    r ← press btn parser who owner x_ y_ b q;
    match goes_on r with
    | None => Some (block r, pocket r, shown r)
    | Some upd =>
        news ← (if (upd : bool) then Visual_Vending name who x_ y_ (block r) (bag (pocket r)) else Some []);
        Some (block r, pocket r, shown r ++ news ++ said (tile_update peers name x_ y_ (block r)))
    end
  else if String.eqb owner who then
    v ← Scanner.get_value parser "pricewls";
    let pricewls := atoi v in
    let pricewls := if pricewls <=? 0 then i32 (pricewls * -1) else pricewls in
    let b := set_pr pricewls b in
    news ← Visual_Vending name who x_ y_ b (bag q);
    Some (b, q, news ++ said (tile_update peers name x_ y_ b))
  else
    v ← Scanner.get_value parser "counttobuy";
    let toSell := atoi v in
    if Contains (bag q) (id b) <? toSell then Some (b, q, [])
    else goods ← item_name items (id b); Some (b, q, [sell_confirmation x_ y_ toSell b goods]).

Definition far (x_ y_ : Z) (t : Trader) : bool :=
  (15 <? Z.abs (x_ * 32 - px t)) || (15 <? Z.abs (y_ * 32 - py t)).

(** The block the request names, when it is a buying machine. *)
Definition on_block (x_ y_ : Z) (t : Trader) (ws : list World)
    (f : World -> WorldBlock -> option (WorldBlock * Purse * list effect))
    : option (list World * Trader * list effect) :=
  match list_find (λ w, name w = world t) ws with
  | None => Some (ws, t, [])
  | Some (k, w) =>
      b ← block_at w (x_ + y_ * 100);
      if negb (fg b =? kind) then Some (ws, t, []) else
      '(b, q, es) ← f w b;
      Some (<[k := set_block (x_ + y_ * 100) b w]> ws, set_purse q t, es)
  end.

Definition BuyingMachine (cch : string) (t : Trader) (ws : list World)
    : option (list World * Trader * list effect) :=
  let parser := Scanner.parse cch in
  x_ ← atoi <$> Texts.get_embed cch "tilex";
  y_ ← atoi <$> Texts.get_embed cch "tiley";
  if far x_ y_ t then Some (ws, t, said (bubble (bag (purse t)) "Get closer!" false)) else
  on_block x_ y_ t ws (λ w b,
    on_machine parser (name w) (name_of (visitor t)) (owner_name w) x_ y_ b (purse t)).

(** A denomination of the payment goes to the bag, or else to the bank. *)
Definition pay_lock (lock n bank : Z) (back : bool) (p : Player)
    : option (Z * bool * Player * list Inventory.effect) :=
  if n =? 0 then Some (bank, back, p, [])
  else
    r ← modify lock n true false p;
    if ret r =? 0 then Some (bank, back, pl_out r, effs r)
    else Some (i32 (bank + n), true, pl_out r, effs r).

(** [amount] items for [pr] locks each. *)
Definition sell (name who : string) (x_ y_ amount : Z) (b : WorldBlock) (q : Purse)
    : option (WorldBlock * Purse * list effect) :=
  let price := i32 (pr b * amount) in
  if price <? 1 then Some (b, q, []) else
  let '(bgl, dl, wl_) := denominations price in
  r ← modify (id b) (- amount) true false (bag q);
  if ret r =? 0 then
    '(bgls, back, p, e1) ← pay_lock 7188 bgl (bgl_bank_amount q) false (pl_out r);
    '(dls, back, p, e2) ← pay_lock 1796 dl (dl_bank_amount q) back p;
    '(wls, back, p, e3) ← pay_lock 242 wl_ (wl_bank_amount q) back p;
    let raw := item_flight to_float x_ y_ (id b) p in
    let b := set_wl (i32 (wl b + amount)) b in
    let b := if c_ b <? pr b then set_machine 0 (wl b) 0 (c_ b) b else b in
    n7188 ← item_name items 7188; n1796 ← item_name items 1796; n242 ← item_name items 242;
    let text := cat ["`9"; who; " bought ";
      (if bgl =? 0 then "" else cat [to_string bgl; " "; n7188; ", "]); " ";
      (if dl =? 0 then "" else cat [to_string dl; " "; n1796; ", "]);
      (if wl_ =? 0 then "" else cat [to_string wl_; " "; n242]); "."] in
    Some (b, mkPurse p wls dls bgls,
      said (moves (effs r ++ e1 ++ e2 ++ e3 ++ returned_messages back)) ++
      said (to_world peers name (λ k,
        (ETo k <$> Messages.OnConsoleMessage text false 0) ++ [ETo k (Messages.ERaw raw 0)])) ++
      said (tile_update peers name x_ y_ b))
  else Some (b, Shop.set_bag (pl_out r) q, said (moves (effs r))).

Definition ConfirmBuyingMachine (cch : string) (t : Trader) (ws : list World)
    : option (list World * Trader * list effect) :=
  x_ ← atoi <$> Texts.get_embed cch "x_tile";
  y_ ← atoi <$> Texts.get_embed cch "y_tile";
  amount ← atoi <$> Texts.get_embed cch "count";
  if far x_ y_ t then Some (ws, t, said (bubble (bag (purse t)) "Get closer!" false)) else
  if (200 <? amount) || (amount <=? 0) then Some (ws, t, []) else
  on_block x_ y_ t ws (λ w b, sell (name w) (name_of (visitor t)) x_ y_ amount b (purse t)).

End BuyingMachine.

End BuyingMachine.
