(* ===== verification/BuyingFacts.v ===== *)
(** * BuyingFacts: what a buying machine pays, and out of what

    A sale to a buying machine pays the seller exactly, but not from the
    machine's stock of locks; and the machine's stock and its goods turn into
    items of any kind. *)
From S2P Require Import Prelude Items Inventory InventoryFacts InventoryBag World Guild Scanner.
From S2P Require Import Texts Wallet Shop ShopFacts Access Vending VendingFacts BuyingMachine.
Import Items World Inventory InventoryFacts InventoryBag Wallet Access Vending VendingFacts BuyingMachine.

Module BuyingFacts.

(** The banks are far from an overflow. *)
Definition small_banks (q : Purse) : Prop :=
  0 <= wl_bank_amount q <= 2000000000 /\ 0 <= dl_bank_amount q <= 2000000000 /\
  0 <= bgl_bank_amount q <= 2000000000.

Lemma denominations_sum n bgl dl wls :
  0 <= n < 2 ^ 31 -> denominations n = (bgl, dl, wls) ->
  n = bgl * 10000 + dl * 100 + wls /\ 0 <= bgl < 214749 /\ 0 <= dl < 100 /\ 0 <= wls < 100.
Proof.
  unfold denominations. intros Hn [= <- <- <-].
  rewrite (Z.rem_mod_nonneg n) by lia. pose proof (Z.mod_pos_bound n 10000 ltac:(lia)).
  rewrite (Z.quot_div_nonneg n), (Z.quot_div_nonneg (n mod 10000)), (Z.rem_mod_nonneg (n mod 10000)) by lia.
  pose proof (Z.div_mod n 10000 ltac:(lia)). pose proof (Z.div_mod (n mod 10000) 100 ltac:(lia)).
  pose proof (Z.mod_pos_bound (n mod 10000) 100 ltac:(lia)). lia.
Qed.

Section Facts.
Context (items : table) (prices : list (Z * Z)) (wf : bool) (g1 g2 : string) (fuel : nat).
Context (to_float : Z -> Z) (color : string) (peers : list string).
Hypothesis Hlocks : locks_in_table items.

Local Abbreviation modify := (Modify items prices wf g1 g2 (S fuel)).

Lemma name_found i : 0 <= i < size items -> exists n, item_name items i = Some n.
Proof.
  intros H. unfold item_name, get_item. replace ((0 <=? i) && (i <? size items)) with true by lia. by eexists.
Qed.

(** The three locks of a price, as members of [lock_ids]. *)
Lemma three_locks : 242 ∈ lock_ids /\ 1796 ∈ lock_ids /\ 7188 ∈ lock_ids.
Proof. unfold lock_ids. rewrite !elem_of_cons. tauto. Qed.

(** ** A sale to the machine *)

Lemma pay_lock_spec lock n bank back p :
  lock ∈ lock_ids -> settled p -> 0 <= n < 214749 -> 0 <= bank <= 2000000000 ->
  exists bank' back' p' es,
    pay_lock modify lock n bank back p = Some (bank', back', p', es) /\ others lock p p' /\
    contains lock (inv p') + bank' = contains lock (inv p) + bank + n.
Proof.
  intros Hid Hp Hn Hb. destruct (lock_valid items Hlocks lock Hid) as [Hs H112]. unfold pay_lock.
  destruct (Z.eqb_spec n 0) as [->|E]; [eexists _, _, _, _; split; [done|]; split; [by split|lia]|].
  destruct (Z.ltb_spec 200 n).
  { rewrite modify_too_many by done. cbn [mbind option_bind ret pl_out].
    change (-1 =? 0) with false. cbv iota. rewrite i32_small by lia.
    eexists _, _, _, _. split; [done|]. split; [by split|lia]. }
  destruct (accepts_dec lock n (inv p) E) as [Ha|Ha].
  - destruct (modify_ok items prices wf g1 g2 fuel true false lock n p) as (r & -> & Hr & Hm); try done.
    cbn [mbind option_bind]. rewrite Hr. change (0 =? 0) with true. cbv iota.
    eexists _, _, _, _. split; [done|]. split; [by eapply moved_others|].
    destruct Hm as (_ & _ & _ & [Hx _] & _). lia.
  - destruct (modify_refused items prices wf g1 g2 fuel true false lock n p) as (r & -> & Hr & Hpl); try done.
    cbn [mbind option_bind]. rewrite Hr, Hpl. change (-1 =? 0) with false. cbv iota.
    rewrite i32_small by lia. eexists _, _, _, _. split; [done|]. split; [by split|lia].
Qed.

(** The machine after a sale: the items are counted, the stock of locks is
    not touched. *)
Definition restocked (amount : Z) (b : WorldBlock) : WorldBlock :=
  let b := set_wl (wl b + amount) b in
  if c_ b <? pr b then set_machine 0 (wl b) 0 (c_ b) b else b.

Local Abbreviation sold_to := (BuyingMachine.sell items modify to_float peers).

(** A buying machine pays from nothing. A player who confirms the sale
    of [amount] items gets exactly [pr] locks for each, in the bag or the
    bank, and loses exactly the items — whether or not the machine has the
    locks: its stock [c_] is neither compared with the payment nor reduced.
    A stock that could not pay for one item only empties the machine's offer
    afterwards. *)
Theorem buying_machine_pays name who x_ y_ amount b q :
  settled (bag q) -> small_banks q -> sellable items (id b) -> 0 <= wl b <= 1000000000 ->
  0 < amount <= contains (id b) (inv (bag q)) -> 1 <= pr b * amount < 2 ^ 31 ->
  exists q' es,
    sold_to name who x_ y_ amount b q = Some (restocked amount b, q', es) /\
    c_ (restocked amount b) = c_ b /\
    bought (id b) (- amount) (- (pr b * amount)) q q'.
Proof.
  intros Hq (B1 & B2 & B3) (Hs & H112 & Hl) Hw Ham Hprice.
  pose proof (settled_contains (bag q) (id b) Hq ltac:(lia)). destruct three_locks as (L1 & L2 & L3).
  unfold BuyingMachine.sell. cbv zeta. rewrite (i32_small (pr b * amount)) by lia.
  replace (pr b * amount <? 1) with false by lia.
  destruct (denominations (pr b * amount)) as [[bgl dl] wls] eqn:Ed.
  destruct (denominations_sum (pr b * amount) bgl dl wls ltac:(lia) Ed) as (Hsum & R1 & R2 & R3).
  destruct (modify_ok items prices wf g1 g2 fuel true false (id b) (- amount) (bag q))
    as (r & -> & Hr & Hm);
    [done|lia|done|lia|split_and!; try lia; intros; lia|].
  cbn [mbind option_bind]. rewrite Hr. change (0 =? 0) with true. cbv iota.
  pose proof (moved_settled _ _ _ _ Hm) as S0.
  destruct (pay_lock_spec 7188 bgl (bgl_bank_amount q) false (pl_out r))
    as (k1 & f1 & p1 & e1 & -> & O1 & C1); try done. cbn [mbind option_bind].
  destruct (pay_lock_spec 1796 dl (dl_bank_amount q) f1 p1)
    as (k2 & f2 & p2 & e2 & -> & O2 & C2); try done; [apply O1|lia|]. cbn [mbind option_bind].
  destruct (pay_lock_spec 242 wls (wl_bank_amount q) f2 p2)
    as (k3 & f3 & p3 & e3 & -> & O3 & C3); try done; [apply O2|lia|]. cbn [mbind option_bind].
  rewrite (i32_small (wl b + amount)) by lia.
  destruct (name_found 7188) as (n1 & ->); [destruct (lock_valid items Hlocks 7188 L3); lia|].
  destruct (name_found 1796) as (n2 & ->); [destruct (lock_valid items Hlocks 1796 L2); lia|].
  destruct (name_found 242) as (n3 & ->); [destruct (lock_valid items Hlocks 242 L1); lia|].
  cbn [mbind option_bind]. eexists _, _. split; [done|]. split; [unfold restocked; by case_match|].
  destruct (ShopFacts.delivered_worth (id b) _ q _ Hl Hm) as [Hh Hw0].
  destruct Hm as (_ & _ & _ & [Hx Hu] & _).
  assert (forall j, j <> 0 -> j ∉ locks -> contains j (inv p3) = contains j (inv (pl_out r))) as Hoth.
  { unfold ShopFacts.locks. intros j Hj Hjl. rewrite !not_elem_of_cons in Hjl.
    by rewrite (others_contains _ _ _ j O3), (others_contains _ _ _ j O2), (others_contains _ _ _ j O1) by tauto. }
  split; [apply O3|]. split; [cbn [bag]; rewrite Hoth by (done || lia); lia|]. split.
  - revert Hw0 Hh. unfold held, purse_worth. cbn [bag wl_bank_amount dl_bank_amount bgl_bank_amount Shop.set_bag].
    rewrite (others_contains _ _ _ 242 O2), (others_contains _ _ _ 242 O1) in C3 by lia.
    rewrite (others_contains _ _ _ 1796 O1) in C2 by lia.
    rewrite (others_contains _ _ _ 1796 O3), (others_contains _ _ _ 7188 O3), (others_contains _ _ _ 7188 O2) by lia.
    lia.
  - intros j Hj Hji Hjl. cbn [bag]. rewrite Hoth by done. by apply Hu.
Qed.

(** ** The stock of locks *)

Lemma pay_stock_spec lock n p :
  lock ∈ lock_ids -> settled p -> 0 <= n <= contains lock (inv p) ->
  exists p' es, pay_stock modify lock n p = Some (p', es) /\ others lock p p' /\
    contains lock (inv p') = contains lock (inv p) - n /\ free_slots (inv p) <= free_slots (inv p').
Proof.
  intros Hid Hp Hn. destruct (lock_valid items Hlocks lock Hid) as [Hs H112]. unfold pay_stock.
  pose proof (settled_contains p lock Hp ltac:(lia)).
  destruct (Z.ltb_spec 0 n); cycle 1.
  { eexists _, _. split; [done|]. split; [by split|lia]. }
  destruct (modify_ok items prices wf g1 g2 fuel true false lock (- n) p) as (r & -> & Hr & Hm);
    [done|lia|done|lia|split_and!; try lia; intros; lia|].
  cbn [mbind option_bind]. eexists _, _. split; [done|]. split; [by eapply moved_others|].
  destruct Hm as (_ & _ & _ & [Hx _] & Hf). replace (contains lock (inv p) =? 0) with false in Hf by lia.
  destruct (contains lock (inv p) + - n =? 0); cbn in Hf; lia.
Qed.

(** Adding [count] locks the player has in these denominations. *)
Lemma addstock_spec count bgl dl wls b q :
  settled (bag q) -> 0 <= count < 2 ^ 31 -> - 1000000000 <= c_ b <= 1000000000 -> count <= 1000000000 ->
  denominations count = (bgl, dl, wls) ->
  bgl <= contains 7188 (inv (bag q)) -> dl <= contains 1796 (inv (bag q)) -> wls <= contains 242 (inv (bag q)) ->
  exists r, addstock modify count b q = Some r /\ block r = set_c_ (c_ b + count) b /\
    settled (bag (pocket r)) /\ purse_worth (pocket r) = purse_worth q - count /\
    free_slots (inv (bag q)) <= free_slots (inv (bag (pocket r))) /\
    forall j, j <> 0 -> j ∉ locks -> contains j (inv (bag (pocket r))) = contains j (inv (bag q)).
Proof.
  clear to_float color peers. intros Hq Hc Hb Hc' Ed H1 H2 H3. destruct three_locks as (L1 & L2 & L3).
  destruct (denominations_sum count bgl dl wls Hc Ed) as (Hsum & R1 & R2 & R3).
  unfold addstock. rewrite Ed. unfold Contains.
  replace ((0 <? bgl) && _) with false by lia. replace ((0 <? dl) && _) with false by lia.
  replace ((0 <? wls) && _) with false by lia.
  destruct (pay_stock_spec 7188 bgl (bag q)) as (p1 & e1 & -> & O1 & C1 & F1); try done; [lia|].
  cbn [mbind option_bind].
  destruct (pay_stock_spec 1796 dl p1) as (p2 & e2 & -> & O2 & C2 & F2); try done; [apply O1| |].
  { rewrite (others_contains _ _ _ 1796 O1) by lia. lia. }
  cbn [mbind option_bind].
  destruct (pay_stock_spec 242 wls p2) as (p3 & e3 & -> & O3 & C3 & F3); try done; [apply O2| |].
  { rewrite (others_contains _ _ _ 242 O2), (others_contains _ _ _ 242 O1) by lia. lia. }
  cbn [mbind option_bind]. rewrite i32_small by lia. eexists. split; [done|]. cbn [block pocket bag Shop.set_bag].
  split; [f_equal; lia|]. split; [apply O3|]. split; [|split; [lia|]].
  - unfold purse_worth. cbn [bag wl_bank_amount dl_bank_amount bgl_bank_amount Shop.set_bag].
    rewrite (others_contains _ _ _ 242 O2), (others_contains _ _ _ 242 O1) in C3 by lia.
    rewrite (others_contains _ _ _ 1796 O1) in C2 by lia.
    rewrite (others_contains _ _ _ 1796 O3), (others_contains _ _ _ 7188 O3), (others_contains _ _ _ 7188 O2) by lia.
    lia.
  - unfold ShopFacts.locks. intros j Hj Hjl. rewrite !not_elem_of_cons in Hjl.
    by rewrite (others_contains _ _ _ j O3), (others_contains _ _ _ j O2), (others_contains _ _ _ j O1) by tauto.
Qed.

(** Locks buy any item. The owner of an empty buying machine who adds
    [count] locks to its stock and then sends the [pullstocks] of the dialog
    of vending machines — which reads the same fields as so many items — gets
    [count] of the item the machine was set to buy, for [count] locks. *)
Theorem stock_becomes_items count bgl dl wls b q :
  settled (bag q) -> sellable items (id b) -> c_ b = 0 -> 0 < count <= 200 ->
  denominations count = (bgl, dl, wls) ->
  bgl <= contains 7188 (inv (bag q)) -> dl <= contains 1796 (inv (bag q)) -> wls <= contains 242 (inv (bag q)) ->
  contains (id b) (inv (bag q)) + count <= 200 -> 1 < Get_Slots (bag q) ->
  exists r b' q' es,
    addstock modify count b q = Some r /\
    pullstocks items modify (block r) (pocket r) = Some (b', q', true, es) /\
    c_ b' = 0 /\ bought (id b) count count q q'.
Proof.
  intros Hq (Hs & H112 & Hl) Hc0 Hc Ed H1 H2 H3 Hroom Hslots.
  destruct (addstock_spec count bgl dl wls b q) as (r & -> & Hblock & S1 & W1 & F1 & O1); try done; try lia.
  exists r. rewrite Hblock, Hc0, Z.add_0_l. unfold pullstocks.
  rewrite Get_Slots_free in Hslots by apply Hq. rewrite Get_Slots_free by apply S1.
  replace (1 <? _) with true by lia. cbn [id c_ set_c_ set_machine wl].
  assert (contains (id b) (inv (bag (pocket r))) = contains (id b) (inv (bag q))) as E by (apply O1; [lia|done]).
  pose proof (settled_contains (bag q) (id b) Hq ltac:(lia)).
  destruct (modify_ok items prices wf g1 g2 fuel true false (id b) count (bag (pocket r)))
    as (m & -> & Hr & Hm); try done; [lia| |].
  { rewrite <- E in *. split_and!; try lia. intros _. apply free_find. lia. }
  cbn [mbind option_bind]. rewrite Hr. change (0 =? 0) with true. cbv iota.
  destruct (ori_known items (id b) ltac:(lia)) as (nm & ->). cbn [mbind option_bind].
  eexists _, _, _. split; [done|]. split; [done|]. split; [done|].
  destruct (ShopFacts.delivered_worth (id b) _ _ _ Hl Hm) as [_ Hw].
  destruct Hm as (Hqt & Hv & _ & [Hx Hu] & _). split; [by split|]. cbn [bag Shop.set_bag] in *.
  split; [lia|]. split; [lia|]. intros j Hj Hji Hjl. rewrite Hu by done. by apply O1.
Qed.

(** ** The goods *)

Lemma press_choose v parser who owner x_ y_ b q :
  press items modify color ("choose_" +:+ v) parser who owner x_ y_ b q
    = choose items modify color (atoi v) who owner x_ y_ b q.
Proof. reflexivity. Qed.

(** The owner chooses an item for a machine that has none. *)
Lemma choose_owner item_id who x_ y_ b q :
  settled (bag q) -> id b = 0 -> 0 <= item_id < size items -> 0 <= fg b < size items ->
  exists es, choose items modify color item_id who who x_ y_ b q
    = Some (mkPressed (set_machine (pr b) (wl b) item_id (c_ b) b) q (Some true) es).
Proof.
  intros Hq H0 Hid Hfg. unfold choose. rewrite H0. cbn [Z.eqb negb]. unfold BuyingMachineDialog.
  destruct (name_found (fg b) Hfg) as (m & Em). destruct (name_found item_id Hid) as (g & Eg).
  cbn [fg id set_machine]. rewrite Em, Eg. cbn [mbind option_bind]. rewrite String.eqb_refl.
  destruct (get_wls_look items prices wf g1 g2 fuel Hlocks 0 q Hq) as (e & ->). cbn [mbind option_bind].
  by eexists.
Qed.

(** The goods go to the bag, up to a full stack. *)
Lemma take_goods_spec b q :
  settled (bag q) -> sellable items (id b) -> 0 < wl b <= 1000000000 ->
  contains (id b) (inv (bag q)) < 200 -> 0 < Get_Slots (bag q) ->
  let n := Z.min (wl b) (200 - contains (id b) (inv (bag q))) in
  exists q' es, take_goods items modify b q = Some (mkPressed (set_wl (wl b - n) b) q' (Some false) es) /\
    bought (id b) n 0 q q'.
Proof.
  intros Hq (Hs & H112 & Hl) Hw Hroom Hslots n. pose proof (settled_contains (bag q) (id b) Hq ltac:(lia)).
  unfold take_goods, Contains. replace ((id b =? 0) || (wl b <=? 0)) with false by lia. cbv zeta.
  assert ((if wl b <? 200 - contains (id b) (inv (bag q)) then wl b
    else 200 - contains (id b) (inv (bag q))) = n) as -> by (unfold n; case_match; lia).
  destruct (modify_ok items prices wf g1 g2 fuel true false (id b) n (bag q)) as (r & -> & Hr & Hm);
    [done|lia|done|lia|apply (give_room items); try done; lia|].
  destruct (name_found (id b) ltac:(lia)) as (g & Eg). cbn [mbind option_bind]. rewrite Hr, Eg.
  change (0 =? 0) with true. cbv iota. cbn [mbind option_bind]. rewrite i32_small by lia.
  eexists _, _. split; [done|]. destruct (ShopFacts.delivered_worth (id b) n q _ Hl Hm) as [_ Hworth].
  destruct Hm as (Hqt & Hv & _ & [Hx Hu] & _). split; [by split|]. cbn [bag Shop.set_bag] in *.
  split; [exact Hx|]. split; [lia|]. intros j Hj Hji _. by apply Hu.
Qed.

(** Bought goods change their kind. The owner of a buying machine that
    holds [wl] of one item presses [reset], chooses any other item — the
    server does not check that it was offered, or may be traded — and
    withdraws: the bag gets that many of the new item, up to a full stack.
    The item that was bought does not come back, and nothing is paid. *)
Theorem goods_change_kind parser who x_ y_ new b q :
  settled (bag q) -> sellable items new -> 0 <= fg b < size items ->
  0 < wl b <= 1000000000 -> in_i32 new -> contains new (inv (bag q)) < 200 -> 0 < Get_Slots (bag q) ->
  let n := Z.min (wl b) (200 - contains new (inv (bag q))) in
  exists r1 r2 r3,
    press items modify color "reset" parser who who x_ y_ b q = Some r1 /\
    press items modify color ("choose_" +:+ to_string new) parser who who x_ y_ (block r1) (pocket r1) = Some r2 /\
    press items modify color "withdraw" parser who who x_ y_ (block r2) (pocket r2) = Some r3 /\
    wl (block r3) = wl b - n /\ bought new n 0 q (pocket r3).
Proof.
  intros Hq Hs Hfg Hw Hnew Hroom Hslots n. pose proof Hs as (Hr & _).
  set (b1 := set_machine (pr b) (wl b) 0 (c_ b) b). exists (mkPressed b1 q (Some true) []).
  destruct (choose_owner new who x_ y_ b1 q) as (e2 & E2); try done; [lia|].
  set (b2 := set_machine (pr b1) (wl b1) new (c_ b1) b1) in *. exists (mkPressed b2 q (Some true) e2).
  destruct (take_goods_spec b2 q) as (q' & e3 & E3 & Hb); try done.
  exists (mkPressed (set_wl (wl b2 - n) b2) q' (Some false) e3).
  split; [done|]. split; [by rewrite press_choose, atoi_to_string|]. by split.
Qed.

End Facts.

(** ** At work *)

(** Carl's machine buys dirt for 150 locks, and has none. *)
Definition empty_machine : WorldBlock := mkBlock 15230 0 false (-1) "" [] false 150 0 2 0.
(** Another one holds 70 dirt. *)
Definition full_machine : WorldBlock := mkBlock 15230 0 false (-1) "" [] false 1 70 2 0.

Lemma sellable_below id : 0 < id < 112 -> sellable shop_items id.
Proof.
  intros H. unfold sellable, ShopFacts.locks. rewrite shop_items_size, !not_elem_of_cons.
  split_and!; try lia. apply not_elem_of_nil.
Qed.

Lemma buying_machine_pays_witness :
  exists q' es,
    BuyingMachine.sell shop_items (Modify shop_items [] true "" "" 2) (λ z, z) [] "MARKET" "Bob" 0 0 30
      empty_machine buyer_purse = Some (restocked 30 empty_machine, q', es) /\
    c_ (restocked 30 empty_machine) = 0 /\ bought 2 (-30) (-4500) buyer_purse q'.
Proof.
  apply (buying_machine_pays shop_items [] true "" "" 1 (λ z, z) [] shop_locks "MARKET" "Bob" 0 0 30
    empty_machine buyer_purse).
  - exact dirt_buyer_settled.
  - unfold small_banks. cbn. lia.
  - apply sellable_below. cbn. lia.
  - cbn. lia.
  - cbn. lia.
  - cbn. lia.
Defined.

Lemma stock_becomes_items_witness :
  exists r b' q' es,
    addstock (Modify shop_items [] true "" "" 2) 5 empty_machine buyer_purse = Some r /\
    pullstocks shop_items (Modify shop_items [] true "" "" 2) (block r) (pocket r) = Some (b', q', true, es) /\
    c_ b' = 0 /\ bought 2 5 5 buyer_purse q'.
Proof.
  apply (stock_becomes_items shop_items [] true "" "" 1 shop_locks 5 0 0 5 empty_machine buyer_purse).
  - exact dirt_buyer_settled.
  - apply sellable_below. cbn. lia.
  - reflexivity.
  - lia.
  - reflexivity.
  - cbn. lia.
  - cbn. lia.
  - cbn. lia.
  - cbn. lia.
  - vm_compute. reflexivity.
Defined.

Lemma goods_change_kind_witness :
  exists r1 r2 r3,
    press shop_items (Modify shop_items [] true "" "" 2) "" "reset" [] "Bob" "Bob" 0 0 full_machine buyer_purse
      = Some r1 /\
    press shop_items (Modify shop_items [] true "" "" 2) "" ("choose_" +:+ to_string 8) [] "Bob" "Bob" 0 0
      (block r1) (pocket r1) = Some r2 /\
    press shop_items (Modify shop_items [] true "" "" 2) "" "withdraw" [] "Bob" "Bob" 0 0 (block r2) (pocket r2)
      = Some r3 /\
    wl (block r3) = 0 /\ bought 8 70 0 buyer_purse (pocket r3).
Proof.
  apply (goods_change_kind shop_items [] true "" "" 1 "" shop_locks [] "Bob" 0 0 8 full_machine buyer_purse).
  - exact dirt_buyer_settled.
  - apply sellable_below. lia.
  - rewrite shop_items_size. cbn. lia.
  - cbn. lia.
  - unfold in_i32. lia.
  - cbn. lia.
  - vm_compute. reflexivity.
Defined.

End BuyingFacts.
