(* ===== verification/Login.v ===== *)
(** * Login: the texts of the login packet

    Models [src/NopySource/Handle/LoginHandler.h]: the decoding of url-safe
    base64 in a 32-bit accumulator, the decoding of percent escapes, the
    parsers of lines [key|value] and [key_value], [getValue] and
    [LoginHandle::GetContents].  The decoder [base64::from_base64] of a
    vendored header is a parameter, [None] where it throws. *)
From S2P Require Import Prelude Texts.

Module Login.

(** ** Base64 *)

Definition base64_chars : string :=
  "ABCDEFGHIJKLMNOPQRSTUVWXYZabcdefghijklmnopqrstuvwxyz0123456789+/".

Fixpoint place (c : ascii) (i : Z) (s : string) : Z :=
  match s with
  | EmptyString => -1
  | String d s => if Ascii.eqb c d then i else place c (i + 1) s
  end.

(** The table [T]. *)
Definition T (c : ascii) : Z := place c 0 base64_chars.

Definition minus : ascii := char_of 45.
Definition underscore : ascii := char_of 95.
Definition equals : ascii := char_of 61.
Definition percent : ascii := char_of 37.
Definition bar : ascii := char_of 124.
Definition amp : ascii := char_of 38.
Definition cr : ascii := char_of 13.

Definition standard (c : ascii) : ascii :=
  if Ascii.eqb c minus then char_of 43 else if Ascii.eqb c underscore then char_of 47 else c.

(** The accumulator [val] is an [int]; [valb + 8] of its bits are waiting. *)
Fixpoint base64_loop (s : string) (val valb : Z) : string :=
  match s with
  | EmptyString => EmptyString
  | String ch s =>
      let c := standard ch in
      if Ascii.eqb c equals then EmptyString
      else
        let d := T c in
        if d =? -1 then base64_loop s val valb
        else
          let val := i32 (i32 (Z.shiftl val 6) + d) in
          let valb := valb + 6 in
          if 0 <=? valb
          then String (char_of (Z.land (Z.shiftr val valb) 255)) (base64_loop s val (valb - 8))
          else base64_loop s val valb
  end.

Definition base64_decode_safe (s : string) : string := base64_loop s 0 (-8).

Definition isalnum (c : ascii) : bool :=
  is_digit c || ((65 <=? char_code c) && (char_code c <=? 90)) ||
  ((97 <=? char_code c) && (char_code c <=? 122)).

Definition base64_char (c : ascii) : bool :=
  isalnum c || (char_code c =? 43) || (char_code c =? 47) || (char_code c =? 61).

Definition isValidBase64 (input : string) : bool :=
  (String.length input mod 4 =? 0)%nat && all_chars base64_char input.

(** ** Percent escapes *)

Definition hexval (c : ascii) : Z :=
  let n := char_code c in
  if (48 <=? n) && (n <=? 57) then n - 48
  else if (97 <=? n) && (n <=? 102) then n - 97 + 10
  else if (65 <=? n) && (n <=? 70) then n - 65 + 10
  else -1.

Fixpoint url_decode (s : string) : string :=
  match s with
  | EmptyString => EmptyString
  | String c s' =>
      match s' with
      | String h (String l rest) =>
          if Ascii.eqb c percent && (0 <=? hexval h) && (0 <=? hexval l)
          then String (char_of (Z.lor (Z.shiftl (hexval h) 4) (hexval l))) (url_decode rest)
          else String c (url_decode s')
      | _ => String c (url_decode s')
      end
  end.

(** ** The parsers *)

(** The line without the carriage return at its end. *)
Fixpoint chomp (s : string) : string :=
  match s with
  | EmptyString => EmptyString
  | String c EmptyString => if Ascii.eqb c cr then EmptyString else s
  | String c s => String c (chomp s)
  end.

Fixpoint has_char (c : ascii) (s : string) : bool :=
  match s with EmptyString => false | String d s => Ascii.eqb d c || has_char c s end.

Fixpoint after (c : ascii) (s : string) : string :=
  match s with
  | EmptyString => EmptyString
  | String d s => if Ascii.eqb d c then s else after c s
  end.

(** [Parser] splits at the first bar, [HandleReturnParser] at the first
    underscore. *)
Definition parse_line (sep : ascii) (line : string) : list (string * string) :=
  let l := chomp line in if has_char sep l then [(before sep l, after sep l)] else [].

Definition contents (sep : ascii) (str : string) : list (string * string) :=
  mjoin (parse_line sep <$> getlines nl str).

Definition Parser : string -> list (string * string) := contents bar.
Definition HandleReturnParser : string -> list (string * string) := contents underscore.

Fixpoint get_value_starts_with (key : string) (l : list (string * string)) : string * string :=
  match l with
  | [] => (EmptyString, EmptyString)
  | (k, v) :: l => if starts_with key k then (k, v) else get_value_starts_with key l
  end.

Fixpoint get_value (key : string) (l : list (string * string)) : string :=
  match l with
  | [] => EmptyString
  | (k, v) :: l => if String.eqb k key then v else get_value key l
  end.

(** ** The login *)

(** What follows the first occurrence of [p]. *)
Fixpoint following (p s : string) : option string :=
  if starts_with p s then Some (drop_str (String.length p) s)
  else match s with EmptyString => None | String _ s => following p s end.

Definition getValue (str key : string) : string :=
  match following (key +:+ "=") str with
  | Some rest => before amp rest
  | None => EmptyString
  end.

Section Login.
Context (from_base64 : string -> option string).

(** The answer, and whether the peer becomes a guest. *)
Definition GetContents (cch : string) : option (string * bool) :=
  let result_token := Texts.explode "|" cch in
  if (length result_token <? 3)%nat then Some ("ERROR_INVALID_CCH_FORMAT", false) else
  t ← result_token !! 2%nat;
  match Texts.explode endl t with
  | [] => Some ("ERROR_MISSING_TOKEN_LINE", false)
  | token :: _ =>
      if negb (isValidBase64 token) then Some ("ERROR_INVALID_BASE64", false) else
      match from_base64 token with
      | None => Some ("ERROR_DECODE_FAILED", false)
      | Some decoded =>
          let user := getValue decoded "growId" in
          let pass := getValue decoded "password" in
          let ltoken := getValue decoded "_token" in
          if is_empty user && is_empty pass then Some ("GUEST_LOGIN_HANDLED", true)
          else if is_empty ltoken then Some ("ERROR_LTOKEN_EMPTY", false)
          else Some (cat ["tankIDName|"; user; "|"; endl; "tankIDPass|"; pass; "|"; endl; ltoken; "|"; endl],
                     false)
      end
  end.

End Login.

(** ** Base64 reads what it writes *)

(** The encoding of RFC 4648, in the standard or the url-safe alphabet, with
    or without padding. *)
Definition url_chars : string :=
  "ABCDEFGHIJKLMNOPQRSTUVWXYZabcdefghijklmnopqrstuvwxyz0123456789-_".

Definition digit_char (url : bool) (d : Z) : ascii :=
  default equals (String.get (Z.to_nat d) (if url then url_chars else base64_chars)).

Fixpoint base64_encode (url pad : bool) (s : string) : string :=
  let dg := digit_char url in
  let p := if pad then str1 equals else EmptyString in
  match s with
  | EmptyString => EmptyString
  | String a EmptyString =>
      String (dg (char_code a / 4)) (String (dg (char_code a mod 4 * 16)) (p +:+ p))
  | String a (String b EmptyString) =>
      String (dg (char_code a / 4)) (String (dg (char_code a mod 4 * 16 + char_code b / 16))
        (String (dg (char_code b mod 16 * 4)) p))
  | String a (String b (String c s)) =>
      String (dg (char_code a / 4)) (String (dg (char_code a mod 4 * 16 + char_code b / 16))
        (String (dg (char_code b mod 16 * 4 + char_code c / 64))
          (String (dg (char_code c mod 64)) (base64_encode url pad s))))
  end.

Lemma digit_char_spec url d :
  0 <= d < 64 -> T (standard (digit_char url d)) = d /\ Ascii.eqb (standard (digit_char url d)) equals = false.
Proof.
  intros Hd.
  assert (forallb (λ k, (T (standard (digit_char url (Z.of_nat k))) =? Z.of_nat k) &&
    negb (Ascii.eqb (standard (digit_char url (Z.of_nat k))) equals)) (seq 0 64) = true) as H
    by (destruct url; vm_compute; reflexivity).
  rewrite forallb_forall in H. specialize (H (Z.to_nat d)). rewrite in_seq, Z2Nat.id in H by lia.
  specialize (H ltac:(lia)). apply andb_true_iff in H as [H1%Z.eqb_eq H2%negb_true_iff]. done.
Qed.

(** The next accumulator. *)
Definition shift (val d : Z) : Z := i32 (i32 (Z.shiftl val 6) + d).

Lemma base64_step url d s val valb :
  0 <= d < 64 ->
  base64_loop (String (digit_char url d) s) val valb =
    if 0 <=? valb + 6
    then String (char_of (Z.land (Z.shiftr (shift val d) (valb + 6)) 255))
           (base64_loop s (shift val d) (valb + 6 - 8))
    else base64_loop s (shift val d) (valb + 6).
Proof.
  intros Hd. destruct (digit_char_spec url d Hd) as [HT He]. cbn [base64_loop].
  rewrite He, HT. by replace (d =? -1) with false by lia.
Qed.

(** The four states of a group of digits. *)
Lemma base64_steps url d s val :
  0 <= d < 64 ->
  let out k := char_of (Z.land (Z.shiftr (shift val d) k) 255) in
  base64_loop (String (digit_char url d) s) val (-8) = base64_loop s (shift val d) (-2) /\
  base64_loop (String (digit_char url d) s) val (-2) = String (out 4) (base64_loop s (shift val d) (-4)) /\
  base64_loop (String (digit_char url d) s) val (-4) = String (out 2) (base64_loop s (shift val d) (-6)) /\
  base64_loop (String (digit_char url d) s) val (-6) = String (out 0) (base64_loop s (shift val d) (-8)).
Proof. intros Hd out. by rewrite !base64_step. Qed.

(** Wrapping keeps the low bits. *)
Lemma i32_low z : i32 z mod 65536 = z mod 65536.
Proof.
  unfold swrap. change (2 ^ (32 - 1)) with 2147483648. change (2 ^ 32) with 4294967296.
  rewrite Zminus_mod. change (2147483648 mod 65536) with 0. rewrite Z.sub_0_r, Z.mod_mod by lia.
  pose proof (Z.div_mod (z + 2147483648) 4294967296 ltac:(lia)).
  replace ((z + 2147483648) mod 4294967296) with
    (z + (32768 - 65536 * ((z + 2147483648) / 4294967296)) * 65536) by lia.
  by rewrite Z_mod_plus_full.
Qed.

Lemma shift_low val d : shift val d mod 65536 = (val mod 65536 * 64 + d) mod 65536.
Proof.
  unfold shift. rewrite i32_low, Z.shiftl_mul_pow2 by lia. change (2 ^ 6) with 64.
  rewrite Z.add_mod, i32_low, <- Z.add_mod by lia.
  rewrite (Z.add_mod (val * 64)), (Z.add_mod (val mod 65536 * 64)), Z.mul_mod_idemp_l by lia. done.
Qed.

(** A byte of the accumulator depends on its low bits only. *)
Lemma byte_low val k : (k = 0 \/ k = 2 \/ k = 4) ->
  Z.land (Z.shiftr val k) 255 = (val mod 65536 / 2 ^ k) mod 256.
Proof.
  intros Hk. change 255 with (Z.ones 8). rewrite Z.land_ones by lia. change (2 ^ 8) with 256.
  rewrite Z.shiftr_div_pow2 by lia.
  destruct Hk as [->|[->| ->]]; [change (2 ^ 0) with 1|change (2 ^ 2) with 4|change (2 ^ 4) with 16];
    Z.div_mod_to_equations; lia.
Qed.

(** The bytes that come out of two, three and four digits. *)
Lemma first_byte val d1 d2 a b :
  d1 = a / 4 -> d2 = a mod 4 * 16 + b -> 0 <= a < 256 -> 0 <= b < 16 ->
  Z.land (Z.shiftr (shift (shift val d1) d2) 4) 255 = a.
Proof.
  intros -> -> Ha Hb. rewrite byte_low, shift_low, shift_low by tauto. change (2 ^ 4) with 16.
  set (L := val mod 65536). assert (0 <= L < 65536) by (apply Z.mod_pos_bound; lia). clearbody L.
  Z.div_mod_to_equations; lia.
Qed.

Lemma second_byte val d2 d3 x b c :
  d2 = x * 16 + b / 16 -> d3 = b mod 16 * 4 + c -> 0 <= x < 4 -> 0 <= b < 256 -> 0 <= c < 4 ->
  Z.land (Z.shiftr (shift (shift val d2) d3) 2) 255 = b.
Proof.
  intros -> -> Hx Hb Hc. rewrite byte_low, shift_low, shift_low by tauto. change (2 ^ 2) with 4.
  set (L := val mod 65536). assert (0 <= L < 65536) by (apply Z.mod_pos_bound; lia). clearbody L.
  Z.div_mod_to_equations; lia.
Qed.

Lemma third_byte val d3 d4 y c :
  d3 = y * 4 + c / 64 -> d4 = c mod 64 -> 0 <= y < 16 -> 0 <= c < 256 ->
  Z.land (Z.shiftr (shift (shift val d3) d4) 0) 255 = c.
Proof.
  intros -> -> Hy Hc. rewrite byte_low, shift_low, shift_low by tauto. change (2 ^ 0) with 1.
  set (L := val mod 65536). assert (0 <= L < 65536) by (apply Z.mod_pos_bound; lia). clearbody L.
  Z.div_mod_to_equations; lia.
Qed.

(** The digits of three bytes. *)
Lemma digit_ranges a b c :
  0 <= a < 256 -> 0 <= b < 256 -> 0 <= c < 256 ->
  0 <= a / 4 < 64 /\ 0 <= a mod 4 * 16 + b / 16 < 64 /\ 0 <= b mod 16 * 4 + c / 64 < 64 /\
  0 <= c mod 64 < 64 /\ 0 <= a mod 4 * 16 < 64 /\ 0 <= b mod 16 * 4 < 64 /\
  0 <= a mod 4 < 4 /\ 0 <= b / 16 < 16 /\ 0 <= b mod 16 < 16 /\ 0 <= c / 64 < 4.
Proof. intros. Z.div_mod_to_equations; lia. Qed.

Definition pad_str (pad : bool) : string := if pad then str1 equals else EmptyString.

Lemma padding pad val valb :
  base64_loop (pad_str pad) val valb = EmptyString /\
  base64_loop (pad_str pad +:+ pad_str pad) val valb = EmptyString.
Proof. by destruct pad. Qed.

Lemma base64_loop_encode url pad n : forall s val,
  (String.length s < n)%nat -> base64_loop (base64_encode url pad s) val (-8) = s.
Proof.
  induction n as [|n IH]; intros s val Hn; [lia|].
  destruct s as [|a [|b [|c s]]]; cbn [base64_encode]; [done| | |].
  - destruct (digit_ranges (char_code a) 0 0) as (R1 & _ & _ & _ & R2 & _); try apply char_code_range; try lia.
    rewrite (proj1 (base64_steps url _ _ _ R1)), (proj1 (proj2 (base64_steps url _ _ _ R2))).
    rewrite (first_byte val _ _ (char_code a) 0), char_of_code by (try apply char_code_range; lia).
    f_equal. apply (padding pad).
  - destruct (digit_ranges (char_code a) (char_code b) 0) as (R1 & R2 & _ & _ & _ & R3 & R4 & R5 & R6 & _);
      try apply char_code_range; try lia.
    rewrite (proj1 (base64_steps url _ _ _ R1)), (proj1 (proj2 (base64_steps url _ _ _ R2))),
      (proj1 (proj2 (proj2 (base64_steps url _ _ _ R3)))).
    rewrite (first_byte val _ _ (char_code a) (char_code b / 16)), char_of_code
      by (try apply char_code_range; lia).
    rewrite (second_byte _ _ _ (char_code a mod 4) (char_code b) 0), char_of_code
      by (try apply char_code_range; lia).
    do 2 f_equal. apply (padding pad).
  - destruct (digit_ranges (char_code a) (char_code b) (char_code c))
      as (R1 & R2 & R3 & R4 & _ & _ & R5 & R6 & R7 & R8); try apply char_code_range.
    rewrite (proj1 (base64_steps url _ _ _ R1)), (proj1 (proj2 (base64_steps url _ _ _ R2))),
      (proj1 (proj2 (proj2 (base64_steps url _ _ _ R3)))), (proj2 (proj2 (proj2 (base64_steps url _ _ _ R4)))).
    rewrite (first_byte val _ _ (char_code a) (char_code b / 16)), char_of_code
      by (try apply char_code_range; lia).
    rewrite (second_byte _ _ _ (char_code a mod 4) (char_code b) (char_code c / 64)), char_of_code
      by (try apply char_code_range; lia).
    rewrite (third_byte _ _ _ (char_code b mod 16) (char_code c)), char_of_code
      by (try apply char_code_range; lia).
    rewrite IH; [done|]. cbn in Hn. lia.
Qed.

(** C39: [base64_decode_safe] inverts base64. In the standard and in the
    url-safe alphabet, with or without padding, the decoder gives back the
    bytes that were encoded, for texts of any length: its 32-bit accumulator
    overflows after six characters, but only the bits that are not needed any
    more are lost. *)
Theorem base64_round_trip url pad s : base64_decode_safe (base64_encode url pad s) = s.
Proof. unfold base64_decode_safe. apply (base64_loop_encode url pad (S (String.length s))). lia. Qed.

(** ** Percent escapes *)

Definition unreserved (c : ascii) : bool :=
  isalnum c || existsb (Z.eqb (char_code c)) [45; 46; 95; 126].

Definition hex_char (d : Z) : ascii := if d <? 10 then char_of (48 + d) else char_of (55 + d).

Fixpoint url_encode (s : string) : string :=
  match s with
  | EmptyString => EmptyString
  | String c s =>
      if unreserved c then String c (url_encode s)
      else String percent (String (hex_char (char_code c / 16))
             (String (hex_char (char_code c mod 16)) (url_encode s)))
  end.

Lemma hex_char_val d : 0 <= d < 16 -> hexval (hex_char d) = d.
Proof.
  intros Hd. assert (forallb (λ k, hexval (hex_char (Z.of_nat k)) =? Z.of_nat k) (seq 0 16) = true) as H
    by reflexivity.
  rewrite forallb_forall in H. specialize (H (Z.to_nat d)). rewrite in_seq, Z2Nat.id in H by lia. lia.
Qed.

Lemma nibbles h l : 0 <= h < 16 -> 0 <= l < 16 -> Z.lor (Z.shiftl h 4) l = h * 16 + l.
Proof.
  intros Hh Hl.
  assert (forallb (λ k, forallb (λ m, Z.lor (Z.shiftl (Z.of_nat k) 4) (Z.of_nat m)
    =? Z.of_nat k * 16 + Z.of_nat m) (seq 0 16)) (seq 0 16) = true) as H by (vm_compute; reflexivity).
  rewrite forallb_forall in H. specialize (H (Z.to_nat h)). rewrite in_seq, forallb_forall in H.
  specialize (H ltac:(lia) (Z.to_nat l)). rewrite in_seq, !Z2Nat.id in H by lia. lia.
Qed.

Lemma url_decode_plain c s : Ascii.eqb c percent = false -> url_decode (String c s) = String c (url_decode s).
Proof. intros H. cbn [url_decode]. destruct s as [|h [|l s]]; try done. by rewrite H. Qed.

Lemma url_decode_escape h l s :
  0 <= hexval h -> 0 <= hexval l ->
  url_decode (String percent (String h (String l s)))
    = String (char_of (Z.lor (Z.shiftl (hexval h) 4) (hexval l))) (url_decode s).
Proof.
  intros Hh Hl. set (hi := hexval h) in *. set (lo := hexval l) in *.
  change (url_decode (String percent (String h (String l s)))) with
    (if (0 <=? hi) && (0 <=? lo) then String (char_of (Z.lor (Z.shiftl hi 4) lo)) (url_decode s)
     else String percent (url_decode (String h (String l s)))).
  by replace ((0 <=? hi) && (0 <=? lo)) with true by lia.
Qed.

(** C2: [url_decode] gives back every text from its percent encoding. *)
Theorem url_round_trip s : url_decode (url_encode s) = s.
Proof.
  induction s as [|c s IH]; [done|]. cbn [url_encode]. pose proof (char_code_range c) as Hc.
  destruct (unreserved c) eqn:Hu.
  - rewrite url_decode_plain, IH; [done|]. destruct (Ascii.eqb_spec c percent) as [->|]; [discriminate|done].
  - assert (0 <= char_code c / 16 < 16 /\ 0 <= char_code c mod 16 < 16 /\
      char_code c = char_code c / 16 * 16 + char_code c mod 16) as (H1 & H2 & H3)
      by (Z.div_mod_to_equations; lia).
    rewrite url_decode_escape, !hex_char_val, nibbles, <- H3, char_of_code, IH by (rewrite ?hex_char_val; lia).
    done.
Qed.

(** ** The parsers *)

Definition no_char (c : ascii) (s : string) : bool := all_chars (λ d, negb (Ascii.eqb d c)) s.

Lemma getlines_line c s t : no_char c s = true -> getlines c (s +:+ String c t) = s :: getlines c t.
Proof.
  intros Hs. unfold getlines. rewrite split_on_app by done.
  pose proof (split_on_not_nil c t). destruct (split_on c t) as [|p ps]; [done|].
  cbn [List.last removelast]. by case_match.
Qed.

Fixpoint print_lines (sep : ascii) (l : list (string * string)) : string :=
  match l with
  | [] => EmptyString
  | (k, v) :: l => k +:+ String sep (v +:+ String nl (print_lines sep l))
  end.

(** A line feed nowhere, the separator not in the key, no carriage return at
    the end of the value. *)
Definition printable (sep : ascii) (kv : string * string) : Prop :=
  no_char nl kv.1 = true /\ no_char sep kv.1 = true /\ no_char nl kv.2 = true /\ chomp kv.2 = kv.2.

Lemma chomp_app s c t : c <> cr \/ t <> EmptyString -> chomp (s +:+ String c t) = s +:+ chomp (String c t).
Proof.
  intros H. induction s as [|d s IH]; [done|].
  assert (forall d u, u <> EmptyString -> chomp (String d u) = String d (chomp u)) as Hch by (by intros ? []).
  change (String d s +:+ String c t) with (String d (s +:+ String c t)).
  rewrite Hch, IH by (by destruct s). done.
Qed.

Lemma before_after sep k v :
  no_char sep k = true ->
  has_char sep (k +:+ String sep v) = true /\ before sep (k +:+ String sep v) = k /\
  after sep (k +:+ String sep v) = v.
Proof.
  unfold no_char. induction k as [|d k IH]; simpl; [by rewrite Ascii.eqb_refl|].
  intros [->%negb_true_iff Hk]%andb_true_iff. destruct (IH Hk) as (-> & -> & ->). done.
Qed.

Lemma contents_line sep s t :
  no_char nl s = true -> contents sep (s +:+ String nl t) = parse_line sep s ++ contents sep t.
Proof. intros Hs. unfold contents. by rewrite getlines_line. Qed.

(** The parsers of the login packet read back the lines that were
    printed, in their order. *)
Theorem parser_reads_lines sep l :
  sep <> nl -> sep <> cr -> Forall (printable sep) l -> contents sep (print_lines sep l) = l.
Proof.
  intros Hnl Hcr. induction 1 as [|[k v] l (H1 & H2 & H3 & H4) _ IH]; [done|]. cbn [print_lines fst snd] in *.
  replace (k +:+ String sep (v +:+ String nl (print_lines sep l)))
    with ((k +:+ String sep v) +:+ String nl (print_lines sep l)) by (by rewrite <- str_app_assoc).
  rewrite contents_line; cycle 1.
  { unfold no_char in *. rewrite all_chars_app, H1. simpl. rewrite H3, andb_true_r.
    by destruct (Ascii.eqb_spec sep nl). }
  rewrite IH. unfold parse_line.
  assert (chomp (k +:+ String sep v) = k +:+ String sep v) as ->.
  { rewrite chomp_app by (by left). f_equal. destruct v; cbn [chomp]; [by destruct (Ascii.eqb_spec sep cr)|].
    f_equal. exact H4. }
  destruct (before_after sep k v H2) as (-> & -> & ->). done.
Qed.

(** ** The login *)

Lemma pieces_split c s : Texts.pieces (str1 c) 0 s = split_on c s.
Proof.
  induction s as [|d s IH]; [done|]. cbn [Texts.pieces split_on starts_with str1 String.length Nat.sub].
  rewrite andb_true_r, (Ascii.eqb_sym c d), IH. done.
Qed.

Lemma split_head c s : exists ps, split_on c s = before c s :: ps.
Proof.
  induction s as [|d s [ps IH]]; [by eexists|]. cbn [split_on before].
  destruct (Ascii.eqb d c); [by eexists|]. rewrite IH. by eexists.
Qed.

Lemma before_plain c s t : no_char c s = true -> before c (s +:+ t) = s +:+ before c t.
Proof.
  unfold no_char. induction s as [|d s IH]; simpl; [done|]. intros [->%negb_true_iff Hs]%andb_true_iff.
  by rewrite IH.
Qed.

Lemma contains_char c s t : str_contains (str1 c) (s +:+ String c t) = true.
Proof.
  induction s as [|d s IH]; simpl; [by rewrite Ascii.eqb_refl|]. rewrite IH. by rewrite orb_true_r.
Qed.

Lemma explode_line s t : no_char nl s = true -> exists ps, Texts.explode endl (s +:+ String nl t) = s :: ps.
Proof.
  intros Hs. unfold Texts.explode. cbn [is_empty]. change (is_empty endl) with false. cbv iota.
  rewrite String.eqb_refl. cbn [negb andb]. rewrite andb_false_r. cbn [andb]. change endl with (str1 nl).
  rewrite pieces_split, split_on_app by done. by eexists.
Qed.

Lemma valid_no_char c s : base64_char c = false -> isValidBase64 s = true -> no_char c s = true.
Proof.
  unfold isValidBase64, no_char. intros Hc [_ H]%andb_true_iff. revert H. apply all_chars_impl.
  intros d Hd. by destruct (Ascii.eqb_spec d c) as [->|]; [congruence|].
Qed.

(** The token is the third field, up to the end of its line. *)
Lemma token_found a b tok rest :
  no_char bar a = true -> no_char bar b = true -> isValidBase64 tok = true ->
  exists l ps, Texts.explode "|" (a +:+ String bar (b +:+ String bar (tok +:+ String nl rest))) = l /\
    (3 <= length l)%nat /\ l !! 2%nat = Some (tok +:+ String nl (before bar rest)) /\
    Texts.explode endl (tok +:+ String nl (before bar rest)) = tok :: ps.
Proof.
  intros Ha Hb Ht. pose proof (valid_no_char bar tok eq_refl Ht) as Htb.
  pose proof (valid_no_char nl tok eq_refl Ht) as Htn.
  destruct (explode_line tok (before bar rest) Htn) as (ps & Eps).
  destruct (split_head bar (tok +:+ String nl rest)) as (qs & Eqs).
  exists (a :: b :: (tok +:+ String nl (before bar rest)) :: qs), ps. split; [|split; [cbn; lia|done]].
  unfold Texts.explode. change (is_empty "|") with false. cbv iota. change "|"%string with (str1 bar).
  rewrite contains_char. cbn [negb andb]. rewrite pieces_split, split_on_app, split_on_app by done.
  by rewrite Eqs, before_plain.
Qed.

(** A text that no key can match in, up to the [&] after it. *)
Lemma following_skip k x s :
  no_char amp k = true -> no_char equals x = true ->
  following (k +:+ "=") (x +:+ String amp s) = following (k +:+ "=") s.
Proof.
  intros Hk. induction x as [|d x IH]; intros Hx.
  - destruct k as [|c k]; [done|]. cbn in Hk. apply andb_true_iff in Hk as [Hc _].
    change (following (String c k +:+ "=") (EmptyString +:+ String amp s)) with
      (if Ascii.eqb c amp && starts_with (k +:+ "=") s
       then Some (drop_str (String.length (String c k +:+ "=")) (String amp s))
       else following (String c k +:+ "=") s).
    by destruct (Ascii.eqb_spec c amp) as [->|].
  - assert (starts_with (k +:+ "=") (String d x +:+ String amp s) = false) as H.
    { clear IH. revert Hx. generalize (String d x). clear d x. induction k as [|c k IHk]; intros y Hy.
      - destruct y as [|e y]; [done|]. cbn in Hy. apply andb_true_iff in Hy as [He _].
        change (Ascii.eqb equals e && true = false). by destruct (Ascii.eqb_spec equals e) as [<-|].
      - cbn in Hk. apply andb_true_iff in Hk as [Hc Hk]. destruct y as [|e y].
        + change (Ascii.eqb c amp && starts_with (k +:+ "=") s = false).
          by destruct (Ascii.eqb_spec c amp) as [->|].
        + cbn in Hy. apply andb_true_iff in Hy as [_ Hy].
          change (Ascii.eqb c e && starts_with (k +:+ "=") (y +:+ String amp s) = false).
          by rewrite (IHk Hk y Hy), andb_false_r. }
    change (String d x +:+ String amp s) with (String d (x +:+ String amp s)) in *.
    cbn [following]. rewrite H. apply IH. cbn in Hx. by apply andb_true_iff in Hx as [_ ?].
Qed.

Definition clean (s : string) : Prop := no_char amp s = true /\ no_char equals s = true.

(** The query the token holds. *)
Definition query (token user pass : string) : string :=
  "_token=" +:+ (token +:+ String amp ("growId=" +:+ (user +:+ String amp ("password=" +:+ pass)))).

Lemma before_last c s : no_char c s = true -> before c s = s.
Proof.
  unfold no_char. induction s as [|d s IH]; simpl; [done|]. intros [->%negb_true_iff Hs]%andb_true_iff.
  by rewrite IH.
Qed.

Lemma query_fields token user pass :
  clean token -> clean user -> clean pass ->
  getValue (query token user pass) "_token" = token /\
  getValue (query token user pass) "growId" = user /\
  getValue (query token user pass) "password" = pass.
Proof.
  intros [T1 T2] [U1 U2] [P1 P2]. unfold getValue, query.
  set (rest2 := "password=" +:+ pass). set (rest1 := "growId=" +:+ (user +:+ String amp rest2)).
  assert (forall k y, k = "growId" \/ k = "password" ->
    following (k +:+ "=") ("_token=" +:+ y) = following (k +:+ "=") y) as Htok by (by intros k y [->| ->]).
  assert (following ("password" +:+ "=") rest1 = following ("password" +:+ "=") (user +:+ String amp rest2))
    as Huser by done.
  assert (forall c x y, no_char c x = true -> before c (x +:+ String c y) = x) as Hcut.
  { intros c x y Hx. rewrite before_plain by done. cbn [before]. rewrite Ascii.eqb_refl. apply str_app_nil. }
  split; [|split].
  - change (following ("_token" +:+ "=") ("_token=" +:+ ?s)) with (Some s). by apply Hcut.
  - rewrite Htok, following_skip by (done || by left). subst rest1.
    change (following ("growId" +:+ "=") ("growId=" +:+ ?s)) with (Some s). by apply Hcut.
  - rewrite Htok, following_skip, Huser, following_skip by (done || by right). subst rest2.
    change (following ("password" +:+ "=") ("password=" +:+ ?s)) with (Some s). by apply before_last.
Qed.

(** What the login writes for the rest of the server. *)
Definition login_text (user pass token : string) : string :=
  cat ["tankIDName|"; user; "|"; endl; "tankIDPass|"; pass; "|"; endl; token; "|"; endl].

(** The login text carries the client's fields. For a decoder that reads
    the token, [GetContents] finds the token line of the packet, takes user,
    password and session token from it, makes a guest of a peer without user
    and password, refuses an empty session token, and else writes the three
    fields — for any password: nothing is compared with an account. *)
Theorem GetContents_fields from_base64 a b tok rest user pass token :
  no_char bar a = true -> no_char bar b = true -> isValidBase64 tok = true ->
  clean token -> clean user -> clean pass -> from_base64 tok = Some (query token user pass) ->
  GetContents from_base64 (a +:+ String bar (b +:+ String bar (tok +:+ String nl rest))) = Some
    (if is_empty user && is_empty pass then ("GUEST_LOGIN_HANDLED", true)
     else if is_empty token then ("ERROR_LTOKEN_EMPTY", false)
     else (login_text user pass token, false)).
Proof.
  intros Ha Hb Ht Hct Hcu Hcp Hdec.
  destruct (token_found a b tok rest Ha Hb Ht) as (l & ps & El & Hl & E2 & Eps).
  unfold GetContents. rewrite El. replace (length l <? 3)%nat with false by (symmetry; apply Nat.ltb_ge; lia).
  rewrite E2. cbn [mbind option_bind]. rewrite Eps, Ht. cbn [negb]. rewrite Hdec.
  destruct (query_fields token user pass Hct Hcu Hcp) as (-> & -> & ->). by repeat case_match.
Qed.

(** ** At work *)

Definition bob_query : string := query "T0K3N" "bob" "secret".
Definition bob_token : string := base64_encode false true bob_query.

Lemma GetContents_fields_witness :
  GetContents (λ s, Some (base64_decode_safe s))
    ("protocol" +:+ String bar ("205" +:+ String bar (bob_token +:+ String nl "platformID|0")))
  = Some (login_text "bob" "secret" "T0K3N", false).
Proof.
  apply (GetContents_fields (λ s, Some (base64_decode_safe s)) "protocol" "205" bob_token "platformID|0"
    "bob" "secret" "T0K3N"); try reflexivity; try (split; reflexivity).
Defined.

Lemma parser_reads_lines_witness :
  contents bar (print_lines bar [("tankIDName", "bob"); ("", "x|y")]) = [("tankIDName", "bob"); ("", "x|y")].
Proof.
  apply (parser_reads_lines bar [("tankIDName", "bob"); ("", "x|y")]); try discriminate.
  repeat constructor.
Defined.

(** A packet without a bar is not refused for its format: [explode] returns
    30 empty pieces, and the empty token makes a guest. *)
Example no_bar_is_guest :
  GetContents (λ s, Some (base64_decode_safe s)) "hello" = Some ("GUEST_LOGIN_HANDLED", true).
Proof. reflexivity. Qed.

(** A user name that contains a line feed writes the line of the password:
    the parser of the answer reads the first one. *)
Example injected_password :
  get_value "tankIDPass" (Parser (login_text ("bob|" +:+ endl +:+ "tankIDPass|mine") "secret" "T0K3N"))
  = "mine|".
Proof. reflexivity. Qed.

End Login.
