(* ===== verification/Area.v ===== *)
(** * Area: the blocks that a small lock protects

    Models the areas of locks of [src/NopySource/Handle/WorldInfo.h]: their
    choice by [lock_tiles], the placing of a lock in [edit_tile], their
    removal by [remove_lock_broken], and their message [upd_lock]; and the
    choice of a new area by the dialog [lock_edit] of
    [src/NopySource/Handle/DialogReturn.h].  Blocks are numbered row by row,
    100 to a row.  The flags [scanned] of the blocks are the set of the
    numbers where they are true.  [None] is a read outside of the blocks, a
    division by zero, or a loop that does not end within the fuel. *)
From S2P Require Import Prelude Items Inventory World Messages Access Vending.
Import Items World Inventory Access.

Module Area.

Definition Property_Mod : Z := 8.

Definition small_lock (id : Z) : bool := existsb (Z.eqb id) [202; 204; 206; 4994; 10000].

(** The size of the area of a lock. *)
Definition lock_size_of (id : Z) : Z :=
  if id =? 202 then 10 else if (id =? 204) || (id =? 10000) then 48 else 200.

Definition number (x y : Z) : Z := x + y * 100.

Definition size_of (w : World) : Z := Z.of_nat (length (blocks w)).

(** [at] of the vector of blocks throws outside of it. *)
Definition inside (w : World) (i : Z) : bool := (0 <=? i) && (i <? size_of w).

(** ** Spreading over the blocks

    Five functions of the source walk over neighbours the same way: a queue
    of block numbers, and for each one right, left, down and up, if they
    satisfy a test and are not scanned yet. *)

Definition around (w : World) (sq : Z) : list Z :=
  let x := sq mod 100 in
  let y := sq / 100 in
  (if x <? max_x w - 1 then [number (x + 1) y] else []) ++
  (if 0 <? x then [number (x - 1) y] else []) ++
  (if y <? max_y w - 1 then [number x (y + 1)] else []) ++
  (if 0 <? y then [number x (y - 1)] else []).

(** The new neighbours, and what is scanned. *)
Fixpoint visit (test : Z -> option bool) (l : list Z) (scanned : gset Z) : option (list Z * gset Z) :=
  match l with
  | [] => Some ([], scanned)
  | n :: l =>
      ok ← test n;
      if ok && bool_decide (n ∉ scanned) then
        '(new, scanned) ← visit test l ({[n]} ∪ scanned);
        Some (n :: new, scanned)
      else visit test l scanned
  end.

(** Returns the found blocks in order.  [enough] ends the walk before the
    next block of the queue. *)
Fixpoint spread (fuel : nat) (enough : nat -> bool) (test : Z -> option bool) (next : Z -> list Z)
    (queue : list Z) (count : nat) (scanned : gset Z) : option (list Z) :=
  match fuel with
  | O => None
  | S fuel =>
      match queue with
      | [] => Some []
      | sq :: queue =>
          if enough count then Some []
          else
            '(new, scanned) ← visit test (next sq) scanned;
            found ← spread fuel enough test next (queue ++ new) (count + length new) scanned;
            Some (new ++ found)
      end
  end.

(** A block is found at most once, so this many steps are enough. *)
Definition walk_fuel (w : World) : nat := S (S (length (blocks w))).

Definition walk (w : World) (test : Z -> option bool) (start : Z) : option (list Z) :=
  spread (walk_fuel w) (λ _, false) test (around w) [start] 0 ∅.

(** [locked and lock_origin == o], for a block of the vector. *)
Definition belongs (w : World) (o n : Z) : option bool :=
  b ← block_at w n; Some (locked b && (lock_origin b =? o)).

(** ** Choosing an area *)

(** The numbers of blocks are numbers of items. *)
Definition not_mod (items : table) (b : WorldBlock) (total_ max_size : Z) : bool :=
  if (total_ <? 0) || (max_size <=? total_) || locked b ||
     bool_decide (blockType (item items (fg b)) = LOCK) then false
  else if fg b =? 0 then true
  else Z.land (properties (item items (fg b))) Property_Mod =? 0.

Definition free_block (items : table) (w : World) (i : Z) : bool :=
  match block_at w i with Some b => not_mod items b i (size_of w) | None => false end.

(** *** The search

    It reads the bounds of the world, the number of blocks, and whether a
    block is free. *)

Section Search.
Context (width height count : Z) (free : Z -> bool) (st_x st_y og_lock_size : Z).

Definition exists_block (i : Z) : bool := (0 <=? i) && (i <? count).

(** The state of the search: [pending] holds the entries of [new_tiles] that
    were not looked at, with their direction. *)
Record Search := mkSearch {
  pending : list (Z * Z);
  new_lock : list (Z * Z);
  lock_size : Z;
  layer_ : Z;
  max_up : Z;
  max_left : Z;
  max_down : Z;
  max_right : Z;
  scanned : gset Z
}.

Definition push (t : Z * Z) (s : Search) : Search :=
  mkSearch (pending s ++ [t]) (new_lock s) (lock_size s) (layer_ s) (max_up s) (max_left s)
    (max_down s) (max_right s) (scanned s).
Definition pop (s : Search) : Search :=
  mkSearch (drop 1 (pending s)) (new_lock s) (lock_size s) (layer_ s) (max_up s) (max_left s)
    (max_down s) (max_right s) (scanned s).
Definition add (x y : Z) (s : Search) : Search :=
  mkSearch (pending s) (new_lock s ++ [(x, y)]) (lock_size s) (layer_ s) (max_up s) (max_left s)
    (max_down s) (max_right s) (scanned s).
Definition skip (s : Search) : Search :=
  mkSearch (pending s) (new_lock s) (i32 (lock_size s + 1)) (layer_ s) (max_up s) (max_left s)
    (max_down s) (max_right s) (scanned s).
Definition set_layer (v : Z) (s : Search) : Search :=
  mkSearch (pending s) (new_lock s) (lock_size s) v (max_up s) (max_left s) (max_down s) (max_right s)
    (scanned s).
Definition scan (i : Z) (s : Search) : Search :=
  mkSearch (pending s) (new_lock s) (lock_size s) (layer_ s) (max_up s) (max_left s) (max_down s)
    (max_right s) ({[i]} ∪ scanned s).

(** The bound that a direction of the spiral sets. *)
Definition set_max (where_ v : Z) (s : Search) : Search :=
  let up := if where_ =? 2 then v else max_up s in
  let left := if where_ =? 3 then v else max_left s in
  let down := if where_ =? 4 then v else max_down s in
  let right := if where_ =? 1 then v else max_right s in
  mkSearch (pending s) (new_lock s) (lock_size s) (layer_ s) up left down right (scanned s).

(** A part of the loop goes on, leaves the loop, or throws [out_of_range]. *)
Inductive outcome :=
| Go (s : Search)
| Enough (s : Search)
| Thrown.

Definition and_then (o : outcome) (f : Search -> outcome) : outcome :=
  match o with Go s => f s | _ => o end.

Definition full (s : Search) : bool := og_lock_size <=? Z.of_nat (length (new_lock s)).

(** The four neighbours before the loop. *)
Definition first_tile (cond : bool) (x y where_ : Z) (s : Search) : outcome :=
  if negb cond then Go s
  else if negb (exists_block (number x y)) then Thrown
  else
    let s := push (number x y, where_) s in
    Go (if free (number x y) then add x y s else s).

Definition search_start : outcome :=
  let s := mkSearch [] [] og_lock_size 0 0 0 0 0 ∅ in
  let s := first_tile (0 <? st_x - 1) (st_x - 1) st_y 1 s in
  let s := and_then s (first_tile (0 <? st_y - 1) st_x (st_y - 1) 2) in
  let s := and_then s (first_tile (st_x + 1 <? width) (st_x + 1) st_y 3) in
  and_then s (first_tile (st_y + 1 <? height) st_x (st_y + 1) 4).

(** One step along the border: from ([x], [y]) to its neighbour. *)
Definition border (out : bool) (x y x' y' where_ : Z) (more : bool) (s : Search) : outcome :=
  if out then Go s
  else if negb (exists_block (number x' y')) then Thrown
  else if bool_decide (number x' y' ∈ scanned s) then Go s
  else
    let s := scan (number x y) s in
    let s := if more then push (number x' y', where_) s else s in
    if free (number x' y') then
      let s := add x' y' s in if full s then Enough s else Go s
    else if more && full s then Enough s
    else Go (skip s).

Definition grow (tile : Z * Z) (s : Search) : outcome :=
  let '(i, where_) := tile in
  let x := i mod 100 in
  let y := i / 100 in
  if where_ =? 1 then
    border (y - 1 <? 0) x y x (y - 1) 1
      (negb (max_up s =? 0) && (max_up s + 1 <? y) && (0 <? y - 1)) s
  else if where_ =? 2 then
    border (width <? x + 1) x y (x + 1) y 2
      (negb (max_left s =? 0) && (x <? max_left s - 1) && (x + 1 <? width)) s
  else if where_ =? 3 then
    border (height <? y + 1) x y x (y + 1) 3
      (negb (max_down s =? 0) && (y <? max_down s - 1) && (y + 1 <? height)) s
  else
    border (x - 1 <? 0) x y (x - 1) y 4
      (negb (max_right s =? 0) && (max_right s + 1 <? x) && (0 <? x - 1)) s.

(** The loop [while (... scanned) t_++ ...]: the first [t_] that is not
    scanned, from 2 on.  It reads a scanned block per round. *)
Inductive spot :=
| Nothing (entered : bool)        (* did it get to a block after the first? *)
| Found (t_ : Z)
| Outside
| Stuck.

Fixpoint first_unscanned (fuel : nat) (out : Z -> bool) (pos : Z -> Z) (seen : gset Z) (t_ : Z)
    (entered : bool) : spot :=
  match fuel with
  | O => Stuck
  | S fuel =>
      if out t_ then Nothing entered
      else if negb (exists_block (pos t_)) then Outside
      else if bool_decide (pos t_ ∈ seen) then first_unscanned fuel out pos seen (t_ + 1) true
      else Found t_
  end.

Definition look (out : Z -> bool) (pos : Z -> Z) (seen : gset Z) : spot :=
  if out 1 then Nothing false
  else if negb (exists_block (pos 1)) then Outside
  else if negb (bool_decide (pos 1 ∈ seen)) then Nothing false
  else first_unscanned (S (Z.to_nat count)) out pos seen 2 false.

(** A corner of the spiral: the tile ([x], [y]) in the direction [where_].
    [idle]: the position is a border and a tile that is not free is left out. *)
Definition corner (idle : bool) (x y where_ v : Z) (s : Search) : outcome :=
  if negb (exists_block (number x y)) then Thrown
  else if free (number x y) then Go (add x y (push (number x y, where_) (set_max where_ v s)))
  else if idle then Go s
  else
    let s := push (number x y, where_) (set_max where_ v s) in
    Go (if full s then s else skip s).

(** The four sides, at the end of a round.  [None]: the loop of a side does
    not end, which does not happen. *)
Definition turn (s : option outcome) (out : Z -> bool) (pos : Z -> Z) (cut : bool)
    (f : Z -> Search -> outcome) : option outcome :=
  o ← s;
  match o with
  | Go s =>
      match look out pos (scanned s) with
      | Stuck => None
      | Outside => Some Thrown
      | Nothing entered =>
          Some (Go (if cut && entered && (st_y - layer_ s <? 0) then set_layer 0 s else s))
      | Found t_ =>
          let s := if cut && (st_y - layer_ s <? 0) then set_layer 0 s else s in Some (f t_ s)
      end
  | _ => Some o
  end.

Definition spiral (s : Search) : option outcome :=
  let layer := layer_ s + 1 in
  let layer := if (og_lock_size <=? 10) ||
                  (uwrap 64 (lock_size s - Z.of_nat (length (new_lock s))) <=? 5)
               then 0 else layer in
  let o := Some (Go (set_layer layer s)) in
  let o := turn o (λ t, st_x - t <? 0) (λ t, number (st_x - t) st_y) false
    (λ t s, corner false (st_x - t) (st_y + layer_ s) 1 (st_x - t) s) in
  let o := turn o (λ t, st_y - t <? 0) (λ t, number st_x (st_y - t)) false
    (λ t s, corner false (st_x - layer_ s) (st_y - t) 2 (st_y - t) s) in
  let o := turn o (λ t, width <? st_x + t) (λ t, number (st_x + t) st_y) true
    (λ t s, corner false (st_x + t) (st_y - layer_ s) 3 (st_x + t) s) in
  turn o (λ t, height <? st_y + t) (λ t, number st_x (st_y + t)) false
    (λ t s, corner ((st_x =? 0) || (st_y =? 0)) (st_x + layer_ s) (st_y + t) 4 (st_y + t) s).

(** A pass of the loop. *)
Definition round (s : Search) : option outcome :=
  match pending s with
  | [] => Some (Enough s)
  | tile :: _ =>
      if full s then Some (Enough s)
      else
        match grow tile (pop s) with
        | Go s => match pending s with [] => spiral s | _ => Some (Go s) end
        | o => Some o
        end
  end.

(** The tiles of the area, or [Some None] for an exception. *)
Fixpoint search (fuel : nat) (s : Search) : option (option (list (Z * Z))) :=
  match fuel with
  | O => None
  | S fuel =>
      o ← round s;
      match o with
      | Go s => search fuel s
      | Enough s => Some (Some (new_lock s))
      | Thrown => Some None
      end
  end.

End Search.

Section Choice.
Context (items : table) (w : World) (st_x st_y og_lock_size : Z).

(** The second part: tiles that are not connected with the lock are left
    out.  [linked] tells whether a walk over the tiles from a tile meets a
    number next to the lock's. *)
Definition beside (n : Z) : bool :=
  let st := number st_x st_y in
  let x := n mod 100 in
  let y := n / 100 in
  (number x y =? st) || (number (x + 1) y =? st) || (number (x - 1) y =? st) ||
  (number x (y + 1) =? st) || (number x (y - 1) =? st).

(** [shadow_copy_2]: the tiles are locked for this lock. *)
Definition chosen (tiles : list (Z * Z)) (n : Z) : option bool :=
  b ← block_at w n;
  Some (existsb (λ t, number t.1 t.2 =? n) tiles ||
        (locked b && (lock_origin b =? number st_x st_y))).

Definition linked (tiles : list (Z * Z)) (t : Z * Z) : option bool :=
  let n := number t.1 t.2 in
  found ← walk w (chosen tiles) n; Some (existsb beside (n :: found)).

Fixpoint keep_linked (tiles l : list (Z * Z)) : option (list (Z * Z)) :=
  match l with
  | [] => Some []
  | t :: l =>
      ok ← linked tiles t; l ← keep_linked tiles l; Some (if (ok : bool) then t :: l else l)
  end.

(** The result of the [try] block: [out_of_range] gives an empty area. *)
Definition caught {A} (o : option (list A)) : list A := default [] o.

Definition lock_tiles (fuel : nat) : option (list (Z * Z)) :=
  match block_at w (number st_x st_y) with
  | None => Some []
  | Some b =>
      if locked b then Some []
      else
        let free := free_block items w in
        match search_start (max_x w) (max_y w) (size_of w) free st_x st_y og_lock_size with
        | Go s =>
            if size_of w <? 100 then None
            else
              r ← search (max_x w) (max_y w) (size_of w) free st_x st_y og_lock_size fuel s;
              Some (caught (tiles ← r;
                let tiles := take (Z.to_nat og_lock_size) tiles in keep_linked tiles tiles))
        | _ => Some []
        end
  end.

End Choice.

(** ** Operations *)

Inductive effect :=
| EMessage (e : Messages.effect)                (* to the player *)
| ETo (peer : nat) (e : Messages.effect)        (* to a connected peer *)
| EInventory (e : Inventory.effect)
| EArea (peer : nat) (x y : Z) (owner : option string) (lock : Z) (tiles : list (option Z))
    (* the packet of a lock; an entry that was not written is 0 *)
| ELook (peer : nat) (x y : Z) (b : WorldBlock) (* the look of the block *)
| EClearOffers (peer : nat)                     (* [access_offers.clear()] *)
| EPlaced (lock : Z)                            (* the packet 13 to the player *)
| ENick                                         (* [VisualHandle::Nick] *)
| EPicked (lock : Z).                           (* the lock flies to the player *)

(** The player, and what the server counts of him. *)
Record Builder := mkBuilder {
  visitor : Visitor;
  bag : Player;
  worlds_owned : list string;
  w_w : Z
}.

Definition set_bag (p : Player) (t : Builder) : Builder :=
  mkBuilder (visitor t) p (worlds_owned t) (w_w t).

Definition set_blocks (bs : list WorldBlock) (w : World) : World :=
  mkWorld (name w) (owner_name w) (admins w) (world_settings w) (guild_id w) (max_x w) (max_y w)
    (weather w) (fresh_world w) bs (drop_new w).

(** [f] on the block [i]. *)
Definition on_block (i : Z) (f : WorldBlock -> WorldBlock) (w : World) : World :=
  set_blocks (alter f (Z.to_nat i) (blocks w)) w.

Definition set_lock (l : bool) (o : Z) (b : WorldBlock) : WorldBlock :=
  mkBlock (fg b) (bg b) l o (block_owner b) (block_admins b) (spin b) (pr b) (wl b) (id b) (c_ b).
Definition set_fg (v : Z) (b : WorldBlock) : WorldBlock :=
  mkBlock v (bg b) (locked b) (lock_origin b) (block_owner b) (block_admins b) (spin b) (pr b) (wl b)
    (id b) (c_ b).
Definition set_owner (v : string) (b : WorldBlock) : WorldBlock :=
  mkBlock (fg b) (bg b) (locked b) (lock_origin b) v (block_admins b) (spin b) (pr b) (wl b) (id b) (c_ b).
Definition no_admins (b : WorldBlock) : WorldBlock :=
  mkBlock (fg b) (bg b) (locked b) (lock_origin b) (block_owner b) [] (spin b) (pr b) (wl b) (id b) (c_ b).

(** The members of [reset_] that are modelled. *)
Definition reset_ (b : WorldBlock) : WorldBlock :=
  mkBlock 0 (if fg b =? 0 then 0 else bg b) (locked b) (lock_origin b) EmptyString [] false 0 0 0 0.

(** [locked = false, lock_origin = -1] of the listed blocks. *)
Definition release (l : list Z) (w : World) : World :=
  fold_left (λ w i, on_block i (set_lock false (-1)) w) l w.

(** The tiles of a new area: a tile that is locked keeps its lock. *)
Fixpoint lock_area (o : Z) (tiles : list (Z * Z)) (w : World) : option (World * list (option Z)) :=
  match tiles with
  | [] => Some (w, [])
  | (x, y) :: tiles =>
      let sq := number x y in
      b ← block_at w sq;
      let '(w, entry) := if locked b then (w, None)
                         else (on_block sq (set_lock true o) w, Some sq) in
      '(w, entries) ← lock_area o tiles w; Some (w, entry :: entries)
  end.

Section Locks.
Context (items : table) (modify : modify_fn).
(** The worlds of the connected peers, and [Event()->Comet_Dust]. *)
Context (peers : list string) (Comet_Dust : bool).

Definition is_lock (b : WorldBlock) : bool := bool_decide (blockType (item items (fg b)) = LOCK).

Definition to_world (w : World) (f : nat -> list effect) : list effect :=
  mjoin (imap (λ k v, if String.eqb v (name w) then f k else []) peers).

Definition play_sfx (file : string) : list Messages.effect :=
  Messages.Log (cat ["action|play_sfx"; endl; "file|"; file; endl; "delayMS|0"]) "" "google.com".
Definition use_lock : list Messages.effect := Messages.OnPlaySound "audio/use_lock.wav" 0.
Definition console (k : nat) (text : string) : list effect :=
  ETo k <$> Messages.OnConsoleMessage text false 0.
Definition bubble (p : Player) (text : string) (overlay : bool) : list effect :=
  EMessage <$> Messages.OnTalkBubble (netID p) text 0 overlay 0 false.

(** [upd_lock], with the flags [scanned] of the world. *)
Definition upd_test (w : World) (o n : Z) : option bool :=
  if inside w n then belongs w o n else Some false.

Definition upd_lock (block_2 : WorldBlock) (w : World) (scanned : gset Z)
    : option (list effect * gset Z) :=
  let origin := lock_origin block_2 in
  if (length (blocks w) =? 0)%nat || (origin <? 0) then Some ([], scanned)
  else if negb (inside w origin) then Some ([], scanned)
  else
    block_ ← block_at w origin;
    if negb (is_lock block_) then Some ([], scanned)
    else
      found ← spread (walk_fuel w) (λ _, false) (upd_test w origin) (around w) [origin] 0 scanned;
      let x := origin mod 100 in
      let y := origin / 100 in
      Some (to_world w (λ k, [EArea k x y (Some (to_lower (block_owner block_))) (fg block_) (Some <$> found);
                              ELook k x y block_]),
            (scanned ∪ list_to_set found) ∖ list_to_set found).

(** The blocks of the area around a lock. *)
Definition area (w : World) (o : Z) : option (list Z) := walk w (belongs w o) o.

Definition remove_lock_broken (x_ y_ : Z) (w : World) : option (World * list effect) :=
  let o := number x_ y_ in
  let w1 := on_block o (λ b, set_owner EmptyString (no_admins b)) w in
  if size_of w <? 100 then None
  else
    found ← area w1 o;
    Some (release found w1, to_world w (λ k, [EClearOffers k])).

(** A locked block whose lock is gone, or became a world lock. *)
Definition free_orphan (b : WorldBlock) (w : World) : option (World * list effect) :=
  if negb (locked b) then Some (w, [])
  else
    lock ← block_at w (lock_origin b);
    if (fg lock =? 242) || negb (is_lock lock)
    then remove_lock_broken (lock_origin b mod 100) (lock_origin b / 100) w
    else Some (w, []).

(** [lock_tiles] and the message about the new area. *)
Definition new_area (fuel : nat) (signal : list Messages.effect) (x_ y_ size lock : Z) (owner : string)
    (w : World)
    : option (World * list effect) :=
  tiles ← lock_tiles items w x_ y_ size fuel;
  '(w, entries) ← lock_area (number x_ y_) tiles w;
  Some (w, to_world w (λ k, (ETo k <$> signal) ++ [EArea k x_ y_ (Some (to_lower owner)) lock entries])).

(** ** Placing a lock *)

Definition safe_dis (p_ : Z) : Z :=
  if (p_ =? 206) || (p_ =? 4994) then 7 else if p_ =? 204 then 3 else 0.

Definition too_close (p_ x_ y_ : Z) (w : World) : option string :=
  let d := safe_dis p_ in
  let n := if x_ <? d then d - x_ else if y_ <? d then d - y_
           else if max_x w - d <? x_ then x_ - (max_x w - d)
           else if max_y w - d <? y_ then y_ - (max_y w - d) else 0 in
  if (x_ <? d) || (y_ <? d) || (max_x w - d <? x_) || (max_y w - d <? y_)
  then Some (cat ["You can't place that here, move "; to_string n; " block away from border!"])
  else None.

Definition must_own : string := "You must be world owner to place locks!".

(** Why a small lock is refused. *)
Definition small_refused (p_ x_ y_ : Z) (who : string) (w : World) (b : WorldBlock) : option (option string) :=
  if negb (is_empty (owner_name w)) && negb (iequals (owner_name w) who) then Some (Some must_own)
  else
    other ← (if locked b then
               lock ← block_at w (lock_origin b); Some (negb (iequals (block_owner lock) who))
             else Some false);
    if other : bool then Some (Some must_own) else Some (too_close p_ x_ y_ w).

Definition world_lock_weather (p_ weather : Z) : Z :=
  if p_ =? 11550 then 54 else if p_ =? 11586 then 55 else if p_ =? 10410 then 53
  else if p_ =? 11902 then 58 else if p_ =? 12654 then 63 else weather.

Definition weather_lock (p_ : Z) : bool := existsb (Z.eqb p_) [11902; 11550; 11586; 10410; 12654].

Definition set_world_owner (who : string) (v : Z) (w : World) : World :=
  mkWorld (name w) who (admins w) (world_settings w) (guild_id w) (max_x w) (max_y w)
    v (fresh_world w) (blocks w) (drop_new w).

(** Somebody else's small lock stands in the world. *)
Definition foreign_lock (who : string) (b : WorldBlock) : bool :=
  small_lock (fg b) && negb (iequals (block_owner b) who).

(** The lock stands: [block_->fg = p_], and it leaves the backpack. *)
Definition put_lock (p_ o : Z) (mag_place : bool) (w : World) (t : Builder)
    : option (World * Builder * list effect) :=
  let w := on_block o (set_fg p_) w in
  if mag_place then Some (w, t, [])
  else
    r ← modify p_ (-1) false false (bag t);
    Some (w, set_bag (pl_out r) t, EInventory <$> effs r).

Definition place_small_lock (fuel : nat) (p_ x_ y_ : Z) (mag_place : bool) (w : World) (t : Builder)
    : option (World * Builder * list effect * option bool) :=
  let o := number x_ y_ in
  let who := name_of (visitor t) in
  b ← block_at w o;
  refused ← small_refused p_ x_ y_ who w b;
  match refused with
  | Some text => Some (w, t, bubble (bag t) text false, Some true)
  | None =>
      let w := on_block o (set_owner who) w in
      '(w, es) ← new_area fuel use_lock x_ y_ (lock_size_of p_) p_ who w;
      '(w, t, taken) ← put_lock p_ o mag_place w t;
      Some (w, t, es ++ bubble (bag t) "Area locked." false ++ [EPlaced p_] ++ taken, None)
  end.

Definition place_world_lock (p_ x_ y_ : Z) (mag_place : bool) (w : World) (t : Builder)
    : option (World * Builder * list effect * option bool) :=
  let o := number x_ y_ in
  let who := name_of (visitor t) in
  let refuse text := Some (w, t, bubble (bag t) text false, Some false) in
  if negb (is_empty (owner_name w)) then
    refuse "Only one `$World Lock`` can be placed in a world, you'd have to remove the other one first."
  else if existsb (foreign_lock who) (blocks w) then
    refuse "Your `$World Lock`` can't be placed in this world unless everyone else's locks are removed."
  else
    let t := mkBuilder (visitor t) (bag t) (worlds_owned t ++ [name w]) (i32 (w_w t + 1)) in
    let w := set_world_owner who (world_lock_weather p_ (weather w)) w in
    let color := Prefix2 (visitor t) w in
    let text := cat ["`5[```w"; name w; "`` has been `$World Locked`` by ";
                     if String.eqb color "`0" then who else cat [color; who; "``"]; "`5]``"] in
    let v := if Comet_Dust then 16 else if weather w =? 0 then 80 else weather w in
    let es := (if weather_lock p_ then to_world w (λ k, ETo k <$> Messages.OnSetCurrentWeather v 0) else []) ++ [ENick] ++
      to_world w (λ k, (ETo k <$> use_lock) ++ [EArea k x_ y_ (Some (to_lower who)) p_ []] ++
        console k text ++ (ETo k <$> Messages.OnTalkBubble (netID (bag t)) text 0 false 0 false)) in
    '(w, t, taken) ← put_lock p_ o mag_place w t;
    Some (w, t, es ++ [EPlaced p_] ++ taken, None).

(** The lock [p_] at [x_], [y_]: the value that [edit_tile] returns at once,
    or [None] when it goes on. *)
Definition place_lock (fuel : nat) (p_ x_ y_ : Z) (mag_place : bool) (w : World) (t : Builder)
    : option (World * Builder * list effect * option bool) :=
  if small_lock p_ then place_small_lock fuel p_ x_ y_ mag_place w t
  else place_world_lock p_ x_ y_ mag_place w t.

(** A small lock breaks into the backpack, or not at all. *)
Definition break_small_lock (x_ y_ : Z) (w : World) (t : Builder)
    : option (World * Builder * list effect * bool) :=
  let o := number x_ y_ in
  b ← block_at w o;
  r ← modify (fg b) 1 false false (bag t);
  let t := set_bag (pl_out r) t in
  let moved := EInventory <$> effs r in
  if negb (ret r =? 0) then
    Some (w, t, moved ++ bubble (bag t) "`wI better not break that, i have no room to pick it up!" true, false)
  else
    '(w, es) ← remove_lock_broken x_ y_ w;
    Some (on_block o reset_ w, t, moved ++ es ++ [EPicked (fg b)], true).

(** ** Choosing the area again *)

(** The test of a lock that ignores empty air ([invert]). *)
Definition built (w : World) (n : Z) : option bool :=
  b ← block_at w n;
  Some ((negb (locked b) && negb (fg b =? 0) && not_mod items b n (size_of w)) ||
        (negb (locked b) && negb (bg b =? 0) && (fg b =? 0))).

Definition reapply (fuel : nat) (x_ y_ : Z) (invert : bool) (w : World) (t : Builder)
    : option (World * list effect) :=
  let o := number x_ y_ in
  let who := name_of (visitor t) in
  b ← block_at w o;
  if size_of w <? 100 then None
  else
    old ← area w o;
    let w := release old w in
    let size := lock_size_of (fg b) in
    if negb invert then new_area fuel (play_sfx "audio/use_lock.wav") x_ y_ size (fg b) who w
    else
      found ← spread (walk_fuel w) (λ n, size <=? Z.of_nat n) (built w) (around w) [o] 0 ∅;
      let w := fold_left (λ w i, on_block i (set_lock true o) w) found w in
      b ← block_at w o;
      let owner := if iequals (block_owner b) who then Some (to_lower who) else None in
      let file := if (length found =? 0)%nat then "audio/use_lock.wav" else "audio/friend_logoff.wav" in
      Some (w, to_world w (λ k, (ETo k <$> play_sfx file) ++
                [EArea k x_ y_ owner (fg b) (Some <$> found); ELook k x_ y_ b])).

End Locks.

End Area.
