(* ===== verification/AreaFacts.v ===== *)
(** * AreaFacts: what is proved about the areas of locks

    A walk over the blocks finds what can be reached, a new area is connected
    with its lock, and the areas of a world stay connected with locks that
    stand: so that the removal of a lock frees its whole area and nothing
    else. *)
From S2P Require Import Prelude Items Inventory World Access Area.
Import Items World Inventory Access Area.

Module AreaFacts.

(** ** Walks *)

(** [b] is a neighbour of [a] that is in the set [P]. *)
Definition edge (next : Z -> list Z) (P : Z -> Prop) (a b : Z) : Prop := b ∈ next a /\ P b.

Lemma edge_mono next (P Q : Z -> Prop) a b :
  (forall n, P n -> Q n) -> tc (edge next P) a b -> tc (edge next Q) a b.
Proof.
  intros HPQ. induction 1 as [a b [H1 H2]|a b c [H1 H2] _ IH].
  - apply tc_once. by split; [|apply HPQ].
  - eapply tc_l; [|exact IH]. by split; [|apply HPQ].
Qed.

Lemma edge_end next P a b : tc (edge next P) a b -> P b.
Proof. induction 1 as [a b [_ H]|a b c _ _ IH]; done. Qed.

Lemma visit_spec test l : forall seen new seen',
  visit test l seen = Some (new, seen') ->
  seen' = list_to_set new ∪ seen /\ NoDup new /\
  (forall n, n ∈ new -> n ∈ l /\ n ∉ seen /\ test n = Some true) /\
  (forall n, n ∈ l -> test n = Some true -> n ∈ seen').
Proof.
  induction l as [|n l IH]; intros seen new seen'; cbn [visit].
  - intros [= <- <-]. split_and!; [set_solver|constructor|set_solver|set_solver].
  - destruct (test n) as [ok|] eqn:En; cbn [mbind option_bind]; [|done].
    destruct (ok && bool_decide (n ∉ seen)) eqn:Ed.
    + apply andb_true_iff in Ed as [-> Hn%bool_decide_eq_true].
      destruct (visit test l ({[n]} ∪ seen)) as [[new1 seen1]|] eqn:Ev; cbn [mbind option_bind]; [|done].
      intros [= <- <-]. destruct (IH _ _ _ Ev) as (-> & Hd & Hin & Hall). split_and!.
      * cbn. set_solver.
      * apply list.NoDup_cons. split; [|done]. intros (_ & H & _)%Hin. set_solver.
      * intros m [->|Hm]%elem_of_cons; [split_and!; [constructor|done|done]|].
        destruct (Hin m Hm) as (? & ? & ?). split_and!; [by right|set_solver|done].
      * intros m [->|Hm]%elem_of_cons Ht; [set_solver|]. by apply Hall.
    + intros Hv. destruct (IH _ _ _ Hv) as (-> & Hd & Hin & Hall). split_and!; [done|done| |].
      * intros m Hm. destruct (Hin m Hm) as (? & ? & ?). split_and!; [by right|done|done].
      * intros m [->|Hm]%elem_of_cons Ht; [|by apply Hall].
        rewrite Ht in En. injection En as <-. cbn in Ed.
        apply bool_decide_eq_false in Ed. apply dec_stable in Ed. set_solver.
Qed.

(** Found blocks are new, pass the test, and are reached over found blocks. *)
Lemma spread_sound enough test next fuel : forall queue count seen found,
  spread fuel enough test next queue count seen = Some found ->
  NoDup found /\
  forall n, n ∈ found -> n ∉ seen /\ test n = Some true /\
    exists q, q ∈ queue /\ tc (edge next (λ m, m ∈ found)) q n.
Proof.
  induction fuel as [|fuel IH]; intros queue count seen found; cbn [spread]; [done|].
  assert (NoDup (@nil Z) /\ forall n, n ∈ @nil Z -> n ∉ seen /\ test n = Some true /\
    exists q, q ∈ queue /\ tc (edge next (λ m, m ∈ @nil Z)) q n) as Hnil by (split; [constructor|set_solver]).
  destruct queue as [|sq queue]; [by intros [= <-]|].
  destruct (enough count); [by intros [= <-]|].
  destruct (visit test (next sq) seen) as [[new seen1]|] eqn:Ev; cbn [mbind option_bind]; [|done].
  destruct (spread _ _ _ _ _ _ _) as [rest|] eqn:Es; cbn [mbind option_bind]; [|done].
  intros [= <-]. destruct (visit_spec _ _ _ _ _ Ev) as (-> & Hd & Hin & _).
  destruct (IH _ _ _ _ Es) as [Hdr Hr]. split.
  - apply list.NoDup_app. split_and!; [done| |done]. intros n Hn Hn'. apply Hr in Hn' as [Hn' _]. set_solver.
  - intros n [Hn|Hn]%elem_of_app.
    + destruct (Hin n Hn) as (? & ? & ?). split_and!; [done|done|]. exists sq. split; [constructor|].
      apply tc_once. split; [done|set_solver].
    + destruct (Hr n Hn) as (Hns & Ht & q & Hq & Hp). split_and!; [set_solver|done|].
      apply (edge_mono _ _ (λ m, m ∈ new ++ rest)) in Hp; [|set_solver].
      apply elem_of_app in Hq as [Hq|Hq]; [exists q; split; [by right|done]|].
      exists sq. split; [constructor|]. destruct (Hin q Hq) as (? & _ & _).
      eapply tc_l; [|exact Hp]. split; [done|set_solver].
Qed.

(** Without an early end, what can be reached is found or was seen before. *)
Lemma spread_closed test next fuel : forall queue count seen found,
  spread fuel (λ _, false) test next queue count seen = Some found ->
  forall q n, q ∈ queue \/ q ∈ found -> n ∈ next q -> test n = Some true -> n ∈ seen \/ n ∈ found.
Proof.
  induction fuel as [|fuel IH]; intros queue count seen found; cbn [spread]; [done|].
  destruct queue as [|sq queue]; [intros [= <-]; set_solver|].
  destruct (visit test (next sq) seen) as [[new seen1]|] eqn:Ev; cbn [mbind option_bind]; [|done].
  destruct (spread _ _ _ _ _ _ _) as [rest|] eqn:Es; cbn [mbind option_bind]; [|done].
  intros [= <-] q n Hq Hn Ht. destruct (visit_spec _ _ _ _ _ Ev) as (-> & _ & _ & Hall).
  destruct (decide (q = sq)) as [->|Hne].
  - specialize (Hall n Hn Ht). set_solver.
  - destruct (IH _ _ _ _ Es q n) as [H|H]; [|done|done|set_solver|set_solver]. set_solver.
Qed.

Lemma spread_exact test next fuel o found :
  spread fuel (λ _, false) test next [o] 0 ∅ = Some found ->
  NoDup found /\ forall n, n ∈ found <-> tc (edge next (λ m, test m = Some true)) o n.
Proof.
  intros H. destruct (spread_sound _ _ _ _ _ _ _ _ H) as [Hd Hs].
  pose proof (spread_closed _ _ _ _ _ _ _ H) as Hc. split; [done|]. intros n. split.
  - intros Hn. destruct (Hs n Hn) as (_ & _ & q & ->%list_elem_of_singleton & Hp).
    eapply edge_mono; [|exact Hp]. intros m Hm. by apply Hs.
  - assert (forall a, tc (edge next (λ m, test m = Some true)) a n ->
      a = o \/ a ∈ found -> n ∈ found) as Hgen; [|intros Hp; by eapply Hgen; [exact Hp|left]].
    induction 1 as [a b [H1 H2]|a b c [H1 H2] _ IH]; intros Ha.
    + destruct (Hc a b) as [?|?]; [set_solver|done|done|set_solver|done].
    + apply IH. right. destruct (Hc a b) as [?|?]; [set_solver|done|done|set_solver|done].
Qed.

(** A visit reads the tests of the neighbours only. *)
Lemma visit_some test l : forall seen, (forall n, n ∈ l -> is_Some (test n)) -> is_Some (visit test l seen).
Proof.
  induction l as [|n l IH]; intros seen Hl; cbn [visit]; [by eexists|].
  destruct (Hl n) as [ok ->]; [constructor|]. cbn [mbind option_bind]. case_match.
  - destruct (IH ({[n]} ∪ seen)) as [[??] ->]; [set_solver|]. by eexists.
  - apply IH. set_solver.
Qed.

(** What is new to a visit inside of [U] is no longer to be found there. *)
Lemma visit_count test l (U : gset Z) seen new seen' :
  visit test l seen = Some (new, seen') -> (forall n, n ∈ l -> test n = Some true -> n ∈ U) ->
  (length new + base.size (U ∖ seen') = base.size (U ∖ seen))%nat.
Proof.
  intros Ev HU. destruct (visit_spec _ _ _ _ _ Ev) as (-> & Hd & Hin & _).
  assert (base.size (list_to_set new : gset Z) = length new) as Hs by by apply size_list_to_set.
  assert (U ∖ seen = (list_to_set new : gset Z) ∪ (U ∖ (list_to_set new ∪ seen))) as E.
  { apply set_eq. intros x. rewrite elem_of_union, !elem_of_difference, elem_of_union, elem_of_list_to_set.
    split; [destruct (decide (x ∈ new)); tauto|]. intros [Hx|Hx]; [|tauto].
    destruct (Hin x Hx) as (? & ? & Ht). split; [by apply HU|done]. }
  rewrite E. pose proof (size_union (list_to_set new : gset Z) (U ∖ (list_to_set new ∪ seen))) as Hu.
  rewrite Hu by set_solver. lia.
Qed.

(** A walk inside a set [U] of blocks ends within [length queue + size U]
    steps. *)
Lemma spread_total enough test next (U : gset Z) fuel : forall queue count seen,
  (forall m n, m ∈ queue \/ m ∈ U -> n ∈ next m -> is_Some (test n)) ->
  (forall m, test m = Some true -> m ∈ U) ->
  (length queue + base.size (U ∖ seen) < fuel)%nat ->
  is_Some (spread fuel enough test next queue count seen).
Proof.
  induction fuel as [|fuel IH]; intros queue count seen Hdef HU Hf; [lia|]. cbn [spread].
  destruct queue as [|sq queue]; [by eexists|]. destruct (enough count); [by eexists|].
  destruct (visit_some test (next sq) seen) as [[new seen1] Ev].
  { intros n Hn. eapply Hdef; [left; constructor|exact Hn]. }
  rewrite Ev. cbn [mbind option_bind].
  pose proof (visit_count test _ U _ _ _ Ev (λ n _, HU n)) as Hs.
  destruct (visit_spec _ _ _ _ _ Ev) as (_ & _ & Hin & _).
  destruct (IH (queue ++ new) (count + length new)%nat seen1) as [rest ->]; [..|by eexists]; [|done|].
  - intros m n [[Hm|Hm]%elem_of_app|Hm] Hn; [eapply Hdef; [left; by right|exact Hn]| |by eapply Hdef; [right|]].
    eapply Hdef; [right|exact Hn]. apply HU. by apply Hin.
  - rewrite length_app. cbn [length] in Hf. lia.
Qed.

(** ** Blocks *)

Lemma block_at_some w i b :
  block_at w i = Some b <-> 0 <= i /\ blocks w !! Z.to_nat i = Some b.
Proof. unfold block_at. case_match; [split; [done|lia]|]. split; [intros ?; split; [lia|done]|tauto]. Qed.

Lemma block_at_inside w i : is_Some (block_at w i) <-> inside w i = true.
Proof.
  unfold block_at, inside, size_of. case_match eqn:E; [split; [by intros []|lia]|].
  rewrite lookup_lt_is_Some. lia.
Qed.

Lemma block_at_on_block i f w j :
  0 <= i -> block_at (on_block i f w) j = if decide (j = i) then f <$> block_at w j else block_at w j.
Proof.
  intros Hi. unfold block_at, on_block. cbn [blocks set_blocks].
  destruct (j <? 0) eqn:E; [by case_decide|]. destruct (decide (j = i)) as [->|Hne].
  - by rewrite list_lookup_alter, decide_True.
  - rewrite list_lookup_alter, decide_False by lia. done.
Qed.

(** Two worlds with the same shape. *)
Definition alike (w w' : World) : Prop :=
  max_x w' = max_x w /\ max_y w' = max_y w /\ length (blocks w') = length (blocks w).

Lemma alike_refl w : alike w w.
Proof. done. Qed.

Lemma alike_trans w1 w2 w3 : alike w1 w2 -> alike w2 w3 -> alike w1 w3.
Proof. intros (?&?&?) (?&?&?). unfold alike. split_and!; congruence. Qed.

Lemma alike_on_block i f w : alike w (on_block i f w).
Proof. split_and!; [done|done|]. cbn [blocks set_blocks on_block]. apply length_alter. Qed.

Lemma alike_around w w' : alike w w' -> around w' = around w.
Proof. intros (E1 & E2 & _). unfold around. by rewrite E1, E2. Qed.

Lemma alike_inside w w' i : alike w w' -> inside w' i = inside w i.
Proof. intros (_ & _ & E). unfold inside, size_of. by rewrite E. Qed.

#[local] Hint Resolve alike_refl alike_on_block : core.

(** Operations on a list of blocks, one after the other. *)
Lemma fold_on_block f l : forall w,
  (forall i, i ∈ l -> 0 <= i) -> (forall b, f (f b) = f b) ->
  let w' := fold_left (λ w i, on_block i f w) l w in
  alike w w' /\ forall j, block_at w' j = if decide (j ∈ l) then f <$> block_at w j else block_at w j.
Proof.
  induction l as [|i l IH]; intros w Hl Hf; cbn [fold_left].
  - split; [done|]. intros j. by rewrite decide_False by set_solver.
  - destruct (IH (on_block i f w)) as [Ha Hb]; [set_solver|done|]. split; [by eapply alike_trans|].
    intros j. rewrite Hb, block_at_on_block by (apply Hl; set_solver).
    rewrite (decide_ext (j ∈ i :: l) (j = i \/ j ∈ l)) by apply elem_of_cons.
    repeat case_decide; try (exfalso; tauto); try done. destruct (block_at w j); cbn; congruence.
Qed.

(** A world as the server makes it: 100 blocks in a row. *)
Definition regular (w : World) : Prop :=
  max_x w = 100 /\ 1 <= max_y w /\ size_of w = 100 * max_y w.

Lemma regular_alike w w' : alike w w' -> regular w -> regular w'.
Proof. intros (E1 & E2 & E3) (?&?&?). unfold regular, size_of in *. rewrite E1, E2, E3. done. Qed.

Lemma number_split n : number (n mod 100) (n / 100) = n.
Proof. unfold number. Z.div_mod_to_equations; lia. Qed.

Lemma number_mod x y : 0 <= x < 100 -> number x y mod 100 = x /\ number x y / 100 = y.
Proof. intros. unfold number. Z.div_mod_to_equations; lia. Qed.

(** The neighbours, by their numbers. *)
Lemma around_spec w n m :
  regular w ->
  m ∈ around w n <->
    (m = n + 1 /\ n mod 100 < 99) \/ (m = n - 1 /\ 0 < n mod 100) \/
    (m = n + 100 /\ n / 100 < max_y w - 1) \/ (m = n - 100 /\ 0 < n / 100).
Proof.
  intros (Ex & _ & _). pose proof (number_split n) as E. unfold around, number in *. rewrite Ex. cbv zeta.
  repeat case_match; set_unfold; lia.
Qed.

Lemma around_inside w n m : regular w -> inside w n = true -> m ∈ around w n -> inside w m = true.
Proof.
  intros Hw Hn Hm. apply around_spec in Hm; [|done]. destruct Hw as (_ & H & E). unfold inside in *. rewrite E in *.
  Z.div_mod_to_equations; lia.
Qed.

Lemma around_sym w n m :
  regular w -> inside w n = true -> m ∈ around w n -> n ∈ around w m.
Proof.
  intros Hw Hn Hm. pose proof (around_inside w n m Hw Hn Hm) as Hi.
  apply around_spec in Hm; [|done]. apply around_spec; [done|].
  destruct Hw as (_ & H & E). unfold inside in *. rewrite E in *.
  Z.div_mod_to_equations; lia.
Qed.

(** ** Areas *)

(** The blocks that are locked by the lock at [o]. *)
Definition mine (w : World) (o n : Z) : Prop :=
  exists b, block_at w n = Some b /\ locked b = true /\ lock_origin b = o.

Lemma belongs_true w o n : belongs w o n = Some true <-> mine w o n.
Proof.
  unfold belongs, mine. destruct (block_at w n) as [b|]; cbn [mbind option_bind].
  - split; [intros [= [? ?%Z.eqb_eq]%andb_true_iff]; by exists b|].
    intros (c & [= ->] & -> & <-). by rewrite Z.eqb_refl.
  - split; [done|]. by intros (? & ? & _).
Qed.

(** [n] is connected with [o] over blocks of [P]. *)
Definition reach (w : World) (P : Z -> Prop) (o n : Z) : Prop := tc (edge (around w) P) o n.

Lemma reach_mono w w' (P Q : Z -> Prop) o n :
  alike w w' -> (forall m, P m -> Q m) -> reach w P o n -> reach w' Q o n.
Proof. intros Ha HP H. unfold reach. rewrite (alike_around _ _ Ha). by eapply edge_mono. Qed.

Definition total_on (w : World) (test : Z -> option bool) : Prop :=
  forall n, inside w n = true <-> is_Some (test n).

(** The numbers of the blocks of a world. *)
Definition all_numbers (w : World) : gset Z := list_to_set (Z.of_nat <$> seq 0 (length (blocks w))).

Lemma all_numbers_inside w n : n ∈ all_numbers w <-> inside w n = true.
Proof.
  unfold all_numbers. rewrite elem_of_list_to_set, list_elem_of_fmap. unfold inside, size_of. split.
  - intros (k & -> & Hk%elem_of_seq). lia.
  - intros Hn. exists (Z.to_nat n). rewrite elem_of_seq. split; lia.
Qed.

Lemma all_numbers_size w : (base.size (all_numbers w) <= length (blocks w))%nat.
Proof.
  unfold all_numbers. rewrite size_list_to_set; [by rewrite length_fmap, length_seq|]. apply (NoDup_fmap_2 _), NoDup_seq.
Qed.

Lemma walk_some w test enough o :
  regular w -> inside w o = true -> total_on w test ->
  is_Some (spread (walk_fuel w) enough test (around w) [o] 0 ∅).
Proof.
  intros Hw Ho Ht.
  apply (spread_total _ _ _ (all_numbers w)).
  - intros m n Hm Hn. apply Ht. eapply around_inside; [done| |exact Hn].
    destruct Hm as [->%list_elem_of_singleton|Hm%all_numbers_inside]; done.
  - intros m Hm. apply all_numbers_inside, Ht. by eexists.
  - pose proof (all_numbers_size w). assert (base.size (all_numbers w ∖ ∅) <= base.size (all_numbers w))%nat
      by (apply subseteq_size; set_solver).
    unfold walk_fuel. cbn [length]. lia.
Qed.

(** The area of a lock is what is connected with it. *)
Lemma area_spec w o :
  regular w -> inside w o = true ->
  exists found, area w o = Some found /\ NoDup found /\
    forall n, n ∈ found <-> reach w (mine w o) o n.
Proof.
  intros Hw Ho. unfold area, walk.
  destruct (walk_some w (belongs w o) (λ _, false) o Hw Ho) as [found Hf].
  { intros n. rewrite <- block_at_inside. unfold belongs.
    destruct (block_at w n); cbn; split; try done; by intros []. }
  exists found. split; [done|]. destruct (spread_exact _ _ _ _ _ Hf) as [Hd Hn]. split; [done|].
  intros n. rewrite Hn. unfold reach. split; apply edge_mono; intros m; by rewrite belongs_true.
Qed.

(** ** The choice of an area *)

Section Search.
Context (width height count : Z) (free : Z -> bool) (st_x st_y size : Z).
Context (Hx : 1 <= st_x < 100).

Abbreviation st := (number st_x st_y).

(** A tile that may be chosen: not locked, no lock, not of the moderators,
    and not the lock's own block. *)
Definition tile_ok (n : Z) : Prop := free n = true /\ n <> st.

(** Where the entries of each direction are. *)
Definition entry_ok (t : Z * Z) : Prop :=
  (t.2 = 1 /\ t.1 mod 100 < st_x) \/ (t.2 = 2 /\ t.1 / 100 < st_y) \/
  (t.2 = 3 /\ t.1 mod 100 <> st_x) \/ (t.2 = 4 /\ st_y < t.1 / 100).

Definition search_ok (s : Search) : Prop :=
  Forall entry_ok (pending s) /\ Forall (λ t, tile_ok (number t.1 t.2)) (new_lock s) /\ 0 <= layer_ s.

Definition outcome_ok (o : outcome) : Prop :=
  match o with Go s | Enough s => search_ok s | Thrown => True end.

Lemma st_split : st mod 100 = st_x /\ st / 100 = st_y.
Proof. apply number_mod. lia. Qed.

Lemma ok_push t s : search_ok s -> entry_ok t -> search_ok (push t s).
Proof.
  intros (H1 & H2 & H3) Ht. split_and!; [|done|done]. cbn [pending push].
  apply Forall_app_2; [done|]. by constructor.
Qed.

Lemma ok_add x y s : search_ok s -> tile_ok (number x y) -> search_ok (add x y s).
Proof.
  intros (H1 & H2 & H3) Ht. split_and!; [done| |done]. cbn [new_lock add].
  apply Forall_app_2; [done|]. by constructor.
Qed.

Lemma ok_same s s' :
  pending s' = pending s -> new_lock s' = new_lock s -> layer_ s' = layer_ s -> search_ok s -> search_ok s'.
Proof. intros E1 E2 E3 (?&?&?). unfold search_ok. by rewrite E1, E2, E3. Qed.

Lemma ok_and_then o f : outcome_ok o -> (forall s, search_ok s -> outcome_ok (f s)) -> outcome_ok (and_then o f).
Proof. destruct o; cbn; auto. Qed.

Lemma ok_first_tile cond x y wh s :
  search_ok s -> entry_ok (number x y, wh) -> number x y <> st ->
  outcome_ok (first_tile count free cond x y wh s).
Proof.
  intros Hs He Hn. unfold first_tile. case_match; [done|]. case_match; [done|]. cbn [outcome_ok].
  case_match; [|by apply ok_push]. apply ok_add; [by apply ok_push|]. by split.
Qed.

Lemma ok_start : outcome_ok (search_start width height count free st_x st_y size).
Proof.
  unfold search_start. destruct st_split as [E1 E2].
  assert (forall x y wh, entry_ok (number x y, wh) -> number x y <> st -> forall s, search_ok s ->
    forall c, outcome_ok (first_tile count free c x y wh s)) as H by (intros; by apply ok_first_tile).
  unfold entry_ok in H. cbn [fst snd] in H. unfold number in *.
  repeat (apply ok_and_then; [|intros ? ?]); apply H; try done; try lia; try (Z.div_mod_to_equations; lia).
Qed.

Lemma ok_border out x y x' y' wh more s :
  search_ok s -> (more = true -> entry_ok (number x' y', wh)) -> (out = false -> number x' y' <> st) ->
  outcome_ok (border count free size out x y x' y' wh more s).
Proof.
  intros Hs He Hn. unfold border. destruct out; [done|]. specialize (Hn eq_refl).
  case_match; [done|]. case_match; [done|].
  assert (search_ok (scan (number x y) s)) as Hs1 by by apply (ok_same s).
  set (s2 := if more then push (number x' y', wh) (scan (number x y) s) else scan (number x y) s).
  assert (search_ok s2) as Hs2 by (subst s2; destruct more; [apply ok_push; auto|done]).
  destruct (free (number x' y')) eqn:Ef.
  - assert (search_ok (add x' y' s2)) by (apply ok_add; [done|by split]). by case_match.
  - case_match; [done|]. by apply (ok_same s2).
Qed.

Lemma ok_grow t s :
  width = 100 -> entry_ok t -> search_ok s -> outcome_ok (grow width height count free size t s).
Proof.
  intros Hm He Hs. destruct t as [i wh]. unfold grow. destruct st_split as [E1 E2].
  pose proof (number_split i) as Ei. unfold entry_ok in He. cbn [fst snd] in He.
  assert (0 <= i mod 100 < 100) by (apply Z.mod_pos_bound; lia).
  set (x := i mod 100) in *. set (y := i / 100) in *. clearbody x y. rewrite Hm.
  repeat case_match; apply ok_border; try done; unfold entry_ok, number in *; cbn [fst snd]; intros.
  all: Z.div_mod_to_equations; lia.
Qed.

Lemma ok_corner idle x y wh v s :
  search_ok s -> entry_ok (number x y, wh) -> number x y <> st ->
  outcome_ok (corner count free size idle x y wh v s).
Proof.
  intros Hs He Hn. unfold corner. case_match; [done|].
  assert (search_ok (push (number x y, wh) (set_max wh v s))) as Hp
    by (apply ok_push; [by apply (ok_same s)|done]).
  case_match; [apply ok_add; [done|by split]|]. case_match; [done|]. cbn [outcome_ok].
  case_match; [done|]. by eapply ok_same; [..|exact Hp].
Qed.

Lemma first_unscanned_spec out pos seen fuel : forall t e k,
  first_unscanned count fuel out pos seen t e = Found k -> t <= k /\ out k = false.
Proof.
  induction fuel as [|fuel IH]; intros t e k; cbn [first_unscanned]; [done|].
  destruct (out t) eqn:Eo; [done|]. case_match; [done|]. case_match.
  - intros (? & ?)%IH. split; [lia|done].
  - intros [= <-]. split; [lia|done].
Qed.

Lemma ok_turn o out pos cut f r :
  (forall x, o = Some x -> outcome_ok x) ->
  (forall k s, search_ok s -> 2 <= k -> out k = false -> outcome_ok (f k s)) ->
  turn count st_y o out pos cut f = Some r -> outcome_ok r.
Proof.
  intros Ho Hf. unfold turn. destruct o as [x|]; cbn [mbind option_bind]; [|done]. specialize (Ho x eq_refl).
  destruct x as [s|s|]; [|by intros [= <-]|by intros [= <-]]. cbn [outcome_ok] in Ho.
  assert (forall c : bool, search_ok (if c then set_layer 0 s else s)) as Hc.
  { intros []; [|done]. destruct Ho as (?&?&?). by split_and!. }
  destruct (look count out pos (scanned s)) as [e|k| |] eqn:El; [| | |done].
  - intros [= <-]. apply Hc.
  - intros [= <-]. unfold look in El. do 3 (case_match; [done|]).
    apply first_unscanned_spec in El as [? ?]. by apply Hf.
  - by intros [= <-].
Qed.

Lemma ok_spiral s r :
  width = 100 -> search_ok s -> spiral width height count free st_x st_y size s = Some r -> outcome_ok r.
Proof.
  intros Hm Hs. unfold spiral. destruct st_split as [E1 E2].
  set (s1 := set_layer _ s). assert (search_ok s1) as Hs1.
  { destruct Hs as (?&?&?). split_and!; [done|done|]. cbn [layer_ set_layer s1]. case_match; lia. }
  clearbody s1. rewrite Hm.
  repeat (apply ok_turn; [intros ?|intros k s' Hs' Hk Ho; apply ok_corner; [exact Hs'|..];
    destruct Hs' as (_ & _ & Hl); unfold entry_ok, number in *; cbn [fst snd];
    Z.div_mod_to_equations; lia]).
  by intros [= <-].
Qed.

Lemma ok_round s r :
  width = 100 -> search_ok s -> round width height count free st_x st_y size s = Some r -> outcome_ok r.
Proof.
  intros Hm Hs. unfold round. destruct (pending s) as [|t ts] eqn:Ep; [by intros [= <-]|].
  case_match; [by intros [= <-]|].
  assert (outcome_ok (grow width height count free size t (pop s))) as Hg.
  { destruct Hs as (Hp & Hn & Hl). rewrite Ep in Hp. apply list.Forall_cons in Hp as [Ht Hp].
    apply ok_grow; [done|done|]. split_and!; [|done|done]. cbn [pending pop]. by rewrite Ep. }
  destruct (grow width height count free size t (pop s)) as [s1|s1|]; [|by intros [= <-]..].
  destruct (pending s1); [by apply ok_spiral|by intros [= <-]].
Qed.

Lemma ok_search fuel : forall s l,
  width = 100 -> search_ok s -> search width height count free st_x st_y size fuel s = Some (Some l) ->
  Forall (λ t, tile_ok (number t.1 t.2)) l.
Proof.
  induction fuel as [|fuel IH]; intros s l Hm Hs; cbn [search]; [done|].
  destruct (round width height count free st_x st_y size s) as [o|] eqn:Er; cbn [mbind option_bind]; [|done].
  apply ok_round in Er; [|done|done]. destruct o as [s1|s1|]; [by apply IH|intros [= <-]; apply Er|done].
Qed.

End Search.

(** ** The second part of the choice *)

Section Choice.
Context (items : table) (w : World) (st_x st_y size : Z).
Context (Hx : 1 <= st_x < 100).

Abbreviation st := (number st_x st_y).
Abbreviation ok_here := (tile_ok (free_block items w) st_x st_y).


Definition numbers (tiles : list (Z * Z)) : list Z := (λ t, number t.1 t.2) <$> tiles.

Lemma keep_linked_spec all l r :
  keep_linked w st_x st_y all l = Some r ->
  r `sublist_of` l /\ forall t, t ∈ l -> linked w st_x st_y all t = Some true -> t ∈ r.
Proof.
  revert r. induction l as [|t l IH]; intros r; cbn [keep_linked]; [intros [= <-]; split; [done|set_solver]|].
  destruct (linked w st_x st_y all t) as [ok|] eqn:El; cbn [mbind option_bind]; [|done].
  destruct (keep_linked w st_x st_y all l) as [r'|]; cbn [mbind option_bind]; [|done].
  intros [= <-]. destruct (IH r' eq_refl) as [Hs Hk]. split.
  - destruct ok; [by apply sublist_skip|by apply sublist_cons].
  - intros u [->|Hu]%elem_of_cons Hl; [rewrite Hl in El; injection El as <-; by left|].
    destruct ok; [right|]; by apply Hk.
Qed.

Lemma kept_linked all l r t :
  keep_linked w st_x st_y all l = Some r -> t ∈ r -> linked w st_x st_y all t = Some true.
Proof.
  revert r. induction l as [|u l IH]; intros r; cbn [keep_linked]; [intros [= <-]; set_solver|].
  destruct (linked w st_x st_y all u) as [ok|] eqn:El; cbn [mbind option_bind]; [|done].
  destruct (keep_linked w st_x st_y all l) as [r'|]; cbn [mbind option_bind]; [|done].
  intros [= <-] Ht. destruct ok; [|by eapply IH]. apply elem_of_cons in Ht as [->|Ht]; [done|by eapply IH].
Qed.

Lemma chosen_true all n :
  chosen w st_x st_y all n = Some true <->
  inside w n = true /\ (n ∈ numbers all \/ mine w st n).
Proof.
  unfold chosen, mine. rewrite <- block_at_inside. destruct (block_at w n) as [b|]; cbn [mbind option_bind].
  - assert (existsb (λ t, number t.1 t.2 =? n) all = true <-> n ∈ numbers all) as E.
    { rewrite existsb_exists. unfold numbers. rewrite list_elem_of_fmap. setoid_rewrite <- list_elem_of_In.
      split; intros (t & H1 & H2); exists t; split; try done; lia. }
    split.
    + intros [= [H|H]%orb_true_iff]; split; try done; [left; by apply E|].
      right. apply andb_true_iff in H as [? ?%Z.eqb_eq]. by exists b.
    + intros [_ [H%E|(c & [= <-] & H1 & H2)]]; f_equal; apply orb_true_iff; [by left|right].
      rewrite H1, H2. by rewrite Z.eqb_refl.
  - split; [done|]. by intros [[] _].
Qed.

Context (Hw : regular w) (Hx98 : st_x <= 98) (Hst : inside w st = true).

Lemma linked_spec all t :
  inside w (number t.1 t.2) = true ->
  exists found, walk w (chosen w st_x st_y all) (number t.1 t.2) = Some found /\
    forall n, n ∈ found <->
      tc (edge (around w) (λ m, chosen w st_x st_y all m = Some true)) (number t.1 t.2) n.
Proof.
  intros Hi. destruct (walk_some w (chosen w st_x st_y all) (λ _, false) _ Hw Hi) as [found Hf].
  { intros n. rewrite <- block_at_inside. unfold chosen.
    destruct (block_at w n); cbn; split; try done; by intros []. }
  exists found. split; [done|]. by apply (spread_exact _ _ _ _ _ Hf).
Qed.

Lemma beside_around m :
  inside w m = true -> m <> st -> beside st_x st_y m = true -> m ∈ around w st.
Proof.
  intros Hm Hne Hb. apply around_spec; [done|]. destruct (st_split st_x st_y Hx) as [E1 E2].
  pose proof (number_split m) as Em. destruct Hw as (_ & H1 & H2).
  unfold beside in Hb. unfold inside in *. rewrite H2 in *. unfold number in *.
  set (a := m mod 100) in *. set (b := m / 100) in *.
  rewrite !orb_true_iff, !Z.eqb_eq in Hb. Z.div_mod_to_equations; lia.
Qed.

(** Walks go back: if [m] is connected with [o] over [K], then so is what
    [m] can be reached from. *)
Lemma reach_back (C K : Z -> Prop) o m :
  (forall v, C v -> inside w v = true) ->
  (forall v, C v -> v = m \/ tc (edge (around w) C) v m -> K v) ->
  reach w K o m -> forall v, C v -> tc (edge (around w) C) v m -> reach w K o v.
Proof.
  intros HCi HK Hstart v Hv Hp. revert Hv HK Hstart.
  induction Hp as [v m [H1 H2]|v u m [H1 H2] Hu IH]; intros Hv HK Hstart.
  - eapply tc_r; [exact Hstart|]. split; [apply around_sym; auto|].
    apply HK; [done|right; by apply tc_once].
  - eapply tc_r; [by apply IH|]. split; [apply around_sym; auto|].
    apply HK; [done|right; by eapply tc_l; [split|]].
Qed.

(** A kept tile is connected with the lock over kept tiles. *)
Lemma kept_reach all r t :
  Forall (λ t, ok_here (number t.1 t.2)) all ->
  (forall b, block_at w st = Some b -> locked b = false) ->
  keep_linked w st_x st_y all all = Some r -> t ∈ r ->
  reach w (λ n, n ∈ numbers r \/ mine w st n) st (number t.1 t.2).
Proof.
  intros Hall Hfree Hk Ht. set (K := λ n, n ∈ numbers r \/ mine w st n).
  set (C := λ m, chosen w st_x st_y all m = Some true).
  assert (forall u, u ∈ all -> ok_here (number u.1 u.2)) as Hok by by apply list.Forall_forall.
  assert (forall n, C n -> inside w n = true) as HCi by (intros n Hn; by apply chosen_true in Hn as [? _]).
  assert (forall n, ok_here n -> inside w n = true) as Hoki.
  { intros n [Hf _]. unfold free_block in Hf. apply block_at_inside. destruct (block_at w n); [done|done]. }
  pose proof (kept_linked _ _ _ _ Hk Ht) as Hl. destruct (keep_linked_spec _ _ _ Hk) as [Hsub Hkeep].
  assert (t ∈ all) as Hta by by eapply elem_of_sublist.
  unfold linked in Hl. destruct (linked_spec all t (Hoki _ (Hok t Hta))) as (found & Ef & Hf).
  rewrite Ef in Hl. cbn [mbind option_bind] in Hl. injection Hl as Hl.
  change (existsb (beside st_x st_y) (number t.1 t.2 :: found) = true) in Hl.
  apply existsb_exists in Hl as (m & Hm & Hb). apply list_elem_of_In in Hm.
  assert (forall v, ok_here v \/ C v -> v <> st) as Hnst.
  { intros v [[_ ?]|[_ [Hv|(b & Hv & Hlo & _)]]%chosen_true]; [done| |].
    - apply list_elem_of_fmap in Hv as (u & -> & Hu). by apply Hok.
    - intros ->. rewrite (Hfree b Hv) in Hlo. done. }
  assert (C (number t.1 t.2)) as HCt.
  { apply chosen_true. split; [by apply Hoki, Hok|left].
    by apply (list_elem_of_fmap_2 (λ t, number t.1 t.2)). }
  assert (forall v, C v -> v = m \/ tc (edge (around w) C) v m -> K v) as HK.
  { intros v Hv Hvm. assert (v ∈ numbers all \/ mine w st v) as [Hin|?]; [|apply list_elem_of_fmap in Hin as (u & -> & Hu)|by right].
    - by apply chosen_true in Hv as [_ ?].
    - left. apply (list_elem_of_fmap_2 (λ t, number t.1 t.2)), Hkeep; [done|].
      destruct (linked_spec all u (Hoki _ (Hok u Hu))) as (fu & Eu & Hfu). unfold linked. rewrite Eu.
      cbn [mbind option_bind]. f_equal. apply existsb_exists. exists m. split; [|done].
      apply list_elem_of_In. destruct Hvm as [<-|Hvm]; [by left|right; by apply Hfu]. }
  assert (C m) as Hmc by (apply elem_of_cons in Hm as [->|Hm]; [done|]; apply Hf in Hm; by eapply (edge_end _ C)).
  assert (reach w K st m) as Hstart.
  { apply tc_once. split; [|apply HK; [done|by left]]. apply beside_around; [by apply HCi|by apply Hnst; right|done]. }
  apply elem_of_cons in Hm as [->|Hm]; [done|]. apply (reach_back C K st m); [done..|]. by apply Hf.
Qed.

(** What [lock_tiles] chooses. *)
Lemma lock_tiles_sound fuel tiles :
  lock_tiles items w st_x st_y size fuel = Some tiles ->
  (length tiles <= Z.to_nat size)%nat /\
  Forall (λ t, ok_here (number t.1 t.2)) tiles /\
  forall t, t ∈ tiles -> reach w (λ n, n ∈ numbers tiles \/ mine w st n) st (number t.1 t.2).
Proof.
  unfold lock_tiles. assert ((length (@nil (Z * Z)) <= Z.to_nat size)%nat /\
    Forall (λ t : Z * Z, ok_here (number t.1 t.2)) [] /\
    forall t : Z * Z, t ∈ [] -> reach w (λ n, n ∈ numbers [] \/ mine w st n) st (number t.1 t.2)) as Hnil
    by (split_and!; [cbn; lia|constructor|set_solver]).
  destruct (block_at w st) as [b|] eqn:Eb; [|by intros [= <-]].
  destruct (locked b) eqn:El; [by intros [= <-]|].
  pose proof (ok_start (max_x w) (max_y w) (size_of w) (free_block items w) st_x st_y size Hx) as Hs.
  destruct (search_start _ _ _ _ _ _ _) as [s|s|]; [|by intros [= <-]..].
  case_match; [done|]. destruct (search _ _ _ _ _ _ _ fuel s) as [r|] eqn:Er; cbn [mbind option_bind]; [|done].
  destruct r as [all|]; cbn [mbind option_bind caught default]; [|by intros [= <-]].
  apply ok_search in Er; [|done|by destruct Hw|done].
  destruct (keep_linked w st_x st_y _ _) as [r|] eqn:Ek; cbn [caught default]; [|by intros [= <-]].
  intros [= <-]. assert (Forall (λ t, ok_here (number t.1 t.2)) (take (Z.to_nat size) all)) as Ht by by apply Forall_take.
  destruct (keep_linked_spec _ _ _ Ek) as [Hsub _]. split_and!.
  - apply sublist_length in Hsub. rewrite length_take in Hsub. lia.
  - apply list.Forall_forall. intros t Hin. rewrite list.Forall_forall in Ht. apply Ht. by eapply elem_of_sublist.
  - intros t Hin. eapply kept_reach; [exact Ht| |exact Ek|exact Hin]. intros c Hc. congruence.
Qed.

End Choice.

End AreaFacts.
