(* ===== verification/LockFacts.v ===== *)
(** * LockFacts: locks and their areas, over time

    Placing, breaking and re-applying locks keeps every locked block
    connected with a lock that stands; the removal of a lock frees its area
    and nothing else. *)
From S2P Require Import Prelude Items Inventory InventoryFacts World Access Area AreaFacts.
Import Items World Inventory InventoryFacts Access Area AreaFacts.

Module LockFacts.

(** ** The locks of the blocks *)

(** Whether a block is locked, and by which lock. *)
Definition lock_view (w : World) (n : Z) : option (bool * Z) :=
  (λ b, (locked b, lock_origin b)) <$> block_at w n.

Lemma mine_view w o n : mine w o n <-> lock_view w n = Some (true, o).
Proof.
  unfold mine, lock_view. destruct (block_at w n) as [b|]; cbn; split.
  - by intros (c & [= <-] & -> & ->).
  - intros [= H1 H2]. by exists b.
  - by intros (? & ? & _).
  - done.
Qed.

#[export] Instance mine_dec w o n : Decision (mine w o n).
Proof. destruct (decide (lock_view w n = Some (true, o))); [left|right]; by rewrite mine_view. Defined.

(** Every locked block is connected with its lock over blocks of the same
    lock. *)
Definition linked_areas (w : World) : Prop :=
  forall n o, mine w o n -> reach w (mine w o) o n.

Definition standing (w : World) (o : Z) : Prop :=
  exists lock, block_at w o = Some lock /\ small_lock (fg lock) = true.

(** ... and the lock stands. *)
Definition locks_stand (w : World) : Prop := forall n o, mine w o n -> standing w o.

Definition areas_ok (w : World) : Prop := regular w /\ linked_areas w /\ locks_stand w.

(** Changes of the locks of blocks. *)
Lemma linked_same w w' :
  alike w w' -> (forall n, lock_view w' n = lock_view w n) -> linked_areas w -> linked_areas w'.
Proof.
  intros Ha Hv Hl n o Hn. rewrite mine_view, Hv, <- mine_view in Hn.
  eapply reach_mono; [exact Ha| |apply Hl, Hn]. intros m. by rewrite !mine_view, Hv.
Qed.

Lemma linked_claim w w' (A : list Z) o :
  alike w w' ->
  (forall n, lock_view w' n = if decide (n ∈ A) then Some (true, o) else lock_view w n) ->
  (forall n o', n ∈ A -> ~ mine w o' n) ->
  (forall n, n ∈ A -> reach w (λ m, m ∈ A \/ mine w o m) o n) ->
  linked_areas w -> linked_areas w'.
Proof.
  intros Ha Hv Hfree Hr Hl n o' Hn.
  assert (forall m, m ∈ A \/ mine w o m -> mine w' o m) as Hin.
  { intros m Hm. apply mine_view. rewrite Hv. case_decide; [done|]. apply mine_view. tauto. }
  rewrite mine_view, Hv in Hn. case_decide as Hd.
  - injection Hn as <-. eapply reach_mono; [exact Ha|exact Hin|by apply Hr].
  - apply mine_view in Hn. eapply reach_mono; [exact Ha| |apply Hl, Hn].
    intros m Hm. apply mine_view. rewrite Hv. case_decide as Hm2; [by destruct (Hfree m o')|]. by apply mine_view.
Qed.

Lemma linked_free w w' (F : list Z) o :
  alike w w' ->
  (forall n, lock_view w' n = if decide (n ∈ F) then Some (false, -1) else lock_view w n) ->
  (forall n, n ∈ F <-> reach w (mine w o) o n) ->
  linked_areas w ->
  linked_areas w' /\ (forall n, ~ mine w' o n) /\ forall n o', mine w' o' n <-> mine w o' n /\ o' <> o.
Proof.
  intros Ha Hv HF Hl.
  assert (forall n, n ∈ F <-> mine w o n) as HFm.
  { intros n. rewrite HF. split; [by intros ?%edge_end|apply Hl]. }
  assert (forall n o', mine w' o' n <-> mine w o' n /\ o' <> o) as Hm.
  { intros n o'. rewrite mine_view, Hv. case_decide as Hd.
    - split; [done|]. intros [Hn Hne]. apply HFm in Hd. rewrite mine_view in Hn, Hd. congruence.
    - rewrite <- mine_view. split; [|tauto]. intros Hn. split; [done|]. intros ->. by apply Hd, HFm. }
  split_and!; [|by intros n [_ ?]%Hm|done].
  intros n o' [Hn Hne]%Hm. eapply reach_mono; [exact Ha| |apply Hl, Hn]. intros m Hmm. by apply Hm.
Qed.

(** ** The operations *)

Lemma view_on_block i f w n :
  0 <= i -> (forall b, locked (f b) = locked b /\ lock_origin (f b) = lock_origin b) ->
  lock_view (on_block i f w) n = lock_view w n.
Proof.
  intros Hi Hf. unfold lock_view. rewrite block_at_on_block by done. case_decide; [|done].
  destruct (block_at w n) as [b|]; [|done]. cbn. destruct (Hf b) as [-> ->]. done.
Qed.

(** [release] *)
Lemma release_spec l w :
  (forall i, i ∈ l -> inside w i = true) ->
  alike w (release l w) /\
  (forall n, block_at (release l w) n = if decide (n ∈ l) then set_lock false (-1) <$> block_at w n else block_at w n) /\
  (forall n, lock_view (release l w) n = if decide (n ∈ l) then Some (false, -1) else lock_view w n).
Proof.
  intros Hl. destruct (fold_on_block (set_lock false (-1)) l w) as [Ha Hb]; [|done|].
  { intros i Hi. specialize (Hl i Hi). unfold inside in Hl. lia. }
  change (fold_left (λ w i, on_block i (set_lock false (-1)) w) l w) with (release l w) in *.
  split_and!; [done|done|]. intros n. unfold lock_view. rewrite Hb. case_decide as Hn; [|done].
  apply Hl, block_at_inside in Hn as [b ->]. done.
Qed.

(** [lock_area] *)
Definition claim (o : Z) (b : WorldBlock) : WorldBlock := if locked b then b else set_lock true o b.

Lemma lock_area_spec o tiles : forall w,
  (forall t, t ∈ tiles -> inside w (number t.1 t.2) = true) ->
  exists w' entries, lock_area o tiles w = Some (w', entries) /\ alike w w' /\
    (forall n, block_at w' n = if decide (n ∈ numbers tiles) then claim o <$> block_at w n else block_at w n) /\
    (forall n, Some n ∈ entries <-> n ∈ numbers tiles /\ exists b, block_at w n = Some b /\ locked b = false).
Proof.
  induction tiles as [|[x y] tiles IH]; intros w Hin; cbn [lock_area].
  - exists w, []. split_and!; [done|done| |]; intros n; cbn; [done|set_solver].
  - set (sq := number x y). assert (inside w sq = true) as Hsq by (apply (Hin (x, y)); by left).
    pose proof Hsq as [b Hb]%block_at_inside. rewrite Hb. cbn [mbind option_bind].
    set (w1 := if locked b then w else on_block sq (set_lock true o) w).
    set (e := if locked b then None else Some sq).
    assert ((if locked b then (w, None) else (on_block sq (set_lock true o) w, Some sq)) = (w1, e)) as ->
      by (subst w1 e; by destruct (locked b)).
    assert (0 <= sq) by (unfold inside in Hsq; lia).
    assert (alike w w1) as Ha1 by (subst w1; destruct (locked b); [done|apply alike_on_block]).
    assert (forall n, block_at w1 n = if decide (n = sq) then claim o <$> block_at w n else block_at w n) as Hb1.
    { intros n. subst w1. unfold claim. destruct (locked b) eqn:El.
      - case_decide as Hn; [|done]. subst n. rewrite Hb. cbn. by rewrite El.
      - rewrite block_at_on_block by done. case_decide as Hn; [|done]. subst n. rewrite Hb. cbn. by rewrite El. }
    destruct (IH w1) as (w' & es & -> & Ha & Hn & He).
    { intros t Ht. rewrite (alike_inside _ _ _ Ha1). apply Hin. by right. }
    cbn [mbind option_bind]. exists w', (e :: es). split; [done|]. split; [by eapply alike_trans|].
    assert (forall c, claim o (claim o c) = claim o c) as Hcc
      by (intros c; unfold claim; destruct (locked c) eqn:E; cbn; by rewrite ?E).
    assert (numbers ((x, y) :: tiles) = sq :: numbers tiles) as -> by done.
    split.
    + intros n. rewrite Hn, Hb1. rewrite (decide_ext (n ∈ sq :: numbers tiles) (n = sq \/ n ∈ numbers tiles)) by apply elem_of_cons.
      repeat case_decide; try (exfalso; tauto); try done. destruct (block_at w n); cbn; [by rewrite Hcc|done].
    + intros n. rewrite elem_of_cons, He, Hb1, elem_of_cons. subst e. unfold claim.
      destruct (decide (n = sq)) as [->|Hne].
      * rewrite Hb. cbn. destruct (locked b) eqn:El; cbn.
        -- split; [intros [?|(_ & c & [= <-] & ?)]; congruence|intros (_ & c & [= <-] & ?); congruence].
        -- split; [intros _; split; [by left|by exists b]|by left].
      * destruct (locked b); split; [intros [?|?]; [done|tauto]|intros [[?|?] ?]; [done|tauto]| |intros [[?|?] ?]; [done|tauto]].
        intros [[= ->]|?]; [done|tauto].
Qed.

(** ** Locks that stand *)

Definition fg_view (w : World) (n : Z) : option Z := fg <$> block_at w n.

Definition same_fg (w w' : World) : Prop := forall n, fg_view w' n = fg_view w n.

Lemma standing_view w o : standing w o <-> exists v, fg_view w o = Some v /\ small_lock v = true.
Proof.
  unfold standing, fg_view. split.
  - intros (b & -> & H). by exists (fg b).
  - destruct (block_at w o) as [b|]; [|by intros (? & ? & _)]. intros (v & [= <-] & H). by exists b.
Qed.

Lemma same_fg_on_block i f w : 0 <= i -> (forall b, fg (f b) = fg b) -> same_fg w (on_block i f w).
Proof.
  intros Hi Hf n. unfold fg_view. rewrite block_at_on_block by done. case_decide; [|done].
  destruct (block_at w n); cbn; by rewrite ?Hf.
Qed.

Lemma stand_same_fg w w' o : same_fg w w' -> standing w o -> standing w' o.
Proof. intros H. rewrite !standing_view. intros (v & E & Hv). exists v. by rewrite H. Qed.

(** Locks stand after a change that adds the locks [L] and removes none that
    is in use. *)
Lemma locks_stand_step w w' :
  (forall n o, mine w' o n -> standing w' o \/ (mine w o n /\ (standing w o -> standing w' o))) ->
  locks_stand w -> locks_stand w'.
Proof. intros H Hs n o Hn. destruct (H n o Hn) as [?|[Hm Hi]]; [done|]. by eapply Hi, Hs. Qed.

(** ** The operations on areas *)

Section Locks.
Context (items : table) (modify : modify_fn) (peers : list string) (Comet_Dust : bool).

(** What a new area changes. *)
Lemma new_area_spec fuel signal x_ y_ size lock owner w w' es :
  regular w -> 1 <= x_ <= 98 -> inside w (number x_ y_) = true ->
  new_area items peers fuel signal x_ y_ size lock owner w = Some (w', es) ->
  exists A,
    (length A <= Z.to_nat size)%nat /\ alike w w' /\ same_fg w w' /\
    (forall n, n ∈ A -> tile_ok (free_block items w) x_ y_ n) /\
    (forall n, n ∈ A -> reach w (λ m, m ∈ A \/ mine w (number x_ y_) m) (number x_ y_) n) /\
    (forall n, lock_view w' n = if decide (n ∈ A) then Some (true, number x_ y_) else lock_view w n).
Proof.
  intros Hw Hx Ho. unfold new_area.
  destruct (lock_tiles items w x_ y_ size fuel) as [tiles|] eqn:Et; cbn [mbind option_bind]; [|done].
  destruct (lock_tiles_sound items w x_ y_ size ltac:(lia) Hw ltac:(lia) Ho fuel tiles Et) as (Hl & Hok & Hr).
  assert (forall n, n ∈ numbers tiles -> tile_ok (free_block items w) x_ y_ n) as HA.
  { intros n (t & -> & Ht)%list_elem_of_fmap. by eapply list.Forall_forall in Hok. }
  assert (forall n, tile_ok (free_block items w) x_ y_ n -> exists b, block_at w n = Some b /\ locked b = false) as Hf.
  { intros n [Hf _]. unfold free_block, not_mod in Hf. destruct (block_at w n) as [b|]; [|done].
    exists b. split; [done|]. destruct (locked b); [|done]. by rewrite orb_true_r in Hf. }
  destruct (lock_area_spec (number x_ y_) tiles w) as (w1 & entries & -> & Ha & Hb & _).
  { intros t Ht. apply block_at_inside. destruct (Hf (number t.1 t.2)) as (b & -> & _); [|by eexists].
    apply HA. by apply (list_elem_of_fmap_2 (λ t, number t.1 t.2)). }
  cbn [mbind option_bind]. intros [= <- _]. exists (numbers tiles). split_and!; try done.
  - unfold numbers. by rewrite length_fmap.
  - intros n. unfold fg_view. rewrite Hb. case_decide; [|done].
    destruct (block_at w n) as [b|]; [|done]. cbn. unfold claim. by destruct (locked b).
  - intros n (t & -> & Ht)%list_elem_of_fmap. by apply Hr.
  - intros n. unfold lock_view. rewrite Hb. case_decide as Hn; [|done].
    destruct (Hf n (HA n Hn)) as (b & -> & El). cbn. unfold claim. by rewrite El.
Qed.

Lemma tile_not_mine w x_ y_ n o : tile_ok (free_block items w) x_ y_ n -> ~ mine w o n.
Proof.
  intros [Hf _] (b & Hb & Hl & _). unfold free_block, not_mod in Hf. rewrite Hb, Hl in Hf.
  by rewrite orb_true_r in Hf.
Qed.

Lemma new_area_ok fuel signal x_ y_ size lock owner w w' es :
  regular w -> 1 <= x_ <= 98 -> inside w (number x_ y_) = true -> linked_areas w ->
  new_area items peers fuel signal x_ y_ size lock owner w = Some (w', es) ->
  alike w w' /\ same_fg w w' /\ linked_areas w' /\
  forall n o, mine w' o n -> mine w o n \/ o = number x_ y_.
Proof.
  intros Hw Hx Ho Hl Hn. destruct (new_area_spec _ _ _ _ _ _ _ _ _ _ Hw Hx Ho Hn) as (A & _ & Ha & Hg & Ht & Hr & Hv).
  split_and!; [done|done| |].
  - eapply (linked_claim w w' A); [done|done| |done|done]. intros n o' Hin. eapply tile_not_mine, Ht, Hin.
  - intros n o. rewrite !mine_view, Hv. case_decide; [intros [= <-]; by right|by left].
Qed.

(** The removal of a lock. *)
Lemma remove_lock_ok x_ y_ w :
  regular w -> inside w (number x_ y_) = true -> linked_areas w ->
  exists w' es, remove_lock_broken peers x_ y_ w = Some (w', es) /\
    alike w w' /\ same_fg w w' /\ linked_areas w' /\
    (forall n o, mine w' o n <-> mine w o n /\ o <> number x_ y_) /\
    (forall n b, block_at w n = Some b -> n <> number x_ y_ ->
       (mine w (number x_ y_) n -> block_at w' n = Some (set_lock false (-1) b)) /\
       (~ mine w (number x_ y_) n -> block_at w' n = Some b)).
Proof.
  intros Hw Ho Hl. set (o := number x_ y_) in *. unfold remove_lock_broken. fold o.
  set (f := λ b, set_owner EmptyString (no_admins b)). set (w1 := on_block o f w).
  assert (0 <= o) as Ho0 by (unfold inside in Ho; lia).
  assert (forall n, lock_view w1 n = lock_view w n) as Hv1 by (intros n; by apply view_on_block).
  assert (alike w w1) as Ha1 by apply alike_on_block.
  assert (forall n o', mine w1 o' n <-> mine w o' n) as Hm1 by (intros n o'; by rewrite !mine_view, Hv1).
  assert (regular w1) as Hw1 by by eapply regular_alike.
  assert (inside w1 o = true) as Ho1 by by rewrite (alike_inside _ _ _ Ha1).
  assert (linked_areas w1) as Hl1 by by eapply linked_same.
  replace (size_of w <? 100) with false by (destruct Hw as (_ & ? & ->); lia).
  destruct (area_spec w1 o Hw1 Ho1) as (found & -> & _ & HF). cbn [mbind option_bind].
  assert (forall n, n ∈ found <-> mine w o n) as HFm.
  { intros n. rewrite HF, <- Hm1. split; [by intros ?%edge_end|apply Hl1]. }
  assert (forall n, n ∈ found -> inside w1 n = true) as Hin.
  { intros n (b & Hb & _)%HFm. rewrite (alike_inside _ _ _ Ha1). apply block_at_inside. by eexists. }
  destruct (release_spec found w1 Hin) as (Ha & Hb & Hv).
  destruct (linked_free w1 _ found o Ha Hv HF Hl1) as (Hl2 & _ & Hm2).
  eexists _, _. split; [done|]. split_and!; [by eapply alike_trans| |done| |].
  - intros n. unfold fg_view. rewrite Hb. transitivity (fg_view w1 n); [|by apply same_fg_on_block].
    unfold fg_view. case_decide; [|done]. by destruct (block_at w1 n).
  - intros n o'. by rewrite Hm2, Hm1.
  - intros n b Hn Hne. assert (block_at w1 n = Some b) as Hn1
      by (unfold w1; rewrite block_at_on_block by done; by case_decide).
    rewrite Hb, Hn1. split; intros Hm; [by rewrite decide_True by by apply HFm|by rewrite decide_False by by rewrite HFm].
Qed.

(** An area that is chosen by [invert]. *)
Lemma built_unlocked w n o : built items w n = Some true -> ~ mine w o n.
Proof.
  intros Hb (b & Hn & Hl & _). unfold built in Hb. rewrite Hn in Hb. cbn [mbind option_bind] in Hb.
  rewrite Hl in Hb. done.
Qed.

Lemma inverted_ok w o enough found :
  regular w -> inside w o = true -> linked_areas w ->
  spread (walk_fuel w) enough (built items w) (around w) [o] 0 ∅ = Some found ->
  let w' := fold_left (λ w i, on_block i (set_lock true o) w) found w in
  alike w w' /\ same_fg w w' /\ linked_areas w' /\ forall n o', mine w' o' n -> mine w o' n \/ o' = o.
Proof.
  intros Hw Ho Hl Hf w'. destruct (spread_sound _ _ _ _ _ _ _ _ Hf) as [_ Hs].
  assert (forall n, n ∈ found -> exists b, block_at w n = Some b) as Hin.
  { intros n (_ & Hb & _)%Hs. unfold built in Hb. destruct (block_at w n) as [b|]; [by exists b|done]. }
  destruct (fold_on_block (set_lock true o) found w) as [Ha Hb]; [|done|].
  { intros n (b & Hb)%Hin. by apply block_at_some in Hb as [? _]. }
  fold w' in Ha, Hb.
  assert (forall n, lock_view w' n = if decide (n ∈ found) then Some (true, o) else lock_view w n) as Hv.
  { intros n. unfold lock_view. rewrite Hb. case_decide as Hn; [|done]. by destruct (Hin n Hn) as [b ->]. }
  split_and!; [done| | |].
  - intros n. unfold fg_view. rewrite Hb. case_decide; [|done]. by destruct (block_at w n).
  - eapply (linked_claim w w' found); [done|done| | |done].
    + intros n o' (_ & Hn & _)%Hs. by apply built_unlocked.
    + intros n (_ & _ & q & ->%list_elem_of_singleton & Hp)%Hs. eapply edge_mono; [|exact Hp]. tauto.
  - intros n o'. rewrite !mine_view, Hv. case_decide; [intros [= <-]; by right|by left].
Qed.

Lemma reapply_ok fuel x_ y_ invert w t w' es b :
  areas_ok w -> 1 <= x_ <= 98 -> block_at w (number x_ y_) = Some b -> small_lock (fg b) = true ->
  reapply items peers fuel x_ y_ invert w t = Some (w', es) -> areas_ok w'.
Proof.
  intros (Hw & Hl & Hs) Hx Hb Hlock. unfold reapply. set (o := number x_ y_) in *.
  assert (inside w o = true) as Ho by (apply block_at_inside; by eexists).
  rewrite Hb. cbn [mbind option_bind].
  replace (size_of w <? 100) with false by (destruct Hw as (_ & ? & ->); lia).
  destruct (area_spec w o Hw Ho) as (old & -> & _ & HF). cbn [mbind option_bind].
  destruct (release_spec old w) as (Ha & Hb1 & Hv).
  { intros n Hn%HF%edge_end. destruct Hn as (c & Hc & _). apply block_at_inside. by eexists. }
  set (w1 := release old w) in *.
  destruct (linked_free w w1 old o Ha Hv HF Hl) as (Hl1 & _ & Hm1).
  assert (same_fg w w1) as Hg1.
  { intros n. unfold fg_view. rewrite Hb1. case_decide; [|done]. by destruct (block_at w n). }
  assert (regular w1) as Hw1 by by eapply regular_alike.
  assert (inside w1 o = true) as Ho1 by by rewrite (alike_inside _ _ _ Ha).
  assert (forall w2, alike w1 w2 -> same_fg w1 w2 -> linked_areas w2 ->
    (forall n o', mine w2 o' n -> mine w1 o' n \/ o' = o) -> areas_ok w2) as Hend.
  { intros w2 Ha2 Hg2 Hl2 Hm2. split_and!; [by eapply regular_alike|done|].
    eapply locks_stand_step; [|exact Hs]. intros n o' [Hn| ->]%Hm2.
    - right. apply Hm1 in Hn as [Hn _]. split; [done|]. intros Hst. by eapply stand_same_fg, stand_same_fg.
    - left. eapply stand_same_fg; [done|]. eapply stand_same_fg; [done|]. by exists b. }
  destruct invert; cbn [negb].
  - destruct (spread _ _ _ _ _ _ _) as [found|] eqn:Ef; cbn [mbind option_bind]; [|done].
    destruct (inverted_ok w1 o _ found Hw1 Ho1 Hl1 Ef) as (Ha2 & Hg2 & Hl2 & Hm2).
    destruct (block_at (fold_left _ _ _) o) as [c|]; cbn [mbind option_bind]; [|done].
    intros [= <- _]. by apply Hend.
  - intros Hn. destruct (new_area_ok _ _ _ _ _ _ _ _ _ _ Hw1 Hx Ho1 Hl1 Hn) as (Ha2 & Hg2 & Hl2 & Hm2).
    by apply Hend.
Qed.

(** A lock is put at [o]. *)
Lemma put_lock_ok p_ o mag w t w' t' es :
  inside w o = true -> put_lock modify p_ o mag w t = Some (w', t', es) ->
  alike w w' /\ (forall n, lock_view w' n = lock_view w n) /\
  forall n, fg_view w' n = if decide (n = o) then Some p_ else fg_view w n.
Proof.
  intros Ho Hp. assert (w' = on_block o (set_fg p_) w) as ->.
  { unfold put_lock in Hp. destruct mag; [by injection Hp|].
    destruct (modify _ _ _ _ _); cbn [mbind option_bind] in Hp; [|done]. by injection Hp. }
  assert (0 <= o) by (unfold inside in Ho; lia). split_and!; [apply alike_on_block|by intros n; apply view_on_block|].
  intros n. unfold fg_view. rewrite block_at_on_block by done. case_decide as Hn; [|done]. subst n.
  by apply block_at_inside in Ho as [b ->].
Qed.

Lemma place_small_ok fuel p_ x_ y_ mag w t w' t' es r :
  areas_ok w -> 1 <= x_ <= 98 -> small_lock p_ = true ->
  place_small_lock items modify peers fuel p_ x_ y_ mag w t = Some (w', t', es, r) -> areas_ok w'.
Proof.
  intros (Hw & Hl & Hs) Hx Hp. unfold place_small_lock. set (o := number x_ y_).
  destruct (block_at w o) as [b|] eqn:Eb; cbn [mbind option_bind]; [|done].
  destruct (small_refused _ _ _ _ _ _) as [[text|]|]; cbn [mbind option_bind]; [by intros [= <- _ _ _]| |done].
  assert (inside w o = true) as Ho by (apply block_at_inside; by eexists).
  set (who := name_of (visitor t)). set (w1 := on_block o (set_owner who) w).
  assert (0 <= o) as Ho0 by (unfold inside in Ho; lia).
  assert (alike w w1) as Ha1 by apply alike_on_block.
  assert (forall n, lock_view w1 n = lock_view w n) as Hv1 by (intros n; by apply view_on_block).
  assert (same_fg w w1) as Hg1 by by apply same_fg_on_block.
  assert (regular w1) as Hw1 by by eapply regular_alike.
  assert (inside w1 o = true) as Ho1 by by rewrite (alike_inside _ _ _ Ha1).
  destruct (new_area _ _ _ _ _ _ _ _ _ w1) as [[w2 es2]|] eqn:En; cbn [mbind option_bind]; [|done].
  destruct (new_area_ok _ _ _ _ _ _ _ _ _ _ Hw1 Hx Ho1 (linked_same _ _ Ha1 Hv1 Hl) En) as (Ha2 & Hg2 & Hl2 & Hm2).
  destruct (put_lock _ _ _ _ w2 t) as [[[w3 t3] es3]|] eqn:Ep; cbn [mbind option_bind]; [|done].
  intros [= <- _ _ _]. assert (inside w2 o = true) as Ho2 by by rewrite (alike_inside _ _ _ Ha2).
  destruct (put_lock_ok _ _ _ _ _ _ _ _ Ho2 Ep) as (Ha3 & Hv3 & Hg3).
  split_and!; [by eapply regular_alike, regular_alike|by eapply linked_same|].
  assert (standing w3 o) as Hso.
  { apply standing_view. exists p_. by rewrite Hg3, decide_True. }
  eapply locks_stand_step; [|exact Hs]. intros n o' Hn.
  rewrite mine_view, Hv3, <- mine_view in Hn. destruct (decide (o' = o)) as [->|Hne]; [by left|right].
  destruct (Hm2 n o' Hn) as [Hn1|?]; [|done]. split; [by rewrite mine_view, <- Hv1, <- mine_view|].
  rewrite !standing_view. intros (v & E & Hv). exists v. split; [|done].
  by rewrite Hg3, decide_False, Hg2, Hg1 by done.
Qed.

Lemma place_world_ok p_ x_ y_ mag w t w' t' es r :
  areas_ok w ->
  (forall b, block_at w (number x_ y_) = Some b -> small_lock (fg b) = false) ->
  inside w (number x_ y_) = true ->
  place_world_lock modify peers Comet_Dust p_ x_ y_ mag w t = Some (w', t', es, r) -> areas_ok w'.
Proof.
  intros (Hw & Hl & Hs) Hno Ho. unfold place_world_lock. set (o := number x_ y_) in *.
  case_match; [by intros [= <- _ _ _]|]. case_match; [by intros [= <- _ _ _]|].
  set (w1 := set_world_owner _ _ w).
  destruct (put_lock _ _ _ _ w1 _) as [[[w3 t3] es3]|] eqn:Ep; cbn [mbind option_bind]; [|done].
  intros [= <- _ _ _]. destruct (put_lock_ok p_ o mag w1 _ w3 t3 es3 Ho Ep) as (Ha & Hv & Hg).
  change (alike w w3) in Ha. change (forall n, lock_view w3 n = lock_view w n) in Hv.
  split_and!; [by eapply regular_alike|by eapply linked_same|].
  eapply locks_stand_step; [|exact Hs]. intros n o' Hn. right.
  rewrite mine_view, Hv, <- mine_view in Hn. split; [done|].
  rewrite !standing_view. intros (v & E & Hsv). exists v. split; [|done].
  rewrite Hg. case_decide as Hd; [|exact E]. subst o'. exfalso. unfold fg_view in E.
  destruct (block_at w o) as [b|]; [|done]. injection E as <-. rewrite (Hno b eq_refl) in Hsv. done.
Qed.

Lemma break_small_ok x_ y_ w t w' t' es ok :
  areas_ok w -> break_small_lock modify peers x_ y_ w t = Some (w', t', es, ok) -> areas_ok w'.
Proof.
  intros (Hw & Hl & Hs). unfold break_small_lock. set (o := number x_ y_).
  destruct (block_at w o) as [b|] eqn:Eb; cbn [mbind option_bind]; [|done].
  destruct (modify _ _ _ _ _) as [r|]; cbn [mbind option_bind]; [|done].
  case_match; [by intros [= <- _ _ _]|].
  assert (inside w o = true) as Ho by (apply block_at_inside; by eexists).
  destruct (remove_lock_ok x_ y_ w Hw Ho Hl) as (w1 & es1 & -> & Ha & Hg & Hl1 & Hm & _).
  cbn [mbind option_bind]. intros [= <- _ _ _].
  assert (0 <= o) as Ho0 by (unfold inside in Ho; lia).
  assert (forall n, lock_view (on_block o reset_ w1) n = lock_view w1 n) as Hv by (intros n; by apply view_on_block).
  split_and!; [eapply regular_alike, regular_alike; [apply alike_on_block|done|done]| |].
  - by eapply linked_same; [apply alike_on_block|..].
  - eapply locks_stand_step; [|exact Hs]. intros n o' Hn. right.
    rewrite mine_view, Hv, <- mine_view in Hn. apply Hm in Hn as [Hn Hne]. split; [done|].
    rewrite !standing_view. intros (v & E & Hsv). exists v. split; [|done]. unfold fg_view.
    rewrite block_at_on_block, decide_False by done. change (fg_view w1 o' = Some v). by rewrite Hg.
Qed.

(** ** Over time *)

(** What happens to the locks of a world: a lock is put on a block or the
    player is refused, a small lock is broken, its area is chosen again, and
    anything else changes a block, but not its lock.  Locks are not put into
    the outer columns. *)
Inductive step : World -> World -> Prop :=
| step_place fuel p_ x_ y_ mag w t w' t' es r :
    1 <= x_ <= 98 -> inside w (number x_ y_) = true ->
    (forall b, block_at w (number x_ y_) = Some b -> small_lock (fg b) = false) ->
    place_lock items modify peers Comet_Dust fuel p_ x_ y_ mag w t = Some (w', t', es, r) ->
    step w w'
| step_break x_ y_ w t w' t' es ok :
    break_small_lock modify peers x_ y_ w t = Some (w', t', es, ok) -> step w w'
| step_reapply fuel x_ y_ invert w t w' es b :
    1 <= x_ <= 98 -> block_at w (number x_ y_) = Some b -> small_lock (fg b) = true ->
    reapply items peers fuel x_ y_ invert w t = Some (w', es) -> step w w'
| step_edit i f w :
    0 <= i -> (forall b, locked (f b) = locked b /\ lock_origin (f b) = lock_origin b) ->
    (forall b, small_lock (fg b) = true -> fg (f b) = fg b) -> step w (on_block i f w).

Lemma lock_edit_ok i f w :
  0 <= i -> (forall b, locked (f b) = locked b /\ lock_origin (f b) = lock_origin b) ->
  (forall b, small_lock (fg b) = true -> fg (f b) = fg b) -> areas_ok w -> areas_ok (on_block i f w).
Proof.
  intros Hi Hf Hg (Hw & Hl & Hs).
  assert (forall n, lock_view (on_block i f w) n = lock_view w n) as Hv by (intros n; by apply view_on_block).
  split_and!; [eapply regular_alike; [apply alike_on_block|done]|by eapply linked_same; [apply alike_on_block|..]|].
  eapply locks_stand_step; [|exact Hs]. intros n o Hn. right.
  rewrite mine_view, Hv, <- mine_view in Hn. split; [done|]. intros (b & Hb & Hlock).
  unfold standing. rewrite block_at_on_block, Hb by done. case_decide; cbn; [|by exists b].
  exists (f b). split; [done|]. by rewrite Hg.
Qed.

Lemma lock_step_ok w w' : step w w' -> areas_ok w -> areas_ok w'.
Proof.
  intros Hstep Hok. destruct Hstep.
  - unfold place_lock in *. destruct (small_lock p_) eqn:E; [by eapply place_small_ok|by eapply place_world_ok].
  - by eapply break_small_ok.
  - by eapply reapply_ok.
  - by apply lock_edit_ok.
Qed.

(** C6: Away from the left and right border, every locked block belongs to a
    lock that stands. Start with a world of width 100 in which nothing is
    locked, and in any order let players place locks on blocks that are no
    small locks and re-apply the areas of small locks, in the usual form or
    along what is built, each in one of the columns 1 to 98 and with a search
    that ends; let them break small locks; and change blocks in between, but
    not their locks. Then each locked block is connected with its lock over
    blocks of the same lock, and that lock is a small lock that stands, so
    nobody is kept out by a lock that is gone. In the columns 0 and 99 this is
    false (see [lock_over_the_edge]). *)
Theorem areas_always_ok w w' :
  regular w -> (forall n o, ~ mine w o n) -> rtc step w w' -> areas_ok w'.
Proof.
  intros Hw Hn. assert (areas_ok w) as Hok by (split_and!; [done|by intros n o ?%Hn|by intros n o ?%Hn]).
  clear Hw Hn. induction 1 as [|w v w' Hs _ IH]; [done|]. by apply IH, (lock_step_ok w).
Qed.

(** C10: Breaking a small lock frees its area and nothing else, in a world of
    width 100 whose areas are in order: each locked block is connected with its
    lock over blocks of the same lock, which is a small lock that stands (the
    locks of the columns 1 to 98 keep it so, those of the columns 0 and 99 do
    not). If the backpack takes the lock, breaking it succeeds, every block it
    had locked is unlocked with its other members as they were, no block is
    left that names it, and every other block but the lock's own is
    untouched. *)
Theorem broken_lock_frees x_ y_ w t b r :
  areas_ok w -> block_at w (number x_ y_) = Some b -> modify (fg b) 1 false false (bag t) = Some r -> ret r = 0 ->
  exists w' es,
    break_small_lock modify peers x_ y_ w t = Some (w', set_bag (pl_out r) t, es, true) /\
    (forall n, ~ mine w' (number x_ y_) n) /\
    forall n c, block_at w n = Some c -> n <> number x_ y_ ->
      block_at w' n = Some (if decide (mine w (number x_ y_) n) then set_lock false (-1) c else c).
Proof.
  intros (Hw & Hl & Hs) Hb Hm Hr. unfold break_small_lock. set (o := number x_ y_) in *.
  assert (inside w o = true) as Ho by (apply block_at_inside; by eexists).
  destruct (remove_lock_ok x_ y_ w Hw Ho Hl) as (w1 & es1 & E1 & Ha & Hg & Hl1 & Hm1 & Hb1).
  rewrite Hb. cbn [mbind option_bind]. rewrite Hm. cbn [mbind option_bind]. rewrite Hr.
  change (negb (0 =? 0)) with false. cbv iota. rewrite E1. cbn [mbind option_bind].
  assert (0 <= o) as Ho0 by (unfold inside in Ho; lia).
  eexists _, _. split; [done|]. fold o. split.
  - intros n. rewrite mine_view, view_on_block, <- mine_view by done. rewrite Hm1. tauto.
  - intros n c Hc Hne. rewrite block_at_on_block, decide_False by done.
    destruct (Hb1 n c Hc Hne) as [H1 H2]. case_decide; auto.
Qed.

(** The owner's name does not change what is free. *)
Lemma free_block_owner w o who n :
  0 <= o -> free_block items (on_block o (set_owner who) w) n = free_block items w n.
Proof.
  intros Ho. unfold free_block. rewrite block_at_on_block by done.
  assert (size_of (on_block o (set_owner who) w) = size_of w) as ->
    by (destruct (alike_on_block o (set_owner who) w) as (_ & _ & E); unfold size_of; by rewrite E).
  case_decide; [|done]. by destruct (block_at w n).
Qed.

(** C16: What placing a small lock locks. In a world that nobody owns, or
    that the player owns, and on a block that is not in somebody else's area
    (and not in the first or the last column), it locks at most as many blocks as the lock is big; each was free - not
    locked, no lock, not reserved - and is connected with the new lock over
    its area; the locks of all other blocks stay as they were. *)
Theorem placed_lock_area fuel p_ x_ y_ mag w t w' t' es :
  areas_ok w -> 1 <= x_ <= 98 ->
  place_small_lock items modify peers fuel p_ x_ y_ mag w t = Some (w', t', es, None) ->
  let o := number x_ y_ in
  let who := name_of (visitor t) in
  (is_empty (owner_name w) = true \/ iequals (owner_name w) who = true) /\
  (forall b lock, block_at w o = Some b -> locked b = true -> block_at w (lock_origin b) = Some lock ->
     iequals (block_owner lock) who = true) /\
  exists A,
    (length A <= Z.to_nat (lock_size_of p_))%nat /\
    (forall n, n ∈ A -> free_block items w n = true /\ n <> o /\ reach w' (mine w' o) o n) /\
    forall n, lock_view w' n = if decide (n ∈ A) then Some (true, o) else lock_view w n.
Proof.
  intros (Hw & Hl & Hs) Hx Hpl o who. unfold place_small_lock in Hpl. fold o who in Hpl.
  destruct (block_at w o) as [b|] eqn:Eb; cbn [mbind option_bind] in Hpl; [|done].
  destruct (small_refused _ _ _ _ _ _) as [[text|]|] eqn:Er; cbn [mbind option_bind] in Hpl; [done| |done].
  assert (inside w o = true) as Ho by (apply block_at_inside; by eexists).
  assert (0 <= o) as Ho0 by (unfold inside in Ho; lia).
  set (w1 := on_block o (set_owner who) w) in *.
  assert (alike w w1) as Ha1 by apply alike_on_block.
  assert (forall n, lock_view w1 n = lock_view w n) as Hv1 by (intros n; by apply view_on_block).
  assert (inside w1 o = true) as Ho1 by by rewrite (alike_inside _ _ _ Ha1).
  destruct (new_area _ _ _ _ _ _ _ _ _ w1) as [[w2 es2]|] eqn:En; cbn [mbind option_bind] in Hpl; [|done].
  destruct (new_area_spec _ _ _ _ _ _ _ _ _ _ (regular_alike _ _ Ha1 Hw) Hx Ho1 En)
    as (A & HA & Ha2 & _ & Ht & Hr & Hv2).
  destruct (put_lock _ _ _ _ w2 t) as [[[w3 t3] es3]|] eqn:Ep; cbn [mbind option_bind] in Hpl; [|done].
  injection Hpl as <- _ _. assert (inside w2 o = true) as Ho2 by by rewrite (alike_inside _ _ _ Ha2).
  destruct (put_lock_ok _ _ _ _ _ _ _ _ Ho2 Ep) as (Ha3 & Hv3 & _).
  assert (forall n, lock_view w3 n = if decide (n ∈ A) then Some (true, o) else lock_view w n) as Hv
    by (intros n; by rewrite Hv3, Hv2, Hv1).
  unfold small_refused in Er.
  destruct (negb (is_empty (owner_name w)) && _) eqn:Eo in Er; [done|]. split_and!.
  - destruct (is_empty (owner_name w)); [by left|right]. cbn in Eo. by apply negb_false_iff in Eo.
  - intros c lock [= <-] Hc Hlock. rewrite Hc, Hlock in Er. cbn [mbind option_bind] in Er.
    by destruct (iequals (block_owner lock) who).
  - exists A. split_and!; [done| |done]. intros n Hn. destruct (Ht n Hn) as [Hf Hne].
    unfold w1 in Hf. rewrite free_block_owner in Hf by done. split_and!; [done|done|].
    eapply (reach_mono w1); [by eapply alike_trans| |by apply Hr].
    intros m [Hm|Hm]; apply mine_view; rewrite Hv; case_decide; try done.
    rewrite <- Hv1. by apply mine_view.
Qed.

(** The bounds that [upd_lock] checks are those of the world. *)
Lemma visit_upd w o l : forall s,
  (forall m, m ∈ l -> inside w m = true) -> visit (upd_test w o) l s = visit (belongs w o) l s.
Proof.
  induction l as [|m l IH]; intros s Hin; [done|]. cbn [visit].
  assert (upd_test w o m = belongs w o m) as -> by (unfold upd_test; by rewrite (Hin m) by by left).
  destruct (belongs w o m); cbn [mbind option_bind]; [|done].
  rewrite !IH by (intros; apply Hin; by right). done.
Qed.

Lemma spread_upd w o (Hw : regular w) fuel : forall q k s,
  (forall m, m ∈ q -> inside w m = true) ->
  spread fuel (λ _, false) (upd_test w o) (around w) q k s
  = spread fuel (λ _, false) (belongs w o) (around w) q k s.
Proof.
  induction fuel as [|fuel IH]; intros q k s Hq; [done|]. cbn [spread]. destruct q as [|m q]; [done|].
  assert (forall n, n ∈ around w m -> inside w n = true) as Hm.
  { intros n Hn. eapply around_inside; [done| |exact Hn]. apply Hq. by left. }
  rewrite visit_upd by done. destruct (visit (belongs w o) (around w m) s) as [[new s']|] eqn:Ev1; [|done].
  cbn [mbind option_bind]. rewrite IH; [done|]. intros n [Hn|Hn]%elem_of_app; [apply Hq; by right|].
  apply visit_spec in Ev1 as (_ & _ & Hnew & _). by apply Hm, Hnew.
Qed.

(** The message about a lock tells its whole area. For a lock that
    stands, [upd_lock] sends to every player in the world the numbers of
    exactly the blocks that the lock has locked, each once, with the lock's
    owner, and leaves no block scanned. *)
Theorem upd_lock_announces w b lock :
  areas_ok w -> 0 <= lock_origin b -> block_at w (lock_origin b) = Some lock -> is_lock items lock = true ->
  exists tiles, NoDup tiles /\ (forall n, n ∈ tiles <-> mine w (lock_origin b) n) /\
    upd_lock items peers b w ∅ =
      Some (to_world peers w (λ k,
              [EArea k (lock_origin b mod 100) (lock_origin b / 100) (Some (to_lower (block_owner lock)))
                 (fg lock) (Some <$> tiles);
               ELook k (lock_origin b mod 100) (lock_origin b / 100) lock]), ∅).
Proof.
  intros (Hw & Hl & _) Ho Hb Hlock. set (o := lock_origin b) in *.
  assert (inside w o = true) as Hi by (apply block_at_inside; by eexists).
  destruct (walk_some w (belongs w o) (λ _, false) o Hw Hi) as [tiles Ht].
  { intros n. rewrite <- block_at_inside. unfold belongs.
    destruct (block_at w n); cbn; split; try done; by intros []. }
  destruct (spread_exact _ _ _ _ _ Ht) as [Hd Hex]. exists tiles. split_and!; [done| |].
  - intros n. rewrite Hex. split; [by intros ?%edge_end%belongs_true|]. intros Hn.
    eapply edge_mono; [|apply Hl, Hn]. intros m. by rewrite belongs_true.
  - unfold upd_lock. fold o. replace (length (blocks w) =? 0)%nat with false
      by (destruct Hw as (_ & ? & E); unfold size_of in E; symmetry; apply Nat.eqb_neq; lia).
    replace (o <? 0) with false by lia. cbn [orb negb]. rewrite Hi, Hb. cbn [negb mbind option_bind].
    rewrite Hlock. cbn [negb].
    rewrite (spread_upd w o Hw) by (intros m ->%list_elem_of_singleton; done). rewrite Ht. cbn [mbind option_bind].
    do 2 f_equal. set_solver.
Qed.

End Locks.

(** ** At work *)

Definition lock_item : ItemDB := mkItem "Small Lock" "Small Lock" LOCK HAIR 256 "" "" "" false 0.
Definition demo_items : table := repeat item_default 202 ++ [lock_item].
Definition demo_modify : modify_fn := Modify demo_items [] true "" "" 2.

(** Ann holds a small lock, in an empty world of 9 rows. *)
Definition ann : Builder :=
  mkBuilder (Access.visitor "Ann" plain_roles) (sample_player [(202, 1); (0, 0)] 0 false) [] 0.
Definition meadow (bg_ : Z) : World :=
  mkWorld "MEADOW" "" [] 0 0 100 9 0 false
    (replicate (Z.to_nat 900) (mkBlock 0 bg_ false (-1) "" [] false 0 0 0 0)) [].

Definition demo_place (bg_ y_ : Z) : option (World * Builder * list effect * option bool) :=
  place_lock demo_items demo_modify ["MEADOW"] false 100 202 50 y_ false (meadow bg_) ann.

Definition demo_break (w : World) (t : Builder) : option (World * Builder * list effect * bool) :=
  break_small_lock demo_modify ["MEADOW"] 50 4 w t.

Definition locked_blocks (w : World) : list Z :=
  omap (λ p : nat * WorldBlock, if locked p.2 then Some (Z.of_nat p.1) else None) (imap pair (blocks w)).

(** Ann's lock takes ten blocks, and gives them back. *)
Example demo_area :
  (r ← demo_place 0 4; Some (locked_blocks r.1.1.1)) =
    Some [250; 349; 350; 351; 448; 449; 451; 549; 550; 551].
Proof. vm_compute. reflexivity. Qed.

Example demo_freed :
  (r ← demo_place 0 4; r ← demo_break r.1.1.1 r.1.1.2; Some (locked_blocks r.1.1.1)) = Some [].
Proof. vm_compute. reflexivity. Qed.

(** In the last row, the search reads below the world: the exception leaves
    the lock without an area. *)
Example last_row : (r ← demo_place 0 8; Some (locked_blocks r.1.1.1)) = Some [].
Proof. vm_compute. reflexivity. Qed.

(** Along what is built there is nothing to lock in empty air, and ten
    blocks where the background is filled. *)
Example along_the_air :
  (r ← demo_place 0 4; r ← reapply demo_items ["MEADOW"] 100 50 4 true r.1.1.1 r.1.1.2;
   Some (locked_blocks r.1)) = Some [].
Proof. vm_compute. reflexivity. Qed.

Example along_the_wall :
  (r ← demo_place 14 4; r ← reapply demo_items ["MEADOW"] 100 50 4 true r.1.1.1 r.1.1.2;
   Some (locked_blocks r.1)) = Some [349; 350; 351; 448; 449; 451; 452; 549; 550; 551].
Proof. vm_compute. reflexivity. Qed.

Lemma meadow_regular bg_ : regular (meadow bg_).
Proof. by split_and!. Qed.

Lemma meadow_open bg_ n o : ~ mine (meadow bg_) o n.
Proof.
  intros (b & Hb & Hl & _). apply block_at_some in Hb as [_ Hb].
  cbn [blocks meadow] in Hb. apply lookup_replicate in Hb as [-> _]. done.
Qed.

Lemma demo_step bg_ y_ w' t' es r :
  inside (meadow bg_) (number 50 y_) = true -> demo_place bg_ y_ = Some (w', t', es, r) ->
  step demo_items demo_modify ["MEADOW"] false (meadow bg_) w'.
Proof.
  intros Hy H. eapply step_place; [|exact Hy| |exact H]; [lia|].
  intros b [_ Hb]%block_at_some. cbn [blocks meadow] in Hb. by apply lookup_replicate in Hb as [-> _].
Qed.

(** A run of the demo. *)
Definition demo_run : option (World * World) :=
  r ← demo_place 0 4;
  q ← demo_break r.1.1.1 r.1.1.2;
  Some (r.1.1.1, q.1.1.1).

Lemma lock_demo_steps w1 w2 :
  demo_run = Some (w1, w2) ->
  step demo_items demo_modify ["MEADOW"] false (meadow 0) w1 /\ step demo_items demo_modify ["MEADOW"] false w1 w2.
Proof.
  unfold demo_run. destruct (demo_place 0 4) as [[[[v1 t1] es1] r1]|] eqn:E1; cbn [mbind option_bind fst snd]; [|done].
  destruct (demo_break v1 t1) as [[[[v2 t2] es2] r2]|] eqn:E2; cbn [mbind option_bind fst snd]; [|done].
  intros [= <- <-]. split.
  - apply (demo_step 0 4 v1 t1 es1 r1); [reflexivity|exact E1].
  - unfold demo_break in E2. eapply step_break. exact E2.
Qed.

Lemma demo_runs : exists w1 w2, demo_run = Some (w1, w2).
Proof.
  assert ((if demo_run then true else false) = true) as H by (vm_compute; reflexivity).
  destruct demo_run as [[w1 w2]|]; [by eexists _, _|done].
Qed.

Lemma areas_always_ok_witness : exists w1 w2, demo_run = Some (w1, w2) /\ areas_ok w2.
Proof.
  destruct demo_runs as (w1 & w2 & E). destruct (lock_demo_steps w1 w2 E) as [H1 H2]. exists w1, w2.
  split; [exact E|].
  apply (areas_always_ok demo_items demo_modify ["MEADOW"] false (meadow 0) w2).
  - apply meadow_regular.
  - intros n o. apply meadow_open.
  - eapply rtc_l; [exact H1|]. eapply rtc_l; [exact H2|]. apply rtc_refl.
Defined.

Lemma placed_lock_area_witness :
  exists w1 t1 es, place_small_lock demo_items demo_modify ["MEADOW"] 100 202 50 4 false (meadow 0) ann = Some (w1, t1, es, None) /\
    exists A, (length A <= 10)%nat /\ forall n, lock_view w1 n = if decide (n ∈ A) then Some (true, 450) else lock_view (meadow 0) n.
Proof.
  destruct (place_small_lock demo_items demo_modify ["MEADOW"] 100 202 50 4 false (meadow 0) ann) as [[[[w1 t1] es] [|]]|] eqn:E.
  - assert ((r ← place_small_lock demo_items demo_modify ["MEADOW"] 100 202 50 4 false (meadow 0) ann; r.2) = None) as H
      by (vm_compute; reflexivity).
    rewrite E in H. discriminate H.
  - exists w1, t1, es. split; [reflexivity|].
    assert (areas_ok (meadow 0)) as Hok
      by (split; [apply meadow_regular|split; intros n o H; destruct (meadow_open 0 n o H)]).
    destruct (placed_lock_area demo_items demo_modify ["MEADOW"] 100 202 50 4 false (meadow 0) ann w1 t1 es Hok
      ltac:(lia) E) as (_ & _ & A & H1 & _ & H2).
    exists A. split; [exact H1|exact H2].
  - assert ((r ← place_small_lock demo_items demo_modify ["MEADOW"] 100 202 50 4 false (meadow 0) ann; Some tt) = Some tt) as H
      by (vm_compute; reflexivity).
    rewrite E in H. discriminate H.
Defined.

(** A garden of Ann's, with one block locked by hand. *)
Definition garden : World :=
  mkWorld "GARDEN" "" [] 0 0 100 1 0 false
    (mkBlock 202 0 false (-1) "Ann" [] false 0 0 0 0 :: mkBlock 2 0 true 0 "" [] false 0 0 0 0
     :: replicate (Z.to_nat 98) block_default) [].

Lemma garden_mine n o : mine garden o n -> n = 1 /\ o = 0.
Proof.
  intros (b & [Hn Hb]%block_at_some & Hl & Ho). destruct (Z.to_nat n) as [|[|k]] eqn:En.
  - cbn in Hb. injection Hb as <-. discriminate Hl.
  - cbn in Hb. injection Hb as <-. cbn in Ho. lia.
  - cbn [blocks garden lookup list_lookup] in Hb. apply lookup_replicate in Hb as [-> _]. discriminate Hl.
Qed.

Lemma garden_ok : areas_ok garden.
Proof.
  split_and!; [by split_and!| |].
  - intros n o H. destruct (garden_mine n o H) as [-> ->]. apply tc_once. split; [|done].
    by apply around_spec; [split_and!|left].
  - intros n o H. destruct (garden_mine n o H) as [-> ->]. eexists. by split.
Qed.

Lemma broken_lock_frees_witness :
  exists w' es t', break_small_lock demo_modify [] 0 0 garden ann = Some (w', t', es, true) /\
    forall n, ~ mine w' 0 n.
Proof.
  destruct (demo_modify 202 1 false false (bag ann)) as [r|] eqn:Em; [|vm_compute in Em; discriminate Em].
  assert (ret r = 0) as Hr by (vm_compute in Em; injection Em as <-; reflexivity).
  destruct (broken_lock_frees demo_modify [] 0 0 garden ann _ r garden_ok eq_refl Em Hr) as (w' & es & H1 & H2 & _).
  exists w', es, (set_bag (pl_out r) ann). split; [exact H1|exact H2].
Defined.






Lemma upd_lock_announces_witness :
  exists tiles, NoDup tiles /\ (forall n, n ∈ tiles <-> mine garden 0 n) /\
    exists es, upd_lock demo_items ["GARDEN"] (mkBlock 2 0 true 0 "" [] false 0 0 0 0) garden ∅ = Some (es, ∅).
Proof.
  destruct (upd_lock_announces demo_items ["GARDEN"] garden (mkBlock 2 0 true 0 "" [] false 0 0 0 0)
    (mkBlock 202 0 false (-1) "Ann" [] false 0 0 0 0) garden_ok) as (tiles & H1 & H2 & H3);
    [cbn; lia|reflexivity|reflexivity|].
  exists tiles. split; [exact H1|]. split; [exact H2|]. eexists. exact H3.
Defined.

End LockFacts.
