(* ===== verification/AreaLoop.v ===== *)
(** * AreaLoop: an area that is never chosen

    [Area.lock_tiles] does not return when a lock of 48 blocks stands at the
    left border of a world whose other blocks are all taken: its spiral comes
    back to the same blocks for ever. *)
From S2P Require Import Prelude Items Inventory InventoryFacts World Access Area.
Import Items World Inventory InventoryFacts Access Area.

Module AreaLoop.

#[export] Instance Search_eq_dec : EqDecision Search.
Proof. solve_decision. Defined.

Section Loop.
Context (width height count : Z) (free : Z -> bool) (st_x st_y size : Z).

(** A search with another number of skipped blocks.  This number is read only
    where it is nearly as small as the area found. *)
Definition bump (d : Z) (s : Search) : Search :=
  mkSearch (pending s) (new_lock s) (lock_size s + d) (layer_ s) (max_up s) (max_left s) (max_down s)
    (max_right s) (scanned s).

Definition bump_outcome (d : Z) (o : outcome) : outcome :=
  match o with Go s => Go (bump d s) | Enough s => Enough (bump d s) | Thrown => Thrown end.

(** Room for [n] more blocks. *)
Definition room (n d : Z) (s : Search) : Prop :=
  0 <= lock_size s /\ 0 <= d /\ lock_size s + d + n < 2147483648.

Definition room_outcome (n d : Z) (o : outcome) : Prop := forall s, o = Go s -> room n d s.

Lemma skip_bump n d s : room (n + 1) d s -> 0 <= n -> skip (bump d s) = bump d (skip s) /\ room n d (skip s).
Proof.
  intros (H1 & H2 & H3) Hn. unfold skip, bump, room. cbn [lock_size].
  rewrite !i32_small by lia. split; [f_equal; lia|lia].
Qed.

Lemma border_bump out x y x' y' wh more s n d :
  room (n + 1) d s -> 0 <= n ->
  border count free size out x y x' y' wh more (bump d s) = bump_outcome d (border count free size out x y x' y' wh more s) /\
  room_outcome n d (border count free size out x y x' y' wh more s).
Proof.
  intros Hr Hn. assert (room n d s) as Hr0 by (unfold room in *; lia).
  unfold border. change (scanned (bump d s)) with (scanned s). unfold room_outcome.
  destruct out; [split; [done|by intros ? [= <-]]|].
  case_match; [done|]. case_match; [split; [done|by intros ? [= <-]]|].
  set (s1 := if more then push (number x' y', wh) (scan (number x y) s) else scan (number x y) s).
  assert ((if more then push (number x' y', wh) (scan (number x y) (bump d s)) else scan (number x y) (bump d s))
    = bump d s1) as -> by by destruct more.
  assert (lock_size s1 = lock_size s) as E by by destruct more.
  case_match.
  - change (full size (add x' y' (bump d s1))) with (full size (add x' y' s1)).
    case_match; [by split|]. split; [done|]. intros ? [= <-]. unfold room in *. cbn [lock_size add]. by rewrite E.
  - change (full size (bump d s1)) with (full size s1). case_match; [done|].
    destruct (skip_bump n d s1) as [E1 Hk]; [unfold room in *; by rewrite E|done|]. cbn [bump_outcome].
    rewrite E1. split; [done|]. by intros ? [= <-].
Qed.

Lemma grow_bump t s n d :
  room (n + 1) d s -> 0 <= n ->
  grow width height count free size t (bump d s) = bump_outcome d (grow width height count free size t s) /\ room_outcome n d (grow width height count free size t s).
Proof.
  intros Hr Hn. unfold grow. destruct t as [i wh]. repeat case_match; by apply border_bump.
Qed.

Lemma corner_bump idle x y wh v s n d :
  room (n + 1) d s -> 0 <= n ->
  corner count free size idle x y wh v (bump d s) = bump_outcome d (corner count free size idle x y wh v s) /\
  room_outcome n d (corner count free size idle x y wh v s).
Proof.
  intros Hr Hn. assert (room n d s) as Hr0 by (unfold room in *; lia). unfold corner, room_outcome.
  case_match; [done|]. case_match; [split; [done|by intros ? [= <-]]|].
  case_match; [split; [done|by intros ? [= <-]]|].
  set (s1 := push (number x y, wh) (set_max wh v s)).
  change (push (number x y, wh) (set_max wh v (bump d s))) with (bump d s1).
  change (full size (bump d s1)) with (full size s1). case_match; cbn [bump_outcome].
  - split; [done|by intros ? [= <-]].
  - destruct (skip_bump n d s1) as [E1 Hk]; [done|done|]. rewrite E1. split; [done|by intros ? [= <-]].
Qed.

Definition bumped (n d : Z) (o o' : option outcome) : Prop :=
  o' = bump_outcome d <$> o /\ forall x, o = Some x -> room_outcome n d x.

Lemma turn_bump o o' out pos cut f n d :
  (forall k s, room (n + 1) d s -> f k (bump d s) = bump_outcome d (f k s) /\ room_outcome n d (f k s)) ->
  0 <= n -> bumped (n + 1) d o o' -> bumped n d (turn count st_y o out pos cut f) (turn count st_y o' out pos cut f).
Proof.
  intros Hf Hn [-> Ho]. unfold bumped, turn. destruct o as [x|]; cbn [fmap option_fmap option_map mbind option_bind]; [|done].
  specialize (Ho x eq_refl). destruct x as [s|s|]; cbn [bump_outcome]; [|split; [done|by intros ? [= <-]]..].
  assert (room (n + 1) d s) as Hr by by apply Ho.
  assert (room n d s) as Hr0 by (unfold room in *; lia).
  change (scanned (bump d s)) with (scanned s). change (layer_ (bump d s)) with (layer_ s).
  destruct (look count out pos (scanned s)) as [e|k| |]; [| | |done].
  - destruct (cut && e && _); (split; [done|by intros ? [= <-] ? [= <-]]).
  - destruct (cut && _).
    + change (set_layer 0 (bump d s)) with (bump d (set_layer 0 s)).
      destruct (Hf k (set_layer 0 s) Hr) as [-> H]. split; [done|]. by intros ? [= <-].
    + destruct (Hf k s Hr) as [-> H]. split; [done|]. by intros ? [= <-].
  - split; [done|]. by intros ? [= <-].
Qed.

(** The number of skipped blocks is large enough to play no role. *)
Definition loose (s : Search) : Prop := 5 < lock_size s - Z.of_nat (length (new_lock s)).

Lemma spiral_bump s n d :
  room (n + 4) d s -> 0 <= n -> loose s ->
  spiral width height count free st_x st_y size (bump d s) = bump_outcome d <$> spiral width height count free st_x st_y size s.
Proof.
  intros Hr Hn Hl. unfold spiral. change (layer_ (bump d s)) with (layer_ s). change (new_lock (bump d s)) with (new_lock s).
  cbn [lock_size bump].
  assert (forall e, 0 <= e -> e <= d -> (uwrap 64 (lock_size s + e - Z.of_nat (length (new_lock s))) <=? 5) = false) as Ht.
  { intros e He Hed. unfold loose, room in *. rewrite uwrap_small; [lia|]. change (2 ^ 64) with 18446744073709551616. lia. }
  pose proof (Ht 0 ltac:(lia) ltac:(unfold room in Hr; lia)) as Ht0. rewrite Z.add_0_r in Ht0.
  rewrite (Ht d), Ht0 by (unfold room in Hr; lia).
  set (l := if (size <=? 10) || false then 0 else layer_ s + 1).
  change (set_layer l (bump d s)) with (bump d (set_layer l s)).
  apply (turn_bump _ _ _ _ _ _ n d); [intros k s' Hs; by apply corner_bump|done|].
  do 3 (apply turn_bump; [intros k s' Hs; apply corner_bump; [exact Hs|lia]|lia|]).
  split; [done|]. intros ? [= <-] ? [= <-]. unfold room in *. cbn [lock_size set_layer]. lia.
Qed.

Lemma round_bump s d :
  room 5 d s -> (forall s1, grow width height count free size (hd (0, 0) (pending s)) (pop s) = Go s1 -> loose s1) ->
  round width height count free st_x st_y size (bump d s) =
    bump_outcome d <$> round width height count free st_x st_y size s.
Proof.
  intros Hr Hl. unfold round. change (pending (bump d s)) with (pending s).
  destruct (pending s) as [|t ts] eqn:Ep; [done|]. change (full size (bump d s)) with (full size s).
  case_match; [done|]. change (pop (bump d s)) with (bump d (pop s)).
  destruct (grow_bump t (pop s) 4 d) as [-> Hk]; [done|done|]. cbn [hd] in Hl.
  destruct (grow width height count free size t (pop s)) as [s1|s1|]; [|done..].
  cbn [bump_outcome]. change (pending (bump d s1)) with (pending s1).
  destruct (pending s1); [|done]. apply (spiral_bump s1 0); [by apply Hk|done|by apply Hl].
Qed.

(** [n] passes of the loop. *)
Fixpoint rounds (n : nat) (s : Search) : option Search :=
  match n with
  | O => Some s
  | S n =>
      match round width height count free st_x st_y size s with
      | Some (Go s) => rounds n s
      | _ => None
      end
  end.

Lemma rounds_add n m s s1 : rounds n s = Some s1 -> rounds (n + m) s = rounds m s1.
Proof.
  revert s. induction n as [|n IH]; intros s; cbn [rounds Nat.add]; [by intros [= <-]|].
  destruct (round width height count free st_x st_y size s) as [[s2|s2|]|]; [|done..]. by apply IH.
Qed.

Lemma search_rounds n fuel s s1 :
  rounds n s = Some s1 -> (fuel <= n)%nat -> search width height count free st_x st_y size fuel s = None.
Proof.
  revert fuel s. induction n as [|n IH]; intros [|fuel] s; cbn [rounds search]; [done|lia|done|].
  destruct (round width height count free st_x st_y size s) as [[s2|s2|]|]; cbn [mbind option_bind]; [|done..].
  intros H Hf. eapply IH; [exact H|lia].
Qed.

(** The states of [n] passes are in a range where [bump] makes no
    difference. *)
Definition quiet (s : Search) : bool :=
  (0 <=? lock_size s) && (lock_size s <=? 2000) &&
  match grow width height count free size (hd (0, 0) (pending s)) (pop s) with
  | Go s1 => 5 <? lock_size s1 - Z.of_nat (length (new_lock s1))
  | _ => true
  end.

Fixpoint all_quiet (n : nat) (s : Search) : bool :=
  match n with
  | O => true
  | S n =>
      quiet s && match round width height count free st_x st_y size s with
                 | Some (Go s) => all_quiet n s
                 | _ => true
                 end
  end.

Lemma rounds_bump n d : forall s,
  all_quiet n s = true -> 0 <= d <= 1073741824 -> rounds n (bump d s) = bump d <$> rounds n s.
Proof.
  induction n as [|n IH]; intros s Hq Hd; cbn [rounds all_quiet] in *; [done|].
  apply andb_true_iff in Hq as [Hq Hn]. unfold quiet in Hq. rewrite !andb_true_iff in Hq.
  destruct Hq as [[H1 H2] H3]. rewrite (round_bump s d).
  - destruct (round width height count free st_x st_y size s) as [[s1|s1|]|]; cbn; [|done..]. by apply IH.
  - unfold room. lia.
  - intros s1 E. rewrite E in H3. unfold loose. lia.
Qed.

Lemma bump_bump d e s : bump d (bump e s) = bump (e + d) s.
Proof. unfold bump. cbn [lock_size]. f_equal. lia. Qed.

(** [s] comes back after [n] passes, with [d] more skipped blocks. *)
Definition cycles (n : nat) (d : Z) (s : Search) : bool :=
  all_quiet n s && bool_decide (rounds n s = Some (bump d s)).

Lemma cycles_again n d s k :
  cycles n d s = true -> 0 <= d -> d * Z.of_nat k <= 1073741824 ->
  rounds (k * n) s = Some (bump (d * Z.of_nat k) s).
Proof.
  intros [Hq Hc%bool_decide_eq_true]%andb_true_iff Hd. induction k as [|k IH]; intros Hk.
  - cbn. unfold bump. rewrite Z.mul_0_r, Z.add_0_r. by destruct s.
  - assert (d * Z.of_nat k <= 1073741824) as Hk' by lia.
    replace (S k * n)%nat with (k * n + n)%nat by lia. rewrite (rounds_add _ _ _ _ (IH Hk')).
    rewrite rounds_bump, Hc by (done || lia). cbn. rewrite bump_bump. do 2 f_equal. lia.
Qed.

Lemma search_hangs m n d s s1 k fuel :
  rounds m s = Some s1 -> cycles n d s1 = true -> 0 <= d -> d * Z.of_nat k <= 1073741824 ->
  (fuel <= m + k * n)%nat -> search width height count free st_x st_y size fuel s = None.
Proof.
  intros Hm Hc Hd Hk Hf. eapply search_rounds; [|exact Hf].
  rewrite (rounds_add _ _ _ _ Hm). by apply (cycles_again n d).
Qed.

End Loop.

(** ** A crowded world *)

(** A world of the usual size in which another lock has every block but one
    at the left border. *)
Definition taken : WorldBlock := set_lock true 5999 block_default.

Definition crowded : World :=
  mkWorld "MEADOW" "" [] 0 0 100 60 0 false
    (replicate (Z.to_nat 300) taken ++ block_default :: replicate (Z.to_nat 5699) taken) [].

(** ... when the player's name is written into that block. *)
Definition crowded_by (who : string) : World := on_block (number 0 3) (set_owner who) crowded.

Definition crowded_free (who : string) : Z -> bool := free_block [item_default] (crowded_by who).

Definition crowded_start (who : string) : Search :=
  match search_start 100 60 6000 (crowded_free who) 0 3 48 with
  | Go s => s
  | _ => mkSearch [] [] 0 0 0 0 0 0 ∅
  end.

Lemma crowded_cycle who :
  match rounds 100 60 6000 (crowded_free who) 0 3 48 795 (crowded_start who) with
  | Some s => cycles 100 60 6000 (crowded_free who) 0 3 48 4 5 s
  | None => false
  end = true.
Proof. vm_compute. reflexivity. Qed.

Lemma crowded_search who fuel :
  Z.of_nat fuel <= 800000000 ->
  search 100 60 6000 (crowded_free who) 0 3 48 fuel (crowded_start who) = None.
Proof.
  intros Hf. pose proof (crowded_cycle who) as Hc.
  destruct (rounds 100 60 6000 (crowded_free who) 0 3 48 795 (crowded_start who)) as [s|] eqn:Er; [|done].
  apply (search_hangs _ _ _ _ _ _ _ 795 4 5 _ s (Z.to_nat 200000000)); [done|done|lia|lia|lia].
Qed.

Lemma crowded_tiles who fuel :
  Z.of_nat fuel <= 800000000 -> lock_tiles [item_default] (crowded_by who) 0 3 48 fuel = None.
Proof.
  intros Hf. unfold lock_tiles.
  assert (block_at (crowded_by who) (number 0 3) = Some (set_owner who block_default)) as -> by reflexivity.
  assert (size_of (crowded_by who) = 6000) as -> by reflexivity.
  change (max_x (crowded_by who)) with 100. change (max_y (crowded_by who)) with 60.
  change (free_block [item_default] (crowded_by who)) with (crowded_free who).
  pose proof (crowded_search who fuel Hf) as Hs. unfold crowded_start in Hs.
  change (locked (set_owner who block_default)) with false. cbv iota.
  assert (exists s, search_start 100 60 6000 (crowded_free who) 0 3 48 = Go s) as [s E].
  { eexists. vm_compute. reflexivity. }
  rewrite E in *. change (6000 <? 100) with false. cbv iota. by rewrite Hs.
Qed.

(** C38: Placing a lock can hang the server. In a world of the usual size in
    which a lock of the same owner has taken every other block, the search
    for the area of a lock of 48 blocks at the left border does not end: not
    in 800 million passes, of which each stores two numbers more. *)
Theorem lock_never_placed modify peers comet fuel mag t :
  Z.of_nat fuel <= 800000000 ->
  place_lock [item_default] modify peers comet fuel 10000 0 3 mag crowded t = None.
Proof.
  intros Hf. unfold place_lock, place_small_lock. change (small_lock 10000) with true. cbv iota.
  assert (block_at crowded (number 0 3) = Some block_default) as -> by reflexivity.
  cbn [mbind option_bind].
  assert (small_refused 10000 0 3 (name_of (visitor t)) crowded block_default = Some None) as -> by reflexivity.
  cbn [mbind option_bind]. unfold new_area. change (lock_size_of 10000) with 48.
  change (on_block (number 0 3) (set_owner (name_of (visitor t))) crowded) with (crowded_by (name_of (visitor t))).
  by rewrite crowded_tiles.
Qed.

Lemma lock_never_placed_witness :
  place_lock [item_default] (λ _ _ _ _ p, Some (mkResult 0 0 p [])) ["MEADOW"] false 100 10000 0 3 false crowded
    (mkBuilder (Access.visitor "Ann" plain_roles) (sample_player [(10000, 1); (0, 0)] 0 false) [] 0) = None.
Proof. apply lock_never_placed. lia. Defined.

End AreaLoop.
