(* ===== verification/Drops.v ===== *)
(** * Drops: items on the ground

    Models [VisualHandle::Drop], [SaveDropItemMoreTimes] and [gems_] of
    [src/NopySource/Handle/WorldInfo.h]; collecting
    ([PACKET_ITEM_ACTIVATE_OBJECT_REQUEST] of
    [src/NopySource/Server/server_pool.h]); and the ways to drop and destroy
    items: the actions [drop] and [trash] of [src/NopySource/Action/Action.h],
    the dialogs [drop_item], [trash_item] and [trash_item2] of [call_dialog]
    ([src/NopySource/Handle/DialogReturn.h]), and the dialogs of the commands
    ([drop_item_inv], [trash_item_inv] of
    [src/NopySource/Dialog/dialog_return.h]).  An item dropped into the world
    GROWGANOTH during the Halloween event goes to the altar of [call_dialog],
    which gives a prize for it.

    An item on the ground is an entry [id; count; uid; x; y; time] of
    [drop_new]; the time is missing in old entries.  [r1], [r2], ... are
    results of [rand()].  [None] is a read outside of a vector. *)
From S2P Require Import Prelude Memory Items Packet Tank World Guild.
From S2P Require Import Inventory Texts Messages Dispatch Shop Access.
Import Memory Items World Inventory Access.

Module Drops.

(** ** The ground *)

Abbreviation entry := (list Z).

Definition field (k : nat) (e : entry) : Z := nth k e 0.
Definition e_id : entry -> Z := field 0.
Definition e_count : entry -> Z := field 1.
Definition e_uid : entry -> Z := field 2.
Definition e_x : entry -> Z := field 3.
Definition e_y : entry -> Z := field 4.

Definition with_count (n : Z) (e : entry) : entry := <[1%nat := n]> e.

Record WorldDrop := mkWorldDrop { d_id : Z; d_count : Z; d_x : Z; d_y : Z; d_flag : Z }.

Definition set_count (n : Z) (d : WorldDrop) : WorldDrop :=
  mkWorldDrop (d_id d) n (d_x d) (d_y d) (d_flag d).

(** A world and what else of it the ground needs: the counter of drops, the
    working machines, the flags of the blocks, and the event. *)
Record Site := mkSite {
  land : World;
  total_drop_uid : Z;
  active_jammers : list Z;
  flags : Z -> Z;
  special_event : bool;
  world_event_items : list Z;
  special_event_item : Z;
  special_event_item_taken : Z
}.

Definition floor (s : Site) : list entry := drop_new (land s).

Definition set_land (w : World) (s : Site) : Site :=
  mkSite w (total_drop_uid s) (active_jammers s) (flags s) (special_event s) (world_event_items s)
    (special_event_item s) (special_event_item_taken s).
Definition set_floor (l : list entry) (s : Site) : Site := set_land (set_drops l (land s)) s.
Definition set_uid (v : Z) (s : Site) : Site :=
  mkSite (land s) v (active_jammers s) (flags s) (special_event s) (world_event_items s)
    (special_event_item s) (special_event_item_taken s).
Definition set_event (on : bool) (its : list Z) (it taken : Z) (s : Site) : Site :=
  mkSite (land s) (total_drop_uid s) (active_jammers s) (flags s) on its it taken.

Definition fresh (s : Site) : Site :=
  let w := land s in
  set_land (mkWorld (name w) (owner_name w) (admins w) (world_settings w) (World.guild_id w) (max_x w)
              (max_y w) (weather w) true (blocks w) (drop_new w)) s.

Definition near (r : Z) (d : WorldDrop) (e : entry) : bool :=
  (Z.abs (e_y e - d_y d) <=? r) && (Z.abs (e_x e - d_x d) <=? r).

(** ** Gems

    An amount of gems as gems of 1000, 100, 50, 10, 5 and 1. *)
Record Gems := mkGems { thousand_ : Z; purple_ : Z; green_ : Z; red_ : Z; blue_ : Z; yellow_ : Z }.

Definition split_gems (c : Z) : Gems :=
  let thousand := if 1000 <=? c then Z.quot c 1000 else 0 in
  let r := c - thousand * 1000 in
  let purple := if 100 <=? r then Z.quot r 100 else 0 in
  let r := r - purple * 100 in
  let green := if 50 <=? r then Z.quot r 50 else 0 in
  let r := r - green * 50 in
  let red := if 10 <=? r then Z.quot r 10 else 0 in
  let r := r - red * 10 in
  let blue := if 5 <=? r then Z.quot r 5 else 0 in
  let r := r - blue * 5 in
  mkGems thousand purple green red blue (if 0 <? r then r else 0).

Definition gem_near (d : WorldDrop) (e : entry) : bool := near 17 d e && (e_id e =? 112).

Definition gems_near (d : WorldDrop) (l : list entry) : Z :=
  fold_left (λ c e, if gem_near d e then i32 (c + e_count e) else c) l 0.

(** What the new gem becomes, and the gems that it replaces. *)
Definition upgrade (c n : bool) (count old : Z) (st : WorldDrop * list Z) : WorldDrop * list Z :=
  if c || n then (set_count count st.1, st.2 ++ [old]) else st.

Definition update_gem (b a : Gems) (d : WorldDrop) : WorldDrop * list Z :=
  let st := (d, []) in
  let st := upgrade (blue_ b <? blue_ a) ((blue_ a =? 0) && negb (blue_ b =? 0)) 5 1 st in
  let st := upgrade (red_ b <? red_ a) ((red_ a =? 0) && negb (red_ b =? 0)) 10 5 st in
  let st := upgrade (green_ b <? green_ a) ((green_ a =? 0) && negb (green_ b =? 0)) 50 10 st in
  let st := upgrade (purple_ b <? purple_ a) false 100 50 st in
  if thousand_ b <? thousand_ a
  then (mkWorldDrop 4490 1 (d_x d) (d_y d) (d_flag d), st.2 ++ [100]) else st.

(** The loop that erases the replaced gems, and the uids of what it erased:
    the index goes on after an [erase], so the entry after it is skipped. *)
Fixpoint erase_gems (d : WorldDrop) (v : Z) (l : list entry) : list entry * list Z :=
  match l with
  | [] => ([], [])
  | e :: l =>
      if gem_near d e && (e_count e =? v) then
        match l with
        | [] => ([], [e_uid e])
        | e2 :: l => let '(l, gone) := erase_gems d v l in (e2 :: l, e_uid e :: gone)
        end
      else let '(l, gone) := erase_gems d v l in (e :: l, gone)
  end.

Definition erase_all (d : WorldDrop) (vs : list Z) (l : list entry) : list entry * list Z :=
  fold_left (λ st v, let '(l, gone) := erase_gems d v st.1 in (l, st.2 ++ gone)) vs (l, []).

Definition merge_gems (d : WorldDrop) (l : list entry) : WorldDrop * list entry * list Z :=
  let c := gems_near d l in
  if c =? 0 then (d, l, [])
  else
    let '(d, vs) := update_gem (split_gems c) (split_gems (i32 (c + d_count d))) d in
    let '(l, gone) := erase_all d vs l in (d, l, gone).

(** ** [Drop] *)

(** The parts of a broken item drop as the item. *)
Definition dropped_id (id : Z) : Z :=
  if existsb (Z.eqb id) [745; 747; 749] then 743
  else if existsb (Z.eqb id) [629; 631; 633; 635; 637; 639; 641; 643; 645; 647; 649] then 627
  else id.

(** The first stack of the item that is near and not full: the entries, the
    rest of the count, and the changed entry. *)
Fixpoint stack (d : WorldDrop) (l : list entry) : option (list entry * Z * entry) :=
  match l with
  | [] => None
  | e :: l =>
      let n := i32 (e_count e + d_count d) in
      if negb (e_id e =? 0) && near 16 d e && (e_id e =? d_id d) && (e_count e <? 200) &&
         ((200 - e_count e <? d_count d) || (n <=? 200)) then
        let '(n, rest) := if n <=? 200 then (n, 0) else (200, i32 (d_count d - (200 - e_count e))) in
        let e := with_count n e in Some (e :: l, rest, e)
      else
        '(l, rest, e') ← stack d l; Some (e :: l, rest, e')
  end.

Inductive effect :=
| EMessage (e : Messages.effect)                (* to the player *)
| ETo (peer : nat) (e : Messages.effect)        (* to a connected peer *)
| EInventory (e : Inventory.effect)
| EDropped (peer : nat) (x y id net_id value : Z)  (* an item appears, [value] as a [float] *)
| EStack (peer : nat) (id x y uid count : Z)    (* a stack grows *)
| EGone (peer : nat) (netID uid : Z)            (* an item is taken (by [netID]) or disappears *)
| EFly (id x y : Z)                             (* the packet 19: it flies to the player *)
| EItem (packet : option mem)                   (* the packet 13 about an item *)
| EThrow (peer : nat) (id x y : Z)              (* the packet 4 of [drop_item_inv] *)
| EDialog (text : string)                       (* [OnDialogRequest] to the player *)
| ECctv (type extra : string)                   (* [CctvLogs::Add] *)
| ELog (text type : string)                     (* [Logs::Add] *)
| ESave                                         (* [SaveDatabase::Players] *)
| ECancelTrade                                  (* [cancel_trade] *)
| ETutorial (id : Z)                            (* progress in the tutorial *)
| ERespawn                                      (* [Player_Respawn] *)
| EHonor (prize id : Z)                         (* every connected peer reads of the rare prize *)
| ETask (task : string) (n : Z)                 (* [DailyEvent_Task::Halloween] *)
| EDarkKing                                     (* one more in [DarkKing_Sacrifices], and its progress *)
| EMagicEgg (x y count : Z).                    (* [add_magic_egg] *)

(** The fields of the item table that only this component reads. *)
Record ItemMore := mkItemMore {
  collisionType : Z;
  toggleable : bool;
  rarity : Z;
  max_gems2 : Z;
  max_gems3 : Z;
  event_name : string;
  event_total : Z;
  consume_prize : list Z;
  consume_needed : Z
}.

(** The player. *)
Record Picker := mkPicker {
  visitor : Visitor;
  bag : Player;
  account : Messages.Player;
  px : Z;
  py : Z;
  facing : Z;                    (* [state]: 16 when the player looks left *)
  ghost : bool;
  invis : bool;
  winter_seal : Z;
  cheater_settings : Z;
  disable_cheater : Z;
  trading : bool                 (* [trading_with != -1] *)
}.

Definition set_bag (p : Player) (t : Picker) : Picker :=
  mkPicker (visitor t) p (account t) (px t) (py t) (facing t) (ghost t) (invis t) (winter_seal t)
    (cheater_settings t) (disable_cheater t) (trading t).
Definition set_account (a : Messages.Player) (t : Picker) : Picker :=
  mkPicker (visitor t) (bag t) a (px t) (py t) (facing t) (ghost t) (invis t) (winter_seal t)
    (cheater_settings t) (disable_cheater t) (trading t).
Definition set_winter_seal (v : Z) (t : Picker) : Picker :=
  mkPicker (visitor t) (bag t) (account t) (px t) (py t) (facing t) (ghost t) (invis t) v
    (cheater_settings t) (disable_cheater t) (trading t).

Definition moves (es : list Inventory.effect) : list effect := EInventory <$> es.
Definition bubble (t : Picker) (text : string) (overlay : bool) : list effect :=
  EMessage <$> Messages.OnTalkBubble (netID (bag t)) text 0 overlay 0 false.
Definition overlay (text : string) : list effect := EMessage <$> Messages.OnTextOverlay text 0.
Definition console (text : string) : list effect := EMessage <$> Messages.OnConsoleMessage text false 0.

Section Drops.
Context (items : table) (more : Z -> ItemMore) (modify : modify_fn).
(** [(float)] of an [int], and [SetColor(peer)]. *)
Context (to_float : Z -> Z) (color : string).
(** The worlds of the connected peers, and the clock ([time(NULL)]). *)
Context (peers : list string) (now : Z).

Definition to_world (s : Site) (f : nat -> list effect) : list effect :=
  mjoin (imap (λ k v, if String.eqb v (name (land s)) then f k else []) peers).

(** What is left of the drop lies there on its own. *)
Definition push_drop (d : WorldDrop) (net_id : Z) (Flag : bool) (s : Site) : Site * list effect :=
  let uid := i32 (total_drop_uid s + 1) in
  let s := set_uid uid (set_floor (floor s ++ [[d_id d; d_count d; uid; d_x d; d_y d; i32 now]]) s) in
  let s := set_land (AutoClearOldWorldDrops now (land s)) s in
  (s, to_world s (λ k, [EDropped k (d_x d) (d_y d) (d_id d) net_id (if Flag then d_flag d else d_count d)])).

(** Gems and fish do not stack. *)
Definition stackable (id : Z) : option bool :=
  if id =? 112 then Some false
  else it ← get_item items id; Some (negb (bool_decide (blockType it = FISH))).

Definition stack_drop (d : WorldDrop) (s : Site) : WorldDrop * Site * list effect :=
  match stack d (floor s) with
  | None => (d, s, [])
  | Some (l, rest, e) =>
      let s := set_floor l s in
      (set_count rest d, s, to_world s (λ k, [EStack k (e_id e) (e_x e) (e_y e) (e_uid e) (e_count e)]))
  end.

Definition Drop (d : WorldDrop) (net_id : Z) (Flag : bool) (s : Site) : option (Site * list effect) :=
  let s := fresh s in
  let d := mkWorldDrop (dropped_id (d_id d)) (d_count d) (d_x d) (d_y d) (d_flag d) in
  let '(d, l, gone) := if d_id d =? 112 then merge_gems d (floor s) else (d, floor s, []) in
  let s := set_floor l s in
  let e1 := to_world s (λ k, EGone k (-2) <$> gone) in
  stacks ← stackable (d_id d);
  let '(d, s, e2) := if stacks : bool then stack_drop d s else (d, s, []) in
  if d_count d =? 0 then Some (s, e1 ++ e2)
  else let '(s, e3) := push_drop d net_id Flag s in Some (s, e1 ++ e2 ++ e3).

(** ** [SaveDropItemMoreTimes] *)

Definition around (c r : Z) : Z := i32 (c + Z.rem r 17).

Definition SaveDropItemMoreTimes (r1 r2 itemId count : Z) (s : Site) (t : Picker)
    : option (Site * Picker * list effect) :=
  if Contains (bag t) itemId =? 0 then
    r ← modify itemId count true true (bag t); Some (s, set_bag (pl_out r) t, moves (effs r))
  else
    let plusItem := i32 (swrap 16 (Contains (bag t) itemId) + count) in
    let idx := HasItemsInInv (bag t) itemId 1 in
    if idx <? 0 then None
    else
      let own n := set_bag (set_inv (put (Z.to_nat idx) (itemId, n) (inv (bag t))) (bag t)) t in
      let shown := EItem (if count <? 0 then item_packet itemId 2 (count * -1) else item_packet itemId 3 0) in
      if 200 <? plusItem then
        '(s, es) ← Drop (mkWorldDrop itemId (plusItem - 200) (around (px t) r1) (around (py t) r2) 0)
                     (-1) false (fresh s);
        Some (s, own 200, es ++ [shown])
      else Some (s, own plusItem, [shown]).

(** ** Collecting *)

Definition MAX_GEMS : Z := 2100000000.

(** [OnBuxGems]: the gems of the player are those of [bag]. *)
Definition OnBuxGems (amount : Z) (t : Picker) : Picker * list effect :=
  let '(a, es) := Messages.OnBuxGems to_float amount 0 (Messages.with_gems (gems (bag t)) (account t)) in
  (set_account a (set_bag (set_gems (Messages.gems a) (bag t)) t), EMessage <$> es).

(** The item belongs to the event of the world. *)
Definition event_taken (id : Z) (s : Site) (t : Picker) : Site * list effect :=
  if special_event s && existsb (Z.eqb id) (world_event_items s) then
    let taken := i32 (special_event_item_taken s + 1) in
    let it := special_event_item s in
    let ev := event_name (more it) in
    let total := event_total (more it) in
    let who := name_of (visitor t) in
    let seal := if it =? 9186
                then bubble t "Royal Winter Wonders: You have collected `21 Royal Winter Seal``." false else [] in
    let found k := ETo k <$> Messages.OnConsoleMessage
          (cat ["`2"; ev; ":`` `0"; who; "`` found a "; ori_name (item items id); "! (";
                to_string taken; "/"; to_string total; ")``"]) false 0 in
    let found_it := cat ["`2"; who] in
    let success k := ETo k <$> (Messages.OnConsoleMessage
          (cat ["`2"; ev; ":`` `oSuccess!`` ";
                if total =? 1 then found_it +:+ "`` `ofound it!``" else "All items found!``"]) false 0 ++
        Messages.OnAddNotification
          (cat ["`2"; ev; ":`` `oSuccess! ";
                if total =? 1 then found_it +:+ "`` found it!``" else "All items found!``"])
          "interface/large/special_event.rttex" "audio/cumbia_horns.wav" 0) in
    if total =? taken then
      let s := set_event false [] 0 0 s in
      (s, seal ++ to_world s (λ k, (if total =? 1 then [] else found k) ++ success k))
    else
      let s := set_event true (world_event_items s) it taken s in (s, seal ++ to_world s found)
  else (s, []).

(** How a pass of the loop ends: go on with the next index, or leave. *)
Inductive pass :=
| Next (s : Site) (t : Picker) (es : list effect)
| Leave (s : Site) (t : Picker) (es : list effect).

Definition say (es : list effect) (p : pass) : pass :=
  match p with
  | Next s t es' => Next s t (es ++ es')
  | Leave s t es' => Leave s t (es ++ es')
  end.

Definition erase_at (i : nat) (s : Site) : Site := set_floor (delete i (floor s)) s.

(** Gems and seals are counted, not put in the bag. *)
Definition take_gems (i : nat) (e : entry) (s : Site) (t : Picker) : pass :=
  let done_ (netID : Z) (t : Picker) (es : list effect) :=
    Next (erase_at i s) t (es ++ to_world s (λ k, [EGone k netID (e_uid e)])) in
  if (e_id e =? 112) || (e_id e =? 4490) then
    if MAX_GEMS <=? gems (bag t) then
      Leave s t (bubble t "Warning! Your gems have reached the maximum limit" false)
    else if e_id e =? 4490 then
      let '(t, es) := OnBuxGems (i32 (1000 * e_count e)) t in
      done_ (-2) t (es ++ [EFly (e_id e) (i32 (e_x e + 16)) (i32 (e_y e + 16))])
    else done_ (netID (bag t)) (set_bag (set_gems (i32 (gems (bag t) + e_count e)) (bag t)) t) []
  else
    done_ (-2) (set_winter_seal (i32 (winter_seal t + e_count e)) t)
      [EFly (e_id e) (i32 (e_x e + 16)) (i32 (e_y e + 16))].

Definition take_item (r1 r2 : Z) (i : nat) (e : entry) (s : Site) (t : Picker) : option pass :=
  it ← get_item items (e_id e);
  let log := ECctv "took" (cat [to_string (e_count e); " "; Items.name it]) in
  '(s, t, es) ← SaveDropItemMoreTimes r1 r2 (e_id e) (e_count e) (erase_at i s) t;
  Some (Leave s t (log :: es ++ to_world s (λ k, [EGone k (netID (bag t)) (e_uid e)]))).

Definition currency (id : Z) : bool := (id =? 112) || (id =? 4490) || (id =? 9186).

Definition take (r1 r2 : Z) (i : nat) (e : entry) (s : Site) (t : Picker) : option pass :=
  let '(s, es) := event_taken (e_id e) s t in
  let owned := Contains (bag t) (e_id e) in
  if (200 <=? owned) || ((Get_Slots (bag t) =? 0) && (owned =? 0) && negb (currency (e_id e)))
  then Some (Leave s t es)
  else
    p ← (if currency (e_id e) then Some (take_gems i e s t) else take_item r1 r2 i e s t);
    Some (say es p).

Definition too_far (e : entry) (t : Picker) : bool :=
  (0 <? px t) && (0 <? py t) &&
  ((8 <? Z.abs (Z.quot (i32 (px t + 10)) 32 - Z.quot (e_x e) 32)) ||
   (8 <? Z.abs (Z.quot (i32 (py t + 15)) 32 - Z.quot (e_y e) 32))).

Section Access.
Context (cfg : ServerRoles) (gs : list Guild.Guild).

Definition Only_Access (t : Picker) (w : World) (b : WorldBlock) : option bool :=
  block_access cfg gs (visitor t) w b false false false false.

(** The entry has the wanted uid.  [displaybox] is set by the pass. *)
Definition collect_entry (r1 r2 : Z) (i : nat) (e : entry) (displaybox : bool) (s : Site) (t : Picker)
    : option (pass * bool) :=
  let leave es := Some (Leave s t es, displaybox) in
  it ← get_item items (e_id e);
  let block := bool_decide (blockType it = FISH) && existsb (λ o, o.1 =? e_id e) (inv (bag t)) in
  if too_far e t then leave (bubble t "`w(Too Far Away)``" true)
  else if block then leave []
  else
    let w := land s in
    b ← block_at w (Z.quot (e_x e) 32 + Z.quot (e_y e) 32 * 100);
    allowed ← (if Z.testbit (world_settings w) 2 then Only_Access t w b else Some true);
    if negb allowed then leave (bubble t "`1(Collect disable here)" true)
    else
      displaybox ← (if (fg b =? 1422) || (fg b =? 2488) then Only_Access t w b else Some displaybox);
      if displaybox : bool then
        p ← take r1 r2 i e s t; Some (say [ETutorial (e_id e)] p, displaybox)
      else Some (Next s t [], displaybox).

(** The loop over [drop_new], from the index [i] on; it does not get longer
    before the loop is left. *)
Fixpoint collect_loop (fuel : nat) (r1 r2 uid : Z) (i : nat) (displaybox : bool) (s : Site) (t : Picker)
    : option (Site * Picker * list effect) :=
  match fuel with
  | O => Some (s, t, [])
  | S fuel =>
      match floor s !! i with
      | None => Some (s, t, [])
      | Some e =>
          '(p, displaybox) ← (if e_uid e =? uid then collect_entry r1 r2 i e displaybox s t
                              else Some (Next s t [], displaybox));
          match p with
          | Leave s t es => Some (s, t, es)
          | Next s t es =>
              '(s, t, es') ← collect_loop fuel r1 r2 uid (S i) displaybox s t; Some (s, t, es ++ es')
          end
      end
  end.

(** [plantingTree] is the uid; [outside]: the position in the packet is not
    in the world ([pMov->y / 32 >= max_y || pMov->x / 32 >= max_x]). *)
Definition PACKET_ITEM_ACTIVATE_OBJECT_REQUEST (r1 r2 plantingTree : Z) (outside : bool) (s : Site) (t : Picker)
    : option (Site * Picker * list effect) :=
  if ghost t || invis t || outside then Some (s, t, [])
  else collect_loop (length (floor s)) r1 r2 plantingTree 0 true (fresh s) t.

(** ** Dropping *)

Definition throw_x (r : Z) (t : Picker) : Z :=
  let a_ := Z.rem r 12 in
  if facing t =? 16 then i32 (px t - (a_ + 20)) else i32 (i32 (px t + 20) + a_).
Definition throw_y (r : Z) (t : Picker) : Z := i32 (py t + Z.rem r 16).

(** [round((double)x / 32)]. *)
Definition round32 (x : Z) : Z := Z.quot (if 0 <=? x then x + 16 else x - 16) 32.

Definition spot (x y : Z) (t : Picker) : Z :=
  (if facing t =? 16 then Z.quot x 32 else round32 x) + Z.quot y 32 * 100.

Definition is_false_state (b : WorldBlock) (flags t_ : Z) : bool :=
  if collisionType (more (fg b)) =? 0 then false
  else if collisionType (more (fg b)) =? 1 then true
  else Z.land flags t_ =? 0.

(** The block at [i] takes no items; the flags that tell whether it is open
    are those of the block at [i2]. *)
Definition no_space (i i2 : Z) (s : Site) : option (option string) :=
  b ← block_at (land s) i;
  it ← get_item items (fg b);
  let m := more (fg b) in
  closed ← (if (collisionType m =? 1) || (fg b =? 6) || bool_decide (blockType it = GATEWAY) then Some true
            else if toggleable m then
              b2 ← block_at (land s) i2; Some (is_false_state b2 (flags s i2) 4194304)
            else Some false);
  Some (if closed : bool then
    Some (if bool_decide (blockType it = MAIN_DOOR) then "You can't drop items on the white door."
          else "You can't drop that here, face somewhere with open space.")
  else None).

Definition crowd (x y : Z) (s : Site) : Z :=
  Z.of_nat (length (filter (λ e, near 16 (mkWorldDrop 0 0 x y 0) e = true) (floor s))).

Definition jammed (s : Site) (t : Picker) : bool :=
  existsb (Z.eqb 4758) (active_jammers s) &&
  negb (iequals (owner_name (land s)) (name_of (visitor t)) || is_admin (visitor t) (admins (land s))).

Definition mini_mod : string := "The Mini-Mod says no dropping items in this world!".

Definition kept_back (id_ : Z) : bool :=
  untradeable (item items id_) || (id_ =? 1424) || (id_ =? 5816).

Definition is_fish (id_ : Z) : bool := bool_decide (blockType (item items id_) = FISH).

Definition drop_log (t : Picker) (s : Site) (n id_ : Z) : effect :=
  ELog (cat [name_of (visitor t); " in ["; name (land s); "] Dropped  `w"; to_string (Z.abs n); " ";
             if is_fish id_ then "lb." else ""; " "; ori_name (item items id_); "``.";
             if 363 <? rarity (more id_) then ""
             else cat [" Rarity: `w"; to_string (rarity (more id_)); "``"]]) "Drop Item".

Definition drop_cctv (n id_ : Z) : effect :=
  ECctv "dropped" (cat [to_string (Z.abs n); " "; Items.name (item items id_)]).

(** The dialog that asks how many. *)
Definition drop_dialog (id_ c_ : Z) (s : Site) (t : Picker) : string :=
  let w := land s in
  cat [color; "set_default_color|`o"; endl; "set_bg_color|0,52,102,178|"; endl;
       "set_border_color|255,255,255,255|"; endl; endl; "add_label_with_icon|big|`w";
       ori_name (item items id_); "``|left|"; to_string id_; "|"; endl;
       "add_textbox|How many to drop?|left|"; endl; "add_text_input|count||";
       if is_fish id_ then "1" else to_string c_; "|5|"; endl; "embed_data|itemID|"; to_string id_;
       if negb (iequals (owner_name w) (name_of (visitor t))) &&
          negb (Administrator (Role (visitor t))) && negb (is_admin (visitor t) (admins w))
       then endl +:+ "add_textbox|If you are trying to trade an item with another player, use your wrench on them instead to use our Trade System! `4Dropping items is not safe!``|left|"
       else ""; endl; "end_dialog|drop_item|Cancel|OK|"].

(** The second position of [Action::drop] is not checked. *)
Definition drop_now (r3 r4 id_ c_ : Z) (s : Site) (t : Picker) : option (Site * Picker * list effect) :=
  let d := mkWorldDrop id_ c_ (throw_x r3 t) (throw_y r4 t) 0 in
  r ← modify id_ (i32 (c_ * -1)) true false (bag t);
  let t := set_bag (pl_out r) t in
  if ret r =? 0 then
    '(s, es) ← Drop d (netID (bag t)) false s;
    Some (s, t, moves (effs r) ++ [drop_log t s (c_out r) id_; drop_cctv (c_out r) id_] ++ es)
  else Some (s, t, moves (effs r)).

Definition item_of (cch : string) : option Z :=
  t3 ← Texts.explode "|" cch !! 3%nat; head_ ← Texts.explode endl t3 !! 0%nat; Some (atoi head_).

(** [Action::drop], in the world of the player. *)
Definition drop (r1 r2 r3 r4 : Z) (cch : string) (s : Site) (t : Picker)
    : option (Site * Picker * list effect) :=
  let e0 := if trading t then [ECancelTrade] else [] in
  let stop es := Some (fresh s, t, e0 ++ es) in
  if (length (Texts.explode "|" cch) <? 4)%nat then stop [] else
  id_ ← item_of cch;
  if (id_ <=? 0) || (size items <=? id_) then stop []
  else if Contains (bag t) id_ <=? 0 then stop []
  else if jammed s t then stop (bubble t mini_mod false)
  else if kept_back id_ then stop (overlay "You can't drop that.")
  else
    let x := throw_x r1 t in
    let y := throw_y r2 t in
    let where_ := spot x y t in
    if (where_ <? 0) || (x <? 0) || (y <? 0) || (Z.of_nat (length (blocks (land s))) <? where_)
    then stop (overlay "You can't drop that here, face somewhere with open space.")
    else
      closed ← no_space where_ where_ s;
      match closed with
      | Some text => stop (overlay text)
      | None =>
          if 20 <? crowd x y s then stop (overlay "You can't drop that here, find an emptier spot!")
          else
            r ← modify id_ 0 true false (bag t);
            let t := set_bag (pl_out r) t in
            if Z.testbit (cheater_settings t) 5 && (disable_cheater t =? 0) then
              '(s, t, es) ← drop_now r3 r4 id_ (c_out r) (fresh s) t;
              Some (s, t, e0 ++ moves (effs r) ++ es)
            else Some (fresh s, t, e0 ++ moves (effs r) ++ [EDialog (drop_dialog id_ (c_out r) s t)])
      end.

(** The position of the dialog [drop_item]. *)
Definition off_map (d : WorldDrop) (w : World) : bool :=
  (Z.quot (d_x d) 32 <? 0) || (max_x w <=? Z.quot (d_x d) 32) ||
  (Z.quot (d_y d) 32 <? 0) || (max_y w <=? Z.quot (d_y d) 32).

(** Some stack of the item, anywhere in the world, has room. *)
Definition dublicated (d : WorldDrop) (s : Site) : bool :=
  existsb (λ e, (e_id e =? d_id d) && (i32 (e_count e + d_count d) <? 200)) (floor s).

(** ** The altar

    In the world GROWGANOTH, during the Halloween event, what is thrown on the
    altar is exchanged for a prize: items and what they become. *)
Definition altar_switch : list (list Z * list Z) :=
  [([1950], [4152]); ([2722], [3114]); ([910], [1250]); ([11046], [11314]); ([94; 604; 2636; 2908],
  [3108]); ([274; 276], [1956]); ([10730], [11332]); ([10732], [11334]); ([10734], [11336]);
  ([6176], [9042]); ([3040], [3100]); ([11666], [12414]); ([6144], [7104]); ([7998], [9048]);
  ([1162], [3126]); ([9322], [10184]); ([7696], [10186]); ([1474], [1990]); ([1506], [1968]);
  ([2386], [4166]); ([9364], [10206]); ([10576], [11322]); ([4960], [5208]); ([6196], [9056]);
  ([4326], [7122]); ([2860; 2268], [4172]); ([1114], [4156]); ([362], [1234]); ([11574], [12772]);
  ([4334], [5250]); ([1408], [5254]); ([4338], [5252]); ([3288], [4138]); ([3296], [4146]); ([3290],
  [4140]); ([3292], [4142]); ([3298], [4148]); ([3294], [4144]); ([900; 7754; 7136; 1576; 7752;
  1378; 7758; 7760; 7748], [2000]); ([1746], [1960]); ([5018], [5210]); ([1252], [1948]); ([1190],
  [1214]); ([2868], [7100]); ([11638], [12780]); ([11534], [12416]); ([1830], [1966]); ([920; 914;
  918; 916; 924; 922; 2206; 4444; 2038], [1962]); ([3556], [4186; 4188]); ([762], [4190]); ([3818],
  [10192]); ([366], [4136]); ([9262], [10212]); ([1294], [5236]); ([1242], [5216]); ([1244],
  [5218]); ([1246], [5220]); ([1248], [5214]); ([7028; 7030; 7026], [12396]); ([3016; 5528; 3018;
  5526], [4248]); ([242], [1212]); ([2972], [4182]); ([3014; 3012; 2914], [4246]); ([1460], [1970]);
  ([2392], [9114]); ([3218; 3020], [3098]); ([3792], [5244]); ([1198], [5256]); ([8468], [10232]);
  ([2984], [3118]); ([4360], [10194]); ([10148], [12418]); ([5012; 1018; 592], [1178]); ([10406],
  [11316]); ([10652], [12420]); ([882], [1232]); ([1934], [3124]); ([10626], [11312]); ([6160],
  [9040]); ([3794], [10190]); ([8018], [9034]); ([2390], [3122]); ([5246], [9050; 9052; 9054]);
  ([6798], [7126]); ([9722; 9724], [10200]); ([9388], [10234]); ([4732], [7124]); ([10804],
  [11320])].

(** The prizes from a rarity on, the rare ones, and those of the Dark King's
    offering (item 10328). *)
Definition growganoth : list (Z * list Z) :=
  [(1, [1208]); (5, [1992; 5256; 11348]); (10, [1198; 1222; 11342; 12786]); (15, [1982; 1200]); (20,
  [1220; 4160; 10198]); (25, [1202; 5240]); (30, [1238; 4162; 5238; 7116; 10196; 10316]); (35,
  [1168; 9044]); (40, [1172; 3116; 4164; 12788]); (45, [1230]); (50, [1192; 1194; 4164; 10202;
  11340]); (55, [1226; 7108]); (60, [1196; 12784]); (65, [1236; 9046]); (70, [1182; 1184; 1186;
  1188; 1972; 1980; 1994; 7110; 11330]); (73, [3102; 4154; 5222; 5224; 5232; 10204]); (75, [1988])].
Definition rare_growganoth : list (Z * list Z) :=
  [(80, [1170; 4158; 7128; 12790]); (85, [1984]); (90, [1216; 1218; 5248; 7112; 7114; 10322]); (97,
  [3106]); (100, [7130]); (101, [3110])].
Definition dark_king : list Z :=
  [3110; 7130; 3106; 1216; 1218; 5248; 7114; 10322; 7112; 12772; 12396; 10236; 4152; 3114; 1250;
  11314; 3108; 1956; 11332; 11336; 11334; 9042; 9048; 3126; 10186; 1990; 1968; 5208; 9056; 7122;
  4172; 4156; 1234; 5250; 5254; 5252; 4138; 4146; 4140; 4142; 4148; 4144; 2000; 1960; 5210; 1948;
  1214; 7100; 1966; 1962; 4188; 4186; 4190; 10192; 4136; 10212; 5236; 5216; 5218; 5220; 5214; 4248;
  4182; 4246; 3098; 5244; 5256; 10232; 3118; 10194; 4192; 1178; 11316; 1232; 3124; 11312; 9040;
  10190; 9034; 3122; 9050; 9054; 9052; 7126; 10200; 10234; 7124; 11320; 1210].
Definition rare_dark_king : list Z :=
  [4166; 12418; 12416; 12780; 12420; 12414; 1970; 9114; 11322; 7104; 10206; 11318; 10184; 3100;
  7102].

(** [l[r % l.size()]]; [None]: a remainder by zero. *)
Definition pick (l : list Z) (r : Z) : option Z :=
  if (length l =? 0)%nat then None else l !! Z.to_nat (Z.rem r (Z.of_nat (length l))).

Definition pool (l : list (Z * list Z)) (rarity : Z) : list Z :=
  mjoin ((λ p : Z * list Z, if p.1 <=? rarity then p.2 else []) <$> l).

(** The prize of the [switch], or 0. *)
Definition switch_prize (id_ r : Z) : option Z :=
  match List.find (λ p : list Z * list Z, existsb (Z.eqb id_) p.1) altar_switch with
  | Some (_, prizes) => pick prizes r
  | None => Some 0
  end.

(** What [n] of the item become: the prize (0: nothing), its count, and
    whether it is the item's own. *)
Definition offering (rs : nat -> Z) (id_ n : Z) : option (Z * Z * bool) :=
  let m := more id_ in
  itemid ← (if (length (consume_prize m) =? 0)%nat then Some 0 else pick (consume_prize m) (rs 4%nat));
  if negb (itemid =? 0) && (consume_needed m =? 0) then Some (itemid, n, true)
  else if ((id_ =? 10328) && (n =? 1)) || negb (rarity m =? 0) then
    prize ← switch_prize id_ (rs 5%nat);
    if (prize =? 0) && (rarity m <? 367) then
      itemid ←
        (if negb (id_ =? 10328) && (80 <=? rarity m) && (Z.rem (rs 6%nat) 440 - n - rarity m <? 1)
         then pick (pool rare_growganoth (rarity m)) (rs 7%nat) else Some itemid);
      itemid ←
        (if itemid =? 0 then
           pick (if id_ =? 10328 then if Z.rem (rs 6%nat) 270 <? 1 then rare_dark_king else dark_king
                 else pool growganoth (rarity m)) (rs 8%nat)
         else Some itemid);
      Some (itemid, 1, false)
    else Some (prize, 1, false)
  else Some (0, n, false).

Definition rejection : string :=
  "`4Growganoth rejects your puny offering and eats you instead!``".

(** The player is told twice. *)
Definition told (t : Picker) (text : string) : list effect := bubble t text false ++ console text.

(** [dropped] of the item, which have left the bag, lie on the altar. *)
Definition altar (rs : nat -> Z) (id_ dropped c_ : Z) (t : Picker) : option (Picker * list effect) :=
  let n := Z.abs dropped in
  '(itemid, give_, consume) ← offering rs id_ n;
  if itemid =? 0 then
    r ← modify id_ n true false (bag t);
    let eaten := if ((id_ =? 10328) && (n =? 1)) || negb (rarity (more id_) =? 0) then [] else [ERespawn] in
    Some (set_bag (pl_out r) t, eaten ++ told t rejection ++ moves (effs r) ++ [ERespawn])
  else
    let ori := ori_name (item items id_) in
    let honor :=
      if (length (consume_prize (more id_)) =? 0)%nat && existsb (Z.eqb itemid) rare_dark_king
      then [EHonor itemid id_] else [] in
    e1 ←
      (if consume : bool then
         it ← get_item items itemid;
         Some ((if id_ =? 10328 then [ETask "1" 1; EDarkKing] else []) ++
           (if id_ =? 242 then [ETask "7" c_] else []) ++
           told t (cat ["`4Growganoth turns your "; ori; " into an "; ori_name it;
             " and hatches it with evil!``"]))
       else Some (told t
         "`4Growganoth is pleased by your offering and grants a reward! Also, he eats you.``"));
    let e2 := console (cat ["`2"; ori; "`` was devoured by Growganoth!"]) in
    r ← modify itemid give_ true false (bag t);
    let t := set_bag (pl_out r) t in
    if ret r =? 0 then
      it ← get_item items itemid;
      let text := cat ["A `2"; ori_name it; "`` was bestowed upon you!"] in
      Some (t, honor ++ e1 ++ e2 ++ moves (effs r) ++
        (if itemid =? 1970 then [ETask "9" 1] else []) ++ told t text ++ [ERespawn])
    else
      r2 ← modify id_ n true false (bag t);
      Some (set_bag (pl_out r2) t,
        honor ++ e1 ++ e2 ++ moves (effs r) ++ moves (effs r2) ++ console "No inventory space." ++ [ERespawn]).

(** The drop lies on the altar. *)
Definition on_altar (Halloween : bool) (d : WorldDrop) (s : Site) : bool :=
  String.eqb (name (land s)) "GROWGANOTH" && Halloween &&
  existsb (Z.eqb (Z.quot (d_x d) 32)) [47; 48; 49; 50; 51] &&
  existsb (Z.eqb (Z.quot (d_y d) 32)) [14; 15].

(** The items have left the bag; [c_] is what [Modify] leaves of its count. *)
Definition land_item (Halloween : bool) (rs : nat -> Z) (d : WorldDrop) (dropped c_ xy : Z) (b : WorldBlock)
    (s : Site) (t : Picker) : option (Site * Picker * list effect) :=
  if on_altar Halloween d s then '(t, es) ← altar rs (d_id d) dropped c_ t; Some (s, t, es)
  else
    egg ← (if (d_id d =? 611) && (fg b =? 610) then Only_Access t (land s) b else Some false);
    if egg : bool then Some (s, t, [EMagicEgg (Z.rem xy 100) (Z.quot xy 100) (Z.abs dropped); ESave])
    else
      '(s, es) ← Drop d (netID (bag t)) false s; Some (s, t, drop_cctv dropped (d_id d) :: es ++ [ESave]).

(** The end of the dialog [drop_item]: [c_] is the count to take, negative. *)
Definition drop_item (Halloween : bool) (rs : nat -> Z) (id_ count c_ : Z) (s : Site) (t : Picker)
    : option (Site * Picker * list effect) :=
  let '(r1, r2, r3, r4) := (rs 0, rs 1, rs 2, rs 3)%nat in
  let stop s es := Some (s, t, es) in
  if jammed s t then stop s (bubble t mini_mod false)
  else if kept_back id_ then stop s (overlay "You can't drop that.")
  else
    let d := mkWorldDrop id_ count (throw_x r1 t) (throw_y r2 t) 0 in
    if off_map d (land s) then stop s (overlay "You can't drop that here, face somewhere with open space.")
    else
      let x := if facing t =? 16 then throw_x r1 t else throw_x r3 t in
      let y := throw_y r4 t in
      let xy := spot (d_x d) (d_y d) t in
      closed ← no_space xy (spot x y t) s;
      match closed with
      | Some text => stop s (overlay text)
      | None =>
          let s := fresh s in
          if negb (dublicated d s) && (20 <? crowd (d_x d) (d_y d) s)
          then stop s (overlay "You can't drop that here, find an emptier spot!")
          else
            r ← modify id_ c_ true false (bag t);
            let t := set_bag (pl_out r) t in
            if ret r =? 0 then
              b ← block_at (land s) xy;
              '(s, t, es) ← land_item Halloween rs d c_ (c_out r) xy b s t;
              Some (s, t, moves (effs r) ++ [drop_log t s c_ id_] ++ es)
            else Some (s, t, moves (effs r))
      end.

(** ** Destroying *)

(** The gems for [count] recycled items. *)
Fixpoint roll_gems (rs : nat -> Z) (maxgems : Z) (count k : nat) (acc : Z) : Z :=
  match count with
  | O => acc
  | S count => roll_gems rs maxgems count (S k) (i32 (acc + Z.rem (rs k) maxgems))
  end.

Definition base_item (id_ : Z) : Z := if Z.rem id_ 2 =? 0 then id_ else id_ - 1.

Definition recycled (rs : nat -> Z) (id_ count : Z) : Z :=
  let m := more (base_item id_) in
  if negb (max_gems3 m =? 0) then i32 (count * max_gems3 m)
  else if negb (max_gems2 m =? 0) then roll_gems rs (max_gems2 m) (Z.to_nat count) 0 0
  else 0.

(** What the player gets and reads: [shown] is the count in the text. *)
Definition recycle (rs : nat -> Z) (id_ count : Z) (shown : string) (t : Picker) : Picker * list effect :=
  let text := cat [shown; " `w"; ori_name (item items id_)] in
  if negb (supp (bag t) =? 0) then
    let receivegems := recycled rs id_ count in
    let '(t, es) := if negb (receivegems =? 0) then OnBuxGems receivegems t else (t, []) in
    (t, es ++ console (cat [text; "`` recycled, `0"; Shop.Set_Count receivegems; "`` gems earned."]))
  else (t, console (text +:+ "`` trashed.")).

Definition precious (id_ : Z) : bool := existsb (Z.eqb id_) [18; 32; 6336; 9384].

Definition pounds (id_ n : Z) : string :=
  if is_fish id_ then to_string (Z.abs n) +:+ "lb." else to_string (Z.abs n).

Definition trash_dialog (id_ c_ : Z) (t : Picker) : string :=
  let m := more (base_item id_) in
  let head_ title := cat [color; "set_default_color|`o"; endl; "set_bg_color|0,52,102,178|"; endl;
       "set_border_color|255,255,255,255|"; endl; endl; "add_label_with_icon|big|`4"; title; "`` `w";
       ori_name (item items id_); "``|left|"; to_string id_; "|"; endl] in
  let tail_ := cat ["add_textbox|How many to `4destroy``? (you have ";
       if is_fish id_ then "1" else to_string c_; ")|left|"; endl; "add_text_input|count||0|5|"; endl;
       "embed_data|itemID|"; to_string id_; endl; "end_dialog|trash_item|Cancel|OK|"] in
  if supp (bag t) =? 0 then cat [head_ "Trash"; tail_]
  else
    let text := if negb (max_gems3 m =? 0) then to_string (max_gems3 m)
                else "0" +:+ (if max_gems2 m =? 0 then "" else "-" +:+ to_string (max_gems2 m)) in
    cat [head_ "Recycle"; "add_textbox|You will get "; text; " gems per item.|"; endl; tail_].

(** [Action::trash]. *)
Definition trash (rs : nat -> Z) (cch : string) (t : Picker) : option (Picker * list effect) :=
  let e0 := if trading t then [ECancelTrade] else [] in
  if (length (Texts.explode "|" cch) <? 4)%nat then Some (t, e0) else
  id_ ← item_of cch;
  if (id_ <=? 0) || (size items <=? id_) then Some (t, e0)
  else if Contains (bag t) id_ <=? 0 then Some (t, e0)
  else if precious id_ then
    Some (t, e0 ++ (EMessage <$> (Messages.Positioned (netID (bag t)) "audio/cant_place_tile.wav" 0 ++
                                   Messages.OnTextOverlay "You'd be sorry if you lost that!" 0)))
  else
    r ← modify id_ 0 true false (bag t);
    let t := set_bag (pl_out r) t in
    let e0 := e0 ++ moves (effs r) in
    let ask c_ es t := Some (t, e0 ++ es ++ [EDialog (trash_dialog id_ c_ t)]) in
    if Z.testbit (cheater_settings t) 15 && (disable_cheater t =? 0) then
      let count := c_out r in
      r ← modify id_ (i32 (count * -1)) true false (bag t);
      let t := set_bag (pl_out r) t in
      if ret r =? 0 then
        let '(t, es) := recycle rs id_ count (pounds id_ (c_out r)) t in
        Some (t, e0 ++ moves (effs r) ++ (EMessage <$> Messages.Positioned (netID (bag t)) "audio/trash.wav" 0) ++ es)
      else ask (c_out r) (moves (effs r)) t
    else ask (c_out r) [] t.

(** The zeros in front of a number that are erased. *)
Fixpoint strip_zeros (s : string) : string :=
  match s with
  | String c s' => if Ascii.eqb c (char_of 48) && negb (is_empty s') then strip_zeros s' else s
  | EmptyString => s
  end.

Definition sure_dialog (id_ n : Z) : string :=
  cat [color; "set_default_color|`o"; endl; "set_bg_color|0,52,102,178|"; endl;
       "set_border_color|255,255,255,255|"; endl; endl; "add_label_with_icon|big|`4Recycle`` ";
       to_string n; " `w"; Items.name (item items id_); "``|left|"; to_string id_; "|"; endl;
       "embed_data|itemID|"; to_string id_; endl; "embed_data|count|"; to_string n; endl;
       "add_textbox|You are recycling an `9UNTRADEABLE`` item. Are you absolutely sure you want to do this? There is no way to get the item back if you select yes.|left|";
       endl; "end_dialog|trash_item2|NO!|Yes, I am sure|"].

(** The end of the dialogs [trash_item] and [trash_item2] ([sure]); [v5] is
    the count as it was typed. *)
Definition trash_item (rs : nat -> Z) (sure : bool) (id_ c_ : Z) (v5 : string) (t : Picker)
    : option (Picker * list effect) :=
  if negb sure && untradeable (item items id_) then
    if Contains (bag t) id_ <? i32 (c_ * -1) then Some (t, [])
    else Some (t, [EDialog (sure_dialog id_ (i32 (c_ * -1)))])
  else
    r ← modify id_ c_ true false (bag t);
    let t := set_bag (pl_out r) t in
    if ret r =? 0 then
      let shown := strip_zeros v5 in
      let '(t, es) := recycle rs id_ (atoi shown)
                        (if is_fish id_ then to_string (Z.abs (c_out r)) +:+ "lb." else shown) t in
      let sfx := cat ["action|play_sfx"; endl; "file|audio/trash.wav"; endl; "delayMS|0"] in
      Some (t, moves (effs r) ++ (EMessage <$> Messages.Log sfx "" "google.com") ++ es)
    else Some (t, moves (effs r)).

(** The count of a fish is the size of the stack. *)
Definition fish_size (id_ n : Z) (p : Player) : Z :=
  fold_left (λ n it, if it.1 =? id_ then it.2 else n) (inv p) n.

(** The branch of [call_dialog] for [a_[i_]]: [trash_item], [drop_item] or
    [trash_item2]. *)
Definition item_dialog (Halloween : bool) (rs : nat -> Z) (a_ : list string) (i_ : nat) (s : Site) (t : Picker)
    : option (Site * Picker * list effect) :=
  let ignore es := Some (s, t, es) in
  cmd ← a_ !! i_;
  let sure := String.eqb cmd "trash_item2" in
  let dropping := String.eqb cmd "drop_item" in
  if negb (length a_ =? (if sure then 11 else 10))%nat then ignore [] else
  v2 ← a_ !! (i_ + 2)%nat;
  if negb (starts_digit v2) then ignore [] else
  v5 ← a_ !! (i_ + 5)%nat;
  if negb (starts_digit v5) then ignore [] else
  let id_ := atoi v2 in
  let c_1 := atoi v5 in
  if (c_1 <=? 0) || (200 <? c_1) then ignore []
  else if Contains (bag t) id_ <? c_1 then ignore []
  else
    r ← modify id_ 0 true false (bag t);
    let t := set_bag (pl_out r) t in
    let e0 := moves (effs r) in
    if c_out r <? 1 then Some (s, t, e0)
    else
      let c_1 := if (id_ =? 10328) && (1 <? c_1) && dropping && Halloween &&
                    String.eqb (name (land s)) "GROWGANOTH" then 1 else c_1 in
      it ← get_item items id_;
      let fish := bool_decide (blockType it = FISH) in
      let c_ := if fish then fish_size id_ c_1 (bag t) else c_1 in
      if precious id_ then Some (s, t, e0)
      else if dropping then
        let drop_fish := if fish then fish_size id_ 0 (bag t) else 0 in
        '(s, t, es) ← drop_item Halloween rs id_
                        (if drop_fish =? 0 then c_1 else drop_fish) (i32 (c_ * -1)) s t;
        Some (s, t, e0 ++ es)
      else
        '(t, es) ← trash_item rs sure id_ (i32 (c_ * -1)) v5 t; Some (s, t, e0 ++ es).

(** *** Dialogs with a list of items *)

Definition listed_type (b : BlockTypes) : bool :=
  existsb (λ x, bool_decide (b = x))
    [FISH; LOCK; CLOTHING; OVEN; BACKGROUND; DOOR; SEED; WEATHER; CONSUMABLE; BULLETIN_BOARD;
     ACHIEVEMENT_BLOCK; SIGN; FOREGROUND].

(** A marked line: the item, or [None] to skip the line. *)
Inductive line :=
| Marked (id : Z)
| Skipped
| Unreadable.   (* [stoi] throws *)

Definition read_line (t_ : list string) (i_ : nat) : line :=
  match Texts.explode endl (default "" (t_ !! S i_)), Texts.explode endl (default "" (t_ !! i_)) with
  | next :: _, _ :: curr :: _ =>
      match stoi next with
      | None => Unreadable
      | Some v =>
          if v =? 0 then Skipped
          else match stoi curr with None => Unreadable | Some item_id => Marked item_id end
      end
  | _, _ => Skipped
  end.

(** All of an item leaves the bag: the number, when there was any. *)
Definition take_out (item_id : Z) (t : Picker) : option (Picker * list effect * option Z) :=
  if (item_id <=? 0) || (size items <=? item_id) then Some (t, [], None)
  else if negb (listed_type (blockType (item items item_id))) then Some (t, [], None)
  else
    let quantity := Contains (bag t) item_id in
    if quantity <=? 0 then Some (t, [], None)
    else
      r ← modify item_id (- quantity) true false (bag t);
      Some (set_bag (pl_out r) t, moves (effs r), if ret r =? 0 then Some quantity else None).

Section Selected.
(** What is shown when an item left the bag, and whether an unreadable line
    is skipped. *)
Context (shown : Z -> Picker -> list effect) (skip : bool).

Fixpoint selected (t_ : list string) (i_ fuel : nat) (text : string) (any : bool) (t : Picker)
    : option (Picker * list effect * string * bool) :=
  match fuel with
  | O => Some (t, [], text, any)
  | S fuel =>
      if (length t_ - i_ <=? 1)%nat then Some (t, [], text, any)
      else
        match read_line t_ i_ with
        | Unreadable => if skip then selected t_ (S i_) fuel text any t else None
        | Skipped => selected t_ (S i_) fuel text any t
        | Marked item_id =>
            '(t, es, n) ← take_out item_id t;
            let '(es, text, any) :=
              match n with
              | None => (es, text, any)
              | Some n => (es ++ shown item_id t,
                           cat [text; endl; to_string n; " "; ori_name (item items item_id)], true)
              end in
            '(t, es', text, any) ← selected t_ (S i_) fuel text any t;
            Some (t, es ++ es', text, any)
        end
  end.

Definition selected_items (said file cch : string) (t : Picker) : option (Picker * list effect) :=
  let t_ := Texts.explode "|" cch in
  if (length t_ <? 3)%nat then Some (t, [])
  else
    let text := match t_ !! 3%nat with
                | Some v => default "" (Texts.explode endl v !! 0%nat) | None => "" end in
    '(t, es, text, any) ← selected t_ 2 (length t_) text false t;
    Some (t, es ++ (if any : bool then console (said +:+ text) ++
                      (EMessage <$> Messages.Positioned (netID (bag t)) file 0) else [])).

End Selected.

Definition trash_item_inv (cch : string) (t : Picker) : option (Picker * list effect) :=
  selected_items (λ _ _, []) false "`oYou successfully trashed:" "audio/trash.wav" cch t.

Definition drop_item_inv (cch : string) (s : Site) (t : Picker) : option (Picker * list effect) :=
  selected_items (λ item_id t, to_world s (λ k, [EThrow k item_id (px t) (py t)])) true
    "`oYou successfully dropped:" "audio/drop_item.wav" cch t.

End Access.

(** ** Gems on the ground

    [gems_]: the reward for what stood at ([x_], [y_]).  [rs] is [rand()],
    from the draw [k] on; the number of draws is returned. *)
Fixpoint drop_gems (rs : nat -> Z) (id count x_ y_ : Z) (n k : nat) (s : Site)
    : option (Site * list effect * nat) :=
  match n with
  | O => Some (s, [], k)
  | S n =>
      '(s, e1) ← Drop (mkWorldDrop id count (around x_ (rs k)) (around y_ (rs (S k))) 0) (-1) false s;
      '(s, e2, k) ← drop_gems rs id count x_ y_ n (S (S k)) s;
      Some (s, e1 ++ e2, k)
  end.

(** The end of [gems_]: the amount in gems of each size. *)
Definition throw_gems (rs : nat -> Z) (k : nat) (c_ x_ y_ : Z) (s : Site) : option (Site * list effect) :=
  let black_gems := Z.quot c_ 1000 in
  let c_ := if black_gems =? 0 then c_ else c_ - black_gems * 1000 in
  let g := split_gems c_ in
  '(s, e0, k) ← drop_gems rs 4490 black_gems x_ y_ (if black_gems =? 0 then 0 else 1) k s;
  '(s, e1, k) ← drop_gems rs 112 100 x_ y_ (Z.to_nat (purple_ g)) k s;
  '(s, e2, k) ← drop_gems rs 112 50 x_ y_ (Z.to_nat (green_ g)) k s;
  '(s, e3, k) ← drop_gems rs 112 10 x_ y_ (Z.to_nat (red_ g)) k s;
  '(s, e4, k) ← drop_gems rs 112 5 x_ y_ (Z.to_nat (blue_ g)) k s;
  '(s, e5, k) ← drop_gems rs 112 1 x_ y_ (Z.to_nat (yellow_ g)) k s;
  Some (s, e0 ++ e1 ++ e2 ++ e3 ++ e4 ++ e5).

(** What [gems_] reads of the player who is rewarded. *)
Record Earner := mkEarner {
  breaking_gems : bool;         (* [Playmods::HasById] 113 *)
  extra_wealth : bool;          (* [Playmods::HasByName] "Extra Wealth" *)
  potion_gems : bool;           (* [Playmods::HasById] 149 *)
  e_hand : Z;
  e_clothes : list Z;           (* necklace, pants, shirt, face, mask, hair, feet, back *)
  ances_chance : Z;             (* [items[ances].chance] *)
  e_lock : Z;
  BOOST : bool;                 (* bought, and its time is not over *)
  SUPER_BOOST : bool;
  show_pets : bool;
  ability_xgems : Z;
  collects : bool;              (* [SETTINGS_6] of the cheats *)
  e_gems : Z;
  Gems_Storage : Z
}.

(** [EditItem]: items whose wearer gets more gems. *)
Record EditItem := mkEdit { edit_ID : Z; edit_Gems : Z }.

Inductive reward :=
| Ignored
| Thrown (s : Site) (es : list effect)
| Banked (Gems_Storage : Z)
| Paid (c_ : Z).                (* [OnBuxGems] *)

Section Reward.
Context (rs : nat -> Z) (edits : list EditItem).
Context (event : Z).            (* [X_Gems] during the event, or 1 *)
Context (world_gems : Z).

(** [c_ *= 1.13] and [c_ *= 1.05] in [double]: [percent c_ 113], [percent c_ 105]. *)
Context (percent : Z -> Z -> Z).

(** [cond && test (rand())]: a draw only behind the condition. *)
Definition lucky (cond : bool) (test : Z -> bool) (k : nat) : bool * nat :=
  if cond then (test (rs k), S k) else (false, k).

(** Four rewards in ten: food, ancestral, and the lock 2408. *)
Definition luck (p : Earner) (c_ from : Z) (k : nat) : Z * nat :=
  let '(any, k) := lucky true (λ r, Z.rem r 10 <? 4) k in
  if any then
    let '(food, k) := lucky (breaking_gems p || (e_hand p =? 10930)) (λ r, Z.rem r 100 <? 10) k in
    let c_ := if food then i32 (c_ + 1) else c_ in
    let '(wealth, k) := lucky (extra_wealth p) (λ r, Z.rem r 5 + 1 =? 5) k in
    let c_ := if wealth then Z.quot (i32 ((ances_chance p + 100) * c_)) 100 else c_ in
    let '(two, k) := lucky ((Z.rem from 2 =? 0) && (e_lock p =? 2408)) (λ r, Z.rem r 50 <? 1) k in
    let c_ := if two then i32 (c_ + 2) else c_ in
    (if food || wealth then i32 (c_ * 2) else c_, k)
  else (c_, k).

Definition wears (p : Earner) (id : Z) : bool := (id =? e_hand p) || existsb (Z.eqb id) (e_clothes p).

Definition worn_gems (p : Earner) (c_ : Z) : Z :=
  fold_left (λ c_ e, if wears p (edit_ID e) && negb (edit_Gems e =? 0) then i32 (c_ * edit_Gems e) else c_)
    edits c_.

(** The multipliers of the player. *)
Definition multiplied (p : Earner) (c_ : Z) (k : nat) : Z * nat :=
  let c_ := worn_gems p c_ in
  let c_ := if e_lock p =? 5980 then i32 (c_ * (if 0 <? world_gems then world_gems else 1)) else c_ in
  let '(potion, k) := lucky (potion_gems p) (λ r, Z.rem r 50 <? 2) k in
  let c_ := if potion then percent c_ 105 else c_ in
  let '(boost, k) := lucky (BOOST p) (λ r, Z.rem r 50 <? 1) k in
  let c_ := if boost then i32 (c_ * 2) else c_ in
  let '(super, k) := lucky (SUPER_BOOST p) (λ r, Z.rem r 50 <? 1) k in
  let c_ := if super then i32 (c_ * 4) else c_ in
  let '(pet, k) := lucky (show_pets p && negb (ability_xgems p =? 0)) (λ r, Z.rem r 100 <? 1) k in
  if pet then (i32 (c_ * (Z.rem (rs k) (ability_xgems p) + 1)), S k) else (c_, k).

(** The amount of the reward, and the number of draws. *)
Definition reward_amount (p : option Earner) (c_ from : Z) : Z * nat :=
  let '(c_, k) := match p with Some p => luck p c_ from 0 | None => (c_, 0%nat) end in
  let c_ := if from =? 5196 then percent c_ 113 else c_ in
  let c_ := if 300 <? c_ then 300 else c_ in
  let c_ := i32 (c_ * event) in
  match p with Some p => multiplied p c_ k | None => (c_, k) end.

Definition no_reward (from : Z) : bool :=
  existsb (Z.eqb from) [5136; 9386; 9400; 9902; 9600; 10716].

Definition gems_ (p : option Earner) (c_ x_ y_ from : Z) (s : Site) : option reward :=
  if no_reward from then Some Ignored
  else
    let '(c_, k) := reward_amount p c_ from in
    let to_ground := '(s, es) ← throw_gems rs k c_ x_ y_ s; Some (Thrown s es) in
    match p with
    | Some p =>
        if negb (collects p) then to_ground
        else if MAX_GEMS <=? e_gems p then Some (Banked (Z.min (Gems_Storage p + c_) 2000000000))
        else Some (Paid c_)
    | None => to_ground
    end.

End Reward.

End Drops.

End Drops.
