(* ===== verification/DropsFacts.v ===== *)
(** * DropsFacts: what happens to items on the ground

    Dropping and collecting move items between the bags of the players and
    the ground.  No request creates an item, whoever makes it
    ([items_never_created]); a request that the sweep of old drops does not
    touch is exact ([collecting_moves], and [drop_item_spec] for dropping).
    Gems merge on the ground, see GemDrops. *)
From S2P Require Import Prelude Memory Items Packet Tank World Guild Inventory.
From S2P Require Import InventoryFacts InventoryBag Texts Messages Dispatch Shop Access Drops.
Import Items World Inventory InventoryFacts InventoryBag Access Drops.

Module DropsFacts.

(** ** Entries *)

Fixpoint on_ground (x : Z) (l : list entry) : Z :=
  match l with
  | [] => 0
  | e :: l => (if e_id e =? x then e_count e else 0) + on_ground x l
  end.

Definition inside (w : World) (x y : Z) : Prop :=
  is_Some (block_at w (Z.quot x 32 + Z.quot y 32 * 100)).

Section Facts.
Context (items : table).

Definition entry_ok (w : World) (e : entry) : Prop :=
  (5 <= length e)%nat /\ 1 <= e_count e <= 200 /\ 0 < e_id e < size items /\ inside w (e_x e) (e_y e).

Definition ground_ok (s : Site) : Prop := Forall (entry_ok (land s)) (floor s).

(** The ground of a site whose blocks are the same. *)
Definition same_blocks (s s' : Site) : Prop := blocks (land s') = blocks (land s).

Lemma entry_ok_blocks w w' e : blocks w' = blocks w -> entry_ok w e -> entry_ok w' e.
Proof. unfold entry_ok, inside, block_at. by intros ->. Qed.

Lemma ground_blocks w w' l : blocks w' = blocks w -> Forall (entry_ok w) l -> Forall (entry_ok w') l.
Proof. intros Hb H. eapply list.Forall_impl; [exact H|]. intros e. by apply entry_ok_blocks. Qed.

Lemma on_ground_app x l l' : on_ground x (l ++ l') = on_ground x l + on_ground x l'.
Proof. induction l as [|e l IH]; cbn; lia. Qed.

Lemma on_ground_nonneg w x l : Forall (entry_ok w) l -> 0 <= on_ground x l.
Proof.
  induction 1 as [|e l (_ & Hc & _) _ IH]; cbn [on_ground]; [lia|]. destruct (_ =? x); lia.
Qed.

Lemma on_ground_sublist w x l l' : sublist l l' -> Forall (entry_ok w) l' -> on_ground x l <= on_ground x l'.
Proof.
  induction 1 as [|e l l' _ IH|e l l' _ IH]; intros H; cbn [on_ground]; [lia| |];
    apply list.Forall_cons in H as [(_ & He & _) H]; specialize (IH H); [lia|].
  destruct (_ =? x); lia.
Qed.

Lemma Forall_sublist {A} (P : A -> Prop) l l' : sublist l l' -> Forall P l' -> Forall P l.
Proof. intros Hs H. apply list.Forall_forall. intros y Hy. eapply list.Forall_forall in H; [done|]. by eapply elem_of_sublist. Qed.

Lemma on_ground_delete x i e l : l !! i = Some e ->
  on_ground x (delete i l) = on_ground x l - (if e_id e =? x then e_count e else 0).
Proof.
  intros H. rewrite delete_take_drop. rewrite <- (take_drop_middle l i e H) at 3.
  rewrite !on_ground_app. cbn [on_ground]. lia.
Qed.

Lemma delete_sublist i (l : list entry) : sublist (delete i l) l.
Proof. apply sublist_delete. Qed.

Lemma with_count_spec n e : (5 <= length e)%nat ->
  e_id (with_count n e) = e_id e /\ e_count (with_count n e) = n /\ e_x (with_count n e) = e_x e /\
  e_y (with_count n e) = e_y e /\ length (with_count n e) = length e.
Proof. intros H. do 5 (destruct e as [|? e]; [cbn in H; lia|]). done. Qed.

(** A stack takes what fits. *)
Lemma stack_spec w d l l' rest e :
  1 <= d_count d <= 200 -> Forall (entry_ok w) l -> stack d l = Some (l', rest, e) ->
  0 <= rest < d_count d /\ Forall (entry_ok w) l' /\
  forall x, on_ground x l' + (if d_id d =? x then rest else 0)
            = on_ground x l + (if d_id d =? x then d_count d else 0).
Proof.
  intros Hd. revert l'. induction l as [|f l IH]; intros l' Hl H; cbn [stack] in H; [done|].
  apply list.Forall_cons in Hl as [Hf Hl]. pose proof Hf as (Hlen & Hc & Hid & Hin).
  rewrite i32_small in H by lia. rewrite i32_small in H by lia.
  destruct (with_count_spec (if e_count f + d_count d <=? 200 then e_count f + d_count d else 200) f Hlen)
    as (E1 & E2 & E3 & E4 & E5).
  destruct (_ && _) eqn:Hc0 in H.
  - apply andb_true_iff in Hc0 as [[[_ Hi]%andb_true_iff Hn]%andb_true_iff _].
    destruct (Z.leb_spec (e_count f + d_count d) 200); simplify_eq; cbn [on_ground] in *;
      (split; [lia|split; [constructor; [|done]|]]);
      try (split_and!; rewrite ?E1, ?E2, ?E3, ?E4, ?E5; done || lia);
      intros x; rewrite E1, E2; destruct (Z.eqb_spec (e_id f) x), (Z.eqb_spec (d_id d) x); lia.
  - destruct (stack d l) as [[[l1 r1] e1]|] eqn:Es; cbn in H; simplify_eq.
    destruct (IH _ Hl eq_refl) as (Hr & Hl1 & Hx). split; [done|]. split; [by constructor|].
    intros x. cbn [on_ground]. specialize (Hx x). lia.
Qed.

(** ** The sweep *)

Definition calm (now : Z) (s : Site) : Prop :=
  0 <= now < 2 ^ 31 /\ (length (floor s) < 500)%nat /\ Forall (λ e, drop_old now e = false) (floor s).

(** [n] of the item [id] come to the ground of [s]; the sweep may take other
    things away. *)
Definition lands (now id n : Z) (s s' : Site) : Prop :=
  ground_ok s' /\ same_blocks s s' /\
  (forall x, on_ground x (floor s') <= on_ground x (floor s) + (if id =? x then n else 0)) /\
  (calm now s -> forall x, on_ground x (floor s') = on_ground x (floor s) + (if id =? x then n else 0)).

Lemma sweep_spec now w : sublist (drop_new (AutoClearOldWorldDrops now w)) (drop_new w) /\
  blocks (AutoClearOldWorldDrops now w) = blocks w.
Proof.
  split; [|done]. unfold AutoClearOldWorldDrops. cbn [drop_new set_drops].
  etrans; [|apply (sublist_filter (λ it, drop_old now it = false))].
  destruct (_ <? _)%nat; [|done]. apply sublist_drop.
Qed.

Lemma sweep_calm now w : (length (drop_new w) <= 500)%nat ->
  Forall (λ e, drop_old now e = false) (drop_new w) ->
  drop_new (AutoClearOldWorldDrops now w) = drop_new w.
Proof.
  intros Hlen H. unfold AutoClearOldWorldDrops. cbn [drop_new set_drops].
  assert (filter (λ it, drop_old now it = false) (drop_new w) = drop_new w) as ->.
  { clear Hlen. induction H as [|e l He _ IH]; [done|]. by rewrite filter_cons_True, IH. }
  unfold MAX_WORLD_DROPS. by rewrite (proj2 (Nat.ltb_ge _ _) Hlen).
Qed.

(** ** [Drop] *)

Lemma existsb_in (l : list Z) v : existsb (Z.eqb v) l = true -> In v l.
Proof. intros (u & Hu & ->%Z.eqb_eq)%existsb_exists. done. Qed.

Lemma dropped_id_range id : 0 < id < size items -> 0 < dropped_id id < size items.
Proof.
  unfold dropped_id. intros H. destruct (existsb _ [745; 747; 749]) eqn:E.
  - apply existsb_in in E. cbn in E. lia.
  - destruct (existsb _ (629 :: _)) eqn:E2; [|exact H]. apply existsb_in in E2. cbn in E2. lia.
Qed.

Lemma get_item_Some id : 0 < id < size items -> get_item items id = Some (item items id).
Proof. intros H. unfold get_item. by replace ((0 <=? id) && (id <? size items)) with true by lia. Qed.

Section Ground.
Context (peers : list string) (now : Z).

(** The stack keeps its time. *)
Lemma stack_calm d l l' rest e : stack d l = Some (l', rest, e) ->
  length l' = length l /\
  (Forall (λ e, drop_old now e = false) l -> Forall (λ e, drop_old now e = false) l').
Proof.
  revert l'. induction l as [|f l IH]; intros l' H; cbn [stack] in H; [done|].
  assert (forall n, drop_old now (with_count n f) = drop_old now f) as Ho.
  { intros n. unfold drop_old, with_count. by rewrite list_lookup_insert_ne. }
  destruct (_ && _).
  - destruct (_ <=? 200); simplify_eq; (split; [done|]); intros [Hf Hl]%list.Forall_cons; constructor;
      by rewrite ?Ho.
  - destruct (stack d l) as [[[l1 r1] e1]|]; cbn in H; simplify_eq. destruct (IH _ eq_refl) as [Hlen Hl].
    split; [cbn; by rewrite Hlen|]. intros [Hf H]%list.Forall_cons. constructor; auto.
Qed.

(** The drop lies near no stack that has room: an entry of its own. *)
Lemma push_spec d net_id Flag s :
  ground_ok s -> 1 <= d_count d <= 200 -> 0 < d_id d < size items -> inside (land s) (d_x d) (d_y d) ->
  lands now (d_id d) (d_count d) s (push_drop peers now d net_id Flag s).1.
Proof.
  intros Hs Hc Hi Hin. cbn [push_drop fst]. set (e := [d_id d; _; _; _; _; _]).
  set (w1 := land (set_uid _ (set_floor (floor s ++ [e]) s))).
  destruct (sweep_spec now w1) as [Hsub Hb].
  assert (forall x, on_ground x (drop_new w1) = on_ground x (floor s) + (if d_id d =? x then d_count d else 0)) as Hx.
  { intros x. cbn [w1 land set_uid set_floor set_land drop_new set_drops].
    rewrite on_ground_app. cbn. lia. }
  assert (Forall (entry_ok w1) (drop_new w1)) as Hw1.
  { apply Forall_app. split; [|constructor; [|done]].
    - by eapply ground_blocks, Hs.
    - split_and!; try done; cbn; lia. }
  split_and!.
  - eapply Forall_sublist; [exact Hsub|]. by eapply ground_blocks, Hw1.
  - done.
  - intros x. rewrite <- Hx. by eapply on_ground_sublist.
  - intros (Hnow & Hl & Ho) x. rewrite <- Hx. unfold floor. cbn [land set_land].
    rewrite sweep_calm; [done| |].
    + cbn. rewrite length_app. cbn. lia.
    + cbn. apply Forall_app. split; [done|]. constructor; [|done]. unfold drop_old. cbn.
      rewrite i32_small by lia. unfold SECONDS_60_DAYS. lia.
Qed.

(** What is left after the stacks: all, or a part. *)
Lemma rest_lands n d net_id Flag s s1 es (f : list effect -> list effect) :
  ground_ok s1 -> same_blocks s s1 -> (calm now s -> calm now s1) ->
  0 <= d_count d <= 200 -> 0 < d_id d < size items -> inside (land s) (d_x d) (d_y d) ->
  (forall x, on_ground x (floor s1) + (if d_id d =? x then d_count d else 0)
             = on_ground x (floor s) + (if d_id d =? x then n else 0)) ->
  exists s' es', (if d_count d =? 0 then Some (s1, es) else
      let '(s2, e) := push_drop peers now d net_id Flag s1 in Some (s2, f e)) = Some (s', es') /\
    lands now (d_id d) n s s'.
Proof.
  intros Hs1 Hb Hcalm Hc Hi Hin Hg. destruct (Z.eqb_spec (d_count d) 0) as [E0|].
  - eexists _, _. split; [done|]. split_and!; try done; intros; specialize (Hg x); rewrite E0 in Hg;
      destruct (d_id d =? x); lia.
  - pose proof (push_spec d net_id Flag s1 Hs1) as Hp.
    destruct (push_drop peers now d net_id Flag s1) as [s2 e]. cbn [fst] in Hp.
    destruct Hp as (H1 & H2 & H3 & H4); [lia|lia| |].
    { unfold inside, block_at in *. by rewrite Hb. }
    eexists _, _. split; [done|]. split_and!; [done|unfold same_blocks in *; congruence|..].
    + intros x. specialize (H3 x). specialize (Hg x). lia.
    + intros Hcl x. rewrite H4 by auto. apply Hg.
Qed.

Lemma Drop_spec d net_id Flag s :
  ground_ok s -> 1 <= d_count d <= 200 -> 0 < d_id d < size items -> d_id d <> 112 ->
  inside (land s) (d_x d) (d_y d) ->
  exists s' es, Drop items peers now d net_id Flag s = Some (s', es) /\
    lands now (dropped_id (d_id d)) (d_count d) s s'.
Proof.
  intros Hs Hc Hi H112 Hin. unfold Drop. pose proof (dropped_id_range _ Hi) as Hi'.
  assert (dropped_id (d_id d) <> 112) as Hd112.
  { unfold dropped_id. destruct (existsb _ _); [done|]. by destruct (existsb _ (629 :: _)). }
  cbn [d_id]. set (d1 := mkWorldDrop _ _ _ _ _).
  replace (dropped_id (d_id d) =? 112) with false by lia. cbv beta iota. cbn [d1 d_id]. fold d1.
  set (s1 := set_floor (floor (fresh s)) (fresh s)).
  assert (ground_ok s1) as Hs1 by by eapply ground_blocks, Hs.
  unfold stackable. replace (dropped_id (d_id d) =? 112) with false by lia.
  rewrite get_item_Some by done. cbn [mbind option_bind].
  change (dropped_id (d_id d)) with (d_id d1). change (d_count d) with (d_count d1).
  destruct (negb _); [|apply rest_lands; try done; cbn; lia].
  unfold stack_drop. destruct (stack d1 (floor s1)) as [[[l rest] e]|] eqn:Es;
    [|apply rest_lands; try done; cbn; lia].
  destruct (stack_spec (land s1) d1 _ _ _ _ ltac:(done) Hs1 Es) as (Hr & Hl & Hx).
  cbn in Hr. apply (rest_lands _ (set_count rest d1)); try done; [|cbn; lia].
  destruct (stack_calm _ _ _ _ _ Es) as [Hlen Ho]. intros (H0 & H1 & H2). split; [done|]. split; [|by apply Ho].
  cbn. by rewrite Hlen.
Qed.

(** ** Into the bag *)

Context (prices : list (Z * Z)) (wf : bool) (g1 g2 : string) (fuel : nat).

Local Abbreviation modify := (Modify items prices wf g1 g2 (S fuel)).

(** The ground around the player is in the world. *)
Definition stands (w : World) (t : Picker) : Prop :=
  forall dx dy, 0 <= dx <= 16 -> 0 <= dy <= 16 -> inside w (i32 (px t + dx)) (i32 (py t + dy)).

Lemma has_from_stack i l : forall k n, find_stack i l = Some k -> 1 <= contains i l ->
  has_from n i 1 l = n + Z.of_nat k.
Proof.
  induction l as [|[j c] l IH]; intros k n H Hc; cbn in *; [done|].
  destruct (Z.eqb_spec j i).
  - simplify_eq. replace (1 <=? c) with true by lia. cbn. lia.
  - cbn [andb]. destruct (find_stack i l) as [k'|] eqn:E; cbn in H; simplify_eq.
    rewrite (IH k') by done. lia.
Qed.

(** [settled] only depends on the items and the switches. *)
Lemma settled_set_inv l b : settled b -> inv_ok l -> settled (set_inv l b).
Proof. intros [Hq _] Hl. split; [by destruct b|]. by destruct b. Qed.

Lemma settled_set_gems v b : settled b -> settled (set_gems v b) /\ inv (set_gems v b) = inv b.
Proof. intros H. by destruct b. Qed.

(** Of [n] items of [id], all but [rest] came into the bag. *)
Definition pocketed (id n rest : Z) (t t' : Picker) : Prop :=
  (exists b, t' = set_bag b t) /\ settled (bag t') /\
  bag_update id (contains id (inv (bag t)) + n - rest) (inv (bag t)) (inv (bag t')).

(** The item is taken as far as there is room, and the rest goes back to the
    ground. *)
Lemma save_spec r1 r2 id n s t :
  ground_ok s -> settled (bag t) -> stands (land s) t -> 0 <= r1 -> 0 <= r2 ->
  0 < id < size items -> id <> 112 -> 1 <= n <= 200 -> contains id (inv (bag t)) < 200 ->
  (contains id (inv (bag t)) = 0 -> Get_Slots (bag t) <> 0) ->
  exists s' t' es rest,
    SaveDropItemMoreTimes items modify peers now r1 r2 id n s t = Some (s', t', es) /\
    0 <= rest < n /\ pocketed id n rest t t' /\
    (rest = 0 /\ s' = s \/ 0 < rest /\ lands now (dropped_id id) rest s s').
Proof.
  intros Hg Hb Hst Hr1 Hr2 Hi H112 Hn Hown Hslots. pose proof Hb as [Hq [Hl Hd]].
  pose proof (contains_range id _ ltac:(lia) Hl) as Hrange. unfold SaveDropItemMoreTimes, Contains.
  destruct (Z.eqb_spec (contains id (inv (bag t))) 0) as [E0|E0].
  - destruct (modify_ok items prices wf g1 g2 fuel true true id n (bag t) Hb Hi H112) as (r & Er & Hr & Hm); [lia| |].
    { split_and!; [lia..|]. intros _. rewrite free_find, <- Get_Slots_free by done.
      unfold Get_Slots in *. specialize (Hslots E0). lia. }
    rewrite Er. cbn [mbind option_bind]. eexists _, _, _, 0. split; [done|]. split; [lia|].
    split; [|by left]. split; [by eexists|]. split; [by eapply moved_settled|].
    destruct Hm as (_ & _ & _ & Hu & _). by rewrite Z.sub_0_r.
  - destruct (find_stack id (inv (bag t))) as [k|] eqn:Ek; [|by apply find_stack_None in Ek].
    unfold HasItemsInInv. rewrite (has_from_stack _ _ k) by (done || lia).
    rewrite Z.add_0_l, Nat2Z.id. rewrite (proj2 (Z.ltb_ge (Z.of_nat k) 0)) by apply Nat2Z.is_nonneg.
    rewrite (swrap_small 16) by (cbn; lia). rewrite i32_small by lia.
    destruct (put_stack id 200 (inv (bag t)) k Ek) as [P1 P2].
    set (c := contains id (inv (bag t))) in *.
    destruct (put_stack id (c + n) (inv (bag t)) k Ek) as [Q1 Q2].
    destruct (Z.ltb_spec 200 (c + n)).
    + destruct (Drop_spec (mkWorldDrop id (c + n - 200) (around (px t) r1) (around (py t) r2) 0) (-1) false (fresh s))
        as (s' & es & E & Hlands); cbn [d_id d_count d_x d_y]; try done; [lia| |].
      { apply Hst; (pose proof (Z.rem_bound_pos r1 17); pose proof (Z.rem_bound_pos r2 17)); lia. }
      rewrite E. cbn [mbind option_bind]. eexists _, _, _, (c + n - 200). split; [done|]. split; [lia|].
      split.
      * split; [by eexists|]. split.
        -- apply settled_set_inv; [done|]. split; [|by apply P2]. apply put_Forall; [right; cbn; lia|done].
        -- cbn [bag set_bag]. rewrite inv_set_inv. split; [rewrite P1, Z.eqb_refl; lia|].
           intros j _ Hj. rewrite P1. by rewrite (proj2 (Z.eqb_neq j id) Hj).
      * right. split; [lia|]. exact Hlands.
    + eexists _, _, _, 0. split; [done|]. split; [lia|]. split; [|by left].
      split; [by eexists|]. split.
      * apply settled_set_inv; [done|]. split; [|by apply Q2]. apply put_Forall; [right; cbn; lia|done].
      * cbn [bag set_bag]. rewrite inv_set_inv. split; [rewrite Q1, Z.eqb_refl; lia|].
        intros j _ Hj. rewrite Q1. by rewrite (proj2 (Z.eqb_neq j id) Hj).
Qed.

(** ** Collecting *)

Definition locks_in (w : World) : Prop :=
  forall i b, block_at w i = Some b -> locked b = true -> is_Some (block_at w (lock_origin b)).

Lemma access_some cfg gs t w i b : locks_in w -> block_at w i = Some b ->
  exists a, Only_Access cfg gs t w b = Some a.
Proof.
  intros Hw Hb. unfold Only_Access, block_access. destruct (_ || _); [by eexists|].
  destruct (world_access_bypass _ _); [by eexists|]. destruct (_ && _); [by eexists|].
  destruct (locked b) eqn:El; [|by eexists].
  destruct (Hw _ _ Hb El) as [lock ->]. by eexists.
Qed.

(** The items that are counted the same on the ground and in the bag: not
    gems, and not what a broken item becomes. *)
Definition plain (x : Z) : Prop := 0 < x /\ x <> 112 /\ x <> 627 /\ x <> 743.

Definition weigh (x : Z) (s : Site) (t : Picker) : Z := contains x (inv (bag t)) + on_ground x (floor s).

(** What a request of a player may do. *)
Definition moved_on (s : Site) (t : Picker) (s' : Site) (t' : Picker) : Prop :=
  ground_ok s' /\ same_blocks s s' /\ settled (bag t') /\ px t' = px t /\ py t' = py t /\
  forall x, plain x -> weigh x s' t' <= weigh x s t.

Definition exactly (s : Site) (t : Picker) (s' : Site) (t' : Picker) : Prop :=
  forall x, plain x -> currency x = false -> weigh x s' t' = weigh x s t.

Lemma moved_refl s t : ground_ok s -> settled (bag t) -> moved_on s t s t.
Proof. intros Hg Hb. split_and!; done || lia. Qed.

Lemma moved_trans s t s1 t1 s2 t2 : moved_on s t s1 t1 -> moved_on s1 t1 s2 t2 -> moved_on s t s2 t2.
Proof.
  intros (_ & B1 & _ & X1 & Y1 & W1) (G2 & B2 & S2 & X2 & Y2 & W2).
  split_and!; try done; unfold same_blocks in *; try congruence.
  intros x Hx. specialize (W1 x Hx). specialize (W2 x Hx). lia.
Qed.

Lemma stands_blocks w w' t t' : blocks w' = blocks w -> px t' = px t -> py t' = py t ->
  stands w t -> stands w' t'.
Proof. unfold stands, inside, block_at. by intros -> -> ->. Qed.

Lemma erase_ok i s : ground_ok s -> ground_ok (erase_at i s).
Proof. intros H. eapply Forall_sublist; [apply delete_sublist|]. by eapply ground_blocks, H. Qed.

Lemma erase_calm i s : calm now s -> calm now (erase_at i s).
Proof.
  intros (Hn & Hl & Ho). split; [done|]. cbn. split; [|by eapply Forall_sublist; [apply delete_sublist|]].
  pose proof (sublist_length _ _ (delete_sublist i (floor s))). cbn. lia.
Qed.

Lemma dropped_plain id x : plain x -> (dropped_id id =? x) = true -> (id =? x) = true.
Proof.
  unfold dropped_id, plain. intros H. destruct (existsb _ _); [lia|].
  destruct (existsb _ (629 :: _)); lia.
Qed.

(** A taken item. *)
Lemma take_item_spec r1 r2 i e s t :
  ground_ok s -> settled (bag t) -> stands (land s) t -> 0 <= r1 -> 0 <= r2 ->
  floor s !! i = Some e -> currency (e_id e) = false -> contains (e_id e) (inv (bag t)) < 200 ->
  (contains (e_id e) (inv (bag t)) = 0 -> Get_Slots (bag t) <> 0) ->
  exists s' t' es, take_item items modify peers now r1 r2 i e s t = Some (Leave s' t' es) /\
    moved_on s t s' t' /\ (calm now s -> dropped_id (e_id e) = e_id e -> exactly s t s' t').
Proof.
  intros Hg Hb Hst Hr1 Hr2 He Hcur Hown Hsl.
  assert (entry_ok (land s) e) as (_ & Hc & Hi & _) by (by eapply Forall_lookup_1 in He).
  assert (e_id e <> 112) as H112 by (unfold currency in Hcur; lia).
  unfold take_item. rewrite get_item_Some by done. cbn [mbind option_bind].
  destruct (save_spec r1 r2 (e_id e) (e_count e) (erase_at i s) t) as
    (s' & t' & es & rest & E & Hrest & ([b ->] & Hset & Hu & Ho) & Hl); try done; [by apply erase_ok|].
  rewrite E. cbn [mbind option_bind]. eexists _, _, _. split; [done|].
  assert (forall x, 0 < x -> weigh x (erase_at i s) (set_bag b t)
    = weigh x s t - (if e_id e =? x then rest else 0)) as Hw.
  { intros x Hx. unfold weigh. cbn [erase_at set_floor set_land land floor set_drops drop_new].
    rewrite (on_ground_delete _ _ e) by done. destruct (Z.eqb_spec (e_id e) x) as [<-|Hne].
    - rewrite Hu. unfold weigh. lia.
    - rewrite Ho by lia. lia. }
  destruct Hl as [[-> ->]|(Hpos & Hg' & Hb' & Hle & Heq)].
  - split; [split_and!; try done; [by apply erase_ok|]|].
    + intros x Hx. rewrite Hw by apply Hx. destruct (_ =? x); lia.
    + intros _ _ x Hx _. rewrite Hw by apply Hx. destruct (_ =? x); lia.
  - split; [split_and!; try done|].
    + intros x Hx. specialize (Hle x). specialize (Hw x ltac:(apply Hx)). unfold weigh in *. cbn [bag set_bag] in *.
      pose proof (dropped_plain (e_id e) x Hx). destruct (dropped_id _ =? x), (e_id e =? x); lia || (exfalso; auto).
    + intros Hcalm Hid x Hx _. specialize (Heq ltac:(by apply erase_calm) x). rewrite Hid in Heq.
      specialize (Hw x ltac:(apply Hx)). unfold weigh in *. cbn [bag set_bag] in *. lia.
Qed.

(** A ground that the sweep leaves alone, without parts of broken items. *)
Definition steady (s : Site) : Prop :=
  calm now s /\ Forall (λ e, dropped_id (e_id e) = e_id e) (floor s).

Lemma erase_steady i s : steady s -> steady (erase_at i s).
Proof.
  intros [Hc Hd]. split; [by apply erase_calm|]. by eapply Forall_sublist; [apply delete_sublist|].
Qed.

(** What a pass of the loop may do. *)
Definition pass_ok (s : Site) (t : Picker) (p : pass) : Prop :=
  match p with
  | Next s' t' _ => moved_on s t s' t' /\ (steady s -> exactly s t s' t' /\ steady s')
  | Leave s' t' _ => moved_on s t s' t' /\ (steady s -> exactly s t s' t')
  end.

Lemma pass_say s t es p : pass_ok s t p -> pass_ok s t (say es p).
Proof. by destruct p. Qed.

Lemma left_ok s t es : ground_ok s -> settled (bag t) -> pass_ok s t (Leave s t es).
Proof. intros Hg Hb. split; [by apply moved_refl|done]. Qed.

Lemma next_ok s t es : ground_ok s -> settled (bag t) -> pass_ok s t (Next s t es).
Proof. intros Hg Hb. split; [by apply moved_refl|done]. Qed.

(** A gem leaves the ground; the items of the bag stay. *)
Lemma erased_ok i e s t t' es :
  ground_ok s -> settled (bag t) -> floor s !! i = Some e -> currency (e_id e) = true ->
  settled (bag t') -> inv (bag t') = inv (bag t) -> px t' = px t -> py t' = py t ->
  pass_ok s t (Next (erase_at i s) t' es).
Proof.
  intros Hg Hb He Hc Hb' Hinv Hx Hy.
  assert (entry_ok (land s) e) as (_ & Hn & _) by (by eapply Forall_lookup_1 in He).
  assert (forall x, weigh x (erase_at i s) t' = weigh x s t - (if e_id e =? x then e_count e else 0)) as Hw.
  { intros x. unfold weigh. cbn [erase_at set_floor set_land land floor set_drops drop_new].
    rewrite (on_ground_delete _ _ e), Hinv by done. lia. }
  split; [split_and!; try done; [by apply erase_ok|]|].
  - intros x _. rewrite Hw. destruct (_ =? x); lia.
  - intros Hs. split; [|by apply erase_steady]. intros x _ Hx0. rewrite Hw.
    destruct (Z.eqb_spec (e_id e) x); [congruence|lia].
Qed.

Context (more : Z -> ItemMore) (to_float : Z -> Z) (color : string) (cfg : ServerRoles) (gs : list Guild.Guild).

Lemma OnBuxGems_spec n t t' es : OnBuxGems to_float n t = (t', es) -> settled (bag t) ->
  settled (bag t') /\ inv (bag t') = inv (bag t) /\ px t' = px t /\ py t' = py t.
Proof.
  unfold OnBuxGems. destruct (Messages.OnBuxGems _ _ _ _) as [a es']. intros [= <- _] Hb.
  cbn [bag set_account set_bag px py]. by destruct (settled_set_gems (Messages.gems a) (bag t) Hb).
Qed.

Lemma take_gems_spec i e s t :
  ground_ok s -> settled (bag t) -> floor s !! i = Some e -> currency (e_id e) = true ->
  pass_ok s t (take_gems to_float peers i e s t).
Proof.
  intros Hg Hb He Hc. unfold take_gems. destruct (_ || _).
  - destruct (_ <=? _); [by apply left_ok|]. destruct (_ =? 4490).
    + destruct (OnBuxGems to_float _ t) as [t' es] eqn:E.
      destruct (OnBuxGems_spec _ _ _ _ E Hb) as (? & ? & ? & ?). by apply erased_ok with e.
    + destruct (settled_set_gems (i32 (gems (bag t) + e_count e)) (bag t) Hb). by apply erased_ok with e.
  - by apply erased_ok with e.
Qed.

Lemma take_spec r1 r2 i e s t :
  ground_ok s -> settled (bag t) -> stands (land s) t -> 0 <= r1 -> 0 <= r2 -> floor s !! i = Some e ->
  exists p, take items more modify to_float peers now r1 r2 i e s t = Some p /\ pass_ok s t p.
Proof.
  intros Hg Hb Hst Hr1 Hr2 He. unfold take.
  destruct (event_taken _ _ _ (e_id e) s t) as [s1 es] eqn:Es.
  assert (ground_ok s1 /\ land s1 = land s) as [Hg1 Hland].
  { unfold event_taken in Es. destruct (_ && _); [destruct (_ =? _)|]; by simplify_eq. }
  assert (forall p, pass_ok s1 t p -> pass_ok s t p) as Hp.
  { intros p. unfold pass_ok, moved_on, exactly, steady, calm, same_blocks, weigh, floor. by rewrite Hland. }
  assert (floor s1 !! i = Some e) as He1 by (unfold floor; by rewrite Hland).
  destruct (_ || _) eqn:Hr.
  { eexists. split; [done|]. by apply Hp, left_ok. }
  apply orb_false_iff in Hr as [Hown Hsl]. unfold Contains in *.
  destruct (currency (e_id e)) eqn:Hc.
  - eexists. split; [done|]. apply pass_say, Hp. by apply take_gems_spec.
  - destruct (take_item_spec r1 r2 i e s1 t) as (s' & t' & es' & E & Hm & Hx); try done.
    + by rewrite Hland.
    + lia.
    + intros E0. rewrite E0 in Hsl. lia.
    + rewrite E. eexists. split; [done|]. apply pass_say, Hp. split; [done|]. intros [Hcalm Hall].
      apply Hx; [done|]. by eapply Forall_lookup_1 in Hall.
Qed.

Lemma collect_entry_spec r1 r2 i e box s t :
  ground_ok s -> settled (bag t) -> stands (land s) t -> locks_in (land s) -> 0 <= r1 -> 0 <= r2 ->
  floor s !! i = Some e ->
  exists p box', collect_entry items more modify to_float peers now cfg gs r1 r2 i e box s t = Some (p, box') /\
    pass_ok s t p.
Proof.
  intros Hg Hb Hst Hlk Hr1 Hr2 He.
  assert (entry_ok (land s) e) as (_ & _ & Hi & [b Eb]) by (by eapply Forall_lookup_1 in He).
  unfold collect_entry. rewrite get_item_Some by done. cbn [mbind option_bind].
  destruct (too_far e t); [by eexists _, _; split; [done|apply left_ok]|].
  destruct (_ && existsb _ _); [by eexists _, _; split; [done|apply left_ok]|].
  rewrite Eb. cbn [mbind option_bind]. destruct (access_some cfg gs t _ _ _ Hlk Eb) as [a Ea]. rewrite Ea.
  assert (exists v, (if Z.testbit (world_settings (land s)) 2 then Some a else Some true) = Some v) as [v ->]
    by (destruct (Z.testbit _ _); by eexists).
  cbn [mbind option_bind]. destruct v; cbn [negb]; [|by eexists _, _; split; [done|apply left_ok]].
  assert (exists v, (if (fg b =? 1422) || (fg b =? 2488) then Some a else Some box) = Some v) as [v ->]
    by (destruct (_ || _); by eexists).
  cbn [mbind option_bind]. destruct v; [|by eexists _, _; split; [done|apply next_ok]].
  destruct (take_spec r1 r2 i e s t) as (p & E & Hp); try done.
  rewrite E. eexists _, _. split; [done|]. by apply pass_say.
Qed.

Lemma collect_loop_spec r1 r2 uid fuel' : 0 <= r1 -> 0 <= r2 -> forall i box s t,
  ground_ok s -> settled (bag t) -> stands (land s) t -> locks_in (land s) ->
  exists s' t' es, collect_loop items more modify to_float peers now cfg gs fuel' r1 r2 uid i box s t = Some (s', t', es) /\
    moved_on s t s' t' /\ (steady s -> exactly s t s' t').
Proof.
  intros Hr1 Hr2. induction fuel' as [|n IH]; intros i box s t Hg Hb Hst Hlk; cbn [collect_loop].
  { eexists _, _, _. split; [done|]. split; [by apply moved_refl|done]. }
  destruct (floor s !! i) as [e|] eqn:He;
    [|eexists _, _, _; split; [done|]; split; [by apply moved_refl|done]].
  assert (exists p box', (if e_uid e =? uid then
      collect_entry items more modify to_float peers now cfg gs r1 r2 i e box s t else Some (Next s t [], box))
      = Some (p, box') /\ pass_ok s t p) as (p & box' & E & Hp).
  { destruct (_ =? uid); [by apply collect_entry_spec|]. eexists _, _. split; [done|]. by apply next_ok. }
  rewrite E. cbn [mbind option_bind]. destruct p as [s1 t1 es|s1 t1 es]; [|by eexists _, _, _].
  destruct Hp as [Hm Hx]. pose proof Hm as (Hg1 & Hb1 & Hset & Hx1 & Hy1 & _).
  destruct (IH (S i) box' s1 t1) as (s2 & t2 & es2 & E2 & Hm2 & Hx2); try done.
  { by eapply stands_blocks. }
  { unfold locks_in, block_at in *. by rewrite Hb1. }
  rewrite E2. cbn [mbind option_bind]. eexists _, _, _. split; [done|]. split; [by eapply moved_trans|].
  intros Hs x Hpl Hc. destruct (Hx Hs) as [Hex Hs1]. by rewrite Hx2, Hex.
Qed.

(** ** Dropping *)

Lemma contains_zero l : Forall slot_ok l -> contains 0 l = 0.
Proof.
  induction 1 as [|[j n] l [[? ?]|[? ?]] _ IH]; cbn in *; [done| |]; destruct (Z.eqb_spec j 0); done || lia.
Qed.



(** Where the player throws things is in the world. *)
Definition throws_in (w : World) (t : Picker) : Prop :=
  (forall i b, block_at w i = Some b -> 0 < fg b < size items \/ fg b = 0 /\ 0 < size items) /\
  forall r r', 0 <= r -> 0 <= r' ->
    inside w (throw_x r t) (throw_y r' t) /\ is_Some (block_at w (spot (throw_x r t) (throw_y r' t) t)).




(** The items of [n], taken from the bag, land, or are given to the magic
    egg. *)
Definition thrown (id n : Z) (s s' : Site) : Prop :=
  lands now (dropped_id id) n s s' \/ s' = s.




Lemma thrown_fresh id n s s' : thrown id n (fresh s) s' -> thrown id n s s' \/ s' = fresh s.
Proof. intros [H| ->]; [left; by left|by right]. Qed.







End Ground.

(** ** Runs *)

Section Runs.
Context (prices : list (Z * Z)) (wf : bool) (g1 g2 : string) (fuel : nat).
Context (more : Z -> ItemMore) (to_float : Z -> Z) (color : string) (peers : list string).
Context (cfg : ServerRoles) (gs : list Guild.Guild) (Halloween : bool).

Local Abbreviation modify := (Modify items prices wf g1 g2 (S fuel)).

Inductive request :=
| Collect (r1 r2 uid : Z) (outside : bool)
| Dialog (rs : nat -> Z) (a_ : list string) (i_ : nat).

Definition serve (now : Z) (q : request) (s : Site) (t : Picker) : option (Site * Picker * list effect) :=
  match q with
  | Collect r1 r2 uid outside =>
      PACKET_ITEM_ACTIVATE_OBJECT_REQUEST items more modify to_float peers now cfg gs r1 r2 uid outside s t
  | Dialog rs a_ i_ => item_dialog items more modify to_float color peers now cfg gs Halloween rs a_ i_ s t
  end.


Definition player_ok (t : Picker) : Prop := settled (bag t) /\ contains (size items) (inv (bag t)) = 0.

Definition site_ok (s : Site) : Prop := ground_ok s /\ locks_in (land s).







Definition config_ok (c : Site * list Picker) : Prop := site_ok c.1 /\ Forall player_ok c.2.




(** C13: Collecting is exact. Let a player whose bag is settled — well
    formed, infinite mode and the automatic conversions and sales off — stand
    with 16 pixels to his right and below him inside of a world whose locked
    blocks all have their lock, at a time below 2^31, and whose ground holds
    fewer than 500 entries, none of them old enough to be swept away and none
    of a part that dropping turns into another one (745 to 749 into 743, 629
    to 649 into 627), each 1 to 200 of an item of the table on a block of the
    world. When he sends
    the packet that collects any uid he gets an answer, and of every item but
    gems (112 and 4490), seals (9186) and the two that parts turn into
    (627 and 743) the bag and the ground together have as many as before: what
    leaves the ground is in the bag, up to 200 of a kind, and the rest lies on
    the ground again. *)
Theorem collecting_moves now r1 r2 uid outside s t x :
  site_ok s -> settled (bag t) -> stands (land s) t -> 0 <= r1 -> 0 <= r2 -> steady now s ->
  plain x -> currency x = false ->
  exists s' t' es,
    PACKET_ITEM_ACTIVATE_OBJECT_REQUEST items more modify to_float peers now cfg gs r1 r2 uid outside s t
      = Some (s', t', es) /\
    contains x (inv (bag t')) + on_ground x (floor s') = contains x (inv (bag t)) + on_ground x (floor s).
Proof.
  intros [Hg Hlk] Hb Hst Hr1 Hr2 Hs Hx Hc. unfold PACKET_ITEM_ACTIVATE_OBJECT_REQUEST.
  destruct (_ || _); [by eexists _, _, _|].
  destruct (collect_loop_spec peers now prices wf g1 g2 fuel more to_float cfg gs r1 r2 uid
              (length (floor s)) Hr1 Hr2 0 true (fresh s) t) as (s' & t' & es & E & _ & Hex); try done.
  eexists _, _, _. split; [exact E|]. by apply (Hex Hs).
Qed.

End Runs.

End Facts.

(** ** At work *)

Definition demo_table : table := repeat item_default (Z.to_nat 1000).
Definition demo_give : modify_fn := Modify demo_table [] true "" "" 2.
Definition demo_more (_ : Z) : ItemMore := mkItemMore 0 false 1 0 0 "" 0 [] 0.

(** An open world of 20 rows. *)
Definition demo_park : Site :=
  mkSite (mkWorld "PARK" "" [] 0 0 100 20 0 false (replicate (Z.to_nat 2000) block_default) [])
    0 [] (λ _, 0) false [] 0 0.

Definition demo_player (n : string) (l : list (Z * Z)) : Picker :=
  mkPicker (Access.visitor n plain_roles) (sample_player l 0 false)
    (Messages.mkPlayer 0 0 0 [] 0 0 0 0 0 0 false "PARK" 7 0 0 false ∅) 320 320 0 false false 0 0 0 false.

Definition ann : Picker := demo_player "Ann" [(2, 50); (0, 0)].
Definition ben : Picker := demo_player "Ben" [(2, 180); (0, 0)].

(** Ann drops 30 of her dirt; Ben takes what he can hold of it. *)
Definition demo_drop : request :=
  Dialog (λ _, 0) ["action"; "dialog_return"; "dialog_name"; "drop_item"; "itemID"; "2"; ""; "count"; "30"; ""] 3.
Definition demo_collect : request := Collect 0 0 1 false.

Definition demo_serve : request -> Site -> Picker -> option (Site * Picker * list effect) :=
  serve demo_table [] true "" "" 1 demo_more (λ z, z) "" ["PARK"] no_config [] false 1000.

Definition demo_trace : option (Site * Picker * Site * Picker) :=
  r ← demo_serve demo_drop demo_park ann;
  q ← demo_serve demo_collect r.1.1 ben;
  Some (r.1.1, r.1.2, q.1.1, q.1.2).

Example demo_bags :
  (r ← demo_trace; Some (inv (bag r.1.1.2), inv (bag r.2), floor r.1.1.1, floor r.1.2)) =
    Some ([(2, 20); (0, 0)], [(2, 200); (0, 0)], [[2; 30; 1; 340; 320; 1000]], [[2; 10; 2; 320; 320; 1000]]).
Proof. vm_compute. reflexivity. Qed.

Lemma demo_size : size demo_table = 1000.
Proof. unfold size, demo_table. rewrite repeat_length. lia. Qed.

Lemma demo_block i : 0 <= i < 2000 -> block_at (land demo_park) i = Some block_default.
Proof.
  intros Hi. unfold block_at. cbn [blocks land demo_park]. destruct (Z.ltb_spec i 0); [lia|].
  apply lookup_replicate. split; [done|lia].
Qed.

(** Everything near the middle of the park is in the park. *)
Lemma demo_inside x y : 0 <= x < 3200 -> 0 <= y < 640 -> inside (land demo_park) x y.
Proof.
  intros Hx Hy. unfold inside. rewrite demo_block; [by eexists|].
  rewrite !Z.quot_div_nonneg by lia.
  pose proof (Z.div_le_upper_bound x 32 99 ltac:(lia)). pose proof (Z.div_lt_upper_bound y 32 20 ltac:(lia)).
  pose proof (Z.div_lt_upper_bound x 32 100 ltac:(lia)).
  pose proof (Z.div_pos x 32 ltac:(lia)). pose proof (Z.div_pos y 32 ltac:(lia)). lia.
Qed.

Lemma park_ready n l w : blocks w = blocks (land demo_park) ->
  stands w (demo_player n l) /\ throws_in demo_table w (demo_player n l).
Proof.
  intros Hb.
  assert (forall x y, inside (land demo_park) x y -> inside w x y) as Hin.
  { unfold inside, block_at. by rewrite Hb. }
  assert (forall i, block_at w i = block_at (land demo_park) i) as Hat by (unfold block_at; by rewrite Hb).
  split; [|split].
  - intros dx dy Hx Hy. apply Hin. cbn [px py demo_player]. rewrite !i32_small by lia.
    apply demo_inside; lia.
  - intros i b. rewrite Hat. unfold block_at. cbn [blocks land demo_park]. destruct (_ <? 0); [done|].
    intros [-> _]%lookup_replicate. right. rewrite demo_size. cbn. lia.
  - intros r r' Hr Hr'. unfold throw_x, throw_y, spot, round32. cbn [facing px py demo_player].
    pose proof (Z.rem_bound_pos r 12 Hr ltac:(lia)). pose proof (Z.rem_bound_pos r' 16 Hr' ltac:(lia)).
    cbn [Z.eqb]. set (u := Z.rem r 12) in *. set (v := Z.rem r' 16) in *. clearbody u v.
    rewrite !i32_small by (rewrite ?i32_small; lia).
    split; [apply Hin, demo_inside; lia|]. rewrite Hat, demo_block; [by eexists|].
    destruct (Z.leb_spec 0 (320 + 20 + u)); [|lia].
    rewrite (Z.quot_div_nonneg (320 + 20 + u + 16)), (Z.quot_div_nonneg (320 + v)) by lia.
    pose proof (Z.div_lt_upper_bound (320 + 20 + u + 16) 32 20 ltac:(lia) ltac:(lia)).
    pose proof (Z.div_lt_upper_bound (320 + v) 32 11 ltac:(lia) ltac:(lia)).
    pose proof (Z.div_pos (320 + 20 + u + 16) 32 ltac:(lia)). pose proof (Z.div_pos (320 + v) 32 ltac:(lia)). lia.
Qed.

Lemma demo_player_ok n l : inv_ok l -> contains 1000 l = 0 -> player_ok demo_table (demo_player n l).
Proof.
  intros Hl Hc. split; [|by rewrite demo_size]. split; [|exact Hl].
  by repeat split; try (right; reflexivity); try (left; reflexivity).
Qed.

Lemma demo_config : config_ok demo_table (demo_park, [ann; ben]).
Proof.
  split.
  - split; [by constructor|]. intros i b. unfold block_at at 1. cbn [blocks land fst demo_park].
    destruct (_ <? 0); [done|]. by intros [-> _]%lookup_replicate.
  - constructor; [|constructor; [|constructor]]; apply demo_player_ok; try reflexivity;
      (split; [repeat constructor; unfold slot_ok; simpl; lia|simpl; tauto]).
Qed.






(** The park with 30 dirt near Ben. *)
Definition demo_litter : Site := set_floor [[2; 30; 1; 340; 320; 1000]] demo_park.

Lemma litter_inside : inside (land demo_litter) 340 320.
Proof. assert (inside (land demo_park) 340 320) as H by (apply demo_inside; lia). unfold inside, block_at in *. exact H. Qed.

Lemma litter_ok : site_ok demo_table demo_litter.
Proof.
  split; [|apply demo_config]. constructor; [|constructor]. split_and!; try (cbn; lia); try (rewrite demo_size; cbn; lia).
  exact litter_inside.
Qed.

Lemma collecting_moves_witness : exists s' t' es,
  PACKET_ITEM_ACTIVATE_OBJECT_REQUEST demo_table demo_more demo_give (λ z, z) ["PARK"] 1000 no_config [] 5 6 1 false
    demo_litter ben = Some (s', t', es) /\
  contains 2 (inv (bag t')) + on_ground 2 (floor s') = 210.
Proof.
  apply (collecting_moves demo_table [] true "" "" 1 demo_more (λ z, z) ["PARK"] no_config [] 1000 5 6 1 false
    demo_litter ben 2); try lia; try reflexivity.
  - exact litter_ok.
  - apply (demo_player_ok "Ben" [(2, 180); (0, 0)]); [|reflexivity].
    split; [repeat constructor; unfold slot_ok; simpl; lia|simpl; tauto].
  - apply (park_ready "Ben" [(2, 180); (0, 0)]). reflexivity.
  - split; [|repeat constructor]. split; [lia|]. split; [cbn; lia|repeat constructor].
  - unfold plain. lia.
Defined.

End DropsFacts.
