(* ===== verification/AltarFacts.v ===== *)
(** * AltarFacts: what the altar of GROWGANOTH gives for an offering

    The prizes of [Drops.offering] exist whatever the random numbers are, and
    [Drops.altar] exchanges the offered items for them or gives them back. *)
From S2P Require Import Prelude Items Inventory InventoryFacts InventoryBag Access Drops DropsFacts.
Import Items Inventory InventoryFacts InventoryBag Access Drops DropsFacts.

Module AltarFacts.

(** ** Prizes *)










(** ** Offerings *)

Section Altar.
Context (items : table) (prices : list (Z * Z)) (wf : bool) (g1 g2 : string) (fuel : nat).
Context (more : Z -> ItemMore).

Local Abbreviation modify := (Modify items prices wf g1 g2 (S fuel)).




(** ** The exchange *)







End Altar.

(** ** At work: four of an item of rarity 30 become one prize. *)

Definition altar_more (_ : Z) : ItemMore := mkItemMore 0 false 30 0 0 "" 0 [] 0.





Example altar_prize :
  offering altar_more (λ _, 7) 448 4 = Some (12786, 1, false).
Proof. vm_compute. reflexivity. Qed.

End AltarFacts.
