(* ===== verification/GemDrops.v ===== *)
(** * GemDrops: gems that merge on the ground

    When gems are dropped near other gems, [Drop] ([Drops.merge_gems])
    replaces small gems by bigger ones.  A reward on clear ground is worth
    what it should be, since its gems come in decreasing order
    ([gems_on_clear_ground]); but a gem that completes a bigger one while
    smaller ones lie there is not ([gems_from_nothing]). *)
From S2P Require Import Prelude Memory Items Packet Tank World Guild Inventory.
From S2P Require Import InventoryFacts InventoryBag Drops DropsFacts.
Import Items World Drops DropsFacts.

Module GemDrops.

Section Gems.
Context (items : table) (peers : list string) (now : Z).

(** ** A reward, gem by gem *)

(** The five tests of [update_gem]. *)
Definition tests (b a : Gems) : bool * bool * bool * bool * bool :=
  ((blue_ b <? blue_ a) || ((blue_ a =? 0) && negb (blue_ b =? 0)),
   (red_ b <? red_ a) || ((red_ a =? 0) && negb (red_ b =? 0)),
   (green_ b <? green_ a) || ((green_ a =? 0) && negb (green_ b =? 0)),
   purple_ b <? purple_ a, thousand_ b <? thousand_ a).

Lemma update_gem_tests b a d : update_gem b a d =
  let '(t5, t10, t50, t100, t1000) := tests b a in
  let st := upgrade t5 false 5 1 (d, []) in
  let st := upgrade t10 false 10 5 st in
  let st := upgrade t50 false 50 10 st in
  let st := upgrade t100 false 100 50 st in
  if t1000 then (mkWorldDrop 4490 1 (d_x d) (d_y d) (d_flag d), st.2 ++ [100]) else st.
Proof. unfold update_gem, tests, upgrade. by rewrite !orb_false_r. Qed.

(** A gem of [v] after gems of at least [v] that are worth [c]. *)
Definition fits (v c : Z) : bool :=
  (0 <=? c) && (c + v <? 1000) &&
  (if v =? 100 then c mod 100 =? 0 else if v =? 50 then c mod 100 =? 0
   else if v =? 10 then (c mod 10 =? 0) && (c mod 50 <=? 30) else if v =? 5 then c mod 10 =? 0
   else (v =? 1) && (c mod 5 <=? 3)).

Definition expected (v : Z) : bool * bool * bool * bool * bool :=
  (v =? 5, v =? 10, v =? 50, v =? 100, false).

Definition row (v : Z) (n : nat) : bool :=
  let c := Z.of_nat n in
  if fits v c then
    let '(t5, t10, t50, t100, t1000) := tests (split_gems c) (split_gems (c + v)) in
    Bool.eqb t5 (v =? 5) && Bool.eqb t10 (v =? 10) && Bool.eqb t50 (v =? 50) && Bool.eqb t100 (v =? 100) &&
    negb t1000
  else true.

Lemma tests_table : forallb (λ v, forallb (row v) (seq 0 1000)) [100; 50; 10; 5; 1] = true.
Proof. vm_compute. reflexivity. Qed.

Lemma tests_row v n : In v [100; 50; 10; 5; 1] -> (n < 1000)%nat -> row v n = true.
Proof.
  intros Hv Hn. apply (proj1 (forallb_forall (row v) (seq 0 1000))); [|apply in_seq; lia].
  by apply (proj1 (forallb_forall _ _) tests_table v).
Qed.

Lemma tests_expected v c : In v [100; 50; 10; 5; 1] -> fits v c = true ->
  tests (split_gems c) (split_gems (c + v)) = expected v.
Proof.
  intros Hv Hf. assert (0 <= c < 1000) as Hc by (unfold fits in Hf; cbn in Hv; lia).
  pose proof (tests_row v (Z.to_nat c) Hv ltac:(lia)) as H. unfold row in H. rewrite Z2Nat.id in H by lia.
  rewrite Hf in H. destruct (tests _ _) as [[[[t5 t10] t50] t100] t1000]. unfold expected.
  rewrite !andb_true_iff, !eqb_true_iff, negb_true_iff in H. by destruct H as ((((-> & ->) & ->) & ->) & ->).
Qed.

(** The gem stays what it is, and replaces smaller gems only. *)
Lemma update_gem_fits v c d : In v [100; 50; 10; 5; 1] -> fits v c = true -> d_count d = v ->
  exists vs, update_gem (split_gems c) (split_gems (c + v)) d = (d, vs) /\ Forall (λ u, u < v) vs.
Proof.
  intros Hv Hf <-. rewrite update_gem_tests, tests_expected by done. unfold expected.
  assert (set_count (d_count d) d = d) as Hd by by destruct d.
  cbn in Hv. unfold upgrade.
  destruct Hv as [Hv|[Hv|[Hv|[Hv|[Hv|[]]]]]]; rewrite <- Hv; cbn;
    rewrite ?Hv, ?Hd; eexists; (split; [done|]); repeat constructor; lia.
Qed.

(** ** The gems that lie there *)

Definition box (x_ y_ : Z) (d : WorldDrop) : Prop :=
  x_ <= d_x d <= x_ + 16 /\ y_ <= d_y d <= y_ + 16.

(** No gem is so near that it could merge. *)
Definition clear (x_ y_ : Z) (l : list entry) : Prop :=
  forall e d, e ∈ l -> box x_ y_ d -> gem_near d e = false.

(** The gems of the reward so far: of at least [v], and worth [c]. *)
Definition own_gem (x_ y_ v : Z) (e : entry) : Prop :=
  e_id e = 112 /\ v <= e_count e /\ x_ <= e_x e <= x_ + 16 /\ y_ <= e_y e <= y_ + 16.

Definition pile (x_ y_ v c : Z) (old : list entry) (left_ : nat) (s : Site) : Prop :=
  exists new, floor s = old ++ new /\ Forall (own_gem x_ y_ v) new /\ on_ground 112 new = c /\
    (length (floor s) + left_ < 500)%nat /\ Forall (λ e, drop_old now e = false) (floor s).

Lemma own_near x_ y_ v d e : box x_ y_ d -> own_gem x_ y_ v e -> gem_near d e = true.
Proof. unfold box, own_gem, gem_near, near. lia. Qed.

Lemma gems_near_clear x_ y_ d l c : box x_ y_ d -> clear x_ y_ l ->
  fold_left (λ c e, if gem_near d e then i32 (c + e_count e) else c) l c = c.
Proof.
  intros Hd. revert c. induction l as [|e l IH]; intros c Hl; [done|]. cbn [fold_left].
  rewrite (Hl e d) by (done || constructor). apply IH. intros e' d' He. apply Hl. by right.
Qed.

Lemma gems_near_own x_ y_ v d l c : box x_ y_ d -> 0 < v -> Forall (own_gem x_ y_ v) l ->
  0 <= c -> c + on_ground 112 l < 2 ^ 31 ->
  fold_left (λ c e, if gem_near d e then i32 (c + e_count e) else c) l c = c + on_ground 112 l.
Proof.
  intros Hd Hv Hl. revert c. induction Hl as [|e l He Hl IH]; intros c Hc Hb; cbn [fold_left on_ground] in *; [lia|].
  rewrite (own_near _ _ _ _ _ Hd He). destruct He as (Hid & Hn & _). rewrite Hid in *. cbn [Z.eqb Pos.eqb] in *.
  assert (0 <= on_ground 112 l).
  { clear -Hl Hv. induction Hl as [|e l (Hid & Hn & _) _ IH]; cbn [on_ground]; [lia|].
    destruct (_ =? _); lia. }
  rewrite i32_small by lia. rewrite IH by lia. lia.
Qed.

Lemma erase_none d u l : Forall (λ e, gem_near d e = true -> e_count e <> u) l -> erase_gems d u l = (l, []).
Proof.
  induction 1 as [|e l He _ IH]; [done|]. cbn [erase_gems].
  destruct (gem_near d e) eqn:E; cbn [andb]; [|by rewrite IH].
  rewrite (proj2 (Z.eqb_neq _ _)) by auto. by rewrite IH.
Qed.

Lemma erase_smaller d v vs l : Forall (λ e, gem_near d e = true -> v <= e_count e) l ->
  Forall (λ u, u < v) vs -> erase_all d vs l = (l, []).
Proof.
  intros Hl. unfold erase_all. induction 1 as [|u vs Hu _ IH]; [done|]. cbn [fold_left fst snd].
  rewrite erase_none; [done|]. eapply list.Forall_impl; [exact Hl|]. cbn. intros e He Hn. specialize (He Hn). lia.
Qed.

Lemma push_floor d net_id Flag s : calm now s -> exists uid,
  floor (push_drop peers now d net_id Flag s).1 = floor s ++ [[d_id d; d_count d; uid; d_x d; d_y d; now]].
Proof.
  intros (Hnow & Hlen & Ho). exists (i32 (total_drop_uid s + 1)). cbn [push_drop fst].
  unfold floor at 1. cbn [land set_land]. rewrite sweep_calm; cbn.
  - by rewrite (i32_small now) by lia.
  - rewrite length_app. cbn. lia.
  - apply Forall_app. split; [done|]. constructor; [|done]. unfold drop_old. cbn.
    rewrite i32_small by lia. unfold SECONDS_60_DAYS. lia.
Qed.

(** One gem more. *)
Lemma drop_gem x_ y_ v c old n s d :
  In v [100; 50; 10; 5; 1] -> fits v c = true -> clear x_ y_ old -> pile x_ y_ v c old (S n) s ->
  box x_ y_ d -> d_id d = 112 -> d_count d = v -> 0 <= now < 2 ^ 31 ->
  exists s' es, Drop items peers now d (-1) false s = Some (s', es) /\ pile x_ y_ v (c + v) old n s'.
Proof.
  intros Hv Hf Hold (new & Hl & Hnew & Hc & Hlen & Ho) Hbox Hid Hn Hnow.
  assert (0 < v) as Hpos by (cbn in Hv; lia). assert (0 <= c < 1000) as Hc0 by (unfold fits in Hf; lia).
  unfold Drop. rewrite Hid. change (dropped_id 112) with 112. set (d1 := mkWorldDrop _ _ _ _ _). cbn [d_id d1].
  fold d1. rewrite Z.eqb_refl.
  assert (merge_gems d1 (floor (fresh s)) = (d1, floor s, [])) as ->.
  { change (floor (fresh s)) with (floor s). assert (box x_ y_ d1) as Hbox1 by exact Hbox.
    assert (gems_near d1 (floor s) = c) as Hnear.
    { unfold gems_near. rewrite Hl, fold_left_app, (gems_near_clear x_ y_ d1 old) by done.
      rewrite (gems_near_own x_ y_ v) by (done || lia). lia. }
    unfold merge_gems. rewrite Hnear. destruct (Z.eqb_spec c 0); [done|]. cbn [d_count d1]. rewrite Hn.
    rewrite i32_small by (unfold fits in Hf; lia).
    destruct (update_gem_fits v c d1 Hv Hf Hn) as (vs & -> & Hvs).
    rewrite (erase_smaller d1 v vs); [done| |done]. rewrite Hl. apply Forall_app. split.
    - apply list.Forall_forall. intros e He Hn2. by rewrite (Hold e d1) in Hn2.
    - eapply list.Forall_impl; [exact Hnew|]. by intros e (_ & ? & _). }
  cbn [d_id d1]. fold d1. unfold stackable. cbn [Z.eqb Pos.eqb mbind option_bind d_count d1]. fold d1. rewrite Hn.
  rewrite (proj2 (Z.eqb_neq v 0)) by lia.
  destruct (push_floor d1 (-1) false (set_floor (floor s) (fresh s))) as [uid Hp];
    [split; [done|split; [cbn; change (drop_new (land s)) with (floor s); lia|done]]|].
  destruct (push_drop _ _ _ _ _ _) as [s' es]. cbn [fst] in Hp. eexists _, _. split; [done|].
  exists (new ++ [[112; v; uid; d_x d; d_y d; now]]). cbn [d_id d_count d_x d_y d1] in Hp.
  change (floor (set_floor (floor s) (fresh s))) with (floor s) in Hp. rewrite Hn in Hp. rewrite Hp. split_and!.
  - by rewrite Hl, app_assoc.
  - apply Forall_app. split; [done|]. constructor; [|done]. unfold own_gem, box in *. cbn. lia.
  - rewrite on_ground_app, Hc. cbn. lia.
  - rewrite length_app. cbn. lia.
  - apply Forall_app. split; [done|]. constructor; [|done]. unfold drop_old, SECONDS_60_DAYS. cbn. lia.
Qed.

Lemma around_box x_ r : 0 <= r -> 0 <= x_ < 2 ^ 31 - 17 -> x_ <= around x_ r <= x_ + 16.
Proof.
  intros Hr Hx. unfold around. pose proof (Z.rem_bound_pos r 17 Hr ltac:(lia)). rewrite i32_small; lia.
Qed.

Section Reward.
Context (rs : nat -> Z) (x_ y_ : Z) (old : list entry).
Context (Hrs : forall k, 0 <= rs k) (Hx : 0 <= x_ < 2 ^ 31 - 17) (Hy : 0 <= y_ < 2 ^ 31 - 17).
Context (Hold : clear x_ y_ old) (Hnow : 0 <= now < 2 ^ 31).

Lemma drop_gems_spec v : In v [100; 50; 10; 5; 1] -> forall n c left_ k s,
  (forall j, (j < n)%nat -> fits v (c + v * Z.of_nat j) = true) -> pile x_ y_ v c old (n + left_) s ->
  exists s' es k', drop_gems items peers now rs 112 v x_ y_ n k s = Some (s', es, k') /\
    pile x_ y_ v (c + v * Z.of_nat n) old left_ s'.
Proof.
  intros Hv. induction n as [|n IH]; intros c left_ k s Hf Hp; cbn [drop_gems].
  { eexists _, _, _. split; [done|]. by rewrite Z.mul_0_r, Z.add_0_r. }
  destruct (drop_gem x_ y_ v c old (n + left_) s (mkWorldDrop 112 v (around x_ (rs k)) (around y_ (rs (S k))) 0))
    as (s1 & e1 & E1 & Hp1); try done.
  { specialize (Hf 0%nat ltac:(lia)). by rewrite Z.mul_0_r, Z.add_0_r in Hf. }
  { split; cbn; by apply around_box. }
  rewrite E1. cbn [mbind option_bind].
  destruct (IH (c + v) left_ (S (S k)) s1) as (s2 & e2 & k' & E2 & Hp2); [|done|].
  { intros j Hj. specialize (Hf (S j) ltac:(lia)). by replace (c + v + v * Z.of_nat j) with (c + v * Z.of_nat (S j)) by lia. }
  rewrite E2. cbn [mbind option_bind]. eexists _, _, _. split; [done|].
  by replace (c + v * Z.of_nat (S n)) with (c + v + v * Z.of_nat n) by lia.
Qed.

Lemma pile_weaken u v c n s : v <= u -> pile x_ y_ u c old n s -> pile x_ y_ v c old n s.
Proof.
  intros Hu (new & Hl & Hnew & H). exists new. split_and!; try done; try tauto.
  eapply list.Forall_impl; [exact Hnew|]. unfold own_gem. cbn. intros e. lia.
Qed.

(** The gems of a reward fit, one after the other, and are worth it. *)
Definition fit (v c : Z) (n : Z) : bool :=
  (0 <=? n) && forallb (λ j, fits v (c + v * Z.of_nat j)) (seq 0 (Z.to_nat n)).

Definition gems_fit (k : nat) : bool :=
  let g := split_gems (Z.of_nat k) in
  let c1 := 100 * purple_ g in
  let c2 := c1 + 50 * green_ g in
  let c3 := c2 + 10 * red_ g in
  let c4 := c3 + 5 * blue_ g in
  fit 100 0 (purple_ g) && fit 50 c1 (green_ g) && fit 10 c2 (red_ g) && fit 5 c3 (blue_ g) &&
  fit 1 c4 (yellow_ g) && (c4 + yellow_ g =? Z.of_nat k) &&
  (purple_ g + green_ g + red_ g + blue_ g + yellow_ g <=? 19).

Lemma gems_fit_table : forallb gems_fit (seq 0 1000) = true.
Proof. vm_compute. reflexivity. Qed.

Lemma fit_steps v c n : fit v c n = true ->
  0 <= n /\ forall j, (j < Z.to_nat n)%nat -> fits v (c + v * Z.of_nat j) = true.
Proof.
  intros [Hn H]%andb_true_iff. split; [lia|]. intros j Hj. rewrite forallb_forall in H.
  apply (H j), in_seq. lia.
Qed.

(** A kind of gem after the other. *)
Lemma next_gems u v c n left_ k s : u <= v -> In u [100; 50; 10; 5; 1] -> fit u c n = true ->
  pile x_ y_ v c old (Z.to_nat n + left_) s ->
  exists s' es k', drop_gems items peers now rs 112 u x_ y_ (Z.to_nat n) k s = Some (s', es, k') /\
    pile x_ y_ u (c + u * n) old left_ s'.
Proof.
  intros Hu Hin [Hn Hf]%fit_steps Hp. apply (pile_weaken _ u) in Hp; [|done].
  destruct (drop_gems_spec u Hin (Z.to_nat n) c left_ k s Hf Hp) as (s' & es & k' & E & Hp').
  rewrite Z2Nat.id in Hp' by done. by eexists _, _, _.
Qed.

Lemma throw_gems_spec c k s :
  0 <= c < 1000 -> old = floor s -> Forall (λ e, drop_old now e = false) (floor s) ->
  (length (floor s) <= 480)%nat ->
  exists s' es new, throw_gems items peers now rs k c x_ y_ s = Some (s', es) /\
    floor s' = floor s ++ new /\ Forall (λ e, e_id e = 112) new /\ on_ground 112 new = c.
Proof.
  intros Hc Ho Hcalm Hlen. unfold throw_gems. rewrite Z.quot_small by lia. cbn [Z.eqb drop_gems mbind option_bind].
  pose proof gems_fit_table as H. rewrite forallb_forall in H. specialize (H (Z.to_nat c)).
  unfold gems_fit in H. rewrite Z2Nat.id in H by lia. set (g := split_gems c) in *.
  specialize (H ltac:(apply in_seq; lia)). rewrite !andb_true_iff in H.
  destruct H as ((((((H1 & H2) & H3) & H4) & H5) & H6) & H7).
  assert (0 <= purple_ g /\ 0 <= green_ g /\ 0 <= red_ g /\ 0 <= blue_ g /\ 0 <= yellow_ g) as Hpos
    by (unfold fit in *; lia).
  assert (pile x_ y_ 100 0 old (Z.to_nat (purple_ g) + (Z.to_nat (green_ g) + (Z.to_nat (red_ g) +
            (Z.to_nat (blue_ g) + (Z.to_nat (yellow_ g) + 0))))) s) as P0.
  { exists []. rewrite Ho, app_nil_r. split_and!; try done. lia. }
  destruct (next_gems 100 100 _ _ _ k s ltac:(lia) ltac:(cbn; tauto) H1 P0) as (s1 & e1 & k1 & -> & P1).
  cbn [mbind option_bind].
  destruct (next_gems 50 100 _ _ _ k1 s1 ltac:(lia) ltac:(cbn; tauto) H2 P1) as (s2 & e2 & k2 & -> & P2).
  cbn [mbind option_bind].
  destruct (next_gems 10 50 _ _ _ k2 s2 ltac:(lia) ltac:(cbn; tauto) H3 P2) as (s3 & e3 & k3 & -> & P3).
  cbn [mbind option_bind].
  destruct (next_gems 5 10 _ _ _ k3 s3 ltac:(lia) ltac:(cbn; tauto) H4 P3) as (s4 & e4 & k4 & -> & P4).
  cbn [mbind option_bind].
  destruct (next_gems 1 5 _ _ _ k4 s4 ltac:(lia) ltac:(cbn; tauto) H5 P4) as (s5 & e5 & k5 & -> & P5).
  cbn [mbind option_bind]. destruct P5 as (new & Hl & Hnew & Hsum & _).
  eexists _, _, new. split; [done|]. rewrite <- Ho. split; [done|]. split; [|lia].
  eapply list.Forall_impl; [exact Hnew|]. by intros e (? & _).
Qed.

(** C27: A reward of gems on clear ground is worth its amount. Let [amount]
    be what [gems_] makes of [c_] by its luck, the cap of 300, the event and
    the player's multipliers. If [from] is none of the six blocks that give
    nothing, the player does not collect gems at once, the amount is from 0
    to 999, no other gem is so near that it could merge, and the sweep has
    nothing to do (nothing there is old, at most 480 drops), [gems_] adds
    gems worth exactly the amount, wherever the random numbers put them, and
    leaves the others as they were. Without a player, and apart from the
    block 5196, the amount is [c_], at most 300, times the event. *)
Theorem gems_on_clear_ground edits event world_gems percent p c_ from s :
  old = floor s -> Forall (λ e, drop_old now e = false) (floor s) -> (length (floor s) <= 480)%nat ->
  no_reward from = false -> (forall q, p = Some q -> collects q = false) ->
  let amount := (reward_amount rs edits event world_gems percent p c_ from).1 in
  (0 <= amount < 1000 ->
   exists s' es new,
     gems_ items peers now rs edits event world_gems percent p c_ x_ y_ from s = Some (Thrown s' es) /\
     floor s' = floor s ++ new /\ Forall (λ e, e_id e = 112) new /\ on_ground 112 new = amount) /\
  (p = None -> from <> 5196 -> 0 <= event <= 1000 -> 0 <= c_ -> amount = Z.min c_ 300 * event).
Proof.
  intros Ho Hcalm Hlen Hfrom Hp amount. split.
  - intros Ha. unfold gems_. rewrite Hfrom. subst amount.
    destruct (reward_amount _ _ _ _ _ _ _ _) as [a k]. cbn [fst] in *.
    destruct (throw_gems_spec a k s Ha Ho Hcalm Hlen) as (s' & es & new & E & H). rewrite E.
    exists s', es, new. split; [|done]. destruct p as [q|]; [|done]. by rewrite (Hp q).
  - intros -> Hn He Hc. subst amount. unfold reward_amount. cbn [fst].
    rewrite (proj2 (Z.eqb_neq from 5196)) by done. destruct (Z.ltb_spec 300 c_); rewrite i32_small; nia.
Qed.

End Reward.

(** ** Gems that merge wrongly *)

(** Gems merge into more, or less, than they are worth. Where four gems
    of 1 lie, dropping a fifth gem of 1 leaves gems worth 7, and dropping a
    gem of 5 leaves gems worth 7 as well: the loop that erases the four small
    gems skips the entry after each one it erases, and what the new gem had
    been worth is forgotten. *)
Theorem gems_from_nothing a b c e d s :
  floor s = [a; b; c; e] -> Forall (λ g, gem_near d g = true /\ e_count g = 1 /\ drop_old now g = false) [a; b; c; e] ->
  d_id d = 112 -> d_count d = 1 \/ d_count d = 5 -> 0 <= now < 2 ^ 31 ->
  on_ground 112 (floor s) = 4 /\
  exists s' es, Drop items peers now d (-1) false s = Some (s', es) /\ on_ground 112 (floor s') = 7.
Proof.
  intros Hl Hall Hid Hn Hnow.
  apply list.Forall_cons in Hall as [(Na & Ca & Oa) Hall]. apply list.Forall_cons in Hall as [(Nb & Cb & Ob) Hall].
  apply list.Forall_cons in Hall as [(Nc & Cc & Oc) Hall]. apply list.Forall_cons in Hall as [(Ne & Ce & Oe) _].
  assert (forall g, gem_near d g = true -> e_id g = 112) as Hgem by (unfold gem_near; intros; lia).
  split. { rewrite Hl. cbn [on_ground]. rewrite !Hgem, Ca, Cb, Cc, Ce by done. done. }
  unfold Drop. rewrite Hid. change (dropped_id 112) with 112. set (d1 := mkWorldDrop _ _ _ _ _). cbn [d_id d1].
  fold d1. rewrite Z.eqb_refl. change (floor (fresh s)) with (floor s).
  assert (forall g, gem_near d1 g = gem_near d g) as Hd1 by done.
  assert (merge_gems d1 (floor s) = (set_count 5 d1, [b; e], [e_uid a; e_uid c])) as ->.
  { unfold merge_gems, gems_near. rewrite Hl. cbn [fold_left]. rewrite !Hd1, Na, Nb, Nc, Ne, Ca, Cb, Cc, Ce.
    change (i32 (i32 (i32 (i32 (0 + 1) + 1) + 1) + 1)) with 4. cbn [Z.eqb].
    assert (update_gem (split_gems 4) (split_gems (i32 (4 + d_count d1))) d1 = (set_count 5 d1, [1])) as ->
      by (cbn [d_count d1]; destruct Hn as [-> | ->]; vm_compute; reflexivity).
    unfold erase_all. cbn [fold_left fst snd erase_gems].
    assert (forall g, gem_near (set_count 5 d1) g = gem_near d g) as Hd5 by done. rewrite !Hd5. by rewrite Na, Nc, Ca, Cc. }
  cbn [d_id d1 set_count]. fold d1. unfold stackable. cbn [Z.eqb Pos.eqb mbind option_bind d_count].
  set (d2 := set_count 5 d1). change (d_count d2 =? 0) with false. cbv iota.
  destruct (push_floor d2 (-1) false (set_floor [b; e] (fresh s))) as [uid Hp].
  { split; [done|]. split; [cbn; lia|]. repeat constructor; done. }
  destruct (push_drop _ _ _ _ _ _) as [s' es]. cbn [fst] in Hp. eexists _, _. split; [done|].
  rewrite Hp. cbn. by rewrite !Hgem, Cb, Ce.
Qed.

End Gems.

(** ** At work *)

(** Gems of 87 fall far from an old gem, and are worth 87. *)
Definition far_gem : list entry := [[112; 50; 1; 800; 320; 1000]].
Definition gem_park : Site := set_floor far_gem demo_park.

(** A lucky player with a boost: 40 gems become 41, then 82, then 164. *)
Definition lucky_player : Earner :=
  mkEarner true false false 0 [] 0 0 true false false 0 false 0 0.
Definition by_hundred (k : nat) : Z := Z.of_nat k * 100.
Definition of_percent (c n : Z) : Z := Z.quot (c * n) 100.

Lemma gems_on_clear_ground_witness : exists s' es new,
  gems_ demo_table ["PARK"] 1000 by_hundred [] 1 1 of_percent (Some lucky_player) 40 320 320 2 gem_park
    = Some (Thrown s' es) /\
  floor s' = floor gem_park ++ new /\ Forall (λ e, e_id e = 112) new /\ on_ground 112 new = 164.
Proof.
  apply (gems_on_clear_ground demo_table ["PARK"] 1000 by_hundred 320 320 far_gem); try lia; try reflexivity.
  - intros k. unfold by_hundred. lia.
  - intros e d He%list_elem_of_singleton [Hx Hy]. subst e. unfold gem_near, near. cbn. lia.
  - repeat constructor.
  - cbn. lia.
  - by intros q [= <-].
  - vm_compute. by split.
Defined.

Definition yellow (uid : Z) : entry := [112; 1; uid; 330; 330; 1000].

Lemma gems_from_nothing_witness :
  on_ground 112 [yellow 1; yellow 2; yellow 3; yellow 4] = 4 /\
  exists s' es, Drop demo_table ["PARK"] 1000 (mkWorldDrop 112 1 335 328 0) (-1) false
      (set_floor [yellow 1; yellow 2; yellow 3; yellow 4] demo_park) = Some (s', es) /\
    on_ground 112 (floor s') = 7.
Proof.
  apply (gems_from_nothing demo_table ["PARK"] 1000 (yellow 1) (yellow 2) (yellow 3) (yellow 4)
    (mkWorldDrop 112 1 335 328 0) (set_floor [yellow 1; yellow 2; yellow 3; yellow 4] demo_park)); try reflexivity.
  - repeat constructor.
  - left. reflexivity.
  - lia.
Defined.

End GemDrops.
