(* ===== verification/Reach.v ===== *)
(** * Reach: ways through a world

    Models the searches of [src/NopySource/Handle/WorldInfo.h] over the
    blocks of a world: [patchPath] and [patchNoClip] look for a way that a
    player can walk, [track_steam] for the end of a steam tunnel; and the
    tests of single blocks, [IsObstacle] and [canWalk].  Their callers are
    the check of a move in [PACKET_STATE] and the steam funnels of
    [PACKET_TILE_ACTIVATE_REQUEST] ([src/NopySource/Server/server_pool.h]).

    The searches visit neighbours like the areas of locks do ([Area.visit]).
    The flags [scanned] that blocks already have are the argument [scanned].
    [None] is a read outside of a vector or a division by zero; an address
    that is computed and not read is no read. *)
From S2P Require Import Prelude Items Packet Tank World Guild Inventory Messages Access Area Drops.
Import Items World Inventory Access Drops.

Module Reach.

(** What the searches read of a block that no other component does. *)
Record BlockMore := mkBlockMore { limit_admins : bool; Admin_Bfg : list string }.

Definition TILEFLAG_OPEN : Z := 4194304.
Definition TILEFLAG_PUBLIC : Z := 8388608.

Definition HasFlag (flags fl : Z) : bool := negb (Z.land flags fl =? 0).

Inductive effect :=
| EDrops (e : Drops.effect)
| ETo (peer : nat) (e : Messages.effect)
| EMessage (e : Messages.effect)
| EVisual (peer : nat) (x y : Z)               (* the packet 5 with the look of a block *)
| EBurn (peer : nat) (uid : Z)                 (* the packet 14 of an item that is gone *)
| EBang (peer : nat) (x y a b : Z)             (* the packet 17 *)
| ESteam (peer : nat) (x y scenario : Z)       (* the packet 32 *)
| EQuest (task : string)                       (* [Epic_Quest::Add] *)
| ESetPos (x y : Z).                           (* [OnSetPos] to the player *)

(** ** The search

    [enter n m] decides whether the search goes on from [n] to its neighbour
    [m], [goal n] whether it ends at [n].  The result [true] means that there
    is no way. *)
Section Search.
Context (next : Z -> list Z) (enter : Z -> Z -> option bool) (goal : Z -> option bool).

Fixpoint seek (fuel : nat) (new_tiles : list Z) (scanned : gset Z) : option bool :=
  match fuel with
  | O => None
  | S fuel =>
      match new_tiles with
      | [] => Some true
      | n :: new_tiles =>
          g ← goal n;
          if g : bool then Some false
          else
            '(new, scanned) ← Area.visit (enter n) (next n) scanned;
            seek fuel (new_tiles ++ new) scanned
      end
  end.

End Search.

Section Reach.
Context (items : table) (more : Z -> ItemMore) (extra : Z -> BlockMore) (gs : list Guild.Guild).

Definition Vip_Bfg (i : Z) (find : string) : bool := existsb (String.eqb find) (Admin_Bfg (extra i)).

(** A block and its item. *)
Definition tile (s : Site) (i : Z) : option (WorldBlock * ItemDB) :=
  b ← block_at (land s) i; it ← get_item items (fg b); Some (b, it).

Definition solid (b : WorldBlock) : bool := collisionType (more (fg b)) =? 1.
Definition is_type (t : BlockTypes) (it : ItemDB) : bool := bool_decide (blockType it = t).
Definition opens (b : WorldBlock) (it : ItemDB) : bool := is_type GATEWAY it || toggleable (more (fg b)).

Definition public_world (s : Site) : bool := Z.testbit (world_settings (land s)) 4.

(** The world is owned by somebody else. *)
Definition foreign (v : Visitor) (s : Site) : bool :=
  negb (String.eqb (owner_name (land s)) (name_of v)) && negb (is_empty (owner_name (land s))).

Definition listed (adm : string) (l : list string) : bool := existsb (String.eqb adm) l.

(** The block [b] with the number [i] lets the player not through.  [adm] is
    the name that is looked up in lists, [vip] the block whose other list is
    used. *)
Definition barred (adm : string) (v : Visitor) (s : Site) (i vip : Z) (b : WorldBlock) (it : ItemDB) : bool :=
  if is_type VIP_ENTRANCE it && negb (limit_admins (extra i)) && foreign v s && negb (listed adm (block_admins b))
  then true
  else if is_type VIP_ENTRANCE it && Vip_Bfg vip (name_of v) then true
  else if is_type GATEWAY it && is_false_state more b (flags s i) TILEFLAG_PUBLIC && foreign v s &&
          negb (public_world s) && negb (Guild.guild_access gs (who v) (World.guild_id (land s))) &&
          negb (listed adm (admins (land s)))
  then true
  else toggleable (more (fg b)) && is_false_state more b (flags s i) TILEFLAG_OPEN.

(** *** [patchPath] *)

(** Going up looks at the block on the right of the one above. *)
Definition path_open (s : Site) (n m : Z) : option bool :=
  '(b, it) ← tile s m;
  if negb (solid b) then Some true
  else if m =? n - 100 then '(b2, it2) ← tile s (n - 99); Some (opens b2 it2)
  else Some (opens b it).

(** Going right uses the list of the block where the step begins. *)
Definition path_enter (v : Visitor) (s : Site) (n m : Z) : option bool :=
  open ← path_open s n m;
  if open : bool then
    '(b, it) ← tile s m;
    Some (negb (barred (to_lower (name_of v)) v s m (if m =? n + 1 then n else m) b it))
  else Some false.

(** The search starts where the player stands, if that is a place to be. *)
Definition first_tiles (adm : string) (v : Visitor) (s : Site) (start : Z) : option (list Z) :=
  '(b, it) ← tile s start;
  Some (if (negb (solid b) || opens b it || is_type VIP_ENTRANCE it) && negb (barred adm v s start start b it)
        then [start] else []).

Definition at_goal (s : Site) (target n : Z) : option bool :=
  '(b, _) ← tile s n; Some ((n =? target) && negb (solid b)).

Definition patchPath (scanned : gset Z) (x y fg_ : Z) (v : Visitor) (s : Site) : option bool :=
  let w := land s in
  if (x <? 0) || (max_x w * 32 <=? x) || (y <? 0) || (max_y w * 32 <=? y) ||
     (fg_ <? 0) || (Area.size_of w <? fg_) then Some false
  else
    b ← block_at w fg_;
    if fg b =? 8676 then Some false
    else
      new_tiles ← first_tiles (to_lower (name_of v)) v s (Z.quot x 32 + Z.quot y 32 * 100);
      if Area.size_of w <? 100 then None
      else seek (Area.around w) (path_enter v s) (at_goal s fg_) (Area.walk_fuel w) new_tiles scanned.

(** *** [patchNoClip] *)

Definition around60 (n : Z) : list Z :=
  let x := n mod 100 in
  let y := n / 100 in
  (if x <? 99 then [n + 1] else []) ++ (if 0 <? x then [n - 1] else []) ++
  (if y <? 59 then [n + 100] else []) ++ (if 0 <? y then [n - 100] else []).

Definition clip_enter (v : Visitor) (s : Site) (n m : Z) : option bool :=
  '(b, it) ← tile s m;
  Some ((negb (solid b) || opens b it) &&
        negb (barred (name_of v) v s m (if m =? n + 1 then n else m) b it)).

Definition patchNoClip (x y target : Z) (v : Visitor) (s : Site) : option bool :=
  let start := Z.quot x 32 + Z.quot y 32 * 100 in
  let size := Area.size_of (land s) in
  if (start <? 0) || (size <=? start) then Some false
  else
    new_tiles ← first_tiles (name_of v) v s start;
    if size <? 100 then None
    else
      let ySize := size / 100 in
      let xSize := size / ySize in
      if size - 1 <? xSize + ySize * 100 then Some false
      else seek around60 (clip_enter v s) (at_goal s target) (Area.walk_fuel (land s)) new_tiles
             (list_to_set new_tiles).

(** *** Single blocks *)

(** [GetTile]: the number of the block, or a null pointer. *)
Definition GetTile (x y : Z) (w : World) : option Z :=
  if (x <? 0) || (y <? 0) || (max_x w <? x) || (max_y w <? y) then None else Some (x + y * max_x w).

Definition GetParentTile (neighbour : WorldBlock) (w : World) : option Z :=
  if lock_origin neighbour <? 0 then None
  else GetTile (Z.rem (lock_origin neighbour) (max_x w)) (Z.quot (lock_origin neighbour) (max_x w)) w.

(** A tool of the developers: the doors are open for everybody else. *)
Definition IsObstacle (v : Visitor) (ghost_ : bool) (x y : Z) (s : Site) : option bool :=
  let w := land s in
  if (max_x w <=? x) || (max_y w <=? y) || (x <? 0) || (y <? 0) then Some true
  else if ghost_ then Some false
  else
    match GetTile x y w with
    | None => Some true
    | Some i =>
        b ← block_at w i;
        let id_ := if fg b =? 0 then bg b else fg b in
        it ← get_item items id_;
        if (fg b =? 0) || negb (collisionType (more id_) =? 1) || is_type PLATFORM it then Some false
        else if is_type VIP_ENTRANCE it then
          if negb (Developer (Role v)) then Some false
          else if locked b then
            match GetParentTile b w with
            | None => Some true
            | Some j =>
                p ← block_at w j;
                Some (negb (Vip_Bfg j (name_of v) || listed (name_of v) (block_admins p) ||
                            HasFlag (flags s j) TILEFLAG_PUBLIC || HasFlag (flags s i) TILEFLAG_PUBLIC ||
                            String.eqb (block_owner p) (name_of v)))
            end
          else if is_empty (owner_name w) || String.eqb (owner_name w) (name_of v) then Some false
          else
            match GetParentTile b w with
            | None => Some true
            | Some j =>
                p ← block_at w j;
                Some (negb (Vip_Bfg j (name_of v) || listed (name_of v) (admins w) || public_world s ||
                            HasFlag (flags s i) TILEFLAG_PUBLIC))
            end
        else if toggleable (more id_) then
          if negb (Developer (Role v)) then Some false
          else Some (negb (HasFlag (flags s i) TILEFLAG_OPEN))
        else Some true
    end.

Definition canWalk (x y : Z) (v : Visitor) (s : Site) : option bool :=
  if (x <? 0) || (100 <? x) || (y <? 0) || (60 <? y) then Some false
  else
    '(b, it) ← tile s (x + y * 100);
    let fl := flags s (x + y * 100) in
    if is_type VIP_ENTRANCE it || negb (solid b) || toggleable (more (fg b)) then
      if is_type VIP_ENTRANCE it && negb (HasFlag fl TILEFLAG_PUBLIC) && foreign v s && negb (public_world s) &&
         negb (Guild.guild_access gs (who v) (World.guild_id (land s))) && negb (listed (name_of v) (admins (land s))) &&
         Vip_Bfg (x + y * 100) (name_of v) then Some false
      else Some (negb (toggleable (more (fg b)) && negb (HasFlag fl TILEFLAG_OPEN)))
    else Some false.

(** ** A move

    The check of a move to the block [i]: [outside] if a coordinate of the
    new position is negative, [mx] and [my] the position as integers, and
    the four corners of the player there. *)
Record Move := mkMove { outside : bool; mx : Z; my : Z; to_block : Z; corners : list (Z * Z) }.

(** The white door. *)
Definition to_door (s : Site) : list effect :=
  match list_find (λ b, fg b = 6) (blocks (land s)) with
  | Some (k, _) => [ESetPos (Z.of_nat k mod 100 * 32) (Z.of_nat k / 100 * 32)]
  | None => []
  end.

Fixpoint all_obstacles (v : Visitor) (g : bool) (s : Site) (l : list (Z * Z)) : option bool :=
  match l with
  | [] => Some true
  | (x, y) :: l => o ← IsObstacle v g x y s; if o : bool then all_obstacles v g s l else Some false
  end.

Fixpoint any_obstacle (v : Visitor) (g : bool) (s : Site) (l : list (Z * Z)) : option bool :=
  match l with
  | [] => Some false
  | (x, y) :: l => o ← IsObstacle v g x y s; if o : bool then Some true else any_obstacle v g s l
  end.

(** [Some es] inside: the move is refused.  [c_x], [c_y] is the checkpoint. *)
Definition refused_early (c_x c_y : Z) (m : Move) (s : Site) (t : Picker) : option (option (list effect)) :=
  if ghost t then Some None
  else if outside m || ((px t =? 0) && (py t =? 0)) then Some (Some (to_door s))
  else
    '(b, it) ← tile s (to_block m);
    if solid b then Some (Some [ESetPos (px t) (py t)])
    else if negb (c_x * 32 =? mx m) && negb (c_y * 32 =? my m) then
      no_clip ← patchNoClip (px t) (py t) (to_block m) (visitor t) s;
      Some (if no_clip : bool then Some [ESetPos (px t) (py t)] else None)
    else Some None.

Definition check_move (c_x c_y : Z) (m : Move) (s : Site) (t : Picker) : option (option (list effect)) :=
  early ← refused_early c_x c_y m s t;
  match early with
  | Some es => Some (Some es)
  | None =>
      all ← all_obstacles (visitor t) (ghost t) s (corners m);
      if all : bool then Some (Some (to_door s))
      else
        any ← any_obstacle (visitor t) (ghost t) s (corners m);
        Some (if any : bool then Some (to_door s) else None)
  end.

(** ** Steam *)

(** A block number up to the number of blocks is read. *)
Definition steam_block (s : Site) (P : Z -> bool) (i : Z) : option bool :=
  if (0 <=? i) && (i <=? Area.size_of (land s)) then b ← block_at (land s) i; Some (P (fg b)) else Some false.

Definition connector (id : Z) : bool := (id =? 3724) || (id =? 3286).
Definition tunnel (id : Z) : bool := id =? 3260.

(** The first place that holds a connector, of a tile and its neighbours. *)
Fixpoint steam_end (s : Site) (l : list (Z * Z)) : option (option (Z * Z)) :=
  match l with
  | [] => Some None
  | (x, y) :: l =>
      c ← steam_block s connector (x + y * 100);
      if c : bool then Some (Some (x, y)) else steam_end s l
  end.

Definition ends (n : Z) : list (Z * Z) :=
  let x := n mod 100 in
  let y := n / 100 in
  [(x, y); (x + 1, y); (x - 1, y); (x, y + 1); (x, y - 1)].

Fixpoint steam_search (fuel : nat) (s : Site) (new_tiles : list Z) (scanned : gset Z) : option (option (Z * Z)) :=
  match fuel with
  | O => None
  | S fuel =>
      match new_tiles with
      | [] => Some None
      | n :: new_tiles =>
          found ← steam_end s (ends n);
          match found with
          | Some p => Some (Some p)
          | None =>
              '(new, scanned) ← Area.visit (steam_block s tunnel) (Area.around (land s) n) scanned;
              steam_search fuel s (new_tiles ++ new) scanned
          end
      end
  end.

Definition track_steam (scanned : gset Z) (x y : Z) (s : Site) : option (option (Z * Z)) :=
  if Area.size_of (land s) <? 100 then None
  else steam_search (Area.walk_fuel (land s)) s [x + y * 100] scanned.

(** *** The storage of spirits *)

Definition all_p : list Z :=
  [13020; 12464; 3734; 3732; 3748; 3712; 3706; 3708; 3718; 11136; 3728; 10056; 3730; 3788; 3750; 3738;
   6060; 3738; 6840; 3736; 7784; 9596; 9598; 12288].

Definition pick (l : list Z) (r : Z) : Z := nth (Z.to_nat (Z.rem r (Z.of_nat (length l)))) l 0.

(** The prize of an explosion: [c5] is five times the content, [explo] the
    count of the last spirits. *)
Definition storage_prize (c5 explo r : Z) : Z :=
  if c5 <=? 115 then 3734 else if c5 <=? 130 then 3732 else if c5 <=? 140 then 3748
  else if c5 <=? 150 then 12464
  else if c5 <=? 170 then pick [3712; 3706; 3708; 3718; 11136] r
  else if c5 <=? 190 then 3728 else if c5 <=? 205 then 10056 else if c5 <=? 220 then 3730
  else if c5 =? 225 then 3788 else if c5 <=? 240 then 3750 else if c5 =? 245 then 3738
  else if c5 <=? 255 then 6060
  else if (c5 <=? 265) || (265 <=? u32 (explo * 5)) then
    if 265 <=? u32 (explo * 5) then pick all_p r else 3738
  else
    pick ([6840] ++ (if 270 <=? c5 then [3736] else []) ++ (if 295 <=? c5 then [7784] else []) ++
          (if 369 <=? c5 then [9598] else []) ++ (if 500 <=? c5 then [9596] else []) ++
          (if 850 <=? c5 then [12288] else [])) r.

Definition set_c (n : Z) (b : WorldBlock) : WorldBlock :=
  mkBlock (fg b) (bg b) (locked b) (lock_origin b) (block_owner b) (block_admins b) (spin b) (pr b) (wl b) (id b) n.

Definition on_site_block (i : Z) (f : WorldBlock -> WorldBlock) (s : Site) : Site :=
  set_land (Area.on_block i f (land s)) s.

Definition set_flags (f : Z -> Z) (s : Site) : Site :=
  mkSite (land s) (total_drop_uid s) (active_jammers s) f (special_event s) (world_event_items s)
    (special_event_item s) (special_event_item_taken s).

Context (peers : list string) (now : Z).

Definition to_site (s : Site) (f : nat -> list effect) : list effect :=
  mjoin (imap (λ k v, if String.eqb v (name (land s)) then f k else []) peers).

(** Spirits that lie on the connector. *)
Definition spirit_at (cx cy : Z) (e : list Z) : bool :=
  (Z.quot (e_x e) 32 =? cx) && (Z.quot (e_y e) 32 =? cy) && (e_id e =? 3722).

(** The explosion: [r1], [r2], [r3] are random. *)
Definition explode (r1 r2 r3 explo cx cy c5 : Z) (s : Site) : option (Site * list effect) :=
  let s := on_site_block (cx + cy * 100) (Area.set_fg 3726) s in
  let prize := storage_prize c5 explo r1 in
  let quest := if prize =? 3750 then [EQuest "Get a Ghost Charm from s Spirit Storage explosion"] else [] in
  '(s, es) ← Drop items peers now (mkWorldDrop prize 1 (around (cx * 32) r2) (around (cy * 32) r3) 0) (-1) false s;
  it ← get_item items prize;
  let show k := (ETo k <$> Messages.OnConsoleMessage
      (cat ["`#[A `9Spirit Storage Unit`` exploded, bringing forth an `9"; Items.name it;
            "`` from The Other Side!]``"]) false 0) ++
      [EBang k (i32 (cx * 32 + 16)) (i32 (cy * 32 + 16)) 97 3724;
       EBang k (i32 (cx * 32 + 16)) (i32 (cy * 32 + 16)) 108 0] in
  Some (on_site_block (cx + cy * 100) (set_c 0) s, quest ++ (EDrops <$> es) ++ to_site s show).

(** Steam reaches the storage: it takes the first spirits that lie on it.
    The chance, a [float], is compared with [r0 % 100]; it is exact below
    2^24. *)
Definition fill_storage (r0 r1 r2 r3 cx cy : Z) (s : Site) : option (Site * list effect) :=
  '(s, es, scenario) ←
    match list_find (λ e, spirit_at cx cy e = true) (floor s) with
    | None => Some (s, [], 20)
    | Some (k, e) =>
        let explo := u32 (e_count e) in
        let burn := to_site s (λ p, [EBurn p (e_uid e)]) in
        let s := erase_at k s in
        b ← block_at (land s) (cx + cy * 100);
        let c := i32 (c_ b + explo) in
        let s := on_site_block (cx + cy * 100) (set_c c) s in
        let c5 := i32 (c * 5) in
        if 105 <=? c5 then
          '(s, es, scenario) ←
            (if 2 * Z.rem r0 100 <? c5 - 100 then
               '(s, es) ← explode r1 r2 r3 explo cx cy c5 s; Some (s, es, 22)
             else Some (s, [], 20));
          Some (s, burn ++ es ++ to_site s (λ p, [EVisual p cx cy]), scenario)
        else Some (s, burn, 20)
    end;
  Some (s, es ++ to_site s (λ p, [ESteam p cx cy scenario])).

Definition toggle_open (f : Z) : Z :=
  if HasFlag f TILEFLAG_OPEN then Z.lxor f TILEFLAG_OPEN else Z.lor f TILEFLAG_OPEN.

Definition steam_door (netID_ cx cy : Z) (s : Site) : Site * list effect :=
  let i := cx + cy * 100 in
  let s := set_flags (λ j, if j =? i then toggle_open (flags s i) else flags s j) s in
  (s, to_site s (λ k, (ETo k <$> Messages.Positioned netID_ "audio/hiss3.wav" 100) ++ [EVisual k cx cy])).

(** A player steps on a funnel at [(punchX, punchY)]. *)
Definition steam_funnel (scanned : gset Z) (r0 r1 r2 r3 netID_ punchX punchY : Z) (s : Site)
    : option (Site * list effect) :=
  p ← track_steam scanned punchX punchY s;
  '(s, es) ←
    match p with
    | Some (cx, cy) =>
        if (0 <=? cx) && (0 <=? cy) then
          b ← block_at (land s) (cx + cy * 100);
          if fg b =? 3286 then Some (steam_door netID_ cx cy s)
          else if fg b =? 3724 then fill_storage r0 r1 r2 r3 cx cy s
          else Some (s, [])
        else Some (s, [])
    | None => Some (s, [])
    end;
  Some (s, es ++ to_site s (λ k, [ESteam k punchX punchY 0])).

End Reach.

End Reach.
