(* ===== verification/ReachFacts.v ===== *)
(** * ReachFacts: what is proved about ways

    The search for a way decides whether there is one ([path_found]); the
    check of moves for ways through walls never refuses a move
    ([move_from_anywhere]); steam comes out at a connector that its tunnels
    lead to ([steam_connected]); and a storage of spirits never holds much
    ([storage_stays_low]). *)
From S2P Require Import Prelude Items Packet Tank World Guild Inventory InventoryFacts.
From S2P Require Import Messages Access Area AreaFacts Drops DropsFacts Reach.
Import Items World Inventory InventoryFacts Access Drops DropsFacts Reach.

Module ReachFacts.

(** ** Searches *)

Section Seek.
Context (next : Z -> list Z) (enter : Z -> Z -> option bool) (goal : Z -> option bool).

(** One step of a way. *)
Definition goes (n m : Z) : Prop := m ∈ next n /\ enter n m = Some true.

Definition way (a b : Z) : Prop := rtc goes a b.

Lemma seek_sound fuel : forall queue scanned,
  seek next enter goal fuel queue scanned = Some false ->
  exists q n, q ∈ queue /\ way q n /\ goal n = Some true.
Proof.
  induction fuel as [|fuel IH]; intros queue scanned; cbn [seek]; [done|].
  destruct queue as [|n queue]; [done|].
  destruct (goal n) as [[|]|] eqn:Eg; cbn [mbind option_bind]; [|..|done].
  { intros _. exists n, n. split_and!; [left|apply rtc_refl|done]. }
  destruct (Area.visit (enter n) (next n) scanned) as [[new seen]|] eqn:Ev; cbn [mbind option_bind]; [|done].
  intros H. destruct (IH _ _ H) as (q & k & Hq & Hw & Hk).
  destruct (AreaFacts.visit_spec _ _ _ _ _ Ev) as (_ & _ & Hin & _).
  apply elem_of_app in Hq as [Hq|Hq]; [by exists q, k; split_and!; [right|..]|].
  exists n, k. split_and!; [left| |done]. eapply rtc_l; [|exact Hw]. by destruct (Hin q Hq) as (? & _ & ?).
Qed.

(** [D] are the tiles that are done. *)
Lemma seek_complete fuel : forall queue scanned (D : Z -> Prop),
  seek next enter goal fuel queue scanned = Some true ->
  (forall d, D d -> goal d = Some false) ->
  (forall d m, D d -> goes d m -> D m \/ m ∈ queue) ->
  (forall m, m ∈ scanned -> D m \/ m ∈ queue) ->
  forall q n, D q \/ q ∈ queue -> way q n -> goal n = Some false.
Proof.
  induction fuel as [|fuel IH]; intros queue scanned D; cbn [seek]; [done|].
  destruct queue as [|k queue].
  - intros _ Hg Hc _ q n Hq Hw. apply Hg. destruct Hq as [Hq|Hq%elem_of_nil]; [|done].
    induction Hw as [q|q m n Hs _ IHw]; [done|]. apply IHw. by destruct (Hc q m Hq Hs) as [?|?%elem_of_nil].
  - destruct (goal k) as [[|]|] eqn:Eg; cbn [mbind option_bind]; [done| |done].
    destruct (Area.visit (enter k) (next k) scanned) as [[new seen]|] eqn:Ev; cbn [mbind option_bind]; [|done].
    intros H Hg Hc Hs q n Hq Hw. destruct (AreaFacts.visit_spec _ _ _ _ _ Ev) as (-> & _ & Hin & Hall).
    assert (forall m, m ∈ list_to_set new ∪ scanned -> (D m \/ m = k) \/ m ∈ queue ++ new) as Hseen.
    { intros m [Hm%elem_of_list_to_set|Hm]%elem_of_union; [right; set_solver|]. apply Hs in Hm. set_solver. }
    eapply (IH _ _ (λ d, D d \/ d = k) H) with q; [..|exact Hw].
    + intros d [Hd| ->]; auto.
    + intros d m [Hd| ->] Hdm.
      * destruct (Hc d m Hd Hdm) as [?|Hm]; [by left; left|]. set_solver.
      * destruct Hdm as [H1 H2]. apply Hseen. by apply Hall.
    + exact Hseen.
    + set_solver.
Qed.

(** A search ends within as many steps as there are tiles. *)
Lemma seek_total (U : gset Z) fuel : forall queue scanned,
  (forall n, n ∈ queue \/ n ∈ U -> is_Some (goal n) /\ forall m, m ∈ next n -> is_Some (enter n m)) ->
  (forall n m, enter n m = Some true -> m ∈ U) ->
  (length queue + base.size (U ∖ scanned) < fuel)%nat ->
  is_Some (seek next enter goal fuel queue scanned).
Proof.
  induction fuel as [|fuel IH]; intros queue scanned Hdef HU Hf; [lia|]. cbn [seek].
  destruct queue as [|n queue]; [by eexists|].
  destruct (Hdef n ltac:(left; left)) as [[g ->] He]. cbn [mbind option_bind]. destruct g; [by eexists|].
  destruct (AreaFacts.visit_some (enter n) (next n) scanned He) as [[new seen] Ev]. rewrite Ev.
  cbn [mbind option_bind]. pose proof (AreaFacts.visit_count _ _ U _ _ _ Ev (λ m _, HU n m)) as Hs.
  destruct (AreaFacts.visit_spec _ _ _ _ _ Ev) as (_ & _ & Hin & _).
  apply IH; [|done|].
  - intros m Hm. apply Hdef. destruct Hm as [[Hm|Hm]%elem_of_app|Hm]; [left; by right| |by right].
    right. apply (HU n). by apply Hin.
  - rewrite length_app. cbn [length] in Hf. lia.
Qed.

(** The search from one tile. *)
Lemma seek_spec fuel start scanned r :
  scanned ⊆ {[start]} -> seek next enter goal fuel [start] scanned = Some r ->
  (r = false <-> exists n, way start n /\ goal n = Some true).
Proof.
  intros Hs H. split.
  - intros ->. destruct (seek_sound _ _ _ H) as (q & n & ->%list_elem_of_singleton & Hw & Hn). eauto.
  - intros (n & Hw & Hn). destruct r; [|done]. exfalso.
    assert (goal n = Some false); [|congruence].
    apply (seek_complete _ _ _ (λ _, False) H) with start; [done|done|set_solver| |done]. right. left.
Qed.

End Seek.

(** ** Ways of players *)

Section Ways.
Context (items : table) (more : Z -> ItemMore) (extra : Z -> BlockMore) (gs : list Guild.Guild).

(** Blocks are numbers of items. *)
Definition known (s : Site) : Prop :=
  forall i b, block_at (land s) i = Some b -> 0 <= fg b < size items.

Lemma tile_some s i : known s -> Area.inside (land s) i = true -> is_Some (tile items s i).
Proof.
  intros Hk [b Hb]%AreaFacts.block_at_inside. unfold tile. rewrite Hb. cbn [mbind option_bind].
  specialize (Hk _ _ Hb). unfold get_item. replace ((0 <=? fg b) && (fg b <? size items)) with true by lia. by eexists.
Qed.

Lemma tile_inside s i t : tile items s i = Some t -> Area.inside (land s) i = true.
Proof.
  unfold tile. intros H. apply AreaFacts.block_at_inside. destruct (block_at _ _); [by eexists|done].
Qed.

Lemma first_tiles_some adm v s start : known s -> Area.inside (land s) start = true ->
  exists l, first_tiles items more extra gs adm v s start = Some l /\ (l = [] \/ l = [start]).
Proof.
  intros Hk Hi. unfold first_tiles. destruct (tile_some s start Hk Hi) as [[b it] ->]. cbn [mbind option_bind].
  eexists. split; [done|]. destruct (_ && _); auto.
Qed.

Lemma at_goal_spec s target n : at_goal items more s target n = Some true <->
  n = target /\ exists b it, tile items s n = Some (b, it) /\ solid more b = false.
Proof.
  unfold at_goal. destruct (tile items s n) as [[b it]|]; cbn [mbind option_bind].
  - split; [|by intros (-> & b' & it' & [= <- <-] & ->); rewrite Z.eqb_refl].
    intros [= [->%Z.eqb_eq Hs%negb_true_iff]%andb_true_iff]. eauto.
  - split; [done|]. by intros (_ & ? & ? & ? & _).
Qed.

Lemma at_goal_some s target n : known s -> Area.inside (land s) n = true ->
  is_Some (at_goal items more s target n).
Proof. intros Hk Hi. unfold at_goal. destruct (tile_some s n Hk Hi) as [[b it] ->]. by eexists. Qed.

Lemma path_enter_some v s n m : known s -> AreaFacts.regular (land s) -> Area.inside (land s) n = true ->
  m ∈ Area.around (land s) n -> is_Some (path_enter items more extra gs v s n m).
Proof.
  intros Hk Hr Hn Hm. pose proof (AreaFacts.around_inside _ _ _ Hr Hn Hm) as Hi.
  destruct (tile_some s m Hk Hi) as [[b it] Et]. unfold path_enter.
  assert (is_Some (path_open items more s n m)) as [[|] ->]; [|rewrite Et; by eexists|by eexists].
  unfold path_open. rewrite Et. cbn [mbind option_bind]. destruct (negb _); [by eexists|].
  destruct (Z.eqb_spec m (n - 100)) as [->|]; [|by eexists].
  destruct (tile_some s (n - 99) Hk) as [[b2 it2] ->]; [|by eexists]. unfold Area.inside in *. lia.
Qed.

Lemma path_enter_inside v s n m : path_enter items more extra gs v s n m = Some true ->
  m ∈ AreaFacts.all_numbers (land s).
Proof.
  unfold path_enter. destruct (path_open _ _ _ _ _) as [[|]|]; cbn [mbind option_bind]; [|done..].
  destruct (tile items s m) eqn:E; [|done]. intros _. by eapply AreaFacts.all_numbers_inside, tile_inside.
Qed.

(** The player stands at a place where players can be. *)
Definition stands_at (v : Visitor) (s : Site) (start : Z) : Prop :=
  first_tiles items more extra gs (to_lower (name_of v)) v s start = Some [start].

Definition clear_tile (s : Site) (n : Z) : Prop := exists b it, tile items s n = Some (b, it) /\ solid more b = false.

(** C7: [patchPath] decides whether there is a way. In a world of blocks
    that are items, for a player anywhere in it and a block that is not the
    one that is always near, it ends and reads nothing outside; and it says
    that the way is free exactly when the player stands at a place where
    players can be, a sequence of steps that the player may take leads to
    the block, and the block is not solid. *)
Theorem path_found x y target v s b :
  AreaFacts.regular (land s) -> known s -> 0 <= x < 3200 -> 0 <= y < max_y (land s) * 32 ->
  block_at (land s) target = Some b -> fg b <> 8676 ->
  let start := Z.quot x 32 + Z.quot y 32 * 100 in
  exists r, patchPath items more extra gs ∅ x y target v s = Some r /\
    (r = false <-> stands_at v s start /\
      way (Area.around (land s)) (path_enter items more extra gs v s) start target /\ clear_tile s target).
Proof.
  intros Hr Hk Hx Hy Hb H8676 start. pose proof Hr as (Emx & Hmy & Esz).
  assert (Area.inside (land s) target = true) as Hti by (apply AreaFacts.block_at_inside; by eexists).
  assert (Area.inside (land s) start = true) as Hsi.
  { unfold Area.inside, start. rewrite Esz, !Z.quot_div_nonneg by lia. Z.div_mod_to_equations; lia. }
  unfold patchPath. rewrite Emx.
  replace ((x <? 0) || (100 * 32 <=? x) || (y <? 0) || (max_y (land s) * 32 <=? y) || (target <? 0) ||
           (Area.size_of (land s) <? target)) with false by (unfold Area.inside in Hti; lia).
  rewrite Hb. cbn [mbind option_bind]. rewrite (proj2 (Z.eqb_neq _ _) H8676). fold start.
  destruct (first_tiles_some (to_lower (name_of v)) v s start Hk Hsi) as (l & El & Hl). rewrite El.
  cbn [mbind option_bind]. rewrite (proj2 (Z.ltb_ge _ _)) by lia. unfold stands_at. rewrite El.
  destruct Hl as [-> | ->].
  { eexists. split; [done|]. split; [done|]. by intros ([=] & _). }
  destruct (seek_total (Area.around (land s)) (path_enter items more extra gs v s) (at_goal items more s target)
    (AreaFacts.all_numbers (land s)) (Area.walk_fuel (land s)) [start] ∅) as [r Er].
  - intros n Hn. assert (Area.inside (land s) n = true) as Hi.
    { destruct Hn as [->%list_elem_of_singleton|Hn]; [done|]. by apply AreaFacts.all_numbers_inside. }
    split; [by apply at_goal_some|]. intros m. by apply path_enter_some.
  - apply path_enter_inside.
  - pose proof (AreaFacts.all_numbers_size (land s)).
    assert (base.size (AreaFacts.all_numbers (land s) ∖ ∅) <= base.size (AreaFacts.all_numbers (land s)))%nat
      by (apply subseteq_size; set_solver).
    unfold Area.walk_fuel. cbn [length]. lia.
  - exists r. split; [exact Er|]. rewrite (seek_spec _ _ _ _ _ _ _ (empty_subseteq _) Er).
    setoid_rewrite at_goal_spec. unfold clear_tile. naive_solver.
Qed.

(** ** Moves *)

(** The bound that [patchNoClip] compares with is larger than every world. *)
Lemma noclip_bound n : 100 <= n -> n - 1 < n / (n / 100) + n / 100 * 100.
Proof.
  intros H. assert (1 <= n / 100) by (apply Z.div_le_lower_bound; lia).
  assert (100 <= n / (n / 100)).
  { apply Z.div_le_lower_bound; [lia|]. pose proof (Z.mul_div_le n 100 ltac:(lia)). lia. }
  pose proof (Z.div_mod n 100 ltac:(lia)). pose proof (Z.mod_pos_bound n 100 ltac:(lia)). lia.
Qed.

Lemma noclip_never x y target v s : known s -> 100 <= Area.size_of (land s) ->
  patchNoClip items more extra gs x y target v s = Some false.
Proof.
  intros Hk Hsz. unfold patchNoClip. destruct (_ || _) eqn:Ei; [done|].
  destruct (first_tiles_some (name_of v) v s (Z.quot x 32 + Z.quot y 32 * 100) Hk) as (l & -> & _).
  { unfold Area.inside. lia. }
  cbn [mbind option_bind]. rewrite (proj2 (Z.ltb_ge _ 100)) by lia.
  by rewrite (proj2 (Z.ltb_lt (Area.size_of (land s) - 1) _) (noclip_bound _ Hsz)).
Qed.

Lemma corners_free v g s c l : any_obstacle items more extra v g s (c :: l) = Some false ->
  all_obstacles items more extra v g s (c :: l) = Some false.
Proof.
  destruct c as [x y]. cbn [any_obstacle all_obstacles].
  destruct (IsObstacle _ _ _ _ _ _ _ _) as [[|]|]; by cbn [mbind option_bind].
Qed.

(** C29: A move is judged by its end alone. In a world of at least 100 blocks
    that are items, a player who is somewhere may move to any place whose
    block is not solid and whose corners meet no obstacle: neither where the
    player comes from nor the walls in between matter, since the search that
    should find a way ([patchNoClip]) gives up before it starts. *)
Theorem move_from_anywhere c_x c_y m s t c l :
  known s -> 100 <= Area.size_of (land s) -> corners m = c :: l -> (px t <> 0 \/ py t <> 0) ->
  check_move items more extra gs c_x c_y m s t = Some None <->
  (ghost t = true \/ (outside m = false /\ clear_tile s (to_block m))) /\
  any_obstacle items more extra (visitor t) (ghost t) s (corners m) = Some false.
Proof.
  intros Hk Hsz Hc Ht. unfold check_move, refused_early, clear_tile. rewrite noclip_never by done.
  assert ((px t =? 0) && (py t =? 0) = false) as -> by lia. rewrite orb_false_r.
  pose proof (corners_free (visitor t) (ghost t) s c l) as Hfree. rewrite <- Hc in Hfree.
  assert (forall o : option bool,
    (all ← all_obstacles items more extra (visitor t) (ghost t) s (corners m);
     if all : bool then Some (Some (to_door s))
     else any ← any_obstacle items more extra (visitor t) (ghost t) s (corners m);
          Some (if any : bool then Some (to_door s) else None)) = Some None <->
    any_obstacle items more extra (visitor t) (ghost t) s (corners m) = Some false) as Hcorners.
  { intros _. split.
    - destruct (all_obstacles _ _ _ _ _ _ _) as [[|]|]; cbn [mbind option_bind]; [done| |done].
      by destruct (any_obstacle _ _ _ _ _ _ _) as [[|]|].
    - intros H. rewrite (Hfree H), H. done. }
  specialize (Hcorners None).
  destruct (ghost t); cbn [mbind option_bind]; [rewrite Hcorners; naive_solver|].
  destruct (outside m); cbn [mbind option_bind]; [naive_solver|].
  destruct (tile items s (to_block m)) as [[b it]|]; cbn [mbind option_bind]; [|naive_solver].
  destruct (solid more b) eqn:Es; cbn [mbind option_bind].
  { split; [done|]. intros [[|(_ & b' & it' & [= <- <-] & ?)] _]; congruence. }
  assert (exists b' it', Some (b, it) = Some (b', it') /\ solid more b' = false) as Hclear by eauto.
  destruct (_ && _); cbn [mbind option_bind]; rewrite Hcorners; tauto.
Qed.

End Ways.

(** ** Steam *)

Section Steam.
Context (s : Site).

Definition connector_at (p : Z * Z) : Prop :=
  exists b, block_at (land s) (p.1 + p.2 * 100) = Some b /\ connector (fg b) = true.

(** [n] is the block [start], or tunnels lead there. *)
Definition piped (start n : Z) : Prop :=
  way (Area.around (land s)) (λ _, steam_block s tunnel) start n.

(** The first search reads behind the last block at two corners. *)
Definition dry (start : Z) : Prop :=
  forall n, n = start \/ steam_block s tunnel n = Some true ->
    n <> Area.size_of (land s) - 1 /\ n <> Area.size_of (land s) - 100.

Lemma steam_block_true P i : steam_block s P i = Some true <->
  exists b, block_at (land s) i = Some b /\ P (fg b) = true.
Proof.
  unfold steam_block. split.
  - destruct (_ && _); [|done]. destruct (block_at _ _) as [b|]; cbn [mbind option_bind]; [|done].
    intros [= H]. eauto.
  - intros (b & Hb & H). assert (Area.inside (land s) i = true) as Hi by (apply AreaFacts.block_at_inside; by eexists).
    replace ((0 <=? i) && (i <=? Area.size_of (land s))) with true by (unfold Area.inside in Hi; lia).
    rewrite Hb. cbn [mbind option_bind]. by rewrite H.
Qed.

Lemma steam_block_some P i : i <> Area.size_of (land s) -> is_Some (steam_block s P i).
Proof.
  intros Hi. unfold steam_block. destruct (_ && _) eqn:E; [|by eexists].
  destruct (proj2 (AreaFacts.block_at_inside (land s) i)) as [b ->]; [|by eexists]. unfold Area.inside. lia.
Qed.

Lemma steam_end_spec l : (forall p, p ∈ l -> p.1 + p.2 * 100 <> Area.size_of (land s)) ->
  exists r, steam_end s l = Some r /\
    match r with Some p => p ∈ l /\ connector_at p | None => forall p, p ∈ l -> ~ connector_at p end.
Proof.
  induction l as [|[x y] l IH]; intros Hl; cbn [steam_end]; [eexists; split; [done|]; by intros p ?%elem_of_nil|].
  destruct (steam_block_some connector (x + y * 100)) as [c Ec]; [apply (Hl (x, y)); left|]. rewrite Ec.
  cbn [mbind option_bind]. destruct c.
  - eexists. split; [done|]. split; [left|]. by apply steam_block_true in Ec.
  - destruct IH as (r & -> & Hr); [intros; apply Hl; by right|]. eexists. split; [done|].
    destruct r as [p|]; [split; [right|]; apply Hr|].
    intros p [->|Hp]%elem_of_cons Hc; [|by apply (Hr p)].
    apply (steam_block_true connector (x + y * 100)) in Hc. congruence.
Qed.

(** The places around a block, as numbers. *)
Lemma ends_number n p : p ∈ ends n -> p.1 + p.2 * 100 ∈ [n; n + 1; n - 1; n + 100; n - 100].
Proof.
  pose proof (AreaFacts.number_split n) as E. unfold ends, Area.number in *. cbv zeta.
  intros Hp. repeat (apply elem_of_cons in Hp as [-> | Hp]; [cbn [fst snd]; set_unfold; lia|]).
  by apply elem_of_nil in Hp.
Qed.

Lemma end_total start n : Area.inside (land s) n = true -> dry start ->
  n = start \/ steam_block s tunnel n = Some true ->
  forall p, p ∈ ends n -> p.1 + p.2 * 100 <> Area.size_of (land s).
Proof.
  intros Hi Hd Hn p Hp%ends_number. destruct (Hd n Hn). unfold Area.inside in Hi. set_unfold. lia.
Qed.

(** The search is the one for ways, with the found place as its result. *)
Definition at_end (n : Z) : option bool := r ← steam_end s (ends n); Some (bool_decide (is_Some r)).

Lemma steam_seek fuel : forall queue scanned,
  seek (Area.around (land s)) (λ _, steam_block s tunnel) at_end fuel queue scanned =
  (λ r, negb (bool_decide (is_Some r))) <$> steam_search fuel s queue scanned.
Proof.
  induction fuel as [|fuel IH]; intros queue scanned; cbn [seek steam_search]; [done|].
  destruct queue as [|n queue]; [done|].
  change (at_end n) with (r ← steam_end s (ends n); Some (bool_decide (is_Some r))).
  destruct (steam_end s (ends n)) as [[p|]|]; cbn [mbind option_bind]; [|..|done].
  - by rewrite bool_decide_eq_true_2 by by eexists.
  - rewrite bool_decide_eq_false_2 by by intros [? ?].
    destruct (Area.visit _ _ _) as [[new seen]|]; cbn [mbind option_bind]; [apply IH|done].
Qed.

Lemma steam_found fuel : forall queue scanned p, steam_search fuel s queue scanned = Some (Some p) ->
  exists q n, q ∈ queue /\ piped q n /\ steam_end s (ends n) = Some (Some p).
Proof.
  induction fuel as [|fuel IH]; intros queue scanned p; cbn [steam_search]; [done|].
  destruct queue as [|n queue]; [done|]. destruct (steam_end s (ends n)) as [[p'|]|] eqn:Ee;
    cbn [mbind option_bind]; [|..|done].
  { intros [= ->]. exists n, n. split_and!; [left|apply rtc_refl|done]. }
  destruct (Area.visit _ _ _) as [[new seen]|] eqn:Ev; cbn [mbind option_bind]; [|done].
  intros H. destruct (IH _ _ _ H) as (q & k & Hq & Hw & Hk).
  destruct (AreaFacts.visit_spec _ _ _ _ _ Ev) as (_ & _ & Hin & _).
  apply elem_of_app in Hq as [Hq|Hq]; [by exists q, k; split_and!; [right|..]|].
  exists n, k. split_and!; [left| |done]. eapply rtc_l; [|exact Hw]. by destruct (Hin q Hq) as (? & _ & ?).
Qed.

Lemma piped_inside start n : AreaFacts.regular (land s) -> Area.inside (land s) start = true -> piped start n ->
  Area.inside (land s) n = true /\ (n = start \/ steam_block s tunnel n = Some true).
Proof.
  intros Hr Hi Hw. assert (forall a, way (Area.around (land s)) (λ _, steam_block s tunnel) a n ->
    Area.inside (land s) a = true -> a = start \/ steam_block s tunnel a = Some true ->
    Area.inside (land s) n = true /\ (n = start \/ steam_block s tunnel n = Some true)) as H; [|by eapply H; eauto].
  clear Hw. induction 1 as [a|a b c [Hab Ht] _ IH]; [done|]. intros Ha _.
  apply IH; [by eapply AreaFacts.around_inside|by right].
Qed.

(** C24: Steam comes out at a connector that its tunnels lead to. For a funnel
    in the world, the search ends; the place it finds holds a connector and
    is at, or next to, a tunnel that is connected with the funnel, and where
    it finds none there is none. It must not reach the last block, or the
    first one of the last row: there the code reads behind the blocks. *)
Theorem steam_connected x y :
  AreaFacts.regular (land s) -> Area.inside (land s) (x + y * 100) = true -> dry (x + y * 100) ->
  exists r, track_steam ∅ x y s = Some r /\
    match r with
    | Some p => exists n, piped (x + y * 100) n /\ p ∈ ends n /\ connector_at p
    | None => forall n p, piped (x + y * 100) n -> p ∈ ends n -> ~ connector_at p
    end.
Proof.
  intros Hr Hi Hd. pose proof Hr as (_ & Hmy & Esz). set (start := x + y * 100) in *. unfold track_steam.
  rewrite (proj2 (Z.ltb_ge _ _)) by lia.
  assert (forall n, Area.inside (land s) n = true -> n = start \/ steam_block s tunnel n = Some true ->
    is_Some (at_end n)) as Hend.
  { intros n Hn Ht. unfold at_end. destruct (steam_end_spec (ends n)) as (r & -> & _); [by eapply end_total|].
    by eexists. }
  set (U := filter (λ n, steam_block s tunnel n = Some true) (AreaFacts.all_numbers (land s))).
  destruct (seek_total (Area.around (land s)) (λ _, steam_block s tunnel) at_end U (Area.walk_fuel (land s)) [start] ∅)
    as [r Er].
  - intros n Hn. assert (Area.inside (land s) n = true /\ (n = start \/ steam_block s tunnel n = Some true)) as [Hin Ht].
    { destruct Hn as [->%list_elem_of_singleton|[Hn ?%AreaFacts.all_numbers_inside]%elem_of_filter]; auto. }
    split; [by apply Hend|]. intros m Hm. apply steam_block_some.
    pose proof (AreaFacts.around_inside _ _ _ Hr Hin Hm) as Hmi. unfold Area.inside in Hmi. lia.
  - intros _ m Hm. apply elem_of_filter. split; [done|]. apply AreaFacts.all_numbers_inside, AreaFacts.block_at_inside.
    apply steam_block_true in Hm as (b & -> & _). by eexists.
  - pose proof (AreaFacts.all_numbers_size (land s)).
    assert (base.size (U ∖ ∅) <= base.size (AreaFacts.all_numbers (land s)))%nat
      by (apply subseteq_size; subst U; set_solver).
    unfold Area.walk_fuel. cbn [length]. lia.
  - rewrite steam_seek in Er. destruct (steam_search _ _ _ _) as [o|] eqn:Es; [|done]. exists o. split; [done|].
    destruct o as [p|].
    + destruct (steam_found _ _ _ _ Es) as (q & n & ->%list_elem_of_singleton & Hw & He). exists n. split; [done|].
      destruct (piped_inside _ _ Hr Hi Hw) as [Hn Ht].
      destruct (steam_end_spec (ends n)) as (o & Eo & Ho); [by eapply end_total|]. by simplify_eq.
    + intros n p Hw Hp Hc. destruct (piped_inside _ _ Hr Hi Hw) as [Hn Ht].
      assert (seek (Area.around (land s)) (λ _, steam_block s tunnel) at_end (Area.walk_fuel (land s)) [start] ∅
        = Some true) as Et by (by rewrite steam_seek, Es).
      pose proof (seek_spec _ _ _ _ _ _ _ (empty_subseteq _) Et) as [_ H].
      enough (true = false) by done. apply H. exists n. split; [exact Hw|]. unfold at_end.
      destruct (steam_end_spec (ends n)) as (o & -> & Ho); [by eapply end_total|]. cbn [mbind option_bind].
      destruct o; [by rewrite bool_decide_eq_true_2 by by eexists|]. by destruct (Ho p Hp).
Qed.

End Steam.

(** ** The storage of spirits *)

Lemma pick_in l r : 0 <= r -> l <> [] -> pick l r ∈ l.
Proof.
  intros Hr Hl. apply list_elem_of_In. unfold pick. apply nth_In.
  assert (0 < Z.of_nat (length l)) as Hlen by (destruct l; [done|cbn; lia]).
  pose proof (Z.rem_bound_pos r (Z.of_nat (length l)) Hr Hlen). lia.
Qed.

Lemma pick_sub l l' r : 0 <= r -> l <> [] -> l ⊆ l' -> pick l r ∈ l'.
Proof. intros Hr Hl Hs. by apply Hs, pick_in. Qed.

(** Every explosion brings one of the prizes. *)
Lemma prize_listed c5 explo r : 0 <= r -> storage_prize c5 explo r ∈ all_p.
Proof.
  intros Hr. assert (forall z, existsb (Z.eqb z) all_p = true -> z ∈ all_p) as Hin.
  { intros z (u & Hu & ->%Z.eqb_eq)%existsb_exists. by apply list_elem_of_In. }
  unfold storage_prize. repeat case_match; try (by apply Hin); (apply pick_sub; [done|done|]);
    try done; cbn [app]; intros z Hz; apply Hin; set_unfold in Hz; repeat (destruct Hz as [->|Hz]; [reflexivity|]); done.
Qed.

Lemma prize_range c5 explo r : 0 <= r ->
  0 < storage_prize c5 explo r < 13021 /\ storage_prize c5 explo r <> 112.
Proof.
  intros Hr. pose proof (prize_listed c5 explo r Hr) as H. revert H. generalize (storage_prize c5 explo r) as z.
  apply (list.Forall_forall (λ z, 0 < z < 13021 /\ z <> 112)). repeat constructor; done.
Qed.

Section Storage.
Context (items : table) (peers : list string) (now : Z).

(** A storage of spirits that did not explode holds less than 60, if its
    block is one of [P]. *)
Definition storages_low (P : Z -> Prop) (w : World) : Prop :=
  forall j b, P j -> block_at w j = Some b -> fg b = 3724 -> 0 <= c_ b < 60.

Definition funnel_but (P : Z -> Prop) (s : Site) : Prop :=
  AreaFacts.regular (land s) /\ max_y (land s) < 2 ^ 20 /\ ground_ok items s /\ storages_low P (land s).

Definition funnel_ok (s : Site) : Prop := funnel_but (λ _, True) s.

Lemma funnel_but_one i s : funnel_ok s -> funnel_but (λ j, j <> i) s.
Proof. intros (H1 & H2 & H3 & H4). split_and!; try done. intros j b _. by apply H4. Qed.

Lemma ground_on_block i f s : 0 <= i -> ground_ok items s -> ground_ok items (on_site_block i f s).
Proof.
  intros Hi H. eapply list.Forall_impl; [exact H|]. intros e (H1 & H2 & H3 & [b Hb]). split_and!; try done; try lia.
  unfold DropsFacts.inside. cbn [land on_site_block set_land]. rewrite AreaFacts.block_at_on_block by done.
  rewrite Hb. case_decide; by eexists.
Qed.

(** Changing the block [i]. *)
Lemma funnel_change i f (P : Z -> Prop) s : 0 <= i -> funnel_but (λ j, j <> i) s ->
  (forall b, P i -> block_at (land s) i = Some b -> fg (f b) = 3724 -> 0 <= c_ (f b) < 60) ->
  funnel_but P (on_site_block i f s).
Proof.
  intros Hi (Hr & Hm & Hg & Hl) Hf. pose proof (AreaFacts.alike_on_block i f (land s)) as Ha. split_and!.
  - by eapply AreaFacts.regular_alike.
  - destruct Ha as (_ & E & _). cbn [land on_site_block set_land]. by rewrite E.
  - by apply ground_on_block.
  - intros j b HP. cbn [land on_site_block set_land]. rewrite AreaFacts.block_at_on_block by done.
    case_decide; [|by apply Hl]. subst j. destruct (block_at _ _) as [b0|] eqn:E; [|done].
    intros [= <-]. by apply Hf.
Qed.

(** Dropping keeps the blocks. *)
Lemma funnel_same s s' : funnel_ok s -> ground_ok items s' -> same_blocks s s' ->
  max_x (land s') = max_x (land s) /\ max_y (land s') = max_y (land s) -> funnel_ok s'.
Proof.
  intros (Hr & Hm & Hg & Hl) Hg' Hb [Ex Ey].
  unfold funnel_ok, funnel_but, AreaFacts.regular, storages_low, Area.size_of, block_at, same_blocks in *.
  by rewrite Hb, Ex, Ey.
Qed.

(** Dropping keeps the size of the world. *)
Lemma Drop_size d net_id Flag s s' es : Drop items peers now d net_id Flag s = Some (s', es) ->
  max_x (land s') = max_x (land s) /\ max_y (land s') = max_y (land s).
Proof.
  unfold Drop. set (d1 := mkWorldDrop _ _ _ _ _). intros H.
  destruct (if d_id d1 =? 112 then _ else _) as [[d2 l] gone]. destruct (stackable _ _) as [st|]; [|done].
  cbn [mbind option_bind] in H. unfold stack_drop in H. set (s1 := set_floor l (fresh s)) in H.
  assert (max_x (land s1) = max_x (land s) /\ max_y (land s1) = max_y (land s)) as H1 by done.
  destruct st; [destruct (stack d2 (floor s1)) as [[[l2 rest] e]|]|]; cbn [fst snd] in H;
    destruct (_ =? 0) in H; injection H as <- <-; exact H1.
Qed.

Lemma Drop_funnel s id x y : funnel_ok s -> 0 < id < size items -> id <> 112 -> DropsFacts.inside (land s) x y ->
  exists s' es, Drop items peers now (mkWorldDrop id 1 x y 0) (-1) false s = Some (s', es) /\ funnel_ok s'
    /\ same_blocks s s'.
Proof.
  intros Hs Hi H112 Hin. pose proof Hs as (_ & _ & Hg & _).
  destruct (Drop_spec items peers now (mkWorldDrop id 1 x y 0) (-1) false s) as (s' & es & E & Hg' & Hb & _); try done.
  eexists _, _. split; [exact E|]. split; [|done]. eapply funnel_same; [exact Hs|done|done|].
  by eapply Drop_size.
Qed.

Lemma explode_spec r1 r2 r3 explo cx cy c5 s b :
  13021 <= size items -> 0 <= r1 -> 0 <= r2 -> 0 <= r3 -> funnel_but (λ j, j <> cx + cy * 100) s ->
  0 <= cx <= 100 -> 0 <= cy <= 2 ^ 20 ->
  block_at (land s) (cx + cy * 100) = Some b ->
  exists s' es, explode items peers now r1 r2 r3 explo cx cy c5 s = Some (s', es) /\ funnel_ok s'.
Proof.
  intros Hn H1 H2 H3 Hs Hx Hy Hb. unfold explode. destruct (prize_range c5 explo r1 H1) as [Hp H112].
  set (prize := storage_prize c5 explo r1) in *. set (s1 := on_site_block _ (Area.set_fg 3726) s).
  assert (funnel_ok s1) as Hs1 by (apply funnel_change; [lia|done|]; intros b0 _ _ E; discriminate E).
  assert (block_at (land s1) (cx + cy * 100) = Some (Area.set_fg 3726 b)) as Hb1.
  { unfold s1. cbn [land on_site_block set_land]. rewrite AreaFacts.block_at_on_block by lia.
    by rewrite decide_True, Hb. }
  pose proof (Z.rem_bound_pos r2 17 H2 ltac:(lia)). pose proof (Z.rem_bound_pos r3 17 H3 ltac:(lia)).
  destruct (Drop_funnel s1 prize (around (cx * 32) r2) (around (cy * 32) r3) Hs1 ltac:(lia) H112) as (s2 & es & E & Hs2 & Hsame).
  { unfold DropsFacts.inside, around. set (u := Z.rem r2 17) in *. set (v := Z.rem r3 17) in *. clearbody u v.
    rewrite !i32_small, !Z.quot_div_nonneg by lia.
    rewrite (Z.div_add_l cx 32 u), (Z.div_add_l cy 32 v), !Z.div_small, !Z.add_0_r, Hb1 by lia. by eexists. }
  rewrite E. cbn [mbind option_bind]. rewrite get_item_Some by lia. cbn [mbind option_bind].
  eexists _, _. split; [done|]. apply funnel_change; [lia|by apply funnel_but_one|].
  intros b2 _. unfold same_blocks, block_at in *. rewrite Hsame, Hb1. intros [= <-]. cbn. lia.
Qed.

Lemma fill_spec r0 r1 r2 r3 cx cy s b :
  13021 <= size items -> 0 <= r0 -> 0 <= r1 -> 0 <= r2 -> 0 <= r3 -> funnel_ok s ->
  0 <= cx <= 100 -> 0 <= cy <= 2 ^ 20 -> block_at (land s) (cx + cy * 100) = Some b -> fg b = 3724 ->
  exists s' es, fill_storage items peers now r0 r1 r2 r3 cx cy s = Some (s', es) /\ funnel_ok s'.
Proof.
  intros Hn H0 H1 H2 H3 Hs Hx Hy Hb Hfg. unfold fill_storage.
  destruct (list_find _ (floor s)) as [[k e]|] eqn:Ef; [|eexists _, _; by split].
  apply list_find_Some in Ef as (He & _ & _). pose proof Hs as (_ & _ & Hg & Hl).
  assert (entry_ok items (land s) e) as (_ & Hc & _) by (by eapply Forall_lookup_1 in He).
  pose proof (Hl _ _ I Hb Hfg) as Hcb. set (s1 := erase_at k s).
  assert (funnel_ok s1) as Hs1 by (eapply funnel_same; [exact Hs|by apply erase_ok|done|done]).
  change (block_at (land s1)) with (block_at (land s)). rewrite Hb. cbn [mbind option_bind].
  assert (u32 (e_count e) = e_count e) as -> by (unfold u32; rewrite Z.mod_small; lia).
  set (i := cx + cy * 100) in *. set (c := c_ b + e_count e) in *. rewrite (i32_small c) by lia.
  rewrite (i32_small (c * 5)) by lia. set (s2 := on_site_block i (set_c c) s1).
  assert (funnel_but (λ j, j <> i) s2) as Hs2
    by (apply funnel_change; [lia|by apply funnel_but_one|done]).
  assert (c < 60 -> funnel_ok s2) as Hlow.
  { intros Hc60. apply funnel_change; [lia|by apply funnel_but_one|]. intros b0 _ _ _. cbn. lia. }
  destruct (Z.leb_spec 105 (c * 5)); [|eexists _, _; split; [done|apply Hlow; lia]].
  pose proof (Z.rem_bound_pos r0 100 H0 ltac:(lia)).
  destruct (Z.ltb_spec (2 * Z.rem r0 100) (c * 5 - 100)); [|eexists _, _; split; [done|apply Hlow; lia]].
  assert (block_at (land s2) (cx + cy * 100) = Some (set_c c b)) as Hb2.
  { unfold s2. cbn [land on_site_block set_land]. rewrite AreaFacts.block_at_on_block by lia.
    rewrite decide_True by done. change (block_at (land s1)) with (block_at (land s)). fold i. by rewrite Hb. }
  destruct (explode_spec r1 r2 r3 (e_count e) cx cy (c * 5) s2 _ Hn H1 H2 H3 Hs2 Hx Hy Hb2) as (s3 & es & E & Hs3).
  rewrite E. eexists _, _. by split.
Qed.

(** C18: A storage of spirits never holds much. In a world of a sound ground
    whose storages hold less than 60, whatever the random numbers, a player
    on a funnel whose steam does not reach the corners of the last row gets
    an answer, and afterwards every storage holds less than 60 again: steam
    that brings one to more explodes it. *)
Theorem storage_stays_low r0 r1 r2 r3 netID_ x y s :
  13021 <= size items -> 0 <= r0 -> 0 <= r1 -> 0 <= r2 -> 0 <= r3 -> funnel_ok s ->
  Area.inside (land s) (x + y * 100) = true -> dry s (x + y * 100) ->
  exists s' es, steam_funnel items peers now ∅ r0 r1 r2 r3 netID_ x y s = Some (s', es) /\ funnel_ok s'.
Proof.
  intros Hn H0 H1 H2 H3 Hs Hi Hd. pose proof Hs as (Hr & Hm & _). unfold steam_funnel.
  destruct (steam_connected s x y Hr Hi Hd) as (r & -> & Hp). cbn [mbind option_bind].
  destruct r as [[cx cy]|]; [|eexists _, _; by split].
  destruct Hp as (n & Hw & Hends & b & Hb & Hc). cbn [fst snd] in Hb.
  destruct (_ && _) eqn:Epos; [|eexists _, _; by split].
  assert (0 <= cx <= 100 /\ 0 <= cy <= 2 ^ 20) as [Hx Hy].
  { destruct (piped_inside s _ _ Hr Hi Hw) as [Hin _]. destruct Hr as (_ & _ & Esz). unfold Area.inside in Hin.
    assert (0 <= n mod 100 < 100) by (apply Z.mod_pos_bound; lia).
    assert (n / 100 < max_y (land s)) by (apply Z.div_lt_upper_bound; lia).
    unfold ends in Hends. cbv zeta in Hends. set_unfold in Hends. naive_solver lia. }
  rewrite Hb. cbn [mbind option_bind]. destruct (Z.eqb_spec (fg b) 3286).
  { unfold steam_door. eexists _, _. by split. }
  destruct (Z.eqb_spec (fg b) 3724); [|eexists _, _; by split].
  destruct (fill_spec r0 r1 r2 r3 cx cy s b Hn H0 H1 H2 H3 Hs Hx Hy Hb) as (s' & es & E & Hs'); [done|].
  rewrite E. eexists _, _. by split.
Qed.

End Storage.

(** ** At work *)

Definition hall_more (id : Z) : ItemMore := mkItemMore (if id =? 2 then 1 else 0) false 1 0 0 "" 0 [] 0.
Definition hall_extra (_ : Z) : BlockMore := mkBlockMore false [].

Definition of_fg (f c : Z) : WorldBlock := mkBlock f 0 false (-1) "" [] false 0 0 0 c.

(** Three rows of blocks; [row] is the middle one, from the second block on. *)
Definition hall (row : list WorldBlock) (drops : list (list Z)) : Site :=
  mkSite (mkWorld "HALL" "" [] 0 0 100 3 0 false
      (replicate (Z.to_nat 101) block_default ++ row ++ replicate (Z.to_nat (199 - Z.of_nat (length row))) block_default)
      drops)
    0 [] (λ _, 0) false [] 0 0.

Lemma hall_regular row drops : (length row <= 199)%nat -> AreaFacts.regular (land (hall row drops)).
Proof.
  intros H. split_and!; [done|cbn; lia|]. unfold Area.size_of. cbn [land hall blocks max_y].
  rewrite !length_app, !length_replicate. lia.
Qed.

(** Every block of the hall is air or one of the row. *)
Lemma hall_block row drops i b : block_at (land (hall row drops)) i = Some b ->
  b = block_default \/ exists k, i = 101 + Z.of_nat k /\ row !! k = Some b.
Proof.
  intros [Hi H]%AreaFacts.block_at_some. cbn [land hall blocks] in H.
  apply lookup_app_Some in H as [[-> _]%lookup_replicate|[Hk H]]; [by left|].
  rewrite length_replicate in *. apply lookup_app_Some in H as [H|[_ [-> _]%lookup_replicate]]; [|by left].
  right. eexists. split; [|exact H]. lia.
Qed.

Lemma hall_known row drops : Forall (λ b, 0 <= fg b < 20300) row -> known sample_items (hall row drops).
Proof.
  intros H i b [->|(k & _ & Hk)]%hall_block; rewrite sample_items_size; [cbn; lia|].
  by eapply Forall_lookup_1 in H.
Qed.

Definition wall : WorldBlock := of_fg 2 0.
Definition walker : Visitor := Access.visitor "Ann" plain_roles.

(** A wall of one block is walked around; a closed place is not left. *)
Example around_the_wall :
  patchPath sample_items hall_more hall_extra [] ∅ 64 40 106 walker (hall [of_fg 0 0; of_fg 0 0; wall] []) = Some false.
Proof. vm_compute. reflexivity. Qed.

Definition cell : Site :=
  mkSite (mkWorld "CELL" "" [] 0 0 100 3 0 false
      (block_default :: wall :: replicate (Z.to_nat 98) block_default ++ wall :: replicate (Z.to_nat 199) block_default) [])
    0 [] (λ _, 0) false [] 0 0.

Example closed_in :
  patchPath sample_items hall_more hall_extra [] ∅ 8 8 106 walker cell = Some true.
Proof. vm_compute. reflexivity. Qed.

Lemma path_found_witness : exists r,
  patchPath sample_items hall_more hall_extra [] ∅ 64 40 106 walker (hall [of_fg 0 0; of_fg 0 0; wall] []) = Some r /\
  (r = false <-> stands_at sample_items hall_more hall_extra [] walker (hall [of_fg 0 0; of_fg 0 0; wall] []) 102 /\
    way (Area.around (land (hall [of_fg 0 0; of_fg 0 0; wall] [])))
      (path_enter sample_items hall_more hall_extra [] walker (hall [of_fg 0 0; of_fg 0 0; wall] [])) 102 106 /\
    clear_tile sample_items hall_more (hall [of_fg 0 0; of_fg 0 0; wall] []) 106).
Proof.
  apply (path_found sample_items hall_more hall_extra [] 64 40 106 walker (hall [of_fg 0 0; of_fg 0 0; wall] [])
    block_default).
  - apply hall_regular. cbn. lia.
  - apply hall_known. repeat constructor; cbn; lia.
  - lia.
  - cbn. lia.
  - reflexivity.
  - cbn. lia.
Defined.

(** Ann leaves her cell for the other end of the world. *)
Definition prisoner : Picker :=
  mkPicker walker (sample_player [] 0 false) (Messages.mkPlayer 0 0 0 [] 0 0 0 0 0 0 false "CELL" 7 0 0 false ∅)
    8 8 0 false false 0 0 0 false.
Definition escape : Move := mkMove false 2000 40 162 [(62, 1); (63, 1); (62, 2); (63, 2)].

Lemma cell_known : known sample_items cell.
Proof.
  intros i b [_ H]%AreaFacts.block_at_some. rewrite sample_items_size. cbn [land cell blocks] in H.
  destruct (Z.to_nat i) as [|[|k]]; [by injection H as <-|injection H as <-; cbn; lia|].
  change (replicate (Z.to_nat 98) block_default ++ wall :: replicate (Z.to_nat 199) block_default) with
    (replicate (Z.to_nat 98) block_default ++ [wall] ++ replicate (Z.to_nat 199) block_default) in H.
  cbn [lookup list_lookup] in H. apply lookup_app_Some in H as [[-> _]%lookup_replicate|[_ H]]; [cbn; lia|].
  apply lookup_app_Some in H as [H|[_ [-> _]%lookup_replicate]]; [|cbn; lia].
  apply list_lookup_singleton_Some in H as [_ <-]. cbn. lia.
Qed.

Lemma move_from_anywhere_witness :
  check_move sample_items hall_more hall_extra [] 0 0 escape cell prisoner = Some None <->
  (ghost prisoner = true \/ (outside escape = false /\ clear_tile sample_items hall_more cell (to_block escape))) /\
  any_obstacle sample_items hall_more hall_extra walker false cell (corners escape) = Some false.
Proof.
  apply (move_from_anywhere sample_items hall_more hall_extra [] 0 0 escape cell prisoner (62, 1)
    [(63, 1); (62, 2); (63, 2)]).
  - exact cell_known.
  - vm_compute. discriminate.
  - reflexivity.
  - left. cbn. lia.
Defined.

Example escaped : check_move sample_items hall_more hall_extra [] 0 0 escape cell prisoner = Some None.
Proof. vm_compute. reflexivity. Qed.

(** A funnel, two tunnels and a storage, with spirits on it. *)
Definition pipe : list WorldBlock := [of_fg 3270 0; of_fg 3260 0; of_fg 3260 0; of_fg 3724 10].
Definition spirits : list (list Z) := [[3722; 100; 1; 140; 40; 1000]].

Lemma pipe_dry drops : dry (hall pipe drops) 101.
Proof.
  assert (Area.size_of (land (hall pipe drops)) = 300) as Esz.
  { destruct (hall_regular pipe drops) as (_ & _ & ->); [cbn; lia|]. reflexivity. }
  intros n Hn. rewrite Esz. destruct Hn as [->|(b & Hb & Ht)%steam_block_true]; [lia|].
  apply hall_block in Hb as [->|(k & -> & Hk)]; [done|].
  apply lookup_lt_Some in Hk. cbn in Hk. lia.
Qed.

Lemma steam_connected_witness : exists r, track_steam ∅ 1 1 (hall pipe []) = Some r /\
  match r with
  | Some p => exists n, piped (hall pipe []) 101 n /\ p ∈ ends n /\ connector_at (hall pipe []) p
  | None => forall n p, piped (hall pipe []) 101 n -> p ∈ ends n -> ~ connector_at (hall pipe []) p
  end.
Proof.
  apply (steam_connected (hall pipe []) 1 1).
  - apply hall_regular. cbn. lia.
  - reflexivity.
  - apply pipe_dry.
Defined.

Example steam_out : track_steam ∅ 1 1 (hall pipe []) = Some (Some (4, 1)).
Proof. vm_compute. reflexivity. Qed.

Lemma pipe_ok : funnel_ok sample_items (hall pipe spirits).
Proof.
  split_and!; [apply hall_regular; cbn; lia|cbn; lia| |].
  - constructor; [|constructor]. unfold entry_ok. rewrite sample_items_size.
    split_and!; [cbn; lia..|]. by eexists.
  - intros j b _ [->|(k & _ & Hk)]%hall_block; [done|].
    assert (b ∈ pipe) as Hb by by eapply list_elem_of_lookup_2. unfold pipe in Hb. set_unfold in Hb.
    destruct Hb as [->|[->|[->|[->|[]]]]]; cbn; lia.
Qed.

Lemma storage_stays_low_witness : exists s' es,
  steam_funnel sample_items ["HALL"] 1000 ∅ 0 1 2 3 7 1 1 (hall pipe spirits) = Some (s', es) /\
  funnel_ok sample_items s'.
Proof.
  apply (storage_stays_low sample_items ["HALL"] 1000 0 1 2 3 7 1 1 (hall pipe spirits)); try lia.
  - rewrite sample_items_size. lia.
  - exact pipe_ok.
  - reflexivity.
  - apply pipe_dry.
Defined.

Example explosion :
  ('(s, _) ← steam_funnel sample_items ["HALL"] 1000 ∅ 0 1 2 3 7 1 1 (hall pipe spirits);
   b ← block_at (land s) 104; Some (fg b, c_ b, floor s)) =
  Some (3726, 0, [[12464; 1; 1; 130; 35; 1000]]).
Proof. vm_compute. reflexivity. Qed.

End ReachFacts.
