(* ===== verification/Suckers.v ===== *)
(** * Suckers: machines that collect items

    Models the machines that collect the items which would fall to the ground
    near by, and their remotes: [use_mag], [get_mag_cap_tag], [get_sucker]
    and [reset_] of [src/NopySource/Handle/WorldInfo.h], their punch, their
    wrench and the punch that breaks them in [edit_tile] there, and the dialogs [itemaddedtosucker],
    [itemremovedfromsucker] and [itemsucker_block] of [call_dialog]
    ([src/NopySource/Handle/DialogReturn.h]).

    A machine is a block with the item [id] and the amount [pr] (the machine
    6954: [c_]), and an entry of [machines] of its world.  The players
    are the connected peers, in order; [k] is the one who acts.  [None] is a
    read outside of a vector. *)
From S2P Require Import Prelude Memory Items Packet Tank World Guild Inventory Texts Messages Access Vending Drops.
Import Items World Inventory Access.

Module Suckers.

Record WorldMachines := mkMachine {
  last_ : Z;
  machine_on : bool;             (* enabled *)
  buildmode : bool;
  machine_id : Z;                (* id *)
  mx : Z;
  my : Z;
  target_item : Z
}.

(** A world, and what else of it the machines need: the fields [enabled],
    [invert] and [lp] of the blocks by number; and the list of worlds with
    machines of [Environment()]. *)
Record Plot := mkPlot {
  land : World;
  enabled : Z -> bool;
  invert : Z -> bool;
  lp : Z -> Z;
  machines : list WorldMachines;
  Another_Worlds : list string
}.

(** A connected player. *)
Record Farmer := mkFarmer {
  visitor : Visitor;
  bag : Player;
  world : string;
  magnetron_id : Z;
  magnetron_x : Z;
  magnetron_y : Z
}.

Inductive effect :=
| EInventory (peer : nat) (e : Inventory.effect)
| EMessage (peer : nat) (e : Messages.effect)
| EDialog (peer : nat) (text : string)                     (* [OnDialogRequest] *)
| EPickup (peer : nat) (id x y : Z)                        (* the packets 14: a block goes into a bag *)
| ETile (peer : nat) (x y : Z) (b : WorldBlock) (on : bool) (* the look of a block *)
| ELock (b : WorldBlock).                                  (* [upd_lock] *)

Definition set_land (w : World) (p : Plot) : Plot :=
  mkPlot w (enabled p) (invert p) (lp p) (machines p) (Another_Worlds p).
Definition set_machines (l : list WorldMachines) (p : Plot) : Plot :=
  mkPlot (land p) (enabled p) (invert p) (lp p) l (Another_Worlds p).
Definition set_worlds (l : list string) (p : Plot) : Plot :=
  mkPlot (land p) (enabled p) (invert p) (lp p) (machines p) l.
Definition set_enabled (i : Z) (v : bool) (p : Plot) : Plot :=
  mkPlot (land p) (λ j, if j =? i then v else enabled p j) (invert p) (lp p) (machines p) (Another_Worlds p).

Definition write (i : Z) (b : WorldBlock) (p : Plot) : Plot := set_land (Vending.set_block i b (land p)) p.

Definition set_id (v : Z) (b : WorldBlock) : WorldBlock := Vending.set_machine (pr b) (wl b) v (c_ b) b.
Definition set_spin (v : bool) (b : WorldBlock) : WorldBlock :=
  mkBlock (fg b) (bg b) (locked b) (lock_origin b) (block_owner b) (block_admins b) v (pr b) (wl b) (id b) (c_ b).

Definition set_bag (p : Player) (t : Farmer) : Farmer :=
  mkFarmer (visitor t) p (world t) (magnetron_id t) (magnetron_x t) (magnetron_y t).
Definition set_magnetron (i x y : Z) (t : Farmer) : Farmer :=
  mkFarmer (visitor t) (bag t) (world t) i x y.

(** ** Kinds of machines *)

Definition REMOTE : Z := 5640.

(** The machines with a remote. *)
Definition magplant (id : Z) : bool := existsb (Z.eqb id) [5638; 5930; 9850; 10266; 21220].

(** What a machine holds; [other] of any other machine. *)
Definition cap (other id : Z) : Z :=
  if id =? 21220 then 2000000000 else if (id =? 6948) || (id =? 6946) then 1500
  else if id =? 5638 then 25000 else if id =? 9850 then 50000 else if id =? 5930 then 1000000
  else if id =? 10266 then 500000 else other.

Definition get_mag_cap_tag (id : Z) : string :=
  if id =? 5638 then " `w(`225.000`w)"
  else if (id =? 6946) || (id =? 6948) || (id =? 6954) then " `w(`21.500`w)"
  else if id =? 9850 then " `w(`250.000`w)"
  else if id =? 10266 then " `w(`2500.000`w)"
  else if id =? 5930 then " `w(`21.000.000`w)"
  else if id =? 21220 then " `w(`2Unlimited`w)" else "".

(** ** The list of machines *)

Definition machine_at (x_ y_ : Z) (m : WorldMachines) : bool := (mx m =? x_) && (my m =? y_).

(** The entry of a machine follows its block. *)
Definition sync (x_ y_ i : Z) (b : WorldBlock) (p : Plot) : Plot :=
  match list_find (λ m, machine_at x_ y_ m = true) (machines p) with
  | Some (n, m) =>
      set_machines (<[n := mkMachine (last_ m) (enabled p i) (spin b) (machine_id m) (mx m) (my m) (u16 (id b))]>
        (machines p)) p
  | None =>
      let p := set_machines (machines p ++
        [mkMachine 0 (enabled p i) (spin b) (u16 (fg b)) (u16 x_) (u16 y_) (u16 (id b))]) p in
      let name_ := name (land p) in
      if existsb (String.eqb name_) (Another_Worlds p) then p
      else set_worlds (Another_Worlds p ++ [name_]) p
  end.

Section Suckers.
Context (items : table) (modify : modify_fn).
(** The field [dropChance] of the items; [(float)] of an [int]; [SetColor]. *)
Context (dropChance : Z -> Z) (to_float : Z -> Z) (color : string).
Context (cfg : ServerRoles) (gs : list Guild.Guild).

Definition item_name (id : Z) : option string := Items.name <$> get_item items id.

Definition is_type (t : BlockTypes) (id : Z) : option bool :=
  it ← get_item items id; Some (bool_decide (blockType it = t)).

(** ** Messages *)

Definition console (k : nat) (text : string) : list effect :=
  EMessage k <$> Messages.OnConsoleMessage text false 0.
Definition bubble (k : nat) (p : Player) (text : string) (overlay : bool) : list effect :=
  EMessage k <$> Messages.OnTalkBubble (netID p) text 0 overlay 0 false.

(** The loop over the peers in a world. *)
Definition to_world (name : string) (ts : list Farmer) (f : nat -> list effect) : list effect :=
  mjoin (imap (λ k t, if String.eqb (world t) name then f k else []) ts).

Definition tile_update (x_ y_ i : Z) (b : WorldBlock) (p : Plot) (ts : list Farmer) : list effect :=
  to_world (name (land p)) ts (λ k, [ETile k x_ y_ b (enabled p i)]) ++ (if locked b then [ELock b] else []).

(** [Inventory::Modify] of a peer: what it returns, the count, the peers. *)
Definition modify_peer (k : nat) (id c : Z) (ts : list Farmer) : option (Z * Z * list Farmer * list effect) :=
  t ← ts !! k;
  r ← modify id c true false (bag t);
  Some (ret r, c_out r, <[k := set_bag (pl_out r) t]> ts, EInventory k <$> effs r).

(** All of an item leaves the bag. *)
Definition remove_all (k : nat) (id : Z) (ts : list Farmer) : option (list Farmer * list effect) :=
  '(_, c, ts, e1) ← modify_peer k id 0 ts;
  if c =? 0 then Some (ts, e1)
  else '(_, _, ts, e2) ← modify_peer k id (i32 (- c)) ts; Some (ts, e1 ++ e2).

(** ** The dialog of a machine *)

Definition holds_remote (x_ y_ : Z) (b : WorldBlock) (t : Farmer) : bool :=
  (magnetron_x t =? x_) && (magnetron_y t =? y_) && (magnetron_id t =? id b).

(** Whether the player has the remote of this machine. *)
Definition ar_turi_mag (k : nat) (x_ y_ : Z) (b : WorldBlock) (ts : list Farmer)
    : option (bool * list Farmer * list effect) :=
  if magplant (fg b) && negb (id b =? 0) then
    '(_, c, ts, es) ← modify_peer k REMOTE 0 ts;
    t ← ts !! k;
    Some (negb (c =? 0) && holds_remote x_ y_ b t, ts, es)
  else Some (false, ts, []).

Definition head_of (x_ y_ : Z) (b : WorldBlock) (nm : string) : string := cat [
  "set_default_color|`o"; endl; "set_bg_color|0,52,102,178|"; endl; "set_border_color|255,255,255,255|";
  endl; endl; "add_label_with_icon|big|`w"; nm; get_mag_cap_tag (fg b); "``|left|"; to_string (fg b); "|";
  endl; "add_spacer|small|"; endl; "embed_data|tilex|"; to_string x_; endl; "embed_data|tiley|"; to_string y_].

Definition get_sucker (k : nat) (x_ y_ i : Z) (b : WorldBlock) (p : Plot) (ts : list Farmer)
    : option (string * list Farmer * list effect) :=
  machine ← item_name (fg b);
  let head := head_of x_ y_ b machine in
  if id b =? 0 then
    Some (cat [head; endl; "add_textbox|`6The machine is empty.``|left|"; endl;
      "add_item_picker|selectitem|`wChoose Item``|Choose an item to put in the "; machine; "!|"; endl;
      "end_dialog|itemsucker_block|Close||"], ts, [])
  else
    '(_, n, ts, e1) ← modify_peer k (id b) 0 ts;
    '(remote, ts, e2) ← ar_turi_mag k x_ y_ b ts;
    t ← ts !! k;
    it ← get_item items (id b);
    let seed := bool_decide (blockType it = SEED) in
    let full := cat [endl; "add_smalltext|`4The machine is at maximum capacity!``|left|"] in
    let is_full := cap 1500 (fg b) <=? pr b in
    Some (cat [head; endl; "add_label_with_icon|small|`2"; Items.name it; "``|left|"; to_string (id b); "|";
      (if pr b =? 0 then cat [endl; "add_textbox|`6The machine is currently empty!``|left|"]
       else cat [endl; "add_textbox|The machine contains "; to_string (pr b); " `2"; ori_name it; "``|left|"]);
      (if is_full then full
       else if negb (n =? 0) then cat [endl; "add_button|additem|Add Items to the machine|noflags|0|0|";
         if has_config_access (Role (visitor t))
         then cat [endl; "add_button|addstocks5000|Add 5000 to the machine|noflags|0|0|"] else ""]
       else "");
      (if negb (pr b =? 0) then
         if n =? 200 then cat [endl; "add_textbox|`6You are already carrying 200 "; Items.name it; "!``|left|"]
         else cat [endl; "add_button|retrieveitem|Retrieve Item|noflags|0|0|"]
       else cat [endl; "add_button|clearitem|Change Item|noflags|0|0|"]);
      (if magplant (fg b) then cat [
         endl; "add_textbox|"; if seed then "Planting" else "Building"; " mode: ";
           if spin b then "`5ACTIVE" else "`6DISABLED"; "``|left|";
         endl; "add_textbox|Use the "; machine; " to "; if seed then "Plant" else "Build"; " `2";
           Items.name it; "`` directly from the "; machine; "'s storage.|left|"]
       else "");
      (if magplant (fg b) && negb remote
       then cat [endl; "add_button|getplantationdevice|Get Remote|noflags|0|0|"] else "");
      endl; "add_checkbox|chk_enablesucking|Enable Collection.|"; bool_digit (enabled p i); endl;
      "end_dialog|itemsucker_block|Close|Update|"], ts, e1 ++ e2).

(** ** Collecting *)

Definition collects (id : Z) : bool :=
  existsb (Z.eqb id) [6948; 5638; 6954; 6946; 5930; 9850; 10266; 21220].

(** What the block of a machine holds. *)
Definition amount (id : Z) (b : WorldBlock) : Z := if id =? 6954 then c_ b else pr b.

(** The machine takes the drop [d]. *)
Definition takes (p : Plot) (d : Drops.WorldDrop) (m : WorldMachines) : option bool :=
  if negb (collects (machine_id m) && machine_on m) then Some false
  else
    let i := mx m + my m * 100 in
    as_is ← (if machine_id m =? 6954 then _ ← block_at (land p) i; Some (invert p i) else Some true);
    if (if as_is : bool then target_item m else target_item m - 1) =? Drops.d_id d then
      b ← block_at (land p) i;
      Some (amount (machine_id m) b <? cap 100000 (machine_id m))
    else Some false.

Fixpoint first_taking (p : Plot) (d : Drops.WorldDrop) (l : list WorldMachines) : option (option WorldMachines) :=
  match l with
  | [] => Some None
  | m :: l => ok ← takes p d m; if ok : bool then Some (Some m) else first_taking p d l
  end.

(** The block of a machine with [count] more. *)
Definition store (count : Z) (b : WorldBlock) : WorldBlock :=
  if fg b =? 6954 then Vending.set_c_ (i32 (c_ b + count)) b else Vending.set_pr (i32 (pr b + count)) b.

(** The item that flies to the machine. *)
Definition flight (x y x_ y_ item : Z) : option Memory.mem :=
  Tank.packPlayerMoving
    (Tank.mkMoving (-1) 0 19 0 0 item 0 0 (to_float (x * 32 + 16)) (to_float (y * 32 + 16))
       (to_float (x_ * 32 + 16)) (to_float (y_ * 32 + 16)) 0 0) 56 6.

(** [x_], [y_] is where the drop would lie. *)
Definition use_mag (d : Drops.WorldDrop) (x_ y_ : Z) (p : Plot) (ts : list Farmer)
    : option (bool * Plot * list effect) :=
  found ← first_taking p d (machines p);
  match found with
  | None => Some (false, p, [])
  | Some m =>
      let i := mx m + my m * 100 in
      b ← block_at (land p) i;
      let e1 := to_world (name (land p)) ts (λ k,
        [EMessage k (Messages.ERaw (flight (mx m) (my m) x_ y_ (Drops.d_id d)) 0)]) in
      let b := store (Drops.d_count d) b in
      let p := write i b p in
      let n := amount (fg b) b in
      let e2 :=
        if (cap 5000 (machine_id m) <=? n) || (n =? Drops.d_count d)
        then tile_update (mx m) (my m) i b p ts else [] in
      Some (true, p, e1 ++ e2)
  end.

(** ** [itemaddedtosucker] and [itemremovedfromsucker] *)

Definition listed (me : string) (l : list string) : bool := existsb (String.eqb me) l.

Definition magplant_access (v : Visitor) (b : WorldBlock) (w : World) : option bool :=
  let me := to_lower (name_of v) in
  let owner := String.eqb (to_lower (owner_name w)) me || Administrator (Role v) ||
               (Z.testbit (world_settings w) 10 && listed me (admins w)) in
  if locked b then
    check_lock ← block_at w (lock_origin b); Some (owner || String.eqb (to_lower (block_owner check_lock)) me)
  else Some owner.

(** How many of the [add_count] the bag gets, that has [c]. *)
Definition clipped (add_count c : Z) : Z :=
  if 200 <? i32 (add_count + c) then
    if 200 <? add_count then 200 - c else if c <? add_count then 200 - add_count else 200 - c
  else add_count.

(** What a request did: whether the entry of the machine and its look
    follow. *)
Definition outcome : Type := bool * Plot * list Farmer * list effect.

Definition stop (p : Plot) (ts : list Farmer) (es : list effect) : option outcome := Some (false, p, ts, es).

Definition removed_from (k : nat) (i add_count : Z) (b : WorldBlock) (p : Plot) (ts : list Farmer)
    : option outcome :=
  t ← ts !! k;
  let has_count := amount (fg b) b in
  let block_id := if fg b =? 6954 then (if invert p i then id b else id b - 1) else id b in
  if has_count <? add_count then
    stop p ts (bubble k (bag t) "You are removing what you dont have." true)
  else
    '(_, c, ts, e1) ← modify_peer k block_id 0 ts;
    let add_count := clipped add_count c in
    if (has_count <? add_count) || (200 <? c + add_count) then stop p ts e1
    else
      '(done_, _, ts, e2) ← modify_peer k block_id add_count ts;
      let b := if done_ =? 0 then store (- add_count) b else b in
      Some (true, write i b p, ts, e1 ++ e2).

Definition added_to (k : nat) (i add_count : Z) (b : WorldBlock) (p : Plot) (ts : list Farmer)
    : option outcome :=
  '(_, c, ts, e1) ← modify_peer k (id b) 0 ts;
  t ← ts !! k;
  if c <? add_count then
    nm ← item_name (id b);
    let text := "You dont have " +:+ nm in
    stop p ts (e1 ++ bubble k (bag t) text true ++ console k text)
  else
    '(done_, _, ts, e2) ← modify_peer k (id b) (i32 (add_count * -1)) ts;
    if done_ =? 0 then
      Some (true, write i (Vending.set_pr (i32 (pr b + add_count)) b) p, ts,
        e1 ++ e2 ++ console k "Items added." ++ bubble k (bag t) "Items added." true)
    else Some (true, p, ts, e1 ++ e2).

(** Nothing more fits into a machine of a known kind. *)
Definition is_full (t_ : Z) (b : WorldBlock) : bool :=
  (magplant t_ || (t_ =? 6948) || (t_ =? 6946)) && (cap 0 t_ <=? pr b).

Definition finish (x_ y_ i : Z) (r : option outcome) : option (Plot * list Farmer * list effect) :=
  '(synced, p, ts, es) ← r;
  if synced : bool then
    b ← block_at (land p) i;
    let p := sync x_ y_ i b p in
    Some (p, ts, es ++ tile_update x_ y_ i b p ts)
  else Some (p, ts, es).

Definition item_moved (k : nat) (a_ : list string) (i_ : nat) (p : Plot) (ts : list Farmer)
    : option (Plot * list Farmer * list effect) :=
  let ignore := Some (p, ts, []) in
  t ← ts !! k;
  cmd ← a_ !! i_;
  let removing := String.eqb cmd "itemremovedfromsucker" in
  if negb (length a_ =? 13)%nat then ignore else
  v2 ← a_ !! (i_ + 2)%nat;
  if negb (starts_digit v2) then ignore else
  v5 ← a_ !! (i_ + 5)%nat;
  if negb (starts_digit v5) then ignore else
  let x_ := atoi v2 in
  let y_ := atoi v5 in
  if (x_ <? 0) || (y_ <? 0) || (max_y (land p) <=? y_) || (max_x (land p) <=? x_) then ignore else
  let i := x_ + y_ * 100 in
  b ← block_at (land p) i;
  access ← magplant_access (visitor t) b (land p);
  machine ← is_type SUCKER (fg b);
  if negb machine || negb access then ignore else
  v8 ← a_ !! (i_ + 8)%nat;
  if negb (starts_digit v8) then ignore else
  if is_full (if fg b =? 0 then bg b else fg b) b && negb removing then ignore else
  finish x_ y_ i (if removing then removed_from k i (atoi v8) b p ts else added_to k i (atoi v8) b p ts).

(** ** [itemsucker_block] *)

(** The player gets a remote, in the place of the ones it has. *)
Definition give_remote (k : nat) (ts : list Farmer) : option (Z * list Farmer * list effect) :=
  '(ts, e1) ← remove_all k REMOTE ts;
  '(done_, _, ts, e2) ← modify_peer k REMOTE 1 ts;
  Some (done_, ts, e1 ++ e2).

Definition getplantationdevice (k : nat) (x_ y_ : Z) (b : WorldBlock) (ts : list Farmer)
    : option (list Farmer * list effect) :=
  if negb (id b =? 0) && magplant (fg b) then
    '(done_, ts, es) ← give_remote k ts;
    if done_ =? 0 then
      nm ← item_name REMOTE;
      t ← ts !! k;
      let text := cat ["You received a "; nm; "."] in
      Some (<[k := set_magnetron (id b) x_ y_ t]> ts,
        es ++ console k text ++ bubble k (bag t) text false ++
        (EMessage k <$> Messages.OnPlanterActivated (id b) x_ y_))
    else Some (ts, es)
  else Some (ts, []).

Definition selectitem (k : nat) (t_ i putting_item : Z) (b : WorldBlock) (p : Plot) (ts : list Farmer)
    : option outcome :=
  t ← ts !! k;
  if size items <=? putting_item then stop p ts []
  else if magplant t_ || (t_ =? 6948) || (t_ =? 6946) then
    it ← get_item items putting_item;
    let seed := bool_decide (blockType it = SEED) in
    if negb (pr b =? 0) then stop p ts []
    else if ((t_ =? 6948) && seed) || ((t_ =? 6946) && negb seed) then
      let text := if t_ =? 6948 then "You cannot store seeds in this machine."
                  else "You can only store seeds in this machine." in
      stop p ts (bubble k (bag t) text true ++ console k text)
    else if untradeable it || bool_decide (blockType it = LOCK) then
      let text := "This item is not compatible." in
      stop p ts (bubble k (bag t) text true ++ console k text)
    else
      let putting_item :=
        if bool_decide (blockType it = SUCKER) || (putting_item =? 6016) || (putting_item =? 6952)
        then 0 else putting_item in
      Some (true, set_enabled i true (write i (set_id putting_item b) p), ts, [])
  else Some (true, p, ts, []).

(** The first line of the dialogs of an item. *)
Definition item_head (x_ y_ : Z) (b : WorldBlock) (nm : string) : string := cat [
  "set_default_color|`o"; endl; "set_bg_color|0,52,102,178|"; endl; "set_border_color|255,255,255,255|";
  endl; endl; "add_spacer|small|"; endl; "embed_data|tilex|"; to_string x_; endl; "embed_data|tiley|";
  to_string y_; endl; "add_label_with_icon|small|`2"; nm; "``|left|"; to_string (id b); "|"; endl].

Definition retrieveitem (k : nat) (x_ y_ : Z) (b : WorldBlock) (ts : list Farmer)
    : option (list Farmer * list effect) :=
  if id b =? 0 then Some (ts, [])
  else
    '(_, c, ts, es) ← modify_peer k (id b) 0 ts;
    if c <? 200 then
      nm ← item_name (id b);
      Some (ts, es ++ [EDialog k (cat [
        item_head x_ y_ b nm; "add_textbox|`wHow many `2"; nm;
        "`` would you like to remove?``|left||"; endl; "add_text_input|itemtoremove|Amount:|";
        to_string (clipped (pr b) c); "|20|"; endl; "end_dialog|itemremovedfromsucker|Close|Retrieve|"; endl;
        "add_spacer|small|"])])
    else Some (ts, es).

(** The limit that the dialog of [additem] shows. *)
Definition shown_limit (id : Z) : Z := if id =? 5930 then 2000000000 else cap 1500 id.

Definition additem (k : nat) (x_ y_ : Z) (b : WorldBlock) (ts : list Farmer)
    : option (list Farmer * list effect) :=
  if id b =? 0 then Some (ts, [])
  else
    '(_, c, ts, es) ← modify_peer k (id b) 0 ts;
    if negb (c =? 0) then
      nm ← item_name (id b);
      Some (ts, es ++ [EDialog k (cat [
        item_head x_ y_ b nm; "add_smalltext|You have "; to_string c; " `2"; nm;
        "`` in your backpack.|left|"; endl; "add_textbox|`wHow many `2"; nm;
        "`` would you like to add?``|left|"; endl; "add_text_input|itemtoadd|Amount:|";
        to_string (if shown_limit (fg b) <? i32 (pr b + c) then shown_limit (fg b) - pr b else c); "|20|"; endl;
        "end_dialog|itemaddedtosucker|Close|Add|"; endl; "add_spacer|small|"])])
    else Some (ts, es).

(** The remotes of a machine stop to work: every peer of the world [name]
    with a remote for the place loses its items [remote].  [k] is the number
    of the next peer. *)
Fixpoint unlink (n k : nat) (remote : Z) (name : string) (x_ y_ : Z) (ts : list Farmer)
    : option (list Farmer * list effect) :=
  match n with
  | O => Some (ts, [])
  | S n =>
      t ← ts !! k;
      if String.eqb (world t) name && (magnetron_x t =? x_) && (magnetron_y t =? y_) then
        '(ts, e1) ← remove_all k remote ts;
        t ← ts !! k;
        '(ts, e2) ← unlink n (S k) remote name x_ y_ (<[k := set_magnetron 0 0 0 t]> ts);
        Some (ts, e1 ++ e2)
      else unlink n (S k) remote name x_ y_ ts
  end.

Definition clearitem (k : nat) (x_ y_ i : Z) (b : WorldBlock) (p : Plot) (ts : list Farmer)
    : option (Plot * list Farmer * list effect) :=
  if negb (id b =? 0) && (pr b =? 0) then
    t ← ts !! k;
    '(ts, e1) ← (if magplant (fg b)
      then unlink (length ts) 0 (if fg b =? 5638 then REMOTE else 9158) (world t) x_ y_ ts
      else Some (ts, []));
    let b := set_id 0 b in
    let p := set_enabled i true (write i b p) in
    '(text, ts, e2) ← get_sucker k x_ y_ i b p ts;
    Some (p, ts, e1 ++ e2 ++ [EDialog k text])
  else Some (p, ts, []).

Definition addstocks5000 (k : nat) (i : Z) (b : WorldBlock) (p : Plot) (t : Farmer) : Plot * list effect :=
  if has_config_access (Role (visitor t))
  then (write i (Vending.set_pr (i32 (pr b + 5000)) b) p,
        bubble k (bag t) "Added 5000 blocks to this machine!" true)
  else (p, []).

(** The checkbox sends its state; [1] for a machine that is on turns it
    off. *)
Definition enablesucking (v : string) (on : bool) : bool := String.eqb v "1" && negb on.

(** The loop over the tokens; a button ends it. *)
Fixpoint machine_tokens (k : nat) (x_ y_ i : Z) (l : list string) (p : Plot) (ts : list Farmer)
    : option (Plot * list Farmer * list effect) :=
  match l with
  | [] => Some (p, ts, [])
  | a :: l =>
      b ← block_at (land p) i;
      t ← ts !! k;
      if String.eqb a "retrieveitem" then '(ts, es) ← retrieveitem k x_ y_ b ts; Some (p, ts, es)
      else if String.eqb a "addstocks5000" then
        let '(p, es) := addstocks5000 k i b p t in Some (p, ts, es)
      else if String.eqb a "additem" then '(ts, es) ← additem k x_ y_ b ts; Some (p, ts, es)
      else if String.eqb a "clearitem" then clearitem k x_ y_ i b p ts
      else if String.eqb (take_str 4 a) "chk_" then
        target ← Texts.explode "_" a !! 1%nat;
        if String.eqb target "enablesucking" then
          v ← head l;
          machine_tokens k x_ y_ i l (set_enabled i (enablesucking v (enabled p i)) p) ts
        else machine_tokens k x_ y_ i l p ts
      else machine_tokens k x_ y_ i l p ts
  end.

Definition itemsucker_block (k : nat) (a_ : list string) (i_ : nat) (p : Plot) (ts : list Farmer)
    : option (Plot * list Farmer * list effect) :=
  let ignore := Some (p, ts, []) in
  t ← ts !! k;
  let n := length a_ in
  if negb (existsb (Nat.eqb n) [13; 16; 14]%nat) then ignore else
  v2 ← a_ !! (i_ + 2)%nat;
  if negb (starts_digit v2) then ignore else
  v5 ← a_ !! (i_ + 5)%nat;
  if negb (starts_digit v5) then ignore else
  let x_ := atoi v2 in
  let y_ := atoi v5 in
  if (x_ <? 0) || (y_ <? 0) || (max_y (land p) <=? y_) || (max_x (land p) <=? x_) then ignore else
  let i := x_ + y_ * max_x (land p) in
  if (i <? 0) || (Z.of_nat (length (blocks (land p))) <=? i) then ignore else
  b ← block_at (land p) i;
  let t_ := if fg b =? 0 then bg b else fg b in
  access ← block_access cfg gs (visitor t) (land p) b false false false false;
  if negb access then ignore else
  machine ← is_type SUCKER t_;
  if negb machine then ignore else
  v11 ← a_ !! 11%nat;
  if (n =? 14)%nat || String.eqb v11 "getplantationdevice" then
    '(ts, es) ← getplantationdevice k x_ y_ b ts; Some (p, ts, es)
  else
    v7 ← a_ !! (i_ + 7)%nat;
    if (n =? 13)%nat && String.eqb v7 "selectitem" then
      v8 ← a_ !! (i_ + 8)%nat;
      if negb (starts_digit v8) then ignore
      else finish x_ y_ i (selectitem k t_ i (u32 (atoi v8)) b p ts)
    else finish x_ y_ i ('(p, ts, es) ← machine_tokens k x_ y_ i a_ p ts; Some (true, p, ts, es)).

(** ** [edit_tile] *)

Definition outside (x_ y_ : Z) (w : World) : bool :=
  (x_ <? 0) || (y_ <? 0) || (max_x w <=? x_) || (max_y w <=? y_).

(** The punch: the machine starts or ends to work through its remote. *)
Definition punch_magplant (now : Z) (k : nat) (access : bool) (x_ y_ : Z) (p : Plot) (ts : list Farmer)
    : option (Plot * list Farmer * list effect) :=
  let ignore es := Some (p, ts, es) in
  let i := x_ + y_ * 100 in
  if outside x_ y_ (land p) then ignore [] else
  b ← block_at (land p) i;
  t ← ts !! k;
  if magplant (fg b) && (access || Administrator (Role (visitor t))) &&
     ((0 <? pr b) || (dropChance (fg b) <? now - lp p i)) then
    if id b =? 0 then
      nm ← item_name (fg b);
      let text := cat ["Cannot activate the "; nm; ", you need to set the item first."] in
      ignore (bubble k (bag t) text false ++ console k text)
    else
      let b := set_spin (negb (spin b)) b in
      let p := sync x_ y_ i b (write i b p) in
      '(ts, es) ←
        (if spin b then
           '(done_, ts, e1) ← give_remote k ts;
           nm ← item_name REMOTE;
           t ← ts !! k;
           let text := cat ["You received a "; nm; "."] in
           Some (<[k := set_magnetron (id b) x_ y_ t]> ts,
             e1 ++ if done_ =? 0 then bubble k (bag t) text false ++ console k text else [])
         else
           '(ts, e1) ← remove_all k REMOTE ts;
           t ← ts !! k;
           Some (if (magnetron_x t =? x_) && (magnetron_y t =? y_)
                 then <[k := set_magnetron 0 0 0 t]> ts else ts, e1));
      Some (p, ts, es ++ tile_update x_ y_ i b p ts)
  else ignore [].

(** *** The punch that breaks a machine

    [pickup]: the items that go into the bag when they are broken
    ([Property_AutoPickup]); [gems]: those that give gems ([max_gems]).
    Their branches come before that of the remotes. *)
Context (pickup gems : Z -> bool).

(** The block is cleared, and its entry erased. *)
Definition reset_ (x_ y_ i : Z) (b : WorldBlock) (p : Plot) : Plot :=
  let l := match list_find (λ m, machine_at x_ y_ m = true) (machines p) with
           | Some (n, _) => delete n (machines p)
           | None => machines p
           end in
  let b := mkBlock 0 (if fg b =? 0 then 0 else bg b) (locked b) (lock_origin b) "" [] false 0 0 0 0 in
  let off f := λ j, if j =? i then false else f j in
  mkPlot (land (write i b p)) (off (enabled p)) (off (invert p)) (lp p) l (Another_Worlds p).

(** The machine loses its last hit point to the player [k]; whether it is in
    his bag. *)
Definition break_machine (k : nat) (x_ y_ : Z) (p : Plot) (ts : list Farmer)
    : option (bool * Plot * list Farmer * list effect) :=
  let ignore es := Some (false, p, ts, es) in
  let i := x_ + y_ * 100 in
  if outside x_ y_ (land p) then ignore [] else
  b ← block_at (land p) i;
  t ← ts !! k;
  machine ← is_type SUCKER (fg b);
  if negb machine then ignore [] else
  if 0 <? pr b then
    nm ← item_name (fg b);
    ignore (bubble k (bag t) (cat ["Empty the "; nm; " before breaking it!"]) false)
  else if pickup (fg b) then
    r ← modify (fg b) 1 false false (bag t);
    let ts := <[k := set_bag (pl_out r) t]> ts in
    let e1 := EInventory k <$> effs r in
    if ret r =? 0 then
      nm ← item_name (fg b);
      Some (true, reset_ x_ y_ i b p, ts,
        e1 ++ to_world (name (land p)) ts (λ j, [EPickup j (fg b) x_ y_]) ++
        (EMessage k <$> Messages.OnConsoleMessage (cat ["Collected `w1 "; nm; "``.``"]) false 1))
    else Some (false, p, ts,
      e1 ++ bubble k (bag t) "`wI better not break that, i have no room to pick it up!" true)
  else
    '(ts, es) ← (if negb (gems (fg b)) && magplant (fg b)
                 then unlink (length ts) 0 REMOTE (name (land p)) x_ y_ ts else Some (ts, []));
    Some (false, reset_ x_ y_ i b p, ts, es).

End Suckers.

End Suckers.
