(* ===== verification/SuckersFacts.v ===== *)
(** * SuckersFacts: what machines that collect hold

    Along any sequence of requests, punches and collected drops the machines
    of [Suckers] stay in order and account for every item
    ([suckers_always_ok]); a drop goes to one machine that holds its kind
    ([use_mag_stores]); and how many items a player gets out
    ([retrieved_amount]). *)
From S2P Require Import Prelude Items Inventory InventoryFacts InventoryBag World Guild.
From S2P Require Import Texts Messages Access Vending VendingFacts Drops Suckers.
Import Items World Inventory InventoryFacts InventoryBag Access Suckers.

Module SuckersFacts.

(** ** The bags of the players *)

Definition held (j : Z) (ts : list Farmer) : Z := VendingFacts.total (λ t, contains j (inv (bag t))) ts.

Definition farmer_ok (t : Farmer) : Prop :=
  settled (bag t) /\ has_config_access (Role (visitor t)) = false.

Section Facts.
Context (items : table) (prices : list (Z * Z)) (wf : bool) (g1 g2 : string) (fuel : nat).
Context (dropChance : Z -> Z) (to_float : Z -> Z) (cfg : ServerRoles) (gs : list Guild.Guild).
(** The remotes are items, and item numbers fit into 16 bits. *)
Hypothesis Hsize : 9158 < size items <= 65536.

Local Abbreviation modify := (Modify items prices wf g1 g2 (S fuel)).
Local Abbreviation peer := (modify_peer modify).

Definition in_table (id : Z) : Prop := 0 <= id < size items.

(** An item that [Modify] knows: not "nothing" and not gems. *)
Definition proper (id : Z) : bool := negb (id =? 0) && negb (id =? 112).

Lemma proper_spec id : in_table id -> proper id = true -> 0 < id < size items /\ id <> 112.
Proof. unfold in_table, proper. lia. Qed.

Lemma modify_other id c p : in_table id -> proper id = false -> modify id c true false p = Some (mkResult (-1) c p []).
Proof.
  unfold in_table, proper. intros Hid H. cbn [Modify]. unfold modify_body.
  by replace ((200 <? c) || (id <? 0) || (size items <? id) || (id <=? 0) || (id =? 112)) with true by lia.
Qed.

Lemma any_count id p : settled p -> in_table id ->
  exists r, modify id 0 true false p = Some r /\ pl_out r = p /\
    c_out r = if proper id then contains id (inv p) else 0.
Proof.
  intros Hp Hid. destruct (proper id) eqn:Ep; [|rewrite modify_other by done; by eexists].
  destruct (proper_spec id Hid Ep). by apply modify_count.
Qed.

Lemma any_modify id c p : settled p -> in_table id -> c <= 200 ->
  exists r, modify id c true false p = Some r /\
    ((ret r = 0 /\ proper id = true /\ moved id c p (pl_out r)) \/ (ret r <> 0 /\ pl_out r = p)).
Proof.
  intros Hp Hid Hc. destruct (proper id) eqn:Ep; cycle 1.
  { rewrite modify_other by done. eexists. split; [done|]. by right. }
  destruct (proper_spec id Hid Ep) as [Hs H112]. destruct (Z.eq_dec c 0) as [->|Hc0].
  { destruct (VendingFacts.modify_nothing items prices wf g1 g2 fuel true id p Hp) as (r & -> & Hr & Hpl).
    exists r. split; [done|]. right. split; [lia|done]. }
  destruct (accepts_dec id c (inv p) Hc0) as [Ha|Ha].
  - destruct (modify_ok items prices wf g1 g2 fuel true false id c p Hp Hs H112 Hc Ha) as (r & -> & Hr & Hm).
    exists r. split; [done|]. by left.
  - destruct (modify_refused items prices wf g1 g2 fuel true false id c p Hp Hs H112 Hc Ha) as (r & -> & Hr & Hpl).
    exists r. split; [done|]. right. split; [lia|done].
Qed.

(** Peers with other bags. *)
Definition rebagged (ts ts' : list Farmer) : Prop := Forall farmer_ok ts' /\ length ts' = length ts.

Lemma held_insert j k t t' ts : ts !! k = Some t ->
  held j (<[k := t']> ts) = held j ts - contains j (inv (bag t)) + contains j (inv (bag t')).
Proof. intros H. unfold held. by rewrite (VendingFacts.total_insert _ ts k t). Qed.

Lemma bag_same t : set_bag (bag t) t = t.
Proof. by destruct t. Qed.

Lemma peer_count k id ts t : Forall farmer_ok ts -> ts !! k = Some t -> in_table id ->
  exists r es, peer k id 0 ts = Some (r, if proper id then contains id (inv (bag t)) else 0, ts, es).
Proof.
  intros Hts Ht Hid. destruct (Forall_lookup_1 _ _ _ _ Hts Ht) as [Hb _]. unfold modify_peer. rewrite Ht. cbn [mbind option_bind].
  destruct (any_count id (bag t) Hb Hid) as (r & -> & Hpl & Hc). cbn [mbind option_bind].
  rewrite Hpl, Hc, bag_same, list_insert_id by done. by eexists _, _.
Qed.

(** The count of [id] in the bag [t] changes by [c], or nothing happens. *)
Lemma peer_modify k id c ts t : Forall farmer_ok ts -> ts !! k = Some t -> in_table id -> c <= 200 ->
  exists r n ts' es, peer k id c ts = Some (r, n, ts', es) /\ rebagged ts ts' /\
    ((r = 0 /\ proper id = true /\ (forall j, j <> 0 -> held j ts' = held j ts + if j =? id then c else 0) /\
      exists t', ts' !! k = Some t' /\ contains id (inv (bag t')) = contains id (inv (bag t)) + c) \/
     (r <> 0 /\ ts' = ts)).
Proof.
  intros Hts Ht Hid Hc. destruct (Forall_lookup_1 _ _ _ _ Hts Ht) as [Hb Hcfg]. unfold modify_peer. rewrite Ht. cbn [mbind option_bind].
  destruct (any_modify id c (bag t) Hb Hid Hc) as (r & -> & Hr). cbn [mbind option_bind].
  eexists _, _, _, _. split; [done|]. destruct Hr as [(Hr & Hpr & Hm)|[Hr Hpl]].
  - split; [split; [|by rewrite length_insert]|].
    { apply list.Forall_insert; [done|]. split; [by eapply moved_settled|done]. }
    left. destruct Hm as (_ & _ & _ & [Hx Ho] & _). split; [done|]. split; [done|]. split.
    + intros j Hj. rewrite (held_insert _ _ t) by done. cbn [bag set_bag].
      destruct (Z.eqb_spec j id) as [->|E]; [lia|]. rewrite Ho by done. lia.
    + eexists. rewrite list_lookup_insert_eq by (by eapply lookup_lt_Some). by split.
  - rewrite Hpl, bag_same, list_insert_id by done. split; [by split|]. by right.
Qed.

(** All of an item leaves a bag. *)
Lemma remove_all_spec k id ts t : Forall farmer_ok ts -> ts !! k = Some t -> in_table id ->
  exists ts' es, remove_all modify k id ts = Some (ts', es) /\ rebagged ts ts' /\
    forall j, j <> 0 -> j <> id -> held j ts' = held j ts.
Proof.
  intros Hts Ht Hid. unfold remove_all.
  destruct (peer_count k id ts t Hts Ht Hid) as (r1 & e1 & ->). cbn [mbind option_bind].
  destruct (_ =? 0) eqn:E; [by eexists _, _; split; [done|]|].
  destruct (Forall_lookup_1 _ _ _ _ Hts Ht) as [Hb _].
  set (n := if proper id then _ else _) in *.
  assert (0 <= n <= 200) as Hn.
  { subst n. destruct (proper id) eqn:Ep; [|lia]. unfold in_table, proper in *. apply settled_contains; [done|lia]. }
  rewrite i32_small by lia.
  destruct (peer_modify k id (- n) ts t Hts Ht Hid ltac:(lia)) as (r & c & ts' & e2 & -> & Hre & Hcase).
  cbn [mbind option_bind]. eexists _, _. split; [done|]. split; [done|]. intros j Hj Hne.
  destruct Hcase as [(_ & _ & Hh & _)|[_ ->]]; [|done]. rewrite Hh by done.
  rewrite (proj2 (Z.eqb_neq j id)) by done. lia.
Qed.
(** Several peers lose a remote: other items stay where they are. *)
Lemma unlink_spec remote nm x_ y_ n : forall k ts,
  Forall farmer_ok ts -> in_table remote -> (k + n = length ts)%nat ->
  exists ts' es, unlink modify n k remote nm x_ y_ ts = Some (ts', es) /\ rebagged ts ts' /\
    forall j, j <> 0 -> j <> remote -> held j ts' = held j ts.
Proof.
  induction n as [|n IH]; intros k ts Hts Hr Hk; cbn [unlink]; [by eexists _, _|].
  destruct (lookup_lt_is_Some_2 ts k) as [t Ht]; [lia|]. rewrite Ht. cbn [mbind option_bind].
  destruct (_ && _ && _); [|destruct (IH (S k) ts Hts Hr ltac:(lia)) as (ts' & es & -> & H); by eexists _, _].
  destruct (remove_all_spec k remote ts t Hts Ht Hr) as (ts1 & e1 & -> & [H1 L1] & Hh1). cbn [mbind option_bind].
  destruct (lookup_lt_is_Some_2 ts1 k) as [t1 Ht1]; [lia|]. rewrite Ht1. cbn [mbind option_bind].
  destruct (Forall_lookup_1 _ _ _ _ H1 Ht1) as [Hb1 Hc1].
  destruct (IH (S k) (<[k := set_magnetron 0 0 0 t1]> ts1)) as (ts2 & e2 & -> & [H2 L2] & Hh2);
    [by apply list.Forall_insert|done|rewrite length_insert; lia|].
  cbn [mbind option_bind]. eexists _, _. split; [done|]. split; [split; [done|rewrite L2, length_insert; lia]|].
  intros j Hj Hne. rewrite Hh2, (held_insert _ _ t1), Hh1 by done. cbn [bag set_magnetron]. lia.
Qed.

(** ** Machines in order *)

Definition sucker (id : Z) : bool := magplant id || (id =? 6948) || (id =? 6946).

Definition stock (j : Z) (b : WorldBlock) : Z := if sucker (fg b) && (id b =? j) then pr b else 0.
Definition stored (j : Z) (p : Plot) : Z := VendingFacts.total (stock j) (blocks (land p)).

(** The last request may overfill a machine by less than a stack. *)
Definition machine_ok (b : WorldBlock) : Prop :=
  0 <= pr b <= cap 0 (fg b) + 199 /\ in_table (id b) /\ (id b = 0 -> pr b = 0).

Definition block_ok (w : World) (b : WorldBlock) : Prop :=
  in_table (fg b) /\ in_table (bg b) /\ fg b <> 6954 /\
  (is_type items SUCKER (fg b) = Some true -> sucker (fg b) = true) /\
  is_type items SUCKER (bg b) <> Some true /\
  (locked b = true -> is_Some (block_at w (lock_origin b))) /\
  (sucker (fg b) = true -> machine_ok b).

Definition place (m : WorldMachines) : Z := mx m + my m * 100.

(** The entry tells what the block is. *)
Definition agrees (p : Plot) (m : WorldMachines) (b : WorldBlock) : Prop :=
  machine_on m = enabled p (place m) /\ target_item m = id b.

(** The entry of every machine is that of its block, and tells what it is if
    the number of the block is in [P]. *)
Definition entry_ok (P : Z -> Prop) (p : Plot) (m : WorldMachines) : Prop :=
  0 <= mx m < 100 /\ 0 <= my m < max_y (land p) /\
  exists b, block_at (land p) (place m) = Some b /\ machine_id m = fg b /\
    (P (place m) -> sucker (fg b) = true -> agrees p m b).

Definition shape_ok (w : World) : Prop :=
  max_x w = 100 /\ max_y w <= 65536 /\
  forall x y, 0 <= x < 100 -> 0 <= y < max_y w -> is_Some (block_at w (x + y * 100)).

Record plot_but (P : Z -> Prop) (p : Plot) : Prop := mkPlotOk {
  po_shape : shape_ok (land p);
  po_blocks : Forall (block_ok (land p)) (blocks (land p));
  po_machines : Forall (entry_ok P p) (machines p);
  po_places : base.NoDup (place <$> machines p)
}.

Definition plot_ok : Plot -> Prop := plot_but (λ _, True).

Lemma plot_weaken (P Q : Z -> Prop) p : (forall j, Q j -> P j) -> plot_but P p -> plot_but Q p.
Proof.
  intros H [H1 H2 H3 H4]. constructor; try done. eapply list.Forall_impl; [done|].
  intros m (Hx & Hy & b & Hb & Hid & Ha).
  do 2 (split; [done|]). exists b. auto.
Qed.

(** *** A block is written *)

(** What the new block keeps of the old one. *)
Definition same_block (b b' : WorldBlock) : Prop :=
  fg b' = fg b /\ bg b' = bg b /\ locked b' = locked b /\ lock_origin b' = lock_origin b.

Lemma block_at_write i b p j c : 0 <= i -> block_at (land p) i = Some c ->
  block_at (land (write i b p)) j = if j =? i then Some b else block_at (land p) j.
Proof.
  intros Hi Hc. unfold block_at in *. cbn [land write set_land blocks Vending.set_block].
  replace (i <? 0) with false in Hc by lia. apply lookup_lt_Some in Hc.
  destruct (Z.ltb_spec j 0); [by replace (j =? i) with false by lia|].
  destruct (Z.eqb_spec j i) as [->|E]; [by apply list_lookup_insert_eq|].
  apply list_lookup_insert_ne. lia.
Qed.

Lemma plot_block P p i b : plot_but P p -> block_at (land p) i = Some b -> block_ok (land p) b.
Proof.
  intros H Hb. eapply list.Forall_forall; [apply H|].
  unfold block_at in Hb. destruct (i <? 0); [done|]. by eapply list_elem_of_lookup_2.
Qed.

Lemma stored_write j i b b' p : 0 <= i -> block_at (land p) i = Some b ->
  stored j (write i b' p) = stored j p - stock j b + stock j b'.
Proof.
  intros Hi Hb. unfold stored. cbn [land write set_land blocks Vending.set_block].
  apply VendingFacts.total_insert. by apply VendingFacts.block_lookup.
Qed.

Lemma write_ok (P Q : Z -> Prop) i b b' p : 0 <= i -> block_at (land p) i = Some b -> same_block b b' ->
  (sucker (fg b) = true -> machine_ok b') -> (forall j, Q j -> P j) -> (id b' = id b \/ ~ Q i) ->
  plot_but P p -> plot_but Q (write i b' p).
Proof.
  intros Hi Hb (Hfg & Hbg & Hlk & Hlo) Hm HQ Hid H. pose proof H as [[Hx [Hy Hall]] H2 H3 H4].
  assert (forall j, is_Some (block_at (land p) j) -> is_Some (block_at (land (write i b' p)) j)) as Hsome.
  { intros j Hj. rewrite (block_at_write i b' p j b) by done. by destruct (j =? i). }
  constructor.
  - split; [done|]. split; [done|]. intros x y Hx' Hy'. apply Hsome. by apply Hall.
  - apply list.Forall_insert.
    + eapply list.Forall_impl; [done|]. intros c (A1 & A2 & A3 & A4 & A5 & A6 & A7).
      do 5 (split; [done|]). split; [|done]. intros Hl. by apply Hsome, A6.
    + destruct (plot_block P p i b H Hb) as (A1 & A2 & A3 & A4 & A5 & A6 & A7). unfold block_ok.
      rewrite Hfg, Hbg, Hlk, Hlo. do 5 (split; [done|]). split; [|done]. intros Hl. by apply Hsome, A6.
  - eapply list.Forall_impl; [done|]. intros m (B1 & B2 & c & Hc & Hidm & Ha).
    split; [done|]. split; [done|].
    rewrite (block_at_write i b' p _ b) by done. destruct (Z.eqb_spec (place m) i) as [E|E].
    + rewrite E, Hb in Hc. injection Hc as <-. exists b'. split; [done|]. split; [congruence|].
      intros Hq Hs. destruct Hid as [Hid|Hnq]; [|by rewrite E in Hq]. rewrite Hfg in Hs.
      destruct (Ha (HQ _ Hq) Hs) as [Ha1 Ha2]. split; [done|congruence].
    + exists c. split; [done|]. split; [done|]. intros Hq. by apply Ha, HQ.
  - done.
Qed.

Lemma enabled_ok (P : Z -> Prop) i v p : ~ P i -> plot_but P p -> plot_but P (set_enabled i v p).
Proof.
  intros Hp [H1 H2 H3 H4]. constructor; try done. eapply list.Forall_impl; [done|].
  intros m (B1 & B2 & b & Hb & Hid & Ha).
  do 2 (split; [done|]). exists b. do 2 (split; [done|]). intros HP Hs. destruct (Ha HP Hs) as [Ha1 Ha2]. split; [|done]. cbn [enabled set_enabled].
  destruct (Z.eqb_spec (place m) i) as [E|E]; [by rewrite E in HP|done].
Qed.

(** *** The entry follows *)

Lemma u16_small z : 0 <= z < 65536 -> u16 z = z.
Proof. intros H. apply uwrap_small. lia. Qed.

Lemma u16_id w b : block_ok w b -> sucker (fg b) = true -> u16 (id b) = id b.
Proof. intros (_ & _ & _ & _ & _ & _ & Hm) Hs. destruct (Hm Hs) as (_ & Hid & _). apply u16_small. unfold in_table in Hid. lia. Qed.

Definition others (i : Z) : Z -> Prop := λ j, j <> i.

Lemma sync_land x_ y_ i b p : land (sync x_ y_ i b p) = land p.
Proof. unfold sync. destruct (list_find _ _) as [[n m]|]; [done|]. by destruct (existsb _ _). Qed.

(** The entry that [sync] writes. *)
Lemma synced_entry x_ y_ b p m : plot_but (others (x_ + y_ * 100)) p ->
  block_at (land p) (x_ + y_ * 100) = Some b -> 0 <= x_ < 100 -> 0 <= y_ < max_y (land p) ->
  mx m = x_ -> my m = y_ -> machine_id m = fg b -> machine_on m = enabled p (x_ + y_ * 100) ->
  target_item m = u16 (id b) -> entry_ok (λ _, True) p m.
Proof.
  intros H Hb Hx Hy Ex Ey Eid Eon Et. assert (place m = x_ + y_ * 100) as Ep by (unfold place; congruence).
  unfold entry_ok, agrees. rewrite Ep, Ex, Ey. do 2 (split; [lia|]).
  exists b. do 2 (split; [done|]). intros _ Hs. split; [done|]. rewrite Et.
  eapply u16_id; [by eapply plot_block|done].
Qed.

Lemma sync_ok x_ y_ b p : plot_but (others (x_ + y_ * 100)) p ->
  block_at (land p) (x_ + y_ * 100) = Some b -> 0 <= x_ < 100 -> 0 <= y_ < max_y (land p) ->
  plot_ok (sync x_ y_ (x_ + y_ * 100) b p).
Proof.
  intros H Hb Hx Hy. pose proof H as [H1 H2 H3 H4]. pose proof (plot_block _ p _ b H Hb) as (Hfg & _).
  unfold in_table in Hfg. pose proof (proj1 (proj2 H1)). unfold sync.
  assert (forall m, m ∈ machines p -> place m <> x_ + y_ * 100 -> entry_ok (λ _, True) p m) as Hother.
  { intros m Hin Hne. rewrite list.Forall_forall in H3. destruct (H3 m Hin) as (B1 & B2 & c & Hc & Hid & Ha).
    do 2 (split; [done|]). exists c. do 2 (split; [done|]). intros _. by apply Ha. }
  destruct (list_find _ (machines p)) as [[n m]|] eqn:E.
  - apply list_find_Some in E as (El & Hat & _). unfold machine_at in Hat.
    assert (mx m = x_ /\ my m = y_) as [Emx Emy] by lia.
    assert (machine_id m = fg b) as Eid.
    { rewrite list.Forall_forall in H3. destruct (H3 m ltac:(by eapply list_elem_of_lookup_2)) as (_ & _ & c & Hc & Hid & _).
      unfold place in Hc. rewrite Emx, Emy, Hb in Hc. by injection Hc as <-. }
    constructor; try done.
    + cbn [machines set_machines]. apply list.Forall_lookup. intros k e Hk.
      destruct (decide (k = n)) as [->|Hkn].
      { rewrite list_lookup_insert_eq in Hk by (by eapply lookup_lt_Some). injection Hk as <-.
        by apply (synced_entry x_ y_ b p). }
      rewrite list_lookup_insert_ne in Hk by done. apply Hother; [by eapply list_elem_of_lookup_2|].
      intros Ep. apply Hkn. eapply NoDup_lookup; [exact H4|by rewrite list_lookup_fmap, Hk|].
      rewrite list_lookup_fmap, El. cbn. unfold place at 1. congruence.
    + cbn [machines set_machines]. rewrite list_fmap_insert, list_insert_id; [done|].
      rewrite list_lookup_fmap, El. done.
  - apply list_find_None in E. set (new := mkMachine _ _ _ _ _ _ _).
    assert (entry_ok (λ _, True) p new) as Hnew.
    { apply (synced_entry x_ y_ b); try done; cbn; apply u16_small; lia. }
    assert (plot_ok (set_machines (machines p ++ [new]) p)) as Hok.
    { rewrite list.Forall_forall in E. constructor; try done.
      + cbn [machines set_machines]. apply list.Forall_app. split; [|by constructor].
        apply list.Forall_forall. intros m Hin. apply Hother; [done|].
        rewrite list.Forall_forall in H3. destruct (H3 m Hin) as (B1 & B2 & _).
        specialize (E m Hin). unfold place, machine_at in *. lia.
      + cbn [machines set_machines]. rewrite fmap_app. apply list.NoDup_app. split; [done|]. split; [|apply list.NoDup_singleton].
        intros j Hj Hj2. apply list_elem_of_singleton in Hj2 as ->. apply list_elem_of_fmap in Hj as (m & Ej & Hin).
        rewrite list.Forall_forall in H3. destruct (H3 m Hin) as (B1 & B2 & _). specialize (E m Hin).
        unfold place, machine_at, new in *. cbn [mx my] in Ej. rewrite !u16_small in Ej by lia. lia. }
    cbn [land set_machines Another_Worlds]. destruct (existsb _ _); [exact Hok|].
    destruct Hok. by constructor.
Qed.

(** ** Requests *)

Definition ledger (j : Z) (p : Plot) (ts : list Farmer) : Z := held j ts + stored j p.

(** The items that are no remotes. *)
Definition free (j : Z) : Prop := j <> 0 /\ j <> REMOTE /\ j <> 9158.

Definition same_ledger (p : Plot) (ts : list Farmer) (p' : Plot) (ts' : list Farmer) : Prop :=
  rebagged ts ts' /\ forall j, free j -> ledger j p' ts' = ledger j p ts.

(** A request ends in order. *)
Definition answered (p : Plot) (ts : list Farmer) (o : option (Plot * list Farmer * list effect)) : Prop :=
  exists p1 ts1 es, o = Some (p1, ts1, es) /\ plot_ok p1 /\ same_ledger p ts p1 ts1.

(** The block [i] may have changed; its entry has to follow, if [synced]. *)
Definition worked (i : Z) (p : Plot) (ts : list Farmer) (o : option outcome) : Prop :=
  exists synced p1 ts1 es, o = Some (synced, p1, ts1, es) /\ plot_but (others i) p1 /\
    (synced = false -> plot_ok p1) /\ is_Some (block_at (land p1) i) /\
    max_y (land p1) = max_y (land p) /\ same_ledger p ts p1 ts1.

Lemma plot_others i p : plot_ok p -> plot_but (others i) p.
Proof. by apply plot_weaken. Qed.

Lemma ledger_refl p ts : Forall farmer_ok ts -> same_ledger p ts p ts.
Proof. intros H. split; [by split|done]. Qed.

Lemma answered_ignore p ts es : plot_ok p -> Forall farmer_ok ts -> answered p ts (Some (p, ts, es)).
Proof. intros Hp Hts. eexists _, _, _. split; [done|]. split; [done|]. by apply ledger_refl. Qed.

Lemma worked_stop i p ts es : plot_ok p -> Forall farmer_ok ts -> is_Some (block_at (land p) i) ->
  worked i p ts (stop p ts es).
Proof.
  intros Hp Hts Hb. eexists _, _, _, _. split; [done|]. split; [by apply plot_others|].
  do 3 (split; [done|]). by apply ledger_refl.
Qed.

Lemma finish_ok x_ y_ p ts o : 0 <= x_ < 100 -> 0 <= y_ < max_y (land p) ->
  worked (x_ + y_ * 100) p ts o -> answered p ts (finish x_ y_ (x_ + y_ * 100) o).
Proof.
  intros Hx Hy (synced & p1 & ts1 & es & -> & Hbut & Hok & [b Hb] & Emy & Hl). unfold finish. cbn [mbind option_bind].
  destruct synced; cycle 1.
  { eexists _, _, _. split; [done|]. split; [by apply Hok|done]. }
  rewrite Hb. cbn [mbind option_bind]. eexists _, _, _. split; [done|].
  split; [apply sync_ok; try done; by rewrite Emy|].
  destruct Hl as [Hre Hl]. split; [done|]. intros j Hj. unfold ledger, stored. rewrite sync_land. by apply Hl.
Qed.

(** The block [i] gets [n] items, the bags the others. *)
Lemma worked_write i p ts ts' b b' es : plot_but (others i) p -> 0 <= i -> block_at (land p) i = Some b -> same_block b b' ->
  (sucker (fg b) = true -> machine_ok b') -> rebagged ts ts' ->
  (forall j, free j -> held j ts' + stock j b' = held j ts + stock j b) ->
  worked i p ts (Some (true, write i b' p, ts', es)).
Proof.
  intros Hp Hi Hb Hsame Hm Hre Hl. eexists _, _, _, _. split; [done|].
  split; [apply (write_ok (others i) (others i) i b); try done; right; by intros []|].
  split; [done|].
  split; [rewrite (block_at_write i b' p i b) by done; rewrite Z.eqb_refl; by eexists|].
  split; [done|]. split; [done|]. intros j Hj. unfold ledger. rewrite (stored_write j i b) by done.
  specialize (Hl j Hj). lia.
Qed.

Lemma clipped_range n c : 0 <= n <= 2000000199 -> 0 <= c <= 200 ->
  0 <= clipped n c <= n /\ c + clipped n c <= 200.
Proof.
  intros Hn Hc. unfold clipped. rewrite i32_small by lia.
  destruct (Z.ltb_spec 200 (n + c)), (Z.ltb_spec 200 n), (Z.ltb_spec c n); lia.
Qed.

Lemma cap_small other id : 0 <= other <= 2000000000 -> 0 <= cap other id <= 2000000000.
Proof. intros H. unfold cap. repeat (destruct (_ =? _) || destruct (_ || _)); lia. Qed.

Lemma sucker_cap other id : sucker id = true -> cap other id = cap 0 id.
Proof. unfold sucker, magplant, cap. intros H. repeat case_match; try done. cbn in H. lia. Qed.

(** A count of the bag that the client can ask for. *)
Lemma counted_range id ts k t : Forall farmer_ok ts -> ts !! k = Some t -> in_table id ->
  0 <= (if proper id then contains id (inv (bag t)) else 0) <= 200.
Proof.
  intros Hts Ht Hid. destruct (Forall_lookup_1 _ _ _ _ Hts Ht) as [Hb _]. destruct (proper id) eqn:E; [|lia].
  destruct (proper_spec id Hid E). apply settled_contains; [done|lia].
Qed.

Lemma pr_block b v : same_block b (Vending.set_pr v b).
Proof. done. Qed.

(** The stock changes by [n] as the bags do. *)
Lemma stock_pr j b n ts ts' : sucker (fg b) = true -> j <> 0 ->
  (forall j, j <> 0 -> held j ts' = held j ts + if j =? id b then - n else 0) ->
  held j ts' + stock j (Vending.set_pr (pr b + n) b) = held j ts + stock j b.
Proof.
  intros Hs Hj Hh. rewrite Hh by done. unfold stock. cbn [fg id pr Vending.set_pr Vending.set_machine]. rewrite Hs. cbn [andb].
  rewrite (Z.eqb_sym j). destruct (id b =? j); lia.
Qed.

Lemma machine_of P i b p : plot_but P p -> block_at (land p) i = Some b -> sucker (fg b) = true -> machine_ok b.
Proof. intros Hp Hb Hs. by apply (plot_block _ _ _ _ Hp Hb). Qed.

Lemma removed_from_ok k i n b p ts t : plot_ok p -> Forall farmer_ok ts -> ts !! k = Some t -> 0 <= i ->
  block_at (land p) i = Some b -> sucker (fg b) = true -> 0 <= n ->
  worked i p ts (removed_from modify k i n b p ts).
Proof.
  intros Hp Hts Ht Hi Hb Hs Hn. destruct (machine_of _ _ _ _ Hp Hb Hs) as (Hpr & Hid & H0).
  pose proof (plot_block _ _ _ _ Hp Hb) as (_ & _ & H6954 & _).
  pose proof (cap_small 0 (fg b) ltac:(lia)). unfold removed_from. rewrite Ht. cbn [mbind option_bind].
  unfold amount. rewrite !(proj2 (Z.eqb_neq (fg b) 6954)) by done.
  destruct (Z.ltb_spec (pr b) n); [by apply worked_stop|].
  destruct (peer_count k (id b) ts t Hts Ht Hid) as (r1 & e1 & ->). cbn [mbind option_bind].
  pose proof (counted_range (id b) ts k t Hts Ht Hid) as Hc. set (c := if proper _ then _ else _) in *. clearbody c.
  destruct (clipped_range n c ltac:(lia) Hc) as [Hcl Hcl2]. set (m := clipped n c) in *. clearbody m.
  replace ((pr b <? m) || (200 <? c + m)) with false by lia.
  destruct (peer_modify k (id b) m ts t Hts Ht Hid ltac:(lia)) as (r & x & ts' & e2 & -> & Hre & Hcase).
  cbn [mbind option_bind]. destruct Hcase as [(-> & Hpp & Hh & _)|[Hr ->]].
  - unfold store. rewrite (proj2 (Z.eqb_neq (fg b) 6954)) by done. change (0 =? 0) with true. cbv iota.
    rewrite i32_small by lia. apply (worked_write i p ts ts' b); try done; [by apply plot_others| |].
    + intros _. unfold machine_ok. cbn [pr fg id Vending.set_pr Vending.set_machine]. split; [lia|]. split; [done|].
      unfold proper in Hpp. lia.
    + intros j [Hj _]. apply stock_pr; [done|done|]. by rewrite Z.opp_involutive.
  - rewrite (proj2 (Z.eqb_neq r 0)) by done. apply (worked_write i p ts ts b); try done. by apply plot_others.
Qed.

Lemma name_some id : in_table id -> is_Some (item_name items id).
Proof. unfold in_table, item_name, get_item. intros H. replace ((0 <=? id) && (id <? size items)) with true by lia. by eexists. Qed.

Lemma get_some id : in_table id -> get_item items id = Some (item items id).
Proof. unfold in_table, get_item. intros H. by replace ((0 <=? id) && (id <? size items)) with true by lia. Qed.

Lemma added_to_ok k i n b p ts t : plot_ok p -> Forall farmer_ok ts -> ts !! k = Some t -> 0 <= i ->
  block_at (land p) i = Some b -> sucker (fg b) = true -> 0 <= n -> pr b < cap 0 (fg b) ->
  worked i p ts (added_to items modify k i n b p ts).
Proof.
  intros Hp Hts Ht Hi Hb Hs Hn Hroom. destruct (machine_of _ _ _ _ Hp Hb Hs) as (Hpr & Hid & H0).
  pose proof (cap_small 0 (fg b) ltac:(lia)). unfold added_to.
  destruct (peer_count k (id b) ts t Hts Ht Hid) as (r1 & e1 & ->). cbn [mbind option_bind].
  rewrite Ht. cbn [mbind option_bind].
  pose proof (counted_range (id b) ts k t Hts Ht Hid) as Hc. set (c := if proper _ then _ else _) in *. clearbody c.
  destruct (Z.ltb_spec c n).
  { destruct (name_some (id b) Hid) as [nm ->]. by apply worked_stop. }
  rewrite (i32_small (n * -1)) by lia.
  destruct (peer_modify k (id b) (n * -1) ts t Hts Ht Hid ltac:(lia)) as (r & x & ts' & e2 & -> & Hre & Hcase).
  cbn [mbind option_bind]. destruct Hcase as [(-> & Hpp & Hh & _)|[Hr ->]].
  - change (0 =? 0) with true. cbv iota. rewrite i32_small by lia.
    apply (worked_write i p ts ts' b); try done; [by apply plot_others| |].
    + intros _. unfold machine_ok. cbn [pr fg id Vending.set_pr Vending.set_machine]. split; [lia|]. split; [done|].
      unfold proper in Hpp. lia.
    + intros j [Hj _]. apply stock_pr; [done|done|]. intros j' Hj'. rewrite Hh by done. destruct (_ =? _); lia.
  - rewrite (proj2 (Z.eqb_neq r 0)) by done. eexists _, _, _, _. split; [done|]. split; [by apply plot_others|].
    split; [done|]. do 2 (split; [done|]). by apply ledger_refl.
Qed.

Lemma magplant_access_some v b p P i : plot_but P p -> block_at (land p) i = Some b -> is_Some (magplant_access v b (land p)).
Proof.
  intros Hp Hb. destruct (plot_block _ _ _ _ Hp Hb) as (_ & _ & _ & _ & _ & Hl & _). unfold magplant_access.
  destruct (locked b); [|by eexists]. destruct (Hl eq_refl) as [c ->]. by eexists.
Qed.

(** The number of the request is one: [atoi] of more than an [int] may be
    negative, see [items_from_nothing]. *)
Definition counted (a_ : list string) (i_ : nat) : Prop := forall v, a_ !! (i_ + 8)%nat = Some v -> 0 <= atoi v.

Lemma lookup_token (a_ : list string) k : (k < length a_)%nat -> exists v, a_ !! k = Some v.
Proof. intros H. destruct (lookup_lt_is_Some_2 a_ k H) as [v E]. by exists v. Qed.

(** The place that a request names is a block. *)
Lemma place_block p x_ y_ : plot_ok p -> 0 <= x_ -> 0 <= y_ -> max_y (land p) <= y_ \/ max_x (land p) <= x_ \/
  (0 <= x_ < 100 /\ 0 <= y_ < max_y (land p) /\ is_Some (block_at (land p) (x_ + y_ * 100))).
Proof.
  intros [[Hx [Hy Hall]] _ _ _] Hx0 Hy0. rewrite Hx. destruct (Z.leb_spec (max_y (land p)) y_); [by left|].
  destruct (Z.leb_spec 100 x_); [by right; left|]. right. right. split; [lia|]. split; [lia|]. by apply Hall.
Qed.

Lemma item_moved_ok k a_ i_ p ts t cmd : plot_ok p -> Forall farmer_ok ts -> ts !! k = Some t ->
  a_ !! i_ = Some cmd -> (i_ <= 4)%nat -> counted a_ i_ ->
  answered p ts (item_moved items modify k a_ i_ p ts).
Proof.
  intros Hp Hts Ht Hcmd Hi Hn. unfold item_moved. rewrite Ht, Hcmd. cbn [mbind option_bind].
  pose proof (answered_ignore p ts [] Hp Hts) as Hig.
  destruct (Nat.eqb_spec (length a_) 13) as [Hlen|]; [|done]. cbn [negb].
  destruct (lookup_token a_ (i_ + 2)) as [v2 ->]; [lia|]. cbn [mbind option_bind].
  destruct (negb (starts_digit v2)); [done|].
  destruct (lookup_token a_ (i_ + 5)) as [v5 ->]; [lia|]. cbn [mbind option_bind].
  destruct (negb (starts_digit v5)); [done|]. set (x_ := atoi v2). set (y_ := atoi v5).
  destruct (_ || _ || _ || _) eqn:Eout; [done|].
  destruct (place_block p x_ y_ Hp) as [?|[?|(Hx & Hy & [b Hb])]]; [lia..|].
  rewrite Hb. cbn [mbind option_bind].
  destruct (magplant_access_some (visitor t) b p _ _ Hp Hb) as [acc ->]. cbn [mbind option_bind].
  pose proof (plot_block _ _ _ _ Hp Hb) as (Hfg & _ & _ & Hsuck & _).
  unfold is_type in *. rewrite (get_some (fg b) Hfg) in *. cbn [mbind option_bind] in *.
  destruct (bool_decide _) eqn:Et; cbn [negb orb]; [|done]. specialize (Hsuck eq_refl).
  destruct acc; [|done]. cbn [negb].
  destruct (lookup_token a_ (i_ + 8)) as [v8 E8]; [lia|]. specialize (Hn v8 E8). rewrite E8. cbn [mbind option_bind].
  destruct (negb (starts_digit v8)); [done|].
  destruct (is_full _ b && _) eqn:Ef; [done|]. apply finish_ok; [done|done|].
  destruct (String.eqb cmd _); [eapply removed_from_ok; try done; lia|]. cbn [negb] in Ef. rewrite andb_true_r in Ef.
  eapply added_to_ok; try done; [lia|].
  assert (fg b <> 0) as Hfg0 by (intros E; rewrite E in Hsuck; discriminate).
  unfold is_full in Ef. rewrite (proj2 (Z.eqb_neq (fg b) 0)) in Ef by done.
  change (magplant (fg b) || (fg b =? 6948) || (fg b =? 6946)) with (sucker (fg b)) in Ef.
  rewrite Hsuck in Ef. cbn [andb] in Ef. lia.
Qed.

(** *** Remotes *)

Lemma magnetron_held j k i x y t ts : ts !! k = Some t -> held j (<[k := set_magnetron i x y t]> ts) = held j ts.
Proof. intros H. rewrite (held_insert _ _ t) by done. cbn [bag set_magnetron]. lia. Qed.

Lemma magnetron_rebagged k i x y t ts ts' : rebagged ts ts' -> ts' !! k = Some t ->
  rebagged ts (<[k := set_magnetron i x y t]> ts').
Proof.
  intros [H L] Ht. split; [|by rewrite length_insert]. apply list.Forall_insert; [done|].
  by destruct (Forall_lookup_1 _ _ _ _ H Ht).
Qed.

Lemma rebagged_trans ts ts1 ts2 : rebagged ts ts1 -> rebagged ts1 ts2 -> rebagged ts ts2.
Proof. intros [_ L1] [H2 L2]. split; [done|congruence]. Qed.

Lemma rebagged_lookup ts ts' k t : rebagged ts ts' -> ts !! k = Some t -> exists t', ts' !! k = Some t'.
Proof.
  intros [_ L] Ht%lookup_lt_Some. destruct (lookup_lt_is_Some_2 ts' k) as [t' E]; [lia|]. by exists t'.
Qed.

Lemma remote_in_table : in_table REMOTE /\ in_table 9158.
Proof. unfold in_table, REMOTE. lia. Qed.

Lemma remote_gone k ts t : Forall farmer_ok ts -> ts !! k = Some t ->
  exists ts' es, remove_all modify k REMOTE ts = Some (ts', es) /\ rebagged ts ts' /\
    forall j, free j -> held j ts' = held j ts.
Proof.
  intros Hts Ht. destruct (remove_all_spec k REMOTE ts t Hts Ht) as (ts' & es & -> & Hre & Hh); [apply remote_in_table|].
  eexists _, _. split; [done|]. split; [done|]. intros j (H0 & H1 & _). by apply Hh.
Qed.

Lemma give_remote_spec k ts t : Forall farmer_ok ts -> ts !! k = Some t ->
  exists d ts' es, give_remote modify k ts = Some (d, ts', es) /\ rebagged ts ts' /\
    forall j, free j -> held j ts' = held j ts.
Proof.
  intros Hts Ht. unfold give_remote. destruct (remote_gone k ts t Hts Ht) as (ts1 & e1 & -> & H1 & Hh1).
  cbn [mbind option_bind]. destruct (rebagged_lookup _ _ _ _ H1 Ht) as [t1 Ht1].
  destruct (peer_modify k REMOTE 1 ts1 t1 (proj1 H1) Ht1) as (r & n & ts2 & e2 & -> & H2 & Hcase);
    [apply remote_in_table|lia|]. cbn [mbind option_bind].
  eexists _, _, _. split; [done|]. split; [by eapply rebagged_trans|]. intros j Hj. rewrite <- Hh1 by done.
  destruct Hcase as [(_ & _ & Hh2 & _)|[_ ->]]; [|done]. destruct Hj as (H0 & H5640 & _). rewrite Hh2 by done.
  rewrite (proj2 (Z.eqb_neq j REMOTE)) by done. lia.
Qed.

Lemma getplantationdevice_ok k x_ y_ b p ts t : plot_ok p -> Forall farmer_ok ts -> ts !! k = Some t ->
  answered p ts ('(ts, es) ← getplantationdevice items modify k x_ y_ b ts; Some (p, ts, es)).
Proof.
  intros Hp Hts Ht. unfold getplantationdevice.
  destruct (_ && _); [|by apply answered_ignore].
  destruct (give_remote_spec k ts t Hts Ht) as (d & ts1 & e1 & -> & H1 & Hh1). cbn [mbind option_bind].
  destruct (d =? 0); cbn [mbind option_bind]; cycle 1.
  { eexists _, _, _. split; [done|]. split; [done|]. split; [done|]. intros j Hj. unfold ledger. by rewrite Hh1. }
  destruct (name_some REMOTE) as [nm ->]; [apply remote_in_table|]. cbn [mbind option_bind].
  destruct (rebagged_lookup _ _ _ _ H1 Ht) as [t1 Ht1]. rewrite Ht1. cbn [mbind option_bind].
  eexists _, _, _. split; [done|]. split; [done|]. split; [by apply magnetron_rebagged|].
  intros j Hj. unfold ledger. by rewrite magnetron_held, Hh1.
Qed.

(** *** The item of a machine *)

Lemma worked_enabled i v p ts p1 ts1 es : worked i p ts (Some (true, p1, ts1, es)) ->
  worked i p ts (Some (true, set_enabled i v p1, ts1, es)).
Proof.
  intros (synced & p2 & ts2 & e2 & E & H1 & _ & H3 & H4 & H5). injection E as <- <- <- <-.
  eexists _, _, _, _. split; [done|]. split; [apply enabled_ok; [by intros []|done]|]. done.
Qed.

(** Another item for an empty machine. *)
Lemma worked_item i v on b p ts ts' es : plot_but (others i) p -> 0 <= i -> block_at (land p) i = Some b ->
  in_table v -> pr b = 0 -> rebagged ts ts' -> (forall j, free j -> held j ts' = held j ts) ->
  worked i p ts (Some (true, set_enabled i on (write i (set_id v b) p), ts', es)).
Proof.
  intros Hp Hi Hb Hv Hpr Hre Hh. apply worked_enabled, (worked_write i p ts ts' b); try done.
  - intros Hs. unfold machine_ok. cbn [pr fg id set_id Vending.set_machine]. rewrite Hpr.
    pose proof (cap_small 0 (fg b) ltac:(lia)). split; [lia|done].
  - intros j Hj. rewrite Hh by done. unfold stock. cbn [pr fg id set_id Vending.set_machine]. rewrite Hpr.
    by repeat destruct (_ && _).
Qed.

Lemma selectitem_ok k t_ i v b p ts t : plot_ok p -> Forall farmer_ok ts -> ts !! k = Some t -> 0 <= i ->
  block_at (land p) i = Some b -> 0 <= v -> worked i p ts (selectitem items k t_ i v b p ts).
Proof.
  intros Hp Hts Ht Hi Hb Hv. unfold selectitem. rewrite Ht. cbn [mbind option_bind].
  destruct (Z.leb_spec (size items) v); [by apply worked_stop|].
  destruct (_ || _ || _); cycle 1.
  { eexists _, _, _, _. split; [done|]. split; [by apply plot_others|]. do 3 (split; [done|]). by apply ledger_refl. }
  rewrite get_some by (unfold in_table; lia). cbn [mbind option_bind].
  destruct (Z.eqb_spec (pr b) 0); [|by apply worked_stop]. cbn [negb].
  destruct (_ || _); [by apply worked_stop|]. destruct (_ || _); [by apply worked_stop|].
  apply worked_item; try done; [by apply plot_others|unfold in_table; destruct (_ || _); lia].
Qed.

(** *** The buttons *)

Lemma retrieveitem_spec k x_ y_ b ts t : Forall farmer_ok ts -> ts !! k = Some t -> in_table (id b) ->
  exists es, retrieveitem items modify k x_ y_ b ts = Some (ts, es).
Proof.
  intros Hts Ht Hid. unfold retrieveitem. destruct (id b =? 0); [by eexists|].
  destruct (peer_count k (id b) ts t Hts Ht Hid) as (r & es & ->). cbn [mbind option_bind].
  destruct (_ <? 200); [|by eexists]. destruct (name_some (id b) Hid) as [nm ->]. by eexists.
Qed.

Lemma additem_spec k x_ y_ b ts t : Forall farmer_ok ts -> ts !! k = Some t -> in_table (id b) ->
  exists es, additem items modify k x_ y_ b ts = Some (ts, es).
Proof.
  intros Hts Ht Hid. unfold additem. destruct (id b =? 0); [by eexists|].
  destruct (peer_count k (id b) ts t Hts Ht Hid) as (r & es & ->). cbn [mbind option_bind].
  destruct (negb _); [|by eexists]. destruct (name_some (id b) Hid) as [nm ->]. by eexists.
Qed.

(** What a loop over tokens does is a body of a request. *)
Definition steps (i : Z) (p : Plot) (ts : list Farmer) (o : option (Plot * list Farmer * list effect)) : Prop :=
  worked i p ts ('(p, ts, es) ← o; Some (true, p, ts, es)).

Lemma steps_none i p ts es : plot_but (others i) p -> Forall farmer_ok ts -> is_Some (block_at (land p) i) ->
  steps i p ts (Some (p, ts, es)).
Proof.
  intros Hp Hts Hb. eexists _, _, _, _. split; [done|]. split; [done|]. do 3 (split; [done|]). by apply ledger_refl.
Qed.

Lemma clearitem_ok k x_ y_ i b p ts t : plot_but (others i) p -> Forall farmer_ok ts -> ts !! k = Some t -> 0 <= i ->
  block_at (land p) i = Some b -> steps i p ts (clearitem items modify k x_ y_ i b p ts).
Proof.
  intros Hp Hts Ht Hi Hb. unfold clearitem.
  destruct (negb (id b =? 0) && (pr b =? 0)) eqn:E; [|by apply steps_none]. rewrite Ht. cbn [mbind option_bind].
  assert (exists ts1 es, (if magplant (fg b) then unlink modify (length ts) 0%nat (if fg b =? 5638 then REMOTE else 9158)
      (world t) x_ y_ ts else Some (ts, [])) = Some (ts1, es) /\ rebagged ts ts1 /\
      forall j, free j -> held j ts1 = held j ts) as (ts1 & e1 & -> & Hre & Hh).
  { destruct (magplant (fg b)); [|by eexists _, _].
    destruct (unlink_spec (if fg b =? 5638 then REMOTE else 9158) (world t) x_ y_ (length ts) 0%nat ts Hts)
      as (ts1 & es & -> & Hre & Hh); [destruct (fg b =? 5638); apply remote_in_table|done|].
    eexists _, _. split; [done|]. split; [done|]. intros j (H0 & H1 & H2). apply Hh; [done|by destruct (fg b =? 5638)]. }
  cbn [mbind option_bind]. unfold get_sucker. destruct (plot_block _ _ _ _ Hp Hb) as (Hfg & _).
  cbn [fg set_id Vending.set_machine]. destruct (name_some (fg b) Hfg) as [nm ->].
  change (id (set_id 0 b) =? 0) with true. cbn [mbind option_bind]. unfold steps. cbn [mbind option_bind].
  apply worked_item; try done; [unfold in_table|]; lia.
Qed.

Lemma chk_token a : take_str 4 a = "chk_" -> a <> "" /\ is_Some (Texts.explode "_" a !! 1%nat).
Proof. intros H. split; [by intros ->|]. destruct (VendingFacts.chk_target a H) as [t ->]. by eexists. Qed.

Lemma machine_tokens_ok k x_ y_ i ts t l : forall p,
  plot_but (others i) p -> Forall farmer_ok ts -> ts !! k = Some t -> 0 <= i ->
  (exists b, block_at (land p) i = Some b /\ sucker (fg b) = true) -> list.last l = Some "" ->
  steps i p ts (machine_tokens items modify k x_ y_ i l p ts).
Proof.
  induction l as [|a l IH]; intros p Hp Hts Ht Hi (b & Hb & Hs) Hl; [done|]. cbn [machine_tokens].
  rewrite Hb, Ht. cbn [mbind option_bind]. destruct (machine_of _ _ _ _ Hp Hb Hs) as (_ & Hid & _).
  destruct (Forall_lookup_1 _ _ _ _ Hts Ht) as [_ Hcfg].
  assert (is_Some (block_at (land p) i)) as Hsome by by eexists.
  destruct (String.eqb a "retrieveitem").
  { destruct (retrieveitem_spec k x_ y_ b ts t Hts Ht Hid) as (es & ->). by apply steps_none. }
  destruct (String.eqb a "addstocks5000").
  { unfold addstocks5000. rewrite Hcfg. by apply steps_none. }
  destruct (String.eqb a "additem").
  { destruct (additem_spec k x_ y_ b ts t Hts Ht Hid) as (es & ->). by apply steps_none. }
  destruct (String.eqb a "clearitem"); [by eapply clearitem_ok|].
  assert (a <> "" -> list.last l = Some "") as Hl'.
  { intros Ha. destruct l; [|done]. injection Hl as ->. done. }
  destruct (String.eqb_spec (take_str 4 a) "chk_") as [Ec|_]; cycle 1.
  { destruct l as [|a' l]; [by apply steps_none|]. apply IH; try done. by exists b. }
  destruct (chk_token a Ec) as [Ha [target ->]]. specialize (Hl' Ha). cbn [mbind option_bind].
  destruct (String.eqb target "enablesucking"); [|apply IH; try done; by exists b].
  destruct l as [|v l]; [done|]. cbn [head mbind option_bind].
  destruct (IH (set_enabled i (enablesucking v (enabled p i)) p)) as (sy & p1 & ts1 & es & H); try done.
  - apply enabled_ok; [by intros []|done].
  - by exists b.
  - by exists sy, p1, ts1, es.
Qed.

Lemma itemsucker_block_ok k a_ i_ p ts t : plot_ok p -> Forall farmer_ok ts -> ts !! k = Some t ->
  (i_ <= 4)%nat -> list.last a_ = Some "" -> answered p ts (itemsucker_block items modify cfg gs k a_ i_ p ts).
Proof.
  intros Hp Hts Ht Hi Hlast. unfold itemsucker_block. rewrite Ht. cbn [mbind option_bind].
  pose proof (answered_ignore p ts [] Hp Hts) as Hig.
  destruct (existsb _ _) eqn:Hlen; [|done]. cbn [negb].
  assert (13 <= length a_)%nat as Hlen13 by (apply VendingFacts.has_size in Hlen; rewrite !elem_of_cons, elem_of_nil in Hlen; lia).
  destruct (lookup_token a_ (i_ + 2)) as [v2 ->]; [lia|]. cbn [mbind option_bind].
  destruct (negb (starts_digit v2)); [done|].
  destruct (lookup_token a_ (i_ + 5)) as [v5 ->]; [lia|]. cbn [mbind option_bind].
  destruct (negb (starts_digit v5)); [done|]. set (x_ := atoi v2). set (y_ := atoi v5).
  destruct (_ || _ || _ || _) eqn:Eout; [done|]. replace (max_x (land p)) with 100 by (symmetry; apply Hp).
  destruct (place_block p x_ y_ Hp) as [?|[?|(Hx & Hy & [b Hb])]]; [lia..|].
  clear Eout. destruct ((_ <? 0) || _); [done|].
  rewrite Hb. cbn [mbind option_bind].
  destruct (plot_block _ _ _ _ Hp Hb) as (Hfg & Hbg & _ & Hsuck & Hnot & Hlock & _).
  destruct (VendingFacts.block_access_some cfg gs (visitor t) (land p) b false false false false Hlock) as (acc & ->).
  cbn [mbind option_bind]. destruct (negb acc); [done|].
  set (t_ := if fg b =? 0 then bg b else fg b).
  assert (exists m, is_type items SUCKER t_ = Some m /\ (m = true -> sucker (fg b) = true)) as (m & -> & Hm).
  { assert (in_table t_) as Ht_ by (unfold t_; by destruct (fg b =? 0)).
    assert (exists m, is_type items SUCKER t_ = Some m) as [m Em]
      by (unfold is_type; rewrite get_some by done; by eexists).
    exists m. split; [done|]. intros ->. unfold t_ in Em. destruct (fg b =? 0); [done|by apply Hsuck]. }
  cbn [mbind option_bind]. destruct m; [|done]. cbn [negb]. specialize (Hm eq_refl).
  destruct (lookup_token a_ 11) as [v11 ->]; [lia|]. cbn [mbind option_bind].
  destruct (_ || _); [by eapply getplantationdevice_ok|].
  destruct (lookup_token a_ (i_ + 7)) as [v7 ->]; [lia|]. cbn [mbind option_bind].
  destruct (_ && _).
  - destruct (lookup_token a_ (i_ + 8)) as [v8 ->]; [lia|]. cbn [mbind option_bind].
    destruct (negb (starts_digit v8)); [done|]. apply finish_ok; [done|done|].
    pose proof (u32_range (atoi v8)). eapply selectitem_ok; try done; lia.
  - apply finish_ok; [done|done|]. eapply machine_tokens_ok; try done; [by apply plot_others|lia|by exists b].
Qed.

(** *** Punches *)

Lemma outside_not p x_ y_ : plot_ok p -> outside x_ y_ (land p) = false ->
  0 <= x_ < 100 /\ 0 <= y_ < max_y (land p) /\ exists b, block_at (land p) (x_ + y_ * 100) = Some b.
Proof.
  intros [[Hx [Hy Hall]] _ _ _] H. unfold outside in H. rewrite Hx in H. split; [lia|]. split; [lia|].
  destruct (Hall x_ y_) as [b Hb]; [lia..|]. by exists b.
Qed.

(** A machine that starts or ends to work is the same machine. *)
Lemma spun_ok x_ y_ v b p : plot_ok p -> 0 <= x_ < 100 -> 0 <= y_ < max_y (land p) ->
  block_at (land p) (x_ + y_ * 100) = Some b ->
  let b' := set_spin v b in
  let p' := sync x_ y_ (x_ + y_ * 100) b' (write (x_ + y_ * 100) b' p) in
  plot_ok p' /\ forall j, stored j p' = stored j p.
Proof.
  intros Hp Hx Hy Hb b' p'. assert (0 <= x_ + y_ * 100) as Hi by lia. split.
  - apply sync_ok; [|by rewrite (block_at_write _ _ _ _ b), Z.eqb_refl|done|done].
    apply (write_ok (λ _, True) (others (x_ + y_ * 100)) _ b); try done; [|by left].
    intros Hs. by apply (machine_of _ _ _ _ Hp Hb).
  - intros j. unfold p', stored. rewrite sync_land. fold (stored j (write (x_ + y_ * 100) b' p)).
    rewrite (stored_write j _ b) by done. change (stock j b') with (stock j b). unfold stored. lia.
Qed.

Lemma punch_magplant_ok now k access x_ y_ p ts t : plot_ok p -> Forall farmer_ok ts -> ts !! k = Some t ->
  answered p ts (punch_magplant items modify dropChance now k access x_ y_ p ts).
Proof.
  intros Hp Hts Ht. unfold punch_magplant. destruct (outside _ _ _) eqn:Eo; [by apply answered_ignore|].
  destruct (outside_not p x_ y_ Hp Eo) as (Hx & Hy & b & Hb). rewrite Hb, Ht. cbn [mbind option_bind].
  destruct (plot_block _ _ _ _ Hp Hb) as (Hfg & _).
  destruct (_ && _ && _); [|by apply answered_ignore]. destruct (id b =? 0).
  { destruct (name_some (fg b) Hfg) as [nm ->]. by apply answered_ignore. }
  destruct (spun_ok x_ y_ (negb (spin b)) b p Hp Hx Hy Hb) as [Hok Hst].
  set (p' := sync _ _ _ _ _) in *. clearbody p'.
  destruct (spin (set_spin _ b)).
  - destruct (give_remote_spec k ts t Hts Ht) as (d & ts1 & e1 & -> & H1 & Hh1). cbn [mbind option_bind].
    destruct (name_some REMOTE) as [nm ->]; [apply remote_in_table|]. cbn [mbind option_bind].
    destruct (rebagged_lookup _ _ _ _ H1 Ht) as [t1 Ht1]. rewrite Ht1. cbn [mbind option_bind].
    eexists _, _, _. split; [done|]. split; [done|]. split; [by apply magnetron_rebagged|].
    intros j Hj. unfold ledger. by rewrite magnetron_held, Hh1, Hst.
  - destruct (remote_gone k ts t Hts Ht) as (ts1 & e1 & -> & H1 & Hh1). cbn [mbind option_bind].
    destruct (rebagged_lookup _ _ _ _ H1 Ht) as [t1 Ht1]. rewrite Ht1. cbn [mbind option_bind].
    eexists _, _, _. split; [done|]. split; [done|]. destruct (_ && _).
    + split; [by apply magnetron_rebagged|]. intros j Hj. unfold ledger. by rewrite magnetron_held, Hh1, Hst.
    + split; [done|]. intros j Hj. unfold ledger. by rewrite Hh1, Hst.
Qed.

(** *** Breaking *)

Lemma place_eq m x_ y_ : 0 <= mx m < 100 -> 0 <= x_ < 100 ->
  place m = x_ + y_ * 100 <-> machine_at x_ y_ m = true.
Proof. unfold place, machine_at. lia. Qed.

(** The entries that [reset_] leaves are those of the other blocks. *)
Lemma reset_entries p x_ y_ m : plot_ok p -> 0 <= x_ < 100 ->
  m ∈ match list_find (λ m, machine_at x_ y_ m = true) (machines p) with
      | Some (n, _) => delete n (machines p)
      | None => machines p
      end -> m ∈ machines p /\ place m <> x_ + y_ * 100.
Proof.
  intros [_ _ H3 H4] Hx Hin. rewrite list.Forall_forall in H3.
  destruct (list_find _ _) as [[n e]|] eqn:E.
  - apply list_find_Some in E as (El & Hat & _).
    assert (m ∈ machines p) as Hm by (eapply elem_of_sublist; [exact Hin|apply sublist_delete]).
    split; [done|]. intros Ep. destruct (H3 m Hm) as (B1 & _).
    destruct (H3 e ltac:(by eapply list_elem_of_lookup_2)) as (B2 & _).
    apply (place_eq e x_ y_) in Hat; [|done|done].
    apply list_elem_of_lookup in Hin as [k Hk].
    assert (forall q, machines p !! q = Some m -> q = n) as Huniq.
    { intros q Hq. eapply NoDup_lookup; [exact H4|by rewrite list_lookup_fmap, Hq|].
      rewrite list_lookup_fmap, El. cbn. congruence. }
    destruct (decide (k < n)%nat).
    + rewrite list_lookup_delete_lt in Hk by done. specialize (Huniq _ Hk). lia.
    + rewrite list_lookup_delete_ge in Hk by lia. specialize (Huniq _ Hk). lia.
  - apply list_find_None in E. rewrite list.Forall_forall in E. split; [done|].
    intros Ep. destruct (H3 m Hin) as (B1 & _). apply (E m Hin). by apply place_eq.
Qed.

Lemma reset_ok x_ y_ b p :
  is_type items SUCKER 0 <> Some true -> plot_ok p -> 0 <= x_ < 100 -> 0 <= y_ ->
  block_at (land p) (x_ + y_ * 100) = Some b -> plot_ok (reset_ x_ y_ (x_ + y_ * 100) b p).
Proof.
  intros Hzero Hp Hx Hy Hb. pose proof Hp as [[Hmx [Hmy Hall]] H2 H3 H4].
  set (i := x_ + y_ * 100) in *. assert (0 <= i) as Hi by lia.
  set (b' := mkBlock 0 (if fg b =? 0 then 0 else bg b) (locked b) (lock_origin b) "" [] false 0 0 0 0).
  assert (forall j, is_Some (block_at (land p) j) -> is_Some (block_at (land (write i b' p)) j)) as Hsome.
  { intros j Hj. rewrite (block_at_write i b' p j b) by done. by destruct (j =? i). }
  pose proof (plot_block _ p i b Hp Hb) as (A1 & A2 & A3 & A4 & A5 & A6 & A7).
  constructor.
  - split; [done|]. split; [done|]. intros x y Hx' Hy'. apply Hsome. by apply Hall.
  - change (Forall (block_ok (land (write i b' p))) (blocks (land (write i b' p)))).
    apply list.Forall_insert.
    + eapply list.Forall_impl; [done|]. intros c (C1 & C2 & C3 & C4 & C5 & C6 & C7).
      do 5 (split; [done|]). split; [|done]. intros Hl. by apply Hsome, C6.
    + unfold block_ok, in_table in *. cbn [fg bg locked lock_origin b'].
      split; [lia|]. split; [destruct (fg b =? 0); lia|]. split; [lia|].
      split; [intros Hz; by destruct Hzero|]. split; [by destruct (fg b =? 0)|].
      split; [|done]. intros Hl. by apply Hsome, A6.
  - apply list.Forall_forall. intros m Hin. destruct (reset_entries p x_ y_ m Hp Hx Hin) as [Hm Hne].
    rewrite list.Forall_forall in H3. destruct (H3 m Hm) as (B1 & B2 & c & Hc & Hidm & Ha).
    split; [done|]. split; [done|]. exists c.
    change (land (reset_ x_ y_ i b p)) with (land (write i b' p)).
    rewrite (block_at_write i b' p _ b) by done. rewrite (proj2 (Z.eqb_neq (place m) i) Hne).
    split; [done|]. split; [done|]. intros _ Hs. destruct (Ha I Hs) as [Ha1 Ha2]. split; [|done].
    cbn [enabled reset_]. by rewrite (proj2 (Z.eqb_neq (place m) i) Hne).
  - cbn [machines reset_]. destruct (list_find _ _) as [[n e]|]; [|done].
    eapply sublist_NoDup; [exact H4|]. apply fmap_sublist, sublist_delete.
Qed.

(** An empty machine is broken: of what it held nothing is lost. *)
Lemma reset_stored j x_ y_ b p : 0 <= x_ + y_ * 100 -> block_at (land p) (x_ + y_ * 100) = Some b ->
  stock j b = 0 -> stored j (reset_ x_ y_ (x_ + y_ * 100) b p) = stored j p.
Proof.
  intros Hi Hb Hs. set (b' := mkBlock 0 (if fg b =? 0 then 0 else bg b) (locked b) (lock_origin b) "" [] false 0 0 0 0).
  change (stored j (reset_ x_ y_ (x_ + y_ * 100) b p)) with (stored j (write (x_ + y_ * 100) b' p)).
  rewrite (stored_write j _ b) by done. unfold stock at 2. cbn. lia.
Qed.

Lemma break_machine_ok pickup gems k x_ y_ p ts :
  is_type items SUCKER 0 <> Some true -> plot_ok p -> Forall farmer_ok ts -> (k < length ts)%nat ->
  exists taken p' ts' es, break_machine items modify pickup gems k x_ y_ p ts = Some (taken, p', ts', es) /\
    plot_ok p' /\ rebagged ts ts' /\
    (taken = true -> is_Some (block_at (land p) (x_ + y_ * 100))) /\
    forall j, free j -> ledger j p' ts' = ledger j p ts +
      (if taken then match block_at (land p) (x_ + y_ * 100) with
                     | Some b => if j =? fg b then 1 else 0
                     | None => 0
                     end else 0).
Proof.
  intros Hzero Hp Hts Hk. destruct (lookup_lt_is_Some_2 ts k Hk) as [t Ht].
  assert (forall es, exists taken p' ts' es', Some (false, p, ts, es : list effect) = Some (taken, p', ts', es') /\
    plot_ok p' /\ rebagged ts ts' /\ (taken = true -> is_Some (block_at (land p) (x_ + y_ * 100))) /\
    forall j, free j -> ledger j p' ts' = ledger j p ts +
      (if taken then match block_at (land p) (x_ + y_ * 100) with
                     | Some b => if j =? fg b then 1 else 0 | None => 0 end else 0)) as Hstay.
  { intros es. eexists _, _, _, _. split; [done|]. split; [done|]. split; [by split|]. split; [done|].
    intros j _. cbn. lia. }
  unfold break_machine. destruct (outside _ _ _) eqn:Eo; [apply Hstay|].
  destruct (outside_not p x_ y_ Hp Eo) as (Hx & Hy & b & Hb). rewrite Hb in *. cbn [mbind option_bind].
  rewrite Ht. cbn [mbind option_bind].
  pose proof (plot_block _ p _ b Hp Hb) as (A1 & A2 & A3 & A4 & A5 & A6 & A7).
  destruct (is_type items SUCKER (fg b)) as [machine|] eqn:Et; cycle 1.
  { exfalso. unfold is_type, get_item, in_table in *.
    by replace ((0 <=? fg b) && (fg b <? size items)) with true in Et by lia. }
  cbn [mbind option_bind]. destruct machine; cbn [negb]; [|apply Hstay].
  specialize (A4 eq_refl). destruct (A7 A4) as (Hpr & _ & _).
  destruct (name_some (fg b) A1) as [nm Enm].
  destruct (Z.ltb_spec 0 (pr b)); [rewrite Enm; apply Hstay|].
  assert (forall j, stock j b = 0) as Hstock by (intros j; unfold stock; destruct (_ && _); lia).
  assert (proper (fg b) = true) as Hproper by (unfold sucker, magplant, proper in *; cbn in A4; lia).
  destruct (proper_spec _ A1 Hproper) as [Hs H112].
  destruct (Forall_lookup_1 _ _ _ _ Hts Ht) as [Hbag Hcfg].
  pose proof (reset_ok x_ y_ b p Hzero Hp Hx ltac:(lia) Hb) as Hreset.
  destruct (pickup (fg b)).
  - destruct (accepts_dec (fg b) 1 (inv (bag t)) ltac:(lia)) as [Ha|Ha].
    + destruct (modify_ok items prices wf g1 g2 fuel false false (fg b) 1 (bag t)) as (r & -> & Hr & Hm);
        try done; try lia. cbn [mbind option_bind]. rewrite Hr, Enm. change (0 =? 0) with true. cbv iota.
      cbn [mbind option_bind]. eexists _, _, _, _. split; [done|]. split; [done|].
      split; [split; [apply list.Forall_insert; [done|]; split; [by eapply moved_settled|done]|by rewrite length_insert]|].
      split; [by eexists|]. intros j (Hj & _). unfold ledger.
      rewrite reset_stored by (done || lia). rewrite (held_insert _ _ t) by done. cbn [bag set_bag].
      destruct Hm as (_ & _ & _ & [Hx1 Ho] & _). destruct (Z.eqb_spec j (fg b)) as [->|E]; [lia|].
      rewrite Ho by done. lia.
    + destruct (modify_refused items prices wf g1 g2 fuel false false (fg b) 1 (bag t)) as (r & -> & Hr & Hpl);
        try done; try lia. cbn [mbind option_bind]. rewrite Hr, Hpl, bag_same, list_insert_id by done.
      change (-1 =? 0) with false. cbv iota. apply Hstay.
  - destruct (negb (gems (fg b)) && magplant (fg b)).
    + destruct (unlink_spec REMOTE (name (land p)) x_ y_ (length ts) 0%nat ts Hts) as (ts1 & es & -> & Hre & Hh);
        [apply remote_in_table|done|]. cbn [mbind option_bind]. eexists _, _, _, _. split; [done|].
      split; [done|]. split; [done|]. split; [done|]. intros j (H0 & H1 & _). unfold ledger.
      rewrite reset_stored by (done || lia). rewrite Hh by done. lia.
    + cbn [mbind option_bind]. eexists _, _, _, _. split; [done|]. split; [done|]. split; [by split|].
      split; [done|]. intros j _. unfold ledger. rewrite reset_stored by (done || lia). lia.
Qed.

(** ** Collected drops *)

(** The machine of the entry [m] takes [d]. *)
Definition accepts_drop (p : Plot) (d : Drops.WorldDrop) (m : WorldMachines) (b : WorldBlock) : Prop :=
  block_at (land p) (place m) = Some b /\ sucker (fg b) = true /\ enabled p (place m) = true /\
  id b = Drops.d_id d /\ pr b < cap 0 (fg b).

Lemma takes_spec p d m : plot_ok p -> m ∈ machines p ->
  exists ok, takes p d m = Some ok /\ (ok = true <-> exists b, accepts_drop p d m b).
Proof.
  intros Hp Hin. pose proof (po_machines _ _ Hp) as Hm. rewrite list.Forall_forall in Hm.
  destruct (Hm m Hin) as (_ & _ & b & Hb & Hid & Ha). destruct (plot_block _ _ _ _ Hp Hb) as (_ & _ & H6954 & _).
  assert (forall c, accepts_drop p d m c -> c = b) as Huniq by (intros c (Hc & _); congruence).
  assert (collects (fg b) = sucker (fg b)) as Hcol by (unfold collects, sucker, magplant; cbn; lia).
  unfold takes. rewrite Hid, Hcol. destruct (sucker (fg b)) eqn:Es; cbn [andb negb]; cycle 1.
  { exists false. split; [done|]. split; [done|]. intros [c Hc]. rewrite (Huniq c Hc) in Hc. destruct Hc as (_ & Hc & _). congruence. }
  destruct (Ha I eq_refl) as [-> ->]. destruct (enabled p (place m)) eqn:Eon; cbn [negb]; cycle 1.
  { exists false. split; [done|]. split; [done|]. intros [c (_ & _ & Hc & _)]. congruence. }
  rewrite (proj2 (Z.eqb_neq (fg b) 6954)) by done. cbn [mbind option_bind]. fold (place m). rewrite Hb. cbn [mbind option_bind].
  unfold amount. rewrite (proj2 (Z.eqb_neq (fg b) 6954)), (sucker_cap 100000) by done.
  destruct (Z.eqb_spec (id b) (Drops.d_id d)) as [E|E]; cycle 1.
  { exists false. split; [done|]. split; [done|]. intros [c Hc]. rewrite (Huniq c Hc) in Hc. by destruct Hc as (_ & _ & _ & Hc & _). }
  exists (pr b <? cap 0 (fg b)). split; [done|]. rewrite Z.ltb_lt. split.
  - intros Hlt. by exists b.
  - intros [c Hc]. rewrite (Huniq c Hc) in Hc. by destruct Hc as (_ & _ & _ & _ & Hc).
Qed.

Lemma first_taking_spec p d l : plot_ok p -> l ⊆ machines p ->
  exists o, first_taking p d l = Some o /\
    match o with
    | Some m => m ∈ l /\ exists b, accepts_drop p d m b
    | None => forall m b, m ∈ l -> ~ accepts_drop p d m b
    end.
Proof.
  intros Hp. induction l as [|m l IH]; intros Hl; cbn [first_taking].
  { exists None. split; [done|]. by intros m b Hin%elem_of_nil. }
  destruct (takes_spec p d m Hp) as (ok & -> & Hok); [apply Hl; left|]. cbn [mbind option_bind]. destruct ok.
  { exists (Some m). split; [done|]. split; [left|]. by apply Hok. }
  destruct IH as (o & -> & Ho); [set_solver|]. exists o. split; [done|]. destruct o as [m'|].
  - destruct Ho as [Hin Hb]. split; [by right|done].
  - intros m' b [->|Hin]%elem_of_cons Hm'; [|by eapply Ho]. assert (false = true) by (apply Hok; by exists b). done.
Qed.

Lemma use_mag_spec d x_ y_ p ts :
  plot_ok p -> 0 < Drops.d_id d -> 0 <= Drops.d_count d <= 200 ->
  exists taken p' es, use_mag to_float d x_ y_ p ts = Some (taken, p', es) /\ plot_ok p' /\
    if taken : bool then
      exists m b, m ∈ machines p /\ accepts_drop p d m b /\
        p' = write (place m) (Vending.set_pr (pr b + Drops.d_count d) b) p
    else p' = p /\ forall m b, m ∈ machines p -> ~ accepts_drop p d m b.
Proof.
  intros Hp Hd Hc. unfold use_mag.
  destruct (first_taking_spec p d (machines p) Hp) as (o & -> & Ho); [done|]. cbn [mbind option_bind].
  destruct o as [m|]; [|by eexists false, p, _].
  destruct Ho as [Hin [b Ha]]. pose proof Ha as (Hb & Hs & Hon & Hid & Hroom).
  destruct (plot_block _ _ _ _ Hp Hb) as (_ & _ & H6954 & _). destruct (machine_of _ _ _ _ Hp Hb Hs) as (Hpr & Hi & _).
  pose proof (cap_small 0 (fg b) ltac:(lia)).
  assert (0 <= place m) as H0.
  { pose proof (po_machines _ _ Hp) as Hm. rewrite list.Forall_forall in Hm. destruct (Hm m Hin) as (? & ? & _). unfold place. lia. }
  fold (place m). rewrite Hb. cbn [mbind option_bind]. unfold store. rewrite (proj2 (Z.eqb_neq (fg b) 6954)) by done.
  rewrite i32_small by lia. eexists true, _, _. split; [done|]. split.
  - apply (write_ok (λ _, True) (λ _, True) _ b); try done; [|by left]. intros _. unfold machine_ok.
    cbn [pr fg id Vending.set_pr Vending.set_machine]. split; [lia|]. split; [done|lia].
  - by exists m, b.
Qed.

(** ** Runs *)

(** Which items go into the bag when they are broken, and which give gems;
    the item 0 is no machine. *)
Context (pickup gems : Z -> bool).
Hypothesis Hzero : is_type items SUCKER 0 <> Some true.

Inductive event :=
| Exchange (k : nat) (a_ : list string) (i_ : nat)       (* items in and out, by player [k] *)
| Settings (k : nat) (a_ : list string) (i_ : nat)       (* [itemsucker_block] *)
| Punch (now : Z) (k : nat) (access : bool) (x_ y_ : Z)
| Break (k : nat) (x_ y_ : Z)                            (* player [k] breaks a machine *)
| Fall (d : Drops.WorldDrop) (x_ y_ : Z).                (* a drop that machines may take *)

(** The name of the dialog is where the client writes it, a request ends
    with a line feed, and drops are as they fall from blocks. *)
Definition genuine (ts : list Farmer) (e : event) : Prop :=
  match e with
  | Exchange k a_ i_ => (k < length ts)%nat /\ is_Some (a_ !! i_) /\ (i_ <= 4)%nat /\ counted a_ i_
  | Settings k a_ i_ => (k < length ts)%nat /\ (i_ <= 4)%nat /\ list.last a_ = Some ""
  | Punch _ k _ _ _ => (k < length ts)%nat
  | Break k _ _ => (k < length ts)%nat
  | Fall d _ _ => 0 < Drops.d_id d /\ 0 <= Drops.d_count d <= 200
  end.

(** What happens, and what is collected. *)
Definition serve (e : event) (p : Plot) (ts : list Farmer) : option (Plot * list Farmer * list Drops.WorldDrop) :=
  match e with
  | Exchange k a_ i_ => '(p, ts, _) ← item_moved items modify k a_ i_ p ts; Some (p, ts, [])
  | Settings k a_ i_ => '(p, ts, _) ← itemsucker_block items modify cfg gs k a_ i_ p ts; Some (p, ts, [])
  | Punch now k access x_ y_ => '(p, ts, _) ← punch_magplant items modify dropChance now k access x_ y_ p ts; Some (p, ts, [])
  | Break k x_ y_ =>
      '(taken, p', ts, _) ← break_machine items modify pickup gems k x_ y_ p ts;
      Some (p', ts, match block_at (land p) (x_ + y_ * 100) with
                    | Some b => if taken : bool then [Drops.mkWorldDrop (fg b) 1 0 0 0] else []
                    | None => []
                    end)
  | Fall d x_ y_ => '(taken, p, _) ← use_mag to_float d x_ y_ p ts; Some (p, ts, if taken : bool then [d] else [])
  end.

Fixpoint play (l : list event) (p : Plot) (ts : list Farmer) : option (Plot * list Farmer * list Drops.WorldDrop) :=
  match l with
  | [] => Some (p, ts, [])
  | e :: l =>
      '(p, ts, got) ← serve e p ts;
      '(p, ts, got') ← play l p ts;
      Some (p, ts, got ++ got')
  end.

Lemma total_app {A} (f : A -> Z) l l' : VendingFacts.total f (l ++ l') = VendingFacts.total f l + VendingFacts.total f l'.
Proof. unfold VendingFacts.total. induction l as [|x l IH]; cbn [fold_right app]; lia. Qed.

Definition collected (j : Z) (got : list Drops.WorldDrop) : Z :=
  VendingFacts.total (λ d, if Drops.d_id d =? j then Drops.d_count d else 0) got.

Lemma answered_serve p ts o : answered p ts o ->
  exists p' ts', ('(p, ts, _) ← o; Some (p, ts, [] : list Drops.WorldDrop)) = Some (p', ts', []) /\
    plot_ok p' /\ same_ledger p ts p' ts'.
Proof. intros (p' & ts' & es & -> & H). by exists p', ts'. Qed.

Lemma serve_ok e p ts : plot_ok p -> Forall farmer_ok ts -> genuine ts e ->
  exists p' ts' got, serve e p ts = Some (p', ts', got) /\ plot_ok p' /\ rebagged ts ts' /\
    forall j, free j -> ledger j p' ts' = ledger j p ts + collected j got.
Proof.
  intros Hp Hts Hg.
  assert (forall o, answered p ts o -> exists p' ts' got,
    ('(p, ts, _) ← o; Some (p, ts, [] : list Drops.WorldDrop)) = Some (p', ts', got) /\ plot_ok p' /\ rebagged ts ts' /\
    forall j, free j -> ledger j p' ts' = ledger j p ts + collected j got) as Hans.
  { intros o Ho. destruct (answered_serve p ts o Ho) as (p' & ts' & -> & Hok & Hre & Hl). eexists _, _, _.
    split; [done|]. split; [done|]. split; [done|]. intros j Hj. rewrite Hl by done. cbn. lia. }
  destruct e as [k a_ i_|k a_ i_|now k access x_ y_|k x_ y_|d x_ y_]; cbn [genuine serve] in *.
  - destruct Hg as (Hk & [cmd Hcmd] & Hi & Hn). destruct (lookup_lt_is_Some_2 ts k Hk) as [t Ht].
    apply Hans. by eapply item_moved_ok.
  - destruct Hg as (Hk & Hi & Hl). destruct (lookup_lt_is_Some_2 ts k Hk) as [t Ht].
    apply Hans. by eapply itemsucker_block_ok.
  - destruct (lookup_lt_is_Some_2 ts k Hg) as [t Ht]. apply Hans. by eapply punch_magplant_ok.
  - destruct (break_machine_ok pickup gems k x_ y_ p ts Hzero Hp Hts Hg)
      as (taken & p' & ts' & es & -> & Hok & Hre & Hin & Hl). cbn [mbind option_bind].
    eexists _, _, _. split; [done|]. split; [done|]. split; [done|]. intros j Hj. rewrite Hl by done.
    destruct taken; [|destruct (block_at _ _); cbn; lia]. destruct (Hin eq_refl) as [b ->].
    unfold collected, VendingFacts.total. cbn [fold_right Drops.d_id Drops.d_count].
    rewrite Z.eqb_sym. destruct (_ =? _); lia.
  - destruct Hg as [Hd Hc].
    destruct (use_mag_spec d x_ y_ p ts Hp Hd Hc) as (taken & p' & es & -> & Hok & Ht). cbn [mbind option_bind].
    eexists _, _, _. split; [done|]. split; [done|]. split; [by split|]. intros j Hj. unfold ledger.
    destruct taken; [|destruct Ht as [-> _]; cbn; lia].
    destruct Ht as (m & b & Hin & (Hb & Hs & _ & Hid & _) & ->). cbn [collected VendingFacts.total fold_right].
    assert (0 <= place m) by (unfold block_at in Hb; destruct (Z.ltb_spec (place m) 0); [done|lia]).
    rewrite (stored_write j _ b) by done. unfold stock, collected, VendingFacts.total.
    cbn [fg id pr Vending.set_pr Vending.set_machine fold_right]. rewrite Hs, <- Hid. cbn [andb]. destruct (id b =? j); lia.
Qed.

(** C5: The machines account for every item. Let players without config
    access, whose bags are settled (well formed, infinite mode and the
    automatic conversions and sales off), in any order put items into the
    machines of a world and take them out — where the number of the request
    is not negative as an [int] —, choose and clear items, get remotes, change
    the settings, punch machines and break them, with the name of the dialog
    among the first five lines and a line feed at the end of the settings,
    while drops of at most 200 items fall and machines collect them. The table
    has between 9159 and 65536 items, of which 0 is no machine; the world is
    100 wide, every locked block of it has its lock, no block is the machine
    6954, and its machines are those with a remote, 6946 and 6948 and in order
    at first: each entry tells what its block is, no two are of one block, and
    no machine holds less than nothing or more than its limit and 199. Then
    every request is answered; the machines are in order in the end; and of
    every item that is no remote (5640, 9158) the bags and the machines
    together have what they had, and what was collected, with the broken
    machines that went into a bag. *)
Theorem suckers_always_ok l p ts :
  plot_ok p -> Forall farmer_ok ts -> Forall (genuine ts) l ->
  exists p' ts' got, play l p ts = Some (p', ts', got) /\ plot_ok p' /\ Forall farmer_ok ts' /\
    forall j, free j -> ledger j p' ts' = ledger j p ts + collected j got.
Proof.
  intros Hp Hts Hl. revert p ts Hp Hts Hl. induction l as [|e l IH]; intros p ts Hp Hts Hl; cbn [play].
  { eexists _, _, _. split; [done|]. do 2 (split; [done|]). intros j _. cbn. lia. }
  apply list.Forall_cons in Hl as [He Hl].
  destruct (serve_ok e p ts Hp Hts He) as (p1 & ts1 & got & -> & Hp1 & [Hts1 L1] & Hl1). cbn [mbind option_bind].
  destruct (IH p1 ts1 Hp1 Hts1) as (p2 & ts2 & got2 & -> & Hp2 & Hts2 & Hl2).
  { eapply list.Forall_impl; [exact Hl|]. intros [] Hg; cbn [genuine] in *; try rewrite L1; done. }
  cbn [mbind option_bind]. eexists _, _, _. split; [done|]. do 2 (split; [done|]). intros j Hj.
  rewrite Hl2, Hl1 by done. unfold collected. rewrite total_app. lia.
Qed.

(** A drop is collected whole, by a machine that holds its kind, or not
    at all. In a plot in order, for a drop of at most 200, [use_mag] returns;
    either it takes the drop, and then the [count] of the first machine that
    is enabled, holds this item and is not full grows by exactly the count of
    the drop and nothing else of the plot changes, or no machine is enabled,
    holds this item and has room, and the plot is unchanged. The plot stays
    in order. *)
Theorem use_mag_stores d x_ y_ p ts :
  plot_ok p -> 0 < Drops.d_id d -> 0 <= Drops.d_count d <= 200 ->
  exists taken p' es, use_mag to_float d x_ y_ p ts = Some (taken, p', es) /\ plot_ok p' /\
    if taken : bool then
      exists m b, m ∈ machines p /\ accepts_drop p d m b /\
        p' = write (place m) (Vending.set_pr (pr b + Drops.d_count d) b) p
    else p' = p /\ forall m b, m ∈ machines p -> ~ accepts_drop p d m b.
Proof. apply use_mag_spec. Qed.

(** *** How many items a request moves *)

(** The bag takes [c] items. *)
Lemma peer_give k id c ts t : Forall farmer_ok ts -> ts !! k = Some t -> in_table id -> proper id = true ->
  0 < c -> contains id (inv (bag t)) + c <= 200 -> 0 < contains id (inv (bag t)) \/ 0 < Get_Slots (bag t) ->
  exists n ts' t' es, peer k id c ts = Some (0, n, ts', es) /\ ts' !! k = Some t' /\
    contains id (inv (bag t')) = contains id (inv (bag t)) + c.
Proof.
  intros Hts Ht Hid Hpr Hc Hroom Hslot. destruct (proper_spec id Hid Hpr) as [Hs H112].
  destruct (Forall_lookup_1 _ _ _ _ Hts Ht) as [Hb _]. pose proof (settled_contains (bag t) id Hb ltac:(lia)).
  assert (accepts id c (inv (bag t))) as Ha.
  { destruct (Z.eq_dec (contains id (inv (bag t))) 0) as [E|E]; [|unfold accepts; split_and!; lia].
    apply (VendingFacts.give_room items); try done. lia. }
  unfold modify_peer. rewrite Ht. cbn [mbind option_bind].
  destruct (modify_ok items prices wf g1 g2 fuel true false id c (bag t) Hb Hs H112 ltac:(lia) Ha)
    as (r & -> & Hr & Hm). cbn [mbind option_bind]. rewrite Hr.
  destruct Hm as (_ & _ & _ & [Hx _] & _). eexists _, _, _, _. split; [done|].
  rewrite list_lookup_insert_eq by (by eapply lookup_lt_Some). by split.
Qed.

Lemma set_pr_same v b : v = pr b -> Vending.set_pr v b = b.
Proof. intros ->. by destruct b. Qed.

Lemma clipped_value n c : 0 <= n <= 2000000199 -> 0 <= c <= 200 ->
  clipped n c = if (c <? n) && (n <=? 200) && (200 <? n + c) then 200 - n else Z.min n (200 - c).
Proof.
  intros Hn Hc. unfold clipped. rewrite i32_small by lia.
  destruct (Z.ltb_spec 200 (n + c)), (Z.ltb_spec 200 n), (Z.ltb_spec c n), (Z.leb_spec n 200); cbn [andb]; lia.
Qed.

(** C26: What a player gets out of a machine. A player who asks for [n] items
    of a machine that has them, carrying [c] of the item and with room for
    it, gets as many as fit, [min n (200 - c)] - except when [n] is more than
    [c] and together they are more than 200, where it gets only [200 - n].
    The machine has exactly so many less. *)
Theorem retrieved_amount k i n b p ts t :
  plot_ok p -> Forall farmer_ok ts -> ts !! k = Some t -> 0 <= i -> block_at (land p) i = Some b ->
  sucker (fg b) = true -> proper (id b) = true -> 0 <= n <= pr b ->
  let c := contains (id b) (inv (bag t)) in
  let m := if (c <? n) && (n <=? 200) && (200 <? n + c) then 200 - n else Z.min n (200 - c) in
  0 < c \/ 0 < Get_Slots (bag t) ->
  exists ts' t' es,
    removed_from modify k i n b p ts = Some (true, write i (Vending.set_pr (pr b - m) b) p, ts', es) /\
    ts' !! k = Some t' /\ contains (id b) (inv (bag t')) = c + m.
Proof.
  intros Hp Hts Ht Hi Hb Hs Hpp Hn c m Hslot. destruct (machine_of _ _ _ _ Hp Hb Hs) as (Hpr & Hid & _).
  destruct (plot_block _ _ _ _ Hp Hb) as (_ & _ & H6954 & _). pose proof (cap_small 0 (fg b) ltac:(lia)).
  pose proof (counted_range (id b) ts k t Hts Ht Hid) as Hc. rewrite Hpp in Hc. fold c in Hc.
  unfold removed_from. rewrite Ht. cbn [mbind option_bind]. unfold amount.
  rewrite !(proj2 (Z.eqb_neq (fg b) 6954)) by done. replace (pr b <? n) with false by lia.
  destruct (peer_count k (id b) ts t Hts Ht Hid) as (r1 & e1 & ->). cbn [mbind option_bind].
  rewrite Hpp. fold c. destruct (clipped_range n c ltac:(lia) Hc) as [Hm1 Hm2].
  rewrite (clipped_value n c) in * by lia. fold m in Hm1, Hm2 |- *. clearbody m.
  replace ((pr b <? m) || (200 <? c + m)) with false by lia.
  destruct (Z.eq_dec m 0) as [->|Hm].
  - destruct (peer_modify k (id b) 0 ts t Hts Ht Hid ltac:(lia)) as (r & x & ts' & e2 & -> & Hre & Hcase).
    cbn [mbind option_bind]. rewrite (set_pr_same (pr b - 0)) by lia.
    assert ((if r =? 0 then store (-0) b else b) = b) as ->.
    { destruct (r =? 0); [|done]. unfold store. rewrite (proj2 (Z.eqb_neq (fg b) 6954)) by done.
      apply set_pr_same. rewrite i32_small; lia. }
    destruct Hcase as [(_ & _ & _ & t' & Ht' & Hh)|[_ ->]]; eexists _, _, _; (split; [done|]); split; try done.
    unfold c. lia.
  - destruct (peer_give k (id b) m ts t) as (x & ts' & t' & e2 & -> & Ht' & Hc'); try done; [lia|].
    cbn [mbind option_bind]. change (0 =? 0) with true. cbv iota. unfold store.
    rewrite (proj2 (Z.eqb_neq (fg b) 6954)) by done. rewrite i32_small by lia. by eexists _, _, _.
Qed.

(** C22: Items from nothing. The number of a request is read with [atoi]; a
    text that begins with a digit can be negative, if it is more than an
    [int]. A player who may use a machine, and asks to put [- n] of its item
    in, gets [n] items, whether the machine has them or not, and the machine
    holds [n] less than before: it can owe items that nobody ever had. *)
Theorem items_from_nothing k a_ i_ v2 v5 v8 x_ y_ n b p ts t :
  plot_ok p -> Forall farmer_ok ts -> ts !! k = Some t ->
  length a_ = 13%nat -> a_ !! i_ = Some "itemaddedtosucker" ->
  a_ !! (i_ + 2)%nat = Some v2 -> a_ !! (i_ + 5)%nat = Some v5 -> a_ !! (i_ + 8)%nat = Some v8 ->
  starts_digit v2 = true -> starts_digit v5 = true -> starts_digit v8 = true ->
  atoi v2 = x_ -> atoi v5 = y_ -> atoi v8 = - n -> 0 < n ->
  0 <= x_ < 100 -> 0 <= y_ < max_y (land p) -> block_at (land p) (x_ + y_ * 100) = Some b ->
  magplant_access (visitor t) b (land p) = Some true -> is_type items SUCKER (fg b) = Some true ->
  proper (id b) = true -> pr b < cap 0 (fg b) ->
  contains (id b) (inv (bag t)) + n <= 200 -> 0 < Get_Slots (bag t) ->
  exists p' ts' t' es,
    item_moved items modify k a_ i_ p ts = Some (p', ts', es) /\
    block_at (land p') (x_ + y_ * 100) = Some (Vending.set_pr (pr b - n) b) /\
    ts' !! k = Some t' /\ contains (id b) (inv (bag t')) = contains (id b) (inv (bag t)) + n.
Proof.
  intros Hp Hts Ht Hlen Hcmd H2 H5 H8 D2 D5 D8 <- <- A8 Hn Hx Hy Hb Hacc Htype Hpp Hcap Hroom Hslot.
  destruct (plot_block _ _ _ _ Hp Hb) as (Hfg & _ & _ & Hsuck & _). specialize (Hsuck Htype).
  destruct (machine_of _ _ _ _ Hp Hb Hsuck) as (Hpr & Hid & _). pose proof (cap_small 0 (fg b) ltac:(lia)).
  pose proof (counted_range (id b) ts k t Hts Ht Hid) as Hc. rewrite Hpp in Hc.
  unfold item_moved. rewrite Ht, Hcmd, Hlen, H2, H5, H8. cbn [mbind option_bind].
  replace (max_x (land p)) with 100 by (symmetry; apply Hp). rewrite D2, D5, D8. cbn [negb].
  change (13 =? 13)%nat with true. cbn [negb].
  replace ((atoi v2 <? 0) || (atoi v5 <? 0) || (max_y (land p) <=? atoi v5) || (100 <=? atoi v2)) with false by lia.
  rewrite Hb. cbn [mbind option_bind]. rewrite Hacc, Htype. cbn [mbind option_bind negb orb].
  change (String.eqb "itemaddedtosucker" "itemremovedfromsucker") with false. cbn [negb].
  assert (fg b <> 0) as Hfg0 by (intros E; by rewrite E in Hsuck).
  rewrite (proj2 (Z.eqb_neq (fg b) 0)) by done.
  replace (is_full (fg b) b) with false by (unfold is_full; symmetry; apply andb_false_iff; right; lia).
  cbn [andb]. rewrite A8. unfold finish, added_to.
  destruct (peer_count k (id b) ts t Hts Ht Hid) as (r1 & e1 & ->). cbn [mbind option_bind].
  rewrite Ht, Hpp. cbn [mbind option_bind]. replace (contains (id b) (inv (bag t)) <? - n) with false by lia.
  rewrite (i32_small (- n * -1)) by lia. replace (- n * -1) with n by lia.
  destruct (peer_give k (id b) n ts t) as (x & ts' & t' & e2 & -> & Ht' & Hc'); try done; [by right|].
  cbn [mbind option_bind]. change (0 =? 0) with true. cbv iota. cbn [mbind option_bind].
  rewrite i32_small by lia. rewrite (block_at_write _ _ _ _ b), Z.eqb_refl by (done || lia). cbn [mbind option_bind].
  eexists _, _, _, _. split; [done|]. rewrite sync_land, (block_at_write _ _ _ _ b), Z.eqb_refl by (done || lia).
  by replace (pr b + - n) with (pr b - n) by lia.
Qed.

End Facts.

(** ** At work *)

Definition magplant_item : ItemDB := mkItem "Magplant 5000" "Magplant 5000" SUCKER HAIR 256 "" "" "" false 0.
Definition farm_items : table := take 5638 sample_items ++ magplant_item :: drop 5639 sample_items.
Definition farm_modify : modify_fn := Modify farm_items [] true "" "" 2.

Lemma farm_size : size farm_items = 20300.
Proof. vm_compute. reflexivity. Qed.

(** Ann's machine in a world of one row holds 500 dirt. *)
Definition dirt_magplant : WorldBlock := mkBlock 5638 0 false (-1) "" [] false 500 0 2 0.
Definition empty_magplant : WorldBlock := Vending.set_pr 0 dirt_magplant.
Definition field (b : WorldBlock) : Plot :=
  mkPlot (mkWorld "FARM" "Ann" [] 0 0 100 1 0 false (b :: replicate 99 block_default) [])
    (λ _, true) (λ _, false) (λ _, 0) [mkMachine 0 true false 5638 0 0 2] ["FARM"].

Definition ann : Farmer :=
  mkFarmer (Access.visitor "Ann" plain_roles) (sample_player [(2, 150); (0, 0); (0, 0); (0, 0)] 0 false) "FARM" 0 0 0.
Definition poor_ann : Farmer :=
  mkFarmer (Access.visitor "Ann" plain_roles) (sample_player [(0, 0); (0, 0)] 0 false) "FARM" 0 0 0.

Definition tokens (cmd n : string) : list string :=
  ["action"; "dialog_return"; "dialog_name"; cmd; "tilex"; "0"; ""; "tiley"; "0"; ""; "item"; n; ""].

Definition day : list event :=
  [Exchange 0 (tokens "itemaddedtosucker" "30") 3; Fall (Drops.mkWorldDrop 2 5 0 0 0) 4 0;
   Exchange 0 (tokens "itemremovedfromsucker" "10") 3; Punch 0 0 true 0 0;
   Settings 0 (tokens "itemsucker_block" "1") 3; Fall (Drops.mkWorldDrop 4 5 0 0 0) 4 0; Break 0 0 0].

Lemma field_ok b : fg b = 5638 -> bg b = 0 -> locked b = false -> id b = 2 -> 0 <= pr b <= 25000 ->
  plot_ok farm_items (field b).
Proof.
  intros Hfg Hbg Hlk Hid Hpr.
  assert (forall x, 0 <= x < 100 -> is_Some (block_at (land (field b)) x)) as Hblocks.
  { intros x Hx. unfold block_at. cbn [land field blocks]. replace (x <? 0) with false by lia.
    apply lookup_lt_is_Some_2. cbn [length]. rewrite length_replicate. lia. }
  constructor.
  - split; [done|]. split; [cbn; lia|]. intros x y Hx Hy. cbn [land field max_y] in Hy. apply Hblocks. lia.
  - cbn [land field blocks]. constructor.
    + unfold block_ok, machine_ok, in_table. rewrite farm_size, Hfg, Hbg, Hlk, Hid.
      split_and!; try lia; try done; try (by vm_compute). intros _. change (cap 0 5638) with 25000. split_and!; lia.
    + apply list.Forall_replicate. unfold block_ok, in_table. rewrite farm_size. cbn [fg bg locked block_default].
      split_and!; try lia; try done; by vm_compute.
  - cbn [machines field]. constructor; [|constructor]. split; [cbn; lia|]. split; [cbn; lia|].
    exists b. split; [done|]. split; [done|]. by split.
  - apply list.NoDup_singleton.
Qed.

Lemma farmers_ok l : Forall slot_ok l -> ids_distinct l ->
  Forall farmer_ok [mkFarmer (Access.visitor "Ann" plain_roles) (sample_player l 0 false) "FARM" 0 0 0].
Proof.
  intros H1 H2. constructor; [|constructor]. split; [|done]. split; [|by split].
  by repeat split; try (right; reflexivity); try (left; reflexivity).
Qed.

Lemma ann_ok : Forall farmer_ok [ann] /\ Forall farmer_ok [poor_ann].
Proof. split; apply farmers_ok; try (repeat constructor; unfold slot_ok; simpl; lia); simpl; tauto. Qed.

Lemma exchange_genuine cmd n : 0 <= atoi n -> genuine [ann] (Exchange 0 (tokens cmd n) 3).
Proof.
  intros H. split; [cbn; lia|]. split; [by eexists|]. split; [lia|]. intros v E. by injection E as <-.
Qed.

Lemma day_genuine : Forall (genuine [ann]) day.
Proof.
  unfold day. rewrite !list.Forall_cons. split; [by apply exchange_genuine|]. split; [done|].
  split; [by apply exchange_genuine|]. split; [cbn; lia|]. split; [by cbn; split_and!; try lia|].
  split; [cbn; lia|]. split; [cbn; lia|done].
Qed.

Lemma suckers_always_ok_witness :
  exists p' ts' got, play farm_items [] true "" "" 1 (λ _, 0) (λ z, z) no_config [] (λ _, true) (λ _, false) day (field dirt_magplant) [ann]
      = Some (p', ts', got) /\ plot_ok farm_items p' /\ Forall farmer_ok ts' /\
    forall j, free j -> ledger j p' ts' = ledger j (field dirt_magplant) [ann] + collected j got.
Proof.
  apply (suckers_always_ok farm_items [] true "" "" 1 (λ _, 0) (λ z, z) no_config []) with (pickup := λ _, true) (gems := λ _, false).
  - rewrite farm_size. lia.
  - by vm_compute.
  - apply field_ok; try reflexivity. cbn. lia.
  - apply ann_ok.
  - exact day_genuine.
Defined.

(** What Ann has in the end, and the machine. *)
Example day_ends :
  (λ r, let '(p, ts, got) := r in
    (pr <$> block_at (land p) 0, enabled p 0, map machine_on (machines p),
     map (λ t, (inv (bag t), magnetron_id t)) ts, length got)) <$>
  play farm_items [] true "" "" 1 (λ _, 0) (λ z, z) no_config [] (λ _, true) (λ _, false) day (field dirt_magplant) [ann]
  = Some (Some 525, true, [true], [([(2, 130); (5640, 1); (0, 0); (0, 0)], 2)], 1%nat).
Proof. vm_compute. reflexivity. Qed.

(** An empty machine goes into the bag, and its entry goes. *)
Example machine_broken :
  (λ r, let '(taken, p, ts, _) := r in (taken, fg <$> block_at (land p) 0, machines p, map (λ t, inv (bag t)) ts)) <$>
  break_machine farm_items farm_modify (λ _, true) (λ _, false) 0 0 0 (field empty_magplant) [ann]
  = Some (true, Some 0, [], [[(2, 150); (5638, 1); (0, 0); (0, 0)]]).
Proof. vm_compute. reflexivity. Qed.

(** Confirming the dialog with the box still checked turns the machine off. *)
Example box_turns_off :
  (λ r, enabled r.1.1 0) <$>
  itemsucker_block farm_items farm_modify no_config [] 0 (<[10%nat := "chk_enablesucking"]> (tokens "itemsucker_block" "1")) 3
    (field dirt_magplant) [ann] = Some false.
Proof. vm_compute. reflexivity. Qed.

Lemma use_mag_stores_witness :
  exists taken p' es, use_mag (λ z, z) (Drops.mkWorldDrop 2 5 0 0 0) 4 0 (field dirt_magplant) [ann] = Some (taken, p', es) /\
    plot_ok farm_items p' /\
    if taken : bool then
      exists m b, m ∈ machines (field dirt_magplant) /\
        accepts_drop (field dirt_magplant) (Drops.mkWorldDrop 2 5 0 0 0) m b /\
        p' = write (place m) (Vending.set_pr (pr b + 5) b) (field dirt_magplant)
    else p' = field dirt_magplant /\
      forall m b, m ∈ machines (field dirt_magplant) -> ~ accepts_drop (field dirt_magplant) (Drops.mkWorldDrop 2 5 0 0 0) m b.
Proof.
  apply (use_mag_stores farm_items (λ z, z)).
  - rewrite farm_size. lia.
  - apply field_ok; try reflexivity. cbn. lia.
  - cbn. lia.
  - cbn. lia.
Defined.

(** Ann has 150 dirt and asks for 160: there is room for 50, but she gets 40. *)
Lemma retrieved_amount_witness :
  exists ts' t' es,
    removed_from farm_modify 0 0 160 dirt_magplant (field dirt_magplant) [ann]
      = Some (true, write 0 (Vending.set_pr (500 - 40) dirt_magplant) (field dirt_magplant), ts', es) /\
    ts' !! 0%nat = Some t' /\ contains 2 (inv (bag t')) = 150 + 40.
Proof.
  apply (retrieved_amount farm_items [] true "" "" 1) with (t := ann); try done.
  - apply field_ok; try reflexivity. cbn. lia.
  - apply ann_ok.
  - cbn. lia.
Defined.

(** A text that is -200 as an [int] fills the bag from an empty machine. *)
Definition overflow_request : list string := tokens "itemaddedtosucker" "4294967096".

Lemma items_from_nothing_witness :
  exists p' ts' t' es,
    item_moved farm_items farm_modify 0 overflow_request 3 (field empty_magplant) [poor_ann] = Some (p', ts', es) /\
    block_at (land p') (0 + 0 * 100) = Some (Vending.set_pr (0 - 200) empty_magplant) /\
    ts' !! 0%nat = Some t' /\ contains 2 (inv (bag t')) = contains 2 (inv (bag poor_ann)) + 200.
Proof.
  apply (items_from_nothing farm_items [] true "" "" 1) with (t := poor_ann) (v2 := "0") (v5 := "0") (v8 := "4294967096");
    try reflexivity; try lia.
  - apply field_ok; try reflexivity. cbn. lia.
  - apply ann_ok.
  - cbn. lia.
Defined.

End SuckersFacts.
